(* ===== verification/_CoqProject ===== *)
-Q . S2P
Prelude.v
LinkedList.v
Mmio.v
Fpec.v
FlashDriver.v
FlashSpec.v
MemFacts.v
Rcc.v
ClockTree.v
Gpio.v
Misc.v
TinyPrintf.v
TinyPrintfTheorems.v
SystemClock.v
SystemClockSpec.v
LwipMem.v
LwipMemSpec.v
LwipMemTheorems.v
LwipPbuf.v
LwipPbufSpec.v
LwipPbufTheorems.v
LwipPbufOwn.v
LwipInet.v
LwipInetTheorems.v
LwipChksum.v
LwipChksumTheorems.v
LwipTcpData.v
LwipStack.v
LwipStackSpec.v
LwipHeader.v
LwipEtharp.v
LwipEtharpSpec.v
LwipEtharpTheorems.v
LwipArpLookup.v
LwipNetif.v
LwipIpOut.v
LwipIpSpec.v
LwipFrag.v
LwipIpTheorems.v
LwipReassTheorems.v
LwipFragTheorems.v
LwipUdp.v
LwipTransmit.v
LwipTcpOut.v
LwipTcp.v
LwipTcpIn.v
LwipTcpSpec.v
LwipTcpStates.v
LwipTcpTheorems.v
LwipTcpRefuse.v
LwipRaw.v
LwipRawTheorems.v
LwipIpInput.v
LwipUdpTheorems.v
LwipReceive.v
EthDriver.v
EthMac.v
EthIf.v
EthSpec.v
Crc.v
Board.v
Bootloader.v
BootloaderSpec.v
BootTheorems.v
CrcSpec.v
FlashTheorems.v
ClockTheorems.v
Updater.v
UpdaterSpec.v
UpdaterTheorems.v
Ethernet.v
EthernetTheorems.v
EthIfTheorems.v
EthTransmit.v
EthRuns.v
EthTcp.v
EthReceive.v
PcUpdater.v
PcUpdaterTheorems.v
UpdateComposition.v
