(* ===== verification/Prelude.v ===== *)
(** A network-updatable firmware for the STM32F107, verified.

    The repository holds three programs and the libraries they are built with.

    - src/bootloader: runs at reset.  It looks for a new firmware image in the
      staging area of the flash, installs it over the current one, erases the
      staging area, and jumps to the application.
    - src/updater_mcu: the part of an application that receives a new image over
      UDP, stages it in the flash, and resets the chip.  Below it are the Ethernet
      MAC driver and lwIP 1.3.1.
    - src/ethupd: the program on the PC that sends the image.

    * How C is embedded

    A C statement is a function of the monad [M S] of this file: it runs in a state
    [S] and returns, or is undefined ([Fault]: an access outside an object, a null
    dereference, a shift that is too far), or uses up its fuel ([Diverge]).
    Machine integers are Z, with u8, u16, u32 and s32 where the code wraps.  Loops
    are [loop fuel body]; [wp] is total correctness, so that every theorem stated
    with it also says that the code terminates and is defined.  Memory-mapped
    registers are reached through the class [Bus] of Mmio.v: a type of hardware
    states with loads and stores.  What the code relies on about a peripheral is
    a class over [Bus], its documented behaviour: [FpecBus] (Fpec.v, the flash
    controller), [ClockBus] (ClockTree.v), [CrcBus] (Crc.v, with the clock of the unit),
    [PortBus] (Gpio.v), [EthBus] (EthSpec.v, the memory that is shared with the DMA
    engine of the MAC).  [EthBus] idealises the engine: it is idle while a handler
    runs, so the memory changes by the stores of the program only; what the engine
    did before is the state that a theorem starts from.
    Board.v builds a concrete chip that discharges the first four, EthIfTheorems.v
    one for [EthBus]; witnesses run on them.  MemFacts.v holds the byte strings that
    both the updater and the network code copy.

    * Parts

    Peripheral library (Libraries/STM32F10x_StdPeriph_Driver, the same files in
    both firmware trees): FlashDriver.v is stm32f10x_flash.c, Rcc.v is
    stm32f10x_rcc.c, Gpio.v is stm32f10x_gpio.c, Misc.v is misc.c, Crc.v is
    stm32f10x_crc.c and the table of ethupd/crc_32.cpp.  SystemClock.v is
    system_stm32f10x.c, premain.c and sys_init.c; TinyPrintf.v is tiny_printf.c.
    Definitions keep the names of the C functions.

    Boot loader: Bootloader.v is main.c and flash_drv.c; its state is the record of
    the file's globals ([boot]) beside the hardware.  Updater.v is updater.c; its
    state ([upd]) holds the static locals of handle_upd_packet.

    lwIP: LwipMem.v (core/mem.c), LwipPbuf.v (core/pbuf.c, core/memp.c),
    LwipInet.v and LwipChksum.v (core/ipv4/inet.c, inet_chksum.c), LwipStack.v (the
    data of the layers above: udp.h, netif.h, the ARP cache, and the class
    [HasStack], which says where the stack is in a program's state), LwipEtharp.v
    (netif/etharp.c), LwipNetif.v (core/netif.c, ip_route), LwipIpOut.v
    (ip_output_if, icmp.c), LwipFrag.v (core/ipv4/ip_frag.c), LwipUdp.v (core/udp.c,
    ip_input), LwipRaw.v (core/raw.c), LwipTcpData.v (include/lwip/tcp.h and the
    variables), LwipTcpOut.v (core/tcp_out.c), LwipTcp.v (core/tcp.c), LwipTcpIn.v
    (core/tcp_in.c).  Calls through function pointers and calls up
    the layers are parameters there; Ethernet.v resolves them for this program, and
    puts the glue on top: EthDriver.v and EthMac.v are stm32_eth.c, EthIf.v is
    port/ethernetif.c, Ethernet.v is updater_mcu/src/ethernet.c and the interrupt
    handlers of stm32f1xx_it.c.  LwipStackSpec.v and LwipHeader.v have the rules for
    statements on the stack and on the headers in its packets ([view]), LinkedList.v
    those of C lists.  Reassembly keeps pointers in the packets themselves: the
    addresses of objects are the class [PtrAddr] with its laws (LwipFrag.v).

    PC: PcUpdater.v is ethupd/eth.cpp and main.cpp over the class [HostOs] of the
    system calls; PcUpdaterTheorems.v states their documented behaviour ([HostLaws]).

    * What the theorems show

    - From packet to running firmware (UpdaterTheorems.v, BootTheorems.v): a session
      of packets stages exactly the image; the next reset installs exactly what was
      staged, erases the staging area and jumps to it; without an image the
      application is untouched; the error paths of both programs.
    - Drivers (FlashTheorems.v, ClockTheorems.v): the flash driver
      refines the operations of the controller, with its polling bounded; the clock
      set-up reaches 72 MHz and says what happens without a crystal; the clock query
      functions report the tree; GPIO_Init changes the pins asked for only.
    - CRC (CrcSpec.v, FlashTheorems.v): the byte table of the PC program is the
      bit-serial division of the unit; one damaged word is detected, when the unit has
      its clock.  Nothing in the firmware gives it one: UpdaterTheorems.v says what is
      stored then.
    - Text (TinyPrintfTheorems.v, LwipInetTheorems.v): numerals, length estimates,
      inet_ntoa and inet_aton.
    - lwIP's memory (LwipMemTheorems.v, LwipPbufTheorems.v,
      LwipPbufOwn.v): the heap refines a first-fit allocator on lists of blocks;
      pbuf chains with reference counts allocate, free, grow, shrink and copy as
      documented; no sequence of requests to the heap breaks its invariant, and none
      of clients that own their packets lets two packets share a pbuf or loses one.
    - lwIP's protocols: the checksum is that of RFC 1071 over the whole chain
      (LwipChksumTheorems.v); binding, opening, closing and demultiplexing of UDP
      control blocks (LwipUdpTheorems.v); the ARP cache finds what it
      learned, recycles the right entry, keeps one entry per address, and forgets
      all of them in time (LwipEtharpTheorems.v, LwipArpLookup.v).
    - IP: ip_route takes the first interface that fits, ip_output_if puts the header
      in front, an echo request is answered in place (LwipIpTheorems.v); which packets
      ip_input drops, cuts, reassembles and delivers (LwipIpInput.v); the list of
      fragments refines an insertion into a list of ranges, is complete when it should
      be, and also when it should not (LwipReassTheorems.v); ip_frag sends the data in
      order and leaks nothing, over any output function that keeps the class [Sends]
      (LwipFragTheorems.v), which etharp_output with the driver does (EthTransmit.v); raw control blocks are asked in turn (LwipRawTheorems.v).
    - TCP: as long as no program opens a port, a segment for the board is freed and, unless it is
      a reset, answered with one, down to the bytes of the frame (LwipTcpRefuse.v,
      EthTcp.v); a connection changes its state along the transitions [moves] only, which
      differ from those of RFC 793 where the code does (LwipTcpStates.v has them and the argument, in the partial-correctness logic of LwipTcpSpec.v;
      EthTcp.v states the theorem for the firmware and runs the receive interrupt on
      segments: a refused one, handshakes, data, closing, resets); when a reset is
      taken; the announced window never shrinks; the options of any segment are parsed
      to an end; tcp_bind on every path, the one that faults included, with the search for a free
      port (LwipTcpTheorems.v).
    - The network code (EthernetTheorems.v): when it is called with the time
      in milliseconds, lwip_periodic_handle ages the cache once in five seconds, across the
      wrap-around of the clock; the SysTick handler never gets that far, because the counter it
      increments is in flash where this program is linked; and what the
      set-up of the UDP ports leaves: no port for updates, and a receive callback
      that dereferences NULL.
    - The frames (EthIfTheorems.v): a packet that is sent gets into the frame buffer
      byte for byte and a received frame into a packet, what becomes of the
      descriptors, and that a damaged frame ends reception for good.
    - The way down (LwipTransmit.v, EthTransmit.v): what each layer puts in front of a
      datagram, and the composition: a transmission of ethernet.c leaves the frame with
      its three headers and the data in the frame buffer, and nothing in the heap; and the
      fragments of a packet that is too long, one frame each, along the ring of descriptors.
    - The way up (LwipReceive.v, EthReceive.v): what udp_input does
      with a datagram; ethernet_input, ip_input and udp_input together call the callback
      with the address of the sender and the data, without the padding; and the
      composition with the driver and ethernet.c, in which the first such datagram
      stops the firmware.  EthRuns.v runs the whole interrupt handler on frames.
    - The program on the PC (PcUpdaterTheorems.v): what it takes for an
      acknowledgement, and that it sends one packet of an image only.
    - All three (UpdateComposition.v): whatever part of what main of the program on the
      PC sends reaches the firmware, nothing is installed, and the application that was
      there before starts after the next reset.

    * Fuel

    A loop with a bound in the code gets that bound: timeouts of the drivers count
    down from a constant, walks over the pools and the tables are bounded by their
    sizes (31 for the queue elements of ARP, 10 entries of its cache, the number of
    control blocks for UDP, 18 and 14 for the 16 control blocks and 12 segments of
    TCP, 41 for its options, 20 KB / 12 for the blocks of the heap).  Polls without a
    bound in the code get fuel for the time that the class of the peripheral lets it
    take.  The theorems are total: the fuel is enough in every state they speak of; the
    one on the states of a connection speaks of the runs of tcp_process that return.

    * Not modelled

    The configuration is that of the sources: STM32F10X_CL, 72 MHz, lwipopts.h without
    an operating system; code outside it is left out.  The checked-in Debug build of
    src/updater_mcu holds less: main.c never starts the network, so the linker discarded
    the input path of lwIP, and .cproject excludes tcp_out.c.  It is modelled all the same,
    since tcp.c and tcp_in.c call it.  DHCP, SNMP and the
    applications of lwIP are not started by the firmware; dhcp_decline is a parameter
    of the ARP cache, and so are the functions that an application registers with TCP.
    The peripheral drivers that neither program calls (ADC, timers, USART,
    SPI, I2C, CAN and others) are left out, as are the assembly start-up code, the
    newlib stubs, linker scripts and build outputs.
    Interrupts are not interleaved with the main program: the handlers are run as
    statements of their own, and main only loops. *)
From Stdlib Require Export ZArith Lia.
From stdpp Require Export base tactics list option.
Export ZArith.
#[global] Open Scope Z_scope.

(** * Machine integers *)

Definition u8 (z : Z) : Z := z mod 2 ^ 8.
Definition u16 (z : Z) : Z := z mod 2 ^ 16.
Definition u32 (z : Z) : Z := z mod 2 ^ 32.
(** Two's complement reading of a 32-bit word, for C's [int]. *)
Definition s32 (z : Z) : Z := (z + 2 ^ 31) mod 2 ^ 32 - 2 ^ 31.
(** Bitwise complement of a 32-bit word. *)
Definition not32 (z : Z) : Z := Z.lxor (u32 z) (2 ^ 32 - 1).

(** * The monad of C statements

    A statement runs in a state [S]; it returns a value, or the C program has
    undefined behaviour (an access outside an object), or its loop used up
    the fuel it was given without leaving.  *)
Inductive outcome (S A : Type) : Type :=
  | Ret (a : A) (s : S)
  | Fault
  | Diverge.
Arguments Ret {S A} a s.
Arguments Fault {S A}.
Arguments Diverge {S A}.

Definition M (S A : Type) : Type := S -> outcome S A.

#[global] Instance M_ret {S} : MRet (M S) := fun A a s => Ret a s.
#[global] Instance M_bind {S} : MBind (M S) := fun A B f m s =>
  match m s with
  | Ret a s' => f a s'
  | Fault => Fault
  | Diverge => Diverge
  end.

Definition fault {S A} : M S A := fun _ => Fault.
Definition diverge {S A} : M S A := fun _ => Diverge.
Definition gets {S A} (f : S -> A) : M S A := fun s => Ret (f s) s.
Definition modify {S} (f : S -> S) : M S unit := fun s => Ret tt (f s).
(** An access to an array object: undefined outside it. *)
Definition index {S A} (l : list A) (i : Z) : M S A := fun s =>
  if decide (0 <= i) then
    match l !! Z.to_nat i with Some x => Ret x s | None => Fault end
  else Fault.

(** A store into an array object of bytes or words: undefined outside it. *)
Definition store {S A} (l : list A) (i : Z) (x : A) : M S (list A) := fun s =>
  if (0 <=? i) && (i <? Z.of_nat (length l)) then Ret (<[Z.to_nat i := x]> l) s else Fault.

(** [data] copied over [l] from index [i] on. *)
Definition splice {A} (i : nat) (data l : list A) : list A :=
  take i l ++ data ++ drop (i + length data) l.

Lemma splice_splice {A} i (d d' l : list A) : (i + length d <= length l)%nat ->
  splice (i + length d) d' (splice i d l) = splice i (d ++ d') l.
Proof.
  intros Hl. unfold splice. assert (Hi : length (take i l ++ d) = (i + length d)%nat)
    by (rewrite length_app, length_take; lia).
  rewrite <- !app_assoc. rewrite !(app_assoc (take i l) d). rewrite <- Hi, take_app_length.
  rewrite drop_app_ge, drop_drop by lia. rewrite <- !app_assoc. do 4 f_equal. rewrite Hi, length_app. lia.
Qed.

Lemma splice_nil {A} i (l : list A) : splice i [] l = l.
Proof. unfold splice. rewrite Nat.add_0_r. apply take_drop. Qed.

(** [x << n] on [uint32_t]: undefined for a count of 32 or more. *)
Definition shl32 {S} (x n : Z) : M S Z := fun s =>
  if (0 <=? n) && (n <? 32) then Ret (u32 (Z.shiftl x n)) s else Fault.

(** * Loops

    [iter_pos p body a] runs [body] at most [p] times from the loop variables
    [a], until it answers [inr]; the fuel is binary, so that loops with large
    bounds evaluate. *)
Fixpoint iter_pos {S A B} (p : positive) (body : A -> M S (A + B)) (a : A)
  : M S (A + B) :=
  match p with
  | xH => body a
  | xO q => r ← iter_pos q body a;
            match r with inl a' => iter_pos q body a' | inr b => mret (inr b) end
  | xI q => r0 ← body a;
            match r0 with
            | inl a0 => r ← iter_pos q body a0;
                match r with inl a' => iter_pos q body a' | inr b => mret (inr b) end
            | inr b => mret (inr b)
            end
  end.

Definition loop {S A B} (fuel : positive) (body : A -> M S (A + B)) (a : A) : M S B :=
  r ← iter_pos fuel body a;
  match r with inl _ => diverge | inr b => mret b end.

(** * Weakest preconditions (total correctness) *)

(** [wp m Q s]: run from [s], [m] returns, and [Q] holds of what it returns. *)
Definition wp {S A} (m : M S A) (Q : A -> S -> Prop) (s : S) : Prop :=
  match m s with Ret a s' => Q a s' | _ => False end.

(** Facts about flash controllers that close side conditions. *)
Create HintDb fpec_db.
(** Statements that do not touch the flash controller. *)
Create HintDb quiet_db.

Section wp_rules.
Context {S : Type}.
Implicit Types s : S.

Lemma wp_unfold {A} (m : M S A) (Q : A -> S -> Prop) s :
    wp m Q s <-> exists a s', m s = Ret a s' /\ Q a s'.
Proof.
    unfold wp. split.
    - destruct (m s) as [a s'| |]; [eauto|done..].
    - intros (a & s' & -> & HQ). done.
Qed.

Lemma wp_ret {A} (a : A) (Q : A -> S -> Prop) s : Q a s -> wp (mret a) Q s.
Proof. done. Qed.

Lemma wp_bind {A B} (m : M S A) (f : A -> M S B) (Q : B -> S -> Prop) s :
    wp m (fun a s' => wp (f a) Q s') s -> wp (m ≫= f) Q s.
Proof. unfold wp, mbind, M_bind. by destruct (m s). Qed.

Lemma wp_bind_assoc {A B C} (m : M S A) (f : A -> M S B) (g : B -> M S C)
    (Q : C -> S -> Prop) s :
    wp ((m ≫= f) ≫= g) Q s -> wp (a ← m; b ← f a; g b) Q s.
Proof. unfold wp, mbind, M_bind. by destruct (m s). Qed.

Lemma wp_mono {A} (m : M S A) (P Q : A -> S -> Prop) s :
    wp m P s -> (forall a s', P a s' -> Q a s') -> wp m Q s.
Proof. unfold wp. destruct (m s); naive_solver. Qed.

(** A statement that runs as another one does. *)
Lemma wp_run_eq {A} (m m' : M S A) (Q : A -> S -> Prop) s s' : m s = m' s' -> wp m' Q s' -> wp m Q s.
Proof. unfold wp. by intros ->. Qed.

Lemma wp_gets {A} (f : S -> A) (Q : A -> S -> Prop) s : Q (f s) s -> wp (gets f) Q s.
Proof. done. Qed.

Lemma wp_modify (f : S -> S) (Q : unit -> S -> Prop) s : Q tt (f s) -> wp (modify f) Q s.
Proof. done. Qed.

Lemma wp_index {A} (l : list A) i x (Q : A -> S -> Prop) s :
    0 <= i -> l !! Z.to_nat i = Some x -> Q x s -> wp (index l i) Q s.
Proof.
    intros Hi Hl HQ. unfold wp, index. rewrite decide_True by done. by rewrite Hl.
Qed.
End wp_rules.

Lemma wp_shl32 {S} x n (Q : Z -> S -> Prop) s :
  0 <= n < 32 -> Q (u32 (Z.shiftl x n)) s -> wp (shl32 x n) Q s.
Proof.
  intros Hn HQ. unfold wp, shl32.
  by rewrite (proj2 (Z.leb_le _ _)), (proj2 (Z.ltb_lt _ _)) by lia.
Qed.

Lemma wp_store {S A} (l : list A) i x (Q : list A -> S -> Prop) s :
  0 <= i < Z.of_nat (length l) -> Q (<[Z.to_nat i := x]> l) s -> wp (store l i x) Q s.
Proof.
  intros Hi HQ. unfold wp, store.
  by rewrite (proj2 (Z.leb_le _ _)), (proj2 (Z.ltb_lt _ _)) by lia.
Qed.

Section loop_rules.
Context {S A B : Type}.
Implicit Types (body : A -> M S (A + B)) (s : S).

Fixpoint iter_nat (n : nat) body (a : A) : M S (A + B) :=
    match n with
    | O => mret (inl a)
    | Datatypes.S n => r ← body a;
        match r with inl a' => iter_nat n body a' | inr b => mret (inr b) end
    end.

Lemma iter_nat_add n m body a s :
    iter_nat (n + m) body a s =
    (r ← iter_nat n body a;
     match r with inl a' => iter_nat m body a' | inr b => mret (inr b) end) s.
Proof.
    revert a s. induction n as [|n IH]; intros a s; [done|].
    cbn [Nat.add iter_nat]. unfold mbind, M_bind.
    destruct (body a s) as [[a'|b] s'| |]; [|done..]. apply IH.
Qed.

Lemma iter_pos_nat p body a s : iter_pos p body a s = iter_nat (Pos.to_nat p) body a s.
Proof.
    revert a s. induction p as [q IH|q IH|]; intros a s.
    - rewrite Pos2Nat.inj_xI. cbn [iter_pos iter_nat].
      unfold mbind, M_bind. destruct (body a s) as [[a'|b] s'| |]; [|done..].
      replace (2 * Pos.to_nat q)%nat with (Pos.to_nat q + Pos.to_nat q)%nat by lia.
      rewrite iter_nat_add, IH. unfold mbind, M_bind.
      destruct (iter_nat (Pos.to_nat q) body a' s') as [[a''|b] s''| |]; [|done..].
      apply IH.
    - rewrite Pos2Nat.inj_xO.
      replace (2 * Pos.to_nat q)%nat with (Pos.to_nat q + Pos.to_nat q)%nat by lia.
      rewrite iter_nat_add. cbn [iter_pos]. unfold mbind, M_bind. rewrite IH.
      destruct (iter_nat (Pos.to_nat q) body a s) as [[a'|b] s'| |]; [|done..].
      apply IH.
    - change (Pos.to_nat 1) with 1%nat. cbn [iter_pos iter_nat].
      unfold mbind, M_bind, mret, M_ret. by destruct (body a s) as [[a'|b] s'| |].
Qed.

Lemma wp_iter_nat (I : A -> S -> Prop) (mu : A -> S -> Z) n body a s (Q : B -> S -> Prop) :
    I a s -> 0 <= mu a s < Z.of_nat n ->
    (forall a s, I a s -> 0 <= mu a s ->
       wp (body a) (fun r s' => match r with
                                | inl a' => I a' s' /\ 0 <= mu a' s' < mu a s
                                | inr b => Q b s' end) s) ->
    wp (iter_nat n body a)
       (fun r s' => match r with inl _ => False | inr b => Q b s' end) s.
Proof.
    intros HI Hmu Hbody. revert a s HI Hmu. induction n as [|n IH]; intros a s HI Hmu; [lia|].
    cbn [iter_nat]. apply wp_bind. eapply wp_mono; [apply Hbody; [done|lia]|].
    intros [a'|b] s' Hr; [|by apply wp_ret].
    destruct Hr as [HI' Hmu']. apply IH; [done|lia].
Qed.

  (** The rule for C loops: an invariant [I] and a measure [mu] below the fuel. *)
Lemma wp_loop (I : A -> S -> Prop) (mu : A -> S -> Z) fuel body a s (Q : B -> S -> Prop) :
    I a s -> 0 <= mu a s < Z.pos fuel ->
    (forall a s, I a s -> 0 <= mu a s ->
       wp (body a) (fun r s' => match r with
                                | inl a' => I a' s' /\ 0 <= mu a' s' < mu a s
                                | inr b => Q b s' end) s) ->
    wp (loop fuel body a) Q s.
Proof.
    intros HI Hmu Hbody. unfold loop. apply wp_bind.
    unfold wp at 1. rewrite iter_pos_nat.
    assert (Hn : wp (iter_nat (Pos.to_nat fuel) body a)
       (fun r s' => match r with inl _ => False | inr b => Q b s' end) s)
      by (apply (wp_iter_nat I mu); [done|lia|done]).
    unfold wp in Hn. by destruct (iter_nat _ body a s) as [[?|b] s'| |].
Qed.

  (** Loops that follow a list: [n] rounds are enough, by induction on the list. *)
Definition ends (Q : B -> S -> Prop) (r : A + B) (s : S) : Prop :=
  match r with inl _ => False | inr b => Q b s end.

Lemma wp_iter_more n m body a (Q : B -> S -> Prop) s : (n <= m)%nat ->
  wp (iter_nat n body a) (ends Q) s -> wp (iter_nat m body a) (ends Q) s.
Proof.
    intros Hm. replace m with (n + (m - n))%nat by lia. unfold wp at 2. rewrite iter_nat_add.
    unfold wp, mbind, M_bind. by destruct (iter_nat n body a s) as [[?|b] s'| |].
Qed.

Lemma wp_loop_nat n fuel body a (Q : B -> S -> Prop) s : (n <= Pos.to_nat fuel)%nat ->
  wp (iter_nat n body a) (ends Q) s -> wp (loop fuel body a) Q s.
Proof.
    intros Hn Hw. apply (wp_iter_more _ (Pos.to_nat fuel)) in Hw; [|done]. revert Hw.
    unfold loop, wp, mbind, M_bind. rewrite iter_pos_nat.
    by destruct (iter_nat (Pos.to_nat fuel) body a s) as [[?|b] s'| |].
Qed.

(** The outcome of a loop that [n] rounds end, in whatever way. *)
Lemma loop_run n fuel body a s : (n <= Pos.to_nat fuel)%nat -> (forall a' s', iter_nat n body a s <> Ret (inl a') s') ->
  loop fuel body a s = match iter_nat n body a s with
                       | Ret (inr b) s' => Ret b s' | Ret (inl _) _ | Diverge => Diverge | Fault => Fault
                       end.
Proof.
    intros Hn Hend. unfold loop, mbind, M_bind. rewrite iter_pos_nat. replace (Pos.to_nat fuel) with (n + (Pos.to_nat fuel - n))%nat by lia.
    rewrite iter_nat_add. unfold mbind, M_bind. destruct (iter_nat n body a s) as [[a'|b] s'| |] eqn:E; [|done..]. by destruct (Hend a' s').
Qed.

Lemma wp_iter_S n body a (Q : B -> S -> Prop) s :
  wp (body a) (fun r s' => match r with
                           | inl a' => wp (iter_nat n body a') (ends Q) s'
                           | inr b => Q b s' end) s ->
  wp (iter_nat (Datatypes.S n) body a) (ends Q) s.
Proof. intros Hw. cbn [iter_nat]. apply wp_bind. eapply wp_mono; [exact Hw|]. by intros [?|?]. Qed.
End loop_rules.

(** * Running a statement *)
Lemma run_bind {S A B} (m : M S A) (f : A -> M S B) s a s' : m s = Ret a s' -> (m ≫= f) s = f a s'.
Proof. unfold mbind, M_bind. by intros ->. Qed.
Lemma run_outcome {S A B} (m : M S A) (f : A -> M S B) s :
  (m ≫= f) s = match m s with Ret a s' => f a s' | Fault => Fault | Diverge => Diverge end.
Proof. done. Qed.
Lemma run_bind_assoc {S A B C} (m : M S A) (f : A -> M S B) (g : B -> M S C) s : ((m ≫= f) ≫= g) s = (m ≫= fun a => f a ≫= g) s.
Proof. unfold mbind, M_bind. by destruct (m s). Qed.

(** * Lists *)
Lemma nodup_cons {A} (x : A) l : NoDup (x :: l) -> (x ∉ l) /\ NoDup l.
Proof. by inversion 1. Qed.

(** * Bits *)

Lemma land_pow2 x n : 0 <= n -> Z.land x (2 ^ n) = if Z.testbit x n then 2 ^ n else 0.
Proof.
  intros Hn. apply Z.bits_inj'. intros i Hi. rewrite Z.land_spec, Z.pow2_bits_eqb by done.
  destruct (Z.eqb_spec n i) as [<-|Hne]; destruct (Z.testbit x n) eqn:E;
    rewrite ?Z.pow2_bits_true, ?Z.pow2_bits_false, ?Z.bits_0, ?E by lia;
    rewrite ?andb_true_r, ?andb_false_r; done.
Qed.

Lemma land_pow2_eqb0 x n : 0 <= n -> (Z.land x (2 ^ n) =? 0) = negb (Z.testbit x n).
Proof.
  intros Hn. rewrite land_pow2 by done. destruct (Z.testbit x n); [|done].
  apply Z.eqb_neq. pose proof (Z.pow_pos_nonneg 2 n). lia.
Qed.

Lemma testbit_above x n i : 0 <= x < 2 ^ n -> n <= i -> Z.testbit x i = false.
Proof.
  intros Hx Hi. destruct (Z.eq_dec x 0) as [->|Hne]; [apply Z.bits_0|].
  apply Z.bits_above_log2; [lia|]. assert (Z.log2 x < n); [|lia].
  apply Z.log2_lt_pow2; lia.
Qed.

Lemma testbit_true_range x n : 0 <= n -> Z.testbit x n = true -> 0 <= x -> 2 ^ n <= x.
Proof.
  intros Hn Hb Hx. destruct (Z.lt_ge_cases x (2 ^ n)) as [Hlt|]; [|done].
  rewrite (testbit_above x n n) in Hb; [done|lia|lia].
Qed.

(** Equality of words by their bits: splits on the bit numbers below [n]. *)
Ltac bits_below n :=
  apply Z.bits_inj'; let i := fresh "i" in intros i ?;
  repeat rewrite ?Z.lor_spec, ?Z.land_spec, ?Z.lxor_spec, ?Z.ldiff_spec.

Lemma Ztestbit_const_high (c : Z) i n : 0 <= c < 2 ^ n -> n <= i -> Z.testbit c i = false.
Proof. apply testbit_above. Qed.

(** Evaluate the bit operations on constants in a hypothesis or in the goal. *)
Ltac is_Z_const v :=
  match v with Z0 => idtac | Zpos _ => idtac | Zneg _ => idtac | true => idtac | false => idtac end.
Ltac const_op t :=
  match t with
  | Z.land _ _ => idtac | Z.lor _ _ => idtac | Z.testbit _ _ => idtac
  | Z.lxor _ _ => idtac | Z.ldiff _ _ => idtac | Z.eqb _ _ => idtac
  | Z.ltb _ _ => idtac | Z.leb _ _ => idtac | Z.shiftr _ _ => idtac | Z.shiftl _ _ => idtac
  | Z.add _ _ => idtac | Z.modulo _ _ => idtac | not32 _ => idtac | u32 _ => idtac
  end.
Ltac eval_Z_in H :=
  repeat match type of H with
  | context [?t] =>
      const_op t;
      let v := eval lazy in t in is_Z_const v; change t with v in H
  end.
Ltac eval_Z :=
  repeat match goal with
  | |- context [?t] =>
      const_op t;
      let v := eval lazy in t in is_Z_const v; change t with v
  end.

(** * Partial correctness *)

(** Where [P] holds, [m] ends in [Q] if it returns: for what a function leaves alone,
    whatever else it does. *)
Definition hoare {S A} (P : S -> Prop) (m : M S A) (Q : A -> S -> Prop) : Prop :=
  forall s a s', P s -> m s = Ret a s' -> Q a s'.
Definition keeps {S A} (P : S -> Prop) (m : M S A) : Prop := hoare P m (fun _ => P).

Create HintDb keeps_db.

Section hoare_rules.
Context {S : Type}.
Implicit Types P R : S -> Prop.
Lemma hoare_ret {A} (a : A) P (Q : A -> S -> Prop) : (forall s, P s -> Q a s) -> hoare P (mret a) Q.
Proof. intros HQ s ? ? HP [= <- <-]. by apply HQ. Qed.
Lemma hoare_bind {A B} (m : M S A) (f : A -> M S B) P (K : A -> S -> Prop) (Q : B -> S -> Prop) :
  hoare P m K -> (forall a, hoare (K a) (f a) Q) -> hoare P (m ≫= f) Q.
Proof.
  intros Hm Hf s b s' HP. unfold mbind, M_bind. destruct (m s) as [a s1| |] eqn:E; [|done..]. intros Hb.
  by apply (Hf a s1 b s'); [eapply Hm|].
Qed.
Lemma hoare_weaken {A} (m : M S A) P P' (Q Q' : A -> S -> Prop) :
  hoare P' m Q' -> (forall s, P s -> P' s) -> (forall a s, Q' a s -> Q a s) -> hoare P m Q.
Proof. intros Hm HP HQ s a s' Hs Ha. by apply HQ, (Hm s a s'); [apply HP|]. Qed.
Lemma hoare_pure {A} (m : M S A) (R : Prop) P (Q : A -> S -> Prop) : (R -> hoare P m Q) -> hoare (fun s => R /\ P s) m Q.
Proof. intros Hm s a s' [HR HP]. by apply (Hm HR s). Qed.
Lemma hoare_gets {A} (f : S -> A) P (Q : A -> S -> Prop) : (forall s, P s -> Q (f s) s) -> hoare P (gets f) Q.
Proof. intros HQ s ? ? HP [= <- <-]. by apply HQ. Qed.
Lemma hoare_modify (f : S -> S) P (Q : unit -> S -> Prop) : (forall s, P s -> Q tt (f s)) -> hoare P (modify f) Q.
Proof. intros HQ s ? ? HP [= <- <-]. by apply HQ. Qed.
Lemma hoare_fault {A} P (Q : A -> S -> Prop) : hoare P fault Q.
Proof. by intros s a s' _. Qed.
Lemma keeps_ret {A} (a : A) P : keeps P (mret a).
Proof. by apply hoare_ret. Qed.
Lemma keeps_fault {A} P : keeps P (fault (A := A)).
Proof. apply hoare_fault. Qed.
Lemma keeps_bind {A B} (m : M S A) (f : A -> M S B) P : keeps P m -> (forall a, keeps P (f a)) -> keeps P (m ≫= f).
Proof. intros Hm Hf. by eapply hoare_bind. Qed.
Lemma keeps_then {A B} (m : M S A) (f : A -> M S B) P (Q : B -> S -> Prop) :
  keeps P m -> (forall a, hoare P (f a) Q) -> hoare P (m ≫= f) Q.
Proof. intros Hm Hf. by eapply hoare_bind. Qed.
Lemma keeps_gets {A} (f : S -> A) P : keeps P (gets f).
Proof. by apply hoare_gets. Qed.
Lemma keeps_index {A} (l : list A) i P : keeps P (index l i).
Proof. intros s a s' HP. unfold index. destruct (decide _); [|done]. destruct (l !! _); [|done]. by intros [= <- <-]. Qed.
Lemma keeps_iter {A B} (body : A -> M S (A + B)) P : (forall a, keeps P (body a)) -> forall n a, keeps P (iter_nat n body a).
Proof.
  intros Hb. induction n as [|n IH]; intros a; cbn [iter_nat]; [apply keeps_ret|].
  apply keeps_bind; [apply Hb|]. intros [a'|b]; [apply IH|apply keeps_ret].
Qed.
(** The rule for loops: what every turn keeps. *)
Lemma keeps_loop {A B} fuel (body : A -> M S (A + B)) a P : (forall a, keeps P (body a)) -> keeps P (loop fuel body a).
Proof.
  intros Hb. unfold loop. apply keeps_bind.
  - intros s r s' HP. rewrite iter_pos_nat. by apply keeps_iter.
  - intros [a'|b]; [by intros ? ? ? _|apply keeps_ret].
Qed.
End hoare_rules.
#[export] Hint Resolve keeps_ret keeps_fault keeps_gets keeps_index : keeps_db.

Lemma wp_hoare {S A} (m : M S A) (P : S -> Prop) (Q R : A -> S -> Prop) s : P s -> hoare P m R -> wp m Q s ->
  wp m (fun a s' => Q a s' /\ R a s') s.
Proof. unfold wp, hoare. intros HP HR. destruct (m s) as [a s'| |] eqn:E; [|done..]. eauto. Qed.

(** Go through the statements of a function. *)
Ltac keeps_steps :=
  repeat match goal with
         | |- forall _, _ => intros ?
         | |- keeps _ (mbind _ _) => apply keeps_bind
         | |- keeps _ (loop _ _ _) => apply keeps_loop
         | |- keeps _ (match ?x with _ => _ end) => destruct x
         | |- keeps _ (let _ := _ in _) => cbv zeta
         | |- keeps _ _ => solve [eauto with keeps_db]
         end.
