(* ===== verification/LinkedList.v ===== *)
(** Singly linked lists of C objects in a table: the objects from a first one on along
    their [next] pointers. *)
From stdpp Require Import gmap.
From S2P Require Import Prelude.

Section linked.
Context {K : Type} `{Countable K} {V : Type}.
Variable next : V -> option K.
Implicit Types (m : gmap K V) (l : list (K * V)).

Fixpoint linked m (p : option K) l : Prop :=
  match l with
  | [] => p = None
  | (q, v) :: l => p = Some q /\ m !! q = Some v /\ linked m (next v) l
  end.
(** A list of distinct objects. *)
Definition list_at m (p : option K) l : Prop := linked m p l /\ NoDup l.*1.

Lemma linked_in m p l q v : linked m p l -> (q, v) ∈ l -> m !! q = Some v.
Proof.
  revert p. induction l as [|[q' v'] l IH]; intros p; cbn [linked]; [by intros _ ?%elem_of_nil|].
  intros (_ & Hq & Hl) [[= -> ->]|Hin]%elem_of_cons; [done|by eapply IH].
Qed.
Lemma linked_frame m m' p l : (forall q, q ∈ l.*1 -> m' !! q = m !! q) -> linked m p l -> linked m' p l.
Proof.
  revert p. induction l as [|[q v] l IH]; intros p Hm; cbn [linked fmap list_fmap fst]; [done|].
  intros (-> & Hq & Hl). cbn [fmap list_fmap fst] in Hm. split; [done|]. split; [rewrite Hm; [done|by left]|].
  apply IH; [|done]. intros r Hr. apply Hm. by right.
Qed.
Lemma linked_insert m p l q v : q ∉ l.*1 -> linked m p l -> linked (<[q := v]> m) p l.
Proof. intros Hq. apply linked_frame. intros r Hr. apply lookup_insert_ne. by intros <-. Qed.
Lemma linked_delete m p l q : q ∉ l.*1 -> linked m p l -> linked (delete q m) p l.
Proof. intros Hq. apply linked_frame. intros r Hr. apply lookup_delete_ne. by intros <-. Qed.
Lemma linked_size m p l : linked m p l -> NoDup l.*1 -> (length l <= size m)%nat.
Proof.
  intros Hl Hnd. rewrite <- (length_fmap fst l), <- size_dom.
  rewrite <- (size_list_to_set (C := gset K) l.*1) by done. apply subseteq_size.
  intros q. rewrite elem_of_list_to_set, list_elem_of_fmap. intros ([q' u] & -> & Hin).
  apply elem_of_dom. exists u. by apply (linked_in _ _ _ _ _ Hl).
Qed.
(** A walk of one step per object, and one to see the end. *)
Lemma linked_fuel m p l : list_at m p l -> (S (length l) <= Pos.to_nat (Pos.succ (Pos.of_succ_nat (size m))))%nat.
Proof. intros [Hl Hnd]. pose proof (linked_size _ _ _ Hl Hnd). lia. Qed.

(** The walk has come to the middle. *)
Lemma linked_app m p l1 q v l2 : linked m p (l1 ++ (q, v) :: l2) -> m !! q = Some v /\ linked m (next v) l2.
Proof. revert p. induction l1 as [|[r u] l1 IH]; intros p; cbn [linked app]; [by intros (_ & ? & ?)|]. intros (_ & _ & Hl). by eapply IH. Qed.

(** A new object in front. *)
Lemma list_at_push m p l q v : next v = p -> q ∉ l.*1 -> list_at m p l -> list_at (<[q := v]> m) (Some q) ((q, v) :: l).
Proof.
  intros Hv Hq [Hl Hnd]. split; [|by apply NoDup_cons_2]. cbn [linked]. split; [done|]. split; [apply lookup_insert_eq|].
  rewrite Hv. by apply linked_insert.
Qed.

Variable set_next : option K -> V -> V.
Hypothesis next_set : forall p v, next (set_next p v) = p.

(** The list without what follows [q], which now points to [p]. *)
Definition relink (q : K) (p : option K) l : list (K * V) :=
  (fun x => if decide (fst x = q) then (fst x, set_next p (snd x)) else x) <$> l.
Lemma relink_dom q p l : (relink q p l).*1 = l.*1.
Proof. induction l as [|[r v] l IH]; [done|]. cbn. rewrite <- IH. f_equal. by case_decide. Qed.

(** Objects that are cut out, one after another: the object in front is set to point to
    what follows. *)
Lemma linked_cut m p l1 r v q u l2 : NoDup (l1 ++ (r, v) :: (q, u) :: l2).*1 -> linked m p (l1 ++ (r, v) :: (q, u) :: l2) ->
  linked (<[r := set_next (next u) v]> m) p (l1 ++ (r, set_next (next u) v) :: l2).
Proof.
  revert p. induction l1 as [|[r1 v1] l1 IH]; intros p; cbn [app linked fmap list_fmap fst].
  - intros [Hr [Hq Hnd]%nodup_cons]%nodup_cons (-> & Hm & Hv & Hmq & Hl). split; [done|]. split; [apply lookup_insert_eq|]. rewrite next_set.
    apply linked_insert; [|done]. intros Hin. apply Hr. by right.
  - intros [Hr Hnd]%nodup_cons (-> & Hm & Hl). split; [done|]. split; [|by apply IH].
    rewrite lookup_insert_ne; [done|]. intros ->. apply Hr. rewrite fmap_app. apply elem_of_app. right. by left.
Qed.
Lemma nodup_cut l1 (r : K) (v v' : V) q u l2 : NoDup (l1 ++ (r, v) :: (q, u) :: l2).*1 -> NoDup (l1 ++ (r, v') :: l2).*1 /\ q ∉ (l1 ++ (r, v') :: l2).*1.
Proof.
  rewrite !fmap_app. cbn [fmap list_fmap fst]. intros (Hn1 & Hd & [Hr [Hq Hn2]%nodup_cons]%nodup_cons)%list.NoDup_app. split.
  - apply list.NoDup_app. split; [done|]. split; [|apply NoDup_cons_2; [|done]; intros Hin; apply Hr; by right].
    intros x Hx Hin. apply (Hd x Hx). apply elem_of_cons in Hin as [->|Hin]; [by left|by right; right].
  - rewrite elem_of_app, elem_of_cons. intros [Hx|[->|Hx]]; [|by apply Hr; left|done]. apply (Hd q Hx). by right; left.
Qed.
(** An object that was cut out goes to the front. *)
Lemma list_at_to_front m p l1 r v q u l2 : list_at m p (l1 ++ (r, v) :: (q, u) :: l2) ->
  list_at (<[q := set_next p u]> (<[r := set_next (next u) v]> m)) (Some q) ((q, set_next p u) :: l1 ++ (r, set_next (next u) v) :: l2).
Proof.
  intros [Hl Hnd]. destruct (nodup_cut l1 r v (set_next (next u) v) q u l2 Hnd) as [Hn Hq]. apply (list_at_push _ p); [apply next_set|done|].
  split; [by apply (linked_cut _ _ _ _ _ q)|done].
Qed.
End linked.
