(* ===== verification/Mmio.v ===== *)
(** Memory-mapped accesses.

    The drivers of the firmware talk to the chip through volatile loads and
    stores.  The chip is a parameter: a type of hardware states with a load
    and a store operation ([Bus]).  What the drivers rely on about a peripheral
    is stated as a class over [Bus] in the file of that peripheral. *)
From S2P Require Import Prelude.

(** Access widths: [uint8_t], [uint16_t] and [uint32_t] lvalues. *)
Inductive width : Set := W8 | W16 | W32.
#[global] Instance width_eq_dec : EqDecision width.
Proof. solve_decision. Defined.

Definition width_bytes (w : width) : Z :=
  match w with W8 => 1 | W16 => 2 | W32 => 4 end.

(** [FunctionalState] and [FlagStatus] (stm32f10x.h). *)
Inductive FunctionalState : Set := DISABLE | ENABLE.
Inductive FlagStatus : Set := RESET | SET.
#[global] Instance FunctionalState_eq_dec : EqDecision FunctionalState.
Proof. solve_decision. Defined.
#[global] Instance FlagStatus_eq_dec : EqDecision FlagStatus.
Proof. solve_decision. Defined.

Class Bus (H : Type) := {
  bus_read : width -> Z -> H -> Z * H;
  bus_write : width -> Z -> Z -> H -> H
}.

(** * Volatile accesses as statements *)

Section accesses.
Context {H : Type} `{Bus H}.

Definition rd (w : width) (a : Z) : M H Z := fun h =>
  let '(v, h') := bus_read w a h in Ret v h'.
Definition wr (w : width) (a v : Z) : M H unit := fun h =>
  Ret tt (bus_write w a v h).

Definition rd8 := rd W8.
Definition rd16 := rd W16.
Definition rd32 := rd W32.
Definition wr16 := wr W16.
Definition wr32 := wr W32.
Definition wr8 := wr W8.

(** [REG |= m] and [REG &= m]. *)
Definition or32 (a m : Z) : M H unit := v ← rd32 a; wr32 a (Z.lor v m).
Definition and32 (a m : Z) : M H unit := v ← rd32 a; wr32 a (Z.land v m).

Lemma wp_rd w a (Q : Z -> H -> Prop) h :
  Q (fst (bus_read w a h)) (snd (bus_read w a h)) -> wp (rd w a) Q h.
Proof. unfold wp, rd. by destruct (bus_read w a h). Qed.

Lemma wp_wr w a v (Q : unit -> H -> Prop) h :
  Q tt (bus_write w a v h) -> wp (wr w a v) Q h.
Proof. done. Qed.
End accesses.

(** * Statements of a program with global variables [G] *)

Definition lift {G H A} (m : M H A) : M (G * H) A := fun s =>
  match m (snd s) with
  | Ret a h' => Ret a (fst s, h')
  | Fault => Fault
  | Diverge => Diverge
  end.
Definition getg {G H A} (f : G -> A) : M (G * H) A := gets (fun s => f (fst s)).
Definition setg {G H} (f : G -> G) : M (G * H) unit :=
  modify (fun s => (f (fst s), snd s)).

Lemma wp_lift {G H A} (m : M H A) (Q : A -> G * H -> Prop) g h :
  wp m (fun a h' => Q a (g, h')) h -> wp (lift m) Q (g, h).
Proof. unfold wp, lift. cbn. by destruct (m h). Qed.

Lemma wp_getg {G H A} (f : G -> A) (Q : A -> G * H -> Prop) g h :
  Q (f g) (g, h) -> wp (getg f) Q (g, h).
Proof. done. Qed.

Lemma wp_setg {G H} (f : G -> G) (Q : unit -> G * H -> Prop) g h :
  Q tt (f g, h) -> wp (setg f) Q (g, h).
Proof. done. Qed.

(** * Little-endian views of a byte-addressed memory *)

Definition le16 (m : Z -> Z) (a : Z) : Z := m a + 2 ^ 8 * m (a + 1).
Definition le32 (m : Z -> Z) (a : Z) : Z := le16 m a + 2 ^ 16 * le16 m (a + 2).
Definition le (w : width) (m : Z -> Z) (a : Z) : Z :=
  match w with W8 => m a | W16 => le16 m a | W32 => le32 m a end.

(** Byte [k] of a word. *)
Definition byte_of (v k : Z) : Z := v / 2 ^ (8 * k) mod 2 ^ 8.
(** Store the two low bytes of [v] at [a]. *)
Definition set16 (a v : Z) (m : Z -> Z) : Z -> Z := fun x =>
  if x =? a then byte_of v 0 else if x =? a + 1 then byte_of v 1 else m x.
Definition set32 (a v : Z) (m : Z -> Z) : Z -> Z := fun x =>
  if (a <=? x) && (x <? a + 4) then byte_of v (x - a) else m x.

Definition bytes (m : Z -> Z) : Prop := forall a, 0 <= m a < 2 ^ 8.
