(* ===== verification/Fpec.v ===== *)
(** The flash program/erase controller (FPEC) of the STM32F107, as the drivers
    see it: the documented behaviour (programming manual PM0075) that a
    hardware bus has to show, stated as the class [FpecBus]. *)
From S2P Require Import Prelude Mmio.

(** * Addresses (stm32f10x.h) *)
Definition FLASH_R_BASE : Z := 0x40022000.
Definition FLASH_ACR := FLASH_R_BASE + 0x00.
Definition FLASH_KEYR := FLASH_R_BASE + 0x04.
Definition FLASH_OPTKEYR := FLASH_R_BASE + 0x08.
Definition FLASH_SR := FLASH_R_BASE + 0x0C.
Definition FLASH_CR := FLASH_R_BASE + 0x10.
Definition FLASH_AR := FLASH_R_BASE + 0x14.
Definition FLASH_OBR := FLASH_R_BASE + 0x1C.
Definition FLASH_WRPR := FLASH_R_BASE + 0x20.

Definition FLASH_KEY1 : Z := 0x45670123.
Definition FLASH_KEY2 : Z := 0xCDEF89AB.

(** Main memory block: 256 KB in 2 KB pages. *)
Definition flash_first : Z := 0x08000000.
Definition flash_end : Z := 0x08040000.
Definition page_size : Z := 0x800.
Definition in_flash (a : Z) : bool := (flash_first <=? a) && (a <? flash_end).
Definition page_start (a : Z) : Z := page_size * (a / page_size).
Definition in_page (p a : Z) : bool := (page_start p <=? a) && (a <? page_start p + page_size).

(** * The view of the controller *)

(** The lock: [FLASH_KEYR] takes two keys in order; a wrong key locks the
    controller until the next reset. *)
Inductive key_state : Set := KLocked | KFirst | KUnlocked | KDead.
#[global] Instance key_state_eq_dec : EqDecision key_state.
Proof. solve_decision. Defined.

Record fpec : Type := Fpec {
  fp_mem : Z -> Z;       (* main memory, a byte per address *)
  fp_key : key_state;
  fp_cr : Z;             (* FLASH_CR without LOCK and STRT *)
  fp_err : Z;            (* FLASH_SR without BSY *)
  fp_ar : Z;
  fp_busy : nat;         (* polls of FLASH_SR that will still see BSY *)
  fp_wrp : Z -> bool     (* write-protected addresses (option bytes) *)
}.

Definition with_mem (m : Z -> Z) (f : fpec) : fpec :=
  Fpec m (fp_key f) (fp_cr f) (fp_err f) (fp_ar f) (fp_busy f) (fp_wrp f).
Definition with_key (k : key_state) (f : fpec) : fpec :=
  Fpec (fp_mem f) k (fp_cr f) (fp_err f) (fp_ar f) (fp_busy f) (fp_wrp f).
Definition with_cr (c : Z) (f : fpec) : fpec :=
  Fpec (fp_mem f) (fp_key f) c (fp_err f) (fp_ar f) (fp_busy f) (fp_wrp f).
Definition with_err (e : Z) (f : fpec) : fpec :=
  Fpec (fp_mem f) (fp_key f) (fp_cr f) e (fp_ar f) (fp_busy f) (fp_wrp f).
Definition with_ar (a : Z) (f : fpec) : fpec :=
  Fpec (fp_mem f) (fp_key f) (fp_cr f) (fp_err f) a (fp_busy f) (fp_wrp f).
Definition with_busy (n : nat) (f : fpec) : fpec :=
  Fpec (fp_mem f) (fp_key f) (fp_cr f) (fp_err f) (fp_ar f) n (fp_wrp f).

(** Bits of the status and control registers. *)
Definition SR_BSY : Z := 0x01.
Definition SR_PGERR : Z := 0x04.
Definition SR_WRPRTERR : Z := 0x10.
Definition SR_EOP : Z := 0x20.
Definition CR_PG : Z := 0.    (* bit numbers *)
Definition CR_PER : Z := 1.
Definition CR_MER : Z := 2.
Definition CR_OPTPG : Z := 4.
Definition CR_OPTER : Z := 5.
Definition CR_STRT : Z := 6.
Definition CR_LOCK : Z := 7.
(** The bits of FLASH_CR that are stored: OPTWRE, interrupt enables and modes. *)
Definition CR_stored : Z := 0x1637.

(** Erase [n] bytes from [a]. *)
Definition erase_range (a n : Z) (m : Z -> Z) : Z -> Z := fun x =>
  if (a <=? x) && (x <? a + n) then 0xFF else m x.

(** ** Reactions of the controller

    [pd] and [ed] are the durations, in polls of the status register, of a
    program and of an erase operation started by the access. *)

Definition fpec_keyr (v : Z) (f : fpec) : fpec :=
  match fp_key f with
  | KLocked => with_key (if v =? FLASH_KEY1 then KFirst else KDead) f
  | KFirst => with_key (if v =? FLASH_KEY2 then KUnlocked else KDead) f
  | _ => f
  end.

(** The end of an operation: an error flag, or the end-of-operation flag and
    the new memory. *)
Definition op_refused (flag : Z) (f : fpec) : fpec := with_err (Z.lor (fp_err f) flag) f.
Definition op_done (m : Z -> Z) (f : fpec) : fpec :=
  with_err (Z.lor (fp_err f) SR_EOP) (with_mem m f).

(** Page erase: nothing happens in a write-protected page. *)
Definition erase_page_op (p : Z) (f : fpec) : fpec :=
  if fp_wrp f p then op_refused SR_WRPRTERR f
  else op_done (erase_range (page_start p) page_size (fp_mem f)) f.

(** Mass erase: refused when a page is protected. *)
Definition any_protected (f : fpec) : bool :=
  existsb (fun k => fp_wrp f (flash_first + page_size * Z.of_nat k)) (seq 0 128).
Definition mass_erase_op (f : fpec) : fpec :=
  if any_protected f then op_refused SR_WRPRTERR f
  else op_done (erase_range flash_first (flash_end - flash_first) (fp_mem f)) f.

(** Half-word program: the half-word must be erased, or the data zero. *)
Definition program_half_op (a v : Z) (f : fpec) : fpec :=
  if (le16 (fp_mem f) a =? 0xFFFF) || (v =? 0) then
    if fp_wrp f a then op_refused SR_WRPRTERR f
    else op_done (set16 a v (fp_mem f)) f
  else op_refused SR_PGERR f.

Definition fpec_start (ed : nat) (f : fpec) : fpec :=
  if Z.testbit (fp_cr f) CR_PER then with_busy ed (erase_page_op (fp_ar f) f)
  else if Z.testbit (fp_cr f) CR_MER then with_busy ed (mass_erase_op f)
  else f.

Definition fpec_write_cr (ed : nat) (v : Z) (f : fpec) : fpec :=
  if decide (fp_key f = KUnlocked) then
    let f1 := with_cr (Z.land v CR_stored) f in
    let f2 := if Z.testbit v CR_LOCK then with_key KLocked f1 else f1 in
    if Z.testbit v CR_STRT then fpec_start ed f2 else f2
  else f.

Definition fpec_program (pd : nat) (a v : Z) (f : fpec) : fpec :=
  with_busy pd (program_half_op a v f).

(** Reads and writes.  A register write or a memory access during an operation
    stalls the bus until the operation ends. *)
Definition fpec_read (w : width) (a : Z) (f : fpec) : Z * fpec :=
  if a =? FLASH_SR then
    (Z.lor (fp_err f) (if decide (fp_busy f = 0%nat) then 0 else SR_BSY),
     with_busy (pred (fp_busy f)) f)
  else if a =? FLASH_CR then
    (Z.lor (fp_cr f) (if decide (fp_key f = KUnlocked) then 0 else 2 ^ CR_LOCK), f)
  else (le w (fp_mem f) a, with_busy 0 f).

Definition fpec_write (pd ed : nat) (a v : Z) (f : fpec) : fpec :=
  let f := with_busy 0 f in
  if a =? FLASH_KEYR then fpec_keyr v f
  else if a =? FLASH_SR then with_err (Z.ldiff (fp_err f) (Z.land v 0x34)) f
  else if a =? FLASH_CR then fpec_write_cr ed v f
  else if a =? FLASH_AR then with_ar v f
  else fpec_program pd a v f.

(** The accesses whose effect is documented and used here.  A write of the
    control register is covered when it starts no operation on the option bytes
    and a page erase only with the address register in the main memory; the
    keys, while the controller is locked; a half-word store, when the
    controller is unlocked and in program mode. *)
Definition fpec_reads (w : width) (a : Z) : bool :=
  match w with
  | W32 => (a =? FLASH_SR) || (a =? FLASH_CR) || (in_flash a && in_flash (a + 3))
  | _ => in_flash a && in_flash (a + width_bytes w - 1)
  end.

Definition fpec_writes (w : width) (a v : Z) (f : fpec) : bool :=
  match w with
  | W32 => (a =? FLASH_SR) || (a =? FLASH_AR)
           || ((a =? FLASH_CR) && negb (Z.testbit v CR_OPTPG) && negb (Z.testbit v CR_OPTER)
               && (negb (Z.testbit v CR_STRT && Z.testbit v CR_PER) || in_flash (fp_ar f)))
           || ((a =? FLASH_KEYR) && bool_decide (fp_key f <> KUnlocked))
  | W16 => in_flash a && Z.even a
           && bool_decide (fp_key f = KUnlocked) && Z.testbit (fp_cr f) CR_PG
  | W8 => false
  end.

(** The addresses that belong to the controller: its registers, the main
    memory and the information block with the option bytes. *)
Definition fpec_owns (a : Z) : bool :=
  ((FLASH_R_BASE <=? a) && (a <? FLASH_R_BASE + 0x400))
  || in_flash a || ((0x1FFFB000 <=? a) && (a <? 0x1FFFF810)).

(** * The interface: a bus with an FPEC behind it *)
Class FpecBus (H : Type) `{Bus H} := {
  fpec_of : H -> fpec;
  prog_polls : H -> nat;
  erase_polls : H -> nat;
  prog_polls_bound : forall h, Z.of_nat (prog_polls h) < 0x2000;
  erase_polls_bound : forall h, Z.of_nat (erase_polls h) < 0xB0000;
  fpec_read_value : forall w a h, fpec_reads w a = true ->
    fst (bus_read w a h) = fst (fpec_read w a (fpec_of h));
  fpec_read_state : forall w a h, fpec_reads w a = true ->
    fpec_of (snd (bus_read w a h)) = snd (fpec_read w a (fpec_of h));
  fpec_write_state : forall w a v h, fpec_writes w a v (fpec_of h) = true ->
    fpec_of (bus_write w a v h)
    = fpec_write (prog_polls h) (erase_polls h) a v (fpec_of h);
  fpec_read_frame : forall w a h, fpec_owns a = false ->
    fpec_of (snd (bus_read w a h)) = fpec_of h;
  fpec_write_frame : forall w a v h, fpec_owns a = false ->
    fpec_of (bus_write w a v h) = fpec_of h
}.
