(* ===== verification/FlashDriver.v ===== *)
(** The flash driver: stm32f10x_flash.c of the Standard Peripheral Library
    (the same file in bootloader/ and updater_mcu/), as it is compiled for the
    STM32F10X_CL: the STM32F10X_XL branches of the source are not compiled and
    [assert_param] expands to nothing (stm32f10x_conf.h). *)
From S2P Require Import Prelude Mmio Fpec.

(** [FLASH_Status], with the values of the C enumeration. *)
Inductive FLASH_Status : Set :=
  FLASH_BUSY | FLASH_ERROR_PG | FLASH_ERROR_WRP | FLASH_COMPLETE | FLASH_TIMEOUT.
#[global] Instance FLASH_Status_eq_dec : EqDecision FLASH_Status.
Proof. solve_decision. Defined.
(** * Masks (lines 60 to 110 of the source) *)
Definition ACR_LATENCY_Mask : Z := 0x38.
Definition ACR_HLFCYA_Mask : Z := 0xFFFFFFF7.
Definition ACR_PRFTBE_Mask : Z := 0xFFFFFFEF.
Definition ACR_PRFTBS_Mask : Z := 0x20.
Definition CR_PG_Set : Z := 0x1.
Definition CR_PG_Reset : Z := 0x1FFE.
Definition CR_PER_Set : Z := 0x2.
Definition CR_PER_Reset : Z := 0x1FFD.
Definition CR_MER_Set : Z := 0x4.
Definition CR_MER_Reset : Z := 0x1FFB.
Definition CR_OPTPG_Set : Z := 0x10.
Definition CR_OPTPG_Reset : Z := 0x1FEF.
Definition CR_OPTER_Set : Z := 0x20.
Definition CR_OPTER_Reset : Z := 0x1FDF.
Definition CR_STRT_Set : Z := 0x40.
Definition CR_LOCK_Set : Z := 0x80.
Definition RDPRT_Mask : Z := 0x2.
Definition WRP0_Mask : Z := 0xFF.
Definition WRP1_Mask : Z := 0xFF00.
Definition WRP2_Mask : Z := 0xFF0000.
Definition WRP3_Mask : Z := 0xFF000000.
Definition EraseTimeout : Z := 0xB0000.
Definition ProgramTimeout : Z := 0x2000.
Definition RDP_Key : Z := 0xA5.

Definition FLASH_FLAG_BSY : Z := 0x1.
Definition FLASH_FLAG_EOP : Z := 0x20.
Definition FLASH_FLAG_PGERR : Z := 0x4.
Definition FLASH_FLAG_WRPRTERR : Z := 0x10.
Definition FLASH_FLAG_OPTERR : Z := 0x1.

(** Option bytes: the half-words of [OB_TypeDef] from [OB_BASE]. *)
Definition OB_BASE : Z := 0x1FFFF800.
Definition OB_RDP := OB_BASE.
Definition OB_USER := OB_BASE + 2.
Definition OB_WRP0 := OB_BASE + 8.
Definition OB_WRP1 := OB_BASE + 10.
Definition OB_WRP2 := OB_BASE + 12.
Definition OB_WRP3 := OB_BASE + 14.

Section driver.
Context {H : Type} `{Bus H}.

(** * Access control *)
Definition FLASH_SetLatency (FLASH_Latency : Z) : M H unit :=
  tmpreg ← rd32 FLASH_ACR;
  wr32 FLASH_ACR (Z.lor (Z.land tmpreg ACR_LATENCY_Mask) FLASH_Latency).

Definition FLASH_HalfCycleAccessCmd (FLASH_HalfCycleAccess : Z) : M H unit :=
  _ ← and32 FLASH_ACR ACR_HLFCYA_Mask;
  or32 FLASH_ACR FLASH_HalfCycleAccess.

Definition FLASH_PrefetchBufferCmd (FLASH_PrefetchBuffer : Z) : M H unit :=
  _ ← and32 FLASH_ACR ACR_PRFTBE_Mask;
  or32 FLASH_ACR FLASH_PrefetchBuffer.

Definition FLASH_Unlock : M H unit :=
  _ ← wr32 FLASH_KEYR FLASH_KEY1;
  wr32 FLASH_KEYR FLASH_KEY2.

Definition FLASH_UnlockBank1 : M H unit :=
  _ ← wr32 FLASH_KEYR FLASH_KEY1;
  wr32 FLASH_KEYR FLASH_KEY2.

Definition FLASH_Lock : M H unit := or32 FLASH_CR CR_LOCK_Set.

Definition FLASH_LockBank1 : M H unit := or32 FLASH_CR CR_LOCK_Set.

(** * Status *)
Definition FLASH_GetStatus : M H FLASH_Status :=
  sr ← rd32 FLASH_SR;
  if Z.land sr FLASH_FLAG_BSY =? FLASH_FLAG_BSY then mret FLASH_BUSY
  else
    sr ← rd32 FLASH_SR;
    if negb (Z.land sr FLASH_FLAG_PGERR =? 0) then mret FLASH_ERROR_PG
    else
      sr ← rd32 FLASH_SR;
      if negb (Z.land sr FLASH_FLAG_WRPRTERR =? 0) then mret FLASH_ERROR_WRP
      else mret FLASH_COMPLETE.

(** For this device the bank 1 flags are the flags of the only bank. *)
Definition FLASH_GetBank1Status : M H FLASH_Status :=
  sr ← rd32 FLASH_SR;
  if Z.land sr FLASH_FLAG_BSY =? FLASH_FLAG_BSY then mret FLASH_BUSY
  else
    sr ← rd32 FLASH_SR;
    if negb (Z.land sr FLASH_FLAG_PGERR =? 0) then mret FLASH_ERROR_PG
    else
      sr ← rd32 FLASH_SR;
      if negb (Z.land sr FLASH_FLAG_WRPRTERR =? 0) then mret FLASH_ERROR_WRP
      else mret FLASH_COMPLETE.

(** One test of the wait loop, on the locals [status] and [Timeout]. *)
Definition wait_body (r : FLASH_Status * Z)
  : M H (FLASH_Status * Z + FLASH_Status * Z) :=
  let '(status, Timeout) := r in
  if bool_decide (status = FLASH_BUSY) && negb (Timeout =? 0) then
    status' ← FLASH_GetBank1Status;
    mret (inl (status', Timeout - 1))
  else mret (inr (status, Timeout)).

Definition FLASH_WaitForLastOperation (Timeout : Z) : M H FLASH_Status :=
  status ← FLASH_GetBank1Status;
  r ← loop (Z.to_pos (Timeout + 1)) wait_body (status, Timeout);
  mret (if snd r =? 0 then FLASH_TIMEOUT else fst r).

(** The source compares [status] with FLASH_FLAG_BANK1_BSY, which is 1, the
    value of FLASH_BUSY. *)
Definition FLASH_WaitForLastBank1Operation (Timeout : Z) : M H FLASH_Status :=
  status ← FLASH_GetBank1Status;
  r ← loop (Z.to_pos (Timeout + 1)) wait_body (status, Timeout);
  mret (if snd r =? 0 then FLASH_TIMEOUT else fst r).

(** * Erase *)
Definition FLASH_ErasePage (Page_Address : Z) : M H FLASH_Status :=
  status ← FLASH_WaitForLastOperation EraseTimeout;
  if bool_decide (status = FLASH_COMPLETE) then
    _ ← or32 FLASH_CR CR_PER_Set;
    _ ← wr32 FLASH_AR Page_Address;
    _ ← or32 FLASH_CR CR_STRT_Set;
    status ← FLASH_WaitForLastOperation EraseTimeout;
    _ ← and32 FLASH_CR CR_PER_Reset;
    mret status
  else mret status.

Definition FLASH_EraseAllPages : M H FLASH_Status :=
  status ← FLASH_WaitForLastOperation EraseTimeout;
  if bool_decide (status = FLASH_COMPLETE) then
    _ ← or32 FLASH_CR CR_MER_Set;
    _ ← or32 FLASH_CR CR_STRT_Set;
    status ← FLASH_WaitForLastOperation EraseTimeout;
    _ ← and32 FLASH_CR CR_MER_Reset;
    mret status
  else mret status.

Definition FLASH_EraseAllBank1Pages : M H FLASH_Status :=
  status ← FLASH_WaitForLastBank1Operation EraseTimeout;
  if bool_decide (status = FLASH_COMPLETE) then
    _ ← or32 FLASH_CR CR_MER_Set;
    _ ← or32 FLASH_CR CR_STRT_Set;
    status ← FLASH_WaitForLastBank1Operation EraseTimeout;
    _ ← and32 FLASH_CR CR_MER_Reset;
    mret status
  else mret status.

(** * Program *)
Definition FLASH_ProgramWord (Address Data : Z) : M H FLASH_Status :=
  status ← FLASH_WaitForLastOperation ProgramTimeout;
  if bool_decide (status = FLASH_COMPLETE) then
    _ ← or32 FLASH_CR CR_PG_Set;
    _ ← wr16 Address (u16 Data);
    status ← FLASH_WaitForLastOperation ProgramTimeout;
    if bool_decide (status = FLASH_COMPLETE) then
      let tmp := u32 (Address + 2) in
      _ ← wr16 tmp (u16 (Z.shiftr Data 16));
      status ← FLASH_WaitForLastOperation ProgramTimeout;
      _ ← and32 FLASH_CR CR_PG_Reset;
      mret status
    else
      _ ← and32 FLASH_CR CR_PG_Reset;
      mret status
  else mret status.

Definition FLASH_ProgramHalfWord (Address Data : Z) : M H FLASH_Status :=
  status ← FLASH_WaitForLastOperation ProgramTimeout;
  if bool_decide (status = FLASH_COMPLETE) then
    _ ← or32 FLASH_CR CR_PG_Set;
    _ ← wr16 Address Data;
    status ← FLASH_WaitForLastOperation ProgramTimeout;
    _ ← and32 FLASH_CR CR_PG_Reset;
    mret status
  else mret status.

(** * Option bytes and flags *)
Definition FLASH_GetUserOptionByte : M H Z :=
  obr ← rd32 FLASH_OBR; mret (Z.shiftr obr 2).

Definition FLASH_GetWriteProtectionOptionByte : M H Z := rd32 FLASH_WRPR.

Definition FLASH_GetReadOutProtectionStatus : M H FlagStatus :=
  obr ← rd32 FLASH_OBR;
  mret (if negb (Z.land obr RDPRT_Mask =? 0) then SET else RESET).

Definition FLASH_GetPrefetchBufferStatus : M H FlagStatus :=
  acr ← rd32 FLASH_ACR;
  mret (if negb (Z.land acr ACR_PRFTBS_Mask =? 0) then SET else RESET).

Definition FLASH_ITConfig (FLASH_IT : Z) (NewState : FunctionalState) : M H unit :=
  match NewState with
  | ENABLE => or32 FLASH_CR FLASH_IT
  | DISABLE => and32 FLASH_CR (not32 FLASH_IT)
  end.

Definition FLASH_GetFlagStatus (FLASH_FLAG : Z) : M H FlagStatus :=
  if FLASH_FLAG =? FLASH_FLAG_OPTERR then
    obr ← rd32 FLASH_OBR;
    mret (if negb (Z.land obr FLASH_FLAG_OPTERR =? 0) then SET else RESET)
  else
    sr ← rd32 FLASH_SR;
    mret (if negb (Z.land sr FLASH_FLAG =? 0) then SET else RESET).

Definition FLASH_ClearFlag (FLASH_FLAG : Z) : M H unit := wr32 FLASH_SR FLASH_FLAG.

(** [if(status != FLASH_TIMEOUT) FLASH->CR &= m], the tail of the option byte
    operations. *)
Definition clear_unless_timeout (status : FLASH_Status) (m : Z) : M H unit :=
  if bool_decide (status = FLASH_TIMEOUT) then mret tt else and32 FLASH_CR m.

Definition FLASH_EraseOptionBytes : M H FLASH_Status :=
  rdp ← FLASH_GetReadOutProtectionStatus;
  let rdptmp := if bool_decide (rdp = RESET) then RDP_Key else 0x00 in
  status ← FLASH_WaitForLastOperation EraseTimeout;
  if bool_decide (status = FLASH_COMPLETE) then
    _ ← wr32 FLASH_OPTKEYR FLASH_KEY1;
    _ ← wr32 FLASH_OPTKEYR FLASH_KEY2;
    _ ← or32 FLASH_CR CR_OPTER_Set;
    _ ← or32 FLASH_CR CR_STRT_Set;
    status ← FLASH_WaitForLastOperation EraseTimeout;
    if bool_decide (status = FLASH_COMPLETE) then
      _ ← and32 FLASH_CR CR_OPTER_Reset;
      _ ← or32 FLASH_CR CR_OPTPG_Set;
      _ ← wr16 OB_RDP rdptmp;
      status ← FLASH_WaitForLastOperation ProgramTimeout;
      _ ← clear_unless_timeout status CR_OPTPG_Reset;
      mret status
    else
      _ ← clear_unless_timeout status CR_OPTPG_Reset;
      mret status
  else mret status.

Definition FLASH_ProgramOptionByteData (Address Data : Z) : M H FLASH_Status :=
  status ← FLASH_WaitForLastOperation ProgramTimeout;
  if bool_decide (status = FLASH_COMPLETE) then
    _ ← wr32 FLASH_OPTKEYR FLASH_KEY1;
    _ ← wr32 FLASH_OPTKEYR FLASH_KEY2;
    _ ← or32 FLASH_CR CR_OPTPG_Set;
    _ ← wr16 Address Data;
    status ← FLASH_WaitForLastOperation ProgramTimeout;
    _ ← clear_unless_timeout status CR_OPTPG_Reset;
    mret status
  else mret status.

(** [if((status == FLASH_COMPLETE) && (data != 0xFF)) { OB->WRPn = data; wait }] *)
Definition program_wrp (a data : Z) (status : FLASH_Status) : M H FLASH_Status :=
  if bool_decide (status = FLASH_COMPLETE) && negb (data =? 0xFF) then
    _ ← wr16 a data;
    FLASH_WaitForLastOperation ProgramTimeout
  else mret status.

Definition FLASH_EnableWriteProtection (FLASH_Pages : Z) : M H FLASH_Status :=
  let FLASH_Pages := not32 FLASH_Pages in
  let WRP0_Data := u16 (Z.land FLASH_Pages WRP0_Mask) in
  let WRP1_Data := u16 (Z.shiftr (Z.land FLASH_Pages WRP1_Mask) 8) in
  let WRP2_Data := u16 (Z.shiftr (Z.land FLASH_Pages WRP2_Mask) 16) in
  let WRP3_Data := u16 (Z.shiftr (Z.land FLASH_Pages WRP3_Mask) 24) in
  status ← FLASH_WaitForLastOperation ProgramTimeout;
  if bool_decide (status = FLASH_COMPLETE) then
    _ ← wr32 FLASH_OPTKEYR FLASH_KEY1;
    _ ← wr32 FLASH_OPTKEYR FLASH_KEY2;
    _ ← or32 FLASH_CR CR_OPTPG_Set;
    status ← program_wrp OB_WRP0 WRP0_Data status;
    status ← program_wrp OB_WRP1 WRP1_Data status;
    status ← program_wrp OB_WRP2 WRP2_Data status;
    status ← program_wrp OB_WRP3 WRP3_Data status;
    _ ← clear_unless_timeout status CR_OPTPG_Reset;
    mret status
  else mret status.

Definition FLASH_ReadOutProtection (NewState : FunctionalState) : M H FLASH_Status :=
  status ← FLASH_WaitForLastOperation EraseTimeout;
  if bool_decide (status = FLASH_COMPLETE) then
    _ ← wr32 FLASH_OPTKEYR FLASH_KEY1;
    _ ← wr32 FLASH_OPTKEYR FLASH_KEY2;
    _ ← or32 FLASH_CR CR_OPTER_Set;
    _ ← or32 FLASH_CR CR_STRT_Set;
    status ← FLASH_WaitForLastOperation EraseTimeout;
    if bool_decide (status = FLASH_COMPLETE) then
      _ ← and32 FLASH_CR CR_OPTER_Reset;
      _ ← or32 FLASH_CR CR_OPTPG_Set;
      _ ← wr16 OB_RDP (match NewState with ENABLE => 0x00 | DISABLE => RDP_Key end);
      status ← FLASH_WaitForLastOperation EraseTimeout;
      _ ← clear_unless_timeout status CR_OPTPG_Reset;
      mret status
    else
      _ ← clear_unless_timeout status CR_OPTER_Reset;
      mret status
  else mret status.

Definition FLASH_UserOptionByteConfig (OB_IWDG OB_STOP OB_STDBY : Z) : M H FLASH_Status :=
  _ ← wr32 FLASH_OPTKEYR FLASH_KEY1;
  _ ← wr32 FLASH_OPTKEYR FLASH_KEY2;
  status ← FLASH_WaitForLastOperation ProgramTimeout;
  if bool_decide (status = FLASH_COMPLETE) then
    _ ← or32 FLASH_CR CR_OPTPG_Set;
    _ ← wr16 OB_USER (Z.lor OB_IWDG (Z.lor OB_STOP (Z.lor OB_STDBY 0xF8)));
    status ← FLASH_WaitForLastOperation ProgramTimeout;
    _ ← clear_unless_timeout status CR_OPTPG_Reset;
    mret status
  else mret status.
End driver.
