(* ===== verification/FlashSpec.v ===== *)
(** What the flash driver does to a flash controller: the functional behaviour
    of stm32f10x_flash.c on any [FpecBus]. *)
From S2P Require Import Prelude Mmio Fpec FlashDriver.

(** The status that FLASH_GetBank1Status computes from a controller. *)
Definition status_of (f : fpec) : FLASH_Status :=
  if decide (fp_busy f = 0%nat) then
    if Z.testbit (fp_err f) 2 then FLASH_ERROR_PG
    else if Z.testbit (fp_err f) 4 then FLASH_ERROR_WRP
    else FLASH_COMPLETE
  else FLASH_BUSY.

(** FLASH_SR has no BSY bit stored among its flags. *)
Definition sr_wf (f : fpec) : Prop := Z.testbit (fp_err f) 0 = false.

(** Ready for an operation: unlocked, idle, no mode bit set. *)
Record ready (f : fpec) : Prop := {
  ready_key : fp_key f = KUnlocked;
  ready_busy : fp_busy f = 0%nat;
  ready_cr : fp_cr f = 0;
  ready_sr : sr_wf f
}.
(** No error flag pending. *)
Definition no_error (f : fpec) : Prop :=
  Z.testbit (fp_err f) 2 = false /\ Z.testbit (fp_err f) 4 = false.

(** What a load of FLASH_SR returns. *)
Definition sr_value (f : fpec) : Z :=
  Z.lor (fp_err f) (if decide (fp_busy f = 0%nat) then 0 else SR_BSY).

Lemma sr_busy f : sr_wf f ->
  (Z.land (sr_value f) FLASH_FLAG_BSY =? FLASH_FLAG_BSY) = negb (bool_decide (fp_busy f = 0%nat)).
Proof.
  intros Hwf. change FLASH_FLAG_BSY with (2 ^ 0). rewrite land_pow2 by done.
  unfold sr_value. rewrite Z.lor_spec, Hwf. by case_decide; case_bool_decide.
Qed.

Lemma sr_flag f k : 0 < k ->
  (Z.land (sr_value f) (2 ^ k) =? 0) = negb (Z.testbit (fp_err f) k).
Proof.
  intros Hk. rewrite land_pow2_eqb0 by lia. unfold sr_value. rewrite Z.lor_spec.
  case_decide; rewrite ?Z.bits_0, ?orb_false_r; [done|].
  rewrite (testbit_above SR_BSY 1 k), orb_false_r; [done|by unfold SR_BSY|lia].
Qed.

Lemma status_not_busy n f : n = 0%nat -> status_of (with_busy n f) <> FLASH_BUSY.
Proof. intros ->. unfold status_of. cbn. by repeat case_match. Qed.

Lemma status_no_error f : no_error f -> fp_busy f = 0%nat -> status_of f = FLASH_COMPLETE.
Proof. intros [H2 H4] Hb. unfold status_of. rewrite decide_True by done. by rewrite H2, H4. Qed.

Lemma status_error f : ~ no_error f -> fp_busy f = 0%nat -> status_of f <> FLASH_COMPLETE.
Proof.
  intros Hne Hb. unfold status_of, no_error in *. rewrite decide_True by done.
  destruct (Z.testbit (fp_err f) 2), (Z.testbit (fp_err f) 4); naive_solver.
Qed.

(** The flags that operations raise are not BSY. *)
Lemma testbit_lor_flag e flag k :
  Z.testbit e k = false -> Z.testbit flag k = false -> Z.testbit (Z.lor e flag) k = false.
Proof. intros He Hf. by rewrite Z.lor_spec, He, Hf. Qed.

Lemma with_busy_id f n : fp_busy f = n -> with_busy n f = f.
Proof. intros <-. by destruct f. Qed.

Lemma write_cr_unlocked ed v f :
  fp_key f = KUnlocked -> Z.testbit v CR_LOCK = false ->
  fpec_write_cr ed v f =
  if Z.testbit v CR_STRT then fpec_start ed (with_cr (Z.land v CR_stored) f)
  else with_cr (Z.land v CR_stored) f.
Proof. intros Hk Hl. unfold fpec_write_cr. by rewrite decide_True, Hl. Qed.

(** Reduce what a store of FLASH_CR does to an explicit controller. *)
Ltac fpec_step Hh := rewrite write_cr_unlocked in Hh by done; cbn in Hh; eval_Z_in Hh; cbn in Hh.

(** A word program: the high half-word follows unless the low one failed. *)
Definition program_word_op (a d : Z) (f : fpec) : fpec :=
  let f1 := program_half_op a (u16 d) f in
  if bool_decide (status_of f1 = FLASH_COMPLETE)
  then program_half_op (a + 2) (u16 (Z.shiftr d 16)) f1 else f1.

(** Operations touch the memory and the flags only. *)
Lemma half_op_frame a v f :
  fp_key (program_half_op a v f) = fp_key f /\ fp_busy (program_half_op a v f) = fp_busy f /\
  fp_cr (program_half_op a v f) = fp_cr f /\ fp_wrp (program_half_op a v f) = fp_wrp f /\
  fp_ar (program_half_op a v f) = fp_ar f.
Proof. unfold program_half_op, op_done, op_refused. by repeat case_match. Qed.

Lemma half_op_cr a v c f :
  program_half_op a v (with_cr c f) = with_cr c (program_half_op a v f).
Proof. unfold program_half_op, op_done, op_refused. cbn [fp_mem fp_wrp with_cr].
  by repeat case_match. Qed.

Lemma half_op_sr_wf a v f : sr_wf f -> sr_wf (program_half_op a v f).
Proof.
  intros Hwf. unfold program_half_op, op_done, op_refused, sr_wf in *.
  by repeat case_match; cbn [fp_err with_err with_mem]; apply testbit_lor_flag.
Qed.

Lemma half_op_ready a v f : ready f -> ready (program_half_op a v f).
Proof.
  intros [Hk Hb Hc Hwf]. destruct (half_op_frame a v f) as (? & ? & ? & ? & ?).
  split; [congruence..|by apply half_op_sr_wf].
Qed.

Lemma word_op_ready a d f : ready f -> ready (program_word_op a d f).
Proof.
  intros Hr. unfold program_word_op. case_match; by repeat apply half_op_ready.
Qed.

Lemma erase_op_ready p f : ready f -> ready (with_ar p (erase_page_op p f)).
Proof.
  intros [Hk Hb Hc Hwf]. unfold erase_page_op, op_done, op_refused.
  case_match; split; try done; by apply testbit_lor_flag.
Qed.

Lemma in_flash_range a : in_flash a = true <-> flash_first <= a < flash_end.
Proof. unfold in_flash. rewrite andb_true_iff, Z.leb_le, Z.ltb_lt. done. Qed.

Section spec.
Context {H : Type} `{FpecBus H}.
Implicit Types (f : fpec) (h : H).

Lemma wp_rd_fpec w a (Q : Z -> H -> Prop) h :
  fpec_reads w a = true ->
  (forall h', fpec_of h' = snd (fpec_read w a (fpec_of h)) ->
     Q (fst (fpec_read w a (fpec_of h))) h') ->
  wp (rd w a) Q h.
Proof.
  intros Hr HQ. apply wp_rd. rewrite fpec_read_value by done.
  apply HQ. by apply fpec_read_state.
Qed.

Lemma wp_wr_fpec w a v (Q : unit -> H -> Prop) h :
  fpec_writes w a v (fpec_of h) = true ->
  (forall h', fpec_of h' = fpec_write (prog_polls h) (erase_polls h) a v (fpec_of h) ->
     Q tt h') ->
  wp (wr w a v) Q h.
Proof. intros Hw HQ. apply wp_wr, HQ. by apply fpec_write_state. Qed.

Lemma wp_rd_sr (Q : Z -> H -> Prop) h f :
  fpec_of h = f ->
  (forall h', fpec_of h' = with_busy (pred (fp_busy f)) f -> Q (sr_value f) h') ->
  wp (rd32 FLASH_SR) Q h.
Proof. intros <- HQ. apply wp_rd_fpec; [done|]. exact HQ. Qed.

Lemma wp_status (Q : FLASH_Status -> H -> Prop) h f :
  fpec_of h = f -> sr_wf f ->
  (forall h', fpec_of h' = with_busy (pred (fp_busy f)) f -> Q (status_of f) h') ->
  wp FLASH_GetBank1Status Q h.
Proof.
  intros Hf Hwf HQ. unfold FLASH_GetBank1Status.
  apply wp_bind, (wp_rd_sr _ _ f Hf). intros h1 Hh1.
  rewrite sr_busy by done. unfold status_of in HQ.
  destruct (decide (fp_busy f = 0%nat)) as [Hb|Hb];
    [rewrite bool_decide_eq_true_2 by done|rewrite bool_decide_eq_false_2 by done];
    cbn [negb]; [|by apply wp_ret, HQ].
  rewrite (with_busy_id f) in Hh1, HQ by (rewrite Hb; done).
  apply wp_bind, (wp_rd_sr _ _ f Hh1). intros h2 Hh2.
  change FLASH_FLAG_PGERR with (2 ^ 2). change FLASH_FLAG_WRPRTERR with (2 ^ 4).
  rewrite sr_flag by lia. rewrite (with_busy_id f) in Hh2 by (rewrite Hb; done).
  destruct (Z.testbit (fp_err f) 2); cbn [negb]; [by apply wp_ret, HQ|].
  apply wp_bind, (wp_rd_sr _ _ f Hh2). intros h3 Hh3.
  rewrite sr_flag by lia. rewrite (with_busy_id f) in Hh3 by (rewrite Hb; done).
  destruct (Z.testbit (fp_err f) 4); cbn [negb]; by apply wp_ret, HQ.
Qed.

(** The wait loop, from a controller that is busy for less than the bound. *)
Lemma wp_wait (Q : FLASH_Status -> H -> Prop) h f Timeout :
  fpec_of h = f -> sr_wf f -> Z.of_nat (fp_busy f) < Timeout ->
  (forall h', fpec_of h' = with_busy 0 f -> Q (status_of (with_busy 0 f)) h') ->
  wp (FLASH_WaitForLastOperation Timeout) Q h.
Proof.
  intros Hf Hwf HT HQ. unfold FLASH_WaitForLastOperation.
  apply wp_bind, (wp_status _ _ f Hf Hwf). intros h0 Hh0. apply wp_bind.
  apply (wp_loop
    (fun r h => exists k : nat, (k <= fp_busy f)%nat /\
       fpec_of h = with_busy (pred (fp_busy f - k)) f /\
       r = (status_of (with_busy (fp_busy f - k) f), Timeout - Z.of_nat k))
    (fun r _ => snd r)).
  - exists 0%nat. split; [lia|]. rewrite Nat.sub_0_r, Z.sub_0_r. split; [done|].
    by rewrite (with_busy_id f).
  - cbn [snd]. lia.
  - intros r h1 (k & Hk & Hh1 & ->) _. cbn [wait_body snd].
    destruct (decide (fp_busy f - k = 0)%nat) as [Hz|Hz].
    + rewrite bool_decide_eq_false_2; [|by apply status_not_busy].
      cbn [andb]. apply wp_ret, wp_ret. cbn [fst snd].
      rewrite (proj2 (Z.eqb_neq _ 0)) by lia. rewrite Hz. apply HQ.
      by rewrite Hh1, Hz.
    + rewrite bool_decide_eq_true_2 by (unfold status_of; cbn; by rewrite decide_False).
      rewrite (proj2 (Z.eqb_neq _ 0)) by lia. cbn [andb negb].
      apply wp_bind, (wp_status _ _ _ Hh1); [done|]. intros h2 Hh2. cbn in Hh2.
      apply wp_ret. cbn [snd]. split; [|lia]. exists (S k). split; [lia|].
      replace (fp_busy f - S k)%nat with (pred (fp_busy f - k)) by lia.
      split; [by rewrite Hh2|]. f_equal. lia.
Qed.

(** An idle controller answers at once. *)
Lemma wp_wait_idle (Q : FLASH_Status -> H -> Prop) h f Timeout :
  fpec_of h = f -> sr_wf f -> fp_busy f = 0%nat -> 0 < Timeout ->
  (forall h', fpec_of h' = f -> Q (status_of f) h') ->
  wp (FLASH_WaitForLastOperation Timeout) Q h.
Proof.
  intros Hf Hwf Hb HT HQ. apply (wp_wait _ _ f); [done..|lia|].
  by rewrite with_busy_id.
Qed.

(** A controller that stays busy longer than the bound is reported as such. *)
Lemma wp_wait_timeout (Q : FLASH_Status -> H -> Prop) h f Timeout :
  fpec_of h = f -> sr_wf f -> 0 <= Timeout <= Z.of_nat (fp_busy f) ->
  (forall h', fpec_of h' = with_busy (fp_busy f - S (Z.to_nat Timeout)) f ->
     Q FLASH_TIMEOUT h') ->
  wp (FLASH_WaitForLastOperation Timeout) Q h.
Proof.
  intros Hf Hwf HT HQ. unfold FLASH_WaitForLastOperation.
  apply wp_bind, (wp_status _ _ f Hf Hwf). intros h0 Hh0. apply wp_bind.
  apply (wp_loop
    (fun r h => exists k : nat, Z.of_nat k <= Timeout /\
       fpec_of h = with_busy (fp_busy f - S k) f /\
       r = (status_of (with_busy (fp_busy f - k) f), Timeout - Z.of_nat k))
    (fun r _ => snd r)).
  - exists 0%nat. split; [lia|]. rewrite Nat.sub_0_r, Z.sub_0_r.
    rewrite Nat.sub_1_r. split; [done|]. by rewrite (with_busy_id f).
  - cbn [snd]. lia.
  - intros r h1 (k & Hk & Hh1 & ->) _. cbn [wait_body snd].
    destruct (Z.eqb_spec (Timeout - Z.of_nat k) 0) as [Hz|Hz].
    + rewrite andb_false_r. apply wp_ret, wp_ret. cbn [fst snd]. rewrite Hz. cbn [Z.eqb].
      apply HQ. rewrite Hh1. by replace (Z.to_nat Timeout) with k by lia.
    + rewrite bool_decide_eq_true_2
        by (unfold status_of; cbn; rewrite decide_False; [done|lia]).
      cbn [andb negb].
      apply wp_bind, (wp_status _ _ _ Hh1); [done|]. intros h2 Hh2. cbn in Hh2.
      apply wp_ret. cbn [snd]. split; [|lia]. exists (S k). split; [lia|].
      replace (fp_busy f - S (S k))%nat with (pred (fp_busy f - S k)) by lia.
      split; [by rewrite Hh2|]. f_equal. lia.
Qed.

(** ** Stores to the registers *)

Lemma wp_wr_cr v (Q : unit -> H -> Prop) h f :
  fpec_of h = f -> fpec_writes W32 FLASH_CR v f = true ->
  (forall h' ed, Z.of_nat ed < 0xB0000 ->
     fpec_of h' = fpec_write_cr ed v (with_busy 0 f) -> Q tt h') ->
  wp (wr32 FLASH_CR v) Q h.
Proof.
  intros <- Hw HQ. apply wp_wr_fpec; [done|]. intros h' Hh'.
  apply (HQ h' (erase_polls h)); [apply erase_polls_bound|exact Hh'].
Qed.

(** [FLASH->CR |= m] and [FLASH->CR &= m] on an unlocked, idle controller. *)
Lemma wp_or_cr m (Q : unit -> H -> Prop) h f :
  fpec_of h = f -> fp_key f = KUnlocked -> fp_busy f = 0%nat ->
  fpec_writes W32 FLASH_CR (Z.lor (fp_cr f) m) f = true ->
  (forall h' ed, Z.of_nat ed < 0xB0000 ->
     fpec_of h' = fpec_write_cr ed (Z.lor (fp_cr f) m) f -> Q tt h') ->
  wp (or32 FLASH_CR m) Q h.
Proof.
  intros <- Hk Hb Hw HQ. unfold or32. apply wp_bind, wp_rd_fpec; [done|].
  intros h1 Hh1. revert Hh1. unfold fpec_read. cbn [Z.eqb FLASH_CR FLASH_SR fst snd].
  change (FLASH_CR =? FLASH_SR) with false. change (FLASH_CR =? FLASH_CR) with true.
  cbn [fst snd]. rewrite decide_True, Z.lor_0_r by done. intros Hh1.
  apply (wp_wr_cr _ _ _ _ Hh1 Hw). by rewrite with_busy_id.
Qed.

Lemma wp_and_cr m (Q : unit -> H -> Prop) h f :
  fpec_of h = f -> fp_key f = KUnlocked -> fp_busy f = 0%nat ->
  fpec_writes W32 FLASH_CR (Z.land (fp_cr f) m) f = true ->
  (forall h' ed, Z.of_nat ed < 0xB0000 ->
     fpec_of h' = fpec_write_cr ed (Z.land (fp_cr f) m) f -> Q tt h') ->
  wp (and32 FLASH_CR m) Q h.
Proof.
  intros <- Hk Hb Hw HQ. unfold and32. apply wp_bind, wp_rd_fpec; [done|].
  intros h1 Hh1. revert Hh1. unfold fpec_read.
  change (FLASH_CR =? FLASH_SR) with false. change (FLASH_CR =? FLASH_CR) with true.
  cbn [fst snd]. rewrite decide_True, Z.lor_0_r by done. intros Hh1.
  apply (wp_wr_cr _ _ _ _ Hh1 Hw). by rewrite with_busy_id.
Qed.

Lemma wp_wr_ar p (Q : unit -> H -> Prop) h f :
  fpec_of h = f -> fp_busy f = 0%nat ->
  (forall h', fpec_of h' = with_ar p f -> Q tt h') ->
  wp (wr32 FLASH_AR p) Q h.
Proof.
  intros <- Hb HQ. apply wp_wr_fpec; [done|]. intros h' Hh'. apply HQ. rewrite Hh'.
  unfold fpec_write. by rewrite with_busy_id.
Qed.

(** ** Page erase *)

Lemma wp_ErasePage_ready (Q : FLASH_Status -> H -> Prop) h f p :
  fpec_of h = f -> ready f -> no_error f -> in_flash p = true ->
  (forall h', fpec_of h' = with_ar p (erase_page_op p f) ->
     Q (status_of (erase_page_op p f)) h') ->
  wp (FLASH_ErasePage p) Q h.
Proof.
  intros Hf [Hk Hb Hc Hwf] Hne Hp HQ. unfold FLASH_ErasePage.
  apply wp_bind, (wp_wait_idle _ _ f); [done..|]. intros h1 Hh1.
  rewrite status_no_error, bool_decide_eq_true_2 by done.
  unfold erase_page_op in HQ. destruct (fp_wrp f p) eqn:Hw.
  all: destruct f as [m k c e a b w]; cbn in Hk, Hb, Hc, HQ, Hwf, Hw; subst k b c.
  all: apply wp_bind, (wp_or_cr _ _ _ _ Hh1); [done..|]; intros h2 ed2 _ Hh2; fpec_step Hh2.
  all: apply wp_bind, (wp_wr_ar _ _ _ _ Hh2); [done|]; intros h3 Hh3.
  all: apply wp_bind, (wp_or_cr _ _ _ _ Hh3); [done|done|cbn; by rewrite Hp|].
  all: intros h4 ed4 Hed Hh4; fpec_step Hh4; unfold erase_page_op in Hh4; cbn in Hh4;
    rewrite Hw in Hh4; cbn in Hh4.
  all: apply wp_bind, (wp_wait _ _ _ _ Hh4); [by apply testbit_lor_flag|done|]; intros h5 Hh5.
  all: apply wp_bind, (wp_and_cr _ _ _ _ Hh5); [done..|]; intros h6 ed6 _ Hh6; fpec_step Hh6.
  all: apply wp_ret, HQ; exact Hh6.
Qed.

(** With an error pending the driver refuses, and the controller keeps it. *)
Lemma wp_ErasePage_error (Q : FLASH_Status -> H -> Prop) h f p :
  fpec_of h = f -> ready f -> ~ no_error f ->
  (forall h', fpec_of h' = f -> Q (status_of f) h') ->
  wp (FLASH_ErasePage p) Q h.
Proof.
  intros Hf Hr Hne HQ. unfold FLASH_ErasePage.
  apply wp_bind, (wp_wait_idle _ _ f); [done|apply Hr|apply Hr|done|]. intros h1 Hh1.
  rewrite bool_decide_eq_false_2 by (by apply status_error; [|apply Hr]).
  by apply wp_ret, HQ.
Qed.

(** ** Programming *)

Lemma wp_wr_half a v (Q : unit -> H -> Prop) h f :
  fpec_of h = f -> fp_key f = KUnlocked -> fp_busy f = 0%nat -> fp_cr f = 1 ->
  in_flash a = true -> Z.even a = true ->
  (forall h' pd, Z.of_nat pd < 0x2000 ->
     fpec_of h' = with_busy pd (program_half_op a v f) -> Q tt h') ->
  wp (wr16 a v) Q h.
Proof.
  intros <- Hk Hb Hc Ha He HQ. apply wp_wr_fpec.
  { unfold fpec_writes. rewrite Ha, He, Hc, bool_decide_eq_true_2 by done. done. }
  intros h' Hh'. apply (HQ h' (prog_polls h)); [apply prog_polls_bound|].
  rewrite Hh'. unfold fpec_write. rewrite with_busy_id by done.
  apply in_flash_range in Ha. unfold flash_first, flash_end in Ha.
  rewrite !(proj2 (Z.eqb_neq a _)) by (unfold FLASH_KEYR, FLASH_SR, FLASH_CR, FLASH_AR, FLASH_R_BASE; lia).
  done.
Qed.

(** [FLASH->CR &= CR_PG_Reset] and [FLASH->CR |= CR_PG_Set] *)
Lemma wp_pg_set (Q : unit -> H -> Prop) h f :
  fpec_of h = f -> ready f ->
  (forall h', fpec_of h' = with_cr 1 f -> Q tt h') ->
  wp (or32 FLASH_CR CR_PG_Set) Q h.
Proof.
  intros Hf [Hk Hb Hc Hwf] HQ.
  apply (wp_or_cr _ _ _ _ Hf); [done..|by rewrite Hc|]. intros h' ed _ Hh'.
  rewrite Hc in Hh'. fpec_step Hh'. by apply HQ.
Qed.

Lemma wp_pg_reset (Q : unit -> H -> Prop) h f :
  fpec_of h = with_cr 1 f -> ready f ->
  (forall h', fpec_of h' = f -> Q tt h') ->
  wp (and32 FLASH_CR CR_PG_Reset) Q h.
Proof.
  intros Hf [Hk Hb Hc Hwf] HQ.
  apply (wp_and_cr _ _ _ _ Hf); [done..|]. intros h' ed _ Hh'.
  fpec_step Hh'. apply HQ. rewrite Hh'. destruct f; cbn in *; by subst.
Qed.

Lemma status_with_cr c f : status_of (with_cr c f) = status_of f.
Proof. done. Qed.

(** A store in program mode and the wait for its end. *)
Lemma wp_half_and_wait a v (Q : FLASH_Status -> H -> Prop) h f :
  fpec_of h = with_cr 1 f -> ready f -> in_flash a = true -> Z.even a = true ->
  (forall h', fpec_of h' = with_cr 1 (program_half_op a v f) ->
     Q (status_of (program_half_op a v f)) h') ->
  wp (_ ← wr16 a v; FLASH_WaitForLastOperation ProgramTimeout) Q h.
Proof.
  intros Hf Hr Ha He HQ. pose proof (half_op_ready a v f Hr) as Hr'.
  apply wp_bind, (wp_wr_half _ _ _ _ _ Hf); [apply Hr|apply Hr|done..|].
  intros h1 pd Hpd Hh1. rewrite half_op_cr in Hh1.
  apply (wp_wait _ _ _ _ Hh1); [apply Hr'|done|]. intros h2 Hh2.
  change (with_busy 0 (with_busy pd ?g)) with (with_busy 0 g) in *.
  rewrite (with_busy_id (with_cr 1 _)) in Hh2 |- * by apply Hr'. by apply HQ.
Qed.

Lemma wp_ProgramHalfWord_ready (Q : FLASH_Status -> H -> Prop) h f a v :
  fpec_of h = f -> ready f -> no_error f -> in_flash a = true -> Z.even a = true ->
  (forall h', fpec_of h' = program_half_op a v f ->
     Q (status_of (program_half_op a v f)) h') ->
  wp (FLASH_ProgramHalfWord a v) Q h.
Proof.
  intros Hf Hr Hne Ha He HQ. unfold FLASH_ProgramHalfWord.
  apply wp_bind, (wp_wait_idle _ _ f); [done|apply Hr|apply Hr|done|]. intros h1 Hh1.
  rewrite status_no_error, bool_decide_eq_true_2 by (done || apply Hr).
  apply wp_bind, (wp_pg_set _ _ _ Hh1 Hr). intros h2 Hh2.
  apply wp_bind_assoc, wp_bind, (wp_half_and_wait _ _ _ _ _ Hh2); [done..|].
  intros h3 Hh3. apply wp_bind, (wp_pg_reset _ _ _ Hh3); [by apply half_op_ready|].
  intros h4 Hh4. by apply wp_ret, HQ.
Qed.

Lemma wp_ProgramWord_ready (Q : FLASH_Status -> H -> Prop) h f a d :
  fpec_of h = f -> ready f -> no_error f ->
  in_flash a = true -> in_flash (a + 2) = true -> Z.even a = true ->
  (forall h', fpec_of h' = program_word_op a d f ->
     Q (status_of (program_word_op a d f)) h') ->
  wp (FLASH_ProgramWord a d) Q h.
Proof.
  intros Hf Hr Hne Ha Ha2 He HQ. unfold FLASH_ProgramWord.
  apply wp_bind, (wp_wait_idle _ _ f); [done|apply Hr|apply Hr|done|]. intros h1 Hh1.
  rewrite status_no_error, bool_decide_eq_true_2 by (done || apply Hr).
  apply wp_bind, (wp_pg_set _ _ _ Hh1 Hr). intros h2 Hh2.
  apply wp_bind_assoc, wp_bind, (wp_half_and_wait _ _ _ _ _ Hh2); [done..|].
  unfold program_word_op in HQ. pose proof (half_op_ready a (u16 d) f Hr) as Hr1.
  intros h3 Hh3. case_bool_decide as Hst.
  - assert (Hu : u32 (a + 2) = a + 2).
    { apply in_flash_range in Ha2. unfold u32. apply Z.mod_small.
      unfold flash_first, flash_end in Ha2. lia. }
    rewrite Hu. apply wp_bind_assoc, wp_bind, (wp_half_and_wait _ _ _ _ _ Hh3); [done..| |].
    { by rewrite Z.even_add, He. }
    intros h4 Hh4. apply wp_bind, (wp_pg_reset _ _ _ Hh4); [by apply half_op_ready|].
    intros h5 Hh5. by apply wp_ret, HQ.
  - apply wp_bind, (wp_pg_reset _ _ _ Hh3 Hr1). intros h4 Hh4. by apply wp_ret, HQ.
Qed.

Lemma wp_ProgramWord_error (Q : FLASH_Status -> H -> Prop) h f a d :
  fpec_of h = f -> ready f -> ~ no_error f ->
  (forall h', fpec_of h' = f -> Q (status_of f) h') ->
  wp (FLASH_ProgramWord a d) Q h.
Proof.
  intros Hf Hr Hne HQ. unfold FLASH_ProgramWord.
  apply wp_bind, (wp_wait_idle _ _ f); [done|apply Hr|apply Hr|done|]. intros h1 Hh1.
  rewrite bool_decide_eq_false_2 by (by apply status_error; [|apply Hr]).
  by apply wp_ret, HQ.
Qed.

(** ** Lock and unlock *)

Lemma wp_Unlock (Q : unit -> H -> Prop) h f :
  fpec_of h = f -> fp_key f = KLocked -> fp_busy f = 0%nat ->
  (forall h', fpec_of h' = with_key KUnlocked f -> Q tt h') ->
  wp FLASH_Unlock Q h.
Proof.
  intros <- Hk Hb HQ. unfold FLASH_Unlock.
  assert (Hw : fpec_writes W32 FLASH_KEYR FLASH_KEY1 (fpec_of h) = true).
  { cbn. by rewrite bool_decide_eq_true_2 by congruence. }
  apply wp_bind, (wp_wr_fpec _ _ _ _ _ Hw).
  intros h1 Hh1. unfold fpec_write in Hh1. rewrite with_busy_id in Hh1 by done.
  unfold fpec_keyr in Hh1. rewrite Hk in Hh1. cbn in Hh1.
  apply wp_wr_fpec.
  { cbn. rewrite Hh1. done. }
  intros h2 Hh2. apply HQ. rewrite Hh2, Hh1. destruct (fpec_of h); cbn in *; by subst.
Qed.

Lemma wp_Lock (Q : unit -> H -> Prop) h f :
  fpec_of h = f -> ready f ->
  (forall h', fpec_of h' = with_key KLocked f -> Q tt h') ->
  wp FLASH_Lock Q h.
Proof.
  intros Hf [Hk Hb Hc Hwf] HQ. unfold FLASH_Lock.
  apply (wp_or_cr _ _ _ _ Hf); [done..|by rewrite Hc|]. intros h' ed _ Hh'. apply HQ.
  rewrite Hc in Hh'. rewrite Hh'. unfold fpec_write_cr. rewrite decide_True by done.
  cbn. by destruct f; cbn in *; subst.
Qed.
End spec.
