(* ===== verification/MemFacts.v ===== *)
(** Facts on memories: flash contents as functions from addresses to bytes, and byte
    strings in a memory. *)
From S2P Require Import Prelude Mmio Fpec FlashDriver FlashSpec.

(** * Bytes and words *)

Lemma byte_of_range v k : 0 <= byte_of v k < 2 ^ 8.
Proof. unfold byte_of. apply Z.mod_pos_bound. lia. Qed.

Lemma le16_bound m a : bytes m -> 0 <= le16 m a < 2 ^ 16.
Proof. intros Hb. unfold le16. pose proof (Hb a). pose proof (Hb (a + 1)). lia. Qed.

Lemma le32_bound m a : bytes m -> 0 <= le32 m a < 2 ^ 32.
Proof.
  intros Hb. unfold le32. pose proof (le16_bound m a Hb). pose proof (le16_bound m (a + 2) Hb). lia.
Qed.

(** Splitting a little-endian word gives its bytes back. *)
Lemma byte_of_le32 m a k : bytes m -> 0 <= k < 4 -> byte_of (le32 m a) k = m (a + k).
Proof.
  intros Hb Hk. unfold le32, le16, byte_of.
  pose proof (Hb a). pose proof (Hb (a + 1)). pose proof (Hb (a + 2)). pose proof (Hb (a + 2 + 1)).
  assert (k = 0 \/ k = 1 \/ k = 2 \/ k = 3) as [-> | [-> | [-> | ->]]] by lia;
    cbn [Z.mul Pos.mul]; rewrite ?Z.add_0_r; replace (a + 3) with (a + 2 + 1) by lia;
    Z.div_mod_to_equations; lia.
Qed.

Lemma le16_ext m m' a :
  m a = m' a -> m (a + 1) = m' (a + 1) -> le16 m a = le16 m' a.
Proof. unfold le16. congruence. Qed.

Lemma le32_ext m m' a :
  (forall k, 0 <= k < 4 -> m (a + k) = m' (a + k)) -> le32 m a = le32 m' a.
Proof.
  intros Hm. unfold le32. f_equal; [|f_equal]; apply le16_ext;
    [replace a with (a + 0) by lia|..];
    replace (a + 2 + 1) with (a + 3) by lia; apply Hm; lia.
Qed.

Lemma le32_shift m m' a b :
  (forall k, 0 <= k < 4 -> m (a + k) = m' (b + k)) -> le32 m a = le32 m' b.
Proof.
  intros Hm. unfold le32, le16.
  pose proof (Hm 0 ltac:(lia)) as H0. pose proof (Hm 1 ltac:(lia)) as H1.
  pose proof (Hm 2 ltac:(lia)) as H2. pose proof (Hm 3 ltac:(lia)) as H3.
  rewrite !Z.add_0_r in H0.
  replace (a + 2 + 1) with (a + 3) by lia. replace (b + 2 + 1) with (b + 3) by lia.
  congruence.
Qed.

(** * Good controllers *)

(** Ready, with no error pending. *)
Definition good (f : fpec) : Prop := ready f /\ no_error f.

(** No address of the [n] bytes from [a] is write-protected. *)
Definition unprotected (f : fpec) (a n : Z) : Prop :=
  forall x, a <= x < a + n -> fp_wrp f x = false.
Definition erased (m : Z -> Z) (a n : Z) : Prop := forall x, a <= x < a + n -> m x = 0xFF.

Lemma good_status f : good f -> status_of f = FLASH_COMPLETE.
Proof. intros [Hr Hn]. apply status_no_error; [done|apply Hr]. Qed.

Lemma good_op_done m f : good f -> good (op_done m f).
Proof.
  intros [[Hk Hb Hc Hs] [H2 H4]]. split; split; try done;
    by apply testbit_lor_flag.
Qed.

Lemma good_with_ar p f : good f -> good (with_ar p f).
Proof. intros [[Hk Hb Hc Hs] [H2 H4]]. by split; split. Qed.

Lemma good_with_mem m f : good f -> good (with_mem m f).
Proof. intros [[Hk Hb Hc Hs] [H2 H4]]. by split; split. Qed.

#[export] Hint Resolve good_op_done good_with_ar good_with_mem : fpec_db.

(** ** Page erase *)
Lemma erase_op_unprotected p f :
  fp_wrp f p = false ->
  erase_page_op p f = op_done (erase_range (page_start p) page_size (fp_mem f)) f.
Proof. intros Hw. unfold erase_page_op. by rewrite Hw. Qed.

Lemma erase_op_protected p f :
  fp_wrp f p = true -> erase_page_op p f = op_refused SR_WRPRTERR f.
Proof. intros Hw. unfold erase_page_op. by rewrite Hw. Qed.

Lemma page_start_aligned p : p mod page_size = 0 -> page_start p = p.
Proof. unfold page_start, page_size. intros. Z.div_mod_to_equations. lia. Qed.

(** ** Word program *)
Lemma half_op_erased a v f :
  fp_wrp f a = false -> fp_mem f a = 0xFF -> fp_mem f (a + 1) = 0xFF ->
  program_half_op a v f = op_done (set16 a v (fp_mem f)) f.
Proof.
  intros Hw H0 H1. unfold program_half_op, le16. rewrite H0, H1, Hw. done.
Qed.

Lemma half_op_not_erased a v f :
  le16 (fp_mem f) a <> 0xFFFF -> v <> 0 ->
  program_half_op a v f = op_refused SR_PGERR f.
Proof.
  intros Hm Hv. unfold program_half_op.
  by rewrite (proj2 (Z.eqb_neq _ _) Hm), (proj2 (Z.eqb_neq _ _) Hv).
Qed.

Lemma byte_of_low d k : 0 <= k < 2 -> byte_of (u16 d) k = byte_of d k.
Proof.
  intros Hk. unfold byte_of, u16. assert (k = 0 \/ k = 1) as [-> | ->] by lia;
    cbn [Z.mul]; Z.div_mod_to_equations; lia.
Qed.

Lemma byte_of_high d k : 0 <= k < 2 -> byte_of (u16 (Z.shiftr d 16)) k = byte_of d (k + 2).
Proof.
  intros Hk. rewrite byte_of_low, Z.shiftr_div_pow2 by lia. unfold byte_of.
  assert (k = 0 \/ k = 1) as [-> | ->] by lia;
    cbn [Z.mul Z.add Pos.mul Pos.add]; Z.div_mod_to_equations; lia.
Qed.

Lemma word_op_erased a d f :
  good f -> unprotected f a 4 -> erased (fp_mem f) a 4 ->
  good (program_word_op a d f) /\ fp_wrp (program_word_op a d f) = fp_wrp f /\
  (forall x, fp_mem (program_word_op a d f) x = set32 a d (fp_mem f) x).
Proof.
  intros Hg Hw He. unfold program_word_op.
  rewrite (half_op_erased a) by (apply Hw || apply He; lia).
  rewrite bool_decide_eq_true_2 by (apply good_status; eauto with fpec_db).
  assert (Hm : forall x, a + 2 <= x < a + 4 -> set16 a (u16 d) (fp_mem f) x = 0xFF).
  { intros x Hx. unfold set16. rewrite !(proj2 (Z.eqb_neq x _)) by lia. apply He. lia. }
  rewrite half_op_erased by (cbn; first [apply Hw|apply Hm]; lia).
  split; [eauto with fpec_db|]. split; [done|]. intros x. cbn.
  unfold set16, set32. destruct (Z.leb_spec a x), (Z.ltb_spec x (a + 4)); cbn [andb].
  - assert (x = a \/ x = a + 1 \/ x = a + 2 \/ x = a + 2 + 1) as [-> | [-> | [-> | ->]]] by lia;
      repeat (rewrite (proj2 (Z.eqb_neq _ _)) by lia); rewrite ?Z.eqb_refl.
    + rewrite byte_of_low by lia. f_equal; lia.
    + rewrite byte_of_low by lia. f_equal; lia.
    + rewrite byte_of_high by lia. f_equal; lia.
    + rewrite byte_of_high by lia. f_equal; lia.
  - by repeat (rewrite (proj2 (Z.eqb_neq _ _)) by lia).
  - by repeat (rewrite (proj2 (Z.eqb_neq _ _)) by lia).
  - lia.
Qed.

(** A word whose low half-word is not erased is refused, and nothing changes
    but the error flag. *)
Lemma word_op_not_erased a d f :
  ready f -> le16 (fp_mem f) a <> 0xFFFF -> u16 d <> 0 ->
  program_word_op a d f = op_refused SR_PGERR f /\
  status_of (op_refused SR_PGERR f) = FLASH_ERROR_PG.
Proof.
  intros Hr Hm Hd. unfold program_word_op. rewrite half_op_not_erased by done.
  assert (Hs : status_of (op_refused SR_PGERR f) = FLASH_ERROR_PG).
  { unfold status_of. cbn [op_refused with_err fp_busy fp_err].
    rewrite decide_True by apply Hr. rewrite Z.lor_spec. by rewrite orb_true_r. }
  split; [|done]. rewrite Hs. by rewrite bool_decide_eq_false_2.
Qed.

(** * Statements that leave the flash controller alone *)
Section quiet.
Context {H : Type} `{FpecBus H}.

Definition quiet {A} (m : M H A) : Prop :=
  forall h, wp m (fun _ h' => fpec_of h' = fpec_of h) h.

Lemma quiet_ret {A} (a : A) : quiet (mret a).
Proof. intros h. by apply wp_ret. Qed.

Lemma quiet_bind {A B} (m : M H A) (k : A -> M H B) :
  quiet m -> (forall a, quiet (k a)) -> quiet (m ≫= k).
Proof.
  intros Hm Hk h. apply wp_bind. eapply wp_mono; [apply Hm|]. intros a h1 H1'. cbn in H1'.
  eapply wp_mono; [apply Hk|]. intros b h2 H2. cbn in *. congruence.
Qed.

Lemma quiet_rd w a : fpec_owns a = false -> quiet (rd w a).
Proof. intros Ha h. apply wp_rd. by apply fpec_read_frame. Qed.

Lemma quiet_wr w a v : fpec_owns a = false -> quiet (wr w a v).
Proof. intros Ha h. apply wp_wr. by apply fpec_write_frame. Qed.

Lemma quiet_or32 a v : fpec_owns a = false -> quiet (or32 a v).
Proof. intros Ha. apply quiet_bind; [by apply quiet_rd|]. intros. by apply quiet_wr. Qed.

Lemma quiet_and32 a v : fpec_owns a = false -> quiet (and32 a v).
Proof. intros Ha. apply quiet_bind; [by apply quiet_rd|]. intros. by apply quiet_wr. Qed.

Lemma quiet_loop {A B} (mu : A -> Z) fuel (body : A -> M H (A + B)) a :
  0 <= mu a < Z.pos fuel ->
  (forall a, 0 <= mu a -> forall h, wp (body a) (fun r h' => fpec_of h' = fpec_of h /\
      match r with inl a' => 0 <= mu a' < mu a | inr _ => True end) h) ->
  quiet (loop fuel body a).
Proof.
  intros Ha Hbody h.
  apply (wp_loop (fun _ h' => fpec_of h' = fpec_of h) (fun a _ => mu a)); [done..|].
  intros a' h' Hh' Hmu. eapply wp_mono; [by apply Hbody|].
  intros [a2|b] h2 [H2 Hr]; rewrite H2, Hh'; done.
Qed.

Lemma wp_quiet {A} (m : M H A) (Q : A -> H -> Prop) h f :
  quiet m -> fpec_of h = f -> (forall a h', fpec_of h' = f -> Q a h') -> wp m Q h.
Proof.
  intros Hm Hf HQ. eapply wp_mono; [apply Hm|]. intros a h' Hh'. apply HQ. cbn in Hh'. congruence.
Qed.
End quiet.

(** Straight-line code on registers of other peripherals. *)
Ltac quiet_step :=
  first [ by apply quiet_ret | by apply quiet_wr | by apply quiet_rd
        | by apply quiet_or32 | by apply quiet_and32
        | apply quiet_bind; [|intros ?] | case_match ].
Ltac solve_quiet := repeat quiet_step; auto with quiet_db.

#[export] Hint Resolve quiet_ret quiet_bind quiet_rd quiet_wr quiet_or32 quiet_and32 : quiet_db.

(** * Byte strings in memory *)

(** The memory [m] with the bytes [l] stored from [a]. *)
Definition write_bytes (a : Z) (l : list Z) (m : Z -> Z) : Z -> Z := fun x =>
  if a <=? x then default (m x) (l !! Z.to_nat (x - a)) else m x.
Definition len (l : list Z) : Z := Z.of_nat (length l).
(** A packet buffer as a memory. *)
Definition buf_mem (l : list Z) : Z -> Z := fun k => default 0 (l !! Z.to_nat k).
Definition byte_list (l : list Z) : Prop := Forall (fun b => 0 <= b < 2 ^ 8) l.

Lemma buf_mem_bytes l : byte_list l -> bytes (buf_mem l).
Proof.
  intros Hl k. unfold buf_mem. destruct (l !! Z.to_nat k) as [b|] eqn:E; cbn; [|lia].
  by eapply (Forall_lookup_1 _ _ _ _ Hl).
Qed.

Lemma write_bytes_nil a m x : write_bytes a [] m x = m x.
Proof. unfold write_bytes. by case_match. Qed.

Lemma write_bytes_out a l m x : x < a \/ a + len l <= x -> write_bytes a l m x = m x.
Proof.
  intros Hx. unfold write_bytes. destruct (Z.leb_spec a x); [|done].
  rewrite lookup_ge_None_2; [done|]. unfold len in Hx. lia.
Qed.

Lemma write_bytes_in a l m k : 0 <= k < len l -> write_bytes a l m (a + k) = buf_mem l k.
Proof.
  intros Hk. unfold write_bytes, buf_mem. rewrite (proj2 (Z.leb_le _ _)) by lia.
  replace (a + k - a) with k by lia. unfold len in Hk.
  destruct (lookup_lt_is_Some_2 l (Z.to_nat k)) as [b ->]; [lia|done].
Qed.

Lemma write_bytes_ext a l m m' x : m x = m' x -> write_bytes a l m x = write_bytes a l m' x.
Proof. intros Hm. unfold write_bytes. by rewrite Hm. Qed.

Lemma write_bytes_app a l1 l2 m x :
  write_bytes a (l1 ++ l2) m x = write_bytes (a + len l1) l2 (write_bytes a l1 m) x.
Proof.
  unfold write_bytes, len. destruct (Z.leb_spec a x); destruct (Z.leb_spec (a + Z.of_nat (length l1)) x);
    try lia; try done.
  - rewrite lookup_app_r by lia. rewrite (lookup_ge_None_2 l1) by lia.
    replace (Z.to_nat (x - a) - length l1)%nat with (Z.to_nat (x - (a + Z.of_nat (length l1)))) by lia.
    done.
  - by rewrite lookup_app_l by lia.
Qed.

(** One word of the loop: the next four bytes. *)
Lemma write_bytes_step a l m i x : byte_list l -> 0 <= i -> i + 4 <= len l ->
  set32 (a + i) (le32 (buf_mem l) i) (write_bytes a (take (Z.to_nat i) l) m) x
  = write_bytes a (take (Z.to_nat (i + 4)) l) m x.
Proof.
  intros Hl Hi Hlen. unfold set32, len in *.
  destruct (Z.leb_spec (a + i) x); cbn [andb]; [destruct (Z.ltb_spec x (a + i + 4)); cbn [andb]|].
  - rewrite byte_of_le32 by (lia || by apply buf_mem_bytes).
    unfold buf_mem, write_bytes.
    rewrite (proj2 (Z.leb_le a x)) by lia. rewrite lookup_take_lt by lia.
    destruct (lookup_lt_is_Some_2 l (Z.to_nat (x - a))) as [b Hb]; [lia|].
    replace (i + (x - (a + i))) with (x - a) by lia. by rewrite Hb.
  - rewrite !write_bytes_out; [done|right..]; unfold len; rewrite length_take; lia.
  - unfold write_bytes. case_match; [|done]. by rewrite !lookup_take_lt by lia.
Qed.

Lemma lookup_buf_mem l i : 0 <= i < len l -> l !! Z.to_nat i = Some (buf_mem l i).
Proof.
  intros Hi. unfold buf_mem, len in *.
  destruct (lookup_lt_is_Some_2 l (Z.to_nat i)) as [b ->]; [lia|done].
Qed.
