(* ===== verification/Rcc.v ===== *)
(** The reset and clock control driver: stm32f10x_rcc.c (the same file in both
    firmware trees), as compiled for the STM32F10X_CL. *)
From S2P Require Import Prelude Mmio.

(** * Addresses and bit-band aliases (stm32f10x.h and the head of the source) *)
Definition PERIPH_BASE : Z := 0x40000000.
Definition PERIPH_BB_BASE : Z := 0x42000000.
Definition RCC_BASE : Z := 0x40021000.
Definition RCC_OFFSET : Z := RCC_BASE - PERIPH_BASE.
Definition RCC_CR := RCC_BASE + 0x00.
Definition RCC_CFGR := RCC_BASE + 0x04.
Definition RCC_CIR := RCC_BASE + 0x08.
Definition RCC_APB2RSTR := RCC_BASE + 0x0C.
Definition RCC_APB1RSTR := RCC_BASE + 0x10.
Definition RCC_AHBENR := RCC_BASE + 0x14.
Definition RCC_APB2ENR := RCC_BASE + 0x18.
Definition RCC_APB1ENR := RCC_BASE + 0x1C.
Definition RCC_BDCR := RCC_BASE + 0x20.
Definition RCC_CSR := RCC_BASE + 0x24.
Definition RCC_AHBRSTR := RCC_BASE + 0x28.
Definition RCC_CFGR2 := RCC_BASE + 0x2C.

(** The alias word of bit [n] of the register at [off] from the peripheral base. *)
Definition bit_band (off n : Z) : Z := PERIPH_BB_BASE + off * 32 + n * 4.
Definition CR_HSION_BB := bit_band RCC_OFFSET 0x00.
Definition CR_PLLON_BB := bit_band RCC_OFFSET 0x18.
Definition CR_PLL2ON_BB := bit_band RCC_OFFSET 0x1A.
Definition CR_PLL3ON_BB := bit_band RCC_OFFSET 0x1C.
Definition CR_CSSON_BB := bit_band RCC_OFFSET 0x13.
Definition CFGR_OTGFSPRE_BB := bit_band (RCC_OFFSET + 0x04) 0x16.
Definition BDCR_RTCEN_BB := bit_band (RCC_OFFSET + 0x20) 0x0F.
Definition BDCR_BDRST_BB := bit_band (RCC_OFFSET + 0x20) 0x10.
Definition CSR_LSION_BB := bit_band (RCC_OFFSET + 0x24) 0x00.
Definition CFGR2_I2S2SRC_BB := bit_band (RCC_OFFSET + 0x2C) 0x11.
Definition CFGR2_I2S3SRC_BB := bit_band (RCC_OFFSET + 0x2C) 0x12.

(** * Masks *)
Definition CR_HSEBYP_Reset : Z := 0xFFFBFFFF.
Definition CR_HSEBYP_Set : Z := 0x00040000.
Definition CR_HSEON_Reset : Z := 0xFFFEFFFF.
Definition CR_HSEON_Set : Z := 0x00010000.
Definition CR_HSITRIM_Mask : Z := 0xFFFFFF07.
Definition CFGR_PLL_Mask : Z := 0xFFC2FFFF.
Definition CFGR_PLLMull_Mask : Z := 0x003C0000.
Definition CFGR_PLLSRC_Mask : Z := 0x00010000.
Definition CFGR_SWS_Mask : Z := 0x0000000C.
Definition CFGR_SW_Mask : Z := 0xFFFFFFFC.
Definition CFGR_HPRE_Reset_Mask : Z := 0xFFFFFF0F.
Definition CFGR_HPRE_Set_Mask : Z := 0x000000F0.
Definition CFGR_PPRE1_Reset_Mask : Z := 0xFFFFF8FF.
Definition CFGR_PPRE1_Set_Mask : Z := 0x00000700.
Definition CFGR_PPRE2_Reset_Mask : Z := 0xFFFFC7FF.
Definition CFGR_PPRE2_Set_Mask : Z := 0x00003800.
Definition CFGR_ADCPRE_Reset_Mask : Z := 0xFFFF3FFF.
Definition CFGR_ADCPRE_Set_Mask : Z := 0x0000C000.
Definition CSR_RMVF_Set : Z := 0x01000000.
Definition CFGR2_PREDIV1SRC : Z := 0x00010000.
Definition CFGR2_PREDIV1 : Z := 0x0000000F.
Definition CFGR2_PREDIV2 : Z := 0x000000F0.
Definition CFGR2_PLL2MUL : Z := 0x00000F00.
Definition CFGR2_PLL3MUL : Z := 0x0000F000.
Definition FLAG_Mask : Z := 0x1F.
Definition CIR_BYTE2_ADDRESS : Z := 0x40021009.
Definition CIR_BYTE3_ADDRESS : Z := 0x4002100A.
Definition CFGR_BYTE4_ADDRESS : Z := 0x40021007.
Definition BDCR_ADDRESS : Z := PERIPH_BASE + RCC_OFFSET + 0x20.

Definition HSI_VALUE : Z := 8000000.
Definition HSE_VALUE : Z := 25000000.
Definition HSE_STARTUP_TIMEOUT : Z := 0x0500.
Definition RCC_FLAG_HSERDY : Z := 0x31.
Definition RCC_FLAG_PLL3RDY : Z := 0x3D.
Definition RCC_HSE_ON : Z := 0x00010000.
Definition RCC_HSE_Bypass : Z := 0x00040000.
Definition RCC_LSE_ON : Z := 0x01.
Definition RCC_LSE_Bypass : Z := 0x04.
Definition APBAHBPrescTable : list Z := [0; 0; 0; 0; 1; 2; 3; 4; 1; 2; 3; 4; 6; 7; 8; 9].
Definition ADCPrescTable : list Z := [2; 4; 6; 8].

Inductive ErrorStatus : Set := ERROR | SUCCESS.

(** [RCC_ClocksTypeDef] *)
Record RCC_ClocksTypeDef : Type := Clocks {
  SYSCLK_Frequency : Z; HCLK_Frequency : Z; PCLK1_Frequency : Z;
  PCLK2_Frequency : Z; ADCCLK_Frequency : Z
}.

(** [(uint32_t)NewState] *)
Definition state_bit (s : FunctionalState) : Z := match s with ENABLE => 1 | DISABLE => 0 end.

(** [reg |= m] when enabled, [reg &= ~m] when disabled. *)
Definition switch32 {H} `{Bus H} (reg m : Z) (s : FunctionalState) : M H unit :=
  match s with ENABLE => or32 reg m | DISABLE => and32 reg (not32 m) end.

Section rcc.
Context {H : Type} `{Bus H}.

Definition RCC_DeInit : M H unit :=
  _ ← or32 RCC_CR 0x00000001;
  _ ← and32 RCC_CFGR 0xF0FF0000;
  _ ← and32 RCC_CR 0xFEF6FFFF;
  _ ← and32 RCC_CR 0xFFFBFFFF;
  _ ← and32 RCC_CFGR 0xFF80FFFF;
  _ ← and32 RCC_CR 0xEBFFFFFF;
  _ ← wr32 RCC_CIR 0x00FF0000;
  wr32 RCC_CFGR2 0x00000000.

Definition RCC_HSEConfig (RCC_HSE : Z) : M H unit :=
  _ ← and32 RCC_CR CR_HSEON_Reset;
  _ ← and32 RCC_CR CR_HSEBYP_Reset;
  if RCC_HSE =? RCC_HSE_ON then or32 RCC_CR CR_HSEON_Set
  else if RCC_HSE =? RCC_HSE_Bypass then or32 RCC_CR (Z.lor CR_HSEBYP_Set CR_HSEON_Set)
  else mret tt.

Definition RCC_GetFlagStatus (RCC_FLAG : Z) : M H FlagStatus :=
  let tmp := Z.shiftr RCC_FLAG 5 in
  statusreg ← (if tmp =? 1 then rd32 RCC_CR
               else if tmp =? 2 then rd32 RCC_BDCR else rd32 RCC_CSR);
  let tmp := Z.land RCC_FLAG FLAG_Mask in
  mret (if negb (Z.land statusreg (Z.shiftl 1 tmp) =? 0) then SET else RESET).

(** The do-while loop: the counter is incremented before it is tested. *)
Definition hse_wait_body (StartUpCounter : Z) : M H (Z + Z) :=
  HSEStatus ← RCC_GetFlagStatus RCC_FLAG_HSERDY;
  let StartUpCounter := StartUpCounter + 1 in
  mret (if negb (StartUpCounter =? HSE_STARTUP_TIMEOUT) && bool_decide (HSEStatus = RESET)
        then inl StartUpCounter else inr StartUpCounter).

Definition RCC_WaitForHSEStartUp : M H ErrorStatus :=
  _ ← loop (Z.to_pos HSE_STARTUP_TIMEOUT) hse_wait_body 0;
  st ← RCC_GetFlagStatus RCC_FLAG_HSERDY;
  mret (if bool_decide (st <> RESET) then SUCCESS else ERROR).

(** [tmpreg = reg; tmpreg &= mask; tmpreg |= v; reg = tmpreg] *)
Definition field32 (reg mask v : Z) : M H unit :=
  tmpreg ← rd32 reg; wr32 reg (Z.lor (Z.land tmpreg mask) v).

Definition RCC_AdjustHSICalibrationValue (HSICalibrationValue : Z) : M H unit :=
  field32 RCC_CR CR_HSITRIM_Mask (Z.shiftl HSICalibrationValue 3).
Definition RCC_HSICmd (NewState : FunctionalState) : M H unit :=
  wr32 CR_HSION_BB (state_bit NewState).
Definition RCC_PLLConfig (RCC_PLLSource RCC_PLLMul : Z) : M H unit :=
  field32 RCC_CFGR CFGR_PLL_Mask (Z.lor RCC_PLLSource RCC_PLLMul).
Definition RCC_PLLCmd (NewState : FunctionalState) : M H unit :=
  wr32 CR_PLLON_BB (state_bit NewState).
Definition RCC_PREDIV1Config (RCC_PREDIV1_Source RCC_PREDIV1_Div : Z) : M H unit :=
  field32 RCC_CFGR2 (not32 (Z.lor CFGR2_PREDIV1 CFGR2_PREDIV1SRC))
          (Z.lor RCC_PREDIV1_Source RCC_PREDIV1_Div).
Definition RCC_PREDIV2Config (RCC_PREDIV2_Div : Z) : M H unit :=
  field32 RCC_CFGR2 (not32 CFGR2_PREDIV2) RCC_PREDIV2_Div.
Definition RCC_PLL2Config (RCC_PLL2Mul : Z) : M H unit :=
  field32 RCC_CFGR2 (not32 CFGR2_PLL2MUL) RCC_PLL2Mul.
Definition RCC_PLL2Cmd (NewState : FunctionalState) : M H unit :=
  wr32 CR_PLL2ON_BB (state_bit NewState).
Definition RCC_PLL3Config (RCC_PLL3Mul : Z) : M H unit :=
  field32 RCC_CFGR2 (not32 CFGR2_PLL3MUL) RCC_PLL3Mul.
Definition RCC_PLL3Cmd (NewState : FunctionalState) : M H unit :=
  wr32 CR_PLL3ON_BB (state_bit NewState).
Definition RCC_SYSCLKConfig (RCC_SYSCLKSource : Z) : M H unit :=
  field32 RCC_CFGR CFGR_SW_Mask RCC_SYSCLKSource.
Definition RCC_GetSYSCLKSource : M H Z :=
  cfgr ← rd32 RCC_CFGR; mret (u8 (Z.land cfgr CFGR_SWS_Mask)).
Definition RCC_HCLKConfig (RCC_SYSCLK : Z) : M H unit :=
  field32 RCC_CFGR CFGR_HPRE_Reset_Mask RCC_SYSCLK.
Definition RCC_PCLK1Config (RCC_HCLK : Z) : M H unit :=
  field32 RCC_CFGR CFGR_PPRE1_Reset_Mask RCC_HCLK.
Definition RCC_PCLK2Config (RCC_HCLK : Z) : M H unit :=
  field32 RCC_CFGR CFGR_PPRE2_Reset_Mask (u32 (Z.shiftl RCC_HCLK 3)).
Definition RCC_ITConfig (RCC_IT : Z) (NewState : FunctionalState) : M H unit :=
  v ← rd8 CIR_BYTE2_ADDRESS;
  match NewState with
  | ENABLE => wr8 CIR_BYTE2_ADDRESS (Z.lor v RCC_IT)
  | DISABLE => wr8 CIR_BYTE2_ADDRESS (Z.land v (u8 (not32 RCC_IT)))
  end.
Definition RCC_OTGFSCLKConfig (RCC_OTGFSCLKSource : Z) : M H unit :=
  wr32 CFGR_OTGFSPRE_BB RCC_OTGFSCLKSource.
Definition RCC_ADCCLKConfig (RCC_PCLK2 : Z) : M H unit :=
  field32 RCC_CFGR CFGR_ADCPRE_Reset_Mask RCC_PCLK2.
Definition RCC_I2S2CLKConfig (RCC_I2S2CLKSource : Z) : M H unit :=
  wr32 CFGR2_I2S2SRC_BB RCC_I2S2CLKSource.
Definition RCC_I2S3CLKConfig (RCC_I2S3CLKSource : Z) : M H unit :=
  wr32 CFGR2_I2S3SRC_BB RCC_I2S3CLKSource.
Definition RCC_LSEConfig (RCC_LSE : Z) : M H unit :=
  _ ← wr8 BDCR_ADDRESS 0;
  _ ← wr8 BDCR_ADDRESS 0;
  if RCC_LSE =? RCC_LSE_ON then wr8 BDCR_ADDRESS RCC_LSE_ON
  else if RCC_LSE =? RCC_LSE_Bypass then wr8 BDCR_ADDRESS (Z.lor RCC_LSE_Bypass RCC_LSE_ON)
  else mret tt.
Definition RCC_LSICmd (NewState : FunctionalState) : M H unit :=
  wr32 CSR_LSION_BB (state_bit NewState).
Definition RCC_RTCCLKConfig (RCC_RTCCLKSource : Z) : M H unit := or32 RCC_BDCR RCC_RTCCLKSource.
Definition RCC_RTCCLKCmd (NewState : FunctionalState) : M H unit :=
  wr32 BDCR_RTCEN_BB (state_bit NewState).

(** The branches of [case 0x08] of RCC_GetClocksFreq: the PLL is the system
    clock. *)
Definition pll_frequency : M H Z :=
  cfgr ← rd32 RCC_CFGR;
  let pllmull := Z.land cfgr CFGR_PLLMull_Mask in
  cfgr ← rd32 RCC_CFGR;
  let pllsource := Z.land cfgr CFGR_PLLSRC_Mask in
  let pllmull := Z.shiftr pllmull 18 in
  let pllmull := if negb (pllmull =? 0x0D) then pllmull + 2 else 13 / 2 in
  if pllsource =? 0 then mret (u32 (Z.shiftr HSI_VALUE 1 * pllmull))
  else
    cfgr2 ← rd32 RCC_CFGR2;
    let prediv1source := Z.land cfgr2 CFGR2_PREDIV1SRC in
    cfgr2 ← rd32 RCC_CFGR2;
    let prediv1factor := Z.land cfgr2 CFGR2_PREDIV1 + 1 in
    if prediv1source =? 0 then mret (u32 (HSE_VALUE / prediv1factor * pllmull))
    else
      cfgr2 ← rd32 RCC_CFGR2;
      let prediv2factor := Z.shiftr (Z.land cfgr2 CFGR2_PREDIV2) 4 + 1 in
      cfgr2 ← rd32 RCC_CFGR2;
      let pll2mull := Z.shiftr (Z.land cfgr2 CFGR2_PLL2MUL) 8 + 2 in
      mret (u32 (u32 (HSE_VALUE / prediv2factor * pll2mull) / prediv1factor * pllmull)).

Definition RCC_GetClocksFreq : M H RCC_ClocksTypeDef :=
  cfgr ← rd32 RCC_CFGR;
  let tmp := Z.land cfgr CFGR_SWS_Mask in
  sysclk ← (if tmp =? 0x00 then mret HSI_VALUE
            else if tmp =? 0x04 then mret HSE_VALUE
            else if tmp =? 0x08 then pll_frequency
            else mret HSI_VALUE);
  cfgr ← rd32 RCC_CFGR;
  presc ← index APBAHBPrescTable (Z.shiftr (Z.land cfgr CFGR_HPRE_Set_Mask) 4);
  let hclk := Z.shiftr sysclk presc in
  cfgr ← rd32 RCC_CFGR;
  presc ← index APBAHBPrescTable (Z.shiftr (Z.land cfgr CFGR_PPRE1_Set_Mask) 8);
  let pclk1 := Z.shiftr hclk presc in
  cfgr ← rd32 RCC_CFGR;
  presc ← index APBAHBPrescTable (Z.shiftr (Z.land cfgr CFGR_PPRE2_Set_Mask) 11);
  let pclk2 := Z.shiftr hclk presc in
  cfgr ← rd32 RCC_CFGR;
  presc ← index ADCPrescTable (Z.shiftr (Z.land cfgr CFGR_ADCPRE_Set_Mask) 14);
  mret (Clocks sysclk hclk pclk1 pclk2 (pclk2 / presc)).

Definition RCC_AHBPeriphClockCmd (RCC_AHBPeriph : Z) (NewState : FunctionalState) : M H unit :=
  switch32 RCC_AHBENR RCC_AHBPeriph NewState.
Definition RCC_APB2PeriphClockCmd (RCC_APB2Periph : Z) (NewState : FunctionalState) : M H unit :=
  switch32 RCC_APB2ENR RCC_APB2Periph NewState.
Definition RCC_APB1PeriphClockCmd (RCC_APB1Periph : Z) (NewState : FunctionalState) : M H unit :=
  switch32 RCC_APB1ENR RCC_APB1Periph NewState.
Definition RCC_AHBPeriphResetCmd (RCC_AHBPeriph : Z) (NewState : FunctionalState) : M H unit :=
  switch32 RCC_AHBRSTR RCC_AHBPeriph NewState.
Definition RCC_APB2PeriphResetCmd (RCC_APB2Periph : Z) (NewState : FunctionalState) : M H unit :=
  switch32 RCC_APB2RSTR RCC_APB2Periph NewState.
Definition RCC_APB1PeriphResetCmd (RCC_APB1Periph : Z) (NewState : FunctionalState) : M H unit :=
  switch32 RCC_APB1RSTR RCC_APB1Periph NewState.
Definition RCC_BackupResetCmd (NewState : FunctionalState) : M H unit :=
  wr32 BDCR_BDRST_BB (state_bit NewState).
Definition RCC_ClockSecuritySystemCmd (NewState : FunctionalState) : M H unit :=
  wr32 CR_CSSON_BB (state_bit NewState).
Definition RCC_MCOConfig (RCC_MCO : Z) : M H unit := wr8 CFGR_BYTE4_ADDRESS RCC_MCO.
Definition RCC_ClearFlag : M H unit := or32 RCC_CSR CSR_RMVF_Set.
Definition RCC_GetITStatus (RCC_IT : Z) : M H FlagStatus :=
  cir ← rd32 RCC_CIR;
  mret (if negb (Z.land cir RCC_IT =? 0) then SET else RESET).
Definition RCC_ClearITPendingBit (RCC_IT : Z) : M H unit := wr8 CIR_BYTE3_ADDRESS RCC_IT.
End rcc.
