(* ===== verification/ClockTree.v ===== *)
(** The clock tree of the STM32F107 (RM0008, chapter 8), as the start-up code
    sees it: oscillators, PLLs, the system clock switch and the flash access
    control register, stated as the class [ClockBus] over [Bus]. *)
From S2P Require Import Prelude Mmio Fpec Rcc.

(** Stored bits of the registers. *)
Definition CR_stored_bits : Z := 0x150D00F9.
Definition CFGR_stored_bits : Z := 0x0F7FFFF3.
Definition CFGR2_stored_bits : Z := 0x0007FFFF.
Definition ACR_stored_bits : Z := 0x1F.
(** The PLL fields of RCC_CFGR: source, LSB of PREDIV1, multiplier. *)
Definition CFGR_pll_bits : Z := 0x003F0000.
(** Bit numbers of the switches in RCC_CR; the ready flag is one above. *)
Definition HSION : Z := 0.
Definition HSEON : Z := 16.
Definition PLLON : Z := 24.
Definition PLL2ON : Z := 26.
Definition PLL3ON : Z := 28.

Record clk : Type := Clk {
  ck_cr : Z;              (* RCC_CR: its stored bits *)
  ck_cfgr : Z;            (* RCC_CFGR without SWS *)
  ck_cfgr2 : Z;
  ck_acr : Z;             (* FLASH_ACR without PRFTBS *)
  ck_rdy : Z;             (* ready sources, at the position of their switch *)
  ck_sws : Z;             (* the system clock in use: 0 HSI, 1 HSE, 2 PLL *)
  ck_wait : nat;          (* polls until what was switched settles *)
  ck_cal : Z;             (* factory calibration, HSICAL *)
  ck_hse : option Z       (* frequency of a working crystal *)
}.

(** ** What settles *)
Definition has_hse (f : clk) : bool := match ck_hse f with Some _ => true | None => false end.
Definition hse_up (f : clk) : bool := Z.testbit (ck_cr f) HSEON && has_hse f.
Definition pll2_up (f : clk) : bool := Z.testbit (ck_cr f) PLL2ON && hse_up f.
Definition pll3_up (f : clk) : bool := Z.testbit (ck_cr f) PLL3ON && hse_up f.
Definition pll_input_up (f : clk) : bool :=
  if Z.testbit (ck_cfgr f) 16 then
    if Z.testbit (ck_cfgr2 f) 16 then pll2_up f else hse_up f
  else Z.testbit (ck_cr f) HSION.
Definition pll_up (f : clk) : bool := Z.testbit (ck_cr f) PLLON && pll_input_up f.
Definition flag (b : bool) (n : Z) : Z := if b then 2 ^ n else 0.
Definition settled_rdy (f : clk) : Z :=
  Z.lor (flag (Z.testbit (ck_cr f) HSION) HSION)
  (Z.lor (flag (hse_up f) HSEON)
  (Z.lor (flag (pll_up f) PLLON)
  (Z.lor (flag (pll2_up f) PLL2ON) (flag (pll3_up f) PLL3ON)))).
Definition source_up (f : clk) (sw : Z) : bool :=
  if sw =? 0 then Z.testbit (ck_cr f) HSION
  else if sw =? 1 then hse_up f else if sw =? 2 then pll_up f else false.
Definition settle (f : clk) : clk :=
  let sw := Z.land (ck_cfgr f) 3 in
  Clk (ck_cr f) (ck_cfgr f) (ck_cfgr2 f) (ck_acr f) (settled_rdy f)
      (if source_up f sw then sw else ck_sws f) 0 (ck_cal f) (ck_hse f).
(** A poll of RCC_CR or RCC_CFGR. *)
Definition tick (f : clk) : clk :=
  match ck_wait f with
  | O => settle f
  | S n => Clk (ck_cr f) (ck_cfgr f) (ck_cfgr2 f) (ck_acr f) (ck_rdy f) (ck_sws f) n
               (ck_cal f) (ck_hse f)
  end.

(** ** The frequency of the system clock, as a quotient *)
Definition pll_mul2 (f : clk) : Z :=  (* twice the factor: 6.5 exists *)
  let x := Z.shiftr (Z.land (ck_cfgr f) 0x003C0000) 18 in
  if x =? 13 then 13 else 2 * (x + 2).
Definition prediv1 (f : clk) : Z := Z.land (ck_cfgr2 f) 0xF + 1.
Definition prediv2 (f : clk) : Z := Z.shiftr (Z.land (ck_cfgr2 f) 0xF0) 4 + 1.
Definition pll2_mul (f : clk) : Z :=
  let x := Z.shiftr (Z.land (ck_cfgr2 f) 0xF00) 8 in if x =? 15 then 20 else x + 2.
Definition hse_hz (f : clk) : Z := default 0 (ck_hse f).
Definition pll_hz (f : clk) : Z * Z :=
  if Z.testbit (ck_cfgr f) 16 then
    if Z.testbit (ck_cfgr2 f) 16 then
      (hse_hz f * pll2_mul f * pll_mul2 f, prediv2 f * prediv1 f * 2)
    else (hse_hz f * pll_mul2 f, prediv1 f * 2)
  else (HSI_VALUE * pll_mul2 f, 4).
Definition sysclk_hz (f : clk) (sw : Z) : Z * Z :=
  if sw =? 1 then (hse_hz f, 1) else if sw =? 2 then pll_hz f else (HSI_VALUE, 1).
(** The clock is exactly, or at most, [hz]. *)
Definition runs_at (f : clk) (hz : Z) : Prop :=
  fst (sysclk_hz f (ck_sws f)) = hz * snd (sysclk_hz f (ck_sws f)).
Definition at_most (q : Z * Z) (hz : Z) : bool := fst q <=? hz * snd q.

(** ** Registers *)
Definition cr_value (f : clk) : Z :=
  Z.lor (Z.lor (ck_cr f) (Z.shiftl (ck_rdy f) 1)) (Z.shiftl (u8 (ck_cal f)) 8).
Definition cfgr_value (f : clk) : Z := Z.lor (ck_cfgr f) (Z.shiftl (ck_sws f) 2).
Definition acr_value (f : clk) : Z :=
  Z.lor (ck_acr f) (if Z.testbit (ck_acr f) 4 then 0x20 else 0).

Definition clk_read (a : Z) (f : clk) : Z * clk :=
  if a =? RCC_CR then (cr_value (tick f), tick f)
  else if a =? RCC_CFGR then (cfgr_value (tick f), tick f)
  else if a =? RCC_CFGR2 then (ck_cfgr2 f, f)
  else (acr_value f, f).

(** [n]: the polls until the sources switched on are ready. *)
Definition clk_write (n : nat) (a v : Z) (f : clk) : clk :=
  if a =? RCC_CR then
    Clk (Z.land v CR_stored_bits) (ck_cfgr f) (ck_cfgr2 f) (ck_acr f)
        (Z.land (ck_rdy f) (Z.land v CR_stored_bits)) (ck_sws f) n (ck_cal f) (ck_hse f)
  else if a =? RCC_CFGR then
    Clk (ck_cr f) (Z.land v CFGR_stored_bits) (ck_cfgr2 f) (ck_acr f)
        (ck_rdy f) (ck_sws f) n (ck_cal f) (ck_hse f)
  else if a =? RCC_CFGR2 then
    Clk (ck_cr f) (ck_cfgr f) (Z.land v CFGR2_stored_bits) (ck_acr f)
        (ck_rdy f) (ck_sws f) (ck_wait f) (ck_cal f) (ck_hse f)
  else
    Clk (ck_cr f) (ck_cfgr f) (ck_cfgr2 f) (Z.land v ACR_stored_bits)
        (ck_rdy f) (ck_sws f) (ck_wait f) (ck_cal f) (ck_hse f).

Definition clk_reads (a : Z) : bool :=
  (a =? RCC_CR) || (a =? RCC_CFGR) || (a =? RCC_CFGR2) || (a =? FLASH_ACR).

(** The source in use stays on. *)
Definition keeps_source (f : clk) (v : Z) : bool :=
  if ck_sws f =? 0 then Z.testbit v HSION
  else if ck_sws f =? 1 then Z.testbit v HSEON
  else Z.testbit v PLLON && Z.testbit v HSION
       && Z.testbit v HSEON && Z.testbit v PLL2ON.
(** Wait states for a frequency: 0 up to 24 MHz, 1 up to 48 MHz, 2 above. *)
Definition enough_latency (acr : Z) (q : Z * Z) : bool :=
  at_most q 24000000 || (at_most q 48000000 && (1 <=? Z.land acr 7))
  || (at_most q 72000000 && (2 <=? Z.land acr 7)).
(** A write is covered when the manual allows it: the source in use stays on,
    a PLL is only configured while it is off, the new system clock does not
    exceed 72 MHz and the flash has the wait states for it. *)
Definition clk_writes (a v : Z) (f : clk) : bool :=
  if a =? RCC_CR then keeps_source f (Z.land v CR_stored_bits)
  else if a =? RCC_CFGR then
    let f' := clk_write 0 a v f in
    (negb (Z.testbit (ck_cr f) PLLON)
     || (Z.land v CFGR_pll_bits =? Z.land (ck_cfgr f) CFGR_pll_bits))
    && negb (Z.land v 3 =? 3)
    && enough_latency (ck_acr f) (sysclk_hz f' (Z.land v 3))
  else if a =? RCC_CFGR2 then
    negb (Z.testbit (ck_cr f) PLLON) && negb (Z.testbit (ck_cr f) PLL2ON)
    && negb (Z.testbit (ck_cr f) PLL3ON)
  else if a =? FLASH_ACR then
    enough_latency v (sysclk_hz f (ck_sws f)) && enough_latency v (sysclk_hz f (Z.land (ck_cfgr f) 3))
  else false.

(** Everything in the RCC block but the registers of the tree leaves it alone,
    and so do other addresses, bit-band aliases of the block excepted. *)
Definition clk_owns (a : Z) : bool :=
  clk_reads a || ((RCC_BASE <=? a) && (a <? RCC_BASE + 8)) || ((RCC_CFGR2 <=? a) && (a <? RCC_CFGR2 + 4))
  || ((FLASH_ACR <=? a) && (a <? FLASH_ACR + 4))
  || ((bit_band RCC_OFFSET 0 <=? a) && (a <? bit_band (RCC_OFFSET + 0x30) 0)).

Class ClockBus (H : Type) `{Bus H} := {
  clk_of : H -> clk;
  settle_polls : H -> nat;
  settle_polls_bound : forall h, Z.of_nat (settle_polls h) + 1 < HSE_STARTUP_TIMEOUT;
  clk_read_value : forall a h, clk_reads a = true ->
    fst (bus_read W32 a h) = fst (clk_read a (clk_of h));
  clk_read_state : forall a h, clk_reads a = true ->
    clk_of (snd (bus_read W32 a h)) = snd (clk_read a (clk_of h));
  clk_write_state : forall a v h, clk_writes a v (clk_of h) = true ->
    clk_of (bus_write W32 a v h) = clk_write (settle_polls h) a v (clk_of h);
  clk_read_frame : forall w a h, clk_owns a = false ->
    clk_of (snd (bus_read w a h)) = clk_of h;
  clk_write_frame : forall w a v h, clk_owns a = false ->
    clk_of (bus_write w a v h) = clk_of h
}.
