(* ===== verification/Gpio.v ===== *)
(** The GPIO driver: stm32f10x_gpio.c of the Standard Peripheral Library. *)
From S2P Require Import Prelude Mmio Rcc.

(** * Addresses and constants *)
Definition APB2PERIPH_BASE : Z := 0x40010000.
Definition AFIO_BASE : Z := APB2PERIPH_BASE.
Definition GPIOA : Z := APB2PERIPH_BASE + 0x0800.
Definition GPIOB : Z := APB2PERIPH_BASE + 0x0C00.
Definition GPIOC : Z := APB2PERIPH_BASE + 0x1000.
Definition GPIOD : Z := APB2PERIPH_BASE + 0x1400.
Definition GPIOE : Z := APB2PERIPH_BASE + 0x1800.
Definition GPIOF : Z := APB2PERIPH_BASE + 0x1C00.
Definition GPIOG : Z := APB2PERIPH_BASE + 0x2000.
(** Register offsets of [GPIO_TypeDef] and [AFIO_TypeDef]. *)
Definition CRL : Z := 0x00.
Definition CRH : Z := 0x04.
Definition IDR : Z := 0x08.
Definition ODR : Z := 0x0C.
Definition BSRR : Z := 0x10.
Definition BRR : Z := 0x14.
Definition LCKR : Z := 0x18.
Definition AFIO_EVCR := AFIO_BASE + 0x00.
Definition AFIO_MAPR := AFIO_BASE + 0x04.
Definition AFIO_EXTICR (i : Z) := AFIO_BASE + 0x08 + 4 * i.
Definition AFIO_MAPR2 := AFIO_BASE + 0x1C.
Definition EVCR_EVOE_BB := bit_band (AFIO_BASE - PERIPH_BASE) 0x07.
Definition MAPR_MII_RMII_SEL_BB := bit_band (AFIO_BASE - PERIPH_BASE + 0x04) 0x17.
Definition EVCR_PORTPINCONFIG_MASK : Z := 0xFF80.
Definition LSB_MASK : Z := 0xFFFF.
Definition DBGAFR_POSITION_MASK : Z := 0x000F0000.
Definition DBGAFR_SWJCFG_MASK : Z := 0xF0FFFFFF.
Definition DBGAFR_LOCATION_MASK : Z := 0x00200000.
Definition DBGAFR_NUMBITS_MASK : Z := 0x00100000.

Definition RCC_APB2Periph_AFIO : Z := 0x00000001.
Definition RCC_APB2Periph_GPIOA : Z := 0x00000004.
Definition RCC_APB2Periph_GPIOB : Z := 0x00000008.
Definition RCC_APB2Periph_GPIOC : Z := 0x00000010.
Definition RCC_APB2Periph_GPIOD : Z := 0x00000020.
Definition RCC_APB2Periph_GPIOE : Z := 0x00000040.
Definition RCC_APB2Periph_GPIOF : Z := 0x00000080.
Definition RCC_APB2Periph_GPIOG : Z := 0x00000100.

Definition GPIO_Speed_2MHz : Z := 2.
Definition GPIO_Speed_50MHz : Z := 3.
Definition GPIO_Mode_IN_FLOATING : Z := 0x04.
Definition GPIO_Mode_IPD : Z := 0x28.
Definition GPIO_Mode_IPU : Z := 0x48.
Definition GPIO_Mode_Out_PP : Z := 0x10.
Definition GPIO_Mode_AF_PP : Z := 0x18.
Definition GPIO_Pin (n : Z) : Z := Z.shiftl 1 n.
Definition GPIO_Pin_All : Z := 0xFFFF.

(** [GPIO_InitTypeDef] *)
Record GPIO_InitTypeDef : Type := GpioInit {
  gpio_pin : Z; gpio_speed : Z; gpio_mode : Z
}.

(** The four configuration bits that GPIO_Init gives to each selected pin. *)
Definition currentmode (s : GPIO_InitTypeDef) : Z :=
  let m := Z.land (gpio_mode s) 0x0F in
  if negb (Z.land (gpio_mode s) 0x10 =? 0) then Z.lor m (gpio_speed s) else m.

(** [tmpreg &= ~pinmask; tmpreg |= (currentmode << pos)] for the pin [pinpos]
    of the register. *)
Definition set_nibble (tmpreg pinpos mode : Z) : Z :=
  let pos := Z.shiftl pinpos 2 in
  let pinmask := Z.shiftl 0x0F pos in
  Z.lor (Z.land tmpreg (not32 pinmask)) (u32 (Z.shiftl mode pos)).

Section gpio.
Context {H : Type} `{Bus H}.

Definition reset_port (periph : Z) : M H unit :=
  _ ← RCC_APB2PeriphResetCmd periph ENABLE;
  RCC_APB2PeriphResetCmd periph DISABLE.

Definition GPIO_DeInit (GPIOx : Z) : M H unit :=
  if GPIOx =? GPIOA then reset_port RCC_APB2Periph_GPIOA
  else if GPIOx =? GPIOB then reset_port RCC_APB2Periph_GPIOB
  else if GPIOx =? GPIOC then reset_port RCC_APB2Periph_GPIOC
  else if GPIOx =? GPIOD then reset_port RCC_APB2Periph_GPIOD
  else if GPIOx =? GPIOE then reset_port RCC_APB2Periph_GPIOE
  else if GPIOx =? GPIOF then reset_port RCC_APB2Periph_GPIOF
  else if GPIOx =? GPIOG then reset_port RCC_APB2Periph_GPIOG
  else mret tt.

Definition GPIO_AFIODeInit : M H unit := reset_port RCC_APB2Periph_AFIO.

(** The pull resistor of an input with pull-up or pull-down is selected
    through the output register. *)
Definition select_pull (GPIOx mode bit : Z) : M H unit :=
  if mode =? GPIO_Mode_IPD then wr32 (GPIOx + BRR) (Z.shiftl 1 bit)
  else if mode =? GPIO_Mode_IPU then wr32 (GPIOx + BSRR) (Z.shiftl 1 bit)
  else mret tt.

(** The pin loop for the register of the pins from [first] on. *)
Definition gpio_init_body (GPIOx : Z) (s : GPIO_InitTypeDef) (first : Z) (r : Z * Z)
  : M H (Z * Z + Z) :=
  let '(pinpos, tmpreg) := r in
  if pinpos <? 0x08 then
    let pos := Z.shiftl 1 (pinpos + first) in
    let currentpin := Z.land (gpio_pin s) pos in
    if currentpin =? pos then
      let tmpreg := set_nibble tmpreg pinpos (currentmode s) in
      _ ← select_pull GPIOx (gpio_mode s) (pinpos + first);
      mret (inl (pinpos + 1, tmpreg))
    else mret (inl (pinpos + 1, tmpreg))
  else mret (inr tmpreg).

Definition gpio_init_reg (GPIOx : Z) (s : GPIO_InitTypeDef) (reg first : Z) : M H unit :=
  tmpreg ← rd32 (GPIOx + reg);
  tmpreg ← loop 9 (gpio_init_body GPIOx s first) (0, tmpreg);
  wr32 (GPIOx + reg) tmpreg.

Definition GPIO_Init (GPIOx : Z) (s : GPIO_InitTypeDef) : M H unit :=
  _ ← (if negb (Z.land (gpio_pin s) 0x00FF =? 0)
       then gpio_init_reg GPIOx s CRL 0 else mret tt);
  if 0x00FF <? gpio_pin s then gpio_init_reg GPIOx s CRH 8 else mret tt.

Definition GPIO_StructInit : GPIO_InitTypeDef :=
  GpioInit GPIO_Pin_All GPIO_Speed_2MHz GPIO_Mode_IN_FLOATING.

Definition GPIO_ReadInputDataBit (GPIOx GPIO_Pin : Z) : M H Z :=
  v ← rd32 (GPIOx + IDR); mret (if negb (Z.land v GPIO_Pin =? 0) then 1 else 0).
Definition GPIO_ReadInputData (GPIOx : Z) : M H Z :=
  v ← rd32 (GPIOx + IDR); mret (u16 v).
Definition GPIO_ReadOutputDataBit (GPIOx GPIO_Pin : Z) : M H Z :=
  v ← rd32 (GPIOx + ODR); mret (if negb (Z.land v GPIO_Pin =? 0) then 1 else 0).
Definition GPIO_ReadOutputData (GPIOx : Z) : M H Z :=
  v ← rd32 (GPIOx + ODR); mret (u16 v).
Definition GPIO_SetBits (GPIOx GPIO_Pin : Z) : M H unit := wr32 (GPIOx + BSRR) GPIO_Pin.
Definition GPIO_ResetBits (GPIOx GPIO_Pin : Z) : M H unit := wr32 (GPIOx + BRR) GPIO_Pin.
Definition GPIO_WriteBit (GPIOx GPIO_Pin BitVal : Z) : M H unit :=
  if negb (BitVal =? 0) then wr32 (GPIOx + BSRR) GPIO_Pin else wr32 (GPIOx + BRR) GPIO_Pin.
Definition GPIO_Write (GPIOx PortVal : Z) : M H unit := wr32 (GPIOx + ODR) PortVal.

(** The lock key sequence: write 1, write 0, write 1, read, read. *)
Definition GPIO_PinLockConfig (GPIOx GPIO_Pin : Z) : M H unit :=
  let tmp := Z.lor 0x00010000 GPIO_Pin in
  _ ← wr32 (GPIOx + LCKR) tmp;
  _ ← wr32 (GPIOx + LCKR) GPIO_Pin;
  _ ← wr32 (GPIOx + LCKR) tmp;
  _ ← rd32 (GPIOx + LCKR);
  _ ← rd32 (GPIOx + LCKR);
  mret tt.

Definition GPIO_EventOutputConfig (GPIO_PortSource GPIO_PinSource : Z) : M H unit :=
  tmpreg ← rd32 AFIO_EVCR;
  let tmpreg := Z.land tmpreg EVCR_PORTPINCONFIG_MASK in
  let tmpreg := Z.lor tmpreg (u32 (Z.shiftl GPIO_PortSource 0x04)) in
  wr32 AFIO_EVCR (Z.lor tmpreg GPIO_PinSource).

Definition GPIO_EventOutputCmd (NewState : FunctionalState) : M H unit :=
  wr32 EVCR_EVOE_BB (state_bit NewState).

Definition GPIO_PinRemapConfig (GPIO_Remap : Z) (NewState : FunctionalState) : M H unit :=
  let high := Z.land GPIO_Remap 0x80000000 =? 0x80000000 in
  tmpreg ← (if high then rd32 AFIO_MAPR2 else rd32 AFIO_MAPR);
  let tmpmask := Z.shiftr (Z.land GPIO_Remap DBGAFR_POSITION_MASK) 0x10 in
  let tmp := Z.land GPIO_Remap LSB_MASK in
  let both := Z.lor DBGAFR_LOCATION_MASK DBGAFR_NUMBITS_MASK in
  let shifted := shl32 tmp (Z.shiftr GPIO_Remap 0x15 * 0x10) in
  tmpreg ← (if Z.land GPIO_Remap both =? both then
              _ ← and32 AFIO_MAPR DBGAFR_SWJCFG_MASK;
              mret (Z.land tmpreg DBGAFR_SWJCFG_MASK)
            else if Z.land GPIO_Remap DBGAFR_NUMBITS_MASK =? DBGAFR_NUMBITS_MASK then
              let tmp1 := u32 (Z.shiftl 0x03 tmpmask) in
              mret (Z.lor (Z.land tmpreg (not32 tmp1)) (not32 DBGAFR_SWJCFG_MASK))
            else
              m ← shifted;
              mret (Z.lor (Z.land tmpreg (not32 m)) (not32 DBGAFR_SWJCFG_MASK)));
  tmpreg ← (match NewState with
            | ENABLE => m ← shifted; mret (Z.lor tmpreg m)
            | DISABLE => mret tmpreg
            end);
  if high then wr32 AFIO_MAPR2 tmpreg else wr32 AFIO_MAPR tmpreg.

Definition GPIO_EXTILineConfig (GPIO_PortSource GPIO_PinSource : Z) : M H unit :=
  let sh := 0x04 * Z.land GPIO_PinSource 0x03 in
  let tmp := Z.shiftl 0x0F sh in
  _ ← and32 (AFIO_EXTICR (Z.shiftr GPIO_PinSource 0x02)) (not32 tmp);
  or32 (AFIO_EXTICR (Z.shiftr GPIO_PinSource 0x02)) (u32 (Z.shiftl GPIO_PortSource sh)).

Definition GPIO_ETH_MediaInterfaceConfig (GPIO_ETH_MediaInterface : Z) : M H unit :=
  wr32 MAPR_MII_RMII_SEL_BB GPIO_ETH_MediaInterface.
End gpio.

(** * The interface: a bus with ports behind it *)
(** The configuration registers of the ports A to E, as GPIO_Init sees them. *)
Definition gpio_config (a : Z) : bool :=
  existsb (fun p => (a =? p + CRL) || (a =? p + CRH)) [GPIOA; GPIOB; GPIOC; GPIOD; GPIOE].
(** The data registers of the same ports. *)
Definition gpio_data (a : Z) : bool :=
  existsb (fun p => (p + IDR <=? a) && (a <? p + LCKR)) [GPIOA; GPIOB; GPIOC; GPIOD; GPIOE].

Class PortBus (H : Type) `{Bus H} := {
  port_of : H -> Z -> Z;
  port_read_value : forall a h, gpio_config a = true ->
    fst (bus_read W32 a h) = port_of h a;
  port_read_state : forall w a h b, port_of (snd (bus_read w a h)) b = port_of h b;
  port_write_config : forall a v h b, gpio_config a = true ->
    port_of (bus_write W32 a v h) b = if b =? a then v else port_of h b;
  port_write_data : forall a v h b, gpio_data a = true -> gpio_config b = true ->
    port_of (bus_write W32 a v h) b = port_of h b
}.
