(* ===== verification/Misc.v ===== *)
(** The NVIC and SysTick helpers: misc.c of the Standard Peripheral Library. *)
From S2P Require Import Prelude Mmio.

Definition SCB_BASE : Z := 0xE000ED00.
Definition SCB_VTOR := SCB_BASE + 0x08.
Definition SCB_AIRCR := SCB_BASE + 0x0C.
Definition SCB_SCR := SCB_BASE + 0x10.
Definition NVIC_BASE : Z := 0xE000E100.
Definition NVIC_ISER (i : Z) := NVIC_BASE + 4 * i.
Definition NVIC_ICER (i : Z) := NVIC_BASE + 0x80 + 4 * i.
Definition NVIC_IP (irq : Z) := NVIC_BASE + 0x300 + irq.
Definition SYSTICK_CTRL : Z := 0xE000E010.
Definition AIRCR_VECTKEY_MASK : Z := 0x05FA0000.
Definition NVIC_VectTab_FLASH : Z := 0x08000000.
Definition SysTick_CLKSource_HCLK : Z := 0x4.
Definition SysTick_CLKSource_HCLK_Div8 : Z := 0xFFFFFFFB.

(** [NVIC_InitTypeDef] *)
Record NVIC_InitTypeDef : Type := NvicInit {
  NVIC_IRQChannel : Z;
  NVIC_IRQChannelPreemptionPriority : Z;
  NVIC_IRQChannelSubPriority : Z;
  NVIC_IRQChannelCmd : FunctionalState
}.

Section misc.
Context {H : Type} `{Bus H}.

(** The priority that NVIC_Init computes from the priority group in AIRCR. *)
Definition nvic_priority (aircr pre sub : Z) : M H Z :=
  let tmppriority := Z.shiftr (u32 (0x700 - Z.land aircr 0x700)) 8 in
  let tmppre := u32 (0x4 - tmppriority) in
  let tmpsub := Z.shiftr 0x0F tmppriority in
  tmppriority ← shl32 pre tmppre;
  shl32 (Z.lor tmppriority (Z.land sub tmpsub)) 0x04.

Definition NVIC_PriorityGroupConfig (NVIC_PriorityGroup : Z) : M H unit :=
  wr32 SCB_AIRCR (Z.lor AIRCR_VECTKEY_MASK NVIC_PriorityGroup).

Definition NVIC_Init (s : NVIC_InitTypeDef) : M H unit :=
  let irq := NVIC_IRQChannel s in
  let bit := Z.shiftl 1 (Z.land irq 0x1F) in
  match NVIC_IRQChannelCmd s with
  | ENABLE =>
      aircr ← rd32 SCB_AIRCR;
      priority ← nvic_priority aircr (NVIC_IRQChannelPreemptionPriority s)
                               (NVIC_IRQChannelSubPriority s);
      _ ← wr8 (NVIC_IP irq) (u8 priority);
      wr32 (NVIC_ISER (Z.shiftr irq 5)) bit
  | DISABLE => wr32 (NVIC_ICER (Z.shiftr irq 5)) bit
  end.

Definition NVIC_SetVectorTable (NVIC_VectTab Offset : Z) : M H unit :=
  wr32 SCB_VTOR (Z.lor NVIC_VectTab (Z.land Offset 0x1FFFFF80)).

Definition NVIC_SystemLPConfig (LowPowerMode : Z) (NewState : FunctionalState) : M H unit :=
  match NewState with
  | ENABLE => or32 SCB_SCR LowPowerMode
  | DISABLE => and32 SCB_SCR (not32 LowPowerMode)
  end.

Definition SysTick_CLKSourceConfig (SysTick_CLKSource : Z) : M H unit :=
  if SysTick_CLKSource =? SysTick_CLKSource_HCLK
  then or32 SYSTICK_CTRL SysTick_CLKSource_HCLK
  else and32 SYSTICK_CTRL SysTick_CLKSource_HCLK_Div8.
End misc.
