(* ===== verification/TinyPrintf.v ===== *)
(** The formatted output of the firmware: tiny_printf.c (the same code in
    both firmware trees).  The buffer that the functions fill is the program
    state; the system call [_write] is a parameter. *)
From S2P Require Import Prelude.

(** ** The buffer: what was written to it, and its size in bytes. *)
Record pbuf : Type := Pbuf { pb_out : list Z; pb_cap : Z }.
(** [*buf++ = c]: undefined behaviour past the end. *)
Definition put (c : Z) : M pbuf unit := fun b =>
  if Z.of_nat (length (pb_out b)) <? pb_cap b
  then Ret tt (Pbuf (pb_out b ++ [u8 c]) (pb_cap b)) else Fault.
(** [*buf = 0], and the length of the string. *)
Definition put_end : M pbuf Z := fun b =>
  if Z.of_nat (length (pb_out b)) <? pb_cap b
  then Ret (Z.of_nat (length (pb_out b))) b else Fault.

(** The variable arguments: an [int] (as its 32 bits), or a string. *)
Inductive arg : Type := ArgInt (v : Z) | ArgStr (s : list Z).

(** [va_arg]: undefined when the argument is missing or of another type. *)
Definition va_int {S} (va : list arg) : M S (Z * list arg) :=
  match va with ArgInt v :: va => mret (v, va) | _ => fault end.
Definition va_str {S} (va : list arg) : M S (list Z * list arg) :=
  match va with ArgStr s :: va => mret (s, va) | _ => fault end.

(** Characters. *)
Definition ch_percent : Z := 37.
Definition ch_minus : Z := 45.
Definition ch_0 : Z := 48.
Definition ch_A : Z := 65.
Definition ch_X : Z := 88.
Definition ch_c : Z := 99.
Definition ch_d : Z := 100.
Definition ch_i : Z := 105.
Definition ch_s : Z := 115.
Definition ch_u : Z := 117.
Definition ch_x : Z := 120.
Definition ch_newline : Z := 10.

(** ** ts_itoa *)

(** [while (d/div >= base) div *= base;] *)
Definition itoa_scale_body (d base div : Z) : M pbuf (Z + Z) :=
  if base <=? d / div then mret (inl (s32 (div * base))) else mret (inr div).

(** The digit loop on [d] and [div]. *)
Definition itoa_digit_body (base : Z) (r : Z * Z) : M pbuf (Z * Z + unit) :=
  let '(d, div) := r in
  if negb (div =? 0) then
    let num := d / div in
    _ ← put (if 9 <? num then num - 10 + ch_A else num + ch_0);
    mret (inl (d mod div, div / base))
  else mret (inr tt).

Definition ts_itoa (d base : Z) : M pbuf unit :=
  div ← loop 33 (itoa_scale_body d base) 1;
  loop 34 (itoa_digit_body base) (d, div).

(** ** ts_formatstring *)

Fixpoint put_string (s : list Z) : M pbuf unit :=
  match s with
  | [] => mret tt
  | c :: s => _ ← put c; put_string s
  end.

(** [case 'd']: [val *= -1] overflows for the least integer. *)
Definition format_signed (v : Z) : M pbuf unit :=
  let val := s32 v in
  if val <? 0 then
    if val =? - 2 ^ 31 then fault
    else _ ← put ch_minus; ts_itoa (- val) 10
  else ts_itoa val 10.

(** The switch on the character after a percent sign. *)
Definition format_one (c : Z) (va : list arg) : M pbuf (list arg) :=
  if c =? ch_c then
    r ← va_int va; let '(v, va) := r in _ ← put v; mret va
  else if (c =? ch_d) || (c =? ch_i) then
    r ← va_int va; let '(v, va) := r in _ ← format_signed v; mret va
  else if c =? ch_s then
    r ← va_str va; let '(s, va) := r in _ ← put_string s; mret va
  else if c =? ch_u then
    r ← va_int va; let '(v, va) := r in _ ← ts_itoa (u32 v) 10; mret va
  else if (c =? ch_x) || (c =? ch_X) then
    r ← va_int va; let '(v, va) := r in _ ← ts_itoa (u32 v) 16; mret va
  else if c =? ch_percent then
    _ ← put ch_percent; mret va
  else mret va.

(** A percent sign at the end of the format makes the loop step over the
    terminator. *)
Fixpoint format_loop (fmt : list Z) (va : list arg) : M pbuf unit :=
  match fmt with
  | [] => mret tt
  | c :: fmt =>
      if c =? ch_percent then
        match fmt with
        | [] => fault
        | k :: fmt => va' ← format_one k va; format_loop fmt va'
        end
      else _ ← put c; format_loop fmt va
  end.

Definition ts_formatstring (fmt : list Z) (va : list arg) : M pbuf Z :=
  _ ← format_loop fmt va;
  put_end.

(** ** ts_formatlength *)
Definition length_one {S} (c : Z) (va : list arg) : M S (Z * list arg) :=
  if c =? ch_c then
    r ← va_int va; mret (1, snd r)
  else if (c =? ch_d) || (c =? ch_i) || (c =? ch_u) then
    r ← va_int va; mret (11, snd r)
  else if c =? ch_s then
    r ← va_str va; mret (Z.of_nat (length (fst r)), snd r)
  else if (c =? ch_x) || (c =? ch_X) then
    r ← va_int va; mret (8, snd r)
  else mret (1, va).

Fixpoint ts_formatlength {S} (fmt : list Z) (va : list arg) : M S Z :=
  match fmt with
  | [] => mret 0
  | c :: fmt =>
      if c =? ch_percent then
        match fmt with
        | [] => fault
        | k :: fmt =>
            r ← length_one k va; n ← ts_formatlength fmt (snd r); mret (fst r + n)
        end
      else n ← ts_formatlength fmt va; mret (1 + n)
  end.

(** Run on a local buffer of [cap] bytes: the string and its length. *)
Definition with_buffer {S A} (cap : Z) (m : M pbuf A) : M S (list Z * A) := fun s =>
  match m (Pbuf [] cap) with
  | Ret a b => Ret (pb_out b, a) s
  | Fault => Fault
  | Diverge => Diverge
  end.

(** ** The entry points *)
Section output.
Context {W : Type} (_write : Z -> list Z -> Z -> M W Z).

(** The caller's buffer has [cap] bytes. *)
Definition siprintf (cap : Z) (fmt : list Z) (va : list arg) : M W (list Z * Z) :=
  with_buffer cap (ts_formatstring fmt va).

Definition fiprintf (fd : Z) (fmt : list Z) (va : list arg) : M W Z :=
  length ← ts_formatlength fmt va;
  r ← with_buffer length (ts_formatstring fmt va);
  _write fd (fst r) (snd r).

Definition iprintf (fmt : list Z) (va : list arg) : M W Z :=
  length ← ts_formatlength fmt va;
  r ← with_buffer length (ts_formatstring fmt va);
  _write 1 (fst r) (snd r).

Definition EOF : Z := -1.

Definition fputs (s : list Z) (fd : Z) : M W Z :=
  let len := Z.of_nat (length s) in
  wlen ← _write fd s len;
  n ← _write fd [ch_newline] 1;
  mret (if wlen + n =? len + 1 then 0 else EOF).

Definition puts (s : list Z) : M W Z :=
  let len := Z.of_nat (length s) in
  numbytes ← _write 1 s len;
  n ← _write 1 [ch_newline] 1;
  mret (if numbytes + n =? len + 1 then 0 else EOF).

(** [count] elements of [size] bytes; [_write] answers an [int], which the
    division by the unsigned [size] takes modulo [2 ^ 32]. *)
Definition fwrite (buf : list Z) (size count fd : Z) : M W Z :=
  n ← _write fd buf (u32 (size * count));
  if size =? 0 then fault else mret (u32 n / size).
End output.
