(* ===== verification/TinyPrintfTheorems.v ===== *)
(** Correctness of the number conversion and of the length estimate of tiny_printf.c,
    and its properties. *)
From S2P Require Import Prelude TinyPrintf.

(** * Positional notation *)

Definition digit_char (n : Z) : Z := if 9 <? n then n - 10 + ch_A else n + ch_0.
(** The digits of [d] from that of [base ^ k] down. *)
Fixpoint digits (base : Z) (k : nat) (d : Z) : list Z :=
  match k with
  | O => [d]
  | S j => d / base ^ Z.of_nat k :: digits base j (d mod base ^ Z.of_nat k)
  end.
(** The number that a list of digits denotes. *)
Definition value (base : Z) (ds : list Z) : Z := fold_left (fun v x => v * base + x) ds 0.
(** The decimal, or hexadecimal, numeral of [d]: it denotes [d], its digits are
    below the base, and it has no leading zero. *)
Definition numeral (base d : Z) (ds : list Z) : Prop :=
  value base ds = d /\ Forall (fun x => 0 <= x < base) ds /\
  (ds = [d] \/ exists x l, ds = x :: l /\ x <> 0).

Lemma value_acc base ds : forall v,
  fold_left (fun v x => v * base + x) ds v = v * base ^ Z.of_nat (length ds) + value base ds.
Proof.
  unfold value. induction ds as [|x ds IH]; intros v; cbn [fold_left length].
  - cbn. lia.
  - rewrite IH, (IH (0 * base + x)), Nat2Z.inj_succ, Z.pow_succ_r by lia. ring.
Qed.

Lemma value_cons base x ds : value base (x :: ds) = x * base ^ Z.of_nat (length ds) + value base ds.
Proof. unfold value at 1. cbn [fold_left]. by rewrite value_acc. Qed.

Lemma digits_length base k d : length (digits base k d) = S k.
Proof. revert d. induction k as [|k IH]; intros d; [done|]. cbn [digits length]. by rewrite IH. Qed.

Lemma digits_value base k d : 2 <= base -> 0 <= d -> value base (digits base k d) = d.
Proof.
  intros Hb. revert d. induction k as [|k IH]; intros d Hd; [by unfold value; cbn|].
  assert (Hp : 0 < base ^ Z.of_nat (S k)) by (apply Z.pow_pos_nonneg; lia).
  cbn [digits]. rewrite value_cons, digits_length, IH by (apply Z.mod_pos_bound; lia).
  rewrite Z.mul_comm. symmetry. by apply Z.div_mod; lia.
Qed.

Lemma digits_range base k d : 2 <= base -> 0 <= d < base ^ Z.of_nat (S k) ->
  Forall (fun x => 0 <= x < base) (digits base k d).
Proof.
  intros Hb. revert d. induction k as [|k IH]; intros d Hd.
  - rewrite Z.pow_1_r in Hd. by apply Forall_cons_2; [lia|constructor].
  - assert (Hp : 0 < base ^ Z.of_nat (S k)) by (apply Z.pow_pos_nonneg; lia).
    cbn [digits]. constructor.
    + rewrite (Nat2Z.inj_succ (S k)), Z.pow_succ_r in Hd by lia.
      split; [apply Z.div_pos; lia|apply Z.div_lt_upper_bound; lia].
    + apply IH, Z.mod_pos_bound. lia.
Qed.

Lemma digits_numeral base k d : 2 <= base -> 0 <= d < base ^ Z.of_nat (S k) ->
  k = 0%nat \/ base ^ Z.of_nat k <= d -> numeral base d (digits base k d).
Proof.
  intros Hb Hd Hlead. split; [by apply digits_value; lia|]. split; [by apply digits_range|].
  destruct k as [|k]; [by left|right]. destruct Hlead as [|Hlead]; [done|].
  eexists _, _. split; [done|].
  assert (Hp : 0 < base ^ Z.of_nat (S k)) by (apply Z.pow_pos_nonneg; lia).
  assert (1 <= d / base ^ Z.of_nat (S k)) by (apply Z.div_le_lower_bound; lia). lia.
Qed.

(** * ts_itoa *)

(** The bases whose largest power below [2 ^ 32] fits an [int]. *)
Definition itoa_base (base : Z) (K : nat) : Prop :=
  2 <= base /\ base ^ Z.of_nat K < 2 ^ 31 /\ 2 ^ 32 <= base ^ Z.of_nat (S K).

Lemma wp_put (Q : unit -> pbuf -> Prop) c b :
  Z.of_nat (length (pb_out b)) < pb_cap b ->
  Q tt (Pbuf (pb_out b ++ [u8 c]) (pb_cap b)) -> wp (put c) Q b.
Proof. intros Hl HQ. unfold wp, put. by rewrite (proj2 (Z.ltb_lt _ _) Hl). Qed.

Lemma put_full c b : pb_cap b <= Z.of_nat (length (pb_out b)) -> put c b = Fault.
Proof. intros Hl. unfold put. by rewrite (proj2 (Z.ltb_ge _ _) Hl). Qed.

Lemma pow_mono base j k : 2 <= base -> (j <= k)%nat -> base ^ Z.of_nat j <= base ^ Z.of_nat k.
Proof. intros Hb Hj. apply Z.pow_le_mono_r; lia. Qed.

(** The scale loop finds the weight of the leading digit. *)
Lemma wp_itoa_scale (Q : Z -> pbuf -> Prop) b d base K :
  itoa_base base K -> 0 <= d < 2 ^ 32 ->
  (forall k, (k <= K)%nat -> k = 0%nat \/ base ^ Z.of_nat k <= d -> d < base ^ Z.of_nat (S k) ->
     Q (base ^ Z.of_nat k) b) ->
  wp (loop 33 (itoa_scale_body d base) 1) Q b.
Proof.
  intros (Hb & HK & HK1) Hd HQ.
  apply (wp_loop (fun div b' => b' = b /\ exists k, (k <= K)%nat /\ div = base ^ Z.of_nat k /\
                    (k = 0%nat \/ base ^ Z.of_nat k <= d))
                 (fun div _ => 32 - Z.log2 div)).
  - split; [done|]. exists 0%nat. split; [lia|]. split; [done|by left].
  - cbn. lia.
  - intros div b' (-> & k & Hk & -> & Hlead) _. unfold itoa_scale_body.
    assert (Hp : 0 < base ^ Z.of_nat k) by (apply Z.pow_pos_nonneg; lia).
    destruct (Z.leb_spec base (d / base ^ Z.of_nat k)) as [Hge|Hlt]; apply wp_ret.
    + assert (Hnext : base ^ Z.of_nat (S k) <= d).
      { rewrite Nat2Z.inj_succ, Z.pow_succ_r by lia.
        pose proof (Z.mul_div_le d (base ^ Z.of_nat k) Hp). nia. }
      assert (Hk' : (S k <= K)%nat).
      { destruct (le_lt_dec (S k) K); [done|]. assert (k = K) as -> by lia. lia. }
      pose proof (pow_mono base (S k) K Hb Hk') as Hm.
      assert (Hs : s32 (base ^ Z.of_nat k * base) = base ^ Z.of_nat (S k)).
      { rewrite Nat2Z.inj_succ, Z.pow_succ_r, Z.mul_comm in * by lia.
        unfold s32. rewrite Z.mod_small; lia. }
      rewrite Hs. assert (Hlog : Z.log2 (base ^ Z.of_nat k) < Z.log2 (base ^ Z.of_nat (S k))).
      { rewrite Nat2Z.inj_succ, Z.pow_succ_r by lia.
        pose proof (Z.log2_double (base ^ Z.of_nat k) Hp).
        pose proof (Z.log2_le_mono (2 * base ^ Z.of_nat k) (base * base ^ Z.of_nat k)). nia. }
      assert (Z.log2 (base ^ Z.of_nat (S k)) < 32) by (apply Z.log2_lt_pow2; lia).
      split; [|lia]. split; [done|]. exists (S k). split; [done|]. split; [done|by right].
    + apply HQ; [done|done|]. rewrite Nat2Z.inj_succ, Z.pow_succ_r by lia.
      pose proof (Z.mul_succ_div_gt d (base ^ Z.of_nat k) Hp). nia.
Qed.

(** The digit loop prints the digits from that weight down. *)
Lemma wp_itoa_digits (Q : unit -> pbuf -> Prop) b d base k :
  2 <= base <= 16 -> base ^ Z.of_nat k < 2 ^ 32 -> 0 <= d < base ^ Z.of_nat (S k) ->
  Z.of_nat (length (pb_out b)) + Z.of_nat (S k) <= pb_cap b ->
  Q tt (Pbuf (pb_out b ++ map digit_char (digits base k d)) (pb_cap b)) ->
  wp (loop 34 (itoa_digit_body base) (d, base ^ Z.of_nat k)) Q b.
Proof.
  intros Hb Hk Hd Hcap HQ.
  apply (wp_loop (fun r b' => pb_cap b' = pb_cap b /\ exists ds,
      pb_out b' = pb_out b ++ map digit_char ds /\
      (snd r = 0 /\ ds = digits base k d \/
       exists j, (j <= k)%nat /\ snd r = base ^ Z.of_nat j /\ 0 <= fst r < base ^ Z.of_nat (S j) /\
         digits base k d = ds ++ digits base j (fst r)))
    (fun r _ => if snd r =? 0 then 0 else Z.log2 (snd r) + 1)).
  - split; [done|]. exists []. split; [by rewrite app_nil_r|]. right. by exists k.
  - cbn [snd]. assert (0 < base ^ Z.of_nat k) by (apply Z.pow_pos_nonneg; lia).
    rewrite (proj2 (Z.eqb_neq _ _)) by lia.
    assert (Z.log2 (base ^ Z.of_nat k) < 32) by (apply Z.log2_lt_pow2; lia).
    pose proof (Z.log2_nonneg (base ^ Z.of_nat k)). lia.
  - intros [d' div] b' (Hc & ds & Hout & Hr) _. cbn [fst snd] in *. unfold itoa_digit_body.
    destruct Hr as [[-> ->] | (j & Hj & -> & Hd' & Hds)].
    { cbn [Z.eqb negb]. apply wp_ret. destruct b' as [o c]. cbn in *. by subst. }
    assert (Hp : 0 < base ^ Z.of_nat j) by (apply Z.pow_pos_nonneg; lia).
    rewrite (proj2 (Z.eqb_neq _ _)) by lia. cbn [negb].
    assert (Hnum : 0 <= d' / base ^ Z.of_nat j < base).
    { rewrite Nat2Z.inj_succ, Z.pow_succ_r in Hd' by lia.
      split; [apply Z.div_pos; lia|apply Z.div_lt_upper_bound; lia]. }
    apply wp_bind, wp_put.
    { assert (Hlen : length (digits base k d) = (length ds + length (digits base j d'))%nat)
        by (by rewrite Hds, length_app).
      rewrite !digits_length in Hlen. rewrite Hout, length_app, length_map, Hc. lia. }
    apply wp_ret. cbn [fst snd pb_out pb_cap].
    set (num := d' / base ^ Z.of_nat j) in *.
    assert (Hu8 : u8 (if 9 <? num then num - 10 + ch_A else num + ch_0) = digit_char num).
    { unfold digit_char, u8, ch_A, ch_0. case_match; apply Z.mod_small; lia. }
    rewrite Hu8, Hout. change [digit_char num] with (map digit_char [num]).
    rewrite <- app_assoc, <- map_app. split.
    + split; [done|]. exists (ds ++ [num]). split; [done|]. destruct j as [|j].
      * left. change (base ^ Z.of_nat 0) with 1 in *. split; [apply Z.div_small; lia|].
        rewrite Hds. cbn [digits]. subst num. by rewrite Z.div_1_r.
      * right. exists j. split; [lia|]. rewrite Nat2Z.inj_succ, Z.pow_succ_r at 1 by lia.
        split; [rewrite Z.mul_comm; apply Z.div_mul; lia|].
        split; [apply Z.mod_pos_bound; lia|]. rewrite Hds, <- app_assoc. done.
    + destruct j as [|j].
      * change (base ^ Z.of_nat 0) with 1. rewrite Z.div_small by lia. cbn. lia.
      * assert (Hq : base ^ Z.of_nat (S j) / base = base ^ Z.of_nat j).
        { rewrite Nat2Z.inj_succ, Z.pow_succ_r, Z.mul_comm by lia. apply Z.div_mul. lia. }
        rewrite Hq. assert (Hpj : 0 < base ^ Z.of_nat j) by (apply Z.pow_pos_nonneg; lia).
        rewrite (proj2 (Z.eqb_neq _ _)) by lia. pose proof (Z.log2_nonneg (base ^ Z.of_nat j)).
        rewrite (Nat2Z.inj_succ j), Z.pow_succ_r by lia.
        pose proof (Z.log2_double (base ^ Z.of_nat j) Hpj).
        pose proof (Z.log2_le_mono (2 * base ^ Z.of_nat j) (base * base ^ Z.of_nat j)). nia.
Qed.

(** The whole conversion. *)
Lemma wp_ts_itoa (Q : unit -> pbuf -> Prop) b d base K :
  itoa_base base K -> base <= 16 -> 0 <= d < 2 ^ 32 ->
  Z.of_nat (length (pb_out b)) + Z.of_nat (S K) <= pb_cap b ->
  (forall ds, numeral base d ds -> (length ds <= S K)%nat ->
     Q tt (Pbuf (pb_out b ++ map digit_char ds) (pb_cap b))) ->
  wp (ts_itoa d base) Q b.
Proof.
  intros HB Hb16 Hd Hcap HQ. pose proof HB as (Hb & HK & HK1). unfold ts_itoa.
  apply wp_bind, (wp_itoa_scale _ _ _ _ K HB Hd). intros k Hk Hlead Hlt.
  pose proof (pow_mono base k K Hb Hk).
  apply wp_itoa_digits; [lia|lia|lia|lia|]. apply HQ.
  - by apply digits_numeral; [|lia|].
  - rewrite digits_length. lia.
Qed.

Lemma itoa_base_10 : itoa_base 10 9.
Proof. by repeat split. Qed.
Lemma itoa_base_16 : itoa_base 16 7.
Proof. by repeat split. Qed.

(** * The length estimate bounds the output *)

(** No [%d] argument is the least integer, whose negation overflows. *)
Definition no_int_min (va : list arg) : Prop :=
  Forall (fun a => match a with ArgInt v => s32 v <> - 2 ^ 31 | ArgStr _ => True end) va.

(** A statement that appends at most [n] characters when they fit. *)
Definition appends {A} (m : M pbuf A) (n : Z) (R : A -> Prop) : Prop :=
  forall b, Z.of_nat (length (pb_out b)) + n <= pb_cap b ->
  wp m (fun a b' => R a /\ pb_cap b' = pb_cap b /\
    exists t, pb_out b' = pb_out b ++ t /\ Z.of_nat (length t) <= n) b.

Lemma appends_ret {A} (a : A) (R : A -> Prop) : R a -> appends (mret a) 0 R.
Proof.
  intros HR b Hb. apply wp_ret. split; [done|]. split; [done|]. exists []. by rewrite app_nil_r.
Qed.

Lemma appends_bind {A B} (m : M pbuf A) (k : A -> M pbuf B) n1 n2 (R1 : A -> Prop) (R : B -> Prop) :
  0 <= n2 -> appends m n1 R1 -> (forall a, R1 a -> appends (k a) n2 R) ->
  appends (m ≫= k) (n1 + n2) R.
Proof.
  intros Hn Hm Hk b Hb. apply wp_bind. eapply wp_mono; [apply Hm; lia|].
  intros a b1 (HR1 & Hc1 & t1 & Ho1 & Ht1). eapply wp_mono; [apply (Hk a HR1)|].
  - rewrite Ho1, length_app, Hc1. lia.
  - intros r b2 (HR & Hc2 & t2 & Ho2 & Ht2). split; [done|]. split; [congruence|].
    exists (t1 ++ t2). rewrite Ho2, Ho1, app_assoc, length_app. split; [done|lia].
Qed.

Lemma appends_le {A} (m : M pbuf A) n n' (R R' : A -> Prop) :
  n <= n' -> appends m n R -> (forall a, R a -> R' a) -> appends m n' R'.
Proof.
  intros Hn Hm HR b Hb. eapply wp_mono; [apply Hm; lia|].
  intros a b' (Ha & Hc & t & Ho & Ht). split; [by apply HR|]. split; [done|]. exists t. split; [done|lia].
Qed.

Lemma appends_put c : appends (put c) 1 (fun _ => True).
Proof.
  intros b Hb. apply wp_put; [lia|]. split; [done|]. split; [done|]. by exists [u8 c].
Qed.

Lemma appends_string s : appends (put_string s) (Z.of_nat (length s)) (fun _ => True).
Proof.
  induction s as [|c s IH]; [by apply appends_ret|]. cbn [put_string length].
  eapply appends_le; [|apply (appends_bind _ _ 1 (Z.of_nat (length s)) (fun _ => True) (fun _ => True));
    [lia|apply appends_put|by intros]|done]. lia.
Qed.

Lemma appends_itoa d base K : itoa_base base K -> base <= 16 -> 0 <= d < 2 ^ 32 ->
  appends (ts_itoa d base) (Z.of_nat (S K)) (fun _ => True).
Proof.
  intros HB Hb Hd b Hcap. apply (wp_ts_itoa _ _ _ _ K HB Hb Hd Hcap). intros ds _ Hlen.
  split; [done|]. split; [done|]. exists (map digit_char ds). split; [done|]. rewrite length_map. lia.
Qed.

Lemma u32_range x : 0 <= u32 x < 2 ^ 32.
Proof. unfold u32. apply Z.mod_pos_bound. lia. Qed.

Lemma appends_signed v : s32 v <> - 2 ^ 31 -> appends (format_signed v) 11 (fun _ => True).
Proof.
  intros Hv. unfold format_signed. assert (Hs : - 2 ^ 31 <= s32 v < 2 ^ 31).
  { unfold s32. pose proof (Z.mod_pos_bound (v + 2 ^ 31) (2 ^ 32)). lia. }
  destruct (Z.ltb_spec (s32 v) 0).
  - rewrite (proj2 (Z.eqb_neq _ _) Hv).
    apply (appends_bind _ _ 1 10 (fun _ => True)); [lia|apply appends_put|]. intros _ _.
    apply (appends_itoa _ 10 9 itoa_base_10); lia.
  - eapply appends_le; [|apply (appends_itoa _ 10 9 itoa_base_10); lia|done]. cbn. lia.
Qed.

(** One conversion: what [length_one] counts bounds what [format_one] prints,
    and both consume the same arguments. *)
Lemma appends_one {S} c va (s s' : S) n va' : no_int_min va ->
  length_one c va s = Ret (n, va') s' ->
  s' = s /\ 0 <= n /\ no_int_min va' /\ appends (format_one c va) n (fun r => r = va').
Proof.
  intros Hva. unfold length_one, format_one. pose proof (u32_range 0) as _.
  destruct (c =? ch_c); [|destruct ((c =? ch_d) || (c =? ch_i)) eqn:Edi].
  - unfold va_int, mbind, M_bind, mret, M_ret. destruct va as [|[v|t] va]; [done| |done].
    intros [= <- <- <-]. inversion Hva; subst. split; [done|]. split; [done|]. split; [done|].
    change (appends (_ ← put v; mret va) 1 (fun r => r = va)).
    apply (appends_bind _ _ 1 0 (fun _ => True)); [done|apply appends_put|]. intros _ _. by apply appends_ret.
  - cbn [orb]. unfold va_int, mbind, M_bind, mret, M_ret. destruct va as [|[v|t] va]; [done| |done].
    intros [= <- <- <-]. inversion Hva; subst. split; [done|]. split; [done|]. split; [done|].
    change (appends (_ ← format_signed v; mret va) 11 (fun r => r = va)).
    apply (appends_bind _ _ 11 0 (fun _ => True)); [done|by apply appends_signed|]. intros _ _. by apply appends_ret.
  - cbn [orb]. destruct (c =? ch_u) eqn:Eu; [|destruct (c =? ch_s) eqn:Es].
    + assert ((c =? ch_s) = false) as -> by (apply Z.eqb_eq in Eu as ->; done).
      unfold va_int, mbind, M_bind, mret, M_ret. destruct va as [|[v|t] va]; [done| |done].
      intros [= <- <- <-]. inversion Hva; subst. split; [done|]. split; [done|]. split; [done|].
      change (appends (_ ← ts_itoa (u32 v) 10; mret va) 11 (fun r => r = va)).
      apply (appends_bind _ _ 11 0 (fun _ => True)); [done| |intros _ _; by apply appends_ret].
      eapply appends_le; [|apply (appends_itoa _ 10 9 itoa_base_10); [lia|apply u32_range]|done]. cbn. lia.
    + unfold va_str, mbind, M_bind, mret, M_ret. destruct va as [|[v|t] va]; [done|done|].
      intros [= <- <- <-]. inversion Hva; subst. split; [done|]. split; [lia|]. split; [done|]. cbn [fst snd].
      change (appends (_ ← put_string t; mret va) (Z.of_nat (length t)) (fun r => r = va)).
      rewrite <- (Z.add_0_r (Z.of_nat _)).
      apply (appends_bind _ _ _ 0 (fun _ => True)); [done|apply appends_string|]. intros _ _. by apply appends_ret.
    + destruct ((c =? ch_x) || (c =? ch_X)).
      * unfold va_int, mbind, M_bind, mret, M_ret. destruct va as [|[v|t] va]; [done| |done].
        intros [= <- <- <-]. inversion Hva; subst. split; [done|]. split; [done|]. split; [done|].
        change (appends (_ ← ts_itoa (u32 v) 16; mret va) 8 (fun r => r = va)).
        apply (appends_bind _ _ 8 0 (fun _ => True)); [done| |intros _ _; by apply appends_ret].
        apply (appends_itoa _ 16 7 itoa_base_16); [lia|apply u32_range].
      * unfold mret, M_ret. intros [= <- <- <-]. split; [done|]. split; [done|]. split; [done|].
        destruct (c =? ch_percent).
        -- change (appends (_ ← put ch_percent; mret va) 1 (fun r => r = va)).
           apply (appends_bind _ _ 1 0 (fun _ => True)); [done|apply appends_put|]. intros _ _. by apply appends_ret.
        -- change (appends (mret va) 1 (fun r => r = va)).
           eapply appends_le; [|by apply (appends_ret va (fun r => r = va))|done]. done.
Qed.

(** The format loop, for every format of which the length can be computed. *)
Lemma appends_loop {S} m : forall fmt va (s s' : S) n, (length fmt <= m)%nat -> no_int_min va ->
  ts_formatlength fmt va s = Ret n s' ->
  s' = s /\ 0 <= n /\ appends (format_loop fmt va) n (fun _ => True).
Proof.
  induction m as [|m IH]; intros fmt va s s' n Hm Hva Hlen.
  { destruct fmt; [|cbn in Hm; lia]. cbn in Hlen. injection Hlen as <- <-.
    split; [done|]. split; [done|]. by apply appends_ret. }
  destruct fmt as [|c fmt].
  { cbn in Hlen. injection Hlen as <- <-. split; [done|]. split; [done|]. by apply appends_ret. }
  cbn [ts_formatlength format_loop length] in *. destruct (c =? ch_percent).
  - destruct fmt as [|k fmt]; [done|]. unfold mbind, M_bind in Hlen.
    destruct (length_one k va s) as [[n1 va1] s1| |] eqn:E1; [|done..]. cbn [fst snd] in Hlen.
    apply appends_one in E1 as (-> & Hn1 & Hva1 & Ha1); [|done].
    destruct (ts_formatlength fmt va1 s) as [n2 s2| |] eqn:E2; [|done..].
    injection Hlen as <- <-. apply IH in E2 as (-> & Hn2 & Ha2); [|cbn in Hm; lia|done].
    split; [done|]. split; [lia|]. eapply appends_bind; [done|exact Ha1|]. by intros ? ->.
  - unfold mbind, M_bind in Hlen. destruct (ts_formatlength fmt va s) as [n2 s2| |] eqn:E2; [|done..].
    injection Hlen as <- <-. apply IH in E2 as (-> & Hn2 & Ha2); [|lia|done].
    split; [done|]. split; [lia|]. eapply appends_bind; [done|apply appends_put|]. by intros.
Qed.

(** ** Text without conversions *)
Definition literal (fmt : list Z) : Prop := Forall (fun c => c <> ch_percent /\ 0 < c < 2 ^ 8) fmt.

Lemma literal_length {S} fmt va (s : S) : literal fmt ->
  ts_formatlength fmt va s = Ret (Z.of_nat (length fmt)) s.
Proof.
  induction 1 as [|c fmt [Hc _] _ IH]; [done|]. cbn [ts_formatlength].
  rewrite (proj2 (Z.eqb_neq _ _) Hc). unfold mbind, M_bind. rewrite IH. unfold mret, M_ret.
  f_equal. cbn [length]. lia.
Qed.

Lemma literal_loop fmt va b : literal fmt ->
  Z.of_nat (length (pb_out b)) + Z.of_nat (length fmt) <= pb_cap b ->
  format_loop fmt va b = Ret tt (Pbuf (pb_out b ++ fmt) (pb_cap b)).
Proof.
  intros Hl. revert b. induction Hl as [|c fmt [Hc Hr] _ IH]; intros b Hb.
  { cbn. rewrite app_nil_r. by destruct b. }
  cbn [format_loop length] in *. rewrite (proj2 (Z.eqb_neq _ _) Hc).
  unfold mbind, M_bind, put. rewrite (proj2 (Z.ltb_lt _ _)) by lia.
  rewrite IH by (cbn [pb_out pb_cap]; rewrite length_app; cbn [length]; lia).
  cbn [pb_out pb_cap]. rewrite <- app_assoc. cbn. unfold u8. rewrite Z.mod_small by lia. done.
Qed.

(** ts_itoa writes the numeral of its argument in base 10 and in base 16:
    digits that denote the number, without a leading zero, in characters 0 to 9
    and A to F; at most ten, or eight, of them. *)
Theorem ts_itoa_prints_numeral (base d : Z) (b : pbuf) :
  base = 10 \/ base = 16 -> 0 <= d < 2 ^ 32 ->
  let most := if base =? 10 then 10 else 8 in
  Z.of_nat (length (pb_out b)) + most <= pb_cap b ->
  wp (ts_itoa d base) (fun _ b' =>
    exists ds, pb_out b' = pb_out b ++ map digit_char ds /\ numeral base d ds /\
               Z.of_nat (length ds) <= most) b.
Proof.
  intros Hb Hd most Hcap. destruct Hb as [-> | ->]; subst most; cbn [Z.eqb Pos.eqb] in *.
  - apply (wp_ts_itoa _ _ _ _ 9 itoa_base_10); [lia|done|cbn; lia|].
    intros ds Hn Hlen. exists ds. split; [done|]. split; [done|]. lia.
  - apply (wp_ts_itoa _ _ _ _ 7 itoa_base_16); [lia|done|cbn; lia|].
    intros ds Hn Hlen. exists ds. split; [done|]. split; [done|]. lia.
Qed.

Lemma ts_itoa_prints_numeral_witness :
  wp (ts_itoa 3735928559 16) (fun _ b' =>
    exists ds, pb_out b' = [] ++ map digit_char ds /\ numeral 16 3735928559 ds /\
               Z.of_nat (length ds) <= 8) (Pbuf [] 16).
Proof. apply (ts_itoa_prints_numeral 16 3735928559 (Pbuf [] 16)); [by right|lia|done]. Defined.

(** A buffer with one byte more than ts_formatlength counts is enough for
    ts_formatstring: it writes the string with its terminator inside the buffer
    and returns the length, for every format and arguments for which the length
    can be computed and no %d argument is the least integer. *)
Theorem formatlength_bounds_formatstring (fmt : list Z) (va : list arg) (n cap : Z) :
  no_int_min va -> ts_formatlength fmt va tt = Ret n tt -> n < cap ->
  wp (ts_formatstring fmt va) (fun len b =>
    len = Z.of_nat (length (pb_out b)) /\ len <= n) (Pbuf [] cap).
Proof.
  intros Hva Hlen Hcap. apply (appends_loop (length fmt)) in Hlen as (_ & Hn & Ha); [|done|done].
  unfold ts_formatstring. apply wp_bind. eapply wp_mono; [apply Ha; cbn; lia|].
  intros _ b (_ & Hc & t & Ho & Ht). cbn [pb_out pb_cap app] in *. subst t.
  unfold wp, put_end. rewrite (proj2 (Z.ltb_lt _ _)) by lia. done.
Qed.

(** "%d %s %x" *)
Definition demo_format : list Z := [37; 100; 32; 37; 115; 32; 37; 120].
Definition demo_args : list arg := [ArgInt (-42); ArgStr [111; 107]; ArgInt 48879].

Example demo_output : with_buffer 23 (ts_formatstring demo_format demo_args) tt
  = Ret ([45; 52; 50; 32; 111; 107; 32; 66; 69; 69; 70], 11) tt.
Proof. vm_compute. done. Qed.

Lemma formatlength_bounds_formatstring_witness :
  wp (ts_formatstring demo_format demo_args) (fun len b =>
    len = Z.of_nat (length (pb_out b)) /\ len <= 23) (Pbuf [] 24).
Proof.
  apply (formatlength_bounds_formatstring demo_format demo_args 23 24); [|vm_compute; done|done].
  repeat (apply Forall_cons_2; [vm_compute; done|]). constructor.
Defined.

(** iprintf and fiprintf give ts_formatstring a buffer of exactly the
    estimated length, with no room for the terminator: for a text without
    conversions the terminating zero is always written past the end. *)
Theorem iprintf_overflows_on_text {W} (_write : Z -> list Z -> Z -> M W Z)
    (fd : Z) (fmt : list Z) (va : list arg) (w : W) :
  literal fmt -> iprintf _write fmt va w = Fault /\ fiprintf _write fd fmt va w = Fault.
Proof.
  intros Hl.
  assert (Hf : with_buffer (Z.of_nat (length fmt)) (ts_formatstring fmt va) w = Fault).
  { unfold with_buffer, ts_formatstring, mbind, M_bind. rewrite literal_loop by (done || cbn; lia).
    cbn [pb_out pb_cap app]. unfold put_end. cbn [pb_out pb_cap].
    by rewrite (proj2 (Z.ltb_ge _ _)) by lia. }
  unfold iprintf, fiprintf, mbind, M_bind. by rewrite literal_length, Hf.
Qed.

Lemma iprintf_overflows_on_text_witness :
  iprintf (fun _ _ len => mret len) [104; 105] [] tt = Fault /\
  fiprintf (fun _ _ len => mret len) 2 [104; 105] [] tt = Fault.
Proof.
  apply (iprintf_overflows_on_text (fun _ _ len => mret len) 2 [104; 105] [] tt).
  repeat (apply Forall_cons_2; [done|]). constructor.
Defined.
