(* ===== verification/SystemClock.v ===== *)
(** The clock set-up: system_stm32f10x.c (the same file in both firmware trees)
    as compiled for the STM32F10X_CL with SYSCLK_FREQ_72MHz, the updater's own
    premain.c, and its sys_init.c.  The global of each file that holds the core
    clock is the program state. *)
From S2P Require Import Prelude Mmio Fpec Rcc ClockTree Misc.

(** * Masks (stm32f10x.h) *)
Definition RCC_CR_HSEON : Z := 0x00010000.
Definition RCC_CR_HSERDY : Z := 0x00020000.
Definition RCC_CR_PLLON : Z := 0x01000000.
Definition RCC_CR_PLLRDY : Z := 0x02000000.
Definition RCC_CR_PLL2ON : Z := 0x04000000.
Definition RCC_CR_PLL2RDY : Z := 0x08000000.
Definition RCC_CFGR_SW : Z := 0x00000003.
Definition RCC_CFGR_SW_HSE : Z := 0x00000001.
Definition RCC_CFGR_SW_PLL : Z := 0x00000002.
Definition RCC_CFGR_SWS : Z := 0x0000000C.
Definition RCC_CFGR_SWS_HSE : Z := 0x00000004.
Definition RCC_CFGR_SWS_PLL : Z := 0x00000008.
Definition RCC_CFGR_HPRE_DIV1 : Z := 0x00000000.
Definition RCC_CFGR_PPRE1_DIV2 : Z := 0x00000400.
Definition RCC_CFGR_PPRE2_DIV1 : Z := 0x00000000.
Definition RCC_CFGR_PLLSRC : Z := 0x00010000.
Definition RCC_CFGR_PLLXTPRE : Z := 0x00020000.
Definition RCC_CFGR_PLLMULL : Z := 0x003C0000.
Definition RCC_CFGR_PLLSRC_PREDIV1 : Z := 0x00010000.
Definition RCC_CFGR_PLLXTPRE_PREDIV1 : Z := 0x00000000.
Definition RCC_CFGR_PLLMULL9 : Z := 0x001C0000.
Definition RCC_CFGR_HPRE : Z := 0x000000F0.
Definition RCC_CFGR2_PREDIV1 : Z := 0x0000000F.
Definition RCC_CFGR2_PREDIV2 : Z := 0x000000F0.
Definition RCC_CFGR2_PLL2MUL : Z := 0x00000F00.
Definition RCC_CFGR2_PREDIV1SRC : Z := 0x00010000.
Definition RCC_CFGR2_PREDIV1_DIV5 : Z := 0x00000004.
Definition RCC_CFGR2_PREDIV2_DIV5 : Z := 0x00000040.
Definition RCC_CFGR2_PLL2MUL8 : Z := 0x00000600.
Definition RCC_CFGR2_PREDIV1SRC_PLL2 : Z := 0x00010000.
Definition FLASH_ACR_LATENCY : Z := 0x03.
Definition FLASH_ACR_LATENCY_2 : Z := 0x02.
Definition FLASH_ACR_HLFCYA : Z := 0x08.
Definition FLASH_ACR_PRFTBE : Z := 0x10.
Definition FLASH_BASE : Z := 0x08000000.
Definition VECT_TAB_OFFSET : Z := 0x0.
Definition SYSCLK_FREQ_72MHz : Z := 72000000.
Definition AHBPrescTable : list Z := [0; 0; 0; 0; 0; 0; 0; 0; 1; 2; 3; 4; 6; 7; 8; 9].

(** The fields that the two files clear before they configure the PLLs. *)
Definition CFGR2_pll_mask : Z :=
  Z.lor (Z.lor RCC_CFGR2_PREDIV2 RCC_CFGR2_PLL2MUL) (Z.lor RCC_CFGR2_PREDIV1 RCC_CFGR2_PREDIV1SRC).
Definition CFGR2_pll_value : Z :=
  Z.lor (Z.lor RCC_CFGR2_PREDIV2_DIV5 RCC_CFGR2_PLL2MUL8)
        (Z.lor RCC_CFGR2_PREDIV1SRC_PLL2 RCC_CFGR2_PREDIV1_DIV5).

Section clock.
Context {H : Type} `{Bus H}.

(** [while((REG & mask) != v);] with fuel for the polls. *)
Definition poll_body (reg mask v : Z) (_ : unit) : M H (unit + unit) :=
  x ← rd32 reg; mret (if Z.land x mask =? v then inr tt else inl tt).
Definition poll_until (reg mask v : Z) : M H unit := loop 0x500 (poll_body reg mask v) tt.

(** * system_stm32f10x.c *)

(** The do-while loop on HSEStatus and StartUpCounter. *)
Definition hse_startup_body (StartUpCounter : Z) : M H (Z + unit) :=
  cr ← rd32 RCC_CR;
  let HSEStatus := Z.land cr RCC_CR_HSERDY in
  let StartUpCounter := StartUpCounter + 1 in
  mret (if (HSEStatus =? 0) && negb (StartUpCounter =? HSE_STARTUP_TIMEOUT)
        then inl StartUpCounter else inr tt).

Definition SetSysClockTo72 : M H unit :=
  _ ← or32 RCC_CR RCC_CR_HSEON;
  _ ← loop 0x500 hse_startup_body 0;
  cr ← rd32 RCC_CR;
  if negb (Z.land cr RCC_CR_HSERDY =? 0) then
    _ ← or32 FLASH_ACR FLASH_ACR_PRFTBE;
    _ ← and32 FLASH_ACR (not32 FLASH_ACR_LATENCY);
    _ ← or32 FLASH_ACR FLASH_ACR_LATENCY_2;
    _ ← or32 RCC_CFGR RCC_CFGR_HPRE_DIV1;
    _ ← or32 RCC_CFGR RCC_CFGR_PPRE2_DIV1;
    _ ← or32 RCC_CFGR RCC_CFGR_PPRE1_DIV2;
    _ ← and32 RCC_CFGR2 (not32 CFGR2_pll_mask);
    _ ← or32 RCC_CFGR2 CFGR2_pll_value;
    _ ← or32 RCC_CR RCC_CR_PLL2ON;
    _ ← poll_until RCC_CR RCC_CR_PLL2RDY RCC_CR_PLL2RDY;
    _ ← and32 RCC_CFGR (not32 (Z.lor (Z.lor RCC_CFGR_PLLXTPRE RCC_CFGR_PLLSRC) RCC_CFGR_PLLMULL));
    _ ← or32 RCC_CFGR (Z.lor (Z.lor RCC_CFGR_PLLXTPRE_PREDIV1 RCC_CFGR_PLLSRC_PREDIV1) RCC_CFGR_PLLMULL9);
    _ ← or32 RCC_CR RCC_CR_PLLON;
    _ ← poll_until RCC_CR RCC_CR_PLLRDY RCC_CR_PLLRDY;
    _ ← and32 RCC_CFGR (not32 RCC_CFGR_SW);
    _ ← or32 RCC_CFGR RCC_CFGR_SW_PLL;
    poll_until RCC_CFGR RCC_CFGR_SWS RCC_CFGR_SWS_PLL
  else mret tt.

Definition SetSysClock : M H unit := SetSysClockTo72.

Definition SystemInit : M H unit :=
  _ ← or32 RCC_CR 0x00000001;
  _ ← and32 RCC_CFGR 0xF0FF0000;
  _ ← and32 RCC_CR 0xFEF6FFFF;
  _ ← and32 RCC_CR 0xFFFBFFFF;
  _ ← and32 RCC_CFGR 0xFF80FFFF;
  _ ← and32 RCC_CR 0xEBFFFFFF;
  _ ← wr32 RCC_CIR 0x00FF0000;
  _ ← wr32 RCC_CFGR2 0x00000000;
  _ ← SetSysClock;
  wr32 SCB_VTOR (Z.lor FLASH_BASE VECT_TAB_OFFSET).

(** [case 0x08] of the switch. *)
Definition update_pll_clock : M H Z :=
  cfgr ← rd32 RCC_CFGR;
  let pllmull := Z.land cfgr RCC_CFGR_PLLMULL in
  cfgr ← rd32 RCC_CFGR;
  let pllsource := Z.land cfgr RCC_CFGR_PLLSRC in
  let pllmull := Z.shiftr pllmull 18 in
  let pllmull := if negb (pllmull =? 0x0D) then pllmull + 2 else 13 / 2 in
  if pllsource =? 0x00 then mret (u32 (Z.shiftr HSI_VALUE 1 * pllmull))
  else
    cfgr2 ← rd32 RCC_CFGR2;
    let prediv1source := Z.land cfgr2 RCC_CFGR2_PREDIV1SRC in
    cfgr2 ← rd32 RCC_CFGR2;
    let prediv1factor := Z.land cfgr2 RCC_CFGR2_PREDIV1 + 1 in
    if prediv1source =? 0 then mret (u32 (HSE_VALUE / prediv1factor * pllmull))
    else
      cfgr2 ← rd32 RCC_CFGR2;
      let prediv2factor := Z.shiftr (Z.land cfgr2 RCC_CFGR2_PREDIV2) 4 + 1 in
      cfgr2 ← rd32 RCC_CFGR2;
      let pll2mull := Z.shiftr (Z.land cfgr2 RCC_CFGR2_PLL2MUL) 8 + 2 in
      mret (u32 (u32 (HSE_VALUE / prediv2factor * pll2mull) / prediv1factor * pllmull)).

(** The state is the global SystemCoreClock. *)
Definition SystemCoreClockUpdate : M (Z * H) unit :=
  cfgr ← lift (rd32 RCC_CFGR);
  let tmp := Z.land cfgr RCC_CFGR_SWS in
  clock ← lift (if tmp =? 0x00 then mret HSI_VALUE
                else if tmp =? 0x04 then mret HSE_VALUE
                else if tmp =? 0x08 then update_pll_clock
                else mret HSI_VALUE);
  _ ← setg (fun _ => clock);
  cfgr ← lift (rd32 RCC_CFGR);
  tmp ← index AHBPrescTable (Z.shiftr (Z.land cfgr RCC_CFGR_HPRE) 4);
  setg (fun SystemCoreClock => Z.shiftr SystemCoreClock tmp).

(** * premain.c *)
Inductive ClockSource : Set := HSI | HSE | HSE_PLL | HSI_PLL.
Definition CORE_CLK : Z := 72000000.

Definition ResetRcc : M H unit :=
  _ ← and32 RCC_CFGR 0xF0FF0000;
  _ ← and32 RCC_CR 0xFEF6FFFF;
  _ ← and32 RCC_CR 0xFFFBFFFF;
  _ ← and32 RCC_CFGR 0xFF80FFFF;
  _ ← and32 RCC_CR 0xEBFFFFFF;
  _ ← wr32 RCC_CIR 0x00FF0000;
  wr32 RCC_CFGR2 0x00000000.

(** The while loop on hseStatus and timeoutCounter; the status at its end. *)
Definition premain_hse_body (r : Z * Z) : M H (Z * Z + Z) :=
  let '(hseStatus, timeoutCounter) := r in
  if (hseStatus =? 0) && negb (timeoutCounter =? HSE_STARTUP_TIMEOUT) then
    cr ← rd32 RCC_CR;
    mret (inl (Z.land cr RCC_CR_HSERDY, timeoutCounter + 1))
  else mret (inr hseStatus).

(** The state is the global systemCoreClock. *)
Definition HsiConfig : M (Z * H) unit := setg (fun _ => HSI_VALUE).

Definition HseConfig : M (Z * H) unit :=
  _ ← lift (or32 RCC_CR RCC_CR_HSEON);
  hseStatus ← lift (loop 0x501 premain_hse_body (0, 0));
  if negb (hseStatus =? 0) then
    _ ← lift (wr32 FLASH_ACR (Z.lor (Z.lor FLASH_ACR_PRFTBE FLASH_ACR_HLFCYA) FLASH_ACR_LATENCY_2));
    _ ← lift (and32 RCC_CFGR (not32 RCC_CFGR_SW));
    _ ← lift (or32 RCC_CFGR RCC_CFGR_SW_HSE);
    _ ← lift (poll_until RCC_CFGR RCC_CFGR_SWS RCC_CFGR_SWS_HSE);
    setg (fun _ => HSE_VALUE)
  else setg (fun _ => HSI_VALUE).

Definition HsiPllConfig : M (Z * H) unit := mret tt.

Definition HsePllConfig : M (Z * H) unit :=
  _ ← lift (or32 RCC_CR RCC_CR_HSEON);
  hseStatus ← lift (loop 0x501 premain_hse_body (0, 0));
  if negb (hseStatus =? 0) then
    _ ← lift (wr32 FLASH_ACR (Z.lor FLASH_ACR_PRFTBE FLASH_ACR_LATENCY_2));
    _ ← lift (or32 RCC_CFGR (Z.lor (Z.lor RCC_CFGR_HPRE_DIV1 RCC_CFGR_PPRE2_DIV1) RCC_CFGR_PPRE1_DIV2));
    _ ← lift (and32 RCC_CFGR2 (not32 CFGR2_pll_mask));
    _ ← lift (or32 RCC_CFGR2 CFGR2_pll_value);
    _ ← lift (or32 RCC_CR RCC_CR_PLL2ON);
    _ ← lift (poll_until RCC_CR RCC_CR_PLL2RDY RCC_CR_PLL2RDY);
    _ ← lift (and32 RCC_CFGR (not32 (Z.lor RCC_CFGR_PLLSRC RCC_CFGR_PLLMULL)));
    _ ← lift (or32 RCC_CFGR (Z.lor RCC_CFGR_PLLSRC_PREDIV1 RCC_CFGR_PLLMULL9));
    _ ← lift (or32 RCC_CR RCC_CR_PLLON);
    _ ← lift (poll_until RCC_CR RCC_CR_PLLRDY RCC_CR_PLLRDY);
    _ ← lift (and32 RCC_CFGR (not32 RCC_CFGR_SW));
    _ ← lift (or32 RCC_CFGR RCC_CFGR_SW_PLL);
    _ ← lift (poll_until RCC_CFGR RCC_CFGR_SWS RCC_CFGR_SWS_PLL);
    setg (fun _ => CORE_CLK)
  else setg (fun _ => HSI_VALUE).

Definition ClockConfig (clkSource : ClockSource) : M (Z * H) unit :=
  match clkSource with
  | HSI => HsiConfig
  | HSE => HseConfig
  | HSI_PLL => HsiPllConfig
  | HSE_PLL => HsePllConfig
  end.

Definition premain : M (Z * H) unit :=
  _ ← lift ResetRcc;
  ClockConfig HSE_PLL.

(** * sys_init.c of the updater, with SysTick_Config of core_cm3.h *)
Definition SysTick_LOAD : Z := 0xE000E014.
Definition SysTick_VAL : Z := 0xE000E018.
Definition SCB_SHP (i : Z) : Z := 0xE000ED18 + i.

Definition SysTick_Config (ticks : Z) : M H Z :=
  if 0xFFFFFF <? ticks then mret 1
  else
    _ ← wr32 SysTick_LOAD (u32 (Z.land ticks 0xFFFFFF - 1));
    _ ← wr8 (SCB_SHP 11) (Z.land (Z.shiftl 15 4) 0xFF);
    _ ← wr32 SysTick_VAL 0;
    _ ← wr32 SYSTICK_CTRL 0x7;
    mret 0.

Definition system_init : M (Z * H) unit :=
  _ ← premain;
  _ ← lift (SysTick_Config 72000);
  mret tt.
End clock.
