(* ===== verification/SystemClockSpec.v ===== *)
(** Running the clock set-up on a clock tree: lemmas on polls and on
    read-modify-write accesses, for any [ClockBus]. *)
From S2P Require Import Prelude Mmio Fpec Rcc ClockTree Misc SystemClock.

Definition with_wait (n : nat) (f : clk) : clk :=
  Clk (ck_cr f) (ck_cfgr f) (ck_cfgr2 f) (ck_acr f) (ck_rdy f) (ck_sws f) n (ck_cal f) (ck_hse f).
(** Nothing is left to settle. *)
Definition stable (f : clk) : Prop := settle f = f.
(** The switches and ready flags of RCC_CR without the calibration field, and
    the ready flags off the stored bits. *)
Definition rdy_wf (f : clk) : Prop := Z.land (Z.shiftl (ck_rdy f) 1) CR_stored_bits = 0.
Definition set_cr (v : Z) (f : clk) : clk :=
  Clk v (ck_cfgr f) (ck_cfgr2 f) (ck_acr f) (Z.land (ck_rdy f) v) (ck_sws f) 0 (ck_cal f) (ck_hse f).
(** The value of a register of the tree. *)
Definition clk_value (a : Z) (f : clk) : Z :=
  if a =? RCC_CR then cr_value f
  else if a =? RCC_CFGR then cfgr_value f
  else if a =? RCC_CFGR2 then ck_cfgr2 f else acr_value f.

(** The calibration field occupies bits 8 to 15. *)
Lemma cal_field c : Z.land (Z.shiftl (u8 c) 8) 0xFF00 = Z.shiftl (u8 c) 8.
Proof.
  change 0xFF00 with (Z.shiftl (Z.ones 8) 8). rewrite <- Z.shiftl_land, Z.land_ones by done.
  unfold u8. by rewrite Z.mod_mod.
Qed.

Lemma cal_off c s : Z.land 0xFF00 s = 0 -> Z.land (Z.shiftl (u8 c) 8) s = 0.
Proof. intros Hs. by rewrite <- cal_field, <- Z.land_assoc, Hs, Z.land_0_r. Qed.

Lemma cal_not_stored c : Z.land (Z.shiftl (u8 c) 8) CR_stored_bits = 0.
Proof. by apply cal_off. Qed.

Lemma land_lor_zero x y m s : Z.land y s = 0 -> Z.land (Z.lor (Z.lor x y) m) s = Z.land (Z.lor x m) s.
Proof.
  intros Hy. rewrite !Z.land_lor_distr_l, Hy, Z.lor_0_r. done.
Qed.

Lemma land_land_zero x y m s : Z.land y s = 0 -> Z.land (Z.land (Z.lor x y) m) s = Z.land (Z.land x m) s.
Proof.
  intros Hy. rewrite !Z.land_lor_distr_l, <- (Z.land_assoc y), (Z.land_comm m), Z.land_assoc, Hy.
  by rewrite Z.land_0_l, Z.lor_0_r.
Qed.

Lemma cr_or_stored f m : rdy_wf f ->
  Z.land (Z.lor (cr_value f) m) CR_stored_bits = Z.land (Z.lor (ck_cr f) m) CR_stored_bits.
Proof.
  intros Hr. unfold cr_value. rewrite land_lor_zero by apply cal_not_stored. by rewrite land_lor_zero.
Qed.

Lemma cr_and_stored f m : rdy_wf f ->
  Z.land (Z.land (cr_value f) m) CR_stored_bits = Z.land (Z.land (ck_cr f) m) CR_stored_bits.
Proof.
  intros Hr. unfold cr_value. rewrite land_land_zero by apply cal_not_stored. by rewrite land_land_zero.
Qed.

(** Everything of RCC_CR but the calibration. *)
Definition cr_flags (f : clk) : Z := Z.lor (ck_cr f) (Z.shiftl (ck_rdy f) 1).

Lemma cr_land_flags f mask : Z.land 0xFF00 mask = 0 ->
  Z.land (cr_value f) mask = Z.land (cr_flags f) mask.
Proof.
  intros Hm. unfold cr_value, cr_flags.
  by rewrite (Z.land_lor_distr_l _ _ mask), (cal_off _ _ Hm), Z.lor_0_r.
Qed.

Section clocks.
Context {H : Type} `{ClockBus H}.

(** The tree behind [h] is [f], up to the polls left to wait. *)
Definition is_clk (h : H) (f : clk) : Prop :=
  exists k, Z.of_nat k + 1 < HSE_STARTUP_TIMEOUT /\ clk_of h = with_wait k f.

Lemma tick_stable k f : stable f -> tick (with_wait k f) = with_wait (pred k) f.
Proof.
  intros Hs. destruct k as [|k]; [|done]. unfold tick. cbn [with_wait ck_wait].
  change (settle (with_wait 0 f)) with (settle f). rewrite Hs.
  assert (ck_wait f = 0%nat) by by rewrite <- Hs. destruct f; cbn in *; by subst.
Qed.

Lemma wp_rd_clk (Q : Z -> H -> Prop) h f a :
  clk_reads a = true -> is_clk h f -> stable f ->
  (forall h', is_clk h' f -> Q (clk_value a f) h') ->
  wp (rd32 a) Q h.
Proof.
  intros Ha (k & Hk & Hh) Hs HQ. apply wp_rd.
  assert (Hv : clk_read a (clk_of h) = (clk_value a f, with_wait (if (a =? RCC_CR) || (a =? RCC_CFGR) then pred k else k) f)).
  { rewrite Hh. unfold clk_read, clk_value. rewrite (tick_stable k f Hs).
    destruct (a =? RCC_CR); [done|]. by destruct (a =? RCC_CFGR), (a =? RCC_CFGR2). }
  rewrite clk_read_value, Hv by done. apply HQ.
  exists (if (a =? RCC_CR) || (a =? RCC_CFGR) then pred k else k).
  split; [case_match; lia|]. by rewrite clk_read_state, Hv.
Qed.

Lemma wp_wr_clk (Q : unit -> H -> Prop) h f a v :
  is_clk h f -> clk_writes a v f = true ->
  (forall h', is_clk h' (clk_write 0 a v f) -> Q tt h') ->
  wp (wr32 a v) Q h.
Proof.
  intros (k & Hk & Hh) Hw HQ. apply wp_wr, HQ.
  assert (Hw' : clk_writes a v (clk_of h) = true)
    by (rewrite Hh; revert Hw; unfold clk_writes, clk_write;
    destruct (a =? RCC_CR), (a =? RCC_CFGR), (a =? RCC_CFGR2), (a =? FLASH_ACR); exact id).
  pose proof (settle_polls_bound h). unfold is_clk. rewrite clk_write_state, Hh by done.
  unfold clk_write. destruct (a =? RCC_CR); [by exists (settle_polls h)|].
  destruct (a =? RCC_CFGR); [by exists (settle_polls h)|].
  destruct (a =? RCC_CFGR2); by exists k.
Qed.

(** Read-modify-write of RCC_CR, and of the other registers. *)
Lemma wp_or_RCC_CR (Q : unit -> H -> Prop) h f m w :
  is_clk h f -> stable f -> rdy_wf f -> Z.land (Z.lor (ck_cr f) m) CR_stored_bits = w ->
  keeps_source f w = true -> (forall h', is_clk h' (set_cr w f) -> Q tt h') ->
  wp (or32 RCC_CR m) Q h.
Proof.
  intros Hh Hs Hr Hw Hk HQ. apply wp_bind, (wp_rd_clk _ _ _ RCC_CR eq_refl Hh Hs). intros h1 Hh1.
  change (clk_value RCC_CR f) with (cr_value f). pose proof (cr_or_stored f m Hr) as Hc.
  apply (wp_wr_clk _ _ _ _ _ Hh1).
  - cbn [clk_writes]. unfold clk_writes. cbn. by rewrite Hc, Hw.
  - intros h2 Hh2. apply HQ. unfold clk_write in Hh2. cbn in Hh2. by rewrite Hc, Hw in Hh2.
Qed.

Lemma wp_and_RCC_CR (Q : unit -> H -> Prop) h f m w :
  is_clk h f -> stable f -> rdy_wf f -> Z.land (Z.land (ck_cr f) m) CR_stored_bits = w ->
  keeps_source f w = true -> (forall h', is_clk h' (set_cr w f) -> Q tt h') ->
  wp (and32 RCC_CR m) Q h.
Proof.
  intros Hh Hs Hr Hw Hk HQ. apply wp_bind, (wp_rd_clk _ _ _ RCC_CR eq_refl Hh Hs). intros h1 Hh1.
  change (clk_value RCC_CR f) with (cr_value f). pose proof (cr_and_stored f m Hr) as Hc.
  apply (wp_wr_clk _ _ _ _ _ Hh1).
  - unfold clk_writes. cbn. by rewrite Hc, Hw.
  - intros h2 Hh2. apply HQ. unfold clk_write in Hh2. cbn in Hh2. by rewrite Hc, Hw in Hh2.
Qed.

Lemma wp_or_clk (Q : unit -> H -> Prop) h f a m f' :
  clk_reads a = true -> is_clk h f -> stable f -> clk_writes a (Z.lor (clk_value a f) m) f = true ->
  clk_write 0 a (Z.lor (clk_value a f) m) f = f' -> (forall h', is_clk h' f' -> Q tt h') ->
  wp (or32 a m) Q h.
Proof.
  intros Ha Hh Hs Hw <- HQ. apply wp_bind, (wp_rd_clk _ _ _ _ Ha Hh Hs). intros h1 Hh1.
  by apply (wp_wr_clk _ _ _ _ _ Hh1).
Qed.

Lemma wp_and_clk (Q : unit -> H -> Prop) h f a m f' :
  clk_reads a = true -> is_clk h f -> stable f -> clk_writes a (Z.land (clk_value a f) m) f = true ->
  clk_write 0 a (Z.land (clk_value a f) m) f = f' -> (forall h', is_clk h' f' -> Q tt h') ->
  wp (and32 a m) Q h.
Proof.
  intros Ha Hh Hs Hw <- HQ. apply wp_bind, (wp_rd_clk _ _ _ _ Ha Hh Hs). intros h1 Hh1.
  by apply (wp_wr_clk _ _ _ _ _ Hh1).
Qed.

(** An access outside the tree. *)
Lemma wp_wr_other (Q : unit -> H -> Prop) h f w a v :
  is_clk h f -> clk_owns a = false -> (forall h', is_clk h' f -> Q tt h') -> wp (wr w a v) Q h.
Proof.
  intros (k & Hk & Hh) Ha HQ. apply wp_wr, HQ. exists k. by rewrite clk_write_frame.
Qed.

(** ** Polling *)

(** A poll of RCC_CR or RCC_CFGR from an unsettled tree: either a step of the
    wait, or everything settles. *)
Lemma wp_poll_step (Q : Z -> H -> Prop) h f a k :
  (a =? RCC_CR) || (a =? RCC_CFGR) = true -> clk_of h = with_wait k f ->
  (forall h', match k with
     | O => is_clk h' (settle f) -> Q (clk_value a (settle f)) h'
     | S n => clk_of h' = with_wait n f -> Q (clk_value a f) h' end) ->
  wp (rd32 a) Q h.
Proof.
  intros Ha Hh HQ.
  assert (Hc : clk_reads a = true) by (unfold clk_reads; by rewrite Ha).
  assert (Hr : clk_read a (clk_of h) = (clk_value a (tick (clk_of h)), tick (clk_of h))).
  { unfold clk_read, clk_value. destruct (a =? RCC_CR); [done|]. cbn in Ha. by rewrite Ha. }
  apply wp_rd. rewrite clk_read_value, Hr, Hh by done. unfold tick. cbn [with_wait ck_wait fst].
  pose proof (clk_read_state a h Hc) as Hst. rewrite Hr, Hh in Hst. unfold tick in Hst.
  cbn [with_wait ck_wait snd] in Hst. destruct k as [|k]; apply HQ; [|exact Hst].
  exists 0%nat. by rewrite Hst.
Qed.

(** The poll loops of the code end when the tree has settled, provided that the
    awaited value is not there before. *)
Lemma wp_poll_until (Q : unit -> H -> Prop) h f reg mask v :
  (reg =? RCC_CR) || (reg =? RCC_CFGR) = true -> is_clk h f ->
  (Z.land (clk_value reg f) mask =? v) = false ->
  (Z.land (clk_value reg (settle f)) mask =? v) = true ->
  (forall h', is_clk h' (settle f) -> Q tt h') ->
  wp (poll_until reg mask v) Q h.
Proof.
  intros Hreg (k & Hk & Hh) Hn Hy HQ. unfold HSE_STARTUP_TIMEOUT in Hk.
  apply (wp_loop (fun _ h' => exists j, (j <= k)%nat /\ clk_of h' = with_wait j f)
                 (fun _ h' => Z.of_nat (ck_wait (clk_of h')))).
  - by exists k.
  - rewrite Hh. cbn. lia.
  - intros [] h1 (j & Hj & Hh1) _. unfold poll_body.
    apply wp_bind, (wp_poll_step _ _ _ _ _ Hreg Hh1). intros h2. rewrite Hh1.
    destruct j as [|j]; intros Hh2; apply wp_ret.
    + rewrite Hy. by apply HQ.
    + rewrite Hn, Hh2. split; [|cbn; lia]. exists j. split; [lia|done].
Qed.

Lemma hserdy_settle f : hse_up f = true -> (Z.land (cr_value (settle f)) RCC_CR_HSERDY =? 0) = false.
Proof.
  intros Hu. change RCC_CR_HSERDY with (2 ^ 17). rewrite land_pow2_eqb0 by lia.
  unfold cr_value. rewrite !Z.lor_spec. cbn [settle ck_cr ck_rdy ck_cal].
  rewrite Z.shiftl_spec by done. unfold settled_rdy. rewrite !Z.lor_spec, Hu. cbn [flag].
  change (Z.testbit (2 ^ HSEON) (17 - 1)) with true. by rewrite !orb_true_r.
Qed.

(** The polls of RCC_CR. *)
Lemma wp_poll_cr (Q : unit -> H -> Prop) h f mask v :
  Z.land 0xFF00 mask = 0 -> is_clk h f ->
  (Z.land (cr_flags f) mask =? v) = false ->
  (Z.land (cr_flags (settle f)) mask =? v) = true ->
  (forall h', is_clk h' (settle f) -> Q tt h') ->
  wp (poll_until RCC_CR mask v) Q h.
Proof.
  intros Hm Hh Hn Hy HQ. apply (wp_poll_until _ _ f); [done|done| | |done];
    change (clk_value RCC_CR) with cr_value; by rewrite cr_land_flags.
Qed.

(** The flag test after the start-up loop. *)
Lemma wp_read_cr (Q : Z -> H -> Prop) h f mask :
  Z.land 0xFF00 mask = 0 -> is_clk h f -> stable f ->
  (forall v h', is_clk h' f -> Z.land v mask = Z.land (cr_flags f) mask -> Q v h') ->
  wp (rd32 RCC_CR) Q h.
Proof.
  intros Hm Hh Hs HQ. apply (wp_rd_clk _ _ _ RCC_CR eq_refl Hh Hs). intros h' Hh'.
  apply HQ; [done|]. by apply cr_land_flags.
Qed.

(** The start-up loops on HSERDY: a working crystal is seen in time, a broken
    one costs the whole count. *)
Lemma wp_hse_startup (Q : unit -> H -> Prop) h f :
  is_clk h f -> (Z.land (cr_flags f) RCC_CR_HSERDY =? 0) = true ->
  (if hse_up f then forall h', is_clk h' (settle f) -> Q tt h'
   else stable f -> forall h', is_clk h' f -> Q tt h') ->
  (hse_up f = false -> stable f) ->
  wp (loop 0x500 hse_startup_body 0) Q h.
Proof.
  intros (k & Hk & Hh) Hn HQ Hst. unfold HSE_STARTUP_TIMEOUT in Hk.
  rewrite <- cr_land_flags in Hn by done.
  destruct (hse_up f) eqn:Hu.
  - apply (wp_loop (fun c h' => exists j, (j <= k)%nat /\ c = Z.of_nat (k - j) /\ clk_of h' = with_wait j f)
                   (fun c _ => 1279 - c)).
    + exists k. split; [done|]. split; [lia|done].
    + lia.
    + intros c h1 (j & Hj & -> & Hh1) _. unfold hse_startup_body.
      apply wp_bind, (wp_poll_step _ _ _ RCC_CR _ eq_refl Hh1). intros h2.
      change (clk_value RCC_CR) with cr_value.
      destruct j as [|j]; intros Hh2; apply wp_ret.
      * rewrite hserdy_settle by done. by apply HQ.
      * rewrite Hn. cbn [andb]. unfold HSE_STARTUP_TIMEOUT.
        rewrite (proj2 (Z.eqb_neq _ _)) by lia. cbn [negb].
        split; [|lia]. exists j. split; [lia|]. split; [lia|done].
  - specialize (Hst eq_refl).
    apply (wp_loop (fun c h' => 0 <= c < 1280 /\ is_clk h' f) (fun c _ => 1279 - c)).
    + split; [lia|]. by exists k.
    + lia.
    + intros c h1 [Hc Hh1] _. unfold hse_startup_body.
      apply wp_bind, (wp_rd_clk _ _ _ RCC_CR eq_refl Hh1 Hst). intros h2 Hh2. apply wp_ret.
      change (clk_value RCC_CR f) with (cr_value f). rewrite Hn. cbn [andb].
      unfold HSE_STARTUP_TIMEOUT. destruct (Z.eqb_spec (c + 1) 1280); cbn [negb].
      * by apply HQ.
      * split; [|lia]. split; [lia|done].
Qed.

(** The same loop in premain.c, with the status in a variable. *)
Lemma wp_premain_hse (Q : Z -> H -> Prop) h f :
  is_clk h f -> (Z.land (cr_flags f) RCC_CR_HSERDY =? 0) = true ->
  (if hse_up f then forall v h', (v =? 0) = false -> is_clk h' (settle f) -> Q v h'
   else stable f -> forall h', is_clk h' f -> Q 0 h') ->
  (hse_up f = false -> stable f) ->
  wp (loop 0x501 premain_hse_body (0, 0)) Q h.
Proof.
  intros (k & Hk & Hh) Hn HQ Hst. unfold HSE_STARTUP_TIMEOUT in Hk.
  rewrite <- cr_land_flags in Hn by done.
  destruct (hse_up f) eqn:Hu.
  - apply (wp_loop (fun r h' =>
        (exists j, (j <= k)%nat /\ r = (0, Z.of_nat (k - j)) /\ clk_of h' = with_wait j f) \/
        (exists v, (v =? 0) = false /\ fst r = v /\ is_clk h' (settle f)))
      (fun r _ => if fst r =? 0 then 1280 - snd r else 0)).
    + left. exists k. split; [done|]. split; [f_equal; lia|done].
    + cbn. lia.
    + intros r h1 Hr _. destruct Hr as [(j & Hj & -> & Hh1) | (v & Hv & Hr & Hh1)].
      * unfold premain_hse_body. cbn [Z.eqb andb]. unfold HSE_STARTUP_TIMEOUT.
        rewrite (proj2 (Z.eqb_neq _ _)) by lia. cbn [negb fst snd Z.eqb].
        apply wp_bind, (wp_poll_step _ _ _ RCC_CR _ eq_refl Hh1). intros h2.
        change (clk_value RCC_CR) with cr_value.
        destruct j as [|j]; intros Hh2; apply wp_ret; cbn [fst snd].
        -- split; [right; eexists; split; [|done]; by apply hserdy_settle|].
           rewrite hserdy_settle by done. lia.
        -- apply Z.eqb_eq in Hn. rewrite Hn. cbn [Z.eqb]. split; [|lia]. left.
           exists j. split; [lia|]. split; [f_equal; lia|done].
      * destruct r as [st c]. cbn [fst] in Hr. subst st. unfold premain_hse_body. rewrite Hv. cbn [andb].
        apply wp_ret. by apply HQ.
  - specialize (Hst eq_refl).
    apply (wp_loop (fun r h' => fst r = 0 /\ 0 <= snd r <= 1280 /\ is_clk h' f) (fun r _ => 1280 - snd r)).
    + split; [done|]. split; [cbn; lia|]. by exists k.
    + cbn. lia.
    + intros [st c] h1 (Hc0 & Hc & Hh1) _. cbn [fst snd] in *. subst st. unfold premain_hse_body.
      cbn [Z.eqb andb]. unfold HSE_STARTUP_TIMEOUT. destruct (Z.eqb_spec c 0x0500); cbn [negb].
      * apply wp_ret. by apply HQ.
      * apply wp_bind, (wp_rd_clk _ _ _ RCC_CR eq_refl Hh1 Hst). intros h2 Hh2. apply wp_ret.
        change (clk_value RCC_CR f) with (cr_value f). apply Z.eqb_eq in Hn. cbn [fst snd].
        split; [|lia]. split; [done|]. split; [lia|done].
Qed.
End clocks.

(** One step of a straight-line run: the tree after it, evaluated. *)
Ltac clk_next h Hh :=
  intros h Hh;
  match type of Hh with is_clk _ ?f => let v := eval vm_compute in f in change f with v in Hh end.
Ltac clk_side := solve [vm_compute; reflexivity].
Ltac clk_step Hh h2 Hh2 :=
  first
  [ eapply (wp_or_RCC_CR _ _ _ _ _ Hh); [clk_side..|clk_next h2 Hh2]
  | eapply (wp_and_RCC_CR _ _ _ _ _ Hh); [clk_side..|clk_next h2 Hh2]
  | eapply wp_or_clk; [clk_side|exact Hh|clk_side..|clk_next h2 Hh2]
  | eapply wp_and_clk; [clk_side|exact Hh|clk_side..|clk_next h2 Hh2]
  | eapply (wp_wr_clk _ _ _ _ _ Hh); [clk_side|clk_next h2 Hh2]
  | eapply (wp_wr_other _ _ _ _ _ _ Hh); [clk_side|clk_next h2 Hh2] ].
(** The statement at the head of the goal. *)
Ltac clk_run :=
  match goal with
  | Hh : is_clk ?h _ |- wp (_ ≫= _) _ ?h =>
      let h2 := fresh "h" in let Hh2 := fresh "Hh" in
      apply wp_bind; clk_step Hh h2 Hh2; clear h Hh
  end.
