(* ===== verification/LwipMem.v ===== *)
(** The heap of lwIP: updater_mcu/Libraries/lwip-1.3.1/src/core/mem.c, with the
    port's lwipopts.h: a heap of 20 KB, 4-byte alignment, [mem_size_t] a 16-bit
    integer, no operating system (the semaphore macros are empty) and no frees
    from another context.  An assertion that fails does nothing in this port:
    LWIP_PLATFORM_ASSERT tests the text of the message. *)
From S2P Require Import Prelude Mmio.

(** * Constants *)
Definition MEM_ALIGNMENT : Z := 4.
Definition MEM_SIZE : Z := 20 * 1024.
Definition LWIP_MEM_ALIGN_SIZE (size : Z) : Z :=
  Z.land (size + MEM_ALIGNMENT - 1) (Z.lnot (MEM_ALIGNMENT - 1)).
Definition MIN_SIZE : Z := 12.
Definition MIN_SIZE_ALIGNED : Z := LWIP_MEM_ALIGN_SIZE MIN_SIZE.
(** [struct mem] is two 16-bit indices and a byte. *)
Definition SIZEOF_STRUCT_MEM : Z := LWIP_MEM_ALIGN_SIZE 6.
Definition MEM_SIZE_ALIGNED : Z := LWIP_MEM_ALIGN_SIZE MEM_SIZE.

(** The statics of the file: the bytes of the heap from [ram], and [lfree] as an
    index.  [ram_end] is the index [MEM_SIZE_ALIGNED].  A pointer into the heap
    is an index, and NULL is [None]. *)
Record heap : Type := Heap { ram : Z -> Z; lfree : Z }.
Definition set_ram (m : Z -> Z) (h : heap) : heap := Heap m (lfree h).
Definition set_lfree (p : Z) (h : heap) : heap := Heap (ram h) p.
Definition set8 (a v : Z) (m : Z -> Z) : Z -> Z := fun x => if x =? a then v else m x.

(** The fields of the [struct mem] at an index. *)
Definition hd_next (m : Z -> Z) (p : Z) : Z := le16 m p.
Definition hd_prev (m : Z -> Z) (p : Z) : Z := le16 m (p + 2).
Definition hd_used (m : Z -> Z) (p : Z) : Z := m (p + 4).

(** * Accesses to a [struct mem]: it has to lie in the array *)
Definition in_ram (p : Z) : bool := (0 <=? p) && (p <=? MEM_SIZE_ALIGNED).
Definition get_next (p : Z) : M heap Z :=
  if in_ram p then gets (fun h => hd_next (ram h) p) else fault.
Definition get_prev (p : Z) : M heap Z :=
  if in_ram p then gets (fun h => hd_prev (ram h) p) else fault.
Definition get_used (p : Z) : M heap Z :=
  if in_ram p then gets (fun h => hd_used (ram h) p) else fault.
Definition set_next (p v : Z) : M heap unit :=
  if in_ram p then modify (fun h => set_ram (set16 p (u16 v) (ram h)) h) else fault.
Definition set_prev (p v : Z) : M heap unit :=
  if in_ram p then modify (fun h => set_ram (set16 (p + 2) (u16 v) (ram h)) h) else fault.
Definition set_used (p v : Z) : M heap unit :=
  if in_ram p then modify (fun h => set_ram (set8 (p + 4) v (ram h)) h) else fault.

(** [((struct mem * )&ram[mem->next])->prev = p] where the source excludes the end. *)
Definition link_back (next p : Z) : M heap unit :=
  if next =? MEM_SIZE_ALIGNED then mret tt else set_prev next p.

Definition mem_init : M heap unit :=
  _ ← set_next 0 MEM_SIZE_ALIGNED;
  _ ← set_prev 0 0;
  _ ← set_used 0 0;
  _ ← set_used MEM_SIZE_ALIGNED 1;
  _ ← set_next MEM_SIZE_ALIGNED MEM_SIZE_ALIGNED;
  _ ← set_prev MEM_SIZE_ALIGNED MEM_SIZE_ALIGNED;
  modify (set_lfree 0).

Definition plug_holes (mem : Z) : M heap unit :=
  nmem ← get_next mem;
  nused ← get_used nmem;
  _ ← (if negb (mem =? nmem) && (nused =? 0) && negb (nmem =? MEM_SIZE_ALIGNED) then
         f ← gets lfree;
         _ ← (if f =? nmem then modify (set_lfree mem) else mret tt);
         n ← get_next nmem;
         _ ← set_next mem n;
         n ← get_next nmem;
         set_prev n mem
       else mret tt);
  pmem ← get_prev mem;
  pused ← get_used pmem;
  if negb (pmem =? mem) && (pused =? 0) then
    f ← gets lfree;
    _ ← (if f =? mem then modify (set_lfree pmem) else mret tt);
    n ← get_next mem;
    _ ← set_next pmem n;
    n ← get_next mem;
    set_prev n pmem
  else mret tt.

Definition mem_free (rmem : option Z) : M heap unit :=
  match rmem with
  | None => mret tt
  | Some rmem =>
      if (rmem <? 0) || (MEM_SIZE_ALIGNED <=? rmem) then mret tt
      else
        let mem := rmem - SIZEOF_STRUCT_MEM in
        _ ← set_used mem 0;
        f ← gets lfree;
        _ ← (if mem <? f then modify (set_lfree mem) else mret tt);
        plug_holes mem
  end.

(** The size of an allocation: aligned, at least [MIN_SIZE_ALIGNED], in 16 bits. *)
Definition block_size (size : Z) : Z :=
  let size := u16 (LWIP_MEM_ALIGN_SIZE size) in
  if size <? MIN_SIZE_ALIGNED then MIN_SIZE_ALIGNED else size.

(** mem_realloc: it shrinks the block at [rmem]. *)
Definition mem_realloc (rmem newsize : Z) : M heap (option Z) :=
  let newsize := block_size newsize in
  if MEM_SIZE_ALIGNED <? newsize then mret None
  else if (rmem <? 0) || (MEM_SIZE_ALIGNED <=? rmem) then mret (Some rmem)
  else
    let ptr := u16 (rmem - SIZEOF_STRUCT_MEM) in
    mnext ← get_next ptr;
    let size := u16 (mnext - ptr - SIZEOF_STRUCT_MEM) in
    if size <? newsize then mret None
    else if newsize =? size then mret (Some rmem)
    else
      let mem2 := mnext in
      used2 ← get_used mem2;
      if used2 =? 0 then
        next ← get_next mem2;
        let ptr2 := u16 (ptr + SIZEOF_STRUCT_MEM + newsize) in
        f ← gets lfree;
        _ ← (if f =? mem2 then modify (set_lfree ptr2) else mret tt);
        _ ← set_used ptr2 0;
        _ ← set_next ptr2 next;
        _ ← set_prev ptr2 ptr;
        _ ← set_next ptr ptr2;
        n ← get_next ptr2;
        _ ← link_back n ptr2;
        mret (Some rmem)
      else if newsize + SIZEOF_STRUCT_MEM + MIN_SIZE_ALIGNED <=? size then
        let ptr2 := u16 (ptr + SIZEOF_STRUCT_MEM + newsize) in
        f ← gets lfree;
        _ ← (if ptr2 <? f then modify (set_lfree ptr2) else mret tt);
        _ ← set_used ptr2 0;
        n ← get_next ptr;
        _ ← set_next ptr2 n;
        _ ← set_prev ptr2 ptr;
        _ ← set_next ptr ptr2;
        n ← get_next ptr2;
        _ ← link_back n ptr2;
        mret (Some rmem)
      else mret (Some rmem).

(** [while (lfree->used && lfree != ram_end) lfree = lfree->next] *)
Definition next_free_body (_ : unit) : M heap (unit + unit) :=
  f ← gets lfree;
  used ← get_used f;
  if negb (used =? 0) && negb (f =? MEM_SIZE_ALIGNED) then
    n ← get_next f;
    _ ← modify (set_lfree n);
    mret (inl tt)
  else mret (inr tt).

(** The fuel of the walks: a block takes at least 20 bytes of the heap. *)
Definition max_blocks : positive := 1026.

(** Take the free block at [ptr] for [size] bytes: the body of the inner [if]. *)
Definition malloc_take (size ptr : Z) : M heap (option Z) :=
  next ← get_next ptr;
  _ ← (if size + SIZEOF_STRUCT_MEM + MIN_SIZE_ALIGNED <=? u32 (next - (ptr + SIZEOF_STRUCT_MEM)) then
         let ptr2 := u16 (ptr + SIZEOF_STRUCT_MEM + size) in
         _ ← set_used ptr2 0;
         n ← get_next ptr;
         _ ← set_next ptr2 n;
         _ ← set_prev ptr2 ptr;
         _ ← set_next ptr ptr2;
         _ ← set_used ptr 1;
         n ← get_next ptr2;
         link_back n ptr2
       else set_used ptr 1);
  f ← gets lfree;
  _ ← (if ptr =? f then loop max_blocks next_free_body tt else mret tt);
  mret (Some (ptr + SIZEOF_STRUCT_MEM)).

Definition malloc_body (size ptr : Z) : M heap (Z + option Z) :=
  if ptr <? MEM_SIZE_ALIGNED - size then
    used ← get_used ptr;
    next ← get_next ptr;
    if (used =? 0) && (size <=? u32 (next - (ptr + SIZEOF_STRUCT_MEM))) then
      r ← malloc_take size ptr; mret (inr r)
    else mret (inl next)
  else mret (inr None).

Definition mem_malloc (size : Z) : M heap (option Z) :=
  if size =? 0 then mret None
  else
    let size := block_size size in
    if MEM_SIZE_ALIGNED <? size then mret None
    else
      ptr ← gets lfree;
      loop max_blocks (malloc_body size) ptr.

(** [memset(p, 0, n)] on the heap: the bytes have to lie in the array. *)
Definition clear_bytes (p n : Z) : M heap unit := fun h =>
  if (0 <=? p) && (p + n <=? MEM_SIZE_ALIGNED + 2 * SIZEOF_STRUCT_MEM) then
    Ret tt (set_ram (fun x => if (p <=? x) && (x <? p + n) then 0 else ram h x) h)
  else Fault.

(** The product is an [int], passed as a [mem_size_t] to mem_malloc but not to
    memset. *)
Definition mem_calloc (count size : Z) : M heap (option Z) :=
  p ← mem_malloc (u16 (count * size));
  match p with
  | Some q => _ ← clear_bytes q (count * size); mret (Some q)
  | None => mret None
  end.
