(* ===== verification/LwipMemSpec.v ===== *)
(** The heap of lwIP against its layout: the list of its blocks, with their
    sizes and whether they are in use.  The operations of LwipMem.v refine a
    first-fit allocator on such lists. *)
From S2P Require Import Prelude Mmio LwipMem.

(** * Layouts *)

(** A block: its size, header included, and whether it is in use. *)
Definition block : Type := Z * bool.

Fixpoint total (l : list block) : Z :=
  match l with [] => 0 | (n, _) :: l => n + total l end.

(** The headers from index [p], behind a block at [q], describe the blocks [l];
    the last of them is at [q'] and the run ends at [p']. *)
Fixpoint seg (m : Z -> Z) (q p : Z) (l : list block) (q' p' : Z) : Prop :=
  match l with
  | [] => q' = q /\ p' = p
  | (n, u) :: l => hd_prev m p = q /\ hd_next m p = p + n /\ hd_used m p = Z.b2z u /\
      20 <= n /\ seg m p (p + n) l q' p'
  end.

Definition laid (m : Z -> Z) (l : list block) : Prop :=
  hd_next m MEM_SIZE_ALIGNED = MEM_SIZE_ALIGNED /\ hd_used m MEM_SIZE_ALIGNED = 1 /\
  exists q, seg m 0 0 l q MEM_SIZE_ALIGNED.

(** No two free blocks in a row. *)
Fixpoint alternate (l : list bool) : Prop :=
  match l with u :: ((v :: _) as t) => u || v = true /\ alternate t | _ => True end.
Definition coalesced (l : list block) : Prop := alternate (map snd l).

Fixpoint first_free (p : Z) (l : list block) : Z :=
  match l with [] => p | (n, u) :: l => if (u : bool) then first_free (p + n) l else p end.

Definition aligned (l : list block) : Prop := Forall (fun b => fst b mod MEM_ALIGNMENT = 0) l.

(** The heap invariant. *)
Record heap_ok (h : heap) (l : list block) : Prop := {
  ok_laid : laid (ram h) l;
  ok_coalesced : coalesced l;
  ok_aligned : aligned l;
  ok_lfree : lfree h = first_free 0 l
}.

(** [x] is the index of a byte of user data in a block in use. *)
Fixpoint in_data (p : Z) (l : list block) (x : Z) : Prop :=
  match l with
  | [] => False
  | (n, u) :: l => (u = true /\ p + SIZEOF_STRUCT_MEM <= x < p + n) \/ in_data (p + n) l x
  end.
Definition data_kept (h h' : heap) (l : list block) : Prop :=
  forall x, in_data 0 l x -> ram h' x = ram h x.

(** * The allocator on layouts *)

(** A free block of [n] bytes taken for [size] bytes of data. *)
Definition take (size n : Z) : list block :=
  if size + 28 <=? n then [(size + 8, true); (n - (size + 8), false)] else [(n, true)].

(** First fit from [p]: the index of the block and the new layout. *)
Fixpoint alloc (size p : Z) (l : list block) : option (Z * list block) :=
  match l with
  | [] => None
  | (n, u) :: t =>
      if negb u && (size + 8 <=? n) then Some (p, take size n ++ t)
      else match alloc size (p + n) t with
           | Some (a, t') => Some (a, (n, u) :: t')
           | None => None
           end
  end.

(** A free block in front of [t]. *)
Definition join (n : Z) (t : list block) : list block :=
  match t with (k, false) :: t' => (n + k, false) :: t' | _ => (n, false) :: t end.

(** Free the block at index [a]. *)
Fixpoint release (a p : Z) (l : list block) : list block :=
  match l with
  | [] => []
  | (n, u) :: t =>
      if p =? a then join n t
      else match t with
           | (k, _) :: t' => if (p + n =? a) && negb u then join (n + k) t'
                             else (n, u) :: release a (p + n) t
           | [] => [(n, u)]
           end
  end.

(** * Reads after writes *)
Lemma u16_small v : 0 <= v < 65536 -> u16 v = v.
Proof. unfold u16. intros. apply Z.mod_small. lia. Qed.

Lemma le16_set16_eq a v m : 0 <= v < 65536 -> le16 (set16 a v m) a = v.
Proof.
  intros Hv. unfold le16, set16, byte_of. rewrite Z.eqb_refl.
  rewrite (proj2 (Z.eqb_neq (a + 1) a)), Z.eqb_refl by lia. cbn [Z.mul Pos.mul].
  Z.div_mod_to_equations. lia.
Qed.

Lemma set16_ne a v m x : x < a \/ a + 1 < x -> set16 a v m x = m x.
Proof. intros. unfold set16. by rewrite !(proj2 (Z.eqb_neq _ _)) by lia. Qed.
Lemma set8_ne a v m x : x <> a -> set8 a v m x = m x.
Proof. intros. unfold set8. by rewrite (proj2 (Z.eqb_neq _ _)). Qed.
Lemma set8_eq a v m : set8 a v m a = v.
Proof. unfold set8. by rewrite Z.eqb_refl. Qed.
Lemma le16_set16_ne a v m b : b + 1 < a \/ a + 1 < b -> le16 (set16 a v m) b = le16 m b.
Proof. intros. unfold le16. by rewrite !set16_ne by lia. Qed.
Lemma le16_set8_ne a v m b : b + 1 < a \/ a < b -> le16 (set8 a v m) b = le16 m b.
Proof. intros. unfold le16. by rewrite !set8_ne by lia. Qed.

(** Evaluate the header fields of a memory with writes in it; the addresses are
    compared by lia. *)
Ltac hd_reads :=
  unfold hd_next, hd_prev, hd_used in *;
  repeat first
    [ rewrite le16_set16_eq by lia | rewrite set8_eq
    | rewrite le16_set16_ne by lia | rewrite le16_set8_ne by lia
    | rewrite set16_ne by lia | rewrite set8_ne by lia ].

(** * Segments *)
Lemma seg_end m q p l q' p' : seg m q p l q' p' -> p' = p + total l.
Proof.
  revert q p. induction l as [|[n u] l IH]; intros q p; cbn [seg total].
  - intros [_ ->]. lia.
  - intros (_ & _ & _ & _ & Hs). apply IH in Hs. lia.
Qed.

Lemma seg_total m q p l q' p' : seg m q p l q' p' -> p <= p' /\ (l <> [] -> p + 20 <= p').
Proof.
  revert q p. induction l as [|[n u] l IH]; intros q p; cbn [seg].
  - intros [_ ->]. split; [lia|done].
  - intros (_ & _ & _ & Hn & Hs). apply IH in Hs as [Hs _]. split; lia.
Qed.

Lemma seg_app m q p l1 l2 q' p' :
  seg m q p (l1 ++ l2) q' p' <->
  exists q1, seg m q p l1 q1 (p + total l1) /\ seg m q1 (p + total l1) l2 q' p'.
Proof.
  revert q p. induction l1 as [|[n u] l1 IH]; intros q p; cbn [app seg total].
  - rewrite Z.add_0_r. split; [by eauto|]. by intros (q1 & [-> _] & Hs).
  - rewrite IH. replace (p + n + total l1) with (p + (n + total l1)) by lia.
    split; [intros (?&?&?&?&q1&?&?)|intros (q1&(?&?&?&?&?)&?)]; eauto 10.
Qed.

Lemma seg_frame m m' q p l q' p' :
  (forall x, p <= x < p' -> m' x = m x) -> seg m q p l q' p' -> seg m' q p l q' p'.
Proof.
  revert q p. induction l as [|[n u] l IH]; intros q p Hm; cbn [seg]; [done|].
  intros (Hp & Hx & Hu & Hn & Hs). pose proof (seg_total _ _ _ _ _ _ Hs) as [Hle _].
  unfold hd_prev, hd_next, hd_used, le16 in *. rewrite !Hm by lia. split_and!; try done.
  apply IH; [|done]. intros x Hx'. apply Hm. lia.
Qed.

(** Another header in front of a segment. *)
Lemma seg_relink m m' q r p l q' p' :
  (forall x, p <= x < p' -> x <> p + 2 -> x <> p + 3 -> m' x = m x) ->
  (l <> [] -> hd_prev m' p = r) ->
  seg m q p l q' p' -> exists q'', seg m' r p l q'' p'.
Proof.
  intros Hm Hr. destruct l as [|[n u] l]; cbn [seg]; [by intros [_ ->]; eauto|].
  intros (Hp & Hx & Hu & Hn & Hs). pose proof (seg_total _ _ _ _ _ _ Hs) as [Hle _].
  exists q'. rewrite Hr by done. unfold hd_next, hd_used, le16 in *. rewrite !Hm by lia.
  split_and!; try done. apply (seg_frame m); [|done]. intros x Hx'. apply Hm; lia.
Qed.

Lemma in_data_app p l1 l2 x :
  in_data p (l1 ++ l2) x <-> in_data p l1 x \/ in_data (p + total l1) l2 x.
Proof.
  revert p. induction l1 as [|[n u] l1 IH]; intros p; cbn [app in_data total].
  - rewrite Z.add_0_r. tauto.
  - rewrite IH. replace (p + n + total l1) with (p + (n + total l1)) by lia. tauto.
Qed.

Lemma in_data_range m q p l q' p' x :
  seg m q p l q' p' -> in_data p l x -> p + SIZEOF_STRUCT_MEM <= x < p'.
Proof.
  revert q p. induction l as [|[n u] l IH]; intros q p; cbn [seg in_data]; [done|].
  intros (_ & _ & _ & Hn & Hs) [[_ Hx]|Hx].
  - apply seg_total in Hs as [Hs _]. lia.
  - specialize (IH _ _ Hs Hx). change SIZEOF_STRUCT_MEM with 8 in *. lia.
Qed.

(** Replace the blocks [mid] by [mid'] in the middle of a layout: the memory may
    change inside them and in the back link behind them. *)
Section replace.
Context (m m' : Z -> Z) (l1 mid mid' l2 : list block).
Let p := total l1.
Let e := p + total mid.
Context (Hlaid : laid m (l1 ++ mid ++ l2)).
Context (Hlow : forall x, x < p -> m' x = m x).
Context (Hhigh : forall x, e <= x -> x <> e + 2 -> x <> e + 3 -> m' x = m x).

Lemma laid_mid : exists q q1, seg m 0 0 l1 q p /\ seg m q p mid q1 e /\
  exists q2, seg m q1 e l2 q2 MEM_SIZE_ALIGNED.
Proof.
  destruct Hlaid as (_ & _ & q & Hs). apply seg_app in Hs as (q1 & Hs1 & Hs).
  apply seg_app in Hs as (q2 & Hs2 & Hs3). eauto 10.
Qed.

Lemma laid_replace :
  total mid' = total mid ->
  (forall q q1, seg m q p mid q1 e -> e <= MEM_SIZE_ALIGNED -> (l2 <> [] -> e < MEM_SIZE_ALIGNED) ->
     exists q2, seg m' q p mid' q2 e /\ (l2 <> [] -> hd_prev m' e = q2)) ->
  laid m' (l1 ++ mid' ++ l2).
Proof.
  intros Ht Hmid. destruct laid_mid as (q & q1 & Hs1 & Hs2 & q2 & Hs3).
  destruct Hlaid as (He1 & He2 & _). pose proof (seg_total _ _ _ _ _ _ Hs3) as [Hle Hlt].
  destruct (Hmid q q1 Hs2) as (q3 & Hm2 & Hlink); [done|intros Hne; specialize (Hlt Hne); lia|].
  assert (e = MEM_SIZE_ALIGNED \/ e + 20 <= MEM_SIZE_ALIGNED) as He.
  { destruct l2; [left; by destruct Hs3|right; by apply Hlt]. }
  split; [|split]; [unfold hd_next, le16 in *; by rewrite !Hhigh by lia|
                    unfold hd_used in *; by rewrite Hhigh by lia|].
  destruct (seg_relink m m' q1 q3 e l2 q2 MEM_SIZE_ALIGNED) as [q4 Hs4]; [|done..|].
  { intros x Hx H2 H3. apply Hhigh; lia. }
  exists q4. apply seg_app. exists q. split.
  { apply (seg_frame m); [|done]. intros x Hx. apply Hlow. lia. }
  apply seg_app. exists q3. change (0 + total l1) with p. rewrite Ht. by split.
Qed.

Lemma data_replace x : in_data 0 l1 x \/ in_data e l2 x -> m' x = m x.
Proof.
  destruct laid_mid as (q & q1 & Hs1 & Hs2 & q2 & Hs3).
  intros [Hx|Hx].
  - pose proof (in_data_range _ _ _ _ _ _ _ Hs1 Hx). apply Hlow. lia.
  - pose proof (in_data_range _ _ _ _ _ _ _ Hs3 Hx). change SIZEOF_STRUCT_MEM with 8 in *.
    apply Hhigh; lia.
Qed.
End replace.

(** * The first free block *)
Definition all_used (l : list block) : Prop := Forall (fun b => snd b = true) l.

Lemma first_free_app p l1 l2 : all_used l1 -> first_free p (l1 ++ l2) = first_free (p + total l1) l2.
Proof.
  revert p. induction l1 as [|[n u] l1 IH]; intros p Hl; cbn [app first_free total].
  - f_equal. lia.
  - apply Forall_cons_1 in Hl as [Hu Hl]. cbn in Hu. subst u. rewrite IH by done. f_equal. lia.
Qed.

Lemma first_free_split l : exists l1 l2, l = l1 ++ l2 /\ all_used l1 /\
  (forall p, first_free p l = p + total l1) /\ match l2 with (_, true) :: _ => False | _ => True end.
Proof.
  induction l as [|[n u] l (l1 & l2 & -> & Hu & Hf & Hh)].
  - exists [], []. split_and!; [done|constructor|intros p; cbn; lia|done].
  - destruct u.
    + exists ((n, true) :: l1), l2. split_and!; [done|by constructor| |done].
      intros p. cbn [app first_free total]. rewrite Hf. lia.
    + exists [], ((n, false) :: l1 ++ l2). split_and!; [done|constructor|intros p; cbn; lia|done].
Qed.

(** In front of a block that is not the first free one there is a free block. *)
Lemma first_free_before m q p l1 l2 q' : seg m q p l1 q' (p + total l1) -> ~ all_used l1 ->
  first_free p (l1 ++ l2) < p + total l1 /\
  forall l3, first_free p (l1 ++ l3) = first_free p (l1 ++ l2).
Proof.
  revert q p. induction l1 as [|[n u] l1 IH]; intros q p; cbn [seg app first_free total].
  - intros _ []. constructor.
  - intros (_ & _ & _ & Hn & Hs) Hu. destruct u.
    + replace (p + (n + total l1)) with (p + n + total l1) in * by lia.
      destruct (IH _ _ Hs) as [Hlt Heq]; [intros Ha; apply Hu; by constructor|]. by split.
    + apply seg_total in Hs as [Hs _]. split; [lia|done].
Qed.

Lemma first_free_le m q l1 n l2 q' : seg m q 0 l1 q' (0 + total l1) ->
  first_free 0 (l1 ++ (n, false) :: l2) <= total l1.
Proof.
  intros Hs. destruct (decide (all_used l1)) as [Hu|Hu].
  - rewrite first_free_app by done. cbn [first_free]. lia.
  - destruct (first_free_before _ _ _ _ ((n, false) :: l2) _ Hs Hu) as [Hlt _]. lia.
Qed.

Lemma all_used_dec l : all_used l \/ ~ all_used l.
Proof. destruct (decide (all_used l)); [by left|by right]. Qed.

(** * First fit *)
(** No block of [l] is taken. *)
Definition no_fit (size : Z) (l : list block) : Prop :=
  Forall (fun b => snd b = true \/ fst b < size + 8) l.

Lemma alloc_skip size p l1 l2 : no_fit size l1 ->
  alloc size p (l1 ++ l2) =
    match alloc size (p + total l1) l2 with Some (a, t) => Some (a, l1 ++ t) | None => None end.
Proof.
  revert p. induction l1 as [|[n u] l1 IH]; intros p Hl; cbn [app alloc total].
  - rewrite Z.add_0_r. by destruct (alloc size p l2) as [[]|].
  - apply Forall_cons_1 in Hl as [Hb Hl]. cbn in Hb.
    assert (negb u && (size + 8 <=? n) = false) as ->.
    { destruct Hb as [->|Hb]; [done|]. rewrite (proj2 (Z.leb_gt _ _)) by lia. apply andb_false_r. }
    rewrite IH by done. replace (p + n + total l1) with (p + (n + total l1)) by lia.
    by destruct (alloc size _ l2) as [[]|].
Qed.

Lemma total_app l1 l2 : total (l1 ++ l2) = total l1 + total l2.
Proof. induction l1 as [|[n u] l1 IH]; cbn [app total]; lia. Qed.

Lemma total_take size n : total (take size n) = n.
Proof. unfold take. destruct (_ <=? _); cbn [total]; lia. Qed.

(** * Accesses to headers *)
Lemma in_ram_true p : 0 <= p <= MEM_SIZE_ALIGNED -> in_ram p = true.
Proof. intros. unfold in_ram. rewrite !(proj2 (Z.leb_le _ _)) by lia. done. Qed.

Section access.
Implicit Types (h : heap).

Lemma wp_get_next p (Q : Z -> heap -> Prop) h :
  0 <= p <= MEM_SIZE_ALIGNED -> Q (hd_next (ram h) p) h -> wp (get_next p) Q h.
Proof. intros Hp HQ. unfold get_next. by rewrite in_ram_true. Qed.
Lemma wp_get_prev p (Q : Z -> heap -> Prop) h :
  0 <= p <= MEM_SIZE_ALIGNED -> Q (hd_prev (ram h) p) h -> wp (get_prev p) Q h.
Proof. intros Hp HQ. unfold get_prev. by rewrite in_ram_true. Qed.
Lemma wp_get_used p (Q : Z -> heap -> Prop) h :
  0 <= p <= MEM_SIZE_ALIGNED -> Q (hd_used (ram h) p) h -> wp (get_used p) Q h.
Proof. intros Hp HQ. unfold get_used. by rewrite in_ram_true. Qed.
Lemma wp_set_next p v (Q : unit -> heap -> Prop) h :
  0 <= p <= MEM_SIZE_ALIGNED -> 0 <= v < 65536 ->
  Q tt (Heap (set16 p v (ram h)) (lfree h)) -> wp (set_next p v) Q h.
Proof. intros Hp Hv HQ. unfold set_next. rewrite in_ram_true, u16_small by done. done. Qed.
Lemma wp_set_prev p v (Q : unit -> heap -> Prop) h :
  0 <= p <= MEM_SIZE_ALIGNED -> 0 <= v < 65536 ->
  Q tt (Heap (set16 (p + 2) v (ram h)) (lfree h)) -> wp (set_prev p v) Q h.
Proof. intros Hp Hv HQ. unfold set_prev. rewrite in_ram_true, u16_small by done. done. Qed.
Lemma wp_set_used p v (Q : unit -> heap -> Prop) h :
  0 <= p <= MEM_SIZE_ALIGNED -> Q tt (Heap (set8 (p + 4) v (ram h)) (lfree h)) -> wp (set_used p v) Q h.
Proof. intros Hp HQ. unfold set_used. by rewrite in_ram_true. Qed.
End access.

(** Run through the accesses of straight-line code; the indices are bounded by
    lia. *)
Ltac mem_step :=
  apply wp_bind;
  first [ apply wp_get_next; [lia|] | apply wp_get_prev; [lia|] | apply wp_get_used; [lia|]
        | apply wp_set_next; [lia|lia|] | apply wp_set_prev; [lia|lia|] | apply wp_set_used; [lia|]
        | apply wp_gets | apply wp_modify ];
  cbn [ram lfree set_ram set_lfree].

Lemma wp_mem_init (Q : unit -> heap -> Prop) h :
  (forall h', heap_ok h' [(MEM_SIZE_ALIGNED, false)] -> Q tt h') -> wp mem_init Q h.
Proof.
  intros HQ. unfold mem_init. assert (Hmax : MEM_SIZE_ALIGNED = 20480) by done. rewrite Hmax in *.
  do 6 mem_step. apply wp_modify. apply HQ. split; cbn [ram lfree set_lfree];
    [|done|by apply Forall_cons_2; [|apply Forall_nil_2]|done].
  unfold laid. rewrite Hmax. split; [hd_reads; lia|]. split; [hd_reads; lia|].
  exists 0. cbn [seg Z.b2z]. split_and!; try lia; hd_reads; lia.
Qed.

(** The walk of lfree to the next free block. *)
Lemma wp_next_free (Q : unit -> heap -> Prop) h l1 l2 :
  laid (ram h) (l1 ++ l2) -> lfree h = total l1 ->
  Q tt (Heap (ram h) (first_free (total l1) l2)) ->
  wp (loop max_blocks next_free_body tt) Q h.
Proof.
  intros Hl Hf HQ.
  apply (wp_loop (fun _ h' => exists a b, l2 = a ++ b /\ all_used a /\
      h' = Heap (ram h) (total l1 + total a))
    (fun _ h' => (MEM_SIZE_ALIGNED - lfree h') / 20)).
  - exists [], l2. split_and!; [done|constructor|]. destruct h. cbn in *. f_equal. lia.
  - destruct Hl as (_ & _ & q & Hs). apply seg_app in Hs as (q1 & Hs1 & Hs2).
    apply seg_total in Hs1 as [? _]. apply seg_total in Hs2 as [? _].
    rewrite Hf. change (Z.pos max_blocks) with 1026. change MEM_SIZE_ALIGNED with 20480 in *. Z.div_mod_to_equations. lia.
  - intros [] h' (a & b & -> & Ha & ->) _. destruct Hl as (He1 & He2 & q & Hs).
    rewrite app_assoc in Hs. apply seg_app in Hs as (q1 & Hs1 & Hs2).
    rewrite total_app, Z.add_0_l in *. pose proof (seg_total _ _ _ _ _ _ Hs1) as [Hb1 _].
    pose proof (seg_total _ _ _ _ _ _ Hs2) as [Hb2 _].
    unfold next_free_body. mem_step. mem_step.
    destruct b as [|[n u] b]; cbn [seg] in Hs2.
    + destruct Hs2 as [_ Heq]. rewrite <- Heq, He2, Z.eqb_refl. cbn [Z.eqb negb andb].
      apply wp_ret. revert HQ. rewrite first_free_app by done. cbn [first_free]. by rewrite Heq.
    + destruct Hs2 as (_ & Hn & Hu & Hn20 & Hs3). apply seg_total in Hs3 as [Hb3 _].
      rewrite Hu. rewrite (proj2 (Z.eqb_neq _ MEM_SIZE_ALIGNED)) by lia.
      destruct u; cbn [Z.b2z Z.eqb negb andb].
      * mem_step. mem_step. apply wp_ret. rewrite Hn. split.
        -- exists (a ++ [(n, true)]), b. rewrite <- app_assoc, total_app. cbn [app total].
           split_and!; [done|apply Forall_app; split; [done|by repeat constructor]|].
           unfold set_lfree. cbn [ram]. f_equal. lia.
        -- cbn [lfree set_lfree]. Z.div_mod_to_equations. lia.
      * apply wp_ret. revert HQ. by rewrite first_free_app.
Qed.

(** * mem_malloc *)
Lemma alternate_mid l1 u l2 : alternate (l1 ++ u :: l2) <-> alternate (l1 ++ [u]) /\ alternate (u :: l2).
Proof.
  induction l1 as [|v l1 IH]; [cbn [app]; destruct l2; cbn; tauto|].
  destruct l1 as [|w l1]; [cbn; destruct l2; tauto|]. cbn [app alternate] in *. rewrite IH. tauto.
Qed.

Lemma alternate_used l u : alternate (l ++ [u]) -> alternate (l ++ [true]).
Proof.
  induction l as [|v l IH]; [done|]. destruct l as [|w l].
  - cbn. by rewrite orb_true_r.
  - cbn [app alternate] in *. intros [? ?]. split; [done|by apply IH].
Qed.

Lemma coalesced_take size n l1 l2 :
  coalesced (l1 ++ (n, false) :: l2) -> coalesced (l1 ++ take size n ++ l2).
Proof.
  unfold coalesced, take. rewrite !map_app. intros [Hl Hr]%alternate_mid.
  destruct (_ <=? _); cbn [app map snd] in *.
  - apply alternate_mid. split; [by eapply alternate_used|]. by split.
  - apply alternate_mid. split; [by eapply alternate_used|].
    destruct l2 as [|[k v] l2]; cbn in *; [done|]. by destruct Hr.
Qed.

Lemma aligned_take size n : n mod 4 = 0 -> size mod 4 = 0 -> aligned (take size n).
Proof.
  intros Hn Hs. unfold take, aligned. change MEM_ALIGNMENT with 4.
  destruct (_ <=? _); repeat (apply Forall_cons_2; [cbn [fst]|]); try apply Forall_nil_2;
    try done; Z.div_mod_to_equations; lia.
Qed.

Lemma aligned_replace l1 mid mid' l2 :
  aligned (l1 ++ mid ++ l2) -> aligned mid' -> aligned (l1 ++ mid' ++ l2).
Proof. unfold aligned. rewrite !Forall_app. tauto. Qed.

(** Where a free block in the middle of a heap lies. *)
Lemma laid_block m l1 n u l2 : laid m (l1 ++ (n, u) :: l2) ->
  0 <= total l1 /\ 20 <= n /\ total l1 + n <= MEM_SIZE_ALIGNED /\
  hd_next m (total l1) = total l1 + n /\ hd_used m (total l1) = Z.b2z u /\
  (l2 <> [] -> total l1 + n < MEM_SIZE_ALIGNED) /\ (l2 = [] -> total l1 + n = MEM_SIZE_ALIGNED).
Proof.
  intros (_ & _ & q & Hs). apply seg_app in Hs as (q1 & Hs1 & Hs2). rewrite Z.add_0_l in *.
  cbn [seg] in Hs2. destruct Hs2 as (_ & Hx & Hu & Hn & Hs3).
  apply seg_total in Hs1 as [? _]. pose proof (seg_total _ _ _ _ _ _ Hs3) as [? Hlt].
  split_and!; try done; [intros Hne; specialize (Hlt Hne); lia|].
  intros ->. by destruct Hs3.
Qed.

Lemma wp_link_back next p (Q : unit -> heap -> Prop) h :
  0 <= next <= MEM_SIZE_ALIGNED -> 0 <= p < 65536 ->
  Q tt (Heap (if next =? MEM_SIZE_ALIGNED then ram h else set16 (next + 2) p (ram h)) (lfree h)) ->
  wp (link_back next p) Q h.
Proof.
  intros Hn Hp HQ. unfold link_back. destruct (next =? MEM_SIZE_ALIGNED).
  - apply wp_ret. by destruct h.
  - by apply wp_set_prev.
Qed.

(** Replace one block. *)
Lemma replace_one m m' l1 n u mid' l2 :
  laid m (l1 ++ [(n, u)] ++ l2) -> total mid' = n ->
  (forall x, x < total l1 -> m' x = m x) ->
  (forall x, total l1 + n <= x -> x <> total l1 + n + 2 -> x <> total l1 + n + 3 -> m' x = m x) ->
  (exists q2, seg m' (hd_prev m (total l1)) (total l1) mid' q2 (total l1 + n) /\
     (l2 <> [] -> hd_prev m' (total l1 + n) = q2)) ->
  laid m' (l1 ++ mid' ++ l2) /\
  (forall x, in_data 0 l1 x \/ in_data (total l1 + n) l2 x -> m' x = m x).
Proof.
  intros Hl Ht Hlow Hhigh (q2 & Hq2 & Hlink).
  assert (Hn : total l1 + total [(n, u)] = total l1 + n) by (cbn [total]; lia). split.
  - eapply laid_replace; [done|done|by rewrite Hn|by rewrite Ht; cbn [total]; lia|].
    rewrite Hn. intros q q1 Hs _ _. cbn [seg] in Hs. destruct Hs as (<- & _). eauto.
  - intros x Hx. eapply (data_replace m m' l1 [(n, u)] l2); [done|done|by rewrite Hn|by rewrite Hn].
Qed.

(** The link of the first block of [l2] back to the block in front of it. *)
Lemma laid_link m l1 n u l2 : laid m (l1 ++ [(n, u)] ++ l2) -> l2 <> [] ->
  hd_prev m (total l1 + n) = total l1.
Proof.
  intros (_ & _ & q & Hs) Hne. apply seg_app in Hs as (q1 & _ & Hs). rewrite Z.add_0_l in Hs.
  cbn [app seg] in Hs. destruct Hs as (_ & _ & _ & _ & Hs).
  destruct l2 as [|[k v] l2]; [done|]. cbn [seg] in Hs. tauto.
Qed.

(** The memory after a free block is taken: split in two, or as a whole. *)
Lemma wp_take_split (Q : unit -> heap -> Prop) h l1 n l2 size (p := total l1) :
  laid (ram h) (l1 ++ [(n, false)] ++ l2) -> 12 <= size -> size + 28 <= n ->
  (forall m', laid m' (l1 ++ take size n ++ l2) ->
     (forall x, in_data 0 l1 x \/ in_data (p + n) l2 x -> m' x = ram h x) ->
     Q tt (Heap m' (lfree h))) ->
  wp (_ ← set_used (p + 8 + size) 0;
      n ← get_next p;
      _ ← set_next (p + 8 + size) n;
      _ ← set_prev (p + 8 + size) p;
      _ ← set_next p (p + 8 + size);
      _ ← set_used p 1;
      n ← get_next (p + 8 + size);
      link_back n (p + 8 + size)) Q h.
Proof.
  intros Hl Hs Hn HQ. pose proof (laid_block _ _ _ _ _ Hl) as (Hp & Hn20 & He & Hx & Hu & Hlt & Hnil).
  fold p in Hp, He, Hx, Hlt, Hnil. assert (Hmax : MEM_SIZE_ALIGNED = 20480) by done.
  mem_step. mem_step. hd_reads. rewrite Hx. mem_step. mem_step. mem_step. mem_step. mem_step. hd_reads.
  apply wp_link_back; [lia|lia|]. cbn [ram lfree]. set (m' := if p + n =? MEM_SIZE_ALIGNED then _ else _).
  assert (laid m' (l1 ++ take size n ++ l2) /\
    forall x, in_data 0 l1 x \/ in_data (p + n) l2 x -> m' x = ram h x) as [? ?]; [|by apply HQ].
  apply (replace_one _ _ _ _ _ _ _ Hl); [by apply total_take| | |].
  - intros x Hx'. fold p in Hx'. unfold m'. destruct (_ =? _); hd_reads; done.
  - intros x Hx' H2 H3. fold p in Hx', H2, H3. unfold m'. destruct (_ =? _); hd_reads; done.
  - fold p. exists (p + 8 + size). unfold take. rewrite (proj2 (Z.leb_le _ _)) by lia. cbn [seg].
    replace (p + (size + 8)) with (p + 8 + size) by lia. unfold m'.
    split_and!; try lia; try (destruct (_ =? _); hd_reads; cbn [Z.b2z]; lia).
    intros Hne. specialize (Hlt Hne). rewrite (proj2 (Z.eqb_neq _ _)) by lia. by hd_reads.
Qed.

Lemma take_whole h l1 n l2 size (p := total l1) (m' := set8 (p + 4) 1 (ram h)) :
  laid (ram h) (l1 ++ [(n, false)] ++ l2) -> size + 8 <= n -> n < size + 28 ->
  laid m' (l1 ++ take size n ++ l2) /\
  (forall x, in_data 0 l1 x \/ in_data (p + n) l2 x -> m' x = ram h x).
Proof.
  intros Hl Hs Hn. pose proof (laid_block _ _ _ _ _ Hl) as (Hp & Hn20 & He & Hx & Hu & Hlt & Hnil).
  fold p in Hp, He, Hx. unfold m'. apply (replace_one _ _ _ _ _ _ _ Hl); [by apply total_take|..]; fold p.
  - intros x Hx'. by hd_reads.
  - intros x ???. by hd_reads.
  - exists p. unfold take. rewrite (proj2 (Z.leb_gt _ _)) by lia. cbn [seg].
    split_and!; try lia; try (hd_reads; cbn [Z.b2z]; lia).
    intros Hne. pose proof (laid_link _ _ _ _ _ Hl Hne) as Hk. fold p in Hk. by hd_reads.
Qed.

(** lfree after the block at [total l1] is no longer free. *)
Lemma wp_update_lfree (Q : unit -> heap -> Prop) h m' l1 mid mid' l2 :
  laid (ram h) (l1 ++ mid ++ l2) -> laid m' (l1 ++ mid' ++ l2) ->
  match mid with (_, false) :: _ => True | _ => False end ->
  lfree h = first_free 0 (l1 ++ mid ++ l2) ->
  Q tt (Heap m' (first_free 0 (l1 ++ mid' ++ l2))) ->
  wp (f ← gets lfree; if total l1 =? f then loop max_blocks next_free_body tt else mret tt) Q
     (Heap m' (lfree h)).
Proof.
  intros Hl Hl' Hmid Hf HQ. mem_step. destruct (all_used_dec l1) as [Ha|Ha].
  - assert (lfree h = total l1) as Hf'.
    { rewrite Hf, first_free_app by done. destruct mid as [|[? []] ?]; done. }
    rewrite Hf', Z.eqb_refl. eapply wp_next_free; [exact Hl'|done|].
    revert HQ. by rewrite first_free_app.
  - destruct Hl as (_ & _ & q & Hs). apply seg_app in Hs as (q1 & Hs & _).
    destruct (first_free_before _ _ _ _ (mid ++ l2) _ Hs Ha) as [Hlt Heq].
    rewrite (proj2 (Z.eqb_neq _ _)) by lia. apply wp_ret. rewrite Hf, <- (Heq (mid' ++ l2)). done.
Qed.

Lemma wp_malloc_take (Q : option Z -> heap -> Prop) h l1 n l2 size :
  heap_ok h (l1 ++ (n, false) :: l2) -> 12 <= size -> size mod 4 = 0 -> size + 8 <= n ->
  (forall h', heap_ok h' (l1 ++ take size n ++ l2) -> data_kept h h' (l1 ++ (n, false) :: l2) ->
     Q (Some (total l1 + 8)) h') ->
  wp (malloc_take size (total l1)) Q h.
Proof.
  intros [Hl Hc Ha Hf] Hs Hs4 Hn HQ. change ((n, false) :: l2) with ([(n, false)] ++ l2) in *.
  pose proof (laid_block _ _ _ _ _ Hl) as (Hp & Hn20 & He & Hx & _).
  assert (Hmax : MEM_SIZE_ALIGNED = 20480) by done.
  assert (Htail : forall m', laid m' (l1 ++ take size n ++ l2) ->
    (forall x, in_data 0 l1 x \/ in_data (total l1 + n) l2 x -> m' x = ram h x) ->
    wp (f ← gets lfree; _ ← (if total l1 =? f then loop max_blocks next_free_body tt else mret tt);
        mret (Some (total l1 + SIZEOF_STRUCT_MEM))) Q (Heap m' (lfree h))).
  { intros m' Hl' Hd. apply wp_bind_assoc, wp_bind.
    apply (wp_update_lfree _ h m' l1 [(n, false)] (take size n) l2); [done..|]. apply wp_ret, HQ.
    - split; [done|by apply coalesced_take| |done].
      apply (aligned_replace _ _ _ _ Ha). apply aligned_take; [|done].
      unfold aligned in Ha. rewrite !Forall_app in Ha. destruct Ha as (_ & Ha & _).
      by apply Forall_cons_1 in Ha as [? _].
    - intros x Hx'. apply Hd. apply in_data_app in Hx'. cbn [app in_data] in Hx'.
      rewrite Z.add_0_l in Hx'. destruct Hx' as [?|[[? _]|?]]; [by left|done|by right]. }
  unfold malloc_take. change SIZEOF_STRUCT_MEM with 8 in *. change MIN_SIZE_ALIGNED with 12.
  mem_step. rewrite Hx. unfold u32. rewrite Z.mod_small by lia. apply wp_bind.
  destruct (Z.leb_spec (size + 8 + 12) (total l1 + n - (total l1 + 8))).
  - cbv zeta. rewrite u16_small by lia. apply (wp_take_split _ _ _ n l2); [done..|lia|].
    intros m' ??. by apply Htail.
  - apply wp_set_used; [lia|]. destruct (take_whole h l1 n l2 size Hl) as [? ?]; [lia..|].
    by apply Htail.
Qed.

(** A block that is free but too small, or in use, is passed over. *)
Lemma no_fit_pass size l1 n u l2 : no_fit size l1 -> u = true \/ n < size + 8 ->
  exists l1' l2', l1 ++ (n, u) :: l2 = l1' ++ l2' /\ no_fit size l1' /\ total l1 + n = total l1'.
Proof.
  intros Hl Hb. exists (l1 ++ [(n, u)]), l2. rewrite <- app_assoc, total_app. cbn [app total].
  split_and!; [done| |lia]. apply Forall_app. split; [done|].
  by apply Forall_cons_2; [|apply Forall_nil_2].
Qed.

Lemma seg_no_fit size m q p l q' p' : seg m q p l q' p' -> p' - p < size + 8 -> no_fit size l.
Proof.
  revert q p. induction l as [|[n u] l IH]; intros q p; cbn [seg]; [constructor|].
  intros (_ & _ & _ & Hn & Hs) Hlt. pose proof (seg_total _ _ _ _ _ _ Hs) as [? _].
  apply Forall_cons_2; [right; cbn; lia|]. apply (IH _ _ Hs). lia.
Qed.

Lemma alloc_no_fit size p l : no_fit size l -> alloc size p l = None.
Proof. intros Hl. pose proof (alloc_skip size p l [] Hl) as Ha. by rewrite app_nil_r in Ha. Qed.

Lemma wp_malloc_scan (Q : option Z -> heap -> Prop) h l size ptr :
  heap_ok h l -> 12 <= size -> size mod 4 = 0 -> size <= MEM_SIZE_ALIGNED ->
  (exists l1 l2, l = l1 ++ l2 /\ no_fit size l1 /\ ptr = total l1) ->
  (forall h', match alloc size 0 l with
   | Some (a, l') => heap_ok h' l' -> data_kept h h' l -> Q (Some (a + 8)) h'
   | None => Q None h
   end) ->
  wp (loop max_blocks (malloc_body size) ptr) Q h.
Proof.
  intros Hok Hs Hs4 Hmax Hptr HQ.
  apply (wp_loop (fun ptr h' => h' = h /\ exists l1 l2, l = l1 ++ l2 /\ no_fit size l1 /\ ptr = total l1)
                 (fun ptr _ => (MEM_SIZE_ALIGNED - ptr) / 20)).
  - by split.
  - destruct Hptr as (l1 & l2 & -> & _ & ->). destruct Hok as [(_ & _ & q & Hq) _ _ _].
    apply seg_app in Hq as (q1 & Hq1 & Hq2). apply seg_total in Hq1 as [? _].
    apply seg_total in Hq2 as [? _]. change (Z.pos max_blocks) with 1026.
    change MEM_SIZE_ALIGNED with 20480 in *. Z.div_mod_to_equations. lia.
  - clear Hptr. intros ptr' h' (-> & l1 & l2 & -> & Hl1 & ->) _.
    rewrite alloc_skip, Z.add_0_l in HQ by done. unfold malloc_body.
    destruct l2 as [|[n u] l2].
    + destruct Hok as [(_ & _ & q & Hq) _ _ _]. rewrite app_nil_r in Hq. apply seg_end in Hq.
      rewrite (proj2 (Z.ltb_ge _ _)) by lia. apply wp_ret. by apply HQ.
    + pose proof (laid_block _ _ _ _ _ (ok_laid _ _ Hok)) as (Hp & Hn20 & He & Hx & Hu & _).
      destruct (Z.ltb_spec (total l1) (MEM_SIZE_ALIGNED - size)).
      * mem_step. mem_step. rewrite Hx, Hu. change SIZEOF_STRUCT_MEM with 8. unfold u32.
        change MEM_SIZE_ALIGNED with 20480 in *. rewrite Z.mod_small by lia.
        cbn [alloc] in HQ. destruct u; cbn [negb andb Z.b2z Z.eqb] in *;
          [|destruct (Z.leb_spec (size + 8) n), (Z.leb_spec size (total l1 + n - (total l1 + 8))); try lia].
        2: { apply wp_bind. eapply wp_malloc_take; [exact Hok|done..|]. intros h2 Hok2 Hd.
             apply wp_ret. by apply HQ. }
        all: apply wp_ret; split; [|Z.div_mod_to_equations; lia]; split; [done|];
          apply no_fit_pass; [done|(by left) || (right; lia)].
      * apply wp_ret. destruct Hok as [(_ & _ & q & Hq) _ _ _].
        apply seg_app in Hq as (q1 & _ & Hq). rewrite Z.add_0_l in Hq.
        by rewrite (alloc_no_fit _ _ _ (seg_no_fit size _ _ _ _ _ _ Hq ltac:(lia))) in HQ; apply HQ.
Qed.

Lemma align_size s : LWIP_MEM_ALIGN_SIZE s = 4 * ((s + 3) / 4).
Proof.
  unfold LWIP_MEM_ALIGN_SIZE. change (MEM_ALIGNMENT - 1) with (Z.ones 2). rewrite <- Z.ldiff_land.
  rewrite Z.ldiff_ones_r, Z.shiftl_mul_pow2, Z.shiftr_div_pow2 by lia.
  change (2 ^ 2) with 4. change MEM_ALIGNMENT with 4. replace (s + 4 - 1) with (s + 3) by lia. lia.
Qed.

Lemma block_size_spec s : 0 <= s <= 65532 ->
  s <= block_size s /\ 12 <= block_size s /\ block_size s mod 4 = 0.
Proof.
  intros Hs. unfold block_size. rewrite align_size. change MIN_SIZE_ALIGNED with 12.
  unfold u16. rewrite Z.mod_small by (Z.div_mod_to_equations; lia).
  destruct (Z.ltb_spec (4 * ((s + 3) / 4)) 12); Z.div_mod_to_equations; lia.
Qed.

Lemma wp_mem_malloc (Q : option Z -> heap -> Prop) h l size :
  heap_ok h l -> 0 < size <= 65532 ->
  (forall h', match alloc (block_size size) 0 l with
   | Some (a, l') => heap_ok h' l' -> data_kept h h' l -> Q (Some (a + 8)) h'
   | None => Q None h
   end) ->
  wp (mem_malloc size) Q h.
Proof.
  intros Hok Hs HQ. unfold mem_malloc. rewrite (proj2 (Z.eqb_neq _ _)) by lia.
  destruct (block_size_spec size) as (Hb1 & Hb2 & Hb4); [lia|]. cbv zeta.
  destruct (Z.ltb_spec MEM_SIZE_ALIGNED (block_size size)).
  - apply wp_ret. destruct Hok as [(_ & _ & q & Hq) _ _ _].
    rewrite (alloc_no_fit _ _ _ (seg_no_fit (block_size size) _ _ _ _ _ _ Hq ltac:(lia))) in HQ.
    by apply HQ.
  - apply wp_bind, wp_gets. rewrite (ok_lfree _ _ Hok).
    apply (wp_malloc_scan _ _ l); [done..| |done].
    destruct (first_free_split l) as (l1 & l2 & -> & Hu & Hf & _). exists l1, l2.
    rewrite Hf, Z.add_0_l. split_and!; [done| |done].
    eapply Forall_impl; [|exact Hu]. intros b Hb. by left.
Qed.

(** * mem_free *)

(** Two neighbours become one block. *)
Lemma laid_join m l1 n u k v l2 (p := total l1) :
  laid m (l1 ++ [(n, u); (k, v)] ++ l2) ->
  let m' := set16 (p + n + k + 2) p (set16 p (p + n + k) m) in
  laid m' (l1 ++ [(n + k, u)] ++ l2) /\
  (forall x, in_data 0 l1 x \/ in_data (p + n + k) l2 x -> m' x = m x).
Proof.
  intros Hl m'. assert (Hmid : total [(n, u); (k, v)] = n + k) by (cbn [total]; lia).
  destruct (laid_mid _ _ _ _ Hl) as (q & q1 & Hs1 & Hs2 & q2 & Hs3). rewrite Hmid in *.
  fold p in Hs1, Hs2, Hs3. cbn [seg] in Hs2. destruct Hs2 as (Hq & Hx & Hu & Hn & _ & _ & _ & Hk & _ & _).
  apply seg_total in Hs1 as [Hp _]. pose proof (seg_total _ _ _ _ _ _ Hs3) as [Hle Hlt].
  assert (Hmax : MEM_SIZE_ALIGNED = 20480) by done.
  assert (Hlow : forall x, x < p -> m' x = m x) by (intros x Hx'; unfold m'; by hd_reads).
  assert (Hhigh : forall x, p + (n + k) <= x -> x <> p + (n + k) + 2 -> x <> p + (n + k) + 3 -> m' x = m x)
    by (intros x ???; unfold m'; by hd_reads).
  split.
  - eapply laid_replace; [done|done|by rewrite Hmid|by rewrite Hmid; cbn [total]; lia|].
    rewrite Hmid. fold p. intros q' q3 Hs' _ Hne. cbn [seg] in Hs'. destruct Hs' as (Hq' & _).
    exists p. cbn [seg]. replace (p + (n + k)) with (p + n + k) by lia. unfold m'.
    split_and!; hd_reads; lia.
  - intros x Hx'. eapply (data_replace m m' l1 _ l2); [done|done|by rewrite Hmid|].
    rewrite Hmid. fold p. by replace (p + (n + k)) with (p + n + k) by lia.
Qed.

Lemma wp_join (Q : unit -> heap -> Prop) h l1 n u k v l2 (p := total l1) :
  laid (ram h) (l1 ++ [(n, u); (k, v)] ++ l2) -> lfree h < p + n ->
  (forall m', laid m' (l1 ++ [(n + k, u)] ++ l2) ->
     (forall x, in_data 0 l1 x \/ in_data (p + n + k) l2 x -> m' x = ram h x) -> Q tt (Heap m' (lfree h))) ->
  wp (f ← gets lfree;
      _ ← (if f =? p + n then modify (set_lfree p) else mret tt);
      n' ← get_next (p + n); _ ← set_next p n'; n' ← get_next (p + n); set_prev n' p) Q h.
Proof.
  intros Hl Hf HQ. pose proof (laid_join _ _ _ _ _ _ _ Hl) as [Hl' Hd]. fold p in Hl', Hd.
  pose proof (laid_block _ _ _ _ _ Hl) as (Hp & Hn & He & _).
  change ([(n, u); (k, v)] ++ l2) with ([(n, u)] ++ [(k, v)] ++ l2) in Hl. rewrite app_assoc in Hl.
  pose proof (laid_block _ _ _ _ _ Hl) as (Hp2 & Hk & He2 & Hx2 & _).
  rewrite total_app in *. cbn [total] in *. rewrite Z.add_0_r in *. fold p in Hp, He, Hp2, He2, Hx2.
  assert (Hmax : MEM_SIZE_ALIGNED = 20480) by done.
  mem_step. rewrite (proj2 (Z.eqb_neq _ _)) by lia. apply wp_bind, wp_ret.
  mem_step. rewrite Hx2. mem_step. mem_step. hd_reads. rewrite Hx2.
  apply wp_set_prev; [lia|lia|]. by apply HQ.
Qed.

(** The block at [total l1] is marked free. *)
Lemma laid_unuse m l1 n u l2 (p := total l1) :
  laid m (l1 ++ [(n, u)] ++ l2) ->
  laid (set8 (p + 4) 0 m) (l1 ++ [(n, false)] ++ l2) /\
  (forall x, in_data 0 l1 x \/ in_data (p + n) l2 x -> set8 (p + 4) 0 m x = m x).
Proof.
  intros Hl. pose proof (laid_block _ _ _ _ _ Hl) as (Hp & Hn20 & He & Hx & Hu & _). fold p in Hp, He, Hx.
  apply (replace_one _ _ _ _ _ _ _ Hl); [cbn [total]; lia|..]; fold p.
  - intros x Hx'. by hd_reads.
  - intros x ???. by hd_reads.
  - exists p. cbn [seg]. split_and!; try lia; try (hd_reads; cbn [Z.b2z]; lia).
    intros Hne. pose proof (laid_link _ _ _ _ _ Hl Hne) as Hk. fold p in Hk. by hd_reads.
Qed.

(** What a free leaves of the blocks around it. *)
Definition merge_next (n : Z) (l2 : list block) : block * list block :=
  match l2 with (k, false) :: t => ((n + k, false), t) | _ => ((n, false), l2) end.

Lemma join_merge n l2 : join n l2 = fst (merge_next n l2) :: snd (merge_next n l2).
Proof. unfold join, merge_next. by destruct l2 as [|[? []] ?]. Qed.

Lemma release_end m q p l0 k u n v w l2 q' p' : seg m q p (l0 ++ (k, u) :: (n, w) :: l2) q' p' ->
  release (p + total l0 + k) p (l0 ++ (k, u) :: (n, v) :: l2) =
  l0 ++ (if u then (k, true) :: join n l2 else join (k + n) l2).
Proof.
  revert q p. induction l0 as [|[j x] l0 IH]; intros q p; cbn [app seg release total].
  - intros (_ & _ & _ & Hk & Hs). cbn [seg] in Hs. rewrite (proj2 (Z.eqb_neq p _)) by lia.
    rewrite Z.add_0_r, Z.eqb_refl. destruct u; cbn [andb negb]; [|done].
    done.
  - intros (_ & _ & _ & Hj & Hs). specialize (IH _ _ Hs).
    pose proof Hs as Hs'. apply seg_app in Hs' as (? & Hs1 & Hs2). cbn [seg] in Hs2.
    destruct Hs2 as (_ & _ & _ & Hk & _). apply seg_total in Hs1 as [? _].
    rewrite (proj2 (Z.eqb_neq p _)), (proj2 (Z.eqb_neq (p + j) _)) by lia. cbn [andb].
    replace (p + (j + total l0) + k) with (p + j + total l0 + k) by lia. rewrite IH.
    by destruct l0 as [|[i x'] l0].
Qed.

Section free.
Implicit Types (h : heap).

(** plug_holes, forwards. *)
Lemma wp_plug_next (Q : unit -> heap -> Prop) h l1 n l2 (p := total l1) :
  laid (ram h) (l1 ++ [(n, false)] ++ l2) -> lfree h <= p ->
  (forall m', laid m' (l1 ++ [fst (merge_next n l2)] ++ snd (merge_next n l2)) ->
     (forall x, in_data 0 l1 x \/ in_data (p + n) l2 x -> m' x = ram h x) -> Q tt (Heap m' (lfree h))) ->
  wp (if negb (p =? p + n) && (hd_used (ram h) (p + n) =? 0) && negb (p + n =? MEM_SIZE_ALIGNED) then
        f ← gets lfree;
        _ ← (if f =? p + n then modify (set_lfree p) else mret tt);
        n' ← get_next (p + n); _ ← set_next p n'; n' ← get_next (p + n); set_prev n' p
      else mret tt) Q h.
Proof.
  intros Hl Hf HQ. pose proof (laid_block _ _ _ _ _ Hl) as (Hp & Hn & He & _ & _ & Hlt & Hnil).
  fold p in Hp, He, Hlt, Hnil. rewrite (proj2 (Z.eqb_neq p _)) by lia. cbn [negb andb].
  assert (Hsame : merge_next n l2 = ((n, false), l2) -> Q tt h).
  { intros Hm. rewrite Hm in HQ. cbn [fst snd] in HQ. specialize (HQ (ram h) Hl).
    destruct h. by apply HQ. }
  destruct l2 as [|[k v] l2].
  - rewrite Hnil by done. rewrite Z.eqb_refl, andb_false_r. by apply wp_ret, Hsame.
  - specialize (Hlt ltac:(done)). rewrite (proj2 (Z.eqb_neq _ MEM_SIZE_ALIGNED)) by lia. rewrite andb_true_r.
    assert (Hk := Hl). change ([(n, false)] ++ (k, v) :: l2) with ([(n, false)] ++ [(k, v)] ++ l2) in Hk.
    rewrite app_assoc in Hk. apply laid_block in Hk as (_ & Hk & _ & _ & Hv & _).
    rewrite total_app in Hv. cbn [total] in Hv. rewrite Z.add_0_r in Hv. fold p in Hv. rewrite Hv.
    destruct v; cbn [Z.b2z Z.eqb]; [by apply wp_ret, Hsame|].
    apply (wp_join _ _ _ _ _ k false l2 Hl); [fold p; lia|]. intros m' Hl' Hd.
    apply HQ; [done|]. intros x [Hx|Hx]; apply Hd; [by left|right].
    cbn [in_data] in Hx. fold p. destruct Hx as [[]|Hx]; done.
Qed.

(** plug_holes, backwards: with a block in front, and without one. *)
Lemma wp_plug_prev (Q : unit -> heap -> Prop) h l0 k u n l2 (p := total l0 + k) :
  laid (ram h) (l0 ++ [(k, u); (n, false)] ++ l2) -> lfree h = first_free 0 (l0 ++ [(k, u); (n, false)] ++ l2) ->
  (forall m', laid m' (l0 ++ (if u then [(k, true); (n, false)] else [(k + n, false)]) ++ l2) ->
     (forall x, in_data 0 (l0 ++ [(k, u)]) x \/ in_data (p + n) l2 x -> m' x = ram h x) ->
     Q tt (Heap m' (lfree h))) ->
  wp (pmem ← get_prev p;
      pused ← get_used pmem;
      if negb (pmem =? p) && (pused =? 0) then
        f ← gets lfree;
        _ ← (if f =? p then modify (set_lfree pmem) else mret tt);
        n ← get_next p; _ ← set_next pmem n; n ← get_next p; set_prev n pmem
      else mret tt) Q h.
Proof.
  intros Hl Hf HQ. pose proof (laid_block _ _ _ _ _ Hl) as (Hp & Hk & He & _ & Hu & _).
  assert (Hlink : hd_prev (ram h) p = total l0).
  { apply (laid_link _ _ _ u ((n, false) :: l2)); done. }
  assert (Hmax : MEM_SIZE_ALIGNED = 20480) by done.
  apply wp_bind, wp_get_prev; [unfold p; lia|]. rewrite Hlink.
  apply wp_bind, wp_get_used; [lia|]. rewrite Hu.
  rewrite (proj2 (Z.eqb_neq _ p)) by (unfold p; lia). cbn [negb andb].
  destruct u; cbn [Z.b2z Z.eqb].
  - apply wp_ret. destruct h. by apply HQ.
  - apply (wp_join _ _ _ _ false n false l2 Hl).
    + rewrite Hf. destruct (all_used_dec l0) as [Ha|Ha].
      * rewrite first_free_app by done. cbn [app first_free]. lia.
      * destruct Hl as (_ & _ & q & Hs). apply seg_app in Hs as (q1 & Hs & _).
        destruct (first_free_before _ _ _ _ ([(k, false); (n, false)] ++ l2) _ Hs Ha) as [Hlt _]. lia.
    + intros m' Hl' Hd. apply HQ; [done|]. intros x [Hx|Hx]; apply Hd; [left|by right].
      apply in_data_app in Hx. cbn [in_data] in Hx. by destruct Hx as [?|[[? _]|[]]].
Qed.

Lemma wp_plug_first (Q : unit -> heap -> Prop) h n l2 :
  laid (ram h) ((n, false) :: l2) -> Q tt h ->
  wp (pmem ← get_prev 0;
      pused ← get_used pmem;
      if negb (pmem =? 0) && (pused =? 0) then
        f ← gets lfree;
        _ ← (if f =? 0 then modify (set_lfree pmem) else mret tt);
        n ← get_next 0; _ ← set_next pmem n; n ← get_next 0; set_prev n pmem
      else mret tt) Q h.
Proof.
  intros (_ & _ & q & Hs) HQ. cbn [seg] in Hs. destruct Hs as (Hq & _).
  assert (Hmax : MEM_SIZE_ALIGNED = 20480) by done.
  apply wp_bind, wp_get_prev; [lia|]. rewrite Hq. apply wp_bind, wp_get_used; [lia|].
  by apply wp_ret.
Qed.

Lemma first_free_head p l n n' x x' : first_free p (l ++ (n, false) :: x) = first_free p (l ++ (n', false) :: x').
Proof. revert p. induction l as [|[k []] l IH]; intros p; cbn [app first_free]; [done|apply IH|done]. Qed.

Lemma merge_next_join n l2 : exists n' t, merge_next n l2 = ((n', false), t) /\ join n l2 = (n', false) :: t /\
  forall k, join (k + n) l2 = (k + n', false) :: t.
Proof.
  unfold merge_next, join. destruct l2 as [|[j []] t]; do 2 eexists; split_and!; try done.
  intros k. do 2 f_equal. lia.
Qed.

Lemma merge_next_data p n l2 n' t x :
  merge_next n l2 = ((n', false), t) -> in_data (p + n) l2 x -> in_data (p + n') t x.
Proof.
  unfold merge_next. destruct l2 as [|[j []] l2]; intros [= <- <-]; try done.
  cbn [in_data]. intros [[]|Hx]; [done|]. by rewrite Z.add_assoc.
Qed.

Lemma coalesced_join n l2 : coalesced l2 -> coalesced (join n l2).
Proof. unfold coalesced, join. by destruct l2 as [|[j []] t]; cbn. Qed.

Lemma aligned_join n l2 : n mod 4 = 0 -> aligned l2 -> aligned (join n l2).
Proof.
  unfold aligned, join. change MEM_ALIGNMENT with 4 in *. intros Hn Hl.
  destruct l2 as [|[j []] t]; try (by apply Forall_cons_2).
  apply Forall_cons_1 in Hl as [Hj Ht]. apply Forall_cons_2; [|done]. cbn [fst] in *.
  change MEM_ALIGNMENT with 4 in Hj.
  Z.div_mod_to_equations. lia.
Qed.

Lemma release_nil n u l2 : release 0 0 ((n, u) :: l2) = join n l2.
Proof. done. Qed.

(** lfree after the block at [total l1] is marked free. *)
Lemma wp_lower_lfree (Q : unit -> heap -> Prop) h l1 n l2 m :
  laid (ram h) (l1 ++ [(n, true)] ++ l2) -> lfree h = first_free 0 (l1 ++ [(n, true)] ++ l2) ->
  Q tt (Heap m (first_free 0 (l1 ++ [(n, false)] ++ l2))) ->
  wp (f ← gets lfree; if total l1 <? f then modify (set_lfree (total l1)) else mret tt) Q (Heap m (lfree h)).
Proof.
  intros (_ & _ & q & Hs) Hf HQ. apply seg_app in Hs as (q1 & Hs1 & Hs). cbn [app seg] in Hs.
  destruct Hs as (_ & _ & _ & Hn & Hs2). mem_step. destruct (all_used_dec l1) as [Ha|Ha].
  - assert (first_free 0 (l1 ++ [(n, false)] ++ l2) = total l1) as Hff by by rewrite first_free_app.
    rewrite Hff in HQ. rewrite first_free_app in Hf by done. cbn [app first_free] in Hf.
    destruct (first_free_split l2) as (a & b & -> & _ & Hfa & _). rewrite Hfa in Hf.
    apply seg_app in Hs2 as (? & Hs2 & _). apply seg_total in Hs2 as [? _].
    rewrite (proj2 (Z.ltb_lt _ _)) by lia. by apply wp_modify.
  - destruct (first_free_before _ _ _ _ ([(n, true) : block] ++ l2) _ Hs1 Ha) as [Hlt Heq].
    unfold block in *. rewrite (proj2 (Z.ltb_ge _ _)) by lia. apply wp_ret. by rewrite Hf, <- (Heq ([(n, false) : block] ++ l2)).
Qed.

(** What plug_holes makes of a heap with one block just freed. *)
Lemma wp_plug_holes (Q : unit -> heap -> Prop) h l1 n l2 :
  laid (ram h) (l1 ++ [(n, false)] ++ l2) -> coalesced (l1 ++ [(n, true)] ++ l2) ->
  aligned (l1 ++ [(n, true)] ++ l2) -> lfree h = first_free 0 (l1 ++ [(n, false)] ++ l2) ->
  (forall h', heap_ok h' (release (total l1) 0 (l1 ++ [(n, true)] ++ l2)) ->
     (forall x, in_data 0 l1 x \/ in_data (total l1 + n) l2 x -> ram h' x = ram h x) -> Q tt h') ->
  wp (plug_holes (total l1)) Q h.
Proof.
  intros Hl Hc Ha Hf HQ. pose proof (laid_block _ _ _ _ _ Hl) as (Hp & Hn & He & Hx & _).
  assert (Hle : lfree h <= total l1).
  { rewrite Hf. destruct Hl as (_ & _ & q & Hs). apply seg_app in Hs as (q1 & Hs & _).
    by apply (first_free_le _ _ _ _ _ _ Hs). }
  unfold plug_holes. mem_step. rewrite Hx. mem_step. apply wp_bind.
  apply (wp_plug_next _ _ _ _ _ Hl Hle). intros m1 Hl1 Hd1.
  destruct (merge_next_join n l2) as (n' & t & Hm & Hj & Hjk). rewrite Hm in Hl1. cbn [fst snd] in Hl1.
  unfold aligned in Ha. rewrite !Forall_app in Ha. destruct Ha as (Ha1 & Han & Ha2).
  apply Forall_cons_1 in Han as [Han _]. cbn [fst] in Han. change MEM_ALIGNMENT with 4 in *.
  unfold coalesced in Hc. rewrite map_app in Hc. apply alternate_mid in Hc as [Hc1 Hc2].
  assert (Hc3 : coalesced l2) by (cbn in Hc2; destruct l2; [done|apply Hc2]).
  destruct l1 as [|[k u] l0 _] using rev_ind.
  - cbn [total app] in *. eapply wp_plug_first; [exact Hl1|]. apply HQ; [|done].
    rewrite release_nil. split; cbn [ram lfree]; [by rewrite Hj|by apply coalesced_join| |by rewrite Hj].
    by apply aligned_join.
  - rewrite <- !app_assoc in *. rewrite total_app in *. cbn [total app] in *. rewrite Z.add_0_r in *.
    apply Forall_app in Ha1 as [Ha0 Hak]. apply Forall_cons_1 in Hak as [Hak _]. cbn [fst] in Hak.
    rewrite map_app in Hc1. rewrite <- app_assoc in Hc1. cbn [map app snd] in Hc1.
    apply alternate_mid in Hc1 as [Hc1 _].
    eapply (wp_plug_prev _ _ l0 k u n' t); [exact Hl1|cbn [lfree]|].
    { rewrite Hf. destruct u; [|apply first_free_head].
      pose proof (first_free_head 0 (l0 ++ [(k, true)]) n n' l2 t) as E.
      by rewrite <- !app_assoc in E. }
    intros m2 Hl2 Hd2.
    assert (Hrel : release (total l0 + k) 0 (l0 ++ (k, u) :: (n, true) :: l2) =
                   l0 ++ (if u then [(k, true); (n', false)] else [(k + n', false)]) ++ t).
    { destruct Hl as (_ & _ & q & Hs). apply (release_end _ _ _ _ _ _ _ true) in Hs.
      rewrite Z.add_0_l in Hs. rewrite Hs, Hj, Hjk. by destruct u. }
    apply HQ; [rewrite Hrel; split; cbn [ram lfree]; [done| | |]|].
    + unfold coalesced. rewrite map_app. destruct u; cbn [map app snd];
        apply alternate_mid; (split; [done|]); apply (coalesced_join n) in Hc3; rewrite Hj in Hc3; by try split.
    + unfold aligned. rewrite !Forall_app. change MEM_ALIGNMENT with 4.
      apply (aligned_join n) in Ha2; [|done]. rewrite Hj in Ha2. apply Forall_cons_1 in Ha2 as [Hn' Ht].
      cbn [fst] in Hn'. change MEM_ALIGNMENT with 4 in Hn'. split_and!; [done| |done].
      destruct u; repeat apply Forall_cons_2; try apply Forall_nil_2; cbn [fst]; try done.
      Z.div_mod_to_equations. lia.
    + rewrite Hf. destruct u; [|apply first_free_head].
      pose proof (first_free_head 0 (l0 ++ [(k, true)]) n n' l2 t) as E.
      by rewrite <- !app_assoc in E.
    + intros x Hx'. cbn [ram] in *. transitivity (m1 x); [apply Hd2|apply Hd1; exact Hx'].
      destruct Hx' as [Hx'|Hx']; [by left|right]. by apply (merge_next_data _ _ _ _ _ _ Hm).
Qed.

Lemma wp_mem_free (Q : unit -> heap -> Prop) h l1 n l2 :
  heap_ok h (l1 ++ (n, true) :: l2) ->
  (forall h', heap_ok h' (release (total l1) 0 (l1 ++ (n, true) :: l2)) ->
     data_kept h h' (l1 ++ (n, false) :: l2) -> Q tt h') ->
  wp (mem_free (Some (total l1 + SIZEOF_STRUCT_MEM))) Q h.
Proof.
  intros [Hl Hc Ha Hf] HQ. change ((n, true) :: l2) with ([(n, true)] ++ l2) in *.
  pose proof (laid_block _ _ _ _ _ Hl) as (Hp & Hn & He & _).
  destruct (laid_unuse _ _ _ _ _ Hl) as [Hl0 Hd0].
  unfold mem_free. change SIZEOF_STRUCT_MEM with 8 in *.
  rewrite (proj2 (Z.ltb_ge _ 0)), (proj2 (Z.leb_gt MEM_SIZE_ALIGNED _)) by lia. cbn [orb].
  replace (total l1 + 8 - 8) with (total l1) by lia.
  apply wp_bind, wp_set_used; [lia|]. apply wp_bind_assoc, wp_bind.
  apply (wp_lower_lfree _ _ _ _ _ _ Hl Hf). apply (wp_plug_holes _ _ l1 n l2); try done.
  intros h' Hok Hd. apply HQ; [done|]. intros x Hx. apply in_data_app in Hx. rewrite Z.add_0_l in Hx.
  cbn [in_data] in Hx. assert (Hx' : in_data 0 l1 x \/ in_data (total l1 + n) l2 x) by (destruct Hx as [?|[[? _]|?]]; auto; done).
  rewrite (Hd x Hx'). by apply Hd0.
Qed.
End free.

(** * mem_realloc *)

(** The layout from the block on that mem_realloc shrinks to [size] bytes. *)
Definition shrink (size n : Z) (l2 : list block) : list block :=
  if n - 8 =? size then (n, true) :: l2 else
  match l2 with
  | (k, false) :: t => (size + 8, true) :: (n + k - (size + 8), false) :: t
  | _ => if size + 28 <=? n then (size + 8, true) :: (n - (size + 8), false) :: l2 else (n, true) :: l2
  end.

Section realloc.
Implicit Types (h : heap).

(** A header written at [p2] behind the block at [total l1]. *)
Lemma wp_new_header (Q : option Z -> heap -> Prop) r h l1 n mid l2 size (p := total l1)
    (N := total ((n, true) :: mid)) (p2 := p + 8 + size) :
  laid (ram h) (l1 ++ ((n, true) :: mid) ++ l2) -> 12 <= size -> size + 28 <= N -> size + 8 <= n ->
  (forall m', laid m' (l1 ++ [(size + 8, true); (N - (size + 8), false)] ++ l2) ->
     (forall x, in_data 0 l1 x \/ p + 8 <= x < p2 \/ in_data (p + N) l2 x -> m' x = ram h x) ->
     Q r (Heap m' (lfree h))) ->
  wp (_ ← set_next p2 (p + N); _ ← set_prev p2 p; _ ← set_next p p2;
      n ← get_next p2; _ ← link_back n p2; mret r) Q (Heap (set8 (p2 + 4) 0 (ram h)) (lfree h)).
Proof.
  intros Hl Hs HN Hn HQ. change (((n, true) :: mid) ++ l2) with ([(n, true)] ++ mid ++ l2) in Hl.
  pose proof (laid_block _ _ _ _ _ Hl) as (Hp & _ & He & Hx & Hu & _).
  change ([(n, true)] ++ mid ++ l2) with (((n, true) :: mid) ++ l2) in Hl.
  destruct (laid_mid _ _ _ _ Hl) as (q & q1 & _ & Hs2 & q2 & Hs3). fold N p in Hs2, Hs3.
  cbn [seg] in Hs2. destruct Hs2 as (Hq & _). pose proof (seg_total _ _ _ _ _ _ Hs3) as [Hle Hlt].
  fold p in Hp, He, Hx, Hu. assert (Hmax : MEM_SIZE_ALIGNED = 20480) by done.
  assert (Hp2 : p2 = p + 8 + size) by done. clearbody p2.
  mem_step. mem_step. mem_step. mem_step. hd_reads.
  apply wp_bind, wp_link_back; [lia|lia|]. cbn [ram lfree]. apply wp_ret. set (m' := if p + N =? MEM_SIZE_ALIGNED then _ else _).
  assert (Hlow : forall x, x < p -> m' x = ram h x) by (intros x Hx'; unfold m'; destruct (_ =? _); by hd_reads).
  assert (Hhigh : forall x, p + N <= x -> x <> p + N + 2 -> x <> p + N + 3 -> m' x = ram h x)
    by (intros x ???; unfold m'; destruct (_ =? _); by hd_reads).
  apply HQ.
  - eapply laid_replace; [exact Hl|done|done|fold N; cbn [total]; lia|]. fold N p.
    intros q' q3 Hs' _ Hne. cbn [seg] in Hs'. destruct Hs' as (Hq' & _). exists p2. cbn [seg].
    replace (p + (size + 8)) with p2 by lia. unfold m'.
    split_and!; try lia; try (destruct (_ =? _); hd_reads; cbn [Z.b2z] in *; lia).
    intros Hl2. specialize (Hne Hl2). rewrite (proj2 (Z.eqb_neq _ _)) by lia. by hd_reads.
  - intros x [Hx'|[Hx'|Hx']].
    + eapply (data_replace (ram h) m' l1 _ l2); [exact Hl|done|done|by left].
    + unfold m'. destruct (_ =? _); by hd_reads.
    + eapply (data_replace (ram h) m' l1 _ l2); [exact Hl|done|done|by right].
Qed.

Lemma shrink_layout l1 n l2 size : coalesced (l1 ++ (n, true) :: l2) -> aligned (l1 ++ (n, true) :: l2) ->
  size mod 4 = 0 -> coalesced (l1 ++ shrink size n l2) /\ aligned (l1 ++ shrink size n l2).
Proof.
  unfold coalesced, aligned. rewrite !map_app, !Forall_app. change MEM_ALIGNMENT with 4.
  intros [Hc1 Hc2]%alternate_mid [Ha1 Ha2] Hs. apply Forall_cons_1 in Ha2 as [Hn Ha2]. cbn [fst] in Hn.
  assert (Hn' : forall j, j mod 4 = 0 -> (j - (size + 8)) mod 4 = 0)
    by (intros; Z.div_mod_to_equations; lia).
  assert (Hs' : (size + 8) mod 4 = 0) by (Z.div_mod_to_equations; lia).
  assert (Hc : alternate (true :: map snd (tail (shrink size n l2))) /\
               Forall (fun b => fst b mod 4 = 0) (shrink size n l2)).
  { unfold shrink. destruct (n - 8 =? size); [by split; [|apply Forall_cons_2]|].
    destruct l2 as [|[k []] t].
    - destruct (_ <=? _); (split; [done|repeat apply Forall_cons_2; cbn [fst]; auto]).
    - apply Forall_cons_1 in Ha2 as [Hk Ht]. cbn [fst] in Hk.
      destruct (_ <=? _); (split; [|repeat apply Forall_cons_2; cbn [fst]; auto]).
      + split; [done|]. split; [done|]. apply Hc2.
      + apply Hc2.
    - apply Forall_cons_1 in Ha2 as [Hk Ht]. cbn [fst] in Hk. split; [apply Hc2|].
      repeat apply Forall_cons_2; [done| |done]. apply Hn'. Z.div_mod_to_equations. lia. }
  split; [|split; [done|apply Hc]]. destruct Hc as [Hc _]. revert Hc. unfold shrink.
  destruct (n - 8 =? size); [|destruct l2 as [|[k []] t]; repeat case_match];
    cbn [map snd tail]; intros; by apply alternate_mid.
Qed.

(** lfree before and after a block in use is cut at [p2]. *)
Lemma first_free_cut m l1 n j K t l2 (p := total l1) :
  laid m (l1 ++ (n, true) :: l2) -> j <= n ->
  (if first_free 0 (l1 ++ (n, true) :: l2) <? p + n then first_free 0 (l1 ++ (n, true) :: l2) else p + j) =
  first_free 0 (l1 ++ (j, true) :: (K, false) :: t) /\
  (first_free 0 (l1 ++ (n, true) :: l2) < p + n -> first_free 0 (l1 ++ (n, true) :: l2) < p).
Proof.
  intros (_ & _ & q & Hs) Hj. apply seg_app in Hs as (q1 & Hs1 & Hs). cbn [seg] in Hs.
  destruct Hs as (_ & _ & _ & Hn & Hs2). rewrite Z.add_0_l in *. destruct (all_used_dec l1) as [Ha|Ha].
  - rewrite !first_free_app by done. cbn [first_free]. rewrite Z.add_0_l.
    destruct (first_free_split l2) as (a & b & -> & _ & Hfa & _). rewrite Hfa.
    apply seg_app in Hs2 as (? & Hs2 & _). apply seg_total in Hs2 as [? _]. fold p in H |- *.
    rewrite (proj2 (Z.ltb_ge _ _)) by lia. split; [done|lia].
  - destruct (first_free_before _ _ 0 _ ((n, true) :: l2) _ Hs1 Ha) as [Hlt Heq].
    rewrite <- (Heq ((j, true) :: (K, false) :: t)) in *. rewrite Z.add_0_l in Hlt. fold p in Hlt.
    rewrite (proj2 (Z.ltb_lt _ _)) by lia. done.
Qed.

(** The common end of the two shrinking branches. *)
Lemma wp_shrink_tail (Q : option Z -> heap -> Prop) r h lf l1 n mid l2 size (p := total l1)
    (N := total ((n, true) :: mid)) (p2 := p + 8 + size) :
  heap_ok h (l1 ++ (n, true) :: mid ++ l2) -> 12 <= size -> size mod 4 = 0 -> size + 8 < n -> size + 28 <= N ->
  shrink size n (mid ++ l2) = [(size + 8, true); (N - (size + 8), false)] ++ l2 ->
  lf = (if lfree h <? p + n then lfree h else p2) ->
  (forall h', heap_ok h' (l1 ++ shrink size n (mid ++ l2)) -> data_kept h h' (l1 ++ shrink size n (mid ++ l2)) -> Q r h') ->
  wp (_ ← set_next p2 (p + N); _ ← set_prev p2 p; _ ← set_next p p2;
      n ← get_next p2; _ ← link_back n p2; mret r) Q (Heap (set8 (p2 + 4) 0 (ram h)) lf).
Proof.
  intros [Hl Hc Ha Hf] Hs Hs4 Hn HN Hshr -> HQ.
  destruct (shrink_layout l1 n (mid ++ l2) size Hc Ha Hs4) as [Hc' Ha']. rewrite Hshr in *.
  apply (wp_new_header Q r (Heap (ram h) (if lfree h <? p + n then lfree h else p2)) l1 n mid l2 size);
    [done|done|done|lia|].
  intros m' Hl' Hd. cbn [ram lfree] in *. apply HQ.
  - split; [exact Hl'|done|done|]. cbn [lfree]. rewrite Hf. unfold p2.
    replace (p + 8 + size) with (p + (size + 8)) by lia. by eapply first_free_cut; [|lia].
  - intros x Hx. apply Hd. apply in_data_app in Hx. cbn [app in_data] in Hx. rewrite Z.add_0_l in Hx.
    fold p in Hx. change SIZEOF_STRUCT_MEM with 8 in Hx.
    replace (p + (size + 8) + (N - (size + 8))) with (p + N) in Hx by lia.
    replace (p + (size + 8)) with p2 in Hx by (unfold p2; lia).
    destruct Hx as [?|[[_ ?]|[[? _]|?]]]; [by left|by right; left|done|by right; right].
Qed.

(** The next block is in use, or the end: cut the block if a free one fits behind it. *)
Lemma wp_shrink_split (Q : option Z -> heap -> Prop) h l1 n l2 size (p := total l1) :
  heap_ok h (l1 ++ (n, true) :: l2) -> 12 <= size -> size mod 4 = 0 -> size + 8 < n ->
  shrink size n l2 = (if size + 28 <=? n then [(size + 8, true); (n - (size + 8), false)] ++ l2 else (n, true) :: l2) ->
  (forall h', heap_ok h' (l1 ++ shrink size n l2) -> data_kept h h' (l1 ++ shrink size n l2) -> Q (Some (p + 8)) h') ->
  wp (if size + 8 + 12 <=? n - 8 then
        f ← gets lfree;
        _ ← (if p + 8 + size <? f then modify (set_lfree (p + 8 + size)) else mret tt);
        _ ← set_used (p + 8 + size) 0;
        n' ← get_next p;
        _ ← set_next (p + 8 + size) n'; _ ← set_prev (p + 8 + size) p; _ ← set_next p (p + 8 + size);
        n' ← get_next (p + 8 + size); _ ← link_back n' (p + 8 + size); mret (Some (p + 8))
      else mret (Some (p + 8))) Q h.
Proof.
  intros Hok Hs Hs4 Hn Hshr HQ.
  pose proof (laid_block _ _ _ _ _ (ok_laid _ _ Hok)) as (Hp & _ & He & Hx & _). fold p in Hp, He, Hx.
  assert (Hmax : MEM_SIZE_ALIGNED = 20480) by done.
  destruct (Z.leb_spec (size + 28) n), (Z.leb_spec (size + 8 + 12) (n - 8)); try lia.
  - mem_step. pose proof (first_free_cut _ _ _ (size + 8) 0 [] _ (ok_laid _ _ Hok) ltac:(lia)) as [_ Hf].
    rewrite <- (ok_lfree _ _ Hok) in Hf. fold p in Hf.
    set (lf := if lfree h <? p + n then lfree h else p + 8 + size).
    assert (Hlf : (if p + 8 + size <? lfree h then p + 8 + size else lfree h) = lf).
    { unfold lf. destruct (Z.ltb_spec (lfree h) (p + n)), (Z.ltb_spec (p + 8 + size) (lfree h)); lia. }
    apply wp_bind. assert (Hgo : wp (_ ← set_used (p + 8 + size) 0;
        n' ← get_next p;
        _ ← set_next (p + 8 + size) n'; _ ← set_prev (p + 8 + size) p; _ ← set_next p (p + 8 + size);
        n' ← get_next (p + 8 + size); _ ← link_back n' (p + 8 + size); mret (Some (p + 8))) Q (Heap (ram h) lf)).
    { mem_step. mem_step. hd_reads. rewrite Hx. replace (p + n) with (p + total [(n, true)]) by (cbn [total]; lia).
      apply (wp_shrink_tail _ _ h lf l1 n [] l2 size); try done; cbn [total]; try lia;
        rewrite ?Z.add_0_r; done. }
    destruct (p + 8 + size <? lfree h); [apply wp_modify|apply wp_ret]; unfold set_lfree; rewrite <- Hlf in Hgo; [done|].
    by destruct h.
  - apply wp_ret. rewrite Hshr in HQ. by apply HQ.
Qed.

(** The next block is free: its header moves down. *)
Lemma wp_shrink_next (Q : option Z -> heap -> Prop) h l1 n k t size (p := total l1) :
  heap_ok h (l1 ++ (n, true) :: (k, false) :: t) -> 12 <= size -> size mod 4 = 0 -> size + 8 < n ->
  (forall h', heap_ok h' (l1 ++ shrink size n ((k, false) :: t)) ->
     data_kept h h' (l1 ++ shrink size n ((k, false) :: t)) -> Q (Some (p + 8)) h') ->
  wp (next ← get_next (p + n);
      f ← gets lfree;
      _ ← (if f =? p + n then modify (set_lfree (p + 8 + size)) else mret tt);
      _ ← set_used (p + 8 + size) 0;
      _ ← set_next (p + 8 + size) next; _ ← set_prev (p + 8 + size) p; _ ← set_next p (p + 8 + size);
      n' ← get_next (p + 8 + size); _ ← link_back n' (p + 8 + size); mret (Some (p + 8))) Q h.
Proof.
  intros Hok Hs Hs4 Hn HQ.
  pose proof (laid_block _ _ _ _ _ (ok_laid _ _ Hok)) as (Hp & _ & He & _). fold p in Hp, He.
  assert (Hl2 := ok_laid _ _ Hok). replace (l1 ++ (n, true) :: (k, false) :: t)
    with ((l1 ++ [(n, true)]) ++ (k, false) :: t) in Hl2 by by rewrite <- app_assoc.
  pose proof (laid_block _ _ _ _ _ Hl2) as (_ & Hk & He2 & Hx2 & _). rewrite total_app in He2, Hx2.
  cbn [total] in He2, Hx2. rewrite Z.add_0_r in He2, Hx2. fold p in He2, Hx2.
  assert (Hmax : MEM_SIZE_ALIGNED = 20480) by done.
  mem_step. rewrite Hx2. mem_step.
  set (lf := if lfree h <? p + n then lfree h else p + 8 + size).
  assert (Hlf : (if lfree h =? p + n then p + 8 + size else lfree h) = lf).
  { unfold lf. assert (lfree h <= p + n); [|by destruct (Z.ltb_spec (lfree h) (p + n)), (Z.eqb_spec (lfree h) (p + n)); lia].
    rewrite (ok_lfree _ _ Hok). replace (l1 ++ (n, true) :: (k, false) :: t)
      with ((l1 ++ [(n, true)]) ++ (k, false) :: t) by by rewrite <- app_assoc.
    destruct Hl2 as (_ & _ & q & Hq). apply seg_app in Hq as (? & Hq & _).
    apply (first_free_le _ _ _ k t) in Hq. rewrite total_app in Hq. cbn [total] in Hq. fold p in Hq. lia. }
  apply wp_bind. assert (Hgo : wp (_ ← set_used (p + 8 + size) 0;
      _ ← set_next (p + 8 + size) (p + n + k); _ ← set_prev (p + 8 + size) p; _ ← set_next p (p + 8 + size);
      n' ← get_next (p + 8 + size); _ ← link_back n' (p + 8 + size); mret (Some (p + 8))) Q (Heap (ram h) lf)).
  { mem_step. replace (p + n + k) with (p + total [(n, true); (k, false)]) by (cbn [total]; lia).
    apply (wp_shrink_tail _ _ h lf l1 n [(k, false)] t size); try done; cbn [total]; try lia.
    unfold shrink. rewrite (proj2 (Z.eqb_neq _ _)) by lia. cbn [app]. do 3 f_equal. lia. }
  destruct (lfree h =? p + n); [apply wp_modify|apply wp_ret]; unfold set_lfree; rewrite <- Hlf in Hgo; [done|].
  by destruct h.
Qed.

Lemma wp_mem_realloc (Q : option Z -> heap -> Prop) h l1 n l2 size0 (size := block_size size0) :
  heap_ok h (l1 ++ (n, true) :: l2) -> 0 <= size0 <= 65532 ->
  (if n - 8 <? size then Q None h
   else forall h', heap_ok h' (l1 ++ shrink size n l2) -> data_kept h h' (l1 ++ shrink size n l2) ->
          Q (Some (total l1 + 8)) h') ->
  wp (mem_realloc (total l1 + 8) size0) Q h.
Proof.
  intros Hok Hs0 HQ. destruct (block_size_spec size0 Hs0) as (_ & Hs & Hs4).
  pose proof (laid_block _ _ _ _ _ (ok_laid _ _ Hok)) as (Hp & Hn & He & Hx & _ & Hlt & Hnil).
  assert (Hmax : MEM_SIZE_ALIGNED = 20480) by done.
  unfold mem_realloc. fold size in Hs, Hs4 |- *. clearbody size. change SIZEOF_STRUCT_MEM with 8. change MIN_SIZE_ALIGNED with 12.
  cbv zeta. destruct (Z.ltb_spec MEM_SIZE_ALIGNED size).
  { rewrite (proj2 (Z.ltb_lt _ _)) in HQ by lia. by apply wp_ret. }
  rewrite (proj2 (Z.ltb_ge _ 0)), (proj2 (Z.leb_gt MEM_SIZE_ALIGNED _)) by lia. cbn [orb].
  rewrite (u16_small (total l1 + 8 - 8)) by lia. replace (total l1 + 8 - 8) with (total l1) by lia.
  mem_step. rewrite Hx, u16_small by lia. replace (total l1 + n - total l1 - 8) with (n - 8) by lia.
  destruct (Z.ltb_spec (n - 8) size); [by apply wp_ret|].
  assert (Hsame : shrink size n l2 = (n, true) :: l2 -> Q (Some (total l1 + 8)) h).
  { intros Hsh. rewrite Hsh in HQ. by apply HQ. }
  destruct (Z.eqb_spec size (n - 8)) as [Heq|Hne].
  { apply wp_ret, Hsame. unfold shrink. by rewrite (proj2 (Z.eqb_eq _ _)). }
  assert (Hsh : (n - 8 =? size) = false) by (apply Z.eqb_neq; lia).
  mem_step. destruct l2 as [|[k v] l2].
  - rewrite Hnil by done. destruct (ok_laid _ _ Hok) as (_ & -> & _). cbn [Z.eqb].
    rewrite u16_small by lia. apply (wp_shrink_split _ h l1 n [] size); try done; [lia|].
    unfold shrink. rewrite Hsh. by destruct (_ <=? _).
  - assert (Hl2 := ok_laid _ _ Hok). replace (l1 ++ (n, true) :: (k, v) :: l2)
      with ((l1 ++ [(n, true)]) ++ (k, v) :: l2) in Hl2 by by rewrite <- app_assoc.
    apply laid_block in Hl2 as (_ & _ & _ & _ & Hu & _). rewrite total_app in Hu. cbn [total] in Hu.
    rewrite Z.add_0_r in Hu. rewrite Hu, u16_small by lia. destruct v; cbn [Z.b2z Z.eqb].
    + apply (wp_shrink_split _ h l1 n ((k, true) :: l2) size); try done; [lia|].
      unfold shrink. rewrite Hsh. by destruct (_ <=? _).
    + apply (wp_shrink_next _ h l1 n k l2 size); try done; lia.
Qed.
End realloc.
