(* ===== verification/LwipMemTheorems.v ===== *)
(** The properties of the heap of lwIP: first fit, frees, the round trip, safety
    of every sequence of requests, and the 16-bit wrap of the size. *)
From S2P Require Import Prelude Mmio LwipMem LwipMemSpec.

(** * Pointers handed out *)

(** The pointers to the blocks in use, with the sizes of their data. *)
Fixpoint spans (p : Z) (l : list block) : list (Z * Z) :=
  match l with
  | [] => []
  | (n, u) :: l =>
      (if (u : bool) then [(p + SIZEOF_STRUCT_MEM, n - SIZEOF_STRUCT_MEM)] else []) ++ spans (p + n) l
  end.
Definition pointers (p : Z) (l : list block) : list Z := (spans p l).*1.

Lemma spans_app p l1 l2 : spans p (l1 ++ l2) = spans p l1 ++ spans (p + total l1) l2.
Proof.
  revert p. induction l1 as [|[n u] l1 IH]; intros p; cbn [app spans total].
  - by rewrite Z.add_0_r.
  - rewrite IH, app_assoc. by replace (p + n + total l1) with (p + (n + total l1)) by lia.
Qed.

Lemma pointers_app p l1 l2 : pointers p (l1 ++ l2) = pointers p l1 ++ pointers (p + total l1) l2.
Proof. unfold pointers. by rewrite spans_app, fmap_app. Qed.

Lemma spans_join p n l : spans p (join n l) = spans (p + n) l.
Proof. unfold join. destruct l as [|[k []] l]; cbn; [done..|]. by rewrite Z.add_assoc. Qed.

Lemma pointers_shrink p size n l :
  pointers p (shrink size n l) = (p + SIZEOF_STRUCT_MEM) :: pointers (p + n) l.
Proof.
  unfold shrink, pointers. destruct (n - 8 =? size); [done|].
  destruct l as [|[k []] l]; [| |cbn [spans app fmap list_fmap fst]; do 2 f_equal; f_equal; lia];
    destruct (_ <=? _); try done; cbn [spans app fmap list_fmap fst];
    by replace (p + (size + 8) + (n - (size + 8))) with (p + n) by lia.
Qed.

Lemma span_block p l x k : (x, k) ∈ spans p l ->
  exists l1 l2, l = l1 ++ (k + SIZEOF_STRUCT_MEM, true) :: l2 /\ x = p + total l1 + SIZEOF_STRUCT_MEM.
Proof.
  revert p. induction l as [|[n u] l IH]; intros p; cbn [spans]; [by intros ?%elem_of_nil|].
  intros [Hx|Hx]%elem_of_app.
  - destruct u; [|by apply elem_of_nil in Hx]. apply list_elem_of_singleton in Hx as [= -> ->].
    exists [], l. cbn [total app]. split; [do 2 f_equal; lia|lia].
  - destruct (IH _ Hx) as (l1 & l2 & -> & ->). exists ((n, u) :: l1), l2.
    split; [done|]. cbn [total]. lia.
Qed.

Lemma pointer_span p l x : x ∈ pointers p l -> exists k, (x, k) ∈ spans p l.
Proof. intros ([y k] & -> & Hin)%list_elem_of_fmap. by exists k. Qed.

Lemma pointer_block p l x : x ∈ pointers p l ->
  exists l1 n l2, l = l1 ++ (n, true) :: l2 /\ x = p + total l1 + SIZEOF_STRUCT_MEM.
Proof. intros (k & (l1 & l2 & -> & ->)%span_block)%pointer_span. eauto. Qed.

(** A free takes one block away. *)
Lemma spans_release h l1 n l2 : heap_ok h (l1 ++ (n, true) :: l2) ->
  spans 0 (l1 ++ (n, true) :: l2) ≡ₚ
    (total l1 + SIZEOF_STRUCT_MEM, n - SIZEOF_STRUCT_MEM)
      :: spans 0 (release (total l1) 0 (l1 ++ (n, true) :: l2)).
Proof.
  intros [(_ & _ & q & Hs) _ _ _]. rewrite spans_app, Z.add_0_l. cbn [spans app].
  destruct l1 as [|[k u] l0 _] using rev_ind.
  - cbn [total app]. rewrite release_nil, spans_join. done.
  - rewrite <- app_assoc in Hs |- *. cbn [app] in Hs |- *.
    pose proof (release_end _ _ _ _ _ _ _ true _ _ _ _ Hs) as Hr. rewrite Z.add_0_l in Hr.
    rewrite total_app. cbn [total]. rewrite Z.add_0_r, Hr, !spans_app, Z.add_0_l.
    rewrite <- Permutation_middle, <- app_assoc. f_equiv. f_equiv.
    destruct u; cbn [spans app]; rewrite spans_join; [done|]. by rewrite Z.add_assoc.
Qed.

Lemma pointers_release h l1 n l2 : heap_ok h (l1 ++ (n, true) :: l2) ->
  pointers 0 (l1 ++ (n, true) :: l2) ≡ₚ
    (total l1 + SIZEOF_STRUCT_MEM) :: pointers 0 (release (total l1) 0 (l1 ++ (n, true) :: l2)).
Proof. intros Hok. unfold pointers. by rewrite (spans_release _ _ _ _ Hok) at 1. Qed.

(** * First fit *)
Lemma alloc_inv size p l a l' : alloc size p l = Some (a, l') ->
  exists l1 n l2, l = l1 ++ (n, false) :: l2 /\ a = p + total l1 /\ size + 8 <= n /\
    l' = l1 ++ take size n ++ l2 /\ no_fit size l1.
Proof.
  revert p l'. induction l as [|[n u] l IH]; intros p l'; cbn [alloc]; [done|].
  destruct (negb u && (size + 8 <=? n)) eqn:E.
  - intros [= <- <-]. apply andb_true_iff in E as [Hu Hn]. destruct u; [done|].
    exists [], n, l. cbn [total app]. split_and!; try done; [lia|by apply Z.leb_le|constructor].
  - destruct (alloc size (p + n) l) as [[b t]|] eqn:E2; [|done]. intros [= <- <-].
    destruct (IH _ _ E2) as (l1 & k & l2 & -> & -> & Hk & -> & Hno).
    exists ((n, u) :: l1), k, l2. cbn [total app]. split_and!; try done; [lia|].
    apply Forall_cons_2; [|done]. cbn. destruct u; [by left|right]. by apply Z.leb_gt in E.
Qed.

Lemma spans_take p size n l : size + 8 <= n -> exists k, size <= k /\
  spans p (take size n ++ l) = (p + SIZEOF_STRUCT_MEM, k) :: spans (p + n) l.
Proof.
  intros Hn. unfold take. change SIZEOF_STRUCT_MEM with 8.
  destruct (_ <=? _); cbn [app spans]; change SIZEOF_STRUCT_MEM with 8; eexists;
    (split; [|do 2 f_equal; lia]); lia.
Qed.

Lemma pointers_take p size n l : size + 8 <= n ->
  pointers p (take size n ++ l) = (p + SIZEOF_STRUCT_MEM) :: pointers (p + n) l.
Proof. intros Hn. unfold pointers. by destruct (spans_take p size n l Hn) as (k & _ & ->). Qed.

Lemma aligned_total l : aligned l -> total l mod MEM_ALIGNMENT = 0.
Proof.
  change MEM_ALIGNMENT with 4. induction l as [|[n u] l IH]; [done|]. intros [Hn Hl]%Forall_cons_1.
  specialize (IH Hl). cbn [total fst] in *. change MEM_ALIGNMENT with 4 in Hn. Z.div_mod_to_equations. lia.
Qed.

(** C21. mem_malloc is first fit, for sizes of up to 65532 bytes (above, the size wraps
    when it is rounded up). It returns a pointer behind the header of the
    first free block that is large enough, aligned, to bytes that no block in
    use had and that are now the caller's; the rest of a larger block is split
    off as a free block, no byte of another block in use changes, and the heap
    stays well formed. It returns NULL, and changes nothing, exactly when no
    free block is large enough. *)
Theorem mem_malloc_first_fit (h : heap) (l : list block) (size : Z) :
  heap_ok h l -> 0 < size <= 65532 ->
  wp (mem_malloc size) (fun r h' =>
     match alloc (block_size size) 0 l with
     | Some (a, l') => r = Some (a + SIZEOF_STRUCT_MEM) /\ heap_ok h' l' /\ data_kept h h' l /\
         a mod MEM_ALIGNMENT = 0 /\
         (forall x, a + SIZEOF_STRUCT_MEM <= x < a + SIZEOF_STRUCT_MEM + size ->
            ~ in_data 0 l x /\ in_data 0 l' x)
     | None => r = None /\ h' = h
     end) h.
Proof.
  intros Hok Hs. destruct (block_size_spec size) as (Hb & _); [lia|]. apply (wp_mem_malloc _ h l); [done..|].
  intros h'. destruct (alloc (block_size size) 0 l) as [[a l']|] eqn:Ha; [|done]. intros Hok' Hd.
  destruct (alloc_inv _ _ _ _ _ Ha) as (l1 & n & l2 & -> & -> & Hn & -> & _). rewrite Z.add_0_l in *.
  split_and!; [done..| |].
  - apply aligned_total. pose proof (ok_aligned _ _ Hok) as Hal. by apply Forall_app in Hal as [? _].
  - change SIZEOF_STRUCT_MEM with 8. intros x Hx. rewrite !in_data_app, Z.add_0_l.
    destruct (ok_laid _ _ Hok) as (_ & _ & q & Hq). apply seg_app in Hq as (q1 & Hq1 & Hq2).
    cbn [seg] in Hq2. rewrite Z.add_0_l in *. destruct Hq2 as (_ & _ & _ & _ & Hq2). split.
    + intros [Hi|Hi].
      * pose proof (in_data_range _ _ _ _ _ _ _ Hq1 Hi). lia.
      * cbn [in_data] in Hi. destruct Hi as [[? _]|Hi]; [done|].
        pose proof (in_data_range _ _ _ _ _ _ _ Hq2 Hi) as Hr. change SIZEOF_STRUCT_MEM with 8 in Hr. lia.
    + change SIZEOF_STRUCT_MEM with 8 in *. right. left. unfold take.
      destruct (_ <=? _); cbn [app in_data]; left; change SIZEOF_STRUCT_MEM with 8; (split; [done|lia]).
Qed.

(** A heap with a block in use, a hole and free space. *)
Definition demo_heap : heap :=
  match (_ ← mem_init; a ← mem_malloc 100; b ← mem_malloc 40; _ ← mem_malloc 7; mem_free b)
        (Heap (fun _ => 0) 0) with
  | Ret _ h => h | _ => Heap (fun _ => 0) 0 end.
Definition demo_layout : list block := [(108, true); (48, false); (20, true); (20304, false)].

Lemma demo_heap_ok : heap_ok demo_heap demo_layout.
Proof.
  split; [|by vm_compute|by repeat constructor|by vm_compute].
  split; [by vm_compute|]. split; [by vm_compute|]. exists 176. vm_compute. repeat split; discriminate.
Qed.

Lemma mem_malloc_first_fit_witness :
  wp (mem_malloc 30) (fun r h' =>
     match alloc (block_size 30) 0 demo_layout with
     | Some (a, l') => r = Some (a + SIZEOF_STRUCT_MEM) /\ heap_ok h' l' /\ data_kept demo_heap h' demo_layout /\
         a mod MEM_ALIGNMENT = 0 /\
         (forall x, a + SIZEOF_STRUCT_MEM <= x < a + SIZEOF_STRUCT_MEM + 30 ->
            ~ in_data 0 demo_layout x /\ in_data 0 l' x)
     | None => r = None /\ h' = demo_heap
     end) demo_heap.
Proof. apply (mem_malloc_first_fit demo_heap demo_layout 30); [apply demo_heap_ok|lia]. Defined.

(** It lands in the hole. *)
Example first_fit_in_the_hole : alloc (block_size 30) 0 demo_layout =
  Some (108, [(108, true); (48, true); (20, true); (20304, false)]).
Proof. reflexivity. Qed.

(** mem_free gives a block back and merges it with the free blocks around
    it: no two free blocks touch afterwards, lfree is the lowest of them, and
    the data of all other blocks in use is unchanged. *)
Theorem mem_free_merges (h : heap) (l1 l2 : list block) (n : Z) :
  heap_ok h (l1 ++ (n, true) :: l2) ->
  wp (mem_free (Some (total l1 + SIZEOF_STRUCT_MEM))) (fun _ h' =>
     heap_ok h' (release (total l1) 0 (l1 ++ (n, true) :: l2)) /\
     data_kept h h' (l1 ++ (n, false) :: l2)) h.
Proof. intros Hok. by apply (wp_mem_free _ _ _ _ _ Hok). Qed.

Lemma mem_free_merges_witness :
  wp (mem_free (Some (total [(108, true); (48, false)] + SIZEOF_STRUCT_MEM))) (fun _ h' =>
     heap_ok h' (release (total [(108, true); (48, false)]) 0
                   ([(108, true); (48, false)] ++ (20, true) :: [(20304, false)])) /\
     data_kept demo_heap h' ([(108, true); (48, false)] ++ (20, false) :: [(20304, false)])) demo_heap.
Proof. apply (mem_free_merges demo_heap [(108, true); (48, false)] [(20304, false)] 20), demo_heap_ok. Defined.

Example merge_both_sides :
  release (total [(108, true); (48, false)]) 0 ([(108, true); (48, false)] ++ (20, true) :: [(20304, false)])
  = [(108, true); (20372, false)].
Proof. reflexivity. Qed.

Lemma release_take h l1 n l2 size : heap_ok h (l1 ++ (n, false) :: l2) -> 12 <= size ->
  exists m rest, take size n ++ l2 = (m, true) :: rest /\
    (forall h', heap_ok h' (l1 ++ (m, true) :: rest) ->
       release (total l1) 0 (l1 ++ (m, true) :: rest) = l1 ++ (n, false) :: l2) /\
    (forall x, in_data 0 (l1 ++ (n, false) :: l2) x -> in_data 0 (l1 ++ (m, false) :: rest) x).
Proof.
  intros Hok Hs. pose proof (ok_coalesced _ _ Hok) as Hc. unfold coalesced in Hc.
  rewrite map_app in Hc. apply alternate_mid in Hc as [Hc1 Hc2]. cbn [map snd] in *.
  assert (exists m rest, take size n ++ l2 = (m, true) :: rest /\ join m rest = (n, false) :: l2 /\
    forall p x, in_data p ((n, false) :: l2) x -> in_data p ((m, false) :: rest) x)
    as (m & rest & Ht & Hj & Hd).
  { unfold take. destruct (_ <=? _); cbn [app]; do 2 eexists; (split; [done|]); split.
    - cbn [join]. do 2 f_equal. lia.
    - intros p x. cbn [in_data]. intros [[? _]|Hx]; [done|right; right].
      by replace (p + (size + 8) + (n - (size + 8))) with (p + n) by lia.
    - unfold join. destruct l2 as [|[k []] l2]; [done..|]. cbn in Hc2. by destruct Hc2.
    - done. }
  exists m, rest. split_and!; [done| |].
  - intros h' [(_ & _ & q & Hq) _ _ _]. destruct l1 as [|[k u] l0 _] using rev_ind; [done|].
    rewrite <- app_assoc in Hq |- *. cbn [app] in Hq |- *. rewrite total_app. cbn [total]. rewrite Z.add_0_r.
    pose proof (release_end _ _ _ _ _ _ _ true _ _ _ _ Hq) as Hr. rewrite Z.add_0_l in Hr. rewrite Hr.
    rewrite map_app in Hc1. cbn [map snd] in Hc1. rewrite <- app_assoc in Hc1. cbn [app] in Hc1.
    apply alternate_mid in Hc1 as [_ [Hu _]]. destruct u; [|done]. by rewrite Hj, <- app_assoc.
  - intros x. rewrite !in_data_app. intros [?|?]; [by left|right; by apply Hd].
Qed.

(** Allocating and freeing is a round trip: mem_free of what mem_malloc
    returned restores the layout of the heap, block for block, and the data of
    all blocks in use. *)
Theorem mem_malloc_free_roundtrip (h : heap) (l : list block) (size : Z) :
  heap_ok h l -> 0 < size <= 65532 ->
  wp (p ← mem_malloc size; mem_free p) (fun _ h' => heap_ok h' l /\ data_kept h h' l) h.
Proof.
  intros Hok Hs. destruct (block_size_spec size) as (_ & Hb & _); [lia|].
  apply wp_bind, (wp_mem_malloc _ h l); [done..|].
  intros h1. destruct (alloc (block_size size) 0 l) as [[a l']|] eqn:Ha; [|by apply wp_ret].
  intros Hok1 Hd1. destruct (alloc_inv _ _ _ _ _ Ha) as (l1 & n & l2 & -> & -> & Hn & -> & _).
  rewrite Z.add_0_l. destruct (release_take _ _ _ _ _ Hok Hb) as (m & rest & Ht & Hr & Hd).
  rewrite Ht in Hok1. apply (wp_mem_free _ _ _ _ _ Hok1). intros h2 Hok2 Hd2.
  rewrite (Hr _ Hok1) in Hok2. split; [done|]. intros x Hx. transitivity (ram h1 x); [|by apply Hd1].
  by apply Hd2, Hd.
Qed.

Lemma mem_malloc_free_roundtrip_witness :
  wp (p ← mem_malloc 5000; mem_free p)
     (fun _ h' => heap_ok h' demo_layout /\ data_kept demo_heap h' demo_layout) demo_heap.
Proof. apply (mem_malloc_free_roundtrip demo_heap demo_layout 5000); [apply demo_heap_ok|lia]. Defined.

(** mem_realloc on every branch. A block can only shrink: a size that is too
    large is answered NULL and changes nothing. Otherwise the pointer stays, the
    data up to the new size and that of all other blocks is kept, and the space
    given up joins the free block behind, or becomes one when it can hold a
    header and the least size, and else stays in the block. *)
Theorem mem_realloc_shrinks (h : heap) (l1 l2 : list block) (n newsize : Z) :
  heap_ok h (l1 ++ (n, true) :: l2) -> 0 <= newsize <= 65532 ->
  wp (mem_realloc (total l1 + 8) newsize) (fun r h' =>
     let size := block_size newsize in
     if n - 8 <? size then r = None /\ h' = h
     else r = Some (total l1 + 8) /\ heap_ok h' (l1 ++ shrink size n l2) /\
          data_kept h h' (l1 ++ shrink size n l2)) h.
Proof.
  intros Hok Hs. cbv zeta. apply (wp_mem_realloc _ _ _ _ _ _ Hok Hs). by destruct (_ <? _).
Qed.

Lemma mem_realloc_shrinks_witness :
  wp (mem_realloc (total [] + 8) 50) (fun r h' =>
     let size := block_size 50 in
     if 108 - 8 <? size then r = None /\ h' = demo_heap
     else r = Some (total [] + 8) /\
          heap_ok h' ([] ++ shrink size 108 [(48, false); (20, true); (20304, false)]) /\
          data_kept demo_heap h' ([] ++ shrink size 108 [(48, false); (20, true); (20304, false)])) demo_heap.
Proof.
  apply (mem_realloc_shrinks demo_heap [] [(48, false); (20, true); (20304, false)] 108 50);
    [apply demo_heap_ok|lia].
Defined.

Example shrink_moves_header :
  shrink (block_size 50) 108 [(48, false); (20, true); (20304, false)] =
  [(60, true); (96, false); (20, true); (20304, false)].
Proof. reflexivity. Qed.

(** * Every sequence of requests *)

(** What the other modules ask of the heap; [Free] and [Shrink] name one of the
    pointers that are still held. *)
Inductive request : Set := Malloc (size : Z) | Free (i : nat) | Shrink (i : nat) (size : Z).

Definition serve (held : list Z) (r : request) : M heap (list Z) :=
  match r with
  | Malloc size => p ← mem_malloc size; mret (match p with Some p => p :: held | None => held end)
  | Free i =>
      match held !! i with
      | Some p => _ ← mem_free (Some p); mret (delete i held)
      | None => mret held
      end
  | Shrink i size =>
      match held !! i with Some p => _ ← mem_realloc p size; mret held | None => mret held end
  end.

Fixpoint serve_all (held : list Z) (rs : list request) : M heap (list Z) :=
  match rs with [] => mret held | r :: rs => held ← serve held r; serve_all held rs end.

Definition sane (r : request) : Prop :=
  match r with Malloc size => 0 <= size <= 65532 | Free _ => True | Shrink _ size => 0 <= size <= 65532 end.

(** A pointer that is held points to a block in use. *)
Lemma held_block h l held i p : heap_ok h l -> held ≡ₚ pointers 0 l -> held !! i = Some p ->
  exists l1 n l2, l = l1 ++ (n, true) :: l2 /\ p = total l1 + 8 /\
    delete i held ≡ₚ pointers 0 (release (total l1) 0 l).
Proof.
  intros Hok Hh Hi. assert (Hp : p ∈ pointers 0 l) by (rewrite <- Hh; by eapply list_elem_of_lookup_2).
  apply pointer_block in Hp as (l1 & n & l2 & -> & ->). exists l1, n, l2. rewrite Z.add_0_l in *.
  split; [done|]. split; [done|]. apply delete_Permutation in Hi.
  apply (Permutation.Permutation_cons_inv (a := total l1 + 8)). transitivity held; [by symmetry|].
  transitivity (pointers 0 (l1 ++ (n, true) :: l2)); [done|]. apply (pointers_release _ _ _ _ Hok).
Qed.

Lemma wp_serve h l held r :
  heap_ok h l -> held ≡ₚ pointers 0 l -> sane r ->
  wp (serve held r) (fun held' h' => exists l', heap_ok h' l' /\ held' ≡ₚ pointers 0 l') h.
Proof.
  intros Hok Hh Hr. destruct r as [size|i|i size]; cbn [serve sane] in *.
  - destruct (Z.eq_dec size 0) as [->|Hne]; [by apply wp_ret; eauto|].
    destruct (block_size_spec size Hr) as (_ & Hb & _).
    apply wp_bind, (wp_mem_malloc _ h l); [done|lia|]. intros h1.
    destruct (alloc (block_size size) 0 l) as [[a l']|] eqn:Ha; [|by apply wp_ret; eauto].
    intros Hok1 _. apply wp_ret. exists l'. split; [done|].
    destruct (alloc_inv _ _ _ _ _ Ha) as (l1 & n & l2 & -> & -> & Hn & -> & _).
    rewrite Hh, (pointers_app 0 l1 (_ :: _)), (pointers_app 0 l1 (take _ _ ++ _)), pointers_take by done.
    unfold pointers at 2. cbn [spans app]. by rewrite <- Permutation_middle.
  - destruct (held !! i) as [p|] eqn:Hi; [|by apply wp_ret; eauto].
    destruct (held_block _ _ _ _ _ Hok Hh Hi) as (l1 & n & l2 & -> & -> & Hd).
    apply wp_bind, (wp_mem_free _ _ _ _ _ Hok). intros h' Hok' _. apply wp_ret. eauto.
  - destruct (held !! i) as [p|] eqn:Hi; [|by apply wp_ret; eauto].
    destruct (held_block _ _ _ _ _ Hok Hh Hi) as (l1 & n & l2 & -> & -> & _).
    apply wp_bind, (wp_mem_realloc _ _ _ _ _ _ Hok Hr). destruct (_ <? _); [by apply wp_ret; eauto|].
    intros h' Hok' _. apply wp_ret. eexists. split; [done|].
    rewrite Hh, !pointers_app, pointers_shrink. done.
Qed.

(** C22. The heap is safe: from mem_init, every sequence of allocations, frees and
    shrinks of pointers that are held runs without an access outside the heap,
    ends (the sizes that are asked for are at most 65532), and leaves a well-formed heap in which the pointers held are exactly
    those of the blocks in use, so that no two of them overlap. *)
Theorem heap_requests_safe (rs : list request) (h : heap) :
  Forall sane rs ->
  wp (_ ← mem_init; serve_all [] rs) (fun held h' =>
     exists l, heap_ok h' l /\ held ≡ₚ pointers 0 l) h.
Proof.
  intros Hrs. apply wp_bind, (wp_mem_init _ h). intros h0 Hok.
  assert (Hh : [] ≡ₚ pointers 0 [(MEM_SIZE_ALIGNED, false)]) by done.
  revert Hok Hh. generalize ([] : list Z) [(MEM_SIZE_ALIGNED, false)]. revert h0.
  induction Hrs as [|r rs Hr Hrs IH]; intros h0 held l Hok Hh; [by apply wp_ret; eauto|].
  cbn [serve_all]. apply wp_bind. eapply wp_mono; [by apply (wp_serve h0 l)|].
  intros held' h1 (l' & Hok' & Hh'). by apply (IH h1 held' l').
Qed.

Lemma heap_requests_safe_witness :
  wp (_ ← mem_init; serve_all [] [Malloc 100; Malloc 40; Shrink 1 20; Free 0; Malloc 30000]) (fun held h' =>
     exists l, heap_ok h' l /\ held ≡ₚ pointers 0 l) (Heap (fun _ => 0xA5) 17).
Proof.
  apply (heap_requests_safe [Malloc 100; Malloc 40; Shrink 1 20; Free 0; Malloc 30000]).
  repeat apply Forall_cons_2; try apply Forall_nil_2; cbn [sane]; lia || exact I.
Defined.

(** The size of an allocation wraps: it is rounded up in 16 bits, so that a
    request for 65533 to 65535 bytes succeeds like one for twelve. *)
Theorem mem_malloc_size_wraps (h : heap) (l : list block) (size : Z) :
  heap_ok h l -> 65533 <= size <= 65535 ->
  mem_malloc size h = mem_malloc 12 h /\
  (forall a l', alloc 12 0 l = Some (a, l') ->
     wp (mem_malloc size) (fun r h' => r = Some (a + SIZEOF_STRUCT_MEM) /\ heap_ok h' l') h).
Proof.
  intros Hok Hs. assert (Heq : mem_malloc size h = mem_malloc 12 h).
  { unfold mem_malloc. rewrite (proj2 (Z.eqb_neq _ _)) by lia. change (12 =? 0) with false.
    assert (block_size size = 12) as ->; [|done]. unfold block_size. rewrite align_size.
    assert ((size + 3) / 4 = 16384) as -> by (Z.div_mod_to_equations; lia). done. }
  split; [done|]. intros a l' Ha. unfold wp. rewrite Heq. apply (wp_mem_malloc _ h l 12 Hok); [lia|].
  intros h'. change (block_size 12) with 12. by rewrite Ha.
Qed.

Lemma mem_malloc_size_wraps_witness :
  mem_malloc 65533 demo_heap = mem_malloc 12 demo_heap /\
  (forall a l', alloc 12 0 demo_layout = Some (a, l') ->
     wp (mem_malloc 65533) (fun r h' => r = Some (a + SIZEOF_STRUCT_MEM) /\ heap_ok h' l') demo_heap).
Proof. apply (mem_malloc_size_wraps demo_heap demo_layout 65533); [apply demo_heap_ok|lia]. Defined.
