(* ===== verification/LwipPbuf.v ===== *)
(** The packet buffers of lwIP: core/pbuf.c, with the pools of core/memp.c, in
    the configuration of the port (lwipopts.h): the pools hold 10 PBUF_REF/ROM
    structures, 10 PBUF_POOL elements of 1500 bytes and the control blocks of the
    protocols. *)
From stdpp Require Import gmap.
From S2P Require Import Prelude Mmio LwipMem.

(** * Pointers and the state of the stack's memory *)

(** The pools that the configuration has (memp_std.h). *)
Inductive memp_t : Set :=
  | MEMP_RAW_PCB | MEMP_UDP_PCB | MEMP_TCP_PCB | MEMP_TCP_PCB_LISTEN | MEMP_TCP_SEG
  | MEMP_REASSDATA | MEMP_ARP_QUEUE | MEMP_PBUF | MEMP_PBUF_POOL.
#[global] Instance memp_t_eq_dec : EqDecision memp_t.
Proof. solve_decision. Defined.
Definition memp_index (t : memp_t) : nat :=
  match t with
  | MEMP_RAW_PCB => 0 | MEMP_UDP_PCB => 1 | MEMP_TCP_PCB => 2 | MEMP_TCP_PCB_LISTEN => 3
  | MEMP_TCP_SEG => 4 | MEMP_REASSDATA => 5 | MEMP_ARP_QUEUE => 6 | MEMP_PBUF => 7 | MEMP_PBUF_POOL => 8
  end.
#[global] Instance memp_t_countable : Countable memp_t.
Proof.
  refine (inj_countable memp_index (fun n => [MEMP_RAW_PCB; MEMP_UDP_PCB; MEMP_TCP_PCB;
    MEMP_TCP_PCB_LISTEN; MEMP_TCP_SEG; MEMP_REASSDATA; MEMP_ARP_QUEUE; MEMP_PBUF; MEMP_PBUF_POOL] !! n) _).
  by intros [].
Defined.

(** A non-null pointer: an index into the heap, or an element of a pool. NULL is
    [None]. *)
Inductive ptr : Set := InHeap (i : Z) | InPool (t : memp_t) (i : nat).
#[global] Instance ptr_eq_dec : EqDecision ptr.
Proof. solve_decision. Defined.
#[global] Instance ptr_countable : Countable ptr.
Proof.
  refine (inj_countable' (fun p => match p with InHeap i => inl i | InPool t i => inr (t, i) end)
    (fun s => match s with inl i => InHeap i | inr (t, i) => InPool t i end) _).
  by intros [].
Defined.

Inductive pbuf_layer : Set := PBUF_TRANSPORT | PBUF_IP | PBUF_LINK | PBUF_RAW.
Inductive pbuf_type : Set := PBUF_RAM | PBUF_ROM | PBUF_REF | PBUF_POOL.
#[global] Instance pbuf_type_eq_dec : EqDecision pbuf_type.
Proof. solve_decision. Defined.

(** [struct pbuf]. The payload pointer is an offset from the bytes behind the
    structure, for a PBUF_REF or PBUF_ROM from the start of the buffer it refers
    to ([None]: NULL); [room] is how many bytes there are. *)
Record pbuf : Type := Pbuf {
  next : option ptr;
  payload : option Z;
  tot_len : Z;
  len : Z;
  type : pbuf_type;
  flags : Z;
  ref : Z;
  room : Z
}.

(** The memory of the stack: the heap, the free elements of each pool (first the
    one that is handed out next), the bytes of the pool elements, and the pbufs
    that are allocated. *)
Record net : Type := Net {
  net_heap : heap;
  memp_tab : memp_t -> list nat;
  net_pool : memp_t -> nat -> Z -> Z;
  pbufs : gmap ptr pbuf
}.
Definition set_heap (h : heap) (s : net) : net := Net h (memp_tab s) (net_pool s) (pbufs s).
Definition set_tab (t : memp_t) (l : list nat) (s : net) : net :=
  Net (net_heap s) (fun t' => if decide (t' = t) then l else memp_tab s t') (net_pool s) (pbufs s).
Definition set_pool (t : memp_t) (i : nat) (m : Z -> Z) (s : net) : net :=
  Net (net_heap s) (memp_tab s)
      (fun t' i' => if decide (t' = t /\ i' = i) then m else net_pool s t' i') (pbufs s).
Definition set_pbufs (m : gmap ptr pbuf) (s : net) : net :=
  Net (net_heap s) (memp_tab s) (net_pool s) m.

Definition on_heap {A} (m : M heap A) : M net A := fun s =>
  match m (net_heap s) with
  | Ret a h => Ret a (set_heap h s)
  | Fault => Fault
  | Diverge => Diverge
  end.

(** * memp.c *)
Definition memp_num (t : memp_t) : nat :=
  match t with
  | MEMP_RAW_PCB => 4 | MEMP_UDP_PCB => 6 | MEMP_TCP_PCB => 10 | MEMP_TCP_PCB_LISTEN => 6
  | MEMP_TCP_SEG => 12 | MEMP_REASSDATA => 5 | MEMP_ARP_QUEUE => 30 | MEMP_PBUF => 10 | MEMP_PBUF_POOL => 10
  end.

(** The elements are pushed in order, so the last one comes first. *)
Definition memp_init : M net unit :=
  modify (fun s => Net (net_heap s) (fun t => rev (seq 0 (memp_num t))) (net_pool s) (pbufs s)).

Definition memp_malloc (t : memp_t) : M net (option ptr) :=
  l ← gets (fun s => memp_tab s t);
  match l with
  | i :: l => _ ← modify (set_tab t l); mret (Some (InPool t i))
  | [] => mret None
  end.

(** The element has to be one of the pool. *)
Definition memp_free (t : memp_t) (mem : option ptr) : M net unit :=
  match mem with
  | None => mret tt
  | Some (InPool t' i) =>
      if decide (t' = t) then l ← gets (fun s => memp_tab s t); modify (set_tab t (i :: l)) else fault
  | Some (InHeap _) => fault
  end.

(** * Accesses *)
Definition get_pbuf (p : ptr) : M net pbuf := fun s =>
  match pbufs s !! p with Some b => Ret b s | None => Fault end.
Definition put_pbuf (p : ptr) (b : pbuf) : M net unit := modify (fun s => set_pbufs (<[p := b]> (pbufs s)) s).
Definition upd_pbuf (p : ptr) (f : pbuf -> pbuf) : M net unit := b ← get_pbuf p; put_pbuf p (f b).

Definition with_next (n : option ptr) (b : pbuf) : pbuf :=
  Pbuf n (payload b) (tot_len b) (len b) (type b) (flags b) (ref b) (room b).
Definition with_payload (o : option Z) (b : pbuf) : pbuf :=
  Pbuf (next b) o (tot_len b) (len b) (type b) (flags b) (ref b) (room b).
Definition with_tot_len (n : Z) (b : pbuf) : pbuf :=
  Pbuf (next b) (payload b) n (len b) (type b) (flags b) (ref b) (room b).
Definition with_len (n : Z) (b : pbuf) : pbuf :=
  Pbuf (next b) (payload b) (tot_len b) n (type b) (flags b) (ref b) (room b).
Definition with_room (n : Z) (b : pbuf) : pbuf :=
  Pbuf (next b) (payload b) (tot_len b) (len b) (type b) (flags b) (ref b) n.
Definition with_ref (n : Z) (b : pbuf) : pbuf :=
  Pbuf (next b) (payload b) (tot_len b) (len b) (type b) (flags b) n (room b).

(** ** Payload bytes *)
Definition SIZEOF_STRUCT_PBUF : Z := LWIP_MEM_ALIGN_SIZE 16.

(** The bytes behind the structure at [p], and a change of them. *)
Definition bytes_at (s : net) (p : ptr) : Z -> Z :=
  match p with
  | InHeap i => fun o => ram (net_heap s) (i + SIZEOF_STRUCT_PBUF + o)
  | InPool t i => net_pool s t i
  end.
Definition put_byte (p : ptr) (o v : Z) (s : net) : net :=
  match p with
  | InHeap i => set_heap (set_ram (set8 (i + SIZEOF_STRUCT_PBUF + o) v (ram (net_heap s))) (net_heap s)) s
  | InPool t i => set_pool t i (set8 o v (net_pool s t i)) s
  end.

(** [((u8_t * )p->payload)[i]]: it has to lie in the allocated bytes. *)
Definition payload_at (p : ptr) (i : Z) : M net Z :=
  b ← get_pbuf p;
  match payload b with
  | Some o => if (0 <=? o + i) && (o + i <? room b) then gets (fun s => bytes_at s p (o + i)) else fault
  | None => fault
  end.
Definition set_payload_at (p : ptr) (i v : Z) : M net unit :=
  b ← get_pbuf p;
  match payload b with
  | Some o => if (0 <=? o + i) && (o + i <? room b) then modify (put_byte p (o + i) v) else fault
  | None => fault
  end.

(** [memcpy] from and to a payload, from its byte [i] on. *)
Fixpoint payload_read (p : ptr) (i : Z) (n : nat) : M net (list Z) :=
  match n with
  | O => mret []
  | S n => v ← payload_at p i; l ← payload_read p (i + 1) n; mret (v :: l)
  end.
Fixpoint payload_write (p : ptr) (i : Z) (l : list Z) : M net unit :=
  match l with
  | [] => mret tt
  | v :: l => _ ← set_payload_at p i v; payload_write p (i + 1) l
  end.

(** * pbuf.c *)
Definition PBUF_TRANSPORT_HLEN : Z := 20.
Definition PBUF_IP_HLEN : Z := 20.
Definition PBUF_LINK_HLEN : Z := 14.
Definition PBUF_POOL_BUFSIZE : Z := 1500.
Definition PBUF_POOL_BUFSIZE_ALIGNED : Z := LWIP_MEM_ALIGN_SIZE PBUF_POOL_BUFSIZE.

(** [err_t] *)
Definition ERR_OK : Z := 0.
Definition ERR_MEM : Z := -1.
Definition ERR_BUF : Z := -2.
Definition ERR_RTE : Z := -4.
Definition ERR_VAL : Z := -9.
Definition ERR_ARG : Z := -10.
Definition ERR_USE : Z := -11.

(** A walk along a chain takes at most as many steps as there are pbufs. *)
Definition chain_fuel : M net positive :=
  gets (fun s => Pos.succ (Pos.of_succ_nat (size (pbufs s)))).

(** pbuf_free: the body of the loop on [p] and [count]. *)
Definition pbuf_free_body (r : option ptr * Z) : M net (option ptr * Z + Z) :=
  let '(p, count) := r in
  match p with
  | None => mret (inr count)
  | Some p =>
      b ← get_pbuf p;
      let ref' := u16 (ref b - 1) in
      _ ← put_pbuf p (with_ref ref' b);
      if ref' =? 0 then
        let q := next b in
        _ ← modify (fun s => set_pbufs (delete p (pbufs s)) s);
        _ ← (match type b with
             | PBUF_POOL => memp_free MEMP_PBUF_POOL (Some p)
             | PBUF_ROM | PBUF_REF => memp_free MEMP_PBUF (Some p)
             | PBUF_RAM => match p with
                           | InHeap i => on_heap (mem_free (Some i))
                           | InPool _ _ => fault
                           end
             end);
        mret (inl (q, u8 (count + 1)))
      else mret (inl (None, count))
  end.

Definition pbuf_free (p : option ptr) : M net Z :=
  match p with
  | None => mret 0
  | Some p =>
      fuel ← chain_fuel;
      loop fuel pbuf_free_body (Some p, 0)
  end.

Definition layer_offset (layer : pbuf_layer) : Z :=
  match layer with
  | PBUF_TRANSPORT => PBUF_TRANSPORT_HLEN + PBUF_IP_HLEN + PBUF_LINK_HLEN
  | PBUF_IP => PBUF_IP_HLEN + PBUF_LINK_HLEN
  | PBUF_LINK => PBUF_LINK_HLEN
  | PBUF_RAW => 0
  end.

(** The payload behind a header of [offset] bytes, aligned: the structures are. *)
Definition aligned_payload (offset : Z) : Z :=
  LWIP_MEM_ALIGN_SIZE (SIZEOF_STRUCT_PBUF + offset) - SIZEOF_STRUCT_PBUF.

(** The loop that allocates the tail of a PBUF_POOL chain, on [r] and [rem_len]. *)
Definition pool_tail_body (p : ptr) (a : ptr * Z) : M net (ptr * Z + option ptr) :=
  let '(r, rem_len) := a in
  if 0 <? rem_len then
    q ← memp_malloc MEMP_PBUF_POOL;
    match q with
    | None => _ ← pbuf_free (Some p); mret (inr None)
    | Some q =>
        let qlen := Z.min (u16 rem_len) PBUF_POOL_BUFSIZE_ALIGNED in
        _ ← upd_pbuf r (with_next (Some q));
        _ ← put_pbuf q (Pbuf None (Some 0) (u16 rem_len) qlen PBUF_POOL 0 1 PBUF_POOL_BUFSIZE_ALIGNED);
        mret (inl (q, rem_len - qlen))
    end
  else mret (inr (Some p)).

Definition pbuf_alloc (layer : pbuf_layer) (length : Z) (type : pbuf_type) : M net (option ptr) :=
  let offset := layer_offset layer in
  match type with
  | PBUF_POOL =>
      p ← memp_malloc MEMP_PBUF_POOL;
      match p with
      | None => mret None
      | Some p =>
          let plen := Z.min length (PBUF_POOL_BUFSIZE_ALIGNED - LWIP_MEM_ALIGN_SIZE offset) in
          _ ← put_pbuf p (Pbuf None (Some (aligned_payload offset)) length plen PBUF_POOL 0 1
                               PBUF_POOL_BUFSIZE_ALIGNED);
          loop 64 (pool_tail_body p) (p, length - plen)
      end
  | PBUF_RAM =>
      let request := u16 (LWIP_MEM_ALIGN_SIZE (SIZEOF_STRUCT_PBUF + offset) + LWIP_MEM_ALIGN_SIZE length) in
      p ← on_heap (mem_malloc request);
      match p with
      | None => mret None
      | Some i =>
          _ ← put_pbuf (InHeap i) (Pbuf None (Some (aligned_payload offset)) length length PBUF_RAM 0 1
                                        (request - SIZEOF_STRUCT_PBUF));
          mret (Some (InHeap i))
      end
  | PBUF_ROM | PBUF_REF =>
      p ← memp_malloc MEMP_PBUF;
      match p with
      | None => mret None
      | Some p => _ ← put_pbuf p (Pbuf None None length length type 0 1 0); mret (Some p)
      end
  end.

(** pbuf_realloc: the walk over the pbufs that stay, on [q] and [rem_len]. *)
Definition realloc_walk_body (grow : Z) (a : ptr * Z) : M net (ptr * Z + ptr * Z) :=
  let '(q, rem_len) := a in
  b ← get_pbuf q;
  if len b <? rem_len then
    _ ← put_pbuf q (with_tot_len (u16 (tot_len b + grow)) b);
    match next b with
    | Some q' => mret (inl (q', u16 (rem_len - len b)))
    | None => fault
    end
  else mret (inr (q, rem_len)).

(** The memory of a PBUF_RAM is shrunk in place. *)
Definition realloc_ram (q : ptr) (b : pbuf) (rem_len : Z) : M net unit :=
  match q, payload b with
  | InHeap i, Some o =>
      r ← on_heap (mem_realloc i (u16 (SIZEOF_STRUCT_PBUF + o + rem_len)));
      match r with
      | Some _ => put_pbuf q (with_room (o + rem_len) b)
      | None => fault
      end
  | _, _ => fault
  end.

Definition pbuf_realloc (p : ptr) (new_len : Z) : M net unit :=
  b ← get_pbuf p;
  if tot_len b <=? new_len then mret tt
  else
    let grow := new_len - tot_len b in
    fuel ← chain_fuel;
    r ← loop fuel (realloc_walk_body grow) (p, new_len);
    let '(q, rem_len) := r in
    b ← get_pbuf q;
    _ ← (if bool_decide (type b = PBUF_RAM) && negb (rem_len =? len b) then realloc_ram q b rem_len
         else mret tt);
    _ ← upd_pbuf q (fun b => with_tot_len rem_len (with_len rem_len b));
    _ ← (match next b with Some n => _ ← pbuf_free (Some n); mret tt | None => mret tt end);
    upd_pbuf q (with_next None).

(** The header size increment is an [s16_t]. *)
Definition pbuf_header (p : option ptr) (header_size_increment : Z) : M net Z :=
  match p with
  | None => mret 0
  | Some p =>
      if header_size_increment =? 0 then mret 0
      else
        b ← get_pbuf p;
        if (header_size_increment <? 0) && (len b <? - header_size_increment) then mret 1
        else
          let grown o := with_payload (Some (o - header_size_increment))
            (with_len (u16 (len b + header_size_increment))
            (with_tot_len (u16 (tot_len b + header_size_increment)) b)) in
          match type b, payload b with
          | PBUF_RAM, Some o | PBUF_POOL, Some o =>
              if o - header_size_increment <? 0 then mret 1
              else _ ← put_pbuf p (grown o); mret 0
          | PBUF_REF, Some o | PBUF_ROM, Some o =>
              if header_size_increment <? 0 then _ ← put_pbuf p (grown o); mret 0
              else mret 1
          | _, None => if header_size_increment <? 0 then fault else mret 1
          end
  end.

Definition pbuf_clen_body (a : option ptr * Z) : M net (option ptr * Z + Z) :=
  match a with
  | (Some p, n) => b ← get_pbuf p; mret (inl (next b, u8 (n + 1)))
  | (None, n) => mret (inr n)
  end.
Definition pbuf_clen (p : option ptr) : M net Z :=
  fuel ← chain_fuel;
  loop fuel pbuf_clen_body (p, 0).

Definition pbuf_ref (p : option ptr) : M net unit :=
  match p with
  | Some p => upd_pbuf p (fun b => with_ref (u16 (ref b + 1)) b)
  | None => mret tt
  end.

(** The walk adds the length of [t] to every pbuf before the last one. *)
Definition pbuf_cat_body (t p : ptr) : M net (ptr + ptr) :=
  b ← get_pbuf p;
  match next b with
  | Some n =>
      bt ← get_pbuf t;
      _ ← put_pbuf p (with_tot_len (u16 (tot_len b + tot_len bt)) b);
      mret (inl n)
  | None => mret (inr p)
  end.
Definition pbuf_cat (h t : option ptr) : M net unit :=
  match h, t with
  | Some h, Some t =>
      fuel ← chain_fuel;
      p ← loop fuel (pbuf_cat_body t) h;
      bt ← get_pbuf t;
      _ ← upd_pbuf p (fun b => with_tot_len (u16 (tot_len b + tot_len bt)) b);
      upd_pbuf p (with_next (Some t))
  | _, _ => mret tt
  end.

Definition pbuf_chain (h t : option ptr) : M net unit :=
  _ ← pbuf_cat h t;
  pbuf_ref t.

Definition pbuf_dechain (p : ptr) : M net (option ptr) :=
  b ← get_pbuf p;
  match next b with
  | Some q =>
      _ ← upd_pbuf q (with_tot_len (u16 (tot_len b - len b)));
      _ ← upd_pbuf p (with_next None);
      _ ← upd_pbuf p (fun b => with_tot_len (len b) b);
      tail_gone ← pbuf_free (Some q);
      mret (if 0 <? tail_gone then None else Some q)
  | None => mret None
  end.

(** [memcpy] between two payloads that do not overlap. *)
Definition payload_move (to : ptr) (offset_to : Z) (from : ptr) (offset_from n : Z) : M net unit :=
  l ← payload_read from offset_from (Z.to_nat n);
  payload_write to offset_to l.

(** The rest of a packet may not be followed by another packet. *)
Definition last_of_packet (p : option ptr) : M net bool :=
  match p with
  | Some p =>
      b ← get_pbuf p;
      mret (negb (len b =? tot_len b) || bool_decide (next b = None))
  | None => mret true
  end.

(** pbuf_copy: the loop on [p_to], [offset_to], [p_from] and [offset_from]. *)
Definition pbuf_copy_body (a : option ptr * Z * option ptr * Z)
  : M net (option ptr * Z * option ptr * Z + Z) :=
  let '(p_to, offset_to, p_from, offset_from) := a in
  match p_to, p_from with
  | Some t, Some f =>
      bt ← get_pbuf t;
      bf ← get_pbuf f;
      let n := u16 (if len bf - offset_from <=? len bt - offset_to then len bf - offset_from
                    else len bt - offset_to) in
      _ ← payload_move t offset_to f offset_from n;
      let offset_to := u16 (offset_to + n) in
      let offset_from := u16 (offset_from + n) in
      let to := if offset_to =? len bt then (next bt, 0) else (Some t, offset_to) in
      let from := if len bf <=? offset_from then (next bf, 0) else (Some f, offset_from) in
      from_ok ← last_of_packet (fst from);
      if negb from_ok then mret (inr ERR_VAL)
      else
        to_ok ← last_of_packet (fst to);
        if negb to_ok then mret (inr ERR_VAL)
        else match fst from with
             | Some _ => mret (inl (fst to, snd to, fst from, snd from))
             | None => mret (inr ERR_OK)
             end
  | _, _ => fault
  end.
Definition pbuf_copy (p_to p_from : option ptr) : M net Z :=
  match p_to, p_from with
  | Some t, Some f =>
      bt ← get_pbuf t;
      bf ← get_pbuf f;
      if tot_len bt <? tot_len bf then mret ERR_ARG
      else
        fuel ← chain_fuel;
        loop (2 * fuel)%positive pbuf_copy_body (p_to, 0, p_from, 0)
  | _, _ => mret ERR_ARG
  end.

(** [memcpy] to a buffer of the application, from its byte [i] on. *)
Definition buffer_write (l : list Z) (i : Z) (data : list Z) : M net (list Z) := fun s =>
  if i + Z.of_nat (length data) <=? Z.of_nat (length l)
  then Ret (splice (Z.to_nat i) data l) s else Fault.

(** pbuf_copy_partial: the loop on [p], the contents of the buffer, [left],
    [copied_total], [len] and [offset]. *)
Definition copy_partial_body (a : option ptr * list Z * Z * Z * Z * Z)
  : M net (option ptr * list Z * Z * Z * Z * Z + Z * list Z) :=
  let '(p, dataptr, lft, copied_total, n, offset) := a in
  match p with
  | Some p =>
      if n =? 0 then mret (inr (copied_total, dataptr))
      else
        b ← get_pbuf p;
        if negb (offset =? 0) && (len b <=? offset) then
          mret (inl (next b, dataptr, lft, copied_total, n, u16 (offset - len b)))
        else
          let buf_copy_len := Z.min (u16 (len b - offset)) n in
          data ← payload_read p offset (Z.to_nat buf_copy_len);
          dataptr ← buffer_write dataptr lft data;
          mret (inl (next b, dataptr, u16 (lft + buf_copy_len), u16 (copied_total + buf_copy_len),
                     u16 (n - buf_copy_len), 0))
  | None => mret (inr (copied_total, dataptr))
  end.
(** It answers the number of bytes and the new contents of the buffer. *)
Definition pbuf_copy_partial (buf : option ptr) (dataptr : option (list Z)) (n offset : Z)
  : M net (Z * list Z) :=
  match buf, dataptr with
  | Some _, Some l =>
      fuel ← chain_fuel;
      loop fuel copy_partial_body (buf, l, 0, 0, n, offset)
  | _, _ => mret (0, [])
  end.

(** pbuf_take: the loop on [p], [total_copy_len] and [copied_total]. *)
Definition pbuf_take_body (dataptr : list Z) (a : option ptr * Z * Z)
  : M net (option ptr * Z * Z + Z) :=
  let '(p, total_copy_len, copied_total) := a in
  if total_copy_len =? 0 then mret (inr ERR_OK)
  else match p with
  | Some p =>
      b ← get_pbuf p;
      let buf_copy_len := Z.min total_copy_len (len b) in
      data ← (fun s => if copied_total + buf_copy_len <=? Z.of_nat (length dataptr)
               then Ret (take (Z.to_nat buf_copy_len) (drop (Z.to_nat copied_total) dataptr)) s
               else Fault);
      _ ← payload_write p 0 data;
      mret (inl (next b, u16 (total_copy_len - buf_copy_len), u16 (copied_total + buf_copy_len)))
  | None => fault
  end.
(** A NULL argument is answered by 0, which is ERR_OK. *)
Definition pbuf_take (buf : option ptr) (dataptr : option (list Z)) (n : Z) : M net Z :=
  match buf, dataptr with
  | Some p, Some l =>
      b ← get_pbuf p;
      if tot_len b <? n then mret ERR_ARG
      else
        fuel ← chain_fuel;
        loop fuel (pbuf_take_body l) (buf, n, 0)
  | _, _ => mret 0
  end.

Definition pbuf_coalesce (p : ptr) (layer : pbuf_layer) : M net ptr :=
  b ← get_pbuf p;
  match next b with
  | None => mret p
  | Some _ =>
      q ← pbuf_alloc layer (tot_len b) PBUF_RAM;
      match q with
      | None => mret p
      | Some q =>
          _ ← pbuf_copy (Some q) (Some p);
          _ ← pbuf_free (Some p);
          mret q
      end
  end.
