(* ===== verification/LwipPbufSpec.v ===== *)
(** What the packet buffers are: chains of pbufs, packets (chains whose total
    lengths add up), the invariant that ties the allocated pbufs to the heap and
    the pools, and the behaviour of the operations on chains. *)
From stdpp Require Import gmap.
From S2P Require Import Prelude Mmio LwipMem LwipMemSpec LwipMemTheorems LwipPbuf.

(** * Chains *)
Fixpoint chain (m : gmap ptr pbuf) (p : option ptr) (c : list (ptr * pbuf)) : Prop :=
  match c with
  | [] => p = None
  | (q, b) :: c => p = Some q /\ m !! q = Some b /\ chain m (next b) c
  end.

Fixpoint data_len (c : list (ptr * pbuf)) : Z :=
  match c with [] => 0 | (_, b) :: c => len b + data_len c end.
(** The total length of every pbuf is that of the chain from it on. *)
Fixpoint packet (c : list (ptr * pbuf)) : Prop :=
  match c with [] => True | (_, b) :: c => tot_len b = len b + data_len c /\ 0 <= len b /\ packet c end.

Lemma chain_in m p c q b : chain m p c -> (q, b) ∈ c -> m !! q = Some b.
Proof.
  revert p. induction c as [|[q' b'] c IH]; intros p; cbn [chain]; [by intros _ ?%elem_of_nil|].
  intros (_ & Hq & Hc) [[= -> ->]|Hin]%elem_of_cons; [done|by eapply IH].
Qed.

Lemma chain_frame m m' p c : (forall q, q ∈ c.*1 -> m' !! q = m !! q) -> chain m p c -> chain m' p c.
Proof.
  revert p. induction c as [|[q b] c IH]; intros p Hm; cbn [chain fmap list_fmap fst]; [done|].
  intros (-> & Hq & Hc). cbn [fmap list_fmap fst] in Hm. split; [done|]. split.
  - rewrite Hm; [done|by left].
  - apply IH; [|done]. intros r Hr. apply Hm. by right.
Qed.

(** A chain is no longer than the number of pbufs. *)
Lemma chain_size m p c : chain m p c -> NoDup c.*1 -> (length c <= size m)%nat.
Proof.
  intros Hc Hnd. rewrite <- (length_fmap fst c), <- size_dom.
  rewrite <- (size_list_to_set (C := gset ptr) c.*1) by done. apply subseteq_size.
  intros q. rewrite elem_of_list_to_set, list_elem_of_fmap. intros ([q' b] & -> & Hin).
  apply elem_of_dom. exists b. by apply (chain_in _ _ _ _ _ Hc).
Qed.

(** * The invariant *)
Definition pool_of (t : pbuf_type) : option memp_t :=
  match t with PBUF_RAM => None | PBUF_POOL => Some MEMP_PBUF_POOL | _ => Some MEMP_PBUF end.
Definition home (l : list block) (p : ptr) (b : pbuf) : Prop :=
  match p with
  | InHeap i => type b = PBUF_RAM /\ exists k, (i, k) ∈ spans 0 l /\ SIZEOF_STRUCT_PBUF + room b <= k
  | InPool t i => pool_of (type b) = Some t /\ (i < memp_num t)%nat
  end.

(** The data of a pbuf lies in the bytes that were allocated for it. *)
Definition fits (b : pbuf) : Prop :=
  0 <= len b /\ match payload b with Some o => 0 <= o /\ o + len b <= room b | None => True end.

(** The pools that pbufs come from; the operations on pbufs leave the others alone. *)
Definition pbuf_pool (t : memp_t) : Prop := t = MEMP_PBUF \/ t = MEMP_PBUF_POOL.
Lemma pool_is_pool : pbuf_pool MEMP_PBUF_POOL.
Proof. by right. Qed.
Lemma pbuf_is_pool : pbuf_pool MEMP_PBUF.
Proof. by left. Qed.
#[export] Hint Resolve pool_is_pool pbuf_is_pool : core.
Definition same_pools (s s' : net) : Prop := forall u, ~ pbuf_pool u -> memp_tab s' u = memp_tab s u.
Lemma same_pools_trans s1 s2 s3 : same_pools s1 s2 -> same_pools s2 s3 -> same_pools s1 s3.
Proof. intros H1 H2 u Hu. by rewrite (H2 u Hu), (H1 u Hu). Qed.
Lemma same_pools_tab s t l : pbuf_pool t -> same_pools s (set_tab t l s).
Proof. intros Ht u Hu. cbn [memp_tab set_tab]. destruct (decide (u = t)) as [->|]; [by destruct Hu|done]. Qed.


(** Every pbuf lies where its type says, has room for its data and is referenced,
    and the elements of the pools that hold none are exactly the free ones. *)
Record net_ok (s : net) (l : list block) : Prop := {
  nok_heap : heap_ok (net_heap s) l;
  nok_free : forall t i, pbuf_pool t ->
    (i ∈ memp_tab s t <-> (i < memp_num t)%nat /\ pbufs s !! InPool t i = None);
  nok_nodup : forall t, NoDup (memp_tab s t);
  nok_home : forall p b, pbufs s !! p = Some b -> home l p b /\ fits b /\ 1 <= ref b < 65536
}.

(** ** Freeing a chain *)

(** The pbufs that go: those in front that are referenced once. *)
Fixpoint dead (c : list (ptr * pbuf)) : list (ptr * pbuf) :=
  match c with (p, b) :: c => if ref b =? 1 then (p, b) :: dead c else [] | [] => [] end.
Fixpoint free_chain (c : list (ptr * pbuf)) (m : gmap ptr pbuf) : gmap ptr pbuf :=
  match c with
  | [] => m
  | (p, b) :: c => if ref b =? 1 then free_chain c (delete p m) else <[p := with_ref (ref b - 1) b]> m
  end.

Fixpoint release_all (c : list (ptr * pbuf)) (l : list block) : list block :=
  match c with
  | [] => l
  | (InHeap i, _) :: c => release_all c (release (i - SIZEOF_STRUCT_MEM) 0 l)
  | (InPool _ _, _) :: c => release_all c l
  end.

(** The pointers into the heap. *)
Definition heap_ptrs (ps : list ptr) : list Z := omap (fun p => match p with InHeap i => Some i | InPool _ _ => None end) ps.

(** What a free leaves: [c] is the chain that was freed in [s]. *)
Record freed (c : list (ptr * pbuf)) (s : net) (l : list block) (s' : net) : Prop := {
  freed_pbufs : pbufs s' = free_chain c (pbufs s);
  freed_ok : net_ok s' (release_all (dead c) l);
  freed_heap : forall x, in_data 0 (release_all (dead c) l) x -> ram (net_heap s') x = ram (net_heap s) x;
  freed_sub : forall x, in_data 0 (release_all (dead c) l) x -> in_data 0 l x;
  freed_pool : net_pool s' = net_pool s;
  freed_pcbs : same_pools s s';
  freed_pointers : pointers 0 l ≡ₚ heap_ptrs (dead c).*1 ++ pointers 0 (release_all (dead c) l)
}.

(** * Heap blocks *)
Lemma in_data_join p n l x : in_data p (join n l) x <-> in_data (p + n) l x.
Proof.
  unfold join. destruct l as [|[k []] l]; cbn [in_data]; rewrite ?Z.add_assoc; split; intros Hx;
    by repeat (destruct Hx as [[? ?]|Hx]; [done|]) || auto.
Qed.

Lemma in_data_release h l1 n l2 x : heap_ok h (l1 ++ (n, true) :: l2) ->
  in_data 0 (release (total l1) 0 (l1 ++ (n, true) :: l2)) x -> in_data 0 (l1 ++ (n, false) :: l2) x.
Proof.
  intros [(_ & _ & q & Hs) _ _ _]. rewrite in_data_app, Z.add_0_l. cbn [in_data].
  destruct l1 as [|[k u] l0 _] using rev_ind.
  - cbn [total app]. rewrite release_nil, in_data_join. auto.
  - rewrite <- app_assoc in Hs |- *. cbn [app] in Hs |- *.
    pose proof (release_end _ _ _ _ _ _ _ true _ _ _ _ Hs) as Hr. rewrite Z.add_0_l in Hr.
    rewrite total_app. cbn [total]. rewrite Z.add_0_r, Hr, !in_data_app, Z.add_0_l. cbn [in_data].
    destruct u; cbn [in_data]; rewrite in_data_join, ?Z.add_assoc; intuition.
Qed.

Lemma in_data_used l1 n l2 x : in_data 0 (l1 ++ (n, false) :: l2) x -> in_data 0 (l1 ++ (n, true) :: l2) x.
Proof. rewrite !in_data_app. cbn [in_data]. intuition congruence. Qed.

(** Free the block that a pointer points to. *)
Lemma wp_free_ptr (Q : unit -> heap -> Prop) h l i k (l' := release (i - SIZEOF_STRUCT_MEM) 0 l) :
  heap_ok h l -> (i, k) ∈ spans 0 l ->
  (forall h', heap_ok h' l' -> (forall x, in_data 0 l' x -> ram h' x = ram h x) ->
     (forall x, in_data 0 l' x -> in_data 0 l x) -> spans 0 l ≡ₚ (i, k) :: spans 0 l' -> Q tt h') ->
  wp (mem_free (Some i)) Q h.
Proof.
  intros Hok Hi HQ. destruct (span_block _ _ _ _ Hi) as (l1 & l2 & -> & ->). rewrite Z.add_0_l in *.
  assert (l' = release (total l1) 0 (l1 ++ (k + SIZEOF_STRUCT_MEM, true) :: l2)) as Hl'
    by (unfold l'; do 2 f_equal; lia).
  clearbody l'. subst l'. apply (wp_mem_free _ _ _ _ _ Hok). intros h' Hok' Hd.
  apply HQ; [done| | |].
  - intros x Hx. apply Hd. by eapply in_data_release.
  - intros x Hx. by eapply in_data_used, in_data_release.
  - rewrite (spans_release _ _ _ _ Hok). by replace (k + SIZEOF_STRUCT_MEM - SIZEOF_STRUCT_MEM) with k by lia.
Qed.

(** * pbuf_free *)
Lemma wp_on_heap {A} (m : M heap A) (Q : A -> net -> Prop) s :
  wp m (fun a h => Q a (set_heap h s)) (net_heap s) -> wp (on_heap m) Q s.
Proof. unfold wp, on_heap. by destruct (m (net_heap s)). Qed.
Lemma wp_get_pbuf p b (Q : pbuf -> net -> Prop) s : pbufs s !! p = Some b -> Q b s -> wp (get_pbuf p) Q s.
Proof. unfold wp, get_pbuf. by intros ->. Qed.
Lemma wp_put_pbuf p b (Q : unit -> net -> Prop) s :
  Q tt (set_pbufs (<[p := b]> (pbufs s)) s) -> wp (put_pbuf p b) Q s.
Proof. done. Qed.

(** The memory of a pbuf goes back to where it came from. *)
Definition give_back (p : ptr) (b : pbuf) : M net unit :=
  match type b with
  | PBUF_POOL => memp_free MEMP_PBUF_POOL (Some p)
  | PBUF_ROM | PBUF_REF => memp_free MEMP_PBUF (Some p)
  | PBUF_RAM => match p with InHeap i => on_heap (mem_free (Some i)) | InPool _ _ => fault end
  end.

Lemma home_perm l l' p b i k : spans 0 l ≡ₚ (i, k) :: spans 0 l' -> p <> InHeap i ->
  home l p b -> home l' p b.
Proof.
  intros Hp Hne. destruct p as [j|t j]; cbn [home]; [|done]. intros (? & k' & Hj & Hk). split; [done|].
  rewrite Hp in Hj. apply elem_of_cons in Hj as [[= -> ->]|]; [done|eauto].
Qed.

Lemma wp_give_back (Q : unit -> net -> Prop) s l p b :
  net_ok s l -> pbufs s !! p = Some b ->
  (forall s', freed [(p, with_ref 1 b)] s l s' -> Q tt s') ->
  wp (give_back p b) Q (set_pbufs (delete p (pbufs s)) s).
Proof.
  intros Hok Hp HQ. destruct (nok_home _ _ Hok _ _ Hp) as (Hh & Hfit & Hr).
  destruct p as [i|t i]; cbn [home] in Hh; destruct Hh as [Ht Hi].
  - destruct Hi as (k & Hi & Hk). unfold give_back. rewrite Ht. apply wp_on_heap. cbn [net_heap set_pbufs].
    apply (wp_free_ptr _ _ l i k); [apply (nok_heap _ _ Hok)|done|]. intros h' Hh' Hd Hsub Hperm.
    apply HQ. split; cbn [free_chain dead release_all ref with_ref Z.eqb Pos.eqb pbufs set_heap set_pbufs net_heap]; try done;
      [|unfold pointers; by rewrite Hperm at 1].
    split; cbn [pbufs set_heap set_pbufs net_heap memp_tab].
    + done.
    + intros t j Ht'. rewrite lookup_delete_ne by done. by apply (nok_free _ _ Hok).
    + apply (nok_nodup _ _ Hok).
    + intros q b' Hq. apply lookup_delete_Some in Hq as [Hne Hq].
      destruct (nok_home _ _ Hok _ _ Hq) as [Hhm Hr']. split; [|done]. by eapply home_perm.
  - assert (Ht0 : pbuf_pool t) by (unfold pbuf_pool; destruct (type b); naive_solver).
    assert (give_back (InPool t i) b = memp_free t (Some (InPool t i))) as ->.
    { unfold give_back. destruct (type b); by simplify_eq/=. }
    unfold memp_free. rewrite decide_True by done. apply wp_bind, wp_gets, wp_modify.
    cbn [memp_tab set_pbufs]. apply HQ. split;
      cbn [free_chain dead release_all ref with_ref Z.eqb Pos.eqb pbufs set_tab set_pbufs net_heap memp_tab];
      try done; [|by apply (same_pools_tab (set_pbufs _ _))].
    split; cbn [pbufs set_tab set_pbufs net_heap memp_tab].
    + apply (nok_heap _ _ Hok).
    + intros t' j Ht'. destruct (decide (t' = t)) as [->|Hne].
      * rewrite elem_of_cons, (nok_free _ _ Hok) by done. destruct (decide (j = i)) as [->|Hj].
        -- rewrite lookup_delete_eq. naive_solver.
        -- rewrite lookup_delete_ne by congruence. naive_solver.
      * rewrite lookup_delete_ne by congruence. by apply (nok_free _ _ Hok).
    + intros t'. destruct (decide (t' = t)) as [->|Hne]; [|apply (nok_nodup _ _ Hok)].
      apply NoDup_cons_2; [|apply (nok_nodup _ _ Hok)].
      rewrite (nok_free _ _ Hok) by done. rewrite Hp. naive_solver.
    + intros q b' Hq. apply lookup_delete_Some in Hq as [Hne Hq]. by apply (nok_home _ _ Hok).
Qed.

Lemma freed_cons p b c s l s1 s' : ref b = 1 ->
  freed [(p, with_ref 1 b)] s l s1 -> freed c s1 (release_all [(p, b)] l) s' -> freed ((p, b) :: c) s l s'.
Proof.
  intros Hr [Hp1 Hok1 Hh1 Hs1 Hn1 Ht1 Hl1] [Hp2 Hok2 Hh2 Hs2 Hn2 Ht2 Hl2].
  cbn [free_chain dead release_all ref with_ref Z.eqb Pos.eqb] in *.
  split; cbn [free_chain dead]; rewrite ?Hr; cbn [Z.eqb Pos.eqb].
  - by rewrite Hp2, Hp1.
  - by destruct p.
  - intros x Hx. rewrite Hh2, Hh1; [done| |by destruct p]. apply Hs2. by destruct p.
  - intros x Hx. apply Hs1, Hs2. by destruct p.
  - by rewrite Hn2.
  - by eapply same_pools_trans.
  - rewrite Hl1. destruct p as [i|u i]; cbn [release_all] in *; by rewrite Hl2 at 1.
Qed.

Lemma wp_free_loop c : forall p n s l (Q : Z -> net -> Prop),
  net_ok s l -> chain (pbufs s) p c -> NoDup c.*1 -> 0 <= n < 256 ->
  (forall s', freed c s l s' -> Q (u8 (n + Z.of_nat (length (dead c)))) s') ->
  wp (iter_nat (S (length c)) pbuf_free_body (p, n)) (ends Q) s.
Proof.
  induction c as [|[q b] c IH]; intros p n s l Q Hok Hc Hnd Hn HQ; cbn [chain] in Hc.
  - subst p. apply wp_iter_S. cbn [pbuf_free_body]. apply wp_ret.
    cbn [dead length] in HQ. rewrite Z.add_0_r in HQ. unfold u8 in HQ. rewrite Z.mod_small in HQ by lia.
    apply HQ. split; try done.
  - destruct Hc as (-> & Hq & Hc). destruct (nok_home _ _ Hok _ _ Hq) as (Hh & Hfit & Hr).
    apply nodup_cons in Hnd as [Hnq Hnd]. cbn [fst] in Hnq.
    apply wp_iter_S. cbn [pbuf_free_body]. apply wp_bind. apply (wp_get_pbuf _ _ _ _ Hq).
    cbv zeta. assert (u16 (ref b - 1) = ref b - 1) as -> by (unfold u16; apply Z.mod_small; lia).
    apply wp_bind, wp_put_pbuf. cbn [dead free_chain] in HQ.
    destruct (Z.eqb_spec (ref b) 1) as [Hr1|Hr1].
    + rewrite Hr1. cbn [Z.sub Z.add Z.opp Z.pos_sub Z.eqb Pos.eqb]. apply wp_bind, wp_modify.
      fold (give_back q b). apply wp_bind. cbn [pbufs set_pbufs]. rewrite delete_insert_eq.
      assert (forall s', freed [(q, with_ref 1 b)] s l s' -> wp (mret (inl (next b, u8 (n + 1))))
        (fun r s' => match r with inl a' => wp (iter_nat (S (length c)) pbuf_free_body a') (ends Q) s'
           | inr b => Q b s' end) s') as Hk.
      { intros s1 Hf1. apply wp_ret. apply (IH _ _ _ (release_all [(q, b)] l)).
        - apply (freed_ok _ _ _ _ Hf1).
        - rewrite (freed_pbufs _ _ _ _ Hf1). cbn [free_chain ref with_ref Z.eqb Pos.eqb].
          eapply chain_frame; [|exact Hc]. intros r Hin. apply lookup_delete_ne. by intros ->.
        - done.
        - apply Z.mod_pos_bound. lia.
        - intros s' Hf'. cbn [length] in HQ.
          replace (u8 (u8 (n + 1) + Z.of_nat (length (dead c)))) with (u8 (n + Z.of_nat (S (length (dead c))))).
          + apply HQ. by eapply freed_cons.
          + unfold u8. rewrite Z.add_mod_idemp_l by lia. f_equal. lia. }
      apply (wp_give_back _ _ _ _ _ Hok Hq Hk).
    + rewrite (proj2 (Z.eqb_neq _ _)) by lia. apply wp_ret. apply wp_iter_S. apply wp_ret.
      cbn [length] in HQ. rewrite Z.add_0_r in HQ. unfold u8 in HQ. rewrite Z.mod_small in HQ by lia.
      apply HQ. split; cbn [free_chain dead]; rewrite ?(proj2 (Z.eqb_neq (ref b) 1)) by done; try done.
      cbn [release_all]. split; cbn [net_heap pbufs memp_tab set_pbufs].
      * apply (nok_heap _ _ Hok).
      * intros t i Ht. rewrite (nok_free _ _ Hok) by done. destruct (decide (InPool t i = q)) as [->|Hne].
        -- rewrite lookup_insert_eq, Hq. split; by intros [? ?].
        -- by rewrite lookup_insert_ne.
      * apply (nok_nodup _ _ Hok).
      * intros r b' [[<- <-]|[Hne Hb']]%lookup_insert_Some; [|by apply (nok_home _ _ Hok)].
        split; [by destruct q|]. split; [done|cbn [ref with_ref]; lia].
Qed.

Lemma wp_pbuf_free p c s l (Q : Z -> net -> Prop) :
  net_ok s l -> chain (pbufs s) p c -> NoDup c.*1 ->
  (forall s', freed c s l s' -> Q (u8 (Z.of_nat (length (dead c)))) s') ->
  wp (pbuf_free p) Q s.
Proof.
  intros Hok Hc Hnd HQ. destruct p as [p|]; cbn [pbuf_free].
  - apply wp_bind, wp_gets. apply (wp_loop_nat (S (length c))).
    + pose proof (chain_size _ _ _ Hc Hnd). lia.
    + apply (wp_free_loop c _ _ _ l); [done..|lia|done].
  - destruct c as [|[q b] c]; [|by destruct Hc]. apply wp_ret. apply HQ. split; try done.
Qed.

(** * Changing and adding pbufs *)

(** A change that keeps the type and the room of a pbuf. *)
Lemma net_ok_update s l p b b' : net_ok s l -> pbufs s !! p = Some b ->
  type b' = type b -> room b' = room b -> fits b' -> 1 <= ref b' < 65536 ->
  net_ok (set_pbufs (<[p := b']> (pbufs s)) s) l.
Proof.
  intros Hok Hp Ht Hr Hf Hr1. split; cbn [net_heap pbufs memp_tab set_pbufs].
  - apply (nok_heap _ _ Hok).
  - intros t i Hne. rewrite (nok_free _ _ Hok) by done. destruct (decide (InPool t i = p)) as [->|Hq].
    + rewrite lookup_insert_eq, Hp. split; by intros [? ?].
    + by rewrite lookup_insert_ne.
  - apply (nok_nodup _ _ Hok).
  - intros q c [[<- <-]|[Hne Hc]]%lookup_insert_Some; [|by apply (nok_home _ _ Hok)].
    destruct (nok_home _ _ Hok _ _ Hp) as (Hh & _). split; [|done].
    destruct p; cbn [home] in *; by rewrite Ht, ?Hr.
Qed.

(** The first free element of a pool becomes a pbuf. *)
Lemma net_ok_pool_add s l t i fr b : net_ok s l -> pbuf_pool t -> memp_tab s t = i :: fr ->
  pool_of (type b) = Some t -> fits b -> 1 <= ref b < 65536 ->
  net_ok (set_pbufs (<[InPool t i := b]> (pbufs s)) (set_tab t fr s)) l /\ pbufs s !! InPool t i = None.
Proof.
  intros Hok Hne Ht Hty Hf Hr.
  assert (Hi : (i < memp_num t)%nat /\ pbufs s !! InPool t i = None)
    by (apply (nok_free _ _ Hok); [done|rewrite Ht; by left]).
  pose proof (nok_nodup _ _ Hok t) as Hnd. rewrite Ht in Hnd. apply nodup_cons in Hnd as [Hni Hnd].
  split; [|tauto]. split; cbn [net_heap pbufs memp_tab set_pbufs set_tab].
  - apply (nok_heap _ _ Hok).
  - intros t' j Ht'. destruct (decide (t' = t)) as [->|Hnt].
    + pose proof (nok_free _ _ Hok t j Ht') as Hj. rewrite Ht in Hj. destruct (decide (j = i)) as [->|Hji].
      * rewrite lookup_insert_eq. split; [done|by intros [_ ?]].
      * rewrite lookup_insert_ne by congruence. rewrite <- Hj, elem_of_cons. split; [by right|by intros [?|?]].
    + rewrite lookup_insert_ne by congruence. by apply (nok_free _ _ Hok).
  - intros t'. destruct (decide (t' = t)) as [->|]; [done|apply (nok_nodup _ _ Hok)].
  - intros q c [[<- <-]|[_ Hc]]%lookup_insert_Some; [|by apply (nok_home _ _ Hok)].
    split; [by destruct Hi|]. done.
Qed.

(** A new block of the heap becomes a pbuf. *)
Lemma net_ok_heap_add s l h' l' i k b : net_ok s l -> heap_ok h' l' -> spans 0 l' ≡ₚ (i, k) :: spans 0 l ->
  type b = PBUF_RAM -> SIZEOF_STRUCT_PBUF + room b <= k -> fits b -> ref b = 1 ->
  net_ok (set_pbufs (<[InHeap i := b]> (pbufs s)) (set_heap h' s)) l'.
Proof.
  intros Hok Hh Hs Ht Hk Hf Hr. split; cbn [net_heap pbufs memp_tab set_pbufs set_heap].
  - done.
  - intros t j Hne. rewrite lookup_insert_ne by done. by apply (nok_free _ _ Hok).
  - apply (nok_nodup _ _ Hok).
  - intros q c [[<- <-]|[_ Hc]]%lookup_insert_Some.
    + split; [|split; [done|lia]]. split; [done|]. exists k. split; [rewrite Hs; by left|done].
    + destruct (nok_home _ _ Hok _ _ Hc) as [Hq Hrest]. split; [|done].
      destruct q as [j|t j]; cbn [home] in *; [|done]. destruct Hq as (? & k' & Hj & ?).
      split; [done|]. exists k'. split; [rewrite Hs; by right|done].
Qed.

(** What mem_malloc returned was no block in use. *)
Lemma alloc_fresh h l size a l' : heap_ok h l -> alloc size 0 l = Some (a, l') ->
  (forall k, (a + SIZEOF_STRUCT_MEM, k) ∉ spans 0 l) /\
  exists k, size <= k /\ spans 0 l' ≡ₚ (a + SIZEOF_STRUCT_MEM, k) :: spans 0 l.
Proof.
  intros Hok Ha. destruct (alloc_inv _ _ _ _ _ Ha) as (l1 & n & l2 & -> & -> & Hn & -> & _).
  rewrite Z.add_0_l in *. split.
  - intros k (l1' & l2' & Heq & Ht)%span_block. pose proof (ok_laid _ _ Hok) as Hl.
    destruct (laid_block _ _ _ _ _ Hl) as (_ & _ & _ & _ & Hu & _). rewrite Heq in Hl.
    destruct (laid_block _ _ _ _ _ Hl) as (_ & _ & _ & _ & Hu' & _).
    replace (total l1') with (total l1) in Hu' by lia. by rewrite Hu in Hu'.
  - destruct (spans_take (total l1) size n l2 Hn) as (k & Hk & Hs). exists k. split; [done|].
    rewrite (spans_app 0 l1 (take _ _ ++ _)), (spans_app 0 l1 (_ :: _)), Z.add_0_l, Hs. cbn [spans app]. by rewrite <- Permutation_middle.
Qed.

Lemma wp_memp_malloc t (Q : option ptr -> net -> Prop) s :
  match memp_tab s t with [] => Q None s | i :: fr => Q (Some (InPool t i)) (set_tab t fr s) end ->
  wp (memp_malloc t) Q s.
Proof. intros HQ. apply wp_bind, wp_gets. destruct (memp_tab s t); [by apply wp_ret|done]. Qed.

Lemma free_chain_all c m q : Forall (fun x => ref (snd x) = 1) c ->
  free_chain c m !! q = if decide (q ∈ c.*1) then None else m !! q.
Proof.
  intros Hc. revert m. induction Hc as [|[p b] c Hr Hc IH]; intros m; cbn [free_chain fmap list_fmap fst].
  - rewrite decide_False; [done|apply not_elem_of_nil].
  - cbn [snd] in Hr. rewrite Hr. cbn [Z.eqb Pos.eqb]. rewrite IH. destruct (decide (q ∈ c.*1)) as [Hq|Hq].
    + rewrite decide_True; [done|by right].
    + destruct (decide (q = p)) as [->|Hne].
      * rewrite lookup_delete_eq, decide_True; [done|by left].
      * rewrite lookup_delete_ne, decide_False by (try congruence; by intros [?|?]%elem_of_cons). done.
Qed.

Lemma free_chain_other c m q : q ∉ c.*1 -> free_chain c m !! q = m !! q.
Proof.
  revert m. induction c as [|[p b] c IH]; intros m; [done|]. cbn [fmap list_fmap fst free_chain].
  intros [Hp Hc]%not_elem_of_cons. destruct (ref b =? 1).
  - rewrite IH by done. by apply lookup_delete_ne.
  - by apply lookup_insert_ne.
Qed.

Lemma dead_all c : Forall (fun x => ref (snd x) = 1) c -> dead c = c.
Proof. induction 1 as [|[p b] c Hr Hc IH]; [done|]. cbn [dead snd] in *. by rewrite Hr, IH. Qed.

(** * pbuf_alloc *)

(** [c] is new in [s1]: its pbufs were not there in [s], they are of type [t] and
    referenced once, and everything else is as before. *)
Record added (t : pbuf_type) (c : list (ptr * pbuf)) (s s1 : net) : Prop := {
  added_nodup : NoDup c.*1;
  added_new : Forall (fun x => pbufs s !! fst x = None /\ ref (snd x) = 1 /\ type (snd x) = t) c;
  added_rest : forall q, q ∉ c.*1 -> pbufs s1 !! q = pbufs s !! q;
  added_pool : net_pool s1 = net_pool s;
  added_pcbs : same_pools s s1
}.

(** A chain to which [rem] bytes are still to be added. *)
Fixpoint partial (rem : Z) (c : list (ptr * pbuf)) : Prop :=
  match c with
  | [] => True
  | (_, b) :: c => tot_len b = len b + data_len c + rem /\ 0 <= len b /\ partial rem c
  end.

Lemma data_len_app c1 c2 : data_len (c1 ++ c2) = data_len c1 + data_len c2.
Proof. induction c1 as [|[p b] c1 IH]; cbn [app data_len]; lia. Qed.

Lemma partial_0 c : partial 0 c -> packet c.
Proof. induction c as [|[p b] c IH]; cbn; [done|]. rewrite Z.add_0_r. tauto. Qed.

(** The last pbuf gets a successor. *)
Lemma partial_extend rem c r b n q bq : partial rem (c ++ [(r, b)]) -> 0 <= len bq ->
  tot_len bq = rem -> partial (rem - len bq) (c ++ [(r, with_next n b); (q, bq)]).
Proof.
  intros Hp Hq Ht. induction c as [|[p b'] c IH]; cbn [app partial data_len] in *.
  - cbn [len tot_len with_next]. lia.
  - destruct Hp as (H1 & H2 & H3). split_and!; [|done|by apply IH].
    rewrite data_len_app in *. cbn [data_len len with_next] in *. lia.
Qed.

Lemma chain_extend m p c r b q bq : chain m p (c ++ [(r, b)]) -> NoDup (c ++ [(r, b)]).*1 ->
  q ∉ (c ++ [(r, b)]).*1 -> next bq = None ->
  chain (<[q := bq]> (<[r := with_next (Some q) b]> m)) p (c ++ [(r, with_next (Some q) b); (q, bq)]).
Proof.
  revert p. induction c as [|[p' b'] c IH]; intros p; cbn [app chain fmap list_fmap fst].
  - intros (-> & Hr & Hn) _ Hq Hbq. apply not_elem_of_cons in Hq as [Hq _].
    split; [done|]. split; [|split; [done|split; [apply lookup_insert_eq|done]]].
    rewrite lookup_insert_ne by done. apply lookup_insert_eq.
  - intros (-> & Hp & Hc) [Hnp Hnd]%nodup_cons [Hqp Hq]%not_elem_of_cons Hbq. split; [done|]. split.
    + rewrite lookup_insert_ne by done. rewrite lookup_insert_ne; [done|]. intros ->. apply Hnp.
      rewrite fmap_app. apply elem_of_app. right. by left.
    + by apply IH.
Qed.

(** What stays of the first pbuf while others are chained to it. *)
Definition head_of (b : pbuf) : option Z * Z * Z := (payload b, room b, len b).
(** The state of the loop that allocates the tail: [c] ends with [(r, b)]. *)
Record growing (s : net) (l : list block) (p : ptr) (hd : option Z * Z * Z)
    (length n : Z) (c : list (ptr * pbuf)) (rem : Z) (s1 : net) : Prop := {
  grow_chain : chain (pbufs s1) (Some p) c;
  grow_partial : partial rem c;
  grow_len : data_len c + rem = length /\ 0 <= rem < 65536;
  grow_added : added PBUF_POOL c s s1;
  grow_ok : net_ok s1 l;
  grow_heap : net_heap s1 = net_heap s;
  grow_tab : List.length (memp_tab s MEMP_PBUF_POOL) = (List.length c + List.length (memp_tab s1 MEMP_PBUF_POOL))%nat;
  grow_head : head_of <$> pbufs s1 !! p = Some hd;
  grow_count : n = Z.of_nat (List.length c) + (rem + 1499) / 1500;
  grow_payload : Forall (fun x => is_Some (payload (snd x))) c
}.

(** The result of an allocation in [s] with the heap laid out as [l]. *)
Record allocated (t : pbuf_type) (length : Z) (p : ptr) (c : list (ptr * pbuf)) (s s' : net) (l l' : list block) : Prop := {
  alloc_chain : chain (pbufs s') (Some p) c;
  alloc_packet : packet c;
  alloc_len : data_len c = length;
  alloc_added : added t c s s';
  alloc_ok : net_ok s' l';
  alloc_kept : data_kept (net_heap s) (net_heap s') l;
  alloc_release : release_all c l' = l;
  alloc_pointers : pointers 0 l' ≡ₚ heap_ptrs c.*1 ++ pointers 0 l
}.
(** Nothing was allocated. *)
Record unchanged (s s' : net) (l : list block) : Prop := {
  unchanged_pbufs : pbufs s' = pbufs s;
  unchanged_ok : net_ok s' l;
  unchanged_kept : data_kept (net_heap s) (net_heap s') l;
  unchanged_pool : net_pool s' = net_pool s;
  unchanged_pcbs : same_pools s s'
}.

(** Freeing what was added restores the pbufs. *)
Lemma free_added t c s s1 : added t c s s1 -> free_chain c (pbufs s1) = pbufs s.
Proof.
  intros [Hnd Hnew Hrest _ _]. apply map_eq. intros q. rewrite free_chain_all.
  - destruct (decide (q ∈ c.*1)) as [Hq|Hq]; [|by apply Hrest].
    apply list_elem_of_fmap in Hq as (x & -> & Hx).
    rewrite list.Forall_forall in Hnew. by destruct (Hnew _ Hx) as [-> _].
  - eapply Forall_impl; [|exact Hnew]. by intros x (? & ? & ?).
Qed.

Lemma pool_release c l : Forall (fun x => exists i, fst x = InPool MEMP_PBUF_POOL i) c -> release_all c l = l.
Proof. induction 1 as [|[p b] c (i & Hi) Hc IH]; [done|]. cbn [fst] in Hi. by subst p. Qed.

Lemma pool_pointers (c : list (ptr * pbuf)) : Forall (fun x => exists i, fst x = InPool MEMP_PBUF_POOL i) c -> heap_ptrs c.*1 = [].
Proof. induction 1 as [|[p b] c (i & Hi) Hc IH]; [done|]. cbn [fst] in Hi. by subst p. Qed.

Lemma added_ref1 t c s s1 : added t c s s1 -> Forall (fun x => ref (snd x) = 1) c.
Proof. intros [_ Hnew _ _ _]. eapply Forall_impl; [|exact Hnew]. by intros x (? & ? & ?). Qed.

(** The types of a chain from the pool. *)
Lemma growing_pool s l p hd length n c rem s1 : growing s l p hd length n c rem s1 ->
  Forall (fun x => exists i, fst x = InPool MEMP_PBUF_POOL i) c.
Proof.
  intros [Hc _ _ Ha Hok _ _ _ _].
  pose proof (added_new _ _ _ _ Ha) as Hnew. rewrite list.Forall_forall in Hnew.
  apply list.Forall_forall. intros [q b] Hin. destruct (Hnew _ Hin) as (_ & _ & Ht). cbn [fst snd] in *.
  pose proof (chain_in _ _ _ _ _ Hc Hin) as Hq.
  destruct (nok_home _ _ Hok _ _ Hq) as [Hm _]. destruct q as [i|t i]; cbn [home] in Hm; rewrite Ht in Hm.
  - by destruct Hm.
  - destruct Hm as [[= <-] _]. by exists i.
Qed.

Lemma growing_done s l p hd length n c s1 : growing s l p hd length n c 0 s1 ->
  allocated PBUF_POOL length p c s s1 l l.
Proof.
  intros Hg. pose proof (growing_pool _ _ _ _ _ _ _ _ _ Hg) as Hpool. destruct Hg as [Hc Hp Hl Ha Hok Hh _ _ _ _].
  split; try done; [by apply partial_0|lia| |by apply pool_release|by rewrite pool_pointers]. intros x _. by rewrite Hh.
Qed.

Lemma growing_readable s l p hd length n c s1 : growing s l p hd length n c 0 s1 ->
  Forall (fun x => fits (snd x) /\ is_Some (payload (snd x))) c.
Proof.
  intros Hg. apply list.Forall_forall. intros [q b] Hin. pose proof (grow_payload _ _ _ _ _ _ _ _ _ Hg) as Hp.
  rewrite list.Forall_forall in Hp. split; [|by apply (Hp _ Hin)].
  apply (nok_home _ _ (grow_ok _ _ _ _ _ _ _ _ _ Hg) q). by apply (chain_in _ _ _ _ _ (grow_chain _ _ _ _ _ _ _ _ _ Hg)).
Qed.

Lemma growing_fail s l p hd length n c rem s1 s' : growing s l p hd length n c rem s1 -> freed c s1 l s' ->
  unchanged s s' l.
Proof.
  intros Hg [Hp' Hok' Hd' _ Hpool Hpcb]. pose proof (pool_release _ l (growing_pool _ _ _ _ _ _ _ _ _ Hg)) as Hrel.
  destruct Hg as [Hc _ _ Ha Hok Hh _ _ _ _]. rewrite dead_all in * by (by eapply added_ref1).
  rewrite Hrel in *. split.
  - rewrite Hp'. by eapply free_added.
  - done.
  - intros x Hx. rewrite Hd' by done. by rewrite Hh.
  - rewrite Hpool. apply (added_pool _ _ _ _ Ha).
  - by eapply same_pools_trans; [apply (added_pcbs _ _ _ _ Ha)|].
Qed.

Lemma growing_step s l p hd length n c r b rem s1 i fr (qlen := Z.min (u16 rem) PBUF_POOL_BUFSIZE_ALIGNED)
    (q := InPool MEMP_PBUF_POOL i)
    (bq := Pbuf None (Some 0) (u16 rem) qlen PBUF_POOL 0 1 PBUF_POOL_BUFSIZE_ALIGNED) :
  growing s l p hd length n (c ++ [(r, b)]) rem s1 -> 0 < rem -> memp_tab s1 MEMP_PBUF_POOL = i :: fr ->
  growing s l p hd length n (c ++ [(r, with_next (Some q) b); (q, bq)]) (rem - qlen)
    (set_pbufs (<[q := bq]> (<[r := with_next (Some q) b]> (pbufs s1))) (set_tab MEMP_PBUF_POOL fr s1)).
Proof.
  intros [Hc Hp [Hl Hr] [Hnd Hnew Hrest Hpool Hpcb] Hok Hh Htab Hhd Hn Hpay] Hrem Hfr.
  assert (Hu : u16 rem = rem) by (unfold u16; apply Z.mod_small; lia).
  change PBUF_POOL_BUFSIZE_ALIGNED with 1500 in *.
  assert (Hq : 0 < qlen <= rem /\ qlen <= 1500 /\ (qlen < 1500 -> qlen = rem)) by lia.
  assert (Hrb : (r, b) ∈ c ++ [(r, b)]) by (apply elem_of_app; right; by left).
  pose proof (chain_in _ _ _ _ _ Hc Hrb) as Hrm. destruct (nok_home _ _ Hok _ _ Hrm) as (_ & Hfit & Href).
  pose proof (net_ok_update _ _ _ _ (with_next (Some q) b) Hok Hrm eq_refl eq_refl Hfit Href) as Hok1.
  destruct (net_ok_pool_add _ l MEMP_PBUF_POOL i fr bq Hok1) as [Hok2 Hnone]; [done..| |done|].
  { split; cbn [len payload bq room]; lia. }
  fold q in Hok2, Hnone. cbn [pbufs set_pbufs] in Hnone. apply lookup_insert_None in Hnone as [Hnone Hqr].
  assert (Hqc : q ∉ (c ++ [(r, b)]).*1).
  { intros ([q' b'] & Heq & Hin)%list_elem_of_fmap. cbn [fst] in Heq. subst q'.
    rewrite (chain_in _ _ _ _ _ Hc Hin) in Hnone. done. }
  assert (Hdom : (c ++ [(r, with_next (Some q) b); (q, bq)]).*1 = (c ++ [(r, b)]).*1 ++ [q])
    by (by rewrite !fmap_app, <- app_assoc).
  split; cbn [pbufs set_pbufs net_heap set_tab memp_tab].
  - by apply chain_extend.
  - apply (partial_extend rem c r b (Some q) q bq); [done|cbn [len bq]; lia|cbn [tot_len bq]; lia].
  - rewrite !data_len_app in *. cbn [data_len len with_next bq] in *. lia.
  - split; cbn [pbufs set_pbufs net_pool set_tab memp_tab].
    + rewrite Hdom. apply list.NoDup_app. split; [done|]. split; [|apply NoDup_singleton].
      intros x Hx Hx'%list_elem_of_singleton. by subst x.
    + apply Forall_app in Hnew as [Hnew1 Hnew2]. apply Forall_cons_1 in Hnew2 as [Hnew2 _].
      apply Forall_app. split; [done|]. cbn [fst snd] in *. apply Forall_cons_2; [done|].
      apply Forall_cons_2; [|by apply Forall_nil_2]. cbn [fst snd]. split; [|done].
      by rewrite <- Hrest.
    + rewrite Hdom. intros x [Hx Hxq]%not_elem_of_app. rewrite lookup_insert_ne.
      * rewrite lookup_insert_ne; [by apply Hrest|]. intros <-. apply Hx. rewrite fmap_app.
        apply elem_of_app. right. by left.
      * intros <-. apply Hxq. by left.
    + done.
    + eapply same_pools_trans; [exact Hpcb|]. by apply (same_pools_trans _ (set_tab MEMP_PBUF_POOL fr s1)); [apply same_pools_tab|].
  - exact Hok2.
  - done.
  - rewrite Hfr in Htab. rewrite decide_True by done. rewrite !length_app in *. cbn [List.length] in *. lia.
  - assert (Hpc : p ∈ (c ++ [(r, b)]).*1).
    { destruct c as [|[p' b'] c]; cbn [app chain] in Hc; destruct Hc as ([= ->] & _); by left. }
    rewrite lookup_insert_ne by (by intros <-). destruct (decide (r = p)) as [->|Hne].
    + rewrite Hrm in Hhd. by rewrite lookup_insert_eq.
    + by rewrite lookup_insert_ne.
  - rewrite Hn, !length_app. cbn [List.length]. Z.div_mod_to_equations. lia.
  - apply Forall_app in Hpay as [Hpay1 Hpay2]. apply Forall_cons_1 in Hpay2 as [Hpay2 _]. apply Forall_app_2; [done|].
    by repeat constructor.
Qed.

Lemma wp_pool_tail s l p hd length n c r b rem s1 (Q : option ptr -> net -> Prop) :
  growing s l p hd length n (c ++ [(r, b)]) rem s1 -> next b = None ->
  (forall c s', n = Z.of_nat (List.length c) -> growing s l p hd length n c 0 s' -> Q (Some p) s') ->
  (forall s', Z.of_nat (List.length (memp_tab s MEMP_PBUF_POOL)) < n -> unchanged s s' l -> Q None s') ->
  wp (loop 64 (pool_tail_body p) (r, rem)) Q s1.
Proof.
  intros Hg Hb HQ HN.
  apply (wp_loop (fun '(r, rem) s1 => exists c b, next b = None /\ growing s l p hd length n (c ++ [(r, b)]) rem s1)
    (fun '(_, rem) _ => (rem + 1499) / 1500)).
  - by exists c, b.
  - pose proof (grow_len _ _ _ _ _ _ _ _ _ Hg). Z.div_mod_to_equations. lia.
  - clear c r b rem s1 Hg Hb. intros [r rem] s1 (c & b & Hb & Hg) Hmu. cbn [pool_tail_body].
    pose proof (grow_len _ _ _ _ _ _ _ _ _ Hg) as [Hl Hr].
    destruct (Z.ltb_spec 0 rem) as [Hrem|Hrem].
    + apply wp_bind, wp_memp_malloc. destruct (memp_tab s1 MEMP_PBUF_POOL) as [|i fr] eqn:Hfr.
      * apply wp_bind, (wp_pbuf_free _ _ _ _ _ (grow_ok _ _ _ _ _ _ _ _ _ Hg) (grow_chain _ _ _ _ _ _ _ _ _ Hg)
          (added_nodup _ _ _ _ (grow_added _ _ _ _ _ _ _ _ _ Hg))). intros s' Hf. apply wp_ret.
        apply HN; [|by eapply growing_fail]. pose proof (grow_tab _ _ _ _ _ _ _ _ _ Hg) as Ht.
        rewrite Hfr in Ht. rewrite (grow_count _ _ _ _ _ _ _ _ _ Hg), Ht. cbn [List.length].
        Z.div_mod_to_equations. lia.
      * cbv zeta. apply wp_bind, wp_bind, (wp_get_pbuf _ b).
        { apply (chain_in _ _ _ _ _ (grow_chain _ _ _ _ _ _ _ _ _ Hg)). apply elem_of_app. right. by left. }
        apply wp_put_pbuf, wp_bind, wp_put_pbuf, wp_ret. split.
        -- eexists (c ++ [_]), _. split; [|rewrite <- app_assoc; exact (growing_step _ _ _ _ _ _ _ _ _ _ _ _ _ Hg Hrem Hfr)].
           done.
        -- change PBUF_POOL_BUFSIZE_ALIGNED with 1500. unfold u16. rewrite Z.mod_small by lia.
           Z.div_mod_to_equations. lia.
    + apply wp_ret. assert (rem = 0) as -> by lia. eapply HQ; [|exact Hg].
      pose proof (grow_count _ _ _ _ _ _ _ _ _ Hg) as Hn. change ((0 + 1499) / 1500) with 0 in Hn. lia.
Qed.

(** The bytes asked from the heap, and the elements needed from the pool. *)
Definition ram_request (layer : pbuf_layer) (length : Z) : Z :=
  LWIP_MEM_ALIGN_SIZE (SIZEOF_STRUCT_PBUF + layer_offset layer) + LWIP_MEM_ALIGN_SIZE length.
Definition pool_elements (layer : pbuf_layer) (length : Z) : Z :=
  let first := Z.min length (PBUF_POOL_BUFSIZE_ALIGNED - LWIP_MEM_ALIGN_SIZE (layer_offset layer)) in
  1 + (length - first + 1499) / 1500.

Definition has_memory (s : net) (l : list block) (layer : pbuf_layer) (length : Z) (t : pbuf_type) : bool :=
  match t with
  | PBUF_RAM => bool_decide (is_Some (alloc (block_size (ram_request layer length)) 0 l))
  | PBUF_POOL => pool_elements layer length <=? Z.of_nat (List.length (memp_tab s MEMP_PBUF_POOL))
  | PBUF_ROM | PBUF_REF => 0 <? Z.of_nat (List.length (memp_tab s MEMP_PBUF))
  end.

Lemma unchanged_refl s l : net_ok s l -> unchanged s s l.
Proof. by split. Qed.

(** A chain of one new pbuf. *)
Lemma single_allocated t length p b s s' l l' : pbufs s !! p = None ->
  pbufs s' = <[p := b]> (pbufs s) -> b = Pbuf None (payload b) length length t 0 1 (room b) -> 0 <= length ->
  net_ok s' l' -> data_kept (net_heap s) (net_heap s') l -> net_pool s' = net_pool s ->
  same_pools s s' -> release_all [(p, b)] l' = l -> pointers 0 l' ≡ₚ heap_ptrs [p] ++ pointers 0 l ->
  allocated t length p [(p, b)] s s' l l'.
Proof.
  intros Hp Hs Hb Hlen Hok Hd Hpool Hpcb Hrel Hptr. split; try done.
  - cbn [chain]. rewrite Hs. split; [done|]. split; [apply lookup_insert_eq|by rewrite Hb].
  - rewrite Hb. cbn [packet data_len tot_len len]. split; [lia|done].
  - rewrite Hb. cbn [data_len len]. lia.
  - split; try done.
    + cbn [fmap list_fmap fst]. apply NoDup_singleton.
    + apply Forall_cons_2; [|by apply Forall_nil_2]. cbn [fst snd]. by rewrite Hb.
    + intros q Hq. cbn [fmap list_fmap fst] in Hq. rewrite Hs. apply lookup_insert_ne.
      intros <-. apply Hq. by left.
Qed.

(** * Reading data *)

(** The data of a chain. *)
Definition data_of (s : net) (p : ptr) (b : pbuf) : list Z :=
  match payload b with
  | Some o => (fun i => bytes_at s p (o + Z.of_nat i)) <$> seq 0 (Z.to_nat (len b))
  | None => []
  end.
Fixpoint contents (s : net) (c : list (ptr * pbuf)) : list Z :=
  match c with [] => [] | (p, b) :: c => data_of s p b ++ contents s c end.

(** A chain all of whose pbufs have a payload inside their memory. *)
Definition readable (c : list (ptr * pbuf)) : Prop :=
  Forall (fun x => fits (snd x) /\ is_Some (payload (snd x))) c.

Lemma data_of_length s p b : fits b -> is_Some (payload b) -> length (data_of s p b) = Z.to_nat (len b).
Proof. intros _ [o Ho]. unfold data_of. by rewrite Ho, length_fmap, length_seq. Qed.
Lemma contents_length s c : readable c -> Z.of_nat (length (contents s c)) = data_len c.
Proof.
  induction 1 as [|[q b] c [Hfit Hpay] _ IH]; [done|]. cbn [contents data_len snd] in *. rewrite length_app.
  rewrite data_of_length by done. destruct Hfit. lia.
Qed.

Lemma wp_payload_bytes s p b o i n (Q : list Z -> net -> Prop) :
  pbufs s !! p = Some b -> payload b = Some o -> 0 <= o + i -> o + i + Z.of_nat n <= room b ->
  Q ((fun j => bytes_at s p (o + i + Z.of_nat j)) <$> seq 0 n) s -> wp (payload_read p i n) Q s.
Proof.
  intros Hp Ho. revert i Q. induction n as [|n IH]; intros i Q Hi Hn HQ; [done|].
  cbn [payload_read]. apply wp_bind, wp_bind, (wp_get_pbuf _ _ _ _ Hp). rewrite Ho.
  rewrite (proj2 (Z.leb_le _ _)), (proj2 (Z.ltb_lt _ _)) by lia. apply wp_gets.
  apply wp_bind, IH; [lia|lia|]. apply wp_ret. cbn [seq fmap list_fmap] in HQ. rewrite Z.add_0_r in HQ.
  rewrite <- fmap_S_seq, <- list_fmap_compose in HQ. erewrite list_fmap_ext; [exact HQ|].
  intros j k _. cbn. f_equal. lia.
Qed.

Lemma wp_payload_read s p b i n (Q : list Z -> net -> Prop) :
  pbufs s !! p = Some b -> fits b -> is_Some (payload b) -> 0 <= i -> i + Z.of_nat n <= len b ->
  Q (firstn n (skipn (Z.to_nat i) (data_of s p b))) s -> wp (payload_read p i n) Q s.
Proof.
  intros Hp [Hl Hf] [o Ho] Hi Hn HQ. rewrite Ho in Hf.
  apply (wp_payload_bytes _ _ _ _ _ _ _ Hp Ho); [lia|lia|].
  enough (firstn n (skipn (Z.to_nat i) (data_of s p b)) =
    (fun j => bytes_at s p (o + i + Z.of_nat j)) <$> seq 0 n) as <- by done.
  unfold data_of. rewrite Ho. apply list_eq. intros j. destruct (decide (j < n)%nat) as [Hj|Hj].
  - rewrite lookup_take_lt, lookup_drop, !list_lookup_fmap, !lookup_seq_lt by lia. cbn. do 2 f_equal. lia.
  - rewrite lookup_take_ge by lia. symmetry. apply lookup_ge_None. rewrite length_fmap, length_seq. lia.
Qed.

(** * Writing data *)

(** The bytes [l] written behind the structure at [p], from [o] on. *)
Fixpoint put_bytes (p : ptr) (o : Z) (l : list Z) (s : net) : net :=
  match l with [] => s | v :: l => put_bytes p (o + 1) l (put_byte p o v s) end.

(** Two states that differ in the bytes of the pools only. *)
Definition same_pbufs (s s' : net) : Prop :=
  pbufs s' = pbufs s /\ net_heap s' = net_heap s /\ memp_tab s' = memp_tab s.
Lemma same_pbufs_trans s1 s2 s3 : same_pbufs s1 s2 -> same_pbufs s2 s3 -> same_pbufs s1 s3.
Proof. intros (? & ? & ?) (? & ? & ?). repeat split; congruence. Qed.
Lemma same_pbufs_ok s s' l : same_pbufs s s' -> net_ok s l -> net_ok s' l.
Proof. intros (Hp & Hh & Ht) []. split; by rewrite ?Hp, ?Hh, ?Ht. Qed.

Lemma put_bytes_pbufs p o l s : pbufs (put_bytes p o l s) = pbufs s.
Proof.
  revert o s. induction l as [|v l IH]; intros o s; [done|]. cbn [put_bytes]. rewrite IH. by destruct p.
Qed.
Lemma put_bytes_pool t i l : forall o s, same_pbufs s (put_bytes (InPool t i) o l s).
Proof.
  induction l as [|v l IH]; intros o s; [by repeat split|]. cbn [put_bytes]. eapply same_pbufs_trans; [|apply IH]. by repeat split.
Qed.
Lemma put_bytes_other t i l q x : q <> InPool t i -> forall o s, bytes_at (put_bytes (InPool t i) o l s) q x = bytes_at s q x.
Proof.
  intros Hq. induction l as [|v l IH]; intros o s; [done|]. cbn [put_bytes]. rewrite IH.
  destruct q as [j|t' j]; [done|]. cbn. rewrite decide_False; [done|]. intros [-> ->]. by apply Hq.
Qed.
Lemma put_bytes_below t i l x : forall o s, x < o -> bytes_at (put_bytes (InPool t i) o l s) (InPool t i) x = bytes_at s (InPool t i) x.
Proof.
  induction l as [|v l IH]; intros o s Hx; [done|]. cbn [put_bytes]. rewrite IH by lia. cbn. rewrite decide_True by done.
  unfold set8. by rewrite (proj2 (Z.eqb_neq _ _)) by lia.
Qed.
Lemma put_bytes_read t i l : forall o s,
  (fun j => bytes_at (put_bytes (InPool t i) o l s) (InPool t i) (o + Z.of_nat j)) <$> seq 0 (length l) = l.
Proof.
  induction l as [|v l IH]; intros o s; [done|]. cbn [put_bytes length seq fmap list_fmap]. f_equal.
  - rewrite put_bytes_below by lia. cbn. rewrite decide_True by done. unfold set8. by rewrite Z.add_0_r, Z.eqb_refl.
  - rewrite <- fmap_S_seq, <- list_fmap_compose. rewrite <- (IH (o + 1) (put_byte (InPool t i) o v s)) at 2.
    apply list_fmap_ext. intros j k _. cbn [compose]. f_equal. lia.
Qed.

Lemma wp_payload_write p b o l : forall s i (Q : unit -> net -> Prop), pbufs s !! p = Some b -> payload b = Some o ->
  0 <= o + i -> o + i + Z.of_nat (length l) <= room b -> Q tt (put_bytes p (o + i) l s) -> wp (payload_write p i l) Q s.
Proof.
  induction l as [|v l IH]; intros s i Q Hp Ho Hi Hl HQ; [done|]. cbn [payload_write length] in *.
  apply wp_bind, wp_bind, (wp_get_pbuf _ b); [done|]. rewrite Ho.
  rewrite (proj2 (Z.leb_le _ _)), (proj2 (Z.ltb_lt _ _)) by lia. apply wp_modify.
  apply IH; [by destruct p|done|lia|lia|]. by rewrite Z.add_assoc.
Qed.

(** The data of a pbuf of a pool, after it was written. *)
Lemma data_of_written s t i b o l : payload b = Some o -> Z.of_nat (length l) = len b ->
  data_of (put_bytes (InPool t i) o l s) (InPool t i) b = l.
Proof. intros Ho Hl. unfold data_of. rewrite Ho, <- Hl, Nat2Z.id. apply put_bytes_read. Qed.
Lemma contents_ext s s' c : (forall q x, q ∈ c.*1 -> bytes_at s' q x = bytes_at s q x) -> contents s' c = contents s c.
Proof.
  induction c as [|[q b] c IH]; intros Hb; [done|]. cbn [contents fmap list_fmap fst] in *. rewrite IH by (intros; apply Hb; by right).
  f_equal. unfold data_of. destruct (payload b); [|done]. apply list_fmap_ext. intros. apply Hb. by left.
Qed.
