(* ===== verification/LwipPbufTheorems.v ===== *)
(** The properties of the packet buffers: allocation, reference counts, headers,
    concatenation and copies. *)
From stdpp Require Import gmap.
From S2P Require Import Prelude Mmio LwipMem LwipMemSpec LwipMemTheorems LwipPbuf LwipPbufSpec.

Lemma offset_range layer : 0 <= layer_offset layer <= 54.
Proof. by destruct layer. Qed.

Lemma align_range n : n <= LWIP_MEM_ALIGN_SIZE n < n + 4.
Proof. rewrite align_size. Z.div_mod_to_equations. lia. Qed.

Lemma wp_alloc_ref s l layer length t (Q : option ptr -> net -> Prop) :
  net_ok s l -> 0 <= length -> t = PBUF_ROM \/ t = PBUF_REF ->
  (forall p b s', 0 < Z.of_nat (List.length (memp_tab s MEMP_PBUF)) ->
     payload b = None -> allocated t length p [(p, b)] s s' l l -> Q (Some p) s') ->
  (memp_tab s MEMP_PBUF = [] -> Q None s) ->
  wp (pbuf_alloc layer length t) Q s.
Proof.
  intros Hok Hlen Ht HQ HN.
  assert (wp (p ← memp_malloc MEMP_PBUF;
    match p with None => mret None
    | Some p => _ ← put_pbuf p (Pbuf None None length length t 0 1 0); mret (Some p) end) Q s);
    [|by destruct Ht; subst t].
  apply wp_bind, wp_memp_malloc. destruct (memp_tab s MEMP_PBUF) as [|i fr] eqn:Hfr; [by apply wp_ret, HN|].
  apply wp_bind, wp_put_pbuf, wp_ret.
  destruct (net_ok_pool_add _ _ MEMP_PBUF i fr (Pbuf None None length length t 0 1 0) Hok)
    as [Hok' Hnone]; [done|done|by destruct Ht; subst t|by split|done|].
  eapply HQ; [cbn [List.length]; lia| |apply single_allocated; try done]; try done.
  by apply same_pools_tab.
Qed.

Lemma wp_alloc_ram s l layer length (Q : option ptr -> net -> Prop) :
  net_ok s l -> 0 <= length <= 65460 ->
  (forall a lt i b s' l', alloc (block_size (ram_request layer length)) 0 l = Some (a, lt) ->
     payload b = Some (aligned_payload (layer_offset layer)) ->
     allocated PBUF_RAM length (InHeap i) [(InHeap i, b)] s s' l l' -> Q (Some (InHeap i)) s') ->
  (alloc (block_size (ram_request layer length)) 0 l = None -> Q None s) ->
  wp (pbuf_alloc layer length PBUF_RAM) Q s.
Proof.
  intros Hok Hlen HQ HN. cbn [pbuf_alloc]. cbv zeta. fold (ram_request layer length).
  pose proof (offset_range layer). pose proof (align_range length).
  pose proof (align_range (SIZEOF_STRUCT_PBUF + layer_offset layer)) as Ha. change SIZEOF_STRUCT_PBUF with 16 in *.
  assert (Hreq : ram_request layer length =
    LWIP_MEM_ALIGN_SIZE (16 + layer_offset layer) + LWIP_MEM_ALIGN_SIZE length) by done.
  assert (Hr : 0 < ram_request layer length <= 65532).
  { rewrite !align_size in *. Z.div_mod_to_equations. lia. }
  rewrite u16_small by lia. destruct (block_size_spec (ram_request layer length)) as (Hb & Hb12 & _); [lia|].
  apply wp_bind, wp_on_heap, (wp_mem_malloc _ _ l); [apply (nok_heap _ _ Hok)|done|].
  intros h'. destruct (alloc (block_size (ram_request layer length)) 0 l) as [[a l']|] eqn:Hal.
  - intros Hh' Hd. destruct (alloc_fresh _ _ _ _ _ (nok_heap _ _ Hok) Hal) as (Hfresh & k & Hk & Hs).
    change SIZEOF_STRUCT_MEM with 8 in *. apply wp_bind, wp_put_pbuf, wp_ret.
    match goal with |- context [<[InHeap (a + 8) := ?b]> _] => set (b0 := b) end.
    assert (Hfit : fits b0).
    { split; cbn [b0 len payload room]; [lia|]. unfold aligned_payload. change SIZEOF_STRUCT_PBUF with 16. lia. }
    eapply (HQ a l' (a + 8) b0); [done|done|].
    apply single_allocated with (l' := l'); [|reflexivity|reflexivity|lia| |exact Hd|done|done| |unfold pointers; by rewrite Hs].
    + destruct (pbufs s !! InHeap (a + 8)) as [b'|] eqn:E; [|done].
      destruct (nok_home _ _ Hok _ _ E) as ((_ & k' & Hk' & _) & _). by destruct (Hfresh k').
    + eapply (net_ok_heap_add _ _ _ _ _ _ _ Hok Hh' Hs); [done| |done|done].
      change SIZEOF_STRUCT_PBUF with 16. cbn [b0 room]. lia.
    + cbn [release_all]. change SIZEOF_STRUCT_MEM with 8. replace (a + 8 - 8) with a by lia.
      destruct (alloc_inv _ _ _ _ _ Hal) as (l1 & n & l2 & -> & -> & Hn & -> & _).
      destruct (release_take _ _ _ _ _ (nok_heap _ _ Hok) Hb12) as (m & rest & Ht & Hrel & _).
      rewrite Z.add_0_l. rewrite Ht in *. by apply (Hrel h').
  - apply wp_ret. destruct s. by apply HN.
Qed.

Lemma wp_alloc_pool s l layer length (Q : option ptr -> net -> Prop) :
  net_ok s l -> 0 <= length < 65536 ->
  (forall p c s', pool_elements layer length <= Z.of_nat (List.length (memp_tab s MEMP_PBUF_POOL)) ->
     (forall b, pbufs s' !! p = Some b -> head_of b = (Some (aligned_payload (layer_offset layer)), 1500,
        Z.min length (1500 - LWIP_MEM_ALIGN_SIZE (layer_offset layer)))) ->
     allocated PBUF_POOL length p c s s' l l -> readable c -> Q (Some p) s') ->
  (forall s', Z.of_nat (List.length (memp_tab s MEMP_PBUF_POOL)) < pool_elements layer length ->
     unchanged s s' l -> Q None s') ->
  wp (pbuf_alloc layer length PBUF_POOL) Q s.
Proof.
  intros Hok Hlen HQ HN. cbn [pbuf_alloc]. cbv zeta. pose proof (offset_range layer) as Hoff.
  pose proof (align_range (layer_offset layer)) as Ha.
  assert (Hal : aligned_payload (layer_offset layer) = LWIP_MEM_ALIGN_SIZE (layer_offset layer))
    by (unfold aligned_payload; change SIZEOF_STRUCT_PBUF with 16; rewrite !align_size; Z.div_mod_to_equations; lia).
  unfold pool_elements in HQ, HN. change PBUF_POOL_BUFSIZE_ALIGNED with 1500 in *.
  set (plen := Z.min length (1500 - LWIP_MEM_ALIGN_SIZE (layer_offset layer))) in *.
  assert (Hplen : 0 <= plen <= length /\ plen + LWIP_MEM_ALIGN_SIZE (layer_offset layer) <= 1500) by lia.
  apply wp_bind, wp_memp_malloc. destruct (memp_tab s MEMP_PBUF_POOL) as [|i fr] eqn:Hfr.
  - apply wp_ret, HN; [|by apply unchanged_refl]. cbn [List.length]. Z.div_mod_to_equations. lia.
  - apply wp_bind, wp_put_pbuf. set (p := InPool MEMP_PBUF_POOL i).
    set (b := Pbuf None (Some (aligned_payload (layer_offset layer))) length plen PBUF_POOL 0 1 1500).
    destruct (net_ok_pool_add _ _ MEMP_PBUF_POOL i fr b Hok) as [Hok' Hnone]; [done|done|done| |done|].
    { split; cbn [b len payload room]; lia. }
    apply (wp_pool_tail s l p (Some (aligned_payload (layer_offset layer)), 1500, plen) length (1 + (length - plen + 1499) / 1500) [] p b); [|done|..].
    + split; cbn [app chain partial data_len pbufs set_pbufs net_heap set_tab memp_tab List.length].
      * split; [done|]. split; [apply lookup_insert_eq|done].
      * cbn [b len tot_len]. lia.
      * cbn [b len]. lia.
      * split; cbn [pbufs set_pbufs net_pool set_tab memp_tab]; try done.
        -- apply NoDup_singleton.
        -- apply Forall_cons_2; [done|by apply Forall_nil_2].
        -- intros q Hq. apply lookup_insert_ne. intros <-. apply Hq. by left.
        -- by apply (same_pools_tab s).
      * done.
      * done.
      * rewrite Hfr, decide_True by done. cbn [List.length]. lia.
      * by rewrite lookup_insert_eq.
      * lia.
      * by repeat constructor.
    + intros c s' Hn Hg. eapply (HQ p c).
      * pose proof (grow_tab _ _ _ _ _ _ _ _ _ Hg) as Ht. rewrite Hfr in Ht. lia.
      * intros b' Hb'. pose proof (grow_head _ _ _ _ _ _ _ _ _ Hg) as Hh. rewrite Hb' in Hh. cbn in Hh. congruence.
      * by eapply growing_done.
      * by eapply growing_readable.
    + intros s' Hlt Hu. apply HN; [|done]. by rewrite Hfr in Hlt.
Qed.

(** * Allocation *)

(** pbuf_alloc, for every layer and type: when the heap has a block or the
    pool enough elements, the caller gets a packet of exactly the length asked
    for, made of pbufs that were not in use, each referenced once, with room for
    the headers of the lower layers in front of its payload, and no byte of
    another pbuf changes; otherwise it gets NULL and the elements taken on the way
    are back in the pool. *)
Theorem pbuf_alloc_allocates (s : net) (l : list block) (layer : pbuf_layer) (length : Z) (t : pbuf_type) :
  net_ok s l -> 0 <= length <= 65460 ->
  wp (pbuf_alloc layer length t) (fun r s' =>
    if has_memory s l layer length t then
      exists p c l', r = Some p /\ allocated t length p c s s' l l' /\
        forall b, pbufs s' !! p = Some b -> pool_of t <> Some MEMP_PBUF ->
          payload b = Some (aligned_payload (layer_offset layer)) /\
          layer_offset layer <= aligned_payload (layer_offset layer)
    else r = None /\ unchanged s s' l) s.
Proof.
  intros Hok Hlen.
  assert (Hal : layer_offset layer <= aligned_payload (layer_offset layer)).
  { unfold aligned_payload. pose proof (align_range (SIZEOF_STRUCT_PBUF + layer_offset layer)). lia. }
  destruct t; cbn [has_memory pool_of].
  - apply (wp_alloc_ram s l); [done..| |].
    + intros a lt i b s' l' Ha Hb Hal'. rewrite Ha. cbn. exists (InHeap i), [(InHeap i, b)], l'.
      split; [done|]. split; [done|]. intros b' Hb' _.
      destruct (alloc_chain _ _ _ _ _ _ _ _ Hal') as (_ & Heq & _). rewrite Hb' in Heq. by simplify_eq.
    + intros Ha. rewrite Ha. cbn. split; [done|by apply unchanged_refl].
  - apply (wp_alloc_ref s l); [done|lia|by left| |].
    + intros p b s' Hlt _ Ha. rewrite (proj2 (Z.ltb_lt _ _)) by done. by exists p, [(p, b)], l.
    + intros ->. split; [done|by apply unchanged_refl].
  - apply (wp_alloc_ref s l); [done|lia|by right| |].
    + intros p b s' Hlt _ Ha. rewrite (proj2 (Z.ltb_lt _ _)) by done. by exists p, [(p, b)], l.
    + intros ->. split; [done|by apply unchanged_refl].
  - apply (wp_alloc_pool s l); [done|lia| |].
    + intros p c s' Hle Hb Ha _. rewrite (proj2 (Z.leb_le _ _)) by done. exists p, c, l.
      split; [done|]. split; [done|]. intros b Hb' _. split; [by injection (Hb b Hb')|done].
    + intros s' Hlt Hu. rewrite (proj2 (Z.leb_gt _ _)) by done. done.
Qed.

(** The memory after mem_init and memp_init. *)
Definition fresh_net : net :=
  match (_ ← on_heap mem_init; memp_init) (Net (Heap (fun _ => 0) 0) (fun _ => []) (fun _ _ _ => 0) ∅) with
  | Ret _ s => s | _ => Net (Heap (fun _ => 0) 0) (fun _ => []) (fun _ _ _ => 0) ∅ end.

Lemma fresh_net_ok : net_ok fresh_net [(MEM_SIZE_ALIGNED, false)].
Proof.
  split.
  - assert (wp mem_init (fun _ h => heap_ok h [(MEM_SIZE_ALIGNED, false)]) (Heap (fun _ => 0) 0)) as Hw
      by by apply wp_mem_init.
    exact Hw.
  - intros t i _. change (memp_tab fresh_net t) with (rev (seq 0 (memp_num t))).
    change (pbufs fresh_net) with (∅ : gmap ptr pbuf). rewrite lookup_empty, List.rev_alt.
    change (rev_append ?l []) with (reverse l). rewrite elem_of_reverse, elem_of_seq. split; [intros; split; [lia|done]|lia].
  - intros t. change (memp_tab fresh_net t) with (rev (seq 0 (memp_num t))).
    rewrite <- Permutation_rev. apply NoDup_seq.
  - intros p b. change (pbufs fresh_net) with (∅ : gmap ptr pbuf). by rewrite lookup_empty.
Qed.

Lemma pbuf_alloc_allocates_witness :
  wp (pbuf_alloc PBUF_TRANSPORT 4000 PBUF_POOL) (fun r s' =>
    if has_memory fresh_net [(MEM_SIZE_ALIGNED, false)] PBUF_TRANSPORT 4000 PBUF_POOL then
      exists p c l', r = Some p /\ allocated PBUF_POOL 4000 p c fresh_net s' [(MEM_SIZE_ALIGNED, false)] l' /\
        forall b, pbufs s' !! p = Some b -> pool_of PBUF_POOL <> Some MEMP_PBUF ->
          payload b = Some (aligned_payload (layer_offset PBUF_TRANSPORT)) /\
          layer_offset PBUF_TRANSPORT <= aligned_payload (layer_offset PBUF_TRANSPORT)
    else r = None /\ unchanged fresh_net s' [(MEM_SIZE_ALIGNED, false)]) fresh_net.
Proof.
  apply (pbuf_alloc_allocates fresh_net [(MEM_SIZE_ALIGNED, false)] PBUF_TRANSPORT 4000 PBUF_POOL);
    [apply fresh_net_ok|lia].
Defined.

(** Three elements for 4000 bytes; 14945 bytes are too many for the ten. *)
Example pool_elements_4000 : pool_elements PBUF_TRANSPORT 4000 = 3.
Proof. reflexivity. Qed.
Example pool_exhausted :
  (has_memory fresh_net [(MEM_SIZE_ALIGNED, false)] PBUF_TRANSPORT 14944 PBUF_POOL,
   has_memory fresh_net [(MEM_SIZE_ALIGNED, false)] PBUF_TRANSPORT 14945 PBUF_POOL) = (true, false).
Proof. vm_compute. reflexivity. Qed.

(** Allocating and freeing a packet is a round trip, whether the allocation
    succeeds or not: the pbufs, the free elements of the pools, the layout of the
    heap and the data of all other pbufs are what they were. *)
Theorem pbuf_alloc_free_roundtrip (s : net) (l : list block) (layer : pbuf_layer) (length : Z) (t : pbuf_type) :
  net_ok s l -> 0 <= length <= 65460 ->
  wp (p ← pbuf_alloc layer length t; pbuf_free p) (fun _ s' => unchanged s s' l) s.
Proof.
  intros Hok Hlen. apply wp_bind.
  assert (Hdone : forall p c s' l', allocated t length p c s s' l l' ->
    wp (pbuf_free (Some p)) (fun _ s' => unchanged s s' l) s').
  { intros p c s' l' [Hc _ _ Ha Hok' Hd Hrel].
    apply (wp_pbuf_free _ c _ l'); [done|done|apply (added_nodup _ _ _ _ Ha)|].
    intros s2 [Hp2 Hok2 Hd2 Hs2 Hpool2 Hpcb2]. rewrite dead_all in * by (by eapply added_ref1).
    rewrite Hrel in *. split.
    - rewrite Hp2. by eapply free_added.
    - done.
    - intros x Hx. rewrite Hd2 by done. by apply Hd.
    - rewrite Hpool2. apply (added_pool _ _ _ _ Ha).
    - by eapply same_pools_trans; [apply (added_pcbs _ _ _ _ Ha)|]. }
  assert (Hnone : forall s', unchanged s s' l -> wp (pbuf_free None) (fun _ s' => unchanged s s' l) s') by done.
  destruct t.
  - apply (wp_alloc_ram s l); [done..| |]; intros; [by eapply Hdone|by apply Hnone, unchanged_refl].
  - apply (wp_alloc_ref s l); [done|lia|by left| |]; intros; [by eapply Hdone|by apply Hnone, unchanged_refl].
  - apply (wp_alloc_ref s l); [done|lia|by right| |]; intros; [by eapply Hdone|by apply Hnone, unchanged_refl].
  - apply (wp_alloc_pool s l); [done|lia| |]; intros; [by eapply Hdone|by apply Hnone].
Qed.

Lemma pbuf_alloc_free_roundtrip_witness :
  wp (p ← pbuf_alloc PBUF_IP 3000 PBUF_RAM; pbuf_free p)
     (fun _ s' => unchanged fresh_net s' [(MEM_SIZE_ALIGNED, false)]) fresh_net.
Proof.
  apply (pbuf_alloc_free_roundtrip fresh_net [(MEM_SIZE_ALIGNED, false)] PBUF_IP 3000 PBUF_RAM);
    [apply fresh_net_ok|lia].
Defined.

(** * Reference counts *)

(** pbuf_free drops one reference of a chain: it takes away the pbufs in front
    that are referenced once, gives each back to the heap or the pool that it came
    from, counts one less on the first one that is referenced more often, and
    touches nothing behind it; it answers how many it took, as an [u8_t]. *)
Theorem pbuf_free_drops_reference (s : net) (l : list block) (p : option ptr) (c : list (ptr * pbuf)) :
  net_ok s l -> chain (pbufs s) p c -> NoDup c.*1 ->
  wp (pbuf_free p) (fun n s' => n = u8 (Z.of_nat (List.length (dead c))) /\ freed c s l s') s.
Proof. intros Hok Hc Hnd. by apply (wp_pbuf_free _ _ _ _ _ Hok Hc Hnd). Qed.

(** A chain a, b, c of 100 bytes each in the pool, with given reference counts. *)
Definition pool_pbuf (n : option ptr) (t r : Z) : pbuf := Pbuf n (Some 0) t 100 PBUF_POOL 0 r 1500.
Definition demo_a : ptr := InPool MEMP_PBUF_POOL 7.
Definition demo_b : ptr := InPool MEMP_PBUF_POOL 8.
Definition demo_c : ptr := InPool MEMP_PBUF_POOL 9.
Definition demo_chain (x y z : Z) : list (ptr * pbuf) :=
  [(demo_a, pool_pbuf (Some demo_b) 300 x); (demo_b, pool_pbuf (Some demo_c) 200 y); (demo_c, pool_pbuf None 100 z)].
Definition add_pool (i : nat) (fr : list nat) (b : pbuf) (s : net) : net :=
  set_pbufs (<[InPool MEMP_PBUF_POOL i := b]> (pbufs s)) (set_tab MEMP_PBUF_POOL fr s).
Definition demo_net (x y z : Z) : net :=
  add_pool 7 (rev (seq 0 7)) (pool_pbuf (Some demo_b) 300 x)
    (add_pool 8 (rev (seq 0 8)) (pool_pbuf (Some demo_c) 200 y)
      (add_pool 9 (rev (seq 0 9)) (pool_pbuf None 100 z) fresh_net)).

Lemma demo_net_ok x y z : 1 <= x < 65536 -> 1 <= y < 65536 -> 1 <= z < 65536 ->
  net_ok (demo_net x y z) [(MEM_SIZE_ALIGNED, false)].
Proof.
  intros Hx Hy Hz. do 3 (eapply net_ok_pool_add; [|done|reflexivity|done|by split|done]). apply fresh_net_ok.
Qed.
Lemma demo_net_chain x y z : chain (pbufs (demo_net x y z)) (Some demo_a) (demo_chain x y z).
Proof. by repeat split. Qed.
Lemma demo_chain_nodup x y z : NoDup (demo_chain x y z).*1.
Proof. change (NoDup [demo_a; demo_b; demo_c]). by apply (bool_decide_unpack _). Qed.

Lemma pbuf_free_drops_reference_witness :
  wp (pbuf_free (Some demo_a)) (fun n s' => n = u8 (Z.of_nat (List.length (dead (demo_chain 1 1 2)))) /\
    freed (demo_chain 1 1 2) (demo_net 1 1 2) [(MEM_SIZE_ALIGNED, false)] s') (demo_net 1 1 2).
Proof.
  apply (pbuf_free_drops_reference (demo_net 1 1 2) [(MEM_SIZE_ALIGNED, false)] (Some demo_a) (demo_chain 1 1 2));
    [apply demo_net_ok; lia|apply demo_net_chain|apply demo_chain_nodup].
Defined.

(** The examples in the comment of pbuf_free. *)
Definition refs_after (x y z : Z) : option (Z * list (option Z)) :=
  match pbuf_free (Some demo_a) (demo_net x y z) with
  | Ret n s => Some (n, map (fun p => ref <$> pbufs s !! p) [demo_a; demo_b; demo_c])
  | _ => None
  end.
Example free_1_2_3 : refs_after 1 2 3 = Some (1, [None; Some 1; Some 3]).
Proof. vm_compute. reflexivity. Qed.
Example free_3_3_3 : refs_after 3 3 3 = Some (0, [Some 2; Some 3; Some 3]).
Proof. vm_compute. reflexivity. Qed.
Example free_1_1_2 : refs_after 1 1 2 = Some (2, [None; None; Some 1]).
Proof. vm_compute. reflexivity. Qed.
Example free_2_1_1 : refs_after 2 1 1 = Some (0, [Some 1; Some 1; Some 1]).
Proof. vm_compute. reflexivity. Qed.
Example free_1_1_1 : refs_after 1 1 1 = Some (3, [None; None; None]).
Proof. vm_compute. reflexivity. Qed.

(** * Headers *)
Definition shifted (h : Z) (b : pbuf) : pbuf :=
  with_payload ((fun o => o - h) <$> payload b) (with_len (len b + h) (with_tot_len (tot_len b + h) b)).

Lemma header_step (s : net) (p : ptr) (b : pbuf) (o h : Z) :
  pbufs s !! p = Some b -> payload b = Some o -> type b = PBUF_RAM \/ type b = PBUF_POOL ->
  0 <= o -> 0 <= len b <= tot_len b -> tot_len b + h < 65536 ->
  wp (pbuf_header (Some p) h) (fun r s' =>
    if (- len b <=? h) && (h <=? o) then r = 0 /\ s' = set_pbufs (<[p := shifted h b]> (pbufs s)) s
    else r = 1 /\ s' = s) s.
Proof.
  intros Hp Ho Ht Hpos Hlen Hmax. cbn [pbuf_header]. destruct (Z.eqb_spec h 0) as [->|Hne].
  - rewrite (proj2 (Z.leb_le _ _)), (proj2 (Z.leb_le _ _)) by lia. apply wp_ret. split; [done|].
    rewrite insert_id; [by destruct s|]. rewrite Hp. f_equal. destruct b as [n pl tl ln ty fl rf rm]. unfold shifted. cbn in *. subst pl.
    cbn. by rewrite Z.sub_0_r, !Z.add_0_r.
  - apply wp_bind, (wp_get_pbuf _ b); [done|].
    destruct (Z.leb_spec (- len b) h) as [Hl|Hl]; cbn [andb].
    + rewrite (proj2 (Z.ltb_ge (len b) _)) by lia. rewrite andb_false_r, Ho.
      destruct (Z.leb_spec h o) as [Hh|Hh].
      * assert (wp (_ ← put_pbuf p (with_payload (Some (o - h)) (with_len (u16 (len b + h))
            (with_tot_len (u16 (tot_len b + h)) b))); mret 0) (fun r s' => r = 0 /\
            s' = set_pbufs (<[p := shifted h b]> (pbufs s)) s) s) as Hw.
        { apply wp_bind, wp_put_pbuf, wp_ret. split; [done|]. unfold shifted. rewrite Ho, !u16_small by lia. done. }
        rewrite (proj2 (Z.ltb_ge (o - h) 0)) by lia. by destruct Ht as [-> | ->].
      * rewrite (proj2 (Z.ltb_lt (o - h) 0)) by lia. by destruct Ht as [-> | ->]; apply wp_ret.
    + rewrite (proj2 (Z.ltb_lt h 0)), (proj2 (Z.ltb_lt (len b) _)) by lia. by apply wp_ret.
Qed.

(** pbuf_header on a pbuf with memory of its own: a header of [h] bytes is
    revealed when there is room in front of the payload, or hidden when the pbuf
    holds that much, by moving the payload and both lengths; else the answer is 1
    and nothing changes. After a success, the opposite call restores the pbuf. *)
Theorem pbuf_header_roundtrip (s : net) (p : ptr) (b : pbuf) (o h : Z) :
  pbufs s !! p = Some b -> payload b = Some o -> type b = PBUF_RAM \/ type b = PBUF_POOL ->
  0 <= o -> 0 <= len b <= tot_len b -> tot_len b + Z.abs h < 65536 ->
  wp (pbuf_header (Some p) h) (fun r s' =>
    if (- len b <=? h) && (h <=? o) then
      r = 0 /\ s' = set_pbufs (<[p := shifted h b]> (pbufs s)) s /\
      wp (pbuf_header (Some p) (- h)) (fun r s'' => r = 0 /\ s'' = s) s'
    else r = 1 /\ s' = s) s.
Proof.
  intros Hp Ho Ht Hpos Hlen Hmax. eapply wp_mono; [apply (header_step s p b o h); done || lia|].
  intros r s' Hr. cbn beta in Hr. destruct (Z.leb_spec (- len b) h) as [Hl|]; [|done].
  destruct (Z.leb_spec h o) as [Hh|]; [|done]. cbn [andb] in *. destruct Hr as [-> ->]. split; [done|].
  split; [done|].
  eapply wp_mono; [apply (header_step _ p (shifted h b) (o - h) (- h))|].
  - apply lookup_insert_eq.
  - cbn [payload shifted with_payload]. by rewrite Ho.
  - exact Ht.
  - lia.
  - cbn [len tot_len shifted with_payload with_len with_tot_len]. lia.
  - cbn [tot_len shifted with_payload with_len with_tot_len]. lia.
  - intros r s'. cbn [len shifted with_payload with_len].
    rewrite (proj2 (Z.leb_le _ (- h))), (proj2 (Z.leb_le (- h) _)) by lia. cbn [andb].
    intros [-> ->]. split; [done|]. cbn [pbufs set_pbufs]. rewrite insert_insert_eq, insert_id.
    + by destruct s.
    + rewrite Hp. f_equal. destruct b as [n pl tl ln ty fl rf rm]. cbn in *. subst pl. unfold shifted. cbn. unfold with_payload, with_len, with_tot_len. cbn.
      repeat match goal with |- context [?x + h + - h] => replace (x + h + - h) with x by lia end.
      by replace (o - h - - h) with o by lia.
Qed.

Lemma pbuf_header_roundtrip_witness :
  wp (pbuf_header (Some demo_a) (-42)) (fun r s' =>
    if (- len (pool_pbuf (Some demo_b) 300 1) <=? -42) && (-42 <=? 0) then
      r = 0 /\ s' = set_pbufs (<[demo_a := shifted (-42) (pool_pbuf (Some demo_b) 300 1)]> (pbufs (demo_net 1 1 1))) (demo_net 1 1 1) /\
      wp (pbuf_header (Some demo_a) (- -42)) (fun r s'' => r = 0 /\ s'' = demo_net 1 1 1) s'
    else r = 1 /\ s' = demo_net 1 1 1) (demo_net 1 1 1).
Proof.
  apply (pbuf_header_roundtrip (demo_net 1 1 1) demo_a (pool_pbuf (Some demo_b) 300 1) 0 (-42));
    [reflexivity|reflexivity|right; reflexivity|lia|cbn; lia|cbn; lia].
Defined.

(** * Concatenation *)

(** The pbufs of the head chain after a concatenation. *)
Fixpoint retotal (n : Z) (t : ptr) (c : list (ptr * pbuf)) : list (ptr * pbuf) :=
  match c with
  | [] => []
  | [(p, b)] => [(p, with_next (Some t) (with_tot_len (tot_len b + n) b))]
  | (p, b) :: c => (p, with_tot_len (tot_len b + n) b) :: retotal n t c
  end.

Lemma retotal_dom n t c : (retotal n t c).*1 = c.*1.
Proof.
  induction c as [|[p b] c IH]; [done|]. destruct c as [|x c]; [done|].
  cbn [retotal fmap list_fmap fst] in *. by rewrite <- IH.
Qed.
Lemma retotal_len n t c : data_len (retotal n t c) = data_len c.
Proof.
  induction c as [|[p b] c IH]; [done|]. destruct c as [|x c]; [done|].
  cbn [retotal data_len] in *. by rewrite IH.
Qed.
Lemma retotal_packet n t c c' : packet c -> packet c' -> data_len c' = n -> packet (retotal n t c ++ c').
Proof.
  intros Hc Hc' <-. induction c as [|[p b] c IH]; [done|]. destruct c as [|x c].
  - cbn [retotal app packet data_len len tot_len with_next with_tot_len] in *. lia || (split_and!; [lia|lia|done]).
  - cbn [packet] in Hc. destruct Hc as (Ht & Hl & Hc). specialize (IH Hc). clear Hc.
    change (retotal (data_len c') t ((p, b) :: x :: c)) with
      ((p, with_tot_len (tot_len b + data_len c') b) :: retotal (data_len c') t (x :: c)).
    cbn [app packet tot_len len with_tot_len]. split; [|done].
    rewrite data_len_app, retotal_len. lia.
Qed.

Fixpoint overwrite (c : list (ptr * pbuf)) (m : gmap ptr pbuf) : gmap ptr pbuf :=
  match c with [] => m | (p, b) :: c => overwrite c (<[p := b]> m) end.

Lemma overwrite_other c m q : q ∉ c.*1 -> overwrite c m !! q = m !! q.
Proof.
  revert m. induction c as [|[p b] c IH]; intros m; [done|]. cbn [overwrite fmap list_fmap fst].
  intros [Hne Hq]%not_elem_of_cons. rewrite IH by done. by apply lookup_insert_ne.
Qed.

Lemma chain_retotal n t c c' m h : chain m (Some h) c -> c <> [] -> NoDup c.*1 ->
  (forall q, q ∈ c.*1 -> q ∉ c'.*1) -> chain m (Some t) c' ->
  chain (overwrite (retotal n t c) m) (Some h) (retotal n t c ++ c').
Proof.
  intros Hc Hne Hnd Hdis Hc'.
  assert (Hkeep : forall m', (forall q, q ∉ c.*1 -> m' !! q = m !! q) -> chain m' (Some t) c').
  { intros m' Hm. eapply chain_frame; [|exact Hc']. intros q Hq. apply Hm. intros Hin. by apply (Hdis q). }
  clear Hc' Hdis. revert h m Hc Hkeep. revert Hne Hnd. induction c as [|[p b] c IH]; intros Hne Hnd h m Hc Hkeep; [done|].
  cbn [chain] in Hc. destruct Hc as ([= ->] & Hp & Hc). apply nodup_cons in Hnd as [Hpn Hnd]. cbn [fst] in Hpn.
  destruct c as [|x c].
  - cbn [retotal overwrite app chain next with_next]. split; [done|]. split; [apply lookup_insert_eq|].
    apply Hkeep. intros q Hq. apply lookup_insert_ne. intros <-. apply Hq. by left.
  - change (retotal n t ((p, b) :: x :: c)) with ((p, with_tot_len (tot_len b + n) b) :: retotal n t (x :: c)).
    cbn [overwrite app chain next with_tot_len]. split; [done|]. split.
    + rewrite overwrite_other by (by rewrite retotal_dom). apply lookup_insert_eq.
    + destruct x as [q bq]. pose proof Hc as Hc2. cbn [chain] in Hc2. destruct Hc2 as (Hn & _). rewrite Hn in *.
      apply IH; [done|done| |].
      * eapply chain_frame; [|exact Hc]. intros r Hr. apply lookup_insert_ne. by intros ->.
      * intros m' Hm. apply Hkeep. intros r Hr. cbn [fmap list_fmap fst] in Hr, Hm. apply not_elem_of_cons in Hr as [Hrp Hr].
        rewrite Hm by done. by apply lookup_insert_ne.
Qed.

Lemma packet_pos c : packet c -> 0 <= data_len c.
Proof. induction c as [|[q b] c IH]; cbn; [lia|]. intros (? & ? & Hp). specialize (IH Hp). lia. Qed.

(** The walk of pbuf_cat with its last two stores. *)
Definition cat_end (t p : ptr) : M net unit :=
  bt ← get_pbuf t;
  _ ← upd_pbuf p (fun b => with_tot_len (u16 (tot_len b + tot_len bt)) b);
  upd_pbuf p (with_next (Some t)).

Lemma wp_cat_loop t bt l c : forall h s (Q : unit -> net -> Prop),
  chain (pbufs s) (Some h) c -> c <> [] -> NoDup c.*1 -> t ∉ c.*1 -> pbufs s !! t = Some bt -> packet c ->
  0 <= tot_len bt -> data_len c + tot_len bt < 65536 -> net_ok s l ->
  (forall s', s' = set_pbufs (overwrite (retotal (tot_len bt) t c) (pbufs s)) s -> net_ok s' l -> Q tt s') ->
  wp (iter_nat (S (length c)) (pbuf_cat_body t) h) (ends (fun p s' => wp (cat_end t p) Q s')) s.
Proof.
  induction c as [|[p b] c IH]; intros h s Q Hc Hne Hnd Ht Hbt Hp H0t Hmax Hok HQ; [done|]. clear Hne.
  cbn [chain] in Hc. destruct Hc as ([= ->] & Hpm & Hc). apply nodup_cons in Hnd as [Hpn Hnd].
  cbn [fmap list_fmap fst] in Hpn, Ht. apply not_elem_of_cons in Ht as [Htp Ht].
  cbn [packet data_len] in Hp, Hmax. destruct Hp as (Htot & Hlen & Hp).
  pose proof (packet_pos _ Hp) as Hpos.
  destruct (nok_home _ _ Hok _ _ Hpm) as (_ & Hfit & Href).
  pose proof (net_ok_update _ _ _ _ (with_tot_len (tot_len b + tot_len bt) b) Hok Hpm eq_refl eq_refl Hfit Href) as Hok1.
  apply wp_iter_S. apply wp_bind, (wp_get_pbuf _ _ _ _ Hpm).
  destruct c as [|x c].
  - cbn [chain] in Hc. rewrite Hc. apply wp_ret. apply wp_bind, (wp_get_pbuf _ _ _ _ Hbt).
    apply wp_bind, wp_bind, (wp_get_pbuf _ _ _ _ Hpm), wp_put_pbuf.
    apply wp_bind, (wp_get_pbuf _ (with_tot_len (u16 (tot_len b + tot_len bt)) b)); [apply lookup_insert_eq|].
    apply wp_put_pbuf. cbn [data_len] in *. rewrite u16_small by lia. cbn [pbufs set_pbufs].
    rewrite insert_insert_eq. apply HQ; [done|].
    pose proof (net_ok_update _ _ _ _ (with_next (Some t) (with_tot_len (tot_len b + tot_len bt) b)) Hok Hpm eq_refl eq_refl Hfit Href) as Hok2.
    exact Hok2.
  - destruct x as [q bq]. pose proof Hc as Hc2. cbn [chain] in Hc2. destruct Hc2 as (Hn & _). rewrite Hn.
    apply wp_bind, (wp_get_pbuf _ _ _ _ Hbt), wp_bind, wp_put_pbuf, wp_ret.
    rewrite Hn in Hc. cbn [data_len] in *. rewrite u16_small by lia.
    apply IH; cbn [pbufs set_pbufs]; try done.
    + eapply chain_frame; [|exact Hc]. intros r Hr. apply lookup_insert_ne. by intros ->.
    + by rewrite lookup_insert_ne.
    + cbn [data_len]. lia.
Qed.

Lemma wp_pbuf_cat s l h t ch ct (Q : unit -> net -> Prop) :
  net_ok s l -> chain (pbufs s) (Some h) ch -> chain (pbufs s) (Some t) ct -> NoDup (ch ++ ct).*1 ->
  packet ch -> packet ct -> data_len ch + data_len ct < 65536 ->
  (forall s' (c := retotal (data_len ct) t ch ++ ct), chain (pbufs s') (Some h) c -> packet c -> c.*1 = (ch ++ ct).*1 ->
     net_ok s' l -> (forall q, q ∉ ch.*1 -> pbufs s' !! q = pbufs s !! q) -> (forall q x, bytes_at s' q x = bytes_at s q x) -> Q tt s') ->
  wp (pbuf_cat (Some h) (Some t)) Q s.
Proof.
  intros Hok Hch Hct Hnd Hph Hpt Hmax HQ. cbv zeta in HQ. rewrite fmap_app in Hnd.
  apply list.NoDup_app in Hnd as (Hndh & Hdis & _).
  assert (Hnh : ch <> []) by (by intros ->). destruct ct as [|[t' bt] ct']; [done|].
  pose proof Hct as Hct2. cbn [chain] in Hct2. destruct Hct2 as ([= ->] & Ht & _).
  pose proof Hpt as (Htot & _ & _). pose proof (packet_pos _ Hpt) as Hpos. cbn [data_len] in Hpos.
  assert (Hdl : tot_len bt = data_len ((t', bt) :: ct')) by (cbn [data_len]; lia). rewrite <- Hdl in *.
  cbn [pbuf_cat]. apply wp_bind, wp_gets, wp_bind, (wp_loop_nat (S (length ch))).
  { pose proof (chain_size _ _ _ Hch Hndh). lia. }
  fold (cat_end t'). apply (wp_cat_loop t' bt l); try done; [|lia|].
  - intros Hin. apply (Hdis _ Hin). by left.
  - intros s' -> Hok'. apply HQ; cbn [pbufs set_pbufs]; [by apply chain_retotal|by apply retotal_packet|by rewrite !fmap_app, retotal_dom|done| |by intros []].
    intros q Hq. apply overwrite_other. by rewrite retotal_dom.
Qed.

(** pbuf_cat makes one packet of two: the chain of the head goes on with that
    of the tail, the total length of every pbuf is again the length of the data
    from it on, reference counts and data stay as they are, and so do all other
    pbufs. *)
Theorem pbuf_cat_appends (s : net) (l : list block) (h t : ptr) (ch ct : list (ptr * pbuf)) :
  net_ok s l -> chain (pbufs s) (Some h) ch -> chain (pbufs s) (Some t) ct -> NoDup (ch ++ ct).*1 ->
  packet ch -> packet ct -> data_len ch + data_len ct < 65536 ->
  wp (pbuf_cat (Some h) (Some t)) (fun _ s' =>
    let c := retotal (data_len ct) t ch ++ ct in
    chain (pbufs s') (Some h) c /\ packet c /\ c.*1 = (ch ++ ct).*1 /\
    net_ok s' l /\ (forall q, q ∉ ch.*1 -> pbufs s' !! q = pbufs s !! q)) s.
Proof.
  intros Hok Hch Hct Hnd Hph Hpt Hmax. by apply (wp_pbuf_cat s l h t ch ct).
Qed.

(** A packet of two pbufs and one of one. *)
Definition cat_net : net :=
  add_pool 7 (rev (seq 0 7)) (pool_pbuf (Some demo_b) 200 1)
    (add_pool 8 (rev (seq 0 8)) (pool_pbuf None 100 1)
      (add_pool 9 (rev (seq 0 9)) (pool_pbuf None 100 1) fresh_net)).
Definition cat_head : list (ptr * pbuf) :=
  [(demo_a, pool_pbuf (Some demo_b) 200 1); (demo_b, pool_pbuf None 100 1)].
Definition cat_tail : list (ptr * pbuf) := [(demo_c, pool_pbuf None 100 1)].

Lemma cat_net_ok : net_ok cat_net [(MEM_SIZE_ALIGNED, false)].
Proof. do 3 (eapply net_ok_pool_add; [|done|reflexivity|done|by split|done]). apply fresh_net_ok. Qed.

Lemma pbuf_cat_appends_witness :
  wp (pbuf_cat (Some demo_a) (Some demo_c)) (fun _ s' =>
    let c := retotal (data_len cat_tail) demo_c cat_head ++ cat_tail in
    chain (pbufs s') (Some demo_a) c /\ packet c /\ c.*1 = (cat_head ++ cat_tail).*1 /\
    net_ok s' [(MEM_SIZE_ALIGNED, false)] /\
    (forall q, q ∉ cat_head.*1 -> pbufs s' !! q = pbufs cat_net !! q)) cat_net.
Proof.
  apply (pbuf_cat_appends cat_net [(MEM_SIZE_ALIGNED, false)] demo_a demo_c cat_head cat_tail);
    [apply cat_net_ok|by repeat split|by repeat split|apply (demo_chain_nodup 1 1 1)|..];
    cbn; lia.
Defined.

(** pbuf_chain followed by pbuf_dechain is a round trip for a pbuf of its own
    and a packet that the caller keeps a reference of: the tail comes back, and
    the memory is exactly what it was. *)
Theorem pbuf_chain_dechain_roundtrip (s : net) (h t : ptr) (bh bt : pbuf) :
  pbufs s !! h = Some bh -> pbufs s !! t = Some bt -> h <> t -> next bh = None -> tot_len bh = len bh ->
  0 <= len bh -> 0 <= tot_len bt -> len bh + tot_len bt < 65536 -> 1 <= ref bt < 65535 ->
  wp (_ ← pbuf_chain (Some h) (Some t); pbuf_dechain h) (fun r s' => r = Some t /\ s' = s) s.
Proof.
  intros Hh Ht Hne Hn Htot Hlen Hlt Hmax Href. apply wp_bind. unfold pbuf_chain. cbn [pbuf_cat].
  apply wp_bind, wp_bind, wp_gets, wp_bind, (wp_loop_nat 1); [lia|].
  apply wp_iter_S, wp_bind, (wp_get_pbuf _ _ _ _ Hh). rewrite Hn. apply wp_ret.
  apply wp_bind, (wp_get_pbuf _ _ _ _ Ht), wp_bind, wp_bind, (wp_get_pbuf _ _ _ _ Hh), wp_put_pbuf.
  rewrite u16_small by lia.
  apply wp_bind, (wp_get_pbuf _ _ _ _ (lookup_insert_eq _ _ _)), wp_put_pbuf. cbn [pbufs set_pbufs].
  rewrite insert_insert_eq. set (bh1 := with_next (Some t) _).
  apply wp_bind, (wp_get_pbuf _ bt); [by cbn [pbufs set_pbufs]; rewrite lookup_insert_ne|].
  apply wp_put_pbuf. cbn [pbufs set_pbufs]. rewrite u16_small by lia. set (bt1 := with_ref _ bt).
  unfold pbuf_dechain. apply wp_bind, (wp_get_pbuf _ bh1).
  { cbn [pbufs set_pbufs]. rewrite lookup_insert_ne by done. apply lookup_insert_eq. }
  cbn [next bh1 with_next]. apply wp_bind, wp_bind, (wp_get_pbuf _ bt1); [apply lookup_insert_eq|].
  apply wp_put_pbuf. cbn [pbufs set_pbufs tot_len len bh1 with_next with_tot_len].
  rewrite insert_insert_eq. replace (tot_len bh + tot_len bt - len bh) with (tot_len bt) by lia.
  rewrite u16_small by lia. set (bt2 := with_tot_len (tot_len bt) bt1).
  apply wp_bind, wp_bind, (wp_get_pbuf _ bh1).
  { cbn [pbufs set_pbufs]. rewrite lookup_insert_ne by done. apply lookup_insert_eq. }
  apply wp_put_pbuf, wp_bind, wp_bind, (wp_get_pbuf _ _ _ _ (lookup_insert_eq _ _ _)), wp_put_pbuf.
  cbn [pbufs set_pbufs]. rewrite insert_insert_eq. set (bh2 := with_tot_len _ _).
  apply wp_bind. cbn [pbuf_free]. apply wp_bind, wp_gets, (wp_loop_nat 2); [lia|].
  apply wp_iter_S, wp_bind, (wp_get_pbuf _ bt2).
  { cbn [pbufs set_pbufs]. rewrite lookup_insert_ne by done. apply lookup_insert_eq. }
  cbv zeta. cbn [ref bt2 with_tot_len bt1 with_ref]. replace (ref bt + 1 - 1) with (ref bt) by lia.
  rewrite u16_small by lia. apply wp_bind, wp_put_pbuf. rewrite (proj2 (Z.eqb_neq _ 0)) by lia.
  apply wp_ret, wp_iter_S, wp_ret, wp_ret. cbn [pbufs set_pbufs]. split; [done|].
  assert (bh2 = bh) as ->.
  { destruct bh. cbn in *. subst. by unfold bh2. }
  assert (with_ref (ref bt) bt2 = bt) as -> by (by destruct bt).
  destruct s as [hp tab pool m]. unfold set_pbufs. cbn in *. f_equal. apply map_eq. intros q.
  destruct (decide (q = t)) as [->|Hqt]; [by rewrite lookup_insert_eq|]. rewrite lookup_insert_ne by done.
  destruct (decide (q = h)) as [->|Hqh]; [by rewrite lookup_insert_eq|]. rewrite lookup_insert_ne by done.
  rewrite lookup_insert_ne by done. by rewrite lookup_insert_ne.
Qed.

Lemma pbuf_chain_dechain_roundtrip_witness :
  wp (_ ← pbuf_chain (Some demo_b) (Some demo_c); pbuf_dechain demo_b)
     (fun r s' => r = Some demo_c /\ s' = cat_net) cat_net.
Proof.
  apply (pbuf_chain_dechain_roundtrip cat_net demo_b demo_c (pool_pbuf None 100 1) (pool_pbuf None 100 1));
    reflexivity || discriminate || (cbn; lia).
Defined.

(** * Copying data out *)
Lemma wp_copy_partial_loop s c : forall p out lft n offset (Q : Z * list Z -> net -> Prop),
  chain (pbufs s) p c -> readable c -> data_len c < 65536 ->
  0 <= n -> 0 <= offset < 65536 -> 0 <= lft -> lft + n < 65536 -> lft + n <= Z.of_nat (length out) ->
  (let d := firstn (Z.to_nat n) (skipn (Z.to_nat offset) (contents s c)) in
   Q (lft + Z.of_nat (length d), splice (Z.to_nat lft) d out) s) ->
  wp (iter_nat (S (length c)) copy_partial_body (p, out, lft, lft, n, offset)) (ends Q) s.
Proof.
  induction c as [|[q b] c IH]; intros p out lft n offset Q Hc Hr Hlen Hn Hoff Hl Hmax Hout HQ; cbv zeta in HQ.
  - cbn [chain] in Hc. subst p. apply wp_iter_S, wp_ret. cbn [contents] in HQ.
    rewrite skipn_nil, firstn_nil, splice_nil in HQ. cbn [length] in HQ. by rewrite Z.add_0_r in HQ.
  - cbn [chain] in Hc. destruct Hc as (-> & Hq & Hc). apply Forall_cons_1 in Hr as [[Hf Hp] Hr]. cbn [snd] in Hf, Hp.
    cbn [data_len] in Hlen. cbn [contents] in HQ. pose proof (data_of_length s q b Hf Hp) as Hdl.
    assert (Hlb : 0 <= len b) by apply Hf.
    assert (Hlc : 0 <= data_len c).
    { clear - Hr. induction c as [|[q b] c IH]; cbn [data_len]; [lia|]. apply Forall_cons_1 in Hr as [[[Hl _] _] Hr].
      specialize (IH Hr). cbn [snd] in Hl. lia. }
    apply wp_iter_S. cbn [copy_partial_body]. destruct (Z.eqb_spec n 0) as [->|Hn0].
    + apply wp_ret. change (Z.to_nat 0) with 0%nat in HQ. rewrite take_0 in HQ.
      rewrite splice_nil in HQ. cbn [length] in HQ. by rewrite Z.add_0_r in HQ.
    + apply wp_bind, (wp_get_pbuf _ _ _ _ Hq).
      destruct (negb (offset =? 0) && (len b <=? offset)) eqn:E.
      * apply andb_true_iff in E as [_ E%Z.leb_le]. apply wp_ret. rewrite u16_small by lia.
        apply IH; [done|done|lia|done|lia|done|done|done|]. cbv zeta.
        rewrite skipn_app, skipn_all2 in HQ by lia. cbn [app] in HQ.
        by replace (Z.to_nat (offset - len b)) with (Z.to_nat offset - length (data_of s q b))%nat by lia.
      * assert (Ho : offset <= len b) by (apply andb_false_iff in E as [E|E];
          [apply negb_false_iff, Z.eqb_eq in E; lia|apply Z.leb_gt in E; lia]).
        cbv zeta. rewrite (u16_small (len b - offset)) by lia. set (k := Z.min (len b - offset) n).
        apply wp_bind, (wp_payload_read _ _ b); [done|done|done|lia|lia|].
        set (d1 := firstn (Z.to_nat k) (skipn (Z.to_nat offset) (data_of s q b))).
        assert (Hd1 : length d1 = Z.to_nat k).
        { unfold d1. rewrite length_firstn, length_skipn, Hdl. lia. }
        apply wp_bind. unfold buffer_write at 1, wp at 1. rewrite (proj2 (Z.leb_le _ _)) by lia.
        apply wp_ret. rewrite !u16_small by lia.
        set (d2 := firstn (Z.to_nat (n - k)) (skipn (Z.to_nat 0) (contents s c))).
        assert (Hd : firstn (Z.to_nat n) (skipn (Z.to_nat offset) (data_of s q b ++ contents s c)) = d1 ++ d2).
        { unfold d1, d2. change (Z.to_nat 0) with 0%nat. cbn [skipn]. rewrite skipn_app, firstn_app, length_skipn, Hdl.
          replace (Z.to_nat offset - Z.to_nat (len b))%nat with 0%nat by lia. cbn [skipn]. f_equal.
          - destruct (Z.le_gt_cases (len b - offset) n).
            + rewrite !firstn_all2; [done|rewrite length_skipn; lia..].
            + do 2 f_equal. lia.
          - f_equal. lia. }
        rewrite Hd, length_app, Hd1 in HQ.
        apply IH; [done|done|lia|lia|lia|lia|lia| |].
        -- unfold splice. rewrite !length_app, length_firstn, length_skipn. lia.
        -- cbv zeta. fold d2. replace (Z.to_nat (lft + k)) with (Z.to_nat lft + length d1)%nat by lia.
           rewrite splice_splice by lia. by replace (lft + k + Z.of_nat (length d2)) with
             (lft + Z.of_nat (Z.to_nat k + length d2)) by lia.
Qed.

(** pbuf_copy_partial copies out of a packet: it writes the bytes of the data
    of the chain from the offset on, at most as many as asked for, to the front
    of the buffer, answers how many, and leaves the rest of the buffer and the
    packet alone. *)
Theorem pbuf_copy_partial_copies (s : net) (p : ptr) (c : list (ptr * pbuf)) (out : list Z) (n offset : Z) :
  chain (pbufs s) (Some p) c -> NoDup c.*1 -> readable c -> data_len c < 65536 ->
  0 <= n < 65536 -> 0 <= offset < 65536 -> n <= Z.of_nat (length out) ->
  wp (pbuf_copy_partial (Some p) (Some out) n offset) (fun r s' =>
    let d := firstn (Z.to_nat n) (skipn (Z.to_nat offset) (contents s c)) in
    s' = s /\ r = (Z.of_nat (length d), d ++ skipn (length d) out)) s.
Proof.
  intros Hc Hnd Hr Hlen Hn Hoff Hout. cbn [pbuf_copy_partial]. apply wp_bind, wp_gets.
  apply (wp_loop_nat (S (length c))); [pose proof (chain_size _ _ _ Hc Hnd); lia|].
  apply wp_copy_partial_loop; [done|done|done|lia|done|lia|lia|lia|]. done.
Qed.

(** Two pbufs with the bytes 0, 1, 2, ... *)
Definition copy_net : net :=
  set_pool MEMP_PBUF_POOL 7 (fun i => i) (set_pool MEMP_PBUF_POOL 8 (fun i => 100 + i) cat_net).

Lemma pbuf_copy_partial_copies_witness :
  wp (pbuf_copy_partial (Some demo_a) (Some (repeat 0 20)) 6 97) (fun r s' =>
    let d := firstn (Z.to_nat 6) (skipn (Z.to_nat 97) (contents copy_net cat_head)) in
    s' = copy_net /\ r = (Z.of_nat (length d), d ++ skipn (length d) (repeat 0 20))) copy_net.
Proof.
  apply (pbuf_copy_partial_copies copy_net demo_a cat_head (repeat 0 20) 6 97).
  - by repeat split.
  - change (NoDup [demo_a; demo_b]). by apply (bool_decide_unpack _).
  - repeat (apply Forall_cons_2; [split; [by split|by eexists]|]). apply Forall_nil_2.
  - cbn. lia.
  - lia.
  - lia.
  - cbn. lia.
Defined.

Example copied_bytes :
  firstn (Z.to_nat 6) (skipn (Z.to_nat 97) (contents copy_net cat_head)) = [97; 98; 99; 100; 101; 102].
Proof. vm_compute. reflexivity. Qed.
