(* ===== verification/LwipPbufOwn.v ===== *)
(** Packets with one owner: pbuf_realloc cuts a packet short, and every sequence of
    requests by clients that own their packets keeps the packets apart, and loses none. *)
From stdpp Require Import gmap.
From S2P Require Import Prelude Mmio LwipMem LwipMemSpec LwipMemTheorems LwipPbuf LwipPbufSpec LwipPbufTheorems.

(** * pbuf_realloc *)

(** What is left of a packet that is cut to [n] bytes: the pbufs in front, the pbuf
    in which the cut is, and the pbufs behind it. *)
Definition shrunk (n : Z) (b : pbuf) : pbuf :=
  match type b, payload b with
  | PBUF_RAM, Some o => if n =? len b then b else with_room (o + n) b
  | _, _ => b
  end.
Definition cut (n : Z) (b : pbuf) : pbuf := with_next None (with_tot_len n (with_len n (shrunk n b))).
Fixpoint trimmed (n : Z) (c : list (ptr * pbuf)) : list (ptr * pbuf) :=
  match c with
  | [] => []
  | (p, b) :: c => if len b <? n then (p, with_tot_len n b) :: trimmed (n - len b) c else [(p, cut n b)]
  end.
Fixpoint dropped (n : Z) (c : list (ptr * pbuf)) : list (ptr * pbuf) :=
  match c with [] => [] | (p, b) :: c => if len b <? n then dropped (n - len b) c else c end.
(** The pbufs in front of the cut, with their new total lengths. *)
Fixpoint relen (n : Z) (c : list (ptr * pbuf)) : list (ptr * pbuf) :=
  match c with [] => [] | (p, b) :: c => (p, with_tot_len n b) :: relen (n - len b) c end.

Lemma shrunk_same n b : next (shrunk n b) = next b /\ type (shrunk n b) = type b /\ payload (shrunk n b) = payload b /\ ref (shrunk n b) = ref b.
Proof. unfold shrunk. destruct (type b) eqn:E, (payload b) eqn:E'; try done. destruct (_ =? _); [done|]. by cbn. Qed.

Lemma trimmed_dom n c : c.*1 = (trimmed n c).*1 ++ (dropped n c).*1.
Proof.
  revert n. induction c as [|[p b] c IH]; intros n; [done|]. cbn [trimmed dropped].
  destruct (_ <? _); [|done]. cbn [fmap list_fmap fst app]. by rewrite (IH (n - len b)).
Qed.
Lemma trimmed_len n c : 0 <= n <= data_len c -> data_len (trimmed n c) = n.
Proof.
  revert n. induction c as [|[p b] c IH]; intros n; cbn [trimmed data_len]; [lia|]. intros Hn.
  destruct (Z.ltb_spec (len b) n); cbn [data_len len with_tot_len]; [rewrite IH by lia; lia|]. cbn. lia.
Qed.
Lemma trimmed_packet n c : packet c -> 0 <= n <= data_len c -> packet (trimmed n c).
Proof.
  revert n. induction c as [|[p b] c IH]; intros n; cbn [trimmed data_len packet]; [done|]. intros (Ht & Hl & Hp) Hn.
  destruct (Z.ltb_spec (len b) n); cbn [packet len tot_len with_tot_len].
  - rewrite trimmed_len by lia. split; [lia|]. split; [done|]. apply IH; [done|lia].
  - cbn. lia.
Qed.
Lemma trimmed_ne n c : c <> [] -> trimmed n c <> [].
Proof. destruct c as [|[p b] c]; [done|]. intros _. cbn [trimmed]. by destruct (_ <? _). Qed.

(** The pbufs that are kept, one by one. *)
Lemma trimmed_in n c x b' : (x, b') ∈ trimmed n c -> exists b, (x, b) ∈ c /\ type b' = type b /\ ref b' = ref b /\ payload b' = payload b.
Proof.
  revert n. induction c as [|[p b] c IH]; intros n; cbn [trimmed]; [by intros ?%elem_of_nil|]. destruct (_ <? _).
  - intros [[= -> ->]|Hin]%elem_of_cons; [exists b; split; [by left|done]|].
    destruct (IH _ Hin) as (b0 & ? & ?). exists b0. split; [by right|done].
  - intros [= -> ->]%list_elem_of_singleton. exists b. destruct (shrunk_same n b) as (_ & Ht & Hp & Hr). split; [by left|]. by cbn.
Qed.

Lemma relen_dom n c : (relen n c).*1 = c.*1.
Proof. revert n. induction c as [|[p b] c IH]; intros n; [done|]. cbn [relen fmap list_fmap fst]. by rewrite <- (IH (n - len b)). Qed.
Lemma packet_app_r c1 c2 : packet (c1 ++ c2) -> packet c2.
Proof. induction c1 as [|[p b] c1 IH]; [done|]. cbn [app packet]. intros (_ & _ & ?). by apply IH. Qed.

(** Where the cut is. *)
Lemma cut_point n c : c <> [] -> 0 <= n <= data_len c -> packet c -> exists c1 q b,
  c = c1 ++ (q, b) :: dropped n c /\ trimmed n c = relen n c1 ++ [(q, cut (n - data_len c1) b)] /\
  0 <= n - data_len c1 <= len b /\ (c1 = [] \/ 0 < n - data_len c1).
Proof.
  revert n. induction c as [|[p b] c IH]; intros n Hne Hn Hp; [done|]. cbn [packet trimmed dropped data_len] in *. destruct Hp as (_ & Hb & Hp).
  destruct (Z.ltb_spec (len b) n).
  - assert (c <> []) as Hc by (intros ->; cbn in Hn; lia). destruct (IH (n - len b) Hc ltac:(lia) Hp) as (c1 & q & b0 & Hd & Ht & Hr & Hpos).
    exists ((p, b) :: c1), q, b0. cbn [relen app data_len]. rewrite Ht, <- Hd.
    replace (n - (len b + data_len c1)) with (n - len b - data_len c1) by lia. do 3 (split; [done|]). right.
    destruct Hpos as [->|]; [cbn; lia|done].
  - exists [], p, b. cbn [relen app data_len]. rewrite Z.sub_0_r. do 2 (split; [done|]). split; [lia|by left].
Qed.

Lemma chain_app m p c1 c2 : chain m p (c1 ++ c2) ->
  exists p', chain m p' c2 /\ (forall m', chain m' p' c2 -> (forall x, x ∈ c1.*1 -> m' !! x = m !! x) -> chain m' p (c1 ++ c2)).
Proof.
  revert p. induction c1 as [|[q b] c1 IH]; intros p; cbn [app chain].
  - intros Hc. by exists p.
  - intros (-> & Hq & Hc). destruct (IH _ Hc) as (p' & Hp' & Hk). exists p'. split; [done|]. intros m' Hm Hx.
    split; [done|]. split; [rewrite Hx; [done|by left]|]. apply Hk; [done|]. intros x Hin. apply Hx. by right.
Qed.

Lemma wp_realloc_walk grow q b bk l : forall c1 p n rem s (Q : ptr * Z -> net -> Prop),
  net_ok s l -> chain (pbufs s) (Some p) (c1 ++ (q, b) :: bk) -> NoDup (c1 ++ (q, b) :: bk).*1 -> packet (c1 ++ (q, b) :: bk) ->
  n = data_len c1 + rem -> 0 <= rem <= len b -> c1 = [] \/ 0 < rem ->
  data_len (c1 ++ (q, b) :: bk) + grow = n -> data_len (c1 ++ (q, b) :: bk) < 65536 ->
  (net_ok (set_pbufs (overwrite (relen n c1) (pbufs s)) s) l -> Q (q, rem) (set_pbufs (overwrite (relen n c1) (pbufs s)) s)) ->
  wp (iter_nat (S (length c1)) (realloc_walk_body grow) (p, n)) (ends Q) s.
Proof.
  induction c1 as [|[x bx] c1 IH]; intros p n rem s Q Hok Hc Hnd Hp Hn Hrem Hpos Hgrow Hmax HQ; apply wp_iter_S; cbn [realloc_walk_body].
  - cbn [app data_len] in *. destruct Hc as ([= ->] & Hq & _). replace n with rem by lia. apply wp_bind, (wp_get_pbuf _ b); [done|].
    rewrite (proj2 (Z.ltb_ge _ _)) by lia. apply wp_ret. replace s with (set_pbufs (pbufs s) s) by by destruct s. apply HQ. by destruct s.
  - cbn [app data_len packet] in *. destruct Hc as ([= ->] & Hx & Hc). destruct Hp as (Ht & Hbx & Hp).
    apply nodup_cons in Hnd as [Hxc Hnd]. cbn [fst] in Hxc. destruct Hpos as [|Hpos]; [done|].
    pose proof (packet_pos _ Hp) as Hdp. rewrite data_len_app in *. cbn [data_len] in *.
    assert (Hdc : 0 <= data_len bk) by (apply packet_app_r in Hp; destruct Hp as (_ & _ & Hp); by apply packet_pos).
    assert (0 <= data_len c1) as Hd1.
    { clear -Hp. induction c1 as [|[y by0] c1 IH]; cbn in *; [lia|]. destruct Hp as (_ & ? & Hp). specialize (IH Hp). lia. }
    destruct (nok_home _ _ Hok _ _ Hx) as (_ & Hfit & Href).
    assert (Htot : u16 (tot_len bx + grow) = n) by (unfold u16; rewrite Z.mod_small; lia).
    apply wp_bind, (wp_get_pbuf _ bx); [done|]. rewrite (proj2 (Z.ltb_lt _ _)) by lia. apply wp_bind, wp_put_pbuf. rewrite Htot.
    assert (exists y, next bx = Some y) as [y Hy] by (destruct c1 as [|[y by0] c1]; cbn in Hc; destruct Hc as (-> & _); eauto).
    rewrite Hy in *. apply wp_ret. rewrite u16_small by lia. apply (IH y _ rem); cbn [pbufs set_pbufs].
    + apply (net_ok_update _ _ _ bx); done.
    + eapply chain_frame; [|exact Hc]. intros z Hz. apply lookup_insert_ne. by intros ->.
    + done.
    + done.
    + lia.
    + done.
    + by right.
    + lia.
    + lia.
    + exact HQ.
Qed.

(** ** A block that is shrunk *)
Lemma spans_shrink p size n l : 0 <= size -> size + 8 <= n -> exists k, size <= k /\
  spans p (shrink size n l) = (p + SIZEOF_STRUCT_MEM, k) :: spans (p + n) l.
Proof.
  intros Hs Hn. unfold shrink. destruct (Z.eqb_spec (n - 8) size); [by exists (n - SIZEOF_STRUCT_MEM); subst|].
  assert (Hkeep : forall l, exists k, size <= k /\
    spans p (if size + 28 <=? n then (size + 8, true) :: (n - (size + 8), false) :: l else (n, true) :: l) =
    (p + SIZEOF_STRUCT_MEM, k) :: spans (p + n) l).
  { intros l'. change SIZEOF_STRUCT_MEM with 8. destruct (_ <=? _); cbn [spans app]; change SIZEOF_STRUCT_MEM with 8.
    - exists (size + 8 - 8). replace (p + (size + 8) + (n - (size + 8))) with (p + n) by lia. split; [lia|done].
    - exists (n - 8). split; [lia|done]. }
  destruct l as [|[k []] l]; [apply Hkeep|apply Hkeep|]. cbn [spans app]. change SIZEOF_STRUCT_MEM with 8.
  exists (size + 8 - 8). replace (p + (size + 8) + (n + k - (size + 8))) with (p + n + k) by lia. split; [lia|done].
Qed.
Lemma in_data_shrink p size n l x : 0 <= size -> size + 8 <= n -> in_data p (shrink size n l) x -> in_data p ((n, true) :: l) x.
Proof.
  intros Hs Hn. unfold shrink. destruct (_ =? _); [done|]. destruct l as [|[k []] l].
  - destruct (_ <=? _); [|done]. cbn [in_data]. intros [[_ ?]|[[? _]|?]]; [left; lia|done|done].
  - destruct (_ <=? _); [|done]. cbn [in_data]. intros [[_ ?]|[[? _]|Hx]]; [left; lia|done|right].
    by replace (p + (size + 8) + (n - (size + 8))) with (p + n) in Hx by lia.
  - cbn [in_data]. intros [[_ ?]|[[? _]|Hx]]; [left; lia|done|right; right].
    by replace (p + (size + 8) + (n + k - (size + 8))) with (p + n + k) in Hx by lia.
Qed.
Lemma in_data_ext l1 l2 l2' x : (in_data (total l1) l2 x -> in_data (total l1) l2' x) -> in_data 0 (l1 ++ l2) x -> in_data 0 (l1 ++ l2') x.
Proof. intros Hl. rewrite !in_data_app, Z.add_0_l. tauto. Qed.

(** The bytes of the block that a pointer points to. *)
Lemma span_in_data p l i k x : (i, k) ∈ spans p l -> i <= x < i + k -> in_data p l x.
Proof.
  revert p. induction l as [|[n u] l IH]; intros p; cbn [spans in_data]; [by intros ?%elem_of_nil|].
  intros [Hi|Hi]%elem_of_app Hx; [|right; by eapply IH]. destruct u; [|by apply elem_of_nil in Hi].
  apply list_elem_of_singleton in Hi as [= -> ->]. left. split; [done|lia].
Qed.

(** ** The pbuf in which the cut is *)

(** [b] in its new memory. *)
Lemma net_ok_room s l l' h' p b b' i : net_ok s l -> pbufs s !! p = Some b -> p = InHeap i -> heap_ok h' l' ->
  (forall j k, (j, k) ∈ spans 0 l -> exists k', (j, k') ∈ spans 0 l' /\ if j =? i then SIZEOF_STRUCT_PBUF + room b' <= k' else k' = k) ->
  type b' = type b -> fits b' -> ref b' = ref b ->
  net_ok (set_pbufs (<[p := b']> (pbufs s)) (set_heap h' s)) l'.
Proof.
  intros Hok Hp -> Hh Hs Ht Hf Hr. split; cbn [net_heap pbufs memp_tab set_pbufs set_heap]; [done| |apply (nok_nodup _ _ Hok)|].
  - intros t j Hne. rewrite (nok_free _ _ Hok) by done. by rewrite lookup_insert_ne.
  - intros q c [[<- <-]|[Hne Hc]]%lookup_insert_Some.
    + destruct (nok_home _ _ Hok _ _ Hp) as ((Hty & k & Hk & _) & _ & Href). rewrite Hr. split; [|done]. split; [by rewrite Ht|].
      destruct (Hs _ _ Hk) as (k' & Hk' & Hroom). rewrite Z.eqb_refl in Hroom. by exists k'.
    + destruct (nok_home _ _ Hok _ _ Hc) as [Hq Hrest]. split; [|done]. destruct q as [j|t j]; cbn [home] in *; [|done].
      destruct Hq as (? & k & Hk & ?). split; [done|]. destruct (Hs _ _ Hk) as (k' & Hk' & Hroom). exists k'.
      rewrite (proj2 (Z.eqb_neq _ _)) in Hroom by congruence. by subst k'.
Qed.

Definition owns_payload (b : pbuf) : Prop := type b = PBUF_RAM \/ type b = PBUF_POOL -> is_Some (payload b).
Definition cut_here (rem : Z) (b : pbuf) : pbuf := with_tot_len rem (with_len rem (shrunk rem b)).

(** The smaller layout: what is still data was data, and nobody else's moved. *)
Record smaller (s : net) (l : list block) (h' : heap) (l' : list block) : Prop := {
  sml_data : forall x, in_data 0 l' x -> in_data 0 l x /\ ram h' x = ram (net_heap s) x;
  sml_pointers : pointers 0 l' = pointers 0 l
}.
Lemma smaller_refl s l : smaller s l (net_heap s) l.
Proof. by split. Qed.

Lemma wp_realloc_ram s l q b o rem (Q : unit -> net -> Prop) :
  net_ok s l -> pbufs s !! q = Some b -> type b = PBUF_RAM -> payload b = Some o -> 0 <= rem <= len b -> rem <> len b ->
  (forall h' l', net_ok (set_pbufs (<[q := cut_here rem b]> (pbufs s)) (set_heap h' s)) l' -> smaller s l h' l' ->
     Q tt (set_pbufs (<[q := with_room (o + rem) b]> (pbufs s)) (set_heap h' s))) ->
  wp (realloc_ram q b rem) Q s.
Proof.
  intros Hok Hq Ht Ho Hrem Hne HQ. destruct (nok_home _ _ Hok _ _ Hq) as (Hh & [Hl Hf] & _). rewrite Ho in Hf.
  destruct q as [i|t i]; [|by destruct Hh as [Hh _]; rewrite Ht in Hh]. destruct Hh as (_ & k & Hk & Hroom).
  destruct (span_block _ _ _ _ Hk) as (l1 & l2 & -> & Hi). change SIZEOF_STRUCT_MEM with 8 in *. change SIZEOF_STRUCT_PBUF with 16 in *.
  pose proof (laid_block _ _ _ _ _ (ok_laid _ _ (nok_heap _ _ Hok))) as (Hp1 & Hn & He & _). change MEM_SIZE_ALIGNED with 20480 in *.
  pose proof (ok_aligned _ _ (nok_heap _ _ Hok)) as Hal. apply Forall_app in Hal as [_ [Hal _]%Forall_cons_1]. cbn [fst] in Hal. change MEM_ALIGNMENT with 4 in Hal.
  set (size0 := 16 + o + rem) in *. assert (Hs0 : 16 <= size0 <= 65532) by lia.
  destruct (block_size_spec size0 ltac:(lia)) as (Hb1 & Hb2 & Hb4).
  assert (Hbk : block_size size0 <= k).
  { unfold block_size. rewrite align_size. unfold u16. change MIN_SIZE_ALIGNED with 12.
    rewrite Z.mod_small by (Z.div_mod_to_equations; lia). destruct (_ <? 12); Z.div_mod_to_equations; lia. }
  unfold realloc_ram. rewrite Ho. change SIZEOF_STRUCT_PBUF with 16. fold size0. rewrite u16_small by lia.
  replace i with (total l1 + 8) by lia. apply wp_bind, wp_on_heap, (wp_mem_realloc _ _ _ _ _ _ (nok_heap _ _ Hok)); [lia|].
  rewrite (proj2 (Z.ltb_ge _ _)) by lia. intros h' Hh' Hd. apply wp_put_pbuf. replace (total l1 + 8) with i by lia.
  destruct (spans_shrink (total l1) (block_size size0) (k + 8) l2) as (k' & Hk' & Hsp); [lia|lia|]. change SIZEOF_STRUCT_MEM with 8 in Hsp.
  apply (HQ h' (l1 ++ shrink (block_size size0) (k + 8) l2)).
  - eapply (net_ok_room s _ _ h' _ b _ i); [exact Hok|exact Hq|done|exact Hh'| | | |]; [|by cbn; apply shrunk_same| |by cbn; apply shrunk_same].
    + intros j m Hj. destruct (Z.eqb_spec j i) as [->|Hji].
      * exists k'. rewrite spans_app, Z.add_0_l, Hsp. split; [apply elem_of_app; right; replace i with (total l1 + 8) by lia; by left|].
        unfold cut_here, shrunk. rewrite Ht, Ho, (proj2 (Z.eqb_neq _ _)) by done. change SIZEOF_STRUCT_PBUF with 16. cbn. lia.
      * exists m. split; [|done]. rewrite spans_app, Z.add_0_l in Hj |- *. cbn [spans app] in Hj. rewrite Hsp. change SIZEOF_STRUCT_MEM with 8 in Hj.
        apply elem_of_app. apply elem_of_app in Hj as [Hj|Hj]; [by left|right]. apply elem_of_cons in Hj as [[= Ej Em]|Hj]; [lia|by right].
    + unfold cut_here, shrunk. rewrite Ht, Ho, (proj2 (Z.eqb_neq _ _)) by done. split; cbn; [lia|]. rewrite Ho. lia.
  - split.
    + intros x Hx. split; [|by apply Hd]. eapply in_data_ext; [|exact Hx]. apply in_data_shrink; lia.
    + unfold pointers. rewrite !spans_app, Z.add_0_l, Hsp. cbn [spans app]. change SIZEOF_STRUCT_MEM with 8.
      rewrite !fmap_app. cbn [fmap list_fmap fst]. done.
Qed.

(** ** The whole operation *)

(** What pbuf_realloc leaves of the packet [c], with the heap laid out as [l] before
    and as [l'] after. *)
Record cut_to (n : Z) (p : ptr) (c : list (ptr * pbuf)) (s s' : net) (l l' : list block) : Prop := {
  cut_chain : chain (pbufs s') (Some p) (trimmed n c);
  cut_gone : forall q, q ∈ (dropped n c).*1 -> pbufs s' !! q = None;
  cut_others : forall q, q ∉ c.*1 -> pbufs s' !! q = pbufs s !! q;
  cut_ok : net_ok s' l';
  cut_bytes : forall q b x, pbufs s' !! q = Some b -> 0 <= x < room b -> bytes_at s' q x = bytes_at s q x;
  cut_pools : same_pools s s';
  cut_pointers : pointers 0 l ≡ₚ heap_ptrs (dropped n c).*1 ++ pointers 0 l'
}.

Lemma overwrite_in c m x b : NoDup c.*1 -> (x, b) ∈ c -> overwrite c m !! x = Some b.
Proof.
  revert m. induction c as [|[y by0] c IH]; intros m; [by intros _ ?%elem_of_nil|]. cbn [fmap list_fmap fst overwrite].
  intros [Hy Hnd]%nodup_cons [[= -> ->]|Hin]%elem_of_cons; [|by apply IH].
  rewrite overwrite_other by done. apply lookup_insert_eq.
Qed.

(** The links of a packet that is cut. *)
Lemma chain_trimmed m m' n c : forall p, chain m p c -> c <> [] -> 0 <= n <= data_len c -> packet c ->
  (forall x b, (x, b) ∈ trimmed n c -> m' !! x = Some b) -> chain m' p (trimmed n c).
Proof.
  revert n. induction c as [|[q b] c IH]; intros n p Hc Hne Hn Hp Hm; [done|]. cbn [chain trimmed data_len packet] in *.
  destruct Hc as (-> & _ & Hc), Hp as (_ & Hb & Hp). destruct (Z.ltb_spec (len b) n); cbn [chain].
  - split; [done|]. split; [apply Hm; by left|]. assert (c <> []) by (intros ->; cbn in Hn; lia).
    apply IH; [done|done|lia|done|]. intros x bx Hx. apply Hm. by right.
  - split; [done|]. split; [apply Hm; by left|]. done.
Qed.

(** The pbufs after the last store. *)
Definition cut_map (n rem : Z) (q : ptr) (b : pbuf) (c1 bk : list (ptr * pbuf)) (m : gmap ptr pbuf) : gmap ptr pbuf :=
  <[q := cut rem b]> (free_chain bk (<[q := cut_here rem b]> (overwrite (relen n c1) m))).
Lemma cut_map_lookup n rem q b c1 bk m (c := c1 ++ (q, b) :: bk) : NoDup c.*1 -> Forall (fun x => ref (snd x) = 1) bk ->
  (forall x bx, (x, bx) ∈ relen n c1 ++ [(q, cut rem b)] -> cut_map n rem q b c1 bk m !! x = Some bx) /\
  (forall x, x ∈ bk.*1 -> cut_map n rem q b c1 bk m !! x = None) /\
  (forall x, x ∉ c.*1 -> cut_map n rem q b c1 bk m !! x = m !! x).
Proof.
  subst c. rewrite fmap_app. cbn [fmap list_fmap fst]. intros (Hn1 & Hdis & [Hqb Hnb]%nodup_cons)%list.NoDup_app Href. unfold cut_map.
  assert (Hq1 : q ∉ c1.*1) by (intros Hin; apply (Hdis _ Hin); by left). split_and!.
  - intros x bx [Hx|[= -> ->]%list_elem_of_singleton]%elem_of_app; [|apply lookup_insert_eq].
    assert (x ∈ c1.*1) as Hin by (rewrite <- (relen_dom n); apply list_elem_of_fmap; by exists (x, bx)).
    rewrite lookup_insert_ne by congruence. rewrite free_chain_all, decide_False by (done || intros Hb; apply (Hdis _ Hin); by right).
    rewrite lookup_insert_ne by congruence. apply overwrite_in; [by rewrite relen_dom|done].
  - intros x Hx. rewrite lookup_insert_ne by congruence. by rewrite free_chain_all, decide_True.
  - intros x [H1 [Hxq Hxb]%not_elem_of_cons]%not_elem_of_app. rewrite lookup_insert_ne by done. rewrite free_chain_all, decide_False by done.
    rewrite lookup_insert_ne by done. apply overwrite_other. by rewrite relen_dom.
Qed.

(** No byte that is still in use changes. *)
Lemma cut_keeps_bytes c s1 s2 s3 s4 l l2 q b x : net_pool s2 = net_pool s1 -> smaller s1 l (net_heap s2) l2 -> freed c s2 l2 s3 ->
  net_pool s4 = net_pool s3 -> net_heap s4 = net_heap s3 -> net_ok s4 (release_all (dead c) l2) ->
  pbufs s4 !! q = Some b -> 0 <= x < room b -> bytes_at s4 q x = bytes_at s1 q x.
Proof.
  intros Hp2 Hsm Hf Hp4 Hh4 Hok Hb Hx. destruct (nok_home _ _ Hok _ _ Hb) as (Hh & _). destruct q as [i|t i]; cbn [bytes_at home] in *.
  - destruct Hh as (_ & k & Hk & Hroom). change SIZEOF_STRUCT_PBUF with 16 in *.
    assert (in_data 0 (release_all (dead c) l2) (i + 16 + x)) as Hin by (eapply span_in_data; [exact Hk|lia]).
    rewrite Hh4, (freed_heap _ _ _ _ Hf) by done. apply (freed_sub _ _ _ _ Hf) in Hin. by destruct (sml_data _ _ _ _ Hsm _ Hin) as [_ ->].
  - by rewrite Hp4, (freed_pool _ _ _ _ Hf), Hp2.
Qed.

(** The pbuf of the cut, the free of the rest and the last store, in [s1]. *)
Definition realloc_end (q : ptr) (rem : Z) : M net unit :=
  b ← get_pbuf q;
  _ ← (if bool_decide (type b = PBUF_RAM) && negb (rem =? len b) then realloc_ram q b rem else mret tt);
  _ ← upd_pbuf q (fun b => with_tot_len rem (with_len rem b));
  _ ← (match next b with Some n => _ ← pbuf_free (Some n); mret tt | None => mret tt end);
  upd_pbuf q (with_next None).

Lemma wp_free_rest p c s l (Q : unit -> net -> Prop) : net_ok s l -> chain (pbufs s) p c -> NoDup c.*1 ->
  (forall s', freed c s l s' -> Q tt s') ->
  wp (match p with Some n => _ ← pbuf_free (Some n); mret tt | None => mret tt end) Q s.
Proof.
  intros Hok Hc Hnd HQ. assert (wp (_ ← pbuf_free p; mret tt) Q s) as Hw.
  { apply wp_bind, (wp_pbuf_free p c _ l); [done..|]. intros s' Hf. by apply wp_ret, HQ. }
  by destruct p.
Qed.

Lemma wp_realloc_end q b bk rem s l (Q : unit -> net -> Prop) :
  net_ok s l -> pbufs s !! q = Some b -> owns_payload b -> 0 <= rem <= len b -> chain (pbufs s) (next b) bk ->
  NoDup (q :: bk.*1) ->
  (forall h' l2 s3 (s2 := set_pbufs (<[q := cut_here rem b]> (pbufs s)) (set_heap h' s)), smaller s l h' l2 -> freed bk s2 l2 s3 ->
     net_ok (set_pbufs (<[q := cut rem b]> (pbufs s3)) s3) (release_all (dead bk) l2) ->
     (q ∉ bk.*1) -> Q tt (set_pbufs (<[q := cut rem b]> (pbufs s3)) s3)) ->
  wp (realloc_end q rem) Q s.
Proof.
  intros Hok Hq Hpay Hrem Hc [Hqb Hnd]%nodup_cons HQ. apply wp_bind, (wp_get_pbuf _ b); [done|].
  destruct (nok_home _ _ Hok _ _ Hq) as (_ & Hfit & Href).
  assert (Hend : forall h' l2 (s2 := set_pbufs (<[q := cut_here rem b]> (pbufs s)) (set_heap h' s)), smaller s l h' l2 -> net_ok s2 l2 ->
    wp (_ ← (match next b with Some n => _ ← pbuf_free (Some n); mret tt | None => mret tt end); upd_pbuf q (with_next None)) Q s2).
  { intros h' l2 s2 Hsm Hok2. apply wp_bind, (wp_free_rest _ bk _ l2); [done| |done|].
    - eapply chain_frame; [|exact Hc]. intros x Hx. apply lookup_insert_ne. by intros ->.
    - intros s3 Hf. assert (Hq2 : pbufs s2 !! q = Some (cut_here rem b)) by apply lookup_insert_eq.
      assert (Hq3 : pbufs s3 !! q = Some (cut_here rem b)) by by rewrite (freed_pbufs _ _ _ _ Hf), free_chain_other.
      apply wp_bind, (wp_get_pbuf _ _ _ _ Hq3), wp_put_pbuf. apply (HQ h' l2 s3); [exact Hsm|exact Hf| |done].
      destruct (nok_home _ _ Hok2 _ _ Hq2) as (_ & Hf2 & Hr2). apply (net_ok_update _ _ _ _ (cut rem b) (freed_ok _ _ _ _ Hf) Hq3); done. }
  assert (Hplain : shrunk rem b = b -> wp (_ ← upd_pbuf q (fun b => with_tot_len rem (with_len rem b));
    _ ← (match next b with Some n => _ ← pbuf_free (Some n); mret tt | None => mret tt end); upd_pbuf q (with_next None)) Q s).
  { intros Hsh. apply wp_bind, wp_bind, (wp_get_pbuf _ b); [done|]. apply wp_put_pbuf. unfold cut_here in Hend. rewrite Hsh in Hend.
    apply (Hend (net_heap s) l (smaller_refl _ _)). apply (net_ok_update s _ _ b); try done.
    destruct Hfit as [_ Hfit]. split; cbn; [lia|]. destruct (payload b); [lia|done]. }
  destruct (bool_decide_reflect (type b = PBUF_RAM)) as [Ht|Ht]; cbn [andb]; [destruct (Z.eqb_spec rem (len b)) as [Hr|Hr]; cbn [negb]|].
  - apply wp_bind, wp_ret, Hplain. unfold shrunk. rewrite (proj2 (Z.eqb_eq _ _)) by done. by destruct (type b), (payload b).
  - destruct (Hpay (or_introl Ht)) as [o Ho]. apply wp_bind, (wp_realloc_ram _ l _ _ o); [done..|]. intros h' l2 Hok2 Hsm.
    apply wp_bind, wp_bind, (wp_get_pbuf _ (with_room (o + rem) b)); [apply lookup_insert_eq|]. apply wp_put_pbuf.
    cbn [pbufs set_pbufs set_heap]. rewrite insert_insert_eq.
    replace (with_room (o + rem) b) with (shrunk rem b) by (unfold shrunk; by rewrite Ht, Ho, (proj2 (Z.eqb_neq _ _))). by apply (Hend h' l2).
  - apply wp_bind, wp_ret, Hplain. unfold shrunk. by destruct (type b).
Qed.

(** The packets of one owner. *)
Definition sole (c : list (ptr * pbuf)) : Prop := Forall (fun x => ref (snd x) = 1 /\ owns_payload (snd x)) c.
Lemma sole_refs c : sole c -> Forall (fun x => ref (snd x) = 1) c.
Proof. apply Forall_impl. by intros x []. Qed.

Lemma wp_pbuf_realloc p c n s l (Q : unit -> net -> Prop) :
  net_ok s l -> chain (pbufs s) (Some p) c -> NoDup c.*1 -> packet c -> sole c -> 0 <= n -> data_len c < 65536 ->
  (data_len c <= n -> Q tt s) -> (n < data_len c -> forall s' l', cut_to n p c s s' l l' -> Q tt s') ->
  wp (pbuf_realloc p n) Q s.
Proof.
  intros Hok Hc Hnd Hp Hsole Hn Hmax Hsame Hcut. destruct c as [|[p' b0] c0] eqn:Ec; [done|]. rewrite <- Ec in *.
  assert (pbufs s !! p = Some b0 /\ tot_len b0 = data_len c) as [Hp0 Ht0].
  { subst c. destruct Hc as ([= ->] & ? & _), Hp as (? & _). split; [done|]. cbn [data_len]. lia. }
  apply wp_bind, (wp_get_pbuf _ b0); [done|]. rewrite Ht0. destruct (Z.leb_spec (data_len c) n) as [Hle|Hlt]; [by apply wp_ret, Hsame|].
  destruct (cut_point n c ltac:(by subst) ltac:(lia) Hp) as (c1 & q & b & Hsplit & Htrim & Hrem & Hpos).
  set (rem := n - data_len c1) in *. remember (dropped n c) as bk eqn:Hbk. clear Ec. pose proof Hsplit as Hc'. subst c. apply wp_bind, wp_gets, wp_bind, (wp_loop_nat (S (length c1))).
  { pose proof (chain_size _ _ _ Hc Hnd) as Hsz. rewrite length_app in Hsz. cbn in Hsz. lia. }
  apply (wp_realloc_walk _ q b bk l c1 p n rem); [done|done|done|done|lia|done|done|lia|done|]. intros Hok1. set (s1 := set_pbufs _ s) in *.
  pose proof Hnd as Hnd0. rewrite fmap_app in Hnd0. apply list.NoDup_app in Hnd0 as (_ & Hdis & Hnd2). cbn [fmap list_fmap fst] in Hdis, Hnd2.
  assert (Hs1 : forall x, x ∉ c1.*1 -> pbufs s1 !! x = pbufs s !! x) by (intros x Hx; apply overwrite_other; by rewrite relen_dom).
  destruct (chain_app _ _ _ _ Hc) as (p2 & (-> & Hq & Hcb) & _).
  apply Forall_app in Hsole as [_ [[_ Hpay] Hsb]%Forall_cons_1]. cbn [snd] in Hpay.
  fold (realloc_end q rem). apply (wp_realloc_end q b bk rem s1 l); [done| |done|done| |done|].
  - rewrite Hs1; [done|]. intros Hx. apply (Hdis _ Hx). by left.
  - eapply chain_frame; [|exact Hcb]. intros x Hx. apply Hs1. intros Hx1. apply (Hdis _ Hx1). by right.
  - intros h' l2 s3 s2 Hsm Hf Hok4 Hqb. apply (Hcut ltac:(lia) _ (release_all (dead bk) l2)).
    destruct (cut_map_lookup n rem q b c1 bk (pbufs s) Hnd (sole_refs _ Hsb)) as (Hin & Hgone & Hother).
    assert (Hmap : <[q := cut rem b]> (pbufs s3) = cut_map n rem q b c1 bk (pbufs s)) by (unfold cut_map; by rewrite (freed_pbufs _ _ _ _ Hf)).
    split; rewrite <- ?Hbk; cbn [pbufs set_pbufs]; rewrite ?Hmap; [|done|done|by rewrite <- Hmap| | |].
    + apply (chain_trimmed (pbufs s)); [done|by destruct c1|lia|done|]. rewrite Htrim. exact Hin.
    + intros x bx y Hx Hy. rewrite <- Hmap in Hx |- *.
      apply (cut_keeps_bytes bk s1 s2 s3 (set_pbufs (<[q := cut rem b]> (pbufs s3)) s3) l l2 x bx y); done.
    + intros u Hu. apply (freed_pcbs _ _ _ _ Hf u Hu).
    + rewrite <- (sml_pointers _ _ _ _ Hsm), (freed_pointers _ _ _ _ Hf), dead_all by by apply sole_refs. done.
Qed.

Lemma data_of_cut s s' p b n : 0 <= n <= len b -> fits b -> is_Some (payload b) ->
  (forall x, 0 <= x < room (cut n b) -> bytes_at s' p x = bytes_at s p x) ->
  data_of s' p (cut n b) = firstn (Z.to_nat n) (data_of s p b).
Proof.
  intros Hn [_ Hf] [o Ho] Hb. rewrite Ho in Hf. unfold data_of. destruct (shrunk_same n b) as (_ & _ & Hpay & _).
  assert (payload (cut n b) = Some o) as -> by by rewrite <- Ho, <- Hpay. rewrite Ho.
  assert (Hroom : o + n <= room (cut n b)).
  { unfold cut, shrunk. rewrite Ho. destruct (type b); [destruct (n =? len b)|..]; cbn; lia. }
  apply list_eq. intros j. change (len (cut n b)) with n. destruct (decide (j < Z.to_nat n)%nat).
  - rewrite lookup_take_lt, !list_lookup_fmap, !lookup_seq_lt by lia. cbn [fmap option_fmap option_map]. rewrite Hb; [done|lia].
  - rewrite lookup_take_ge by lia. apply lookup_ge_None. rewrite length_fmap, length_seq. lia.
Qed.

Lemma contents_trimmed s s' n c : 0 <= n <= data_len c -> packet c -> readable c ->
  (forall q b x, (q, b) ∈ trimmed n c -> 0 <= x < room b -> bytes_at s' q x = bytes_at s q x) ->
  contents s' (trimmed n c) = firstn (Z.to_nat n) (contents s c).
Proof.
  revert n. induction c as [|[p b] c IH]; intros n Hn Hp Hr Hb; cbn [trimmed contents data_len packet] in *; [by rewrite take_nil|].
  apply Forall_cons_1 in Hr as [[Hfit Hpay] Hr]. destruct Hp as (_ & Hlb & Hp). cbn [snd] in *.
  pose proof (data_of_length s p b Hfit Hpay) as Hdl. destruct (Z.ltb_spec (len b) n); cbn [contents].
  - rewrite take_app_ge by lia. rewrite Hdl. replace (Z.to_nat n - Z.to_nat (len b))%nat with (Z.to_nat (n - len b)) by lia.
    rewrite <- IH; [|lia|done|done|intros q bq x Hq; apply Hb; by right]. f_equal. destruct Hpay as [o Ho]. destruct Hfit as [_ Hfit]. rewrite Ho in Hfit.
    unfold data_of. cbn [payload with_tot_len len]. rewrite Ho. apply list_fmap_ext. intros j k [Hj Hk]%lookup_seq.
    apply (Hb p (with_tot_len n b)); [by left|cbn; lia].
  - rewrite take_app_le by lia. rewrite app_nil_r. apply data_of_cut; [lia|done|done|]. intros x. apply Hb. by left.
Qed.

(** pbuf_realloc cuts a packet that has one owner to its first [n] bytes: the
    pbufs behind the cut are freed, the heap block of the pbuf in which the cut is
    shrinks, the total lengths are right again, no byte that is kept moves and no
    other pbuf changes.  A packet that is not longer stays as it is. *)
Theorem pbuf_realloc_trims (s : net) (l : list block) (p : ptr) (c : list (ptr * pbuf)) (n : Z) :
  net_ok s l -> chain (pbufs s) (Some p) c -> NoDup c.*1 -> packet c -> sole c -> readable c -> 0 <= n -> data_len c < 65536 ->
  wp (pbuf_realloc p n) (fun _ s' =>
    if data_len c <=? n then s' = s
    else packet (trimmed n c) /\ data_len (trimmed n c) = n /\ contents s' (trimmed n c) = firstn (Z.to_nat n) (contents s c) /\
      exists l', cut_to n p c s s' l l') s.
Proof.
  intros Hok Hc Hnd Hp Hsole Hr Hn Hmax. apply (wp_pbuf_realloc p c n s l); [done..| |].
  - intros Hle. by rewrite (proj2 (Z.leb_le _ _)).
  - intros Hlt s' l' Hcut. rewrite (proj2 (Z.leb_gt _ _)) by done. split; [apply trimmed_packet; [done|lia]|].
    split; [apply trimmed_len; lia|]. split; [|by exists l']. apply contents_trimmed; [lia|done|done|].
    intros q b x Hq. apply (cut_bytes _ _ _ _ _ _ _ Hcut). by apply (chain_in _ _ _ _ _ (cut_chain _ _ _ _ _ _ _ Hcut)).
Qed.

(** The packet a, b of 200 bytes, cut to 130. *)
Lemma pbuf_realloc_trims_witness :
  wp (pbuf_realloc demo_a 130) (fun _ s' =>
    if data_len cat_head <=? 130 then s' = copy_net
    else packet (trimmed 130 cat_head) /\ data_len (trimmed 130 cat_head) = 130 /\
      contents s' (trimmed 130 cat_head) = firstn (Z.to_nat 130) (contents copy_net cat_head) /\
      exists l', cut_to 130 demo_a cat_head copy_net s' [(MEM_SIZE_ALIGNED, false)] l') copy_net.
Proof.
  apply (pbuf_realloc_trims copy_net [(MEM_SIZE_ALIGNED, false)] demo_a cat_head 130).
  - destruct cat_net_ok. by split.
  - by repeat split.
  - change (NoDup [demo_a; demo_b]). by apply (bool_decide_unpack _).
  - by cbn.
  - repeat (apply Forall_cons_2; [split; [done|by intros _; eexists]|]). apply Forall_nil_2.
  - repeat (apply Forall_cons_2; [split; [by split|by eexists]|]). apply Forall_nil_2.
  - lia.
  - cbn. lia.
Defined.

(** * Requests *)

(** What the protocols ask of the buffers; a number names one of the packets that
    are still held. *)
Inductive packet_request : Set :=
  | Alloc (layer : pbuf_layer) (length : Z) (t : pbuf_type)
  | Release (i : nat)
  | Append (i j : nat)
  | Trim (i : nat) (n : Z)
  | Header (i : nat) (h : Z).

(** A client looks at the lengths before it puts packets together or adds a header,
    and adds headers to packets with memory of their own only. *)
Definition serve_packet (held : list ptr) (r : packet_request) : M net (list ptr) :=
  match r with
  | Alloc layer length t =>
      p ← pbuf_alloc layer length t; mret (match p with Some p => p :: held | None => held end)
  | Release i =>
      match held !! i with Some p => _ ← pbuf_free (Some p); mret (delete i held) | None => mret held end
  | Append i j =>
      match held !! i, delete i held !! j with
      | Some h, Some t =>
          bh ← get_pbuf h; bt ← get_pbuf t;
          if tot_len bh + tot_len bt <? 65536 then _ ← pbuf_cat (Some h) (Some t); mret (h :: delete j (delete i held))
          else mret held
      | _, _ => mret held
      end
  | Trim i n => match held !! i with Some p => _ ← pbuf_realloc p n; mret held | None => mret held end
  | Header i h =>
      match held !! i with
      | Some p =>
          b ← get_pbuf p;
          if (bool_decide (type b = PBUF_RAM) || bool_decide (type b = PBUF_POOL)) && (tot_len b + h <? 65536) then
            _ ← pbuf_header (Some p) h; mret held
          else mret held
      | None => mret held
      end
  end.
Fixpoint serve_packets (held : list ptr) (rs : list packet_request) : M net (list ptr) :=
  match rs with [] => mret held | r :: rs => held ← serve_packet held r; serve_packets held rs end.
Definition sane_packet (r : packet_request) : Prop :=
  match r with Alloc _ length _ => 0 <= length <= 65460 | Trim _ n => 0 <= n | _ => True end.

(** * Ownership *)

(** The pbufs of the packets. *)
Definition pkts (ps : list (ptr * list (ptr * pbuf))) : list (ptr * pbuf) := List.concat ps.*2.
Lemma pkts_app ps1 ps2 : pkts (ps1 ++ ps2) = pkts ps1 ++ pkts ps2.
Proof. unfold pkts. by rewrite fmap_app, concat_app. Qed.

Definition well_formed (m : gmap ptr pbuf) (x : ptr * list (ptr * pbuf)) : Prop :=
  chain m (Some (fst x)) (snd x) /\ packet (snd x) /\ data_len (snd x) < 65536.

(** The packets [ps] are all there is: they are well formed and share no pbuf, and
    every pbuf and every block of the heap belongs to one of them. *)
Record owns (ps : list (ptr * list (ptr * pbuf))) (s : net) (l : list block) : Prop := {
  own_ok : net_ok s l;
  own_packets : Forall (well_formed (pbufs s)) ps;
  own_nodup : NoDup (pkts ps).*1;
  own_sole : sole (pkts ps);
  own_all : forall q, is_Some (pbufs s !! q) -> q ∈ (pkts ps).*1;
  own_heap : pointers 0 l ≡ₚ heap_ptrs (pkts ps).*1
}.

Lemma pkts_perm ps ps' : ps ≡ₚ ps' -> pkts ps ≡ₚ pkts ps'.
Proof.
  intros Hp. unfold pkts. induction Hp as [|x l l' Hp IH|x y l|]; cbn [fmap list_fmap List.concat]; [done|by rewrite IH| |by etransitivity].
  rewrite !app_assoc. f_equiv. apply Permutation_app_comm.
Qed.
Lemma owns_perm ps ps' s l : ps ≡ₚ ps' -> owns ps s l -> owns ps' s l.
Proof.
  intros Hp [H1 H2 H3 H4 H5 H6]. pose proof (pkts_perm _ _ Hp) as Hk. split; [done|by rewrite <- Hp|by rewrite <- Hk|by unfold sole; rewrite <- Hk| |].
  - intros q Hq. rewrite <- Hk. by apply H5.
  - unfold heap_ptrs in *. by rewrite <- Hk.
Qed.

(** The packets [old] become [new]. *)
Record turns (old new : list (ptr * list (ptr * pbuf))) (s s' : net) (l l' : list block) : Prop := {
  trn_ok : net_ok s' l';
  trn_packets : Forall (well_formed (pbufs s')) new;
  trn_nodup : NoDup (pkts new).*1;
  trn_sole : sole (pkts new);
  trn_fresh : forall q, q ∈ (pkts new).*1 -> q ∈ (pkts old).*1 \/ pbufs s !! q = None;
  trn_gone : forall q, q ∈ (pkts old).*1 -> q ∉ (pkts new).*1 -> pbufs s' !! q = None;
  trn_other : forall q, q ∉ (pkts old).*1 -> q ∉ (pkts new).*1 -> pbufs s' !! q = pbufs s !! q;
  trn_heap : heap_ptrs (pkts old).*1 ++ pointers 0 l' ≡ₚ heap_ptrs (pkts new).*1 ++ pointers 0 l
}.

Lemma heap_ptrs_app l1 l2 : heap_ptrs (l1 ++ l2) = heap_ptrs l1 ++ heap_ptrs l2.
Proof. apply omap_app. Qed.
Lemma well_formed_in m ps q : Forall (well_formed m) ps -> q ∈ (pkts ps).*1 -> is_Some (m !! q).
Proof.
  intros Hw (y & -> & Hy)%list_elem_of_fmap. unfold pkts in Hy. apply list_elem_of_In, in_concat in Hy as (c & Hc & Hy).
  apply list_elem_of_In, list_elem_of_fmap in Hc as ([p c'] & -> & Hc). rewrite list.Forall_forall in Hw. destruct (Hw _ Hc) as (Hch & _).
  exists (snd y). eapply (chain_in _ _ _ (fst y)); [exact Hch|]. destruct y. by apply list_elem_of_In.
Qed.

Lemma owns_turns old new ps s s' l l' : owns (old ++ ps) s l -> turns old new s s' l l' -> owns (new ++ ps) s' l'.
Proof.
  intros [H1 H2 H3 H4 H5 H6] [T1 T2 T3 T4 T5 T6 T7 T8]. rewrite pkts_app, fmap_app in *.
  apply list.NoDup_app in H3 as (Hno & Hdis & Hnp). apply Forall_app in H2 as [_ H2]. apply Forall_app in H4 as [_ H4].
  assert (Hnew : forall q, q ∈ (pkts ps).*1 -> q ∉ (pkts new).*1).
  { intros q Hq Hin. destruct (T5 q Hin) as [Ho|Hn]; [by apply (Hdis q)|]. destruct (well_formed_in _ _ _ H2 Hq) as [b Hb]. congruence. }
  split; rewrite ?pkts_app, ?fmap_app; [done| | | | |].
  - apply Forall_app. split; [done|]. rewrite list.Forall_forall in *. intros x Hx. destruct (H2 _ Hx) as (Hc & Hp & Hl). split; [|done].
    eapply chain_frame; [|exact Hc]. intros q Hq. assert (q ∈ (pkts ps).*1) as Hqp.
    { apply list_elem_of_fmap in Hq as (y & -> & Hy). apply list_elem_of_fmap. exists y. split; [done|]. apply list_elem_of_In, in_concat.
      exists (snd x). split; apply list_elem_of_In; [by apply list_elem_of_fmap_2|done]. }
    apply T7; [intros Ho; by apply (Hdis q)|by apply Hnew].
  - apply list.NoDup_app. split; [done|]. split; [|done]. intros q Hq Hp. by apply (Hnew q).
  - apply Forall_app. by split.
  - intros q Hq. apply elem_of_app. destruct (decide (q ∈ (pkts new).*1)) as [|Hqn]; [by left|right].
    destruct (decide (q ∈ (pkts old).*1)) as [Hqo|Hqo]; [rewrite (T6 q) in Hq by done; by destruct Hq|].
    rewrite T7 in Hq by done. apply H5 in Hq. by apply elem_of_app in Hq as [?|].
  - rewrite heap_ptrs_app in *. apply (Permutation_app_inv_l (heap_ptrs (pkts old).*1)). rewrite T8, H6.
    rewrite !app_assoc. f_equiv. apply Permutation_app_comm.
Qed.

(** * What the operations do to the packets *)
Lemma pkts_one p c : pkts [(p, c)] = c.
Proof. unfold pkts. cbn. apply app_nil_r. Qed.
Lemma pkts_two p c p' c' : pkts [(p, c); (p', c')] = c ++ c'.
Proof. unfold pkts. cbn. by rewrite app_nil_r. Qed.
Lemma one_packet m p c : chain m (Some p) c -> packet c -> data_len c < 65536 -> Forall (well_formed m) [(p, c)].
Proof. intros. apply Forall_cons_2; [done|by apply Forall_nil_2]. Qed.

Lemma alloc_turns t k p c s s' l l' : allocated t k p c s s' l l' -> k < 65536 -> Forall (fun x => owns_payload (snd x)) c ->
  turns [] [(p, c)] s s' l l'.
Proof.
  intros [Hc Hp Hl [Hnd Hnew Hrest _ _] Hok _ _ Hptr] Hk Hpay. split; rewrite ?pkts_one; try done.
  - by apply one_packet; [..|lia].
  - apply list.Forall_forall. intros x Hx. rewrite list.Forall_forall in Hnew, Hpay. split; [by apply Hnew|by apply Hpay].
  - intros q (x & -> & Hx)%list_elem_of_fmap. right. rewrite list.Forall_forall in Hnew. by apply Hnew.
  - by intros q ?%elem_of_nil.
  - intros q _. apply Hrest.
Qed.

Lemma free_turns p c s s' l : freed c s l s' -> sole c -> turns [(p, c)] [] s s' l (release_all (dead c) l).
Proof.
  intros [Hm Hok _ _ _ _ Hptr] Hs. pose proof (sole_refs _ Hs) as Hr. split; rewrite ?pkts_one; try done.
  - by constructor.
  - by apply Forall_nil_2.
  - by intros q ?%elem_of_nil.
  - intros q Hq _. by rewrite Hm, free_chain_all, decide_True.
  - intros q Hq _. by rewrite Hm, free_chain_all, decide_False.
  - cbn. rewrite dead_all in * by done. by rewrite Hptr.
Qed.

Lemma sole_retotal n t c : sole c -> sole (retotal n t c).
Proof.
  induction c as [|[p b] c IH]; [done|]. intros [[Hr Hp] Hc]%Forall_cons_1. destruct c as [|x c].
  - apply Forall_cons_2; [done|by apply Forall_nil_2].
  - apply Forall_cons_2; [done|by apply IH].
Qed.
Lemma cat_turns h t ch ct s s' l (c := retotal (data_len ct) t ch ++ ct) : chain (pbufs s') (Some h) c -> packet c ->
  c.*1 = (ch ++ ct).*1 -> net_ok s' l -> (forall q, q ∉ ch.*1 -> pbufs s' !! q = pbufs s !! q) ->
  NoDup (ch ++ ct).*1 -> sole ch -> sole ct -> data_len ch + data_len ct < 65536 ->
  turns [(h, ch); (t, ct)] [(h, c)] s s' l l.
Proof.
  intros Hc Hp Hdom Hok Hother Hnd Hsh Hst Hmax. split; rewrite ?pkts_one, ?pkts_two, ?Hdom; try done.
  - apply one_packet; [done..|]. unfold c. rewrite data_len_app, retotal_len. lia.
  - apply Forall_app. split; [by apply sole_retotal|done].
  - intros q Hq. by left.
  - intros q Hq _. rewrite fmap_app in Hq. apply not_elem_of_app in Hq as [Hq _]. by apply Hother.
Qed.

Lemma trim_turns n p c s s' l l' : cut_to n p c s s' l l' -> NoDup c.*1 -> packet c -> sole c -> 0 <= n < data_len c -> data_len c < 65536 ->
  turns [(p, c)] [(p, trimmed n c)] s s' l l'.
Proof.
  intros [Hc Hgone Hother Hok _ _ Hptr] Hnd Hp Hs Hn Hmax. pose proof (trimmed_dom n c) as Hdom. rewrite Hdom in Hnd.
  apply list.NoDup_app in Hnd as (Hnd & _ & _). split; rewrite ?pkts_one; try done.
  - apply one_packet; [done|by apply trimmed_packet; [|lia]|rewrite trimmed_len by lia; lia].
  - apply list.Forall_forall. intros [x b'] Hx. destruct (trimmed_in _ _ _ _ Hx) as (b & Hb & Ht & Hr & Hpay).
    unfold sole in Hs. rewrite list.Forall_forall in Hs. destruct (Hs _ Hb) as [Hrb Hpb]. cbn [snd] in *. split; [congruence|].
    unfold owns_payload in *. by rewrite Ht, Hpay.
  - intros q Hq. left. rewrite Hdom. apply elem_of_app. by left.
  - intros q Hq Hqn. apply Hgone. rewrite Hdom in Hq. by apply elem_of_app in Hq as [?|].
  - intros q Hq _. by apply Hother.
  - rewrite Hdom, heap_ptrs_app, Hptr, <- app_assoc. done.
Qed.

Lemma header_turns h p b o c s l (s' := set_pbufs (<[p := shifted h b]> (pbufs s)) s) : net_ok s l -> chain (pbufs s) (Some p) ((p, b) :: c) ->
  payload b = Some o -> - len b <= h <= o -> NoDup ((p, b) :: c).*1 -> packet ((p, b) :: c) -> sole ((p, b) :: c) -> tot_len b + h < 65536 ->
  turns [(p, (p, b) :: c)] [(p, (p, shifted h b) :: c)] s s' l l.
Proof.
  intros Hok (_ & Hb & Hc) Ho Hh Hnd (Ht & Hl & Hp) Hs Hmax. destruct (nok_home _ _ Hok _ _ Hb) as (_ & [_ Hf] & Hr). rewrite Ho in Hf.
  apply Forall_cons_1 in Hs as [[Hr1 Hpay] Hs]. pose proof Hnd as [Hpc _]%nodup_cons. cbn [snd fst] in *.
  split; rewrite ?pkts_one; try done.
  - apply (net_ok_update _ _ _ b); try done. unfold fits, shifted. cbn. rewrite Ho. cbn. lia.
  - apply one_packet.
    + cbn [chain shifted next with_payload with_len with_tot_len]. split; [done|]. split; [apply lookup_insert_eq|].
      eapply chain_frame; [|exact Hc]. intros q Hq. apply lookup_insert_ne. by intros ->.
    + cbn [packet len tot_len shifted with_payload with_len with_tot_len]. split; [lia|]. split; [lia|done].
    + cbn [data_len len shifted with_payload with_len with_tot_len]. lia.
  - apply Forall_cons_2; [|done]. split; [done|]. intros Hty. cbn. rewrite Ho. by eexists.
  - intros q Hq. by left.
  - intros q Hq _. apply not_elem_of_cons in Hq as [Hq _]. by apply lookup_insert_ne.
Qed.

(** * Every sequence of requests *)

(** The client holds the packets [ps]. *)
Definition holds (held : list ptr) (s : net) : Prop := exists ps l, held ≡ₚ ps.*1 /\ owns ps s l.

Lemma pick held (ps : list (ptr * list (ptr * pbuf))) i p : held ≡ₚ ps.*1 -> held !! i = Some p ->
  exists c (ps' : list (ptr * list (ptr * pbuf))), ps ≡ₚ (p, c) :: ps' /\ delete i held ≡ₚ ps'.*1.
Proof.
  intros Hh Hi. assert (p ∈ ps.*1) as ([p' c] & -> & Hin)%list_elem_of_fmap by (rewrite <- Hh; by eapply list_elem_of_lookup_2).
  apply elem_of_Permutation in Hin as (ps' & Hps). exists c, ps'. split; [done|]. cbn [fst] in *.
  apply (Permutation.Permutation_cons_inv (a := p')). rewrite <- (delete_Permutation _ _ _ Hi), Hh. by rewrite Hps.
Qed.
(** The packets in front of the list. *)
Lemma owned_head p c ps s l : owns ((p, c) :: ps) s l ->
  chain (pbufs s) (Some p) c /\ packet c /\ data_len c < 65536 /\ NoDup c.*1 /\ sole c.
Proof.
  intros [_ [(? & ? & ?) _]%Forall_cons_1 Hnd Hs _ _]. unfold pkts in *. cbn in *. rewrite fmap_app in Hnd.
  apply list.NoDup_app in Hnd as (? & _). apply Forall_app in Hs as [? _]. done.
Qed.
Lemma owned_two h ch t ct ps s l : owns ((h, ch) :: (t, ct) :: ps) s l -> NoDup (ch ++ ct).*1.
Proof. intros [_ _ Hnd _ _ _]. unfold pkts in *. cbn in *. rewrite app_assoc, fmap_app in Hnd. by apply list.NoDup_app in Hnd as (? & _). Qed.
Lemma head_pbuf p c s : chain (pbufs s) (Some p) c -> packet c -> exists b c', c = (p, b) :: c' /\ pbufs s !! p = Some b /\ tot_len b = data_len c.
Proof. destruct c as [|[q b] c]; [done|]. intros ([= ->] & Hb & _) (Ht & _). by exists b, c. Qed.

Lemma holds_turns (held' : list ptr) old new ps s s' l l' : owns (old ++ ps) s l -> turns old new s s' l l' ->
  held' ≡ₚ (new ++ ps).*1 -> holds held' s'.
Proof. intros Ho Ht Hh. exists (new ++ ps), l'. split; [done|]. by eapply owns_turns. Qed.

Lemma wp_serve_alloc held ps s l layer length t : held ≡ₚ ps.*1 -> owns ps s l -> 0 <= length <= 65460 ->
  wp (serve_packet held (Alloc layer length t)) holds s.
Proof.
  intros Hh Ho Hlen. pose proof (own_ok _ _ _ Ho) as Hok. apply wp_bind.
  assert (Hnone : forall s', unchanged s s' l -> wp (mret held) holds s').
  { intros s' [Hm Hok' _ _ _]. apply wp_ret. exists ps, l. split; [done|]. destruct Ho. split; rewrite ?Hm; done. }
  assert (Hsome : forall p c s' l', allocated t length p c s s' l l' -> Forall (fun x => owns_payload (snd x)) c -> wp (mret (p :: held)) holds s').
  { intros p c s' l' Ha Hpay. apply wp_ret. eapply (holds_turns _ [] [(p, c)] ps); [exact Ho|eapply alloc_turns; [exact Ha|lia|exact Hpay]|]. cbn. by rewrite Hh. }
  destruct t.
  - apply (wp_alloc_ram s l); [done..| |].
    + intros a lt i b s' l' _ Hb Ha. eapply Hsome; [exact Ha|]. apply Forall_cons_2; [|by apply Forall_nil_2]. intros _. cbn. by rewrite Hb.
    + intros _. by apply Hnone, unchanged_refl.
  - apply (wp_alloc_ref s l); [done|lia|by left| |intros _; by apply Hnone, unchanged_refl].
    intros p b s' _ _ Ha. eapply Hsome; [exact Ha|]. eapply list.Forall_impl; [apply (added_new _ _ _ _ (alloc_added _ _ _ _ _ _ _ _ Ha))|].
    intros x (_ & _ & Ht). unfold owns_payload. rewrite Ht. by intros [|].
  - apply (wp_alloc_ref s l); [done|lia|by right| |intros _; by apply Hnone, unchanged_refl].
    intros p b s' _ _ Ha. eapply Hsome; [exact Ha|]. eapply list.Forall_impl; [apply (added_new _ _ _ _ (alloc_added _ _ _ _ _ _ _ _ Ha))|].
    intros x (_ & _ & Ht). unfold owns_payload. rewrite Ht. by intros [|].
  - apply (wp_alloc_pool s l); [done|lia| |intros s' _ Hu; by apply Hnone].
    intros p c s' _ _ Ha Hr. eapply Hsome; [exact Ha|]. eapply list.Forall_impl; [exact Hr|]. by intros x [_ Hpay] _.
Qed.

Lemma wp_serve_append held ps s l i j : held ≡ₚ ps.*1 -> owns ps s l -> wp (serve_packet held (Append i j)) holds s.
Proof.
  intros Hh Ho. assert (Hsame : holds held s) by by exists ps, l. cbn [serve_packet].
  destruct (held !! i) as [h|] eqn:Hi; [|by apply wp_ret]. destruct (delete i held !! j) as [t|] eqn:Hj; [|by apply wp_ret].
  destruct (pick _ _ _ _ Hh Hi) as (ch & ps1 & Hp1 & Hd1). destruct (pick _ _ _ _ Hd1 Hj) as (ct & ps2 & Hp2 & Hd2).
  rewrite Hp2 in Hp1. pose proof (owns_perm _ _ _ _ Hp1 Ho) as Ho1. destruct (owned_head _ _ _ _ _ Ho1) as (Hch & Hph & Hlh & _ & Hsh).
  pose proof (owns_perm _ ((t, ct) :: (h, ch) :: ps2) _ _ ltac:(apply perm_swap) Ho1) as Ho2.
  destruct (owned_head _ _ _ _ _ Ho2) as (Hct & Hpt & Hlt & _ & Hst). pose proof (owned_two _ _ _ _ _ _ _ Ho1) as Hnd.
  destruct (head_pbuf _ _ _ Hch Hph) as (bh & ch' & _ & Hbh & Hth). destruct (head_pbuf _ _ _ Hct Hpt) as (bt & ct' & _ & Hbt & Htt).
  apply wp_bind, (wp_get_pbuf _ _ _ _ Hbh), wp_bind, (wp_get_pbuf _ _ _ _ Hbt). rewrite Hth, Htt.
  destruct (Z.ltb_spec (data_len ch + data_len ct) 65536); [|by apply wp_ret].
  apply wp_bind, (wp_pbuf_cat _ l h t ch ct); [apply (own_ok _ _ _ Ho)|done..|]. intros s' c Hc Hp Hdom Hok' Hother _. apply wp_ret.
  eapply (holds_turns _ [(h, ch); (t, ct)] [(h, c)] ps2); [exact Ho1|by apply cat_turns|]. cbn. by rewrite Hd2.
Qed.

Lemma wp_serve_packet held r s : holds held s -> sane_packet r -> wp (serve_packet held r) holds s.
Proof.
  intros (ps & l & Hh & Ho) Hr. destruct r as [layer length t|i|i j|i n|i h]; [by eapply wp_serve_alloc| |by eapply wp_serve_append| |];
    cbn [serve_packet sane_packet] in *; (destruct (held !! i) as [p|] eqn:Hi; [|apply wp_ret; by exists ps, l]);
    destruct (pick _ _ _ _ Hh Hi) as (c & ps' & Hp & Hd); pose proof (owns_perm _ _ _ _ Hp Ho) as Ho1;
    destruct (owned_head _ _ _ _ _ Ho1) as (Hc & Hpk & Hl & Hnd & Hs).
  - apply wp_bind, (wp_pbuf_free _ c _ l); [apply (own_ok _ _ _ Ho)|done..|]. intros s' Hf. apply wp_ret.
    eapply (holds_turns _ [(p, c)] [] ps'); [exact Ho1|by apply free_turns|done].
  - apply wp_bind, (wp_pbuf_realloc p c n s l); [apply (own_ok _ _ _ Ho)|done..| |]; [intros _; apply wp_ret; by exists ps, l|].
    intros Hlt s' l' Hcut. apply wp_ret. eapply (holds_turns _ [(p, c)] [(p, trimmed n c)] ps'); [exact Ho1|by apply trim_turns|].
    rewrite Hh, Hp. done.
  - destruct (head_pbuf _ _ _ Hc Hpk) as (b & c' & -> & Hb & Ht). apply wp_bind, (wp_get_pbuf _ _ _ _ Hb).
    destruct (bool_decide _ || bool_decide _) eqn:Hty; cbn [andb]; [|apply wp_ret; by exists ps, l].
    destruct (Z.ltb_spec (tot_len b + h) 65536); [|apply wp_ret; by exists ps, l].
    apply orb_true_iff in Hty. rewrite !bool_decide_eq_true in Hty. pose proof Hs as [[_ Hpay] _]%Forall_cons_1.
    cbn [snd] in Hpay. destruct (Hpay Hty) as [o Ho']. destruct (nok_home _ _ (own_ok _ _ _ Ho) _ _ Hb) as (_ & [Hlb Hfit] & _). rewrite Ho' in Hfit. cbn [snd] in *.
    pose proof Hpk as (Htot & _ & Hrest). pose proof (packet_pos _ Hrest).
    apply wp_bind. eapply wp_mono; [apply (header_step s p b o h); try done; lia|]. intros r s' Hr'. cbn beta in Hr'. apply wp_ret.
    destruct (Z.leb_spec (- len b) h), (Z.leb_spec h o); cbn [andb] in Hr'; destruct Hr' as [_ ->]; try by exists ps, l.
    eapply (holds_turns _ [(p, (p, b) :: c')] [(p, (p, shifted h b) :: c')] ps'); [exact Ho1|eapply header_turns; try done|by rewrite Hh, Hp].
    apply (own_ok _ _ _ Ho).
Qed.

Lemma wp_serve_packets rs : forall held s, Forall sane_packet rs -> holds held s -> wp (serve_packets held rs) holds s.
Proof.
  induction rs as [|r rs IH]; intros held s Hrs Hh; cbn [serve_packets]; [by apply wp_ret|].
  apply Forall_cons_1 in Hrs as [Hr Hrs]. apply wp_bind. eapply wp_mono; [by apply wp_serve_packet|]. intros held' s' Hheld. by apply IH.
Qed.

(** C23. Packets are owned: from the memory that mem_init and memp_init leave, every
    sequence of allocations (of every kind, that succeed or not), frees,
    concatenations, cuts and headers by clients that name packets they hold runs
    without a fault.  At every point the packets held are well formed, no two share
    a pbuf, every pbuf and every block of the heap belongs to one of them, and each
    pbuf is referenced once; when none is held, the pools and the heap are as at
    the start. *)
Theorem packet_requests_safe (rs : list packet_request) (s : net) (l : list block) :
  Forall sane_packet rs -> net_ok s l -> pbufs s = ∅ -> pointers 0 l = [] ->
  wp (serve_packets [] rs) (fun held s' => exists ps l', held ≡ₚ ps.*1 /\ owns ps s' l' /\
    (held = [] -> pbufs s' = ∅ /\ pointers 0 l' = [] /\
       forall t i, pbuf_pool t -> (i < memp_num t)%nat -> i ∈ memp_tab s' t)) s.
Proof.
  intros Hrs Hok Hm Hl. assert (Hstart : holds [] s).
  { exists [], l. split; [done|]. split; [done|by apply Forall_nil_2|by constructor|by apply Forall_nil_2| |by rewrite Hl].
    intros q. rewrite Hm, lookup_empty. by intros [? ?]. }
  eapply wp_mono; [by apply wp_serve_packets|]. intros held s' (ps & l' & Hh & Ho). exists ps, l'. split; [done|]. split; [done|]. intros ->.
  apply Permutation_nil_l in Hh. assert (ps = []) as -> by by destruct ps. destruct Ho as [Hok' _ _ _ Hall Hheap].
  assert (pbufs s' = ∅) as Hm'.
  { apply map_eq. intros q. rewrite lookup_empty. destruct (pbufs s' !! q) eqn:E; [|done]. destruct (not_elem_of_nil q). by apply Hall. }
  split; [done|]. split; [by apply Permutation_nil_r in Hheap|]. intros t i Ht Hi. apply (nok_free _ _ Hok'); [done|]. by rewrite Hm'.
Qed.

Lemma packet_requests_safe_witness :
  wp (serve_packets [] [Alloc PBUF_TRANSPORT 4000 PBUF_POOL; Alloc PBUF_RAW 100 PBUF_RAM; Header 0 20; Append 1 0; Trim 0 1900; Release 0])
    (fun held s' => exists ps l', held ≡ₚ ps.*1 /\ owns ps s' l' /\
      (held = [] -> pbufs s' = ∅ /\ pointers 0 l' = [] /\
         forall t i, pbuf_pool t -> (i < memp_num t)%nat -> i ∈ memp_tab s' t)) fresh_net.
Proof.
  apply (packet_requests_safe _ fresh_net [(MEM_SIZE_ALIGNED, false)]).
  - repeat apply Forall_cons_2; try apply Forall_nil_2; cbn; lia || exact I.
  - apply fresh_net_ok.
  - reflexivity.
  - reflexivity.
Defined.
