(* ===== verification/LwipInet.v ===== *)
(** Internet addresses as text and as words: core/ipv4/inet.c, and the macros of
    ipv4/lwip/ip_addr.h on addresses.  An address is kept in network byte order:
    on this little-endian machine its first byte is the low one. *)
From S2P Require Import Prelude Mmio.

(** * Byte order *)
Definition htons (n : Z) : Z := Z.lor (Z.shiftl (Z.land n 0xff) 8) (Z.shiftr (Z.land n 0xff00) 8).
Definition ntohs (n : Z) : Z := htons n.
Definition htonl (n : Z) : Z :=
  Z.lor (Z.lor (Z.lor (Z.shiftl (Z.land n 0xff) 24) (Z.shiftl (Z.land n 0xff00) 8))
               (Z.shiftr (Z.land n 0xff0000) 8))
        (Z.shiftr (Z.land n 0xff000000) 24).
Definition ntohl (n : Z) : Z := htonl n.

(** * ip_addr.h *)
Definition IP4_ADDR (a b c d : Z) : Z :=
  htonl (Z.lor (Z.lor (Z.lor (Z.shiftl (Z.land a 0xff) 24) (Z.shiftl (Z.land b 0xff) 16))
                      (Z.shiftl (Z.land c 0xff) 8)) (Z.land d 0xff)).
Definition IP_ADDR_ANY_VALUE : Z := 0.
Definition IP_ADDR_BROADCAST_VALUE : Z := 0xffffffff.
Definition ip_addr_netcmp (addr1 addr2 mask : Z) : bool := Z.land addr1 mask =? Z.land addr2 mask.
Definition ip_addr_cmp (addr1 addr2 : Z) : bool := addr1 =? addr2.
Definition ip_addr_ismulticast (addr : Z) : bool := Z.land addr (ntohl 0xf0000000) =? ntohl 0xe0000000.
(** These two also take a null pointer. *)
Definition ip_addr_isany (addr : option Z) : bool := match addr with None => true | Some a => a =? 0 end.
Definition ip_addr_set (src : option Z) : Z := match src with None => 0 | Some a => a end.
Definition ip4_addr2 (addr : Z) : Z := Z.land (u16 (Z.shiftr (ntohl addr) 16)) 0xff.
Definition ip4_addr3 (addr : Z) : Z := Z.land (u16 (Z.shiftr (ntohl addr) 8)) 0xff.
Definition ip4_addr4 (addr : Z) : Z := Z.land (u16 (ntohl addr)) 0xff.

(** * Characters *)
Definition in_range (c lo up : Z) : bool := (lo <=? u8 c) && (u8 c <=? up).
Definition isdigit (c : Z) : bool := in_range c 0x30 0x39.
Definition isxdigit (c : Z) : bool := isdigit c || in_range c 0x61 0x66 || in_range c 0x41 0x46.
Definition islower (c : Z) : bool := in_range c 0x61 0x7a.
Definition isspace (c : Z) : bool :=
  (c =? 0x20) || (c =? 0x0c) || (c =? 0x0a) || (c =? 0x0d) || (c =? 0x09) || (c =? 0x0b).

(** * inet_aton

    The text is a character array; [cp] is an index into it. *)
Section inet.
Context {S : Type} (text : list Z).

(** The digits of one number, on [c], [cp] and [val]. *)
Definition inet_digits_body (base : Z) (a : Z * Z * Z) : M S (Z * Z * Z + Z * Z * Z) :=
  let '(c, cp, val) := a in
  if isdigit c then
    c' ← index text (cp + 1);
    mret (inl (c', cp + 1, u32 (u32 (val * base) + (c - 0x30))))
  else if (base =? 16) && isxdigit c then
    c' ← index text (cp + 1);
    mret (inl (c', cp + 1, Z.lor (u32 (Z.shiftl val 4)) (c + 10 - (if islower c then 0x61 else 0x41))))
  else mret (inr (c, cp, val)).

(** The prefix of a number: its base, and [c] and [cp] behind the prefix. *)
Definition inet_base (c cp : Z) : M S (Z * Z * Z) :=
  if c =? 0x30 then
    c ← index text (cp + 1);
    if (c =? 0x78) || (c =? 0x58) then c ← index text (cp + 2); mret (16, c, cp + 2)
    else mret (8, c, cp + 1)
  else mret (10, c, cp).

(** The parts of the address, on [c], [cp] and the contents of [parts]: it leaves
    with [c] and [val] behind the last part, or because a part is missing. *)
Definition inet_parts_body (fuel : positive) (a : Z * Z * list Z)
  : M S (Z * Z * list Z + option (Z * Z * list Z)) :=
  let '(c, cp, parts) := a in
  if negb (isdigit c) then mret (inr None)
  else
    '(base, c, cp) ← inet_base c cp;
    '(c, cp, val) ← loop fuel (inet_digits_body base) (c, cp, 0);
    if c =? 0x2e then
      if 3 <=? Z.of_nat (length parts) then mret (inr None)
      else
        c ← index text (cp + 1);
        mret (inl (c, cp + 1, parts ++ [val]))
    else mret (inr (Some (c, val, parts))).

(** The address from its parts; [None] where the source answers 0. *)
Definition inet_concoct (val : Z) (parts : list Z) : option Z :=
  match parts with
  | [] => Some val
  | [p0] => if 0xffffff <? val then None else Some (Z.lor val (u32 (Z.shiftl p0 24)))
  | [p0; p1] =>
      if 0xffff <? val then None
      else Some (Z.lor val (Z.lor (u32 (Z.shiftl p0 24)) (u32 (Z.shiftl p1 16))))
  | p0 :: p1 :: p2 :: _ =>
      if 0xff <? val then None
      else Some (Z.lor val (Z.lor (Z.lor (u32 (Z.shiftl p0 24)) (u32 (Z.shiftl p1 16))) (u32 (Z.shiftl p2 8))))
  end.

(** It answers the address, in network byte order, or [None] for 0. *)
Definition inet_aton : M S (option Z) :=
  let fuel := Pos.of_succ_nat (length text) in
  c ← index text 0;
  r ← loop 4 (inet_parts_body fuel) (c, 0, []);
  match r with
  | None => mret None
  | Some (c, val, parts) =>
      if negb (c =? 0) && negb (isspace c) then mret None
      else mret (option_map htonl (inet_concoct val parts))
  end.

Definition INADDR_NONE : Z := 0xffffffff.
Definition inet_addr : M S Z :=
  r ← inet_aton;
  mret (match r with Some a => a | None => INADDR_NONE end).
End inet.

(** * inet_ntoa *)

(** The digits of a byte, the last one first: the [do] loop on [*ap] and [inv]. *)
Fixpoint inv_digits (fuel : nat) (b : Z) : list Z :=
  match fuel with
  | O => []
  | S fuel => 0x30 + b mod 10 :: (if b / 10 =? 0 then [] else inv_digits fuel (b / 10))
  end.
(** A byte has at most three digits. *)
Definition ntoa_byte (b : Z) : list Z := rev (inv_digits 3 b).
(** The text; the last dot is overwritten by the terminating zero. *)
Definition inet_ntoa (addr : Z) : list Z :=
  ntoa_byte (byte_of addr 0) ++ 0x2e :: ntoa_byte (byte_of addr 1) ++ 0x2e ::
  ntoa_byte (byte_of addr 2) ++ 0x2e :: ntoa_byte (byte_of addr 3) ++ [0].
