(* ===== verification/LwipInetTheorems.v ===== *)
(** What the address and byte order functions of lwIP promise. *)
From S2P Require Import Prelude Mmio LwipInet.

(** * Bytes of words *)
Lemma byte_of_bound v k : 0 <= byte_of v k < 2 ^ 8.
Proof. unfold byte_of. apply Z.mod_pos_bound. lia. Qed.

Lemma lor_add a b k : 0 <= k -> 0 <= a < 2 ^ k -> Z.lor a (Z.shiftl b k) = a + b * 2 ^ k.
Proof.
  intros Hk Ha. rewrite <- Z.shiftl_mul_pow2 by done. assert (Hand : Z.land a (Z.shiftl b k) = 0);
    [|by rewrite Z.add_nocarry_lxor, Z.lxor_lor].
  apply Z.bits_inj'. intros i Hi. rewrite Z.land_spec, Z.bits_0, Z.shiftl_spec by done.
  destruct (Z.lt_ge_cases i k).
  - by rewrite (Z.testbit_neg_r b (i - k)), andb_false_r by lia.
  - by rewrite (testbit_above a k i) by lia.
Qed.

Lemma lor_add_r a b k : 0 <= k -> 0 <= a < 2 ^ k -> Z.lor (Z.shiftl b k) a = a + b * 2 ^ k.
Proof. intros. rewrite Z.lor_comm. by apply lor_add. Qed.

(** A field of eight bits, in place. *)
Lemma land_byte n k : 0 <= k -> Z.land n (Z.shiftl 0xff (8 * k)) = Z.shiftl (byte_of n k) (8 * k).
Proof.
  intros Hk. unfold byte_of. rewrite <- Z.shiftr_div_pow2, <- Z.land_ones by lia.
  change (Z.ones 8) with 0xff. apply Z.bits_inj'. intros i Hi.
  rewrite Z.land_spec, !Z.shiftl_spec, Z.land_spec by lia.
  destruct (Z.lt_ge_cases i (8 * k)).
  - by rewrite !(Z.testbit_neg_r _ (i - 8 * k)), andb_false_r by lia.
  - rewrite Z.shiftr_spec by lia. by replace (i - 8 * k + 8 * k) with i by lia.
Qed.

Lemma land_ff n : Z.land n 0xff = byte_of n 0.
Proof. change 0xff with (Z.ones 8). rewrite Z.land_ones by lia. unfold byte_of. by rewrite Z.mul_0_r, Z.div_1_r. Qed.
Lemma land_ff00 n : Z.land n 0xff00 = Z.shiftl (byte_of n 1) 8.
Proof. apply (land_byte n 1). lia. Qed.
Lemma land_ff0000 n : Z.land n 0xff0000 = Z.shiftl (byte_of n 2) 16.
Proof. apply (land_byte n 2). lia. Qed.
Lemma land_ff000000 n : Z.land n 0xff000000 = Z.shiftl (byte_of n 3) 24.
Proof. apply (land_byte n 3). lia. Qed.

(** The value of up to four bytes, the first one the lowest. *)
Definition of_bytes (a b c d : Z) : Z := a + 2 ^ 8 * b + 2 ^ 16 * c + 2 ^ 24 * d.
Lemma of_bytes_byte a b c d : 0 <= a < 256 -> 0 <= b < 256 -> 0 <= c < 256 -> 0 <= d < 256 ->
  byte_of (of_bytes a b c d) 0 = a /\ byte_of (of_bytes a b c d) 1 = b /\
  byte_of (of_bytes a b c d) 2 = c /\ byte_of (of_bytes a b c d) 3 = d.
Proof. intros. unfold of_bytes, byte_of. repeat split; Z.div_mod_to_equations; lia. Qed.
Lemma of_bytes_of n : 0 <= n < 2 ^ 32 ->
  of_bytes (byte_of n 0) (byte_of n 1) (byte_of n 2) (byte_of n 3) = n.
Proof. intros. unfold of_bytes, byte_of. Z.div_mod_to_equations. lia. Qed.

Lemma lor_bytes a b c d : 0 <= a < 256 -> 0 <= b < 256 -> 0 <= c < 256 ->
  Z.lor (Z.lor (Z.lor a (Z.shiftl b 8)) (Z.shiftl c 16)) (Z.shiftl d 24) = of_bytes a b c d.
Proof.
  intros. rewrite (lor_add a b) by lia. rewrite (lor_add _ c) by lia. rewrite (lor_add _ d) by lia.
  unfold of_bytes. lia.
Qed.

(** Disjunctions in any order. *)
Ltac lor_solve := apply Z.bits_inj'; intros ? _; rewrite !Z.lor_spec; repeat destruct (Z.testbit _ _); done.

(** * Byte order *)
Lemma htons_bytes n : htons n = byte_of n 1 + 2 ^ 8 * byte_of n 0.
Proof.
  unfold htons. rewrite land_ff, land_ff00, Z.shiftr_shiftl_l by lia. change (8 - 8) with 0.
  rewrite Z.shiftl_0_r, lor_add_r by (pose proof (byte_of_bound n 1); lia). lia.
Qed.

Lemma htons_bound n : 0 <= htons n < 2 ^ 16.
Proof. rewrite htons_bytes. pose proof (byte_of_bound n 0). pose proof (byte_of_bound n 1). lia. Qed.

Lemma htons_htons n : 0 <= n < 2 ^ 16 -> htons (htons n) = n.
Proof. intros Hn. rewrite !htons_bytes. unfold byte_of. Z.div_mod_to_equations. lia. Qed.

Lemma htonl_bytes n : htonl n = of_bytes (byte_of n 3) (byte_of n 2) (byte_of n 1) (byte_of n 0).
Proof.
  unfold htonl. rewrite land_ff, land_ff00, land_ff0000, land_ff000000.
  rewrite !Z.shiftr_shiftl_l, Z.shiftl_shiftl by lia. change (16 - 8) with 8. change (24 - 24) with 0. change (8 + 8) with 16.
  pose proof (byte_of_bound n 3). pose proof (byte_of_bound n 2). pose proof (byte_of_bound n 1).
  rewrite Z.shiftl_0_r, <- lor_bytes by lia. lor_solve.
Qed.

Lemma htonl_htonl n : 0 <= n < 2 ^ 32 -> htonl (htonl n) = n.
Proof.
  intros Hn. rewrite (htonl_bytes (htonl n)), (htonl_bytes n).
  destruct (of_bytes_byte (byte_of n 3) (byte_of n 2) (byte_of n 1) (byte_of n 0)) as (-> & -> & -> & ->);
    try apply byte_of_bound. by apply of_bytes_of.
Qed.

Lemma IP4_ADDR_bytes a b c d : 0 <= a < 256 -> 0 <= b < 256 -> 0 <= c < 256 -> 0 <= d < 256 ->
  IP4_ADDR a b c d = of_bytes a b c d.
Proof.
  intros. unfold IP4_ADDR. change 0xff with (Z.ones 8). rewrite !Z.land_ones, !Z.mod_small by lia.
  replace (Z.lor _ d) with (of_bytes d c b a); [|rewrite <- lor_bytes by lia; lor_solve].
  rewrite htonl_bytes. by destruct (of_bytes_byte d c b a) as (-> & -> & -> & ->).
Qed.

(** * Text *)

(** The text from index [cp] on. *)
Definition text_at (text : list Z) (cp : Z) (l : list Z) : Prop := 0 <= cp /\ drop (Z.to_nat cp) text = l.

Lemma text_at_next text cp x l : text_at text cp (x :: l) -> text_at text (cp + 1) l.
Proof.
  intros [Hcp Hd]. split; [lia|]. replace (Z.to_nat (cp + 1)) with (Z.to_nat cp + 1)%nat by lia.
  by rewrite <- drop_drop, Hd.
Qed.

Lemma text_at_skip text cp l1 l2 : text_at text cp (l1 ++ l2) -> text_at text (cp + Z.of_nat (length l1)) l2.
Proof.
  intros [Hcp Hd]. split; [lia|]. rewrite Z2Nat.inj_add, Nat2Z.id, <- drop_drop, Hd by lia. apply drop_app_length.
Qed.

Lemma wp_text_at {S} text cp x l (Q : Z -> S -> Prop) s : text_at text cp (x :: l) ->
  Q x s -> wp (index text cp) Q s.
Proof.
  intros [Hcp Hd] HQ. apply (wp_index _ _ x); [done| |done].
  rewrite <- (Nat.add_0_r (Z.to_nat cp)), <- lookup_drop. by rewrite Hd.
Qed.

Section numbers.
Context {S : Type}.
Implicit Types (s : S) (text : list Z).

Definition digits_value (base : Z) (val : Z) (l : list Z) : Z :=
  fold_left (fun v d => u32 (u32 (v * base) + (d - 0x30))) l val.

Lemma wp_digits text base l x rest : forall cp val d s (Q : Z * Z * Z -> S -> Prop),
  text_at text cp (l ++ x :: rest) -> Forall (fun d => isdigit d = true) l -> base <> 16 ->
  isdigit x = false -> hd x l = d ->
  Q (x, cp + Z.of_nat (length l), digits_value base val l) s ->
  wp (iter_nat (Datatypes.S (length l)) (inet_digits_body text base) (d, cp, val)) (ends Q) s.
Proof.
  induction l as [|c l IH]; intros cp val d s Q Ht Hl Hb Hx Hd HQ; cbn [hd length app] in *; subst d;
    apply wp_iter_S; unfold inet_digits_body.
  - rewrite Hx. rewrite (proj2 (Z.eqb_neq base 16) Hb). apply wp_ret. by rewrite Z.add_0_r in HQ.
  - apply Forall_cons_1 in Hl as [Hc Hl]. rewrite Hc. apply text_at_next in Ht. apply wp_bind.
    apply (wp_text_at _ _ (hd x l) (tl (l ++ x :: rest))); [by destruct l|]. apply wp_ret.
    apply IH; try done. replace (cp + 1 + _) with (cp + Z.of_nat (Datatypes.S (length l))) by lia. exact HQ.
Qed.

(** What inet_ntoa prints for a byte is a number that inet_aton reads back. *)
Definition byte_text_ok (b : Z) : bool :=
  match ntoa_byte b with
  | [] => false
  | [c] => isdigit c && (c - 0x30 =? b)
  | c :: l => forallb isdigit (c :: l) && negb (c =? 0x30) && (digits_value 10 0 (c :: l) =? b)
  end.
Lemma byte_texts b : 0 <= b < 256 -> byte_text_ok b = true.
Proof.
  intros Hb. assert (Hall : forallb (fun n => byte_text_ok (Z.of_nat n)) (seq 0 256) = true) by (by vm_compute).
  rewrite forallb_forall in Hall. specialize (Hall (Z.to_nat b)). rewrite Z2Nat.id in Hall by lia.
  apply Hall, in_seq. lia.
Qed.

Lemma wp_number text b cp x rest s (Q : Z * Z * Z -> S -> Prop) :
  text_at text cp (ntoa_byte b ++ x :: rest) -> 0 <= b < 256 -> x = 0x2e \/ x = 0 ->
  Q (x, cp + Z.of_nat (length (ntoa_byte b)), b) s ->
  isdigit (hd 0 (ntoa_byte b)) = true /\
  wp (inet_base text (hd 0 (ntoa_byte b)) cp) (fun '(base, c, cp) s =>
      wp (loop (Pos.of_succ_nat (length text)) (inet_digits_body text base) (c, cp, 0)) Q s) s.
Proof.
  intros Ht Hb Hx HQ. assert (Hnx : isdigit x = false) by (by destruct Hx; subst x).
  pose proof (byte_texts b Hb) as Hok. unfold byte_text_ok in Hok.
  assert (Hfuel : forall l cp, text_at text cp (l ++ x :: rest) ->
            (Datatypes.S (length l) <= Pos.to_nat (Pos.of_succ_nat (length text)))%nat).
  { intros l cp' [_ Hd]. rewrite SuccNat2Pos.id_succ. apply le_n_S.
    transitivity (length (l ++ x :: rest)); [rewrite length_app; lia|].
    rewrite <- Hd, length_drop. lia. }
  destruct (ntoa_byte b) as [|c l] eqn:Hn; [done|]. cbn [hd] in *.
  destruct (Z.eqb_spec c 0x30) as [->|Hc0].
  - destruct l as [|c' l]; [|by rewrite andb_false_r in Hok]. cbn in Hok. apply Z.eqb_eq in Hok. subst b.
    split; [done|]. unfold inet_base. cbn [Z.eqb Pos.eqb app length] in *. apply text_at_next in Ht. apply wp_bind.
    apply (wp_text_at _ _ x rest); [done|].
    assert (Hx16 : (x =? 0x78) || (x =? 0x58) = false) by (destruct Hx; subst x; reflexivity).
    rewrite Hx16. apply wp_ret.
    apply (wp_loop_nat 1); [by apply (Hfuel [] (cp + 1))|]. apply (wp_digits _ _ [] x rest); try done.
    cbn [length]. by rewrite Z.add_0_r.
  - assert (Hd : forallb isdigit (c :: l) = true /\ digits_value 10 0 (c :: l) = b).
    { destruct l as [|c' l].
      - apply andb_prop in Hok as [H1 H2]. cbn [forallb]. rewrite H1. split; [done|].
        apply Z.eqb_eq in H2. change (u32 (u32 0 + (c - 0x30)) = b). rewrite H2. unfold u32.
        change (0 mod 2 ^ 32) with 0. rewrite Z.mod_small; lia.
      - apply andb_prop in Hok as [H1 H2]. apply andb_prop in H1 as [H1 _]. split; [done|]. by apply Z.eqb_eq. }
    destruct Hd as [Hd Hv]. split; [by apply andb_prop in Hd as [? _]|]. unfold inet_base.
    rewrite (proj2 (Z.eqb_neq _ _) Hc0). apply wp_ret.
    apply (wp_loop_nat (Datatypes.S (length (c :: l)))); [by apply (Hfuel (c :: l) cp)|].
    apply (wp_digits _ _ (c :: l) x rest); try done; [|by rewrite Hv].
    apply list.Forall_forall. intros d Hin. rewrite forallb_forall in Hd. apply Hd. by apply list_elem_of_In.
Qed.

(** One part of the address, up to the decision what comes after it. *)
Definition after_part text (parts : list Z) (r : Z * Z * Z) : M S (Z * Z * list Z + option (Z * Z * list Z)) :=
  let '(c, cp, val) := r in
  if c =? 0x2e then
    if 3 <=? Z.of_nat (length parts) then mret (inr None)
    else c ← index text (cp + 1); mret (inl (c, cp + 1, parts ++ [val]))
  else mret (inr (Some (c, val, parts))).

Lemma wp_part text b cp x rest parts s (Q : _ -> S -> Prop) :
  text_at text cp (ntoa_byte b ++ x :: rest) -> 0 <= b < 256 -> x = 0x2e \/ x = 0 ->
  wp (after_part text parts (x, cp + Z.of_nat (length (ntoa_byte b)), b)) Q s ->
  wp (inet_parts_body text (Pos.of_succ_nat (length text)) (hd 0 (ntoa_byte b), cp, parts)) Q s.
Proof.
  intros Ht Hb Hx HQ.
  destruct (wp_number text b cp x rest s (fun r s => wp (after_part text parts r) Q s) Ht Hb Hx HQ) as [Hd Hw].
  unfold inet_parts_body. rewrite Hd. cbn [negb]. apply wp_bind. eapply wp_mono; [exact Hw|].
  intros [[base c] cp'] s' Hw'. apply wp_bind. eapply wp_mono; [exact Hw'|]. by intros [[? ?] ?] ?.
Qed.

Lemma ntoa_hd b l : 0 <= b < 256 -> ntoa_byte b ++ l = hd 0 (ntoa_byte b) :: tl (ntoa_byte b) ++ l.
Proof.
  intros Hb. pose proof (byte_texts b Hb) as Hok. unfold byte_text_ok in Hok. by destruct (ntoa_byte b).
Qed.

Lemma wp_part_dot text b b' cp rest parts s (Q : _ -> S -> Prop) :
  text_at text cp (ntoa_byte b ++ 0x2e :: ntoa_byte b' ++ rest) -> 0 <= b < 256 -> 0 <= b' < 256 ->
  (length parts < 3)%nat ->
  (text_at text (cp + Z.of_nat (length (ntoa_byte b)) + 1) (ntoa_byte b' ++ rest) ->
   Q (inl (hd 0 (ntoa_byte b'), cp + Z.of_nat (length (ntoa_byte b)) + 1, parts ++ [b])) s) ->
  wp (inet_parts_body text (Pos.of_succ_nat (length text)) (hd 0 (ntoa_byte b), cp, parts)) Q s.
Proof.
  intros Ht Hb Hb' Hp HQ. apply (wp_part _ _ _ _ _ _ _ _ Ht); [done|by left|].
  unfold after_part. rewrite (proj2 (Z.leb_gt _ _)) by lia. apply wp_bind.
  apply text_at_skip, text_at_next in Ht. rewrite ntoa_hd in Ht by done.
  apply (wp_text_at _ _ _ _ _ _ Ht), wp_ret, HQ. by rewrite ntoa_hd.
Qed.
End numbers.

(** inet_aton reads back every address that inet_ntoa prints. *)
Theorem inet_aton_ntoa_roundtrip {S} (addr : Z) (s : S) : 0 <= addr < 2 ^ 32 ->
  inet_aton (inet_ntoa addr) s = Ret (Some addr) s.
Proof.
  intros Ha. set (text := inet_ntoa addr).
  pose proof (byte_of_bound addr 0) as B0. pose proof (byte_of_bound addr 1) as B1.
  pose proof (byte_of_bound addr 2) as B2. pose proof (byte_of_bound addr 3) as B3.
  assert (Ht : text_at text 0 (inet_ntoa addr)) by (by split). unfold inet_ntoa in Ht.
  assert (Hw : wp (inet_aton text) (fun r s' => r = Some addr /\ s' = s) s);
    [|by apply wp_unfold in Hw as (r & s' & -> & -> & ->)].
  unfold inet_aton. apply wp_bind. pose proof Ht as Ht0. rewrite ntoa_hd in Ht0 by done.
  apply (wp_text_at _ _ _ _ _ _ Ht0). clear Ht0.
  apply wp_bind, (wp_loop_nat 4); [done|].
  do 3 (apply wp_iter_S, (wp_part_dot _ _ _ _ _ _ _ _ Ht); [done..|cbn; lia|]; clear Ht; intros Ht).
  apply wp_iter_S, (wp_part _ _ _ _ _ _ _ _ Ht); [done|by right|].
  apply wp_ret, wp_ret. split; [|done]. unfold inet_concoct. cbn [app].
  rewrite (proj2 (Z.ltb_ge _ _)) by lia. cbn [option_map]. f_equal.
  unfold u32. rewrite !Z.shiftl_mul_pow2, !Z.mod_small, <- !Z.shiftl_mul_pow2 by lia.
  rewrite <- (htonl_htonl addr) at 5 by done. f_equal. rewrite htonl_bytes, <- lor_bytes by done. lor_solve.
Qed.
Lemma inet_aton_ntoa_roundtrip_witness :
  0 <= 50440384 < 2 ^ 32 /\ inet_aton (inet_ntoa 50440384) tt = Ret (Some 50440384) tt.
Proof. split; [lia|]. apply inet_aton_ntoa_roundtrip. lia. Defined.

(** Only the last part is checked for its range: this is taken for 44.1.1.1. *)
Example inet_aton_unchecked_part :
  inet_aton (S := unit) [0x33; 0x30; 0x30; 0x2e; 0x31; 0x2e; 0x31; 0x2e; 0x31; 0] tt
  = Ret (Some (IP4_ADDR 44 1 1 1)) tt.
Proof. by vm_compute. Qed.
