(* ===== verification/LwipChksum.v ===== *)
(** The Internet checksum: core/ipv4/inet_chksum.c, with the first of its
    algorithms (the port defines none of its own). *)
From stdpp Require Import gmap.
From S2P Require Import Prelude Mmio LwipMem LwipPbuf LwipInet.

Definition SWAP_BYTES_IN_WORD (w : Z) : Z :=
  Z.lor (Z.shiftl (Z.land w 0xff) 8) (Z.shiftr (Z.land w 0xff00) 8).
Definition FOLD_U32T (u : Z) : Z := u32 (Z.shiftr u 16 + Z.land u 0x0000ffff).

(** The sum over the bytes at [dataptr], of which there are [len]. *)
Fixpoint chksum_acc (acc : Z) (data : list Z) : Z :=
  match data with
  | hi :: lo :: data => chksum_acc (u32 (acc + Z.lor (u16 (Z.shiftl hi 8)) lo)) data
  | [hi] => u32 (acc + u16 (Z.shiftl hi 8))
  | [] => acc
  end.
Definition lwip_standard_chksum (data : list Z) : Z :=
  let acc := FOLD_U32T (chksum_acc 0 data) in
  let acc := if negb (Z.land acc 0xffff0000 =? 0) then FOLD_U32T acc else acc in
  htons (u16 acc).

Definition inet_chksum (data : list Z) : Z := u16 (Z.lnot (lwip_standard_chksum data)).

(** The sum over a chain: the loop on [q], [acc] and [swapped]. *)
Definition chksum_body (a : option ptr * Z * bool) : M net (option ptr * Z * bool + Z * bool) :=
  let '(q, acc, swapped) := a in
  match q with
  | Some q =>
      b ← get_pbuf q;
      data ← payload_read q 0 (Z.to_nat (len b));
      let acc := FOLD_U32T (u32 (acc + lwip_standard_chksum data)) in
      if negb (len b mod 2 =? 0) then mret (inl (next b, SWAP_BYTES_IN_WORD acc, negb swapped))
      else mret (inl (next b, acc, swapped))
  | None => mret (inr (acc, swapped))
  end.

Definition chksum_chain (p : option ptr) : M net Z :=
  fuel ← chain_fuel;
  '(acc, swapped) ← loop fuel chksum_body (p, 0, false);
  mret (if (swapped : bool) then SWAP_BYTES_IN_WORD acc else acc).

Definition inet_chksum_pbuf (p : option ptr) : M net Z :=
  acc ← chksum_chain p;
  mret (u16 (Z.lnot (Z.land acc 0xffff))).

Definition inet_chksum_pseudo (p : option ptr) (src dest proto proto_len : Z) : M net Z :=
  acc ← chksum_chain p;
  let acc := u32 (acc + Z.land src 0xffff) in
  let acc := u32 (acc + Z.land (Z.shiftr src 16) 0xffff) in
  let acc := u32 (acc + Z.land dest 0xffff) in
  let acc := u32 (acc + Z.land (Z.shiftr dest 16) 0xffff) in
  let acc := u32 (acc + htons (u16 proto)) in
  let acc := u32 (acc + htons proto_len) in
  let acc := FOLD_U32T acc in
  let acc := FOLD_U32T acc in
  mret (u16 (Z.lnot (Z.land acc 0xffff))).
