(* ===== verification/LwipChksumTheorems.v ===== *)
(** The checksum functions of lwIP against RFC 1071: the one's complement of the
    one's complement sum of the 16-bit words of the data, in network order. *)
From stdpp Require Import gmap.
From S2P Require Import Prelude Mmio LwipMem LwipPbuf LwipPbufSpec LwipPbufTheorems LwipInet LwipInetTheorems LwipChksum.

(** * One's complement sums *)

(** The 16-bit one's complement representation of a sum: 0 only for 0. *)
Definition oc (n : Z) : Z := if n =? 0 then 0 else (n - 1) mod 65535 + 1.

Lemma oc_bound n : 0 <= oc n < 2 ^ 16.
Proof. unfold oc. destruct (n =? 0); Z.div_mod_to_equations; lia. Qed.
Lemma oc_small n : 0 <= n < 2 ^ 16 -> oc n = n.
Proof. intros Hn. unfold oc. destruct (Z.eqb_spec n 0); [lia|]. rewrite Z.mod_small; lia. Qed.
Lemma oc_oc n : oc (oc n) = oc n.
Proof. apply oc_small, oc_bound. Qed.

Lemma oc_pos n : 0 < n -> oc n = (n - 1) mod 65535 + 1.
Proof. intros Hn. unfold oc. by rewrite (proj2 (Z.eqb_neq _ _)) by lia. Qed.
(** Sums that agree modulo 65535 have the same representation. *)
Lemma oc_shift n k : 0 < n -> 0 <= k -> oc (n + k * 65535) = oc n.
Proof.
  intros. rewrite !oc_pos by lia. replace (n + k * 65535 - 1) with (n - 1 + k * 65535) by lia.
  by rewrite Z_mod_plus_full.
Qed.
Lemma oc_split n : 0 < n -> exists k, 0 <= k /\ n = oc n + k * 65535 /\ 0 < oc n.
Proof.
  intros Hn. exists ((n - 1) / 65535). rewrite oc_pos by done.
  repeat split; Z.div_mod_to_equations; lia.
Qed.

Lemma oc_add a b : 0 <= a -> 0 <= b -> oc (oc a + b) = oc (a + b).
Proof.
  intros Ha Hb. destruct (Z.eq_dec a 0) as [->|]; [done|].
  destruct (oc_split a ltac:(lia)) as (k & Hk & He & Hp). rewrite He at 2.
  replace (oc a + k * 65535 + b) with (oc a + b + k * 65535) by lia. symmetry. apply oc_shift; lia.
Qed.
Lemma oc_add_r a b : 0 <= a -> 0 <= b -> oc (a + oc b) = oc (a + b).
Proof. intros. rewrite Z.add_comm, oc_add by done. by rewrite Z.add_comm. Qed.
Lemma oc_mul k a : 0 < k -> 0 <= a -> oc (k * oc a) = oc (k * a).
Proof.
  intros Hk Ha. destruct (Z.eq_dec a 0) as [->|]; [done|].
  destruct (oc_split a ltac:(lia)) as (j & Hj & He & Hp). rewrite He at 2.
  replace (k * (oc a + j * 65535)) with (k * oc a + k * j * 65535) by lia. symmetry. apply oc_shift; nia.
Qed.

(** 2^16 is 1 modulo 65535. *)
Lemma oc_65536 a : 0 <= a -> oc (65536 * a) = oc a.
Proof.
  intros Ha. destruct (Z.eq_dec a 0) as [->|]; [done|].
  replace (65536 * a) with (a + a * 65535) by lia. apply oc_shift; lia.
Qed.
Lemma oc_even_power n a : 0 <= a -> oc (256 ^ (2 * Z.of_nat n) * a) = oc a.
Proof.
  intros Ha. induction n as [|n IH]; [by rewrite Z.mul_1_l|].
  replace (2 * Z.of_nat (S n)) with (2 + 2 * Z.of_nat n) by lia. rewrite Z.pow_add_r by lia.
  change (256 ^ 2) with 65536. rewrite <- Z.mul_assoc, oc_65536; [done|].
  apply Z.mul_nonneg_nonneg; [apply Z.pow_nonneg; lia|done].
Qed.

(** ** The operations of the source on these representations *)
Lemma fold_oc u : 0 <= u < 2 ^ 32 -> oc (FOLD_U32T u) = oc u.
Proof.
  intros Hu. unfold FOLD_U32T, u32. change 0xffff with (Z.ones 16).
  rewrite Z.land_ones, Z.shiftr_div_pow2 by lia. rewrite Z.mod_small by (Z.div_mod_to_equations; lia).
  assert (Hs : u = u / 2 ^ 16 + u mod 2 ^ 16 + u / 2 ^ 16 * 65535) by (Z.div_mod_to_equations; lia).
  destruct (Z.eq_dec u 0) as [->|]; [done|]. rewrite Hs at 3. symmetry. apply oc_shift; Z.div_mod_to_equations; lia.
Qed.
Lemma fold_bound u : 0 <= u < 2 ^ 32 -> 0 <= FOLD_U32T u < 2 ^ 17 - 1.
Proof.
  intros Hu. unfold FOLD_U32T, u32. change 0xffff with (Z.ones 16).
  rewrite Z.land_ones, Z.shiftr_div_pow2 by lia. Z.div_mod_to_equations; lia.
Qed.
(** A carry at most is folded exactly. *)
Lemma fold_small u : 0 <= u < 2 ^ 17 - 1 -> FOLD_U32T u = oc u.
Proof.
  intros Hu. rewrite <- fold_oc by lia. symmetry. apply oc_small. unfold FOLD_U32T, u32. change 0xffff with (Z.ones 16).
  rewrite Z.land_ones, Z.shiftr_div_pow2 by lia. Z.div_mod_to_equations; lia.
Qed.
Lemma swap_oc w : 0 <= w < 2 ^ 16 -> htons w = oc (256 * w).
Proof.
  intros Hw. rewrite <- (oc_small (htons w)) by apply htons_bound. rewrite htons_bytes. unfold byte_of.
  change (2 ^ (8 * 1)) with 256. change (2 ^ (8 * 0)) with 1. change (2 ^ 8) with 256. rewrite Z.div_1_r.
  destruct (Z.eq_dec w 0) as [->|]; [done|].
  replace (256 * w) with ((w / 256) mod 256 + 256 * (w mod 256) + w / 256 * 65535)
    by (Z.div_mod_to_equations; lia).
  symmetry. apply oc_shift; Z.div_mod_to_equations; lia.
Qed.

(** * The sum of the words *)
Definition octets (l : list Z) : Prop := Forall (fun b => 0 <= b < 256) l.

(** The 16-bit words in network order; an odd byte at the end is padded with 0. *)
Fixpoint word_sum (l : list Z) : Z :=
  match l with hi :: lo :: l => 256 * hi + lo + word_sum l | [hi] => 256 * hi | [] => 0 end.
(** The checksum of RFC 1071, in network order. *)
Definition rfc1071 (l : list Z) : Z := 0xffff - oc (word_sum l).

(** Every byte weighted by a power of 256: the same sum modulo 65535, which
    can be taken apart at any byte. *)
Fixpoint weight (l : list Z) : Z := match l with [] => 0 | b :: l => 256 * (b + weight l) end.

Lemma weight_nonneg l : octets l -> 0 <= weight l.
Proof. induction 1; cbn [weight]; lia. Qed.
Lemma weight_app l1 l2 : weight (l1 ++ l2) = weight l1 + 256 ^ Z.of_nat (length l1) * weight l2.
Proof.
  induction l1 as [|b l1 IH]; cbn [app weight length]; [lia|].
  rewrite IH, Nat2Z.inj_succ, Z.pow_succ_r by lia. lia.
Qed.

(** Induction by two. *)
Lemma list_ind2 (P : list Z -> Prop) : P [] -> (forall a, P [a]) -> (forall a b l, P l -> P (a :: b :: l)) -> forall l, P l.
Proof.
  intros H0 H1 H2. fix IH 1. intros [|a [|b l]]; [exact H0|apply H1|apply H2, IH].
Qed.

Lemma word_sum_bound l : octets l -> 0 <= 2 * word_sum l <= 65535 * (Z.of_nat (length l) + 1).
Proof.
  induction l as [|a|a b l IH] using list_ind2; [done| |]; unfold octets; cbn [word_sum length].
  - intros [Ha _]%Forall_cons_1. lia.
  - intros [Ha [Hb Hl]%Forall_cons_1]%Forall_cons_1. specialize (IH Hl). lia.
Qed.

Lemma oc_weight l : octets l -> oc (weight l) = oc (word_sum l).
Proof.
  induction l as [|a|a b l IH] using list_ind2; [done| |]; unfold octets; cbn [word_sum weight].
  - intros _. f_equal. lia.
  - intros [Ha [Hb Hl]%Forall_cons_1]%Forall_cons_1. specialize (IH Hl).
    pose proof (weight_nonneg l Hl). pose proof (word_sum_bound l Hl).
    replace (256 * (a + 256 * (b + weight l))) with (256 * a + 65536 * (b + weight l)) by lia.
    rewrite <- oc_add_r, oc_65536, oc_add_r by lia.
    replace (256 * a + (b + weight l)) with (256 * a + b + weight l) by lia.
    rewrite <- oc_add_r, IH, oc_add_r by lia. done.
Qed.

(** ** lwip_standard_chksum *)
Lemma chksum_acc_sum l : forall acc, octets l -> 0 <= acc -> acc + word_sum l < 2 ^ 32 ->
  chksum_acc acc l = acc + word_sum l.
Proof.
  induction l as [|a|a b l IH] using list_ind2; intros acc; unfold octets; cbn [word_sum chksum_acc]; [lia|..].
  - intros [Ha _]%Forall_cons_1 Hacc Hs. unfold u32, u16. rewrite Z.shiftl_mul_pow2 by lia.
    rewrite (Z.mod_small (a * 2 ^ 8)), Z.mod_small by lia. lia.
  - intros [Ha [Hb Hl]%Forall_cons_1]%Forall_cons_1 Hacc Hs. pose proof (word_sum_bound l Hl).
    assert (u16 (Z.shiftl a 8) = Z.shiftl a 8) as ->
      by (unfold u16; apply Z.mod_small; rewrite Z.shiftl_mul_pow2; lia).
    rewrite lor_add_r by lia. assert (u32 (acc + (b + a * 2 ^ 8)) = acc + (b + a * 2 ^ 8)) as ->
      by (unfold u32; apply Z.mod_small; lia).
    rewrite IH by (done || lia). lia.
Qed.

Lemma standard_chksum_oc l : octets l -> Z.of_nat (length l) < 2 ^ 16 ->
  lwip_standard_chksum l = htons (oc (word_sum l)).
Proof.
  intros Hl Hlen. unfold lwip_standard_chksum. cbv zeta. pose proof (word_sum_bound l Hl) as Hb.
  rewrite chksum_acc_sum, Z.add_0_l by (done || lia). set (f := FOLD_U32T (word_sum l)).
  assert (Hf : 0 <= f < 2 ^ 17 - 1) by (apply fold_bound; lia).
  assert (Ho : oc f = oc (word_sum l)) by (apply fold_oc; lia). clearbody f.
  change 0xffff0000 with (Z.shiftl (Z.ones 16) 16).
  assert (Hand : Z.land f (Z.shiftl (Z.ones 16) 16) = Z.shiftl (Z.shiftr f 16) 16).
  { apply Z.bits_inj'. intros i Hi. rewrite Z.land_spec, !Z.shiftl_spec by lia.
    destruct (Z.lt_ge_cases i 16).
    - rewrite !(Z.testbit_neg_r _ (i - 16)) by lia. by rewrite andb_false_r.
    - rewrite Z.shiftr_spec, Z.testbit_ones_nonneg by lia. replace (i - 16 + 16) with i by lia.
      destruct (Z.ltb_spec (i - 16) 16); [by rewrite andb_true_r|].
      rewrite (testbit_above f 17) by lia. done. }
  rewrite Hand, Z.shiftl_mul_pow2, Z.shiftr_div_pow2 by lia.
  destruct (Z.eqb_spec (f / 2 ^ 16 * 2 ^ 16) 0); cbn [negb]; f_equal.
  - rewrite <- Ho, oc_small by (Z.div_mod_to_equations; lia). unfold u16. apply Z.mod_small.
    Z.div_mod_to_equations; lia.
  - rewrite fold_small, Ho by done. unfold u16. apply Z.mod_small, oc_bound.
Qed.

Lemma standard_chksum_weight l : octets l -> Z.of_nat (length l) < 2 ^ 16 ->
  lwip_standard_chksum l = oc (256 * weight l).
Proof.
  intros Hl Hlen. rewrite standard_chksum_oc, swap_oc, <- oc_weight by (done || apply oc_bound).
  rewrite oc_mul by (lia || by apply weight_nonneg). done.
Qed.

(** * The complement *)
Lemma u16_lnot x : 0 <= x < 2 ^ 16 -> u16 (Z.lnot x) = 0xffff - x.
Proof. intros Hx. unfold u16, Z.lnot. Z.div_mod_to_equations; lia. Qed.
Lemma htons_complement x : 0 <= x < 2 ^ 16 -> htons (0xffff - x) = 0xffff - htons x.
Proof. intros Hx. rewrite !htons_bytes. unfold byte_of. Z.div_mod_to_equations; lia. Qed.

Lemma inet_chksum_rfc l : octets l -> Z.of_nat (length l) < 2 ^ 16 -> inet_chksum l = htons (rfc1071 l).
Proof.
  intros. unfold inet_chksum, rfc1071. rewrite standard_chksum_oc by done.
  rewrite u16_lnot by apply htons_bound. symmetry. apply htons_complement, oc_bound.
Qed.

(** * Chains of pbufs *)

Lemma oc_powers i j a b : 0 <= a -> 0 <= b ->
  oc (256 ^ (2 * Z.of_nat i) * a + 256 ^ (2 * Z.of_nat j) * b) = oc (a + b).
Proof.
  intros Ha Hb. assert (0 <= 256 ^ (2 * Z.of_nat i) * a) by (apply Z.mul_nonneg_nonneg; [apply Z.pow_nonneg|]; lia).
  assert (0 <= 256 ^ (2 * Z.of_nat j) * b) by (apply Z.mul_nonneg_nonneg; [apply Z.pow_nonneg|]; lia).
  by rewrite <- oc_add, oc_even_power, oc_add, <- oc_add_r, oc_even_power, oc_add_r by done.
Qed.

(** What the loop has after [n] bytes whose weight is [w]: their sum, swapped
    once for every pbuf of odd length. *)
Definition chain_acc (n : nat) (w : Z) : Z := oc (256 ^ (Z.of_nat n + 1) * w).

Definition chain_step (acc : Z) (d : list Z) : Z :=
  let acc := FOLD_U32T (u32 (acc + lwip_standard_chksum d)) in
  if Nat.odd (length d) then SWAP_BYTES_IN_WORD acc else acc.

Lemma chain_step_acc n w d : 0 <= w -> octets d -> Z.of_nat (length d) < 2 ^ 16 ->
  chain_step (chain_acc n w) d = chain_acc (n + length d) (w + 256 ^ Z.of_nat n * weight d).
Proof.
  intros Hw Hd Hlen. unfold chain_step. rewrite standard_chksum_weight by done.
  pose proof (weight_nonneg d Hd) as Hwd.
  pose proof (oc_bound (256 * weight d)) as B1. pose proof (oc_bound (256 ^ (Z.of_nat n + 1) * w)) as B2.
  set (x := 256 ^ (Z.of_nat n + 1) * w).
  assert (Hx : 0 <= x) by (apply Z.mul_nonneg_nonneg; [apply Z.pow_nonneg|]; lia).
  assert (Hf : FOLD_U32T (u32 (chain_acc n w + oc (256 * weight d))) = oc (x + 256 * weight d)).
  { unfold chain_acc. fold x in B2 |- *. unfold u32. rewrite Z.mod_small, fold_small by lia.
    by rewrite oc_add, oc_add_r by lia. }
  rewrite Hf. clear Hf B1 B2. cbv zeta. unfold chain_acc.
  destruct (Nat.odd (length d)) eqn:Hodd.
  - apply Nat.odd_spec in Hodd as [k Hk]. rewrite Hk. change SWAP_BYTES_IN_WORD with htons.
    rewrite swap_oc, oc_mul by (lia || apply oc_bound).
    replace (256 ^ (Z.of_nat (n + (2 * k + 1)) + 1) * (w + 256 ^ Z.of_nat n * weight d))
      with (256 ^ (2 * Z.of_nat k) * (256 * x) + 256 ^ (2 * Z.of_nat (n + k)) * (256 * (256 * weight d))).
    + rewrite oc_powers by lia. f_equal. lia.
    + unfold x. replace (Z.of_nat (n + (2 * k + 1)) + 1) with (2 * Z.of_nat k + (Z.of_nat n + 2)) by lia.
      replace (2 * Z.of_nat (n + k)) with (2 * Z.of_nat k + (Z.of_nat n + Z.of_nat n)) by lia.
      rewrite !Z.pow_add_r by lia. change (256 ^ 2) with 65536. change (256 ^ 1) with 256. ring.
  - assert (He : Nat.even (length d) = true) by (by rewrite <- Nat.negb_odd, Hodd).
    apply Nat.even_spec in He as [k Hk]. rewrite Hk.
    replace (256 ^ (Z.of_nat (n + 2 * k) + 1) * (w + 256 ^ Z.of_nat n * weight d))
      with (256 ^ (2 * Z.of_nat k) * x + 256 ^ (2 * Z.of_nat (n + k)) * (256 * weight d)).
    + by rewrite oc_powers by lia.
    + unfold x. replace (Z.of_nat (n + 2 * k) + 1) with (2 * Z.of_nat k + (Z.of_nat n + 1)) by lia.
      replace (2 * Z.of_nat (n + k)) with (2 * Z.of_nat k + (Z.of_nat n + Z.of_nat n)) by lia.
      rewrite !Z.pow_add_r by lia. change (256 ^ 1) with 256. ring.
Qed.

Lemma odd_length n z : z = Z.of_nat n -> Nat.odd n = negb (z mod 2 =? 0).
Proof.
  intros ->. destruct (Nat.odd n) eqn:Hodd.
  - apply Nat.odd_spec in Hodd as [k Hk]. symmetry. apply negb_true_iff, Z.eqb_neq. Z.div_mod_to_equations; lia.
  - assert (He : Nat.even n = true) by (by rewrite <- Nat.negb_odd, Hodd).
    apply Nat.even_spec in He as [k Hk]. symmetry. apply negb_false_iff, Z.eqb_eq. Z.div_mod_to_equations; lia.
Qed.

Lemma wp_chksum_loop s c : forall p n w (Q : Z * bool -> net -> Prop),
  chain (pbufs s) p c -> readable c -> octets (contents s c) -> data_len c < 2 ^ 16 -> 0 <= w ->
  (let d := contents s c in
   Q (chain_acc (n + length d) (w + 256 ^ Z.of_nat n * weight d), Nat.odd (n + length d)) s) ->
  wp (iter_nat (Datatypes.S (length c)) chksum_body (p, chain_acc n w, Nat.odd n)) (ends Q) s.
Proof.
  induction c as [|[q b] c IH]; intros p n w Q Hc Hr Ho Hlen Hw HQ.
  - cbn [chain] in Hc. subst p. apply wp_iter_S, wp_ret. cbn [contents length weight] in HQ.
    by rewrite Nat.add_0_r, Z.mul_0_r, Z.add_0_r in HQ.
  - destruct Hc as (-> & Hq & Hc). apply Forall_cons_1 in Hr as [[Hf Hp] Hr]. cbn [snd] in Hf, Hp.
    cbn [data_len contents] in *. apply Forall_app in Ho as [Ho1 Ho2].
    pose proof (data_of_length s q b Hf Hp) as Hdl.
    assert (0 <= data_len c) by (clear -Hr; induction Hr as [|[? ?] ? [[? ?] ?] ? ?]; cbn [data_len snd] in *; lia).
    assert (0 <= len b) by apply Hf.
    apply wp_iter_S. unfold chksum_body. apply wp_bind, (wp_get_pbuf _ _ _ _ Hq). apply wp_bind.
    apply (wp_payload_read _ _ b); [done|done|done|lia|lia|].
    rewrite skipn_0, <- Hdl, firstn_all.
    pose proof (chain_step_acc n w (data_of s q b) Hw Ho1 ltac:(lia)) as Hstep. unfold chain_step in Hstep.
    rewrite <- (odd_length (length (data_of s q b)) (len b)) by lia.
    assert (Hxor : xorb (Nat.odd n) (Nat.odd (length (data_of s q b))) = Nat.odd (n + length (data_of s q b)))
      by (by rewrite Nat.odd_add).
    assert (Hgo : wp (iter_nat (Datatypes.S (length c)) chksum_body
      (next b, chain_acc (n + length (data_of s q b)) (w + 256 ^ Z.of_nat n * weight (data_of s q b)),
       Nat.odd (n + length (data_of s q b)))) (ends Q) s).
    { apply IH; [done|done|done|lia| |].
      - apply Z.add_nonneg_nonneg; [done|]. apply Z.mul_nonneg_nonneg; [apply Z.pow_nonneg; lia|by apply weight_nonneg].
      - cbv zeta in HQ |- *. rewrite length_app, weight_app, Nat.add_assoc in HQ.
        rewrite Nat2Z.inj_add, Z.pow_add_r by lia.
        replace (w + 256 ^ Z.of_nat n * weight (data_of s q b) + _) with
          (w + 256 ^ Z.of_nat n * (weight (data_of s q b) + 256 ^ Z.of_nat (length (data_of s q b)) * weight (contents s c)))
          by ring. exact HQ. }
    rewrite <- Hstep, <- Hxor in Hgo. cbv zeta in Hgo |- *.
    destruct (Nat.odd (length (data_of s q b))); apply wp_ret.
    + by rewrite xorb_true_r in Hgo.
    + by rewrite xorb_false_r in Hgo.
Qed.

Lemma wp_chksum_chain s p c (Q : Z -> net -> Prop) :
  chain (pbufs s) p c -> NoDup c.*1 -> readable c -> octets (contents s c) -> data_len c < 2 ^ 16 ->
  Q (htons (oc (word_sum (contents s c)))) s -> wp (chksum_chain p) Q s.
Proof.
  intros Hc Hnd Hr Ho Hlen HQ. unfold chksum_chain. apply wp_bind, wp_gets, wp_bind.
  apply (wp_loop_nat (Datatypes.S (length c))); [pose proof (chain_size _ _ _ Hc Hnd); lia|].
  apply (wp_chksum_loop s c p 0 0); [done|done|done|done|done|]. cbv zeta. rewrite Nat.add_0_l.
  apply wp_ret. set (d := contents s c) in *. rewrite Z.mul_1_l, Z.add_0_l.
  pose proof (weight_nonneg d Ho) as Hw. change SWAP_BYTES_IN_WORD with htons.
  enough (He : (if Nat.odd (length d) then htons (chain_acc (length d) (weight d)) else chain_acc (length d) (weight d))
    = htons (oc (word_sum d))) by (by rewrite He).
  rewrite <- oc_weight by done. rewrite (swap_oc (oc (weight d))), oc_mul by (lia || apply oc_bound).
  unfold chain_acc. destruct (Nat.odd (length d)) eqn:Hodd.
  - apply Nat.odd_spec in Hodd as [k Hk]. rewrite Hk, swap_oc, oc_mul by
      (apply oc_bound || lia || (apply Z.mul_nonneg_nonneg; [apply Z.pow_nonneg|]; lia)).
    rewrite <- (oc_even_power (k + 1) (256 * weight d)) by lia. f_equal.
    replace (Z.of_nat (2 * k + 1) + 1) with (2 * Z.of_nat (k + 1)) by lia. ring.
  - assert (He : Nat.even (length d) = true) by (by rewrite <- Nat.negb_odd, Hodd).
    apply Nat.even_spec in He as [k Hk]. rewrite Hk, <- (oc_even_power k (256 * weight d)) by lia. f_equal.
    replace (Z.of_nat (2 * k) + 1) with (2 * Z.of_nat k + 1) by lia. rewrite Z.pow_add_r by lia.
    change (256 ^ 1) with 256. ring.
Qed.

Lemma wp_inet_chksum_pbuf s p c (Q : Z -> net -> Prop) :
  chain (pbufs s) (Some p) c -> NoDup c.*1 -> readable c -> octets (contents s c) -> data_len c < 2 ^ 16 ->
  Q (htons (rfc1071 (contents s c))) s -> wp (inet_chksum_pbuf (Some p)) Q s.
Proof.
  intros Hc Hnd Hr Ho Hlen HQ. apply wp_bind, (wp_chksum_chain _ _ _ _ Hc); [done..|]. apply wp_ret.
  change 0xffff with (Z.ones 16). pose proof (htons_bound (oc (word_sum (contents s c)))).
  rewrite Z.land_ones, Z.mod_small, u16_lnot by lia. by rewrite <- htons_complement by apply oc_bound.
Qed.

(** C40. The checksum of a packet in a chain of pbufs, in whatever pieces of even or
    odd length it comes, is the RFC 1071 checksum of its bytes, in network order. *)
Theorem inet_chksum_pbuf_rfc1071 (s : net) (p : ptr) (c : list (ptr * pbuf)) :
  chain (pbufs s) (Some p) c -> NoDup c.*1 -> readable c -> octets (contents s c) -> data_len c < 2 ^ 16 ->
  inet_chksum_pbuf (Some p) s = Ret (htons (rfc1071 (contents s c))) s.
Proof.
  intros Hc Hnd Hr Ho Hlen.
  assert (Hw : wp (inet_chksum_pbuf (Some p)) (fun r s' => r = htons (rfc1071 (contents s c)) /\ s' = s) s)
    by by apply (wp_inet_chksum_pbuf s p c).
  by apply wp_unfold in Hw as (r & s' & -> & -> & ->).
Qed.
Lemma inet_chksum_pbuf_rfc1071_witness :
  inet_chksum_pbuf (Some demo_a) copy_net = Ret (htons (rfc1071 (contents copy_net cat_head))) copy_net.
Proof.
  apply inet_chksum_pbuf_rfc1071.
  - by repeat split.
  - change (NoDup [demo_a; demo_b]). by apply (bool_decide_unpack _).
  - repeat (apply Forall_cons_2; [split; [by split|by eexists]|]). apply Forall_nil_2.
  - unfold octets. apply (bool_decide_unpack _). by vm_compute.
  - cbn. lia.
Defined.

(** A checksum verifies: when the two checksum bytes, at an even offset, hold
    the checksum of the data with zeros there, the checksum of the whole is 0. *)
Theorem inet_chksum_verifies (front back : list Z) (ck : Z) :
  octets front -> octets back -> Nat.even (length front) = true ->
  Z.of_nat (length front + length back) < 65500 ->
  ck = inet_chksum (front ++ [0; 0] ++ back) ->
  inet_chksum (front ++ [byte_of ck 0; byte_of ck 1] ++ back) = 0.
Proof.
  intros Hf Hb Hev Hlen Hck. apply Nat.even_spec in Hev as [k Hk].
  assert (Hw0 : octets [0; 0]) by (repeat (apply Forall_cons_2; [lia|]); apply Forall_nil_2).
  assert (Hwc : octets [byte_of ck 0; byte_of ck 1])
    by (repeat (apply Forall_cons_2; [apply byte_of_bound|]); apply Forall_nil_2).
  assert (Ho : forall l, octets l -> octets (front ++ l ++ back)) by (intros; by repeat apply Forall_app_2).
  assert (Hl : forall a b : Z, Z.of_nat (length (front ++ [a; b] ++ back)) < 2 ^ 16)
    by (intros; rewrite !length_app; cbn [length]; lia).
  assert (Hsum : forall hi lo, octets [hi; lo] ->
    oc (word_sum (front ++ [hi; lo] ++ back)) = oc (weight (front ++ back) + (256 * hi + lo))).
  { intros hi lo Hw. rewrite <- oc_weight by (by apply Ho). rewrite (weight_app front), (weight_app front). cbn [app weight]. rewrite Hk.
    pose proof (weight_nonneg _ Hf). pose proof (weight_nonneg _ Hb).
    apply Forall_cons_1 in Hw as [? [? _]%Forall_cons_1].
    replace (Z.of_nat (2 * k)) with (2 * Z.of_nat k) by lia.
    set (pk := 256 ^ (2 * Z.of_nat k)). assert (0 < pk) by (apply Z.pow_pos_nonneg; lia).
    transitivity (oc (weight front + pk * weight back + 256 ^ (2 * Z.of_nat k) * (256 * hi + lo))).
    - replace (weight front + pk * (256 * (hi + 256 * (lo + weight back)))) with
        (weight front + pk * (256 * hi) + 65536 * (pk * (lo + weight back))) by ring.
      rewrite <- oc_add_r, oc_65536, oc_add_r by nia. f_equal. unfold pk. ring.
    - by rewrite <- oc_add_r, oc_even_power, oc_add_r by nia. }
  rewrite inet_chksum_rfc by (auto || apply Hl). unfold rfc1071. rewrite Hsum by done.
  rewrite inet_chksum_rfc in Hck by (auto || apply Hl). unfold rfc1071 in Hck. rewrite Hsum in Hck by done.
  rewrite Z.add_0_r in Hck. rewrite htons_complement in Hck by apply oc_bound.
  set (x := weight (front ++ back)) in *.
  assert (Hx : 0 <= x) by (apply weight_nonneg; by apply Forall_app_2).
  pose proof (oc_bound x) as Hox. pose proof (htons_bound (oc x)) as Hh.
  assert (Hv : 256 * byte_of ck 0 + byte_of ck 1 = 0xffff - oc x).
  { rewrite <- (htons_htons (0xffff - oc x)), (htons_complement (oc x)), <- Hck, htons_bytes by lia. lia. }
  rewrite Hv, <- oc_add by lia. by replace (oc x + (0xffff - oc x)) with 0xffff by lia.
Qed.
Lemma inet_chksum_verifies_witness :
  inet_chksum ([69; 0; 0; 31] ++ [byte_of 14329 0; byte_of 14329 1] ++ [192; 168; 1]) = 0.
Proof.
  apply (inet_chksum_verifies [69; 0; 0; 31] [192; 168; 1] 14329).
  - by apply (bool_decide_unpack _); vm_compute.
  - by apply (bool_decide_unpack _); vm_compute.
  - reflexivity.
  - cbn. lia.
  - by vm_compute.
Defined.
