(* ===== verification/LwipTcpData.v ===== *)
(** The data of TCP: struct tcp_pcb, struct tcp_seg and the constants of
    include/lwip/tcp.h, and the globals of core/tcp.c and core/tcp_in.c, in the
    configuration of lwipopts.h. *)
From stdpp Require Import gmap.
From S2P Require Import Prelude Mmio LwipMem LwipPbuf.

(** * Constants *)
Definition TCP_MSS : Z := 1460.
Definition TCP_WND : Z := 2 * TCP_MSS.
Definition TCP_SND_BUF : Z := 2 * TCP_MSS.
Definition TCP_SND_QUEUELEN : Z := 12.
Definition TCP_SNDQUEUELEN_OVERFLOW : Z := 0xffff - 3.
Definition TCP_WND_UPDATE_THRESHOLD : Z := TCP_WND / 4.
Definition TCP_TTL : Z := 255.
Definition TCP_HLEN : Z := 20.
Definition TCP_MAXRTX : Z := 12.
Definition TCP_SYNMAXRTX : Z := 6.
Definition TCP_TMR_INTERVAL : Z := 250.
Definition TCP_SLOW_INTERVAL : Z := 2 * TCP_TMR_INTERVAL.
Definition TCP_FIN_WAIT_TIMEOUT : Z := 20000.
Definition TCP_SYN_RCVD_TIMEOUT : Z := 20000.
Definition TCP_MSL : Z := 60000.
Definition TCP_KEEPIDLE_DEFAULT : Z := 7200000.
Definition TCP_KEEPINTVL_DEFAULT : Z := 75000.
Definition TCP_KEEPCNT_DEFAULT : Z := 9.
Definition TCP_MAXIDLE : Z := TCP_KEEPCNT_DEFAULT * TCP_KEEPINTVL_DEFAULT.
Definition TCP_PRIO_NORMAL : Z := 64.
Definition TCP_PRIO_MAX : Z := 127.
Definition TCP_LOCAL_PORT_RANGE_START : Z := 4096.
Definition TCP_LOCAL_PORT_RANGE_END : Z := 0x7fff.

(** Flags of a header. *)
Definition TCP_FIN : Z := 0x01.
Definition TCP_SYN : Z := 0x02.
Definition TCP_RST : Z := 0x04.
Definition TCP_PSH : Z := 0x08.
Definition TCP_ACK : Z := 0x10.
Definition TCP_FLAGS : Z := 0x3f.
(** Flags of a control block. *)
Definition TF_ACK_DELAY : Z := 0x01.
Definition TF_ACK_NOW : Z := 0x02.
Definition TF_INFR : Z := 0x04.
Definition TF_FIN : Z := 0x20.
Definition TF_NODELAY : Z := 0x40.
Definition TF_NAGLEMEMERR : Z := 0x80.
(** Flags of input processing. *)
Definition TF_RESET : Z := 0x08.
Definition TF_CLOSED : Z := 0x10.
Definition TF_GOT_FIN : Z := 0x20.
(** Options of a segment, and arguments of tcp_write. *)
Definition TF_SEG_OPTS_MSS : Z := 0x01.
Definition TCP_WRITE_FLAG_COPY : Z := 0x01.
Definition TCP_WRITE_FLAG_MORE : Z := 0x02.

Definition SOF_DEBUG : Z := 0x01.
Definition SOF_ACCEPTCONN : Z := 0x02.
Definition SOF_KEEPALIVE : Z := 0x08.
Definition SOF_DONTROUTE : Z := 0x10.
Definition SOF_LINGER : Z := 0x80.
Definition SOF_OOBINLINE : Z := 0x100.

Definition ERR_ABRT : Z := -5.
Definition ERR_RST : Z := -6.
Definition ERR_CONN : Z := -8.
Definition ERR_ISCONN : Z := -13.

(** * Control blocks *)
Inductive tcp_state : Set :=
  | CLOSED | LISTEN | SYN_SENT | SYN_RCVD | ESTABLISHED | FIN_WAIT_1 | FIN_WAIT_2 | CLOSE_WAIT | CLOSING | LAST_ACK | TIME_WAIT.
#[global] Instance tcp_state_eq_dec : EqDecision tcp_state.
Proof. solve_decision. Defined.
(** The value of the enumerator. *)
Definition state_num (s : tcp_state) : Z :=
  match s with
  | CLOSED => 0 | LISTEN => 1 | SYN_SENT => 2 | SYN_RCVD => 3 | ESTABLISHED => 4 | FIN_WAIT_1 => 5
  | FIN_WAIT_2 => 6 | CLOSE_WAIT => 7 | CLOSING => 8 | LAST_ACK => 9 | TIME_WAIT => 10
  end.

(** The members of struct tcp_pcb that are numbers; those of the first line are
    common to struct tcp_pcb_listen. *)
Inductive tcp_member : Set :=
  | local_ip | remote_ip | so_options | tos | ttl | prio | local_port
  | remote_port | pcb_flags | rcv_nxt | rcv_wnd | rcv_ann_wnd | rcv_ann_right_edge | tmr | polltmr | pollinterval
  | rtime | mss | rttest | rtseq | sa | sv | rto | nrtx | lastack | dupacks | cwnd | ssthresh | snd_nxt | snd_wnd
  | snd_wl1 | snd_wl2 | snd_lbb | acked | snd_buf | snd_queuelen | keep_idle | persist_cnt | persist_backoff | keep_cnt_sent.
#[global] Instance tcp_member_eq_dec : EqDecision tcp_member.
Proof. solve_decision. Defined.

Definition s16 (z : Z) : Z := (z + 2 ^ 15) mod 2 ^ 16 - 2 ^ 15.
(** The conversion to the type of a member. *)
Definition member_type (f : tcp_member) : Z -> Z :=
  match f with
  | local_ip | remote_ip | rcv_nxt | rcv_ann_right_edge | tmr | rttest | rtseq | lastack | snd_nxt | snd_wl1 | snd_wl2
  | snd_lbb | keep_idle | persist_cnt => u32
  | so_options | local_port | remote_port | rcv_wnd | rcv_ann_wnd | mss | cwnd | ssthresh | snd_wnd | acked | snd_buf
  | snd_queuelen => u16
  | tos | ttl | prio | pcb_flags | polltmr | pollinterval | nrtx | dupacks | persist_backoff | keep_cnt_sent => u8
  | rtime | sa | sv | rto => s16
  end.

(** The callbacks of the application, by number; no function of this program is one.
    Two defaults belong to TCP itself. *)
Inductive tcp_recv_fn : Set := tcp_recv_null_ptr | tcp_recv_app (n : nat).
Inductive tcp_accept_fn : Set := tcp_accept_null_ptr | tcp_accept_app (n : nat).

(** [struct tcp_pcb], in the pool MEMP_TCP_PCB, and [struct tcp_pcb_listen], in the
    pool MEMP_TCP_PCB_LISTEN, which has the common members only. *)
Record tcp_pcb : Type := TcpPcb {
  tcp_next : option ptr;
  state : tcp_state;
  callback_arg : option ptr;
  accept : option tcp_accept_fn;
  num : tcp_member -> Z;
  unsent : option ptr;
  unacked : option ptr;
  refused_data : option ptr;
  sent : option nat;
  tcp_recv_cb : option tcp_recv_fn;
  connected : option nat;
  poll : option nat;
  errf : option nat
}.
Definition tcp_pcb_zero : tcp_pcb := TcpPcb None CLOSED None None (fun _ => 0) None None None None None None None None.
Definition with_tcp_next (p : option ptr) (c : tcp_pcb) : tcp_pcb :=
  TcpPcb p (state c) (callback_arg c) (accept c) (num c) (unsent c) (unacked c) (refused_data c) (sent c) (tcp_recv_cb c) (connected c) (poll c) (errf c).
Definition with_state (s : tcp_state) (c : tcp_pcb) : tcp_pcb :=
  TcpPcb (tcp_next c) s (callback_arg c) (accept c) (num c) (unsent c) (unacked c) (refused_data c) (sent c) (tcp_recv_cb c) (connected c) (poll c) (errf c).
Definition with_callback_arg (a : option ptr) (c : tcp_pcb) : tcp_pcb :=
  TcpPcb (tcp_next c) (state c) a (accept c) (num c) (unsent c) (unacked c) (refused_data c) (sent c) (tcp_recv_cb c) (connected c) (poll c) (errf c).
Definition with_accept (f : option tcp_accept_fn) (c : tcp_pcb) : tcp_pcb :=
  TcpPcb (tcp_next c) (state c) (callback_arg c) f (num c) (unsent c) (unacked c) (refused_data c) (sent c) (tcp_recv_cb c) (connected c) (poll c) (errf c).
(** [pcb->f = v] *)
Definition with_num (f : tcp_member) (v : Z) (c : tcp_pcb) : tcp_pcb :=
  TcpPcb (tcp_next c) (state c) (callback_arg c) (accept c) (fun g => if decide (g = f) then member_type f v else num c g)
    (unsent c) (unacked c) (refused_data c) (sent c) (tcp_recv_cb c) (connected c) (poll c) (errf c).
Definition with_unsent (q : option ptr) (c : tcp_pcb) : tcp_pcb :=
  TcpPcb (tcp_next c) (state c) (callback_arg c) (accept c) (num c) q (unacked c) (refused_data c) (sent c) (tcp_recv_cb c) (connected c) (poll c) (errf c).
Definition with_unacked (q : option ptr) (c : tcp_pcb) : tcp_pcb :=
  TcpPcb (tcp_next c) (state c) (callback_arg c) (accept c) (num c) (unsent c) q (refused_data c) (sent c) (tcp_recv_cb c) (connected c) (poll c) (errf c).
Definition with_refused_data (p : option ptr) (c : tcp_pcb) : tcp_pcb :=
  TcpPcb (tcp_next c) (state c) (callback_arg c) (accept c) (num c) (unsent c) (unacked c) p (sent c) (tcp_recv_cb c) (connected c) (poll c) (errf c).
Definition with_sent (f : option nat) (c : tcp_pcb) : tcp_pcb :=
  TcpPcb (tcp_next c) (state c) (callback_arg c) (accept c) (num c) (unsent c) (unacked c) (refused_data c) f (tcp_recv_cb c) (connected c) (poll c) (errf c).
Definition with_tcp_recv (f : option tcp_recv_fn) (c : tcp_pcb) : tcp_pcb :=
  TcpPcb (tcp_next c) (state c) (callback_arg c) (accept c) (num c) (unsent c) (unacked c) (refused_data c) (sent c) f (connected c) (poll c) (errf c).
Definition with_connected (f : option nat) (c : tcp_pcb) : tcp_pcb :=
  TcpPcb (tcp_next c) (state c) (callback_arg c) (accept c) (num c) (unsent c) (unacked c) (refused_data c) (sent c) (tcp_recv_cb c) f (poll c) (errf c).
Definition with_poll (f : option nat) (c : tcp_pcb) : tcp_pcb :=
  TcpPcb (tcp_next c) (state c) (callback_arg c) (accept c) (num c) (unsent c) (unacked c) (refused_data c) (sent c) (tcp_recv_cb c) (connected c) f (errf c).
Definition with_errf (f : option nat) (c : tcp_pcb) : tcp_pcb :=
  TcpPcb (tcp_next c) (state c) (callback_arg c) (accept c) (num c) (unsent c) (unacked c) (refused_data c) (sent c) (tcp_recv_cb c) (connected c) (poll c) f.

(** [struct tcp_seg], in the pool MEMP_TCP_SEG.  A pointer to bytes is a pbuf and an
    offset in its memory. *)
Record tcp_seg : Type := TcpSeg {
  seg_next : option ptr;
  seg_p : option ptr;
  dataptr : option (ptr * Z);
  seg_len : Z;
  seg_flags : Z;
  seg_tcphdr : option (ptr * Z)
}.
Definition tcp_seg_zero : tcp_seg := TcpSeg None None None 0 0 None.
Definition with_seg_next (q : option ptr) (g : tcp_seg) : tcp_seg := TcpSeg q (seg_p g) (dataptr g) (seg_len g) (seg_flags g) (seg_tcphdr g).
Definition with_seg_p (p : option ptr) (g : tcp_seg) : tcp_seg := TcpSeg (seg_next g) p (dataptr g) (seg_len g) (seg_flags g) (seg_tcphdr g).
Definition with_dataptr (d : option (ptr * Z)) (g : tcp_seg) : tcp_seg := TcpSeg (seg_next g) (seg_p g) d (seg_len g) (seg_flags g) (seg_tcphdr g).
Definition with_seg_len (n : Z) (g : tcp_seg) : tcp_seg := TcpSeg (seg_next g) (seg_p g) (dataptr g) (u16 n) (seg_flags g) (seg_tcphdr g).
Definition with_seg_flags (n : Z) (g : tcp_seg) : tcp_seg := TcpSeg (seg_next g) (seg_p g) (dataptr g) (seg_len g) (u8 n) (seg_tcphdr g).
Definition with_seg_tcphdr (h : option (ptr * Z)) (g : tcp_seg) : tcp_seg := TcpSeg (seg_next g) (seg_p g) (dataptr g) (seg_len g) (seg_flags g) h.

(** * Globals *)

(** The four lists of control blocks. *)
Inductive tcp_list : Set := tcp_bound_pcbs | tcp_listen_pcbs | tcp_active_pcbs | tcp_tw_pcbs.
#[global] Instance tcp_list_eq_dec : EqDecision tcp_list.
Proof. solve_decision. Defined.
(** The numbers: the clock and the timer of tcp.c, the static locals of tcp_new_port and
    tcp_next_iss, and what tcp_input leaves for the functions it calls. *)
Inductive tcp_global : Set := tcp_ticks | tcp_timer | last_port | last_iss | seqno | ackno | seg_flags_in | tcplen | recv_flags.
#[global] Instance tcp_global_eq_dec : EqDecision tcp_global.
Proof. solve_decision. Defined.
Definition global_type (g : tcp_global) : Z -> Z :=
  match g with
  | tcp_ticks | last_iss | seqno | ackno => u32
  | last_port | tcplen => u16
  | tcp_timer | seg_flags_in | recv_flags => u8
  end.
Record tcp_vars : Type := Tcp {
  heads : tcp_list -> option ptr;
  tcp_tab : gmap ptr tcp_pcb;
  seg_tab : gmap ptr tcp_seg;
  globals : tcp_global -> Z;
  tcp_input_pcb : option ptr;
  in_iphdr : option (ptr * Z);
  in_tcphdr : option (ptr * Z);
  inseg : tcp_seg;
  recv_data : option ptr
}.
Definition set_head (k : tcp_list) (p : option ptr) (t : tcp_vars) : tcp_vars :=
  Tcp (fun k' => if decide (k' = k) then p else heads t k') (tcp_tab t) (seg_tab t) (globals t) (tcp_input_pcb t) (in_iphdr t) (in_tcphdr t) (inseg t) (recv_data t).
Definition set_tcp_tab (m : gmap ptr tcp_pcb) (t : tcp_vars) : tcp_vars :=
  Tcp (heads t) m (seg_tab t) (globals t) (tcp_input_pcb t) (in_iphdr t) (in_tcphdr t) (inseg t) (recv_data t).
Definition set_seg_tab (m : gmap ptr tcp_seg) (t : tcp_vars) : tcp_vars :=
  Tcp (heads t) (tcp_tab t) m (globals t) (tcp_input_pcb t) (in_iphdr t) (in_tcphdr t) (inseg t) (recv_data t).
Definition set_global_num (g : tcp_global) (v : Z) (t : tcp_vars) : tcp_vars :=
  Tcp (heads t) (tcp_tab t) (seg_tab t) (fun g' => if decide (g' = g) then global_type g v else globals t g')
    (tcp_input_pcb t) (in_iphdr t) (in_tcphdr t) (inseg t) (recv_data t).
Definition set_input_pcb (p : option ptr) (t : tcp_vars) : tcp_vars :=
  Tcp (heads t) (tcp_tab t) (seg_tab t) (globals t) p (in_iphdr t) (in_tcphdr t) (inseg t) (recv_data t).
Definition set_in_headers (ip tcp : option (ptr * Z)) (t : tcp_vars) : tcp_vars :=
  Tcp (heads t) (tcp_tab t) (seg_tab t) (globals t) (tcp_input_pcb t) ip tcp (inseg t) (recv_data t).
Definition set_inseg (g : tcp_seg) (t : tcp_vars) : tcp_vars :=
  Tcp (heads t) (tcp_tab t) (seg_tab t) (globals t) (tcp_input_pcb t) (in_iphdr t) (in_tcphdr t) g (recv_data t).
Definition set_recv_data (p : option ptr) (t : tcp_vars) : tcp_vars :=
  Tcp (heads t) (tcp_tab t) (seg_tab t) (globals t) (tcp_input_pcb t) (in_iphdr t) (in_tcphdr t) (inseg t) p.

(** At start-up the statics are zero, but for the two static locals with an initializer. *)
Definition tcp_zero : tcp_vars :=
  Tcp (fun _ => None) ∅ ∅ (fun g => match g with last_port => TCP_LOCAL_PORT_RANGE_START | last_iss => 6510 | _ => 0 end)
    None None None tcp_seg_zero None.
