(* ===== verification/LwipStack.v ===== *)
(** The state of the network stack above the packet buffers: the UDP control
    blocks (udp.h), the network interfaces (netif.h), the ARP cache (etharp.c)
    and the statics of ip.c, with the accesses to them and to packet headers.
    An operation of a program that contains the stack is a statement on that
    program's state: the class [HasStack] says where the stack is in it. *)
From stdpp Require Import gmap.
From S2P Require Import Prelude Mmio LwipMem LwipPbuf LwipInet.
From S2P Require LwipTcpData.

(** * Function pointers *)

(** The functions of the program whose address is stored in an interface or a
    control block. *)
Inductive recv_fn : Set := udp_receive_callback_ptr | udp_upd_receive_callback_ptr.
Inductive input_fn : Set := ethernet_input_ptr.
Inductive output_fn : Set := etharp_output_ptr.
Inductive linkoutput_fn : Set := low_level_output_ptr.

(** * struct udp_pcb *)
Record udp_pcb : Type := UdpPcb {
  local_ip : Z; remote_ip : Z;
  so_options : Z; tos : Z; ttl : Z;
  pcb_next : option ptr;
  pcb_flags : Z;
  local_port : Z; remote_port : Z;
  recv : option recv_fn;
  recv_arg : option ptr
}.
Definition udp_pcb_zero : udp_pcb := UdpPcb 0 0 0 0 0 None 0 0 0 None None.
Definition with_local_ip (a : Z) (u : udp_pcb) : udp_pcb :=
  UdpPcb a (remote_ip u) (so_options u) (tos u) (ttl u) (pcb_next u) (pcb_flags u) (local_port u) (remote_port u) (recv u) (recv_arg u).
Definition with_remote_ip (a : Z) (u : udp_pcb) : udp_pcb :=
  UdpPcb (local_ip u) a (so_options u) (tos u) (ttl u) (pcb_next u) (pcb_flags u) (local_port u) (remote_port u) (recv u) (recv_arg u).
Definition with_ttl (n : Z) (u : udp_pcb) : udp_pcb :=
  UdpPcb (local_ip u) (remote_ip u) (so_options u) (tos u) n (pcb_next u) (pcb_flags u) (local_port u) (remote_port u) (recv u) (recv_arg u).
Definition with_pcb_next (p : option ptr) (u : udp_pcb) : udp_pcb :=
  UdpPcb (local_ip u) (remote_ip u) (so_options u) (tos u) (ttl u) p (pcb_flags u) (local_port u) (remote_port u) (recv u) (recv_arg u).
Definition with_pcb_flags (n : Z) (u : udp_pcb) : udp_pcb :=
  UdpPcb (local_ip u) (remote_ip u) (so_options u) (tos u) (ttl u) (pcb_next u) n (local_port u) (remote_port u) (recv u) (recv_arg u).
Definition with_local_port (n : Z) (u : udp_pcb) : udp_pcb :=
  UdpPcb (local_ip u) (remote_ip u) (so_options u) (tos u) (ttl u) (pcb_next u) (pcb_flags u) n (remote_port u) (recv u) (recv_arg u).
Definition with_remote_port (n : Z) (u : udp_pcb) : udp_pcb :=
  UdpPcb (local_ip u) (remote_ip u) (so_options u) (tos u) (ttl u) (pcb_next u) (pcb_flags u) (local_port u) n (recv u) (recv_arg u).
Definition with_recv (f : option recv_fn) (arg : option ptr) (u : udp_pcb) : udp_pcb :=
  UdpPcb (local_ip u) (remote_ip u) (so_options u) (tos u) (ttl u) (pcb_next u) (pcb_flags u) (local_port u) (remote_port u) f arg.

(** * struct netif *)

(** Of [struct dhcp] only what the rest of the stack looks at. *)
Record dhcp : Type := Dhcp { dhcp_state : Z; dhcp_pcb : option ptr; offered_ip_addr : Z }.

(** Interfaces are objects of the program; a pointer to one is its number. *)
Definition netif_ptr : Set := nat.
Record netif : Type := Netif {
  nif_next : option netif_ptr;
  nif_ip_addr : Z; nif_netmask : Z; nif_gw : Z;
  nif_input : option input_fn;
  nif_output : option output_fn;
  nif_linkoutput : option linkoutput_fn;
  nif_state : option ptr;
  nif_dhcp : option dhcp;
  hwaddr_len : Z;
  hwaddr : list Z;
  mtu : Z;
  nif_flags : Z;
  nif_name : Z * Z;
  nif_num : Z
}.
(** An object of static storage duration. *)
Definition netif_zero : netif := Netif None 0 0 0 None None None None None 0 (repeat 0 6) 0 0 (0, 0) 0.
Definition with_nif_next (n : option netif_ptr) (f : netif) : netif :=
  Netif n (nif_ip_addr f) (nif_netmask f) (nif_gw f) (nif_input f) (nif_output f) (nif_linkoutput f) (nif_state f)
    (nif_dhcp f) (hwaddr_len f) (hwaddr f) (mtu f) (nif_flags f) (nif_name f) (nif_num f).
Definition with_addrs (ip mask gw : Z) (f : netif) : netif :=
  Netif (nif_next f) ip mask gw (nif_input f) (nif_output f) (nif_linkoutput f) (nif_state f)
    (nif_dhcp f) (hwaddr_len f) (hwaddr f) (mtu f) (nif_flags f) (nif_name f) (nif_num f).
Definition with_nif_flags (n : Z) (f : netif) : netif :=
  Netif (nif_next f) (nif_ip_addr f) (nif_netmask f) (nif_gw f) (nif_input f) (nif_output f) (nif_linkoutput f)
    (nif_state f) (nif_dhcp f) (hwaddr_len f) (hwaddr f) (mtu f) n (nif_name f) (nif_num f).
Definition with_link (st : option ptr) (name : Z * Z) (o : output_fn) (l : linkoutput_fn) (f : netif) : netif :=
  Netif (nif_next f) (nif_ip_addr f) (nif_netmask f) (nif_gw f) (nif_input f) (Some o) (Some l)
    st (nif_dhcp f) (hwaddr_len f) (hwaddr f) (mtu f) (nif_flags f) name (nif_num f).
Definition with_device (len : Z) (mac : list Z) (m fl : Z) (f : netif) : netif :=
  Netif (nif_next f) (nif_ip_addr f) (nif_netmask f) (nif_gw f) (nif_input f) (nif_output f) (nif_linkoutput f)
    (nif_state f) (nif_dhcp f) len mac m fl (nif_name f) (nif_num f).

(** netif.h *)
Definition NETIF_FLAG_UP : Z := 0x01.
Definition NETIF_FLAG_BROADCAST : Z := 0x02.
Definition NETIF_FLAG_LINK_UP : Z := 0x10.
Definition NETIF_FLAG_ETHARP : Z := 0x20.

(** * The ARP cache *)
Inductive etharp_state : Set := ETHARP_STATE_EMPTY | ETHARP_STATE_PENDING | ETHARP_STATE_STABLE.
#[global] Instance etharp_state_eq_dec : EqDecision etharp_state.
Proof. solve_decision. Defined.
Record etharp_entry : Type := EtharpEntry {
  arp_q : option ptr;
  arp_ipaddr : Z;
  arp_ethaddr : list Z;
  arp_state : etharp_state;
  arp_ctime : Z;
  arp_netif : option netif_ptr
}.
Definition etharp_entry_zero : etharp_entry := EtharpEntry None 0 (repeat 0 6) ETHARP_STATE_EMPTY 0 None.
Definition with_arp_q (q : option ptr) (e : etharp_entry) : etharp_entry :=
  EtharpEntry q (arp_ipaddr e) (arp_ethaddr e) (arp_state e) (arp_ctime e) (arp_netif e).
Definition with_arp_ipaddr (a : Z) (e : etharp_entry) : etharp_entry :=
  EtharpEntry (arp_q e) a (arp_ethaddr e) (arp_state e) (arp_ctime e) (arp_netif e).
Definition with_arp_ethaddr (a : list Z) (e : etharp_entry) : etharp_entry :=
  EtharpEntry (arp_q e) (arp_ipaddr e) a (arp_state e) (arp_ctime e) (arp_netif e).
Definition with_arp_state (st : etharp_state) (e : etharp_entry) : etharp_entry :=
  EtharpEntry (arp_q e) (arp_ipaddr e) (arp_ethaddr e) st (arp_ctime e) (arp_netif e).
Definition with_arp_ctime (n : Z) (e : etharp_entry) : etharp_entry :=
  EtharpEntry (arp_q e) (arp_ipaddr e) (arp_ethaddr e) (arp_state e) n (arp_netif e).
Definition with_arp_netif (n : option netif_ptr) (e : etharp_entry) : etharp_entry :=
  EtharpEntry (arp_q e) (arp_ipaddr e) (arp_ethaddr e) (arp_state e) (arp_ctime e) n.

(** [struct etharp_q_entry], in the pool MEMP_ARP_QUEUE. *)
Record etharp_q_entry : Type := EtharpQEntry { q_next : option ptr; q_p : option ptr }.

Definition ARP_TABLE_SIZE : Z := 10.

(** * The state of the stack *)

(** A header of the packet that is being processed: it starts at a byte of the
    memory of a pbuf. *)
Definition header : Type := ptr * Z.

(** ** The statics of core/ipv4/ip_frag.c *)

(** [struct ip_reassdata], in the pool MEMP_REASSDATA. *)
Record ip_reassdata : Type := IpReassdata {
  rd_next : option ptr;
  rd_p : option ptr;
  rd_iphdr : list Z;
  datagram_len : Z;
  rd_flags : Z;
  rd_timer : Z
}.
Definition with_rd_next (n : option ptr) (r : ip_reassdata) : ip_reassdata :=
  IpReassdata n (rd_p r) (rd_iphdr r) (datagram_len r) (rd_flags r) (rd_timer r).
Definition with_rd_p (p : option ptr) (r : ip_reassdata) : ip_reassdata :=
  IpReassdata (rd_next r) p (rd_iphdr r) (datagram_len r) (rd_flags r) (rd_timer r).
Definition with_rd_iphdr (l : list Z) (r : ip_reassdata) : ip_reassdata :=
  IpReassdata (rd_next r) (rd_p r) l (datagram_len r) (rd_flags r) (rd_timer r).
Definition with_datagram_len (n : Z) (r : ip_reassdata) : ip_reassdata :=
  IpReassdata (rd_next r) (rd_p r) (rd_iphdr r) n (rd_flags r) (rd_timer r).
Definition with_rd_flags (n : Z) (r : ip_reassdata) : ip_reassdata :=
  IpReassdata (rd_next r) (rd_p r) (rd_iphdr r) (datagram_len r) n (rd_timer r).
Definition with_rd_timer (n : Z) (r : ip_reassdata) : ip_reassdata :=
  IpReassdata (rd_next r) (rd_p r) (rd_iphdr r) (datagram_len r) (rd_flags r) n.
Record reass_state : Type := Reass {
  reassdatagrams : option ptr;
  reassdata : gmap ptr ip_reassdata;
  ip_reass_pbufcount : Z
}.

(** ** The control blocks of core/raw.c *)

(** A receive callback of an application, by number; no function of this program is one. *)
Definition raw_recv_fn : Set := nat.
(** [struct raw_pcb], in the pool MEMP_RAW_PCB. *)
Record raw_pcb : Type := RawPcb {
  raw_local_ip : Z;
  raw_remote_ip : Z;
  raw_so_options : Z;
  raw_tos : Z;
  raw_ttl : Z;
  raw_next : option ptr;
  raw_protocol : Z;
  raw_recv_cb : option raw_recv_fn;
  raw_recv_arg : option ptr
}.
Definition raw_pcb_zero : raw_pcb := RawPcb 0 0 0 0 0 None 0 None None.
Definition with_raw_local_ip (a : Z) (u : raw_pcb) : raw_pcb :=
  RawPcb a (raw_remote_ip u) (raw_so_options u) (raw_tos u) (raw_ttl u) (raw_next u) (raw_protocol u) (raw_recv_cb u) (raw_recv_arg u).
Definition with_raw_remote_ip (a : Z) (u : raw_pcb) : raw_pcb :=
  RawPcb (raw_local_ip u) a (raw_so_options u) (raw_tos u) (raw_ttl u) (raw_next u) (raw_protocol u) (raw_recv_cb u) (raw_recv_arg u).
Definition with_raw_ttl (n : Z) (u : raw_pcb) : raw_pcb :=
  RawPcb (raw_local_ip u) (raw_remote_ip u) (raw_so_options u) (raw_tos u) n (raw_next u) (raw_protocol u) (raw_recv_cb u) (raw_recv_arg u).
Definition with_raw_next (n : option ptr) (u : raw_pcb) : raw_pcb :=
  RawPcb (raw_local_ip u) (raw_remote_ip u) (raw_so_options u) (raw_tos u) (raw_ttl u) n (raw_protocol u) (raw_recv_cb u) (raw_recv_arg u).
Definition with_raw_protocol (n : Z) (u : raw_pcb) : raw_pcb :=
  RawPcb (raw_local_ip u) (raw_remote_ip u) (raw_so_options u) (raw_tos u) (raw_ttl u) (raw_next u) n (raw_recv_cb u) (raw_recv_arg u).
Definition with_raw_recv (f : option raw_recv_fn) (arg : option ptr) (u : raw_pcb) : raw_pcb :=
  RawPcb (raw_local_ip u) (raw_remote_ip u) (raw_so_options u) (raw_tos u) (raw_ttl u) (raw_next u) (raw_protocol u) f arg.
Record raw_state : Type := Raws { raw_pcbs : option ptr; raw_tab : gmap ptr raw_pcb }.

Record stack : Type := Stack {
  s_net : net;
  udp_pcbs : option ptr;
  pcbs : gmap ptr udp_pcb;
  netif_list : option netif_ptr;
  netif_default : option netif_ptr;
  netifs : gmap netif_ptr netif;
  netifnum : Z;
  arp_table : list etharp_entry;
  etharp_cached_entry : Z;
  arp_queues : gmap ptr etharp_q_entry;
  ip_id : Z;
  current_netif : option netif_ptr;
  current_header : option header;
  reass : reass_state;
  raws : raw_state;
  tcps : LwipTcpData.tcp_vars
}.
Definition set_net (n : net) (s : stack) : stack :=
  Stack n (udp_pcbs s) (pcbs s) (netif_list s) (netif_default s) (netifs s) (netifnum s) (arp_table s)
    (etharp_cached_entry s) (arp_queues s) (ip_id s) (current_netif s) (current_header s) (reass s) (raws s) (tcps s).
Definition set_udp_pcbs (p : option ptr) (s : stack) : stack :=
  Stack (s_net s) p (pcbs s) (netif_list s) (netif_default s) (netifs s) (netifnum s) (arp_table s)
    (etharp_cached_entry s) (arp_queues s) (ip_id s) (current_netif s) (current_header s) (reass s) (raws s) (tcps s).
Definition set_pcbs (m : gmap ptr udp_pcb) (s : stack) : stack :=
  Stack (s_net s) (udp_pcbs s) m (netif_list s) (netif_default s) (netifs s) (netifnum s) (arp_table s)
    (etharp_cached_entry s) (arp_queues s) (ip_id s) (current_netif s) (current_header s) (reass s) (raws s) (tcps s).
Definition set_netif_list (p : option netif_ptr) (s : stack) : stack :=
  Stack (s_net s) (udp_pcbs s) (pcbs s) p (netif_default s) (netifs s) (netifnum s) (arp_table s)
    (etharp_cached_entry s) (arp_queues s) (ip_id s) (current_netif s) (current_header s) (reass s) (raws s) (tcps s).
Definition set_netif_default (p : option netif_ptr) (s : stack) : stack :=
  Stack (s_net s) (udp_pcbs s) (pcbs s) (netif_list s) p (netifs s) (netifnum s) (arp_table s)
    (etharp_cached_entry s) (arp_queues s) (ip_id s) (current_netif s) (current_header s) (reass s) (raws s) (tcps s).
Definition set_netifs (m : gmap netif_ptr netif) (s : stack) : stack :=
  Stack (s_net s) (udp_pcbs s) (pcbs s) (netif_list s) (netif_default s) m (netifnum s) (arp_table s)
    (etharp_cached_entry s) (arp_queues s) (ip_id s) (current_netif s) (current_header s) (reass s) (raws s) (tcps s).
Definition set_netifnum (n : Z) (s : stack) : stack :=
  Stack (s_net s) (udp_pcbs s) (pcbs s) (netif_list s) (netif_default s) (netifs s) n (arp_table s)
    (etharp_cached_entry s) (arp_queues s) (ip_id s) (current_netif s) (current_header s) (reass s) (raws s) (tcps s).
Definition set_arp_table (l : list etharp_entry) (s : stack) : stack :=
  Stack (s_net s) (udp_pcbs s) (pcbs s) (netif_list s) (netif_default s) (netifs s) (netifnum s) l
    (etharp_cached_entry s) (arp_queues s) (ip_id s) (current_netif s) (current_header s) (reass s) (raws s) (tcps s).
Definition set_cached_entry (i : Z) (s : stack) : stack :=
  Stack (s_net s) (udp_pcbs s) (pcbs s) (netif_list s) (netif_default s) (netifs s) (netifnum s) (arp_table s)
    i (arp_queues s) (ip_id s) (current_netif s) (current_header s) (reass s) (raws s) (tcps s).
Definition set_arp_queues (m : gmap ptr etharp_q_entry) (s : stack) : stack :=
  Stack (s_net s) (udp_pcbs s) (pcbs s) (netif_list s) (netif_default s) (netifs s) (netifnum s) (arp_table s)
    (etharp_cached_entry s) m (ip_id s) (current_netif s) (current_header s) (reass s) (raws s) (tcps s).
Definition set_ip_id (n : Z) (s : stack) : stack :=
  Stack (s_net s) (udp_pcbs s) (pcbs s) (netif_list s) (netif_default s) (netifs s) (netifnum s) (arp_table s)
    (etharp_cached_entry s) (arp_queues s) n (current_netif s) (current_header s) (reass s) (raws s) (tcps s).
Definition set_current (n : option netif_ptr) (h : option header) (s : stack) : stack :=
  Stack (s_net s) (udp_pcbs s) (pcbs s) (netif_list s) (netif_default s) (netifs s) (netifnum s) (arp_table s)
    (etharp_cached_entry s) (arp_queues s) (ip_id s) n h (reass s) (raws s) (tcps s).
Definition set_reass (r : reass_state) (s : stack) : stack :=
  Stack (s_net s) (udp_pcbs s) (pcbs s) (netif_list s) (netif_default s) (netifs s) (netifnum s) (arp_table s)
    (etharp_cached_entry s) (arp_queues s) (ip_id s) (current_netif s) (current_header s) r (raws s) (tcps s).
Definition set_raws (r : raw_state) (s : stack) : stack :=
  Stack (s_net s) (udp_pcbs s) (pcbs s) (netif_list s) (netif_default s) (netifs s) (netifnum s) (arp_table s)
    (etharp_cached_entry s) (arp_queues s) (ip_id s) (current_netif s) (current_header s) (reass s) r (tcps s).
Definition set_tcps (t : LwipTcpData.tcp_vars) (s : stack) : stack :=
  Stack (s_net s) (udp_pcbs s) (pcbs s) (netif_list s) (netif_default s) (netifs s) (netifnum s) (arp_table s)
    (etharp_cached_entry s) (arp_queues s) (ip_id s) (current_netif s) (current_header s) (reass s) (raws s) t.

(** At start-up the statics are zero; [objs] are the interface objects. *)
Definition stack_zero (n : net) (objs : gmap netif_ptr netif) : stack :=
  Stack n None ∅ None None objs 0 (repeat etharp_entry_zero 10) 0 ∅ 0 None None (Reass None ∅ 0) (Raws None ∅) LwipTcpData.tcp_zero.

(** * Statements of a program that contains the stack *)
Class HasStack (W : Type) := {
  get_stack : W -> stack;
  put_stack : stack -> W -> W
}.
Class StackLaws (W : Type) `{HasStack W} := {
  get_put_stack : forall s w, get_stack (put_stack s w) = s;
  put_get_stack : forall w, put_stack (get_stack w) w = w;
  put_put_stack : forall s s' w, put_stack s (put_stack s' w) = put_stack s w
}.

#[global] Instance stack_HasStack : HasStack stack := {| get_stack := id; put_stack := fun s _ => s |}.
#[global] Instance stack_StackLaws : StackLaws stack.
Proof. by split. Qed.

Section statements.
Context {W : Type} `{HasStack W}.

Definition on_stack {A} (m : M stack A) : M W A := fun w =>
  match m (get_stack w) with
  | Ret a s => Ret a (put_stack s w)
  | Fault => Fault
  | Diverge => Diverge
  end.
Definition gets_stack {A} (f : stack -> A) : M W A := gets (fun w => f (get_stack w)).
Definition mod_stack (f : stack -> stack) : M W unit := modify (fun w => put_stack (f (get_stack w)) w).

(** A statement on the packet buffers. *)
Definition on_net {A} (m : M net A) : M W A := fun w =>
  match m (s_net (get_stack w)) with
  | Ret a n => Ret a (put_stack (set_net n (get_stack w)) w)
  | Fault => Fault
  | Diverge => Diverge
  end.

(** ** Control blocks, interfaces and cache entries *)
Definition get_pcb (p : ptr) : M W udp_pcb :=
  r ← gets_stack (fun s => pcbs s !! p); match r with Some u => mret u | None => fault end.
Definition put_pcb (p : ptr) (u : udp_pcb) : M W unit := mod_stack (fun s => set_pcbs (<[p := u]> (pcbs s)) s).
Definition upd_pcb (p : ptr) (f : udp_pcb -> udp_pcb) : M W unit := u ← get_pcb p; put_pcb p (f u).

Definition get_netif (p : netif_ptr) : M W netif :=
  r ← gets_stack (fun s => netifs s !! p); match r with Some f => mret f | None => fault end.
Definition put_netif (p : netif_ptr) (f : netif) : M W unit := mod_stack (fun s => set_netifs (<[p := f]> (netifs s)) s).
Definition upd_netif (p : netif_ptr) (g : netif -> netif) : M W unit := f ← get_netif p; put_netif p (g f).

Definition get_arp (i : Z) : M W etharp_entry := l ← gets_stack arp_table; index l i.
Definition put_arp (i : Z) (e : etharp_entry) : M W unit :=
  l ← gets_stack arp_table; l ← store l i e; mod_stack (set_arp_table l).
Definition upd_arp (i : Z) (f : etharp_entry -> etharp_entry) : M W unit := e ← get_arp i; put_arp i (f e).

Definition get_q (p : ptr) : M W etharp_q_entry :=
  r ← gets_stack (fun s => arp_queues s !! p); match r with Some e => mret e | None => fault end.
Definition put_q (p : ptr) (e : etharp_q_entry) : M W unit :=
  mod_stack (fun s => set_arp_queues (<[p := e]> (arp_queues s)) s).

(** ** Headers *)

(** [p->payload] as a pointer to a header. *)
Definition payload_hdr (p : ptr) : M W header :=
  b ← on_net (get_pbuf p);
  match payload b with Some o => mret (p, o) | None => fault end.

(** Byte [i] of a header: it has to lie in the memory of the pbuf. *)
Definition hdr8 (h : header) (i : Z) : M W Z :=
  on_net (b ← get_pbuf (fst h);
          if (0 <=? snd h + i) && (snd h + i <? room b)
          then gets (fun s => bytes_at s (fst h) (snd h + i)) else fault).
Definition set_hdr8 (h : header) (i v : Z) : M W unit :=
  on_net (b ← get_pbuf (fst h);
          if (0 <=? snd h + i) && (snd h + i <? room b)
          then modify (put_byte (fst h) (snd h + i) v) else fault).
(** Fields of two and four bytes, as this little-endian machine loads them. *)
Definition hdr16 (h : header) (i : Z) : M W Z :=
  b0 ← hdr8 h i; b1 ← hdr8 h (i + 1); mret (b0 + 2 ^ 8 * b1).
Definition hdr32 (h : header) (i : Z) : M W Z :=
  w0 ← hdr16 h i; w1 ← hdr16 h (i + 2); mret (w0 + 2 ^ 16 * w1).
Definition set_hdr16 (h : header) (i v : Z) : M W unit :=
  _ ← set_hdr8 h i (byte_of v 0); set_hdr8 h (i + 1) (byte_of v 1).
Definition set_hdr32 (h : header) (i v : Z) : M W unit :=
  _ ← set_hdr16 h i (u16 v); set_hdr16 h (i + 2) (u16 (Z.shiftr v 16)).
(** An array of bytes. *)
Fixpoint hdr_bytes (h : header) (i : Z) (n : nat) : M W (list Z) :=
  match n with
  | O => mret []
  | Datatypes.S n => v ← hdr8 h i; l ← hdr_bytes h (i + 1) n; mret (v :: l)
  end.
Fixpoint set_hdr_bytes (h : header) (i : Z) (l : list Z) : M W unit :=
  match l with [] => mret tt | v :: l => _ ← set_hdr8 h i v; set_hdr_bytes h (i + 1) l end.
End statements.

(** * ip_addr.c *)

(** Every address but the interface's own whose host part is all ones, and the
    two addresses that are broadcast everywhere. *)
Definition ip_addr_isbroadcast (addr : Z) (f : netif) : bool :=
  if (not32 addr =? IP_ADDR_ANY_VALUE) || (addr =? IP_ADDR_ANY_VALUE) then true
  else if Z.land (nif_flags f) NETIF_FLAG_BROADCAST =? 0 then false
  else if addr =? nif_ip_addr f then false
  else ip_addr_netcmp addr (nif_ip_addr f) (nif_netmask f)
       && (Z.land addr (not32 (nif_netmask f)) =? Z.land IP_ADDR_BROADCAST_VALUE (not32 (nif_netmask f))).
