(* ===== verification/LwipStackSpec.v ===== *)
(** The rules for statements on the stack's state.  A program that contains the
    stack is kept in the form [put_stack s w]: the rules read and change [s], and
    the rest of the program, [w], stays what it was. *)
From stdpp Require Import gmap.
From S2P Require Import Prelude Mmio LwipMem LwipPbuf LwipInet LwipStack.

Lemma set_net_same s : set_net (s_net s) s = s.
Proof. by destruct s. Qed.

Section rules.
Context {W : Type} `{StackLaws W}.
Implicit Types (s : stack) (w : W).

(** A statement started in [w] is one started in [put_stack (get_stack w) w]. *)
Lemma wp_stack {A} (m : M W A) (Q : A -> W -> Prop) w :
  wp m Q (put_stack (get_stack w) w) -> wp m Q w.
Proof. by rewrite put_get_stack. Qed.

Lemma wp_gets_stack {A} (f : stack -> A) (Q : A -> W -> Prop) s w :
  Q (f s) (put_stack s w) -> wp (gets_stack f) Q (put_stack s w).
Proof. unfold wp, gets_stack, gets. by rewrite get_put_stack. Qed.

Lemma wp_mod_stack (f : stack -> stack) (Q : unit -> W -> Prop) s w :
  Q tt (put_stack (f s) w) -> wp (mod_stack f) Q (put_stack s w).
Proof. unfold wp, mod_stack, modify. by rewrite get_put_stack, put_put_stack. Qed.

Lemma wp_on_net {A} (m : M net A) (Q : A -> W -> Prop) s w :
  wp m (fun a n => Q a (put_stack (set_net n s) w)) (s_net s) -> wp (on_net m) Q (put_stack s w).
Proof.
  unfold wp, on_net. rewrite get_put_stack. destruct (m (s_net s)); [|done..]. by rewrite put_put_stack.
Qed.

(** ** Control blocks *)
Lemma wp_get_pcb p u (Q : udp_pcb -> W -> Prop) s w :
  pcbs s !! p = Some u -> Q u (put_stack s w) -> wp (get_pcb p) Q (put_stack s w).
Proof. intros Hp HQ. unfold get_pcb. apply wp_bind, wp_gets_stack. rewrite Hp. by apply wp_ret. Qed.
Lemma wp_put_pcb p u (Q : unit -> W -> Prop) s w :
  Q tt (put_stack (set_pcbs (<[p := u]> (pcbs s)) s) w) -> wp (put_pcb p u) Q (put_stack s w).
Proof. intros HQ. unfold put_pcb. by apply wp_mod_stack. Qed.
Lemma wp_upd_pcb p f u (Q : unit -> W -> Prop) s w :
  pcbs s !! p = Some u -> Q tt (put_stack (set_pcbs (<[p := f u]> (pcbs s)) s) w) ->
  wp (upd_pcb p f) Q (put_stack s w).
Proof. intros Hp HQ. by apply wp_bind, (wp_get_pcb _ u), wp_put_pcb. Qed.

(** ** Entries of the ARP cache *)
Lemma wp_get_arp i e (Q : etharp_entry -> W -> Prop) s w :
  0 <= i -> arp_table s !! Z.to_nat i = Some e -> Q e (put_stack s w) -> wp (get_arp i) Q (put_stack s w).
Proof. intros Hi He HQ. apply wp_bind, wp_gets_stack. by apply (wp_index _ _ e). Qed.
Lemma wp_put_arp i e (Q : unit -> W -> Prop) s w :
  0 <= i < Z.of_nat (length (arp_table s)) ->
  Q tt (put_stack (set_arp_table (<[Z.to_nat i := e]> (arp_table s)) s) w) ->
  wp (put_arp i e) Q (put_stack s w).
Proof. intros Hi HQ. apply wp_bind, wp_gets_stack, wp_bind, wp_store; [done|]. by apply wp_mod_stack. Qed.
Lemma wp_upd_arp i f e (Q : unit -> W -> Prop) s w :
  0 <= i -> arp_table s !! Z.to_nat i = Some e ->
  Q tt (put_stack (set_arp_table (<[Z.to_nat i := f e]> (arp_table s)) s) w) ->
  wp (upd_arp i f) Q (put_stack s w).
Proof.
  intros Hi He HQ. apply wp_bind, (wp_get_arp _ e); [done..|]. apply wp_put_arp; [|done].
  apply lookup_lt_Some in He. lia.
Qed.

(** ** Elements of packet queues *)
Lemma wp_get_q p e (Q : etharp_q_entry -> W -> Prop) s w :
  arp_queues s !! p = Some e -> Q e (put_stack s w) -> wp (get_q p) Q (put_stack s w).
Proof. intros Hp HQ. unfold get_q. apply wp_bind, wp_gets_stack. rewrite Hp. by apply wp_ret. Qed.

(** ** Interfaces *)
Lemma wp_get_netif n f (Q : netif -> W -> Prop) s w :
  netifs s !! n = Some f -> Q f (put_stack s w) -> wp (get_netif n) Q (put_stack s w).
Proof. intros Hp HQ. unfold get_netif. apply wp_bind, wp_gets_stack. rewrite Hp. by apply wp_ret. Qed.
End rules.
