(* ===== verification/LwipHeader.v ===== *)
(** Headers in packet buffers: what a store to a byte of a pbuf changes, and the
    rules for the fields of a protocol header. *)
From stdpp Require Import gmap.
From S2P Require MemFacts.
From S2P Require Import Prelude Mmio LwipMem LwipMemSpec LwipMemTheorems LwipPbuf LwipPbufSpec LwipPbufTheorems LwipPbufOwn.
From S2P Require Import LwipInet LwipStack LwipStackSpec.

(** * Stores to user data keep the heap *)
Lemma seg_above m x v l : forall q p q' p', x < p -> seg m q p l q' p' -> seg (set8 x v m) q p l q' p'.
Proof.
  induction l as [|[n u] l IH]; intros q p q' p' Hx; cbn [seg]; [done|]. intros (H1 & H2 & H3 & Hn & Hs).
  unfold hd_prev, hd_next, hd_used, le16, set8 in *.
  repeat rewrite (proj2 (Z.eqb_neq _ x)) by lia. do 4 (split; [done|]). by apply IH; [lia|].
Qed.
Lemma in_data_above p l x : in_data p l x -> Forall (fun b => 20 <= fst b) l -> p + 8 <= x.
Proof.
  revert p. induction l as [|[n u] l IH]; intros p; cbn [in_data]; [done|]. change SIZEOF_STRUCT_MEM with 8.
  intros [[_ ?]|Hx] [Hn Hl]%Forall_cons_1; [lia|]. specialize (IH _ Hx Hl). cbn in Hn. lia.
Qed.
Lemma seg_sizes m q p l q' p' : seg m q p l q' p' -> Forall (fun b => 20 <= fst b) l.
Proof.
  revert q p. induction l as [|[n u] l IH]; intros q p; cbn [seg]; [by constructor|]. intros (_ & _ & _ & Hn & Hs).
  apply Forall_cons_2; [done|by eapply IH].
Qed.
Lemma seg_data m x v l : forall q p q' p', in_data p l x -> seg m q p l q' p' -> seg (set8 x v m) q p l q' p' /\ x < p'.
Proof.
  induction l as [|[n u] l IH]; intros q p q' p'; cbn [in_data seg]; [done|]. change SIZEOF_STRUCT_MEM with 8.
  intros Hx (H1 & H2 & H3 & Hn & Hs). pose proof (seg_sizes _ _ _ _ _ _ Hs) as Hsz.
  assert (p + 8 <= x) as Hp by (destruct Hx as [[_ ?]|Hx]; [lia|pose proof (in_data_above _ _ _ Hx Hsz); lia]).
  assert (seg (set8 x v m) p (p + n) l q' p' /\ x < p') as [Hs' Hx'].
  { destruct Hx as [[_ Hx]|Hx]; [|by apply IH]. split; [apply seg_above; [lia|done]|]. pose proof (seg_total _ _ _ _ _ _ Hs) as [? _]. lia. }
  split; [|done]. unfold hd_prev, hd_next, hd_used, le16, set8 in *.
  repeat rewrite (proj2 (Z.eqb_neq _ x)) by lia. done.
Qed.
Lemma heap_ok_store h l x v : heap_ok h l -> in_data 0 l x -> heap_ok (set_ram (set8 x v (ram h)) h) l.
Proof.
  intros [(H1 & H2 & q & Hs) Hc Ha Hf] Hx. destruct (seg_data _ _ v _ _ _ _ _ Hx Hs) as [Hs' Hlt].
  split; [|done..]. split; [|split; [|by exists q]].
  - unfold hd_next, le16, set8 in *. cbn [ram set_ram]. by rewrite !(proj2 (Z.eqb_neq _ x)) by lia.
  - unfold hd_used, set8 in *. cbn [ram set_ram]. by rewrite (proj2 (Z.eqb_neq _ x)) by lia.
Qed.

(** Two blocks that are used do not overlap. *)
Lemma spans_above p l i k : (i, k) ∈ spans p l -> Forall (fun b => 20 <= fst b) l -> p + 8 <= i /\ 12 <= k.
Proof.
  revert p. induction l as [|[n u] l IH]; intros p; cbn [spans]; [by intros ?%elem_of_nil|]. change SIZEOF_STRUCT_MEM with 8.
  intros [Hi|Hi]%elem_of_app [Hn Hl]%Forall_cons_1; cbn [fst] in Hn.
  - destruct u; [|by apply elem_of_nil in Hi]. apply list_elem_of_singleton in Hi as [= -> ->]. lia.
  - destruct (IH _ Hi Hl). lia.
Qed.
Lemma spans_disjoint p l i k j k' : Forall (fun b => 20 <= fst b) l -> (i, k) ∈ spans p l -> (j, k') ∈ spans p l -> i <> j ->
  i + k <= j \/ j + k' <= i.
Proof.
  intros Hl. revert p. induction Hl as [|[n u] l Hn Hl IH]; intros p; cbn [spans]; [by intros ?%elem_of_nil|].
  intros [Hi|Hi]%elem_of_app [Hj|Hj]%elem_of_app Hne; [| | |by eapply IH];
    (destruct u; [|by try apply elem_of_nil in Hi; try apply elem_of_nil in Hj]).
  - apply list_elem_of_singleton in Hi as [= -> ->]. by apply list_elem_of_singleton in Hj as [= -> ->].
  - apply list_elem_of_singleton in Hi as [= -> ->]. destruct (spans_above _ _ _ _ Hj Hl). change SIZEOF_STRUCT_MEM with 8. lia.
  - apply list_elem_of_singleton in Hj as [= -> ->]. destruct (spans_above _ _ _ _ Hi Hl). change SIZEOF_STRUCT_MEM with 8. lia.
Qed.

(** * A store to a pbuf *)
Section store.
Variables (s : net) (l : list block) (p : ptr) (b : pbuf) (x v : Z).
Hypothesis Hok : net_ok s l.
Hypothesis Hp : pbufs s !! p = Some b.
Hypothesis Hx : 0 <= x < room b.

Lemma home_data i : p = InHeap i -> in_data 0 l (i + SIZEOF_STRUCT_PBUF + x).
Proof.
  intros ->. destruct (nok_home _ _ Hok _ _ Hp) as ((_ & k & Hk & Hr) & _). change SIZEOF_STRUCT_PBUF with 16 in *.
  eapply span_in_data; [exact Hk|lia].
Qed.
Lemma put_byte_ok : net_ok (put_byte p x v s) l.
Proof.
  pose proof home_data as Hd. destruct Hok as [H1 H2 H3 H4]. destruct p as [i|t i]; split; try done. cbn [net_heap put_byte set_heap].
  apply heap_ok_store; [done|]. by apply Hd.
Qed.
Lemma put_byte_at y : bytes_at (put_byte p x v s) p y = if y =? x then v else bytes_at s p y.
Proof.
  clear Hok Hp Hx. destruct p as [i|t i]; cbn [bytes_at put_byte net_heap set_heap ram set_ram net_pool set_pool]; unfold set8.
  - destruct (Z.eqb_spec y x) as [->|]; [by rewrite Z.eqb_refl|]. by rewrite (proj2 (Z.eqb_neq _ _)) by lia.
  - by rewrite decide_True.
Qed.
Lemma put_byte_elsewhere q c y : pbufs s !! q = Some c -> q <> p -> 0 <= y < room c -> bytes_at (put_byte p x v s) q y = bytes_at s q y.
Proof.
  intros Hq Hne Hy. pose proof (nok_home _ _ Hok _ _ Hp) as [Hhp _]. pose proof (nok_home _ _ Hok _ _ Hq) as [Hhq _].
  destruct p as [i|t i], q as [j|u j]; cbn [bytes_at put_byte net_heap set_heap ram set_ram net_pool set_pool home] in *; try done.
  - destruct Hhp as (_ & k & Hk & Hr), Hhq as (_ & k' & Hk' & Hr'). change SIZEOF_STRUCT_PBUF with 16 in *.
    pose proof (ok_laid _ _ (nok_heap _ _ Hok)) as (_ & _ & z & Hs). pose proof (seg_sizes _ _ _ _ _ _ Hs) as Hsz.
    destruct (spans_disjoint _ _ _ _ _ _ Hsz Hk Hk') as [?|?]; [congruence|..]; unfold set8; by rewrite (proj2 (Z.eqb_neq _ _)) by lia.
  - by rewrite decide_False by (intros [-> ->]; by apply Hne).
Qed.
End store.

(** * Views *)

(** The state [k] is [s] with other bytes in the memory of [p]: [m i] is the byte at
    [o + i]. *)
Record view (p : ptr) (o : Z) (m : Z -> Z) (s : net) (l : list block) (k : net) : Prop := {
  view_pbufs : pbufs k = pbufs s;
  view_ok : net_ok k l;
  view_bytes : forall i, bytes_at k p (o + i) = m i;
  view_others : forall q c y, pbufs s !! q = Some c -> q <> p -> 0 <= y < room c -> bytes_at k q y = bytes_at s q y
}.
Lemma view_refl p o s l : net_ok s l -> view p o (fun i => bytes_at s p (o + i)) s l s.
Proof. by split. Qed.
Lemma view_ext p o m m' s l k : (forall i, m i = m' i) -> view p o m s l k -> view p o m' s l k.
Proof. intros Hm [H1 H2 H3 H4]. split; [done..| |done]. intros i. by rewrite <- Hm, H3. Qed.
Lemma view_store p o m s l k b i v : view p o m s l k -> pbufs s !! p = Some b -> 0 <= o + i < room b ->
  view p o (set8 i v m) s l (put_byte p (o + i) v k).
Proof.
  intros [H1 H2 H3 H4] Hb Hi. assert (Hk : pbufs k !! p = Some b) by by rewrite H1. split.
  - by destruct p.
  - by apply (put_byte_ok k l p b).
  - intros j. rewrite put_byte_at. unfold set8. destruct (Z.eqb_spec (o + j) (o + i)), (Z.eqb_spec j i); try lia; done.
  - intros q c y Hq Hne Hy. rewrite (put_byte_elsewhere k l p b (o + i) v H2 Hk Hi q c); [by apply (H4 q c)|by rewrite H1|done|done].
Qed.

(** The first [n] bytes of a view. *)
Definition prefix (n : nat) (m : Z -> Z) : list Z := (fun i => m (Z.of_nat i)) <$> seq 0 n.
Lemma prefix_length n m : length (prefix n m) = n.
Proof. unfold prefix. by rewrite length_fmap, length_seq. Qed.
Lemma prefix_lookup n m i : (i < n)%nat -> prefix n m !! i = Some (m (Z.of_nat i)).
Proof. intros Hi. unfold prefix. by rewrite list_lookup_fmap, lookup_seq_lt. Qed.
Lemma prefix_ext n m m' : (forall i, 0 <= i < Z.of_nat n -> m i = m' i) -> prefix n m = prefix n m'.
Proof. intros Hm. apply list_fmap_ext. intros j i [-> Hj]%lookup_seq. apply Hm. lia. Qed.
Lemma prefix_app a n m : prefix (a + n) m = prefix a m ++ prefix n (fun i => m (Z.of_nat a + i)).
Proof.
  unfold prefix. rewrite seq_app, fmap_app. f_equal. rewrite <- (Nat.add_0_r (0 + a)), <- fmap_add_seq, <- list_fmap_compose.
  apply list_fmap_ext. intros j i _. cbn. f_equal. lia.
Qed.
Lemma data_prefix k p b o : payload b = Some o -> data_of k p b = prefix (Z.to_nat (len b)) (fun i => bytes_at k p (o + i)).
Proof. intros Ho. unfold data_of. by rewrite Ho. Qed.
Lemma view_data p o m s l k b : view p o m s l k -> payload b = Some o -> data_of k p b = prefix (Z.to_nat (len b)) m.
Proof. intros Hv Ho. rewrite (data_prefix _ _ _ o) by done. apply prefix_ext. intros i _. apply (view_bytes _ _ _ _ _ _ Hv). Qed.
(** The data of other pbufs. *)
Lemma view_contents p o m s l k c : view p o m s l k -> net_ok s l -> (forall q b, (q, b) ∈ c -> pbufs s !! q = Some b /\ q <> p) ->
  contents k c = contents s c.
Proof.
  intros Hv Hok. induction c as [|[q b] c IH]; intros Hin; [done|]. cbn [contents]. rewrite IH by (intros; apply Hin; by right). f_equal.
  destruct (Hin q b) as [Hq Hne]; [by left|]. destruct (nok_home _ _ Hok _ _ Hq) as (_ & [Hl Hf] & _). unfold data_of.
  destruct (payload b) as [x|]; [|done]. apply list_fmap_ext. intros j i [-> Hj]%lookup_seq. apply (view_others _ _ _ _ _ _ Hv q b); [done|done|lia].
Qed.

(** ** The fields of a header *)
Lemma set32_halves i v m j : set16 (i + 2) (u16 (Z.shiftr v 16)) (set16 i (u16 v) m) j = set32 i v m j.
Proof.
  unfold set16, set32. rewrite !MemFacts.byte_of_high, !MemFacts.byte_of_low by lia.
  destruct (Z.eqb_spec j (i + 2)), (Z.eqb_spec j (i + 2 + 1)), (Z.eqb_spec j i), (Z.eqb_spec j (i + 1)), (Z.leb_spec i j), (Z.ltb_spec j (i + 4));
    cbn [andb]; try lia; try done; subst; f_equal; lia.
Qed.

(** A field beside the one that is stored. *)
Lemma le16_set32_other i j v m : j + 1 < i \/ i + 3 < j -> le16 (set32 i v m) j = le16 m j.
Proof.
  intros Hij. apply MemFacts.le16_ext; unfold set32;
    [destruct (Z.leb_spec i j), (Z.ltb_spec j (i + 4))|destruct (Z.leb_spec i (j + 1)), (Z.ltb_spec (j + 1) (i + 4))]; try done; lia.
Qed.
(** Stores of bytes. *)
Lemma bytes_set8 i v m : bytes m -> 0 <= v < 2 ^ 8 -> bytes (set8 i v m).
Proof. intros Hm Hv x. unfold set8. by destruct (_ =? _). Qed.
Lemma bytes_set16 i v m : bytes m -> bytes (set16 i v m).
Proof. intros Hm x. unfold set16. repeat destruct (_ =? _); [apply MemFacts.byte_of_range|apply MemFacts.byte_of_range|done]. Qed.
Lemma bytes_set32 i v m : bytes m -> bytes (set32 i v m).
Proof. intros Hm x. unfold set32. destruct (_ && _); [apply MemFacts.byte_of_range|done]. Qed.

Section fields.
Context {W : Type} `{StackLaws W}.
Variables (p : ptr) (o : Z) (s : net) (l : list block) (b : pbuf).
Hypothesis Hp : pbufs s !! p = Some b.
Implicit Types (t : stack) (w : W) (m : Z -> Z) (k : net).

(** The offsets that are inside the memory of the pbuf. *)
Definition inside (i n : Z) : Prop := 0 <= o + i /\ o + i + n <= room b.

Lemma wp_payload_hdr k m t w (Q : header -> W -> Prop) : view p o m s l k -> payload b = Some o ->
  Q (p, o) (put_stack (set_net k t) w) -> wp (payload_hdr p) Q (put_stack (set_net k t) w).
Proof.
  intros Hv Ho HQ. apply wp_bind, wp_on_net, (wp_get_pbuf _ b); [cbn [s_net set_net]; by rewrite (view_pbufs _ _ _ _ _ _ Hv)|]. rewrite Ho. by apply wp_ret.
Qed.
Lemma wp_hdr8 k m i t w (Q : Z -> W -> Prop) : view p o m s l k -> inside i 1 ->
  Q (m i) (put_stack (set_net k t) w) -> wp (hdr8 (p, o) i) Q (put_stack (set_net k t) w).
Proof.
  intros Hv [Hi1 Hi2] HQ. apply wp_on_net, wp_bind, (wp_get_pbuf _ b); [cbn [s_net set_net]; by rewrite (view_pbufs _ _ _ _ _ _ Hv)|]. cbn [fst snd].
  rewrite (proj2 (Z.leb_le _ _)), (proj2 (Z.ltb_lt _ _)) by lia. cbn [andb]. apply wp_gets. by rewrite (view_bytes _ _ _ _ _ _ Hv).
Qed.
Lemma wp_set_hdr8 k m i v t w (Q : unit -> W -> Prop) : view p o m s l k -> inside i 1 ->
  (forall k', view p o (set8 i v m) s l k' -> Q tt (put_stack (set_net k' t) w)) -> wp (set_hdr8 (p, o) i v) Q (put_stack (set_net k t) w).
Proof.
  intros Hv [Hi1 Hi2] HQ. apply wp_on_net, wp_bind, (wp_get_pbuf _ b); [cbn [s_net set_net]; by rewrite (view_pbufs _ _ _ _ _ _ Hv)|]. cbn [fst snd].
  rewrite (proj2 (Z.leb_le _ _)), (proj2 (Z.ltb_lt _ _)) by lia. cbn [andb]. apply wp_modify. apply (HQ (put_byte p (o + i) v k)).
  eapply view_store; [done..|lia].
Qed.
Lemma wp_hdr16 k m i t w (Q : Z -> W -> Prop) : view p o m s l k -> inside i 2 ->
  Q (le16 m i) (put_stack (set_net k t) w) -> wp (hdr16 (p, o) i) Q (put_stack (set_net k t) w).
Proof.
  intros Hv [Hi1 Hi2] HQ. apply wp_bind, (wp_hdr8 _ m); [done|split; lia|]. apply wp_bind, (wp_hdr8 _ m); [done|split; lia|]. by apply wp_ret.
Qed.
Lemma wp_set_hdr16 k m i v t w (Q : unit -> W -> Prop) : view p o m s l k -> inside i 2 ->
  (forall k', view p o (set16 i v m) s l k' -> Q tt (put_stack (set_net k' t) w)) -> wp (set_hdr16 (p, o) i v) Q (put_stack (set_net k t) w).
Proof.
  intros Hv [Hi1 Hi2] HQ. apply wp_bind, (wp_set_hdr8 _ m); [done|split; lia|]. intros k1 Hv1. apply (wp_set_hdr8 _ _ _ _ _ _ _ Hv1); [split; lia|].
  intros k2 Hv2. apply HQ. eapply view_ext; [|exact Hv2]. intros j. unfold set8, set16.
  destruct (Z.eqb_spec j (i + 1)), (Z.eqb_spec j i); try lia; done.
Qed.
Lemma wp_hdr32 k m i t w (Q : Z -> W -> Prop) : view p o m s l k -> inside i 4 ->
  Q (le32 m i) (put_stack (set_net k t) w) -> wp (hdr32 (p, o) i) Q (put_stack (set_net k t) w).
Proof.
  intros Hv [Hi1 Hi2] HQ. apply wp_bind, (wp_hdr16 _ m); [done|split; lia|]. apply wp_bind, (wp_hdr16 _ m); [done|split; lia|]. by apply wp_ret.
Qed.
Lemma wp_set_hdr32 k m i v t w (Q : unit -> W -> Prop) : view p o m s l k -> inside i 4 ->
  (forall k', view p o (set32 i v m) s l k' -> Q tt (put_stack (set_net k' t) w)) -> wp (set_hdr32 (p, o) i v) Q (put_stack (set_net k t) w).
Proof.
  intros Hv [Hi1 Hi2] HQ. apply wp_bind, (wp_set_hdr16 _ m); [done|split; lia|]. intros k1 Hv1. apply (wp_set_hdr16 _ _ _ _ _ _ _ Hv1); [split; lia|].
  intros k2 Hv2. apply HQ. eapply view_ext; [|exact Hv2]. apply set32_halves.
Qed.
End fields.
