(* ===== verification/LwipEtharp.v ===== *)
(** The Address Resolution Protocol: netif/etharp.c, with packet queueing.
    Addresses are passed by value: the objects that the source points to are not
    written while they are in use.  What the file calls through a pointer or in
    the files above it is a parameter: the output function of the interface,
    ip_input, and dhcp_decline. *)
From stdpp Require Import gmap.
From S2P Require Import Prelude Mmio LwipMem LwipPbuf LwipInet LwipStack.

(** * Constants and layouts *)
Definition ETHARP_HWADDR_LEN : Z := 6.
Definition ARP_MAXAGE : Z := 240.
Definition ARP_MAXPENDING : Z := 2.
Definition HWTYPE_ETHERNET : Z := 1.
Definition ETHTYPE_ARP : Z := 0x0806.
Definition ETHTYPE_IP : Z := 0x0800.
Definition ARP_REQUEST : Z := 1.
Definition ARP_REPLY : Z := 2.
Definition ETHARP_TRY_HARD : Z := 1.
Definition ETHARP_FIND_ONLY : Z := 2.
Definition DHCP_CHECKING : Z := 8.

(** [struct eth_hdr] *)
Definition eth_dest : Z := 0.
Definition eth_src : Z := 6.
Definition eth_type : Z := 12.
Definition SIZEOF_ETH_HDR : Z := 14.
(** [struct etharp_hdr] *)
Definition arp_hwtype : Z := 14.
Definition arp_proto : Z := 16.
Definition arp_hwlen_protolen : Z := 18.
Definition arp_opcode : Z := 20.
Definition arp_shwaddr : Z := 22.
Definition arp_sipaddr : Z := 28.
Definition arp_dhwaddr : Z := 32.
Definition arp_dipaddr : Z := 38.
Definition SIZEOF_ETHARP_HDR : Z := 42.
(** [ip.src] of [struct ethip_hdr] *)
Definition ethip_src : Z := 26.

Definition ethbroadcast : list Z := [0xff; 0xff; 0xff; 0xff; 0xff; 0xff].
Definition ethzero : list Z := [0; 0; 0; 0; 0; 0].

(** * find_entry: the candidates of the sweep *)
Record candidates : Type := Candidates {
  old_pending : Z; old_stable : Z; empty_entry : Z; old_queue : Z;
  age_pending : Z; age_stable : Z; age_queue : Z
}.
Definition no_candidates : candidates := Candidates ARP_TABLE_SIZE ARP_TABLE_SIZE ARP_TABLE_SIZE ARP_TABLE_SIZE 0 0 0.
Definition with_empty (i : Z) (c : candidates) : candidates :=
  Candidates (old_pending c) (old_stable c) i (old_queue c) (age_pending c) (age_stable c) (age_queue c).
Definition with_old_queue (i age : Z) (c : candidates) : candidates :=
  Candidates (old_pending c) (old_stable c) (empty_entry c) i (age_pending c) (age_stable c) age.
Definition with_old_pending (i age : Z) (c : candidates) : candidates :=
  Candidates i (old_stable c) (empty_entry c) (old_queue c) age (age_stable c) (age_queue c).
Definition with_old_stable (i age : Z) (c : candidates) : candidates :=
  Candidates (old_pending c) i (empty_entry c) (old_queue c) (age_pending c) age (age_queue c).

Definition matches (ipaddr : option Z) (e : etharp_entry) : bool :=
  match ipaddr with Some a => ip_addr_cmp a (arp_ipaddr e) | None => false end.

(** What the sweep does with one entry: it found the address, or goes on. *)
Definition sweep_entry (ipaddr : option Z) (i : Z) (e : etharp_entry) (c : candidates) : Z + candidates :=
  if (empty_entry c =? ARP_TABLE_SIZE) && bool_decide (arp_state e = ETHARP_STATE_EMPTY) then inr (with_empty i c)
  else match arp_state e with
  | ETHARP_STATE_PENDING =>
      if matches ipaddr e then inl i
      else if bool_decide (arp_q e <> None) then
        inr (if age_queue c <=? arp_ctime e then with_old_queue i (arp_ctime e) c else c)
      else inr (if age_pending c <=? arp_ctime e then with_old_pending i (arp_ctime e) c else c)
  | ETHARP_STATE_STABLE =>
      if matches ipaddr e then inl i
      else inr (if age_stable c <=? arp_ctime e then with_old_stable i (arp_ctime e) c else c)
  | ETHARP_STATE_EMPTY => inr c
  end.

Section etharp.
Context {W : Type} `{HasStack W}.

Definition sweep_body (ipaddr : option Z) (a : Z * candidates) : M W (Z * candidates + (Z + candidates)) :=
  let '(i, c) := a in
  if i <? ARP_TABLE_SIZE then
    e ← get_arp i;
    match sweep_entry ipaddr i e c with
    | inl i => mret (inr (inl i))
    | inr c => mret (inl (u8 (i + 1), c))
    end
  else mret (inr (inr c)).

(** ** Queues of packets *)
(** The elements of a queue come from a pool of 30. *)
Definition queue_fuel : positive := 31.

Definition free_q_body (q : option ptr) : M W (option ptr + unit) :=
  match q with
  | None => mret (inr tt)
  | Some r =>
      e ← get_q r;
      _ ← on_net (pbuf_free (q_p e));
      _ ← mod_stack (fun s => set_arp_queues (delete r (arp_queues s)) s);
      _ ← on_net (memp_free MEMP_ARP_QUEUE (Some r));
      mret (inl (q_next e))
  end.
Definition free_etharp_q (q : option ptr) : M W unit := loop queue_fuel free_q_body q.

(** ** etharp_tmr *)
Definition expired (e : etharp_entry) : bool :=
  (bool_decide (arp_state e = ETHARP_STATE_STABLE) && (ARP_MAXAGE <=? arp_ctime e))
  || (bool_decide (arp_state e = ETHARP_STATE_PENDING) && (ARP_MAXPENDING <=? arp_ctime e)).

Definition tmr_body (i : Z) : M W (Z + unit) :=
  if i <? ARP_TABLE_SIZE then
    _ ← upd_arp i (fun e => with_arp_ctime (u8 (arp_ctime e + 1)) e);
    e ← get_arp i;
    _ ← (if expired e then
           _ ← (match arp_q e with
                | Some q => _ ← free_etharp_q (Some q); upd_arp i (with_arp_q None)
                | None => mret tt
                end);
           upd_arp i (with_arp_state ETHARP_STATE_EMPTY)
         else mret tt);
    mret (inl (u8 (i + 1)))
  else mret (inr tt).
Definition etharp_tmr : M W unit := loop 11 tmr_body 0.

(** ** find_entry *)

(** The least destructive entry to recycle; [None] where there is none. *)
Definition choose_entry (c : candidates) : M W (option Z) :=
  if empty_entry c <? ARP_TABLE_SIZE then mret (Some (empty_entry c))
  else if old_stable c <? ARP_TABLE_SIZE then mret (Some (old_stable c))
  else if old_pending c <? ARP_TABLE_SIZE then mret (Some (old_pending c))
  else if old_queue c <? ARP_TABLE_SIZE then
    e ← get_arp (old_queue c);
    _ ← free_etharp_q (arp_q e);
    _ ← upd_arp (old_queue c) (with_arp_q None);
    mret (Some (old_queue c))
  else mret None.

Definition create_entry (ipaddr : option Z) (i : Z) : M W Z :=
  _ ← upd_arp i (with_arp_state ETHARP_STATE_EMPTY);
  _ ← (match ipaddr with Some a => upd_arp i (with_arp_ipaddr a) | None => mret tt end);
  _ ← upd_arp i (with_arp_ctime 0);
  _ ← mod_stack (set_cached_entry i);
  mret i.

Definition find_entry (ipaddr : option Z) (fl : Z) : M W Z :=
  cached ← gets_stack etharp_cached_entry;
  hit ← (match ipaddr with
         | Some _ => e ← get_arp cached;
             mret (bool_decide (arp_state e = ETHARP_STATE_STABLE) && matches ipaddr e)
         | None => mret false
         end);
  if (hit : bool) then mret cached
  else
    r ← loop 11 (sweep_body ipaddr) (0, no_candidates);
    match r with
    | inl i => _ ← mod_stack (set_cached_entry i); mret i
    | inr c =>
        if ((empty_entry c =? ARP_TABLE_SIZE) && (Z.land fl ETHARP_TRY_HARD =? 0))
           || negb (Z.land fl ETHARP_FIND_ONLY =? 0) then mret ERR_MEM
        else
          i ← choose_entry c;
          match i with
          | None => mret ERR_MEM
          | Some i => create_entry ipaddr i
          end
    end.

(** ** Sending *)
Variable call_linkoutput : linkoutput_fn -> netif_ptr -> option ptr -> M W Z.

(** [netif->linkoutput(netif, p)] *)
Definition linkoutput (n : netif_ptr) (p : option ptr) : M W Z :=
  f ← get_netif n;
  match nif_linkoutput f with Some lo => call_linkoutput lo n p | None => fault end.

(** [while (k > 0) { k--; ... }] *)
Fixpoint count_down (k : nat) (f : Z -> M W unit) : M W unit :=
  match k with O => mret tt | Datatypes.S k => _ ← f (Z.of_nat k); count_down k f end.

(** Byte [k] of an address. *)
Definition addr_byte (a : list Z) (k : Z) : M W Z := index a k.

Definition etharp_send_ip (n : netif_ptr) (p : ptr) (src dst : list Z) : M W Z :=
  ethhdr ← payload_hdr p;
  _ ← count_down 6 (fun k =>
        d ← addr_byte dst k; _ ← set_hdr8 ethhdr (eth_dest + k) d;
        s ← addr_byte src k; set_hdr8 ethhdr (eth_src + k) s);
  _ ← set_hdr16 ethhdr eth_type (htons ETHTYPE_IP);
  linkoutput n (Some p).

(** ** update_arp_entry *)

(** Send the packets that were waiting for the entry [i]. *)
Definition send_queue_body (n : netif_ptr) (i : Z) (ethaddr : list Z) (_ : unit) : M W (unit + unit) :=
  e ← get_arp i;
  match arp_q e with
  | None => mret (inr tt)
  | Some q =>
      qe ← get_q q;
      _ ← upd_arp i (with_arp_q (q_next qe));
      _ ← mod_stack (fun s => set_arp_queues (delete q (arp_queues s)) s);
      _ ← on_net (memp_free MEMP_ARP_QUEUE (Some q));
      match q_p qe with
      | None => fault
      | Some p =>
          f ← get_netif n;
          _ ← etharp_send_ip n p (hwaddr f) ethaddr;
          _ ← on_net (pbuf_free (Some p));
          mret (inl tt)
      end
  end.

Definition update_arp_entry (n : netif_ptr) (ipaddr : Z) (ethaddr : list Z) (fl : Z) : M W Z :=
  f ← get_netif n;
  if ip_addr_isany (Some ipaddr) || ip_addr_isbroadcast ipaddr f || ip_addr_ismulticast ipaddr then mret ERR_ARG
  else
    i ← find_entry (Some ipaddr) fl;
    if i <? 0 then mret i
    else
      _ ← upd_arp i (with_arp_state ETHARP_STATE_STABLE);
      _ ← upd_arp i (with_arp_netif (Some n));
      _ ← upd_arp i (with_arp_ethaddr ethaddr);
      _ ← upd_arp i (with_arp_ctime 0);
      _ ← loop queue_fuel (send_queue_body n i ethaddr) tt;
      mret ERR_OK.

(** It answers the index; the addresses that the source also points to are those
    of the entry. *)
Definition etharp_find_addr (ipaddr : Z) : M W Z :=
  i ← find_entry (Some ipaddr) ETHARP_FIND_ONLY;
  if 0 <=? i then
    e ← get_arp i;
    if bool_decide (arp_state e = ETHARP_STATE_STABLE) then mret i else mret (-1)
  else mret (-1).

(** ** Input *)
Definition etharp_ip_input (n : netif_ptr) (p : ptr) : M W unit :=
  hdr ← payload_hdr p;
  src ← hdr32 hdr ethip_src;
  f ← get_netif n;
  if negb (ip_addr_netcmp src (nif_ip_addr f) (nif_netmask f)) then mret tt
  else
    mac ← hdr_bytes hdr eth_src 6;
    _ ← update_arp_entry n src mac 0;
    mret tt.

(** dhcp.c: dhcp_arp_reply. *)
Variable dhcp_decline : netif_ptr -> M W unit.
Definition dhcp_arp_reply (n : netif_ptr) (addr : Z) : M W unit :=
  f ← get_netif n;
  match nif_dhcp f with
  | Some d =>
      if (dhcp_state d =? DHCP_CHECKING) && ip_addr_cmp addr (offered_ip_addr d) then dhcp_decline n else mret tt
  | None => mret tt
  end.

(** The reply to a request is made in the packet that brought it. *)
Definition arp_reply (n : netif_ptr) (ethaddr : list Z) (hdr : header) (p : ptr) : M W unit :=
  f ← get_netif n;
  _ ← set_hdr16 hdr arp_opcode (htons ARP_REPLY);
  sip ← hdr32 hdr arp_sipaddr;
  _ ← set_hdr32 hdr arp_dipaddr sip;
  _ ← set_hdr32 hdr arp_sipaddr (nif_ip_addr f);
  _ ← count_down 6 (fun i =>
        s ← hdr8 hdr (arp_shwaddr + i); _ ← set_hdr8 hdr (arp_dhwaddr + i) s;
        s ← hdr8 hdr (arp_shwaddr + i); _ ← set_hdr8 hdr (eth_dest + i) s;
        m ← addr_byte ethaddr i;
        _ ← set_hdr8 hdr (arp_shwaddr + i) m;
        set_hdr8 hdr (eth_src + i) m);
  _ ← linkoutput n (Some p);
  mret tt.

Definition etharp_arp_input (n : netif_ptr) (ethaddr : list Z) (p : ptr) : M W unit :=
  b ← on_net (get_pbuf p);
  if len b <? SIZEOF_ETHARP_HDR then _ ← on_net (pbuf_free (Some p)); mret tt
  else
    hdr ← payload_hdr p;
    hwtype ← hdr16 hdr arp_hwtype;
    lens ← hdr16 hdr arp_hwlen_protolen;
    proto ← hdr16 hdr arp_proto;
    type ← hdr16 hdr eth_type;
    if negb (hwtype =? htons HWTYPE_ETHERNET) || negb (lens =? htons (Z.lor (Z.shiftl ETHARP_HWADDR_LEN 8) 4))
       || negb (proto =? htons ETHTYPE_IP) || negb (type =? htons ETHTYPE_ARP) then
      _ ← on_net (pbuf_free (Some p)); mret tt
    else
      sipaddr ← hdr32 hdr arp_sipaddr;
      dipaddr ← hdr32 hdr arp_dipaddr;
      f ← get_netif n;
      let for_us := negb (nif_ip_addr f =? 0) && ip_addr_cmp dipaddr (nif_ip_addr f) in
      shwaddr ← hdr_bytes hdr arp_shwaddr 6;
      _ ← update_arp_entry n sipaddr shwaddr (if for_us then ETHARP_TRY_HARD else 0);
      opcode ← hdr16 hdr arp_opcode;
      _ ← (if htons opcode =? ARP_REQUEST then
             if for_us then arp_reply n ethaddr hdr p else mret tt
           else if htons opcode =? ARP_REPLY then dhcp_arp_reply n sipaddr
           else mret tt);
      _ ← on_net (pbuf_free (Some p));
      mret tt.

(** ** Output *)
Definition etharp_raw (n : netif_ptr) (ethsrc ethdst hwsrc : list Z) (ipsrc : Z) (hwdst : list Z)
    (ipdst opcode : Z) : M W Z :=
  p ← on_net (pbuf_alloc PBUF_RAW SIZEOF_ETHARP_HDR PBUF_RAM);
  match p with
  | None => mret ERR_MEM
  | Some p =>
      hdr ← payload_hdr p;
      _ ← set_hdr16 hdr arp_opcode (htons opcode);
      _ ← count_down 6 (fun k =>
            v ← addr_byte hwsrc k; _ ← set_hdr8 hdr (arp_shwaddr + k) v;
            v ← addr_byte hwdst k; _ ← set_hdr8 hdr (arp_dhwaddr + k) v;
            v ← addr_byte ethdst k; _ ← set_hdr8 hdr (eth_dest + k) v;
            v ← addr_byte ethsrc k; set_hdr8 hdr (eth_src + k) v);
      _ ← set_hdr32 hdr arp_sipaddr ipsrc;
      _ ← set_hdr32 hdr arp_dipaddr ipdst;
      _ ← set_hdr16 hdr arp_hwtype (htons HWTYPE_ETHERNET);
      _ ← set_hdr16 hdr arp_proto (htons ETHTYPE_IP);
      _ ← set_hdr16 hdr arp_hwlen_protolen (htons (Z.lor (Z.shiftl ETHARP_HWADDR_LEN 8) 4));
      _ ← set_hdr16 hdr eth_type (htons ETHTYPE_ARP);
      result ← linkoutput n (Some p);
      _ ← on_net (pbuf_free (Some p));
      mret result
  end.

Definition etharp_request (n : netif_ptr) (ipaddr : Z) : M W Z :=
  f ← get_netif n;
  etharp_raw n (hwaddr f) ethbroadcast (hwaddr f) (nif_ip_addr f) ethzero ipaddr ARP_REQUEST.

(** The walk over the pbufs of a packet: it stops at the first one that makes a
    copy necessary. *)
Definition copy_needed_body (p : option ptr) : M W (option ptr + option ptr) :=
  match p with
  | None => mret (inr None)
  | Some p =>
      b ← on_net (get_pbuf p);
      if bool_decide (type b <> PBUF_ROM) then mret (inr (Some p)) else mret (inl (next b))
  end.

(** The packet that is queued: a copy, of the length of what is left of the packet
    where the walk stopped, or the packet itself. *)
Definition take_over (q : ptr) : M W (option ptr) :=
  fuel ← on_net chain_fuel;
  stop ← loop fuel copy_needed_body (Some q);
  match stop with
  | Some p =>
      b ← on_net (get_pbuf p);
      p ← on_net (pbuf_alloc PBUF_RAW (tot_len b) PBUF_RAM);
      match p with
      | Some p =>
          err ← on_net (pbuf_copy (Some p) (Some q));
          if err =? ERR_OK then mret (Some p) else _ ← on_net (pbuf_free (Some p)); mret None
      | None => mret None
      end
  | None => _ ← on_net (pbuf_ref (Some q)); mret (Some q)
  end.

Definition last_q_body (r : ptr) : M W (ptr + ptr) :=
  e ← get_q r;
  match q_next e with Some r' => mret (inl r') | None => mret (inr r) end.

(** Queue the packet on the entry [i]. *)
Definition queue_packet (i : Z) (q : ptr) : M W Z :=
  p ← take_over q;
  match p with
  | None => mret ERR_MEM
  | Some p =>
      new_entry ← on_net (memp_malloc MEMP_ARP_QUEUE);
      match new_entry with
      | Some ne =>
          _ ← put_q ne (EtharpQEntry None (Some p));
          e ← get_arp i;
          _ ← (match arp_q e with
               | Some r =>
                   r ← loop queue_fuel last_q_body r;
                   re ← get_q r;
                   put_q r (EtharpQEntry (Some ne) (q_p re))
               | None => upd_arp i (with_arp_q (Some ne))
               end);
          mret ERR_OK
      | None => _ ← on_net (pbuf_free (Some p)); mret ERR_MEM
      end
  end.

Definition etharp_query (n : netif_ptr) (ipaddr : Z) (q : option ptr) : M W Z :=
  f ← get_netif n;
  if ip_addr_isbroadcast ipaddr f || ip_addr_ismulticast ipaddr || ip_addr_isany (Some ipaddr) then mret ERR_ARG
  else
    i ← find_entry (Some ipaddr) ETHARP_TRY_HARD;
    if i <? 0 then mret i
    else
      e ← get_arp i;
      _ ← (if bool_decide (arp_state e = ETHARP_STATE_EMPTY) then upd_arp i (with_arp_state ETHARP_STATE_PENDING)
           else mret tt);
      e ← get_arp i;
      result ← (if bool_decide (arp_state e = ETHARP_STATE_PENDING) || bool_decide (q = None)
                then etharp_request n ipaddr else mret ERR_MEM);
      match q with
      | None => mret result
      | Some q =>
          e ← get_arp i;
          match arp_state e with
          | ETHARP_STATE_STABLE => f ← get_netif n; etharp_send_ip n q (hwaddr f) (arp_ethaddr e)
          | ETHARP_STATE_PENDING =>
              r ← queue_packet i q;
              mret (if r =? ERR_OK then ERR_OK else result)
          | ETHARP_STATE_EMPTY => mret result
          end
      end.

Definition etharp_output (n : netif_ptr) (q : ptr) (ipaddr : Z) : M W Z :=
  r ← on_net (pbuf_header (Some q) SIZEOF_ETH_HDR);
  if negb (r =? 0) then mret ERR_BUF
  else
    f ← get_netif n;
    if ip_addr_isbroadcast ipaddr f then etharp_send_ip n q (hwaddr f) ethbroadcast
    else if ip_addr_ismulticast ipaddr then
      etharp_send_ip n q (hwaddr f)
        [0x01; 0x00; 0x5e; Z.land (ip4_addr2 ipaddr) 0x7f; ip4_addr3 ipaddr; ip4_addr4 ipaddr]
    else if negb (ip_addr_netcmp ipaddr (nif_ip_addr f) (nif_netmask f)) then
      if negb (nif_gw f =? 0) then etharp_query n (nif_gw f) (Some q) else mret ERR_RTE
    else etharp_query n ipaddr (Some q).

(** ** ethernet_input *)
Variable ip_input : ptr -> netif_ptr -> M W Z.
Definition ethernet_input (p : ptr) (n : netif_ptr) : M W Z :=
  ethhdr ← payload_hdr p;
  type ← hdr16 ethhdr eth_type;
  _ ← (if htons type =? ETHTYPE_IP then
         _ ← etharp_ip_input n p;
         r ← on_net (pbuf_header (Some p) (- SIZEOF_ETH_HDR));
         if negb (r =? 0) then _ ← on_net (pbuf_free (Some p)); mret tt
         else _ ← ip_input p n; mret tt
       else if htons type =? ETHTYPE_ARP then
         f ← get_netif n;
         etharp_arp_input n (hwaddr f) p
       else _ ← on_net (pbuf_free (Some p)); mret tt);
  mret ERR_OK.
End etharp.
