(* ===== verification/LwipEtharpSpec.v ===== *)
(** What the ARP cache is: the queues of packets that wait for an address, the
    invariant that ties them to their pool and to the packet buffers, and the
    behaviour of the operations on them. *)
From stdpp Require Import gmap.
From S2P Require Import Prelude Mmio LwipMem LwipMemSpec LwipMemTheorems LwipPbuf LwipPbufSpec LwipInet LwipStack LwipStackSpec LwipEtharp.

(** Decide the equations between states of entries that are known. *)
Ltac eval_states :=
  repeat match goal with |- context [bool_decide ?P] =>
    let b := eval vm_compute in (bool_decide P) in
    match b with true => idtac | false => idtac end; change (bool_decide P) with b
  end; cbn [andb orb].

(** * Queues *)

(** A queue: its elements, each with the chain of its packet. *)
Definition queue : Type := list (ptr * list (ptr * pbuf)).

Fixpoint queue_at (m : gmap ptr etharp_q_entry) (pb : gmap ptr pbuf) (q : option ptr) (c : queue) : Prop :=
  match c with
  | [] => q = None
  | (r, ch) :: c => q = Some r /\ exists nx p, m !! r = Some (EtharpQEntry nx (Some p)) /\
      chain pb (Some p) ch /\ queue_at m pb nx c
  end.

(** The pbufs of the packets of a queue. *)
Definition packets (c : queue) : list ptr := (List.concat (map snd c)).*1.

Lemma packets_cons x c : packets (x :: c) = (snd x).*1 ++ packets c.
Proof. unfold packets. cbn [map List.concat]. by rewrite fmap_app. Qed.
Lemma packets_app c c' : packets (c ++ c') = packets c ++ packets c'.
Proof. induction c as [|x c IH]; [done|]. cbn [app]. by rewrite !packets_cons, IH, app_assoc. Qed.

Lemma queue_frame m m' pb pb' q c :
  (forall r, r ∈ c.*1 -> m' !! r = m !! r) -> (forall p, p ∈ packets c -> pb' !! p = pb !! p) ->
  queue_at m pb q c -> queue_at m' pb' q c.
Proof.
  revert q. induction c as [|[r ch] c IH]; intros q Hm Hpb; cbn [queue_at]; [done|].
  rewrite packets_cons in Hpb. cbn [fmap list_fmap fst snd] in Hm, Hpb.
  intros (-> & nx & p & Hr & Hch & Hc). split; [done|]. exists nx, p. split; [rewrite Hm; [done|by left]|]. split.
  - eapply chain_frame; [|exact Hch]. intros x Hx. apply Hpb, elem_of_app. by left.
  - apply IH; [| |done]; intros x Hx; [apply Hm; by right|apply Hpb, elem_of_app; by right].
Qed.

(** * The invariant *)

(** The queues [qs] start at [heads]. Their elements are the ones of the pool
    MEMP_ARP_QUEUE that are not free, no element and no packet is in two places. *)
Record queues_ok (s : stack) (l : list block) (heads : list (option ptr)) (qs : list queue) : Prop := {
  qok_net : net_ok (s_net s) l;
  qok_at : Forall2 (queue_at (arp_queues s) (pbufs (s_net s))) heads qs;
  qok_nodup : NoDup (List.concat qs).*1;
  qok_packets : NoDup (packets (List.concat qs));
  qok_dom : forall r, r ∈ (List.concat qs).*1 <-> is_Some (arp_queues s !! r);
  qok_pool : forall r, is_Some (arp_queues s !! r) -> exists i, r = InPool MEMP_ARP_QUEUE i;
  qok_free : forall i, i ∈ memp_tab (s_net s) MEMP_ARP_QUEUE <->
    (i < memp_num MEMP_ARP_QUEUE)%nat /\ arp_queues s !! InPool MEMP_ARP_QUEUE i = None;
  qok_size : forall i, is_Some (arp_queues s !! InPool MEMP_ARP_QUEUE i) -> (i < memp_num MEMP_ARP_QUEUE)%nat
}.

(** The free elements of another pool do not matter to the pbufs. *)
Lemma net_ok_other_tab n l t tab : net_ok n l -> ~ pbuf_pool t -> NoDup tab -> net_ok (set_tab t tab n) l.
Proof.
  intros [Hh Hf Hn Hhome] Ht Htab. split; [done| | |done]; cbn [memp_tab set_tab pbufs].
  - intros u i Hu. destruct (decide (u = t)) as [->|]; [done|by apply Hf].
  - intros u. destruct (decide (u = t)); [done|apply Hn].
Qed.

Lemma arp_no_pbuf_pool : ~ pbuf_pool MEMP_ARP_QUEUE.
Proof. by intros [?|?]. Qed.

(** Only the packet buffers and the queue elements change. *)
Definition same_stack (s s' : stack) : Prop := exists n m, s' = set_net n (set_arp_queues m s).
Lemma same_stack_refl s : same_stack s s.
Proof. exists (s_net s), (arp_queues s). by destruct s. Qed.
Lemma same_stack_trans s1 s2 s3 : same_stack s1 s2 -> same_stack s2 s3 -> same_stack s1 s3.
Proof. intros (n & m & ->) (n' & m' & ->). by exists n', m'. Qed.
Lemma same_stack_table s s' : same_stack s s' -> arp_table s' = arp_table s.
Proof. by intros (n & m & ->). Qed.

(** A queue has at most as many elements as its pool. *)
Lemma queues_length s l heads qs : queues_ok s l heads qs -> (length (List.concat qs) <= 30)%nat.
Proof.
  intros Hok. rewrite <- (length_fmap fst).
  assert ((List.concat qs).*1 ⊆+ (InPool MEMP_ARP_QUEUE <$> seq 0 30)) as Hs.
  { apply NoDup_submseteq; [apply (qok_nodup _ _ _ _ Hok)|]. intros r Hr. apply (qok_dom _ _ _ _ Hok) in Hr.
    destruct (qok_pool _ _ _ _ Hok _ Hr) as [i ->]. apply list_elem_of_fmap. exists i. split; [done|].
    apply elem_of_seq. pose proof (qok_size _ _ _ _ Hok _ Hr) as Hi. cbn in Hi. lia. }
  apply submseteq_length in Hs. by rewrite (length_fmap (InPool MEMP_ARP_QUEUE)), length_seq in Hs.
Qed.

Lemma forall2_in {A B} (P Q : A -> B -> Prop) l k : Forall2 P l k ->
  (forall x y, y ∈ k -> P x y -> Q x y) -> Forall2 Q l k.
Proof.
  induction 1 as [|x y l k Hxy Hl IH]; intros HPQ; [constructor|]. constructor.
  - apply HPQ; [by left|done].
  - apply IH. intros a b Hb. apply HPQ. by right.
Qed.

Section queue_rules.
Context {W : Type} `{StackLaws W}.
Implicit Types (s : stack) (w : W).

(** The first packet of the queue that starts at [Some r] goes, with its element. *)
Lemma free_first s l h1 r nx p h2 q1 ch c q2 n l' :
  queues_ok s l (h1 ++ Some r :: h2) (q1 ++ ((r, ch) :: c) :: q2) -> length h1 = length q1 ->
  arp_queues s !! r = Some (EtharpQEntry nx (Some p)) -> freed ch (s_net s) l n -> l' = release_all (dead ch) l ->
  forall i, r = InPool MEMP_ARP_QUEUE i ->
  queues_ok (set_net (set_tab MEMP_ARP_QUEUE (i :: memp_tab n MEMP_ARP_QUEUE) n)
     (set_arp_queues (delete r (arp_queues s)) s)) l' (h1 ++ nx :: h2) (q1 ++ c :: q2).
Proof.
  intros Hok Hlen Hr Hf -> i ->. pose proof (queues_length _ _ _ _ Hok) as Hsize.
  destruct Hok as [Hnet Hat Hnd Hpk Hdom Hpool Hfree Hsz].
  assert (Hperm : List.concat (q1 ++ ((InPool MEMP_ARP_QUEUE i, ch) :: c) :: q2) ≡ₚ
    (InPool MEMP_ARP_QUEUE i, ch) :: List.concat (q1 ++ c :: q2)).
  { rewrite !List.concat_app. cbn [List.concat]. rewrite <- !app_comm_cons. by rewrite <- Permutation_middle. }
  rewrite Hperm in Hnd. cbn [fmap list_fmap fst] in Hnd. apply nodup_cons in Hnd as [Hi Hnd].
  assert (Hpk' : packets (List.concat (q1 ++ ((InPool MEMP_ARP_QUEUE i, ch) :: c) :: q2)) ≡ₚ
    ch.*1 ++ packets (List.concat (q1 ++ c :: q2))).
  { rewrite !List.concat_app. cbn [List.concat]. rewrite <- app_comm_cons, !packets_app, packets_cons, !packets_app.
    cbn [snd]. rewrite !app_assoc. do 2 f_equiv. apply Permutation_app_comm. }
  rewrite Hpk' in Hpk. apply list.NoDup_app in Hpk as (_ & Hdis & Hpk).
  assert (Htab : memp_tab n MEMP_ARP_QUEUE = memp_tab (s_net s) MEMP_ARP_QUEUE)
    by apply (freed_pcbs _ _ _ _ Hf), arp_no_pbuf_pool.
  assert (Hsome : is_Some (arp_queues s !! InPool MEMP_ARP_QUEUE i)) by (by rewrite Hr).
  split; cbn [s_net set_net set_arp_queues arp_queues memp_tab set_tab pbufs]; rewrite ?decide_True by done.
  - apply net_ok_other_tab; [apply (freed_ok _ _ _ _ Hf)|apply arp_no_pbuf_pool|].
    apply NoDup_cons_2; [|apply (nok_nodup _ _ (freed_ok _ _ _ _ Hf))].
    rewrite Htab, Hfree, Hr. naive_solver.
  - apply Forall2_app_inv in Hat as [Hat1 Hat2]; [|done]. apply Forall2_cons_1 in Hat2 as [Hc Hat2].
    cbn [queue_at] in Hc. destruct Hc as (_ & nx' & p' & Hr' & _ & Hc). rewrite Hr in Hr'. injection Hr' as <- <-.
    assert (Hframe : forall q d, d ∈ q1 ++ c :: q2 -> queue_at (arp_queues s) (pbufs (s_net s)) q d ->
      queue_at (delete (InPool MEMP_ARP_QUEUE i) (arp_queues s)) (pbufs n) q d).
    { intros q d Hd. apply queue_frame.
      - intros x Hx. apply lookup_delete_ne. intros <-. apply Hi. apply list_elem_of_fmap in Hx as (y & -> & Hy).
        apply list_elem_of_fmap. exists y. split; [done|]. apply list_elem_of_In, List.in_concat.
        exists d. by rewrite <- !list_elem_of_In.
      - intros x Hx. rewrite (freed_pbufs _ _ _ _ Hf). apply free_chain_other. intros Hin. apply (Hdis _ Hin).
        apply list_elem_of_In, List.in_split in Hd as (a & b & ->). rewrite List.concat_app. cbn [List.concat].
        rewrite !packets_app, !elem_of_app. auto. }
    apply Forall2_app; [|apply Forall2_cons_2].
    + eapply forall2_in; [exact Hat1|]. intros q d Hd. apply Hframe, elem_of_app. by left.
    + apply Hframe; [|done]. apply elem_of_app. right. by left.
    + eapply forall2_in; [exact Hat2|]. intros q d Hd. apply Hframe, elem_of_app. right. by right.
  - done.
  - done.
  - intros x. destruct (decide (x = InPool MEMP_ARP_QUEUE i)) as [->|Hne].
    + rewrite lookup_delete_eq. split; [done|by intros [? ?]].
    + rewrite lookup_delete_ne by done. rewrite <- Hdom, Hperm. cbn [fmap list_fmap fst]. rewrite elem_of_cons. naive_solver.
  - intros x [y Hx]. apply lookup_delete_Some in Hx as [_ Hx]. by apply Hpool.
  - intros j. rewrite elem_of_cons, Htab, Hfree. destruct (decide (j = i)) as [->|Hne].
    + rewrite lookup_delete_eq. split; [|by left]. intros _. split; [by apply Hsz|done].
    + rewrite lookup_delete_ne by congruence. naive_solver.
  - intros j [y Hj]. apply lookup_delete_Some in Hj as [_ Hj]. by apply Hsz.
Qed.

Lemma wp_free_q_loop h1 h2 q1 q2 w : length h1 = length q1 -> forall c q s l (Q : unit -> W -> Prop),
  queues_ok s l (h1 ++ q :: h2) (q1 ++ c :: q2) ->
  (forall s' l', queues_ok s' l' (h1 ++ None :: h2) (q1 ++ [] :: q2) -> same_stack s s' -> Q tt (put_stack s' w)) ->
  wp (iter_nat (S (length c)) free_q_body q) (ends Q) (put_stack s w).
Proof.
  intros Hlen. induction c as [|[r ch] c IH]; intros q s l Q Hok HQ; apply wp_iter_S.
  all: pose proof (qok_at _ _ _ _ Hok) as Hat; apply Forall2_app_inv in Hat as [_ Hat]; [|done];
    apply Forall2_cons_1 in Hat as [Hat _]; cbn [queue_at] in Hat.
  - subst q. apply wp_ret. apply (HQ s l); [done|apply same_stack_refl].
  - destruct Hat as (-> & nx & p & Hr & Hch & Hc). cbn [free_q_body].
    destruct (qok_pool _ _ _ _ Hok r) as [i Hi]; [by rewrite Hr|].
    apply wp_bind, (wp_get_q _ _ _ _ _ Hr). cbn [q_p q_next]. apply wp_bind, wp_on_net.
    assert (Hnd : NoDup ch.*1).
    { pose proof (qok_packets _ _ _ _ Hok) as Hp. rewrite List.concat_app in Hp. cbn [List.concat] in Hp.
      rewrite <- app_comm_cons, packets_app, packets_cons in Hp. cbn [snd] in Hp.
      apply list.NoDup_app in Hp as (_ & _ & Hp). by apply list.NoDup_app in Hp as (Hp & _). }
    apply (wp_pbuf_free _ ch _ l); [apply (qok_net _ _ _ _ Hok)|done|done|]. intros n Hn.
    apply wp_bind, wp_mod_stack, wp_bind, wp_on_net. unfold memp_free. rewrite Hi. rewrite decide_True by done.
    apply wp_bind, wp_gets, wp_modify. apply wp_ret. rewrite <- Hi.
    pose proof (free_first _ _ _ _ _ _ _ _ _ _ _ _ _ Hok Hlen Hr Hn eq_refl i Hi) as Hok'.
    eapply (IH nx _ _ Q Hok'). intros s' l' Hok'' Hs. apply (HQ s' l'); [done|].
    eapply same_stack_trans; [|exact Hs]. by eexists _, _.
Qed.

Lemma wp_free_etharp_q s w l h1 q h2 q1 c q2 (Q : unit -> W -> Prop) :
  queues_ok s l (h1 ++ q :: h2) (q1 ++ c :: q2) -> length h1 = length q1 ->
  (forall s' l', queues_ok s' l' (h1 ++ None :: h2) (q1 ++ [] :: q2) -> same_stack s s' -> Q tt (put_stack s' w)) ->
  wp (free_etharp_q q) Q (put_stack s w).
Proof.
  intros Hok Hlen HQ. apply (wp_loop_nat (S (length c))).
  - pose proof (queues_length _ _ _ _ Hok) as Hl. rewrite List.concat_app, length_app in Hl. cbn [List.concat] in Hl.
    rewrite length_app in Hl. change (Pos.to_nat queue_fuel) with 31%nat. lia.
  - by eapply (wp_free_q_loop _ _ _ _ _ Hlen).
Qed.
End queue_rules.

(** * The cache *)

(** What every entry satisfies: only pending entries have packets waiting, and the
    ages stay below the limits at which etharp_tmr drops an entry. *)
Definition entry_ok (e : etharp_entry) : Prop :=
  0 <= arp_ctime e < 256 /\
  match arp_state e with
  | ETHARP_STATE_EMPTY => arp_q e = None
  | ETHARP_STATE_PENDING => arp_ctime e < ARP_MAXPENDING
  | ETHARP_STATE_STABLE => arp_q e = None /\ arp_ctime e < ARP_MAXAGE
  end.
(** No address has two entries. *)
Definition live (e : etharp_entry) : bool := bool_decide (arp_state e <> ETHARP_STATE_EMPTY).
Definition one_entry_each (t : list etharp_entry) : Prop :=
  forall i j e e', t !! i = Some e -> t !! j = Some e' -> live e -> live e' -> arp_ipaddr e = arp_ipaddr e' -> i = j.

Record arp_ok (s : stack) (l : list block) (qs : list queue) : Prop := {
  aok_queues : queues_ok s l (map arp_q (arp_table s)) qs;
  aok_length : length (arp_table s) = 10%nat;
  aok_entries : Forall entry_ok (arp_table s);
  aok_unique : one_entry_each (arp_table s);
  aok_cached : 0 <= etharp_cached_entry s < ARP_TABLE_SIZE
}.
