(* ===== verification/LwipEtharpTheorems.v ===== *)
(** The properties of the ARP cache: entries age and go, and an address is found
    where it was learned. *)
From stdpp Require Import gmap.
From S2P Require Import Prelude Mmio LwipMem LwipMemSpec LwipMemTheorems LwipPbuf LwipPbufSpec LwipPbufTheorems LwipInet LwipStack LwipStackSpec LwipEtharp LwipEtharpSpec.

(** * Ageing *)
Definition tick (e : etharp_entry) : etharp_entry := with_arp_ctime (u8 (arp_ctime e + 1)) e.
(** What etharp_tmr makes of an entry, and of its queue. *)
Definition aged (e : etharp_entry) : etharp_entry :=
  if expired (tick e) then with_arp_state ETHARP_STATE_EMPTY (with_arp_q None (tick e)) else tick e.
Definition aged_queue (e : etharp_entry) (c : queue) : queue := if expired (tick e) then [] else c.

(** Of the stack, only the table, the packet buffers and the queue elements change. *)
Definition same_but_table (s s' : stack) : Prop :=
  exists n m t, s' = set_net n (set_arp_queues m (set_arp_table t s)).
Lemma same_but_table_trans s1 s2 s3 : same_but_table s1 s2 -> same_but_table s2 s3 -> same_but_table s1 s3.
Proof. intros (n & m & t & ->) (n' & m' & t' & ->). by exists n', m', t'. Qed.
Lemma same_but_table_refl s : same_but_table s s.
Proof. exists (s_net s), (arp_queues s), (arp_table s). by destruct s. Qed.
Lemma same_stack_but_table s s' t : same_stack s s' -> same_but_table s (set_arp_table t s').
Proof. intros (n & m & ->). by exists n, m, t. Qed.
Lemma same_but_table_set s s' t : same_but_table s s' -> same_but_table s (set_arp_table t s').
Proof. intros (n & m & t' & ->). by exists n, m, t. Qed.

Lemma queues_ok_ext s s' l heads qs : s_net s' = s_net s -> arp_queues s' = arp_queues s ->
  queues_ok s l heads qs -> queues_ok s' l heads qs.
Proof. intros Hn Hq []. split; by rewrite ?Hn, ?Hq. Qed.

Section ageing.
Context {W : Type} `{StackLaws W}.
Implicit Types (s : stack) (w : W).

Lemma wp_upd_arp_middle s w t1 e t2 f i (Q : unit -> W -> Prop) : arp_table s = t1 ++ e :: t2 ->
  i = Z.of_nat (length t1) -> Q tt (put_stack (set_arp_table (t1 ++ f e :: t2) s) w) ->
  wp (upd_arp i f) Q (put_stack s w).
Proof.
  intros Ht -> HQ. apply (wp_upd_arp _ _ e); [lia| |].
  - rewrite Nat2Z.id, Ht. by apply list_lookup_middle.
  - rewrite Nat2Z.id, Ht. rewrite insert_app_r_alt, Nat.sub_diag by lia. exact HQ.
Qed.

(** One round of etharp_tmr. *)
Lemma wp_tmr_body s w l t1 e t2 q1 c q2 (Q : Z + unit -> W -> Prop) :
  arp_table s = t1 ++ e :: t2 -> (length t1 < 10)%nat -> length t1 = length q1 ->
  queues_ok s l (map arp_q t1 ++ arp_q e :: map arp_q t2) (q1 ++ c :: q2) ->
  (forall s' l', arp_table s' = t1 ++ aged e :: t2 -> same_but_table s s' ->
     queues_ok s' l' (map arp_q t1 ++ arp_q (aged e) :: map arp_q t2) (q1 ++ aged_queue e c :: q2) ->
     Q (inl (Z.of_nat (S (length t1)))) (put_stack s' w)) ->
  wp (tmr_body (Z.of_nat (length t1))) Q (put_stack s w).
Proof.
  intros Ht H10 Hq1 Hok HQ. unfold tmr_body. change ARP_TABLE_SIZE with 10. rewrite (proj2 (Z.ltb_lt _ _)) by lia.
  apply wp_bind, (wp_upd_arp_middle _ _ t1 e t2); [done..|]. fold (tick e). set (s1 := set_arp_table _ s).
  apply wp_bind, (wp_get_arp _ (tick e)); [lia|rewrite Nat2Z.id; by apply list_lookup_middle|]. apply wp_bind.
  replace (u8 (Z.of_nat (length t1) + 1)) with (Z.of_nat (S (length t1))) by (unfold u8; rewrite Z.mod_small; lia).
  assert (Hok1 : queues_ok s1 l (map arp_q t1 ++ arp_q (tick e) :: map arp_q t2) (q1 ++ c :: q2))
    by (by eapply queues_ok_ext; [| |exact Hok]).
  assert (Hs1 : same_but_table s s1) by apply same_but_table_set, same_but_table_refl.
  unfold aged, aged_queue in HQ. destruct (expired (tick e)).
  - apply wp_bind. destruct (arp_q (tick e)) as [q|] eqn:Hq.
    + apply wp_bind, (wp_free_etharp_q _ _ l (map arp_q t1) (Some q) (map arp_q t2) q1 c q2); [done|by rewrite length_map|].
      intros s2 l2 Hok2 Hs2. pose proof (same_stack_table _ _ Hs2) as Ht2.
      apply (wp_upd_arp_middle _ _ t1 (tick e) t2); [done..|].
      apply (wp_upd_arp_middle _ _ t1 (with_arp_q None (tick e)) t2); [done..|]. apply wp_ret.
      eapply HQ; [done| |by eapply queues_ok_ext; [| |exact Hok2]].
      apply same_but_table_set. eapply same_but_table_trans; [exact Hs1|]. by apply same_stack_but_table.
    + apply wp_ret, (wp_upd_arp_middle _ _ t1 (tick e) t2); [done..|]. apply wp_ret.
      assert (tick e = with_arp_q None (tick e)) as He by (rewrite <- Hq; by destruct e).
      rewrite He. apply (HQ _ l); [done|by apply same_but_table_set|].
      assert (c = []) as -> by (pose proof (qok_at _ _ _ _ Hok1) as Hat;
        apply Forall2_app_inv in Hat as [_ Hat]; [|by rewrite length_map]; apply Forall2_cons_1 in Hat as [Hat _];
        destruct c as [|[r ch] c]; [done|by destruct Hat]).
      by eapply queues_ok_ext; [| |exact Hok1].
  - apply wp_ret, wp_ret. by apply (HQ _ l).
Qed.

Lemma wp_tmr_loop w : forall t2 q2 t1 q1 s l (Q : unit -> W -> Prop),
  arp_table s = t1 ++ t2 -> (length t1 + length t2 = 10)%nat -> length t1 = length q1 -> length t2 = length q2 ->
  queues_ok s l (map arp_q t1 ++ map arp_q t2) (q1 ++ q2) ->
  (forall s' l', arp_table s' = t1 ++ map aged t2 -> same_but_table s s' ->
     queues_ok s' l' (map arp_q t1 ++ map arp_q (map aged t2)) (q1 ++ zip_with aged_queue t2 q2) -> Q tt (put_stack s' w)) ->
  wp (iter_nat (S (length t2)) tmr_body (Z.of_nat (length t1))) (ends Q) (put_stack s w).
Proof.
  induction t2 as [|e t2 IH]; intros q2 t1 q1 s l Q Ht H10 Hq1 Hq2 Hok HQ; apply wp_iter_S; cbn [length] in H10.
  - unfold tmr_body. change ARP_TABLE_SIZE with 10. rewrite (proj2 (Z.ltb_ge _ _)) by lia. apply wp_ret.
    destruct q2 as [|? ?]; [|done]. apply (HQ s l); [done|apply same_but_table_refl|done].
  - destruct q2 as [|c q2]; [done|]. apply (wp_tmr_body _ _ l _ e t2 q1 c q2); [done|lia|done|done|].
    intros s' l' Ht' Hs' Hok'. cbn [length] in *.
    replace (S (length t1)) with (length (t1 ++ [aged e])) by (rewrite length_app; cbn [length]; lia).
    apply (IH q2 (t1 ++ [aged e]) (q1 ++ [aged_queue e c]) s' l').
    + by rewrite <- app_assoc.
    + rewrite length_app. cbn [length]. lia.
    + rewrite !length_app. cbn [length]. lia.
    + lia.
    + by rewrite map_app, <- !app_assoc.
    + intros s'' l'' Ht'' Hs'' Hok''. rewrite map_app, <- !app_assoc in *. apply (HQ s'' l''); [done| |done].
      by eapply same_but_table_trans.
Qed.

Lemma aged_ok e : entry_ok e -> entry_ok (aged e).
Proof.
  unfold entry_ok, aged, expired, tick. change ARP_MAXAGE with 240. change ARP_MAXPENDING with 2. intros [Hc He].
  assert (0 <= u8 (arp_ctime e + 1) < 256) by (unfold u8; apply Z.mod_pos_bound; lia).
  destruct e as [q ip mac st ct nif]; destruct st; cbn in *.
  - done.
  - eval_states. destruct (Z.leb_spec 2 (u8 (ct + 1))); cbn; [done|]. split; [done|lia].
  - eval_states. destruct He as [-> He]. destruct (Z.leb_spec 240 (u8 (ct + 1))); cbn; [done|]. split; [done|]. split; [done|lia].
Qed.
Lemma aged_live e : live (aged e) -> live e /\ expired (tick e) = false /\ arp_ctime (aged e) = u8 (arp_ctime e + 1).
Proof. unfold aged. destruct (expired (tick e)) eqn:E; by destruct e. Qed.
Lemma aged_ip e : arp_ipaddr (aged e) = arp_ipaddr e.
Proof. unfold aged. by destruct (expired (tick e)). Qed.

Lemma aged_unique t : one_entry_each t -> one_entry_each (map aged t).
Proof.
  intros Hu i j e e' He He' Hl Hl' Hip. change (map aged t) with (aged <$> t) in *.
  rewrite list_lookup_fmap in He, He'. destruct (t !! i) as [a|] eqn:Ha; [|done]. destruct (t !! j) as [b|] eqn:Hb; [|done].
  cbn in He, He'. injection He as <-. injection He' as <-. rewrite !aged_ip in Hip.
  apply (Hu i j a b); [done|done|by apply aged_live|by apply aged_live|done].
Qed.

Lemma wp_etharp_tmr s w l qs (Q : unit -> W -> Prop) : arp_ok s l qs ->
  (forall s' l', same_but_table s s' -> arp_table s' = map aged (arp_table s) ->
     arp_ok s' l' (zip_with aged_queue (arp_table s) qs) -> Q tt (put_stack s' w)) ->
  wp etharp_tmr Q (put_stack s w).
Proof.
  intros [Hq H10 He Hu Hc] HQ. apply (wp_loop_nat (S (length (arp_table s)))); [by rewrite H10|].
  pose proof (Forall2_length (qok_at _ _ _ _ Hq)) as Hlen. rewrite length_map in Hlen.
  apply (wp_tmr_loop w (arp_table s) qs [] [] s l); [done|by rewrite H10|done|done|done|].
  intros s' l' Ht Hs Hq'. apply (HQ s' l'); [done|done|]. cbn [app] in *. split; rewrite ?Ht.
  - done.
  - by rewrite length_map.
  - apply Forall_map. eapply list.Forall_impl; [exact He|]. apply aged_ok.
  - by apply aged_unique.
  - by destruct Hs as (n & m & t & ->).
Qed.

(** [k] rounds of the timer. *)
Fixpoint timer_rounds (k : nat) : M W unit :=
  match k with O => mret tt | S k => _ ← etharp_tmr; timer_rounds k end.

(** After [k] rounds, an entry that is left is [k] rounds old. *)
Definition older (k : Z) (t : list etharp_entry) : Prop := Forall (fun e => live e -> k <= arp_ctime e) t.

Lemma aged_older k t : Forall entry_ok t -> older k t -> older (k + 1) (map aged t).
Proof.
  intros Hok Ho. apply Forall_map. unfold older in Ho. rewrite list.Forall_forall in *. intros e Hin Hl.
  apply aged_live in Hl as (Hl & Hx & ->). specialize (Ho _ Hin Hl). specialize (Hok _ Hin) as [Hc Hst].
  enough (u8 (arp_ctime e + 1) = arp_ctime e + 1) by lia. unfold u8. apply Z.mod_small.
  change ARP_MAXAGE with 240 in *. change ARP_MAXPENDING with 2 in *. unfold live in Hl. destruct (arp_state e); [done|lia|lia].
Qed.

Lemma wp_timer_rounds k : forall n s w l qs (Q : unit -> W -> Prop), arp_ok s l qs -> older n (arp_table s) ->
  (forall s' l' qs', arp_ok s' l' qs' -> older (n + Z.of_nat k) (arp_table s') -> Q tt (put_stack s' w)) ->
  wp (timer_rounds k) Q (put_stack s w).
Proof.
  induction k as [|k IH]; intros n s w l qs Q Hok Ho HQ; cbn [timer_rounds].
  - apply wp_ret. eapply HQ; [exact Hok|]. by rewrite Z.add_0_r.
  - apply wp_bind, (wp_etharp_tmr _ _ l qs); [done|]. intros s' l' Hs' Ht' Hok'.
    eapply (IH (n + 1)); [exact Hok'| |].
    + rewrite Ht'. apply aged_older; [apply (aok_entries _ _ _ Hok)|done].
    + intros s'' l'' qs'' Hok'' Ho''. eapply HQ; [exact Hok''|]. by replace (n + Z.of_nat (S k)) with (n + 1 + Z.of_nat k) by lia.
Qed.

(** An empty cache has no packets waiting, and all queue elements are free. *)
Lemma empty_cache s l qs : arp_ok s l qs -> Forall (fun e => live e = false) (arp_table s) ->
  List.concat qs = [] /\ forall i, (i < memp_num MEMP_ARP_QUEUE)%nat -> i ∈ memp_tab (s_net s) MEMP_ARP_QUEUE.
Proof.
  intros [Hq H10 He Hu Hc] Hempty.
  assert (Hqs : Forall (fun c => c = []) qs).
  { pose proof (qok_at _ _ _ _ Hq) as Hat. apply list.Forall_forall. intros c Hin.
    apply list_elem_of_lookup in Hin as [i Hi]. destruct (Forall2_lookup_r _ _ _ _ _ Hat Hi) as (q & Hqi & Hc').
    change (map arp_q (arp_table s)) with (arp_q <$> arp_table s) in Hqi. rewrite list_lookup_fmap in Hqi.
    destruct (arp_table s !! i) as [e|] eqn:Hei; [|done]. injection Hqi as <-.
    pose proof (Forall_lookup_1 _ _ _ _ He Hei) as [_ Hst]. pose proof (Forall_lookup_1 _ _ _ _ Hempty Hei) as Hl.
    unfold live in Hl. cbn beta in Hl. destruct (arp_state e); [|done|done]. rewrite Hst in Hc'.
    destruct c as [|[r ch] c]; [done|by destruct Hc']. }
  assert (Hnil : List.concat qs = []).
  { clear -Hqs. induction Hqs as [|c qs Hc Hqs IH]; [done|]. cbn [List.concat]. by rewrite Hc, IH. }
  split; [done|]. intros i Hi. apply (qok_free _ _ _ _ Hq). split; [done|]. apply eq_None_not_Some. intros Hs.
  apply (qok_dom _ _ _ _ Hq) in Hs. rewrite Hnil in Hs. by apply elem_of_nil in Hs.
Qed.

(** What is left of a cache that is [k] rounds old. *)
Definition forgotten (k : Z) (s : stack) (qs : list queue) : Prop :=
  (2 <= k -> Forall (fun e => arp_state e <> ETHARP_STATE_PENDING) (arp_table s)) /\
  (240 <= k -> Forall (fun e => live e = false) (arp_table s) /\ List.concat qs = [] /\
     forall i, (i < memp_num MEMP_ARP_QUEUE)%nat -> i ∈ memp_tab (s_net s) MEMP_ARP_QUEUE).
Lemma older_forgotten k s l qs : arp_ok s l qs -> older k (arp_table s) -> forgotten k s qs.
Proof.
  intros Hok Ho. pose proof (aok_entries _ _ _ Hok) as He. unfold older in Ho. rewrite list.Forall_forall in He, Ho. split.
  - intros Hk. apply list.Forall_forall. intros e Hin Hp. specialize (Ho _ Hin). destruct (He _ Hin) as [_ Hst].
    unfold live in Ho. rewrite Hp in *. change ARP_MAXPENDING with 2 in Hst. assert (k <= arp_ctime e) by by apply Ho. lia.
  - intros Hk. assert (Hempty : Forall (fun e => live e = false) (arp_table s)); [|split; [done|by eapply empty_cache]].
    apply list.Forall_forall. intros e Hin. destruct (live e) eqn:Hl; [|done]. exfalso.
    assert (k <= arp_ctime e) by (by apply Ho; [|rewrite Hl]). destruct (He _ Hin) as [_ Hst].
    unfold live in Hl. change ARP_MAXPENDING with 2 in Hst. change ARP_MAXAGE with 240 in Hst. destruct (arp_state e); [done|lia|lia].
Qed.
Lemma entries_older s l qs : arp_ok s l qs -> older 0 (arp_table s).
Proof. intros Hok. eapply list.Forall_impl; [apply (aok_entries _ _ _ Hok)|]. intros e [Hc _] _. cbn. lia. Qed.

(** The ARP cache forgets: whatever is in it, after two rounds of etharp_tmr no
    entry is waiting for an answer any more, and after 240 rounds the cache is
    empty, the packets that were waiting are freed and every element of the queue
    pool is free again. *)
Theorem arp_entries_expire s w l qs (k : nat) : arp_ok s l qs ->
  wp (timer_rounds k) (fun _ w' => exists s' l' qs', w' = put_stack s' w /\ arp_ok s' l' qs' /\
    forgotten (Z.of_nat k) s' qs') (put_stack s w).
Proof.
  intros Hok. apply (wp_timer_rounds k 0 _ _ l qs); [done|by eapply entries_older|].
  intros s' l' qs' Hok' Ho. exists s', l', qs'. split; [done|]. split; [done|]. by eapply older_forgotten.
Qed.
End ageing.

(** A pending entry with a packet in the queue, and a stable one. *)
Definition arp_demo_elem : ptr := InPool MEMP_ARP_QUEUE 29.
Definition arp_demo_net : net :=
  set_tab MEMP_ARP_QUEUE (rev (seq 0 29)) (add_pool 9 (rev (seq 0 9)) (pool_pbuf None 100 1) fresh_net).
Definition arp_demo_table : list etharp_entry :=
  EtharpEntry (Some arp_demo_elem) 1 (repeat 0 6) ETHARP_STATE_PENDING 1 None ::
  EtharpEntry None 2 [2; 0; 0; 0; 0; 2] ETHARP_STATE_STABLE 100 (Some 0%nat) :: repeat etharp_entry_zero 8.
Definition arp_demo_stack : stack :=
  set_arp_queues {[arp_demo_elem := EtharpQEntry None (Some demo_c)]}
    (set_arp_table arp_demo_table (stack_zero arp_demo_net ∅)).
Definition arp_demo_queues : list queue := [(arp_demo_elem, [(demo_c, pool_pbuf None 100 1)])] :: repeat [] 9.

Lemma arp_demo_ok : arp_ok arp_demo_stack [(MEM_SIZE_ALIGNED, false)] arp_demo_queues.
Proof.
  split.
  - split.
    + apply net_ok_other_tab; [|apply arp_no_pbuf_pool|by apply (bool_decide_unpack _)].
      eapply net_ok_pool_add; [apply fresh_net_ok|done|reflexivity|done|by split|done].
    + repeat constructor. by eexists _, _.
    + apply NoDup_singleton.
    + apply NoDup_singleton.
    + intros r. cbn [arp_demo_queues repeat List.concat app fmap list_fmap fst arp_demo_stack set_arp_queues arp_queues].
      rewrite list_elem_of_singleton, lookup_singleton_is_Some. done.
    + change (arp_queues arp_demo_stack) with ({[arp_demo_elem := EtharpQEntry None (Some demo_c)]} : gmap ptr etharp_q_entry).
      intros r [e [<- _]%lookup_singleton_Some]. by exists 29%nat.
    + intros i. change (memp_tab (s_net arp_demo_stack) MEMP_ARP_QUEUE) with (rev (seq 0 29)).
      cbn [arp_demo_stack set_arp_queues arp_queues memp_num]. rewrite lookup_singleton_None.
      rewrite <- (List.rev_involutive (seq 0 29)). rewrite List.rev_involutive, list_elem_of_In, <- List.in_rev, <- list_elem_of_In, elem_of_seq.
      unfold arp_demo_elem. split; [intros; split; [lia|intros [=]; lia]|]. intros [Hi Hne].
      assert (i <> 29%nat) by (intros ->; by apply Hne). lia.
    + change (arp_queues arp_demo_stack) with ({[arp_demo_elem := EtharpQEntry None (Some demo_c)]} : gmap ptr etharp_q_entry).
      intros i [e [[= <-] _]%lookup_singleton_Some]. cbn. lia.
  - reflexivity.
  - repeat constructor; cbn; lia.
  - assert (forall i e, arp_demo_table !! i = Some e -> live e -> arp_ipaddr e = Z.of_nat i + 1) as Hlive.
    { intros [|[|i]] e He Hl; [by injection He as <-|by injection He as <-|]. cbn in He.
      change (repeat etharp_entry_zero 8 !! i = Some e) in He. apply list_elem_of_lookup_2, list_elem_of_In, List.repeat_spec in He.
      by subst e. }
    intros i j e e' Hi Hj Hl Hl' Hip. apply Hlive in Hi, Hj; [lia|done..].
  - done.
Qed.

Lemma arp_entries_expire_witness :
  wp (timer_rounds 240) (fun _ w' => exists s' l' qs', w' = put_stack s' arp_demo_stack /\ arp_ok s' l' qs' /\
    forgotten (Z.of_nat 240) s' qs') (put_stack arp_demo_stack arp_demo_stack).
Proof. apply (arp_entries_expire arp_demo_stack arp_demo_stack _ _ 240 arp_demo_ok). Defined.
