(* ===== verification/LwipArpLookup.v ===== *)
(** The search of the ARP cache: find_entry against its order of preference, what it
    means for learning and looking up addresses, and that update_arp_entry writes what
    etharp_find_addr finds. *)
From stdpp Require Import gmap.
From S2P Require Import Prelude Mmio LwipMem LwipMemSpec LwipMemTheorems LwipPbuf LwipPbufSpec LwipPbufTheorems LwipInet LwipStack LwipStackSpec LwipEtharp LwipEtharpSpec LwipEtharpTheorems.

(** * Which entry is given up *)

(** The classes of entries: the lower, the sooner an entry is taken. *)
Definition rank (e : etharp_entry) : nat :=
  match arp_state e with
  | ETHARP_STATE_EMPTY => 0
  | ETHARP_STATE_STABLE => 1
  | ETHARP_STATE_PENDING => if bool_decide (arp_q e <> None) then 3 else 2
  end.
(** Of two entries, the one that is taken first: that of the lower class; in a
    class, the older one, and the later one of two of the same age; but the first
    one that is empty. *)
Definition better (i : nat) (e : etharp_entry) (j : nat) (e' : etharp_entry) : Prop :=
  (rank e < rank e')%nat \/ rank e = rank e' /\
  if bool_decide (rank e = 0%nat) then (i < j)%nat
  else arp_ctime e' < arp_ctime e \/ arp_ctime e' = arp_ctime e /\ (j < i)%nat.
Definition victim (t : list etharp_entry) (i : nat) : Prop :=
  exists e, t !! i = Some e /\ forall j e', t !! j = Some e' -> j <> i -> better i e j e'.

(** The entry for an address. *)
Definition entry_of (t : list etharp_entry) (a : Z) (i : nat) (e : etharp_entry) : Prop :=
  t !! i = Some e /\ live e /\ arp_ipaddr e = a.

(** ** The sweep remembers the best entry of every class *)
Definition best_empty (t : list etharp_entry) (i : Z) : Prop :=
  i = 10 /\ (forall j e, t !! j = Some e -> rank e <> 0%nat) \/
  exists k e, i = Z.of_nat k /\ t !! k = Some e /\ rank e = 0%nat /\
    forall j e', t !! j = Some e' -> rank e' = 0%nat -> (k <= j)%nat.
Definition best (r : nat) (t : list etharp_entry) (i age : Z) : Prop :=
  i = 10 /\ age = 0 /\ (forall j e, t !! j = Some e -> rank e <> r) \/
  exists k e, i = Z.of_nat k /\ t !! k = Some e /\ rank e = r /\ age = arp_ctime e /\
    forall j e', t !! j = Some e' -> rank e' = r -> arp_ctime e' < arp_ctime e \/ arp_ctime e' = arp_ctime e /\ (j <= k)%nat.
Record swept (t : list etharp_entry) (c : candidates) : Prop := {
  swept_empty : best_empty t (empty_entry c);
  swept_stable : best 1 t (old_stable c) (age_stable c);
  swept_pending : best 2 t (old_pending c) (age_pending c);
  swept_queue : best 3 t (old_queue c) (age_queue c)
}.

Lemma lookup_snoc {A} (l : list A) x j y : (l ++ [x]) !! j = Some y ->
  l !! j = Some y \/ j = length l /\ y = x.
Proof.
  intros Hj. destruct (decide (j < length l)%nat) as [Hlt|Hge].
  - left. by rewrite lookup_app_l in Hj.
  - right. rewrite lookup_app_r in Hj by lia. destruct (j - length l)%nat as [|k] eqn:E; [|done].
    injection Hj as <-. split; [lia|done].
Qed.

Lemma best_other r t e i age : rank e <> r -> best r t i age -> best r (t ++ [e]) i age.
Proof.
  intros Hr [(-> & -> & Hnone)|(k & x & -> & Hk & Hx & -> & Hbest)].
  - left. split; [done|]. split; [done|]. intros j e' [Hj|[_ ->]]%lookup_snoc; [by eapply Hnone|done].
  - right. exists k, x. split; [done|]. split; [by apply lookup_app_l_Some|]. split; [done|]. split; [done|].
    intros j e' [Hj|[_ ->]]%lookup_snoc Hr'; [by eapply Hbest|done].
Qed.
Lemma best_this r t e i age : rank e = r -> 0 <= arp_ctime e -> best r t i age ->
  best r (t ++ [e]) (if age <=? arp_ctime e then Z.of_nat (length t) else i) (if age <=? arp_ctime e then arp_ctime e else age).
Proof.
  intros Hr Hc Hb. destruct (Z.leb_spec age (arp_ctime e)) as [Hle|Hlt].
  - right. exists (length t), e. split; [done|]. split; [by apply list_lookup_middle|]. split; [done|]. split; [done|].
    intros j e' [Hj|[-> ->]]%lookup_snoc Hr'; [|right; split; [done|lia]].
    pose proof (lookup_lt_Some _ _ _ Hj). destruct Hb as [(-> & -> & Hnone)|(k & x & -> & Hk & Hx & -> & Hbest)].
    + by destruct (Hnone _ _ Hj).
    + destruct (Hbest _ _ Hj Hr') as [?|[? ?]]; [left; lia|]. destruct (Z.eq_dec (arp_ctime e') (arp_ctime e)); [right; split; [done|lia]|left; lia].
  - destruct Hb as [(-> & -> & Hnone)|(k & x & -> & Hk & Hx & -> & Hbest)]; [lia|].
    right. exists k, x. split; [done|]. split; [by apply lookup_app_l_Some|]. split; [done|]. split; [done|].
    intros j e' [Hj|[_ ->]]%lookup_snoc Hr'; [by eapply Hbest|by left].
Qed.
Lemma best_empty_other t e i : rank e <> 0%nat \/ i <> 10 -> best_empty t i -> best_empty (t ++ [e]) i.
Proof.
  intros Hr [(-> & Hnone)|(k & x & -> & Hk & Hx & Hbest)].
  - left. split; [done|]. intros j e' [Hj|[_ ->]]%lookup_snoc; [by eapply Hnone|naive_solver].
  - right. exists k, x. split; [done|]. split; [by apply lookup_app_l_Some|]. split; [done|].
    apply lookup_lt_Some in Hk. intros j e' [Hj|[-> ->]]%lookup_snoc Hr'; [by eapply Hbest|lia].
Qed.
Lemma best_empty_this t e : rank e = 0%nat -> best_empty t 10 -> (length t < 10)%nat ->
  best_empty (t ++ [e]) (Z.of_nat (length t)).
Proof.
  intros Hr Hb Hlen. right. exists (length t), e. split; [done|]. split; [by apply list_lookup_middle|]. split; [done|].
  intros j e' [Hj|[-> ->]]%lookup_snoc Hr'; [|done]. destruct Hb as [(_ & Hnone)|(k & x & Hk10 & Hk & Hx & Hbest)].
  - by destruct (Hnone _ _ Hj).
  - apply lookup_lt_Some in Hk. lia.
Qed.

(** One entry of the sweep. *)
Lemma swept_step a t e c : (length t < 10)%nat -> entry_ok e -> swept t c ->
  match sweep_entry (Some a) (Z.of_nat (length t)) e c with
  | inl i => i = Z.of_nat (length t) /\ live e /\ arp_ipaddr e = a
  | inr c' => swept (t ++ [e]) c' /\ (live e -> arp_ipaddr e <> a)
  end.
Proof.
  intros Hlen [[Hc _] Hst] [He Hs Hp Hq]. unfold sweep_entry, matches, ip_addr_cmp. change ARP_TABLE_SIZE with 10.
  unfold live. assert (Hr : rank e = rank e) by done. unfold rank at 2 in Hr. destruct (arp_state e); eval_states.
  - destruct (Z.eqb_spec (empty_entry c) 10) as [E|E].
    + split; [|done]. rewrite E in He. split; cbn [with_empty empty_entry old_stable age_stable old_pending age_pending old_queue age_queue];
        [by apply best_empty_this|by apply best_other; [rewrite Hr|]..].
    + split; [|done]. split; [apply best_empty_other; [by right|done]|by apply best_other; [rewrite Hr|]..].
  - rewrite andb_false_r. destruct (Z.eqb_spec a (arp_ipaddr e)) as [->|Hne]; [done|].
    destruct (bool_decide (arp_q e <> None)); (split; [|congruence]).
    + destruct (age_queue c <=? arp_ctime e) eqn:E; (split; [apply best_empty_other; [left; by rewrite Hr|done]|
        by apply best_other; [rewrite Hr|]..|]); pose proof (best_this 3 t e _ _ Hr Hc Hq) as Hb; by rewrite E in Hb.
    + destruct (age_pending c <=? arp_ctime e) eqn:E; (split; [apply best_empty_other; [left; by rewrite Hr|done]|
        by apply best_other; [rewrite Hr|]| |by apply best_other; [rewrite Hr|]]);
        pose proof (best_this 2 t e _ _ Hr Hc Hp) as Hb; by rewrite E in Hb.
  - rewrite andb_false_r. destruct (Z.eqb_spec a (arp_ipaddr e)) as [->|Hne]; [done|]. split; [|congruence].
    destruct (age_stable c <=? arp_ctime e) eqn:E; (split; [apply best_empty_other; [left; by rewrite Hr|done]| |
        by apply best_other; [rewrite Hr|]..]); pose proof (best_this 1 t e _ _ Hr Hc Hs) as Hb; by rewrite E in Hb.
Qed.

Section lookup.
Context {W : Type} `{StackLaws W}.
Implicit Types (s : stack) (w : W).

Lemma wp_sweep s w a : length (arp_table s) = 10%nat -> Forall entry_ok (arp_table s) -> forall t2 t1 c (Q : Z + candidates -> W -> Prop),
  arp_table s = t1 ++ t2 -> swept t1 c -> (forall i e, ~ entry_of t1 a i e) ->
  (forall i e, entry_of (arp_table s) a i e -> Q (inl (Z.of_nat i)) (put_stack s w)) ->
  (forall c, swept (arp_table s) c -> (forall i e, ~ entry_of (arp_table s) a i e) -> Q (inr c) (put_stack s w)) ->
  wp (iter_nat (S (length t2)) (sweep_body (Some a)) (Z.of_nat (length t1), c)) (ends Q) (put_stack s w).
Proof.
  intros H10 Hok. induction t2 as [|e t2 IH]; intros t1 c Q Ht Hc Hn Hl Hr; apply wp_iter_S; cbn [sweep_body];
    change ARP_TABLE_SIZE with 10; rewrite Ht, length_app in H10; cbn [length] in H10.
  - rewrite (proj2 (Z.ltb_ge _ _)) by lia. apply wp_ret. rewrite app_nil_r in Ht. apply Hr; by rewrite Ht.
  - rewrite (proj2 (Z.ltb_lt _ _)) by lia.
    assert (He : arp_table s !! length t1 = Some e) by (rewrite Ht; by apply list_lookup_middle).
    apply wp_bind, (wp_get_arp _ e); [lia|by rewrite Nat2Z.id|].
    pose proof (swept_step a t1 e c ltac:(lia) (Forall_lookup_1 _ _ _ _ Hok He) Hc) as Hstep.
    destruct (sweep_entry (Some a) (Z.of_nat (length t1)) e c) as [i|c'].
    + destruct Hstep as (-> & Hlive & Hip). apply wp_ret. by apply (Hl _ e).
    + destruct Hstep as [Hc' Hne]. apply wp_ret.
      replace (u8 (Z.of_nat (length t1) + 1)) with (Z.of_nat (length (t1 ++ [e])))
        by (rewrite length_app; cbn [length]; unfold u8; rewrite Z.mod_small; lia).
      apply IH; [by rewrite <- app_assoc|done| |done|done].
      intros i x (Hi & Hlive & Hip). apply lookup_snoc in Hi as [Hi|[_ ->]]; [by apply (Hn i x)|by apply Hne].
Qed.

(** The entry of a class is the victim when the classes below are not there. *)
Lemma best_victim r t i age : (0 < r)%nat -> best r t i age -> i < 10 -> (forall j e, t !! j = Some e -> (r <= rank e)%nat) ->
  exists k e, i = Z.of_nat k /\ t !! k = Some e /\ rank e = r /\ victim t k.
Proof.
  intros Hpos [(-> & _)|(k & e & -> & Hk & Hr & _ & Hbest)] Hi Hlow; [done|]. exists k, e. do 3 (split; [done|]).
  exists e. split; [done|]. intros j e' Hj Hne. unfold better. rewrite Hr. specialize (Hlow _ _ Hj).
  destruct (decide (rank e' = r)) as [Hr'|Hr']; [right|left; lia]. split; [done|].
  rewrite bool_decide_eq_false_2 by lia. destruct (Hbest _ _ Hj Hr') as [?|[? ?]]; [by left|right; split; [done|lia]].
Qed.
Lemma best_none r t i age : best r t i age -> 10 <= i -> (forall j e, t !! j = Some e -> (r <= rank e)%nat) ->
  length t = 10%nat -> forall j e, t !! j = Some e -> (S r <= rank e)%nat.
Proof.
  intros [(_ & _ & Hnone)|(k & e & -> & Hk & _)] Hi Hlow H10 j x Hj.
  - specialize (Hlow _ _ Hj). specialize (Hnone _ _ Hj). lia.
  - apply lookup_lt_Some in Hk. lia.
Qed.
Lemma empty_victim t i : best_empty t i -> i < 10 ->
  exists k e, i = Z.of_nat k /\ t !! k = Some e /\ rank e = 0%nat /\ victim t k.
Proof.
  intros [(-> & _)|(k & e & -> & Hk & Hr & Hbest)] Hi; [done|]. exists k, e. do 3 (split; [done|]).
  exists e. split; [done|]. intros j e' Hj Hne. unfold better. rewrite Hr.
  destruct (decide (rank e' = 0%nat)) as [Hr'|Hr']; [right|left; lia]. split; [done|].
  rewrite bool_decide_eq_true_2 by done. specialize (Hbest _ _ Hj Hr'). lia.
Qed.
Lemma empty_none t i : best_empty t i -> 10 <= i -> length t = 10%nat -> forall j e, t !! j = Some e -> (1 <= rank e)%nat.
Proof.
  intros [(_ & Hnone)|(k & e & -> & Hk & _)] Hi H10 j x Hj.
  - specialize (Hnone _ _ Hj). lia.
  - apply lookup_lt_Some in Hk. lia.
Qed.

(** There is always an entry to choose, and its queue has to be freed only when
    all entries have one. *)
Lemma choose_victim t c : swept t c -> length t = 10%nat ->
  exists k e, t !! k = Some e /\ victim t k /\
    choose_entry c = (if bool_decide (rank e = 3%nat) then
      e ← get_arp (Z.of_nat k); _ ← free_etharp_q (arp_q e); _ ← upd_arp (Z.of_nat k) (with_arp_q None); mret (Some (Z.of_nat k))
      else mret (Some (Z.of_nat k))).
Proof.
  intros [He Hs Hp Hq] H10. unfold choose_entry. change ARP_TABLE_SIZE with 10.
  assert (Hdone : forall i r, (exists k e, i = Z.of_nat k /\ t !! k = Some e /\ rank e = r /\ victim t k) -> r <> 3%nat ->
    exists k e, t !! k = Some e /\ victim t k /\ mret (Some i) = (if bool_decide (rank e = 3%nat) then
      e ← get_arp (Z.of_nat k); _ ← free_etharp_q (arp_q e); _ ← upd_arp (Z.of_nat k) (with_arp_q None); mret (Some (Z.of_nat k))
      else mret (Some (Z.of_nat k)) : M W (option Z))).
  { intros i r (k & e & -> & Hk & <- & Hv) Hr. exists k, e. split; [done|]. split; [done|]. by rewrite bool_decide_eq_false_2. }
  destruct (Z.ltb_spec (empty_entry c) 10) as [Hlt|Hge]; [by eapply Hdone; [eapply empty_victim|]|].
  pose proof (empty_none _ _ He Hge H10) as H1.
  destruct (Z.ltb_spec (old_stable c) 10) as [Hlt|Hge1]; [by eapply Hdone; [eapply (best_victim 1); eauto with lia|]|].
  pose proof (best_none _ _ _ _ Hs Hge1 H1 H10) as H2.
  destruct (Z.ltb_spec (old_pending c) 10) as [Hlt|Hge2]; [by eapply Hdone; [eapply (best_victim 2); eauto with lia|]|].
  pose proof (best_none _ _ _ _ Hp Hge2 H2 H10) as H3.
  destruct (Z.ltb_spec (old_queue c) 10) as [Hlt|Hge3].
  - destruct (best_victim 3 _ _ _ ltac:(lia) Hq Hlt H3) as (k & e & -> & Hk & Hr & Hv). exists k, e.
    split; [done|]. split; [done|]. by rewrite bool_decide_eq_true_2.
  - pose proof (best_none _ _ _ _ Hq Hge3 H3 H10) as H4. exfalso. destruct t as [|e t]; [done|].
    specialize (H4 0%nat e eq_refl). unfold rank in H4. destruct (arp_state e); [lia|destruct (bool_decide _); lia|lia].
Qed.

(** ** Emptying an entry *)
Lemma wp_free_entry s w l qs k e (Q : unit -> W -> Prop) : arp_table s !! k = Some e ->
  queues_ok s l (map arp_q (arp_table s)) qs ->
  (forall s' l', queues_ok s' l' (<[k := None]> (map arp_q (arp_table s))) (<[k := []]> qs) -> same_stack s s' -> Q tt (put_stack s' w)) ->
  wp (free_etharp_q (arp_q e)) Q (put_stack s w).
Proof.
  intros Hk Hok HQ. pose proof (qok_at _ _ _ _ Hok) as Hat.
  assert (Hh : map arp_q (arp_table s) !! k = Some (arp_q e))
    by (change (map arp_q (arp_table s)) with (arp_q <$> arp_table s); by rewrite list_lookup_fmap, Hk).
  destruct (Forall2_lookup_l _ _ _ _ _ Hat Hh) as (c & Hc & _).
  pose proof (take_drop_middle _ _ _ Hh) as E1. pose proof (take_drop_middle _ _ _ Hc) as E2.
  pose proof (lookup_lt_Some _ _ _ Hh). pose proof (lookup_lt_Some _ _ _ Hc).
  assert (HL1 : length (list.take k (map arp_q (arp_table s))) = k) by (rewrite length_take; lia).
  assert (HL2 : length (list.take k qs) = k) by (rewrite length_take; lia).
  rewrite <- E1, <- E2 in Hok. apply (wp_free_etharp_q _ _ _ _ _ _ _ _ _ _ Hok); [by rewrite HL1, HL2|].
  intros s' l' Hok' Hs'. apply (HQ s' l'); [|done].
  by rewrite !insert_take_drop.
Qed.

Lemma wp_choose s w l qs c (Q : option Z -> W -> Prop) : arp_ok s l qs -> swept (arp_table s) c ->
  (forall k e s' l', victim (arp_table s) k -> arp_table s !! k = Some e ->
     arp_table s' = <[k := with_arp_q None e]> (arp_table s) -> same_but_table s s' ->
     queues_ok s' l' (map arp_q (arp_table s')) (<[k := []]> qs) -> Q (Some (Z.of_nat k)) (put_stack s' w)) ->
  wp (choose_entry c) Q (put_stack s w).
Proof.
  intros Hok Hc HQ. destruct (choose_victim _ _ Hc (aok_length _ _ _ Hok)) as (k & e & Hk & Hv & ->).
  pose proof (aok_queues _ _ _ Hok) as Hq.
  assert (Hmap : map arp_q (<[k := with_arp_q None e]> (arp_table s)) = <[k := None]> (map arp_q (arp_table s)))
    by apply (list_fmap_insert arp_q).
  case_bool_decide as Hr.
  - apply wp_bind, (wp_get_arp _ e); [lia|by rewrite Nat2Z.id|].
    apply wp_bind, (wp_free_entry _ _ l qs k); [done|done|]. intros s' l' Hq' Hs'.
    pose proof (same_stack_table _ _ Hs') as Ht'.
    apply wp_bind, (wp_upd_arp _ _ e); [lia|by rewrite Nat2Z.id, Ht'|]. rewrite Nat2Z.id, Ht'. apply wp_ret.
    eapply (HQ k e); [done|done|done|by apply same_stack_but_table|]. cbn [arp_table set_arp_table]. rewrite Hmap.
    by eapply queues_ok_ext; [| |exact Hq'].
  - assert (Hnone : arp_q e = None).
    { pose proof (Forall_lookup_1 _ _ _ _ (aok_entries _ _ _ Hok) Hk) as [_ Hst]. unfold rank in Hr.
      destruct (arp_state e); [done| |by destruct Hst]. destruct (arp_q e); [|done]. by rewrite bool_decide_eq_true_2 in Hr. }
    assert (Heq : with_arp_q None e = e) by (rewrite <- Hnone; by destruct e).
    assert (Hh : map arp_q (arp_table s) !! k = Some None)
      by (change (map arp_q (arp_table s)) with (arp_q <$> arp_table s); rewrite list_lookup_fmap, Hk; cbn; by rewrite Hnone).
    destruct (Forall2_lookup_l _ _ _ _ _ (qok_at _ _ _ _ Hq) Hh) as (d & Hd & Hd'). assert (d = []) as ->
      by (destruct d as [|[r ch] d]; [done|by destruct Hd']).
    apply wp_ret. apply (HQ k e s l); [done|done|by rewrite Heq, list_insert_id|apply same_but_table_refl|].
    by rewrite list_insert_id.
Qed.

(** ** find_entry *)

(** A new entry for the address [a]. *)
Definition new_entry (a : Z) (e : etharp_entry) : etharp_entry :=
  with_arp_ctime 0 (with_arp_ipaddr a (with_arp_state ETHARP_STATE_EMPTY (with_arp_q None e))).
(** May find_entry create an entry? *)
Definition may_create (t : list etharp_entry) (fl : Z) : Prop :=
  Z.land fl ETHARP_FIND_ONLY = 0 /\ (Z.land fl ETHARP_TRY_HARD <> 0 \/ exists i e, t !! i = Some e /\ arp_state e = ETHARP_STATE_EMPTY).
(** What find_entry answers and leaves. *)
Inductive found (s : stack) (qs : list queue) (a fl : Z) : Z -> stack -> list queue -> Prop :=
  | found_it i e s' : entry_of (arp_table s) a i e -> arp_table s' = arp_table s -> found s qs a fl (Z.of_nat i) s' qs
  | created_it i e s' : (forall j x, ~ entry_of (arp_table s) a j x) -> may_create (arp_table s) fl ->
      victim (arp_table s) i -> arp_table s !! i = Some e -> arp_table s' = <[i := new_entry a e]> (arp_table s) ->
      found s qs a fl (Z.of_nat i) s' (<[i := []]> qs)
  | no_entry s' : (forall j x, ~ entry_of (arp_table s) a j x) -> ~ may_create (arp_table s) fl ->
      arp_table s' = arp_table s -> found s qs a fl ERR_MEM s' qs.

(** Nothing but the ARP cache and the packet buffers changes. *)
Definition same_but_arp (s s' : stack) : Prop := exists i s0, same_but_table s s0 /\ s' = set_cached_entry i s0.

Lemma new_entry_dead t i a e : one_entry_each t -> one_entry_each (<[i := new_entry a e]> t).
Proof.
  intros Hu j k x y Hj Hk Hl Hl' Hip. apply list_lookup_insert_Some in Hj, Hk.
  destruct Hj as [(-> & <- & _)|[_ Hj]]; [done|]. destruct Hk as [(-> & <- & _)|[_ Hk]]; [done|].
  by apply (Hu j k x y).
Qed.

Lemma arp_ok_found s l qs i e : arp_ok s l qs -> arp_table s !! i = Some e -> arp_ok (set_cached_entry (Z.of_nat i) s) l qs.
Proof.
  intros [] Hi. split; try done. { by eapply queues_ok_ext; [| |exact aok_queues]. }
  cbn. change ARP_TABLE_SIZE with 10. apply lookup_lt_Some in Hi. lia.
Qed.
Lemma arp_ok_created s l qs i e a s' l' : arp_ok s l qs -> arp_table s !! i = Some e ->
  arp_table s' = <[i := new_entry a e]> (arp_table s) -> etharp_cached_entry s' = Z.of_nat i ->
  queues_ok s' l' (map arp_q (arp_table s')) (<[i := []]> qs) -> arp_ok s' l' (<[i := []]> qs).
Proof.
  intros Hok Hi Ht Hc Hq. split; rewrite ?Ht in *.
  - done.
  - rewrite length_insert. apply (aok_length _ _ _ Hok).
  - apply Forall_insert; [apply (aok_entries _ _ _ Hok)|]. by split.
  - by apply new_entry_dead, (aok_unique _ _ _ Hok).
  - rewrite Hc. change ARP_TABLE_SIZE with 10. apply lookup_lt_Some in Hi. pose proof (aok_length _ _ _ Hok). lia.
Qed.

(** Creating the entry that was chosen. *)
Lemma wp_create s w k e a (Q : Z -> W -> Prop) : arp_table s !! k = Some (with_arp_q None e) ->
  Q (Z.of_nat k) (put_stack (set_cached_entry (Z.of_nat k) (set_arp_table (<[k := new_entry a e]> (arp_table s)) s)) w) ->
  wp (create_entry (Some a) (Z.of_nat k)) Q (put_stack s w).
Proof.
  intros Hk HQ. pose proof (lookup_lt_Some _ _ _ Hk). unfold create_entry.
  apply wp_bind, (wp_upd_arp _ _ (with_arp_q None e)); [lia|by rewrite Nat2Z.id|]. rewrite Nat2Z.id.
  apply wp_bind. eapply wp_upd_arp; [lia|rewrite Nat2Z.id; by apply list_lookup_insert_eq|]. rewrite Nat2Z.id.
  apply wp_bind. eapply wp_upd_arp; [lia|rewrite Nat2Z.id; apply list_lookup_insert_eq; cbn; rewrite length_insert; lia|].
  rewrite Nat2Z.id. apply wp_bind, wp_mod_stack, wp_ret. cbn [arp_table set_arp_table] in *.
  rewrite !list_insert_insert_eq in *. exact HQ.
Qed.

Lemma empty_iff t i : best_empty t i -> length t = 10%nat ->
  (i <> 10 <-> exists j e, t !! j = Some e /\ arp_state e = ETHARP_STATE_EMPTY).
Proof.
  intros [(-> & Hnone)|(k & e & -> & Hk & Hr & _)] H10.
  - split; [done|]. intros (j & e & Hj & He). destruct (Hnone _ _ Hj). unfold rank. by rewrite He.
  - split; [|apply lookup_lt_Some in Hk; lia]. intros _. exists k, e. split; [done|]. unfold rank in Hr.
    destruct (arp_state e); [done|by destruct (bool_decide _)|done].
Qed.
#[global] Instance may_create_dec t fl : Decision (may_create t fl).
Proof.
  unfold may_create. apply and_dec; [apply _|]. apply or_dec; [apply _|].
  destruct (decide (Exists (fun e => arp_state e = ETHARP_STATE_EMPTY) t)) as [He|He]; [left|right].
  - apply Exists_exists in He as (e & Hin & He). apply list_elem_of_In, list_elem_of_lookup in Hin as [i Hi]. by exists i, e.
  - intros (i & e & Hi & Hs). apply He, Exists_exists. exists e. split; [by eapply list_elem_of_In, list_elem_of_lookup_2|done].
Defined.
(** The test of find_entry before it creates an entry. *)
Lemma creates_iff t c fl : swept t c -> length t = 10%nat ->
  ((empty_entry c =? ARP_TABLE_SIZE) && (Z.land fl ETHARP_TRY_HARD =? 0)) || negb (Z.land fl ETHARP_FIND_ONLY =? 0) =
  negb (bool_decide (may_create t fl)).
Proof.
  intros Hc H10. pose proof (empty_iff _ _ (swept_empty _ _ Hc) H10) as Hiff. change ARP_TABLE_SIZE with 10.
  apply eq_true_iff_eq. rewrite orb_true_iff, andb_true_iff, !negb_true_iff, bool_decide_eq_false, Z.eqb_neq, !Z.eqb_eq.
  unfold may_create. split.
  - intros [[Hi Hf]|Hf]; intros [Hf1 [Hf2|Hf2]]; try done. by apply Hiff in Hf2.
  - intros Hno. destruct (Z.eq_dec (Z.land fl ETHARP_FIND_ONLY) 0) as [E|E]; [left|by right].
    destruct (Z.eq_dec (empty_entry c) 10) as [E'|E']; [|exfalso; apply Hno; split; [done|right; by apply Hiff]].
    split; [done|]. destruct (Z.eq_dec (Z.land fl ETHARP_TRY_HARD) 0) as [?|E'']; [done|]. exfalso. apply Hno. auto.
Qed.

Lemma wp_find_entry s w l qs a fl (Q : Z -> W -> Prop) : arp_ok s l qs ->
  (forall r s' l' qs', arp_ok s' l' qs' -> found s qs a fl r s' qs' -> same_but_arp s s' -> Q r (put_stack s' w)) ->
  wp (find_entry (Some a) fl) Q (put_stack s w).
Proof.
  intros Hok HQ. pose proof (aok_length _ _ _ Hok) as H10. pose proof (aok_cached _ _ _ Hok) as Hcached.
  change ARP_TABLE_SIZE with 10 in Hcached.
  destruct (lookup_lt_is_Some_2 (arp_table s) (Z.to_nat (etharp_cached_entry s))) as [ec Hec]; [lia|].
  apply wp_bind, wp_gets_stack, wp_bind, wp_bind, (wp_get_arp _ ec); [lia|done|]. apply wp_ret.
  assert (Hfound : forall i e, entry_of (arp_table s) a i e -> Q (Z.of_nat i) (put_stack (set_cached_entry (Z.of_nat i) s) w)).
  { intros i e He. eapply (HQ _ _ l); [eapply arp_ok_found; [done|apply He]|by eapply found_it|].
    exists (Z.of_nat i), s. split; [apply same_but_table_refl|done]. }
  destruct (bool_decide (arp_state ec = ETHARP_STATE_STABLE) && matches (Some a) ec) eqn:Hhit.
  - apply andb_true_iff in Hhit as [Hst%bool_decide_eq_true Hip%Z.eqb_eq]. apply wp_ret.
    pose proof (Hfound (Z.to_nat (etharp_cached_entry s)) ec) as Hf. rewrite Z2Nat.id in Hf by lia.
    assert (set_cached_entry (etharp_cached_entry s) s = s) as Heq by (by destruct s).
    rewrite Heq in Hf. apply Hf. split; [done|]. split; [|done]. unfold live. by rewrite Hst.
  - apply wp_bind, (wp_loop_nat (S (length (arp_table s)))); [by rewrite H10|].
    apply (wp_sweep s w a H10 (aok_entries _ _ _ Hok) (arp_table s) [] no_candidates); [done|..].
    + split; left; repeat split; intros j e; by rewrite lookup_nil.
    + intros i e [Hi _]. by rewrite lookup_nil in Hi.
    + intros i e He. apply wp_bind, wp_mod_stack, wp_ret. by apply (Hfound i e).
    + intros c Hc Hnone. rewrite (creates_iff (arp_table s)) by done. clear Hhit. destruct (bool_decide_reflect (may_create (arp_table s) fl)) as [Hmay|Hmay]; cbn [negb].
      2: { apply wp_ret. eapply (HQ _ _ l); [done|by apply no_entry|]. exists (etharp_cached_entry s), s.
           split; [apply same_but_table_refl|by destruct s]. }
      apply wp_bind, (wp_choose _ _ l qs); [done|done|]. intros k e s' l' Hv Hk Ht' Hs' Hq'.
      pose proof (lookup_lt_Some _ _ _ Hk).
      apply (wp_create _ _ _ e); [rewrite Ht'; by apply list_lookup_insert_eq|]. rewrite Ht', list_insert_insert_eq in *.
      assert (Hmap : map arp_q (<[k := new_entry a e]> (arp_table s)) = map arp_q (<[k := with_arp_q None e]> (arp_table s))).
      { change (arp_q <$> <[k := new_entry a e]> (arp_table s) = arp_q <$> <[k := with_arp_q None e]> (arp_table s)).
        by rewrite !list_fmap_insert. }
      eapply (HQ _ _ l').
      * eapply arp_ok_created; [done|done|done|done|]. cbn [arp_table set_cached_entry set_arp_table]. rewrite Hmap.
        by eapply queues_ok_ext; [| |exact Hq'].
      * by eapply created_it.
      * eexists _, _. split; [|reflexivity]. by apply same_but_table_set.
Qed.

(** C37. find_entry refines its order of preference on the cache: an address that
    has an entry gets it, whether the last search hit it or not; for another one an
    entry is made when the flags allow it, in place of an empty one, or of the
    oldest stable, the oldest pending without packets, or the oldest pending entry,
    whose packets are freed; and else it answers ERR_MEM and the cache does not
    change.  The invariant holds afterwards: no address gets two entries and no
    queue element is lost. *)
Theorem find_entry_refines s w l qs a fl : arp_ok s l qs ->
  wp (find_entry (Some a) fl) (fun r w' => exists s' l' qs', w' = put_stack s' w /\
    arp_ok s' l' qs' /\ found s qs a fl r s' qs' /\ same_but_arp s s') (put_stack s w).
Proof. intros Hok. apply (wp_find_entry _ _ l qs); [done|]. intros r s' l' qs' ???. by exists s', l', qs'. Qed.
End lookup.

Lemma find_entry_refines_witness :
  wp (find_entry (Some 3) ETHARP_TRY_HARD) (fun r w' => exists s' l' qs', w' = put_stack s' arp_demo_stack /\
    arp_ok s' l' qs' /\ found arp_demo_stack arp_demo_queues 3 ETHARP_TRY_HARD r s' qs' /\ same_but_arp arp_demo_stack s')
    (put_stack arp_demo_stack arp_demo_stack).
Proof. apply (find_entry_refines arp_demo_stack arp_demo_stack _ _ 3 ETHARP_TRY_HARD arp_demo_ok). Defined.

Section learning.
Context {W : Type} `{StackLaws W}.
Implicit Types (s : stack) (w : W).
Variable call_linkoutput : linkoutput_fn -> netif_ptr -> option ptr -> M W Z.

(** The only place for the address [a] in the table is [i]. *)
Definition place_of (t : list etharp_entry) (a : Z) (i : nat) (e : etharp_entry) : Prop :=
  t !! i = Some e /\ arp_ipaddr e = a /\ forall j x, entry_of t a j x -> j = i.
(** The entry that is written. *)
Definition learned (n : netif_ptr) (mac : list Z) (e : etharp_entry) : etharp_entry :=
  with_arp_ctime 0 (with_arp_ethaddr mac (with_arp_netif (Some n) (with_arp_state ETHARP_STATE_STABLE e))).
(** The entries of the other addresses, but for the one that was given up for [a]. *)
Definition others_kept (t t' : list etharp_entry) (i : nat) : Prop := forall j, j <> i -> t' !! j = t !! j.

Lemma found_place s l qs a fl r s' qs' : arp_ok s l qs -> found s qs a fl r s' qs' -> r <> ERR_MEM ->
  exists i e, r = Z.of_nat i /\ place_of (arp_table s') a i e /\ others_kept (arp_table s) (arp_table s') i /\
    (arp_q e = None \/ entry_of (arp_table s) a i e).
Proof.
  intros Hok Hf Hr. destruct Hf as [i e s' He Ht|i e s' Hno Hmay Hv Hi Ht|s' Hno Hmay Ht]; [| |done].
  - exists i, e. split; [done|]. rewrite Ht. split; [|split; [done|by right]]. destruct He as (Hi & Hl & Ha). split; [done|]. split; [done|].
    intros j x (Hj & Hlx & Hx). by apply (aok_unique _ _ _ Hok j i x e); [| | | |congruence].
  - exists i, (new_entry a e). split; [done|]. rewrite Ht. split; [|split; [|by left]].
    + split; [apply list_lookup_insert_eq; by eapply lookup_lt_Some|]. split; [done|].
      intros j x (Hj & Hlx & Hx). apply list_lookup_insert_Some in Hj as [(-> & _ & _)|[_ Hj]]; [done|]. by destruct (Hno j x).
    + intros j Hj. by apply list_lookup_insert_ne.
Qed.

Lemma arp_ok_learned s l qs a i e n mac : arp_ok s l qs -> place_of (arp_table s) a i e -> arp_q e = None ->
  arp_ok (set_arp_table (<[i := learned n mac e]> (arp_table s)) s) l qs.
Proof.
  intros [] (Hi & Ha & Hu) Hq. split; cbn [arp_table set_arp_table etharp_cached_entry].
  - assert (map arp_q (<[i := learned n mac e]> (arp_table s)) = map arp_q (arp_table s)) as ->; [|by eapply queues_ok_ext; [| |exact aok_queues]].
    change (arp_q <$> <[i := learned n mac e]> (arp_table s) = arp_q <$> arp_table s). rewrite list_fmap_insert.
    apply list_insert_id. by rewrite list_lookup_fmap, Hi.
  - by rewrite length_insert.
  - apply Forall_insert; [done|]. split; [done|]. by split.
  - intros j k x y Hj Hk Hl Hl' Hip. apply list_lookup_insert_Some in Hj, Hk.
    destruct Hj as [(-> & <- & _)|[Hji Hj]], Hk as [(-> & <- & _)|[Hki Hk]]; [done| | |by apply (aok_unique j k x y)].
    + symmetry. apply (Hu k y). split; [done|]. split; [done|]. rewrite <- Hip. exact Ha.
    + apply (Hu j x). split; [done|]. split; [done|]. rewrite Hip. exact Ha.
  - done.
Qed.

(** A second write to an entry. *)
Lemma wp_upd_arp_again s w i e t f (Q : unit -> W -> Prop) : arp_table s = <[i := e]> t -> (i < length t)%nat ->
  Q tt (put_stack (set_arp_table (<[i := f e]> t) s) w) -> wp (upd_arp (Z.of_nat i) f) Q (put_stack s w).
Proof.
  intros Ht Hi HQ. apply (wp_upd_arp _ _ e); [lia|rewrite Nat2Z.id, Ht; by apply list_lookup_insert_eq|].
  by rewrite Nat2Z.id, Ht, list_insert_insert_eq.
Qed.

Lemma wp_update_arp_entry s w l qs n f a mac fl (Q : Z -> W -> Prop) : arp_ok s l qs -> netifs s !! n = Some f ->
  ip_addr_isany (Some a) || ip_addr_isbroadcast a f || ip_addr_ismulticast a = false ->
  (forall i e, entry_of (arp_table s) a i e -> arp_q e = None) ->
  (forall r s' l' qs', arp_ok s' l' qs' -> same_but_arp s s' ->
     (if bool_decide (r = ERR_MEM) then (forall j x, ~ entry_of (arp_table s) a j x) /\ ~ may_create (arp_table s) fl /\ arp_table s' = arp_table s
      else r = ERR_OK /\ exists i e, place_of (arp_table s') a i (learned n mac e) /\ others_kept (arp_table s) (arp_table s') i) ->
     Q r (put_stack s' w)) ->
  wp (update_arp_entry call_linkoutput n a mac fl) Q (put_stack s w).
Proof.
  intros Hok Hn Ha Hq HQ. apply wp_bind, (wp_get_netif _ f); [done|]. rewrite Ha.
  apply wp_bind, (wp_find_entry _ _ l qs); [done|]. intros r s1 l1 qs1 Hok1 Hf Hsame.
  destruct (decide (r = ERR_MEM)) as [->|Hr].
  - apply wp_ret. apply (HQ _ _ l1 qs1); [done|done|]. rewrite bool_decide_eq_true_2 by done.
    inversion Hf as [i e s2 _ _ E|i e s2 _ _ _ _ _ E|]; [unfold ERR_MEM in E; lia|unfold ERR_MEM in E; lia|done].
  - destruct (found_place _ _ _ _ _ _ _ _ Hok Hf Hr) as (i & e & -> & (Hi & Hip & Hu) & Hkept & Hold).
    assert (Hqe : arp_q e = None) by (destruct Hold as [?|Hold]; [done|by eapply Hq]).
    pose proof (lookup_lt_Some _ _ _ Hi) as Hlt. rewrite (proj2 (Z.ltb_ge _ _)) by lia.
    do 4 (apply wp_bind; eapply (wp_upd_arp_again _ _ i _ (arp_table s1)); [first [reflexivity|symmetry; by apply list_insert_id]|done|]).
    fold (learned n mac e).
    set (s2 := set_arp_table _ _). assert (Hi2 : arp_table s2 !! i = Some (learned n mac e)) by (cbn; by rewrite list_lookup_insert_eq).
    assert (Hs2 : s2 = set_arp_table (<[i := learned n mac e]> (arp_table s1)) s1) by done.
    apply wp_bind, (wp_loop_nat 1); [by apply Pos2Nat.is_pos|]. apply wp_iter_S. apply wp_bind, (wp_get_arp _ (learned n mac e)); [lia|by rewrite Nat2Z.id|].
    change (arp_q (learned n mac e)) with (arp_q e). rewrite Hqe. apply wp_ret, wp_ret.
    apply (HQ _ _ l1 qs1).
    + rewrite Hs2. by eapply arp_ok_learned; [|split; [exact Hi|split; [exact Hip|exact Hu]]|].
    + destruct Hsame as (c & s0 & Hs0 & ->). exists c, (set_arp_table (arp_table s2) s0). by split; [apply same_but_table_set|].
    + cbn. split; [done|]. exists i, e. split.
      * split; [done|]. split; [done|]. intros j x (Hj & Hl & Hx). cbn in Hj.
        apply list_lookup_insert_Some in Hj as [(-> & _ & _)|[_ Hj]]; [done|]. by apply (Hu j x).
      * intros j Hj. cbn. rewrite list_lookup_insert_ne by done. by apply Hkept.
Qed.

Lemma wp_etharp_find_addr s w l qs a i e (Q : Z -> W -> Prop) : arp_ok s l qs -> place_of (arp_table s) a i e ->
  arp_state e = ETHARP_STATE_STABLE ->
  (forall s' l' qs', arp_ok s' l' qs' -> arp_table s' = arp_table s -> Q (Z.of_nat i) (put_stack s' w)) -> wp (etharp_find_addr a) Q (put_stack s w).
Proof.
  intros Hok (Hi & Hip & Hu) Hst HQ. assert (Hentry : entry_of (arp_table s) a i e) by (split; [done|]; split; [|done]; unfold live; by rewrite Hst).
  apply wp_bind, (wp_find_entry _ _ l qs); [done|]. intros r s' l' qs' Hok' Hf _.
  destruct Hf as [j x s' Hx Ht|j x s' Hno|s' Hno]; [|by destruct (Hno i e)..].
  assert (j = i) as -> by by eapply Hu. rewrite (proj2 (Z.leb_le _ _)) by lia.
  apply wp_bind, (wp_get_arp _ e); [lia|by rewrite Nat2Z.id, Ht|]. rewrite bool_decide_eq_true_2 by done.
  apply wp_ret. by eapply HQ.
Qed.

(** C38. A learned address is found: when update_arp_entry may make an entry for the
    address, or there is one without packets waiting, it answers ERR_OK, and
    etharp_find_addr then answers an entry that is stable and has the Ethernet
    address and the interface that were learned.  All other entries but the one
    given up for it are as they were, and the whole invariant of the cache holds again:
    its ten entries, their states and ages, one entry for each address, the cached index,
    and the queues of packets, with the heap and the pools below them.  An entry may be
    made when there is an empty one, even without ETHARP_TRY_HARD, although the comment
    of the function says that only existing entries are updated then; with
    ETHARP_TRY_HARD also when one can be recycled. *)
Theorem arp_learn_find_roundtrip s w l qs n f a mac fl : arp_ok s l qs -> netifs s !! n = Some f ->
  ip_addr_isany (Some a) || ip_addr_isbroadcast a f || ip_addr_ismulticast a = false ->
  (may_create (arp_table s) fl \/ exists i e, entry_of (arp_table s) a i e) ->
  (forall i e, entry_of (arp_table s) a i e -> arp_q e = None) ->
  wp (r ← update_arp_entry call_linkoutput n a mac fl; i ← etharp_find_addr a; mret (r, i))
    (fun '(r, i) w' => r = ERR_OK /\ 0 <= i /\ exists s' e, w' = put_stack s' w /\ arp_table s' !! Z.to_nat i = Some e /\
       arp_state e = ETHARP_STATE_STABLE /\ arp_ipaddr e = a /\ arp_ethaddr e = mac /\ arp_netif e = Some n /\ arp_ctime e = 0 /\
       (forall j, j <> Z.to_nat i -> arp_table s' !! j = arp_table s !! j) /\ exists l' qs', arp_ok s' l' qs')
    (put_stack s w).
Proof.
  intros Hok Hn Ha Hmay Hq. apply wp_bind, (wp_update_arp_entry _ _ l qs _ f); [done..|].
  intros r s1 l1 qs1 Hok1 _ Hr. case_bool_decide as E.
  - destruct Hr as (Hno & Hnot & _). exfalso. destruct Hmay as [?|(i & e & He)]; [done|]. by destruct (Hno i e).
  - destruct Hr as (-> & i & e & Hp & Hkept). apply wp_bind, (wp_etharp_find_addr _ _ l1 qs1 _ i (learned n mac e)); [done|done|done|].
    intros s' l' qs' Hok' Ht. apply wp_ret. split; [done|]. split; [lia|]. exists s', (learned n mac e). rewrite Nat2Z.id, Ht.
    destruct Hp as (Hi & Hip & _). do 7 (split; [done|]). split; [done|]. by exists l', qs'.
Qed.
End learning.

(** An interface of the local network. *)
Definition demo_netif : netif := with_addrs (IP4_ADDR 192 168 1 3) (IP4_ADDR 255 255 255 0) (IP4_ADDR 192 168 1 1) netif_zero.
Definition learn_stack : stack := set_netifs {[0%nat := demo_netif]} arp_demo_stack.
Lemma learn_ok : arp_ok learn_stack [(MEM_SIZE_ALIGNED, false)] arp_demo_queues.
Proof. destruct arp_demo_ok. split; [by eapply queues_ok_ext; [| |exact aok_queues]|done..]. Qed.

Lemma arp_learn_find_roundtrip_witness (a : Z := IP4_ADDR 192 168 1 4) (mac : list Z := [0; 34; 17; 34; 17; 35]) :
  wp (r ← update_arp_entry (fun _ _ _ => mret ERR_OK) 0%nat a mac ETHARP_TRY_HARD; i ← etharp_find_addr a; mret (r, i))
    (fun '(r, i) w' => r = ERR_OK /\ 0 <= i /\ exists s' e, w' = put_stack s' learn_stack /\ arp_table s' !! Z.to_nat i = Some e /\
       arp_state e = ETHARP_STATE_STABLE /\ arp_ipaddr e = a /\ arp_ethaddr e = mac /\ arp_netif e = Some 0%nat /\ arp_ctime e = 0 /\
       (forall j, j <> Z.to_nat i -> arp_table s' !! j = arp_table learn_stack !! j) /\ exists l' qs', arp_ok s' l' qs')
    (put_stack learn_stack learn_stack).
Proof.
  apply (arp_learn_find_roundtrip (fun _ _ _ => mret ERR_OK) learn_stack learn_stack _ _ 0%nat demo_netif a mac ETHARP_TRY_HARD learn_ok);
    [reflexivity|reflexivity| |].
  - left. split; [reflexivity|left; discriminate].
  - intros i e (Hi & _ & Hip). exfalso. do 10 (destruct i as [|i]; [injection Hi as <-; discriminate|]). discriminate.
Defined.
