(* ===== verification/LwipNetif.v ===== *)
(** Network interfaces and routing: core/netif.c and ip_route of core/ipv4/ip.c.
    The walk over the TCP connections of an address that changes is a parameter
    here, tcp_address_changes of LwipTcp.v in the firmware. *)
From stdpp Require Import gmap.
From S2P Require Import Prelude Mmio LwipMem LwipPbuf LwipInet LwipStack LwipEtharp.

(** The pointers of the list are distinct objects, and there are finitely many. *)
Section netif.
Context {W : Type} `{HasStack W}.
Variable call_linkoutput : linkoutput_fn -> netif_ptr -> option ptr -> M W Z.
Variable tcp_address_changes : Z -> Z -> M W unit.

Definition netif_fuel : M W positive := gets_stack (fun s => Pos.succ (Pos.of_succ_nat (size (netifs s)))).

Definition netif_is_up (n : netif_ptr) : M W bool :=
  f ← get_netif n; mret (negb (Z.land (nif_flags f) NETIF_FLAG_UP =? 0)).

Definition netif_set_ipaddr (n : netif_ptr) (ipaddr : Z) : M W unit :=
  f ← get_netif n;
  _ ← (if negb (ip_addr_cmp ipaddr (nif_ip_addr f)) then tcp_address_changes (nif_ip_addr f) ipaddr else mret tt);
  upd_netif n (fun f => with_addrs ipaddr (nif_netmask f) (nif_gw f) f).
Definition netif_set_gw (n : netif_ptr) (gw : Z) : M W unit :=
  upd_netif n (fun f => with_addrs (nif_ip_addr f) (nif_netmask f) gw f).
Definition netif_set_netmask (n : netif_ptr) (netmask : Z) : M W unit :=
  upd_netif n (fun f => with_addrs (nif_ip_addr f) netmask (nif_gw f) f).
Definition netif_set_addr (n : netif_ptr) (ipaddr netmask gw : Z) : M W unit :=
  _ ← netif_set_ipaddr n ipaddr;
  _ ← netif_set_netmask n netmask;
  netif_set_gw n gw.

(** It answers whether the interface was added. *)
Definition netif_add (n : netif_ptr) (ipaddr netmask gw : Z) (state : option ptr)
    (init : netif_ptr -> M W Z) (input : input_fn) : M W (option netif_ptr) :=
  num ← gets_stack netifnum;
  _ ← upd_netif n (fun f =>
        Netif (nif_next f) 0 0 0 (Some input) (nif_output f) (nif_linkoutput f) state None
              (hwaddr_len f) (hwaddr f) (mtu f) 0 (nif_name f) num);
  _ ← mod_stack (set_netifnum (u8 (num + 1)));
  _ ← netif_set_addr n ipaddr netmask gw;
  err ← init n;
  if negb (err =? ERR_OK) then mret None
  else
    first ← gets_stack netif_list;
    _ ← upd_netif n (with_nif_next first);
    _ ← mod_stack (set_netif_list (Some n));
    mret (Some n).

Definition netif_set_default (n : option netif_ptr) : M W unit := mod_stack (set_netif_default n).

(** Unlink the interface from the list: is it found? *)
Definition netif_unlink_body (n : netif_ptr) (tmp : option netif_ptr) : M W (option netif_ptr + bool) :=
  match tmp with
  | None => mret (inr false)
  | Some t =>
      f ← get_netif t;
      if bool_decide (nif_next f = Some n) then
        g ← get_netif n;
        _ ← upd_netif t (with_nif_next (nif_next g));
        mret (inr true)
      else mret (inl (nif_next f))
  end.
Definition netif_remove (n : option netif_ptr) : M W unit :=
  match n with
  | None => mret tt
  | Some n =>
      first ← gets_stack netif_list;
      found ← (if bool_decide (first = Some n) then
                 f ← get_netif n; _ ← mod_stack (set_netif_list (nif_next f)); mret true
               else fuel ← netif_fuel; loop fuel (netif_unlink_body n) first);
      if (found : bool) then
        d ← gets_stack netif_default;
        if bool_decide (d = Some n) then netif_set_default None else mret tt
      else mret tt
  end.

(** The name is two characters and a digit. *)
Definition netif_find_body (c0 c1 num : Z) (n : option netif_ptr) : M W (option netif_ptr + option netif_ptr) :=
  match n with
  | None => mret (inr None)
  | Some i =>
      f ← get_netif i;
      if (num =? nif_num f) && (c0 =? fst (nif_name f)) && (c1 =? snd (nif_name f)) then mret (inr (Some i))
      else mret (inl (nif_next f))
  end.
Definition netif_find (name : option (list Z)) : M W (option netif_ptr) :=
  match name with
  | None => mret None
  | Some name =>
      c0 ← index name 0; c1 ← index name 1; c2 ← index name 2;
      first ← gets_stack netif_list;
      fuel ← netif_fuel;
      loop fuel (netif_find_body c0 c1 (u8 (c2 - 0x30))) first
  end.

(** An interface that comes up announces its address. *)
Definition netif_set_up (n : netif_ptr) : M W unit :=
  f ← get_netif n;
  if Z.land (nif_flags f) NETIF_FLAG_UP =? 0 then
    _ ← upd_netif n (fun f => with_nif_flags (Z.lor (nif_flags f) NETIF_FLAG_UP) f);
    f ← get_netif n;
    if negb (Z.land (nif_flags f) NETIF_FLAG_ETHARP =? 0) then
      _ ← etharp_request call_linkoutput n (nif_ip_addr f); mret tt
    else mret tt
  else mret tt.
Definition netif_set_down (n : netif_ptr) : M W unit :=
  f ← get_netif n;
  if negb (Z.land (nif_flags f) NETIF_FLAG_UP =? 0) then
    upd_netif n (fun f => with_nif_flags (u8 (Z.land (nif_flags f) (not32 NETIF_FLAG_UP))) f)
  else mret tt.

(** ** ip_route *)
Definition ip_route_body (dest : Z) (n : option netif_ptr) : M W (option netif_ptr + option netif_ptr) :=
  match n with
  | None => mret (inr None)
  | Some i =>
      f ← get_netif i;
      up ← netif_is_up i;
      if (up : bool) && ip_addr_netcmp dest (nif_ip_addr f) (nif_netmask f) then mret (inr (Some i))
      else mret (inl (nif_next f))
  end.
Definition ip_route (dest : Z) : M W (option netif_ptr) :=
  first ← gets_stack netif_list;
  fuel ← netif_fuel;
  r ← loop fuel (ip_route_body dest) first;
  match r with
  | Some n => mret (Some n)
  | None =>
      d ← gets_stack netif_default;
      match d with
      | None => mret None
      | Some d => up ← netif_is_up d; mret (if (up : bool) then Some d else None)
      end
  end.
End netif.
