(* ===== verification/LwipIpOut.v ===== *)
(** Sending IP packets: ip_output_if and ip_output of core/ipv4/ip.c, and the ICMP
    messages of core/ipv4/icmp.c.  IP fragmentation is a parameter. *)
From stdpp Require Import gmap.
From S2P Require Import Prelude Mmio LwipMem LwipPbuf LwipInet LwipChksum LwipStack LwipEtharp LwipNetif.

(** * ip.h: the header *)
Definition IP_HLEN : Z := 20.
Definition IP_PROTO_ICMP : Z := 1.
Definition IP_PROTO_UDP : Z := 17.
Definition IP_PROTO_TCP : Z := 6.
Definition IP_MF : Z := 0x2000.
Definition IP_OFFMASK : Z := 0x1fff.
(** [struct ip_hdr] *)
Definition ip_v_hl_tos : Z := 0.
Definition ip_len : Z := 2.
Definition ip_id_field : Z := 4.
Definition ip_offset : Z := 6.
Definition ip_ttl_proto : Z := 8.
Definition ip_chksum : Z := 10.
Definition ip_src : Z := 12.
Definition ip_dest : Z := 16.

(** icmp.h *)
Definition ICMP_ER : Z := 0.
Definition ICMP_DUR : Z := 3.
Definition ICMP_ECHO : Z := 8.
Definition ICMP_TE : Z := 11.
Definition ICMP_DUR_PROTO : Z := 2.
Definition ICMP_DUR_PORT : Z := 3.
Definition ICMP_TTL : Z := 255.
Definition ICMP_DEST_UNREACH_DATASIZE : Z := 8.
(** [struct icmp_echo_hdr] *)
Definition icmp_type : Z := 0.
Definition icmp_code : Z := 1.
Definition icmp_chksum : Z := 2.
Definition icmp_id : Z := 4.
Definition icmp_seqno : Z := 6.
Definition SIZEOF_ICMP_ECHO_HDR : Z := 8.

Section ip_out.
Context {W : Type} `{HasStack W}.
Variable call_output : output_fn -> netif_ptr -> option ptr -> Z -> M W Z.
Variable ip_frag : ptr -> netif_ptr -> Z -> M W Z.

(** ** Header fields *)
Definition IPH_V (h : header) : M W Z := v ← hdr16 h ip_v_hl_tos; mret (Z.shiftr (ntohs v) 12).
Definition IPH_HL (h : header) : M W Z := v ← hdr16 h ip_v_hl_tos; mret (Z.land (Z.shiftr (ntohs v) 8) 0x0f).
Definition IPH_TTL (h : header) : M W Z := v ← hdr16 h ip_ttl_proto; mret (Z.shiftr (ntohs v) 8).
Definition IPH_PROTO (h : header) : M W Z := v ← hdr16 h ip_ttl_proto; mret (Z.land (ntohs v) 0xff).
Definition IPH_VHLTOS_SET (h : header) (v hl tos : Z) : M W unit :=
  set_hdr16 h ip_v_hl_tos (htons (Z.lor (Z.lor (Z.shiftl v 12) (Z.shiftl hl 8)) tos)).
Definition IPH_TTL_SET (h : header) (ttl : Z) : M W unit :=
  p ← IPH_PROTO h; set_hdr16 h ip_ttl_proto (htons (Z.lor p (Z.shiftl ttl 8))).
Definition IPH_PROTO_SET (h : header) (proto : Z) : M W unit :=
  t ← IPH_TTL h; set_hdr16 h ip_ttl_proto (htons (Z.lor proto (Z.shiftl t 8))).

(** [netif->output(netif, p, dest)] *)
Definition output (n : netif_ptr) (p : option ptr) (dest : Z) : M W Z :=
  f ← get_netif n;
  match nif_output f with Some o => call_output o n p dest | None => fault end.

(** ** ip_output_if *)

(** The header that is put in front of the data; a null [src] is the address of
    the interface. *)
Definition ip_make_header (p : ptr) (src : option Z) (dest ttl tos proto : Z) (n : netif_ptr) : M W unit :=
  iphdr ← payload_hdr p;
  b ← on_net (get_pbuf p);
  _ ← IPH_TTL_SET iphdr ttl;
  _ ← IPH_PROTO_SET iphdr proto;
  _ ← set_hdr32 iphdr ip_dest dest;
  _ ← IPH_VHLTOS_SET iphdr 4 (IP_HLEN / 4) tos;
  _ ← set_hdr16 iphdr ip_len (htons (tot_len b));
  _ ← set_hdr16 iphdr ip_offset 0;
  id ← gets_stack ip_id;
  _ ← set_hdr16 iphdr ip_id_field (htons id);
  _ ← mod_stack (set_ip_id (u16 (id + 1)));
  f ← get_netif n;
  _ ← set_hdr32 iphdr ip_src (if ip_addr_isany src then nif_ip_addr f else ip_addr_set src);
  set_hdr16 iphdr ip_chksum 0.

(** A null [dest] is IP_HDRINCL: the packet has its header already. *)
Definition ip_output_if (p : ptr) (src dest : option Z) (ttl tos proto : Z) (n : netif_ptr) : M W Z :=
  r ← (match dest with
       | Some d =>
           r ← on_net (pbuf_header (Some p) IP_HLEN);
           if negb (r =? 0) then mret None
           else _ ← ip_make_header p src d ttl tos proto n; mret (Some d)
       | None => iphdr ← payload_hdr p; d ← hdr32 iphdr ip_dest; mret (Some d)
       end);
  match r with
  | None => mret ERR_BUF
  | Some d =>
      f ← get_netif n;
      b ← on_net (get_pbuf p);
      if negb (mtu f =? 0) && (mtu f <? tot_len b) then ip_frag p n d
      else output n (Some p) d
  end.

Definition ip_output (p : ptr) (src : option Z) (dest ttl tos proto : Z) : M W Z :=
  r ← ip_route dest;
  match r with
  | None => mret ERR_RTE
  | Some n => ip_output_if p src (Some dest) ttl tos proto n
  end.

(** ** icmp_send_response *)
Definition icmp_send_response (p : ptr) (type code : Z) : M W unit :=
  q ← on_net (pbuf_alloc PBUF_IP (SIZEOF_ICMP_ECHO_HDR + IP_HLEN + ICMP_DEST_UNREACH_DATASIZE) PBUF_RAM);
  match q with
  | None => mret tt
  | Some q =>
      iphdr ← payload_hdr p;
      icmphdr ← payload_hdr q;
      _ ← set_hdr8 icmphdr icmp_type type;
      _ ← set_hdr8 icmphdr icmp_code code;
      _ ← set_hdr16 icmphdr icmp_id 0;
      _ ← set_hdr16 icmphdr icmp_seqno 0;
      data ← hdr_bytes iphdr 0 (Z.to_nat (IP_HLEN + ICMP_DEST_UNREACH_DATASIZE));
      _ ← set_hdr_bytes icmphdr SIZEOF_ICMP_ECHO_HDR data;
      _ ← set_hdr16 icmphdr icmp_chksum 0;
      b ← on_net (get_pbuf q);
      data ← hdr_bytes icmphdr 0 (Z.to_nat (len b));
      _ ← set_hdr16 icmphdr icmp_chksum (inet_chksum data);
      src ← hdr32 iphdr ip_src;
      _ ← ip_output q None src ICMP_TTL 0 IP_PROTO_ICMP;
      _ ← on_net (pbuf_free (Some q));
      mret tt
  end.
Definition icmp_dest_unreach (p : ptr) (t : Z) : M W unit := icmp_send_response p ICMP_DUR t.
Definition icmp_time_exceeded (p : ptr) (t : Z) : M W unit := icmp_send_response p ICMP_TE t.

(** ** icmp_input *)

(** Make room for the link headers in an echo request, in a copy if the packet has
    none: the packet to answer in and its IP header; [None] is the jump to memerr. *)
Definition icmp_echo_room (p : ptr) (iphdr : header) (hlen : Z) : M W (option (ptr * header)) :=
  r ← on_net (pbuf_header (Some p) (PBUF_IP_HLEN + PBUF_LINK_HLEN));
  if negb (r =? 0) then
    r ← on_net (pbuf_header (Some p) hlen);
    if negb (r =? 0) then mret None
    else
      b ← on_net (get_pbuf p);
      r ← on_net (pbuf_alloc PBUF_LINK (tot_len b) PBUF_RAM);
      match r with
      | None => mret None
      | Some r =>
          err ← on_net (pbuf_copy (Some r) (Some p));
          if negb (err =? ERR_OK) then mret None
          else
            iphdr ← payload_hdr r;
            e ← on_net (pbuf_header (Some r) (- hlen));
            if negb (e =? 0) then mret None
            else _ ← on_net (pbuf_free (Some p)); mret (Some (r, iphdr))
      end
  else
    r ← on_net (pbuf_header (Some p) (- (PBUF_IP_HLEN + PBUF_LINK_HLEN)));
    if negb (r =? 0) then mret None else mret (Some (p, iphdr)).

(** Turn the request into its reply and send it. *)
Definition icmp_echo_reply (p : ptr) (iphdr : header) (hlen : Z) (inp : netif_ptr) : M W unit :=
  iecho ← payload_hdr p;
  src ← hdr32 iphdr ip_src;
  dest ← hdr32 iphdr ip_dest;
  _ ← set_hdr32 iphdr ip_src dest;
  _ ← set_hdr32 iphdr ip_dest src;
  _ ← set_hdr8 iecho icmp_type ICMP_ER;
  _ ← set_hdr16 iecho icmp_chksum 0;
  _ ← IPH_TTL_SET iphdr ICMP_TTL;
  _ ← set_hdr16 iphdr ip_chksum 0;
  r ← on_net (pbuf_header (Some p) hlen);
  if negb (r =? 0) then mret tt
  else
    src ← hdr32 iphdr ip_src;
    _ ← ip_output_if p (Some src) None ICMP_TTL 0 IP_PROTO_ICMP inp;
    mret tt.

Definition icmp_input (p : ptr) (inp : netif_ptr) : M W unit :=
  let drop := _ ← on_net (pbuf_free (Some p)); mret tt in
  iphdr ← payload_hdr p;
  hl ← IPH_HL iphdr;
  let hlen := hl * 4 in
  r ← on_net (pbuf_header (Some p) (- hlen));
  b ← on_net (get_pbuf p);
  if negb (r =? 0) || (tot_len b <? 4) then drop
  else
    h ← payload_hdr p;
    type ← hdr8 h 0;
    if type =? ICMP_ECHO then
      dest ← hdr32 iphdr ip_dest;
      f ← get_netif inp;
      if ip_addr_ismulticast dest || ip_addr_isbroadcast dest f then drop
      else if tot_len b <? SIZEOF_ICMP_ECHO_HDR then drop
      else
        sum ← on_net (inet_chksum_pbuf (Some p));
        if negb (sum =? 0) then drop
        else
          r ← icmp_echo_room p iphdr hlen;
          match r with
          | None => drop
          | Some (p, iphdr) => _ ← icmp_echo_reply p iphdr hlen inp; _ ← on_net (pbuf_free (Some p)); mret tt
          end
    else drop.
End ip_out.
