(* ===== verification/LwipIpSpec.v ===== *)
(** What the IP layer does to a packet on its way out: the choice of the interface,
    and the header that is put in front of the data. *)
From stdpp Require Import gmap.
From S2P Require Import Prelude Mmio LwipMem LwipMemSpec LwipPbuf LwipPbufSpec LwipPbufTheorems LwipPbufOwn LwipInet LwipInetTheorems.
From S2P Require Import LwipStack LwipStackSpec LwipHeader LwipNetif LwipIpOut.

(** * The list of interfaces *)
Fixpoint netif_chain (m : gmap netif_ptr netif) (p : option netif_ptr) (l : list (netif_ptr * netif)) : Prop :=
  match l with [] => p = None | (q, f) :: l => p = Some q /\ m !! q = Some f /\ netif_chain m (nif_next f) l end.
(** It has no cycle. *)
Definition interfaces (s : stack) (l : list (netif_ptr * netif)) : Prop :=
  netif_chain (netifs s) (netif_list s) l /\ NoDup l.*1.

Lemma netif_chain_in m p l q f : netif_chain m p l -> (q, f) ∈ l -> m !! q = Some f.
Proof.
  revert p. induction l as [|[q' f'] l IH]; intros p; cbn [netif_chain]; [by intros _ ?%elem_of_nil|].
  intros (_ & Hq & Hl) [[= -> ->]|Hin]%elem_of_cons; [done|by eapply IH].
Qed.
Lemma netif_chain_size m p l : netif_chain m p l -> NoDup l.*1 -> (length l <= size m)%nat.
Proof.
  intros Hc Hnd. rewrite <- (length_fmap fst l), <- size_dom.
  rewrite <- (size_list_to_set (C := gset netif_ptr) l.*1) by done. apply subseteq_size.
  intros q. rewrite elem_of_list_to_set, list_elem_of_fmap. intros ([q' f] & -> & Hin).
  apply elem_of_dom. exists f. by apply (netif_chain_in _ _ _ _ _ Hc).
Qed.

Definition is_up (f : netif) : bool := negb (Z.land (nif_flags f) NETIF_FLAG_UP =? 0).
Definition on_network (dest : Z) (f : netif) : bool := ip_addr_netcmp dest (nif_ip_addr f) (nif_netmask f).
(** The interface for [dest]: the first that is up and on its network, else the
    default one, if that is up. *)
Definition route (dest : Z) (l : list (netif_ptr * netif)) (default : option (netif_ptr * netif)) : option netif_ptr :=
  match List.find (fun x => is_up (snd x) && on_network dest (snd x)) l with
  | Some x => Some (fst x)
  | None => match default with Some x => if is_up (snd x) then Some (fst x) else None | None => None end
  end.

Section routing.
Context {W : Type} `{StackLaws W}.
Implicit Types (s : stack) (w : W).

Lemma wp_netif_is_up n f s w (Q : bool -> W -> Prop) : netifs s !! n = Some f -> Q (is_up f) (put_stack s w) ->
  wp (netif_is_up n) Q (put_stack s w).
Proof. intros Hn HQ. apply wp_bind, (wp_get_netif _ f); [done|]. by apply wp_ret. Qed.

Lemma wp_route_loop dest s w (Q : option netif_ptr -> W -> Prop) : forall l p, netif_chain (netifs s) p l ->
  Q (fst <$> List.find (fun x => is_up (snd x) && on_network dest (snd x)) l) (put_stack s w) ->
  wp (iter_nat (S (length l)) (ip_route_body dest) p) (ends Q) (put_stack s w).
Proof.
  induction l as [|[q f] l IH]; intros p Hc HQ; apply wp_iter_S; cbn [netif_chain] in Hc.
  - subst p. by apply wp_ret.
  - destruct Hc as (-> & Hq & Hc). cbn [ip_route_body List.find snd] in *. apply wp_bind, (wp_get_netif _ f); [done|].
    apply wp_bind, (wp_netif_is_up _ f); [done|]. unfold on_network in *. destruct (is_up f && _); apply wp_ret; [done|by apply IH].
Qed.

(** The default interface. *)
Definition default_of (s : stack) : option (netif_ptr * netif) :=
  d ← netif_default s; f ← netifs s !! d; Some (d, f).
Lemma wp_ip_route dest s w l (Q : option netif_ptr -> W -> Prop) : interfaces s l ->
  (forall d, netif_default s = Some d -> is_Some (netifs s !! d)) ->
  Q (route dest l (default_of s)) (put_stack s w) -> wp (ip_route dest) Q (put_stack s w).
Proof.
  intros [Hc Hnd] Hd HQ. apply wp_bind, wp_gets_stack, wp_bind, wp_gets_stack.
  apply wp_bind, (wp_loop_nat (S (length l))); [pose proof (netif_chain_size _ _ _ Hc Hnd); lia|].
  apply wp_route_loop; [done|]. unfold route, default_of in HQ. destruct (List.find _ l) as [x|]; cbn [fmap option_fmap option_map]; [by apply wp_ret|].
  apply wp_bind, wp_gets_stack. destruct (netif_default s) as [d|] eqn:E; [|by apply wp_ret]. destruct (Hd d eq_refl) as [f Hf].
  cbn in HQ. rewrite Hf in HQ. cbn in HQ. apply wp_bind, (wp_netif_is_up _ f); [done|]. by apply wp_ret.
Qed.
End routing.

(** * The header *)
Definition bytes4 (v : Z) : list Z := [byte_of v 0; byte_of v 1; byte_of v 2; byte_of v 3].
Definition word2 (v : Z) : list Z := [byte_of v 1; byte_of v 0].
(** A header without options: the fields of two bytes in network order, the
    addresses as they are kept. *)
Definition ip_header (tos len id offset ttl proto chksum src dest : Z) : list Z :=
  [0x45; tos] ++ word2 len ++ word2 id ++ word2 offset ++ [ttl; proto] ++ word2 chksum ++ bytes4 src ++ bytes4 dest.

Lemma byte_htons v : byte_of (htons v) 0 = byte_of v 1 /\ byte_of (htons v) 1 = byte_of v 0.
Proof.
  rewrite htons_bytes. pose proof (byte_of_bound v 0). pose proof (byte_of_bound v 1).
  set (x := byte_of v 0) in *. set (y := byte_of v 1) in *. clearbody x y. unfold byte_of. cbn [Z.mul Pos.mul].
  split; Z.div_mod_to_equations; lia.
Qed.
(** The bytes of a header are octets. *)
Definition hdr_octets (m : Z -> Z) : Prop := forall i, 0 <= i < 20 -> 0 <= m i < 2 ^ 8.
Lemma bytes_octets m : bytes m -> hdr_octets m.
Proof. intros Hm i _. apply Hm. Qed.
Lemma le16_bytes m i : hdr_octets m -> 0 <= i < 19 -> htons (le16 m i) = m (i + 1) + 2 ^ 8 * m i.
Proof.
  intros Hm Hi. rewrite htons_bytes. unfold le16, byte_of. pose proof (Hm i ltac:(lia)). pose proof (Hm (i + 1) ltac:(lia)). cbn [Z.mul Pos.mul].
  Z.div_mod_to_equations. lia.
Qed.
Lemma le16_high m i : hdr_octets m -> 0 <= i < 19 -> byte_of (le16 m i) 1 = m (i + 1).
Proof.
  intros Hm Hi. unfold le16, byte_of. change (2 ^ (8 * 1)) with (2 ^ 8). pose proof (Hm i ltac:(lia)). pose proof (Hm (i + 1) ltac:(lia)). Z.div_mod_to_equations. lia.
Qed.
Lemma set16_pair i a b m j : 0 <= a < 2 ^ 8 -> 0 <= b < 2 ^ 8 -> m (i + 1) = b ->
  set16 i (htons (b + 2 ^ 8 * a)) m j = set8 i a m j.
Proof.
  intros Ha Hb Hm. unfold set16, set8. destruct (byte_htons (b + 2 ^ 8 * a)) as [-> ->]. unfold byte_of. cbn [Z.mul Pos.mul].
  destruct (Z.eqb_spec j i); [Z.div_mod_to_equations; lia|]. destruct (Z.eqb_spec j (i + 1)) as [->|]; [rewrite Hm; Z.div_mod_to_equations; lia|done].
Qed.
Lemma set16_pair' i a b m j : 0 <= a < 2 ^ 8 -> 0 <= b < 2 ^ 8 -> m i = a ->
  set16 i (htons (b + 2 ^ 8 * a)) m j = set8 (i + 1) b m j.
Proof.
  intros Ha Hb Hm. unfold set16, set8. destruct (byte_htons (b + 2 ^ 8 * a)) as [-> ->]. unfold byte_of. cbn [Z.mul Pos.mul].
  destruct (Z.eqb_spec j i) as [->|]; [rewrite (proj2 (Z.eqb_neq _ _)) by lia; Z.div_mod_to_equations; lia|].
  destruct (Z.eqb_spec j (i + 1)) as [->|]; [Z.div_mod_to_equations; lia|done].
Qed.

(** The lengths of a packet and of its header. *)
Definition ip_total (m : Z -> Z) : Z := htons (le16 m ip_len).
Definition ihl (m : Z -> Z) : Z := Z.land (m 0) 15 * 4.

(** What the stores of ip_output_if make of the bytes in front of the data. *)
Definition with_header (tos len id ttl proto src dest : Z) (m : Z -> Z) : Z -> Z :=
  set16 10 0 (set32 12 src (set16 4 (htons id) (set16 6 0 (set16 2 (htons len)
    (set8 0 0x45 (set8 1 tos (set32 16 dest (set8 9 proto (set8 8 ttl m))))))))).
Lemma with_header_prefix tos len id ttl proto src dest m :
  prefix 20 (with_header tos len id ttl proto src dest m) = ip_header tos len id 0 ttl proto 0 src dest.
Proof.
  unfold prefix, with_header, ip_header, word2, bytes4. cbn [seq fmap list_fmap app].
  destruct (byte_htons len) as [El1 El2], (byte_htons id) as [Ei1 Ei2]. rewrite <- El1, <- El2, <- Ei1, <- Ei2. reflexivity.
Qed.
Lemma with_header_rest tos len id ttl proto src dest m i : 20 <= i -> with_header tos len id ttl proto src dest m i = m i.
Proof.
  intros Hi. unfold with_header, set16, set32, set8. rewrite !(proj2 (Z.ltb_ge i _)) by lia. rewrite !andb_false_r.
  by rewrite !(proj2 (Z.eqb_neq i _)) by lia.
Qed.

Lemma set16_twice i a b a' b' m j : 0 <= a < 2 ^ 8 -> 0 <= b < 2 ^ 8 -> 0 <= a' < 2 ^ 8 -> 0 <= b' < 2 ^ 8 ->
  set16 i (htons (b + 2 ^ 8 * a)) (set16 i (htons (b' + 2 ^ 8 * a')) m) j = set8 (i + 1) b (set8 i a m) j.
Proof.
  intros Ha Hb Ha' Hb'. unfold set16, set8. destruct (byte_htons (b + 2 ^ 8 * a)) as [-> ->]. unfold byte_of. cbn [Z.mul Pos.mul].
  destruct (Z.eqb_spec j i) as [->|]; [rewrite (proj2 (Z.eqb_neq _ _)) by lia; Z.div_mod_to_equations; lia|].
  destruct (Z.eqb_spec j (i + 1)); [Z.div_mod_to_equations; lia|done].
Qed.
Lemma le16_set16_htons i a b m : 0 <= a < 2 ^ 8 -> 0 <= b < 2 ^ 8 ->
  ntohs (le16 (set16 i (htons (b + 2 ^ 8 * a)) m) i) = b + 2 ^ 8 * a.
Proof.
  intros Ha Hb. unfold ntohs. rewrite htons_bytes. unfold le16, set16. rewrite Z.eqb_refl, (proj2 (Z.eqb_neq (i + 1) i)), Z.eqb_refl by lia.
  destruct (byte_htons (b + 2 ^ 8 * a)) as [-> ->]. unfold byte_of. cbn [Z.mul Pos.mul]. Z.div_mod_to_equations. lia.
Qed.

Section header.
Context {W : Type} `{StackLaws W}.
Variables (p : ptr) (o : Z) (s : net) (l : list block) (b : pbuf).
Hypothesis Hp : pbufs s !! p = Some b.
Implicit Types (t : stack) (w : W) (m : Z -> Z) (k : net).

Lemma wp_IPH_PROTO k m t w (Q : Z -> W -> Prop) : view p o m s l k -> inside o b 0 20 -> hdr_octets m ->
  Q (m 9) (put_stack (set_net k t) w) -> wp (IPH_PROTO (p, o)) Q (put_stack (set_net k t) w).
Proof.
  intros Hv [Hi1 Hi2] Hm HQ. apply wp_bind, (wp_hdr16 p o s l b Hp _ m); [done|split; unfold ip_ttl_proto; lia|]. apply wp_ret.
  unfold ntohs. rewrite land_ff, (proj1 (byte_htons _)), le16_high by (done || unfold ip_ttl_proto; lia). exact HQ.
Qed.
Lemma wp_IPH_TTL k m t w (Q : Z -> W -> Prop) : view p o m s l k -> inside o b 0 20 -> hdr_octets m ->
  Q (m 8) (put_stack (set_net k t) w) -> wp (IPH_TTL (p, o)) Q (put_stack (set_net k t) w).
Proof.
  intros Hv [Hi1 Hi2] Hm HQ. apply wp_bind, (wp_hdr16 p o s l b Hp _ m); [done|split; unfold ip_ttl_proto; lia|]. apply wp_ret.
  unfold ntohs, ip_ttl_proto. rewrite le16_bytes, Z.shiftr_div_pow2 by (done || lia). change (8 + 1) with 9.
  pose proof (Hm 8 ltac:(lia)). pose proof (Hm 9 ltac:(lia)). replace ((m 9 + 2 ^ 8 * m 8) / 2 ^ 8) with (m 8); [done|]. Z.div_mod_to_equations. lia.
Qed.
Lemma wp_IPH_HL k m t w (Q : Z -> W -> Prop) : view p o m s l k -> inside o b 0 20 -> hdr_octets m ->
  Q (Z.land (m 0) 15) (put_stack (set_net k t) w) -> wp (IPH_HL (p, o)) Q (put_stack (set_net k t) w).
Proof.
  intros Hv [Hi1 Hi2] Hm HQ. apply wp_bind, (wp_hdr16 p o s l b Hp _ m); [done|split; unfold ip_v_hl_tos; lia|]. apply wp_ret.
  unfold ntohs, ip_v_hl_tos. rewrite le16_bytes, Z.shiftr_div_pow2 by (done || lia). pose proof (Hm 0 ltac:(lia)). pose proof (Hm (0 + 1) ltac:(lia)).
  replace ((m (0 + 1) + 2 ^ 8 * m 0) / 2 ^ 8) with (m 0); [done|]. Z.div_mod_to_equations. lia.
Qed.
Lemma wp_IPH_V k m t w (Q : Z -> W -> Prop) : view p o m s l k -> inside o b 0 20 -> hdr_octets m ->
  Q (m 0 / 16) (put_stack (set_net k t) w) -> wp (IPH_V (p, o)) Q (put_stack (set_net k t) w).
Proof.
  intros Hv [Hi1 Hi2] Hm HQ. apply wp_bind, (wp_hdr16 p o s l b Hp _ m); [done|split; unfold ip_v_hl_tos; lia|]. apply wp_ret.
  unfold ntohs, ip_v_hl_tos. rewrite le16_bytes, Z.shiftr_div_pow2 by (done || lia). pose proof (Hm 0 ltac:(lia)). pose proof (Hm (0 + 1) ltac:(lia)).
  replace ((m (0 + 1) + 2 ^ 8 * m 0) / 2 ^ 12) with (m 0 / 16); [done|]. Z.div_mod_to_equations. lia.
Qed.
Lemma wp_IPH_TTL_SET k m v t w (Q : unit -> W -> Prop) : view p o m s l k -> inside o b 0 20 -> bytes m -> 0 <= v < 2 ^ 8 ->
  (forall k', view p o (set8 8 v m) s l k' -> Q tt (put_stack (set_net k' t) w)) -> wp (IPH_TTL_SET (p, o) v) Q (put_stack (set_net k t) w).
Proof.
  intros Hv Hi Hm Hr HQ. apply wp_bind, (wp_IPH_PROTO _ m); [done|done|by apply bytes_octets|]. destruct Hi as [Hi1 Hi2].
  apply (wp_set_hdr16 p o s l b Hp _ _ _ _ _ _ _ Hv); [split; unfold ip_ttl_proto; lia|]. intros k' Hk. apply HQ. eapply view_ext; [|exact Hk].
  intros i. rewrite lor_add by (lia || apply Hm). rewrite (Z.mul_comm v). apply set16_pair; [done|apply Hm|done].
Qed.
(** The TTL and the protocol are set one after the other, each with a load of the
    other one: what was there before does not matter. *)
Lemma wp_ttl_proto {A} k m ttl proto (K : M W A) t w (Q : A -> W -> Prop) : view p o m s l k -> inside o b 0 20 ->
  0 <= ttl < 2 ^ 8 -> 0 <= proto < 2 ^ 8 ->
  (forall k', view p o (set8 9 proto (set8 8 ttl m)) s l k' -> wp K Q (put_stack (set_net k' t) w)) ->
  wp (_ ← IPH_TTL_SET (p, o) ttl; _ ← IPH_PROTO_SET (p, o) proto; K) Q (put_stack (set_net k t) w).
Proof.
  intros Hv [Hi1 Hi2] Ht Hpr HQ. apply wp_bind, wp_bind, wp_bind, (wp_hdr16 p o s l b Hp _ m); [done|split; unfold ip_ttl_proto; lia|]. apply wp_ret.
  set (x := Z.land (ntohs (le16 m ip_ttl_proto)) 255).
  assert (Hx : 0 <= x < 2 ^ 8) by (unfold x; rewrite land_ff; apply byte_of_bound).
  apply (wp_set_hdr16 p o s l b Hp _ _ _ _ _ _ _ Hv); [split; unfold ip_ttl_proto; lia|]. intros k1 Hv1.
  rewrite lor_add, (Z.mul_comm ttl) in Hv1 by lia.
  apply wp_bind, wp_bind, wp_bind, (wp_hdr16 p o s l b Hp _ _ _ _ _ _ Hv1); [split; unfold ip_ttl_proto; lia|]. apply wp_ret.
  rewrite le16_set16_htons, Z.shiftr_div_pow2 by (done || lia). replace ((x + 2 ^ 8 * ttl) / 2 ^ 8) with ttl by (Z.div_mod_to_equations; lia).
  apply (wp_set_hdr16 p o s l b Hp _ _ _ _ _ _ _ Hv1); [split; unfold ip_ttl_proto; lia|]. intros k2 Hv2. apply HQ.
  eapply view_ext; [|exact Hv2]. intros i. rewrite lor_add, (Z.mul_comm ttl) by lia. by apply set16_twice.
Qed.
Lemma wp_IPH_VHLTOS_SET k m tos t w (Q : unit -> W -> Prop) : view p o m s l k -> inside o b 0 20 -> 0 <= tos < 2 ^ 8 ->
  (forall k', view p o (set8 0 0x45 (set8 1 tos m)) s l k' -> Q tt (put_stack (set_net k' t) w)) ->
  wp (IPH_VHLTOS_SET (p, o) 4 (IP_HLEN / 4) tos) Q (put_stack (set_net k t) w).
Proof.
  intros Hv [Hi1 Hi2] Hr HQ. apply (wp_set_hdr16 p o s l b Hp _ _ _ _ _ _ _ Hv); [split; unfold ip_v_hl_tos; lia|]. intros k' Hk. apply HQ.
  eapply view_ext; [|exact Hk]. intros i. change (Z.lor (Z.shiftl 4 12) (Z.shiftl (IP_HLEN / 4) 8)) with (Z.shiftl 0x45 8).
  rewrite lor_add_r by lia. unfold ip_v_hl_tos, set16, set8. destruct (byte_htons (tos + 0x45 * 2 ^ 8)) as [-> ->]. unfold byte_of.
  change (2 ^ (8 * 1)) with (2 ^ 8). change (2 ^ (8 * 0)) with 1. change (0 + 1) with 1.
  destruct (Z.eqb_spec i 0); [Z.div_mod_to_equations; lia|]. destruct (Z.eqb_spec i 1); [Z.div_mod_to_equations; lia|done].
Qed.

Lemma wp_ip_make_header k m t w src dest ttl tos proto n f (Q : unit -> W -> Prop) :
  view p o m s l k -> payload b = Some o -> inside o b 0 20 ->
  0 <= tos < 2 ^ 8 -> 0 <= ttl < 2 ^ 8 -> 0 <= proto < 2 ^ 8 -> netifs t !! n = Some f ->
  (forall k' (source := if ip_addr_isany src then nif_ip_addr f else ip_addr_set src),
     view p o (with_header tos (tot_len b) (ip_id t) ttl proto source dest m) s l k' ->
     Q tt (put_stack (set_net k' (set_ip_id (u16 (ip_id t + 1)) t)) w)) ->
  wp (ip_make_header p src dest ttl tos proto n) Q (put_stack (set_net k t) w).
Proof.
  intros Hv Ho Hi Htos Httl Hproto Hn HQ. pose proof Hi as [Hi1 Hi2].
  apply wp_bind, (wp_payload_hdr p o s l b Hp k m); [done..|].
  apply wp_bind, wp_on_net, (wp_get_pbuf _ b); [cbn [s_net set_net]; by rewrite (view_pbufs _ _ _ _ _ _ Hv)|].
  apply (wp_ttl_proto k m); [done..|]. intros k2 Hv2.
  apply wp_bind, (wp_set_hdr32 p o s l b Hp k2 _ _ _ _ _ _ Hv2); [split; unfold ip_dest; lia|]. intros k3 Hv3.
  apply wp_bind, (wp_IPH_VHLTOS_SET k3 _ _ _ _ _ Hv3); [done..|]. intros k4 Hv4.
  apply wp_bind, (wp_set_hdr16 p o s l b Hp k4 _ _ _ _ _ _ Hv4); [split; unfold ip_len; lia|]. intros k5 Hv5.
  apply wp_bind, (wp_set_hdr16 p o s l b Hp k5 _ _ _ _ _ _ Hv5); [split; unfold ip_offset; lia|]. intros k6 Hv6.
  apply wp_bind, wp_gets_stack. apply wp_bind, (wp_set_hdr16 p o s l b Hp k6 _ _ _ _ _ _ Hv6); [split; unfold ip_id_field; lia|]. intros k7 Hv7.
  apply wp_bind, wp_mod_stack. match goal with |- context [put_stack ?x w] => change x with (set_net k7 (set_ip_id (u16 (ip_id t + 1)) t)) end.
  apply wp_bind, (wp_get_netif _ f); [done|].
  apply wp_bind, (wp_set_hdr32 p o s l b Hp k7 _ _ _ _ _ _ Hv7); [split; unfold ip_src; lia|]. intros k8 Hv8.
  apply (wp_set_hdr16 p o s l b Hp k8 _ _ _ _ _ _ Hv8); [split; unfold ip_chksum; lia|]. intros k9 Hv9.
  by apply HQ.
Qed.
End header.

(** * ip_output_if *)

(** A header in front of a packet: [p] is the first pbuf of the packet. *)
Record prepended (hdr : list Z) (p : ptr) (b : pbuf) (c : list (ptr * pbuf)) (s : net) (l : list block) (k : net) : Prop := {
  prep_pbufs : pbufs k = <[p := shifted (Z.of_nat (length hdr)) b]> (pbufs s);
  prep_ok : net_ok k l;
  prep_contents : contents k ((p, shifted (Z.of_nat (length hdr)) b) :: c) = hdr ++ contents s ((p, b) :: c);
  prep_others : forall q b' y, pbufs s !! q = Some b' -> q <> p -> 0 <= y < room b' -> bytes_at k q y = bytes_at s q y
}.

Lemma shifted_ok s l p b o h : net_ok s l -> pbufs s !! p = Some b -> payload b = Some o -> - len b <= h <= o ->
  net_ok (set_pbufs (<[p := shifted h b]> (pbufs s)) s) l.
Proof.
  intros Hok Hp Ho Hh. destruct (nok_home _ _ Hok _ _ Hp) as (_ & [Hl Hf] & Hr). rewrite Ho in Hf.
  apply (net_ok_update _ _ _ b); try done. unfold fits, shifted. cbn. rewrite Ho. cbn. lia.
Qed.

Lemma prepended_view hdr p b c o s l k m (n := length hdr) :
  net_ok s l -> chain (pbufs s) (Some p) ((p, b) :: c) -> NoDup ((p, b) :: c).*1 -> payload b = Some o -> Z.of_nat n <= o ->
  view p (o - Z.of_nat n) m (set_pbufs (<[p := shifted (Z.of_nat n) b]> (pbufs s)) s) l k ->
  prefix n m = hdr -> (forall i, Z.of_nat n <= i -> m i = bytes_at s p (o - Z.of_nat n + i)) ->
  prepended hdr p b c s l k.
Proof.
  intros Hok Hc Hnd Ho Hroom Hv Hhdr Hrest. destruct Hc as (_ & Hb & Hc). apply nodup_cons in Hnd as [Hpc Hnd]. cbn [fst] in Hpc.
  destruct (nok_home _ _ Hok _ _ Hb) as (_ & [Hlb Hf] & _). rewrite Ho in Hf. pose proof (view_pbufs _ _ _ _ _ _ Hv) as Hk. cbn [pbufs set_pbufs] in Hk.
  assert (Hcin : forall q bq, (q, bq) ∈ c -> pbufs s !! q = Some bq /\ q <> p).
  { intros q bq Hin. split; [by eapply chain_in|]. intros ->. apply Hpc. apply list_elem_of_fmap. by exists (p, bq). }
  split; fold n; [done|apply (view_ok _ _ _ _ _ _ Hv)| |].
  - cbn [contents]. rewrite (view_data _ _ _ _ _ _ (shifted (Z.of_nat n) b) Hv) by (cbn; by rewrite Ho).
    rewrite (view_contents _ _ _ _ _ _ c Hv); [|apply (shifted_ok s l p b o); [done..|lia]|].
    + cbn [len shifted with_payload with_len]. rewrite Z.add_comm, Z2Nat.inj_add, Nat2Z.id by lia. rewrite prefix_app, Hhdr, <- app_assoc. f_equal.
      rewrite (data_prefix _ _ _ o) by done. f_equal; [|by apply contents_ext]. apply prefix_ext. intros i Hi. rewrite Hrest by lia. f_equal. lia.
    + intros q bq Hin. destruct (Hcin _ _ Hin) as [Hq Hne]. split; [|done]. cbn [pbufs set_pbufs]. by rewrite lookup_insert_ne.
  - intros q b' y Hq Hne Hy. rewrite (view_others _ _ _ _ _ _ Hv q b' y); [done|cbn [pbufs set_pbufs]; by rewrite lookup_insert_ne|done|done].
Qed.

(** A packet on its way down: nothing of it but the first pbuf, which has room for
    [o] bytes in front of the data, is changed. *)
Record outgoing (s : net) (l : list block) (p : ptr) (b : pbuf) (c : list (ptr * pbuf)) (o : Z) : Prop := {
  out_ok : net_ok s l;
  out_chain : chain (pbufs s) (Some p) ((p, b) :: c);
  out_nodup : NoDup ((p, b) :: c).*1;
  out_packet : packet ((p, b) :: c);
  out_readable : readable ((p, b) :: c);
  out_type : type b = PBUF_RAM \/ type b = PBUF_POOL;
  out_payload : payload b = Some o
}.
Lemma packet_len p b c : packet ((p, b) :: c) -> 0 <= len b <= tot_len b.
Proof. intros (-> & Hl & Hp). pose proof (packet_pos _ Hp). lia. Qed.
Lemma outgoing_lens s l p b c o : outgoing s l p b c o -> pbufs s !! p = Some b /\ 0 <= len b <= tot_len b /\ 0 <= o /\ o + len b <= room b.
Proof.
  intros [Hok (_ & Hb & _) _ Hpk _ _ Ho]. split; [done|]. split; [by eapply packet_len|]. destruct (nok_home _ _ Hok _ _ Hb) as (_ & [_ Hf] & _).
  rewrite Ho in Hf. lia.
Qed.
Lemma outgoing_prepended hdr s l p b c o k (n := Z.of_nat (length hdr)) : outgoing s l p b c o -> n <= o -> prepended hdr p b c s l k ->
  outgoing k l p (shifted n b) c (o - n).
Proof.
  intros Ho Hn [Hk Hok _ _]. fold n in Hk. destruct (outgoing_lens _ _ _ _ _ _ Ho) as (Hb & Hl & _). destruct Ho as [_ (_ & _ & Hc) Hnd Hpk Hrd Hty Hpay].
  assert (Hb' : pbufs k !! p = Some (shifted n b)) by (rewrite Hk; apply lookup_insert_eq).
  assert (Hpay' : payload (shifted n b) = Some (o - n)) by (cbn; by rewrite Hpay).
  split; [done| |done| | |done|done].
  - split; [done|]. split; [done|]. eapply chain_frame; [|exact Hc]. intros q Hq. rewrite Hk. apply lookup_insert_ne. intros ->. by apply nodup_cons in Hnd as [? _].
  - destruct Hpk as (Ht & Hl' & Hpk). split; [cbn; lia|]. split; [cbn; lia|done].
  - apply Forall_cons_1 in Hrd as [_ Hrd]. apply Forall_cons_2; [|done]. split; [apply (nok_home _ _ Hok _ _ Hb')|by eexists].
Qed.

Lemma shifted_shifted h k b : shifted h (shifted k b) = shifted (h + k) b.
Proof. destruct b as [nx [o|] tl ln ty fl rf rm]; unfold shifted, with_payload, with_len, with_tot_len; cbn; f_equal; first [lia | f_equal; lia]. Qed.
(** One header in front of another. *)
Lemma prepended_app h1 h2 p b c s l k1 k2 : prepended h1 p b c s l k1 ->
  prepended h2 p (shifted (Z.of_nat (length h1)) b) c k1 l k2 -> prepended (h2 ++ h1) p b c s l k2.
Proof.
  intros [Hp1 _ Hc1 Ho1] [Hp2 Hok2 Hc2 Ho2]. rewrite shifted_shifted in Hp2, Hc2.
  split; rewrite ?length_app, ?Nat2Z.inj_add.
  - by rewrite Hp2, Hp1, insert_insert_eq.
  - done.
  - by rewrite Hc2, Hc1, app_assoc.
  - intros q b' y Hq Hne Hy. rewrite (Ho2 q b' y), (Ho1 q b' y); [done..| |done|done]. by rewrite Hp1, lookup_insert_ne.
Qed.

(** * A small network

    An interface, and a pbuf with a frame in it: an echo request. *)
Definition ping : list Z :=
  repeat 0 14 ++ ip_header 0 28 1 0 64 IP_PROTO_ICMP 0 (IP4_ADDR 192 168 1 2) (IP4_ADDR 192 168 1 1)
  ++ [ICMP_ECHO; 0; 0xf7; 0xfd; 0; 1; 0; 1].
Definition ping_bytes (i : Z) : Z := nth (Z.to_nat i) ping 0.
(** The packet is [n] bytes from byte [o] on. *)
Definition ping_pbuf (o n : Z) : pbuf := Pbuf None (Some o) n n PBUF_POOL 0 1 1500.
Definition ping_ptr : ptr := InPool MEMP_PBUF_POOL 9.
Definition ping_net (o n : Z) : net := set_pool MEMP_PBUF_POOL 9 ping_bytes (add_pool 9 (rev (seq 0 9)) (ping_pbuf o n) fresh_net).
Definition ping_netif : netif :=
  with_link None (101, 110) etharp_output_ptr low_level_output_ptr
    (with_device 6 [0; 17; 34; 51; 68; 85] 1500 (Z.lor NETIF_FLAG_UP NETIF_FLAG_BROADCAST)
    (with_addrs (IP4_ADDR 192 168 1 1) (IP4_ADDR 255 255 255 0) (IP4_ADDR 192 168 1 254) netif_zero)).
Definition ping_stack (o n : Z) : stack := set_netif_list (Some 0%nat) (stack_zero (ping_net o n) {[ 0%nat := ping_netif ]}).

Lemma ping_net_ok o n : 0 <= o -> 0 <= n -> o + n <= 1500 -> net_ok (ping_net o n) [(MEM_SIZE_ALIGNED, false)].
Proof.
  intros Ho Hn Hs.
  assert (Hok : net_ok (add_pool 9 (rev (seq 0 9)) (ping_pbuf o n) fresh_net) [(MEM_SIZE_ALIGNED, false)])
    by (eapply net_ok_pool_add; [apply fresh_net_ok|done|reflexivity|done|split; cbn; lia|done]).
  by destruct Hok.
Qed.
Lemma ping_bytes_ok o n : bytes (bytes_at (s_net (ping_stack o n)) ping_ptr).
Proof.
  intros i. change (0 <= ping_bytes i < 2 ^ 8). unfold ping_bytes. assert (Hf : Forall (fun v => 0 <= v < 2 ^ 8) ping) by (apply (bool_decide_unpack _); by vm_compute).
  destruct (nth_in_or_default (Z.to_nat i) ping 0) as [Hin | ->]; [|done]. by apply (proj1 (List.Forall_forall _ _) Hf).
Qed.
Lemma ping_interfaces o n : interfaces (ping_stack o n) [(0%nat, ping_netif)].
Proof. split; [by repeat split|]. apply (bool_decide_unpack _). by vm_compute. Qed.
