(* ===== verification/LwipFrag.v ===== *)
(** IP fragmentation and reassembly: core/ipv4/ip_frag.c, with the static buffer
    (IP_FRAG_USES_STATIC_BUF) and the check for overlaps.  Assertions have no effect
    in this port, statistics are off. *)
From stdpp Require Import gmap.
From S2P Require Import Prelude Mmio MemFacts LwipMem LwipPbuf LwipInet LwipChksum LwipStack LwipNetif LwipIpOut.

(** opt.h *)
Definition IP_REASS_MAXAGE : Z := 3.
Definition IP_REASS_MAX_PBUFS : Z := 10.
Definition IP_FRAG_MAX_MTU : Z := 1500.
Definition IP_REASS_FLAG_LASTFRAG : Z := 0x01.
Definition ICMP_TE_FRAG : Z := 1.

(** * Pointers in packets

    The list of the fragments of a datagram runs through the packets themselves: a
    pointer is four bytes there.  Where the linker puts the heap and the pools is a
    parameter: the address of an object, and the object at an address. *)
Class PtrAddr := {
  addr_of : option ptr -> Z;
  ptr_at : Z -> option ptr
}.
Definition valid_ptr (p : ptr) : Prop :=
  match p with InHeap i => 0 <= i < MEM_SIZE_ALIGNED | InPool t i => (i < memp_num t)%nat end.
(** Distinct objects have distinct addresses, and NULL is none of them. *)
Class PtrAddrLaws `{PtrAddr} := {
  addr_of_range : forall p, 0 <= addr_of p < 2 ^ 32;
  ptr_at_addr_of : forall p, from_option valid_ptr True p -> ptr_at (addr_of p) = p
}.

(** [struct ip_reass_helper], over the first bytes of the IP header *)
Definition helper_next_pbuf : Z := 0.
Definition helper_start : Z := 4.
Definition helper_end : Z := 6.

Section frag.
Context {W : Type} `{HasStack W} `{PtrAddr}.
Variable call_output : output_fn -> netif_ptr -> option ptr -> Z -> M W Z.

(** * ip_frag *)

(** Fill the buffer: [cop] bytes of the packet from [poff] on, then the header; the
    answer is how many bytes were copied. *)
Definition ip_frag_fill (p : ptr) (iphdr : header) (tmp cop poff : Z) : M W Z :=
  out ← hdr_bytes iphdr IP_HLEN (Z.to_nat cop);
  '(copied, out) ← on_net (pbuf_copy_partial (Some p) (Some out) cop poff);
  _ ← set_hdr_bytes iphdr IP_HLEN out;
  _ ← set_hdr16 iphdr ip_offset (htons tmp);
  _ ← set_hdr16 iphdr ip_len (htons (u16 (cop + IP_HLEN)));
  _ ← set_hdr16 iphdr ip_chksum 0;
  hdr ← hdr_bytes iphdr 0 (Z.to_nat IP_HLEN);
  _ ← set_hdr16 iphdr ip_chksum (inet_chksum hdr);
  mret copied.

(** Send it behind a pbuf for the link header; [next] is where the loop goes on. *)
Definition ip_frag_send {A} (rambuf : ptr) (n : netif_ptr) (dest : Z) (next : A) : M W (A + Z) :=
  header ← on_net (pbuf_alloc PBUF_LINK 0 PBUF_RAM);
  match header with
  | Some h =>
      _ ← on_net (pbuf_chain (Some h) (Some rambuf));
      _ ← output call_output n (Some h) dest;
      _ ← on_net (pbuf_free (Some h));
      mret (inl next)
  | None => _ ← on_net (pbuf_free (Some rambuf)); mret (inr ERR_MEM)
  end.

(** The packet is sent a piece at a time: [left] bytes from [poff] on, [ofo] is their
    offset in units of eight bytes.  [rambuf] refers to the buffer. *)
Definition ip_frag_body (p rambuf : ptr) (iphdr : header) (n : netif_ptr) (dest mtu nfb omf : Z) (a : Z * Z * Z)
  : M W (Z * Z * Z + Z) :=
  let '(lft, ofo, poff) := a in
  if lft =? 0 then _ ← on_net (pbuf_free (Some rambuf)); mret (inr ERR_OK)
  else
    let last := lft <=? mtu - IP_HLEN in
    let tmp := Z.lor omf (Z.land IP_OFFMASK ofo) in
    let tmp := if last then tmp else Z.lor tmp IP_MF in
    let cop := if last then lft else u16 (nfb * 8) in
    copied ← ip_frag_fill p iphdr tmp cop poff;
    _ ← (if last then on_net (pbuf_realloc rambuf (u16 (lft + IP_HLEN))) else mret tt);
    ip_frag_send rambuf n dest (u16 (lft - cop), u16 (ofo + nfb), u16 (poff + copied)).

(** Every turn but the last sends at least eight bytes. *)
Definition ip_frag (p : ptr) (n : netif_ptr) (dest : Z) : M W Z :=
  f ← get_netif n;
  let m := mtu f in
  r ← on_net (pbuf_alloc PBUF_LINK 0 PBUF_REF);
  match r with
  | None => mret ERR_MEM
  | Some rambuf =>
      _ ← on_net (upd_pbuf rambuf (fun b => with_room IP_FRAG_MAX_MTU (with_payload (Some 0) (with_len m (with_tot_len m b)))));
      iphdr ← payload_hdr rambuf;
      orig ← payload_hdr p;
      hdr ← hdr_bytes orig 0 (Z.to_nat IP_HLEN);
      _ ← set_hdr_bytes iphdr 0 hdr;
      w ← hdr16 iphdr ip_offset;
      let tmp := ntohs w in
      b ← on_net (get_pbuf p);
      let nfb := u16 (Z.quot (m - IP_HLEN) 8) in
      loop 0x10000 (ip_frag_body p rambuf iphdr n dest m nfb (Z.land tmp IP_MF))
        (u16 (tot_len b - IP_HLEN), Z.land tmp IP_OFFMASK, IP_HLEN)
  end.

(** * Reassembly *)
Definition get_reass {A} (f : reass_state -> A) : M W A := gets_stack (fun s => f (reass s)).
Definition mod_reass (f : reass_state -> reass_state) : M W unit := mod_stack (fun s => set_reass (f (reass s)) s).
Definition set_reassdatagrams (p : option ptr) : M W unit :=
  mod_reass (fun r => Reass p (reassdata r) (ip_reass_pbufcount r)).
Definition set_pbufcount (f : Z -> Z) : M W unit :=
  mod_reass (fun r => Reass (reassdatagrams r) (reassdata r) (u16 (f (ip_reass_pbufcount r)))).
Definition get_rd (p : ptr) : M W ip_reassdata :=
  r ← get_reass (fun r => reassdata r !! p); match r with Some d => mret d | None => fault end.
Definition put_rd (p : ptr) (d : ip_reassdata) : M W unit :=
  mod_reass (fun r => Reass (reassdatagrams r) (<[p := d]> (reassdata r)) (ip_reass_pbufcount r)).
Definition upd_rd (p : ptr) (f : ip_reassdata -> ip_reassdata) : M W unit := d ← get_rd p; put_rd p (f d).
(** A walk along the datagrams; the pool has five. *)
Definition rd_fuel : positive := 7.

(** The helper of a packet. *)
Definition next_pbuf (h : header) : M W (option ptr) := v ← hdr32 h helper_next_pbuf; mret (ptr_at v).
Definition set_next_pbuf (h : header) (p : option ptr) : M W unit := set_hdr32 h helper_next_pbuf (addr_of p).
Definition frag_start (h : header) : M W Z := hdr16 h helper_start.
Definition frag_end (h : header) : M W Z := hdr16 h helper_end.

(** IP_ADDRESSES_AND_ID_MATCH, of a header that was kept and one in a packet *)
Definition IP_ADDRESSES_AND_ID_MATCH (iphdr : list Z) (h : header) : M W bool :=
  src ← hdr32 h ip_src;
  dest ← hdr32 h ip_dest;
  id ← hdr16 h ip_id_field;
  let m := buf_mem iphdr in
  mret (ip_addr_cmp (le32 m ip_src) src && ip_addr_cmp (le32 m ip_dest) dest && (le16 m ip_id_field =? id)).

Definition ip_reass_dequeue_datagram (ipr : ptr) (prev : option ptr) : M W unit :=
  first ← get_reass reassdatagrams;
  d ← get_rd ipr;
  _ ← (if bool_decide (first = Some ipr) then set_reassdatagrams (rd_next d)
       else match prev with Some q => upd_rd q (with_rd_next (rd_next d)) | None => fault end);
  _ ← mod_reass (fun r => Reass (reassdatagrams r) (delete ipr (reassdata r)) (ip_reass_pbufcount r));
  on_net (memp_free MEMP_REASSDATA (Some ipr)).

(** The packets of a datagram are freed one by one. *)
Definition free_frags_body (a : option ptr * Z) : M W (option ptr * Z + Z) :=
  match a with
  | (None, freed) => mret (inr freed)
  | (Some p, freed) =>
      iprh ← payload_hdr p;
      q ← next_pbuf iprh;
      n ← on_net (pbuf_clen (Some p));
      _ ← on_net (pbuf_free (Some p));
      mret (inl (q, freed + n))
  end.
Definition ip_reass_free_complete_datagram (ipr : ptr) (prev : option ptr) : M W Z :=
  d ← get_rd ipr;
  match rd_p d with
  | None => fault
  | Some p =>
      iprh ← payload_hdr p;
      start ← frag_start iprh;
      freed ← (if start =? 0 then
                 q ← next_pbuf iprh;
                 _ ← upd_rd ipr (with_rd_p q);
                 _ ← set_hdr_bytes iprh 0 (rd_iphdr d);
                 _ ← icmp_time_exceeded call_output ip_frag p ICMP_TE_FRAG;
                 n ← on_net (pbuf_clen (Some p));
                 _ ← on_net (pbuf_free (Some p));
                 mret n
               else mret 0);
      d ← get_rd ipr;
      fuel ← on_net chain_fuel;
      freed ← loop fuel free_frags_body (rd_p d, freed);
      _ ← ip_reass_dequeue_datagram ipr prev;
      _ ← set_pbufcount (fun c => c - freed);
      mret freed
  end.

(** The timer; nothing in this program calls it. *)
Definition ip_reass_tmr_body (a : option ptr * option ptr) : M W (option ptr * option ptr + unit) :=
  match a with
  | (None, _) => mret (inr tt)
  | (Some r, prev) =>
      d ← get_rd r;
      if 0 <? rd_timer d then
        _ ← put_rd r (with_rd_timer (rd_timer d - 1) d);
        mret (inl (rd_next d, Some r))
      else
        _ ← ip_reass_free_complete_datagram r prev;
        mret (inl (rd_next d, prev))
  end.
Definition ip_reass_tmr : M W unit :=
  first ← get_reass reassdatagrams;
  loop rd_fuel ip_reass_tmr_body (first, None).

(** The search for the oldest of the other datagrams, on [r], [oldest], [prev] and
    [other_datagrams]. *)
Definition oldest_body (fraghdr : header) (a : option ptr * option ptr * option ptr * Z)
  : M W (option ptr * option ptr * option ptr * Z + option ptr * option ptr * Z) :=
  let '(r, oldest, prev, others) := a in
  match r with
  | None => mret (inr (oldest, prev, others))
  | Some q =>
      d ← get_rd q;
      same ← IP_ADDRESSES_AND_ID_MATCH (rd_iphdr d) fraghdr;
      older ← (match oldest with
               | None => mret true
               | Some o => e ← get_rd o; mret (rd_timer d <=? rd_timer e)
               end);
      mret (inl (rd_next d, if negb same && older then Some q else oldest,
                 match rd_next d with Some _ => Some q | None => prev end,
                 if (same : bool) then others else others + 1))
  end.
Definition remove_oldest_body (fraghdr : header) (pbufs_needed : Z) (pbufs_freed : Z) : M W (Z + Z) :=
  first ← get_reass reassdatagrams;
  '(oldest, prev, others) ← loop rd_fuel (oldest_body fraghdr) (first, None, None, 0);
  freed ← (match oldest with
           | Some o => n ← ip_reass_free_complete_datagram o prev; mret (pbufs_freed + n)
           | None => mret pbufs_freed
           end);
  mret (if (freed <? pbufs_needed) && (1 <? others) then inl freed else inr freed).
Definition ip_reass_remove_oldest_datagram (fraghdr : header) (pbufs_needed : Z) : M W Z :=
  loop rd_fuel (remove_oldest_body fraghdr pbufs_needed) 0.

Definition ip_reass_enqueue_new_datagram (fraghdr : header) (clen : Z) : M W (option ptr) :=
  ipr ← on_net (memp_malloc MEMP_REASSDATA);
  ipr ← (match ipr with
         | Some q => mret (Some q)
         | None =>
             freed ← ip_reass_remove_oldest_datagram fraghdr clen;
             if clen <=? freed then on_net (memp_malloc MEMP_REASSDATA) else mret None
         end);
  match ipr with
  | None => mret None
  | Some q =>
      first ← get_reass reassdatagrams;
      hdr ← hdr_bytes fraghdr 0 (Z.to_nat IP_HLEN);
      _ ← put_rd q (IpReassdata first None hdr 0 0 IP_REASS_MAXAGE);
      _ ← set_reassdatagrams (Some q);
      mret (Some q)
  end.

(** The place of a fragment in the list, on [q], [iprh_prev] and [valid].  The walk
    ends with the fragment in its place and what is known so far, or with [None]:
    the fragment is a duplicate or overlaps. *)
Definition place_body (ipr new_p : ptr) (iprh : header) (start end_ : Z) (a : option ptr * option header * bool)
  : M W (option ptr * option header * bool + option bool) :=
  let '(q, prev, valid) := a in
  match q with
  | None =>
      match prev with
      | Some h =>
          _ ← set_next_pbuf h (Some new_p);
          e ← frag_end h;
          mret (inr (Some (valid && (e =? start))))
      | None => _ ← upd_rd ipr (with_rd_p (Some new_p)); mret (inr (Some valid))
      end
  | Some q =>
      tmp ← payload_hdr q;
      tmp_start ← frag_start tmp;
      tmp_end ← frag_end tmp;
      if start <? tmp_start then
        _ ← set_next_pbuf iprh (Some q);
        match prev with
        | Some h =>
            e ← frag_end h;
            if (start <? e) || (tmp_start <? end_) then mret (inr None)
            else _ ← set_next_pbuf h (Some new_p); mret (inr (Some valid))
        | None => _ ← upd_rd ipr (with_rd_p (Some new_p)); mret (inr (Some valid))
        end
      else if start =? tmp_start then mret (inr None)
      else if start <? tmp_end then mret (inr None)
      else
        valid ← (match prev with Some h => e ← frag_end h; mret (valid && (e =? tmp_start)) | None => mret valid end);
        next ← next_pbuf tmp;
        mret (inl (next, Some tmp, valid))
  end.

(** No holes behind a fragment, on [iprh_prev] and [q]. *)
Definition no_hole_body (a : header * option ptr) : M W (header * option ptr + bool) :=
  match a with
  | (_, None) => mret (inr true)
  | (prev, Some q) =>
      h ← payload_hdr q;
      e ← frag_end prev;
      s ← frag_start h;
      if negb (e =? s) then mret (inr false)
      else q ← next_pbuf h; mret (inl (h, q))
  end.

Definition ip_reass_chain_frag_into_datagram_and_validate (ipr new_p : ptr) : M W bool :=
  fraghdr ← payload_hdr new_p;
  w ← hdr16 fraghdr ip_len;
  hl ← IPH_HL fraghdr;
  let n := u16 (ntohs w - hl * 4) in
  w ← hdr16 fraghdr ip_offset;
  let offset := u16 (Z.land (ntohs w) IP_OFFMASK * 8) in
  let iprh := fraghdr in
  let end_ := u16 (offset + n) in
  _ ← set_next_pbuf iprh None;
  _ ← set_hdr16 iprh helper_start offset;
  _ ← set_hdr16 iprh helper_end end_;
  d ← get_rd ipr;
  fuel ← on_net chain_fuel;
  placed ← loop fuel (place_body ipr new_p iprh offset end_) (rd_p d, None, true);
  match placed with
  | None =>
      k ← on_net (pbuf_clen (Some new_p));
      _ ← set_pbufcount (fun c => c - k);
      _ ← on_net (pbuf_free (Some new_p));
      mret false
  | Some valid =>
      d ← get_rd ipr;
      if negb (Z.land (rd_flags d) IP_REASS_FLAG_LASTFRAG =? 0) && (valid : bool) then
        match rd_p d with
        | None => fault
        | Some p =>
            h ← payload_hdr p;
            s ← frag_start h;
            if negb (s =? 0) then mret false
            else q ← next_pbuf iprh; loop fuel no_hole_body (iprh, q)
        end
      else mret false
  end.

(** ** ip_reass *)

(** The datagram that a fragment belongs to, and the one before it. *)
Definition find_datagram_body (fraghdr : header) (a : option ptr * option ptr)
  : M W (option ptr * option ptr + option ptr * option ptr) :=
  match a with
  | (None, prev) => mret (inr (None, prev))
  | (Some q, prev) =>
      d ← get_rd q;
      same ← IP_ADDRESSES_AND_ID_MATCH (rd_iphdr d) fraghdr;
      mret (if (same : bool) then inr (Some q, prev) else inl (rd_next d, Some q))
  end.

(** The fragments behind the first one are appended to it without their headers. *)
Definition join_frags_body (p : ptr) (r : option ptr) : M W (option ptr + unit) :=
  match r with
  | None => mret (inr tt)
  | Some q =>
      iprh ← payload_hdr q;
      _ ← on_net (pbuf_header (Some q) (- IP_HLEN));
      _ ← on_net (pbuf_cat (Some p) (Some q));
      next ← next_pbuf iprh;
      mret (inl next)
  end.

(** The datagram [ipr] is complete. *)
Definition ip_reass_complete (ipr : ptr) (ipr_prev : option ptr) : M W (option ptr) :=
  _ ← upd_rd ipr (fun d => with_datagram_len (u16 (datagram_len d + IP_HLEN)) d);
  d ← get_rd ipr;
  match rd_p d with
  | None => fault
  | Some p =>
      fraghdr ← payload_hdr p;
      r ← next_pbuf fraghdr;
      _ ← set_hdr_bytes fraghdr 0 (rd_iphdr d);
      _ ← set_hdr16 fraghdr ip_len (htons (datagram_len d));
      _ ← set_hdr16 fraghdr ip_offset 0;
      _ ← set_hdr16 fraghdr ip_chksum 0;
      hdr ← hdr_bytes fraghdr 0 (Z.to_nat IP_HLEN);
      _ ← set_hdr16 fraghdr ip_chksum (inet_chksum hdr);
      fuel ← on_net chain_fuel;
      _ ← loop fuel (join_frags_body p) r;
      _ ← ip_reass_dequeue_datagram ipr ipr_prev;
      n ← on_net (pbuf_clen (Some p));
      _ ← set_pbufcount (fun c => c - n);
      mret (Some p)
  end.

Definition ip_reass (p : ptr) : M W (option ptr) :=
  let nullreturn := _ ← on_net (pbuf_free (Some p)); mret None in
  fraghdr ← payload_hdr p;
  hl ← IPH_HL fraghdr;
  if negb (hl * 4 =? IP_HLEN) then nullreturn
  else
    w ← hdr16 fraghdr ip_offset;
    let off := ntohs w in
    let offset := u16 (Z.land off IP_OFFMASK * 8) in
    w ← hdr16 fraghdr ip_len;
    let n := u16 (ntohs w - hl * 4) in
    clen ← on_net (pbuf_clen (Some p));
    count ← get_reass ip_reass_pbufcount;
    room ← (if IP_REASS_MAX_PBUFS <? count + clen then
              freed ← ip_reass_remove_oldest_datagram fraghdr clen;
              if freed =? 0 then mret false
              else count ← get_reass ip_reass_pbufcount; mret (negb (IP_REASS_MAX_PBUFS <? count + clen))
            else mret true);
    if negb (room : bool) then nullreturn
    else
      first ← get_reass reassdatagrams;
      '(ipr, ipr_prev) ← loop rd_fuel (find_datagram_body fraghdr) (first, None);
      ipr ← (match ipr with
             | None => ip_reass_enqueue_new_datagram fraghdr clen
             | Some q =>
                 d ← get_rd q;
                 _ ← (if (Z.land off IP_OFFMASK =? 0)
                         && negb (Z.land (ntohs (le16 (buf_mem (rd_iphdr d)) ip_offset)) IP_OFFMASK =? 0) then
                        hdr ← hdr_bytes fraghdr 0 (Z.to_nat IP_HLEN); put_rd q (with_rd_iphdr hdr d)
                      else mret tt);
                 mret (Some q)
             end);
      match ipr with
      | None => nullreturn
      | Some q =>
          _ ← set_pbufcount (fun c => c + clen);
          _ ← (if Z.land off IP_MF =? 0 then
                 upd_rd q (fun d => with_datagram_len (u16 (offset + n)) (with_rd_flags (u8 (Z.lor (rd_flags d) IP_REASS_FLAG_LASTFRAG)) d))
               else mret tt);
          valid ← ip_reass_chain_frag_into_datagram_and_validate q p;
          if (valid : bool) then ip_reass_complete q ipr_prev else mret None
      end.
End frag.

(** One layout of the memory: NULL is 0, the heap and the pools lie one behind the
    other. *)
Definition flat_addr (p : option ptr) : Z :=
  match p with
  | None => 0
  | Some (InHeap i) => 0x20000000 + i
  | Some (InPool t i) => 0x20010000 + 0x100 * Z.of_nat (memp_index t) + Z.of_nat i
  end.
Definition all_memp : list memp_t :=
  [MEMP_RAW_PCB; MEMP_UDP_PCB; MEMP_TCP_PCB; MEMP_TCP_PCB_LISTEN; MEMP_TCP_SEG; MEMP_REASSDATA; MEMP_ARP_QUEUE; MEMP_PBUF; MEMP_PBUF_POOL].
Definition flat_ptr (a : Z) : option ptr :=
  if a <? 0x20000000 then None
  else if a <? 0x20010000 then Some (InHeap (a - 0x20000000))
  else let d := a - 0x20010000 in
    t ← all_memp !! Z.to_nat (d / 0x100); Some (InPool t (Z.to_nat (d mod 0x100))).
Definition flat_layout : PtrAddr := {| addr_of := fun p => flat_addr p mod 2 ^ 32; ptr_at := flat_ptr |}.
Lemma flat_laws : @PtrAddrLaws flat_layout.
Proof.
  split; [intros p; by apply Z.mod_pos_bound|]. intros [[i|t i]|] Hp; cbn [from_option valid_ptr addr_of ptr_at flat_layout flat_addr] in *; [| |done].
  - change MEM_SIZE_ALIGNED with 20480 in Hp. rewrite Z.mod_small by lia. unfold flat_ptr.
    rewrite (proj2 (Z.ltb_ge _ _)), (proj2 (Z.ltb_lt _ _)) by lia. do 2 f_equal. lia.
  - assert (Hi : Z.of_nat i < 0x100) by (destruct t; cbn in Hp; lia). assert (Ht : 0 <= Z.of_nat (memp_index t) < 9) by (destruct t; cbn; lia).
    rewrite Z.mod_small by lia. unfold flat_ptr. rewrite !(proj2 (Z.ltb_ge _ _)) by lia.
    replace (0x20010000 + 0x100 * Z.of_nat (memp_index t) + Z.of_nat i - 0x20010000) with (Z.of_nat i + Z.of_nat (memp_index t) * 0x100) by lia.
    rewrite Z.div_add, Z.mod_add, Z.div_small, Z.mod_small, Z.add_0_l, !Nat2Z.id by lia. by destruct t.
Qed.
