(* ===== verification/LwipIpTheorems.v ===== *)
(** Theorems of the IP layer: routing, the packets that are sent, the answer to an
    echo request. *)
From stdpp Require Import gmap.
From S2P Require Import Prelude Mmio LwipMem LwipMemSpec LwipPbuf LwipPbufSpec LwipPbufTheorems LwipPbufOwn LwipInet LwipInetTheorems LwipChksum LwipChksumTheorems.
From S2P Require MemFacts.
From S2P Require Import LwipStack LwipStackSpec LwipHeader LwipNetif LwipIpOut LwipIpSpec.

Section out.
Context {W : Type} `{StackLaws W}.
Variable call_output : output_fn -> netif_ptr -> option ptr -> Z -> M W Z.
Variable ip_frag : ptr -> netif_ptr -> Z -> M W Z.
Implicit Types (t : stack) (w : W).

Lemma run_gets_stack {A} (f : stack -> A) t w : gets_stack f (put_stack t w) = Ret (f t) (put_stack t w).
Proof. unfold gets_stack, gets. by rewrite get_put_stack. Qed.
Lemma run_get_netif n f t w : netifs t !! n = Some f -> get_netif n (put_stack t w) = Ret f (put_stack t w).
Proof. intros Hn. unfold get_netif. erewrite run_bind by apply run_gets_stack. by rewrite Hn. Qed.
Lemma run_get_pbuf p b t w : pbufs (s_net t) !! p = Some b -> on_net (get_pbuf p) (put_stack t w) = Ret b (put_stack t w).
Proof. intros Hp. unfold on_net, get_pbuf. rewrite get_put_stack, Hp. by rewrite put_put_stack; destruct t. Qed.

(** The function of the interface or the fragmentation, by the size of the packet. *)
Definition send_on (f : netif) (size : Z) (p : ptr) (n : netif_ptr) (dest : Z) : M W Z :=
  if negb (mtu f =? 0) && (mtu f <? size) then ip_frag p n dest
  else match nif_output f with Some g => call_output g n (Some p) dest | None => fault end.
Lemma run_send p b n f t w dest : netifs t !! n = Some f -> pbufs (s_net t) !! p = Some b ->
  (f ← get_netif n; b ← on_net (get_pbuf p);
   if negb (mtu f =? 0) && (mtu f <? tot_len b) then ip_frag p n dest else output call_output n (Some p) dest) (put_stack t w)
  = send_on f (tot_len b) p n dest (put_stack t w).
Proof.
  intros Hn Hp. erewrite run_bind by by apply run_get_netif. erewrite run_bind by by apply run_get_pbuf. unfold send_on.
  destruct (_ && _); [done|]. unfold output. by erewrite run_bind by by apply run_get_netif.
Qed.

(** The two ways of a packet that has no header yet. *)
Lemma run_out_header t w l p b c o : outgoing (s_net t) l p b c o -> tot_len b + IP_HLEN < 65536 ->
  on_net (pbuf_header (Some p) IP_HLEN) (put_stack t w)
  = if o <? IP_HLEN then Ret 1 (put_stack t w) else Ret 0 (put_stack (set_net (set_pbufs (<[p := shifted IP_HLEN b]> (pbufs (s_net t))) (s_net t)) t) w).
Proof.
  intros Ho Hmax. destruct (outgoing_lens _ _ _ _ _ _ Ho) as (Hb & Hl & Hpos & _). destruct Ho as [_ _ _ _ _ Hty Hpay]. unfold IP_HLEN in *.
  pose proof (header_step (s_net t) p b o 20 Hb Hpay Hty ltac:(lia) Hl Hmax) as Hh. apply wp_unfold in Hh as (r & s' & Hh & Hr).
  rewrite (proj2 (Z.leb_le _ _)) in Hr by lia. cbn [andb] in Hr. unfold on_net. rewrite get_put_stack, Hh, put_put_stack.
  destruct (Z.leb_spec 20 o) as [Hle|Hlt]; destruct Hr as [-> ->].
  - by rewrite (proj2 (Z.ltb_ge _ _)).
  - rewrite (proj2 (Z.ltb_lt _ _)) by done. by destruct t.
Qed.
Lemma ip_output_if_run t w l p b c o src dest ttl tos proto n f (source := if ip_addr_isany src then nif_ip_addr f else ip_addr_set src) :
  outgoing (s_net t) l p b c o -> IP_HLEN <= o -> tot_len b + IP_HLEN < 65536 ->
  0 <= ttl < 2 ^ 8 -> 0 <= tos < 2 ^ 8 -> 0 <= proto < 2 ^ 8 -> netifs t !! n = Some f ->
  exists k, prepended (ip_header tos (tot_len b + IP_HLEN) (ip_id t) 0 ttl proto 0 source dest) p b c (s_net t) l k /\
    ip_output_if call_output ip_frag p src (Some dest) ttl tos proto n (put_stack t w)
    = send_on f (tot_len b + IP_HLEN) p n dest (put_stack (set_ip_id (u16 (ip_id t + 1)) (set_net k t)) w).
Proof.
  intros Ho Hge Hmax Httl Htos Hproto Hn. pose proof (run_out_header t w l p b c o Ho Hmax) as Hrun.
  rewrite (proj2 (Z.ltb_ge _ _)) in Hrun by done. destruct (outgoing_lens _ _ _ _ _ _ Ho) as (Hb & Hl & Hpos & Hroom).
  destruct Ho as [Hok Hc Hnd _ _ _ Hpay]. unfold IP_HLEN in *.
  set (s1 := set_pbufs (<[p := shifted 20 b]> (pbufs (s_net t))) (s_net t)) in *.
  assert (Hok1 : net_ok s1 l) by (apply (shifted_ok _ _ _ _ o); try done; lia).
  assert (Hp1 : pbufs s1 !! p = Some (shifted 20 b)) by apply lookup_insert_eq.
  set (hdr := ip_header tos (tot_len b + 20) (ip_id t) 0 ttl proto 0 source dest).
  assert (Hw : wp (ip_make_header p src dest ttl tos proto n) (fun _ w' => exists k, prepended hdr p b c (s_net t) l k /\
      w' = put_stack (set_ip_id (u16 (ip_id t + 1)) (set_net k t)) w) (put_stack (set_net s1 t) w)).
  { eapply (wp_ip_make_header p (o - 20) s1 l (shifted 20 b) Hp1 s1 (fun i => bytes_at s1 p (o - 20 + i))); try done.
    - cbn. by rewrite Hpay.
    - split; cbn; lia.
    - intros k' src' Hv. exists k'. split; [|done].
      apply (prepended_view hdr p b c o (s_net t) l k' _ Hok Hc Hnd Hpay Hge Hv (with_header_prefix _ _ _ _ _ _ _ _)).
      intros i Hi. cbn in Hi |- *. rewrite with_header_rest by lia. by destruct p. }
  apply wp_unfold in Hw as ([] & w' & Hmk & k & Hk & ->). exists k. split; [done|]. unfold ip_output_if. etransitivity.
  { eapply run_bind. etransitivity; [apply (run_bind _ _ _ _ _ Hrun)|]. etransitivity; [apply (run_bind _ _ _ _ _ Hmk)|done]. }
  cbv beta iota. rewrite (run_send p (shifted 20 b) n f); [done|done|]. cbn [s_net set_ip_id set_net]. rewrite (prep_pbufs _ _ _ _ _ _ _ Hk). apply lookup_insert_eq.
Qed.

(** A packet with room in front of it gets the twenty bytes of an IP header there, with
    the addresses, the protocol and the next identification, and is handed to the
    interface, or to ip_frag if it is too long; without room the answer is ERR_BUF and
    nothing has changed. *)
Theorem ip_output_if_prepends t w l p b c o src dest ttl tos proto n f :
  outgoing (s_net t) l p b c o -> tot_len b + IP_HLEN < 65536 ->
  0 <= ttl < 2 ^ 8 -> 0 <= tos < 2 ^ 8 -> 0 <= proto < 2 ^ 8 -> netifs t !! n = Some f ->
  let source := if ip_addr_isany src then nif_ip_addr f else ip_addr_set src in
  let sent := ip_output_if call_output ip_frag p src (Some dest) ttl tos proto n (put_stack t w) in
  if o <? IP_HLEN then sent = Ret ERR_BUF (put_stack t w)
  else exists k, prepended (ip_header tos (tot_len b + IP_HLEN) (ip_id t) 0 ttl proto 0 source dest) p b c (s_net t) l k /\
    sent = send_on f (tot_len b + IP_HLEN) p n dest (put_stack (set_ip_id (u16 (ip_id t + 1)) (set_net k t)) w).
Proof.
  intros Ho Hmax Httl Htos Hproto Hn source sent. destruct (Z.ltb_spec o IP_HLEN) as [Hlt|Hge]; [|by apply (ip_output_if_run t w l p b c o)].
  pose proof (run_out_header t w l p b c o Ho Hmax) as Hrun. rewrite (proj2 (Z.ltb_lt _ _)) in Hrun by done. unfold sent, ip_output_if.
  etransitivity; [eapply run_bind; etransitivity; [apply (run_bind _ _ _ _ _ Hrun)|]; reflexivity|reflexivity].
Qed.

(** ** The answer to an echo request *)
(** What the run of a statement leads to, which may be the run of a parameter. *)
Definition reaches {A} (m : M W A) (w : W) (P : outcome W A -> Prop) : Prop := P (m w).
Lemma reach_bind {A B} (m : M W A) (g : A -> M W B) w P : wp m (fun a w' => reaches (g a) w' P) w -> reaches (m ≫= g) w P.
Proof. intros Hw. apply wp_unfold in Hw as (a & w' & Hm & HP). unfold reaches. by rewrite (run_bind _ _ _ _ _ Hm). Qed.
Lemma reach_bind_run {A B} (m m' : M W A) (g : A -> M W B) w w' P : m w = m' w' -> reaches (m' ≫= g) w' P -> reaches (m ≫= g) w P.
Proof. intros Hm. unfold reaches, mbind, M_bind. by rewrite Hm. Qed.
Lemma reach_bind_assoc {A B C} (m : M W A) (f : A -> M W B) (g : B -> M W C) w P :
  reaches (m ≫= fun a => f a ≫= g) w P -> reaches ((m ≫= f) ≫= g) w P.
Proof. unfold reaches, mbind, M_bind. by destruct (m w). Qed.

Definition shift_pbuf (h : Z) (p : ptr) (b : pbuf) (s : net) : net := set_pbufs (<[p := shifted h b]> (pbufs s)) s.
Lemma shifted_0 b : shifted 0 b = b.
Proof. destruct b as [nx [o|] tl ln ty fl rf rm]; unfold shifted, with_payload, with_len, with_tot_len; cbn; f_equal; first [lia | f_equal; lia]. Qed.
Lemma shift_shift h k p b s : shift_pbuf h p (shifted k b) (shift_pbuf k p b s) = shift_pbuf (h + k) p b s.
Proof. unfold shift_pbuf. cbn [pbufs set_pbufs]. by rewrite insert_insert_eq, shifted_shifted. Qed.
Lemma shift_0 p b s : pbufs s !! p = Some b -> shift_pbuf 0 p b s = s.
Proof. intros Hp. unfold shift_pbuf. rewrite shifted_0, insert_id by done. by destruct s. Qed.

Lemma view_shift p o m s l k b x h : view p o m s l k -> net_ok s l -> pbufs s !! p = Some b -> payload b = Some x -> - len b <= h <= x ->
  view p o m (shift_pbuf h p b s) l (shift_pbuf h p b k).
Proof.
  intros [H1 H2 H3 H4] Hok Hb Hx Hh. assert (Hk : pbufs k !! p = Some b) by by rewrite H1. split.
  - unfold shift_pbuf. cbn. by rewrite H1.
  - by apply (shifted_ok _ _ _ _ x).
  - intros i. rewrite <- H3. by destruct p.
  - intros q c y Hq Hne Hy. unfold shift_pbuf in Hq. cbn in Hq. rewrite lookup_insert_ne in Hq by done.
    specialize (H4 q c y Hq Hne Hy). by destruct q.
Qed.

Lemma wp_header_shift p b x h k t w (Q : Z -> W -> Prop) :
  pbufs k !! p = Some b -> payload b = Some x -> type b = PBUF_RAM \/ type b = PBUF_POOL -> 0 <= x -> 0 <= len b <= tot_len b ->
  tot_len b + h < 65536 -> - len b <= h <= x -> Q 0 (put_stack (set_net (shift_pbuf h p b k) t) w) ->
  wp (on_net (pbuf_header (Some p) h)) Q (put_stack (set_net k t) w).
Proof.
  intros Hp Hx Ht Hpos Hlen Hmax Hh HQ. apply wp_on_net. eapply wp_mono; [apply (header_step k p b x h); done|].
  intros r s' Hr. cbn beta in Hr. rewrite (proj2 (Z.leb_le _ _)), (proj2 (Z.leb_le _ _)) in Hr by lia. by destruct Hr as [-> ->].
Qed.

Lemma hdr8_at p o h i : hdr8 (W := W) (p, o + h) i = hdr8 (p, o) (h + i).
Proof. unfold hdr8. cbn [fst snd]. by rewrite Z.add_assoc. Qed.
Lemma set_hdr8_at p o h i v : set_hdr8 (W := W) (p, o + h) i v = set_hdr8 (p, o) (h + i) v.
Proof. unfold set_hdr8. cbn [fst snd]. by rewrite Z.add_assoc. Qed.
Lemma set_hdr16_at p o h i v : set_hdr16 (W := W) (p, o + h) i v = set_hdr16 (p, o) (h + i) v.
Proof. unfold set_hdr16. by rewrite !set_hdr8_at, Z.add_assoc. Qed.

(** The bytes of the reply, of those of the request from its IP header of [hlen]
    bytes on. *)
Definition echo_reply (hlen : Z) (m : Z -> Z) : Z -> Z := fun i =>
  if (12 <=? i) && (i <? 16) then m (i + 4)
  else if (16 <=? i) && (i <? 20) then m (i - 4)
  else if i =? 8 then ICMP_TTL
  else if (i =? 10) || (i =? 11) then 0
  else if i =? hlen + icmp_type then ICMP_ER
  else if (i =? hlen + icmp_chksum) || (i =? hlen + icmp_chksum + 1) then 0
  else m i.
Lemma echo_reply_stores hlen m i : bytes m -> 20 <= hlen ->
  set16 10 0 (set8 8 ICMP_TTL (set16 (hlen + icmp_chksum) 0 (set8 (hlen + icmp_type) ICMP_ER
    (set32 16 (le32 m 12) (set32 12 (le32 m 16) m))))) i = echo_reply hlen m i.
Proof.
  intros Hm Hh. unfold echo_reply, set16, set8, set32, icmp_type, icmp_chksum.
  repeat match goal with
  | |- context [i =? ?y] => destruct (Z.eqb_spec i y); cbn [andb orb]; try lia
  | |- context [?y <=? i] => destruct (Z.leb_spec y i); cbn [andb orb]; try lia
  | |- context [i <? ?y] => destruct (Z.ltb_spec i y); cbn [andb orb]; try lia
  end; try done.
  all: rewrite MemFacts.byte_of_le32 by (done || lia); f_equal; lia.
Qed.

(** An echo request: [o] is where its IP header starts, which [f] received and which is
    all in the first pbuf, with room in front for the headers of the reply. *)
Record echo_request (t : stack) (l : list block) (p : ptr) (b : pbuf) (c : list (ptr * pbuf)) (o : Z) (m : Z -> Z) (f : netif) : Prop := {
  echo_ok : net_ok (s_net t) l;
  echo_chain : chain (pbufs (s_net t)) (Some p) ((p, b) :: c);
  echo_nodup : NoDup ((p, b) :: c).*1;
  echo_packet : packet ((p, b) :: c);
  echo_readable : readable ((p, b) :: c);
  echo_type : type b = PBUF_RAM \/ type b = PBUF_POOL;
  echo_payload : payload b = Some o;
  echo_room : PBUF_IP_HLEN + PBUF_LINK_HLEN <= o + ihl m;
  echo_bytes : bytes m;
  echo_octets : octets (contents (s_net t) ((p, b) :: c));
  echo_size : tot_len b + PBUF_IP_HLEN + PBUF_LINK_HLEN < 65536;
  echo_hlen : IP_HLEN <= ihl m /\ ihl m + SIZEOF_ICMP_ECHO_HDR <= len b;
  echo_type_byte : m (ihl m + icmp_type) = ICMP_ECHO;
  echo_unicast : ip_addr_ismulticast (le32 m ip_dest) || ip_addr_isbroadcast (le32 m ip_dest) f = false
}.

Lemma contents_shifted s s' p b c o h : payload b = Some o -> 0 <= h <= len b -> (forall q x, bytes_at s' q x = bytes_at s q x) ->
  contents s' ((p, shifted (- h) b) :: c) = drop (Z.to_nat h) (contents s ((p, b) :: c)).
Proof.
  intros Ho Hh Hb. cbn [contents]. rewrite (data_prefix s' p (shifted (- h) b) (o + h)) by (cbn; rewrite Ho; cbn; f_equal; lia).
  rewrite (data_prefix s p b o) by done. replace (Z.to_nat (len b)) with (Z.to_nat h + Z.to_nat (len b - h))%nat by lia.
  rewrite prefix_app, <- app_assoc, drop_app_length' by by rewrite prefix_length. f_equal; [|apply contents_ext; intros; apply Hb].
  cbn [len shifted with_payload with_len]. rewrite Z.add_opp_r. apply prefix_ext. intros i Hi. rewrite Hb. f_equal. lia.
Qed.

Local Ltac in_hdr H := apply H; cbv [ip_src ip_dest ip_chksum icmp_type icmp_chksum]; lia.
(** A packet that has its header is sent where that says. *)
Lemma output_hdrincl p o s l b k m src ttl tos proto n f t w : pbufs s !! p = Some b -> payload b = Some o -> view p o m s l k ->
  netifs t !! n = Some f -> inside o b ip_dest 4 ->
  ip_output_if call_output ip_frag p src None ttl tos proto n (put_stack (set_net k t) w)
  = send_on f (tot_len b) p n (le32 m ip_dest) (put_stack (set_net k t) w).
Proof.
  intros Hb Ho Hv Hn Hi.
  change (reaches (ip_output_if call_output ip_frag p src None ttl tos proto n) (put_stack (set_net k t) w)
    (fun r => r = send_on f (tot_len b) p n (le32 m ip_dest) (put_stack (set_net k t) w))).
  apply reach_bind, wp_bind, (wp_payload_hdr p o s l b Hb k m); [done..|]. apply wp_bind, (wp_hdr32 p o s l b Hb k m); [done..|]. apply wp_ret.
  apply (run_send p b n f); [done|]. cbn [s_net set_net]. by rewrite (view_pbufs _ _ _ _ _ _ Hv).
Qed.

(** The reply is made in the request, whose IP header comes back in front. *)
Lemma echo_reply_run t w l p b c o m f inp (x := ihl m) :
  echo_request t l p b c o m f -> netifs t !! inp = Some f -> (forall i, bytes_at (s_net t) p (o + i) = m i) ->
  exists k, view p o (echo_reply x m) (s_net t) l k /\
    icmp_echo_reply call_output ip_frag p (p, o) x inp (put_stack (set_net (shift_pbuf (- x) p b (s_net t)) t) w)
    = (_ ← send_on f (tot_len b) p inp (le32 m ip_src); mret tt) (put_stack (set_net k t) w).
Proof.
  intros [Hok Hc Hnd Hpk Hrd Hty Ho Hroom Hby Hoct Hsz [Hx1 Hx2] Htb Hun] Hn Hm. fold x in Hroom, Hx1, Hx2, Htb.
  unfold PBUF_IP_HLEN, PBUF_LINK_HLEN, IP_HLEN, SIZEOF_ICMP_ECHO_HDR in *. set (s := s_net t) in *.
  pose proof Hc as (_ & Hb & _). destruct (nok_home _ _ Hok _ _ Hb) as (_ & [Hlb Hf] & _). rewrite Ho in Hf.
  pose proof (packet_len _ _ _ Hpk) as Hdl. set (s1 := shift_pbuf (- x) p b s). set (b1 := shifted (- x) b).
  assert (Hp1 : pbufs s1 !! p = Some b1) by apply lookup_insert_eq.
  assert (Hv0 : view p o m s l s) by (split; try done; intros; by apply Hm).
  assert (Hv1 : view p o m s1 l s1) by (apply (view_shift p o m s l s b o); try done; lia).
  assert (Hin : forall i n, 0 <= i -> 0 <= n -> i + n <= x + 8 -> inside o b1 i n) by (intros; split; cbn; lia).
  change (reaches (icmp_echo_reply call_output ip_frag p (p, o) x inp) (put_stack (set_net s1 t) w) (fun r =>
    exists k, view p o (echo_reply x m) s l k /\ r = (_ ← send_on f (tot_len b) p inp (le32 m ip_src); mret tt) (put_stack (set_net k t) w))).
  apply reach_bind, (wp_payload_hdr p (o + x) s1 l b1 Hp1 s1 (fun i => bytes_at s1 p (o + x + i))); [by apply view_refl, (view_ok _ _ _ _ _ _ Hv1)|by cbn; rewrite Ho; cbn; f_equal; lia|].
  apply reach_bind, (wp_hdr32 p o s1 l b1 Hp1 s1 m); [done|in_hdr Hin|].
  apply reach_bind, (wp_hdr32 p o s1 l b1 Hp1 s1 m); [done|in_hdr Hin|].
  apply reach_bind, (wp_set_hdr32 p o s1 l b1 Hp1 _ _ _ _ _ _ _ Hv1); [in_hdr Hin|]. intros k1 Hk1.
  apply reach_bind, (wp_set_hdr32 p o s1 l b1 Hp1 _ _ _ _ _ _ _ Hk1); [in_hdr Hin|]. intros k2 Hk2.
  apply reach_bind. rewrite set_hdr8_at. apply (wp_set_hdr8 p o s1 l b1 Hp1 _ _ _ _ _ _ _ Hk2); [in_hdr Hin|]. intros k3 Hk3.
  apply reach_bind. rewrite set_hdr16_at. apply (wp_set_hdr16 p o s1 l b1 Hp1 _ _ _ _ _ _ _ Hk3); [in_hdr Hin|]. intros k4 Hk4.
  apply reach_bind, (wp_IPH_TTL_SET p o s1 l b1 Hp1 _ _ _ _ _ _ Hk4); [in_hdr Hin|apply bytes_set16, bytes_set8; [by apply bytes_set32, bytes_set32|done]|done|]. intros k5 Hk5.
  apply reach_bind, (wp_set_hdr16 p o s1 l b1 Hp1 _ _ _ _ _ _ _ Hk5); [in_hdr Hin|]. intros k6 Hk6.
  assert (Hp6 : pbufs k6 !! p = Some b1) by (rewrite (view_pbufs _ _ _ _ _ _ Hk6); apply Hp1).
  apply reach_bind, (wp_header_shift p b1 (o + x)); [done|by cbn; rewrite Ho; cbn; f_equal; lia|done|lia|cbn; lia|cbn; lia|cbn; lia|].
  cbn [Z.eqb negb]. set (k7 := shift_pbuf x p b1 k6). set (m7 := echo_reply x m).
  assert (Hv7 : view p o m7 s l k7).
  { assert (Hs : shift_pbuf x p b1 s1 = s) by (unfold s1, b1; rewrite shift_shift, Z.add_opp_diag_r; by apply shift_0).
    rewrite <- Hs. apply (view_shift _ _ _ _ _ _ _ (o + x)); [|apply (view_ok _ _ _ _ _ _ Hv1)|done|by cbn; rewrite Ho; cbn; f_equal; lia|cbn; lia].
    eapply view_ext; [|exact Hk6]. intros i. by apply echo_reply_stores. }
  assert (Hin7 : forall i n, 0 <= i -> 0 <= n -> i + n <= x + 8 -> inside o b i n) by (intros; split; lia).
  apply reach_bind, (wp_hdr32 p o s l b Hb k7 m7); [done|in_hdr Hin7|].
  eapply reach_bind_run.
  { rewrite (output_hdrincl p o s l b k7 m7 _ _ _ _ inp f t w); [|done..|in_hdr Hin7]. reflexivity. }
  assert (Hd : le32 m7 ip_dest = le32 m ip_src) by (apply MemFacts.le32_shift; intros j Hj; unfold m7, echo_reply, ip_dest, ip_src;
    rewrite (proj2 (Z.ltb_ge (16 + j) 16)), andb_false_r, (proj2 (Z.leb_le _ _)), (proj2 (Z.ltb_lt _ _)) by lia; cbn [andb]; f_equal; lia).
  rewrite Hd. exists k7. done.
Qed.


(** With room for the link headers the request stays where it is. *)
Lemma wp_icmp_echo_room p b x k t w h hlen (Q : option (ptr * header) -> W -> Prop) :
  pbufs k !! p = Some b -> payload b = Some x -> type b = PBUF_RAM \/ type b = PBUF_POOL -> 0 <= len b <= tot_len b ->
  PBUF_IP_HLEN + PBUF_LINK_HLEN <= x -> tot_len b + (PBUF_IP_HLEN + PBUF_LINK_HLEN) < 65536 ->
  Q (Some (p, h)) (put_stack (set_net k t) w) -> wp (icmp_echo_room p h hlen) Q (put_stack (set_net k t) w).
Proof.
  unfold PBUF_IP_HLEN, PBUF_LINK_HLEN. intros Hp Hx Ht Hl Hr Hm HQ.
  unfold icmp_echo_room, PBUF_IP_HLEN, PBUF_LINK_HLEN. change (20 + 14) with 34 in *.
  apply wp_bind, (wp_header_shift p b x); [done|done|done|lia|done|lia|lia|]. cbn [Z.eqb negb].
  apply wp_bind, (wp_header_shift p (shifted 34 b) (x - 34)); [apply lookup_insert_eq|by cbn; rewrite Hx|done|lia|cbn; lia|cbn; lia|cbn [len shifted with_payload with_len]; lia|].
  cbn [Z.eqb negb]. apply wp_ret. rewrite shift_shift. change (- (34) + 34) with 0. by rewrite shift_0.
Qed.

(** C28. An echo request that was not sent to a broadcast or multicast address, in a packet
    with room for the headers in front, whose checksum is right is answered in place: the addresses are
    exchanged, the type is that of a reply, the TTL is 255, the checksums are zero
    (the controller fills them in), every other byte of the packet and of the rest
    of the memory stays, and the packet is sent on the interface it came from,
    then freed.  With a wrong checksum it is freed only. *)
Theorem icmp_input_answers_echo t w l p b c o m f inp (x := ihl m) :
  echo_request t l p b c o m f -> netifs t !! inp = Some f -> (forall i, bytes_at (s_net t) p (o + i) = m i) ->
  if rfc1071 (drop (Z.to_nat x) (contents (s_net t) ((p, b) :: c))) =? 0 then
    exists k, view p o (echo_reply x m) (s_net t) l k /\
      icmp_input call_output ip_frag p inp (put_stack t w)
      = (_ ← send_on f (tot_len b) p inp (le32 m ip_src); _ ← on_net (pbuf_free (Some p)); mret tt) (put_stack (set_net k t) w)
  else icmp_input call_output ip_frag p inp (put_stack t w)
    = (_ ← on_net (pbuf_free (Some p)); mret tt) (put_stack (set_net (shift_pbuf (- x) p b (s_net t)) t) w).
Proof.
  intros He Hn Hm. destruct (echo_reply_run t w l p b c o m f inp He Hn Hm) as (k & Hk & Hrun). fold x in Hk, Hrun. revert Hrun.
  pose proof He as [Hok Hc Hnd Hpk Hrd Hty Ho Hroom Hby Hoct Hsz [Hx1 Hx2] Htb Hun]. fold x in Hroom, Hx1, Hx2, Htb.
  unfold PBUF_IP_HLEN, PBUF_LINK_HLEN, IP_HLEN, SIZEOF_ICMP_ECHO_HDR in *.
  set (s := s_net t) in *. pose proof Hc as (_ & Hb & Hcc). destruct (nok_home _ _ Hok _ _ Hb) as (_ & [Hlb Hf] & _). rewrite Ho in Hf.
  pose proof (packet_len _ _ _ Hpk) as Hdl. set (s1 := shift_pbuf (- x) p b s). set (b1 := shifted (- x) b). intros Hrun.
  assert (Hp1 : pbufs s1 !! p = Some b1) by apply lookup_insert_eq.
  assert (Hv0 : view p o m s l s) by (split; try done; intros; by apply Hm).
  assert (Hv1 : view p o m s1 l s1) by (apply (view_shift p o m s l s b o); try done; lia).
  assert (Hin : forall i n, 0 <= i -> 0 <= n -> i + n <= x + 8 -> inside o b1 i n) by (intros; split; cbn; lia).
  assert (Ho1 : payload b1 = Some (o + x)) by (cbn; rewrite Ho; cbn; f_equal; lia).
  set (P := fun r : outcome W unit => if rfc1071 (drop (Z.to_nat x) (contents s ((p, b) :: c))) =? 0 then
     exists k, view p o (echo_reply x m) s l k /\
       r = (_ ← send_on f (tot_len b) p inp (le32 m ip_src); _ ← on_net (pbuf_free (Some p)); mret tt) (put_stack (set_net k t) w)
     else r = (_ ← on_net (pbuf_free (Some p)); mret tt) (put_stack (set_net s1 t) w)).
  assert (HP : reaches (icmp_input call_output ip_frag p inp) (put_stack t w) P); [|unfold reaches, P in HP; by destruct (_ =? 0)].
  replace (put_stack t w) with (put_stack (set_net s t) w) by by destruct t.
  unfold icmp_input. apply reach_bind, (wp_payload_hdr p o s l b Hb s m); [done..|].
  apply reach_bind, (wp_IPH_HL p o s l b Hb s m); [done|split; lia|by apply bytes_octets|]. fold (ihl m). fold x.
  apply reach_bind, (wp_header_shift p b o); [done|done|done|lia|done|lia|lia|]. fold s1.
  apply reach_bind, wp_on_net, (wp_get_pbuf _ b1); [done|]. rewrite (proj2 (Z.ltb_ge (tot_len b1) 4)) by (cbn; lia). cbn [Z.eqb negb orb].
  apply reach_bind, (wp_payload_hdr p (o + x) s1 l b1 Hp1 s1 (fun i => bytes_at s1 p (o + x + i))); [apply view_refl; by destruct Hv1|done|].
  apply reach_bind. rewrite hdr8_at, Z.add_0_r. apply (wp_hdr8 p o s1 l b1 Hp1 s1 m); [done|apply Hin; lia|].
  unfold icmp_type in Htb. rewrite Z.add_0_r in Htb. rewrite Htb. change (ICMP_ECHO =? ICMP_ECHO) with true. cbv iota.
  apply reach_bind, (wp_hdr32 p o s1 l b1 Hp1 s1 m); [done|apply Hin; unfold ip_dest; lia|].
  apply reach_bind, (wp_get_netif _ f); [done|]. rewrite Hun. unfold SIZEOF_ICMP_ECHO_HDR.
  rewrite (proj2 (Z.ltb_ge (tot_len b1) 8)) by (cbn; lia).
  assert (Hct : contents s1 ((p, b1) :: c) = drop (Z.to_nat x) (contents s ((p, b) :: c))).
  { apply (contents_shifted s s1 p b c o x); [done|lia|]. intros q y. by destruct q. }
  apply reach_bind, wp_on_net, (wp_inet_chksum_pbuf s1 p ((p, b1) :: c)).
  - split; [done|]. split; [done|]. eapply chain_frame; [|exact Hcc]. intros q Hq. apply lookup_insert_ne. intros ->. by apply nodup_cons in Hnd as [? _].
  - done.
  - apply Forall_cons_1 in Hrd as [[[Hf1 Hf2] Hpl] Hrd]. apply Forall_cons_2; [|done]. cbn [snd] in *. split; [|by exists (o + x)].
    split; [cbn; lia|]. rewrite Ho1. cbn. lia.
  - rewrite Hct. by apply Forall_drop.
  - cbn [data_len]. destruct Hpk as (Ht & _ & _). cbn. lia.
  - cbn [s_net set_net]. rewrite Hct. set (r := rfc1071 _). assert (Hr : 0 <= r < 2 ^ 16) by (pose proof (oc_bound (word_sum (drop (Z.to_nat x) (contents s ((p, b) :: c))))); unfold r, rfc1071; lia).
    change (set_net s1 (set_net s t)) with (set_net s1 t). unfold P. fold r. destruct (Z.eqb_spec r 0) as [->|Hne].
    + apply reach_bind, (wp_icmp_echo_room p b1 (o + x)); [done|done|done|cbn; lia|unfold PBUF_IP_HLEN, PBUF_LINK_HLEN; lia|unfold PBUF_IP_HLEN, PBUF_LINK_HLEN; cbn; lia|].
      eapply reach_bind_run; [exact Hrun|]. apply reach_bind_assoc. by exists k.
    + rewrite (proj2 (Z.eqb_neq (htons r) 0)); [done|]. intros E. apply Hne. by rewrite <- (htons_htons r), E.
Qed.

End out.

(** The answer to a request that is sent on, with a function that takes every packet. *)
Definition any_output (_ : output_fn) (_ : netif_ptr) (_ : option ptr) (_ : Z) : M stack Z := mret ERR_OK.
Definition any_frag (_ : ptr) (_ : netif_ptr) (_ : Z) : M stack Z := mret ERR_OK.
Definition ping_header (i : Z) : Z := ping_bytes (14 + i).

Lemma ip_output_if_prepends_witness
    (t := ping_stack 34 8) (w := ping_stack 34 8) (b := ping_pbuf 34 8) (dest := IP4_ADDR 192 168 1 2) (src := None) :
  let source := if ip_addr_isany src then nif_ip_addr ping_netif else ip_addr_set src in
  let sent := ip_output_if any_output any_frag ping_ptr src (Some dest) 64 0 IP_PROTO_UDP 0%nat (put_stack t w) in
  if 34 <? IP_HLEN then sent = Ret ERR_BUF (put_stack t w)
  else exists k, prepended (ip_header 0 (tot_len b + IP_HLEN) (ip_id t) 0 64 IP_PROTO_UDP 0 source dest) ping_ptr b [] (s_net t) [(MEM_SIZE_ALIGNED, false)] k /\
    sent = send_on any_output any_frag ping_netif (tot_len b + IP_HLEN) ping_ptr 0%nat dest (put_stack (set_ip_id (u16 (ip_id t + 1)) (set_net k t)) w).
Proof.
  apply (ip_output_if_prepends any_output any_frag t w [(MEM_SIZE_ALIGNED, false)] ping_ptr b [] 34 src dest 64 0 IP_PROTO_UDP 0%nat ping_netif);
    [|done..].
  split; [by apply ping_net_ok|by repeat split|apply (bool_decide_unpack _); by vm_compute|by repeat split| |by right|done].
  apply Forall_cons_2; [|apply Forall_nil_2]. split; [by split|by eexists].
Defined.

(** The request of 192.168.1.2. *)
Lemma ping_request : echo_request (ping_stack 14 28) [(MEM_SIZE_ALIGNED, false)] ping_ptr (ping_pbuf 14 28) [] 14 ping_header ping_netif.
Proof.
  split; [by apply ping_net_ok|by repeat split|apply (bool_decide_unpack _); by vm_compute|by repeat split| |by right|done|by vm_compute|
    intros i; apply (ping_bytes_ok 14 28)| |done|by split|done|by vm_compute].
  - apply Forall_cons_2; [|apply Forall_nil_2]. split; [by split|by eexists].
  - apply (bool_decide_unpack _). by vm_compute.
Qed.
Lemma icmp_input_answers_echo_witness
    (t := ping_stack 14 28) (w := ping_stack 14 28) (b := ping_pbuf 14 28) (m := ping_header) (x := ihl m) (l := [(MEM_SIZE_ALIGNED, false)]) :
  if rfc1071 (drop (Z.to_nat x) (contents (s_net t) [(ping_ptr, b)])) =? 0 then
    exists k, view ping_ptr 14 (echo_reply x m) (s_net t) l k /\
      icmp_input any_output any_frag ping_ptr 0%nat (put_stack t w)
      = (_ ← send_on any_output any_frag ping_netif (tot_len b) ping_ptr 0%nat (le32 m ip_src); _ ← on_net (pbuf_free (Some ping_ptr)); mret tt) (put_stack (set_net k t) w)
  else icmp_input any_output any_frag ping_ptr 0%nat (put_stack t w)
    = (_ ← on_net (pbuf_free (Some ping_ptr)); mret tt) (put_stack (set_net (shift_pbuf (- x) ping_ptr b (s_net t)) t) w).
Proof. by apply (icmp_input_answers_echo any_output any_frag t w l ping_ptr b [] 14 m ping_netif 0%nat ping_request). Defined.
(** It is the first case. *)
Example ping_checksum : rfc1071 (drop (Z.to_nat (ihl ping_header)) (contents (ping_net 14 28) [(ping_ptr, ping_pbuf 14 28)])) = 0.
Proof. by vm_compute. Qed.

(** * Routing *)

(** A packet goes out by the first interface of the list that is up and on the
    network of the destination, else by the default one if that is up; the search ends and
    changes nothing. *)
Theorem ip_route_first_match {W} `{StackLaws W} (t : stack) (w : W) (l : list (netif_ptr * netif)) (dest : Z) :
  interfaces t l -> (forall d, netif_default t = Some d -> is_Some (netifs t !! d)) ->
  ip_route dest (put_stack t w) = Ret (route dest l (default_of t)) (put_stack t w).
Proof.
  intros Hl Hd. assert (Hw : wp (ip_route dest) (fun r w' => r = route dest l (default_of t) /\ w' = put_stack t w) (put_stack t w))
    by by apply (wp_ip_route _ _ _ l).
  by apply wp_unfold in Hw as (r & w' & -> & -> & ->).
Qed.
Lemma ip_route_first_match_witness (t := set_netif_default (Some 0%nat) (ping_stack 14 28)) (l := [(0%nat, ping_netif)]) (dest := IP4_ADDR 8 8 8 8) :
  ip_route dest (put_stack t t) = Ret (route dest l (default_of t)) (put_stack t t).
Proof. apply (ip_route_first_match t t l dest); [split; [by repeat split|apply (bool_decide_unpack _); by vm_compute]|]. intros d [= <-]. by eexists. Defined.
