(* ===== verification/LwipReassTheorems.v ===== *)
(** Reassembly: the fragments of a datagram as a list that runs through the packets,
    what the validation accepts, and what is wrong with it. *)
From stdpp Require Import gmap.
From S2P Require Import Prelude Mmio MemFacts LwipMem LwipMemSpec LwipPbuf LwipPbufSpec LwipPbufTheorems LwipInet LwipInetTheorems.
From S2P Require Import LwipStack LwipStackSpec LwipHeader LwipNetif LwipIpOut LwipIpSpec LwipFrag LwipIpTheorems.


(** * The list of fragments *)

(** A fragment: its first pbuf, where its data starts in the memory of that pbuf, and
    what part of the datagram it is. *)
Record frag : Type := Frag { f_ptr : ptr; f_off : Z; f_start : Z; f_end : Z }.

(** Where a new fragment goes: [prev] is the one in front of [l].  [None]: it is
    thrown away.  The flag says whether no hole was seen. *)
Definition joined (prev : option frag) (start : Z) : bool := match prev with Some y => f_end y =? start | None => true end.
Fixpoint place (new : frag) (prev : option frag) (valid : bool) (l : list frag) : option (list frag * bool) :=
  match l with
  | [] => Some ([new], valid && joined prev (f_start new))
  | x :: l' =>
      if f_start new <? f_start x then
        if match prev with Some y => (f_start new <? f_end y) || (f_start x <? f_end new) | None => false end then None
        else Some (new :: l, valid)
      else if f_start new =? f_start x then None
      else if f_start new <? f_end x then None
      else match place new (Some x) (valid && joined prev (f_start x)) l' with
           | Some (r, v) => Some (x :: r, v)
           | None => None
           end
  end.
(** No hole from a fragment on. *)
Fixpoint no_hole (x : frag) (l : list frag) : bool :=
  match l with [] => true | y :: l => (f_end x =? f_start y) && no_hole y l end.
Fixpoint behind (p : ptr) (l : list frag) : list frag :=
  match l with [] => [] | x :: l => if bool_decide (f_ptr x = p) then l else behind p l end.
(** Is the datagram taken for complete, [last] being whether its last fragment is
    there? *)
Definition complete (last : bool) (new : frag) (l : list frag) (valid : bool) : bool :=
  last && valid && match l with x :: _ => f_start x =? 0 | [] => false end && no_hole new (behind (f_ptr new) l).

(** ** In memory *)
Section memory.
Context `{PtrAddrLaws}.

Definition first_ptr (l : list frag) (nx : option ptr) : option ptr := match l with x :: _ => Some (f_ptr x) | [] => nx end.
(** The helper of a fragment, with the pointer to the next one. *)
Record frag_at (s : net) (x : frag) (nx : option ptr) : Prop := {
  at_pbuf : exists b, pbufs s !! f_ptr x = Some b /\ payload b = Some (f_off x) /\ 0 <= f_off x /\ f_off x + 20 <= room b;
  at_next : le32 (fun i => bytes_at s (f_ptr x) (f_off x + i)) helper_next_pbuf = addr_of nx;
  at_start : le16 (fun i => bytes_at s (f_ptr x) (f_off x + i)) helper_start = f_start x;
  at_end : le16 (fun i => bytes_at s (f_ptr x) (f_off x + i)) helper_end = f_end x;
  at_valid : from_option valid_ptr True nx
}.
Fixpoint frag_list (s : net) (l : list frag) (nx : option ptr) : Prop :=
  match l with [] => True | x :: l => frag_at s x (first_ptr l nx) /\ frag_list s l nx end.

Lemma frag_list_app s l1 l2 nx : frag_list s (l1 ++ l2) nx <-> frag_list s l1 (first_ptr l2 nx) /\ frag_list s l2 nx.
Proof.
  induction l1 as [|x l1 IH]; cbn [app frag_list]; [tauto|]. rewrite IH.
  assert (first_ptr (l1 ++ l2) nx = first_ptr l1 (first_ptr l2 nx)) as -> by by destruct l1. tauto.
Qed.

(** Nothing but helpers of the fragments [l] changes. *)
Record only_helpers (bl : list block) (l : list frag) (s k : net) : Prop := {
  oh_pbufs : pbufs k = pbufs s;
  oh_ok : net_ok k bl;
  oh_bytes : forall q b y, pbufs s !! q = Some b -> 0 <= y < room b ->
    Forall (fun x => q = f_ptr x -> ~ (f_off x <= y < f_off x + 8)) l -> bytes_at k q y = bytes_at s q y
}.
Lemma only_helpers_refl bl l s : net_ok s bl -> only_helpers bl l s s.
Proof. by split. Qed.
Lemma only_helpers_trans bl l s1 s2 s3 : only_helpers bl l s1 s2 -> only_helpers bl l s2 s3 -> only_helpers bl l s1 s3.
Proof.
  intros [H1 H2 H3] [H4 H5 H6]. split; [by rewrite H4|done|]. intros q b y Hq Hy Hl. rewrite (H6 q b y), (H3 q b y); [done..|by rewrite H1|done|done].
Qed.
Lemma only_helpers_mono bl l l' s k : (forall x, x ∈ l -> x ∈ l') -> only_helpers bl l s k -> only_helpers bl l' s k.
Proof.
  intros Hl [H1 H2 H3]. split; [done..|]. intros q b y Hq Hy Hf. apply (H3 q b y Hq Hy). rewrite list.Forall_forall in Hf |- *. intros x Hx. by apply Hf, Hl.
Qed.
(** The helpers of the others stay. *)
Lemma frag_at_other bl l s k x nx : only_helpers bl l s k -> f_ptr x ∉ f_ptr <$> l -> frag_at s x nx -> frag_at k x nx.
Proof.
  intros [H1 H2 H3] Hx [(b & Hb & Hp & Ho & Hr) Hn Hs He Hv].
  assert (Hby : forall i, 0 <= i < 20 -> bytes_at k (f_ptr x) (f_off x + i) = bytes_at s (f_ptr x) (f_off x + i)).
  { intros i Hi. apply (H3 _ b); [done|lia|]. rewrite list.Forall_forall. intros y Hy E. destruct Hx. rewrite E. by apply list_elem_of_fmap_2. }
  split; [exists b; by rewrite H1| | | |done].
  - rewrite <- Hn. apply MemFacts.le32_ext. intros i Hi. apply Hby. unfold helper_next_pbuf. lia.
  - rewrite <- Hs. apply MemFacts.le16_ext; apply Hby; unfold helper_start; lia.
  - rewrite <- He. apply MemFacts.le16_ext; apply Hby; unfold helper_end; lia.
Qed.
Lemma frag_list_other bl l s k xs nx : only_helpers bl l s k -> (forall x, x ∈ xs -> f_ptr x ∉ f_ptr <$> l) -> frag_list s xs nx -> frag_list k xs nx.
Proof.
  intros Ho. induction xs as [|x xs IH]; intros Hx; cbn [frag_list]; [done|]. intros [Ha Hl]. split.
  - apply (frag_at_other bl l s); [done|apply Hx; by left|done].
  - apply IH; [intros y Hy; apply Hx; by right|done].
Qed.
End memory.

Lemma byte_of_le32s v : 0 <= v < 2 ^ 32 -> byte_of v 0 + 2 ^ 8 * byte_of v 1 + 2 ^ 16 * (byte_of v 2 + 2 ^ 8 * byte_of v 3) = v.
Proof. intros Hv. unfold byte_of. change (8 * 0) with 0. change (8 * 1) with 8. change (8 * 2) with 16. change (8 * 3) with 24. Z.div_mod_to_equations. lia. Qed.
Lemma le32_set32 i v m : 0 <= v < 2 ^ 32 -> le32 (set32 i v m) i = v.
Proof.
  intros Hv. unfold le32, le16, set32. rewrite !(proj2 (Z.leb_le i _)), !(proj2 (Z.ltb_lt _ (i + 4))) by lia. cbn [andb].
  rewrite <- (byte_of_le32s v) at 5 by done. repeat f_equal; lia.
Qed.
Lemma le32_set16_other i j v m : j + 3 < i \/ i + 1 < j -> le32 (set16 i v m) j = le32 m j.
Proof. intros Hij. apply MemFacts.le32_ext. intros k Hk. unfold set16. by rewrite !(proj2 (Z.eqb_neq _ _)) by lia. Qed.

Section access.
Context {W : Type} `{StackLaws W} `{PtrAddrLaws}.
Implicit Types (t : stack) (w : W) (k : net) (x : frag).

Definition at_frag x : header := (f_ptr x, f_off x).
Definition bytes_of k x : Z -> Z := fun i => bytes_at k (f_ptr x) (f_off x + i).

Lemma wp_frag_payload k x nx t w (Q : header -> W -> Prop) : frag_at k x nx -> Q (at_frag x) (put_stack (set_net k t) w) ->
  wp (payload_hdr (f_ptr x)) Q (put_stack (set_net k t) w).
Proof.
  intros [(b & Hb & Hp & _) _ _ _ _] HQ. apply wp_bind, wp_on_net, (wp_get_pbuf _ b); [done|]. rewrite Hp. by apply wp_ret.
Qed.
Lemma wp_frag_start k bl x nx t w (Q : Z -> W -> Prop) : net_ok k bl -> frag_at k x nx -> Q (f_start x) (put_stack (set_net k t) w) ->
  wp (frag_start (at_frag x)) Q (put_stack (set_net k t) w).
Proof.
  intros Hok [(b & Hb & _ & Ho & Hr) _ Hs _ _] HQ. apply (wp_hdr16 _ _ k bl b Hb k (bytes_of k x)); [by apply view_refl|split; unfold helper_start; lia|].
  unfold bytes_of. by rewrite Hs.
Qed.
Lemma wp_frag_end k bl x nx t w (Q : Z -> W -> Prop) : net_ok k bl -> frag_at k x nx -> Q (f_end x) (put_stack (set_net k t) w) ->
  wp (frag_end (at_frag x)) Q (put_stack (set_net k t) w).
Proof.
  intros Hok [(b & Hb & _ & Ho & Hr) _ _ He _] HQ. apply (wp_hdr16 _ _ k bl b Hb k (bytes_of k x)); [by apply view_refl|split; unfold helper_end; lia|].
  unfold bytes_of. by rewrite He.
Qed.
Lemma wp_frag_next k bl x nx t w (Q : option ptr -> W -> Prop) : net_ok k bl -> frag_at k x nx -> Q nx (put_stack (set_net k t) w) ->
  wp (next_pbuf (at_frag x)) Q (put_stack (set_net k t) w).
Proof.
  intros Hok [(b & Hb & _ & Ho & Hr) Hn _ _ Hv] HQ.
  apply wp_bind, (wp_hdr32 _ _ k bl b Hb k (bytes_of k x)); [by apply view_refl|split; unfold helper_next_pbuf; lia|].
  apply wp_ret. unfold bytes_of. rewrite Hn, ptr_at_addr_of by done. done.
Qed.

(** A view of the memory of a fragment in which only its helper is different. *)
Lemma view_helpers k bl x m k' : view (f_ptr x) (f_off x) m k bl k' ->
  (forall i, ~ (0 <= i < 8) -> m i = bytes_of k x i) -> only_helpers bl [x] k k'.
Proof.
  intros Hv Hm. split; [apply (view_pbufs _ _ _ _ _ _ Hv)|apply (view_ok _ _ _ _ _ _ Hv)|].
  intros q b' y Hq Hy [Hx _]%Forall_cons_1. destruct (decide (q = f_ptr x)) as [->|Hne].
  - specialize (Hx eq_refl). replace y with (f_off x + (y - f_off x)) by lia. rewrite (view_bytes _ _ _ _ _ _ Hv). apply Hm. lia.
  - by apply (view_others _ _ _ _ _ _ Hv q b').
Qed.
Lemma frag_at_view k bl x m k' nx b : view (f_ptr x) (f_off x) m k bl k' -> pbufs k !! f_ptr x = Some b -> payload b = Some (f_off x) ->
  0 <= f_off x -> f_off x + 20 <= room b -> le32 m helper_next_pbuf = addr_of nx -> le16 m helper_start = f_start x -> le16 m helper_end = f_end x ->
  from_option valid_ptr True nx -> frag_at k' x nx.
Proof.
  intros Hv Hb Hp Ho Hr Hn Hs He Hval. pose proof (view_bytes _ _ _ _ _ _ Hv) as Hby. split; [|..|done].
  - exists b. by rewrite (view_pbufs _ _ _ _ _ _ Hv).
  - rewrite <- Hn. apply MemFacts.le32_ext. intros i _. apply Hby.
  - rewrite <- Hs. apply MemFacts.le16_ext; apply Hby.
  - rewrite <- He. apply MemFacts.le16_ext; apply Hby.
Qed.

Lemma wp_set_next_pbuf k bl x nx nx' t w (Q : unit -> W -> Prop) : net_ok k bl -> frag_at k x nx -> from_option valid_ptr True nx' ->
  (forall k', only_helpers bl [x] k k' -> frag_at k' x nx' -> Q tt (put_stack (set_net k' t) w)) ->
  wp (set_next_pbuf (at_frag x) nx') Q (put_stack (set_net k t) w).
Proof.
  intros Hok [(b & Hb & Hp & Ho & Hr) Hn Hs He _] Hval HQ. pose proof (addr_of_range nx') as Hrange.
  apply (wp_set_hdr32 (f_ptr x) (f_off x) k bl b Hb k (bytes_of k x)); [by apply view_refl|split; unfold helper_next_pbuf; lia|].
  intros k' Hv. apply HQ.
  - apply (view_helpers k bl x _ k' Hv). intros i Hi. unfold set32, helper_next_pbuf. destruct (Z.leb_spec 0 i), (Z.ltb_spec i (0 + 4)); cbn [andb]; try done; lia.
  - apply (frag_at_view _ _ _ _ _ _ b Hv); try done. by apply le32_set32.
Qed.

(** The record of a datagram. *)
Definition with_rd (p : ptr) (d : ip_reassdata) (t : stack) : stack :=
  set_reass (Reass (reassdatagrams (reass t)) (<[p := d]> (reassdata (reass t))) (ip_reass_pbufcount (reass t))) t.
Lemma with_rd_same p d t : reassdata (reass t) !! p = Some d -> with_rd p (with_rd_p (rd_p d) d) t = t.
Proof. intros Hd. unfold with_rd. replace (with_rd_p (rd_p d) d) with d by by destruct d. rewrite insert_id by done. destruct t as [? ? ? ? ? ? ? ? ? ? ? ? ? []]. done. Qed.
Lemma wp_get_rd p d t w (Q : ip_reassdata -> W -> Prop) : reassdata (reass t) !! p = Some d -> Q d (put_stack t w) -> wp (get_rd p) Q (put_stack t w).
Proof. intros Hd HQ. apply wp_bind, wp_gets_stack. rewrite Hd. by apply wp_ret. Qed.
Lemma wp_upd_rd p f d t w (Q : unit -> W -> Prop) : reassdata (reass t) !! p = Some d -> Q tt (put_stack (with_rd p (f d) t) w) ->
  wp (upd_rd p f) Q (put_stack t w).
Proof. intros Hd HQ. apply wp_bind, (wp_get_rd _ d); [done|]. by apply wp_mod_stack. Qed.

(** Link a fragment behind the last of [pre]. *)
Lemma wp_link k bl pre y new rest t w (Q : unit -> W -> Prop) :
  net_ok k bl -> NoDup (f_ptr <$> new :: (pre ++ [y]) ++ rest) -> frag_list k ((pre ++ [y]) ++ rest) None ->
  frag_at k new (first_ptr rest None) -> valid_ptr (f_ptr new) ->
  (forall k', only_helpers bl [y] k k' -> frag_list k' ((pre ++ [y]) ++ new :: rest) None -> Q tt (put_stack (set_net k' t) w)) ->
  wp (set_next_pbuf (at_frag y) (Some (f_ptr new))) Q (put_stack (set_net k t) w).
Proof.
  intros Hok Hnd Hl Hnew Hv HQ. rewrite !frag_list_app in Hl. destruct Hl as [[Hpre [Hy _]] Hrest].
  cbn [fmap list_fmap] in Hnd. rewrite !fmap_app in Hnd. cbn [fmap list_fmap] in Hnd.
  apply nodup_cons in Hnd as [Hn1 Hnd]. apply list.NoDup_app in Hnd as (Hndp & Hdis & Hndr). apply list.NoDup_app in Hndp as (_ & Hdp & _).
  apply (wp_set_next_pbuf k bl y _ (Some (f_ptr new)) t w Q Hok Hy); [done|]. intros k' Ho Hy'. apply HQ; [done|].
  assert (Hne : forall x, f_ptr x <> f_ptr y -> f_ptr x ∉ f_ptr <$> [y]) by (intros x Hx; cbn; by intros ?%list_elem_of_singleton).
  rewrite !frag_list_app. split; [split; [|by split]|split].
  - apply (frag_list_other bl [y] k); [done| |done]. intros x Hx. apply Hne. intros E. apply (Hdp (f_ptr y)); [|by left]. rewrite <- E. by apply list_elem_of_fmap_2.
  - apply (frag_at_other bl [y] k); [done| |done]. apply Hne. intros E. apply Hn1. rewrite E. apply elem_of_app. left. apply elem_of_app. right. by left.
  - apply (frag_list_other bl [y] k); [done| |done]. intros x Hx. apply Hne. intros E. apply (Hdis (f_ptr y)).
    + apply elem_of_app. right. by left.
    + rewrite <- E. by apply list_elem_of_fmap_2.
Qed.

(** The search for the place of [new], with [pre] behind it. *)
Section placing.
Variables (ipr : ptr) (new : frag) (bl : list block) (t : stack) (w : W) (d : ip_reassdata) (all : list frag) (k : net).
Hypothesis Hd : reassdata (reass t) !! ipr = Some d.
Hypothesis Hall : rd_p d = first_ptr all None.
Hypothesis Hvalid : Forall valid_ptr (f_ptr <$> new :: all).
Hypothesis Hnd : NoDup (f_ptr <$> new :: all).
Hypothesis Hok : net_ok k bl.
Hypothesis Hlist : frag_list k all None.
Hypothesis Hnew : frag_at k new None.

(** What the search ends with. *)
Definition place_post (pre rest : list frag) (valid : bool) (Q : option bool -> W -> Prop) : Prop :=
  match place new (list.last pre) valid rest with
  | None => forall k', only_helpers bl [new] k k' -> frag_list k' all None -> Q None (put_stack (set_net k' t) w)
  | Some (r, v) => forall k', only_helpers bl (new :: all) k k' -> frag_list k' (pre ++ r) None ->
      Q (Some v) (put_stack (set_net k' (with_rd ipr (with_rd_p (first_ptr (pre ++ r) None) d) t)) w)
  end.

Lemma new_elsewhere x : x ∈ all -> f_ptr x ∉ f_ptr <$> [new].
Proof.
  clear Hlist Hnew Hok. intros Hx Hn. cbn in Hn. apply list_elem_of_singleton in Hn. cbn [fmap list_fmap] in Hnd. apply nodup_cons in Hnd as [Hnn _]. apply Hnn.
  rewrite <- Hn. by apply list_elem_of_fmap_2.
Qed.
Lemma helpers_keep_all k1 : only_helpers bl [new] k k1 -> frag_list k1 all None.
Proof. intros Ho. apply (frag_list_other bl [new] k); [done|apply new_elsewhere|done]. Qed.

(** The fragment becomes the first one. *)
Lemma wp_first k1 rest (Q : unit -> W -> Prop) : all = rest -> only_helpers bl [new] k k1 -> frag_at k1 new (first_ptr rest None) ->
  (forall k', only_helpers bl (new :: all) k k' -> frag_list k' (new :: rest) None ->
     Q tt (put_stack (set_net k' (with_rd ipr (with_rd_p (first_ptr (new :: rest) None) d) t)) w)) ->
  wp (upd_rd ipr (with_rd_p (Some (f_ptr new)))) Q (put_stack (set_net k1 t) w).
Proof.
  intros Hr Ho Hn HQ. apply (wp_upd_rd _ _ d); [done|]. apply (HQ k1).
  - eapply only_helpers_mono; [|exact Ho]. intros x ->%list_elem_of_singleton. by left.
  - split; [done|]. rewrite <- Hr. by apply helpers_keep_all.
Qed.
(** It is linked behind the last of [pre]. *)
Lemma wp_behind k1 pre y rest (Q : unit -> W -> Prop) : all = (pre ++ [y]) ++ rest -> only_helpers bl [new] k k1 -> frag_at k1 new (first_ptr rest None) ->
  (forall k', only_helpers bl (new :: all) k k' -> frag_list k' ((pre ++ [y]) ++ new :: rest) None ->
     Q tt (put_stack (set_net k' (with_rd ipr (with_rd_p (first_ptr ((pre ++ [y]) ++ new :: rest) None) d) t)) w)) ->
  wp (set_next_pbuf (at_frag y) (Some (f_ptr new))) Q (put_stack (set_net k1 t) w).
Proof.
  intros Hr Ho Hn HQ. apply (wp_link k1 bl pre y new rest t w Q (oh_ok _ _ _ _ Ho)); [by rewrite <- Hr|rewrite <- Hr; by apply helpers_keep_all|done| |].
  - cbn [fmap list_fmap] in Hvalid. by apply Forall_cons_1 in Hvalid as [? _].
  - intros k' Ho' Hl'. replace t with (with_rd ipr (with_rd_p (first_ptr ((pre ++ [y]) ++ new :: rest) None) d) t) at 1.
    + apply HQ; [|done]. apply (only_helpers_trans _ _ _ k1); (eapply only_helpers_mono; [|eassumption]); intros x ->%list_elem_of_singleton; [by left|].
      right. rewrite Hr. apply elem_of_app. left. apply elem_of_app. right. by left.
    + replace (first_ptr _ None) with (rd_p d); [by apply with_rd_same|]. rewrite Hall, Hr. by destruct pre.
Qed.

Lemma wp_place rest : forall pre valid (Q : option bool -> W -> Prop), all = pre ++ rest -> place_post pre rest valid Q ->
  wp (iter_nat (Datatypes.S (length rest)) (place_body ipr (f_ptr new) (at_frag new) (f_start new) (f_end new))
        (first_ptr rest None, at_frag <$> list.last pre, valid)) (ends Q) (put_stack (set_net k t) w).
Proof.
  induction rest as [|x rest IH]; intros pre valid Q Hr HQ; apply wp_iter_S; cbn [first_ptr place_body]; unfold place_post in HQ; cbn [place] in HQ.
  - rewrite app_nil_r in Hr. destruct pre as [|y pre _] using rev_ind.
    + cbn [list.last fmap option_fmap option_map joined] in *. apply wp_bind, (wp_first k []); [done|by apply only_helpers_refl|done|]. intros k' Ho Hl. apply wp_ret.
      rewrite andb_true_r in HQ. by apply HQ.
    + rewrite last_snoc in *. cbn [fmap option_fmap option_map joined] in *. apply wp_bind, (wp_behind k pre y []); [by rewrite app_nil_r|by apply only_helpers_refl|done|].
      intros k' Ho Hl. pose proof Hl as Hy. rewrite !frag_list_app in Hy. destruct Hy as [[_ [Hy _]] _].
      apply wp_bind, (wp_frag_end k' bl y _ _ w _ (oh_ok _ _ _ _ Ho) Hy). apply wp_ret. by apply HQ.
  - assert (Hx : frag_at k x (first_ptr rest None)) by (rewrite Hr, frag_list_app in Hlist; by destruct Hlist as [_ [? _]]).
    assert (Hvx : valid_ptr (f_ptr x)).
    { rewrite Hr in Hvalid. cbn [fmap list_fmap] in Hvalid. rewrite fmap_app in Hvalid. by apply Forall_cons_1 in Hvalid as [_ [_ [? _]%Forall_cons_1]%Forall_app]. }
    apply wp_bind, (wp_frag_payload k x _ t w _ Hx), wp_bind, (wp_frag_start k bl x _ t w _ Hok Hx), wp_bind, (wp_frag_end k bl x _ t w _ Hok Hx).
    destruct (f_start new <? f_start x).
    { apply wp_bind, (wp_set_next_pbuf k bl new None (Some (f_ptr x)) t w _ Hok Hnew Hvx). intros k1 Ho1 Hn1.
      pose proof (helpers_keep_all _ Ho1) as Hl1. destruct pre as [|y pre _] using rev_ind.
      - cbn [list.last fmap option_fmap option_map] in *. apply wp_bind, (wp_first k1 (x :: rest)); [done..|]. intros k' Ho Hl. apply wp_ret. by apply HQ.
      - rewrite last_snoc in *. cbn [fmap option_fmap option_map] in *.
        assert (Hy : frag_at k1 y (Some (f_ptr x))) by (rewrite Hr, !frag_list_app in Hl1; by destruct Hl1 as [[_ [? _]] _]).
        apply wp_bind, (wp_frag_end k1 bl y _ t w _ (oh_ok _ _ _ _ Ho1) Hy). destruct (_ || _); [by apply wp_ret, HQ|].
        apply wp_bind, (wp_behind k1 pre y (x :: rest)); [done..|]. intros k' Ho Hl. apply wp_ret. by apply HQ. }
    destruct (f_start new =? f_start x); [by apply wp_ret, HQ, Hlist; apply only_helpers_refl|].
    destruct (f_start new <? f_end x); [by apply wp_ret, HQ, Hlist; apply only_helpers_refl|].
    apply wp_bind. assert (Hj : forall Q' : bool -> W -> Prop, Q' (valid && joined (list.last pre) (f_start x)) (put_stack (set_net k t) w) ->
      wp (match at_frag <$> list.last pre with Some h => e ← frag_end h; mret (valid && (e =? f_start x)) | None => mret valid end) Q' (put_stack (set_net k t) w)).
    { intros Q' HQ'. destruct pre as [|y pre _] using rev_ind; [cbn in *; rewrite andb_true_r in HQ'; by apply wp_ret|].
      rewrite last_snoc in *. cbn [fmap option_fmap option_map joined] in *.
      assert (Hy : frag_at k y (Some (f_ptr x))) by (rewrite Hr, !frag_list_app in Hlist; by destruct Hlist as [[_ [? _]] _]).
      apply wp_bind, (wp_frag_end k bl y _ t w _ Hok Hy). by apply wp_ret. }
    apply Hj. clear Hj. apply wp_bind, (wp_frag_next k bl x _ t w _ Hok Hx), wp_ret.
    replace (Some (at_frag x)) with (at_frag <$> list.last (pre ++ [x])) by by rewrite last_snoc.
    apply IH; [by rewrite <- app_assoc|]. unfold place_post. rewrite last_snoc.
    destruct (place new (Some x) _ rest) as [[r v]|]; [|done]. intros k' Ho Hl. rewrite <- app_assoc in Hl |- *. by apply HQ.
Qed.
End placing.

Lemma wp_no_hole k bl t w : net_ok k bl -> forall l x (Q : bool -> W -> Prop), frag_at k x (first_ptr l None) -> frag_list k l None ->
  Q (no_hole x l) (put_stack (set_net k t) w) ->
  wp (iter_nat (Datatypes.S (length l)) no_hole_body (at_frag x, first_ptr l None)) (ends Q) (put_stack (set_net k t) w).
Proof.
  intros Hok. induction l as [|y l IH]; intros x Q Hx Hl HQ; apply wp_iter_S; cbn [first_ptr no_hole_body no_hole] in *; [by apply wp_ret|].
  destruct Hl as [Hy Hl]. apply wp_bind, (wp_frag_payload k y _ t w _ Hy), wp_bind, (wp_frag_end k bl x _ t w _ Hok Hx), wp_bind, (wp_frag_start k bl y _ t w _ Hok Hy).
  destruct (f_end x =? f_start y); cbn [negb andb] in *; [|by apply wp_ret].
  apply wp_bind, (wp_frag_next k bl y _ t w _ Hok Hy), wp_ret. by apply IH.
Qed.

(** The fragment is somewhere in the list that it is placed in. *)
Lemma place_in new l : forall prev v r v', place new prev v l = Some (r, v') -> exists a b, r = a ++ new :: b /\ l = a ++ b.
Proof.
  induction l as [|x l IH]; intros prev v r v'; cbn [place].
  - intros [= <- <-]. by exists [], [].
  - destruct (f_start new <? f_start x). { destruct (match prev with Some _ => _ | None => _ end); [done|]. intros [= <- <-]. by exists [], (x :: l). }
    destruct (_ =? _); [done|]. destruct (_ <? _); [done|]. destruct (place new (Some x) _ l) as [[r0 v0]|] eqn:E; [|done].
    intros [= <- <-]. destruct (IH _ _ _ _ E) as (a & b & -> & ->). by exists (x :: a), b.
Qed.
Lemma behind_split p a x b : f_ptr x = p -> p ∉ f_ptr <$> a -> behind p (a ++ x :: b) = b.
Proof.
  intros Hx. induction a as [|y a IH]; cbn [behind app fmap list_fmap]; intros Hp; [by rewrite bool_decide_true|].
  apply not_elem_of_cons in Hp as [Hp Ha]. rewrite bool_decide_false by congruence. by apply IH.
Qed.

(** ** The whole step *)

(** The length of a fragment's data and its offset, from the IP header. *)
Definition frag_size (m : Z -> Z) : Z := u16 (ip_total m - ihl m).
Definition frag_offset (m : Z -> Z) : Z := u16 (Z.land (htons (le16 m ip_offset)) IP_OFFMASK * 8).
Definition frag_of (p : ptr) (o : Z) (m : Z -> Z) : frag := Frag p o (frag_offset m) (u16 (frag_offset m + frag_size m)).
Definition last_seen (d : ip_reassdata) : bool := negb (Z.land (rd_flags d) IP_REASS_FLAG_LASTFRAG =? 0).

(** A fragment that is thrown away. *)
Definition discard (p : ptr) : M W bool :=
  n ← on_net (pbuf_clen (Some p));
  _ ← set_pbufcount (fun c => c - n);
  _ ← on_net (pbuf_free (Some p));
  mret false.

(** The datagram [ipr] has the fragments [l]; [p] is a packet with the header [m]. *)
Record joins (t : stack) (bl : list block) (ipr : ptr) (d : ip_reassdata) (l : list frag) (p : ptr) (o : Z) (m : Z -> Z) : Prop := {
  jn_ok : net_ok (s_net t) bl;
  jn_rd : reassdata (reass t) !! ipr = Some d;
  jn_first : rd_p d = first_ptr l None;
  jn_list : frag_list (s_net t) l None;
  jn_valid : Forall valid_ptr (p :: (f_ptr <$> l));
  jn_nodup : NoDup (p :: (f_ptr <$> l));
  jn_pbuf : exists b, pbufs (s_net t) !! p = Some b /\ payload b = Some o /\ 0 <= o /\ o + 20 <= room b;
  jn_bytes : forall i, bytes_at (s_net t) p (o + i) = m i;
  jn_octets : hdr_octets m
}.

(** The helper is written over the header. *)
Lemma reach_set_helper {B} s bl p b o m st en t w (K : M W B) P (x := Frag p o st en) :
  net_ok s bl -> pbufs s !! p = Some b -> payload b = Some o -> 0 <= o -> o + 20 <= room b -> (forall i, bytes_at s p (o + i) = m i) ->
  0 <= st < 2 ^ 16 -> 0 <= en < 2 ^ 16 ->
  (forall k, only_helpers bl [x] s k -> frag_at k x None -> reaches K (put_stack (set_net k t) w) P) ->
  reaches (_ ← set_next_pbuf (p, o) None; _ ← set_hdr16 (p, o) helper_start st; _ ← set_hdr16 (p, o) helper_end en; K) (put_stack (set_net s t) w) P.
Proof.
  intros Hok Hb Hp Ho Hr Hm Hst Hen HQ. pose proof (addr_of_range None) as Ha.
  apply reach_bind, (wp_set_hdr32 p o s bl b Hb s m); [by split|split; unfold helper_next_pbuf; lia|]. intros k1 H1v.
  apply reach_bind, (wp_set_hdr16 p o s bl b Hb k1 _ _ _ _ _ _ H1v); [split; unfold helper_start; lia|]. intros k2 H2v.
  apply reach_bind, (wp_set_hdr16 p o s bl b Hb k2 _ _ _ _ _ _ H2v); [split; unfold helper_end; lia|]. intros k3 H3v. apply HQ.
  - apply (view_helpers s bl x _ k3 H3v). intros i Hi. unfold bytes_of. cbn [f_ptr f_off x]. rewrite Hm. unfold set16, set32, helper_end, helper_start, helper_next_pbuf.
    rewrite !(proj2 (Z.eqb_neq i _)) by lia. destruct (Z.leb_spec 0 i), (Z.ltb_spec i (0 + 4)); cbn [andb]; try done; lia.
  - apply (frag_at_view s bl x _ k3 None b H3v); try done; cbn [f_start f_end x].
    + rewrite !le32_set16_other by (unfold helper_end, helper_start, helper_next_pbuf; lia). by apply le32_set32.
    + rewrite le16_set16_ne by (unfold helper_end, helper_start; lia). by apply le16_set16_eq.
    + by apply le16_set16_eq.
Qed.

Lemma frag_list_size k l : frag_list k l None -> NoDup (f_ptr <$> l) -> (length l <= size (pbufs k))%nat.
Proof.
  intros Hl Hnd. rewrite <- (length_fmap f_ptr l), <- size_dom. rewrite <- (size_list_to_set (C := gset ptr) (f_ptr <$> l)) by done. apply subseteq_size.
  intros q. rewrite elem_of_list_to_set, list_elem_of_fmap. intros (x & -> & Hx). apply list_elem_of_split in Hx as (l1 & l2 & ->).
  rewrite frag_list_app in Hl. destruct Hl as [_ [[(b & Hb & _) _ _ _ _] _]]. apply elem_of_dom. by exists b.
Qed.

(** The verdict, once the fragment [new] is in its place in [l']. *)
Lemma verdict_run k bl t w ipr d new l' valid (fuel : positive) : net_ok k bl -> reassdata (reass t) !! ipr = Some d -> rd_p d = first_ptr l' None ->
  frag_list k l' None -> new ∈ l' -> NoDup (f_ptr <$> l') -> (length l' < Pos.to_nat fuel)%nat ->
  (d ← get_rd ipr;
   if negb (Z.land (rd_flags d) IP_REASS_FLAG_LASTFRAG =? 0) && valid then
     match rd_p d with
     | None => fault
     | Some p => h ← payload_hdr p; s ← frag_start h;
         if negb (s =? 0) then mret false else q ← next_pbuf (at_frag new); loop fuel no_hole_body (at_frag new, q)
     end
   else mret false) (put_stack (set_net k t) w) = Ret (complete (last_seen d) new l' valid) (put_stack (set_net k t) w).
Proof.
  intros Hok Hd Hf Hl Hin Hnd Hsz. set (v := complete _ _ _ _).
  match goal with |- ?m (put_stack _ _) = _ => enough (Hw : wp m (fun r w' => r = v /\ w' = put_stack (set_net k t) w) (put_stack (set_net k t) w)) end.
  { by apply wp_unfold in Hw as (r & w' & -> & -> & ->). }
  apply wp_bind, (wp_get_rd _ d); [done|]. unfold v, complete. fold (last_seen d). destruct (last_seen d && valid); [|by apply wp_ret]. cbn [andb].
  rewrite Hf. pose proof Hin as Hin'. apply list_elem_of_split in Hin' as (l1 & l2 & El). rewrite El, fmap_app in Hnd. cbn [fmap list_fmap] in Hnd.
  apply list.NoDup_app in Hnd as (_ & Hdis & _).
  assert (Hb : behind (f_ptr new) l' = l2) by (rewrite El; apply behind_split; [done|]; intros Hp; apply (Hdis _ Hp); by left).
  pose proof Hl as Hl2. rewrite El, frag_list_app in Hl2. destruct Hl2 as [_ [Hnew Hl2]].
  destruct l' as [|x l']; [by destruct l1|]. cbn [first_ptr]. pose proof Hl as [Hx _].
  apply wp_bind, (wp_frag_payload k x _ t w _ Hx), wp_bind, (wp_frag_start k bl x _ t w _ Hok Hx).
  destruct (f_start x =? 0); cbn [negb andb]; [|by apply wp_ret].
  apply wp_bind, (wp_frag_next k bl new _ t w _ Hok Hnew), (wp_loop_nat (Datatypes.S (length l2))).
  { assert (length (x :: l') = length (l1 ++ new :: l2)) by by rewrite El. rewrite length_app in *. cbn [length] in *. lia. }
  apply (wp_no_hole k bl t w Hok l2); [done|done|]. by rewrite Hb.
Qed.

Lemma reass_chain_run (t : stack) (w : W) bl ipr d l p o m (new := frag_of p o m) :
  joins t bl ipr d l p o m ->
  let run := ip_reass_chain_frag_into_datagram_and_validate ipr p (put_stack t w) in
  match place new None true l with
  | Some (l', valid) => exists k, only_helpers bl (new :: l) (s_net t) k /\ frag_list k l' None /\
      run = Ret (complete (last_seen d) new l' valid) (put_stack (set_net k (with_rd ipr (with_rd_p (first_ptr l' None) d) t)) w)
  | None => exists k, only_helpers bl [new] (s_net t) k /\ frag_list k l None /\ run = discard p (put_stack (set_net k t) w)
  end.
Proof.
  intros [Hok Hd Hf Hl Hv Hnd (b & Hb & Ho & Hpos & Hr) Hm Hoct] run. set (s := s_net t) in *.
  set (P := fun r : outcome W bool => match place new None true l with
    | Some (l', valid) => exists k, only_helpers bl (new :: l) s k /\ frag_list k l' None /\
        r = Ret (complete (last_seen d) new l' valid) (put_stack (set_net k (with_rd ipr (with_rd_p (first_ptr l' None) d) t)) w)
    | None => exists k, only_helpers bl [new] s k /\ frag_list k l None /\ r = discard p (put_stack (set_net k t) w) end).
  enough (HP : reaches (ip_reass_chain_frag_into_datagram_and_validate ipr p) (put_stack (set_net s t) w) P).
  { unfold reaches, P in HP. replace (set_net s t) with t in HP by by destruct t. unfold run. destruct (place new None true l) as [[]|]; exact HP. }
  assert (Hview : view p o m s bl s) by by split.
  unfold ip_reass_chain_frag_into_datagram_and_validate.
  apply reach_bind, (wp_payload_hdr p o s bl b Hb s m); [done..|].
  apply reach_bind, (wp_hdr16 p o s bl b Hb s m); [done|split; unfold ip_len; lia|].
  apply reach_bind, (wp_IPH_HL p o s bl b Hb s m); [done|split; lia|done|].
  apply reach_bind, (wp_hdr16 p o s bl b Hb s m); [done|split; unfold ip_offset; lia|].
  apply (reach_set_helper s bl p b o m); try done; [apply Z.mod_pos_bound; lia|apply Z.mod_pos_bound; lia|]. fold (frag_of p o m). fold new. intros k1 Ho1 Hn1.
  cbn [fmap list_fmap] in *. pose proof (oh_ok _ _ _ _ Ho1) as Hok1.
  assert (Hl1 : frag_list k1 l None).
  { apply (frag_list_other bl [new] s); [done| |done]. intros x Hx Hn. cbn in Hn. apply list_elem_of_singleton in Hn. apply nodup_cons in Hnd as [Hnn _]. apply Hnn. rewrite <- Hn. by apply list_elem_of_fmap_2. }
  assert (Hsz : (Datatypes.S (length l) < Pos.to_nat (Pos.succ (Pos.of_succ_nat (size (pbufs k1)))))%nat).
  { apply nodup_cons in Hnd as [_ Hnd']. pose proof (frag_list_size k1 l Hl1 Hnd'). lia. }
  apply reach_bind, (wp_get_rd _ d); [done|]. apply reach_bind, wp_on_net, wp_gets. cbn [s_net set_net].
  apply reach_bind, (wp_loop_nat (Datatypes.S (length l))); [lia|]. rewrite Hf.
  apply (wp_place ipr new bl t w d l k1 Hd Hf Hv Hnd Hok1 Hl1 Hn1 l [] true); [done|]. unfold place_post. cbn [list.last app].
  unfold P. destruct (place new None true l) as [[l' valid]|] eqn:Epl.
  - intros k Hoh Hl'. exists k. assert (Hok' : only_helpers bl (new :: l) s k).
    { apply (only_helpers_trans _ _ _ k1); [|done]. eapply only_helpers_mono; [|exact Ho1]. intros x ->%list_elem_of_singleton. by left. }
    split; [done|]. split; [done|]. destruct (place_in _ _ _ _ _ _ Epl) as (la & lb & -> & ->).
    assert (Hperm : NoDup (f_ptr <$> la ++ new :: lb)).
    { rewrite fmap_app in Hnd |- *. cbn [fmap list_fmap]. eapply NoDup_Permutation_proper; [|exact Hnd]. by rewrite Permutation_middle. }
    apply (verdict_run k bl (with_rd ipr (with_rd_p (first_ptr (la ++ new :: lb) None) d) t) w ipr (with_rd_p (first_ptr (la ++ new :: lb) None) d) new); try done.
    + apply (oh_ok _ _ _ _ Hoh).
    + cbn. apply lookup_insert_eq.
    + apply elem_of_app. right. by left.
    + rewrite length_app in *. cbn [length]. lia.
  - intros k Hoh Hl'. exists k. split; [by apply (only_helpers_trans _ _ _ k1)|done].
Qed.

(** ** What is taken for complete *)
Definition contiguous (l : list frag) : bool := match l with [] => true | x :: l => no_hole x l end.
Definition starts_at_zero (l : list frag) : bool := match l with [] => false | x :: _ => f_start x =? 0 end.
(** [new] comes behind every fragment of [l]. *)
Definition after (l : list frag) (new : frag) : Prop := Forall (fun x => f_start x < f_start new /\ f_end x <= f_start new) l.

Lemma no_hole_snoc x l y : no_hole x (l ++ [y]) = no_hole x l && joined (list.last (x :: l)) (f_start y).
Proof.
  revert x. induction l as [|z l IH]; intros x; cbn [no_hole app]; [by rewrite andb_true_r|]. rewrite IH, andb_assoc. done.
Qed.
Lemma contiguous_snoc l y : contiguous (l ++ [y]) = contiguous l && joined (list.last l) (f_start y).
Proof. destruct l as [|x l]; [done|]. apply no_hole_snoc. Qed.

(** The walk goes past the fragments in front of [new]. *)
Lemma place_past new lb : forall la pre valid, after la new ->
  place new (list.last pre) (valid && contiguous pre) (la ++ lb) =
  match place new (list.last (pre ++ la)) (valid && contiguous (pre ++ la)) lb with Some (r, v) => Some (la ++ r, v) | None => None end.
Proof.
  induction la as [|x la IH]; intros pre valid Ha; cbn [app place]; [rewrite app_nil_r; by destruct (place _ _ _ lb) as [[]|]|].
  apply Forall_cons_1 in Ha as [[H1' H2'] Ha]. rewrite (proj2 (Z.ltb_ge _ _)), (proj2 (Z.eqb_neq _ _)), (proj2 (Z.ltb_ge (f_start new) (f_end x))) by lia.
  specialize (IH (pre ++ [x]) valid Ha). rewrite last_snoc, contiguous_snoc, andb_assoc in IH. rewrite IH.
  replace ((pre ++ [x]) ++ la) with (pre ++ x :: la) by by rewrite <- app_assoc. destruct (place new (list.last (pre ++ x :: la)) (valid && contiguous (pre ++ x :: la)) lb) as [[r v]|]; reflexivity.
Qed.
Lemma place_behind new la lb : after la new -> place new None true (la ++ lb) =
  match place new (list.last la) (contiguous la) lb with Some (r, v) => Some (la ++ r, v) | None => None end.
Proof. intros Ha. apply (place_past new lb la [] true Ha). Qed.

Lemma complete_split last new la lb v : f_ptr new ∉ f_ptr <$> la ->
  complete last new (la ++ new :: lb) v = last && v && starts_at_zero (la ++ [new]) && no_hole new lb.
Proof. intros Hp. unfold complete. rewrite behind_split by done. by destruct la. Qed.

Lemma jn_new_elsewhere t bl ipr d l p o m : joins t bl ipr d l p o m -> p ∉ f_ptr <$> l.
Proof. intros Hj. pose proof (jn_nodup _ _ _ _ _ _ _ _ Hj) as Hnd. by apply nodup_cons in Hnd as [? _]. Qed.

(** C24. The list of the fragments of a datagram, which runs through the first bytes of the
    packets themselves, and the flag that the function returns are those of [place] and
    [complete].  A fragment is put in its place by its offset.  It is thrown away when it
    starts where one on the list starts, when it starts before the end of one that starts
    before it, and when it is put between two and reaches into the one behind it; but not
    when it has the lowest offset: it is then put in front even if it reaches into the
    first one, although the comment at the top of the file says that with
    IP_REASS_CHECK_OVERLAP overlapping fragments are thrown away.  Nothing else in the
    memory changes. *)
Theorem reass_chain_refines (t : stack) (w : W) bl ipr d l p o m (new := frag_of p o m) :
  joins t bl ipr d l p o m ->
  let run := ip_reass_chain_frag_into_datagram_and_validate ipr p (put_stack t w) in
  match place new None true l with
  | Some (l', valid) => exists k, only_helpers bl (new :: l) (s_net t) k /\ frag_list k l' None /\
      run = Ret (complete (last_seen d) new l' valid) (put_stack (set_net k (with_rd ipr (with_rd_p (first_ptr l' None) d) t)) w)
  | None => exists k, only_helpers bl [new] (s_net t) k /\ frag_list k l None /\ run = discard p (put_stack (set_net k t) w)
  end.
Proof. apply reass_chain_run. Qed.

(** Fragments that come in order are put together when, and only when, they are all
    there: a fragment behind those that came before it completes the datagram exactly if
    the last one was seen, the first one starts at zero and there is no hole. *)
Theorem reass_in_order (t : stack) (w : W) bl ipr d l p o m (new := frag_of p o m) :
  joins t bl ipr d l p o m -> after l new ->
  exists k, frag_list k (l ++ [new]) None /\
    ip_reass_chain_frag_into_datagram_and_validate ipr p (put_stack t w) =
    Ret (last_seen d && starts_at_zero (l ++ [new]) && contiguous (l ++ [new]))
        (put_stack (set_net k (with_rd ipr (with_rd_p (first_ptr (l ++ [new]) None) d) t)) w).
Proof.
  intros Hj Ha. pose proof (reass_chain_run t w bl ipr d l p o m Hj) as Hrun. fold new in Hrun. cbv zeta in Hrun.
  pose proof (place_behind new l [] Ha) as Hp. rewrite app_nil_r in Hp. cbn [place] in Hp. rewrite Hp in Hrun.
  destruct Hrun as (k & _ & Hl & Hrun). exists k. split; [done|]. rewrite Hrun. f_equal.
  rewrite complete_split by apply (jn_new_elsewhere _ _ _ _ _ _ _ _ Hj). cbn [no_hole]. rewrite andb_true_r, contiguous_snoc.
  by destruct (last_seen d), (starts_at_zero _), (contiguous l && _).
Qed.

(** C25. A datagram with a hole is taken for complete: a fragment that is put in front of
    another one is not compared with the end of the one before it, so the bytes from
    the end of [x] on are missing when the function says that all are there. *)
Theorem reass_accepts_hole (t : stack) (w : W) bl ipr d x z p o m (new := frag_of p o m) :
  joins t bl ipr d [x; z] p o m -> last_seen d = true -> f_start x = 0 -> 0 <= f_end x < f_start new -> f_start new < f_start z -> f_end new = f_start z ->
  contiguous [x; new; z] = false /\
  exists k, frag_list k [x; new; z] None /\
    ip_reass_chain_frag_into_datagram_and_validate ipr p (put_stack t w) =
    Ret true (put_stack (set_net k (with_rd ipr (with_rd_p (Some (f_ptr x)) d) t)) w).
Proof.
  intros Hj Hlast Hx Hgap Hz Hend. split; [cbn [contiguous no_hole]; by rewrite (proj2 (Z.eqb_neq (f_end x) (f_start new))) by lia|].
  pose proof (reass_chain_run t w bl ipr d [x; z] p o m Hj) as Hrun. fold new in Hrun. cbv zeta in Hrun.
  pose proof (place_behind new [x] [z]) as Hp. cbn [app] in Hp. rewrite Hp in Hrun by (apply Forall_cons_2; [lia|apply Forall_nil_2]). cbn [place list.last contiguous no_hole] in Hrun.
  rewrite (proj2 (Z.ltb_lt (f_start new) (f_start z))), (proj2 (Z.ltb_ge (f_start new) (f_end x))), (proj2 (Z.ltb_ge (f_start z) (f_end new))) in Hrun by lia.
  cbn [orb] in Hrun. destruct Hrun as (k & _ & Hl & Hrun). exists k. split; [done|]. rewrite Hrun. f_equal.
  pose proof (jn_new_elsewhere _ _ _ _ _ _ _ _ Hj) as Hne. apply not_elem_of_cons in Hne as [Hne _].
  replace (complete _ _ _ _) with (complete (last_seen d) new ([x] ++ new :: [z]) true) by done. rewrite complete_split by (cbn; intros E%list_elem_of_singleton; done).
  rewrite Hlast. cbn [app starts_at_zero no_hole]. by rewrite Hx, Hend, !Z.eqb_refl.
Qed.
End access.

(** * Runs *)
#[local] Existing Instance flat_layout.
#[local] Existing Instance flat_laws.

(** A fragment in element [i] of the pool: [n] bytes of value [v] at offset [8 * off]
    of the datagram [id]. *)
Definition frag_frame (id off : Z) (mf : bool) (n v : Z) : list Z :=
  repeat 0 14 ++ ip_header 0 (IP_HLEN + n) id (off + if mf then IP_MF else 0) 64 IP_PROTO_UDP 0 (IP4_ADDR 192 168 1 2) (IP4_ADDR 192 168 1 1)
  ++ repeat v (Z.to_nat n).
Definition with_frag (i : nat) (id off : Z) (mf : bool) (n v : Z) (s : net) : net :=
  set_pool MEMP_PBUF_POOL i (buf_mem (frag_frame id off mf n v)) (add_pool i (rev (seq 0 i)) (ping_pbuf 14 (IP_HLEN + n)) s).
Definition frag_ptr (i : nat) : ptr := InPool MEMP_PBUF_POOL i.
Definition quiet (_ : output_fn) (_ : netif_ptr) (_ : option ptr) (_ : Z) : M stack Z := mret ERR_OK.

(** What the calls of ip_reass return, and the state they end in. *)
Fixpoint reassemble (ps : list nat) : M stack (list (option ptr)) :=
  match ps with
  | [] => mret []
  | i :: ps => r ← ip_reass quiet (frag_ptr i); l ← reassemble ps; mret (r :: l)
  end.
Definition results (s : stack) (ps : list nat) : option (list (option ptr)) :=
  match reassemble ps s with Ret l _ => Some l | _ => None end.
(** The packet that the last call returns: its length and its bytes. *)
Fixpoint chain_bytes (fuel : nat) (s : net) (p : option ptr) : list Z :=
  match fuel, p with
  | Datatypes.S fuel, Some q => match pbufs s !! q with Some b => data_of s q b ++ chain_bytes fuel s (LwipPbuf.next b) | None => [] end
  | _, _ => []
  end.
Definition reassembled (s : stack) (ps : list nat) : option (list Z) :=
  match reassemble ps s with Ret l s' => match list.last l with Some (Some p) => Some (chain_bytes 10 (s_net s') (Some p)) | _ => None end | _ => None end.
Definition four : net :=
  with_frag 6 7 1 true 8 1 (with_frag 7 7 3 false 8 3 (with_frag 8 7 2 true 8 2 (with_frag 9 7 0 true 8 0 fresh_net))).
Definition four_stack : stack := stack_zero four ∅.

(** In whatever order they come, the four fragments are put together. *)
Example four_in_order : reassembled four_stack [9; 6; 8; 7]%nat
  = Some (ip_header 0 52 7 0 64 IP_PROTO_UDP 0xf75e (IP4_ADDR 192 168 1 2) (IP4_ADDR 192 168 1 1) ++ repeat 0 8 ++ repeat 1 8 ++ repeat 2 8 ++ repeat 3 8).
Proof. by vm_compute. Qed.
Example four_backwards : reassembled four_stack [7; 8; 6; 9]%nat = reassembled four_stack [9; 6; 8; 7]%nat.
Proof. by vm_compute. Qed.
(** Three of them will do, if the last but one comes last: the header says 52 bytes, the
    packet has 44. *)
Example hole_goes_up : reassembled four_stack [9; 7; 8]%nat
  = Some (ip_header 0 52 7 0 64 IP_PROTO_UDP 0xf75e (IP4_ADDR 192 168 1 2) (IP4_ADDR 192 168 1 1) ++ repeat 0 8 ++ repeat 2 8 ++ repeat 3 8).
Proof. by vm_compute. Qed.

(** Nothing frees the packets of a datagram that is never completed: ten fragments, in two
    datagrams, take all of the pool, and no packet is received any more. *)
Definition ten : net :=
  with_frag 0 8 10 true 8 0 (with_frag 1 8 8 true 8 0 (with_frag 2 8 6 true 8 0 (with_frag 3 8 4 true 8 0 (with_frag 4 8 2 true 8 0
 (with_frag 5 7 10 true 8 0 (with_frag 6 7 8 true 8 0 (with_frag 7 7 6 true 8 0 (with_frag 8 7 4 true 8 0 (with_frag 9 7 2 true 8 0 fresh_net))))))))).
Example ten_fragments_stop_reception :
  match reassemble [9; 8; 7; 6; 5; 4; 3; 2; 1; 0]%nat (stack_zero ten ∅) with
  | Ret l s => (l, ip_reass_pbufcount (reass s), memp_tab (s_net s) MEMP_PBUF_POOL,
                match pbuf_alloc PBUF_RAW 60 PBUF_POOL (s_net s) with Ret r _ => r | _ => None end)
  | _ => ([], 0, [], None)
  end = (repeat None 10, 10, [], None).
Proof. by vm_compute. Qed.

(** The datagram that is removed is unlinked from the last but one: of three datagrams, the
    middle one stays in the list after its record is freed. *)
Definition three : net :=
  with_frag 6 7 1 true 8 0 (with_frag 7 9 0 true 8 0 (with_frag 8 8 0 true 8 0 (with_frag 9 7 0 true 8 0 fresh_net))).
Example removal_leaves_freed_record :
  match (_ ← reassemble [9; 8; 7]%nat; fraghdr ← payload_hdr (frag_ptr 6); ip_reass_remove_oldest_datagram quiet fraghdr 1) (stack_zero three ∅) with
  | Ret n s => (n, rd_next <$> reassdata (reass s) !! InPool MEMP_REASSDATA 2, reassdata (reass s) !! InPool MEMP_REASSDATA 3)
  | _ => (0, None, None)
  end = (1, Some (Some (InPool MEMP_REASSDATA 3)), None).
Proof. by vm_compute. Qed.

(** ** Witnesses *)

(** A packet that is in the list already. *)
Definition with_helper (x : frag) (i : nat) (nx : option ptr) (s : net) : net :=
  set_pool MEMP_PBUF_POOL i
    (buf_mem (repeat 0 14 ++ bytes4 (flat_addr nx) ++ [byte_of (f_start x) 0; byte_of (f_start x) 1; byte_of (f_end x) 0; byte_of (f_end x) 1] ++ repeat 0 40))
    (add_pool i (rev (seq 0 i)) (ping_pbuf 14 28) s).
Definition frag_x : frag := Frag (frag_ptr 9) 14 0 8.
Definition frag_z : frag := Frag (frag_ptr 8) 14 24 32.
Definition the_rd : ptr := InPool MEMP_REASSDATA 4.
Definition datagram (first : option ptr) : ip_reassdata := IpReassdata None first (repeat 0 20) 32 1 3.
(** The new packet is at [i]. *)
Definition frag_header (id off : Z) (mf : bool) (i : Z) : Z := buf_mem (frag_frame id off mf 8 0) (14 + i).
Definition frag_world (l : net) (first : option ptr) : stack :=
  set_reass (Reass (Some the_rd) {[ the_rd := datagram first ]} 3) (stack_zero l ∅).
Definition hole_net : net :=
  with_frag 7 7 2 true 8 0 (with_helper frag_z 8 None (with_helper frag_x 9 (Some (frag_ptr 8)) fresh_net)).
Definition order_net : net := with_frag 8 7 1 false 8 0 (with_helper frag_x 9 None fresh_net).

Lemma pool_keep_ok s l i m : net_ok s l -> net_ok (set_pool MEMP_PBUF_POOL i m s) l.
Proof. intros Hok. by destruct Hok. Qed.
Lemma add_frag_ok s l i n m : net_ok s l -> memp_tab s MEMP_PBUF_POOL = i :: rev (seq 0 i) -> (i < 10)%nat -> 0 <= n <= 1000 -> pbufs s !! frag_ptr i = None ->
  net_ok (set_pool MEMP_PBUF_POOL i m (add_pool i (rev (seq 0 i)) (ping_pbuf 14 n) s)) l.
Proof.
  intros Hok Ht Hi Hn Hnone. apply pool_keep_ok. eapply net_ok_pool_add; [done|done|exact Ht|done|split; cbn; lia|done].
Qed.
Lemma frag_octets off mf : 0 <= off < 2 ^ 13 -> hdr_octets (frag_header 7 off mf).
Proof.
  intros Ho i Hi. unfold frag_header. apply buf_mem_bytes. unfold frag_frame, byte_list. apply Forall_app_2; [by repeat apply Forall_cons_2|].
  unfold ip_header, word2, bytes4. cbn [app]. repeat (apply Forall_cons_2; [first [done | apply byte_of_bound]|]). by repeat apply Forall_cons_2.
Qed.
Lemma order_net_ok : net_ok order_net [(MEM_SIZE_ALIGNED, false)].
Proof. do 2 (apply add_frag_ok; [|done|lia|done|done]). apply fresh_net_ok. Qed.
Lemma hole_net_ok : net_ok hole_net [(MEM_SIZE_ALIGNED, false)].
Proof. do 3 (apply add_frag_ok; [|done|lia|done|done]). apply fresh_net_ok. Qed.
Lemma in_order_joins : joins (frag_world order_net (Some (frag_ptr 9))) [(MEM_SIZE_ALIGNED, false)] the_rd (datagram (Some (frag_ptr 9))) [frag_x]
  (frag_ptr 8) 14 (frag_header 7 1 false).
Proof.
  split; [apply order_net_ok|done|done| | |apply (bool_decide_unpack _); by vm_compute|by eexists|done|by apply frag_octets].
  - split; [|done]. split; [by eexists|by vm_compute..|done].
  - repeat (apply Forall_cons_2; [by apply Nat.ltb_lt|]). apply Forall_nil_2.
Qed.
Lemma hole_joins : joins (frag_world hole_net (Some (frag_ptr 9))) [(MEM_SIZE_ALIGNED, false)] the_rd (datagram (Some (frag_ptr 9))) [frag_x; frag_z]
  (frag_ptr 7) 14 (frag_header 7 2 true).
Proof.
  split; [apply hole_net_ok|done|done| | |apply (bool_decide_unpack _); by vm_compute|by eexists|done|by apply frag_octets].
  - split; [|split; [|done]]; (split; [by eexists|by vm_compute..|first [done | by apply Nat.ltb_lt]]).
  - repeat (apply Forall_cons_2; [by apply Nat.ltb_lt|]). apply Forall_nil_2.
Qed.

Lemma reass_chain_refines_witness (t := frag_world hole_net (Some (frag_ptr 9))) (w := t) (d := datagram (Some (frag_ptr 9)))
    (bl := [(MEM_SIZE_ALIGNED, false)]) (l := [frag_x; frag_z]) (p := frag_ptr 7) (new := frag_of p 14 (frag_header 7 2 true)) :
  let run := ip_reass_chain_frag_into_datagram_and_validate the_rd p (put_stack t w) in
  match place new None true l with
  | Some (l', valid) => exists k, only_helpers bl (new :: l) (s_net t) k /\ frag_list k l' None /\
      run = Ret (complete (last_seen d) new l' valid) (put_stack (set_net k (with_rd the_rd (with_rd_p (first_ptr l' None) d) t)) w)
  | None => exists k, only_helpers bl [new] (s_net t) k /\ frag_list k l None /\ run = discard p (put_stack (set_net k t) w)
  end.
Proof. apply (reass_chain_refines t w bl the_rd d l p 14 (frag_header 7 2 true) hole_joins). Defined.

Lemma reass_in_order_witness (t := frag_world order_net (Some (frag_ptr 9))) (w := t) (d := datagram (Some (frag_ptr 9)))
    (l := [frag_x]) (p := frag_ptr 8) (new := frag_of p 14 (frag_header 7 1 false)) :
  exists k, frag_list k (l ++ [new]) None /\
    ip_reass_chain_frag_into_datagram_and_validate the_rd p (put_stack t w) =
    Ret (last_seen d && starts_at_zero (l ++ [new]) && contiguous (l ++ [new]))
        (put_stack (set_net k (with_rd the_rd (with_rd_p (first_ptr (l ++ [new]) None) d) t)) w).
Proof.
  apply (reass_in_order t w [(MEM_SIZE_ALIGNED, false)] the_rd d l p 14 (frag_header 7 1 false) in_order_joins).
  apply Forall_cons_2; [by vm_compute|apply Forall_nil_2].
Defined.

Lemma reass_accepts_hole_witness (t := frag_world hole_net (Some (frag_ptr 9))) (w := t) (d := datagram (Some (frag_ptr 9)))
    (x := frag_x) (z := frag_z) (p := frag_ptr 7) (new := frag_of p 14 (frag_header 7 2 true)) :
  contiguous [x; new; z] = false /\
  exists k, frag_list k [x; new; z] None /\
    ip_reass_chain_frag_into_datagram_and_validate the_rd p (put_stack t w) =
    Ret true (put_stack (set_net k (with_rd the_rd (with_rd_p (Some (f_ptr x)) d) t)) w).
Proof.
  apply (reass_accepts_hole t w [(MEM_SIZE_ALIGNED, false)] the_rd d x z p 14 (frag_header 7 2 true) hole_joins); by vm_compute.
Defined.
