(* ===== verification/LwipFragTheorems.v ===== *)
(** Fragmentation: what ip_frag sends of a packet that is too long for the interface. *)
From stdpp Require Import gmap.
From S2P Require MemFacts.
From S2P Require Import Prelude Mmio LwipMem LwipMemSpec LwipPbuf LwipPbufSpec LwipPbufTheorems LwipPbufOwn LwipInet LwipInetTheorems LwipChksum.
From S2P Require Import LwipStack LwipStackSpec LwipHeader LwipNetif LwipIpOut LwipIpSpec LwipFrag LwipIpTheorems.

(** * Byte arrays of a header *)
Definition list_of (i : Z) (n : nat) (m : Z -> Z) : list Z := prefix n (fun j => m (i + j)).
Lemma write_prefix n m m' i : 0 <= i < Z.of_nat n -> MemFacts.write_bytes 0 (prefix n m) m' i = m i.
Proof.
  intros Hi. unfold MemFacts.write_bytes. rewrite (proj2 (Z.leb_le 0 i)), Z.sub_0_r by lia. unfold prefix. rewrite list_lookup_fmap, lookup_seq_lt by lia.
  cbn. f_equal. lia.
Qed.
Lemma write_one i v m x : MemFacts.write_bytes i [v] m x = set8 i v m x.
Proof.
  unfold MemFacts.write_bytes, set8. destruct (Z.eqb_spec x i) as [->|Hne].
  - by rewrite (proj2 (Z.leb_le _ _)), Z.sub_diag by lia.
  - destruct (Z.leb_spec i x); [|done]. rewrite lookup_ge_None_2; [done|]. cbn. lia.
Qed.
Section arrays.
Context {W : Type} `{StackLaws W}.
Variables (p : ptr) (o : Z) (s : net) (l : list block) (b : pbuf).
Hypothesis Hp : pbufs s !! p = Some b.

Lemma wp_hdr_bytes k m n t (w : W) : forall i (Q : list Z -> W -> Prop), view p o m s l k -> inside o b i (Z.of_nat n) ->
  Q (list_of i n m) (put_stack (set_net k t) w) -> wp (hdr_bytes (p, o) i n) Q (put_stack (set_net k t) w).
Proof.
  induction n as [|n IH]; intros i Q Hv [Hi1 Hi2] HQ; [by apply wp_ret|]. cbn [hdr_bytes].
  apply wp_bind, (wp_hdr8 p o s l b Hp k m); [done|split; lia|]. apply wp_bind, IH; [done|split; lia|]. apply wp_ret.
  unfold list_of in *. replace (Datatypes.S n) with (1 + n)%nat in HQ by lia. rewrite prefix_app in HQ. cbn in HQ. rewrite Z.add_0_r in HQ.
  erewrite prefix_ext; [exact HQ|]. intros j Hj. cbn. f_equal. lia.
Qed.
Lemma wp_set_hdr_bytes t (w : W) d : forall i k m (Q : unit -> W -> Prop), view p o m s l k -> inside o b i (MemFacts.len d) ->
  (forall k', view p o (MemFacts.write_bytes i d m) s l k' -> Q tt (put_stack (set_net k' t) w)) ->
  wp (set_hdr_bytes (p, o) i d) Q (put_stack (set_net k t) w).
Proof.
  induction d as [|v d IH]; intros i k m Q Hv [Hi1 Hi2] HQ; cbn [set_hdr_bytes].
  - apply wp_ret, HQ. eapply view_ext; [|exact Hv]. intros x. by rewrite MemFacts.write_bytes_nil.
  - unfold MemFacts.len in *. cbn [length] in *. apply wp_bind, (wp_set_hdr8 p o s l b Hp k m); [done|split; lia|]. intros k1 Hv1.
    apply (IH _ _ _ _ Hv1); [split; lia|]. intros k2 Hv2. apply HQ. eapply view_ext; [|exact Hv2]. intros x.
    change (v :: d) with ([v] ++ d). rewrite MemFacts.write_bytes_app. unfold MemFacts.len. cbn [length]. change (Z.of_nat 1) with 1.
    apply MemFacts.write_bytes_ext. symmetry. apply write_one.
Qed.
End arrays.

(** * What allocating and freeing leaves alone *)

(** A pbuf keeps its record and its memory. *)
Definition same_pbuf (q : ptr) (b : pbuf) (s s' : net) : Prop :=
  pbufs s' !! q = Some b /\ forall y, 0 <= y < room b -> bytes_at s' q y = bytes_at s q y.

Lemma bytes_kept s l q b (h : heap) y : net_ok s l -> pbufs s !! q = Some b -> 0 <= y < room b -> data_kept (net_heap s) h l ->
  match q with InHeap i => ram h (i + SIZEOF_STRUCT_PBUF + y) | InPool t i => net_pool s t i y end = bytes_at s q y.
Proof. intros Hok Hq Hy Hk. destruct q as [i|t i]; [|done]. apply Hk. by apply (home_data s l (InHeap i) b y Hok Hq). Qed.

Lemma allocated_same ty n p c s s' l l' q b : net_ok s l -> allocated ty n p c s s' l l' -> pbufs s !! q = Some b -> same_pbuf q b s s'.
Proof.
  intros Hok [Hc Hpk Hlen [Hnd Hnew Hrest Hpool _] Hok' Hkept _ _] Hq. split.
  - rewrite Hrest; [done|]. intros Hin. apply list_elem_of_fmap in Hin as ([x bx] & -> & Hx).
    rewrite list.Forall_forall in Hnew. destruct (Hnew _ Hx) as [Hn _]. cbn in *. congruence.
  - intros y Hy. rewrite <- (bytes_kept s l q b (net_heap s') y Hok Hq Hy Hkept). destruct q as [i|t i]; cbn [bytes_at]; [done|by rewrite Hpool].
Qed.
Lemma freed_bytes c s l s' q b y : freed c s l s' -> pbufs s' !! q = Some b -> 0 <= y < room b -> bytes_at s' q y = bytes_at s q y.
Proof.
  intros [Hp Hok' Hh Hsub Hpool _ _] Hq Hy. destruct q as [i|t i]; cbn [bytes_at]; [|by rewrite Hpool].
  apply Hh. by apply (home_data s' _ (InHeap i) b y Hok' Hq).
Qed.

(** A pbuf of a pool refers to another buffer. *)
Lemma net_ok_refer s l t i b b' : net_ok s l -> pbufs s !! InPool t i = Some b -> type b' = type b -> fits b' -> 1 <= ref b' < 65536 ->
  net_ok (set_pbufs (<[InPool t i := b']> (pbufs s)) s) l.
Proof.
  intros Hok Hp Ht Hf Hr1. split; cbn [net_heap pbufs memp_tab set_pbufs].
  - apply (nok_heap _ _ Hok).
  - intros t' j Hne. rewrite (nok_free _ _ Hok) by done. destruct (decide (InPool t' j = InPool t i)) as [->|Hq].
    + rewrite lookup_insert_eq, Hp. split; by intros [? ?].
    + by rewrite lookup_insert_ne.
  - apply (nok_nodup _ _ Hok).
  - intros q c [[<- <-]|[Hne Hc]]%lookup_insert_Some; [|by apply (nok_home _ _ Hok)].
    destruct (nok_home _ _ Hok _ _ Hp) as (Hh & _). split; [|done]. cbn [home] in *. by rewrite Ht.
Qed.

(** * Sending a piece *)
Definition ref_pbuf (n refs : Z) : pbuf := Pbuf None (Some 0) n n PBUF_REF 0 refs IP_FRAG_MAX_MTU.

(** What the output function [g] of the interface [q] promises for packets to [dest] of
    up to [lim] bytes, as long as the stack and the rest of the program are [able]: the
    bytes of the packet are sent, which [sent] relates; the first pbuf may be changed for
    the link header; the interfaces and the rest of the memory of packets stay, and so
    does the ability to send.  What else it changes of the stack is left open. *)
Class Sends {W} `{HasStack W} (call_output : output_fn -> netif_ptr -> option ptr -> Z -> M W Z) (g : output_fn) (q : netif_ptr) (dest lim : Z)
    (able : stack -> W -> Prop) (sent : list Z -> W -> W -> Prop) : Prop := {
  able_net : forall t w k, able t w -> able (set_net k t) w;
  sends : forall t w bl h bh c o, able t w -> outgoing (s_net t) bl h bh c o -> type bh = PBUF_RAM -> PBUF_LINK_HLEN <= o ->
    MemFacts.byte_list (contents (s_net t) ((h, bh) :: c)) -> tot_len bh <= lim ->
    exists err k t' w' bh',
      call_output g q (Some h) dest (put_stack t w) = Ret err (put_stack (set_net k t') w') /\
      sent (contents (s_net t) ((h, bh) :: c)) w w' /\ able t' w' /\ netifs t' = netifs t /\
      net_ok k bl /\ pbufs k = <[h := bh']> (pbufs (s_net t)) /\ LwipPbuf.next bh' = LwipPbuf.next bh /\ ref bh' = ref bh /\
      forall x b, x <> h -> pbufs (s_net t) !! x = Some b -> same_pbuf x b (s_net t) k
}.
(** Packets that are sent one after the other. *)
Inductive all_sent {W} (sent : list Z -> W -> W -> Prop) : list (list Z) -> W -> W -> Prop :=
  | none_sent w : all_sent sent [] w w
  | one_sent d l w w' w'' : sent d w w' -> all_sent sent l w' w'' -> all_sent sent (d :: l) w w''.

Section pieces.
Context {W : Type} `{StackLaws W}.
Variable call_output : output_fn -> netif_ptr -> option ptr -> Z -> M W Z.
Variables (g : output_fn) (q : netif_ptr) (dest lim : Z) (able : stack -> W -> Prop) (sent : list Z -> W -> W -> Prop).
Context `{!Sends call_output g q dest lim able sent}.
Implicit Types (t : stack) (w : W).

(** The reference to the buffer is an element of the pool. *)
Variables (s : net) (ri : nat) (bl : list block).
Notation r := (InPool MEMP_PBUF ri).
Hypothesis Hfresh : pbufs s !! r = None.

Lemma wp_free_ref k n t w (Q : Z -> W -> Prop) : net_ok k bl -> pbufs k = <[r := ref_pbuf n 1]> (pbufs s) ->
  (forall z k', net_ok k' bl -> pbufs k' = pbufs s -> (forall x b, pbufs s !! x = Some b -> same_pbuf x b k k') -> Q z (put_stack (set_net k' t) w)) ->
  wp (on_net (pbuf_free (Some r))) Q (put_stack (set_net k t) w).
Proof.
  intros Hok Hk HQ. apply wp_on_net, (wp_pbuf_free _ [(r, ref_pbuf n 1)] k bl); [done| |apply (bool_decide_unpack _); done|].
  - cbn [s_net set_net chain]. rewrite Hk. split; [done|]. split; [apply lookup_insert_eq|done].
  - intros k' Hf. assert (Hk' : pbufs k' = pbufs s).
    { rewrite (freed_pbufs _ _ _ _ Hf). cbn [free_chain ref ref_pbuf]. change (1 =? 1) with true. cbv iota. rewrite Hk. by apply delete_insert_id. }
    apply (HQ _ k' (freed_ok _ _ _ _ Hf) Hk'). intros x b Hx. rewrite <- Hk' in Hx. split; [done|]. intros y Hy. by apply (freed_bytes _ _ _ _ _ b y Hf).
Qed.

(** The header pbuf in front of the buffer, which is referenced a second time. *)
Lemma wp_chain_header k bl1 h b n (Q : unit -> net -> Prop) : net_ok k bl1 -> pbufs k !! h = Some b -> next b = None -> tot_len b = 0 -> len b = 0 -> h <> r ->
  pbufs k !! r = Some (ref_pbuf n 1) -> 0 <= n < 65536 ->
  (forall k' bh, net_ok k' bl1 -> (forall x, x <> h -> x <> r -> pbufs k' !! x = pbufs k !! x) -> pbufs k' !! h = Some bh -> next bh = Some r -> ref bh = ref b ->
     type bh = type b -> payload bh = payload b -> len bh = 0 -> tot_len bh = n -> room bh = room b -> pbufs k' !! r = Some (ref_pbuf n 2) ->
     (forall x y, bytes_at k' x y = bytes_at k x y) -> Q tt k') ->
  wp (pbuf_chain (Some h) (Some r)) Q k.
Proof.
  intros Hok Hh Hnx Htl Hln Hne Hr Hn HQ. apply wp_bind, (wp_pbuf_cat k bl1 h r [(h, b)] [(r, ref_pbuf n 1)]); [done|by split|by repeat split| |cbn; lia|cbn; lia|cbn; lia|].
  - apply (NoDup_cons_2 h [r]); [|apply NoDup_singleton]. by intros ?%list_elem_of_singleton.
  - intros k1 c Hc _ _ Hok1 Hother Hb1. subst c. cbn [retotal app data_len ref_pbuf len Z.add] in Hc. destruct Hc as (_ & Hh1 & (_ & Hr1 & _)).
    cbn [pbuf_ref]. apply wp_bind, (wp_get_pbuf _ (ref_pbuf n 1)); [done|]. apply wp_put_pbuf.
    set (k2 := set_pbufs _ k1). set (bh := with_next (Some r) (with_tot_len (tot_len b + (n + 0)) b)) in *.
    assert (Hok2 : net_ok k2 bl1).
    { apply (net_ok_update _ _ _ (ref_pbuf n 1)); try done. by destruct (nok_home _ _ Hok1 _ _ Hr1) as (_ & Hf & _). }
    assert (Ho2 : forall x, x <> h -> x <> r -> pbufs k2 !! x = pbufs k !! x).
    { intros x Hq Hqr. cbn [k2 pbufs set_pbufs]. rewrite lookup_insert_ne by done. apply Hother. by intros ?%list_elem_of_singleton. }
    assert (Hh2 : pbufs k2 !! h = Some bh) by (cbn [k2 pbufs set_pbufs]; by rewrite lookup_insert_ne).
    apply (HQ k2 bh Hok2 Ho2 Hh2); try done; [cbn; lia|apply lookup_insert_eq].
Qed.

Lemma same_pbuf_trans x b s1 s2 s3 : same_pbuf x b s1 s2 -> same_pbuf x b s2 s3 -> same_pbuf x b s1 s3.
Proof. intros [_ H1'] [H2' H3']. split; [done|]. intros y Hy. by rewrite H3', H1'. Qed.

Lemma wp_output_piece k bl1 h bh n t w f o (Q : Z -> W -> Prop) : able t w -> netifs t !! q = Some f -> nif_output f = Some g ->
  net_ok k bl1 -> pbufs k !! h = Some bh -> next bh = Some r -> type bh = PBUF_RAM -> len bh = 0 -> tot_len bh = n -> payload bh = Some o ->
  PBUF_LINK_HLEN <= o -> o <= room bh -> h <> r -> pbufs k !! r = Some (ref_pbuf n 2) -> 0 <= n <= IP_FRAG_MAX_MTU -> n <= lim ->
  MemFacts.byte_list (prefix (Z.to_nat n) (bytes_at k r)) ->
  (forall z k' bh' t' w', sent (prefix (Z.to_nat n) (bytes_at k r)) w w' -> able t' w' -> netifs t' = netifs t ->
     net_ok k' bl1 -> pbufs k' = <[h := bh']> (pbufs k) -> next bh' = Some r -> ref bh' = ref bh ->
     (forall x b, x <> h -> pbufs k !! x = Some b -> same_pbuf x b k k') ->
     Q z (put_stack (set_net k' t') w')) ->
  wp (output call_output q (Some h) dest) Q (put_stack (set_net k t) w).
Proof.
  intros Hable Hf Hg Hok Hh Hnx Hty Hlen Htot Hpay Ho Hroom Hne Hr Hn Hlim Hoct HQ. apply wp_bind, (wp_get_netif _ f); [done|]. rewrite Hg.
  assert (Hcon : contents k [(h, bh); (r, ref_pbuf n 2)] = prefix (Z.to_nat n) (bytes_at k r)).
  { cbn [contents]. unfold data_of at 1. rewrite Hpay, Hlen. cbn [Z.to_nat seq fmap list_fmap app].
    rewrite app_nil_r, (data_prefix _ _ _ 0) by done. cbn [len ref_pbuf]. by apply prefix_ext. }
  destruct (sends (set_net k t) w bl1 h bh [(r, ref_pbuf n 2)] o) as (err & k' & t' & w' & bh' & Hrun & Hsent & Hable' & Hnif & Hok' & Hk' & Hnx' & Hrf' & Hsame); try done.
  - by apply able_net.
  - split; try done.
    + apply (NoDup_cons_2 h [r]); [|apply NoDup_singleton]. by intros ?%list_elem_of_singleton.
    + cbn. rewrite Htot, Hlen. split; [lia|]. split; [lia|]. split; [lia|]. split; [|done]. unfold IP_FRAG_MAX_MTU in *. lia.
    + apply Forall_cons_2; [|apply Forall_cons_2; [|apply Forall_nil_2]]; cbn [snd]; (split; [|by eexists]); split; cbn [len ref_pbuf payload room]; rewrite ?Hpay, ?Hlen; unfold IP_FRAG_MAX_MTU, PBUF_LINK_HLEN in *; lia.
    + by left.
  - cbn [s_net set_net]. by rewrite Hcon.
  - by rewrite Htot.
  - cbn [s_net set_net] in *. rewrite Hcon in Hsent. apply wp_unfold. exists err, (put_stack (set_net k' t') w'). split; [exact Hrun|].
    apply (HQ err k' bh'); try done. by rewrite Hnx'.
Qed.

(** A piece goes out; or there is no memory for its link header, and it ends. *)
Lemma wp_ip_frag_send {A} k n t w f (a : A) (Q : A + Z -> W -> Prop) : able t w -> netifs t !! q = Some f -> nif_output f = Some g ->
  net_ok k bl -> pbufs k = <[r := ref_pbuf n 1]> (pbufs s) -> 0 <= n <= IP_FRAG_MAX_MTU -> n <= lim -> MemFacts.byte_list (prefix (Z.to_nat n) (bytes_at k r)) ->
  (if has_memory s bl PBUF_LINK 0 PBUF_RAM then
     forall k' t' w', sent (prefix (Z.to_nat n) (bytes_at k r)) w w' -> able t' w' -> netifs t' = netifs t ->
       net_ok k' bl -> pbufs k' = <[r := ref_pbuf n 1]> (pbufs s) -> (forall x b, pbufs k !! x = Some b -> same_pbuf x b k k') ->
       Q (inl a) (put_stack (set_net k' t') w')
   else forall k', net_ok k' bl -> pbufs k' = pbufs s -> (forall x b, pbufs s !! x = Some b -> same_pbuf x b k k') -> Q (inr ERR_MEM) (put_stack (set_net k' t) w)) ->
  wp (ip_frag_send call_output r q dest a) Q (put_stack (set_net k t) w).
Proof.
  intros Hable Hf Hg Hok Hk Hn Hlim Hoct HQ. unfold IP_FRAG_MAX_MTU in Hn. assert (Hkr : pbufs k !! r = Some (ref_pbuf n 1)) by (rewrite Hk; apply lookup_insert_eq).
  cbn [has_memory] in HQ.
  apply wp_bind, wp_on_net, (wp_alloc_ram k bl); [done|lia| |].
  2: { intros E. rewrite E in HQ. rewrite bool_decide_eq_false_2 in HQ by by intros [? ?].
       apply wp_bind. change (s_net (set_net k t)) with k. replace (set_net k (set_net k t)) with (set_net k t) by done.
       apply (wp_free_ref k n t w _ Hok Hk). intros z k' Hok' Hk' Hsame. apply wp_ret. by apply (HQ k'). }
  intros a0 lt i b k1 bl1 Halloc Hpay Hal. rewrite Halloc, bool_decide_eq_true_2 in HQ by by eexists.
  set (h := InHeap i) in *. pose proof Hal as [Hc1 Hp1 Hl1 Hadd Hok1 _ Hrel _].
  destruct Hc1 as (_ & Hh1 & Hnx1). cbn [chain] in Hnx1. destruct Hadd as [_ [(Hnone & Hrf & Hty) _]%Forall_cons_1 Hrest _ _]. cbn [fst snd] in *.
  cbn [packet data_len] in Hp1, Hl1. assert (Hne : h <> r) by (intros E; rewrite E in Hnone; congruence).
  assert (Hsame1 : forall x bx, pbufs k !! x = Some bx -> same_pbuf x bx k k1) by (intros; by apply (allocated_same PBUF_RAM 0 h [(h, b)] k k1 bl bl1)).
  apply wp_bind, wp_on_net. apply (wp_chain_header k1 bl1 h b n); try done; [lia|lia|by apply (Hsame1 r)|lia|].
  intros k2 bh Hok2 Ho2 Hh2 Hnx2 Hrf2 Hty2 Hpay2 Hlen2 Htot2 Hroom2 Hr2 Hb2.
  cbn [s_net set_net]. change (set_net k2 (set_net k1 t)) with (set_net k2 t). change (set_net k2 (set_net k1 (set_net k t))) with (set_net k2 t).
  destruct (nok_home _ _ Hok1 _ _ Hh1) as (_ & [_ Hfit] & _). rewrite Hpay in Hfit.
  set (o := aligned_payload (layer_offset PBUF_LINK)) in *.
  assert (Hbh : type bh = PBUF_RAM /\ payload bh = Some o /\ o <= room bh) by (rewrite Hroom2, Hty2, Hpay2; split; [done|split; [done|lia]]).
  destruct Hbh as (Hty' & Hpay' & Hroom').
  assert (Hpre : prefix (Z.to_nat n) (bytes_at k2 r) = prefix (Z.to_nat n) (bytes_at k r)).
  { apply prefix_ext. intros y Hy. rewrite Hb2. destruct (Hsame1 r _ Hkr) as [_ Hb1]. apply Hb1. cbn. unfold IP_FRAG_MAX_MTU. lia. }
  apply wp_bind, (wp_output_piece k2 bl1 h bh n t w f o); try done; [by rewrite Hpre|].
  rewrite Hpre. intros z k3 bh3 t3 w3 Hsent3 Hable3 Hnif3 Hok3 Hk3 Hnx3 Hrf3 Hsame3. assert (Hr3 : pbufs k3 !! r = Some (ref_pbuf n 2)) by (rewrite Hk3, lookup_insert_ne; done).
  apply wp_bind, wp_on_net, (wp_pbuf_free _ [(h, bh3); (r, ref_pbuf n 2)] k3 bl1); [done| | |].
  { cbn [chain s_net set_net]. rewrite Hk3, lookup_insert_eq, Hnx3. rewrite Hk3 in Hr3. by repeat split. }
  { apply (NoDup_cons_2 h [r]); [|apply NoDup_singleton]. by intros ?%list_elem_of_singleton. }
  intros k4 Hfr. apply wp_ret. cbn [s_net set_net]. change (set_net k4 (set_net k3 t3)) with (set_net k4 t3).
  assert (Hk4 : pbufs k4 = <[r := ref_pbuf n 1]> (pbufs s)).
  { rewrite (freed_pbufs _ _ _ _ Hfr). cbn [free_chain]. rewrite Hrf3, Hrf2, Hrf. cbn [ref ref_pbuf]. change (1 =? 1) with true. change (2 =? 1) with false. cbv iota.
    apply map_eq. intros x. destruct (decide (x = r)) as [->|Hxr]; [by rewrite !lookup_insert_eq|]. rewrite !(lookup_insert_ne _ r) by done.
    destruct (decide (x = h)) as [->|Hxh].
    - rewrite lookup_delete_eq. rewrite Hk, lookup_insert_ne in Hnone by done. done.
    - rewrite lookup_delete_ne, Hk3, lookup_insert_ne, Ho2, Hrest, Hk, lookup_insert_ne; try done. by intros ?%list_elem_of_singleton. }
  assert (Hall : forall x b0, pbufs k !! x = Some b0 -> same_pbuf x b0 k k4).
  { intros x b0 Hx. assert (Hxh : x <> h) by (intros ->; congruence). destruct (Hsame1 x b0 Hx) as [Hx1 Hb1].
    assert (Hbytes : forall y, 0 <= y < room b0 -> bytes_at k3 x y = bytes_at k x y).
    { intros y Hy. rewrite <- Hb1, <- Hb2 by done. destruct (decide (x = r)) as [->|Hxr].
      - assert (b0 = ref_pbuf n 1) as -> by congruence. destruct (Hsame3 r (ref_pbuf n 2) ltac:(done) Hr2) as [_ Hb3]. by apply Hb3.
      - destruct (Hsame3 x b0 Hxh) as [_ Hb3]; [by rewrite Ho2|]. by apply Hb3. }
    assert (Hx4 : pbufs k4 !! x = Some b0) by by rewrite Hk4, <- Hk. split; [done|]. intros y Hy. rewrite <- Hbytes by done. by apply (freed_bytes _ _ _ _ _ b0 y Hfr). }
  assert (Hok4 : net_ok k4 bl).
  { pose proof (freed_ok _ _ _ _ Hfr) as Hok4. cbn [dead] in Hok4. rewrite Hrf3, Hrf2, Hrf in Hok4. rewrite <- Hrel. exact Hok4. }
  by apply (HQ k4 t3 w3).
Qed.
End pieces.

(** * The fragments of a packet *)

(** The header of a fragment of [n] bytes, header included, from the header [m] of the
    packet; [tmp] is the offset with the flag. *)
Definition frag_fields (m : Z -> Z) (tmp n : Z) : Z -> Z :=
  set16 ip_chksum 0 (set16 ip_len (htons n) (set16 ip_offset (htons tmp) m)).
Definition fragment_header (m : Z -> Z) (tmp n : Z) : Z -> Z :=
  set16 ip_chksum (inet_chksum (prefix 20 (frag_fields m tmp n))) (frag_fields m tmp n).
Definition fragment (m : Z -> Z) (tmp : Z) (d : list Z) : list Z :=
  prefix 20 (fragment_header m tmp (MemFacts.len d + IP_HLEN)) ++ d.
(** The fragments of [d], which starts at offset [ofo]: each but the last carries [8 * nfb]
    bytes and says that more follow. *)
Fixpoint fragments (fuel : nat) (m : Z -> Z) (nfb ofo omf : Z) (room : Z) (d : list Z) : list (list Z) :=
  match fuel, d with
  | O, _ | _, [] => []
  | Datatypes.S fuel, _ =>
      let tmp := Z.lor omf (Z.land IP_OFFMASK ofo) in
      if MemFacts.len d <=? room then [fragment m tmp d]
      else fragment m (Z.lor tmp IP_MF) (firstn (Z.to_nat (8 * nfb)) d)
           :: fragments fuel m nfb (u16 (ofo + nfb)) omf room (skipn (Z.to_nat (8 * nfb)) d)
  end.

(** Two headers that differ in the fields that are set only. *)
Definition hdr_like (m m' : Z -> Z) : Prop :=
  forall i, 0 <= i < 20 -> i <> 2 -> i <> 3 -> i <> 6 -> i <> 7 -> i <> 10 -> i <> 11 -> m' i = m i.
Lemma hdr_like_fields m m' tmp n i : hdr_like m m' -> 0 <= i < 20 -> frag_fields m' tmp n i = frag_fields m tmp n i.
Proof.
  intros Hl Hi. unfold frag_fields, set16, ip_chksum, ip_len, ip_offset.
  repeat match goal with |- context [i =? ?y] => destruct (Z.eqb_spec i y); try done end. apply Hl; lia.
Qed.
Lemma hdr_like_prefix m m' tmp n : hdr_like m m' -> prefix 20 (fragment_header m' tmp n) = prefix 20 (fragment_header m tmp n).
Proof.
  intros Hl. assert (Hf : prefix 20 (frag_fields m' tmp n) = prefix 20 (frag_fields m tmp n)) by (apply prefix_ext; intros i Hi; by apply hdr_like_fields).
  unfold fragment_header. rewrite Hf. apply prefix_ext. intros i Hi. unfold set16. by rewrite (hdr_like_fields m m').
Qed.
Lemma fields_hdr_like m tmp n ck : hdr_like m (set16 ip_chksum ck (frag_fields m tmp n)).
Proof. intros i Hi H2 H3 H6 H7 H10 H11. unfold frag_fields, set16, ip_chksum, ip_len, ip_offset. by rewrite !(proj2 (Z.eqb_neq i _)) by lia. Qed.
Lemma hdr_like_trans m1 m2 m3 : hdr_like m1 m2 -> hdr_like m2 m3 -> hdr_like m1 m3.
Proof. intros Ha Hb i Hi H2 H3 H6 H7 H10 H11. rewrite Hb, Ha; done. Qed.
Lemma write_hdr_like m d : hdr_like m (MemFacts.write_bytes 20 d m).
Proof. intros i Hi _ _ _ _ _ _. unfold MemFacts.write_bytes. by rewrite (proj2 (Z.leb_gt _ _)) by lia. Qed.

Lemma prefix_list d m : prefix (length d) (fun i => MemFacts.write_bytes 20 d m (20 + i)) = d.
Proof.
  apply list_eq. intros i. unfold prefix. rewrite list_lookup_fmap. destruct (decide (i < length d)%nat) as [Hi|Hi].
  - rewrite lookup_seq_lt by done. cbn [fmap option_fmap option_map Nat.add]. rewrite MemFacts.write_bytes_in by (unfold MemFacts.len; lia).
    rewrite <- MemFacts.lookup_buf_mem by (unfold MemFacts.len; lia). by rewrite Nat2Z.id.
  - rewrite lookup_seq_ge, lookup_ge_None_2 by lia. done.
Qed.
(** The whole fragment, as it is in the buffer. *)
Lemma fragment_bytes m d tmp : let n := MemFacts.len d + IP_HLEN in
  prefix (Z.to_nat n) (fragment_header (MemFacts.write_bytes IP_HLEN d m) tmp n) = fragment m tmp d.
Proof.
  intros n. unfold fragment. fold n. unfold IP_HLEN in *. assert (Z.to_nat n = 20 + length d)%nat as -> by (unfold n, MemFacts.len; lia).
  rewrite prefix_app. rewrite (hdr_like_prefix m) by apply write_hdr_like. f_equal. rewrite <- (prefix_list d m) at 2. apply prefix_ext. intros i Hi.
  unfold fragment_header, frag_fields, set16, ip_chksum, ip_len, ip_offset. rewrite !(proj2 (Z.eqb_neq (Z.of_nat 20 + i) _)) by lia. done.
Qed.

Lemma hdr_like_fragment m m' tmp d : hdr_like m m' -> fragment m' tmp d = fragment m tmp d.
Proof. intros Hl. unfold fragment. by rewrite (hdr_like_prefix m). Qed.

(** It is a list of octets. *)
Lemma set16_octets a v m : hdr_octets m -> hdr_octets (set16 a v m).
Proof. intros Hm i Hi. unfold set16. destruct (i =? a); [apply MemFacts.byte_of_range|]. destruct (i =? a + 1); [apply MemFacts.byte_of_range|by apply Hm]. Qed.
Lemma fragment_octets m tmp d : hdr_octets m -> MemFacts.byte_list d -> MemFacts.byte_list (fragment m tmp d).
Proof.
  intros Hm Hd. apply list.Forall_app_2; [|done]. apply list.Forall_forall. intros x (i & -> & Hi)%list_elem_of_fmap.
  apply elem_of_seq in Hi. unfold fragment_header, frag_fields. repeat apply set16_octets; [done|lia].
Qed.

(** ** A turn of the loop *)
Section turns.
Context {W : Type} `{StackLaws W}.
Variable call_output : output_fn -> netif_ptr -> option ptr -> Z -> M W Z.
Variables (g : output_fn) (q : netif_ptr) (dest lim : Z) (able : stack -> W -> Prop) (sent : list Z -> W -> W -> Prop).
Context `{!Sends call_output g q dest lim able sent}.
Implicit Types (t : stack) (w : W).
Variables (s : net) (bl : list block) (ri : nat) (p : ptr) (c : list (ptr * pbuf)) (f : netif) (m : Z -> Z).
Notation r := (InPool MEMP_PBUF ri).
Hypothesis Hfresh : pbufs s !! r = None.
Hypothesis Hc : chain (pbufs s) (Some p) c.
Hypothesis Hnd : NoDup c.*1.
Hypothesis Hrd : readable c.
Hypothesis Hsize : data_len c < 65536.
Hypothesis Hg : nif_output f = Some g.
Hypothesis Hoct : hdr_octets m.
Hypothesis Hbytes : MemFacts.byte_list (contents s c).
Hypothesis Hlim : mtu f <= lim.
(** Whole frames, so that the fragments but the last fill the buffer. *)
Hypothesis Hmtu : 28 <= mtu f <= IP_FRAG_MAX_MTU.
Hypothesis Height : (mtu f - IP_HLEN) mod 8 = 0.
Definition nfb : Z := (mtu f - IP_HLEN) / 8.

(** The packet is as it was, and so is everything else but the buffer. *)
Definition as_before (k : net) : Prop := forall x b, pbufs s !! x = Some b -> same_pbuf x b s k.
Record turning (k : net) (n : Z) : Prop := {
  turn_ok : net_ok k bl;
  turn_pbufs : pbufs k = <[r := ref_pbuf n 1]> (pbufs s);
  turn_same : as_before k;
  turn_hdr : hdr_like m (bytes_at k r)
}.
Record done_with (k : net) : Prop := {
  dw_ok : net_ok k bl;
  dw_pbufs : pbufs k = pbufs s;
  dw_same : as_before k
}.

Lemma as_before_contents k : as_before k -> chain (pbufs k) (Some p) c /\ contents k c = contents s c.
Proof.
  clear Hmtu Height Hsize Hg Hlim Hbytes. intros Hk. split.
  - eapply chain_frame; [|exact Hc]. intros x Hx. apply list_elem_of_fmap in Hx as ([y b] & -> & Hy). cbn [fst].
    pose proof (chain_in _ _ _ _ _ Hc Hy) as Hb. rewrite Hb. by apply Hk.
  - assert (Hin : forall y b, (y, b) ∈ c -> pbufs s !! y = Some b) by (intros; by eapply chain_in).
    clear Hc Hnd. revert Hrd Hin. induction c as [|[y b] c' IH]; intros Hr Hin; [done|]. cbn [contents]. apply Forall_cons_1 in Hr as [[[Hl Hf] [o Ho]] Hr].
    cbn [snd] in *. f_equal; [|apply IH; [done|intros; apply Hin; by right]]. rewrite !(data_prefix _ _ _ o) by done. rewrite Ho in Hf.
    apply prefix_ext. intros i Hi. destruct (Hk y b) as [_ Hb]; [apply Hin; by left|]. apply Hb. lia.
Qed.

Lemma wp_copy_all k n off out (Q : Z * list Z -> net -> Prop) : as_before k -> 0 <= n -> 0 <= off -> off + n <= Z.of_nat (length (contents s c)) -> length out = Z.to_nat n ->
  Q (n, firstn (Z.to_nat n) (skipn (Z.to_nat off) (contents s c))) k -> wp (pbuf_copy_partial (Some p) (Some out) n off) Q k.
Proof.
  clear Hmtu Height Hlim. intros Hk Hn Ho Hlen Hout HQ. destruct (as_before_contents k Hk) as [Hck Hcon]. pose proof (contents_length s c Hrd) as Hcl.
  cbn [pbuf_copy_partial]. apply wp_bind, wp_gets. apply (wp_loop_nat (Datatypes.S (length c))); [pose proof (chain_size _ _ _ Hck Hnd); lia|].
  apply wp_copy_partial_loop; [done|done|done|lia|lia|lia|lia|lia|]. rewrite Hcon. cbv zeta. set (d := firstn _ _) in *.
  assert (Hd : length d = Z.to_nat n) by (unfold d; rewrite length_firstn, length_skipn; lia).
  unfold splice. rewrite Hd. cbn [Z.to_nat firstn app Nat.add]. rewrite skipn_all2, app_nil_r by lia. replace (0 + Z.of_nat (Z.to_nat n)) with n by lia. exact HQ.
Qed.

(** The last piece is cut to its length. *)
Lemma wp_trim_ref k n (Q : unit -> net -> Prop) : net_ok k bl -> pbufs k = <[r := ref_pbuf (mtu f) 1]> (pbufs s) -> 0 <= n <= mtu f ->
  (forall k', net_ok k' bl -> pbufs k' = <[r := ref_pbuf n 1]> (pbufs s) -> (forall x y, bytes_at k' x y = bytes_at k x y) -> Q tt k') ->
  wp (pbuf_realloc r n) Q k.
Proof.
  unfold IP_FRAG_MAX_MTU in Hmtu. intros Hok Hk Hn HQ.
  assert (Hr : pbufs k !! r = Some (ref_pbuf (mtu f) 1)) by (rewrite Hk; apply lookup_insert_eq).
  apply wp_bind, (wp_get_pbuf _ (ref_pbuf (mtu f) 1)); [done|]. cbn [tot_len ref_pbuf].
  destruct (Z.leb_spec (mtu f) n) as [Hle|Hlt]; [apply wp_ret; assert (n = mtu f) as -> by lia; by apply (HQ k)|].
  apply wp_bind, wp_gets, wp_bind, (wp_loop_nat 1); [lia|]. apply wp_iter_S. unfold realloc_walk_body.
  apply wp_bind, (wp_get_pbuf _ (ref_pbuf (mtu f) 1)); [done|]. cbn [len ref_pbuf]. rewrite (proj2 (Z.ltb_ge _ _)) by lia. apply wp_ret. cbn [ends].
  apply wp_bind, (wp_get_pbuf _ (ref_pbuf (mtu f) 1)); [done|]. cbn [type ref_pbuf andb bool_decide decide_rel pbuf_type_eq_dec]. apply wp_bind, wp_ret.
  apply wp_bind, wp_bind, (wp_get_pbuf _ (ref_pbuf (mtu f) 1)); [done|]. apply wp_put_pbuf.
  set (k1 := set_pbufs _ k). change (with_tot_len n (with_len n (ref_pbuf (mtu f) 1))) with (ref_pbuf n 1) in k1.
  cbn [next ref_pbuf]. apply wp_bind, wp_ret.
  apply wp_bind, (wp_get_pbuf _ (ref_pbuf n 1)); [apply lookup_insert_eq|]. apply wp_put_pbuf.
  change (with_next None (ref_pbuf n 1)) with (ref_pbuf n 1).
  assert (Hfits : fits (ref_pbuf n 1)) by (split; cbn; unfold IP_FRAG_MAX_MTU; lia).
  apply HQ.
  - apply (net_ok_refer _ bl MEMP_PBUF ri (ref_pbuf n 1)); [|apply lookup_insert_eq|done..].
    by apply (net_ok_refer k bl MEMP_PBUF ri (ref_pbuf (mtu f) 1)).
  - cbn. by rewrite Hk, !insert_insert_eq.
  - intros x y. by destruct x.
Qed.

Lemma wp_ip_frag_fill k n tmp cop poff t w (Q : Z -> W -> Prop) (d := firstn (Z.to_nat cop) (skipn (Z.to_nat poff) (contents s c))) :
  turning k n -> 0 <= cop <= mtu f - IP_HLEN -> 0 <= poff -> poff + cop <= Z.of_nat (length (contents s c)) ->
  (forall k', net_ok k' bl -> pbufs k' = pbufs k -> as_before k' -> hdr_like m (bytes_at k' r) ->
     prefix (Z.to_nat (cop + IP_HLEN)) (bytes_at k' r) = fragment m tmp d -> Q cop (put_stack (set_net k' t) w)) ->
  wp (ip_frag_fill p (r, 0) tmp cop poff) Q (put_stack (set_net k t) w).
Proof.
  intros [Hok Hk Hsame Hhdr] Hcop Hpoff Hlen HQ. unfold ip_frag_fill, IP_HLEN, IP_FRAG_MAX_MTU in *. set (rb := ref_pbuf n 1).
  assert (Hr : pbufs k !! r = Some rb) by (rewrite Hk; apply lookup_insert_eq).
  assert (Hin : forall i j, 0 <= i -> 0 <= j -> i + j <= 1500 -> inside 0 rb i j) by (intros; split; cbn; unfold IP_FRAG_MAX_MTU; lia).
  assert (Hd : MemFacts.len d = cop) by (unfold MemFacts.len, d; rewrite length_firstn, length_skipn; lia).
  set (m0 := bytes_at k r) in *. assert (Hv0 : view r 0 m0 k bl k) by by apply view_refl.
  apply wp_bind, (wp_hdr_bytes r 0 k bl rb Hr k m0); [done|apply Hin; lia|].
  apply wp_bind, wp_on_net, (wp_copy_all k cop poff); [done|lia|lia|done|unfold list_of; by rewrite prefix_length|]. fold d.
  cbn [s_net set_net]. change (set_net k (set_net k t)) with (set_net k t).
  apply wp_bind, (wp_set_hdr_bytes r 0 k bl rb Hr _ _ d 20 k m0); [done|apply Hin; lia|]. intros k1 Hv1.
  apply wp_bind, (wp_set_hdr16 r 0 k bl rb Hr _ _ _ _ _ _ _ Hv1); [apply Hin; unfold ip_offset; lia|]. intros k2 Hv2.
  apply wp_bind, (wp_set_hdr16 r 0 k bl rb Hr _ _ _ _ _ _ _ Hv2); [apply Hin; unfold ip_len; lia|]. intros k3 Hv3.
  apply wp_bind, (wp_set_hdr16 r 0 k bl rb Hr _ _ _ _ _ _ _ Hv3); [apply Hin; unfold ip_chksum; lia|]. intros k4 Hv4.
  apply wp_bind, (wp_hdr_bytes r 0 k bl rb Hr _ _ _ _ _ 0 _ Hv4); [apply Hin; lia|].
  apply wp_bind, (wp_set_hdr16 r 0 k bl rb Hr _ _ _ _ _ _ _ Hv4); [apply Hin; unfold ip_chksum; lia|]. intros k5 Hv5. apply wp_ret.
  rewrite (u16_small (cop + 20)) in Hv5 by lia. set (mw := MemFacts.write_bytes 20 d m0) in *.
  assert (Hm5 : forall i, bytes_at k5 r i = fragment_header mw tmp (cop + 20) i) by (intros i; apply (view_bytes _ _ _ _ _ _ Hv5)).
  apply (HQ k5); [apply (view_ok _ _ _ _ _ _ Hv5)|apply (view_pbufs _ _ _ _ _ _ Hv5)| | |].
  - intros x b Hx. destruct (Hsame x b Hx) as [Hx1 Hb]. split; [by rewrite (view_pbufs _ _ _ _ _ _ Hv5)|]. intros y Hy. rewrite <- Hb by done.
    apply (view_others _ _ _ _ _ _ Hv5 x b); [done|by intros ->; congruence|done].
  - apply (hdr_like_trans _ m0); [done|]. apply (hdr_like_trans _ mw); [apply write_hdr_like|]. intros i Hi H2 H3 H6 H7 H10 H11. rewrite Hm5. by apply fields_hdr_like.
  - rewrite (prefix_ext _ _ _ (fun i _ => Hm5 i)). rewrite <- Hd. rewrite <- (hdr_like_fragment m m0); [apply (fragment_bytes m0 d tmp)|done].
Qed.

Lemma wp_send_turn {A} k n t w (a : A) fr (Q : A + Z -> W -> Prop) :
  able t w -> netifs t !! q = Some f -> net_ok k bl -> pbufs k = <[r := ref_pbuf n 1]> (pbufs s) -> as_before k -> hdr_like m (bytes_at k r) -> 20 <= n <= mtu f ->
  prefix (Z.to_nat n) (bytes_at k r) = fr -> MemFacts.byte_list fr ->
  (if has_memory s bl PBUF_LINK 0 PBUF_RAM then
     forall k' t' w', turning k' n -> able t' w' -> netifs t' = netifs t -> sent fr w w' -> Q (inl a) (put_stack (set_net k' t') w')
   else forall k', done_with k' -> Q (inr ERR_MEM) (put_stack (set_net k' t) w)) ->
  wp (ip_frag_send call_output r q dest a) Q (put_stack (set_net k t) w).
Proof.
  intros Hable Hq Hok Hk Hsame Hhdr Hn <- Hfr HQ.
  assert (Hin : forall x b, pbufs s !! x = Some b -> pbufs k !! x = Some b) by (intros x b Hx; by apply Hsame).
  apply (wp_ip_frag_send call_output g q dest lim able sent s ri bl Hfresh k n t w f a); try done; [lia|lia|].
  destruct (has_memory s bl PBUF_LINK 0 PBUF_RAM).
  - intros k' t' w' Hsent Hable' Hnif Hok' Hk' Hall. apply HQ; try done. split; [done|done| |].
    + intros x b Hx. apply (same_pbuf_trans x b s k k'); [by apply Hsame|by apply Hall, Hin].
    + intros i Hi H2 H3 H6 H7 H10 H11. destruct (Hall r (ref_pbuf n 1)) as [_ Hb]; [rewrite Hk; apply lookup_insert_eq|].
      rewrite Hb by (cbn; unfold IP_FRAG_MAX_MTU in *; lia). by apply Hhdr.
  - intros k' Hok' Hk' Hall. apply HQ. split; [done|done|]. intros x b Hx. apply (same_pbuf_trans x b s k k'); [by apply Hsame|by apply Hall].
Qed.

Lemma nfb_room : u16 (nfb * 8) = mtu f - IP_HLEN.
Proof.
  clear Hc Hrd Hsize Hnd Hlim. unfold IP_HLEN, IP_FRAG_MAX_MTU, nfb in *. change IP_HLEN with 20. rewrite u16_small; Z.div_mod_to_equations; lia.
Qed.

Lemma wp_turn k t w lft ofo poff omf (d := contents s c) (Q : Z * Z * Z + Z -> W -> Prop) :
  turning k (mtu f) -> able t w -> netifs t !! q = Some f -> 0 < lft -> 0 <= poff -> poff + lft = Z.of_nat (length d) -> lft < 65536 ->
  (let last := lft <=? mtu f - IP_HLEN in
   let cop := if last then lft else mtu f - IP_HLEN in
   let tmp := Z.lor omf (Z.land IP_OFFMASK ofo) in
   let x := firstn (Z.to_nat cop) (skipn (Z.to_nat poff) d) in
   if has_memory s bl PBUF_LINK 0 PBUF_RAM then
     forall k' t' w', turning k' (cop + IP_HLEN) -> able t' w' -> netifs t' = netifs t -> sent (fragment m (if last then tmp else Z.lor tmp IP_MF) x) w w' ->
       Q (inl (lft - cop, u16 (ofo + nfb), poff + cop)) (put_stack (set_net k' t') w')
   else forall k', done_with k' -> Q (inr ERR_MEM) (put_stack (set_net k' t) w)) ->
  wp (ip_frag_body call_output p r (r, 0) q dest (mtu f) nfb omf (lft, ofo, poff)) Q (put_stack (set_net k t) w).
Proof.
  intros Hturn Hable Hq Hl Hpoff Hlen Hlt Hcont. cbv zeta in Hcont. cbn [ip_frag_body]. rewrite (proj2 (Z.eqb_neq lft 0)), nfb_room by lia.
  assert (Hm : 28 <= mtu f <= 1500) by apply Hmtu. pose proof (contents_length s c Hrd) as Hcl. fold d in Hcl.
  assert (Hpiece : forall cop tmp, MemFacts.byte_list (fragment m tmp (firstn (Z.to_nat cop) (skipn (Z.to_nat poff) d))))
    by (intros; apply fragment_octets; [done|by apply list.Forall_take, list.Forall_drop]).
  destruct (Z.leb_spec lft (mtu f - IP_HLEN)) as [Hle|Hgt]; unfold IP_HLEN in *.
  - apply wp_bind, (wp_ip_frag_fill k (mtu f)); [done|unfold IP_HLEN; lia|lia|fold d; lia|]. unfold IP_HLEN. intros k1 Hok1 Hk1 Hs1 Hh1 Hp1.
    rewrite (u16_small (lft + 20)), (u16_small (lft - lft)), (u16_small (poff + lft)) by lia.
    apply wp_bind, wp_on_net, (wp_trim_ref k1 (lft + 20) _ Hok1); [by rewrite Hk1; apply Hturn|lia|]. intros k2 Hok2 Hk2 Hb2.
    change (set_net k2 (set_net k1 t)) with (set_net k2 t).
    eapply (wp_send_turn k2 (lft + 20) t w); [done|done|done|done| | |lia| |apply Hpiece|exact Hcont].
    + intros x b Hx. destruct (Hs1 x b Hx) as [_ Hb1]. split; [rewrite Hk2, lookup_insert_ne; [done|by intros <-; congruence]|].
      intros y Hy. by rewrite Hb2, Hb1.
    + intros i Hi H2 H3 H6 H7 H10 H11. rewrite Hb2. by apply Hh1.
    + etransitivity; [|exact Hp1]. apply prefix_ext. intros i Hi. apply Hb2.
  - apply wp_bind, (wp_ip_frag_fill k (mtu f)); [done|unfold IP_HLEN; lia|lia|fold d; lia|]. unfold IP_HLEN. intros k1 Hok1 Hk1 Hs1 Hh1 Hp1.
    rewrite (u16_small (lft - _)), (u16_small (poff + _)) by lia.
    apply wp_bind, wp_ret. eapply (wp_send_turn k1 (mtu f - 20 + 20) t w); [done|done|done| |done|done|lia|exact Hp1|apply Hpiece|exact Hcont].
    replace (mtu f - 20 + 20) with (mtu f) by lia. by rewrite Hk1; apply Hturn.
Qed.

(** ** The loop *)
Lemma fragments_nil n h x ofo omf room : fragments n h x ofo omf room [] = [].
Proof. by destruct n. Qed.
Lemma fragments_step n h x ofo omf room (d : list Z) : d <> [] -> fragments (Datatypes.S n) h x ofo omf room d =
  let tmp := Z.lor omf (Z.land IP_OFFMASK ofo) in
  if MemFacts.len d <=? room then [fragment h tmp d]
  else fragment h (Z.lor tmp IP_MF) (firstn (Z.to_nat (8 * x)) d) :: fragments n h x (u16 (ofo + x)) omf room (skipn (Z.to_nat (8 * x)) d).
Proof. by destruct d. Qed.

Lemma wp_loop_end k n t w ofo poff omf fuel (Q : Z -> W -> Prop) : turning k n -> (forall k', done_with k' -> Q ERR_OK (put_stack (set_net k' t) w)) ->
  wp (iter_nat (Datatypes.S fuel) (ip_frag_body call_output p r (r, 0) q dest (mtu f) nfb omf) (0, ofo, poff)) (ends Q) (put_stack (set_net k t) w).
Proof.
  intros [Hok Hk Hs Hh] HQ. apply wp_iter_S. cbn [ip_frag_body]. change (0 =? 0) with true. cbv iota.
  apply wp_bind, (wp_free_ref s ri bl Hfresh k n t w _ Hok Hk). intros z k' Hok' Hk' Hall. apply wp_ret, HQ. split; [done|done|].
  intros x b Hx. apply (same_pbuf_trans x b s k k'); [by apply Hs|by apply Hall].
Qed.

Lemma wp_frag_loop omf (Hroom : has_memory s bl PBUF_LINK 0 PBUF_RAM = true) : forall fuel k n t w lft ofo poff (Q : Z -> W -> Prop) (d := contents s c)
    (all := fragments fuel m nfb ofo omf (mtu f - IP_HLEN) (skipn (Z.to_nat poff) d)),
  turning k n -> lft = 0 \/ n = mtu f -> able t w -> netifs t !! q = Some f -> 0 <= lft -> 0 <= poff -> poff + lft = Z.of_nat (length d) -> lft <= Z.of_nat fuel ->
  (forall k' t' w', done_with k' -> able t' w' -> netifs t' = netifs t -> all_sent sent all w w' -> Q ERR_OK (put_stack (set_net k' t') w')) ->
  wp (iter_nat (Datatypes.S fuel) (ip_frag_body call_output p r (r, 0) q dest (mtu f) nfb omf) (lft, ofo, poff)) (ends Q) (put_stack (set_net k t) w).
Proof.
  induction fuel as [|fuel IH]; intros k n t w lft ofo poff Q d all Hturn Hn Hable Hq Hl Hpoff Hlen Hfuel HQ.
  - assert (lft = 0) as -> by lia. apply (wp_loop_end k n); [done|]. intros k' Hk'. apply HQ; try done. constructor.
  - pose proof (contents_length s c Hrd) as Hcl. fold d in Hcl. pose proof nfb_room as Hnfb.
    assert (H8 : 8 * nfb = mtu f - IP_HLEN) by (clear -Height; unfold nfb, IP_HLEN in *; Z.div_mod_to_equations; lia).
    assert (Hm : 28 <= mtu f <= 1500) by apply Hmtu. set (x := skipn (Z.to_nat poff) d) in *.
    assert (Hx : MemFacts.len x = lft) by (unfold MemFacts.len, x; rewrite length_skipn; lia).
    destruct (decide (lft = 0)) as [->|Hne].
    { assert (x = []) as Hx0 by (destruct x; [done|unfold MemFacts.len in Hx; cbn in Hx; lia]). unfold all in *. rewrite Hx0, fragments_nil in HQ.
      apply (wp_loop_end k n); [done|]. intros k' Hk'. apply HQ; try done. constructor. }
    destruct Hn as [Hn | ->]; [done|]. unfold all in *. rewrite fragments_step in HQ by (intros E; rewrite E in Hx; unfold MemFacts.len in Hx; cbn in Hx; lia).
    rewrite Hx, H8 in HQ. cbv zeta in HQ. clear all.
    apply wp_iter_S. apply (wp_turn k t w lft ofo poff omf); try done; [lia|lia|]. cbv zeta. fold d x. rewrite Hroom.
    destruct (Z.leb_spec lft (mtu f - IP_HLEN)) as [Hle|Hgt]; intros k' t' w' Hk' Hable' Hnif Hsent.
    + rewrite Z.sub_diag. apply (wp_loop_end k' (lft + IP_HLEN)); [done|].
      intros k'' Hd. apply HQ; try done. rewrite firstn_all2 in Hsent by (unfold MemFacts.len in Hx; lia). econstructor; [exact Hsent|constructor].
    + rewrite Z.sub_add in Hk'.
      assert (Hsk : skipn (Z.to_nat (poff + (mtu f - IP_HLEN))) d = skipn (Z.to_nat (mtu f - IP_HLEN)) x).
      { unfold x. rewrite skipn_skipn. f_equal. unfold IP_HLEN. lia. }
      apply (IH k' (mtu f)); try done; fold d; rewrite ?Hsk; unfold IP_HLEN in *; try lia; [by rewrite Hnif|].
      intros k'' t'' w'' Hd Hable'' Hnif'' Hsent''. apply HQ; try done; [congruence|]. econstructor; [exact Hsent|exact Hsent''].
Qed.
Lemma wp_frag_none omf (Hroom : has_memory s bl PBUF_LINK 0 PBUF_RAM = false) fuel k t w lft ofo poff (Q : Z -> W -> Prop) (d := contents s c) :
  turning k (mtu f) -> able t w -> netifs t !! q = Some f -> 0 < lft -> 0 <= poff -> poff + lft = Z.of_nat (length d) -> lft < 65536 ->
  (forall k', done_with k' -> Q ERR_MEM (put_stack (set_net k' t) w)) ->
  wp (iter_nat (Datatypes.S fuel) (ip_frag_body call_output p r (r, 0) q dest (mtu f) nfb omf) (lft, ofo, poff)) (ends Q) (put_stack (set_net k t) w).
Proof. intros Hturn Hable Hq Hl Hpoff Hlen Hlt HQ. apply wp_iter_S, wp_turn; try done. cbv zeta. rewrite Hroom. intros k' Hk'. by apply HQ. Qed.
End turns.

(** * ip_frag *)

(** A reference to the buffer, of the length of the largest frame. *)
Lemma wp_refer s bl n t {W A} `{StackLaws W} (w : W) (K : ptr -> M W A) (e : A) (Q : A -> W -> Prop) : net_ok s bl -> 0 <= n <= IP_FRAG_MAX_MTU ->
  (has_memory s bl PBUF_LINK 0 PBUF_REF = false -> Q e (put_stack (set_net s t) w)) ->
  (forall ri k (r := InPool MEMP_PBUF ri), has_memory s bl PBUF_LINK 0 PBUF_REF = true -> pbufs s !! r = None -> net_ok k bl -> pbufs k = <[r := ref_pbuf n 1]> (pbufs s) -> (forall q x, bytes_at k q x = bytes_at s q x) ->
     wp (K r) Q (put_stack (set_net k t) w)) ->
  wp (r ← on_net (pbuf_alloc PBUF_LINK 0 PBUF_REF);
      match r with
      | None => mret e
      | Some r => _ ← on_net (upd_pbuf r (fun b => with_room IP_FRAG_MAX_MTU (with_payload (Some 0) (with_len n (with_tot_len n b))))); K r
      end) Q (put_stack (set_net s t) w).
Proof.
  intros Hok Hn HN HS. apply wp_bind, wp_on_net. cbn [pbuf_alloc]. apply wp_bind, wp_memp_malloc. cbn [s_net set_net].
  cbn [has_memory] in HN, HS. destruct (memp_tab s MEMP_PBUF) as [|i fr] eqn:Ht; [by apply wp_ret, wp_ret, HN|].
  apply wp_bind, wp_put_pbuf, wp_ret. set (b0 := Pbuf None None 0 0 PBUF_REF 0 1 0).
  destruct (net_ok_pool_add s bl MEMP_PBUF i fr b0 Hok) as [Hok1 Hnone]; [done|done|done|by split|done|].
  set (r := InPool MEMP_PBUF i) in *. set (k1 := set_pbufs _ _) in *. assert (Hr1 : pbufs k1 !! r = Some b0) by apply lookup_insert_eq.
  apply wp_bind, wp_on_net, wp_bind, (wp_get_pbuf _ b0); [done|]. apply wp_put_pbuf. cbn [s_net set_net].
  match goal with |- wp _ Q (put_stack (set_net ?k _) w) => set (k2 := k) end.
  apply (HS i k2); [apply Z.ltb_lt; cbn [length]; lia|done| | |].
  - apply (net_ok_refer k1 bl MEMP_PBUF i b0); try done. split; cbn; unfold IP_FRAG_MAX_MTU in *; lia.
  - cbn. by rewrite insert_insert_eq.
  - intros q x. by destruct q.
Qed.

(** The header is copied into the buffer, and the loop begins. *)
Lemma wp_start_frag s bl ri k p b o m n t {W B} `{StackLaws W} (w : W) (K : Z -> M W B) (Q : B -> W -> Prop)
    (r := InPool MEMP_PBUF ri) : pbufs s !! r = None -> net_ok k bl -> pbufs k = <[r := ref_pbuf n 1]> (pbufs s) -> (forall q x, bytes_at k q x = bytes_at s q x) ->
  pbufs s !! p = Some b -> 0 <= o -> o + IP_HLEN <= room b -> (forall i, bytes_at s p (o + i) = m i) ->
  (forall k2, turning s bl ri m k2 n -> wp (K (le16 m ip_offset)) Q (put_stack (set_net k2 t) w)) ->
  wp (hdr ← hdr_bytes (p, o) 0 (Z.to_nat IP_HLEN); _ ← set_hdr_bytes (r, 0) 0 hdr; x ← hdr16 (r, 0) ip_offset; K x) Q (put_stack (set_net k t) w).
Proof.
  intros Hfresh Hok1 Hk1 Hby Hb Ho Hroom Hm HK. unfold IP_HLEN in Hroom. set (rb := ref_pbuf n 1) in *.
  assert (Hr1 : pbufs k !! r = Some rb) by (rewrite Hk1; apply lookup_insert_eq).
  assert (Hp1 : pbufs k !! p = Some b) by (rewrite Hk1, lookup_insert_ne; [done|by intros ->; congruence]).
  assert (Hv1 : view r 0 (bytes_at k r) k bl k) by by apply view_refl.
  assert (Hin : forall i j, 0 <= i -> 0 <= j -> i + j <= 1500 -> inside 0 rb i j) by (intros; split; cbn; unfold IP_FRAG_MAX_MTU; lia).
  apply wp_bind, (wp_hdr_bytes p o k bl _ Hp1 k m); [by split; [..|intros i; rewrite Hby|]|split; unfold IP_HLEN; lia|].
  set (hd := list_of 0 _ m). assert (Hhd : length hd = 20%nat) by apply prefix_length.
  apply wp_bind, (wp_set_hdr_bytes r 0 k bl rb Hr1 _ _ hd 0 k (bytes_at k r)); [done|unfold MemFacts.len; rewrite Hhd; by apply Hin|]. intros k2 Hv2.
  set (m2 := MemFacts.write_bytes 0 hd (bytes_at k r)) in *. assert (Hm2 : forall i, 0 <= i < 20 -> m2 i = m i).
  { intros i Hi. unfold m2, hd, list_of. change (Z.to_nat IP_HLEN) with 20%nat. by rewrite write_prefix by lia. }
  apply wp_bind, (wp_hdr16 r 0 k bl rb Hr1 k2 m2); [done|by apply Hin|].
  assert (Hoff : le16 m2 ip_offset = le16 m ip_offset) by (unfold le16, ip_offset; by rewrite !Hm2 by lia). rewrite Hoff. apply HK.
  split; [apply (view_ok _ _ _ _ _ _ Hv2)|by rewrite (view_pbufs _ _ _ _ _ _ Hv2)| |].
  - intros x bx Hx. assert (Hxr : x <> r) by (intros ->; congruence).
    assert (Hxk : pbufs k !! x = Some bx) by (by rewrite Hk1, lookup_insert_ne). split; [by rewrite (view_pbufs _ _ _ _ _ _ Hv2)|].
    intros y Hy. by rewrite (view_others _ _ _ _ _ _ Hv2 x bx), Hby.
  - intros i Hi _ _ _ _ _ _. pose proof (view_bytes _ _ _ _ _ _ Hv2 i) as Hvb. rewrite Z.add_0_l in Hvb. etransitivity; [exact Hvb|by apply Hm2].
Qed.

Section ip_frag.
Context {W : Type} `{StackLaws W}.
Variable call_output : output_fn -> netif_ptr -> option ptr -> Z -> M W Z.
Variables (g : output_fn) (q : netif_ptr) (dest lim : Z) (able : stack -> W -> Prop) (sent : list Z -> W -> W -> Prop).
Context `{!Sends call_output g q dest lim able sent}.

(** The fragments of the packet [c], whose header is [m], for the interface [f]. *)
Definition fragments_of (f : netif) (m : Z -> Z) (d : list Z) : list (list Z) :=
  let off := htons (le16 m ip_offset) in
  let data := skipn 20 d in
  fragments (length data) m ((mtu f - IP_HLEN) / 8) (Z.land off IP_OFFMASK) (Z.land off IP_MF) (mtu f - IP_HLEN) data.
(** There is memory for the reference to the buffer and for a link header. *)
Definition frag_memory (s : net) (bl : list block) : bool := has_memory s bl PBUF_LINK 0 PBUF_REF && has_memory s bl PBUF_LINK 0 PBUF_RAM.

(** Every fragment is sent, or, without the memory, none. *)
Lemma wp_ip_frag (t : stack) (w : W) bl p b c o m f (Q : Z -> W -> Prop) (d := contents (s_net t) ((p, b) :: c)) :
  net_ok (s_net t) bl -> chain (pbufs (s_net t)) (Some p) ((p, b) :: c) -> NoDup ((p, b) :: c).*1 -> packet ((p, b) :: c) -> readable ((p, b) :: c) ->
  payload b = Some o -> o + IP_HLEN <= room b -> (forall i, bytes_at (s_net t) p (o + i) = m i) -> hdr_octets m -> MemFacts.byte_list d ->
  IP_HLEN < tot_len b < 65536 -> netifs t !! q = Some f -> nif_output f = Some g -> mtu f <= lim -> 28 <= mtu f <= IP_FRAG_MAX_MTU -> (mtu f - IP_HLEN) mod 8 = 0 ->
  able t w ->
  (forall k t' w' e, net_ok k bl -> pbufs k = pbufs (s_net t) -> as_before (s_net t) k -> contents k ((p, b) :: c) = d ->
     (if frag_memory (s_net t) bl then e = ERR_OK /\ able t' w' /\ netifs t' = netifs t /\ all_sent sent (fragments_of f m d) w w'
      else e = ERR_MEM /\ t' = t /\ w' = w) -> Q e (put_stack (set_net k t') w')) ->
  wp (ip_frag call_output p q dest) Q (put_stack t w).
Proof.
  intros Hok Hc Hnd Hpk Hrd Ho Hroom Hm Hoct Hbytes Hsz Hq Hg Hlim Hmtu H8 Hable HQ. set (s := s_net t) in *.
  assert (Hb : pbufs s !! p = Some b) by by destruct Hc as (_ & ? & _).
  assert (Htot : tot_len b = data_len ((p, b) :: c)) by by destruct Hpk. pose proof (contents_length s _ Hrd) as Hcl. fold d in Hcl.
  destruct (nok_home _ _ Hok p b Hb) as (_ & [_ Hfit] & _). rewrite Ho in Hfit. unfold frag_memory in HQ.
  replace (put_stack t w) with (put_stack (set_net s t) w) by by destruct t.
  apply wp_bind, (wp_get_netif _ f); [done|]. pose proof Hmtu as Hm1; unfold IP_FRAG_MAX_MTU in Hm1. apply (wp_refer s bl (mtu f)); [done|done|unfold IP_FRAG_MAX_MTU; lia| |].
  - intros Hn. rewrite Hn in HQ. by apply HQ.
  - intros ri k r Href Hfresh Hok1 Hk1 Hby. rewrite Href in HQ. cbn [andb] in HQ.
    assert (Hr1 : pbufs k !! r = Some (ref_pbuf (mtu f) 1)) by (rewrite Hk1; apply lookup_insert_eq).
    assert (Hp1 : pbufs k !! p = Some b) by (rewrite Hk1, lookup_insert_ne; [done|by intros <-; congruence]).
    apply wp_bind, (wp_payload_hdr r 0 k bl _ Hr1 k (bytes_at k r)); [by apply view_refl|done|].
    apply wp_bind, (wp_payload_hdr p o k bl _ Hp1 k m); [by split; [..|intros i; rewrite Hby|]|done|].
    apply (wp_start_frag s bl ri k p b o m (mtu f)); try done; [lia|]. intros k2 Hturn. cbv zeta.
    assert (Hb2 : pbufs k2 !! p = Some b) by (by apply (turn_same _ _ _ _ _ _ Hturn)).
    apply wp_bind, wp_on_net, (wp_get_pbuf _ b); [done|]. set (data := skipn 20 d).
    assert (Hn : u16 (Z.quot (mtu f - IP_HLEN) 8) = nfb f).
    { unfold nfb, IP_HLEN, IP_FRAG_MAX_MTU in *. rewrite Z.quot_div_nonneg by lia. apply u16_small. Z.div_mod_to_equations; lia. }
    assert (Hlen : u16 (tot_len b - IP_HLEN) = Z.of_nat (length data)).
    { unfold data. rewrite length_skipn, u16_small; unfold IP_HLEN in *; lia. }
    rewrite Hn, Hlen. cbn [set_net]. assert (Hld : 0 < Z.of_nat (length data) < 65536) by (unfold data; rewrite length_skipn; unfold IP_HLEN in *; lia).
    apply (wp_loop_nat (Datatypes.S (length data))); [lia|].
    assert (Hdone : forall k', done_with s bl k' -> net_ok k' bl /\ pbufs k' = pbufs s /\ as_before s k' /\ contents k' ((p, b) :: c) = d).
    { intros k' [Hok' Hp' Hs']. destruct (as_before_contents s p ((p, b) :: c) Hc Hrd k' Hs') as [_ Hcon]. done. }
    destruct (has_memory s bl PBUF_LINK 0 PBUF_RAM) eqn:Hram.
    + apply (wp_frag_loop call_output g q dest lim able sent s bl ri p ((p, b) :: c) f m) with (n := mtu f); try done; [lia|by right|by apply able_net|lia| |].
      * fold s d. unfold data. rewrite length_skipn. unfold IP_HLEN in *. lia.
      * intros k' t' w' Hk' Hable' Hnif' Hsent. destruct (Hdone k' Hk') as (? & ? & ? & ?). by apply HQ.
    + apply (wp_frag_none call_output g q dest lim able sent s bl ri p ((p, b) :: c) f m); try done; [lia|by apply able_net|lia| |lia|].
      * fold s d. unfold data. rewrite length_skipn. unfold IP_HLEN in *. lia.
      * intros k' Hk'. destruct (Hdone k' Hk') as (? & ? & ? & ?). by apply (HQ k' t w ERR_MEM).
Qed.
End ip_frag.

(** ** The fragments carry the data, in order *)
Lemma fragment_data m tmp d : skipn 20 (fragment m tmp d) = d.
Proof. unfold fragment. rewrite skipn_app, prefix_length, skipn_all2 by (rewrite prefix_length; lia). done. Qed.
Lemma fragments_data fuel m nfb ofo omf room d : 0 < nfb -> 8 * nfb = room -> (length d <= fuel)%nat ->
  concat (map (skipn 20) (fragments fuel m nfb ofo omf room d)) = d.
Proof.
  intros Hn Hr. revert ofo d. induction fuel as [|fuel IH]; intros ofo d Hf.
  - by destruct d; [|cbn in Hf; lia].
  - destruct (decide (d = [])) as [->|Hne]; [done|]. rewrite fragments_step by done. cbv zeta.
    destruct (Z.leb_spec (MemFacts.len d) room) as [Hle|Hgt]; cbn [map concat]; rewrite fragment_data; [apply app_nil_r|].
    rewrite IH; [apply firstn_skipn|]. rewrite length_skipn. unfold MemFacts.len in Hgt. lia.
Qed.
