(* ===== verification/LwipUdp.v ===== *)
(** The User Datagram Protocol: core/udp.c, without UDP-Lite and with the
    checksums left to the Ethernet controller (lwipopts.h).  The receive callbacks
    are a parameter. *)
From stdpp Require Import gmap.
From S2P Require Import Prelude Mmio LwipMem LwipPbuf LwipInet LwipStack LwipEtharp LwipNetif LwipIpOut.

Definition UDP_HLEN : Z := 8.
Definition UDP_TTL : Z := 255.
Definition UDP_FLAGS_CONNECTED : Z := 0x04.
Definition DHCP_CLIENT_PORT : Z := 68.
Definition DHCP_SERVER_PORT : Z := 67.
Definition UDP_LOCAL_PORT_RANGE_START : Z := 4096.
Definition UDP_LOCAL_PORT_RANGE_END : Z := 0x7fff.
(** [struct udp_hdr] *)
Definition udp_src : Z := 0.
Definition udp_dest : Z := 2.
Definition udp_len : Z := 4.
Definition udp_chksum : Z := 6.

(** Does a control block take datagrams for this destination? *)
Definition local_match (u : udp_pcb) (dest dest_ip : Z) (broadcast : bool) : bool :=
  (local_port u =? dest)
  && ((negb broadcast && ip_addr_isany (Some (local_ip u))) || ip_addr_cmp (local_ip u) dest_ip || broadcast).
(** Is it connected to the sender, or takes from any address? *)
Definition remote_match (u : udp_pcb) (src src_ip : Z) : bool :=
  (remote_port u =? src) && (ip_addr_isany (Some (remote_ip u)) || ip_addr_cmp (remote_ip u) src_ip).

Section udp.
Context {W : Type} `{HasStack W}.
Variable call_output : output_fn -> netif_ptr -> option ptr -> Z -> M W Z.
Variable ip_frag : ptr -> netif_ptr -> Z -> M W Z.
Variable call_recv : recv_fn -> option ptr -> ptr -> ptr -> Z -> Z -> M W unit.

(** A walk along the list of control blocks takes at most as many steps as there
    are. *)
Definition pcb_fuel : M W positive := gets_stack (fun s => Pos.succ (Pos.of_succ_nat (size (pcbs s)))).

(** ** Allocation *)
Definition udp_new : M W (option ptr) :=
  p ← on_net (memp_malloc MEMP_UDP_PCB);
  match p with
  | Some p => _ ← put_pcb p (with_ttl UDP_TTL udp_pcb_zero); mret (Some p)
  | None => mret None
  end.

(** The walk that unlinks a control block; it goes on to the end of the list. *)
Definition udp_unlink_body (pcb : ptr) (pcb2 : option ptr) : M W (option ptr + unit) :=
  match pcb2 with
  | None => mret (inr tt)
  | Some q =>
      u ← get_pcb q;
      _ ← (if bool_decide (pcb_next u = Some pcb) then
             v ← get_pcb pcb; upd_pcb q (with_pcb_next (pcb_next v))
           else mret tt);
      u ← get_pcb q;
      mret (inl (pcb_next u))
  end.
Definition udp_remove (pcb : ptr) : M W unit :=
  first ← gets_stack udp_pcbs;
  _ ← (if bool_decide (first = Some pcb) then
         u ← get_pcb pcb; mod_stack (set_udp_pcbs (pcb_next u))
       else fuel ← pcb_fuel; loop fuel (udp_unlink_body pcb) first);
  _ ← mod_stack (fun s => set_pcbs (delete pcb (pcbs s)) s);
  on_net (memp_free MEMP_UDP_PCB (Some pcb)).

(** ** Binding and connecting *)
Definition on_list_body (pcb : ptr) (a : option ptr * bool) : M W (option ptr * bool + bool) :=
  match a with
  | (None, found) => mret (inr found)
  | (Some q, found) => u ← get_pcb q; mret (inl (pcb_next u, if bool_decide (q = pcb) then true else found))
  end.
(** Is the control block on the list? udp_bind walks the whole list for it. *)
Definition on_list (pcb : ptr) : M W bool :=
  first ← gets_stack udp_pcbs;
  fuel ← pcb_fuel;
  loop fuel (on_list_body pcb) (first, false).

(** The search for a free port, on [ipcb] and [port]. *)
Definition free_port_body (a : option ptr * Z) : M W (option ptr * Z + option ptr * Z) :=
  let '(ipcb, port) := a in
  match ipcb with
  | Some q =>
      if negb (port =? UDP_LOCAL_PORT_RANGE_END) then
        u ← get_pcb q;
        if local_port u =? port then first ← gets_stack udp_pcbs; mret (inl (first, u16 (port + 1)))
        else mret (inl (pcb_next u, port))
      else mret (inr (ipcb, port))
  | None => mret (inr (ipcb, port))
  end.
(** A control block stops the search at most once, at its own port. *)
Definition free_port_fuel : M W positive :=
  gets_stack (fun s => let n := Pos.succ (Pos.of_succ_nat (size (pcbs s))) in (n * n)%positive).

(** The first port of the range that no control block has; [None] is ERR_USE. *)
Definition free_port : M W (option Z) :=
  first ← gets_stack udp_pcbs;
  fuel ← free_port_fuel;
  '(ipcb, port) ← loop fuel free_port_body (first, UDP_LOCAL_PORT_RANGE_START);
  mret (match ipcb with Some _ => None | None => Some port end).

Definition push_pcb (pcb : ptr) : M W unit :=
  first ← gets_stack udp_pcbs;
  _ ← upd_pcb pcb (with_pcb_next first);
  mod_stack (set_udp_pcbs (Some pcb)).

Definition udp_bind (pcb : ptr) (ipaddr : option Z) (port : Z) : M W Z :=
  rebind ← on_list pcb;
  _ ← upd_pcb pcb (with_local_ip (ip_addr_set ipaddr));
  port ← (if port =? 0 then free_port else mret (Some port));
  match port with
  | None => mret ERR_USE
  | Some port =>
      _ ← upd_pcb pcb (with_local_port port);
      _ ← (if (rebind : bool) then mret tt else push_pcb pcb);
      mret ERR_OK
  end.

(** The walk of udp_connect stops at the control block. *)
Definition connected_body (pcb : ptr) (a : option ptr) : M W (option ptr + bool) :=
  match a with
  | None => mret (inr false)
  | Some q => if bool_decide (q = pcb) then mret (inr true) else u ← get_pcb q; mret (inl (pcb_next u))
  end.
Definition udp_connect (pcb : ptr) (ipaddr : option Z) (port : Z) : M W Z :=
  u ← get_pcb pcb;
  err ← (if local_port u =? 0 then udp_bind pcb (Some (local_ip u)) (local_port u) else mret ERR_OK);
  if negb (err =? ERR_OK) then mret err
  else
    _ ← upd_pcb pcb (fun u => with_pcb_flags (Z.lor (pcb_flags u) UDP_FLAGS_CONNECTED)
                      (with_remote_port port (with_remote_ip (ip_addr_set ipaddr) u)));
    first ← gets_stack udp_pcbs;
    fuel ← pcb_fuel;
    listed ← loop fuel (connected_body pcb) first;
    _ ← (if (listed : bool) then mret tt else push_pcb pcb);
    mret ERR_OK.

Definition udp_disconnect (pcb : ptr) : M W unit :=
  upd_pcb pcb (fun u => with_pcb_flags (u8 (Z.land (pcb_flags u) (not32 UDP_FLAGS_CONNECTED)))
                 (with_remote_port 0 (with_remote_ip IP_ADDR_ANY_VALUE u))).

Definition udp_recv (pcb : ptr) (f : option recv_fn) (arg : option ptr) : M W unit :=
  upd_pcb pcb (with_recv f arg).

(** ** Sending *)

(** The packet with room for the UDP header in front: the packet itself, or a new
    pbuf chained in front of it. *)
Definition udp_add_header (p : ptr) : M W (option ptr) :=
  r ← on_net (pbuf_header (Some p) UDP_HLEN);
  if negb (r =? 0) then
    q ← on_net (pbuf_alloc PBUF_IP UDP_HLEN PBUF_RAM);
    match q with
    | None => mret None
    | Some q => _ ← on_net (pbuf_chain (Some q) (Some p)); mret (Some q)
    end
  else mret (Some p).

(** [if (q != p) pbuf_free(q)] *)
Definition free_header (q p : ptr) : M W unit :=
  if bool_decide (q <> p) then _ ← on_net (pbuf_free (Some q)); mret tt else mret tt.

Definition udp_sendto_if (pcb p : ptr) (dst_ip dst_port : Z) (n : netif_ptr) : M W Z :=
  u ← get_pcb pcb;
  err ← (if local_port u =? 0 then udp_bind pcb (Some (local_ip u)) (local_port u) else mret ERR_OK);
  if negb (err =? ERR_OK) then mret err
  else
    q ← udp_add_header p;
    match q with
    | None => mret ERR_MEM
    | Some q =>
        udphdr ← payload_hdr q;
        u ← get_pcb pcb;
        _ ← set_hdr16 udphdr udp_src (htons (local_port u));
        _ ← set_hdr16 udphdr udp_dest (htons dst_port);
        _ ← set_hdr16 udphdr udp_chksum 0;
        f ← get_netif n;
        let any := ip_addr_isany (Some (local_ip u)) in
        if negb any && negb (ip_addr_cmp (local_ip u) (nif_ip_addr f)) then
          _ ← free_header q p; mret ERR_VAL
        else
          let src_ip := if any then nif_ip_addr f else local_ip u in
          b ← on_net (get_pbuf q);
          _ ← set_hdr16 udphdr udp_len (htons (tot_len b));
          err ← ip_output_if call_output ip_frag q (Some src_ip) (Some dst_ip) (ttl u) (tos u) IP_PROTO_UDP n;
          _ ← free_header q p;
          mret err
    end.

Definition udp_sendto (pcb p : ptr) (dst_ip dst_port : Z) : M W Z :=
  n ← ip_route dst_ip;
  match n with None => mret ERR_RTE | Some n => udp_sendto_if pcb p dst_ip dst_port n end.
Definition udp_send (pcb : option ptr) (p : ptr) : M W Z :=
  match pcb with
  | Some pcb => u ← get_pcb pcb; udp_sendto pcb p (remote_ip u) (remote_port u)
  | None => fault
  end.

(** ** Receiving *)

(** Move a control block that is not the first one to the front. *)
Definition move_to_front (prev pcb : ptr) : M W unit :=
  u ← get_pcb pcb;
  _ ← upd_pcb prev (with_pcb_next (pcb_next u));
  first ← gets_stack udp_pcbs;
  _ ← upd_pcb pcb (with_pcb_next first);
  mod_stack (set_udp_pcbs (Some pcb)).

(** The search for a control block, on [pcb], [prev] and [uncon_pcb]. *)
Definition demux_body (dest dest_ip src src_ip : Z) (broadcast : bool)
    (a : option ptr * option ptr * option ptr) : M W (option ptr * option ptr * option ptr + option ptr) :=
  let '(pcb, prev, uncon_pcb) := a in
  match pcb with
  | None => mret (inr uncon_pcb)
  | Some q =>
      u ← get_pcb q;
      let local := local_match u dest dest_ip broadcast in
      let uncon_pcb :=
        if local && bool_decide (uncon_pcb = None) && (Z.land (pcb_flags u) UDP_FLAGS_CONNECTED =? 0)
        then Some q else uncon_pcb in
      if local && remote_match u src src_ip then
        _ ← (match prev with Some r => move_to_front r q | None => mret tt end);
        mret (inr (Some q))
      else mret (inl (pcb_next u, Some q, uncon_pcb))
  end.

(** The control block of a datagram; datagrams for the DHCP client port go to the
    DHCP client of the interface only. *)
Definition udp_demux (dest dest_ip src src_ip : Z) (broadcast : bool) (inp : netif) : M W (option ptr) :=
  if dest =? DHCP_CLIENT_PORT then
    if src =? DHCP_SERVER_PORT then
      match nif_dhcp inp with
      | Some d =>
          match dhcp_pcb d with
          | Some p =>
              u ← get_pcb p;
              mret (if ip_addr_isany (Some (remote_ip u)) || ip_addr_cmp (remote_ip u) src_ip then Some p else None)
          | None => mret None
          end
      | None => mret None
      end
    else mret None
  else
    first ← gets_stack udp_pcbs;
    fuel ← pcb_fuel;
    loop fuel (demux_body dest dest_ip src src_ip broadcast) (first, None, None).

Definition udp_input (p : ptr) (inp : netif_ptr) : M W unit :=
  let free := _ ← on_net (pbuf_free (Some p)); mret tt in
  iphdr ← payload_hdr p;
  hl ← IPH_HL iphdr;
  b ← on_net (get_pbuf p);
  short ← (if tot_len b <? hl * 4 + UDP_HLEN then mret true
           else r ← on_net (pbuf_header (Some p) (- (hl * 4))); mret (negb (r =? 0)));
  if (short : bool) then free
  else
    udphdr ← payload_hdr p;
    f ← get_netif inp;
    dest_ip ← hdr32 iphdr ip_dest;
    src_ip ← hdr32 iphdr ip_src;
    let broadcast := ip_addr_isbroadcast dest_ip f in
    w ← hdr16 udphdr udp_src; let src := ntohs w in
    w ← hdr16 udphdr udp_dest; let dest := ntohs w in
    pcb ← udp_demux dest dest_ip src src_ip broadcast f;
    if bool_decide (pcb <> None) || ip_addr_cmp (nif_ip_addr f) dest_ip then
      r ← on_net (pbuf_header (Some p) (- UDP_HLEN));
      if negb (r =? 0) then free
      else match pcb with
      | Some q =>
          u ← get_pcb q;
          match recv u with
          | Some fn => call_recv fn (recv_arg u) q p src_ip src
          | None => free
          end
      | None =>
          _ ← (if negb broadcast && negb (ip_addr_ismulticast dest_ip) then
                 hl ← IPH_HL iphdr;
                 _ ← on_net (pbuf_header (Some p) (hl * 4 + UDP_HLEN));
                 icmp_dest_unreach call_output ip_frag p ICMP_DUR_PORT
               else mret tt);
          free
      end
    else free.
End udp.

(** * ip_input of core/ipv4/ip.c

    Reassembly, raw control blocks and TCP are parameters; Ethernet.v sets them. *)
Section ip_in.
Context {W : Type} `{HasStack W}.
Variable call_output : output_fn -> netif_ptr -> option ptr -> Z -> M W Z.
Variable ip_frag : ptr -> netif_ptr -> Z -> M W Z.
Variable call_recv : recv_fn -> option ptr -> ptr -> ptr -> Z -> Z -> M W unit.
Variable ip_reass : ptr -> M W (option ptr).
Variable raw_input : ptr -> netif_ptr -> M W bool.
Variable tcp_input : ptr -> netif_ptr -> M W unit.

(** Is the packet for this interface? *)
Definition accepts (f : netif) (dest : Z) : bool :=
  negb (Z.land (nif_flags f) NETIF_FLAG_UP =? 0) && negb (ip_addr_isany (Some (nif_ip_addr f)))
  && (ip_addr_cmp dest (nif_ip_addr f) || ip_addr_isbroadcast dest f).

(** The walk over the interfaces, [inp] first, on [first] and [netif]. *)
Definition for_us_body (inp : netif_ptr) (dest : Z) (a : bool * netif_ptr)
  : M W (bool * netif_ptr + option netif_ptr) :=
  let '(first, n) := a in
  f ← get_netif n;
  if accepts f dest then mret (inr (Some n))
  else
    next ← (if (first : bool) then gets_stack netif_list else mret (nif_next f));
    next ← (if bool_decide (next = Some inp) then g ← get_netif inp; mret (nif_next g) else mret next);
    match next with
    | Some n => mret (inl (false, n))
    | None => mret (inr None)
    end.

(** ip_current_netif and ip_current_header *)
Definition ip_current_netif : M W (option netif_ptr) := gets_stack current_netif.
Definition ip_current_header : M W (option header) := gets_stack current_header.

(** Hand the packet to the protocol above. *)
Definition ip_deliver (p : ptr) (iphdr : header) (inp : netif_ptr) : M W unit :=
  _ ← mod_stack (set_current (Some inp) (Some iphdr));
  eaten ← raw_input p inp;
  _ ← (if (eaten : bool) then mret tt
       else
         proto ← IPH_PROTO iphdr;
         if proto =? IP_PROTO_UDP then udp_input call_output ip_frag call_recv p inp
         else if proto =? IP_PROTO_TCP then tcp_input p inp
         else if proto =? IP_PROTO_ICMP then icmp_input call_output ip_frag p inp
         else
           dest ← hdr32 iphdr ip_dest;
           f ← get_netif inp;
           _ ← (if negb (ip_addr_isbroadcast dest f) && negb (ip_addr_ismulticast dest) then
                  _ ← on_net (upd_pbuf p (with_payload (Some (snd iphdr))));
                  icmp_dest_unreach call_output ip_frag p ICMP_DUR_PROTO
                else mret tt);
           _ ← on_net (pbuf_free (Some p));
           mret tt);
  mod_stack (set_current None None).

Definition ip_input (p : ptr) (inp : netif_ptr) : M W Z :=
  let drop := _ ← on_net (pbuf_free (Some p)); mret ERR_OK in
  iphdr ← payload_hdr p;
  v ← IPH_V iphdr;
  if negb (v =? 4) then drop
  else
    hl ← IPH_HL iphdr;
    let iphdr_hlen := hl * 4 in
    w ← hdr16 iphdr ip_len;
    let iphdr_len := ntohs w in
    b ← on_net (get_pbuf p);
    if (len b <? iphdr_hlen) || (tot_len b <? iphdr_len) then drop
    else
      _ ← on_net (pbuf_realloc p iphdr_len);
      dest ← hdr32 iphdr ip_dest;
      fuel ← netif_fuel;
      n ← loop fuel (for_us_body inp dest) (true, inp);
      dhcp ← (match n with
              | Some _ => mret false
              | None =>
                  proto ← IPH_PROTO iphdr;
                  if proto =? IP_PROTO_UDP then
                    port ← hdr16 iphdr (iphdr_hlen + udp_dest); mret (ntohs port =? DHCP_CLIENT_PORT)
                  else mret false
              end);
      src ← hdr32 iphdr ip_src;
      f ← get_netif inp;
      if negb dhcp && (ip_addr_isbroadcast src f || ip_addr_ismulticast src) then drop
      else if bool_decide (n = None) && negb dhcp then drop
      else
        off ← hdr16 iphdr ip_offset;
        if negb (Z.land off (htons (Z.lor IP_OFFMASK IP_MF)) =? 0) then
          r ← ip_reass p;
          match r with
          | None => mret ERR_OK
          | Some p => iphdr ← payload_hdr p; _ ← ip_deliver p iphdr inp; mret ERR_OK
          end
        else _ ← ip_deliver p iphdr inp; mret ERR_OK.
End ip_in.
