(* ===== verification/LwipTransmit.v ===== *)
(** A datagram on its way down the stack: what udp_sendto_if, ip_output_if and
    etharp_output put in front of it, one header after the other. *)
From stdpp Require Import gmap.
From S2P Require Import Prelude Mmio LwipMem LwipMemSpec LwipPbuf LwipPbufSpec LwipPbufTheorems LwipInet LwipStack LwipStackSpec LwipHeader.
From S2P Require Import LwipEtharp LwipEtharpSpec LwipArpLookup LwipNetif LwipIpOut LwipIpSpec LwipIpTheorems LwipUdp.

(** * The link address of a destination *)

(** The invariant of the ARP cache, without its packet queues. *)
Record cache_ok (s : stack) : Prop := {
  cache_length : length (arp_table s) = 10%nat;
  cache_entries : Forall entry_ok (arp_table s);
  cache_unique : one_entry_each (arp_table s);
  cache_cached : 0 <= etharp_cached_entry s < ARP_TABLE_SIZE
}.

(** The address that is looked up in the cache: a host on the network is reached
    directly, the others through the gateway. *)
Definition next_hop (f : netif) (dest : Z) : Z := if on_network dest f then dest else nif_gw f.
Definition multicast_mac (dest : Z) : list Z :=
  [0x01; 0x00; 0x5e; Z.land (ip4_addr2 dest) 0x7f; ip4_addr3 dest; ip4_addr4 dest].
(** The link address of [dest] on the interface [f], where it is known, and the
    stack after the search. *)
Inductive resolved (s : stack) (f : netif) (dest : Z) : list Z -> stack -> Prop :=
  | to_all : ip_addr_isbroadcast dest f = true -> resolved s f dest ethbroadcast s
  | to_group : ip_addr_isbroadcast dest f = false -> ip_addr_ismulticast dest = true -> resolved s f dest (multicast_mac dest) s
  | to_host i e : ip_addr_isbroadcast dest f = false -> ip_addr_ismulticast dest = false ->
      ip_addr_isbroadcast (next_hop f dest) f || ip_addr_ismulticast (next_hop f dest) || ip_addr_isany (Some (next_hop f dest)) = false ->
      cache_ok s -> entry_of (arp_table s) (next_hop f dest) i e -> arp_state e = ETHARP_STATE_STABLE ->
      resolved s f dest (arp_ethaddr e) (set_cached_entry (Z.of_nat i) s).
Lemma resolved_same s f dest mac s' : resolved s f dest mac s' -> netifs s' = netifs s /\ s_net s' = s_net s.
Proof. by intros []. Qed.

Section link.
Context {W : Type} `{StackLaws W}.
Implicit Types (t : stack) (w : W).

Lemma wp_find_known t w a fl i e (Q : Z -> W -> Prop) : cache_ok t -> entry_of (arp_table t) a i e ->
  Q (Z.of_nat i) (put_stack (set_cached_entry (Z.of_nat i) t) w) -> wp (find_entry (Some a) fl) Q (put_stack t w).
Proof.
  intros [H10 Hent Hu Hcached] (Hi & Hlive & Hip) HQ. change ARP_TABLE_SIZE with 10 in Hcached.
  destruct (lookup_lt_is_Some_2 (arp_table t) (Z.to_nat (etharp_cached_entry t))) as [ec Hec]; [lia|].
  assert (Hsame : forall j x, entry_of (arp_table t) a j x -> j = i).
  { intros j x (Hj & Hl & Ha). eapply Hu; [exact Hj|exact Hi|done|done|congruence]. }
  apply wp_bind, wp_gets_stack, wp_bind, wp_bind, (wp_get_arp _ ec); [lia|done|]. apply wp_ret.
  destruct (bool_decide (arp_state ec = ETHARP_STATE_STABLE) && matches (Some a) ec) eqn:Hhit.
  - apply andb_true_iff in Hhit as [Hst%bool_decide_eq_true Ha%Z.eqb_eq]. apply wp_ret.
    assert (Z.to_nat (etharp_cached_entry t) = i) as <- by (apply (Hsame _ ec); split; [done|]; split; [unfold live; by rewrite Hst|done]).
    rewrite Z2Nat.id in HQ by lia. by destruct t.
  - apply wp_bind, (wp_loop_nat (S (length (arp_table t)))); [by rewrite H10|].
    apply (wp_sweep t w a H10 Hent (arp_table t) [] no_candidates); [done|..].
    + split; left; repeat split; intros j x; by rewrite lookup_nil.
    + intros j x [Hj _]. by rewrite lookup_nil in Hj.
    + intros j x Hj. apply wp_bind, wp_mod_stack, wp_ret. by rewrite (Hsame _ _ Hj).
    + intros c _ Hnone. by destruct (Hnone i e).
Qed.

(** The header is written from its last byte to its first. *)
Definition eth_header (dst src : list Z) : list Z := dst ++ src ++ word2 ETHTYPE_IP.
Lemma wp_count_down p o s l b (Hp : pbufs s !! p = Some b) n dst src t w (Q : unit -> W -> Prop) : inside o b 0 14 ->
  (n <= 6)%nat -> length dst = 6%nat -> length src = 6%nat -> forall k m, view p o m s l k ->
  (forall k' m', view p o m' s l k' ->
     (forall i, (i < n)%nat -> Some (m' (Z.of_nat i)) = dst !! i /\ Some (m' (6 + Z.of_nat i)) = src !! i) ->
     (forall i, 14 <= i \/ Z.of_nat n <= i < 6 \/ 6 + Z.of_nat n <= i -> m' i = m i) -> Q tt (put_stack (set_net k' t) w)) ->
  wp (count_down n (fun k =>
        d ← addr_byte dst k; _ ← set_hdr8 (p, o) (eth_dest + k) d;
        v ← addr_byte src k; set_hdr8 (p, o) (eth_src + k) v)) Q (put_stack (set_net k t) w).
Proof.
  intros [Hi1 Hi2] Hn Hd Hs. induction n as [|n IH]; intros k m Hv HQ; cbn [count_down].
  - apply wp_ret. by apply (HQ k m); [| lia|].
  - destruct (lookup_lt_is_Some_2 dst n) as [d Hdn]; [lia|]. destruct (lookup_lt_is_Some_2 src n) as [v Hsn]; [lia|].
    apply wp_bind, wp_bind, (wp_index _ _ d); [lia|by rewrite Nat2Z.id|].
    apply wp_bind, (wp_set_hdr8 p o s l b Hp _ _ _ _ _ _ _ Hv); [split; unfold eth_dest; lia|]. intros k1 Hv1.
    apply wp_bind, (wp_index _ _ v); [lia|by rewrite Nat2Z.id|].
    apply (wp_set_hdr8 p o s l b Hp _ _ _ _ _ _ _ Hv1); [split; unfold eth_src; lia|]. intros k2 Hv2.
    apply (IH ltac:(lia) k2 _ Hv2). intros k' m' Hv' Hlow Hrest. apply (HQ k' m' Hv').
    + intros i Hi. destruct (decide (i = n)) as [->|Hne]; [|apply Hlow; lia].
      rewrite !Hrest by lia. unfold set8, eth_dest, eth_src. rewrite (proj2 (Z.eqb_neq (Z.of_nat n) _)), Z.eqb_refl by lia.
      by rewrite Hdn, Hsn, Z.add_0_l, Z.eqb_refl.
    + intros i Hi. rewrite Hrest by lia. unfold set8, eth_dest, eth_src. by rewrite !(proj2 (Z.eqb_neq _ _)) by lia.
Qed.

Lemma prefix_eth dst src m : length dst = 6%nat -> length src = 6%nat ->
  (forall i, (i < 6)%nat -> Some (m (Z.of_nat i)) = dst !! i /\ Some (m (6 + Z.of_nat i)) = src !! i) ->
  prefix 14 (set16 12 (htons ETHTYPE_IP) m) = eth_header dst src.
Proof.
  intros Hd Hs Hm. change 14%nat with (6 + (6 + 2))%nat. rewrite !prefix_app. unfold eth_header.
  assert (Hset : forall i, 0 <= i < 12 -> set16 12 (htons ETHTYPE_IP) m i = m i) by (intros i Hi; unfold set16; by rewrite !(proj2 (Z.eqb_neq i _)) by lia).
  f_equal; [|f_equal].
  - apply list_eq_same_length with 6%nat; [done|by rewrite prefix_length|]. intros i x y Hi Hx Hy.
    rewrite prefix_lookup, Hset in Hx by lia. destruct (Hm i Hi) as [Hm' _]. congruence.
  - apply list_eq_same_length with 6%nat; [done|by rewrite prefix_length|]. intros i x y Hi Hx Hy.
    rewrite prefix_lookup, Hset in Hx by lia. destruct (Hm i Hi) as [_ Hm']. change (Z.of_nat 6) with 6 in Hx. congruence.
Qed.

Variable call_linkoutput : linkoutput_fn -> netif_ptr -> option ptr -> M W Z.

(** The Ethernet header gets in front of the packet, which is then handed to the
    driver. *)
Lemma wp_etharp_send_ip l p b c o s t w n f lo dst src (Q : Z -> W -> Prop) (k0 := shift_pbuf 14 p b s) :
  outgoing s l p b c o -> 14 <= o -> netifs t !! n = Some f -> nif_linkoutput f = Some lo -> length dst = 6%nat -> length src = 6%nat ->
  (forall k, prepended (eth_header dst src) p b c s l k -> wp (call_linkoutput lo n (Some p)) Q (put_stack (set_net k t) w)) ->
  wp (etharp_send_ip call_linkoutput n p src dst) Q (put_stack (set_net k0 t) w).
Proof.
  intros Ho Hge Hn Hlo Hd Hs HQ. destruct (outgoing_lens _ _ _ _ _ _ Ho) as (Hb & Hl & Hpos & Hroom). destruct Ho as [Hok Hc Hnd _ _ _ Hpay].
  assert (Hok0 : net_ok k0 l) by (apply (shifted_ok _ _ _ _ o); try done; lia).
  assert (Hp0 : pbufs k0 !! p = Some (shifted 14 b)) by apply lookup_insert_eq.
  apply wp_bind, (wp_payload_hdr p (o - 14) k0 l (shifted 14 b) Hp0 k0 (fun i => bytes_at k0 p (o - 14 + i))); [by apply view_refl|cbn; by rewrite Hpay|].
  apply wp_bind, (wp_count_down p (o - 14) k0 l (shifted 14 b) Hp0 6 dst src t w) with (k := k0) (m := fun i => bytes_at k0 p (o - 14 + i));
    [split; cbn; lia|lia|done|done|by apply view_refl|]. intros k1 m1 Hv1 Hm1 Hrest.
  apply wp_bind, (wp_set_hdr16 p (o - 14) k0 l (shifted 14 b) Hp0 _ _ _ _ _ _ _ Hv1); [split; cbn; unfold eth_type; lia|]. intros k2 Hv2.
  apply wp_bind, (wp_get_netif _ f); [done|]. rewrite Hlo. apply HQ.
  assert (Hlen : length (eth_header dst src) = 14%nat) by (unfold eth_header; rewrite !length_app, Hd, Hs; done).
  eapply (prepended_view (eth_header dst src) p b c o s l k2 _ Hok Hc Hnd Hpay); rewrite Hlen; [lia|exact Hv2|by apply prefix_eth|].
  intros i Hi. unfold set16, eth_type. rewrite !(proj2 (Z.eqb_neq i _)) by lia. rewrite Hrest by lia. by destruct p.
Qed.

(** etharp_output, for a destination whose link address is known. *)
Lemma wp_etharp_output l p b c o t w n f lo dest mac t' (Q : Z -> W -> Prop) :
  outgoing (s_net t) l p b c o -> 14 <= o -> tot_len b + 14 < 65536 -> netifs t !! n = Some f -> nif_linkoutput f = Some lo ->
  length mac = 6%nat -> length (hwaddr f) = 6%nat -> (on_network dest f = false -> nif_gw f <> 0) -> resolved t f dest mac t' ->
  (forall k, prepended (eth_header mac (hwaddr f)) p b c (s_net t) l k -> wp (call_linkoutput lo n (Some p)) Q (put_stack (set_net k t') w)) ->
  wp (etharp_output call_linkoutput n p dest) Q (put_stack t w).
Proof.
  intros Ho Hge Hmax Hn Hlo Hd Hs Hgw Hres HQ. destruct (outgoing_lens _ _ _ _ _ _ Ho) as (Hb & Hl & Hpos & Hroom).
  destruct (resolved_same _ _ _ _ _ Hres) as [Hn' Hnet'].
  assert (Hsend : forall u, netifs u = netifs t -> (forall k, set_net k u = set_net k t') ->
    wp (etharp_send_ip call_linkoutput n p (hwaddr f) mac) Q (put_stack (set_net (shift_pbuf 14 p b (s_net t)) u) w)).
  { intros u Hu Hut. apply (wp_etharp_send_ip l p b c o _ _ _ n f lo); [done|done|by rewrite Hu|done..|]. intros k Hk. rewrite Hut. by apply HQ. }
  replace (put_stack t w) with (put_stack (set_net (s_net t) t) w) by by rewrite set_net_same.
  apply wp_bind. unfold SIZEOF_ETH_HDR. apply (wp_header_shift p b o); [done|apply Ho|apply Ho|lia|done|lia|lia|].
  cbn [Z.eqb negb]. apply wp_bind, (wp_get_netif _ f); [done|]. inversion Hres as [Hbc|Hbc Hmc|i e Hbc Hmc Hhop Hok He Hst]; subst mac t'; rewrite Hbc, ?Hmc.
  - by apply Hsend.
  - by apply Hsend.
  - assert (Hquery : wp (etharp_query call_linkoutput n (next_hop f dest) (Some p)) Q (put_stack (set_net (shift_pbuf 14 p b (s_net t)) t) w)).
    { pose proof He as (Hi & _). apply wp_bind, (wp_get_netif _ f); [done|]. rewrite Hhop.
      apply wp_bind, (wp_find_known _ _ _ _ i e); [by destruct Hok|done|]. rewrite (proj2 (Z.ltb_ge _ _)) by lia.
      apply wp_bind, (wp_get_arp _ e); [lia|by rewrite Nat2Z.id|]. rewrite Hst; eval_states. apply wp_bind, wp_ret.
      apply wp_bind, (wp_get_arp _ e); [lia|by rewrite Nat2Z.id|]. rewrite Hst; eval_states. apply wp_bind, wp_ret.
      apply wp_bind, (wp_get_arp _ e); [lia|by rewrite Nat2Z.id|]. rewrite Hst. apply wp_bind, (wp_get_netif _ f); [done|].
      by apply (Hsend (set_cached_entry (Z.of_nat i) t)). }
    unfold next_hop, on_network in Hquery, Hgw. destruct (ip_addr_netcmp _ _ _); cbn [negb]; [done|].
    rewrite (proj2 (Z.eqb_neq _ _)) by by apply Hgw. done.
Qed.
End link.

(** * The UDP header *)
Definition udp_header (sport dport total : Z) : list Z := word2 sport ++ word2 dport ++ word2 total ++ [0; 0].
Definition with_udp (sport dport total : Z) (m : Z -> Z) : Z -> Z :=
  set16 4 (htons total) (set16 6 0 (set16 2 (htons dport) (set16 0 (htons sport) m))).
Lemma with_udp_prefix sport dport total m : prefix 8 (with_udp sport dport total m) = udp_header sport dport total.
Proof.
  unfold prefix, with_udp, udp_header, word2. cbn [seq fmap list_fmap app].
  destruct (byte_htons sport) as [E1 E2], (byte_htons dport) as [E3 E4], (byte_htons total) as [E5 E6].
  rewrite <- E1, <- E2, <- E3, <- E4, <- E5, <- E6. reflexivity.
Qed.
Lemma with_udp_rest sport dport total m i : 8 <= i -> with_udp sport dport total m i = m i.
Proof. intros Hi. unfold with_udp, set16. by rewrite !(proj2 (Z.eqb_neq i _)) by lia. Qed.

(** The headers of a datagram of [n] bytes, from [src] to [dst]. *)
Definition datagram_headers (src dst sport dport ttl tos id n : Z) : list Z :=
  ip_header tos (n + 28) id 0 ttl IP_PROTO_UDP 0 src dst ++ udp_header sport dport (n + 8).

Section datagram.
Context {W : Type} `{StackLaws W}.
Variable call_output : output_fn -> netif_ptr -> option ptr -> Z -> M W Z.
Variable ip_frag : ptr -> netif_ptr -> Z -> M W Z.
Implicit Types (t : stack) (w : W).

(** A control block that can send on [f]: bound to a port, and to the address of
    the interface or to none. *)
Record can_send (u : udp_pcb) (f : netif) : Prop := {
  send_port : local_port u <> 0;
  send_addr : ip_addr_isany (Some (local_ip u)) || ip_addr_cmp (local_ip u) (nif_ip_addr f) = true;
  send_ttl : 0 <= ttl u < 2 ^ 8;
  send_tos : 0 <= tos u < 2 ^ 8
}.

Lemma wp_udp_sendto_if l p b c o t w pcb u dst dport n f (Q : Z -> W -> Prop) : outgoing (s_net t) l p b c o -> 28 <= o ->
  tot_len b + 28 < 65536 -> pcbs t !! pcb = Some u -> netifs t !! n = Some f -> can_send u f ->
  (forall k, prepended (datagram_headers (nif_ip_addr f) dst (local_port u) dport (ttl u) (tos u) (ip_id t) (tot_len b)) p b c (s_net t) l k ->
     wp (send_on call_output ip_frag f (tot_len b + 28) p n dst) Q (put_stack (set_ip_id (u16 (ip_id t + 1)) (set_net k t)) w)) ->
  wp (udp_sendto_if call_output ip_frag pcb p dst dport n) Q (put_stack t w).
Proof.
  intros Ho Hge Hmax Hu Hn [Hport Haddr Httl Htos] HQ. destruct (outgoing_lens _ _ _ _ _ _ Ho) as (Hb & Hl & Hpos & Hroom).
  pose proof Ho as [Hok Hc Hnd _ _ Hty Hpay]. set (s := s_net t) in *. set (k0 := shift_pbuf 8 p b s).
  assert (Hok0 : net_ok k0 l) by (apply (shifted_ok _ _ _ _ o); try done; lia).
  assert (Hp0 : pbufs k0 !! p = Some (shifted 8 b)) by apply lookup_insert_eq.
  assert (Hin : forall i, 0 <= i <= 6 -> inside (o - 8) (shifted 8 b) i 2) by (intros; split; cbn; lia).
  set (m0 := fun i => bytes_at k0 p (o - 8 + i)). assert (Hv0 : view p (o - 8) m0 k0 l k0) by by apply view_refl.
  replace (put_stack t w) with (put_stack (set_net s t) w) by by unfold s; rewrite set_net_same.
  apply wp_bind, (wp_get_pcb _ u); [done|]. rewrite (proj2 (Z.eqb_neq _ _)) by done. apply wp_bind, wp_ret. cbn [Z.eqb ERR_OK negb].
  apply wp_bind, wp_bind, (wp_header_shift p b o); [done|done|done|lia|done|unfold UDP_HLEN; lia|unfold UDP_HLEN; lia|]. fold k0.
  cbn [Z.eqb negb]. apply wp_ret.
  apply wp_bind, (wp_payload_hdr p (o - 8) k0 l (shifted 8 b) Hp0 k0 m0); [done|cbn; by rewrite Hpay|].
  apply wp_bind, (wp_get_pcb _ u); [done|].
  apply wp_bind, (wp_set_hdr16 p (o - 8) k0 l _ Hp0 _ _ _ _ _ _ _ Hv0); [apply Hin; unfold udp_src; lia|]. intros k1 Hv1.
  apply wp_bind, (wp_set_hdr16 p (o - 8) k0 l _ Hp0 _ _ _ _ _ _ _ Hv1); [apply Hin; unfold udp_dest; lia|]. intros k2 Hv2.
  apply wp_bind, (wp_set_hdr16 p (o - 8) k0 l _ Hp0 _ _ _ _ _ _ _ Hv2); [apply Hin; unfold udp_chksum; lia|]. intros k3 Hv3.
  apply wp_bind, (wp_get_netif _ f); [done|]. rewrite <- negb_orb, Haddr. cbn [negb].
  apply wp_bind, wp_on_net, (wp_get_pbuf _ (shifted 8 b)); [cbn [s_net set_net]; by rewrite (view_pbufs _ _ _ _ _ _ Hv3)|].
  apply wp_bind, (wp_set_hdr16 p (o - 8) k0 l _ Hp0 _ _ _ _ _ _ _ Hv3); [apply Hin; unfold udp_len; lia|]. intros k4 Hv4.
  assert (Hk4 : prepended (udp_header (local_port u) dport (tot_len b + 8)) p b c s l k4).
  { eapply (prepended_view _ p b c o s l k4 _ Hok Hc Hnd Hpay); [cbn; lia|exact Hv4|apply with_udp_prefix|].
    intros i Hi. cbn in Hi. etransitivity; [by apply with_udp_rest|]. by destruct p. }
  assert (Ho4 : outgoing k4 l p (shifted 8 b) c (o - 8)) by (apply (outgoing_prepended (udp_header (local_port u) dport (tot_len b + 8)) s l p b c o k4); [done|cbn; lia|done]).
  change (set_net k4 (set_net s t)) with (set_net k4 t). set (any := ip_addr_isany (Some (local_ip u))) in *.
  set (src := if any then nif_ip_addr f else local_ip u). assert (Hsrc : src = nif_ip_addr f).
  { unfold src. destruct any; [done|]. by apply Z.eqb_eq in Haddr. }
  destruct (ip_output_if_run call_output ip_frag (set_net k4 t) w l p (shifted 8 b) c (o - 8) (Some src) dst (ttl u) (tos u) IP_PROTO_UDP n f)
    as (k5 & Hk5 & Hrun); [done|unfold IP_HLEN; lia|unfold IP_HLEN; cbn; lia|done..|].
  apply wp_bind, (wp_run_eq _ _ _ _ _ Hrun). cbn [tot_len shifted with_tot_len with_len with_payload]. unfold IP_HLEN.
  replace (tot_len b + 8 + 20) with (tot_len b + 28) by lia.
  eapply wp_mono; [apply HQ|].
  - apply (prepended_app _ _ _ _ _ _ _ k4 _ Hk4). cbn [tot_len shifted with_tot_len with_len with_payload] in Hk5. unfold IP_HLEN in Hk5.
    rewrite Hsrc in Hk5. destruct (ip_addr_isany (Some (nif_ip_addr f))); cbn [ip_addr_set] in Hk5;
      replace (tot_len b + 28) with (tot_len b + 8 + 20) by lia; exact Hk5.
  - intros err w' HQ'. cbn beta in HQ'. unfold free_header. rewrite bool_decide_eq_false_2 by auto. by apply wp_bind, wp_ret, wp_ret.
Qed.
End datagram.
