(* ===== verification/LwipTcpOut.v ===== *)
(** TCP output: core/tcp_out.c, with the macros of include/lwip/tcp.h and the
    functions of core/tcp.c that free segments.  The checksums are left to the
    controller (lwipopts.h). *)
From stdpp Require Import gmap.
From S2P Require Import Prelude Mmio LwipMem LwipPbuf LwipInet LwipStack LwipNetif LwipIpOut LwipTcpData.

(** * Comparisons of sequence numbers *)
Definition TCP_SEQ_LT (a b : Z) : bool := s32 (a - b) <? 0.
Definition TCP_SEQ_LEQ (a b : Z) : bool := s32 (a - b) <=? 0.
Definition TCP_SEQ_GT (a b : Z) : bool := 0 <? s32 (a - b).
Definition TCP_SEQ_GEQ (a b : Z) : bool := 0 <=? s32 (a - b).
Definition TCP_SEQ_BETWEEN (a b c : Z) : bool := TCP_SEQ_GEQ a b && TCP_SEQ_LEQ a c.

(** [x & f], [x | f] and [x & ~f] on flags. *)
Definition has (x f : Z) : bool := negb (Z.land x f =? 0).
Definition without (x f : Z) : Z := Z.land x (Z.lnot f).

(** * struct tcp_hdr *)
Definition tcp_src : Z := 0.
Definition tcp_dest : Z := 2.
Definition tcp_seqno : Z := 4.
Definition tcp_ackno : Z := 8.
Definition tcp_hdrlen_rsvd_flags : Z := 12.
Definition tcp_wnd : Z := 14.
Definition tcp_chksum : Z := 16.
Definition tcp_urgp : Z := 18.
Definition LWIP_TCP_OPT_LENGTH (flags : Z) : Z := if has flags TF_SEG_OPTS_MSS then 4 else 0.
Definition TCP_MSS_OPTION : Z :=
  htonl (Z.lor (Z.lor (Z.shiftl 2 24) (Z.shiftl 4 16)) (Z.lor (Z.shiftl (TCP_MSS / 256) 8) (Z.land TCP_MSS 255))).

(** At most 10 control blocks, 6 listeners and 12 segments exist. *)
Definition tcp_fuel : positive := 18.
Definition seg_fuel : positive := 14.

Section accesses.
Context {W : Type} `{HasStack W}.

Definition get_tcps {A} (f : tcp_vars -> A) : M W A := gets_stack (fun s => f (tcps s)).
Definition mod_tcps (f : tcp_vars -> tcp_vars) : M W unit := mod_stack (fun s => set_tcps (f (tcps s)) s).
Definition getn (g : tcp_global) : M W Z := get_tcps (fun t => globals t g).
Definition setn (g : tcp_global) (v : Z) : M W unit := mod_tcps (set_global_num g v).
Definition head (k : tcp_list) : M W (option ptr) := get_tcps (fun t => heads t k).
(** A pointer that is not null. *)
Definition need {A} (p : option A) : M W A := match p with Some a => mret a | None => fault end.

(** The members of a control block that every control block has... *)
Definition get_tcp (p : ptr) : M W tcp_pcb := r ← get_tcps (fun t => tcp_tab t !! p); need r.
Definition upd_tcp (p : ptr) (f : tcp_pcb -> tcp_pcb) : M W unit :=
  c ← get_tcp p; mod_tcps (fun t => set_tcp_tab (<[p := f c]> (tcp_tab t)) t).
(** ... and those that a listener has not. *)
Definition get_conn (p : ptr) : M W tcp_pcb :=
  match p with InPool MEMP_TCP_PCB _ => get_tcp p | _ => fault end.
Definition upd_conn (p : ptr) (f : tcp_pcb -> tcp_pcb) : M W unit := _ ← get_conn p; upd_tcp p f.
(** [pcb->f = v], and [pcb->f = g(pcb->f)] *)
Definition setf (p : ptr) (f : tcp_member) (v : Z) : M W unit := upd_conn p (with_num f v).
Definition modf (p : ptr) (f : tcp_member) (g : Z -> Z) : M W unit := upd_conn p (fun c => with_num f (g (num c f)) c).

Definition get_seg (q : ptr) : M W tcp_seg := r ← get_tcps (fun t => seg_tab t !! q); need r.
Definition upd_seg (q : ptr) (f : tcp_seg -> tcp_seg) : M W unit :=
  g ← get_seg q; mod_tcps (fun t => set_seg_tab (<[q := f g]> (seg_tab t)) t).
Definition tcp_hdr (g : tcp_seg) : M W header := need (seg_tcphdr g).

Definition TCPH_HDRLEN (h : header) : M W Z := w ← hdr16 h tcp_hdrlen_rsvd_flags; mret (Z.shiftr (ntohs w) 12).
Definition TCPH_FLAGS (h : header) : M W Z := w ← hdr16 h tcp_hdrlen_rsvd_flags; mret (Z.land (ntohs w) TCP_FLAGS).
Definition TCPH_HDRLEN_SET (h : header) (n : Z) : M W unit :=
  f ← TCPH_FLAGS h; set_hdr16 h tcp_hdrlen_rsvd_flags (htons (u16 (Z.lor (Z.shiftl n 12) f))).
Definition TCPH_FLAGS_SET (h : header) (f : Z) : M W unit :=
  w ← hdr16 h tcp_hdrlen_rsvd_flags; set_hdr16 h tcp_hdrlen_rsvd_flags (htons (u16 (Z.lor (without (ntohs w) TCP_FLAGS) f))).
Definition TCPH_SET_FLAG (h : header) (f : Z) : M W unit :=
  w ← hdr16 h tcp_hdrlen_rsvd_flags; set_hdr16 h tcp_hdrlen_rsvd_flags (htons (u16 (Z.lor (ntohs w) f))).
Definition TCP_TCPLEN (g : tcp_seg) : M W Z :=
  h ← tcp_hdr g; f ← TCPH_FLAGS h; mret (seg_len g + (if has f TCP_FIN || has f TCP_SYN then 1 else 0)).
(** [ntohl(seg->tcphdr->seqno)] *)
Definition seg_seqno (g : tcp_seg) : M W Z := h ← tcp_hdr g; v ← hdr32 h tcp_seqno; mret (ntohl v).

(** ** Freeing segments *)
Definition tcp_seg_free (seg : option ptr) : M W Z :=
  match seg with
  | None => mret 0
  | Some q =>
      g ← get_seg q;
      count ← (match seg_p g with Some _ => on_net (pbuf_free (seg_p g)) | None => mret 0 end);
      _ ← mod_tcps (fun t => set_seg_tab (delete q (seg_tab t)) t);
      _ ← on_net (memp_free MEMP_TCP_SEG seg);
      mret (u8 count)
  end.
Definition segs_free_body (a : option ptr * Z) : M W (option ptr * Z + Z) :=
  match a with
  | (None, count) => mret (inr count)
  | (Some q, count) => g ← get_seg q; n ← tcp_seg_free (Some q); mret (inl (seg_next g, u8 (count + n)))
  end.
Definition tcp_segs_free (seg : option ptr) : M W Z := loop seg_fuel segs_free_body (seg, 0).

(** ** Walks along a queue of segments *)

(** The last segment. *)
Definition last_seg_body (q : ptr) : M W (ptr + ptr) :=
  g ← get_seg q; mret (match seg_next g with Some n => inl n | None => inr q end).
Definition last_seg (q : option ptr) : M W (option ptr) :=
  match q with None => mret None | Some q => r ← loop seg_fuel last_seg_body q; mret (Some r) end.
(** The place in front of the first segment that does not come before [key]: the
    segments before and behind it. *)
Definition seg_place_body (key : Z) (a : option ptr * option ptr) : M W (option ptr * option ptr + option ptr * option ptr) :=
  match a with
  | (prev, None) => mret (inr (prev, None))
  | (prev, Some q) =>
      g ← get_seg q;
      n ← seg_seqno g;
      if TCP_SEQ_LT n key then mret (inl (Some q, seg_next g)) else mret (inr (prev, Some q))
  end.
(** Insert [seg] into the queue that starts at [first]; [set_first] changes its start. *)
Definition seg_insert (seg : ptr) (first : option ptr) (set_first : option ptr -> M W unit) : M W unit :=
  g ← get_seg seg;
  key ← seg_seqno g;
  r ← loop seg_fuel (seg_place_body key) (None, first);
  _ ← upd_seg seg (with_seg_next (snd r));
  match fst r with None => set_first (Some seg) | Some prev => upd_seg prev (with_seg_next (Some seg)) end.
End accesses.

Section tcp_out.
Context {W : Type} `{HasStack W}.
Variable call_output : output_fn -> netif_ptr -> option ptr -> Z -> M W Z.
Variable ip_frag : ptr -> netif_ptr -> Z -> M W Z.

(** * Headers of segments that are not queued *)
Definition tcp_output_set_header (pcb p : ptr) (optlen seqno_be : Z) : M W header :=
  tcphdr ← payload_hdr p;
  c ← get_conn pcb;
  _ ← set_hdr16 tcphdr tcp_src (htons (num c local_port));
  _ ← set_hdr16 tcphdr tcp_dest (htons (num c remote_port));
  _ ← set_hdr32 tcphdr tcp_seqno seqno_be;
  _ ← set_hdr32 tcphdr tcp_ackno (htonl (num c rcv_nxt));
  _ ← TCPH_FLAGS_SET tcphdr TCP_ACK;
  _ ← set_hdr16 tcphdr tcp_wnd (htons (num c rcv_ann_wnd));
  _ ← set_hdr16 tcphdr tcp_urgp 0;
  _ ← TCPH_HDRLEN_SET tcphdr (5 + optlen / 4);
  _ ← set_hdr16 tcphdr tcp_chksum 0;
  _ ← setf pcb rcv_ann_right_edge (num c rcv_nxt + num c rcv_ann_wnd);
  mret tcphdr.

(** [ip_output(p, &(pcb->local_ip), &(pcb->remote_ip), ttl, tos, IP_PROTO_TCP)] *)
Definition pcb_output (pcb p : ptr) (tos_of : tcp_pcb -> Z) : M W Z :=
  c ← get_conn pcb;
  ip_output call_output ip_frag p (Some (num c local_ip)) (num c remote_ip) (num c ttl) (tos_of c) IP_PROTO_TCP.

(** * tcp_enqueue *)

(** The variables of the loop that breaks the data up: [ptr] is what is left of the
    data. *)
Record enqueue : Type := Enqueue {
  e_queue : option ptr; e_seg : option ptr; e_left : Z; e_seglen : Z; e_seqno : Z; e_queuelen : Z; e_ptr : list Z
}.
(** The new pbuf [p] refers to the bytes [data] of the application. *)
Definition refer (p : ptr) (data : list Z) : M net unit :=
  match p with
  | InPool t i =>
      _ ← modify (set_pool t i (fun o => nth (Z.to_nat o) data 0));
      upd_pbuf p (fun b => with_room (Z.of_nat (length data)) (with_payload (Some 0) b))
  | InHeap _ => fault
  end.

(** The pbufs of one segment, with the new length of the queue; [None] is the jump
    to memerr. *)
Definition enqueue_copy (seg : ptr) (has_arg : bool) (seglen optlen queuelen : Z) (data : list Z) : M W (option Z) :=
  p ← on_net (pbuf_alloc PBUF_TRANSPORT (seglen + optlen) PBUF_RAM);
  _ ← upd_seg seg (with_seg_p p);
  match p with
  | None => mret None
  | Some q =>
      n ← on_net (pbuf_clen p);
      _ ← (if has_arg : bool then on_net (payload_write q optlen (firstn (Z.to_nat seglen) data)) else mret tt);
      h ← payload_hdr q;
      _ ← upd_seg seg (with_dataptr (Some h));
      mret (Some (u16 (queuelen + n)))
  end.
Definition enqueue_ref (seg : ptr) (lft seglen optlen queuelen : Z) (data : list Z) : M W (option Z) :=
  hd ← on_net (pbuf_alloc PBUF_TRANSPORT optlen PBUF_RAM);
  _ ← upd_seg seg (with_seg_p hd);
  match hd with
  | None => mret None
  | Some _ =>
      n ← on_net (pbuf_clen hd);
      let queuelen := u16 (queuelen + n) in
      if 0 <? lft then
        p ← on_net (pbuf_alloc PBUF_RAW seglen PBUF_ROM);
        match p with
        | None => _ ← on_net (pbuf_free hd); _ ← upd_seg seg (with_seg_p None); mret None
        | Some q =>
            _ ← on_net (refer q data);
            _ ← upd_seg seg (with_dataptr (Some (q, 0)));
            _ ← on_net (pbuf_cat hd p);
            mret (Some (u16 (queuelen + 1)))
        end
      else mret (Some queuelen)
  end.
(** The TCP header of a segment that is queued. *)
Definition enqueue_header (pcb seg p : ptr) (sn flags optflags optlen : Z) : M W unit :=
  h ← payload_hdr p;
  _ ← upd_seg seg (with_seg_tcphdr (Some h));
  c ← get_conn pcb;
  _ ← set_hdr16 h tcp_src (htons (num c local_port));
  _ ← set_hdr16 h tcp_dest (htons (num c remote_port));
  _ ← set_hdr32 h tcp_seqno (htonl sn);
  _ ← set_hdr16 h tcp_urgp 0;
  _ ← TCPH_FLAGS_SET h flags;
  _ ← upd_seg seg (with_seg_flags optflags);
  TCPH_HDRLEN_SET h (5 + optlen / 4).

(** One turn of the loop; the answer says whether memory was left. *)
Definition enqueue_body (pcb : ptr) (has_arg : bool) (flags apiflags optflags optlen : Z) (a : enqueue)
  : M W (enqueue + bool * enqueue) :=
  if bool_decide (e_queue a <> None) && negb (0 <? e_left a) then mret (inr (true, a))
  else
    c ← get_conn pcb;
    let room := num c mss - optlen in
    let seglen := u16 (if room <? e_left a then room else e_left a) in
    s ← on_net (memp_malloc MEMP_TCP_SEG);
    match s with
    | None => mret (inr (false, a))
    | Some seg =>
        _ ← mod_tcps (fun t => set_seg_tab (<[seg := tcp_seg_zero]> (seg_tab t)) t);
        _ ← (match e_queue a with
             | None => mret tt
             | Some _ => useg ← need (e_seg a); upd_seg useg (with_seg_next (Some seg))
             end);
        let queue := match e_queue a with None => Some seg | Some q => Some q end in
        let failed := Enqueue queue (Some seg) (e_left a) seglen (e_seqno a) (e_queuelen a) (e_ptr a) in
        r ← (if has apiflags TCP_WRITE_FLAG_COPY then enqueue_copy seg has_arg seglen optlen (e_queuelen a) (e_ptr a)
             else enqueue_ref seg (e_left a) seglen optlen (e_queuelen a) (e_ptr a));
        match r with
        | None => mret (inr (false, failed))
        | Some queuelen =>
            if (TCP_SND_QUEUELEN <? queuelen) || (TCP_SNDQUEUELEN_OVERFLOW <? queuelen) then mret (inr (false, failed))
            else
              _ ← upd_seg seg (with_seg_len seglen);
              g ← get_seg seg;
              r ← on_net (pbuf_header (seg_p g) TCP_HLEN);
              if negb (r =? 0) then mret (inr (false, failed))
              else
                p ← need (seg_p g);
                _ ← enqueue_header pcb seg p (e_seqno a) flags optflags optlen;
                mret (inl (Enqueue queue (Some seg) (u16 (e_left a - seglen)) seglen (u32 (e_seqno a + seglen)) queuelen
                             (skipn (Z.to_nat seglen) (e_ptr a))))
        end
    end.

(** Can the segment at [queue] be joined to [useg], the last one of the unsent? *)
Definition can_join (pcb useg queue : ptr) (flags : Z) : M W bool :=
  u ← get_seg useg;
  n ← TCP_TCPLEN u;
  h ← tcp_hdr u;
  f ← TCPH_FLAGS h;
  g ← get_seg queue;
  c ← get_conn pcb;
  mret (negb (n =? 0) && negb (has f (Z.lor TCP_SYN TCP_FIN)) && negb (has flags (Z.lor TCP_SYN TCP_FIN))
        && (seg_len u + seg_len g <=? num c mss) && (seg_flags u =? seg_flags g)).

(** The first new segment is joined to [useg]: the last new segment, its length and
    the new length of the queue, or [None] for the jump to memerr. *)
Definition join_segs (useg queue : ptr) (optlen : Z) (a : enqueue) : M W (option (option ptr * Z * Z)) :=
  g ← get_seg queue;
  r ← on_net (pbuf_header (seg_p g) (- (TCP_HLEN + optlen)));
  if negb (r =? 0) then mret None
  else
    p ← need (seg_p g);
    b ← on_net (get_pbuf p);
    queuelen ← (if len b =? 0 then
                  _ ← upd_seg queue (with_seg_p (next b));
                  _ ← on_net (upd_pbuf p (with_next None));
                  _ ← on_net (pbuf_free (Some p));
                  mret (u16 (e_queuelen a - 1))
                else mret (e_queuelen a));
    g ← get_seg queue;
    u ← get_seg useg;
    _ ← on_net (pbuf_cat (seg_p u) (seg_p g));
    _ ← upd_seg useg (fun u => with_seg_next (seg_next g) (with_seg_len (seg_len u + seg_len g) u));
    u ← get_seg useg;
    let seg := if bool_decide (e_seg a = Some queue) then (Some useg, seg_len u) else (e_seg a, e_seglen a) in
    _ ← mod_tcps (fun t => set_seg_tab (delete queue (seg_tab t)) t);
    _ ← on_net (memp_free MEMP_TCP_SEG (Some queue));
    mret (Some (seg, queuelen)).

Definition enqueue_memerr (pcb : ptr) (queue : option ptr) : M W Z :=
  _ ← modf pcb pcb_flags (fun f => Z.lor f TF_NAGLEMEMERR);
  _ ← (match queue with Some _ => tcp_segs_free queue | None => mret 0 end);
  mret ERR_MEM.
(** The end, with the last segment, its length and the length of the queue. *)
Definition enqueue_done (pcb : ptr) (n flags apiflags : Z) (r : option ptr * Z * Z) : M W Z :=
  let '(seg, seglen, queuelen) := r in
  let n := if has flags TCP_SYN || has flags TCP_FIN then u16 (n + 1) else n in
  _ ← (if has flags TCP_FIN then modf pcb pcb_flags (fun f => Z.lor f TF_FIN) else mret tt);
  _ ← modf pcb snd_lbb (fun x => x + n);
  _ ← modf pcb snd_buf (fun x => x - n);
  _ ← setf pcb snd_queuelen queuelen;
  _ ← (match seg with
       | Some q =>
           g ← get_seg q;
           match seg_tcphdr g with
           | Some h => if (0 <? seglen) && negb (has apiflags TCP_WRITE_FLAG_MORE) then TCPH_SET_FLAG h TCP_PSH else mret tt
           | None => mret tt
           end
       | None => mret tt
       end);
  mret ERR_OK.

(** [arg] and [len]: the data, or null. *)
Definition tcp_enqueue (pcb : ptr) (arg : option (list Z)) (len flags apiflags optflags : Z) : M W Z :=
  if (len =? 0) && (optflags =? 0) && negb (has flags (Z.lor TCP_SYN TCP_FIN)) then mret ERR_ARG
  else if (len =? 0) && bool_decide (arg <> None) then mret ERR_ARG
  else
    c ← get_conn pcb;
    let queuelen := num c snd_queuelen in
    if (num c snd_buf <? len) || (TCP_SND_QUEUELEN <=? queuelen) || (TCP_SNDQUEUELEN_OVERFLOW <? queuelen) then
      _ ← modf pcb pcb_flags (fun f => Z.lor f TF_NAGLEMEMERR); mret ERR_MEM
    else
      let optlen := LWIP_TCP_OPT_LENGTH optflags in
      r ← loop seg_fuel (enqueue_body pcb (bool_decide (arg <> None)) flags apiflags optflags optlen)
            (Enqueue None None len 0 (num c snd_lbb) queuelen (default [] arg));
      let '(ok, a) := r in
      if negb ok then enqueue_memerr pcb (e_queue a)
      else
        queue ← need (e_queue a);
        c ← get_conn pcb;
        useg ← last_seg (unsent c);
        r ← (match useg with
             | None => _ ← upd_conn pcb (with_unsent (Some queue)); mret (Some (e_seg a, e_seglen a, e_queuelen a))
             | Some u =>
                 join ← can_join pcb u queue flags;
                 if join : bool then join_segs u queue optlen a
                 else _ ← upd_seg u (with_seg_next (Some queue)); mret (Some (e_seg a, e_seglen a, e_queuelen a))
             end);
        match r with None => enqueue_memerr pcb (Some queue) | Some r => enqueue_done pcb len flags apiflags r end.

Definition tcp_send_ctrl (pcb : ptr) (flags : Z) : M W Z := tcp_enqueue pcb None 0 flags TCP_WRITE_FLAG_COPY 0.
Definition tcp_write (pcb : ptr) (data : list Z) (len apiflags : Z) : M W Z :=
  c ← get_tcp pcb;
  if bool_decide (state c ∈ [ESTABLISHED; CLOSE_WAIT; SYN_SENT; SYN_RCVD]) then
    if 0 <? len then tcp_enqueue pcb (Some data) len 0 apiflags 0 else mret ERR_OK
  else mret ERR_CONN.

(** * tcp_output *)
Definition tcp_output_segment (seg pcb : ptr) : M W unit :=
  g ← get_seg seg;
  h ← tcp_hdr g;
  c ← get_conn pcb;
  _ ← set_hdr32 h tcp_ackno (htonl (num c rcv_nxt));
  _ ← set_hdr16 h tcp_wnd (htons (num c rcv_ann_wnd));
  _ ← setf pcb rcv_ann_right_edge (num c rcv_nxt + num c rcv_ann_wnd);
  _ ← (if has (seg_flags g) TF_SEG_OPTS_MSS then set_hdr32 h TCP_HLEN TCP_MSS_OPTION else mret tt);
  routed ← (if ip_addr_isany (Some (num c local_ip)) then
              n ← ip_route (num c remote_ip);
              match n with
              | None => mret false
              | Some n => f ← get_netif n; _ ← setf pcb local_ip (nif_ip_addr f); mret true
              end
            else mret true);
  if negb routed then mret tt
  else
    _ ← (if num c rtime =? -1 then setf pcb rtime 0 else mret tt);
    _ ← (if num c rttest =? 0 then
           ticks ← getn tcp_ticks;
           _ ← setf pcb rttest ticks;
           n ← seg_seqno g;
           setf pcb rtseq n
         else mret tt);
    p ← need (seg_p g);
    b ← on_net (get_pbuf p);
    o ← need (payload b);
    if negb (bool_decide (fst h = p)) then fault
    else
      let n := u16 (snd h - o) in
      _ ← on_net (upd_pbuf p (fun b => with_payload (Some (snd h)) (with_tot_len (u16 (tot_len b - n)) (with_len (u16 (len b - n)) b))));
      _ ← set_hdr16 h tcp_chksum 0;
      _ ← pcb_output pcb p (fun c => num c tos);
      mret tt.

(** [ntohl(seg->tcphdr->seqno) - pcb->lastack + seg->len] *)
Definition seg_right (c : tcp_pcb) (g : tcp_seg) : M W Z := n ← seg_seqno g; mret (u32 (n - num c lastack + seg_len g)).
Definition tcp_do_output_nagle (c : tcp_pcb) : M W bool :=
  if bool_decide (unacked c = None) || has (num c pcb_flags) TF_NODELAY then mret true
  else
    match unsent c with
    | None => mret false
    | Some q => g ← get_seg q; mret (bool_decide (seg_next g <> None) || (num c mss <=? seg_len g))
    end.

(** Put the segment that was sent on the unacked list, whose last segment is [useg];
    the new last segment. *)
Definition seg_to_unacked (pcb seg : ptr) (useg : option ptr) : M W (option ptr) :=
  _ ← upd_seg seg (with_seg_next None);
  c ← get_conn pcb;
  match unacked c with
  | None => _ ← upd_conn pcb (with_unacked (Some seg)); mret (Some seg)
  | Some first =>
      u ← need useg;
      g ← get_seg seg;
      n ← seg_seqno g;
      gu ← get_seg u;
      nu ← seg_seqno gu;
      if TCP_SEQ_LT n nu then
        _ ← seg_insert seg (Some first) (fun q => upd_conn pcb (with_unacked q)); mret (Some u)
      else _ ← upd_seg u (with_seg_next (Some seg)); mret (Some seg)
  end.

(** One turn of the loop of tcp_output, on the last unacked segment. *)
Definition output_body (pcb : ptr) (wnd : Z) (useg : option ptr) : M W (option ptr + unit) :=
  c ← get_conn pcb;
  match unsent c with
  | None => mret (inr tt)
  | Some seg =>
      g ← get_seg seg;
      right ← seg_right c g;
      if negb (right <=? wnd) then mret (inr tt)
      else
        nagle ← tcp_do_output_nagle c;
        if negb nagle && negb (has (num c pcb_flags) (Z.lor TF_NAGLEMEMERR TF_FIN)) then mret (inr tt)
        else
          _ ← upd_conn pcb (with_unsent (seg_next g));
          _ ← (if bool_decide (state c <> SYN_SENT) then
                 h ← tcp_hdr g;
                 _ ← TCPH_SET_FLAG h TCP_ACK;
                 modf pcb pcb_flags (fun f => without f (Z.lor TF_ACK_DELAY TF_ACK_NOW))
               else mret tt);
          _ ← tcp_output_segment seg pcb;
          g ← get_seg seg;
          sn ← seg_seqno g;
          n ← TCP_TCPLEN g;
          c ← get_conn pcb;
          _ ← (if TCP_SEQ_LT (num c snd_nxt) (sn + n) then setf pcb snd_nxt (sn + n) else mret tt);
          useg ← (if 0 <? n then seg_to_unacked pcb seg useg else _ ← tcp_seg_free (Some seg); mret useg);
          mret (inl useg)
  end.

(** An empty segment with the acknowledgement. *)
Definition output_ack (pcb : ptr) : M W Z :=
  p ← on_net (pbuf_alloc PBUF_IP TCP_HLEN PBUF_RAM);
  match p with
  | None => mret ERR_BUF
  | Some q =>
      _ ← modf pcb pcb_flags (fun f => without f (Z.lor TF_ACK_DELAY TF_ACK_NOW));
      c ← get_conn pcb;
      _ ← tcp_output_set_header pcb q 0 (htonl (num c snd_nxt));
      _ ← pcb_output pcb q (fun c => num c tos);
      _ ← on_net (pbuf_free p);
      mret ERR_OK
  end.

Definition tcp_output (pcb : ptr) : M W Z :=
  input_pcb ← get_tcps tcp_input_pcb;
  if bool_decide (input_pcb = Some pcb) then mret ERR_OK
  else
    c ← get_conn pcb;
    let wnd := Z.min (num c snd_wnd) (num c cwnd) in
    useg ← last_seg (unacked c);
    empty ← (if has (num c pcb_flags) TF_ACK_NOW then
               match unsent c with
               | None => mret true
               | Some seg => g ← get_seg seg; right ← seg_right c g; mret (wnd <? right)
               end
             else mret false);
    if empty : bool then output_ack pcb
    else
      _ ← loop seg_fuel (output_body pcb wnd) useg;
      c ← get_conn pcb;
      _ ← (match unsent c with
           | Some seg =>
               if num c persist_backoff =? 0 then
                 g ← get_seg seg;
                 right ← seg_right c g;
                 if num c snd_wnd <? right then _ ← setf pcb persist_cnt 0; setf pcb persist_backoff 1 else mret tt
               else mret tt
           | None => mret tt
           end);
      _ ← modf pcb pcb_flags (fun f => without f TF_NAGLEMEMERR);
      mret ERR_OK.

(** The macros tcp_ack and tcp_ack_now. *)
Definition tcp_ack_now (pcb : ptr) : M W unit :=
  _ ← modf pcb pcb_flags (fun f => Z.lor f TF_ACK_NOW);
  _ ← tcp_output pcb;
  mret tt.
Definition tcp_ack (pcb : ptr) : M W unit :=
  c ← get_conn pcb;
  if has (num c pcb_flags) TF_ACK_DELAY then
    _ ← modf pcb pcb_flags (fun f => Z.lor (without f TF_ACK_DELAY) TF_ACK_NOW);
    _ ← tcp_output pcb;
    mret tt
  else modf pcb pcb_flags (fun f => Z.lor f TF_ACK_DELAY).

(** * Segments outside the queues *)
Definition tcp_rst (sn an : Z) (local remote : Z) (lport rport : Z) : M W unit :=
  p ← on_net (pbuf_alloc PBUF_IP TCP_HLEN PBUF_RAM);
  match p with
  | None => mret tt
  | Some q =>
      h ← payload_hdr q;
      _ ← set_hdr16 h tcp_src (htons lport);
      _ ← set_hdr16 h tcp_dest (htons rport);
      _ ← set_hdr32 h tcp_seqno (htonl (u32 sn));
      _ ← set_hdr32 h tcp_ackno (htonl (u32 an));
      _ ← TCPH_FLAGS_SET h (Z.lor TCP_RST TCP_ACK);
      _ ← set_hdr16 h tcp_wnd (htons TCP_WND);
      _ ← set_hdr16 h tcp_urgp 0;
      _ ← TCPH_HDRLEN_SET h 5;
      _ ← set_hdr16 h tcp_chksum 0;
      _ ← ip_output call_output ip_frag q (Some local) remote TCP_TTL 0 IP_PROTO_TCP;
      _ ← on_net (pbuf_free p);
      mret tt
  end.

(** The segments are sent again. *)
Definition tcp_rexmit_rto (pcb : ptr) : M W unit :=
  c ← get_conn pcb;
  match unacked c with
  | None => mret tt
  | Some first =>
      l ← loop seg_fuel last_seg_body first;
      _ ← upd_seg l (with_seg_next (unsent c));
      _ ← upd_conn pcb (fun c => with_unacked None (with_unsent (unacked c) c));
      _ ← modf pcb nrtx (fun n => n + 1);
      _ ← setf pcb rttest 0;
      _ ← tcp_output pcb;
      mret tt
  end.
Definition tcp_rexmit (pcb : ptr) : M W unit :=
  c ← get_conn pcb;
  match unacked c with
  | None => mret tt
  | Some seg =>
      g ← get_seg seg;
      _ ← upd_conn pcb (with_unacked (seg_next g));
      _ ← seg_insert seg (unsent c) (fun q => upd_conn pcb (with_unsent q));
      _ ← modf pcb nrtx (fun n => n + 1);
      _ ← setf pcb rttest 0;
      _ ← tcp_output pcb;
      mret tt
  end.

Definition tcp_keepalive (pcb : ptr) : M W unit :=
  p ← on_net (pbuf_alloc PBUF_IP TCP_HLEN PBUF_RAM);
  match p with
  | None => mret tt
  | Some q =>
      c ← get_conn pcb;
      _ ← tcp_output_set_header pcb q 0 (htonl (u32 (num c snd_nxt - 1)));
      _ ← pcb_output pcb q (fun _ => 0);
      _ ← on_net (pbuf_free p);
      mret tt
  end.
Definition tcp_zero_window_probe (pcb : ptr) : M W unit :=
  c ← get_conn pcb;
  match (match unacked c with Some q => Some q | None => unsent c end) with
  | None => mret tt
  | Some seg =>
      p ← on_net (pbuf_alloc PBUF_IP (TCP_HLEN + 1) PBUF_RAM);
      match p with
      | None => mret tt
      | Some q =>
          g ← get_seg seg;
          h ← tcp_hdr g;
          n ← hdr32 h tcp_seqno;
          _ ← tcp_output_set_header pcb q 0 n;
          d ← need (dataptr g);
          v ← hdr8 d 0;
          to ← payload_hdr q;
          _ ← set_hdr8 to TCP_HLEN v;
          _ ← pcb_output pcb q (fun _ => 0);
          _ ← on_net (pbuf_free p);
          mret tt
      end
  end.
End tcp_out.
