(* ===== verification/LwipTcp.v ===== *)
(** TCP control blocks: core/tcp.c.  The functions of the application are a
    parameter. *)
From stdpp Require Import gmap.
From S2P Require Import Prelude Mmio LwipMem LwipPbuf LwipInet LwipStack LwipNetif LwipIpOut LwipTcpData LwipTcpOut.

(** The callbacks that an application may register: the number of the function, its
    argument [callback_arg], and what the event has besides. *)
Record tcp_app (W : Type) : Type := TcpApp {
  call_tcp_recv : nat -> option ptr -> ptr -> option ptr -> Z -> M W Z;
  call_tcp_sent : nat -> option ptr -> ptr -> Z -> M W Z;
  call_tcp_connected : nat -> option ptr -> ptr -> Z -> M W Z;
  call_tcp_poll : nat -> option ptr -> ptr -> M W Z;
  call_tcp_err : nat -> option ptr -> Z -> M W unit;
  call_tcp_accept : nat -> option ptr -> ptr -> Z -> M W Z
}.
Arguments call_tcp_recv {W}. Arguments call_tcp_sent {W}. Arguments call_tcp_connected {W}.
Arguments call_tcp_poll {W}. Arguments call_tcp_err {W}. Arguments call_tcp_accept {W}.

Definition tcp_backoff : list Z := [1; 2; 3; 4; 5; 6; 7; 7; 7; 7; 7; 7; 7].
Definition tcp_persist_backoff : list Z := [3; 6; 12; 24; 48; 96; 120].

Section tcp.
Context {W : Type} `{HasStack W}.
Variable call_output : output_fn -> netif_ptr -> option ptr -> Z -> M W Z.
Variable ip_frag : ptr -> netif_ptr -> Z -> M W Z.
Variable app : tcp_app W.
(** What a member of a listener holds before it is set: its memory is not cleared. *)
Variable stale : ptr -> tcp_member -> Z.

Notation tcp_output := (tcp_output call_output ip_frag).
Notation tcp_ack_now := (tcp_ack_now call_output ip_frag).
Notation tcp_rst := (tcp_rst call_output ip_frag).

(** ** The lists of control blocks *)
Definition TCP_REG (k : tcp_list) (npcb : ptr) : M W unit :=
  first ← head k;
  _ ← upd_tcp npcb (with_tcp_next first);
  mod_tcps (set_head k (Some npcb)).
Definition rmv_body (npcb : ptr) (t : option ptr) : M W (option ptr + unit) :=
  match t with
  | None => mret (inr tt)
  | Some q =>
      c ← get_tcp q;
      if bool_decide (tcp_next c = Some npcb) then
        n ← get_tcp npcb; _ ← upd_tcp q (with_tcp_next (tcp_next n)); mret (inr tt)
      else mret (inl (tcp_next c))
  end.
Definition TCP_RMV (k : tcp_list) (npcb : ptr) : M W unit :=
  first ← head k;
  _ ← (if bool_decide (first = Some npcb) then c ← get_tcp npcb; mod_tcps (set_head k (tcp_next c))
       else loop tcp_fuel (rmv_body npcb) first);
  upd_tcp npcb (with_tcp_next None).
Definition free_tcp (t : memp_t) (pcb : ptr) : M W unit :=
  _ ← mod_tcps (fun s => set_tcp_tab (delete pcb (tcp_tab s)) s);
  on_net (memp_free t (Some pcb)).

Definition tcp_pcb_purge (pcb : ptr) : M W unit :=
  c ← get_tcp pcb;
  if bool_decide (state c ∈ [CLOSED; TIME_WAIT; LISTEN]) then mret tt
  else
    c ← get_conn pcb;
    _ ← (match refused_data c with
         | Some p => _ ← on_net (pbuf_free (Some p)); upd_conn pcb (with_refused_data None)
         | None => mret tt
         end);
    _ ← tcp_segs_free (unsent c);
    _ ← tcp_segs_free (unacked c);
    upd_conn pcb (fun c => with_unacked None (with_unsent None c)).
Definition tcp_pcb_remove (k : tcp_list) (pcb : ptr) : M W unit :=
  _ ← TCP_RMV k pcb;
  _ ← tcp_pcb_purge pcb;
  c ← get_tcp pcb;
  _ ← (if bool_decide (state c ∈ [TIME_WAIT; LISTEN]) then mret tt
       else
         c ← get_conn pcb;
         if has (num c pcb_flags) TF_ACK_DELAY then
           _ ← modf pcb pcb_flags (fun f => Z.lor f TF_ACK_NOW); _ ← tcp_output pcb; mret tt
         else mret tt);
  upd_tcp pcb (with_state CLOSED).

Definition TCP_EVENT_ERR (f : option nat) (arg : option ptr) (err : Z) : M W unit :=
  match f with Some f => call_tcp_err app f arg err | None => mret tt end.

Definition tcp_abandon (pcb : ptr) (reset : bool) : M W unit :=
  c ← get_tcp pcb;
  if bool_decide (state c = TIME_WAIT) then _ ← tcp_pcb_remove tcp_tw_pcbs pcb; free_tcp MEMP_TCP_PCB pcb
  else
    c ← get_conn pcb;
    _ ← tcp_pcb_remove tcp_active_pcbs pcb;
    d ← get_conn pcb;
    _ ← (match unacked d with Some _ => tcp_segs_free (unacked d) | None => mret 0 end);
    _ ← (match unsent d with Some _ => tcp_segs_free (unsent d) | None => mret 0 end);
    _ ← free_tcp MEMP_TCP_PCB pcb;
    _ ← TCP_EVENT_ERR (errf c) (callback_arg c) ERR_ABRT;
    if reset then
      tcp_rst (num c snd_nxt) (num c rcv_nxt) (num c local_ip) (num c remote_ip) (num c local_port) (num c remote_port)
    else mret tt.
Definition tcp_abort (pcb : ptr) : M W unit := tcp_abandon pcb true.

(** ** Closing *)

(** A FIN is queued; if that works, the connection changes its state and what is
    queued is sent. *)
Definition close_with_fin (pcb : ptr) (st : tcp_state) : M W Z :=
  err ← tcp_send_ctrl pcb TCP_FIN;
  if err =? ERR_OK then _ ← upd_tcp pcb (with_state st); _ ← tcp_output pcb; mret err else mret err.
Definition tcp_close (pcb : ptr) : M W Z :=
  c ← get_tcp pcb;
  match state c with
  | CLOSED => _ ← TCP_RMV tcp_bound_pcbs pcb; _ ← free_tcp MEMP_TCP_PCB pcb; mret ERR_OK
  | LISTEN => _ ← tcp_pcb_remove tcp_listen_pcbs pcb; _ ← free_tcp MEMP_TCP_PCB_LISTEN pcb; mret ERR_OK
  | SYN_SENT => _ ← tcp_pcb_remove tcp_active_pcbs pcb; _ ← free_tcp MEMP_TCP_PCB pcb; mret ERR_OK
  | SYN_RCVD | ESTABLISHED => close_with_fin pcb FIN_WAIT_1
  | CLOSE_WAIT => close_with_fin pcb LAST_ACK
  | _ => mret ERR_OK
  end.

(** ** Events of the application *)
Definition tcp_recv_null (arg : option ptr) (pcb : ptr) (p : option ptr) (err : Z) : M W Z :=
  match p with
  | Some _ => _ ← on_net (pbuf_free p); mret ERR_OK
  | None => if err =? ERR_OK then tcp_close pcb else mret ERR_OK
  end.
Definition TCP_EVENT_RECV (pcb : ptr) (p : option ptr) (err : Z) : M W Z :=
  c ← get_conn pcb;
  match tcp_recv_cb c with
  | Some tcp_recv_null_ptr => tcp_recv_null (callback_arg c) pcb p err
  | Some (tcp_recv_app f) => call_tcp_recv app f (callback_arg c) pcb p err
  | None => _ ← (match p with Some _ => on_net (pbuf_free p) | None => mret 0 end); mret ERR_OK
  end.
Definition TCP_EVENT_SENT (pcb : ptr) (space : Z) : M W Z :=
  c ← get_conn pcb;
  match sent c with Some f => call_tcp_sent app f (callback_arg c) pcb space | None => mret ERR_OK end.
Definition TCP_EVENT_CONNECTED (pcb : ptr) (err : Z) : M W Z :=
  c ← get_conn pcb;
  match connected c with Some f => call_tcp_connected app f (callback_arg c) pcb err | None => mret ERR_OK end.
Definition TCP_EVENT_POLL (pcb : ptr) : M W Z :=
  c ← get_conn pcb;
  match poll c with Some f => call_tcp_poll app f (callback_arg c) pcb | None => mret ERR_OK end.
Definition tcp_accept_null : Z := ERR_ABRT.
Definition TCP_EVENT_ACCEPT (pcb : ptr) (err : Z) : M W Z :=
  c ← get_tcp pcb;
  match accept c with
  | Some tcp_accept_null_ptr => mret tcp_accept_null
  | Some (tcp_accept_app f) => call_tcp_accept app f (callback_arg c) pcb err
  | None => mret ERR_OK
  end.

(** ** Ports *)

(** Does a control block of the list have the local port, and [same] address? *)
Definition on_port_body (port : Z) (same : Z -> M W bool) (q : option ptr) : M W (option ptr + bool) :=
  match q with
  | None => mret (inr false)
  | Some p =>
      c ← get_tcp p;
      if num c local_port =? port then
        taken ← same (num c local_ip);
        mret (if taken : bool then inr true else inl (tcp_next c))
      else mret (inl (tcp_next c))
  end.
Definition port_on_list (k : tcp_list) (port : Z) (same : Z -> M W bool) : M W bool :=
  first ← head k; loop tcp_fuel (on_port_body port same) first.

Definition new_port_body (port : Z) : M W (Z + Z) :=
  let any (_ : Z) := mret true in
  let port := u16 (port + 1) in
  let port := if TCP_LOCAL_PORT_RANGE_END <? port then TCP_LOCAL_PORT_RANGE_START else port in
  _ ← setn last_port port;
  a ← port_on_list tcp_active_pcbs port any;
  if a : bool then mret (inl port)
  else
    t ← port_on_list tcp_tw_pcbs port any;
    if t : bool then mret (inl port)
    else
      l ← port_on_list tcp_listen_pcbs port any;
      if l : bool then mret (inl port) else mret (inr port).
(** There are more ports in the range than control blocks. *)
Definition tcp_new_port : M W Z := port ← getn last_port; loop 0x8000 new_port_body port.

(** The search for a conflict on the four lists, and the binding. *)
Definition bind_port (pcb : ptr) (ipaddr : option Z) (port : Z) : M W Z :=
  let overlaps a := mret (ip_addr_isany (Some a) || ip_addr_isany ipaddr || ip_addr_cmp a (ip_addr_set ipaddr)) in
  let equals a := b ← need ipaddr; mret (ip_addr_cmp a b) in
  l ← port_on_list tcp_listen_pcbs port overlaps;
  if l : bool then mret ERR_USE
  else
    a ← port_on_list tcp_active_pcbs port overlaps;
    if a : bool then mret ERR_USE
    else
      b ← port_on_list tcp_bound_pcbs port overlaps;
      if b : bool then mret ERR_USE
      else
        t ← port_on_list tcp_tw_pcbs port equals;
        if t : bool then mret ERR_USE
        else
          _ ← (if ip_addr_isany ipaddr then mret tt else upd_tcp pcb (with_num local_ip (ip_addr_set ipaddr)));
          _ ← upd_tcp pcb (with_num local_port port);
          _ ← TCP_REG tcp_bound_pcbs pcb;
          mret ERR_OK.
Definition tcp_bind (pcb : ptr) (ipaddr : option Z) (port : Z) : M W Z :=
  c ← get_tcp pcb;
  if bool_decide (state c <> CLOSED) then mret ERR_ISCONN
  else
    port ← (if port =? 0 then tcp_new_port else mret port);
    bind_port pcb ipaddr port.

Definition tcp_listen_with_backlog (pcb : ptr) : M W (option ptr) :=
  c ← get_tcp pcb;
  if bool_decide (state c <> CLOSED) then mret None
  else
    l ← on_net (memp_malloc MEMP_TCP_PCB_LISTEN);
    match l with
    | None => mret None
    | Some lpcb =>
        let d := with_num local_ip (num c local_ip) (with_num tos (num c tos) (with_num ttl (num c ttl)
          (with_num so_options (Z.lor (num c so_options) SOF_ACCEPTCONN) (with_num local_port (num c local_port)
          (TcpPcb None LISTEN (callback_arg c) None (stale lpcb) None None None None None None None None))))) in
        _ ← mod_tcps (fun t => set_tcp_tab (<[lpcb := d]> (tcp_tab t)) t);
        _ ← TCP_RMV tcp_bound_pcbs pcb;
        _ ← free_tcp MEMP_TCP_PCB pcb;
        _ ← upd_tcp lpcb (with_accept (Some tcp_accept_null_ptr));
        _ ← TCP_REG tcp_listen_pcbs lpcb;
        mret (Some lpcb)
    end.

(** ** The receive window *)
Definition tcp_update_rcv_ann_wnd (pcb : ptr) : M W Z :=
  c ← get_conn pcb;
  let new_right_edge := u32 (num c rcv_nxt + num c rcv_wnd) in
  if TCP_SEQ_GEQ new_right_edge (num c rcv_ann_right_edge + num c mss) then
    _ ← setf pcb rcv_ann_wnd (num c rcv_wnd);
    mret (u32 (new_right_edge - num c rcv_ann_right_edge))
  else
    _ ← setf pcb rcv_ann_wnd
          (if TCP_SEQ_GT (num c rcv_nxt) (num c rcv_ann_right_edge) then 0 else num c rcv_ann_right_edge - num c rcv_nxt);
    mret 0.
Definition tcp_recved (pcb : ptr) (len : Z) : M W unit :=
  _ ← modf pcb rcv_wnd (fun w => w + len);
  c ← get_conn pcb;
  _ ← (if TCP_WND <? num c rcv_wnd then setf pcb rcv_wnd TCP_WND else mret tt);
  wnd_inflation ← tcp_update_rcv_ann_wnd pcb;
  if TCP_WND_UPDATE_THRESHOLD <=? s32 wnd_inflation then tcp_ack_now pcb else mret tt.

(** ** Connecting *)
Definition tcp_next_iss : M W Z :=
  iss ← getn last_iss; ticks ← getn tcp_ticks;
  _ ← setn last_iss (iss + ticks);
  mret (u32 (iss + ticks)).
Definition tcp_eff_send_mss (sendmss addr : Z) : M W Z :=
  n ← ip_route addr;
  match n with
  | Some n =>
      f ← get_netif n;
      if negb (mtu f =? 0) then mret (Z.min sendmss (u16 (mtu f - IP_HLEN - TCP_HLEN))) else mret sendmss
  | None => mret sendmss
  end.

(** The members that tcp_connect sets before it looks at the route. *)
Definition connect_members (iss : Z) (c : tcp_pcb) : tcp_pcb :=
  with_num snd_wnd TCP_WND (with_num rcv_ann_right_edge 0 (with_num rcv_ann_wnd TCP_WND (with_num rcv_wnd TCP_WND
  (with_num snd_lbb (iss - 1) (with_num lastack (iss - 1) (with_num snd_nxt iss (with_num rcv_nxt 0 c))))))).
Definition tcp_connect (pcb : ptr) (ipaddr : option Z) (port : Z) (f : option nat) : M W Z :=
  c ← get_tcp pcb;
  if bool_decide (state c <> CLOSED) then mret ERR_ISCONN
  else
    match ipaddr with
    | None => mret ERR_VAL
    | Some addr =>
        _ ← setf pcb remote_ip addr;
        _ ← setf pcb remote_port port;
        _ ← (if num c local_port =? 0 then lport ← tcp_new_port; setf pcb local_port lport else mret tt);
        iss ← tcp_next_iss;
        _ ← upd_conn pcb (connect_members iss);
        m ← tcp_eff_send_mss (if 536 <? TCP_MSS then 536 else TCP_MSS) addr;
        _ ← setf pcb mss m;
        _ ← setf pcb cwnd 1;
        _ ← setf pcb ssthresh (m * 10);
        _ ← upd_conn pcb (fun c => with_connected f (with_state SYN_SENT c));
        _ ← TCP_RMV tcp_bound_pcbs pcb;
        _ ← TCP_REG tcp_active_pcbs pcb;
        ret ← tcp_enqueue pcb None 0 TCP_SYN 0 TF_SEG_OPTS_MSS;
        _ ← (if ret =? ERR_OK then tcp_output pcb else mret 0);
        mret ret
    end.

(** ** Allocation *)

(** [(u32_t)(tcp_ticks - pcb->tmr)] *)
Definition inactive_for (c : tcp_pcb) : M W Z := ticks ← getn tcp_ticks; mret (u32 (ticks - num c tmr)).

(** The search for the control block to kill: the longest inactive one of those with
    the lowest priority. *)
Definition kill_prio_body (p : Z) (a : option ptr * Z * Z * option ptr) : M W (option ptr * Z * Z * option ptr + option ptr) :=
  let '(q, mprio, inactivity, inactive) := a in
  match q with
  | None => mret (inr inactive)
  | Some pcb =>
      c ← get_conn pcb;
      t ← inactive_for c;
      if (num c prio <=? p) && (num c prio <=? mprio) && (inactivity <=? t) then mret (inl (tcp_next c, num c prio, t, Some pcb))
      else mret (inl (tcp_next c, mprio, inactivity, inactive))
  end.
Definition tcp_kill_prio (p : Z) : M W unit :=
  first ← head tcp_active_pcbs;
  r ← loop tcp_fuel (kill_prio_body p) (first, TCP_PRIO_MAX, 0, None);
  match r with Some pcb => tcp_abort pcb | None => mret tt end.
Definition kill_timewait_body (a : option ptr * Z * option ptr) : M W (option ptr * Z * option ptr + option ptr) :=
  let '(q, inactivity, inactive) := a in
  match q with
  | None => mret (inr inactive)
  | Some pcb =>
      c ← get_conn pcb;
      t ← inactive_for c;
      if inactivity <=? t then mret (inl (tcp_next c, t, Some pcb)) else mret (inl (tcp_next c, inactivity, inactive))
  end.
Definition tcp_kill_timewait : M W unit :=
  first ← head tcp_tw_pcbs;
  r ← loop tcp_fuel kill_timewait_body (first, 0, None);
  match r with Some pcb => tcp_abort pcb | None => mret tt end.

(** A control block with its initial values. *)
Definition new_pcb (iss ticks : Z) : tcp_pcb :=
  with_tcp_recv (Some tcp_recv_null_ptr)
  (with_num keep_cnt_sent 0 (with_num keep_idle TCP_KEEPIDLE_DEFAULT (with_num polltmr 0 (with_num tmr ticks
  (with_num snd_lbb iss (with_num lastack iss (with_num snd_nxt iss (with_num snd_wl2 iss (with_num cwnd 1
  (with_num rtime (-1) (with_num sv (3000 / TCP_SLOW_INTERVAL) (with_num sa 0 (with_num rto (3000 / TCP_SLOW_INTERVAL)
  (with_num mss (if 536 <? TCP_MSS then 536 else TCP_MSS) (with_num ttl TCP_TTL (with_num tos 0 (with_num rcv_ann_wnd TCP_WND
  (with_num rcv_wnd TCP_WND (with_num snd_queuelen 0 (with_num snd_buf TCP_SND_BUF (with_num prio TCP_PRIO_NORMAL
  tcp_pcb_zero))))))))))))))))))))).
Definition tcp_alloc (p : Z) : M W (option ptr) :=
  r ← on_net (memp_malloc MEMP_TCP_PCB);
  r ← (match r with
       | Some q => mret (Some q)
       | None =>
           _ ← tcp_kill_timewait;
           r ← on_net (memp_malloc MEMP_TCP_PCB);
           match r with
           | Some q => mret (Some q)
           | None => _ ← tcp_kill_prio p; on_net (memp_malloc MEMP_TCP_PCB)
           end
       end);
  match r with
  | None => mret None
  | Some q =>
      iss ← tcp_next_iss;
      ticks ← getn tcp_ticks;
      _ ← mod_tcps (fun t => set_tcp_tab (<[q := new_pcb iss ticks]> (tcp_tab t)) t);
      mret (Some q)
  end.
Definition tcp_new : M W (option ptr) := tcp_alloc TCP_PRIO_NORMAL.

Definition tcp_setprio (pcb : ptr) (p : Z) : M W unit := upd_tcp pcb (with_num prio p).
Definition tcp_arg (pcb : ptr) (arg : option ptr) : M W unit := upd_tcp pcb (with_callback_arg arg).
Definition tcp_recv (pcb : ptr) (f : option nat) : M W unit := upd_conn pcb (with_tcp_recv (tcp_recv_app <$> f)).
Definition tcp_sent (pcb : ptr) (f : option nat) : M W unit := upd_conn pcb (with_sent f).
Definition tcp_err (pcb : ptr) (f : option nat) : M W unit := upd_conn pcb (with_errf f).
Definition tcp_accept (pcb : ptr) (f : option nat) : M W unit := upd_tcp pcb (with_accept (tcp_accept_app <$> f)).
Definition tcp_poll (pcb : ptr) (f : option nat) (interval : Z) : M W unit :=
  upd_conn pcb (fun c => with_num pollinterval interval (with_poll f c)).

(** ** Timers *)

(** Probes of a closed window, and retransmissions. *)
Definition slowtmr_persist (pcb : ptr) : M W unit :=
  _ ← modf pcb persist_cnt (fun n => n + 1);
  c ← get_conn pcb;
  limit ← index tcp_persist_backoff (num c persist_backoff - 1);
  if limit <=? num c persist_cnt then
    _ ← setf pcb persist_cnt 0;
    _ ← (if num c persist_backoff <? 7 then modf pcb persist_backoff (fun n => n + 1) else mret tt);
    tcp_zero_window_probe call_output ip_frag pcb
  else mret tt.
Definition slowtmr_rexmit (pcb : ptr) : M W unit :=
  c ← get_conn pcb;
  _ ← (if 0 <=? num c rtime then modf pcb rtime (fun n => n + 1) else mret tt);
  c ← get_conn pcb;
  if bool_decide (unacked c <> None) && (num c rto <=? num c rtime) then
    _ ← (if bool_decide (state c <> SYN_SENT) then
           k ← index tcp_backoff (num c nrtx);
           setf pcb rto (Z.shiftl (Z.shiftr (num c sa) 3 + num c sv) k)
         else mret tt);
    _ ← setf pcb rtime 0;
    let eff_wnd := Z.min (num c cwnd) (num c snd_wnd) in
    _ ← setf pcb ssthresh (if Z.shiftr eff_wnd 1 <? num c mss then num c mss * 2 else Z.shiftr eff_wnd 1);
    _ ← setf pcb cwnd (num c mss);
    tcp_rexmit_rto call_output ip_frag pcb
  else mret tt.
(** The retransmissions are used up, or the timers go on. *)
Definition slowtmr_timers (pcb : ptr) : M W bool :=
  c ← get_conn pcb;
  if bool_decide (state c = SYN_SENT) && (num c nrtx =? TCP_SYNMAXRTX) then mret true
  else if num c nrtx =? TCP_MAXRTX then mret true
  else
    _ ← (if 0 <? num c persist_backoff then slowtmr_persist pcb else slowtmr_rexmit pcb);
    mret false.
Definition slowtmr_keepalive (pcb : ptr) : M W unit :=
  c ← get_conn pcb;
  if has (num c so_options) SOF_KEEPALIVE && bool_decide (state c ∈ [ESTABLISHED; CLOSE_WAIT]) then
    t ← inactive_for c;
    if u32 (num c keep_idle + TCP_MAXIDLE) / TCP_SLOW_INTERVAL <? t then tcp_abort pcb
    else if u32 (num c keep_idle + num c keep_cnt_sent * TCP_KEEPINTVL_DEFAULT) / TCP_SLOW_INTERVAL <? t then
      _ ← tcp_keepalive call_output ip_frag pcb;
      modf pcb keep_cnt_sent (fun n => n + 1)
    else mret tt
  else mret tt.
(** Has the control block been in the state for longer than [timeout] milliseconds? *)
Definition stuck_in (pcb : ptr) (st : tcp_state) (timeout : Z) : M W bool :=
  c ← get_conn pcb;
  if bool_decide (state c = st) then t ← inactive_for c; mret (timeout / TCP_SLOW_INTERVAL <? t) else mret false.
(** Take the control block, which follows [prev], off its list; the one that follows. *)
Definition slowtmr_unlink (k : tcp_list) (prev : option ptr) (pcb : ptr) : M W unit :=
  _ ← tcp_pcb_purge pcb;
  c ← get_conn pcb;
  match prev with
  | Some q => upd_tcp q (with_tcp_next (tcp_next c))
  | None => mod_tcps (set_head k (tcp_next c))
  end.
Definition slowtmr_active_body (a : option ptr * option ptr) : M W (option ptr * option ptr + unit) :=
  match a with
  | (_, None) => mret (inr tt)
  | (prev, Some pcb) =>
      gone ← slowtmr_timers pcb;
      fin ← stuck_in pcb FIN_WAIT_2 TCP_FIN_WAIT_TIMEOUT;
      _ ← slowtmr_keepalive pcb;
      syn ← stuck_in pcb SYN_RCVD TCP_SYN_RCVD_TIMEOUT;
      ack ← stuck_in pcb LAST_ACK (2 * TCP_MSL);
      if gone || fin || syn || ack then
        _ ← slowtmr_unlink tcp_active_pcbs prev pcb;
        c ← get_conn pcb;
        _ ← TCP_EVENT_ERR (errf c) (callback_arg c) ERR_ABRT;
        c ← get_conn pcb;
        _ ← free_tcp MEMP_TCP_PCB pcb;
        mret (inl (prev, tcp_next c))
      else
        _ ← modf pcb polltmr (fun n => n + 1);
        c ← get_conn pcb;
        _ ← (if num c pollinterval <=? num c polltmr then
               _ ← setf pcb polltmr 0;
               err ← TCP_EVENT_POLL pcb;
               if err =? ERR_OK then _ ← tcp_output pcb; mret tt else mret tt
             else mret tt);
        c ← get_conn pcb;
        mret (inl (Some pcb, tcp_next c))
  end.
Definition slowtmr_tw_body (a : option ptr * option ptr) : M W (option ptr * option ptr + unit) :=
  match a with
  | (_, None) => mret (inr tt)
  | (prev, Some pcb) =>
      c ← get_conn pcb;
      t ← inactive_for c;
      if 2 * TCP_MSL / TCP_SLOW_INTERVAL <? t then
        _ ← slowtmr_unlink tcp_tw_pcbs prev pcb;
        c ← get_conn pcb;
        _ ← free_tcp MEMP_TCP_PCB pcb;
        mret (inl (prev, tcp_next c))
      else mret (inl (Some pcb, tcp_next c))
  end.
Definition tcp_slowtmr : M W unit :=
  ticks ← getn tcp_ticks;
  _ ← setn tcp_ticks (ticks + 1);
  first ← head tcp_active_pcbs;
  _ ← loop tcp_fuel slowtmr_active_body (None, first);
  first ← head tcp_tw_pcbs;
  loop tcp_fuel slowtmr_tw_body (None, first).

Definition fasttmr_body (q : option ptr) : M W (option ptr + unit) :=
  match q with
  | None => mret (inr tt)
  | Some pcb =>
      c ← get_conn pcb;
      _ ← (match refused_data c with
           | Some p =>
               err ← TCP_EVENT_RECV pcb (Some p) ERR_OK;
               if err =? ERR_OK then upd_conn pcb (with_refused_data None) else mret tt
           | None => mret tt
           end);
      c ← get_conn pcb;
      _ ← (if has (num c pcb_flags) TF_ACK_DELAY then
             _ ← tcp_ack_now pcb;
             modf pcb pcb_flags (fun f => without f (Z.lor TF_ACK_DELAY TF_ACK_NOW))
           else mret tt);
      c ← get_conn pcb;
      mret (inl (tcp_next c))
  end.
Definition tcp_fasttmr : M W unit := first ← head tcp_active_pcbs; loop tcp_fuel fasttmr_body first.
Definition tcp_tmr : M W unit :=
  _ ← tcp_fasttmr;
  n ← getn tcp_timer;
  _ ← setn tcp_timer (n + 1);
  if has (u8 (n + 1)) 1 then tcp_slowtmr else mret tt.

(** ** netif_set_ipaddr of core/netif.c: the address of an interface changes *)
Definition abort_bound_body (old : Z) (q : option ptr) : M W (option ptr + unit) :=
  match q with
  | None => mret (inr tt)
  | Some pcb =>
      c ← get_tcp pcb;
      if ip_addr_cmp (num c local_ip) old then _ ← tcp_abort pcb; mret (inl (tcp_next c)) else mret (inl (tcp_next c))
  end.
Definition listen_new_body (old new : Z) (q : option ptr) : M W (option ptr + unit) :=
  match q with
  | None => mret (inr tt)
  | Some lpcb =>
      c ← get_tcp lpcb;
      _ ← (if negb (ip_addr_isany (Some (num c local_ip))) && ip_addr_cmp (num c local_ip) old then upd_tcp lpcb (with_num local_ip new)
           else mret tt);
      mret (inl (tcp_next c))
  end.
Definition tcp_address_changes (old new : Z) : M W unit :=
  first ← head tcp_active_pcbs;
  _ ← loop tcp_fuel (abort_bound_body old) first;
  first ← head tcp_listen_pcbs;
  loop tcp_fuel (listen_new_body old new) first.
End tcp.
