(* ===== verification/LwipTcpIn.v ===== *)
(** TCP input: core/tcp_in.c, without the queue of segments that arrive out of order
    (TCP_QUEUE_OOSEQ is 0 in lwipopts.h). *)
From stdpp Require Import gmap.
From S2P Require Import Prelude Mmio LwipMem LwipPbuf LwipInet LwipStack LwipNetif LwipIpOut LwipTcpData LwipTcpOut LwipTcp.

Definition PBUF_FLAG_PUSH : Z := 1.
Definition with_pbuf_flags (n : Z) (b : pbuf) : pbuf :=
  Pbuf (next b) (payload b) (tot_len b) (len b) (type b) n (ref b) (room b).

Section tcp_in.
Context {W : Type} `{HasStack W}.
Variable call_output : output_fn -> netif_ptr -> option ptr -> Z -> M W Z.
Variable ip_frag : ptr -> netif_ptr -> Z -> M W Z.
Variable app : tcp_app W.

Notation tcp_output := (tcp_output call_output ip_frag).
Notation tcp_ack_now := (tcp_ack_now call_output ip_frag).
Notation tcp_ack := (tcp_ack call_output ip_frag).
Notation tcp_rst := (tcp_rst call_output ip_frag).

(** ** The segment that is being processed *)
Definition tcphdr : M W header := h ← get_tcps in_tcphdr; need h.
Definition iphdr : M W header := h ← get_tcps in_iphdr; need h.
Definition get_inseg : M W tcp_seg := get_tcps inseg.
Definition upd_inseg (f : tcp_seg -> tcp_seg) : M W unit := mod_tcps (fun t => set_inseg (f (inseg t)) t).
Definition flag_in (f : Z) : M W bool := x ← getn seg_flags_in; mret (has x f).
(** [recv_flags |= f] and [recv_flags & f] *)
Definition set_recv_flag (f : Z) : M W unit := x ← getn recv_flags; setn recv_flags (Z.lor x f).
Definition recv_flag (f : Z) : M W bool := x ← getn recv_flags; mret (has x f).

(** [tcp_rst(a, seqno + tcplen, &(iphdr->dest), &(iphdr->src), tcphdr->dest, tcphdr->src)] *)
Definition rst_reply (a : Z) : M W unit :=
  sn ← getn seqno; n ← getn tcplen;
  ip ← iphdr; h ← tcphdr;
  local ← hdr32 ip ip_dest; remote ← hdr32 ip ip_src;
  lport ← hdr16 h tcp_dest; rport ← hdr16 h tcp_src;
  tcp_rst a (sn + n) local remote lport rport.

(** ** tcp_parseopt *)

(** One option; [c] is its place, [inr] ends the walk. *)
Definition parseopt_body (pcb : ptr) (h : header) (max_c c : Z) : M W (Z + unit) :=
  if negb (c <? max_c) then mret (inr tt)
  else
    let opts i := hdr8 h (TCP_HLEN + i) in
    opt ← opts c;
    if opt =? 0 then mret (inr tt)
    else if opt =? 1 then mret (inl (u16 (c + 1)))
    else if opt =? 2 then
      n ← opts (c + 1);
      if negb (n =? 4) || (max_c <? c + 4) then mret (inr tt)
      else
        hi ← opts (c + 2); lo ← opts (c + 3);
        let m := Z.lor (Z.shiftl hi 8) lo in
        _ ← setf pcb mss (if (TCP_MSS <? m) || (m =? 0) then TCP_MSS else m);
        mret (inl (u16 (c + 4)))
    else
      n ← opts (c + 1);
      if n =? 0 then mret (inr tt) else mret (inl (u16 (c + n))).
(** At most 40 bytes of options. *)
Definition tcp_parseopt (pcb : ptr) : M W unit :=
  h ← tcphdr;
  n ← TCPH_HDRLEN h;
  if 5 <? n then loop 41 (parseopt_body pcb h (u16 (Z.shiftl (n - 5) 2))) 0 else mret tt.

(** ** tcp_listen_input and tcp_timewait_input *)

(** The members of a connection that is set up for a listener. *)
Definition accepted_members (l : tcp_pcb) (local remote rport wnd sn : Z) (c : tcp_pcb) : tcp_pcb :=
  with_num so_options (Z.land (num l so_options) (Z.lor (Z.lor (Z.lor SOF_DEBUG SOF_DONTROUTE) (Z.lor SOF_KEEPALIVE SOF_OOBINLINE)) SOF_LINGER))
  (with_accept (accept l) (with_callback_arg (callback_arg l) (with_num snd_wl1 (sn - 1) (with_num ssthresh wnd (with_num snd_wnd wnd
  (with_num rcv_ann_right_edge (sn + 1) (with_num rcv_nxt (sn + 1) (with_state SYN_RCVD (with_num remote_port rport
  (with_num remote_ip remote (with_num local_port (num l local_port) (with_num local_ip local c)))))))))))).
Definition tcp_listen_input (pcb : ptr) : M W Z :=
  ack ← flag_in TCP_ACK;
  syn ← flag_in TCP_SYN;
  if ack : bool then a ← getn ackno; _ ← rst_reply (a + 1); mret ERR_OK
  else if syn : bool then
    l ← get_tcp pcb;
    r ← tcp_alloc call_output ip_frag app (num l prio);
    match r with
    | None => mret ERR_MEM
    | Some npcb =>
        l ← get_tcp pcb;
        ip ← iphdr; h ← tcphdr;
        local ← hdr32 ip ip_dest; remote ← hdr32 ip ip_src;
        rport ← hdr16 h tcp_src; wnd ← hdr16 h tcp_wnd;
        sn ← getn seqno;
        _ ← upd_conn npcb (accepted_members l local remote rport wnd sn);
        _ ← TCP_REG tcp_active_pcbs npcb;
        _ ← tcp_parseopt npcb;
        c ← get_conn npcb;
        m ← tcp_eff_send_mss (num c mss) (num c remote_ip);
        _ ← setf npcb mss m;
        rc ← tcp_enqueue npcb None 0 (Z.lor TCP_SYN TCP_ACK) 0 TF_SEG_OPTS_MSS;
        if negb (rc =? ERR_OK) then _ ← tcp_abandon call_output ip_frag app npcb false; mret rc
        else tcp_output npcb
    end
  else mret ERR_OK.
Definition tcp_timewait_input (pcb : ptr) : M W Z :=
  sn ← getn seqno; n ← getn tcplen;
  c ← get_conn pcb;
  _ ← (if TCP_SEQ_GT (sn + n) (num c rcv_nxt) then setf pcb rcv_nxt (sn + n) else mret tt);
  _ ← (if 0 <? n then tcp_ack_now pcb else mret tt);
  tcp_output pcb.

(** ** tcp_receive: what the acknowledgement says *)
Definition update_window (pcb : ptr) : M W unit :=
  c ← get_conn pcb;
  sn ← getn seqno; an ← getn ackno;
  h ← tcphdr; wnd ← hdr16 h tcp_wnd;
  if TCP_SEQ_LT (num c snd_wl1) sn || ((num c snd_wl1 =? sn) && TCP_SEQ_LT (num c snd_wl2) an)
     || ((num c snd_wl2 =? an) && (num c snd_wnd <? wnd)) then
    _ ← setf pcb snd_wnd wnd;
    _ ← setf pcb snd_wl1 sn;
    _ ← setf pcb snd_wl2 an;
    if (0 <? wnd) && (0 <? num c persist_backoff) then setf pcb persist_backoff 0 else mret tt
  else mret tt.
(** The third duplicate acknowledgement, and those behind it. *)
Definition fast_retransmit (pcb : ptr) : M W unit :=
  c ← get_conn pcb;
  if (3 <=? num c dupacks) && bool_decide (unacked c <> None) then
    if negb (has (num c pcb_flags) TF_INFR) then
      _ ← tcp_rexmit call_output ip_frag pcb;
      c ← get_conn pcb;
      let half := Z.min (num c cwnd) (num c snd_wnd) / 2 in
      let thresh := u16 (if half <? 2 * num c mss then 2 * num c mss else half) in
      _ ← setf pcb ssthresh thresh;
      _ ← setf pcb cwnd (thresh + 3 * num c mss);
      modf pcb pcb_flags (fun f => Z.lor f TF_INFR)
    else if num c cwnd <? u16 (num c cwnd + num c mss) then modf pcb cwnd (fun w => w + num c mss)
    else mret tt
  else mret tt.
Definition duplicate_ack (pcb : ptr) (right_wnd_edge : Z) : M W unit :=
  _ ← setf pcb acked 0;
  c ← get_conn pcb;
  if u32 (num c snd_wl2 + num c snd_wnd) =? right_wnd_edge then
    _ ← modf pcb dupacks (fun n => n + 1); fast_retransmit pcb
  else mret tt.

(** Slow start, or congestion avoidance. *)
Definition open_cwnd (pcb : ptr) : M W unit :=
  c ← get_conn pcb;
  if state_num ESTABLISHED <=? state_num (state c) then
    if num c cwnd <? num c ssthresh then
      if num c cwnd <? u16 (num c cwnd + num c mss) then setf pcb cwnd (num c cwnd + num c mss) else mret tt
    else if num c cwnd =? 0 then fault
    else
      let new_cwnd := u16 (num c cwnd + num c mss * num c mss / num c cwnd) in
      if num c cwnd <? new_cwnd then setf pcb cwnd new_cwnd else mret tt
  else mret tt.
(** The first segment [q] of a queue, which [pcb] does not have any more, is freed. *)
Definition drop_acked (pcb q : ptr) : M W unit :=
  g ← get_seg q;
  n ← on_net (pbuf_clen (seg_p g));
  _ ← modf pcb snd_queuelen (fun x => x - n);
  _ ← tcp_seg_free (Some q);
  mret tt.
Definition ack_unacked_body (pcb : ptr) (_ : unit) : M W (unit + unit) :=
  c ← get_conn pcb;
  match unacked c with
  | None => mret (inr tt)
  | Some q =>
      g ← get_seg q;
      sn ← seg_seqno g; n ← TCP_TCPLEN g; an ← getn ackno;
      if TCP_SEQ_LEQ (sn + n) an then
        _ ← upd_conn pcb (with_unacked (seg_next g)); _ ← drop_acked pcb q; mret (inl tt)
      else mret (inr tt)
  end.
Definition new_ack (pcb : ptr) : M W unit :=
  c ← get_conn pcb;
  an ← getn ackno;
  _ ← (if has (num c pcb_flags) TF_INFR then
         _ ← setf pcb pcb_flags (without (num c pcb_flags) TF_INFR); setf pcb cwnd (num c ssthresh)
       else mret tt);
  _ ← setf pcb nrtx 0;
  _ ← setf pcb rto (Z.shiftr (num c sa) 3 + num c sv);
  _ ← setf pcb acked (an - num c lastack);
  _ ← modf pcb snd_buf (fun x => x + u16 (an - num c lastack));
  _ ← setf pcb dupacks 0;
  _ ← setf pcb lastack an;
  _ ← open_cwnd pcb;
  _ ← loop seg_fuel (ack_unacked_body pcb) tt;
  c ← get_conn pcb;
  _ ← setf pcb rtime (if bool_decide (unacked c = None) then -1 else 0);
  setf pcb polltmr 0.
(** Segments that were put back on the unsent queue may be acknowledged too. *)
Definition ack_unsent_body (pcb : ptr) (_ : unit) : M W (unit + unit) :=
  c ← get_conn pcb;
  match unsent c with
  | None => mret (inr tt)
  | Some q =>
      g ← get_seg q;
      sn ← seg_seqno g; n ← TCP_TCPLEN g; an ← getn ackno;
      if TCP_SEQ_BETWEEN an (sn + n) (num c snd_nxt) then
        _ ← upd_conn pcb (with_unsent (seg_next g)); _ ← drop_acked pcb q; mret (inl tt)
      else mret (inr tt)
  end.
(** The estimate of the round-trip time. *)
Definition update_rtt (pcb : ptr) : M W unit :=
  c ← get_conn pcb;
  an ← getn ackno; ticks ← getn tcp_ticks;
  if negb (num c rttest =? 0) && TCP_SEQ_LT (num c rtseq) an then
    let m := s16 (s16 (ticks - num c rttest) - Z.shiftr (num c sa) 3) in
    let new_sa := s16 (num c sa + m) in
    let m := s16 (s16 (Z.abs m) - Z.shiftr (num c sv) 2) in
    let new_sv := s16 (num c sv + m) in
    _ ← setf pcb sa new_sa;
    _ ← setf pcb sv new_sv;
    _ ← setf pcb rto (Z.shiftr new_sa 3 + new_sv);
    setf pcb rttest 0
  else mret tt.
Definition receive_ack (pcb : ptr) : M W unit :=
  c ← get_conn pcb;
  let right_wnd_edge := u32 (num c snd_wnd + num c snd_wl2) in
  _ ← update_window pcb;
  c ← get_conn pcb;
  an ← getn ackno;
  _ ← (if num c lastack =? an then duplicate_ack pcb right_wnd_edge
       else if TCP_SEQ_BETWEEN an (u32 (num c lastack + 1)) (num c snd_nxt) then new_ack pcb
       else setf pcb acked 0);
  _ ← loop seg_fuel (ack_unsent_body pcb) tt;
  update_rtt pcb.

(** ** tcp_receive: the data *)

(** Leave out the first [off] bytes of the packet. *)
Definition trim_body (new_tot_len : Z) (a : ptr * Z) : M W (ptr * Z + ptr * Z) :=
  let '(p, off) := a in
  b ← on_net (get_pbuf p);
  if len b <? off then
    _ ← on_net (upd_pbuf p (fun b => with_len 0 (with_tot_len new_tot_len b)));
    q ← need (next b);
    mret (inl (q, off - len b))
  else mret (inr (p, off)).
Definition trim_front (p : ptr) (off : Z) : M W ptr :=
  b ← on_net (get_pbuf p);
  if len b <? off then
    fuel ← on_net chain_fuel;
    r ← loop fuel (trim_body (u16 (tot_len b - off))) (p, off);
    _ ← on_net (pbuf_header (Some (fst r)) (s16 (- snd r)));
    mret (fst r)
  else _ ← on_net (pbuf_header (Some p) (s16 (- off))); mret p.
(** The first edge: bytes that have been received before. *)
Definition trim_segment (pcb : ptr) : M W unit :=
  sn ← getn seqno;
  c ← get_conn pcb;
  g ← get_inseg;
  p ← need (seg_p g);
  q ← trim_front p (s32 (num c rcv_nxt - sn));
  d ← on_net (get_pbuf q);
  _ ← upd_inseg (fun g => with_seg_len (seg_len g - u16 (num c rcv_nxt - sn)) (with_dataptr ((fun o => (q, o)) <$> payload d) g));
  _ ← setn seqno (num c rcv_nxt);
  h ← tcp_hdr g;
  set_hdr32 h tcp_seqno (num c rcv_nxt).
(** The last edge: bytes that do not fit the window. *)
Definition trim_window (pcb : ptr) : M W unit :=
  c ← get_conn pcb;
  g ← get_inseg;
  h ← tcp_hdr g;
  f ← TCPH_FLAGS h;
  _ ← (if has f TCP_FIN then TCPH_FLAGS_SET h (without f TCP_FIN) else mret tt);
  _ ← upd_inseg (with_seg_len (num c rcv_wnd));
  f ← TCPH_FLAGS h;
  _ ← (if has f TCP_SYN then upd_inseg (fun g => with_seg_len (seg_len g - 1) g) else mret tt);
  g ← get_inseg;
  p ← need (seg_p g);
  _ ← on_net (pbuf_realloc p (seg_len g));
  n ← TCP_TCPLEN g;
  setn tcplen n.
(** The segment is the next one: its data is for the application. *)
Definition receive_in_sequence (pcb : ptr) : M W unit :=
  g ← get_inseg;
  n ← TCP_TCPLEN g;
  _ ← setn tcplen n;
  n ← getn tcplen;
  c ← get_conn pcb;
  _ ← (if num c rcv_wnd <? n then trim_window pcb else mret tt);
  sn ← getn seqno; n ← getn tcplen;
  _ ← setf pcb rcv_nxt (sn + n);
  _ ← modf pcb rcv_wnd (fun w => w - n);
  _ ← tcp_update_rcv_ann_wnd pcb;
  g ← get_inseg;
  p ← need (seg_p g);
  b ← on_net (get_pbuf p);
  _ ← (if 0 <? tot_len b then _ ← mod_tcps (set_recv_data (Some p)); upd_inseg (with_seg_p None) else mret tt);
  h ← tcp_hdr g;
  f ← TCPH_FLAGS h;
  _ ← (if has f TCP_FIN then set_recv_flag TF_GOT_FIN else mret tt);
  tcp_ack pcb.
Definition receive_data (pcb : ptr) : M W bool :=
  sn ← getn seqno; n ← getn tcplen;
  c ← get_conn pcb;
  _ ← (if TCP_SEQ_BETWEEN (num c rcv_nxt) (sn + 1) (sn + n - 1) then trim_segment pcb
       else if TCP_SEQ_LT sn (num c rcv_nxt) then tcp_ack_now pcb
       else mret tt);
  sn ← getn seqno;
  c ← get_conn pcb;
  if TCP_SEQ_BETWEEN sn (num c rcv_nxt) (num c rcv_nxt + num c rcv_wnd - 1) then
    if num c rcv_nxt =? sn then _ ← receive_in_sequence pcb; mret true
    else _ ← tcp_ack_now pcb; mret false
  else _ ← tcp_ack_now pcb; mret false.
Definition tcp_receive (pcb : ptr) : M W bool :=
  ack ← flag_in TCP_ACK;
  _ ← (if ack : bool then receive_ack pcb else mret tt);
  n ← getn tcplen;
  if 0 <? n then receive_data pcb
  else
    sn ← getn seqno;
    c ← get_conn pcb;
    _ ← (if negb (TCP_SEQ_BETWEEN sn (num c rcv_nxt) (num c rcv_nxt + num c rcv_wnd - 1)) then tcp_ack_now pcb else mret tt);
    mret false.

(** ** tcp_process: the state machine *)
Definition process_rst (pcb : ptr) : M W Z :=
  c ← get_conn pcb;
  sn ← getn seqno; an ← getn ackno;
  let acceptable := if bool_decide (state c = SYN_SENT) then an =? num c snd_nxt
                    else TCP_SEQ_BETWEEN sn (num c rcv_nxt) (num c rcv_nxt + num c rcv_wnd) in
  if acceptable then
    _ ← set_recv_flag TF_RESET;
    _ ← modf pcb pcb_flags (fun f => without f TF_ACK_DELAY);
    mret ERR_RST
  else mret ERR_OK.

(** The answer to a SYN of ours. *)
Definition process_syn_ack (pcb : ptr) : M W unit :=
  sn ← getn seqno; an ← getn ackno;
  h ← tcphdr; wnd ← hdr16 h tcp_wnd;
  _ ← modf pcb snd_buf (fun n => n + 1);
  _ ← setf pcb rcv_nxt (sn + 1);
  _ ← setf pcb rcv_ann_right_edge (sn + 1);
  _ ← setf pcb lastack an;
  _ ← setf pcb snd_wnd wnd;
  _ ← setf pcb snd_wl1 (sn - 1);
  _ ← upd_conn pcb (with_state ESTABLISHED);
  c ← get_conn pcb;
  m ← tcp_eff_send_mss (num c mss) (num c remote_ip);
  _ ← setf pcb mss m;
  _ ← setf pcb ssthresh (m * 10);
  _ ← setf pcb cwnd (if num c cwnd =? 1 then m * 2 else m);
  _ ← modf pcb snd_queuelen (fun n => n - 1);
  c ← get_conn pcb;
  rseg ← need (unacked c);
  g ← get_seg rseg;
  _ ← upd_conn pcb (with_unacked (seg_next g));
  _ ← (match seg_next g with
       | None => setf pcb rtime (-1)
       | Some _ => _ ← setf pcb rtime 0; setf pcb nrtx 0
       end);
  _ ← tcp_seg_free (Some rseg);
  _ ← TCP_EVENT_CONNECTED app pcb ERR_OK;
  tcp_ack_now pcb.
Definition process_syn_sent (pcb : ptr) : M W unit :=
  ack ← flag_in TCP_ACK; syn ← flag_in TCP_SYN;
  an ← getn ackno;
  ours ← (if (ack : bool) && (syn : bool) then
            c ← get_conn pcb;
            q ← need (unacked c);
            g ← get_seg q;
            n ← seg_seqno g;
            mret (an =? u32 (n + 1))
          else mret false);
  if ours : bool then process_syn_ack pcb
  else if ack : bool then rst_reply an
  else mret tt.

(** The other side has closed its end. *)
Definition passive_close (pcb : ptr) (st : tcp_state) : M W unit :=
  _ ← tcp_ack_now pcb; upd_conn pcb (with_state st).
Definition to_time_wait (pcb : ptr) : M W unit :=
  _ ← tcp_pcb_purge pcb;
  _ ← TCP_RMV tcp_active_pcbs pcb;
  _ ← upd_conn pcb (with_state TIME_WAIT);
  TCP_REG tcp_tw_pcbs pcb.
(** [(flags & TCP_ACK) && (ackno == pcb->snd_nxt)] *)
Definition all_acked (pcb : ptr) : M W bool :=
  ack ← flag_in TCP_ACK; an ← getn ackno; c ← get_conn pcb; mret (ack && (an =? num c snd_nxt)).

Definition process_syn_rcvd (pcb : ptr) : M W Z :=
  ack ← flag_in TCP_ACK; syn ← flag_in TCP_SYN;
  sn ← getn seqno; an ← getn ackno;
  c ← get_conn pcb;
  if ack : bool then
    if TCP_SEQ_BETWEEN an (u32 (num c lastack + 1)) (num c snd_nxt) then
      _ ← upd_conn pcb (with_state ESTABLISHED);
      err ← TCP_EVENT_ACCEPT app pcb ERR_OK;
      if negb (err =? ERR_OK) then _ ← tcp_abort call_output ip_frag app pcb; mret ERR_ABRT
      else
        c ← get_conn pcb;
        let old_cwnd := num c cwnd in
        _ ← tcp_receive pcb;
        c ← get_conn pcb;
        _ ← setf pcb cwnd (if old_cwnd =? 1 then num c mss * 2 else num c mss);
        fin ← recv_flag TF_GOT_FIN;
        _ ← (if fin : bool then passive_close pcb CLOSE_WAIT else mret tt);
        mret ERR_OK
    else _ ← rst_reply an; mret ERR_OK
  else if (syn : bool) && (sn =? u32 (num c rcv_nxt - 1)) then _ ← tcp_rexmit call_output ip_frag pcb; mret ERR_OK
  else mret ERR_OK.
Definition process_state (pcb : ptr) : M W Z :=
  c ← get_conn pcb;
  match state c with
  | SYN_SENT => _ ← process_syn_sent pcb; mret ERR_OK
  | SYN_RCVD => process_syn_rcvd pcb
  | CLOSE_WAIT | ESTABLISHED =>
      _ ← tcp_receive pcb;
      fin ← recv_flag TF_GOT_FIN;
      _ ← (if fin : bool then passive_close pcb CLOSE_WAIT else mret tt);
      mret ERR_OK
  | FIN_WAIT_1 =>
      _ ← tcp_receive pcb;
      fin ← recv_flag TF_GOT_FIN; all ← all_acked pcb;
      _ ← (if fin : bool then
             if all : bool then _ ← tcp_ack_now pcb; to_time_wait pcb else passive_close pcb CLOSING
           else if all : bool then upd_conn pcb (with_state FIN_WAIT_2)
           else mret tt);
      mret ERR_OK
  | FIN_WAIT_2 =>
      _ ← tcp_receive pcb;
      fin ← recv_flag TF_GOT_FIN;
      _ ← (if fin : bool then _ ← tcp_ack_now pcb; to_time_wait pcb else mret tt);
      mret ERR_OK
  | CLOSING =>
      _ ← tcp_receive pcb;
      all ← all_acked pcb;
      _ ← (if all : bool then to_time_wait pcb else mret tt);
      mret ERR_OK
  | LAST_ACK =>
      _ ← tcp_receive pcb;
      all ← all_acked pcb;
      _ ← (if all : bool then set_recv_flag TF_CLOSED else mret tt);
      mret ERR_OK
  | _ => mret ERR_OK
  end.
Definition tcp_process (pcb : ptr) : M W Z :=
  rst ← flag_in TCP_RST; syn ← flag_in TCP_SYN;
  if rst : bool then process_rst pcb
  else
    c ← get_conn pcb;
    if (syn : bool) && negb (bool_decide (state c ∈ [SYN_SENT; SYN_RCVD])) then _ ← tcp_ack_now pcb; mret ERR_OK
    else
      ticks ← getn tcp_ticks;
      _ ← setf pcb tmr ticks;
      _ ← setf pcb keep_cnt_sent 0;
      _ ← tcp_parseopt pcb;
      process_state pcb.

(** ** tcp_input *)

(** The control block that has both ends of the segment, and the one in front of it. *)
Definition same_ends (ip h : header) (c : tcp_pcb) : M W bool :=
  src ← hdr16 h tcp_src; dest ← hdr16 h tcp_dest;
  from ← hdr32 ip ip_src; to ← hdr32 ip ip_dest;
  mret ((num c remote_port =? src) && (num c local_port =? dest)
        && ip_addr_cmp (num c remote_ip) from && ip_addr_cmp (num c local_ip) to).
(** A listener for the port; the addresses of both kinds of control blocks come first. *)
Definition listens_on (ip h : header) (c : tcp_pcb) : M W bool :=
  dest ← hdr16 h tcp_dest; to ← hdr32 ip ip_dest;
  mret ((ip_addr_isany (Some (num c local_ip)) || ip_addr_cmp (num c local_ip) to) && (num c local_port =? dest)).
Definition find_pcb_body (get : ptr -> M W tcp_pcb) (test : tcp_pcb -> M W bool) (a : option ptr * option ptr)
  : M W (option ptr * option ptr + option (option ptr * ptr)) :=
  match a with
  | (_, None) => mret (inr None)
  | (prev, Some q) => c ← get q; t ← test c; mret (if t : bool then inr (Some (prev, q)) else inl (Some q, tcp_next c))
  end.
Definition find_pcb (k : tcp_list) (get : ptr -> M W tcp_pcb) (test : tcp_pcb -> M W bool) : M W (option (option ptr * ptr)) :=
  first ← head k; loop tcp_fuel (find_pcb_body get test) (None, first).
(** Move it to the front of its list. *)
Definition pcb_to_front (k : tcp_list) (prev : option ptr) (pcb : ptr) : M W unit :=
  match prev with
  | None => mret tt
  | Some r =>
      c ← get_tcp pcb;
      _ ← upd_tcp r (with_tcp_next (tcp_next c));
      first ← head k;
      _ ← upd_tcp pcb (with_tcp_next first);
      mod_tcps (set_head k (Some pcb))
  end.

Definition drop (p : ptr) : M W unit := _ ← on_net (pbuf_free (Some p)); mret tt.

(** What was received is given to the application, and the connection goes on. *)
Definition input_deliver (pcb : ptr) : M W unit :=
  c ← get_conn pcb;
  err ← (if 0 <? num c acked then TCP_EVENT_SENT app pcb (num c acked) else mret ERR_OK);
  data ← get_tcps recv_data;
  err ← (match data with
         | Some q =>
             psh ← flag_in TCP_PSH;
             _ ← (if psh : bool then on_net (upd_pbuf q (fun b => with_pbuf_flags (Z.lor (flags b) PBUF_FLAG_PUSH) b)) else mret tt);
             err ← TCP_EVENT_RECV call_output ip_frag app pcb (Some q) ERR_OK;
             _ ← (if negb (err =? ERR_OK) then upd_conn pcb (with_refused_data (Some q)) else mret tt);
             mret err
         | None => mret err
         end);
  fin ← recv_flag TF_GOT_FIN;
  err ← (if fin : bool then TCP_EVENT_RECV call_output ip_frag app pcb None ERR_OK else mret err);
  if err =? ERR_OK then _ ← tcp_output pcb; mret tt else mret tt.
(** The end of a connection. *)
Definition input_end (pcb : ptr) : M W unit :=
  _ ← tcp_pcb_remove call_output ip_frag tcp_active_pcbs pcb; free_tcp MEMP_TCP_PCB pcb.
(** The segment in [p] belongs to the connection. *)
Definition input_connection (p pcb : ptr) (h : header) : M W unit :=
  b ← on_net (get_pbuf p);
  _ ← mod_tcps (fun t => set_recv_data None
        (set_inseg (TcpSeg None (Some p) ((fun o => (p, o)) <$> payload b) (tot_len b) (seg_flags (inseg t)) (Some h)) t));
  _ ← setn recv_flags 0;
  c ← get_conn pcb;
  full ← (match refused_data c with
          | Some r =>
              err ← TCP_EVENT_RECV call_output ip_frag app pcb (Some r) ERR_OK;
              if err =? ERR_OK then _ ← upd_conn pcb (with_refused_data None); mret false else mret true
          | None => mret false
          end);
  if full : bool then drop p
  else
    _ ← mod_tcps (set_input_pcb (Some pcb));
    err ← tcp_process pcb;
    _ ← mod_tcps (set_input_pcb None);
    _ ← (if negb (err =? ERR_ABRT) then
           reset ← recv_flag TF_RESET; closed ← recv_flag TF_CLOSED;
           if reset : bool then
             c ← get_conn pcb;
             _ ← TCP_EVENT_ERR app (errf c) (callback_arg c) ERR_RST;
             input_end pcb
           else if closed : bool then input_end pcb
           else input_deliver pcb
         else mret tt);
    g ← get_inseg;
    match seg_p g with
    | Some q => _ ← drop q; upd_inseg (with_seg_p None)
    | None => mret tt
    end.

(** The fields of the header are converted in place. *)
Definition convert_header (h : header) : M W unit :=
  w ← hdr16 h tcp_src; _ ← set_hdr16 h tcp_src (ntohs w);
  w ← hdr16 h tcp_dest; _ ← set_hdr16 h tcp_dest (ntohs w);
  n ← hdr32 h tcp_seqno; _ ← set_hdr32 h tcp_seqno (ntohl n); _ ← setn seqno (ntohl n);
  n ← hdr32 h tcp_ackno; _ ← set_hdr32 h tcp_ackno (ntohl n); _ ← setn ackno (ntohl n);
  w ← hdr16 h tcp_wnd; set_hdr16 h tcp_wnd (ntohs w).

(** Whose segment is it? *)
Definition input_demux (p : ptr) (ip h : header) : M W unit :=
  a ← find_pcb tcp_active_pcbs get_conn (same_ends ip h);
  match a with
  | Some (prev, pcb) => _ ← pcb_to_front tcp_active_pcbs prev pcb; input_connection p pcb h
  | None =>
      t ← find_pcb tcp_tw_pcbs get_conn (same_ends ip h);
      match t with
      | Some (_, pcb) => _ ← tcp_timewait_input pcb; drop p
      | None =>
          l ← find_pcb tcp_listen_pcbs get_tcp (listens_on ip h);
          match l with
          | Some (prev, lpcb) => _ ← pcb_to_front tcp_listen_pcbs prev lpcb; _ ← tcp_listen_input lpcb; drop p
          | None =>
              f ← TCPH_FLAGS h;
              _ ← (if negb (has f TCP_RST) then a ← getn ackno; rst_reply a else mret tt);
              drop p
          end
      end
  end.
Definition tcp_input (p : ptr) (inp : netif_ptr) : M W unit :=
  ip ← payload_hdr p;
  hl ← IPH_HL ip;
  let h := (fst ip, snd ip + hl * 4) in
  _ ← mod_tcps (set_in_headers (Some ip) (Some h));
  r ← on_net (pbuf_header (Some p) (- (hl * 4)));
  b ← on_net (get_pbuf p);
  if negb (r =? 0) || (tot_len b <? TCP_HLEN) then drop p
  else
    dest ← hdr32 ip ip_dest;
    f ← get_netif inp;
    if ip_addr_isbroadcast dest f || ip_addr_ismulticast dest then drop p
    else
      hdrlen ← TCPH_HDRLEN h;
      r ← on_net (pbuf_header (Some p) (- (hdrlen * 4)));
      if negb (r =? 0) then drop p
      else
        _ ← convert_header h;
        fl ← TCPH_FLAGS h;
        _ ← setn seg_flags_in fl;
        b ← on_net (get_pbuf p);
        _ ← setn tcplen (tot_len b + (if has fl (Z.lor TCP_FIN TCP_SYN) then 1 else 0));
        input_demux p ip h.
End tcp_in.
