(* ===== verification/LwipTcpSpec.v ===== *)
(** What TCP keeps track of while it processes a segment: the rules of partial
    correctness that the theorems on its state machine use. The layers below TCP - the
    ARP layer, the fragments of IP, and what hangs on the output functions of an
    interface - leave its variables alone. *)
From stdpp Require Import gmap.
From S2P Require Import Prelude Mmio LwipMem LwipPbuf LwipInet LwipStack LwipNetif LwipIpOut LwipTcpData LwipTcpOut LwipTcp LwipTcpIn LwipEtharp LwipFrag.

(** * What only TCP changes *)
Section over.
Context {W : Type} `{StackLaws W}.

(** A property of the variables of TCP. *)
Definition over (P : tcp_vars -> Prop) (w : W) : Prop := P (tcps (get_stack w)).
Implicit Types P : tcp_vars -> Prop.

Lemma keeps_on_net {A} (m : M net A) P : keeps (over P) (on_net m).
Proof. intros w a w' HP. unfold on_net, over in *. destruct (m _); [|done..]. intros [= _ <-]. by rewrite get_put_stack. Qed.
Lemma keeps_mod_stack f P : (forall s, tcps (f s) = tcps s) -> keeps (over P) (mod_stack f).
Proof. intros Hf. apply hoare_modify. intros w HP. unfold over in *. by rewrite get_put_stack, Hf. Qed.
Lemma keeps_mod_tcps f P : (forall t, P t -> P (f t)) -> keeps (over P) (mod_tcps f).
Proof. intros Hf. apply hoare_modify. intros w HP. unfold over in *. rewrite get_put_stack. by apply Hf. Qed.
Lemma keeps_gets_stack {A} (f : stack -> A) P : keeps (over P) (gets_stack f).
Proof. apply keeps_gets. Qed.
Lemma keeps_get_tcps {A} (f : tcp_vars -> A) P : keeps (over P) (get_tcps f).
Proof. apply keeps_gets. Qed.
Lemma keeps_need {A} (o : option A) P : keeps (over P) (need o).
Proof. destruct o; [apply keeps_ret|apply keeps_fault]. Qed.
End over.
#[export] Hint Resolve keeps_on_net keeps_gets_stack keeps_get_tcps keeps_need : keeps_db.
#[export] Hint Extern 2 (keeps _ (mod_stack _)) => apply keeps_mod_stack; done : keeps_db.

Section reads.
Context {W : Type} `{StackLaws W}.
Implicit Types P : tcp_vars -> Prop.
Lemma keeps_hdr8 h i P : keeps (over P) (hdr8 (W := W) h i). Proof. apply keeps_on_net. Qed.
Lemma keeps_set_hdr8 h i v P : keeps (over P) (set_hdr8 (W := W) h i v). Proof. apply keeps_on_net. Qed.
Local Hint Resolve keeps_hdr8 keeps_set_hdr8 : keeps_db.
Lemma keeps_hdr16 h i P : keeps (over P) (hdr16 (W := W) h i). Proof. unfold hdr16. keeps_steps. Qed.
Lemma keeps_set_hdr16 h i v P : keeps (over P) (set_hdr16 (W := W) h i v). Proof. unfold set_hdr16. keeps_steps. Qed.
Local Hint Resolve keeps_hdr16 keeps_set_hdr16 : keeps_db.
Lemma keeps_hdr32 h i P : keeps (over P) (hdr32 (W := W) h i). Proof. unfold hdr32. keeps_steps. Qed.
Lemma keeps_set_hdr32 h i v P : keeps (over P) (set_hdr32 (W := W) h i v). Proof. unfold set_hdr32. keeps_steps. Qed.
Lemma keeps_payload_hdr p P : keeps (over P) (payload_hdr (W := W) p). Proof. unfold payload_hdr. keeps_steps. Qed.
Lemma keeps_get_netif n P : keeps (over P) (get_netif (W := W) n). Proof. unfold get_netif. keeps_steps. Qed.
Lemma keeps_getn g P : keeps (over P) (getn (W := W) g). Proof. apply keeps_get_tcps. Qed.
Lemma keeps_head k P : keeps (over P) (head (W := W) k). Proof. apply keeps_get_tcps. Qed.
Lemma keeps_get_tcp p P : keeps (over P) (get_tcp (W := W) p). Proof. unfold get_tcp. keeps_steps. Qed.
Local Hint Resolve keeps_get_tcp : keeps_db.
Lemma keeps_get_conn p P : keeps (over P) (get_conn (W := W) p). Proof. unfold get_conn. keeps_steps. Qed.
Lemma keeps_get_seg p P : keeps (over P) (get_seg (W := W) p). Proof. unfold get_seg. keeps_steps. Qed.
Lemma keeps_tcp_hdr g P : keeps (over P) (tcp_hdr (W := W) g). Proof. apply keeps_need. Qed.
End reads.
#[export] Hint Resolve keeps_hdr8 keeps_set_hdr8 keeps_hdr16 keeps_set_hdr16 keeps_hdr32 keeps_set_hdr32 keeps_payload_hdr keeps_get_netif : keeps_db.
#[export] Hint Resolve keeps_getn keeps_head keeps_get_tcp keeps_get_conn keeps_get_seg keeps_tcp_hdr : keeps_db.

Section statements.
Context {W : Type} `{StackLaws W}.
Variable call_output : output_fn -> netif_ptr -> option ptr -> Z -> M W Z.
Variable ip_frag : ptr -> netif_ptr -> Z -> M W Z.
Implicit Types P : tcp_vars -> Prop.

(** The link does not touch TCP. *)
Class tcp_blind := {
  blind_output : forall P f n q d, keeps (over P) (call_output f n q d);
  blind_frag : forall P p n d, keeps (over P) (ip_frag p n d)
}.
Context {Hblind : tcp_blind}.
Local Hint Resolve blind_output blind_frag : keeps_db.

Lemma keeps_TCPH_FLAGS h P : keeps (over P) (TCPH_FLAGS (W := W) h). Proof. unfold TCPH_FLAGS. keeps_steps. Qed.
Lemma keeps_TCPH_HDRLEN h P : keeps (over P) (TCPH_HDRLEN (W := W) h). Proof. unfold TCPH_HDRLEN. keeps_steps. Qed.
Local Hint Resolve keeps_TCPH_FLAGS keeps_TCPH_HDRLEN : keeps_db.
Lemma keeps_TCPH_FLAGS_SET h v P : keeps (over P) (TCPH_FLAGS_SET (W := W) h v). Proof. unfold TCPH_FLAGS_SET. keeps_steps. Qed.
Lemma keeps_TCPH_HDRLEN_SET h v P : keeps (over P) (TCPH_HDRLEN_SET (W := W) h v). Proof. unfold TCPH_HDRLEN_SET. keeps_steps. Qed.
Local Hint Resolve keeps_TCPH_FLAGS_SET keeps_TCPH_HDRLEN_SET : keeps_db.
Lemma keeps_TCP_TCPLEN g P : keeps (over P) (TCP_TCPLEN (W := W) g). Proof. unfold TCP_TCPLEN. keeps_steps. Qed.
Lemma keeps_seg_seqno g P : keeps (over P) (seg_seqno (W := W) g). Proof. unfold seg_seqno. keeps_steps. Qed.
Lemma keeps_ip_route d P : keeps (over P) (ip_route (W := W) d).
Proof. unfold ip_route, ip_route_body, netif_is_up, netif_fuel. keeps_steps. Qed.
Local Hint Resolve keeps_ip_route : keeps_db.
Lemma keeps_ip_output q src d ttl tos proto P : keeps (over P) (ip_output call_output ip_frag q src d ttl tos proto).
Proof.
  unfold ip_output, ip_output_if, ip_make_header, IPH_TTL_SET, IPH_PROTO_SET, IPH_VHLTOS_SET, IPH_PROTO, IPH_TTL, output. keeps_steps.
Qed.
Local Hint Resolve keeps_ip_output : keeps_db.
Lemma keeps_tcp_rst a b l r lp rp P : keeps (over P) (tcp_rst call_output ip_frag a b l r lp rp).
Proof. unfold tcp_rst. keeps_steps. Qed.
Lemma keeps_tcp_eff_send_mss m a P : keeps (over P) (tcp_eff_send_mss (W := W) m a).
Proof. unfold tcp_eff_send_mss. keeps_steps. Qed.
End statements.
#[export] Hint Resolve keeps_TCPH_FLAGS keeps_TCPH_HDRLEN keeps_TCPH_FLAGS_SET keeps_TCPH_HDRLEN_SET keeps_TCP_TCPLEN keeps_seg_seqno : keeps_db.
#[export] Hint Resolve keeps_ip_route keeps_ip_output keeps_tcp_rst keeps_tcp_eff_send_mss : keeps_db.

(** * A control block that is being processed *)

(** [p] is the control block of the segment that is being processed; it is in state
    [st], its members in [ms] are those of [v] and the globals in [gs] those of [u]. *)
Definition tracked (p : ptr) (st : tcp_state) (ms : list tcp_member) (v : tcp_member -> Z) (gs : list tcp_global) (u : tcp_global -> Z) (t : tcp_vars) : Prop :=
  tcp_input_pcb t = Some p /\ (forall g, g ∈ gs -> globals t g = u g) /\
  exists c, tcp_tab t !! p = Some c /\ state c = st /\ forall f, f ∈ ms -> num c f = v f.
(** [f] changes neither the state of a control block nor its members in [ms]. *)
Definition spares (ms : list tcp_member) (f : tcp_pcb -> tcp_pcb) : Prop :=
  forall c, state (f c) = state c /\ forall g, g ∈ ms -> num (f c) g = num c g.
Lemma spares_num ms g x : g ∉ ms -> spares ms (with_num g x).
Proof. intros Hg c. split; [done|]. intros f Hf. cbn. by rewrite decide_False by set_solver. Qed.
Lemma spares_mod ms g h : g ∉ ms -> spares ms (fun c => with_num g (h (num c g)) c).
Proof. intros Hg c. by apply spares_num. Qed.

Section tracks.
Context {W : Type} `{StackLaws W}.
Variables (p : ptr) (st : tcp_state) (ms : list tcp_member) (v : tcp_member -> Z) (gs : list tcp_global) (u : tcp_global -> Z).
Notation T := (over (W := W) (tracked p st ms v gs u)).

Lemma keeps_seg_tab f : keeps T (mod_tcps (fun t => set_seg_tab (f t) t)).
Proof. by apply keeps_mod_tcps. Qed.
Lemma keeps_set_head k f : keeps T (mod_tcps (fun t => set_head k (f t) t)).
Proof. by apply keeps_mod_tcps. Qed.
Lemma keeps_set_recv_data d : keeps T (mod_tcps (set_recv_data d)).
Proof. by apply keeps_mod_tcps. Qed.
Lemma keeps_setn g x : g ∉ gs -> keeps T (setn g x).
Proof.
  intros Hg. apply keeps_mod_tcps. intros t (Hp & Hu & Hc). split; [done|]. split; [|done].
  intros g' Hg'. cbn. rewrite decide_False by set_solver. by apply Hu.
Qed.
Lemma keeps_upd_tcp q f : spares ms f -> keeps T (upd_tcp q f).
Proof.
  intros Hf w a w' (Hp & Hu & c & Hc & Hs & Hm). unfold upd_tcp, get_tcp, get_tcps, gets_stack, mod_tcps, mod_stack, gets, modify, mbind, M_bind, need.
  destruct (tcp_tab _ !! q) as [d|] eqn:Hd; [|done]. cbn. intros [= _ <-]. unfold over. rewrite get_put_stack.
  split; [done|]. split; [done|]. cbn. destruct (decide (p = q)) as [->|Hne].
  - exists (f c). rewrite Hc in Hd. injection Hd as <-. rewrite lookup_insert_eq. destruct (Hf c) as [Hfs Hfm].
    split; [done|]. split; [by rewrite Hfs|]. intros g Hg. rewrite Hfm by done. by apply Hm.
  - exists c. by rewrite lookup_insert_ne.
Qed.
Lemma keeps_upd_conn q f : spares ms f -> keeps T (upd_conn q f).
Proof. intros Hf. unfold upd_conn. apply keeps_bind; [apply keeps_get_conn|]. intros _. by apply keeps_upd_tcp. Qed.
Lemma keeps_setf q g x : g ∉ ms -> keeps T (setf q g x).
Proof. intros Hg. by apply keeps_upd_conn, spares_num. Qed.
Lemma keeps_modf q g h : g ∉ ms -> keeps T (modf q g h).
Proof. intros Hg. by apply keeps_upd_conn, spares_mod. Qed.
Lemma keeps_upd_seg q f : keeps T (upd_seg q f).
Proof. unfold upd_seg. keeps_steps. by apply keeps_mod_tcps. Qed.

(** What is known of the control block and of the globals when they are read. *)
Lemma hoare_get_conn (Q : tcp_pcb -> W -> Prop) :
  (forall c w, state c = st -> (forall f, f ∈ ms -> num c f = v f) -> T w -> Q c w) -> hoare T (get_conn p) Q.
Proof.
  intros HQ w a w' HT. pose proof HT as (Hp & Hu & c & Hc & Hs & Hm). unfold get_conn.
  destruct p as [i|t i]; [done|]. destruct t; try done.
  unfold get_tcp, get_tcps, gets_stack, gets, mbind, M_bind. rewrite Hc. intros [= <- <-]. by apply HQ.
Qed.
Lemma hoare_getn g (Q : Z -> W -> Prop) : g ∈ gs -> (forall w, T w -> Q (u g) w) -> hoare T (getn g) Q.
Proof.
  intros Hg HQ. apply hoare_gets. intros w HT. pose proof HT as (_ & Hu & _). rewrite (Hu g Hg). by apply HQ.
Qed.
(** tcp_output does nothing with this control block. *)
Lemma keeps_tcp_output call_output ip_frag : keeps T (tcp_output call_output ip_frag p).
Proof.
  unfold tcp_output. apply (hoare_bind _ _ _ (fun r w => r = Some p /\ T w)).
  - apply hoare_gets. intros w HT. by split; [apply HT|].
  - intros a. apply hoare_pure. intros ->. rewrite bool_decide_eq_true_2 by done. apply keeps_ret.
Qed.
End tracks.
#[export] Hint Resolve keeps_seg_tab keeps_set_head keeps_set_recv_data keeps_upd_seg keeps_tcp_output : keeps_db.
#[export] Hint Resolve keeps_setn keeps_setf keeps_modf keeps_upd_tcp keeps_upd_conn : keeps_db.
#[export] Hint Extern 0 (_ ∉ _) => compute_done : keeps_db.
#[export] Hint Extern 0 (spares _ _) => (by split) : keeps_db.

(** * The functions of TCP *)
Section functions.
Context {W : Type} `{StackLaws W}.
Variable call_output : output_fn -> netif_ptr -> option ptr -> Z -> M W Z.
Variable ip_frag : ptr -> netif_ptr -> Z -> M W Z.
Context {Hblind : tcp_blind call_output ip_frag}.
Variables (p : ptr) (st : tcp_state) (ms : list tcp_member) (v : tcp_member -> Z) (gs : list tcp_global) (u : tcp_global -> Z).
Notation T := (over (W := W) (tracked p st ms v gs u)).

(** ** Queues of segments *)
Lemma keeps_tcp_seg_free q : keeps T (tcp_seg_free q).
Proof. unfold tcp_seg_free. keeps_steps. Qed.
Local Hint Resolve keeps_tcp_seg_free : keeps_db.
Lemma keeps_tcp_segs_free q : keeps T (tcp_segs_free q).
Proof. unfold tcp_segs_free, segs_free_body. keeps_steps. Qed.
Local Hint Resolve keeps_tcp_segs_free : keeps_db.
Lemma keeps_seg_insert q first g : (forall x, keeps T (g x)) -> keeps T (seg_insert q first g).
Proof. intros Hg. unfold seg_insert, seg_place_body. keeps_steps; apply Hg. Qed.
Lemma keeps_last_seg q : keeps T (last_seg q).
Proof. unfold last_seg, last_seg_body. keeps_steps. Qed.
Lemma keeps_tcp_rexmit : nrtx ∉ ms -> rttest ∉ ms -> keeps T (tcp_rexmit call_output ip_frag p).
Proof. intros. unfold tcp_rexmit. keeps_steps. apply keeps_seg_insert. keeps_steps. Qed.

(** ** Acknowledgements *)
Lemma keeps_tcp_ack_now : pcb_flags ∉ ms -> keeps T (tcp_ack_now call_output ip_frag p).
Proof. intros. unfold tcp_ack_now. keeps_steps. Qed.
Lemma keeps_tcp_ack : pcb_flags ∉ ms -> keeps T (tcp_ack call_output ip_frag p).
Proof. intros. unfold tcp_ack. keeps_steps. Qed.
Lemma keeps_tcp_update_rcv_ann_wnd q : rcv_ann_wnd ∉ ms -> keeps T (tcp_update_rcv_ann_wnd q).
Proof. intros. unfold tcp_update_rcv_ann_wnd. keeps_steps. Qed.

(** ** Lists *)
Lemma keeps_TCP_REG k q : keeps T (TCP_REG k q).
Proof. unfold TCP_REG. keeps_steps. Qed.
Lemma keeps_TCP_RMV k q : keeps T (TCP_RMV k q).
Proof. unfold TCP_RMV, rmv_body. keeps_steps. Qed.
Lemma keeps_tcp_pcb_purge q : keeps T (tcp_pcb_purge q).
Proof. unfold tcp_pcb_purge. keeps_steps. Qed.

(** ** The segment *)
Lemma keeps_mod_inseg f : keeps T (upd_inseg f).
Proof. by apply keeps_mod_tcps. Qed.
Lemma keeps_get_inseg : keeps T get_inseg. Proof. apply keeps_get_tcps. Qed.
Lemma keeps_tcphdr : keeps T tcphdr. Proof. unfold tcphdr. keeps_steps. Qed.
Lemma keeps_iphdr : keeps T iphdr. Proof. unfold iphdr. keeps_steps. Qed.
Lemma keeps_flag_in f : keeps T (flag_in f). Proof. unfold flag_in. keeps_steps. Qed.
Lemma keeps_recv_flag f : keeps T (recv_flag f). Proof. unfold recv_flag. keeps_steps. Qed.
Lemma keeps_set_recv_flag f : recv_flags ∉ gs -> keeps T (set_recv_flag f).
Proof. intros. unfold set_recv_flag. keeps_steps. Qed.
Local Hint Resolve keeps_tcphdr keeps_iphdr : keeps_db.
Lemma keeps_rst_reply a : keeps T (rst_reply call_output ip_frag a).
Proof. unfold rst_reply. keeps_steps. Qed.
Lemma keeps_tcp_parseopt : mss ∉ ms -> keeps T (tcp_parseopt p).
Proof. intros. unfold tcp_parseopt, parseopt_body. keeps_steps. Qed.
Lemma hoare_flag_in f (Q : bool -> W -> Prop) : seg_flags_in ∈ gs -> (forall w, T w -> Q (has (u seg_flags_in) f) w) -> hoare T (flag_in f) Q.
Proof.
  intros Hg HQ. unfold flag_in. eapply hoare_bind; [apply (hoare_getn _ _ _ _ _ _ _ (fun x w => x = u seg_flags_in /\ T w)); [done|by split]|].
  intros a. apply hoare_pure. intros ->. by apply hoare_ret.
Qed.
End functions.
#[export] Hint Resolve keeps_tcp_seg_free keeps_tcp_segs_free keeps_last_seg keeps_tcp_rexmit keeps_tcp_ack_now keeps_tcp_ack keeps_tcp_update_rcv_ann_wnd : keeps_db.
#[export] Hint Resolve keeps_TCP_REG keeps_TCP_RMV keeps_tcp_pcb_purge keeps_mod_inseg keeps_get_inseg keeps_tcphdr keeps_iphdr keeps_flag_in : keeps_db.
#[export] Hint Resolve keeps_recv_flag keeps_set_recv_flag keeps_rst_reply keeps_tcp_parseopt : keeps_db.

Section link.
Context {W : Type} `{StackLaws W}.
Implicit Types P : tcp_vars -> Prop.

Lemma keeps_store {S A} (l : list A) i x (P : S -> Prop) : keeps P (store l i x).
Proof. intros s a s' HP. unfold store. destruct (_ && _); [|done]. by intros [= _ <-]. Qed.
Local Hint Resolve keeps_store : keeps_db.
Lemma keeps_get_arp i P : keeps (over P) (get_arp (W := W) i). Proof. unfold get_arp. keeps_steps. Qed.
Lemma keeps_put_arp i e P : keeps (over P) (put_arp (W := W) i e). Proof. unfold put_arp. keeps_steps. Qed.
Local Hint Resolve keeps_get_arp keeps_put_arp : keeps_db.
Lemma keeps_upd_arp i f P : keeps (over P) (upd_arp (W := W) i f). Proof. unfold upd_arp. keeps_steps. Qed.
Lemma keeps_get_q q P : keeps (over P) (get_q (W := W) q). Proof. unfold get_q. keeps_steps. Qed.
Lemma keeps_put_q q e P : keeps (over P) (put_q (W := W) q e). Proof. unfold put_q. keeps_steps. Qed.
Local Hint Resolve keeps_upd_arp keeps_get_q keeps_put_q : keeps_db.
Lemma keeps_hdr_bytes h i n P : keeps (over P) (hdr_bytes (W := W) h i n).
Proof. revert i. induction n as [|n IH]; intros i; cbn [hdr_bytes]; keeps_steps; apply IH. Qed.
Lemma keeps_set_hdr_bytes h i l P : keeps (over P) (set_hdr_bytes (W := W) h i l).
Proof. revert i. induction l as [|x l IH]; intros i; cbn [set_hdr_bytes]; keeps_steps; apply IH. Qed.
Lemma keeps_count_down n (f : Z -> M W unit) (P : W -> Prop) : (forall k, keeps P (f k)) -> keeps P (count_down n f).
Proof. intros Hf. induction n as [|n IH]; cbn [count_down]; keeps_steps; auto. Qed.
Local Hint Resolve keeps_hdr_bytes keeps_set_hdr_bytes : keeps_db.

Lemma keeps_find_entry a fl P : keeps (over P) (find_entry (W := W) a fl).
Proof. unfold find_entry, sweep_body, choose_entry, create_entry, free_etharp_q, free_q_body. keeps_steps. Qed.
Local Hint Resolve keeps_find_entry : keeps_db.

Variable call_linkoutput : linkoutput_fn -> netif_ptr -> option ptr -> M W Z.
Hypothesis blind_link : forall P f n q, keeps (over P) (call_linkoutput f n q).
Local Hint Resolve blind_link : keeps_db.

Lemma keeps_etharp_send_ip n q src dst P : keeps (over P) (etharp_send_ip call_linkoutput n q src dst).
Proof. unfold etharp_send_ip, linkoutput, addr_byte. keeps_steps. apply keeps_count_down. keeps_steps. Qed.
Local Hint Resolve keeps_etharp_send_ip : keeps_db.
Lemma keeps_etharp_request n a P : keeps (over P) (etharp_request call_linkoutput n a).
Proof. unfold etharp_request, etharp_raw, linkoutput, addr_byte. keeps_steps. apply keeps_count_down. keeps_steps. Qed.
Lemma keeps_queue_packet i q P : keeps (over P) (queue_packet (W := W) i q).
Proof. unfold queue_packet, take_over, copy_needed_body, last_q_body. keeps_steps. Qed.
Local Hint Resolve keeps_etharp_request keeps_queue_packet : keeps_db.
Lemma keeps_etharp_output n q a P : keeps (over P) (etharp_output call_linkoutput n q a).
Proof. unfold etharp_output, etharp_query. keeps_steps. Qed.

Variable call_output : output_fn -> netif_ptr -> option ptr -> Z -> M W Z.
Hypothesis blind_out : forall P f n q d, keeps (over P) (call_output f n q d).
Local Hint Resolve blind_out : keeps_db.
Lemma keeps_ip_frag q n d P : keeps (over P) (ip_frag call_output q n d).
Proof. unfold ip_frag, ip_frag_body, ip_frag_fill, ip_frag_send, output. keeps_steps. Qed.
(** What TCP asks of the link, for fragments that go out the same way. *)
Lemma tcp_blind_frag : tcp_blind call_output (ip_frag call_output).
Proof. split; [exact blind_out|]. intros. apply keeps_ip_frag. Qed.
End link.

(** * The header of the segment *)

(** What only a write to a packet changes. *)
Section pooled.
Definition pooled (P : (memp_t -> nat -> Z -> Z) -> Prop) (k : net) : Prop := P (net_pool k).
Variable P : (memp_t -> nat -> Z -> Z) -> Prop.
Lemma pooled_modify f : (forall k, net_pool (f k) = net_pool k) -> keeps (pooled P) (modify f).
Proof. intros Hf. apply hoare_modify. intros k HP. unfold pooled in *. by rewrite Hf. Qed.
Lemma pooled_get_pbuf q : keeps (pooled P) (get_pbuf q).
Proof. intros k b k' HP. unfold get_pbuf. destruct (_ !! _); [|done]. by intros [= _ <-]. Qed.
Lemma pooled_on_heap {A} (m : M heap A) : keeps (pooled P) (on_heap m).
Proof. intros k a k' HP. unfold on_heap. destruct (m _); [|done..]. by intros [= _ <-]. Qed.
Local Hint Resolve pooled_get_pbuf pooled_on_heap : keeps_db.
Local Hint Extern 2 (keeps _ (modify _)) => apply pooled_modify; done : keeps_db.
Lemma pooled_put_pbuf q b : keeps (pooled P) (put_pbuf q b). Proof. unfold put_pbuf. keeps_steps. Qed.
Local Hint Resolve pooled_put_pbuf : keeps_db.
Lemma pooled_upd_pbuf q f : keeps (pooled P) (upd_pbuf q f). Proof. unfold upd_pbuf. keeps_steps. Qed.
Lemma pooled_memp_free t q : keeps (pooled P) (memp_free t q). Proof. unfold memp_free. keeps_steps. Qed.
Lemma pooled_chain_fuel : keeps (pooled P) chain_fuel. Proof. apply keeps_gets. Qed.
Local Hint Resolve pooled_upd_pbuf pooled_memp_free pooled_chain_fuel : keeps_db.
Lemma pooled_pbuf_free q : keeps (pooled P) (pbuf_free q). Proof. unfold pbuf_free, pbuf_free_body. keeps_steps. Qed.
Lemma pooled_pbuf_clen q : keeps (pooled P) (pbuf_clen q). Proof. unfold pbuf_clen, pbuf_clen_body. keeps_steps. Qed.
Lemma pooled_pbuf_header q n : keeps (pooled P) (pbuf_header q n). Proof. unfold pbuf_header. keeps_steps. Qed.
Local Hint Resolve pooled_pbuf_free : keeps_db.
Lemma pooled_pbuf_realloc q n : keeps (pooled P) (pbuf_realloc q n).
Proof. unfold pbuf_realloc, realloc_walk_body, realloc_ram. keeps_steps. Qed.
End pooled.
#[export] Hint Resolve pooled_get_pbuf pooled_upd_pbuf pooled_memp_free pooled_chain_fuel pooled_pbuf_free pooled_pbuf_clen pooled_pbuf_header pooled_pbuf_realloc : keeps_db.

Lemma keeps_both {S A} (m : M S A) (P R : S -> Prop) : keeps P m -> keeps R m -> keeps (fun s => P s /\ R s) m.
Proof. intros HP HR s a s' [? ?] Hm. split; [by eapply HP|by eapply HR]. Qed.
(** What is learnt from a result, where something else is kept beside it. *)
Lemma bind_both {S A B} (m : M S A) (g : A -> M S B) (P K : S -> Prop) (R : A -> Prop) (Q : B -> S -> Prop) :
  hoare P m (fun a s => R a /\ P s) -> keeps K m -> (forall a, R a -> hoare (fun s => P s /\ K s) (g a) Q) ->
  hoare (fun s => P s /\ K s) (m ≫= g) Q.
Proof.
  intros Hm HK Hg. eapply (hoare_bind _ _ _ (fun a s => R a /\ P s /\ K s)).
  - intros s a s' [HP HKs] Hr. destruct (Hm s a s' HP Hr) as [HR HP']. split; [done|]. split; [done|]. by eapply HK.
  - intros a. by apply hoare_pure, Hg.
Qed.

(** While [p] is processed: the header of the segment is at [off] in an element of the
    pool of packets, and the two bytes of its length and flags there are [a] and [b];
    no FIN has been taken from it so far. *)
Definition flag_bytes (i : nat) (off a b : Z) (m : memp_t -> nat -> Z -> Z) : Prop :=
  m MEMP_PBUF_POOL i (off + tcp_hdrlen_rsvd_flags) = a /\ m MEMP_PBUF_POOL i (off + (tcp_hdrlen_rsvd_flags + 1)) = b.
Definition no_fin_yet (p : ptr) (h : header) (t : tcp_vars) : Prop :=
  tcp_input_pcb t = Some p /\ seg_tcphdr (inseg t) = Some h /\ has (globals t recv_flags) TF_GOT_FIN = false.
Definition header_kept {W} `{HasStack W} (p : ptr) (i : nat) (off a b : Z) (w : W) : Prop :=
  no_fin_yet p (InPool MEMP_PBUF_POOL i, off) (tcps (get_stack w)) /\ flag_bytes i off a b (net_pool (s_net (get_stack w))).

Section header_kept.
Context {W : Type} `{StackLaws W}.
Variable call_output : output_fn -> netif_ptr -> option ptr -> Z -> M W Z.
Variable ip_frag : ptr -> netif_ptr -> Z -> M W Z.
Variables (p : ptr) (i : nat) (off a b : Z).
Notation K := (header_kept (W := W) p i off a b).
Notation hd := (InPool MEMP_PBUF_POOL i, off).

Lemma kept_on_net {A} (m : M net A) : keeps (pooled (flag_bytes i off a b)) m -> keeps K (on_net m).
Proof.
  intros Hm w x w' [Hn Hf]. unfold on_net. destruct (m _) as [y k| |] eqn:E; [|done..]. intros [= _ <-].
  unfold header_kept. rewrite get_put_stack. split; [done|]. by apply (Hm _ _ _ Hf E).
Qed.
Lemma kept_mod_tcps f : (forall t, no_fin_yet p hd t -> no_fin_yet p hd (f t)) -> keeps K (mod_tcps f).
Proof. intros Hf. apply hoare_modify. intros w [Hn Hb]. unfold header_kept. rewrite get_put_stack. split; [by apply Hf|done]. Qed.
Lemma kept_get_tcps {A} (f : tcp_vars -> A) : keeps K (get_tcps f). Proof. apply keeps_gets. Qed.
Lemma kept_need {A} (o : option A) : keeps K (need o). Proof. destruct o; [apply keeps_ret|apply keeps_fault]. Qed.
Local Hint Resolve kept_get_tcps kept_need kept_on_net : keeps_db.
Local Hint Extern 2 (keeps _ (mod_tcps _)) => (apply kept_mod_tcps; done) : keeps_db.
Lemma kept_getn g : keeps K (getn g). Proof. apply kept_get_tcps. Qed.
Lemma kept_setn g x : g <> recv_flags -> keeps K (setn g x).
Proof. intros Hg. apply kept_mod_tcps. intros t (Hp & Hh & Hr). split; [done|]. split; [done|]. cbn. by rewrite decide_False. Qed.
Lemma kept_get_tcp q : keeps K (get_tcp q). Proof. unfold get_tcp. keeps_steps. Qed.
Local Hint Resolve kept_get_tcp kept_getn : keeps_db.
Local Hint Extern 2 (keeps _ (setn _ _)) => (apply kept_setn; done) : keeps_db.
Lemma kept_get_conn q : keeps K (get_conn q). Proof. unfold get_conn. keeps_steps. Qed.
Lemma kept_upd_tcp q f : keeps K (upd_tcp q f). Proof. unfold upd_tcp. keeps_steps. Qed.
Local Hint Resolve kept_get_conn kept_upd_tcp : keeps_db.
Lemma kept_upd_conn q f : keeps K (upd_conn q f). Proof. unfold upd_conn. keeps_steps. Qed.
Local Hint Resolve kept_upd_conn : keeps_db.
Lemma kept_setf q f x : keeps K (setf q f x). Proof. apply kept_upd_conn. Qed.
Lemma kept_modf q f g : keeps K (modf q f g). Proof. apply kept_upd_conn. Qed.
Lemma kept_get_seg q : keeps K (get_seg q). Proof. unfold get_seg. keeps_steps. Qed.
Local Hint Resolve kept_setf kept_modf kept_get_seg : keeps_db.
Lemma kept_upd_seg q f : keeps K (upd_seg q f). Proof. unfold upd_seg. keeps_steps. Qed.
Lemma kept_get_inseg : keeps K get_inseg. Proof. apply kept_get_tcps. Qed.
Lemma kept_upd_inseg f : (forall g, seg_tcphdr (f g) = seg_tcphdr g) -> keeps K (upd_inseg f).
Proof. intros Hf. apply kept_mod_tcps. intros t (Hp & Hh & Hr). split; [done|]. split; [cbn; by rewrite Hf|done]. Qed.
Lemma kept_hdr8 h j : keeps K (hdr8 h j).
Proof. apply kept_on_net, keeps_bind; [apply pooled_get_pbuf|]. intros x. destruct (_ && _); [apply keeps_gets|apply keeps_fault]. Qed.
Local Hint Resolve kept_upd_seg kept_get_inseg kept_hdr8 : keeps_db.
Local Hint Extern 2 (keeps _ (upd_inseg _)) => (apply kept_upd_inseg; done) : keeps_db.
Lemma kept_hdr16 h j : keeps K (hdr16 h j). Proof. unfold hdr16. keeps_steps. Qed.
Local Hint Resolve kept_hdr16 : keeps_db.
Lemma kept_hdr32 h j : keeps K (hdr32 h j). Proof. unfold hdr32. keeps_steps. Qed.
Lemma kept_tcphdr : keeps K tcphdr. Proof. unfold tcphdr. keeps_steps. Qed.
Lemma kept_tcp_hdr g : keeps K (tcp_hdr g). Proof. apply kept_need. Qed.
Lemma kept_TCPH_FLAGS h : keeps K (TCPH_FLAGS h). Proof. unfold TCPH_FLAGS. keeps_steps. Qed.
Lemma kept_TCPH_HDRLEN h : keeps K (TCPH_HDRLEN h). Proof. unfold TCPH_HDRLEN. keeps_steps. Qed.
Local Hint Resolve kept_hdr32 kept_tcphdr kept_tcp_hdr kept_TCPH_FLAGS kept_TCPH_HDRLEN : keeps_db.
Lemma kept_TCP_TCPLEN g : keeps K (TCP_TCPLEN g). Proof. unfold TCP_TCPLEN. keeps_steps. Qed.
Lemma kept_seg_seqno g : keeps K (seg_seqno g). Proof. unfold seg_seqno. keeps_steps. Qed.
Lemma kept_flag_in f : keeps K (flag_in f). Proof. unfold flag_in. keeps_steps. Qed.
Lemma kept_tcp_seg_free q : keeps K (tcp_seg_free q). Proof. unfold tcp_seg_free. keeps_steps. Qed.
Local Hint Resolve kept_TCP_TCPLEN kept_seg_seqno kept_flag_in kept_tcp_seg_free : keeps_db.
Lemma kept_seg_insert q first g : (forall x, keeps K (g x)) -> keeps K (seg_insert q first g).
Proof. intros Hg. unfold seg_insert, seg_place_body. keeps_steps; apply Hg. Qed.
(** tcp_output does nothing with this control block. *)
Lemma kept_tcp_output : keeps K (tcp_output call_output ip_frag p).
Proof.
  unfold tcp_output. apply (hoare_bind _ _ _ (fun r w => r = Some p /\ K w)).
  - apply hoare_gets. intros w HK. by split; [apply HK|].
  - intros r. apply hoare_pure. intros ->. rewrite bool_decide_eq_true_2 by done. apply keeps_ret.
Qed.
Local Hint Resolve kept_tcp_output : keeps_db.
Lemma kept_tcp_rexmit : keeps K (tcp_rexmit call_output ip_frag p).
Proof. unfold tcp_rexmit. keeps_steps. apply kept_seg_insert. keeps_steps. Qed.
Lemma kept_tcp_ack_now : keeps K (tcp_ack_now call_output ip_frag p). Proof. unfold tcp_ack_now. keeps_steps. Qed.
Lemma kept_tcp_ack : keeps K (tcp_ack call_output ip_frag p). Proof. unfold tcp_ack. keeps_steps. Qed.
Lemma kept_tcp_update_rcv_ann_wnd q : keeps K (tcp_update_rcv_ann_wnd q). Proof. unfold tcp_update_rcv_ann_wnd. keeps_steps. Qed.
Lemma kept_tcp_parseopt q : keeps K (tcp_parseopt q). Proof. unfold tcp_parseopt, parseopt_body. keeps_steps. Qed.
Local Hint Resolve kept_tcp_rexmit kept_tcp_ack_now kept_tcp_ack kept_tcp_update_rcv_ann_wnd : keeps_db.

(** ** tcp_receive, where the segment has no FIN *)
Lemma kept_drop_acked q : keeps K (drop_acked p q). Proof. unfold drop_acked. keeps_steps. Qed.
Local Hint Resolve kept_drop_acked : keeps_db.
Lemma kept_receive_ack : keeps K (receive_ack call_output ip_frag p).
Proof.
  unfold receive_ack, update_window, duplicate_ack, fast_retransmit, new_ack, open_cwnd, ack_unacked_body, ack_unsent_body, update_rtt. keeps_steps.
Qed.
Lemma kept_get_header : hoare K get_inseg (fun g w => seg_tcphdr g = Some hd /\ K w).
Proof. apply hoare_gets. intros w HK. split; [apply HK|done]. Qed.
Lemma bind_header {B} (g : header -> M W B) (Q : B -> W -> Prop) : hoare K (g hd) Q -> hoare K (s ← get_inseg; h ← tcp_hdr s; g h) Q.
Proof.
  intros Hg. eapply hoare_bind; [apply kept_get_header|]. intros s. apply hoare_pure. intros Hs. unfold tcp_hdr. rewrite Hs. exact Hg.
Qed.
(** The bytes that set_hdr32 changes are not those of the flags. *)
Lemma kept_set_hdr8 j v : j <> tcp_hdrlen_rsvd_flags -> j <> tcp_hdrlen_rsvd_flags + 1 -> keeps K (set_hdr8 hd j v).
Proof.
  intros H1 H2. apply kept_on_net, keeps_bind; [apply pooled_get_pbuf|]. intros x. destruct (_ && _); [|apply keeps_fault].
  apply hoare_modify. intros k [Ha Hb]. split; cbn; (rewrite decide_True by done); unfold set8; rewrite (proj2 (Z.eqb_neq _ _)) by lia; done.
Qed.
Lemma kept_set_seqno v : keeps K (set_hdr32 hd tcp_seqno v).
Proof. unfold set_hdr32, set_hdr16. repeat (apply keeps_bind; [|intros ?]); by apply kept_set_hdr8. Qed.
Lemma kept_trim_segment : keeps K (trim_segment p).
Proof.
  unfold trim_segment. do 2 (apply keeps_then; [keeps_steps|]; intros ?).
  eapply hoare_bind; [apply kept_get_header|]. intros g. apply hoare_pure. intros Hg.
  unfold trim_front, trim_body. do 5 (apply keeps_then; [keeps_steps|]; intros ?).
  unfold tcp_hdr. rewrite Hg. apply kept_set_seqno.
Qed.
(** The flags that are read are those of the two bytes. *)
Lemma hoare_flags : hoare K (TCPH_FLAGS hd) (fun f w => f = Z.land (ntohs (a + 2 ^ 8 * b)) TCP_FLAGS /\ K w).
Proof.
  assert (H8 : forall j v, hoare (fun w => K w /\ net_pool (s_net (get_stack w)) MEMP_PBUF_POOL i (off + j) = v) (hdr8 hd j) (fun x w => x = v /\ K w)).
  { intros j v w x w' [HK Hv]. unfold hdr8, on_net, get_pbuf, gets, mbind, M_bind. cbn [fst snd].
    destruct (_ !! _) as [c|]; [|done]. destruct (_ && _); [|done]. cbn. intros [= <- <-]. split; [done|].
    destruct HK. unfold header_kept. by rewrite get_put_stack. }
  unfold TCPH_FLAGS, hdr16.
  eapply (hoare_bind _ _ _ (fun v w => v = a + 2 ^ 8 * b /\ K w)); [|intros v; apply hoare_pure; intros ->; by apply hoare_ret].
  eapply hoare_bind; [eapply hoare_weaken; [apply (H8 _ a)|intros w HK; split; [exact HK|apply HK]|intros x w Hx; exact Hx]|].
  intros x. apply hoare_pure. intros ->.
  eapply hoare_bind; [eapply hoare_weaken; [apply (H8 _ b)|intros w HK; split; [exact HK|apply HK]|intros y w Hy; exact Hy]|].
  intros y. apply hoare_pure. intros ->. by apply hoare_ret.
Qed.
Hypothesis Hfin : has (Z.land (ntohs (a + 2 ^ 8 * b)) TCP_FLAGS) TCP_FIN = false.
Lemma bind_flags {B} (g : Z -> M W B) (Q : B -> W -> Prop) : (forall f, has f TCP_FIN = false -> hoare K (g f) Q) -> hoare K (TCPH_FLAGS hd ≫= g) Q.
Proof. intros Hg. eapply hoare_bind; [apply hoare_flags|]. intros f. apply hoare_pure. intros ->. by apply Hg. Qed.
Lemma kept_trim_window : keeps K (trim_window p).
Proof.
  unfold trim_window. apply keeps_then; [keeps_steps|]. intros c. apply bind_header, bind_flags. intros f Hf.
  apply (keeps_bind _ _ K); [rewrite Hf|intros ?]; keeps_steps.
Qed.
Lemma kept_receive_in_sequence : keeps K (receive_in_sequence call_output ip_frag p).
Proof.
  pose proof kept_trim_window. unfold receive_in_sequence. do 11 (apply keeps_then; [keeps_steps|]; intros ?).
  eapply hoare_bind; [apply kept_get_header|]. intros g. apply hoare_pure. intros Hg. do 3 (apply keeps_then; [keeps_steps|]; intros ?).
  unfold tcp_hdr. rewrite Hg. apply bind_flags. intros f Hf. apply (keeps_bind _ _ K); [rewrite Hf|intros ?]; keeps_steps.
Qed.
Lemma kept_tcp_receive : keeps K (tcp_receive call_output ip_frag p).
Proof.
  pose proof kept_receive_ack. pose proof kept_trim_segment. pose proof kept_receive_in_sequence.
  unfold tcp_receive, receive_data. keeps_steps.
Qed.
End header_kept.
