(* ===== verification/LwipTcpStates.v ===== *)
(** The state machine of TCP: which state a control block may be in when its
    segment has been processed. *)
From stdpp Require Import gmap.
From S2P Require Import Prelude Mmio LwipMem LwipPbuf LwipInet LwipStack LwipNetif LwipIpOut LwipTcpData LwipTcpOut LwipTcp LwipTcpIn LwipTcpSpec.

(** * The transitions *)

(** Is the octet numbered [nxt] among the [n] of a segment that starts with [sn]?  The
    comparison of the code also takes a segment of one octet that is half of the
    number space away. *)
Definition in_order (sn n nxt : Z) : Prop :=
  0 < n /\ ((nxt - sn) mod 2 ^ 32 < n \/ n = 1 /\ (nxt - sn) mod 2 ^ 32 = 2 ^ 31).
Lemma in_order_between sn n nxt : 0 < n < 2 ^ 31 -> nxt = sn \/ TCP_SEQ_BETWEEN nxt (sn + 1) (sn + n - 1) = true -> in_order sn n nxt.
Proof.
  intros Hn. unfold in_order, TCP_SEQ_BETWEEN, TCP_SEQ_GEQ, TCP_SEQ_LEQ, s32. rewrite andb_true_iff, !Z.leb_le.
  Z.to_euclidean_division_equations. lia.
Qed.

(** A segment with the flags [F] and the acknowledgement [A] arrives for a control
    block in the first state that has sent up to [N] and whose acknowledgements reach
    [L]; [fin]: it brings the FIN of the peer, in order. *)
Inductive moves (F A N L : Z) (fin : Prop) : tcp_state -> tcp_state -> Prop :=
  | opens : has F TCP_ACK = true -> has F TCP_SYN = true -> moves F A N L fin SYN_SENT ESTABLISHED
  | is_accepted s : has F TCP_ACK = true -> TCP_SEQ_BETWEEN A (u32 (L + 1)) N = true ->
      s = ESTABLISHED \/ s = CLOSE_WAIT /\ fin -> moves F A N L fin SYN_RCVD s
  | peer_closes : has F TCP_SYN = false -> fin -> moves F A N L fin ESTABLISHED CLOSE_WAIT
  | fin_acked : has F TCP_SYN = false -> has F TCP_ACK = true -> A = N -> moves F A N L fin FIN_WAIT_1 FIN_WAIT_2
  | both_close : has F TCP_SYN = false -> fin -> moves F A N L fin FIN_WAIT_1 CLOSING
  | closes_1 : has F TCP_SYN = false -> fin -> has F TCP_ACK = true -> A = N -> moves F A N L fin FIN_WAIT_1 TIME_WAIT
  | closes_2 : has F TCP_SYN = false -> fin -> moves F A N L fin FIN_WAIT_2 TIME_WAIT
  | both_closed : has F TCP_SYN = false -> has F TCP_ACK = true -> A = N -> moves F A N L fin CLOSING TIME_WAIT.
(** A reset changes no state: the control block goes. *)
Definition arrives (F A N L : Z) (fin : Prop) (s s' : tcp_state) : Prop := s' = s \/ has F TCP_RST = false /\ moves F A N L fin s s'.

(** The globals that say what the segment is, and the members that it is compared with. *)
Definition segment_globals : list tcp_global := [seg_flags_in; ackno; seqno; tcplen; recv_flags].
Definition window_members : list tcp_member := [snd_nxt; rcv_nxt; lastack].

(** The application does not act on the connection, or on the segment, in the
    callbacks of a new connection, and on no control block when one has gone. *)
Class app_minds {W} `{HasStack W} (app : tcp_app W) := {
  minds_connected : forall p st v u f a e, keeps (over (tracked p st [snd_nxt] v [seg_flags_in; ackno] u)) (call_tcp_connected app f a p e);
  minds_accept : forall p st v u f a e, keeps (over (tracked p st window_members v segment_globals u)) (call_tcp_accept app f a p e);
  minds_packet : forall p i off x y f a e, keeps (header_kept p i off x y) (call_tcp_accept app f a p e);
  minds_err : forall p f a e, keeps (over (fun t => tcp_tab t !! p = None)) (call_tcp_err app f a e)
}.

Section states.
Context {W : Type} `{StackLaws W}.
Variable call_output : output_fn -> netif_ptr -> option ptr -> Z -> M W Z.
Variable ip_frag : ptr -> netif_ptr -> Z -> M W Z.
Variable app : tcp_app W.
Context {Hblind : tcp_blind call_output ip_frag} {Hminds : app_minds app}.
Variables (p : ptr) (v : tcp_member -> Z) (u : tcp_global -> Z).
(** Where the header is, and its bytes with the length and the flags. *)
Variables (elt : nat) (off b12 b13 : Z).
Hypothesis Hflags : Z.land (ntohs (b12 + 2 ^ 8 * b13)) TCP_FLAGS = u seg_flags_in.
Hypothesis Hsmall : u tcplen < 2 ^ 31.

(** ** What tcp_receive leaves alone *)
Section receive.
Variable st : tcp_state.
Notation T := (over (W := W) (tracked p st [snd_nxt] v [seg_flags_in; ackno] u)).
Lemma keeps_drop_acked q : keeps T (drop_acked p q).
Proof. unfold drop_acked. keeps_steps. Qed.
Local Hint Resolve keeps_drop_acked : keeps_db.
Lemma keeps_receive_ack : keeps T (receive_ack call_output ip_frag p).
Proof.
  unfold receive_ack, update_window, duplicate_ack, fast_retransmit, new_ack, open_cwnd, ack_unacked_body, ack_unsent_body, update_rtt.
  keeps_steps.
Qed.
Lemma keeps_receive_data : keeps T (receive_data call_output ip_frag p).
Proof.
  unfold receive_data, trim_segment, trim_front, trim_body, receive_in_sequence, trim_window. keeps_steps.
Qed.
Local Hint Resolve keeps_receive_ack keeps_receive_data : keeps_db.
Lemma keeps_tcp_receive : keeps T (tcp_receive call_output ip_frag p).
Proof. unfold tcp_receive. keeps_steps. Qed.
End receive.

(** A segment that is not in order leaves no flag. *)
Section out_of_order.
Variable st : tcp_state.
Notation T := (over (W := W) (tracked p st [rcv_nxt] v segment_globals u)).
Hypothesis Hout : ~ (0 < u tcplen /\ (v rcv_nxt = u seqno \/ TCP_SEQ_BETWEEN (v rcv_nxt) (u seqno + 1) (u seqno + u tcplen - 1) = true)).
Lemma ordered_drop_acked q : keeps T (drop_acked p q).
Proof. unfold drop_acked. keeps_steps. Qed.
Local Hint Resolve ordered_drop_acked : keeps_db.
Lemma ordered_receive_ack : keeps T (receive_ack call_output ip_frag p).
Proof.
  unfold receive_ack, update_window, duplicate_ack, fast_retransmit, new_ack, open_cwnd, ack_unacked_body, ack_unsent_body, update_rtt.
  keeps_steps.
Qed.
Lemma bind_num {B} f (g : tcp_pcb -> M W B) (Q : B -> W -> Prop) : f ∈ [rcv_nxt] ->
  (forall c, num c f = v f -> hoare T (g c) Q) -> hoare T (get_conn p ≫= g) Q.
Proof.
  intros Hf Hg. eapply (hoare_bind _ _ _ (fun c w => num c f = v f /\ T w)).
  - apply hoare_get_conn. intros c w _ Hm HT. split; [by apply Hm|done].
  - intros c. apply hoare_pure. apply Hg.
Qed.
Lemma bind_global {B} x (g : Z -> M W B) (Q : B -> W -> Prop) : x ∈ segment_globals -> hoare T (g (u x)) Q -> hoare T (getn x ≫= g) Q.
Proof.
  intros Hx HQ. eapply (hoare_bind _ _ _ (fun b w => b = u x /\ T w)).
  - apply hoare_getn; [done|by split].
  - intros b. apply hoare_pure. by intros ->.
Qed.
Lemma ordered_receive_data : 0 < u tcplen -> keeps T (receive_data call_output ip_frag p).
Proof.
  intros Hn. assert (v rcv_nxt <> u seqno /\ TCP_SEQ_BETWEEN (v rcv_nxt) (u seqno + 1) (u seqno + u tcplen - 1) = false) as [Hne Hbetween].
  { split; [intros E; apply Hout; by auto|]. apply not_true_iff_false. intros E. apply Hout. by auto. }
  unfold receive_data.
  do 2 (apply bind_global; [set_solver|]). apply (bind_num rcv_nxt); [set_solver|]. intros c Hc. rewrite Hc, Hbetween.
  apply keeps_then; [keeps_steps|]. intros _. apply bind_global; [set_solver|]. apply (bind_num rcv_nxt); [set_solver|]. intros d Hd.
  rewrite Hd, (proj2 (Z.eqb_neq _ _) Hne). clear Hout Hbetween. destruct (TCP_SEQ_BETWEEN _ _ _); apply keeps_bind; keeps_steps.
Qed.
Local Hint Resolve ordered_receive_ack : keeps_db.
Lemma ordered_tcp_receive : keeps T (tcp_receive call_output ip_frag p).
Proof.
  unfold tcp_receive. apply keeps_then; [keeps_steps|]. intros ack. apply keeps_then; [keeps_steps|]. intros _.
  apply bind_global; [set_solver|]. destruct (Z.ltb_spec 0 (u tcplen)) as [Hn|]; [by apply ordered_receive_data|]. apply keeps_bind; keeps_steps.
Qed.
End out_of_order.

(** ** The states *)
Section process.
Notation T st := (over (W := W) (tracked p st [snd_nxt] v [seg_flags_in; ackno] u)).
Notation K := (header_kept p elt off b12 b13).
Definition begun (st : tcp_state) (w : W) : Prop := over (tracked p st window_members v segment_globals u) w /\ K w.
Definition fin : Prop := has (u seg_flags_in) TCP_FIN = true /\ in_order (u seqno) (u tcplen) (v rcv_nxt).
(** The same, when recv_flags holds [R]. *)
Definition with_R (R : Z) (g : tcp_global) : Z := if decide (g = recv_flags) then R else u g.
Notation TR R st := (over (W := W) (tracked p st [snd_nxt] v [recv_flags; seg_flags_in; ackno] (with_R R))).
Definition left_in (Q : tcp_state -> Prop) (w : W) : Prop :=
  exists c, tcp_tab (tcps (get_stack w)) !! p = Some c /\ Q (state c).

Lemma tracked_fewer st ms gs ms' gs' w : ms' ⊆ ms -> gs' ⊆ gs -> over (tracked p st ms v gs u) w -> over (W := W) (tracked p st ms' v gs' u) w.
Proof.
  intros Hms Hgs (Hp & Hu & c & Hc & Hs & Hm). split; [done|]. split; [intros g Hg; apply Hu, Hgs, Hg|].
  exists c. split; [done|]. split; [done|]. intros f Hf. apply Hm, Hms, Hf.
Qed.
Lemma begun_T st w : begun st w -> T st w.
Proof. intros [HT _]. revert HT. apply tracked_fewer; unfold window_members, segment_globals; set_solver. Qed.

(** tcp_receive sets the flag for a FIN of the peer that is in order, and for nothing else. *)
Lemma hoare_received st : hoare (begun st) (tcp_receive call_output ip_frag p)
  (fun _ w => T st w /\ (has (globals (tcps (get_stack w)) recv_flags) TF_GOT_FIN = true -> fin)).
Proof.
  assert (Hall : hoare (begun st) (tcp_receive call_output ip_frag p) (fun _ => T st)) by (eapply hoare_weaken; [apply keeps_tcp_receive|apply begun_T|done]).
  destruct (decide (has (u seg_flags_in) TCP_FIN = true)) as [Hf|Hf%not_true_iff_false].
  2: { intros w r w' Hw Hr. split; [by eapply Hall|]. destruct Hw as [_ HK].
    destruct (kept_tcp_receive call_output ip_frag p elt off b12 b13 ltac:(by rewrite Hflags) w r w' HK Hr) as [(_ & _ & Hno) _]. by rewrite Hno. }
  destruct (decide (0 < u tcplen /\ (v rcv_nxt = u seqno \/ TCP_SEQ_BETWEEN (v rcv_nxt) (u seqno + 1) (u seqno + u tcplen - 1) = true))) as [[Hn Ho]|Hno].
  - intros w r w' Hw Hr. split; [by eapply Hall|]. intros _. split; [done|]. by apply in_order_between.
  - intros w r w' Hw Hr. split; [by eapply Hall|]. destruct Hw as [HT [(_ & _ & Hclear) _]].
    destruct HT as (Hp & Hu & Hc). rewrite Hu in Hclear by (unfold segment_globals; set_solver).
    assert (Ho : over (tracked p st [rcv_nxt] v segment_globals u) w) by (apply (tracked_fewer st window_members segment_globals); [unfold window_members; set_solver|done|done]).
    destruct (ordered_tcp_receive st Hno w r w' Ho Hr) as (_ & Hu' & _). rewrite Hu' by (unfold segment_globals; set_solver). by rewrite Hclear.
Qed.
(** What happens behind tcp_receive. *)
Lemma bind_received {B} st (g : bool -> M W B) (Q : B -> W -> Prop) :
  (forall r R, (has R TF_GOT_FIN = true -> fin) -> hoare (TR R st) (g r) Q) -> hoare (begun st) (tcp_receive call_output ip_frag p ≫= g) Q.
Proof.
  intros Hg. eapply hoare_bind; [apply hoare_received|]. intros r w a w' [(Hp & Hu & Hc) HR].
  apply (Hg r (globals (tcps (get_stack w)) recv_flags) HR w). split; [done|]. split; [|done].
  intros g' Hg'. unfold with_R. destruct (decide (g' = recv_flags)) as [->|Hne]; [done|]. apply Hu. set_solver.
Qed.
Lemma hoare_know_R {A} st (m : M W A) (Q : A -> W -> Prop) : (forall R, hoare (TR R st) m Q) -> hoare (T st) m Q.
Proof.
  intros Hm w a w' (Hp & Hu & Hc). apply (Hm (globals (tcps (get_stack w)) recv_flags) w). split; [done|]. split; [|done].
  intros g Hg. unfold with_R. destruct (decide (g = recv_flags)) as [->|Hne]; [done|]. apply Hu. set_solver.
Qed.
Lemma left_TR R st (Q : tcp_state -> Prop) w : Q st -> TR R st w -> left_in Q w.
Proof. intros HQ (_ & Hu & c & Hc & Hs & _). exists c. split; [done|]. by rewrite Hs. Qed.
Lemma hoare_left {A} R st (a : A) (Q : tcp_state -> Prop) : Q st -> hoare (TR R st) (mret a) (fun _ => left_in Q).
Proof. intros HQ. apply hoare_ret. intros w. by apply left_TR. Qed.
Lemma hoare_set_state ms gs u' st s : hoare (over (tracked p st ms v gs u')) (upd_conn (W := W) p (with_state s)) (fun _ => over (tracked p s ms v gs u')).
Proof.
  unfold upd_conn. apply keeps_then; [apply keeps_get_conn|]. intros _ w a w' (Hp & Hu & c & Hc & Hs & Hm).
  unfold upd_tcp, get_tcp, get_tcps, gets_stack, mod_tcps, mod_stack, gets, modify, mbind, M_bind, need. rewrite Hc. intros [= _ <-].
  unfold over. rewrite get_put_stack. split; [done|]. split; [done|]. exists (with_state s c). split; [apply lookup_insert_eq|by split].
Qed.
Lemma bind_recv_flag {B} R st f (g : bool -> M W B) (Q : B -> W -> Prop) : hoare (TR R st) (g (has R f)) Q -> hoare (TR R st) (recv_flag f ≫= g) Q.
Proof.
  intros HQ. eapply (hoare_bind _ _ _ (fun b w => b = has R f /\ TR R st w)).
  - unfold recv_flag. eapply hoare_bind; [apply (hoare_getn _ _ _ _ _ _ _ (fun x w => x = R /\ TR R st w)); [set_solver|by split]|].
    intros a. apply hoare_pure. intros ->. by apply hoare_ret.
  - intros b. apply hoare_pure. by intros ->.
Qed.
Lemma bind_flag_in {B} ms gs u' st f (g : bool -> M W B) (Q : B -> W -> Prop) : seg_flags_in ∈ gs ->
  hoare (over (tracked p st ms v gs u')) (g (has (u' seg_flags_in) f)) Q -> hoare (over (tracked p st ms v gs u')) (flag_in f ≫= g) Q.
Proof.
  intros Hg HQ. eapply (hoare_bind _ _ _ (fun b w => b = has (u' seg_flags_in) f /\ over (tracked p st ms v gs u') w)).
  - apply hoare_flag_in; [done|by split].
  - intros b. apply hoare_pure. by intros ->.
Qed.
Lemma bind_getn {B} ms gs u' st x (g : Z -> M W B) (Q : B -> W -> Prop) : x ∈ gs ->
  hoare (over (tracked p st ms v gs u')) (g (u' x)) Q -> hoare (over (tracked p st ms v gs u')) (getn x ≫= g) Q.
Proof.
  intros Hg HQ. eapply (hoare_bind _ _ _ (fun b w => b = u' x /\ over (tracked p st ms v gs u') w)).
  - apply hoare_getn; [done|by split].
  - intros b. apply hoare_pure. by intros ->.
Qed.
Lemma bind_get_conn {B} ms gs u' st (g : tcp_pcb -> M W B) (Q : B -> W -> Prop) :
  (forall c, state c = st -> (forall f, f ∈ ms -> num c f = v f) -> hoare (over (tracked p st ms v gs u')) (g c) Q) ->
  hoare (over (tracked p st ms v gs u')) (get_conn p ≫= g) Q.
Proof.
  intros HQ. eapply (hoare_bind _ _ _ (fun c w => (state c = st /\ forall f, f ∈ ms -> num c f = v f) /\ over (tracked p st ms v gs u') w)).
  - apply hoare_get_conn. by split.
  - intros c. apply hoare_pure. intros [Hs Hm]. by apply HQ.
Qed.
Lemma bind_all_acked {B} R st (g : bool -> M W B) (Q : B -> W -> Prop) :
  hoare (TR R st) (g (has (u seg_flags_in) TCP_ACK && (u ackno =? v snd_nxt))) Q -> hoare (TR R st) (all_acked p ≫= g) Q.
Proof.
  intros HQ. eapply (hoare_bind _ _ _ (fun b w => b = has (u seg_flags_in) TCP_ACK && (u ackno =? v snd_nxt) /\ TR R st w)).
  - unfold all_acked. apply bind_flag_in; [set_solver|]. apply bind_getn; [set_solver|]. apply bind_get_conn. intros c _ Hm.
    apply hoare_ret. intros w HT. split; [|done]. rewrite Hm by set_solver. done.
  - intros b. apply hoare_pure. by intros ->.
Qed.

Lemma hoare_passive_close R st s : hoare (TR R st) (passive_close call_output ip_frag p s) (fun _ => TR R s).
Proof. unfold passive_close. apply keeps_then; [eauto with keeps_db|]. intros _. apply hoare_set_state. Qed.
Lemma hoare_to_time_wait R st : hoare (TR R st) (to_time_wait p) (fun _ => TR R TIME_WAIT).
Proof.
  unfold to_time_wait. apply keeps_then; [eauto with keeps_db|]. intros _. apply keeps_then; [eauto with keeps_db|]. intros _.
  eapply hoare_bind; [apply hoare_set_state|]. intros ?. apply keeps_TCP_REG.
Qed.

Notation F := (u seg_flags_in).
Notation A := (u ackno).
Notation N := (v snd_nxt).
Variable L : Z.
Notation done_in st := (fun _ => left_in (fun s => s = st \/ moves F A N L fin st s)).
(** The end of a transition from [st] to [s]. *)
Lemma hoare_moved {B} R st s (a : B) : s = st \/ moves F A N L fin st s -> hoare (TR R s) (mret a) (done_in st).
Proof. intros Hm. by apply (hoare_left _ _ _ (fun s => s = st \/ moves F A N L fin st s)). Qed.

(** What happens behind tcp_receive in each state. *)
Ltac received := apply bind_received; intros _ R HR.

Lemma process_established st : has F TCP_SYN = false -> st = ESTABLISHED \/ st = CLOSE_WAIT ->
  hoare (begun st) (_ ← tcp_receive call_output ip_frag p; fin ← recv_flag TF_GOT_FIN;
                _ ← (if fin : bool then passive_close call_output ip_frag p CLOSE_WAIT else mret tt); mret ERR_OK) (done_in st).
Proof.
  intros Hsyn Hst. received. apply bind_recv_flag. destruct (has R TF_GOT_FIN) eqn:Hfin.
  - eapply hoare_bind; [apply hoare_passive_close|]. intros ?. apply hoare_moved. destruct Hst as [->| ->]; [right; constructor; auto|by left].
  - eapply hoare_bind; [apply (hoare_ret tt _ (fun _ => TR R st)); done|]. intros ?. apply hoare_moved. by left.
Qed.
Lemma process_fin_wait_1 : has F TCP_SYN = false ->
  hoare (begun FIN_WAIT_1) (_ ← tcp_receive call_output ip_frag p; fin ← recv_flag TF_GOT_FIN; all ← all_acked p;
      _ ← (if fin : bool then
             if all : bool then _ ← tcp_ack_now call_output ip_frag p; to_time_wait p else passive_close call_output ip_frag p CLOSING
           else if all : bool then upd_conn p (with_state FIN_WAIT_2)
           else mret tt);
      mret ERR_OK) (done_in FIN_WAIT_1).
Proof.
  intros Hsyn. received. apply bind_recv_flag. apply bind_all_acked. destruct (has R TF_GOT_FIN) eqn:Hfin, (has F TCP_ACK && (A =? N)) eqn:Hall.
  - apply andb_true_iff in Hall as [Hack Han%Z.eqb_eq]. eapply hoare_bind.
    + apply keeps_then; [eauto with keeps_db|]. intros _. apply hoare_to_time_wait.
    + intros ?. apply hoare_moved. right. constructor; auto.
  - eapply hoare_bind; [apply hoare_passive_close|]. intros ?. apply hoare_moved. right. constructor; auto.
  - apply andb_true_iff in Hall as [Hack Han%Z.eqb_eq]. eapply hoare_bind; [apply hoare_set_state|]. intros ?. apply hoare_moved. right. constructor; auto.
  - eapply hoare_bind; [apply (hoare_ret tt _ (fun _ => TR R FIN_WAIT_1)); done|]. intros ?. apply hoare_moved. by left.
Qed.
Lemma process_fin_wait_2 : has F TCP_SYN = false ->
  hoare (begun FIN_WAIT_2) (_ ← tcp_receive call_output ip_frag p; fin ← recv_flag TF_GOT_FIN;
      _ ← (if fin : bool then _ ← tcp_ack_now call_output ip_frag p; to_time_wait p else mret tt); mret ERR_OK) (done_in FIN_WAIT_2).
Proof.
  intros Hsyn. received. apply bind_recv_flag. destruct (has R TF_GOT_FIN) eqn:Hfin.
  - eapply hoare_bind.
    + apply keeps_then; [eauto with keeps_db|]. intros _. apply hoare_to_time_wait.
    + intros ?. apply hoare_moved. right. constructor; auto.
  - eapply hoare_bind; [apply (hoare_ret tt _ (fun _ => TR R FIN_WAIT_2)); done|]. intros ?. apply hoare_moved. by left.
Qed.
Lemma process_closing : has F TCP_SYN = false ->
  hoare (begun CLOSING) (_ ← tcp_receive call_output ip_frag p; all ← all_acked p;
      _ ← (if all : bool then to_time_wait p else mret tt); mret ERR_OK) (done_in CLOSING).
Proof.
  intros Hsyn. received. apply bind_all_acked. destruct (has F TCP_ACK && (A =? N)) eqn:Hall.
  - apply andb_true_iff in Hall as [Hack Han%Z.eqb_eq]. eapply hoare_bind; [apply hoare_to_time_wait|]. intros ?. apply hoare_moved. right. constructor; auto.
  - eapply hoare_bind; [apply (hoare_ret tt _ (fun _ => TR R CLOSING)); done|]. intros ?. apply hoare_moved. by left.
Qed.
Lemma keeps_done {B} st (m : M W B) : keeps (T st) m -> hoare (T st) m (done_in st).
Proof.
  intros Hm. eapply hoare_weaken; [apply Hm|done|]. intros a w (Hp & Hu & c & Hc & Hs & _). exists c. split; [done|]. by left.
Qed.
Lemma process_last_ack :
  hoare (begun LAST_ACK) (_ ← tcp_receive call_output ip_frag p; all ← all_acked p;
      _ ← (if all : bool then set_recv_flag TF_CLOSED else mret tt); mret ERR_OK) (done_in LAST_ACK).
Proof.
  eapply hoare_weaken; [|apply begun_T|intros e w HQ; exact HQ]. apply keeps_done. apply keeps_bind; [apply keeps_tcp_receive|].
  intros _. unfold all_acked. keeps_steps.
Qed.

(** *** SYN_SENT *)
Lemma hoare_process_syn_ack : hoare (T SYN_SENT) (process_syn_ack call_output ip_frag app p) (fun _ => T ESTABLISHED).
Proof.
  unfold process_syn_ack. do 10 (apply keeps_then; [solve [keeps_steps]|]; intros ?).
  eapply hoare_bind; [apply hoare_set_state|]. intros ?. apply keeps_bind; [apply keeps_get_conn|]. unfold TCP_EVENT_CONNECTED.
  keeps_steps. apply minds_connected.
Qed.
Lemma hoare_opened : has F TCP_ACK = true -> has F TCP_SYN = true -> hoare (T ESTABLISHED) (mret ERR_OK) (done_in SYN_SENT).
Proof. intros. apply hoare_know_R. intros R. apply hoare_moved. right. constructor; auto. Qed.
Lemma process_syn_sent_ends : hoare (T SYN_SENT) (_ ← process_syn_sent call_output ip_frag app p; mret ERR_OK) (done_in SYN_SENT).
Proof.
  destruct (has F TCP_ACK && has F TCP_SYN) eqn:Hboth.
  - apply andb_true_iff in Hboth as [Hack Hsyn].
    eapply (hoare_bind _ _ _ (fun _ w => T SYN_SENT w \/ T ESTABLISHED w)).
    + unfold process_syn_sent. apply bind_flag_in; [set_solver|]. apply bind_flag_in; [set_solver|]. apply keeps_then; [apply keeps_getn|]. intros an.
      rewrite Hack, Hsyn. cbn [andb]. apply keeps_then; [keeps_steps|]. intros [|].
      * eapply hoare_weaken; [apply hoare_process_syn_ack|done|]. by right.
      * eapply hoare_weaken; [apply keeps_rst_reply; apply Hblind|done|]. by left.
    + intros _ w e w' [HT|HT] He.
      * by apply (keeps_done SYN_SENT (mret ERR_OK) (keeps_ret _ _) w e w').
      * by apply (hoare_opened Hack Hsyn w e w').
  - apply keeps_done. unfold process_syn_sent. apply keeps_bind; [|intros; apply keeps_ret].
    apply bind_flag_in; [set_solver|]. apply bind_flag_in; [set_solver|]. apply keeps_then; [apply keeps_getn|]. intros an.
    rewrite Hboth. change (keeps (T SYN_SENT) (if has F TCP_ACK then rst_reply call_output ip_frag an else mret tt)). keeps_steps.
Qed.
End process.

(** *** SYN_RCVD *)
Notation absent := (over (W := W) (fun t => tcp_tab t !! p = None)).
Lemma hoare_any {B} (m : M W B) P : hoare P m (fun _ _ => True).
Proof. done. Qed.
Lemma hoare_free_tcp t P : hoare P (free_tcp t p) (fun _ => absent).
Proof.
  unfold free_tcp. eapply (hoare_bind _ _ _ (fun _ => absent)); [|intros ?; apply keeps_on_net].
  apply hoare_modify. intros w _. unfold over. rewrite get_put_stack. cbn. apply lookup_delete_eq.
Qed.
Lemma hoare_tcp_abort P : hoare P (tcp_abort call_output ip_frag app p) (fun _ => absent).
Proof.
  unfold tcp_abort, tcp_abandon. eapply hoare_bind; [apply hoare_any|]. intros c. destruct (bool_decide _).
  - eapply hoare_bind; [apply hoare_any|]. intros ?. apply hoare_free_tcp.
  - do 5 (eapply hoare_bind; [apply hoare_any|]; intros ?).
    eapply hoare_bind; [apply hoare_free_tcp|]. intros ?. unfold TCP_EVENT_ERR.
    apply keeps_bind; [destruct (errf _); [apply minds_err|apply keeps_ret]|]. intros ?. change (keeps absent (if true then tcp_rst call_output ip_frag (num a snd_nxt) (num a rcv_nxt) (num a local_ip) (num a remote_ip) (num a local_port) (num a remote_port) else mret tt)). keeps_steps.
Qed.

Notation T st := (over (W := W) (tracked p st [snd_nxt] v [seg_flags_in; ackno] u)).
Notation TR R st := (over (W := W) (tracked p st [snd_nxt] v [recv_flags; seg_flags_in; ackno] (with_R R))).
Notation moved L st := (left_in (fun s => s = st \/ moves (u seg_flags_in) (u ackno) (v snd_nxt) L fin st s)).
Definition outcome_of (st : tcp_state) (L : Z) (e : Z) (w : W) : Prop :=
  e = ERR_ABRT /\ st = SYN_RCVD /\ has (u seg_flags_in) TCP_ACK = true /\ absent w \/ moved L st w.
Lemma outcome_same st L (m : M W Z) : keeps (T st) m -> hoare (begun st) m (outcome_of st L).
Proof. intros Hm. eapply hoare_weaken; [by apply (keeps_done L st)|apply begun_T|]. by right. Qed.
Lemma outcome_done st L (m : M W Z) : hoare (begun st) m (fun _ => moved L st) -> hoare (begun st) m (outcome_of st L).
Proof. intros Hm. eapply hoare_weaken; [exact Hm|done|]. by right. Qed.

(** What is read before tcp_receive. *)
Lemma begun_flag {B} st f (g : bool -> M W B) (Q : B -> W -> Prop) :
  hoare (begun st) (g (has (u seg_flags_in) f)) Q -> hoare (begun st) (flag_in f ≫= g) Q.
Proof.
  intros HQ. apply (bind_both _ _ _ _ (fun b => b = has (u seg_flags_in) f)); [|apply kept_flag_in|by intros b ->].
  apply hoare_flag_in; [unfold segment_globals; set_solver|by split].
Qed.
Lemma begun_getn {B} st z (g : Z -> M W B) (Q : B -> W -> Prop) : z ∈ segment_globals ->
  hoare (begun st) (g (u z)) Q -> hoare (begun st) (getn z ≫= g) Q.
Proof.
  intros Hz HQ. apply (bind_both _ _ _ _ (fun b => b = u z)); [|apply kept_getn|by intros b ->].
  apply hoare_getn; [done|by split].
Qed.
Lemma begun_get_conn {B} st (g : tcp_pcb -> M W B) (Q : B -> W -> Prop) :
  (forall c, state c = st -> (forall f, f ∈ window_members -> num c f = v f) -> hoare (begun st) (g c) Q) -> hoare (begun st) (get_conn p ≫= g) Q.
Proof.
  intros HQ. apply (bind_both _ _ _ _ (fun c => state c = st /\ forall f, f ∈ window_members -> num c f = v f)); [|apply kept_get_conn|].
  - apply hoare_get_conn. by split.
  - intros c [Hs Hm]. by apply HQ.
Qed.
Lemma begun_state st s : hoare (begun st) (upd_conn (W := W) p (with_state s)) (fun _ => begun s).
Proof.
  intros w r w' [HT HK] Hr. split; [by eapply hoare_set_state|]. by apply (kept_upd_conn _ _ _ _ _ _ _ _ _ _ HK Hr).
Qed.
Lemma begun_accept st e : keeps (begun st) (TCP_EVENT_ACCEPT app p e).
Proof.
  apply keeps_both; unfold TCP_EVENT_ACCEPT.
  - keeps_steps. apply minds_accept.
  - apply keeps_bind; [apply kept_get_tcp|]. intros c. keeps_steps. apply minds_packet.
Qed.

Lemma process_syn_rcvd_ends L : v lastack = L -> hoare (begun SYN_RCVD) (process_syn_rcvd call_output ip_frag app p) (outcome_of SYN_RCVD L).
Proof.
  intros <-. unfold process_syn_rcvd. do 2 apply begun_flag. do 2 (apply begun_getn; [unfold segment_globals; set_solver|]).
  apply begun_get_conn. intros c _ Hc. rewrite !Hc by (unfold window_members; set_solver).
  destruct (has (u seg_flags_in) TCP_ACK) eqn:Hack; [|apply outcome_same; keeps_steps].
  destruct (TCP_SEQ_BETWEEN _ _ _) eqn:Hbetween; [|apply outcome_same; keeps_steps].
  eapply hoare_bind; [apply begun_state|]. intros ?. apply keeps_then; [apply begun_accept|]. intros err.
  destruct (negb (err =? ERR_OK)).
  - eapply hoare_bind; [apply hoare_tcp_abort|]. intros ?. apply hoare_ret. intros w Hw. by left.
  - apply begun_get_conn. intros c1 _ _. apply bind_received. intros _ R HR.
    apply keeps_then; [apply keeps_get_conn|]. intros c2. apply keeps_then; [keeps_steps|]. intros ?. apply bind_recv_flag.
    assert (Hend : forall s, s = ESTABLISHED \/ s = CLOSE_WAIT /\ fin -> hoare (TR R s) (mret ERR_OK) (outcome_of SYN_RCVD (v lastack))).
    { intros s Hs. eapply hoare_weaken; [apply (hoare_moved (v lastack) R SYN_RCVD s); right; by constructor|done|]. by right. }
    destruct (has R TF_GOT_FIN) eqn:Hfin.
    + eapply hoare_bind; [apply hoare_passive_close|]. intros ?. apply Hend. auto.
    + eapply hoare_bind; [apply (hoare_ret tt _ (fun _ => TR R ESTABLISHED)); done|]. intros ?. apply Hend. by left.
Qed.

Lemma process_state_ends st L : v lastack = L -> has (u seg_flags_in) TCP_SYN = false \/ st = SYN_SENT \/ st = SYN_RCVD ->
  hoare (begun st) (process_state call_output ip_frag app p) (outcome_of st L).
Proof.
  intros HL Hsyn. unfold process_state. apply begun_get_conn. intros c -> _.
  destruct st; try (destruct Hsyn as [Hsyn|[?|?]]; [|done|done]);
    try solve [apply outcome_same; keeps_steps].
  - apply outcome_done. eapply hoare_weaken; [apply (process_syn_sent_ends L)|apply begun_T|done].
  - by apply process_syn_rcvd_ends.
  - apply outcome_done, process_established; auto.
  - by apply outcome_done, process_fin_wait_1.
  - by apply outcome_done, process_fin_wait_2.
  - apply outcome_done, process_established; auto.
  - by apply outcome_done, process_closing.
  - apply outcome_done, process_last_ack.
Qed.
Lemma tcp_process_ends st L : v lastack = L ->
  hoare (begun st) (tcp_process call_output ip_frag app p)
    (fun e w => outcome_of st L e w /\ (has (u seg_flags_in) TCP_RST = true -> left_in (fun s => s = st) w)).
Proof.
  intros HL. unfold tcp_process. do 2 apply begun_flag.
  destruct (has (u seg_flags_in) TCP_RST) eqn:Hrst.
  - eapply (hoare_weaken _ _ (T st) _ (fun _ => T st)); [|apply begun_T|].
    + change (keeps (T st) (process_rst p)). unfold process_rst. keeps_steps.
    + intros e w (Hp & Hu & c & Hc & Hs & _). split; [right|intros _]; exists c; (split; [done|]); first [by left|done].
  - eapply (hoare_weaken _ _ (begun st) _ (outcome_of st L)); [|done|by split].
    apply begun_get_conn. intros c -> _. destruct (has (u seg_flags_in) TCP_SYN && _) eqn:Hsyn.
    + apply outcome_same. keeps_steps.
    + apply keeps_then; [apply keeps_both; [apply keeps_getn|apply kept_getn]|]. intros ticks.
      do 3 (apply keeps_then; [apply keeps_both; [unfold window_members; keeps_steps|first [apply kept_setf|apply kept_tcp_parseopt]]|]; intros ?).
      apply process_state_ends; [done|]. apply andb_false_iff in Hsyn as [Hsyn|Hsyn%negb_false_iff%bool_decide_eq_true]; [by left|right; set_solver].
Qed.
End states.
