(* ===== verification/LwipTcpTheorems.v ===== *)
(** Theorems on TCP: the comparisons of sequence numbers, resets, the announced window,
    the options, the lists of control blocks and tcp_bind with its search for a port. *)
From stdpp Require Import gmap.
From S2P Require Import Prelude Mmio LwipMem LwipPbuf LwipPbufTheorems LwipInet LwipInetTheorems LwipStack LwipStackSpec LwipNetif LwipIpOut LwipTcpData LwipTcpOut LwipTcp.
From S2P Require Import LwipTcpIn LwipTcpSpec LwipTcpStates LinkedList.

(** * Sequence numbers *)
Ltac Zify.zify_post_hook ::= Z.to_euclidean_division_equations.

(** The distance from [b] to [a], modulo 2^32. *)
Definition ahead (a b : Z) : Z := (a - b) mod 2 ^ 32.
Lemma seq_geq a b : TCP_SEQ_GEQ a b = (ahead a b <? 2 ^ 31).
Proof. unfold TCP_SEQ_GEQ, ahead, s32. apply eq_true_iff_eq. rewrite Z.leb_le, Z.ltb_lt. lia. Qed.
Lemma seq_gt a b : TCP_SEQ_GT a b = (0 <? ahead a b) && (ahead a b <? 2 ^ 31).
Proof. unfold TCP_SEQ_GT, ahead, s32. apply eq_true_iff_eq. rewrite andb_true_iff, !Z.ltb_lt. lia. Qed.
Lemma seq_between a b k : 0 <= k < 2 ^ 31 -> TCP_SEQ_BETWEEN a b (b + k) = (ahead a b <=? k).
Proof.
  intros Hk. unfold TCP_SEQ_BETWEEN. rewrite seq_geq. unfold TCP_SEQ_LEQ, ahead, s32.
  apply eq_true_iff_eq. rewrite andb_true_iff, Z.ltb_lt, !Z.leb_le. lia.
Qed.

(** * The statements on the variables of TCP *)
Definition put_tcp (p : ptr) (c : tcp_pcb) (s : stack) : stack := set_tcps (set_tcp_tab (<[p := c]> (tcp_tab (tcps s))) (tcps s)) s.
Definition put_global (g : tcp_global) (v : Z) (s : stack) : stack := set_tcps (set_global_num g v (tcps s)) s.
Definition is_conn (p : ptr) : Prop := exists i, p = InPool MEMP_TCP_PCB i.
Lemma put_tcp_same p c s : tcp_tab (tcps s) !! p = Some c -> put_tcp p c s = s.
Proof. intros Hc. unfold put_tcp. rewrite insert_id by done. by destruct s as [??????????????? []]. Qed.
Lemma put_tcp_twice p c d s : put_tcp p d (put_tcp p c s) = put_tcp p d s.
Proof. unfold put_tcp, set_tcps, set_tcp_tab. cbn. by rewrite insert_insert_eq. Qed.

Lemma with_num_type f v v' c : member_type f v = member_type f v' -> with_num f v c = with_num f v' c.
Proof. unfold with_num. by intros ->. Qed.

Section runs.
Context {W : Type} `{StackLaws W}.
Implicit Types (s : stack) (w : W).
Lemma run_getn g s w : getn g (put_stack s w) = Ret (globals (tcps s) g) (put_stack s w).
Proof. unfold getn, get_tcps, gets_stack, gets. by rewrite get_put_stack. Qed.
Lemma run_flag_in f s w : flag_in f (put_stack s w) = Ret (has (globals (tcps s) seg_flags_in) f) (put_stack s w).
Proof. unfold flag_in. by rewrite (run_bind _ _ _ _ _ (run_getn _ _ _)). Qed.
Lemma run_setn g v s w : setn g v (put_stack s w) = Ret tt (put_stack (put_global g v s) w).
Proof. unfold setn, mod_tcps, mod_stack, modify. by rewrite get_put_stack, put_put_stack. Qed.
Lemma run_set_recv_flag f s w : set_recv_flag f (put_stack s w) = Ret tt (put_stack (put_global recv_flags (Z.lor (globals (tcps s) recv_flags) f) s) w).
Proof. unfold set_recv_flag. by rewrite (run_bind _ _ _ _ _ (run_getn _ _ _)), run_setn. Qed.
Lemma run_get_tcp p c s w : tcp_tab (tcps s) !! p = Some c -> get_tcp p (put_stack s w) = Ret c (put_stack s w).
Proof. intros Hc. unfold get_tcp, get_tcps, gets_stack, gets, mbind, M_bind. by rewrite get_put_stack, Hc. Qed.
Lemma run_get_conn p c s w : is_conn p -> tcp_tab (tcps s) !! p = Some c -> get_conn p (put_stack s w) = Ret c (put_stack s w).
Proof. intros [i ->] Hc. by apply run_get_tcp. Qed.
Lemma run_upd_conn p f c s w : is_conn p -> tcp_tab (tcps s) !! p = Some c -> upd_conn p f (put_stack s w) = Ret tt (put_stack (put_tcp p (f c) s) w).
Proof.
  intros Hp Hc. unfold upd_conn. rewrite (run_bind _ _ _ _ _ (run_get_conn _ _ _ _ Hp Hc)). unfold upd_tcp.
  rewrite (run_bind _ _ _ _ _ (run_get_tcp _ _ _ _ Hc)). unfold mod_tcps, mod_stack, modify. by rewrite get_put_stack, put_put_stack.
Qed.
Lemma run_get_conn_put p c s w : is_conn p -> get_conn p (put_stack (put_tcp p c s) w) = Ret c (put_stack (put_tcp p c s) w).
Proof. intros Hp. apply run_get_conn; [done|]. apply lookup_insert_eq. Qed.
Lemma run_upd_conn_put p f c s w : is_conn p -> upd_conn p f (put_stack (put_tcp p c s) w) = Ret tt (put_stack (put_tcp p (f c) s) w).
Proof. intros Hp. rewrite (run_upd_conn p f c); [by rewrite put_tcp_twice|done|]. apply lookup_insert_eq. Qed.
End runs.
(** Go through the statements whose outcome is known. *)
Ltac run_conn :=
  match goal with
  | Hp : is_conn ?p |- _ =>
      first [ rewrite (run_bind _ _ _ _ _ (run_get_conn_put p _ _ _ Hp)) | rewrite (run_bind _ _ _ _ _ (run_upd_conn_put p _ _ _ _ Hp))
            | match goal with Hc : tcp_tab _ !! p = Some ?c |- _ =>
                first [ rewrite (run_bind _ _ _ _ _ (run_get_conn p c _ _ Hp Hc)) | rewrite (run_bind _ _ _ _ _ (run_upd_conn p _ c _ _ Hp Hc))
                      | rewrite (run_bind _ _ _ _ _ (run_upd_conn p _ c (put_global _ _ _) _ Hp Hc)) ] end ]
  end.
Ltac run_steps :=
  repeat first
    [ rewrite (run_bind _ _ _ _ _ (run_getn _ _ _))
    | rewrite (run_bind _ _ _ _ _ (run_flag_in _ _ _))
    | run_conn
    | rewrite (run_bind _ _ _ _ _ (run_set_recv_flag _ _ _))
    | rewrite (run_bind _ _ _ _ _ (run_setn _ _ _ _)) ].

(** * Resets *)
Section resets.
Context {W : Type} `{StackLaws W}.
Variable call_output : output_fn -> netif_ptr -> option ptr -> Z -> M W Z.
Variable ip_frag : ptr -> netif_ptr -> Z -> M W Z.
Variable app : tcp_app W.

(** A reset is taken when it acknowledges the SYN, before there is a connection, and
    afterwards when its number lies in the receive window or just behind it. *)
Definition reset_taken (c : tcp_pcb) (t : tcp_vars) : bool :=
  if bool_decide (state c = SYN_SENT) then globals t ackno =? num c snd_nxt
  else ahead (globals t seqno) (num c rcv_nxt) <=? num c rcv_wnd.
(** C32. A segment with RST either ends the connection, or nothing happens: tcp_process answers ERR_RST, with TF_RESET for tcp_input and without a delayed acknowledgement, when a SYN was sent and the segment acknowledges it, or in every other state when the distance of the segment's number from the next byte to receive, modulo 2^32, is at most the window; for every other one it answers ERR_OK and the stack is as it was. *)
Theorem tcp_process_reset p c s w (t := tcps s) : is_conn p -> tcp_tab t !! p = Some c -> has (globals t seg_flags_in) TCP_RST = true ->
  0 <= num c rcv_wnd < 2 ^ 16 ->
  tcp_process call_output ip_frag app p (put_stack s w)
  = if reset_taken c t
    then Ret ERR_RST (put_stack (put_tcp p (with_num pcb_flags (without (num c pcb_flags) TF_ACK_DELAY) c)
                                  (put_global recv_flags (Z.lor (globals t recv_flags) TF_RESET) s)) w)
    else Ret ERR_OK (put_stack s w).
Proof.
  intros Hp Hc Hrst Hwnd. subst t. unfold tcp_process. run_steps. rewrite Hrst. unfold process_rst. run_steps.
  rewrite seq_between by lia. unfold reset_taken. destruct (if bool_decide _ then _ else _); [|done].
  run_steps. unfold modf. by run_steps.
Qed.

End resets.

(** * The announced window *)
Section theorems.
Context {W : Type} `{StackLaws W}.

(** C34. The announced window never shrinks: when the edge that was announced lies in the receive window, [x] bytes from the next byte to receive, tcp_update_rcv_ann_wnd announces the whole window if its end is a segment further than the edge, and keeps the edge where it is otherwise, so the new edge is never left of the old one nor outside the window; the answer is the distance that it moved. *)
Theorem rcv_ann_wnd_never_shrinks p c s w (x := ahead (num c rcv_ann_right_edge) (num c rcv_nxt)) : is_conn p -> tcp_tab (tcps s) !! p = Some c ->
  x <= num c rcv_wnd < 2 ^ 16 -> 0 <= num c mss < 2 ^ 16 ->
  exists a, tcp_update_rcv_ann_wnd p (put_stack s w) = Ret (a - x) (put_stack (put_tcp p (with_num rcv_ann_wnd a c) s) w) /\
    x <= a <= num c rcv_wnd /\ a = (if num c mss <=? num c rcv_wnd - x then num c rcv_wnd else x).
Proof.
  intros Hp Hc Hx Hm. assert (Hx0 : 0 <= x) by (unfold x, ahead; lia).
  exists (if num c mss <=? num c rcv_wnd - x then num c rcv_wnd else x). split; [|split; [|done]]; [|destruct (Z.leb_spec (num c mss) (num c rcv_wnd - x)); lia].
  unfold tcp_update_rcv_ann_wnd. run_steps.
  assert (Hgeq : TCP_SEQ_GEQ (u32 (num c rcv_nxt + num c rcv_wnd)) (num c rcv_ann_right_edge + num c mss) = (num c mss <=? num c rcv_wnd - x)).
  { rewrite seq_geq. unfold ahead, u32, x, ahead in *. apply eq_true_iff_eq. rewrite Z.ltb_lt, Z.leb_le. lia. }
  rewrite Hgeq. unfold setf. destruct (num c mss <=? num c rcv_wnd - x); run_steps.
  - unfold mret, M_ret. f_equal. unfold u32, x, ahead in *. lia.
  - assert (Hgt : TCP_SEQ_GT (num c rcv_nxt) (num c rcv_ann_right_edge) = false).
    { rewrite seq_gt. apply andb_false_iff. unfold x, ahead in *. rewrite !Z.ltb_ge. lia. }
    rewrite Hgt. unfold mret, M_ret. rewrite Z.sub_diag. do 3 f_equal. apply with_num_type. cbn. unfold u16, x, ahead in *. lia.
Qed.

(** * Options *)

(** [c'] is [c] but for its segment size, which is that of [c] or one that TCP can use. *)
Definition only_mss (c c' : tcp_pcb) : Prop :=
  exists f, c' = TcpPcb (tcp_next c) (state c) (callback_arg c) (accept c) f (unsent c) (unacked c) (refused_data c) (sent c) (tcp_recv_cb c) (connected c) (poll c) (errf c)
    /\ (forall g, g <> mss -> f g = num c g) /\ (f mss = num c mss \/ 0 < f mss <= TCP_MSS).
Lemma only_mss_refl c : only_mss c c.
Proof. exists (num c). split; [by destruct c|]. split; [done|by left]. Qed.
Lemma only_mss_set c c' n : only_mss c c' -> 0 < n <= TCP_MSS -> only_mss c (with_num mss n c').
Proof.
  intros (f & -> & Hf & _) Hn. eexists. split; [reflexivity|]. cbn. split.
  - intros g Hg. rewrite decide_False by done. by apply Hf.
  - right. rewrite decide_True by done. unfold TCP_MSS, u16 in *. lia.
Qed.

(** A byte of a header in the memory of its pbuf. *)
Lemma run_hdr8 q b o i s w : pbufs (s_net s) !! q = Some b -> 0 <= o + i < room b ->
  hdr8 (q, o) i (put_stack s w) = Ret (bytes_at (s_net s) q (o + i)) (put_stack s w).
Proof.
  intros Hb Hi. unfold hdr8, on_net. rewrite get_put_stack. cbn [fst snd]. unfold get_pbuf, gets, mbind, M_bind. rewrite Hb. cbn.
  rewrite (proj2 (Z.leb_le _ _)), (proj2 (Z.ltb_lt _ _)) by lia. cbn. by rewrite put_put_stack, set_net_same.
Qed.
Lemma wp_hdr8_at q b o i s w (Q : Z -> W -> Prop) : pbufs (s_net s) !! q = Some b -> 0 <= o + i < room b ->
  Q (bytes_at (s_net s) q (o + i)) (put_stack s w) -> wp (hdr8 (q, o) i) Q (put_stack s w).
Proof. intros Hb Hi HQ. unfold wp. by rewrite (run_hdr8 q b). Qed.

(** The number of words in the header. *)
Definition header_words (q : ptr) (o : Z) (k : net) : Z := Z.shiftr (htons (bytes_at k q (o + 12) + 2 ^ 8 * bytes_at k q (o + 13))) 12.
Lemma header_words_range q o k : 0 <= header_words q o k < 16.
Proof. unfold header_words. rewrite Z.shiftr_div_pow2 by lia. pose proof (htons_bound (bytes_at k q (o + 12) + 2 ^ 8 * bytes_at k q (o + 13))). lia. Qed.

(** C33. Whatever the options of a segment hold, tcp_parseopt comes to an end within the header and the byte behind it; it changes nothing but the segment size, which it leaves alone or sets to a size between 1 and TCP_MSS, so that no window is divided by zero. *)
Theorem tcp_parseopt_bounds p c q b o s w (n := header_words q o (s_net s)) : is_conn p -> tcp_tab (tcps s) !! p = Some c ->
  in_tcphdr (tcps s) = Some (q, o) -> pbufs (s_net s) !! q = Some b -> 0 <= o -> o + 20 <= room b -> o + 4 * n < room b -> bytes (bytes_at (s_net s) q) ->
  wp (tcp_parseopt p) (fun _ w' => exists c', w' = put_stack (put_tcp p c' s) w /\ only_mss c c') (put_stack s w).
Proof.
  intros Hp Hc Hh Hb Ho H20 Hend Hbytes. pose proof (header_words_range q o (s_net s)) as Hn. fold n in Hn.
  unfold tcp_parseopt. apply wp_bind, wp_bind. unfold get_tcps. apply wp_gets_stack. rewrite Hh. apply wp_ret.
  apply wp_bind, wp_bind, wp_bind, (wp_hdr8_at q b); [done|unfold tcp_hdrlen_rsvd_flags; lia|].
  apply wp_bind, (wp_hdr8_at q b); [done|unfold tcp_hdrlen_rsvd_flags; lia|]. apply wp_ret, wp_ret.
  change (Z.shiftr (ntohs _) 12) with n.
  assert (Hsame : exists c', put_stack s w = put_stack (put_tcp p c' s) w /\ only_mss c c') by (exists c; split; [by rewrite put_tcp_same|apply only_mss_refl]).
  destruct (5 <? n) eqn:Hlong; [|by apply wp_ret]. apply Z.ltb_lt in Hlong.
  set (max_c := u16 (Z.shiftl (n - 5) 2)). assert (Hmax : max_c = 4 * (n - 5)) by (unfold max_c, u16; rewrite Z.shiftl_mul_pow2 by lia; lia).
  apply (wp_loop (fun c0 w' => 0 <= c0 /\ exists c', w' = put_stack (put_tcp p c' s) w /\ only_mss c c') (fun c0 _ => Z.max 0 (40 - c0))); [by split|lia|].
  intros c0 w' [Hc0 (c' & -> & Hmss)] _. unfold parseopt_body.
  destruct (c0 <? max_c) eqn:Hin; cbn [negb]; [apply Z.ltb_lt in Hin|apply wp_ret; by exists c'].
  assert (Hread : forall i, 0 <= i <= 4 * n - 20 -> forall Q : Z -> W -> Prop, (forall x, 0 <= x < 2 ^ 8 -> Q x (put_stack (put_tcp p c' s) w)) ->
    wp (hdr8 (q, o) (TCP_HLEN + i)) Q (put_stack (put_tcp p c' s) w)).
  { intros i Hi Q HQ. apply (wp_hdr8_at q b); [done|unfold TCP_HLEN; lia|]. apply HQ, Hbytes. }
  assert (Hstop : wp (mret (inr tt)) (fun (r : Z + unit) w' => match r with
      | inl a' => (0 <= a' /\ exists c', w' = put_stack (put_tcp p c' s) w /\ only_mss c c') /\ 0 <= Z.max 0 (40 - a') < Z.max 0 (40 - c0)
      | inr _ => exists c', w' = put_stack (put_tcp p c' s) w /\ only_mss c c' end) (put_stack (put_tcp p c' s) w)) by (apply wp_ret; by exists c').
  assert (Hgo : forall k c1, 0 < k < 2 ^ 8 -> only_mss c c1 -> wp (mret (inl (u16 (c0 + k)))) (fun (r : Z + unit) w' => match r with
      | inl a' => (0 <= a' /\ exists c', w' = put_stack (put_tcp p c' s) w /\ only_mss c c') /\ 0 <= Z.max 0 (40 - a') < Z.max 0 (40 - c0)
      | inr _ => exists c', w' = put_stack (put_tcp p c' s) w /\ only_mss c c' end) (put_stack (put_tcp p c1 s) w)).
  { intros k c1 Hk Hc1. apply wp_ret. unfold u16. split; [split; [lia|by exists c1]|lia]. }
  apply wp_bind, Hread; [lia|]. intros opt Hopt. destruct (opt =? 0); [exact Hstop|]. destruct (opt =? 1); [by apply Hgo|].
  destruct (opt =? 2).
  - apply wp_bind, Hread; [lia|]. intros k Hk. destruct (negb (k =? 4) || _) eqn:Hbad; [exact Hstop|].
    apply orb_false_iff in Hbad as [_ Hfit%Z.ltb_ge]. apply wp_bind, Hread; [lia|]. intros hi Hhi. apply wp_bind, Hread; [lia|]. intros lo Hlo.
    apply wp_bind. unfold setf, wp. rewrite run_upd_conn_put by done. apply Hgo; [lia|]. apply only_mss_set; [done|].
    set (m := Z.lor _ _). assert (0 <= m) by (apply Z.lor_nonneg; split; [apply Z.shiftl_nonneg; lia|lia]).
    destruct ((TCP_MSS <? m) || (m =? 0)) eqn:Hlim; [by unfold TCP_MSS|]. apply orb_false_iff in Hlim as [?%Z.ltb_ge ?%Z.eqb_neq]. lia.
  - apply wp_bind, Hread; [lia|]. intros k Hk. destruct (k =? 0) eqn:Hz; [exact Hstop|]. apply Z.eqb_neq in Hz. apply Hgo; [lia|done].
Qed.
End theorems.

(** * Examples *)
Section examples.
Definition demo_pcb : ptr := InPool MEMP_TCP_PCB 0.
Definition demo_buf : ptr := InPool MEMP_PBUF_POOL 9.
Definition demo_words (f : tcp_member) : Z :=
  match f with rcv_nxt => 2 ^ 32 - 100 | rcv_wnd => 2920 | rcv_ann_right_edge => 1000 | mss => 536 | _ => 0 end.
Definition demo_conn : tcp_pcb := TcpPcb None ESTABLISHED None None demo_words None None None None None None None None.
(** A segment with RST at the end of the window, behind the wrap of the sequence numbers;
    its header of 32 bytes holds the options no-operation, segment size 1460, and one of
    an unknown kind with the length 0. *)
Definition demo_header (i : Z) : Z :=
  match i with 12 => 0x80 | 20 => 1 | 21 => 2 | 22 => 4 | 23 => 5 | 24 => 0xb4 | 25 => 99 | _ => 0 end.
Definition demo_stack : stack :=
  let s := stack_zero (set_pool MEMP_PBUF_POOL 9 demo_header (add_pool 9 (rev (seq 0 9)) (Pbuf None (Some 0) 40 40 PBUF_POOL 0 1 1520) fresh_net)) ∅ in
  set_tcps (set_in_headers None (Some (demo_buf, 0)) (set_tcp_tab {[demo_pcb := demo_conn]}
    (set_global_num seg_flags_in TCP_RST (set_global_num seqno 2820 (tcps s))))) s.
Definition no_output (_ : output_fn) (_ : netif_ptr) (_ : option ptr) (_ : Z) : M stack Z := fault.
Definition no_frag (_ : ptr) (_ : netif_ptr) (_ : Z) : M stack Z := fault.
Definition no_calls : tcp_app stack :=
  TcpApp stack (fun _ _ _ _ _ => fault) (fun _ _ _ _ => fault) (fun _ _ _ _ => fault) (fun _ _ _ => fault) (fun _ _ _ => fault) (fun _ _ _ _ => fault).

Lemma tcp_process_reset_witness :
  reset_taken demo_conn (tcps demo_stack) = true /\
  tcp_process no_output no_frag no_calls demo_pcb (put_stack demo_stack demo_stack) =
  Ret ERR_RST (put_stack (put_tcp demo_pcb (with_num pcb_flags (without (num demo_conn pcb_flags) TF_ACK_DELAY) demo_conn)
    (put_global recv_flags (Z.lor (globals (tcps demo_stack) recv_flags) TF_RESET) demo_stack)) demo_stack).
Proof.
  assert (Ht : reset_taken demo_conn (tcps demo_stack) = true) by (vm_compute; reflexivity). split; [exact Ht|].
  assert (Hwnd : 0 <= num demo_conn rcv_wnd < 2 ^ 16) by (cbn; lia).
  pose proof (tcp_process_reset no_output no_frag no_calls demo_pcb demo_conn demo_stack demo_stack (ex_intro _ 0%nat eq_refl) eq_refl eq_refl Hwnd) as Hr.
  cbv zeta in Hr. rewrite Ht in Hr. exact Hr.
Defined.
Lemma rcv_ann_wnd_never_shrinks_witness (x := ahead (num demo_conn rcv_ann_right_edge) (num demo_conn rcv_nxt)) :
  x = 1100 /\ exists a, tcp_update_rcv_ann_wnd demo_pcb (put_stack demo_stack demo_stack) =
    Ret (a - x) (put_stack (put_tcp demo_pcb (with_num rcv_ann_wnd a demo_conn) demo_stack) demo_stack) /\ a = 2920.
Proof.
  assert (Hx : x = 1100) by (vm_compute; reflexivity). split; [exact Hx|].
  assert (Hwnd : x <= num demo_conn rcv_wnd < 2 ^ 16) by (rewrite Hx; cbn; lia). assert (Hmss : 0 <= num demo_conn mss < 2 ^ 16) by (cbn; lia).
  pose proof (rcv_ann_wnd_never_shrinks demo_pcb demo_conn demo_stack demo_stack (ex_intro _ 0%nat eq_refl) eq_refl Hwnd Hmss) as Hr.
  fold x in Hr. destruct Hr as (a & Hrun & _ & Ha). exists a. split; [exact Hrun|]. rewrite Ha, Hx. reflexivity.
Defined.
Lemma tcp_parseopt_bounds_witness :
  wp (tcp_parseopt demo_pcb) (fun _ w' => exists c', w' = put_stack (put_tcp demo_pcb c' demo_stack) demo_stack /\ only_mss demo_conn c') (put_stack demo_stack demo_stack).
Proof.
  apply (tcp_parseopt_bounds demo_pcb demo_conn demo_buf (Pbuf None (Some 0) 40 40 PBUF_POOL 0 1 1520) 0 demo_stack demo_stack); [by eexists|done..|].
  intros i. change (0 <= demo_header i < 2 ^ 8). unfold demo_header. repeat case_match; lia.
Defined.
Example segment_size_learnt : match tcp_parseopt demo_pcb demo_stack with
  | Ret _ s => (fun c => num c mss) <$> tcp_tab (tcps s) !! demo_pcb | _ => None end = Some 1460.
Proof. by vm_compute. Qed.
End examples.

(** * The lists of control blocks *)

Definition pcb_lists : Type := tcp_list -> list (ptr * tcp_pcb).
Definition everyone (L : pcb_lists) : list ptr :=
  (L tcp_bound_pcbs).*1 ++ (L tcp_listen_pcbs).*1 ++ (L tcp_active_pcbs).*1 ++ (L tcp_tw_pcbs).*1.

(** The variables of tcp.c hold the four lists, no control block is twice in them, and
    there are not more than the two pools have. *)
Record lists_ok (t : tcp_vars) (L : pcb_lists) : Prop := {
  lo_chains : forall k, linked tcp_next (tcp_tab t) (heads t k) (L k);
  lo_distinct : NoDup (everyone L);
  lo_room : (size (tcp_tab t) <= 16)%nat
}.

Lemma keys_room (m : gmap ptr tcp_pcb) (l : list ptr) : NoDup l -> l ⊆ elements (dom m) -> (length l <= size m)%nat.
Proof.
  intros Hnd Hl. rewrite <- size_dom. change (size (dom m)) with (length (elements (dom m))).
  apply submseteq_length, NoDup_submseteq; [done|exact Hl].
Qed.
Lemma lists_room t L : lists_ok t L -> (length (everyone L) <= 16)%nat.
Proof.
  intros [Hch Hnd Hroom]. etrans; [|exact Hroom]. apply keys_room; [done|]. unfold everyone. intros q.
  assert (Hin : forall k, q ∈ (L k).*1 -> q ∈ elements (dom (tcp_tab t))).
  { intros k ([q' c] & -> & Hc)%list_elem_of_fmap. apply elem_of_elements, elem_of_dom. exists c. by apply (linked_in _ _ _ _ _ _ (Hch k)). }
  rewrite !elem_of_app. naive_solver.
Qed.
Lemma list_room t L k : lists_ok t L -> (length (L k) <= 16)%nat.
Proof.
  intros Hok%lists_room. unfold everyone in Hok. rewrite !length_app, !length_fmap in Hok. destruct k; lia.
Qed.

(** Has a control block of the list the port, and an address that [same] accepts? *)
Definition taken (same : Z -> bool) (port : Z) (l : list (ptr * tcp_pcb)) : bool :=
  existsb (fun x => (num x.2 local_port =? port) && same (num x.2 local_ip)) l.
(** The ports that tcp_new_port looks at. *)
Definition ports (L : pcb_lists) : list Z := (fun x => num x.2 local_port) <$> L tcp_active_pcbs ++ L tcp_tw_pcbs ++ L tcp_listen_pcbs.

Lemma taken_port port l : taken (fun _ => true) port l = bool_decide (port ∈ (fun x => num x.2 local_port) <$> l).
Proof.
  unfold taken. apply eq_true_iff_eq. rewrite existsb_exists, bool_decide_eq_true, list_elem_of_fmap. split.
  - intros (x & Hx & [Hp _]%andb_true_iff). exists x. split; [lia|by apply list_elem_of_In].
  - intros (x & -> & Hx). exists x. split; [by apply list_elem_of_In|]. by rewrite Z.eqb_refl.
Qed.
Lemma ports_taken port L : bool_decide (port ∈ ports L) =
  taken (fun _ => true) port (L tcp_active_pcbs) || (taken (fun _ => true) port (L tcp_tw_pcbs) || taken (fun _ => true) port (L tcp_listen_pcbs)).
Proof. unfold ports. rewrite !fmap_app, !taken_port. apply eq_true_iff_eq. rewrite !orb_true_iff, !bool_decide_eq_true, !elem_of_app. naive_solver. Qed.
Lemma ports_room t L : lists_ok t L -> (length (ports L) <= 16)%nat.
Proof. intros Hok%lists_room. unfold everyone, ports in *. rewrite !length_app, !length_fmap, ?length_app in *. lia. Qed.

(** * The search for a free port *)

(** The port that the search tries as the [i]-th one after [p]. *)
Definition port_at (p i : Z) : Z := TCP_LOCAL_PORT_RANGE_START + (p - TCP_LOCAL_PORT_RANGE_START + i) mod (TCP_LOCAL_PORT_RANGE_END - TCP_LOCAL_PORT_RANGE_START + 1).
Definition port_ok (p : Z) : Prop := TCP_LOCAL_PORT_RANGE_START <= p <= TCP_LOCAL_PORT_RANGE_END.
Lemma port_at_ok p i : port_ok (port_at p i).
Proof. unfold port_ok, port_at. change TCP_LOCAL_PORT_RANGE_START with 4096. change TCP_LOCAL_PORT_RANGE_END with 0x7fff. lia. Qed.
Lemma port_at_0 p : port_ok p -> port_at p 0 = p.
Proof. unfold port_ok, port_at. change TCP_LOCAL_PORT_RANGE_START with 4096. change TCP_LOCAL_PORT_RANGE_END with 0x7fff. lia. Qed.
Lemma port_at_next p i :
  (let q := u16 (port_at p i + 1) in if TCP_LOCAL_PORT_RANGE_END <? q then TCP_LOCAL_PORT_RANGE_START else q) = port_at p (i + 1).
Proof.
  unfold port_at, u16. change TCP_LOCAL_PORT_RANGE_START with 4096. change TCP_LOCAL_PORT_RANGE_END with 0x7fff.
  cbv zeta. destruct (_ <? _) eqn:E; [apply Z.ltb_lt in E|apply Z.ltb_ge in E]; lia.
Qed.
(** As many ports as the search found taken, control blocks have. *)
Lemma tries_taken p n l : Z.of_nat n <= 28000 -> (forall i, 1 <= i <= Z.of_nat n -> port_at p i ∈ l) -> (n <= length l)%nat.
Proof.
  intros Hn Hin.
  replace n with (length (port_at p <$> seqZ 1 (Z.of_nat n))) by (rewrite length_fmap, length_seqZ; lia).
  apply submseteq_length, NoDup_submseteq.
  - apply NoDup_fmap_2_strong; [|apply NoDup_seqZ]. intros i j Hi%elem_of_seqZ Hj%elem_of_seqZ. unfold port_at.
    change TCP_LOCAL_PORT_RANGE_START with 4096. change TCP_LOCAL_PORT_RANGE_END with 0x7fff. lia.
  - intros q (i & -> & Hi%elem_of_seqZ)%list_elem_of_fmap. apply Hin. lia.
Qed.

(** The stack after a search that ended with [port]. *)
Definition searched (port : Z) (s s' : stack) : Prop :=
  exists g, s' = set_tcps (Tcp (heads (tcps s)) (tcp_tab (tcps s)) (seg_tab (tcps s)) g (tcp_input_pcb (tcps s)) (in_iphdr (tcps s)) (in_tcphdr (tcps s)) (inseg (tcps s)) (recv_data (tcps s))) s /\
    forall x, g x = if decide (x = last_port) then port else globals (tcps s) x.
Lemma searched_refl s : searched (globals (tcps s) last_port) s s.
Proof. exists (globals (tcps s)). split; [by destruct s as [??????????????? []]|]. intros x. by case_decide; subst. Qed.
Lemma searched_put port q s s' : port_ok port -> searched q s s' -> searched port s (put_global last_port port s').
Proof.
  intros Hport (g & -> & Hg). eexists. split; [reflexivity|]. intros x. cbn. unfold port_ok in Hport. rewrite Hg. repeat case_decide; try done.
  change TCP_LOCAL_PORT_RANGE_START with 4096 in Hport. change TCP_LOCAL_PORT_RANGE_END with 0x7fff in Hport. unfold u16. lia.
Qed.
Lemma searched_lists port s s' L : searched port s s' -> lists_ok (tcps s) L -> lists_ok (tcps s') L.
Proof. intros (g & -> & _) []. by split. Qed.

Section search.
Context {W : Type} `{StackLaws W}.
Implicit Types (s : stack) (w : W).

Lemma wp_get_tcp p c (Q : tcp_pcb -> W -> Prop) s w : tcp_tab (tcps s) !! p = Some c -> Q c (put_stack s w) -> wp (get_tcp p) Q (put_stack s w).
Proof. intros Hc HQ. unfold wp. by rewrite (run_get_tcp p c). Qed.
Lemma wp_upd_tcp p c f (Q : unit -> W -> Prop) s w : tcp_tab (tcps s) !! p = Some c -> Q tt (put_stack (put_tcp p (f c) s) w) -> wp (upd_tcp p f) Q (put_stack s w).
Proof. intros Hc HQ. by apply wp_bind, (wp_get_tcp p c), wp_mod_stack. Qed.

(** A list is searched to its end, or to the first control block that has the port. *)
Lemma wp_port_on_list k port same f s w L (Q : bool -> W -> Prop) : lists_ok (tcps s) L ->
  (forall x, x ∈ L k -> num x.2 local_port = port -> same (num x.2 local_ip) (put_stack s w) = Ret (f (num x.2 local_ip)) (put_stack s w)) ->
  Q (taken f port (L k)) (put_stack s w) -> wp (port_on_list k port same) Q (put_stack s w).
Proof.
  intros Hok Hsame HQ. apply wp_bind, wp_gets_stack.
  apply (wp_loop_nat (S (length (L k)))); [pose proof (list_room _ _ k Hok); unfold tcp_fuel; lia|].
  revert HQ Hsame. generalize (lo_chains _ _ Hok k). generalize (heads (tcps s) k). induction (L k) as [|[q c] l IH]; intros first Hl HQ Hsame; apply wp_iter_S.
  - cbn in Hl. subst first. by apply wp_ret.
  - destruct Hl as (-> & Hq & Hl). cbn [on_port_body]. apply wp_bind, (wp_get_tcp q c); [done|]. unfold taken in HQ. cbn [existsb snd] in HQ.
    destruct (Z.eqb_spec (num c local_port) port) as [Hp|Hp]; cbn [andb orb] in HQ.
    + apply wp_bind. unfold wp at 1. specialize (Hsame (q, c)) as Hthis. cbn [snd] in Hthis. rewrite Hthis by (by left || done).
      destruct (f (num c local_ip)); apply wp_ret; [done|]. apply IH; [done|done|]. intros x Hx. apply Hsame. by right.
    + apply wp_ret, IH; [done|done|]. intros x Hx. apply Hsame. by right.
Qed.
Lemma wp_port_on_any k port s w L (Q : bool -> W -> Prop) : lists_ok (tcps s) L ->
  Q (taken (fun _ => true) port (L k)) (put_stack s w) -> wp (port_on_list k port (fun _ => mret true)) Q (put_stack s w).
Proof. intros Hok. by apply wp_port_on_list. Qed.

Lemma wp_run {A} (m : M W A) r w w' : wp m (fun a u => a = r /\ u = w') w -> m w = Ret r w'.
Proof. intros (a & u & Hm & -> & ->)%wp_unfold. exact Hm. Qed.
(** Where the comparison reads a null pointer, a control block that has the port is the end. *)
Lemma fault_port_on_list k port same s w L : lists_ok (tcps s) L -> (forall a w', same a w' = Fault) ->
  taken (fun _ => true) port (L k) = true -> port_on_list k port same (put_stack s w) = Fault.
Proof.
  intros Hok Hsame Hport. unfold port_on_list. rewrite (run_bind _ _ _ (heads (tcps s) k) (put_stack s w)).
  2: { unfold head, get_tcps, gets_stack, gets. by rewrite get_put_stack. }
  pose proof (list_room _ _ k Hok) as Hroom.
  assert (Hiter : iter_nat (length (L k)) (on_port_body port same) (heads (tcps s) k) (put_stack s w) = Fault).
  2: { rewrite (loop_run (length (L k))); rewrite ?Hiter; [done|unfold tcp_fuel; lia|done]. }
  revert Hport. generalize (lo_chains _ _ Hok k). generalize (heads (tcps s) k). clear Hroom. induction (L k) as [|[q c] l IH]; intros first Hl Hport; [done|].
  destruct Hl as (-> & Hq & Hl). cbn [length iter_nat on_port_body]. rewrite run_bind_assoc, (run_bind _ _ _ _ _ (run_get_tcp q c s w Hq)).
  unfold taken in Hport. cbn [existsb snd] in Hport. rewrite andb_true_r in Hport.
  destruct (num c local_port =? port); [by rewrite run_bind_assoc, run_outcome, Hsame|]. by apply IH.
Qed.
Lemma run_port_on_any k port same s w L b : lists_ok (tcps s) L -> (forall a, same a = mret true) ->
  taken (fun _ => true) port (L k) = b -> port_on_list k port same (put_stack s w) = Ret b (put_stack s w).
Proof.
  intros Hok Hsame <-. apply wp_run, (wp_port_on_list _ _ _ (fun _ => true) _ _ L); [done| |done]. intros x _ _. by rewrite Hsame.
Qed.

Lemma wp_new_port_body p i s w L (Q : Z + Z -> W -> Prop) s' : lists_ok (tcps s) L -> searched (port_at p i) s s' ->
  (forall s'', searched (port_at p (i + 1)) s s'' ->
    Q (if bool_decide (port_at p (i + 1) ∈ ports L) then inl (port_at p (i + 1)) else inr (port_at p (i + 1))) (put_stack s'' w)) ->
  wp (new_port_body (port_at p i)) Q (put_stack s' w).
Proof.
  intros Hok Hs HQ. unfold new_port_body. rewrite port_at_next. cbv zeta. apply wp_bind, wp_mod_stack.
  assert (Hs' : searched (port_at p (i + 1)) s (put_global last_port (port_at p (i + 1)) s')) by (eapply searched_put; [apply port_at_ok|done]).
  specialize (HQ _ Hs'). unfold put_global in HQ. pose proof (searched_lists _ _ _ _ Hs' Hok) as Hok'. unfold put_global in Hok'.
  rewrite ports_taken in HQ.
  apply wp_bind, (wp_port_on_any _ _ _ _ L); [done|]. destruct (taken _ _ (L tcp_active_pcbs)); [by apply wp_ret|].
  apply wp_bind, (wp_port_on_any _ _ _ _ L); [done|]. destruct (taken _ _ (L tcp_tw_pcbs)); [by apply wp_ret|].
  apply wp_bind, (wp_port_on_any _ _ _ _ L); [done|]. destruct (taken _ _ (L tcp_listen_pcbs)); by apply wp_ret.
Qed.

(** The port that the search ends with: the first one after [p], round the range, that is
    not in [l]. *)
Definition next_free (p : Z) (l : list Z) (q : Z) : Prop :=
  exists i, 1 <= i /\ q = port_at p i /\ q ∉ l /\ forall j, 1 <= j < i -> port_at p j ∈ l.

Lemma wp_tcp_new_port s w L (Q : Z -> W -> Prop) : lists_ok (tcps s) L -> port_ok (globals (tcps s) last_port) ->
  (forall port s', next_free (globals (tcps s) last_port) (ports L) port -> searched port s s' -> Q port (put_stack s' w)) ->
  wp tcp_new_port Q (put_stack s w).
Proof.
  intros Hok Hp HQ. apply wp_bind, wp_gets_stack. set (p := globals (tcps s) last_port) in *.
  pose proof (ports_room _ _ Hok) as Hroom. apply (wp_loop_nat (S (length (ports L)))); [lia|].
  assert (Hw : forall n i s', 0 <= i -> Z.of_nat n + i = Z.of_nat (S (length (ports L))) -> (forall j, 1 <= j <= i -> port_at p j ∈ ports L) ->
    searched (port_at p i) s s' -> wp (iter_nat n new_port_body (port_at p i)) (ends Q) (put_stack s' w)).
  { induction n as [|n IH]; intros i s' Hi Hn Htaken Hs.
    - pose proof (tries_taken p (Z.to_nat i) (ports L)) as Hlen. rewrite Z2Nat.id in Hlen by done. specialize (Hlen ltac:(lia) Htaken). lia.
    - apply wp_iter_S, (wp_new_port_body _ _ s _ L); [done|done|]. intros s'' Hs''. case_bool_decide as Hin.
      + apply IH; [lia|lia| |done]. intros j Hj. destruct (Z.eq_dec j (i + 1)) as [->|]; [done|apply Htaken; lia].
      + apply HQ; [|done]. exists (i + 1). split; [lia|]. split; [done|]. split; [done|]. intros j Hj. apply Htaken. lia. }
  rewrite <- (port_at_0 p) by done. apply Hw; [lia|lia|lia|]. rewrite port_at_0 by done. apply searched_refl.
Qed.
End search.

(** * tcp_bind *)

(** Addresses that conflict: one of them is any address, or they are the same... *)
Definition overlaps (ipaddr : option Z) (a : Z) : bool := ip_addr_isany (Some a) || ip_addr_isany ipaddr || ip_addr_cmp a (ip_addr_set ipaddr).
(** ... and, behind a connection that is over, only the same one. *)
Definition equals (ipaddr : option Z) (a : Z) : bool := match ipaddr with Some b => ip_addr_cmp a b | None => true end.
Definition in_conflict (L : pcb_lists) (ipaddr : option Z) (port : Z) : bool :=
  taken (overlaps ipaddr) port (L tcp_listen_pcbs) || (taken (overlaps ipaddr) port (L tcp_active_pcbs) ||
  (taken (overlaps ipaddr) port (L tcp_bound_pcbs) || taken (equals ipaddr) port (L tcp_tw_pcbs))).

(** Without an address, the search comes to the connections that are over, and finds the port there. *)
Definition reads_null (L : pcb_lists) (c : tcp_pcb) (ipaddr : option Z) (port : Z) : bool :=
  let on k := taken (fun _ => true) port (L k) in
  match ipaddr with
  | None => bool_decide (state c = CLOSED) && negb (port =? 0) && negb (on tcp_listen_pcbs) && negb (on tcp_active_pcbs) &&
      negb (on tcp_bound_pcbs) && on tcp_tw_pcbs
  | Some _ => false
  end.
Lemma taken_null port l : taken (overlaps None) port l = taken (fun _ => true) port l.
Proof. unfold taken, overlaps. induction l as [|x l IH]; [done|]. cbn [existsb]. rewrite IH. by destruct (ip_addr_isany (Some _)). Qed.

(** The control block with its address, at the head of the list. *)
Definition bound_to (ipaddr : option Z) (port : Z) (c : tcp_pcb) : tcp_pcb :=
  with_num local_port port (if ip_addr_isany ipaddr then c else with_num local_ip (ip_addr_set ipaddr) c).
Definition registered (k : tcp_list) (p : ptr) (c : tcp_pcb) (s : stack) : stack :=
  let c' := with_tcp_next (heads (tcps s) k) c in
  set_tcps (set_head k (Some p) (set_tcp_tab (<[p := c']> (tcp_tab (tcps s))) (tcps s))) s.
Definition with_first (k : tcp_list) (p : ptr) (c : tcp_pcb) (t : tcp_vars) (L : pcb_lists) : pcb_lists :=
  fun k' => if decide (k' = k) then (p, with_tcp_next (heads t k) c) :: L k else L k'.

Lemma registered_put k p c d s : registered k p d (put_tcp p c s) = registered k p d s.
Proof. unfold registered, put_tcp, set_tcps, set_tcp_tab, set_head. cbn. by rewrite insert_insert_eq. Qed.
Lemma registered_heads k p c s t : heads (tcps s) = heads t -> with_first k p c (tcps s) = with_first k p c t.
Proof. unfold with_first. by intros ->. Qed.
Lemma everyone_in L k q : q ∈ (L k).*1 -> q ∈ everyone L.
Proof. unfold everyone. rewrite !elem_of_app. destruct k; auto. Qed.
Lemma registered_ok k p c c0 s L : lists_ok (tcps s) L -> tcp_tab (tcps s) !! p = Some c0 -> p ∉ everyone L ->
  lists_ok (tcps (registered k p c s)) (with_first k p c (tcps s) L).
Proof.
  intros [Hch Hnd Hroom] Hp Hnew. assert (Hn : forall k', p ∉ (L k').*1) by (intros k' Hin; by apply Hnew, (everyone_in _ k')). split.
  - intros k'. cbn. unfold with_first. case_decide as Hk.
    + subst k'. cbn. split; [done|]. split; [apply lookup_insert_eq|]. by apply linked_insert.
    + by apply linked_insert.
  - assert (Hperm : everyone (with_first k p c (tcps s) L) ≡ₚ p :: everyone L) by (unfold everyone, with_first; destruct k; cbn; solve_Permutation).
    rewrite Hperm. by apply NoDup_cons_2.
  - cbn. rewrite map_size_insert_Some by done. exact Hroom.
Qed.

Section bind.
Context {W : Type} `{StackLaws W}.
Implicit Types (s : stack) (w : W).

Lemma wp_register k p c (Q : unit -> W -> Prop) s w : tcp_tab (tcps s) !! p = Some c ->
  Q tt (put_stack (registered k p c s) w) -> wp (TCP_REG k p) Q (put_stack s w).
Proof. intros Hp HQ. apply wp_bind, wp_gets_stack, wp_bind, (wp_upd_tcp p c); [done|]. by apply wp_mod_stack. Qed.

Lemma wp_bind_register p c ipaddr q (Q : Z -> W -> Prop) s w : tcp_tab (tcps s) !! p = Some c ->
  Q ERR_OK (put_stack (registered tcp_bound_pcbs p (bound_to ipaddr q c) s) w) ->
  wp (_ ← (if ip_addr_isany ipaddr then mret tt else upd_tcp p (with_num local_ip (ip_addr_set ipaddr)));
      _ ← upd_tcp p (with_num local_port q); _ ← TCP_REG tcp_bound_pcbs p; mret ERR_OK) Q (put_stack s w).
Proof.
  intros Hp HQ. unfold bound_to in HQ. apply wp_bind. destruct (ip_addr_isany ipaddr).
  - apply wp_ret, wp_bind, (wp_upd_tcp p c); [done|]. apply wp_bind, (wp_register _ _ (with_num local_port q c)); [apply lookup_insert_eq|].
    apply wp_ret. by rewrite registered_put.
  - apply (wp_upd_tcp p c); [done|]. apply wp_bind, (wp_upd_tcp p (with_num local_ip (ip_addr_set ipaddr) c)); [apply lookup_insert_eq|].
    apply wp_bind, (wp_register _ _ (with_num local_port q (with_num local_ip (ip_addr_set ipaddr) c))); [apply lookup_insert_eq|].
    apply wp_ret. by rewrite put_tcp_twice, registered_put.
Qed.
Lemma wp_bind_port p c ipaddr q (Q : Z -> W -> Prop) s w L : lists_ok (tcps s) L -> tcp_tab (tcps s) !! p = Some c ->
  (ipaddr = None -> negb (taken (fun _ => true) q (L tcp_listen_pcbs)) && negb (taken (fun _ => true) q (L tcp_active_pcbs)) &&
     negb (taken (fun _ => true) q (L tcp_bound_pcbs)) && taken (fun _ => true) q (L tcp_tw_pcbs) = false) ->
  (if in_conflict L ipaddr q then Q ERR_USE (put_stack s w) else Q ERR_OK (put_stack (registered tcp_bound_pcbs p (bound_to ipaddr q c) s) w)) ->
  wp (bind_port p ipaddr q) Q (put_stack s w).
Proof.
  intros Hok Hp Htw HQ. unfold in_conflict in HQ.
  apply wp_bind, (wp_port_on_list _ _ _ (overlaps ipaddr) _ _ L); [done|done|]. destruct (taken (overlaps ipaddr) q (L tcp_listen_pcbs)) eqn:E1; [by apply wp_ret|].
  apply wp_bind, (wp_port_on_list _ _ _ (overlaps ipaddr) _ _ L); [done|done|]. destruct (taken (overlaps ipaddr) q (L tcp_active_pcbs)) eqn:E2; [by apply wp_ret|].
  apply wp_bind, (wp_port_on_list _ _ _ (overlaps ipaddr) _ _ L); [done|done|]. destruct (taken (overlaps ipaddr) q (L tcp_bound_pcbs)) eqn:E3; [by apply wp_ret|].
  apply wp_bind, (wp_port_on_list _ _ _ (equals ipaddr) _ _ L); [done| |].
  - intros x Hx Hport. destruct ipaddr as [b|]; [done|]. specialize (Htw eq_refl). rewrite taken_null in E1, E2, E3.
    rewrite E1, E2, E3, taken_port in Htw. apply bool_decide_eq_false in Htw. destruct Htw. apply list_elem_of_fmap. by exists x.
  - destruct (taken (equals ipaddr) q (L tcp_tw_pcbs)); [by apply wp_ret|by apply wp_bind_register with c].
Qed.

Lemma bind_null p c port s w L : lists_ok (tcps s) L -> tcp_tab (tcps s) !! p = Some c -> reads_null L c None port = true ->
  tcp_bind p None port (put_stack s w) = Fault.
Proof.
  intros Hok Hp Hn. unfold reads_null in Hn. rewrite !andb_true_iff, !negb_true_iff, bool_decide_eq_true in Hn.
  destruct Hn as (((((Hst & Hne) & Hl) & Ha) & Hb) & Ht).
  unfold tcp_bind. rewrite (run_bind _ _ _ _ _ (run_get_tcp p c s w Hp)), bool_decide_eq_false_2 by (intros Hn; by apply Hn). rewrite Hne.
  rewrite run_outcome. cbn [mret M_ret]. unfold bind_port.
  assert (Hany : forall a, mret (ip_addr_isany (Some a) || ip_addr_isany None || ip_addr_cmp a (ip_addr_set None)) = (mret true : M W bool))
    by (intros a; by destruct (ip_addr_isany (Some a))).
  rewrite (run_bind _ _ _ _ _ (run_port_on_any _ _ _ s w L _ Hok Hany Hl)), (run_bind _ _ _ _ _ (run_port_on_any _ _ _ s w L _ Hok Hany Ha)),
    (run_bind _ _ _ _ _ (run_port_on_any _ _ _ s w L _ Hok Hany Hb)).
  by rewrite run_outcome, (fault_port_on_list _ _ _ _ _ L).
Qed.

(** C31. tcp_bind, on every path.  A control block that is not closed is refused.  Port
    0 stands for the first port, round the range from the last one given, that no
    active, listening or waiting control block has, and the search ends.  The port is
    refused exactly when a control block of the four lists has it with a conflicting
    address.  Otherwise the control block gets the port, and the address unless that is
    any address or not given, where it keeps the one it has (the comment at the
    function says that the address of the outgoing interface is used); it comes to the
    head of the list of bound ones, and when it was in no list the four lists are
    again proper lists without a control block in two places.  Without an address, and
    with a port other than 0 that only a connection in TIME_WAIT has, a null pointer
    is read. *)
Theorem tcp_bind_spec p c ipaddr port s w L (t := tcps s) : lists_ok t L -> tcp_tab t !! p = Some c -> port_ok (globals t last_port) ->
  if reads_null L c ipaddr port then tcp_bind p ipaddr port (put_stack s w) = Fault
  else wp (tcp_bind p ipaddr port) (fun r w' =>
    if bool_decide (state c <> CLOSED) then r = ERR_ISCONN /\ w' = put_stack s w
    else exists q s',
      (if port =? 0 then next_free (globals t last_port) (ports L) q /\ searched q s s' else q = port /\ s' = s) /\
      if in_conflict L ipaddr q then r = ERR_USE /\ w' = put_stack s' w
      else let s'' := registered tcp_bound_pcbs p (bound_to ipaddr q c) s' in
        r = ERR_OK /\ w' = put_stack s'' w /\
        (p ∉ everyone L -> lists_ok (tcps s'') (with_first tcp_bound_pcbs p (bound_to ipaddr q c) t L))) (put_stack s w).
Proof.
  intros Hok Hp Hlast. destruct (reads_null L c ipaddr port) eqn:Hnull; [destruct ipaddr; [done|by eapply bind_null]|].
  apply wp_bind, (wp_get_tcp p c); [done|]. case_bool_decide as Hst; [by apply wp_ret|].
  apply wp_bind. match goal with |- wp _ ?K _ => assert (Hbind : forall q s', (if port =? 0 then next_free (globals t last_port) (ports L) q /\ searched q s s' else q = port /\ s' = s) ->
    K q (put_stack s' w)) end.
  2: { destruct (port =? 0); [apply (wp_tcp_new_port s w L); [done|done|]; intros q s' Hf Hs|apply wp_ret]; by apply Hbind. }
  intros q s' Hq. assert (Hs' : lists_ok (tcps s') L /\ tcp_tab (tcps s') !! p = Some c /\ heads (tcps s') = heads t /\
    (ipaddr = None -> negb (taken (fun _ => true) q (L tcp_listen_pcbs)) && negb (taken (fun _ => true) q (L tcp_active_pcbs)) &&
     negb (taken (fun _ => true) q (L tcp_bound_pcbs)) && taken (fun _ => true) q (L tcp_tw_pcbs) = false)).
  { destruct (Z.eqb_spec port 0) as [->|Hne].
    - destruct Hq as [(i & _ & _ & Hfree & _) Hs]. split; [by eapply searched_lists|]. destruct Hs as (g & -> & _). split; [done|]. split; [done|].
      intros _. rewrite <- (bool_decide_eq_false (q ∈ ports L)), ports_taken in Hfree. apply orb_false_iff in Hfree as [_ [-> _]%orb_false_iff]. apply andb_false_r.
    - destruct Hq as [-> ->]. split; [done|]. split; [done|]. split; [done|]. intros ->. unfold reads_null in Hnull.
      by rewrite bool_decide_eq_true_2, (proj2 (Z.eqb_neq port 0)) in Hnull by done. }
  destruct Hs' as (Hok' & Hp' & Hheads & Htw). apply (wp_bind_port p c _ _ _ _ _ L); [done..|].
  destruct (in_conflict L ipaddr q) eqn:E; exists q, s'; rewrite E; split; try done. split; [done|]. split; [done|].
  intros Hnew. rewrite <- (registered_heads _ _ _ s' t) by done. by apply (registered_ok _ _ _ c).
Qed.
End bind.

(** * Examples *)
Section examples.
Definition demo_listener : ptr := InPool MEMP_TCP_PCB_LISTEN 0.
Definition demo_active : ptr := InPool MEMP_TCP_PCB 1.
Definition demo_new : ptr := InPool MEMP_TCP_PCB 2.
Definition on_local (st : tcp_state) (port : Z) : tcp_pcb := with_num local_port port (with_state st tcp_pcb_zero).
Definition demo_lists (k : tcp_list) : list (ptr * tcp_pcb) :=
  match k with tcp_listen_pcbs => [(demo_listener, on_local LISTEN 80)] | tcp_active_pcbs => [(demo_active, on_local ESTABLISHED 4097)] | _ => [] end.
Definition ports_stack : stack :=
  let s := stack_zero fresh_net ∅ in
  set_tcps (set_head tcp_listen_pcbs (Some demo_listener) (set_head tcp_active_pcbs (Some demo_active)
    (set_tcp_tab {[demo_listener := on_local LISTEN 80; demo_active := on_local ESTABLISHED 4097; demo_new := tcp_pcb_zero]} (tcps s)))) s.
Lemma ports_stack_ok : lists_ok (tcps ports_stack) demo_lists.
Proof. split; [intros []; by repeat split|by apply (bool_decide_unpack _); vm_compute|by vm_compute; lia]. Qed.
Lemma tcp_bind_spec_witness : wp (tcp_bind demo_new None 0) (fun r w' =>
  exists q s', (next_free 4096 [4097; 80] q /\ searched q ports_stack s') /\
    if in_conflict demo_lists None q then r = ERR_USE /\ w' = put_stack s' ports_stack
    else let s'' := registered tcp_bound_pcbs demo_new (bound_to None q tcp_pcb_zero) s' in
      r = ERR_OK /\ w' = put_stack s'' ports_stack /\
      (demo_new ∉ everyone demo_lists -> lists_ok (tcps s'') (with_first tcp_bound_pcbs demo_new (bound_to None q tcp_pcb_zero) (tcps ports_stack) demo_lists)))
  (put_stack ports_stack ports_stack).
Proof. apply (tcp_bind_spec demo_new tcp_pcb_zero None 0 ports_stack ports_stack demo_lists); [apply ports_stack_ok|done|by vm_compute]. Defined.
Definition port_of (r : outcome stack Z) := match r with Ret e s => Some (e, (fun c => (num c local_port, tcp_next c)) <$> tcp_tab (tcps s) !! demo_new) | _ => None end.
Example next_port : port_of (tcp_bind demo_new None 0 ports_stack) = Some (ERR_OK, Some (4098, None)).
Proof. by vm_compute. Qed.
Example port_80_taken : port_of (tcp_bind demo_new (Some 1) 80 ports_stack) = Some (ERR_USE, Some (0, None)).
Proof. by vm_compute. Qed.
(** A control block that is bound a second time, to another port, points to itself
    afterwards: the list of bound control blocks has no end. *)
Example bound_twice : port_of ((_ ← tcp_bind demo_new None 81; tcp_bind demo_new None 82) ports_stack) = Some (ERR_OK, Some (82, Some demo_new)).
Proof. by vm_compute. Qed.
(** Port 0 can be refused: the search does not look at the bound control blocks. *)
Example bound_port_again : port_of ((_ ← tcp_bind demo_active None 4098; tcp_bind demo_new None 0)
    (set_tcps (set_head tcp_active_pcbs None (set_tcp_tab (<[demo_active := tcp_pcb_zero]> (tcp_tab (tcps ports_stack))) (set_global_num last_port 4097 (tcps ports_stack)))) ports_stack))
  = Some (ERR_USE, Some (0, None)).
Proof. by vm_compute. Qed.
(** A control block that waits with the port, and no address: the null pointer is read. *)
Example null_address : tcp_bind demo_new None 4097
    (set_tcps (set_head tcp_active_pcbs None (set_head tcp_tw_pcbs (Some demo_active) (tcps ports_stack))) ports_stack) = Fault.
Proof. by vm_compute. Qed.
End examples.
