(* ===== verification/LwipTcpRefuse.v ===== *)
(** A segment for which there is no control block: what tcp_input makes of it, and the
    reset that tcp_rst sends. *)
From stdpp Require Import gmap.
From S2P Require MemFacts.
From S2P Require Import Prelude Mmio LwipMem LwipMemSpec LwipPbuf LwipPbufSpec LwipPbufTheorems LwipInet LwipInetTheorems LwipStack LwipStackSpec LwipHeader LwipEtharp LwipNetif.
From S2P Require Import LwipIpOut LwipIpSpec LwipIpTheorems LwipTcpData LwipTcpOut LwipTcp LwipTcpIn LwipTcpTheorems.

(** * Fields of a memory *)
Lemma le32_set16_apart i j v m : i + 3 < j \/ j + 1 < i -> le32 (set16 j v m) i = le32 m i.
Proof. intros Hij. unfold le32. by rewrite !le16_set16_ne by lia. Qed.
Lemma le32_set32_apart i j v m : i + 3 < j \/ j + 3 < i -> le32 (set32 j v m) i = le32 m i.
Proof. intros Hij. unfold le32. by rewrite !le16_set32_other by lia. Qed.
Lemma le16_at h m i : le16 (fun j => m (h + j)) i = le16 m (h + i).
Proof. unfold le16. by rewrite Z.add_assoc. Qed.
Lemma le32_at h m i : le32 (fun j => m (h + j)) i = le32 m (h + i).
Proof. unfold le32. by rewrite !le16_at, Z.add_assoc. Qed.
Lemma view_move p o h m s l k : view p o m s l k -> view p (o + h) (fun i => m (h + i)) s l k.
Proof. intros [H1 H2 H3 H4]. split; [done..| |done]. intros i. by rewrite <- H3, Z.add_assoc. Qed.

Section fields.
Context {W : Type} `{StackLaws W}.
Lemma tcp_hdr16_at p o h i : hdr16 (W := W) (p, o + h) i = hdr16 (p, o) (h + i).
Proof. unfold hdr16. by rewrite !hdr8_at, Z.add_assoc. Qed.
Lemma hdr32_at p o h i : hdr32 (W := W) (p, o + h) i = hdr32 (p, o) (h + i).
Proof. unfold hdr32. by rewrite !tcp_hdr16_at, Z.add_assoc. Qed.
End fields.

(** * The segment *)

(** A packet at its IP header, with the bytes [m] from there on; that header and the
    one of TCP with its options are in the first pbuf. *)
Definition sg_words (m : Z -> Z) : Z := Z.shiftr (ntohs (le16 m (ihl m + tcp_hdrlen_rsvd_flags))) 12.
Definition sg_flags (m : Z -> Z) : Z := Z.land (ntohs (le16 m (ihl m + tcp_hdrlen_rsvd_flags))) TCP_FLAGS.
Definition sg_hidden (m : Z -> Z) : Z := ihl m + sg_words m * 4.
Record segment (s : net) (l : list block) (p : ptr) (b : pbuf) (c : list (ptr * pbuf)) (o : Z) (m : Z -> Z) : Prop := {
  sg_out : outgoing s l p b c o;
  sg_bytes : forall i, bytes_at s p (o + i) = m i;
  sg_octets : hdr_octets m;
  sg_headers : IP_HLEN <= ihl m /\ ihl m + TCP_HLEN <= len b /\ sg_hidden m <= len b;
  sg_size : tot_len b < 65536
}.
(** The header with its fields in the order of the host, as tcp_input leaves it: [m] from
    the header of TCP on. *)
Definition host_order (m : Z -> Z) : Z -> Z :=
  set16 tcp_wnd (ntohs (le16 m tcp_wnd)) (set32 tcp_ackno (ntohl (le32 m tcp_ackno)) (set32 tcp_seqno (ntohl (le32 m tcp_seqno))
    (set16 tcp_dest (ntohs (le16 m tcp_dest)) (set16 tcp_src (ntohs (le16 m tcp_src)) m)))).
Lemma host_order_flags m : le16 (host_order m) tcp_hdrlen_rsvd_flags = le16 m tcp_hdrlen_rsvd_flags.
Proof. unfold host_order. by rewrite le16_set16_ne, !le16_set32_other, !le16_set16_ne by (unfold tcp_src, tcp_dest, tcp_seqno, tcp_ackno, tcp_wnd, tcp_hdrlen_rsvd_flags; lia). Qed.
Lemma host_order_ports m : le16 (host_order m) tcp_src = ntohs (le16 m tcp_src) /\ le16 (host_order m) tcp_dest = ntohs (le16 m tcp_dest).
Proof.
  unfold host_order, tcp_src, tcp_dest, tcp_seqno, tcp_ackno, tcp_wnd. rewrite !(le16_set16_ne 14), !le16_set32_other by lia. split.
  - by rewrite le16_set16_ne, le16_set16_eq by (lia || apply htons_bound).
  - by rewrite le16_set16_eq by apply htons_bound.
Qed.
Lemma host_order_before m i : i < -3 -> le32 (host_order m) i = le32 m i.
Proof. intros Hi. unfold host_order, tcp_src, tcp_dest, tcp_seqno, tcp_ackno, tcp_wnd. by rewrite le32_set16_apart, !le32_set32_apart, !le32_set16_apart by lia. Qed.
(** The variables of tcp_input for the segment. *)
Definition input_vars (b : pbuf) (p : ptr) (o : Z) (m : Z -> Z) (t : tcp_vars) : tcp_vars :=
  set_global_num tcplen (tot_len (shifted (- sg_hidden m) b) + (if has (sg_flags m) (Z.lor TCP_FIN TCP_SYN) then 1 else 0))
    (set_global_num seg_flags_in (sg_flags m)
      (set_global_num ackno (ntohl (le32 m (ihl m + tcp_ackno))) (set_global_num seqno (ntohl (le32 m (ihl m + tcp_seqno)))
        (set_in_headers (Some (p, o)) (Some (p, o + ihl m)) t)))).

Section header.
Context {W : Type} `{StackLaws W}.
Implicit Types (t : stack) (w : W) (k : net).

Lemma wp_mod_tcps f t k w (Q : unit -> W -> Prop) : Q tt (put_stack (set_net k (set_tcps (f (tcps t)) t)) w) -> wp (mod_tcps f) Q (put_stack (set_net k t) w).
Proof. intros HQ. unfold mod_tcps. apply wp_mod_stack. exact HQ. Qed.
Lemma wp_getn_net g t k w (Q : Z -> W -> Prop) : Q (globals (tcps t) g) (put_stack (set_net k t) w) -> wp (getn g) Q (put_stack (set_net k t) w).
Proof. intros HQ. apply wp_gets_stack. exact HQ. Qed.

(** convert_header, on the header at [o]. *)
Lemma wp_convert p o s l b (Hp : pbufs s !! p = Some b) k m t w (Q : unit -> W -> Prop) : view p o m s l k -> inside o b 0 20 ->
  (forall k', view p o (host_order m) s l k' ->
     Q tt (put_stack (set_net k' (set_tcps (set_global_num ackno (ntohl (le32 m tcp_ackno)) (set_global_num seqno (ntohl (le32 m tcp_seqno)) (tcps t))) t)) w)) ->
  wp (convert_header (p, o)) Q (put_stack (set_net k t) w).
Proof.
  intros Hv [Hi1 Hi2] HQ. unfold convert_header.
  assert (Hin : forall i n, 0 <= i -> i + n <= 20 -> inside o b i n) by (intros; split; lia).
  apply wp_bind, (wp_hdr16 p o s l b Hp k m); [done|by apply Hin|].
  apply wp_bind, (wp_set_hdr16 p o s l b Hp _ _ _ _ _ _ _ Hv); [by apply Hin|]. intros k1 Hv1.
  apply wp_bind, (wp_hdr16 p o s l b Hp _ _ _ _ _ _ Hv1); [by apply Hin|]. rewrite le16_set16_ne by (unfold tcp_src, tcp_dest; lia).
  apply wp_bind, (wp_set_hdr16 p o s l b Hp _ _ _ _ _ _ _ Hv1); [by apply Hin|]. intros k2 Hv2.
  apply wp_bind, (wp_hdr32 p o s l b Hp _ _ _ _ _ _ Hv2); [by apply Hin|]. rewrite !le32_set16_apart by (unfold tcp_src, tcp_dest, tcp_seqno; lia).
  apply wp_bind, (wp_set_hdr32 p o s l b Hp _ _ _ _ _ _ _ Hv2); [by apply Hin|]. intros k3 Hv3. apply wp_bind, wp_mod_tcps.
  apply wp_bind, (wp_hdr32 p o s l b Hp _ _ _ _ _ _ Hv3); [by apply Hin|].
  rewrite le32_set32_apart, !le32_set16_apart by (unfold tcp_src, tcp_dest, tcp_seqno, tcp_ackno; lia).
  apply wp_bind, (wp_set_hdr32 p o s l b Hp _ _ _ _ _ _ _ Hv3); [by apply Hin|]. intros k4 Hv4. apply wp_bind, wp_mod_tcps.
  apply wp_bind, (wp_hdr16 p o s l b Hp _ _ _ _ _ _ Hv4); [by apply Hin|].
  rewrite !le16_set32_other, !le16_set16_ne by (unfold tcp_src, tcp_dest, tcp_seqno, tcp_ackno, tcp_wnd; lia).
  apply (wp_set_hdr16 p o s l b Hp _ _ _ _ _ _ _ Hv4); [by apply Hin|]. intros k5 Hv5. by apply HQ.
Qed.

Lemma wp_TCPH_HDRLEN p o s l b (Hp : pbufs s !! p = Some b) k m t w (Q : Z -> W -> Prop) : view p o m s l k -> inside o b 0 20 ->
  Q (Z.shiftr (ntohs (le16 m tcp_hdrlen_rsvd_flags)) 12) (put_stack (set_net k t) w) -> wp (TCPH_HDRLEN (p, o)) Q (put_stack (set_net k t) w).
Proof. intros Hv [Hi1 Hi2] HQ. apply wp_bind, (wp_hdr16 p o s l b Hp k m); [done|split; unfold tcp_hdrlen_rsvd_flags; lia|]. by apply wp_ret. Qed.
Lemma wp_TCPH_FLAGS p o s l b (Hp : pbufs s !! p = Some b) k m t w (Q : Z -> W -> Prop) : view p o m s l k -> inside o b 0 20 ->
  Q (Z.land (ntohs (le16 m tcp_hdrlen_rsvd_flags)) TCP_FLAGS) (put_stack (set_net k t) w) -> wp (TCPH_FLAGS (p, o)) Q (put_stack (set_net k t) w).
Proof. intros Hv [Hi1 Hi2] HQ. apply wp_bind, (wp_hdr16 p o s l b Hp k m); [done|split; unfold tcp_hdrlen_rsvd_flags; lia|]. by apply wp_ret. Qed.

End header.

Section input.
Context {W : Type} `{StackLaws W}.
Variable call_output : output_fn -> netif_ptr -> option ptr -> Z -> M W Z.
Variable ip_frag : ptr -> netif_ptr -> Z -> M W Z.
Variable app : tcp_app W.
Implicit Types (t : stack) (w : W) (k : net).

(** A search in an empty list. *)
Lemma wp_find_none (k0 : tcp_list) get test t k w (Q : option (option ptr * ptr) -> W -> Prop) : heads (tcps t) k0 = None ->
  Q None (put_stack (set_net k t) w) -> wp (find_pcb k0 get test) Q (put_stack (set_net k t) w).
Proof.
  intros Hk HQ. apply wp_bind. unfold head. apply wp_gets_stack. cbn [tcps set_net]. rewrite Hk.
  apply (wp_loop_nat 1); [unfold tcp_fuel; lia|]. apply wp_iter_S. by apply wp_ret.
Qed.

(** No list but that of the bound control blocks has one. *)
Definition no_blocks (t : tcp_vars) : Prop := forall i, i <> tcp_bound_pcbs -> heads t i = None.

Lemma wp_tcp_input_refused t w l p b c o m inp f (tc := input_vars b p o m (tcps t)) (Q : unit -> W -> Prop) :
  segment (s_net t) l p b c o m -> netifs t !! inp = Some f -> ip_addr_isbroadcast (le32 m ip_dest) f || ip_addr_ismulticast (le32 m ip_dest) = false ->
  no_blocks (tcps t) ->
  (forall k, view p (o + ihl m) (host_order (fun i => m (ihl m + i))) (shift_pbuf (- sg_hidden m) p b (s_net t)) l k ->
     wp (if negb (has (sg_flags m) TCP_RST)
         then tcp_rst call_output ip_frag (globals tc ackno) (globals tc seqno + globals tc tcplen) (le32 m ip_dest) (le32 m ip_src)
                (htons (le16 m (ihl m + tcp_dest))) (htons (le16 m (ihl m + tcp_src)))
         else mret tt) (fun _ => wp (drop p) Q) (put_stack (set_net k (set_tcps tc t)) w)) ->
  wp (tcp_input call_output ip_frag app p inp) Q (put_stack t w).
Proof.
  intros [Ho Hm Hoct [Hx1 [Hx2 Hx3]] Hsz] Hn Huni Hnone HQ. destruct (outgoing_lens _ _ _ _ _ _ Ho) as (Hb & Hl & Hpos & Hroom).
  destruct Ho as [Hok _ _ _ _ Hty Hpay]. set (s := s_net t) in *. set (x := ihl m) in *. unfold IP_HLEN, TCP_HLEN in *.
  set (mt := fun i => m (x + i)) in *. set (d := sg_words m) in *. unfold sg_hidden in *. fold x d in HQ, Hx3 |- *.
  assert (Hd : 0 <= d < 16).
  { unfold d, sg_words. rewrite Z.shiftr_div_pow2 by lia. unfold ntohs. pose proof (htons_bound (le16 m (ihl m + tcp_hdrlen_rsvd_flags))). lia. }
  set (s1 := shift_pbuf (- x) p b s). set (b1 := shifted (- x) b). set (s2 := shift_pbuf (- (x + d * 4)) p b s). set (b2 := shifted (- (x + d * 4)) b).
  assert (Hp1 : pbufs s1 !! p = Some b1) by apply lookup_insert_eq. assert (Hp2 : pbufs s2 !! p = Some b2) by apply lookup_insert_eq.
  assert (Hv0 : view p o m s l s) by (split; try done; intros; by apply Hm).
  assert (Hv1 : view p (o + x) mt s1 l s1) by (apply view_move, (view_shift p o m s l s b o); try done; lia).
  assert (Hv2 : view p (o + x) mt s2 l s2) by (apply view_move, (view_shift p o m s l s b o); try done; lia).
  assert (Hat16 : forall i, le16 mt i = le16 m (x + i)) by (intros; apply le16_at). assert (Hat32 : forall i, le32 mt i = le32 m (x + i)) by (intros; apply le32_at).
  replace (put_stack t w) with (put_stack (set_net s t) w) by by destruct t.
  unfold tcp_input. apply wp_bind, (wp_payload_hdr p o s l b Hb s m); [done..|].
  apply wp_bind, (wp_IPH_HL p o s l b Hb s m); [done|split; lia|done|]. fold (ihl m). fold x. cbn [fst snd].
  apply wp_bind, wp_mod_tcps. apply wp_bind, (wp_header_shift p b o); [done|done|done|lia|done|lia|lia|]. fold s1.
  apply wp_bind, wp_on_net, (wp_get_pbuf _ b1); [done|]. unfold TCP_HLEN. cbn [Z.eqb negb orb].
  replace (tot_len b1 <? 20) with false by (cbn; lia).
  apply wp_bind, (wp_hdr32 p o s1 l b1 Hp1 s1 m); [by apply (view_shift p o m s l s b o); try done; lia|split; cbn; unfold ip_dest; lia|].
  apply wp_bind, (wp_get_netif _ f); [done|]. rewrite Huni.
  apply wp_bind, (wp_TCPH_HDRLEN p (o + x) s1 l b1 Hp1 s1 mt); [done|split; cbn; lia|]. rewrite Hat16. change (Z.shiftr (ntohs (le16 m _)) 12) with d.
  apply wp_bind, (wp_header_shift p b1 (o + x)); [done|cbn; rewrite Hpay; cbn; f_equal; lia|done|lia|cbn; lia|cbn; lia|cbn; lia|].
  unfold s1, b1. rewrite shift_shift. replace (- (d * 4) + - x) with (- (x + d * 4)) by lia. fold s2. cbn [Z.eqb negb].
  apply wp_bind, (wp_convert p (o + x) s2 l b2 Hp2 s2 mt); [done|split; cbn; lia|]. intros k Hv.
  assert (Hflags : Z.land (ntohs (le16 (host_order mt) tcp_hdrlen_rsvd_flags)) TCP_FLAGS = sg_flags m) by (by rewrite host_order_flags, Hat16).
  assert (Hin : inside (o + x) b2 0 20) by (split; cbn; lia).
  apply wp_bind, (wp_TCPH_FLAGS p (o + x) s2 l b2 Hp2 k _ _ _ _ Hv); [done|]. rewrite Hflags.
  apply wp_bind, wp_mod_tcps. apply wp_bind, wp_on_net, (wp_get_pbuf _ b2); [cbn [s_net set_net]; by rewrite (view_pbufs _ _ _ _ _ _ Hv)|].
  apply wp_bind. cbn [s_net set_net]. apply wp_mod_tcps. cbn [tcps set_tcps].
  unfold input_demux. do 3 (apply wp_bind, wp_find_none; [by apply Hnone|]).
  apply wp_bind, (wp_TCPH_FLAGS p (o + x) s2 l b2 Hp2 k _ _ _ _ Hv); [done|]. rewrite Hflags.
  match goal with |- wp _ _ (put_stack ?S w) => replace S with (set_net k (set_tcps tc t)) by (unfold tc, input_vars, sg_hidden; rewrite <- !Hat32; reflexivity) end.
  specialize (HQ k Hv). destruct (has (sg_flags m) TCP_RST); cbn [negb] in *; [by apply wp_bind|].
  apply wp_bind, wp_bind, wp_getn_net. unfold rst_reply. apply wp_bind, wp_getn_net, wp_bind, wp_getn_net.
  apply wp_bind, wp_bind. unfold get_tcps. apply wp_gets_stack. cbn [tcps set_net set_tcps]. change (in_iphdr tc) with (Some (p, o)). apply wp_ret.
  apply wp_bind, wp_bind. unfold get_tcps. apply wp_gets_stack. cbn [tcps set_net set_tcps]. change (in_tcphdr tc) with (Some (p, o + x)). apply wp_ret.
  pose proof (view_move p (o + x) (- x) _ _ _ _ Hv) as Hvo. replace (o + x + - x) with o in Hvo by lia.
  apply wp_bind, (wp_hdr32 p o s2 l b2 Hp2 k _ _ _ _ _ Hvo); [split; cbn; unfold ip_dest; lia|].
  apply wp_bind, (wp_hdr32 p o s2 l b2 Hp2 k _ _ _ _ _ Hvo); [split; cbn; unfold ip_src; lia|].
  apply wp_bind, (wp_hdr16 p (o + x) s2 l b2 Hp2 k _ _ _ _ _ Hv); [split; cbn; unfold tcp_dest; lia|].
  apply wp_bind, (wp_hdr16 p (o + x) s2 l b2 Hp2 k _ _ _ _ _ Hv); [split; cbn; unfold tcp_src; lia|].
  destruct (host_order_ports mt) as [-> ->]. rewrite !le32_at, !host_order_before, !Hat32, !Hat16 by (unfold ip_dest, ip_src; lia).
  replace (x + (- x + ip_dest)) with ip_dest by lia. replace (x + (- x + ip_src)) with ip_src by lia. exact HQ.
Qed.
End input.

(** * tcp_rst *)
Definition word4 (v : Z) : list Z := [byte_of v 3; byte_of v 2; byte_of v 1; byte_of v 0].
(** The segment that tcp_rst sends, without a checksum, which the controller puts in. *)
Definition rst_segment (sn an lport rport : Z) : list Z :=
  word2 lport ++ word2 rport ++ word4 (u32 sn) ++ word4 (u32 an)
  ++ word2 (Z.lor (Z.shiftl 5 12) (Z.lor TCP_RST TCP_ACK)) ++ word2 TCP_WND ++ word2 0 ++ word2 0.
Definition with_rst (sn an lport rport flags : Z) (m : Z -> Z) : Z -> Z :=
  set16 16 0 (set16 12 (htons (Z.lor (Z.shiftl 5 12) (Z.lor TCP_RST TCP_ACK))) (set16 18 0 (set16 14 (htons TCP_WND)
    (set16 12 flags (set32 8 (htonl (u32 an)) (set32 4 (htonl (u32 sn)) (set16 2 (htons rport) (set16 0 (htons lport) m)))))))).
Lemma byte_htonl v : byte_of (htonl v) 0 = byte_of v 3 /\ byte_of (htonl v) 1 = byte_of v 2 /\ byte_of (htonl v) 2 = byte_of v 1 /\ byte_of (htonl v) 3 = byte_of v 0.
Proof. rewrite htonl_bytes. apply of_bytes_byte; apply byte_of_bound. Qed.
Lemma with_rst_prefix sn an lport rport flags m : prefix 20 (with_rst sn an lport rport flags m) = rst_segment sn an lport rport.
Proof.
  unfold prefix, with_rst, rst_segment, word2, word4. cbn [seq fmap list_fmap app].
  destruct (byte_htons lport) as [<- <-], (byte_htons rport) as [<- <-], (byte_htonl (u32 sn)) as (<- & <- & <- & <-), (byte_htonl (u32 an)) as (<- & <- & <- & <-).
  reflexivity.
Qed.
(** The flags are those that were set, whatever the memory held. *)
Lemma rst_flags v m : Z.land (ntohs (le16 (set16 12 (htons (u16 (Z.lor (without v TCP_FLAGS) (Z.lor TCP_RST TCP_ACK)))) m) 12)) TCP_FLAGS = Z.lor TCP_RST TCP_ACK.
Proof.
  rewrite le16_set16_eq by apply htons_bound. unfold ntohs. rewrite htons_htons by (unfold u16; lia).
  apply Z.bits_inj'. intros i Hi. unfold u16, without. rewrite Z.land_spec, <- Z.land_ones, Z.land_spec, Z.lor_spec, Z.land_spec, Z.lnot_spec by lia.
  destruct (Z.ltb_spec i 6).
  - assert (i = 0 \/ i = 1 \/ i = 2 \/ i = 3 \/ i = 4 \/ i = 5) as [->|[->|[->|[->|[->| ->]]]]] by lia; cbn; by rewrite ?andb_false_r, ?andb_true_r.
  - rewrite (Z.bits_above_log2 TCP_FLAGS), andb_false_r by (done || (change (Z.log2 TCP_FLAGS) with 5; lia)).
    by rewrite Z.bits_above_log2 by (done || (change (Z.log2 (Z.lor TCP_RST TCP_ACK)) with 4; lia)).
Qed.

Section rst.
Context {W : Type} `{StackLaws W}.
Variable call_output : output_fn -> netif_ptr -> option ptr -> Z -> M W Z.
Variable ip_frag : ptr -> netif_ptr -> Z -> M W Z.
Implicit Types (t : stack) (w : W) (k : net).

(** The fields of the segment, in the pbuf that was allocated for it. *)
Lemma wp_rst_fields p o s l b (Hp : pbufs s !! p = Some b) k m t w sn an lport rport (K : M W unit) (Q : unit -> W -> Prop) : view p o m s l k -> inside o b 0 20 ->
  (forall k' flags, view p o (with_rst sn an lport rport flags m) s l k' -> wp K Q (put_stack (set_net k' t) w)) ->
  wp (_ ← set_hdr16 (p, o) tcp_src (htons lport); _ ← set_hdr16 (p, o) tcp_dest (htons rport);
      _ ← set_hdr32 (p, o) tcp_seqno (htonl (u32 sn)); _ ← set_hdr32 (p, o) tcp_ackno (htonl (u32 an));
      _ ← TCPH_FLAGS_SET (p, o) (Z.lor TCP_RST TCP_ACK); _ ← set_hdr16 (p, o) tcp_wnd (htons TCP_WND); _ ← set_hdr16 (p, o) tcp_urgp 0;
      _ ← TCPH_HDRLEN_SET (p, o) 5; _ ← set_hdr16 (p, o) tcp_chksum 0; K) Q (put_stack (set_net k t) w).
Proof.
  intros Hv [Hi1 Hi2] HQ. assert (Hin : forall i n, 0 <= i -> i + n <= 20 -> inside o b i n) by (intros; split; lia).
  apply wp_bind, (wp_set_hdr16 p o s l b Hp _ _ _ _ _ _ _ Hv); [by apply Hin|]. intros k1 Hv1.
  apply wp_bind, (wp_set_hdr16 p o s l b Hp _ _ _ _ _ _ _ Hv1); [by apply Hin|]. intros k2 Hv2.
  apply wp_bind, (wp_set_hdr32 p o s l b Hp _ _ _ _ _ _ _ Hv2); [by apply Hin|]. intros k3 Hv3.
  apply wp_bind, (wp_set_hdr32 p o s l b Hp _ _ _ _ _ _ _ Hv3); [by apply Hin|]. intros k4 Hv4.
  apply wp_bind, wp_bind, (wp_hdr16 p o s l b Hp _ _ _ _ _ _ Hv4); [by apply Hin|]. set (v := ntohs _).
  apply (wp_set_hdr16 p o s l b Hp _ _ _ _ _ _ _ Hv4); [by apply Hin|]. intros k5 Hv5.
  apply wp_bind, (wp_set_hdr16 p o s l b Hp _ _ _ _ _ _ _ Hv5); [by apply Hin|]. intros k6 Hv6.
  apply wp_bind, (wp_set_hdr16 p o s l b Hp _ _ _ _ _ _ _ Hv6); [by apply Hin|]. intros k7 Hv7.
  apply wp_bind, wp_bind, (wp_TCPH_FLAGS p o s l b Hp _ _ _ _ _ Hv7); [by apply Hin|].
  rewrite !(le16_set16_ne _ _ _ tcp_hdrlen_rsvd_flags) by (unfold tcp_hdrlen_rsvd_flags, tcp_urgp, tcp_wnd; lia). rewrite rst_flags.
  apply (wp_set_hdr16 p o s l b Hp _ _ _ _ _ _ _ Hv7); [by apply Hin|]. intros k8 Hv8.
  apply wp_bind, (wp_set_hdr16 p o s l b Hp _ _ _ _ _ _ _ Hv8); [by apply Hin|]. intros k9 Hv9. by apply (HQ k9 _ Hv9).
Qed.

(** tcp_rst, down to the function of the interface. *)
Lemma wp_tcp_rst t w l li n f sn an local remote lport rport (Q : unit -> W -> Prop)
    (source := if ip_addr_isany (Some local) then nif_ip_addr f else local) :
  net_ok (s_net t) l -> has_memory (s_net t) l PBUF_IP TCP_HLEN PBUF_RAM = true -> interfaces t li ->
  (forall d, netif_default t = Some d -> is_Some (netifs t !! d)) -> route remote li (default_of t) = Some n -> netifs t !! n = Some f ->
  (forall i b s1 l1 o k k2 flags, let p := InHeap i in allocated PBUF_RAM TCP_HLEN p [(p, b)] (s_net t) s1 l l1 -> tot_len b = TCP_HLEN -> 34 <= o ->
     view p o (with_rst sn an lport rport flags (fun j => bytes_at s1 p (o + j))) s1 l1 k ->
     outgoing k l1 p b [] o -> contents k [(p, b)] = rst_segment sn an lport rport ->
     prepended (ip_header 0 40 (ip_id t) 0 TCP_TTL IP_PROTO_TCP 0 source remote) p b [] k l1 k2 ->
     wp (send_on call_output ip_frag f 40 p n remote) (fun _ => wp (on_net (pbuf_free (Some p))) (fun _ => Q tt))
       (put_stack (set_ip_id (u16 (ip_id t + 1)) (set_net k2 t)) w)) ->
  wp (tcp_rst call_output ip_frag sn an local remote lport rport) Q (put_stack t w).
Proof.
  intros Hok Hmem Hli Hdef Hroute Hn HQ. apply bool_decide_eq_true in Hmem. unfold tcp_rst, TCP_HLEN in *.
  apply wp_bind, wp_on_net, (wp_alloc_ram _ l); [done|lia| |intros E; by rewrite E in Hmem; destruct Hmem].
  intros a lt i b s1 l1 _ Hpay Hal. set (o := aligned_payload (layer_offset PBUF_IP)) in *. set (p := InHeap i) in *.
  pose proof Hal as [Hc Hpk Hlen [Hnd Hnew _ _ _] Hok1 _ _ _]. apply Forall_cons_1 in Hnew as [(_ & _ & Hty) _]. cbn [fst snd] in Hty.
  destruct Hc as (_ & Hb & Hnx). destruct (nok_home _ _ Hok1 _ _ Hb) as (_ & Hfits & _). pose proof Hfits as [Hl Hfit]. rewrite Hpay in Hfit.
  cbn in Hlen. pose proof Hpk as (Htot & _ & _). cbn in Htot. assert (Ho : 34 <= o) by (by vm_compute).
  set (m := fun j => bytes_at s1 p (o + j)). assert (Hv : view p o m s1 l1 s1) by by apply view_refl.
  apply wp_bind, (wp_payload_hdr p o s1 l1 b Hb s1 m); [done|done|].
  apply (wp_rst_fields p o s1 l1 b Hb s1 m); [done|split; lia|]. intros k flags Hvk.
  assert (Hout : outgoing k l1 p b [] o).
  { split; [apply Hvk| |done|done| |by left|done].
    - rewrite (view_pbufs _ _ _ _ _ _ Hvk). by repeat split.
    - apply Forall_cons_2; [|apply Forall_nil_2]. split; [done|by eexists]. }
  assert (Hcont : contents k [(p, b)] = rst_segment sn an lport rport).
  { cbn [contents]. rewrite app_nil_r, (view_data _ _ _ _ _ _ b Hvk Hpay). replace (len b) with 20 by lia. apply with_rst_prefix. }
  apply wp_bind, wp_bind, (wp_ip_route _ _ _ li); [done|done|].
  change (default_of (set_net k t)) with (default_of t). rewrite Hroute.
  destruct (ip_output_if_run call_output ip_frag (set_net k t) w l1 p b [] o (Some local) remote TCP_TTL 0 IP_PROTO_TCP n f)
    as (k2 & Hk2 & Hrun); [done|unfold IP_HLEN; lia|unfold IP_HLEN; lia|done..|].
  apply (wp_run_eq _ _ _ _ _ Hrun). unfold IP_HLEN in *. replace (tot_len b + 20) with 40 in * by lia. cbn [ip_addr_set] in Hk2.
  eapply wp_mono; [apply (HQ i b s1 l1 o k k2 flags); [done|lia|done|exact Hvk|done|done|exact Hk2]|].
  intros e w' Hw'. apply wp_bind. eapply wp_mono; [exact Hw'|]. intros ? ? HQ'. by apply wp_ret.
Qed.
End rst.
