(* ===== verification/LwipRaw.v ===== *)
(** Raw control blocks: core/raw.c.  They see the packets of a protocol before the
    rest of the stack does; the receive callbacks are a parameter. *)
From stdpp Require Import gmap.
From S2P Require Import Prelude Mmio LwipMem LwipPbuf LwipInet LwipStack LwipNetif LwipIpOut LwipUdp.

Definition IP_DEFAULT_TTL : Z := 255.
Definition RAW_TTL : Z := IP_DEFAULT_TTL.

Section raw.
Context {W : Type} `{HasStack W}.
Variable call_output : output_fn -> netif_ptr -> option ptr -> Z -> M W Z.
Variable ip_frag : ptr -> netif_ptr -> Z -> M W Z.
(** A callback is given its argument, the control block, the packet and the source
    address; it answers whether it has taken the packet. *)
Variable call_raw : raw_recv_fn -> option ptr -> ptr -> ptr -> Z -> M W bool.

(** ** The control blocks *)
Definition get_raws {A} (f : raw_state -> A) : M W A := gets_stack (fun s => f (raws s)).
Definition mod_raws (f : raw_state -> raw_state) : M W unit := mod_stack (fun s => set_raws (f (raws s)) s).
Definition set_raw_pcbs (p : option ptr) : M W unit := mod_raws (fun r => Raws p (raw_tab r)).
Definition get_raw (p : ptr) : M W raw_pcb := r ← get_raws (fun r => raw_tab r !! p); match r with Some u => mret u | None => fault end.
Definition put_raw (p : ptr) (u : raw_pcb) : M W unit := mod_raws (fun r => Raws (raw_pcbs r) (<[p := u]> (raw_tab r))).
Definition upd_raw (p : ptr) (f : raw_pcb -> raw_pcb) : M W unit := u ← get_raw p; put_raw p (f u).
(** A walk along the list takes at most as many steps as there are control blocks. *)
Definition raw_fuel : M W positive := get_raws (fun r => Pos.succ (Pos.of_succ_nat (size (raw_tab r)))).

(** ** Receiving *)

(** Move the control block that took a packet to the front. *)
Definition raw_to_front (prev pcb : ptr) : M W unit :=
  u ← get_raw pcb;
  _ ← upd_raw prev (with_raw_next (raw_next u));
  first ← get_raws raw_pcbs;
  _ ← upd_raw pcb (with_raw_next first);
  set_raw_pcbs (Some pcb).

(** The walk over the control blocks, on [pcb] and [prev]. *)
Definition raw_input_body (p : ptr) (iphdr : header) (proto : Z) (a : option ptr * option ptr)
  : M W (option ptr * option ptr + bool) :=
  match a with
  | (None, _) => mret (inr false)
  | (Some q, prev) =>
      u ← get_raw q;
      eaten ← (if raw_protocol u =? proto then
                 match raw_recv_cb u with
                 | Some f => src ← hdr32 iphdr ip_src; call_raw f (raw_recv_arg u) q p src
                 | None => mret false
                 end
               else mret false);
      if (eaten : bool) then
        _ ← (match prev with Some r => raw_to_front r q | None => mret tt end);
        mret (inr true)
      else u ← get_raw q; mret (inl (raw_next u, Some q))
  end.
Definition raw_input (p : ptr) (inp : netif_ptr) : M W bool :=
  iphdr ← payload_hdr p;
  proto ← IPH_PROTO iphdr;
  first ← get_raws raw_pcbs;
  fuel ← raw_fuel;
  loop fuel (raw_input_body p iphdr proto) (first, None).

(** ** The interface to the application *)
Definition raw_bind (pcb : ptr) (ipaddr : option Z) : M W Z :=
  _ ← upd_raw pcb (with_raw_local_ip (ip_addr_set ipaddr)); mret ERR_OK.
Definition raw_connect (pcb : ptr) (ipaddr : option Z) : M W Z :=
  _ ← upd_raw pcb (with_raw_remote_ip (ip_addr_set ipaddr)); mret ERR_OK.
Definition raw_recv (pcb : ptr) (f : option raw_recv_fn) (arg : option ptr) : M W unit := upd_raw pcb (with_raw_recv f arg).

(** The packet with room for the IP header in front: the packet itself, or a new pbuf
    chained in front of it. *)
Definition raw_add_header (p : ptr) : M W (option ptr) :=
  r ← on_net (pbuf_header (Some p) IP_HLEN);
  if negb (r =? 0) then
    q ← on_net (pbuf_alloc PBUF_IP 0 PBUF_RAM);
    match q with
    | None => mret None
    | Some q => _ ← on_net (pbuf_chain (Some q) (Some p)); mret (Some q)
    end
  else
    r ← on_net (pbuf_header (Some p) (- IP_HLEN));
    mret (if negb (r =? 0) then None else Some p).

Definition raw_sendto (pcb p : ptr) (ipaddr : Z) : M W Z :=
  q ← raw_add_header p;
  match q with
  | None => mret ERR_MEM
  | Some q =>
      n ← ip_route ipaddr;
      match n with
      | None => _ ← free_header q p; mret ERR_RTE
      | Some n =>
          u ← get_raw pcb;
          f ← get_netif n;
          let src_ip := if ip_addr_isany (Some (raw_local_ip u)) then nif_ip_addr f else raw_local_ip u in
          err ← ip_output_if call_output ip_frag q (Some src_ip) (Some ipaddr) (raw_ttl u) (raw_tos u) (raw_protocol u) n;
          _ ← free_header q p;
          mret err
      end
  end.
Definition raw_send (pcb p : ptr) : M W Z := u ← get_raw pcb; raw_sendto pcb p (raw_remote_ip u).

(** The walk that unlinks a control block; it goes on to the end of the list. *)
Definition raw_unlink_body (pcb : ptr) (pcb2 : option ptr) : M W (option ptr + unit) :=
  match pcb2 with
  | None => mret (inr tt)
  | Some q =>
      u ← get_raw q;
      _ ← (if bool_decide (raw_next u = Some pcb) then v ← get_raw pcb; upd_raw q (with_raw_next (raw_next v)) else mret tt);
      u ← get_raw q;
      mret (inl (raw_next u))
  end.
Definition raw_remove (pcb : ptr) : M W unit :=
  first ← get_raws raw_pcbs;
  _ ← (if bool_decide (first = Some pcb) then u ← get_raw pcb; set_raw_pcbs (raw_next u)
       else fuel ← raw_fuel; loop fuel (raw_unlink_body pcb) first);
  _ ← mod_raws (fun r => Raws (raw_pcbs r) (delete pcb (raw_tab r)));
  on_net (memp_free MEMP_RAW_PCB (Some pcb)).

Definition raw_new (proto : Z) : M W (option ptr) :=
  p ← on_net (memp_malloc MEMP_RAW_PCB);
  match p with
  | Some p =>
      first ← get_raws raw_pcbs;
      _ ← put_raw p (with_raw_next first (with_raw_ttl RAW_TTL (with_raw_protocol proto raw_pcb_zero)));
      _ ← set_raw_pcbs (Some p);
      mret (Some p)
  | None => mret None
  end.
End raw.
