(* ===== verification/LwipRawTheorems.v ===== *)
(** Raw control blocks: which of them are offered a packet, and who takes it. *)
From stdpp Require Import gmap.
From S2P Require Import Prelude Mmio LinkedList LwipMem LwipMemSpec LwipPbuf LwipPbufSpec LwipInet LwipInetTheorems LwipStack LwipStackSpec LwipNetif LwipIpOut LwipHeader LwipIpSpec LwipUdp LwipRaw.

(** The control blocks are [l], in this order. *)
Definition raw_listed (r : raw_state) (l : list (ptr * raw_pcb)) : Prop := list_at raw_next (raw_tab r) (raw_pcbs r) l.

Section rules.
Context {W : Type} `{StackLaws W}.
Implicit Types (s : stack) (w : W).

Lemma wp_get_raw p u (Q : raw_pcb -> W -> Prop) s w : raw_tab (raws s) !! p = Some u -> Q u (put_stack s w) -> wp (get_raw p) Q (put_stack s w).
Proof. intros Hp HQ. apply wp_bind, wp_gets_stack. rewrite Hp. by apply wp_ret. Qed.
Lemma wp_upd_raw p f u (Q : unit -> W -> Prop) s w : raw_tab (raws s) !! p = Some u ->
  Q tt (put_stack (set_raws (Raws (raw_pcbs (raws s)) (<[p := f u]> (raw_tab (raws s)))) s) w) -> wp (upd_raw p f) Q (put_stack s w).
Proof. intros Hp HQ. apply wp_bind, (wp_get_raw _ u); [done|]. by apply wp_mod_stack. Qed.

(** ** The control block that took a packet *)
Lemma wp_raw_to_front l1 r v q u l2 s w (Q : unit -> W -> Prop) : raw_listed (raws s) (l1 ++ (r, v) :: (q, u) :: l2) ->
  (forall rs first, raw_listed rs ((q, with_raw_next first u) :: l1 ++ (r, with_raw_next (raw_next u) v) :: l2) -> Q tt (put_stack (set_raws rs s) w)) ->
  wp (raw_to_front r q) Q (put_stack s w).
Proof.
  intros Hl HQ. pose proof Hl as [Hlk Hnd]. set (m := raw_tab (raws s)) in *.
  assert (Hr : m !! r = Some v) by (eapply linked_in; [exact Hlk|]; apply elem_of_app; right; by left).
  assert (Hq : m !! q = Some u) by (eapply linked_in; [exact Hlk|]; apply elem_of_app; right; right; by left).
  assert (Hne : r <> q).
  { intros ->. rewrite fmap_app in Hnd. apply list.NoDup_app in Hnd as (_ & _ & Hnd). apply nodup_cons in Hnd as [Hn _]. apply Hn. by left. }
  apply wp_bind, (wp_get_raw _ u); [done|]. apply wp_bind, (wp_upd_raw _ _ v); [done|]. apply wp_bind, wp_gets_stack.
  apply wp_bind, (wp_upd_raw _ _ u); [cbn; by rewrite lookup_insert_ne|]. apply wp_mod_stack. 
  apply (HQ (Raws (Some q) _) (raw_pcbs (raws s))). by apply (list_at_to_front raw_next with_raw_next).
Qed.
End rules.

(** A pbuf keeps its record and its memory. *)
Definition same_packet (p : ptr) (b : pbuf) (s s' : net) : Prop := pbufs s' !! p = Some b /\ forall i, bytes_at s' p i = bytes_at s p i.

(** * raw_input

    What the callbacks promise: they leave the control blocks alone, and one that does not
    take a packet leaves that alone, too. *)
Class Polite {W} `{HasStack W} (call_raw : raw_recv_fn -> option ptr -> ptr -> ptr -> Z -> M W bool) : Prop :=
  polite : forall f arg q p src w r w', call_raw f arg q p src w = Ret r w' ->
    raws (get_stack w') = raws (get_stack w) /\
    (r = false -> forall b, pbufs (s_net (get_stack w)) !! p = Some b -> same_packet p b (s_net (get_stack w)) (s_net (get_stack w'))).

(** What the walk promises: the control blocks for the protocol are asked in turn. *)
Section offer.
Context {W : Type} `{StackLaws W}.
Variable call_raw : raw_recv_fn -> option ptr -> ptr -> ptr -> Z -> M W bool.
Fixpoint offer (p : ptr) (src proto : Z) (l : list (ptr * raw_pcb)) : M W (option ptr) :=
  match l with
  | [] => mret None
  | (q, u) :: l =>
      match (if raw_protocol u =? proto then raw_recv_cb u else None) with
      | Some f => r ← call_raw f (raw_recv_arg u) q p src; if (r : bool) then mret (Some q) else offer p src proto l
      | None => offer p src proto l
      end
  end.
End offer.
(** The control blocks but for their order, and the one that comes to the front. *)
Definition plain (l : list (ptr * raw_pcb)) : list (ptr * raw_pcb) := (fun x => (fst x, with_raw_next None (snd x))) <$> l.
Definition to_front (q : ptr) (l : list (ptr * raw_pcb)) : list (ptr * raw_pcb) :=
  filter (fun x => fst x = q) l ++ filter (fun x => fst x <> q) l.

Lemma to_front_cut q u l1 l2 : q ∉ l1.*1 -> q ∉ l2.*1 -> to_front q (l1 ++ (q, u) :: l2) = (q, u) :: l1 ++ l2.
Proof.
  intros H1 H2. unfold to_front. assert (Hn : forall l : list (ptr * raw_pcb), q ∉ l.*1 -> filter (fun x => fst x = q) l = [] /\ filter (fun x => fst x <> q) l = l).
  { induction l as [|[r v] l IH]; [done|]. cbn [fmap list_fmap fst]. intros [Hr Hl]%not_elem_of_cons. destruct (IH Hl) as [E1 E2].
    rewrite !filter_cons. cbn [fst]. rewrite decide_False, decide_True, E1, E2 by done. done. }
  destruct (Hn l1 H1) as [E1 E2], (Hn l2 H2) as [E3 E4]. rewrite !list.filter_app, !list.filter_cons. cbn [fst].
  rewrite decide_True, decide_False by (done || by intros []). by rewrite E1, E2, E3, E4.
Qed.

Section input.
Context {W : Type} `{StackLaws W}.
Variable call_raw : raw_recv_fn -> option ptr -> ptr -> ptr -> Z -> M W bool.
Context `{!Polite call_raw}.
Notation net_of w := (s_net (get_stack w)).

Lemma hdr8_run p o b i w : pbufs (net_of w) !! p = Some b -> 0 <= o + i < room b -> hdr8 (p, o) i w = Ret (bytes_at (net_of w) p (o + i)) w.
Proof.
  intros Hp Hi. assert (Hw : wp (hdr8 (p, o) i) (fun v w' => v = bytes_at (net_of w) p (o + i) /\ w' = w) w).
  { apply wp_stack, wp_on_net, wp_bind, (wp_get_pbuf _ b); [done|]. cbn [fst snd].
    rewrite (proj2 (Z.leb_le _ _)), (proj2 (Z.ltb_lt _ _)) by lia. apply wp_gets. split; [done|]. by rewrite set_net_same, put_get_stack. }
  by apply wp_unfold in Hw as (v & w' & -> & -> & ->).
Qed.
Lemma hdr16_run p o b i w : pbufs (net_of w) !! p = Some b -> 0 <= o + i -> o + i + 2 <= room b ->
  hdr16 (p, o) i w = Ret (le16 (fun j => bytes_at (net_of w) p (o + j)) i) w.
Proof.
  intros Hp H1 H2. unfold hdr16, mbind, M_bind. rewrite (hdr8_run p o b) by (done || lia). rewrite (hdr8_run p o b) by (done || lia). done.
Qed.
Lemma hdr32_run p o b i w : pbufs (net_of w) !! p = Some b -> 0 <= o + i -> o + i + 4 <= room b ->
  hdr32 (p, o) i w = Ret (le32 (fun j => bytes_at (net_of w) p (o + j)) i) w.
Proof.
  intros Hp H1 H2. unfold hdr32, mbind, M_bind. rewrite (hdr16_run p o b) by (done || lia). rewrite (hdr16_run p o b) by (done || lia). done.
Qed.

Lemma get_raw_run q u w : raw_tab (raws (get_stack w)) !! q = Some u -> get_raw q w = Ret u w.
Proof.
  intros Hq. assert (Hw : wp (get_raw q) (fun v w' => v = u /\ w' = w) w) by (apply wp_stack, (wp_get_raw _ u); [done|]; by rewrite put_get_stack).
  by apply wp_unfold in Hw as (v & w' & -> & -> & ->).
Qed.
Lemma set_raws_same w : put_stack (set_raws (raws (get_stack w)) (get_stack w)) w = w.
Proof. transitivity (put_stack (get_stack w) w); [|apply put_get_stack]. f_equal. by destruct (get_stack w). Qed.

(** What raw_input answers, from what the control blocks do with the packet; the one that
    takes it comes to the front of the list. *)
Definition answers (l : list (ptr * raw_pcb)) (o : outcome W (option ptr)) (r : outcome W bool) : Prop :=
  match o with
  | Ret None w => r = Ret false w
  | Ret (Some q) w => exists rs l', r = Ret true (put_stack (set_raws rs (get_stack w)) w) /\ raw_listed rs l' /\ plain l' = to_front q (plain l)
  | Fault => r = Fault
  | Diverge => r = Diverge
  end.
Definition at_end (r : outcome W bool) : outcome W (option ptr * option ptr + bool) :=
  match r with Ret b w => Ret (inr b) w | Fault => Fault | Diverge => Diverge end.

Lemma plain_dom l : (plain l).*1 = l.*1.
Proof. unfold plain. rewrite <- list_fmap_compose. by apply list_fmap_ext. Qed.
Lemma plain_cons q u l : plain ((q, u) :: l) = (q, with_raw_next None u) :: plain l.
Proof. done. Qed.
Lemma plain_app l1 l2 : plain (l1 ++ l2) = plain l1 ++ plain l2.
Proof. apply fmap_app. Qed.

Lemma raw_taken l1 q u l2 w : raw_listed (raws (get_stack w)) (l1 ++ (q, u) :: l2) ->
  exists r, (_ ← (match fst <$> list.last l1 with Some r => raw_to_front r q | None => mret tt end); mret (inr true) : M W (option ptr * option ptr + bool)) w = at_end r /\
    answers (l1 ++ (q, u) :: l2) (Ret (Some q) w) r.
Proof.
  intros Hl. pose proof Hl as [_ Hnd]. rewrite fmap_app in Hnd. apply list.NoDup_app in Hnd as (_ & Hdis & Hnd). apply nodup_cons in Hnd as [Hq2 _].
  assert (Hq1 : q ∉ l1.*1) by (intros Hin; apply (Hdis q Hin); by left). cbn [fst] in *.
  assert (Hfront : to_front q (plain (l1 ++ (q, u) :: l2)) = (q, with_raw_next None u) :: plain (l1 ++ l2)).
  { rewrite !plain_app. apply to_front_cut; by rewrite plain_dom. }
  destruct l1 as [|[r v] l1 _] using rev_ind.
  - cbn [app] in *. exists (Ret true w). split; [done|]. exists (raws (get_stack w)), ((q, u) :: l2). rewrite set_raws_same, Hfront. split; [done|]. by split.
  - rewrite last_snoc. cbn [fmap option_fmap option_map fst]. rewrite <- !(assoc_L app) in *. cbn [app] in *.
    assert (Hw : wp (raw_to_front r q) (fun _ w' => exists rs l', w' = put_stack (set_raws rs (get_stack w)) w /\ raw_listed rs l' /\
      plain l' = (q, with_raw_next None u) :: plain (l1 ++ (r, v) :: l2)) (put_stack (get_stack w) w)).
    { apply (wp_raw_to_front l1 r v q u l2); [done|]. intros rs first Hrs. eexists rs, _. split; [done|]. split; [exact Hrs|].
      by rewrite plain_cons, !plain_app, !plain_cons. }
    rewrite put_get_stack in Hw. apply wp_unfold in Hw as ([] & w' & Hrun & rs & l' & -> & Hrs & Hpl).
    eexists (Ret true _). split; [unfold mbind, M_bind; by rewrite Hrun|]. exists rs, l'. by rewrite Hfront.
Qed.

Lemma raw_input_loop p b o src proto (l : list (ptr * raw_pcb)) : 0 <= o -> o + 20 <= room b ->
  forall l2 l1 p2 w, l = l1 ++ l2 -> raw_listed (raws (get_stack w)) l -> linked raw_next (raw_tab (raws (get_stack w))) p2 l2 ->
  pbufs (net_of w) !! p = Some b -> le32 (fun j => bytes_at (net_of w) p (o + j)) ip_src = src ->
  exists r, iter_nat (S (length l2)) (raw_input_body call_raw p (p, o) proto) (p2, fst <$> list.last l1) w = at_end r /\
    answers l (offer call_raw p src proto l2 w) r.
Proof.
  intros Ho Hroom. induction l2 as [|[q u] l2 IH]; intros l1 p2 w Hl Hrs Hlk Hp Hsrc.
  - cbn [linked] in Hlk. subst p2. by exists (Ret false w).
  - destruct Hlk as (-> & Hq & Hlk). cbn [length iter_nat raw_input_body offer].
    rewrite run_bind_assoc, (run_bind _ _ _ _ _ (get_raw_run q u w Hq)), run_bind_assoc.
    assert (Hskip : forall w', raws (get_stack w') = raws (get_stack w) -> same_packet p b (net_of w) (net_of w') ->
      exists r, ((u ← get_raw q; mret (inl (raw_next u, Some q)) : M W (option ptr * option ptr + bool)) ≫= fun a =>
        match a with inl a => iter_nat (S (length l2)) (raw_input_body call_raw p (p, o) proto) a | inr b => mret (inr b) end) w' = at_end r /\
        answers l (offer call_raw p src proto l2 w') r).
    { intros w' Hr [Hp' Hb']. rewrite run_bind_assoc, (run_bind _ _ _ _ _ (get_raw_run q u w' (eq_trans (f_equal (fun r => raw_tab r !! q) Hr) Hq))).
      destruct (IH (l1 ++ [(q, u)]) (raw_next u) w') as (r & Hit & Han); try (by rewrite ?Hr); [by rewrite <- (assoc_L app)| |].
      - rewrite <- Hsrc. unfold le32, le16. by rewrite !Hb'.
      - exists r. split; [|done]. rewrite last_snoc in Hit. exact Hit. }
    assert (Hno : exists r, ((mret false : M W bool) ≫= fun eaten : bool => (if eaten then
        _ ← match fst <$> list.last l1 with Some r => raw_to_front r q | None => mret tt end; mret (inr true)
      else u ← get_raw q; mret (inl (raw_next u, Some q))) ≫= fun a => match a with
        inl a => iter_nat (S (length l2)) (raw_input_body call_raw p (p, o) proto) a | inr b => mret (inr b) end) w = at_end r /\
        answers l (offer call_raw p src proto l2 w) r) by (apply Hskip; by try split).
    destruct (raw_protocol u =? proto); [|exact Hno]. destruct (raw_recv_cb u) as [f|]; [|exact Hno]. clear Hno.
    rewrite run_bind_assoc, (run_bind _ _ _ _ _ (hdr32_run p o b ip_src w Hp ltac:(unfold ip_src; lia) ltac:(unfold ip_src; lia))), Hsrc.
    rewrite !(run_outcome (call_raw f (raw_recv_arg u) q p src)). destruct (call_raw f (raw_recv_arg u) q p src w) as [[] w'| |] eqn:Hcall; [| |by exists Fault|by exists Diverge].
    + destruct (polite _ _ _ _ _ _ _ _ Hcall) as [Hr _]. subst l. rewrite <- Hr in Hrs. destruct (raw_taken l1 q u l2 w' Hrs) as (r & Hrun & Han). exists r. split; [|exact Han].
      unfold mbind, M_bind in Hrun |- *. rewrite Hrun. by destruct r.
    + destruct (polite _ _ _ _ _ _ _ _ Hcall) as [Hr Hsame]. apply Hskip; [done|by apply Hsame].
Qed.

(** A packet is offered to the raw control blocks for its protocol that have a
    callback, in the order of the list, until one takes it; that one is the first of the
    list afterwards, the others keep their order.  The walk ends. *)
Theorem raw_input_offers (w : W) (p : ptr) (b : pbuf) (o : Z) (inp : netif_ptr) (l : list (ptr * raw_pcb)) :
  let m := fun j => bytes_at (net_of w) p (o + j) in
  pbufs (net_of w) !! p = Some b -> payload b = Some o -> 0 <= o -> o + 20 <= room b -> bytes m -> raw_listed (raws (get_stack w)) l ->
  answers l (offer call_raw p (le32 m ip_src) (m 9) l w) (raw_input call_raw p inp w).
Proof.
  intros m Hp Hpay Ho Hroom Hm Hl.
  assert (Hhdr : payload_hdr p w = Ret (p, o) w).
  { assert (Hw : wp (payload_hdr p) (fun h w' => h = (p, o) /\ w' = w) w).
    { apply wp_stack, wp_bind, wp_on_net, (wp_get_pbuf _ b); [done|]. rewrite Hpay. apply wp_ret. by rewrite set_net_same, put_get_stack. }
    by apply wp_unfold in Hw as (h & w' & -> & -> & ->). }
  assert (Hproto : IPH_PROTO (p, o) w = Ret (m 9) w).
  { unfold IPH_PROTO. rewrite (run_bind _ _ _ _ _ (hdr16_run p o b ip_ttl_proto w Hp ltac:(unfold ip_ttl_proto; lia) ltac:(unfold ip_ttl_proto; lia))). fold m.
    unfold ntohs, mret, M_ret. rewrite land_ff, (proj1 (byte_htons _)), le16_high; [done|by apply bytes_octets|unfold ip_ttl_proto; lia]. }
  unfold raw_input. rewrite (run_bind _ _ _ _ _ Hhdr), (run_bind _ _ _ _ _ Hproto). destruct Hl as [Hlk Hnd].
  destruct (raw_input_loop p b o (le32 m ip_src) (m 9) l Ho Hroom l [] (raw_pcbs (raws (get_stack w))) w) as (r & Hrun & Han); try done. change (fst <$> list.last ([] : list (ptr * raw_pcb))) with (@None ptr) in Hrun.
  unfold get_raws, raw_fuel, get_raws, gets_stack. rewrite !run_outcome. unfold gets at 1. rewrite run_outcome. unfold gets at 1.
  rewrite (loop_run (S (length l))), Hrun by (try (apply (linked_fuel raw_next _ (raw_pcbs (raws (get_stack w)))); by split); rewrite Hrun; by destruct r). by destruct r.
Qed.
End input.

(** Two applications want the packets for protocol 1; the first of them does not take it. *)
Definition takes_second (f : raw_recv_fn) (arg : option ptr) (q p : ptr) (src : Z) : M stack bool := mret (bool_decide (f = 2%nat)).
Definition raw_app (n : option ptr) (f : raw_recv_fn) : raw_pcb := RawPcb 0 0 0 0 RAW_TTL n IP_PROTO_ICMP (Some f) None.
Definition raw_first : ptr := InPool MEMP_RAW_PCB 0.
Definition raw_second : ptr := InPool MEMP_RAW_PCB 1.
Definition raw_stack : stack :=
  set_raws (Raws (Some raw_first) (<[raw_first := raw_app (Some raw_second) 1%nat]> (<[raw_second := raw_app None 2%nat]> ∅))) (ping_stack 14 28).
#[export] Instance takes_second_polite : Polite takes_second.
Proof. intros f arg q p src w r w' Hcall. injection Hcall as <- <-. split; [done|]. by intros _ b Hb. Qed.
Lemma raw_input_offers_witness (l := [(raw_first, raw_app (Some raw_second) 1%nat); (raw_second, raw_app None 2%nat)]) (m := fun j => ping_bytes (14 + j)) :
  answers l (offer takes_second ping_ptr (le32 m ip_src) (m 9) l raw_stack) (raw_input takes_second ping_ptr 0%nat raw_stack).
Proof.
  refine (raw_input_offers takes_second raw_stack ping_ptr (ping_pbuf 14 28) 14 0%nat l eq_refl eq_refl _ _ _ _); [done|done|intros i; apply (ping_bytes_ok 14 28)|].
  split; [by repeat split|]. apply (bool_decide_unpack _). by vm_compute.
Defined.
Example second_takes : match raw_input takes_second ping_ptr 0%nat raw_stack with
  | Ret r s => (r, raw_pcbs (raws s), raw_next <$> raw_tab (raws s) !! raw_second, raw_next <$> raw_tab (raws s) !! raw_first) | _ => (false, None, None, None) end
  = (true, Some raw_second, Some (Some raw_first), Some None).
Proof. by vm_compute. Qed.
