(* ===== verification/LwipIpInput.v ===== *)
(** What the IP layer does with a packet that comes in: whom it is for, what is
    thrown away, what goes on and in which shape. *)
From stdpp Require Import gmap.
From S2P Require Import Prelude Mmio LwipMem LwipMemSpec LwipPbuf LwipPbufSpec LwipPbufTheorems LwipPbufOwn LwipInet LwipInetTheorems.
From S2P Require Import LwipStack LwipStackSpec LwipHeader LwipNetif LwipIpOut LwipUdp LwipIpSpec LwipIpTheorems.

(** * Whom a packet is for *)

(** The interface it came in on, if it takes the address, else the first other
    one that does. *)
Definition receiver (dest : Z) (inp : netif_ptr) (f : netif) (l : list (netif_ptr * netif)) : option netif_ptr :=
  if accepts f dest then Some inp
  else fst <$> List.find (fun x => negb (bool_decide (fst x = inp)) && accepts (snd x) dest) l.

Section receiving.
Context {W : Type} `{StackLaws W}.
Implicit Types (t : stack) (w : W).

(** The rest of a step, at the interface [q]. *)
Definition next_netif (inp : netif_ptr) (q : option netif_ptr) : M W (bool * netif_ptr + option netif_ptr) :=
  next ← (if bool_decide (q = Some inp) then g ← get_netif inp; mret (nif_next g) else mret q);
  match next with Some n => mret (inl (false, n)) | None => mret (inr None) end.

Lemma wp_next_netif inp fi dest t w (Q : option netif_ptr -> W -> Prop) : netifs t !! inp = Some fi ->
  forall l q n, netif_chain (netifs t) q l -> NoDup l.*1 -> (length l <= n)%nat ->
  Q (fst <$> List.find (fun x => negb (bool_decide (fst x = inp)) && accepts (snd x) dest) l) (put_stack t w) ->
  wp (next_netif inp q) (fun r w' => match r with inl a => wp (iter_nat n (for_us_body inp dest) a) (ends Q) w' | inr b => Q b w' end) (put_stack t w).
Proof.
  intros Hi. induction l as [|[x f] l IH]; intros q n Hc Hnd Hn HQ; cbn [netif_chain] in Hc.
  - subst q. unfold next_netif. rewrite bool_decide_false by done. by apply wp_bind, wp_ret, wp_ret.
  - destruct Hc as (-> & Hx & Hc). apply nodup_cons in Hnd as [Hnx Hnd]. cbn [fst] in Hnx. cbn [length] in Hn. cbn [List.find fst snd] in HQ.
    destruct (decide (x = inp)) as [->|Hne].
    + rewrite (bool_decide_true (inp = inp)) in HQ by done. cbn [negb andb] in HQ. specialize (IH (nif_next f) n Hc Hnd ltac:(lia) HQ).
      assert (f = fi) as -> by congruence. unfold next_netif in IH |- *. rewrite bool_decide_true by done.
      apply wp_bind, wp_bind, (wp_get_netif _ fi); [done|]. apply wp_ret.
      rewrite bool_decide_false in IH; [exact IH|]. intros E. destruct l as [|[y g] l]; cbn in Hc; [congruence|]. destruct Hc as (Ey & _).
      apply Hnx. rewrite Ey in E. injection E as ->. by left.
    + rewrite (bool_decide_false (x = inp)) in HQ by done. cbn [negb andb] in HQ. unfold next_netif at 1. rewrite bool_decide_false by congruence.
      apply wp_bind, wp_ret, wp_ret. destruct n as [|n]; [lia|]. apply wp_iter_S. cbn [for_us_body]. apply wp_bind, (wp_get_netif _ f); [done|].
      destruct (accepts f dest); [by apply wp_ret|]. apply wp_bind, wp_ret. fold (next_netif inp (nif_next f)). eapply (wp_mono _ _ _ _ (IH _ n Hc Hnd ltac:(lia) HQ)). done.
Qed.

Lemma wp_for_us inp f dest t w l (Q : option netif_ptr -> W -> Prop) : netifs t !! inp = Some f -> interfaces t l ->
  Q (receiver dest inp f l) (put_stack t w) ->
  wp (loop (Pos.succ (Pos.of_succ_nat (size (netifs t)))) (for_us_body inp dest) (true, inp)) Q (put_stack t w).
Proof.
  intros Hi [Hc Hnd] HQ. apply (wp_loop_nat (S (length l))); [pose proof (netif_chain_size _ _ _ Hc Hnd); lia|].
  apply wp_iter_S. cbn [for_us_body]. apply wp_bind, (wp_get_netif _ f); [done|]. unfold receiver in HQ. destruct (accepts f dest); [by apply wp_ret|].
  apply wp_bind, wp_gets_stack. fold (next_netif inp (netif_list t)). eapply wp_mono; [by eapply wp_next_netif|done].
Qed.
End receiving.

(** * What is done with it *)
Inductive verdict : Set := Discard | Reassemble | Deliver.

(** The packet has the version and the lengths that its header says. *)
Definition well_formed (m : Z -> Z) (b : pbuf) : bool :=
  (m 0 / 16 =? 4) && (ihl m <=? len b) && (ip_total m <=? tot_len b).
(** A datagram for the port of a DHCP client passes any filter on addresses. *)
Definition for_dhcp (m : Z -> Z) (n : option netif_ptr) : bool :=
  bool_decide (n = None) && (m 9 =? IP_PROTO_UDP) && (htons (le16 m (ihl m + udp_dest)) =? DHCP_CLIENT_PORT).
Definition ip_verdict (m : Z -> Z) (n : option netif_ptr) (f : netif) : verdict :=
  let dhcp := for_dhcp m n in
  if negb dhcp && (ip_addr_isbroadcast (le32 m ip_src) f || ip_addr_ismulticast (le32 m ip_src)) then Discard
  else if bool_decide (n = None) && negb dhcp then Discard
  else if Z.land (le16 m ip_offset) (htons (Z.lor IP_OFFMASK IP_MF)) =? 0 then Deliver else Reassemble.

(** A packet that the driver received: the first pbuf is one of the pool, and the
    largest header and the ports behind it are inside its memory. *)
Record received (s : net) (l : list block) (p : ptr) (b : pbuf) (c : list (ptr * pbuf)) (o : Z) (m : Z -> Z) : Prop := {
  rcv_ok : net_ok s l;
  rcv_chain : chain (pbufs s) (Some p) ((p, b) :: c);
  rcv_nodup : NoDup ((p, b) :: c).*1;
  rcv_packet : packet ((p, b) :: c);
  rcv_sole : sole ((p, b) :: c);
  rcv_readable : readable ((p, b) :: c);
  rcv_type : type b = PBUF_POOL;
  rcv_payload : payload b = Some o;
  rcv_room : o + 64 <= room b;
  rcv_bytes : forall i, 0 <= i < 64 -> bytes_at s p (o + i) = m i;
  rcv_octets : hdr_octets m;
  rcv_size : tot_len b < 65536
}.

(** What is left of a packet of which [n] bytes are wanted: [c'] is its chain. *)
Record arrived (n : Z) (s : net) (p : ptr) (c c' : list (ptr * pbuf)) (k : net) (l' : list block) : Prop := {
  arr_ok : net_ok k l';
  arr_chain : chain (pbufs k) (Some p) c';
  arr_packet : packet c';
  arr_size : data_len c' = n;
  arr_contents : contents k c' = firstn (Z.to_nat n) (contents s c);
  arr_nodup : NoDup c'.*1;
  arr_readable : readable c';
  arr_head : forall b c0, c = (p, b) :: c0 -> exists b' c1, c' = (p, b') :: c1 /\
    type b' = type b /\ payload b' = payload b /\ len b' = Z.min n (len b) /\ tot_len b' = n
}.
(** The kept pbufs are readable when the heap and the pools are as they should be. *)
Lemma readable_chain k l p c : net_ok k l -> chain (pbufs k) p c -> Forall (fun x => is_Some (payload (snd x))) c -> readable c.
Proof.
  intros Hok Hc Hp. apply list.Forall_forall. intros [q b] Hin. rewrite list.Forall_forall in Hp. split; [|by apply (Hp (q, b))].
  apply (nok_home _ _ Hok q b). by eapply chain_in.
Qed.
Lemma trimmed_payload n c : readable c -> Forall (fun x => is_Some (payload (snd x))) (trimmed n c).
Proof.
  intros Hr. apply list.Forall_forall. intros [q b'] (b & Hin & _ & _ & Hp)%trimmed_in. cbn [snd]. rewrite Hp.
  unfold readable in Hr. rewrite list.Forall_forall in Hr. by apply (Hr (q, b)).
Qed.

Lemma trim_received s l p b c o m n (Q : unit -> net -> Prop) : received s l p b c o m -> 0 <= n <= tot_len b ->
  (forall k c' b' l', arrived n s p ((p, b) :: c) c' k l' -> pbufs k !! p = Some b' -> room b' = room b ->
     (forall i, 0 <= i < 64 -> bytes_at k p (o + i) = m i) -> Q tt k) ->
  wp (pbuf_realloc p n) Q s.
Proof.
  intros [Hok Hc Hnd Hpk Hsole Hrd Hty Ho Hroom Hm Hoct Hsz] Hn HQ.
  assert (Hdl : data_len ((p, b) :: c) = tot_len b) by (destruct Hpk as (-> & _ & _); done).
  destruct (nok_home _ _ Hok p b) as (_ & [_ Hf] & _); [by destruct Hc as (_ & ? & _)|]. rewrite Ho in Hf.
  apply (wp_pbuf_realloc p ((p, b) :: c) n s l); try done; [lia|lia|..].
  - intros Hle. apply (HQ s ((p, b) :: c) b l); try done; [|by destruct Hc as (_ & ? & _)]. split; try done; [lia| |].
    + symmetry. apply firstn_all2. pose proof (contents_length s _ Hrd). lia.
    + intros b0 c0 [= <- <-]. exists b, c. do 3 (split; [done|]). pose proof (packet_len _ _ _ Hpk). lia.
  - intros Hlt s' l' Hcut. pose proof (cut_chain _ _ _ _ _ _ _ Hcut) as Hc'.
    assert (exists b', pbufs s' !! p = Some b' /\ room b' = room b) as (b' & Hb' & Hr').
    { cbn [trimmed] in Hc'. destruct (len b <? n); cbn [chain] in Hc'; destruct Hc' as (_ & Hb' & _); eexists; (split; [exact Hb'|]); [done|].
      unfold cut, shrunk. by rewrite Hty. }
    apply (HQ s' (trimmed n ((p, b) :: c)) b' l'); try done.
    + split; [apply (cut_ok _ _ _ _ _ _ _ Hcut)|done|apply trimmed_packet; [done|lia]|apply trimmed_len; lia| | | |].
      * apply contents_trimmed; [lia|done|done|]. intros q bq x Hq. apply (cut_bytes _ _ _ _ _ _ _ Hcut). by apply (chain_in _ _ _ _ _ Hc').
      * rewrite (trimmed_dom n) in Hnd. by apply list.NoDup_app in Hnd as [? _].
      * eapply readable_chain; [apply (cut_ok _ _ _ _ _ _ _ Hcut)|exact Hc'|by apply trimmed_payload].
      * intros b0 c0 [= <- <-]. cbn [trimmed]. destruct (Z.ltb_spec (len b) n).
        -- exists (with_tot_len n b), (trimmed (n - len b) c). do 3 (split; [done|]). cbn. lia.
        -- exists (cut n b), []. destruct (shrunk_same n b) as (_ & Ht & Hp' & _). split; [done|]. cbn. rewrite Ht, Hp'. do 2 (split; [done|]). lia.
    + intros i Hi. rewrite (cut_bytes _ _ _ _ _ _ _ Hcut p b'); [by apply Hm|done|lia].
Qed.

(** The header bytes that matter. *)
Definition same_header (m m' : Z -> Z) : Prop := forall i, 0 <= i < 64 -> m i = m' i.
Lemma ihl_bound m : 0 <= ihl m <= 60.
Proof. unfold ihl. change 15 with (Z.ones 4). rewrite Z.land_ones by lia. pose proof (Z.mod_pos_bound (m 0) (2 ^ 4)). lia. Qed.
Lemma same_ihl m m' : same_header m m' -> ihl m = ihl m'.
Proof. intros Hs. unfold ihl. by rewrite (Hs 0) by lia. Qed.
Lemma same_le16 m m' i : same_header m m' -> 0 <= i <= 62 -> le16 m i = le16 m' i.
Proof. intros Hs Hi. apply MemFacts.le16_ext; apply Hs; lia. Qed.
Lemma same_le32 m m' i : same_header m m' -> 0 <= i <= 60 -> le32 m i = le32 m' i.
Proof. intros Hs Hi. apply MemFacts.le32_ext. intros k Hk. apply Hs. lia. Qed.
Lemma same_verdict m m' n f : same_header m m' -> ip_verdict m n f = ip_verdict m' n f.
Proof.
  intros Hs. pose proof (ihl_bound m). unfold ip_verdict, for_dhcp. rewrite <- (same_ihl m m'), (Hs 9) by (done || lia).
  rewrite <- (same_le16 m m' (ihl m + udp_dest)), <- (same_le16 m m' ip_offset), <- (same_le32 m m' ip_src) by (done || unfold udp_dest, ip_offset, ip_src; lia).
  done.
Qed.

Section input.
Context {W : Type} `{StackLaws W}.
Variable call_output : output_fn -> netif_ptr -> option ptr -> Z -> M W Z.
Variable ip_frag : ptr -> netif_ptr -> Z -> M W Z.
Variable call_recv : recv_fn -> option ptr -> ptr -> ptr -> Z -> Z -> M W unit.
Variable ip_reass : ptr -> M W (option ptr).
Variable raw_input : ptr -> netif_ptr -> M W bool.
Variable tcp_input : ptr -> netif_ptr -> M W unit.
Implicit Types (t : stack) (w : W).

Definition deliver := ip_deliver call_output ip_frag call_recv raw_input tcp_input.
(** The packet [p], whose header is at [h], takes the way of the verdict. *)
Definition act (v : verdict) (p : ptr) (h : header) (inp : netif_ptr) : M W Z :=
  match v with
  | Discard => _ ← on_net (pbuf_free (Some p)); mret ERR_OK
  | Deliver => _ ← deliver p h inp; mret ERR_OK
  | Reassemble =>
      r ← ip_reass p;
      match r with
      | None => mret ERR_OK
      | Some p => h ← payload_hdr p; _ ← deliver p h inp; mret ERR_OK
      end
  end.

(** ip_input after the packet is trimmed. *)
Definition filter_rest (p : ptr) (h : header) (hlen : Z) (inp : netif_ptr) : M W Z :=
  dest ← hdr32 h ip_dest;
  fuel ← netif_fuel;
  n ← loop fuel (for_us_body inp dest) (true, inp);
  dhcp ← (match n with
          | Some _ => mret false
          | None =>
              proto ← IPH_PROTO h;
              if proto =? IP_PROTO_UDP then port ← hdr16 h (hlen + udp_dest); mret (ntohs port =? DHCP_CLIENT_PORT)
              else mret false
          end);
  src ← hdr32 h ip_src;
  f ← get_netif inp;
  if negb dhcp && (ip_addr_isbroadcast src f || ip_addr_ismulticast src) then act Discard p h inp
  else if bool_decide (n = None) && negb dhcp then act Discard p h inp
  else
    off ← hdr16 h ip_offset;
    if negb (Z.land off (htons (Z.lor IP_OFFMASK IP_MF)) =? 0) then act Reassemble p h inp else act Deliver p h inp.

Lemma filter_run t w k p b o l m inp f l2 : pbufs k !! p = Some b -> view p o m k l k -> inside o b 0 64 -> hdr_octets m ->
  netifs t !! inp = Some f -> interfaces t l2 ->
  filter_rest p (p, o) (ihl m) inp (put_stack (set_net k t) w)
  = act (ip_verdict m (receiver (le32 m ip_dest) inp f l2) f) p (p, o) inp (put_stack (set_net k t) w).
Proof.
  intros Hb Hv Hi Hm Hn Hl. pose proof (ihl_bound m) as Hih. set (v := ip_verdict _ _ _).
  assert (Hin : forall i n, 0 <= i -> 0 <= n -> i + n <= 64 -> inside o b i n) by (destruct Hi; intros; split; lia).
  change (reaches (filter_rest p (p, o) (ihl m) inp) (put_stack (set_net k t) w) (fun r => r = act v p (p, o) inp (put_stack (set_net k t) w))).
  apply reach_bind, (wp_hdr32 p o k l b Hb k m); [done|apply Hin; unfold ip_dest; lia|]. set (n := receiver _ _ _ _) in v.
  apply reach_bind, wp_gets_stack, reach_bind, (wp_for_us inp f _ _ _ l2); [done|done|]. fold n.
  apply reach_bind.
  assert (Hdh : forall Q : bool -> W -> Prop, Q (for_dhcp m n) (put_stack (set_net k t) w) ->
    wp (match n with Some _ => mret false
        | None => proto ← IPH_PROTO (p, o);
                  if proto =? IP_PROTO_UDP then port ← hdr16 (p, o) (ihl m + udp_dest); mret (ntohs port =? DHCP_CLIENT_PORT) else mret false end)
      Q (put_stack (set_net k t) w)).
  { intros Q HQ. unfold for_dhcp in HQ. destruct n as [n'|]; [by apply wp_ret|]. cbn [bool_decide decide andb] in HQ.
    apply wp_bind, (wp_IPH_PROTO p o k l b Hb k m); [done|by apply Hin|done|]. rewrite bool_decide_true in HQ by done. destruct (m 9 =? IP_PROTO_UDP); [|by apply wp_ret].
    apply wp_bind, (wp_hdr16 p o k l b Hb k m); [done|apply Hin; unfold udp_dest; lia|]. by apply wp_ret. }
  apply Hdh. apply reach_bind, (wp_hdr32 p o k l b Hb k m); [done|apply Hin; unfold ip_src; lia|].
  apply reach_bind, (wp_get_netif _ f); [done|]. subst v. unfold ip_verdict. destruct (negb _ && (_ || _)); [done|]. destruct (_ && _); [done|].
  apply reach_bind, (wp_hdr16 p o k l b Hb k m); [done|apply Hin; unfold ip_offset; lia|]. by destruct (_ =? 0).
Qed.

Lemma ip_input_run t w l p b c o m inp f l2 :
  received (s_net t) l p b c o m -> netifs t !! inp = Some f -> interfaces t l2 ->
  let run := ip_input call_output ip_frag call_recv ip_reass raw_input tcp_input p inp (put_stack t w) in
  if well_formed m b then
    exists k c' l', arrived (ip_total m) (s_net t) p ((p, b) :: c) c' k l' /\
      run = act (ip_verdict m (receiver (le32 m ip_dest) inp f l2) f) p (p, o) inp (put_stack (set_net k t) w)
  else run = act Discard p (p, o) inp (put_stack t w).
Proof.
  intros Hr Hn Hl run. pose proof Hr as [Hok Hc Hnd Hpk Hsole Hrd Hty Ho Hroom Hm Hoct Hsz]. set (s := s_net t) in *.
  assert (Hb : pbufs s !! p = Some b) by by destruct Hc as (_ & ? & _).
  destruct (nok_home _ _ Hok p b) as (_ & [_ Hf] & _); [done|]. rewrite Ho in Hf.
  set (m1 := fun i => bytes_at s p (o + i)). assert (Hs1 : same_header m1 m) by (intros i Hi; by apply Hm).
  assert (Hoct1 : hdr_octets m1) by (intros i Hi; rewrite Hs1 by lia; by apply Hoct).
  assert (Hv : view p o m1 s l s) by by apply view_refl.
  subst run. replace (put_stack t w) with (put_stack (set_net s t) w) by by destruct t.
  set (P := fun r : outcome W Z => if well_formed m b then
    exists k c' l', arrived (ip_total m) s p ((p, b) :: c) c' k l' /\
      r = act (ip_verdict m (receiver (le32 m ip_dest) inp f l2) f) p (p, o) inp (put_stack (set_net k t) w)
    else r = act Discard p (p, o) inp (put_stack (set_net s t) w)).
  enough (HP : reaches (ip_input call_output ip_frag call_recv ip_reass raw_input tcp_input p inp) (put_stack (set_net s t) w) P)
    by (unfold reaches, P in HP; by destruct (well_formed m b)).
  apply reach_bind, (wp_payload_hdr p o s l b Hb s m1); [done..|].
  apply reach_bind, (wp_IPH_V p o s l b Hb s m1); [done|split; lia|done|].
  unfold P, well_formed. rewrite <- (Hs1 0) by lia. destruct (m1 0 / 16 =? 4); cbn [negb andb]; [|done].
  apply reach_bind, (wp_IPH_HL p o s l b Hb s m1); [done|split; lia|done|]. fold (ihl m1).
  apply reach_bind, (wp_hdr16 p o s l b Hb s m1); [done|split; unfold ip_len; lia|].
  apply reach_bind, wp_on_net, (wp_get_pbuf _ b); [done|]. unfold ntohs.
  assert (Htot : htons (le16 m1 ip_len) = ip_total m) by (unfold ip_total; by rewrite (same_le16 m1 m) by (done || unfold ip_len; lia)).
  rewrite Htot, (same_ihl m1 m), !Z.leb_antisym by done. destruct (Z.ltb_spec (len b) (ihl m)); cbn [negb andb orb]; [done|].
  destruct (Z.ltb_spec (tot_len b) (ip_total m)); cbn [negb]; [done|].
  apply reach_bind, wp_on_net. apply (trim_received s l p b c o m); [done|pose proof (htons_bound (le16 m ip_len)); unfold ip_total in *; lia|].
  intros k c' b' l' Harr Hb' Hr' Hm'. exists k, c', l'. split; [done|]. set (m2 := fun i => bytes_at k p (o + i)).
  assert (Hs2 : same_header m2 m) by (intros i Hi; by apply Hm').
  rewrite <- (same_ihl m2 m), <- (same_verdict m2 m), <- (same_le32 m2 m ip_dest) by (done || unfold ip_dest; lia).
  apply (filter_run t w k p b' o l' m2 inp f l2); [done| | |intros i Hi; rewrite Hs2 by lia; by apply Hoct|done|done].
  - apply view_refl, (arr_ok _ _ _ _ _ _ _ Harr).
  - split; lia.
Qed.

(** C27. What ip_input does with a packet: one whose version or lengths are wrong is freed
    as it came.  Any other is cut to the length its header says, and the header decides:
    packets that no interface takes (DHCP answers apart) and packets from a broadcast or
    multicast address are freed, fragments go to reassembly, the others to the protocol
    above. *)
Theorem ip_input_filters t w l p b c o m inp f l2 :
  received (s_net t) l p b c o m -> netifs t !! inp = Some f -> interfaces t l2 ->
  let run := ip_input call_output ip_frag call_recv ip_reass raw_input tcp_input p inp (put_stack t w) in
  if well_formed m b then
    exists k c' l', arrived (ip_total m) (s_net t) p ((p, b) :: c) c' k l' /\
      run = act (ip_verdict m (receiver (le32 m ip_dest) inp f l2) f) p (p, o) inp (put_stack (set_net k t) w)
  else run = act Discard p (p, o) inp (put_stack t w).
Proof. intros Hr Hn Hl. by apply (ip_input_run t w l p b c o m inp f l2). Qed.
End input.

(** The echo request again, among parameters that do nothing. *)
Definition no_recv (_ : recv_fn) (_ : option ptr) (_ _ : ptr) (_ _ : Z) : M stack unit := mret tt.
Definition no_reass (_ : ptr) : M stack (option ptr) := mret None.
Definition no_raw (_ : ptr) (_ : netif_ptr) : M stack bool := mret false.
Definition no_tcp (_ : ptr) (_ : netif_ptr) : M stack unit := mret tt.
Lemma ping_received : received (ping_net 14 28) [(MEM_SIZE_ALIGNED, false)] ping_ptr (ping_pbuf 14 28) [] 14 ping_header.
Proof.
  split; [by apply ping_net_ok|by repeat split|apply (bool_decide_unpack _); by vm_compute|by repeat split| | |done|done|done|done| |done].
  - apply Forall_cons_2; [|apply Forall_nil_2]. by split; [|intros _; eexists].
  - apply Forall_cons_2; [|apply Forall_nil_2]. split; [by split|by eexists].
  - intros i _. apply (ping_bytes_ok 14 28).
Qed.
Lemma ip_input_filters_witness
    (t := ping_stack 14 28) (w := ping_stack 14 28) (b := ping_pbuf 14 28) (m := ping_header) (l2 := [(0%nat, ping_netif)]) :
  let run := ip_input any_output any_frag no_recv no_reass no_raw no_tcp ping_ptr 0%nat (put_stack t w) in
  if well_formed m b then
    exists k c' l', arrived (ip_total m) (s_net t) ping_ptr [(ping_ptr, b)] c' k l' /\
      run = act any_output any_frag no_recv no_reass no_raw no_tcp (ip_verdict m (receiver (le32 m ip_dest) 0%nat ping_netif l2) ping_netif)
              ping_ptr (ping_ptr, 14) 0%nat (put_stack (set_net k t) w)
  else run = act any_output any_frag no_recv no_reass no_raw no_tcp Discard ping_ptr (ping_ptr, 14) 0%nat (put_stack t w).
Proof.
  apply (ip_input_filters any_output any_frag no_recv no_reass no_raw no_tcp t w [(MEM_SIZE_ALIGNED, false)] ping_ptr b [] 14 m 0%nat ping_netif l2);
    [apply ping_received|done|apply ping_interfaces].
Defined.
Example ping_verdict : ip_verdict ping_header (receiver (le32 ping_header ip_dest) 0%nat ping_netif [(0%nat, ping_netif)]) ping_netif = Deliver.
Proof. by vm_compute. Qed.
