(* ===== verification/LwipUdpTheorems.v ===== *)
(** The UDP control blocks: binding to a port, the choice of a free port, the delivery
    of a datagram to a control block, and opening and closing: udp_new, udp_bind and
    udp_connect on a new one, and udp_remove. *)
From stdpp Require Import gmap.
From S2P Require Import Prelude Mmio LwipMem LwipMemSpec LwipPbuf LwipPbufSpec LwipInet LwipStack LwipStackSpec LwipEtharp LwipNetif LwipIpOut LwipUdp.

(** * The list of active control blocks *)
Fixpoint pcb_list (m : gmap ptr udp_pcb) (p : option ptr) (l : list (ptr * udp_pcb)) : Prop :=
  match l with
  | [] => p = None
  | (q, u) :: l => p = Some q /\ m !! q = Some u /\ pcb_list m (pcb_next u) l
  end.
(** The active control blocks of the stack are [l], in this order. *)
Definition active (s : stack) (l : list (ptr * udp_pcb)) : Prop :=
  pcb_list (pcbs s) (udp_pcbs s) l /\ NoDup l.*1.

Lemma pcb_list_in m p l q u : pcb_list m p l -> (q, u) ∈ l -> m !! q = Some u.
Proof.
  revert p. induction l as [|[q' u'] l IH]; intros p; cbn [pcb_list]; [by intros _ ?%elem_of_nil|].
  intros (_ & Hq & Hl) [[= -> ->]|Hin]%elem_of_cons; [done|by eapply IH].
Qed.

Lemma pcb_list_frame m m' p l : (forall q, q ∈ l.*1 -> m' !! q = m !! q) -> pcb_list m p l -> pcb_list m' p l.
Proof.
  revert p. induction l as [|[q u] l IH]; intros p Hm; cbn [pcb_list fmap list_fmap fst]; [done|].
  intros (-> & Hq & Hl). cbn [fmap list_fmap fst] in Hm. split; [done|]. split.
  - rewrite Hm; [done|by left].
  - apply IH; [|done]. intros r Hr. apply Hm. by right.
Qed.

Lemma pcb_list_size m p l : pcb_list m p l -> NoDup l.*1 -> (length l <= size m)%nat.
Proof.
  intros Hl Hnd. rewrite <- (length_fmap fst l), <- size_dom.
  rewrite <- (size_list_to_set (C := gset ptr) l.*1) by done. apply subseteq_size.
  intros q. rewrite elem_of_list_to_set, list_elem_of_fmap. intros ([q' u] & -> & Hin).
  apply elem_of_dom. exists u. by apply (pcb_list_in _ _ _ _ _ Hl).
Qed.

Lemma active_fuel s l : active s l -> (S (length l) <= Pos.to_nat (Pos.succ (Pos.of_succ_nat (size (pcbs s)))))%nat.
Proof. intros [Hl Hnd]. pose proof (pcb_list_size _ _ _ Hl Hnd). lia. Qed.

(** A change of one control block, in the list. *)
Definition change (p : ptr) (f : udp_pcb -> udp_pcb) (l : list (ptr * udp_pcb)) : list (ptr * udp_pcb) :=
  (fun x => if decide (fst x = p) then (fst x, f (snd x)) else x) <$> l.

Lemma change_dom p f l : (change p f l).*1 = l.*1.
Proof. induction l as [|[q u] l IH]; [done|]. cbn. rewrite <- IH. f_equal. by case_decide. Qed.
Lemma change_other p f l : p ∉ l.*1 -> change p f l = l.
Proof.
  induction l as [|[q u] l IH]; [done|]. cbn [fmap list_fmap fst]. intros [Hp Hl]%not_elem_of_cons.
  unfold change in *. cbn [fmap list_fmap fst snd]. rewrite IH by done. by rewrite decide_False.
Qed.

Lemma pcb_list_change m p f first l u : (forall u, pcb_next (f u) = pcb_next u) -> m !! p = Some u ->
  pcb_list m first l -> pcb_list (<[p := f u]> m) first (change p f l).
Proof.
  intros Hf Hp. revert first. induction l as [|[q v] l IH]; intros first; [done|]. cbn [pcb_list].
  intros (-> & Hq & Hl). unfold change. cbn [fmap list_fmap fst snd]. destruct (decide (q = p)) as [->|Hne].
  - rewrite Hp in Hq. injection Hq as <-. cbn [pcb_list]. rewrite Hf. split; [done|].
    split; [by rewrite lookup_insert_eq|by apply IH].
  - cbn [pcb_list]. split; [done|]. split; [by rewrite lookup_insert_ne|by apply IH].
Qed.

Lemma active_change s l p f u : (forall u, pcb_next (f u) = pcb_next u) -> pcbs s !! p = Some u ->
  active s l -> active (set_pcbs (<[p := f u]> (pcbs s)) s) (change p f l).
Proof. intros Hf Hp [Hl Hnd]. split; [by apply pcb_list_change|by rewrite change_dom]. Qed.

Lemma active_push s l p u : pcbs s !! p = Some u -> p ∉ l.*1 -> active s l ->
  active (set_udp_pcbs (Some p) (set_pcbs (<[p := with_pcb_next (udp_pcbs s) u]> (pcbs s)) s))
    ((p, with_pcb_next (udp_pcbs s) u) :: l).
Proof.
  intros Hp Hn [Hl Hnd]. split.
  - cbn [pcb_list udp_pcbs set_udp_pcbs pcbs set_pcbs]. split; [done|]. split; [apply lookup_insert_eq|].
    eapply pcb_list_frame; [|exact Hl]. intros q Hq. apply lookup_insert_ne. by intros <-.
  - by apply NoDup_cons_2.
Qed.

(** * Binding *)
Section binding.
Context {W : Type} `{StackLaws W}.
Implicit Types (s : stack) (w : W).

Lemma wp_on_list p s l w (Q : bool -> W -> Prop) : active s l ->
  Q (bool_decide (p ∈ l.*1)) (put_stack s w) -> wp (on_list p) Q (put_stack s w).
Proof.
  intros Ha HQ. apply wp_bind, wp_gets_stack, wp_bind, wp_gets_stack.
  apply (wp_loop_nat (S (length l))); [by apply active_fuel|]. destruct Ha as [Hl _].
  assert (forall found, wp (iter_nat (S (length l)) (on_list_body p) (udp_pcbs s, found))
    (ends (fun b w' => b = (found || bool_decide (p ∈ l.*1))%bool /\ w' = put_stack s w)) (put_stack s w)) as Hw.
  { clear HQ. revert Hl. generalize (udp_pcbs s). induction l as [|[q u] l IH]; intros first Hl found; apply wp_iter_S.
    - cbn [pcb_list] in Hl. subst first. apply wp_ret. rewrite bool_decide_eq_false_2 by apply not_elem_of_nil.
      by rewrite orb_false_r.
    - destruct Hl as (-> & Hq & Hl). cbn [on_list_body]. apply wp_bind, (wp_get_pcb _ u); [done|]. apply wp_ret.
      eapply wp_mono; [by apply IH|]. intros [?|b] w' Hb; [done|]. destruct Hb as [-> ->]. split; [|done].
      cbn [fmap list_fmap fst]. destruct (decide (q = p)) as [->|Hne].
      + rewrite (bool_decide_eq_true_2 (p = p)), (bool_decide_eq_true_2 (p ∈ p :: _)) by (done || by left).
        by rewrite !orb_true_r.
      + rewrite (bool_decide_eq_false_2 (q = p)) by done. f_equal. apply bool_decide_ext. rewrite elem_of_cons. naive_solver. }
  eapply wp_mono; [apply Hw|]. intros [?|b] w' Hb; [done|]. by destruct Hb as [-> ->].
Qed.

(** ** The search for a free port *)
Definition ports (l : list (ptr * udp_pcb)) : list Z := (fun x => local_port (snd x)) <$> l.

(** The lowest port of the range that no control block has; [None] when all are
    taken. *)
Definition lowest_free (l : list (ptr * udp_pcb)) (r : option Z) : Prop :=
  match r with
  | Some p => UDP_LOCAL_PORT_RANGE_START <= p < UDP_LOCAL_PORT_RANGE_END /\ p ∉ ports l /\
      forall q, UDP_LOCAL_PORT_RANGE_START <= q < p -> q ∈ ports l
  | None => forall q, UDP_LOCAL_PORT_RANGE_START <= q < UDP_LOCAL_PORT_RANGE_END -> q ∈ ports l
  end.

(** As many ports as are taken without a gap, there are control blocks. *)
Lemma taken_ports l n : 0 <= n ->
  (forall q, UDP_LOCAL_PORT_RANGE_START <= q < UDP_LOCAL_PORT_RANGE_START + n -> q ∈ ports l) ->
  n <= Z.of_nat (length l).
Proof.
  intros Hn Hq. assert (seqZ UDP_LOCAL_PORT_RANGE_START n ⊆+ ports l) as Hs.
  { apply NoDup_submseteq; [apply NoDup_seqZ|]. intros q Hin%elem_of_seqZ. apply Hq. lia. }
  apply submseteq_length in Hs. rewrite length_seqZ in Hs. unfold ports in Hs. rewrite length_fmap in Hs. lia.
Qed.

Lemma wp_search_port s l w n : pcb_list (pcbs s) (udp_pcbs s) l ->
  forall l1 l2 ipcb port, l = l1 ++ l2 -> pcb_list (pcbs s) ipcb l2 -> 4096 <= port <= 0x7fff ->
  (forall q, 4096 <= q < port -> q ∈ ports l) -> port ∉ ports l1 -> (port = 0x7fff -> l1 = []) ->
  (Z.of_nat (length l) - (port - 4096)) * (Z.of_nat (length l) + 1) + Z.of_nat (length l2) < Z.of_nat n ->
  wp (iter_nat n free_port_body (ipcb, port)) (ends (fun (r : option ptr * Z) w' => w' = put_stack s w /\
    lowest_free l (match fst r with Some _ => None | None => Some (snd r) end))) (put_stack s w).
Proof.
  intros Hl. induction n as [|n IH]; intros l1 l2 ipcb port -> Hl2 Hport Htaken Hn1 Hend Hmu.
  { pose proof (taken_ports (l1 ++ l2) (port - 4096)) as Ht. change UDP_LOCAL_PORT_RANGE_START with 4096 in Ht.
    assert (port - 4096 <= Z.of_nat (length (l1 ++ l2))) by (apply Ht; [lia|intros q Hq; apply Htaken; lia]). nia. }
  apply wp_iter_S. cbn [free_port_body]. destruct l2 as [|[q u] l2].
  - cbn [pcb_list] in Hl2. subst ipcb. apply wp_ret. split; [done|]. cbn [fst snd lowest_free]. rewrite app_nil_r in *.
    assert (port <> 0x7fff) by (intros ->; rewrite (Hend eq_refl) in Htaken; by apply (not_elem_of_nil 4096), Htaken).
    change UDP_LOCAL_PORT_RANGE_START with 4096. change UDP_LOCAL_PORT_RANGE_END with 0x7fff. split; [lia|done].
  - destruct Hl2 as (-> & Hq & Hl2). change UDP_LOCAL_PORT_RANGE_END with 0x7fff.
    destruct (Z.eqb_spec port 0x7fff) as [->|Hne]; cbn [negb].
    + apply wp_ret. split; [done|]. exact Htaken.
    + apply wp_bind, (wp_get_pcb _ u); [done|]. unfold ports in Hn1.
      destruct (Z.eqb_spec (local_port u) port) as [Hu|Hu].
      * apply wp_bind, wp_gets_stack, wp_ret. rewrite u16_small by lia.
        assert (Hport' : port ∈ ports (l1 ++ (q, u) :: l2)).
        { apply list_elem_of_fmap. exists (q, u). split; [done|]. apply elem_of_app. right. by left. }
        assert (Htaken' : forall r, 4096 <= r < port + 1 -> r ∈ ports (l1 ++ (q, u) :: l2)).
        { intros r Hr. destruct (Z.eq_dec r port) as [->|]; [done|apply Htaken; lia]. }
        apply (IH [] (l1 ++ (q, u) :: l2)); [done|done|lia|done|apply not_elem_of_nil|done|].
        rewrite !length_app in *. cbn [length] in *. nia.
      * apply wp_ret. apply (IH (l1 ++ [(q, u)]) l2); [by rewrite <- app_assoc|done|lia|done| |lia|].
        -- unfold ports. rewrite fmap_app. intros [?|Hin]%elem_of_app; [done|].
           apply list_elem_of_singleton in Hin. by cbn in Hin.
        -- cbn [length] in Hmu. lia.
Qed.

Lemma wp_free_port s l w (Q : option Z -> W -> Prop) : active s l ->
  (forall r, lowest_free l r -> Q r (put_stack s w)) -> wp free_port Q (put_stack s w).
Proof.
  intros [Hl Hnd] HQ. pose proof (pcb_list_size _ _ _ Hl Hnd) as Hsize.
  apply wp_bind, wp_gets_stack, wp_bind, wp_gets_stack, wp_bind. change UDP_LOCAL_PORT_RANGE_START with 4096.
  apply (wp_loop_nat (S (length l) * S (length l))).
  { cbv zeta. rewrite Pos2Nat.inj_mul, Pos2Nat.inj_succ, SuccNat2Pos.id_succ. nia. }
  eapply wp_mono; [apply (wp_search_port s l w _ Hl [] l)|];
    [done|done|lia|lia|apply not_elem_of_nil|done|nia|].
  intros [?|[ipcb port]] w' Hr; [done|]. destruct Hr as [-> Hr]. apply wp_ret. by apply HQ.
Qed.

(** ** udp_bind *)

(** The control block [u] bound to [port], in a list where it may be already. *)
Definition bound (p : ptr) (addr port : Z) (s : stack) (l : list (ptr * udp_pcb)) (s' : stack) (l' : list (ptr * udp_pcb)) : Prop :=
  let f u := with_local_port port (with_local_ip addr u) in
  if decide (p ∈ l.*1) then l' = change p f l /\ udp_pcbs s' = udp_pcbs s
  else exists u, pcbs s !! p = Some u /\ l' = (p, with_pcb_next (udp_pcbs s) (f u)) :: l.

Lemma change_change p f g l : change p f (change p g l) = change p (fun u => f (g u)) l.
Proof.
  unfold change. rewrite <- list_fmap_compose. apply list_fmap_ext. intros i [q u] _. cbn.
  destruct (decide (q = p)) as [->|Hne]; cbn; [by rewrite decide_True|by rewrite decide_False].
Qed.
Lemma change_ports p f l : (forall u, local_port (f u) = local_port u) -> ports (change p f l) = ports l.
Proof.
  intros Hf. unfold ports, change. rewrite <- list_fmap_compose. apply list_fmap_ext. intros i [q u] _. cbn.
  by case_decide; cbn.
Qed.

Lemma wp_push s l p u w (Q : unit -> W -> Prop) : active s l -> pcbs s !! p = Some u -> p ∉ l.*1 ->
  (forall s', active s' ((p, with_pcb_next (udp_pcbs s) u) :: l) ->
    s' = set_udp_pcbs (Some p) (set_pcbs (<[p := with_pcb_next (udp_pcbs s) u]> (pcbs s)) s) -> Q tt (put_stack s' w)) ->
  wp (push_pcb p) Q (put_stack s w).
Proof.
  intros Ha Hp Hn HQ. apply wp_bind, wp_gets_stack, wp_bind, (wp_upd_pcb _ _ u); [done|].
  apply wp_mod_stack. apply HQ; [|done]. by apply active_push.
Qed.

(** udp_bind with [length l] control blocks active, fewer than there are
    ports to choose from: it always answers ERR_OK, and the control block is then
    on the list, exactly once, with the address and the port asked for; for port 0
    it is the lowest one from 4096 up that no active control block has.  The other
    control blocks do not change. *)
Theorem udp_bind_binds s l w p u (ipaddr : option Z) (port : Z) :
  active s l -> pcbs s !! p = Some u -> Z.of_nat (length l) < UDP_LOCAL_PORT_RANGE_END - UDP_LOCAL_PORT_RANGE_START ->
  wp (udp_bind p ipaddr port) (fun r w' => r = ERR_OK /\ exists port' s' l',
    (if port =? 0 then lowest_free l (Some port') else port' = port) /\
    w' = put_stack s' w /\ active s' l' /\ bound p (ip_addr_set ipaddr) port' s l s' l' /\
    forall q, q <> p -> pcbs s' !! q = pcbs s !! q) (put_stack s w).
Proof.
  intros Ha Hp Hlen. apply wp_bind, (wp_on_list _ _ l); [done|].
  apply wp_bind, (wp_upd_pcb _ _ u); [done|]. set (s1 := set_pcbs _ s).
  assert (Ha1 : active s1 (change p (with_local_ip (ip_addr_set ipaddr)) l)) by (by apply active_change).
  assert (Hp1 : pcbs s1 !! p = Some (with_local_ip (ip_addr_set ipaddr) u)) by apply lookup_insert_eq.
  assert (Hrest : forall port', (if port =? 0 then lowest_free l (Some port') else port' = port) ->
    wp (_ ← upd_pcb p (with_local_port port');
        _ ← (if bool_decide (p ∈ l.*1) then mret tt else push_pcb p); mret ERR_OK) (fun r w' => r = ERR_OK /\ exists port' s' l',
    (if port =? 0 then lowest_free l (Some port') else port' = port) /\
    w' = put_stack s' w /\ active s' l' /\ bound p (ip_addr_set ipaddr) port' s l s' l' /\
    forall q, q <> p -> pcbs s' !! q = pcbs s !! q) (put_stack s1 w)).
  { intros port' Hport'. apply wp_bind, (wp_upd_pcb _ _ (with_local_ip (ip_addr_set ipaddr) u)); [done|].
    set (s2 := set_pcbs _ s1).
    assert (Ha2 : active s2 (change p (fun u => with_local_port port' (with_local_ip (ip_addr_set ipaddr) u)) l)).
    { rewrite <- (change_change p (with_local_port port')). by apply active_change. }
    assert (Hframe : forall q, q <> p -> pcbs s2 !! q = pcbs s !! q).
    { intros q Hq. cbn. by rewrite !lookup_insert_ne. }
    apply wp_bind. destruct (decide (p ∈ l.*1)) as [Hin|Hin].
    - rewrite bool_decide_eq_true_2 by done. apply wp_ret, wp_ret. split; [done|]. exists port', s2. eexists.
      split; [done|]. split; [done|]. split; [exact Ha2|]. split; [|done]. unfold bound. rewrite decide_True by done. done.
    - rewrite bool_decide_eq_false_2 by done.
      rewrite change_other in Ha2 by done.
      apply (wp_push _ l _ (with_local_port port' (with_local_ip (ip_addr_set ipaddr) u))); [done|apply lookup_insert_eq|done|].
      intros s' Ha' ->. apply wp_ret. split; [done|]. eexists port', _, _.
      split; [done|]. split; [done|]. split; [exact Ha'|]. split.
      + unfold bound. rewrite decide_False by done. by exists u.
      + intros q Hq. cbn. rewrite lookup_insert_ne by done. by apply Hframe. }
  destruct (Z.eqb_spec port 0) as [->|Hne].
  - apply wp_bind, (wp_free_port _ (change p (with_local_ip (ip_addr_set ipaddr)) l)); [done|].
    assert (Hports : ports (change p (with_local_ip (ip_addr_set ipaddr)) l) = ports l) by by apply change_ports.
    intros [port'|] Hfree.
    + apply Hrest. unfold lowest_free in *. by rewrite Hports in Hfree.
    + exfalso. unfold lowest_free in Hfree. rewrite Hports in Hfree.
      pose proof (taken_ports l (UDP_LOCAL_PORT_RANGE_END - UDP_LOCAL_PORT_RANGE_START)) as Ht.
      enough (UDP_LOCAL_PORT_RANGE_END - UDP_LOCAL_PORT_RANGE_START <= Z.of_nat (length l)) by lia.
      apply Ht; [done|]. intros q Hq. apply Hfree. lia.
  - apply wp_bind, wp_ret. by apply Hrest.
Qed.
End binding.

(** Two control blocks: [demo_q] listens on port 4096, [demo_p] is new. *)
Definition demo_p : ptr := InPool MEMP_UDP_PCB 0.
Definition demo_q : ptr := InPool MEMP_UDP_PCB 1.
Definition on_port (n : Z) : udp_pcb := with_local_port n (with_ttl 255 udp_pcb_zero).
Definition bind_stack (n : net) : stack :=
  set_udp_pcbs (Some demo_q) (set_pcbs (<[demo_p := on_port 0]> (<[demo_q := on_port 4096]> ∅)) (stack_zero n ∅)).

Lemma udp_bind_binds_witness (n : net := Net (Heap (fun _ => 0) 0) (fun _ => []) (fun _ _ _ => 0) ∅) :
  wp (udp_bind demo_p None 0) (fun r w' => r = ERR_OK /\ exists port' s' l',
    lowest_free [(demo_q, on_port 4096)] (Some port') /\
    w' = put_stack s' (bind_stack n) /\ active s' l' /\ bound demo_p 0 port' (bind_stack n) [(demo_q, on_port 4096)] s' l' /\
    forall q, q <> demo_p -> pcbs s' !! q = pcbs (bind_stack n) !! q) (put_stack (bind_stack n) (bind_stack n)).
Proof.
  apply (udp_bind_binds (bind_stack n) [(demo_q, on_port 4096)] (bind_stack n) demo_p (on_port 0) None 0).
  - split; [by repeat split|]. apply NoDup_singleton.
  - reflexivity.
  - vm_compute. reflexivity.
Defined.

(** * Delivery *)

(** The order of preference of udp_input: the first control block that takes the
    destination and is connected to the sender, and else the first one that takes
    the destination and is not connected. *)
Section demux.
Context (dest dest_ip src src_ip : Z) (broadcast : bool).
Definition perfect (x : ptr * udp_pcb) : bool :=
  local_match (snd x) dest dest_ip broadcast && remote_match (snd x) src src_ip.
Definition listens (x : ptr * udp_pcb) : bool :=
  local_match (snd x) dest dest_ip broadcast && (Z.land (pcb_flags (snd x)) UDP_FLAGS_CONNECTED =? 0).
Definition receiver (l : list (ptr * udp_pcb)) : option ptr :=
  match List.find perfect l with
  | Some x => Some (fst x)
  | None => option_map fst (List.find listens l)
  end.
(** The list afterwards, but for the links: a connected receiver is in front. *)
Definition reordered (l : list (ptr * udp_pcb)) : list (ptr * udp_pcb) :=
  match List.find perfect l with
  | Some x => x :: List.filter (fun y => bool_decide (fst y <> fst x)) l
  | None => l
  end.
Definition unlinked (x : ptr * udp_pcb) : ptr * udp_pcb := (fst x, with_pcb_next None (snd x)).

Lemma filter_others (x : ptr * udp_pcb) (l : list (ptr * udp_pcb)) : fst x ∉ l.*1 -> List.filter (fun y => bool_decide (fst y <> fst x)) l = l.
Proof.
  induction l as [|y l IH]; [done|]. cbn [fmap list_fmap List.filter]. intros [Hy Hl]%not_elem_of_cons.
  rewrite bool_decide_eq_true_2 by done. by rewrite IH.
Qed.
Lemma filter_split (x : ptr * udp_pcb) (l1 l2 : list (ptr * udp_pcb)) : NoDup (l1 ++ x :: l2).*1 ->
  List.filter (fun y => bool_decide (fst y <> fst x)) (l1 ++ x :: l2) = l1 ++ l2.
Proof.
  rewrite fmap_app. cbn [fmap list_fmap]. intros (_ & Hd & Hx)%list.NoDup_app. apply nodup_cons in Hx as [Hx _].
  rewrite List.filter_app. cbn [List.filter]. rewrite bool_decide_eq_false_2 by naive_solver.
  rewrite !filter_others; [done|done|]. intros Hin. apply (Hd _ Hin). by left.
Qed.
Lemma find_skip (f : ptr * udp_pcb -> bool) l1 l2 : List.find f l1 = None -> List.find f (l1 ++ l2) = List.find f l2.
Proof. induction l1 as [|x l1 IH]; [done|]. cbn. destruct (f x); [done|apply IH]. Qed.
Lemma find_snoc (f : ptr * udp_pcb -> bool) l1 x :
  List.find f (l1 ++ [x]) = match List.find f l1 with Some y => Some y | None => if f x then Some x else None end.
Proof. induction l1 as [|y l1 IH]; [done|]. cbn. by destruct (f y). Qed.

(** Only the control blocks and their list may change. *)
Definition only_pcbs (s s' : stack) : Prop := exists p m, s' = set_udp_pcbs p (set_pcbs m s).
Lemma only_pcbs_refl s : only_pcbs s s.
Proof. exists (udp_pcbs s), (pcbs s). by destruct s. Qed.

Section demux_walk.
Context {W : Type} `{StackLaws W}.

(** Moving a control block from behind [r] to the front. *)
Lemma wp_move_to_front s w l1 r ur q u l2 (l := l1 ++ (r, ur) :: (q, u) :: l2) (Q : unit -> W -> Prop) :
  active s l ->
  (forall s' l', active s' l' -> only_pcbs s s' -> map unlinked l' = map unlinked ((q, u) :: l1 ++ (r, ur) :: l2) -> Q tt (put_stack s' w)) ->
  wp (move_to_front r q) Q (put_stack s w).
Proof.
  intros [Hl Hnd] HQ. pose proof Hnd as Hnd'. unfold l in Hnd'. rewrite fmap_app in Hnd'. cbn [fmap list_fmap fst] in Hnd'.
  apply list.NoDup_app in Hnd' as (Hnd1 & Hdis & Hnd2). apply nodup_cons in Hnd2 as [Hr Hnd2].
  apply nodup_cons in Hnd2 as [Hq Hnd2]. apply not_elem_of_cons in Hr as [Hrq Hr].
  assert (Hqm : pcbs s !! q = Some u) by (eapply pcb_list_in; [exact Hl|]; apply elem_of_app; right; right; by left).
  assert (Hrm : pcbs s !! r = Some ur) by (eapply pcb_list_in; [exact Hl|]; apply elem_of_app; right; by left).
  apply wp_bind, (wp_get_pcb _ u); [done|]. apply wp_bind, (wp_upd_pcb _ _ ur); [done|].
  apply wp_bind, wp_gets_stack. apply wp_bind, (wp_upd_pcb _ _ u); [cbn; by rewrite lookup_insert_ne|].
  apply wp_mod_stack. cbn [udp_pcbs pcbs set_pcbs].
  apply (HQ _ ((q, with_pcb_next (udp_pcbs s) u) :: l1 ++ (r, with_pcb_next (pcb_next u) ur) :: l2)).
  2: { by eexists _, _. }
  2: { cbn [map]. by rewrite !map_app. }
  split.
  - cbn [pcb_list udp_pcbs set_udp_pcbs pcbs set_pcbs pcb_next with_pcb_next]. split; [done|].
    split; [apply lookup_insert_eq|]. unfold l in Hl. clear HQ Hnd l.
    assert (forall p, pcb_list (pcbs s) p (l1 ++ (r, ur) :: (q, u) :: l2) ->
      pcb_list (<[q:=with_pcb_next (udp_pcbs s) u]> (<[r:=with_pcb_next (pcb_next u) ur]> (pcbs s))) p
        (l1 ++ (r, with_pcb_next (pcb_next u) ur) :: l2)) as Hgen; [|by apply Hgen].
    clear Hl. induction l1 as [|[a ua] l1 IH]; intros p; cbn [app pcb_list].
    + intros (-> & _ & _ & _ & Hl2). split; [done|]. split.
      * rewrite lookup_insert_ne by done. apply lookup_insert_eq.
      * cbn [pcb_next with_pcb_next]. eapply pcb_list_frame; [|exact Hl2]. intros x Hx.
        rewrite !lookup_insert_ne; [done| |]; by intros <-.
    + intros (-> & Ha & Hl). cbn [fmap list_fmap fst] in Hnd1, Hdis. apply nodup_cons in Hnd1 as [Ha1 Hnd1].
      split; [done|]. split.
      * rewrite !lookup_insert_ne; [done| |]; intros <-; apply (Hdis _ (list_elem_of_here _ _));
          [by left|right; by left].
      * apply IH; [done| |done]. intros x Hx. apply Hdis. by right.
  - cbn [fmap list_fmap fst]. rewrite fmap_app. cbn [fmap list_fmap fst]. apply NoDup_cons_2.
    + intros [Hin|[->|Hin]%elem_of_cons]%elem_of_app; [|done|done]. apply (Hdis _ Hin). right. by left.
    + apply list.NoDup_app. split; [done|]. split; [|by apply NoDup_cons_2]. intros x Hx [->|Hin]%elem_of_cons.
      * apply (Hdis _ Hx). by left.
      * apply (Hdis _ Hx). right. by right.
Qed.

Lemma wp_demux_loop s w l : active s l -> forall l2 l1 pcb, l = l1 ++ l2 -> pcb_list (pcbs s) pcb l2 ->
  List.find perfect l1 = None ->
  wp (iter_nat (S (length l2)) (demux_body dest dest_ip src src_ip broadcast)
       (pcb, option_map fst (list.last l1), option_map fst (List.find listens l1)))
    (ends (fun (r : option ptr) w' => r = receiver l /\ exists s' l', w' = put_stack s' w /\ active s' l' /\ only_pcbs s s' /\
       map unlinked l' = map unlinked (reordered l))) (put_stack s w).
Proof.
  intros Ha. induction l2 as [|[q u] l2 IH]; intros l1 pcb -> Hl2 Hnone; apply wp_iter_S; cbn [demux_body].
  - cbn [pcb_list] in Hl2. subst pcb. apply wp_ret. rewrite app_nil_r in *. unfold receiver, reordered.
    rewrite Hnone. split; [done|]. exists s, l1. split; [done|]. split; [done|]. split; [apply only_pcbs_refl|done].
  - destruct Hl2 as (-> & Hq & Hl2). apply wp_bind, (wp_get_pcb _ u); [done|]. cbv zeta.
    fold (perfect (q, u)). change (local_match u dest dest_ip broadcast && remote_match u src src_ip) with (perfect (q, u)).
    destruct (perfect (q, u)) eqn:Hperf.
    + assert (Hfind : List.find perfect (l1 ++ (q, u) :: l2) = Some (q, u)).
      { rewrite find_skip by done. cbn [List.find]. by rewrite Hperf. }
      unfold receiver, reordered. rewrite Hfind, (filter_split (q, u)) by apply Ha. apply wp_bind.
      destruct l1 as [|[r ur] l1 _] using rev_ind.
      * cbn [list.last option_map]. apply wp_ret, wp_ret. split; [done|]. eexists s, _. split; [done|]. split; [exact Ha|]. split; [apply only_pcbs_refl|done].
      * rewrite last_snoc. cbn [option_map fst]. rewrite <- !app_assoc in *. cbn [app] in *.
        apply (wp_move_to_front _ _ _ _ _ _ _ _ _ Ha). intros s' l' Ha' Hs' Hl'. apply wp_ret.
        split; [done|]. by exists s', l'.
    + apply wp_ret. replace (if local_match u dest dest_ip broadcast && bool_decide (option_map fst (List.find listens l1) = None)
          && (Z.land (pcb_flags u) UDP_FLAGS_CONNECTED =? 0) then Some q else option_map fst (List.find listens l1))
        with (option_map fst (List.find listens (l1 ++ [(q, u)]))).
      2: { rewrite find_snoc. unfold listens at 2. cbn [snd]. destruct (List.find listens l1) as [x|]; cbn [option_map].
           - rewrite bool_decide_eq_false_2 by done. by rewrite andb_false_r.
           - rewrite bool_decide_eq_true_2, andb_true_r by done. by destruct (_ && _). }
      replace (Some q) with (option_map fst (list.last (l1 ++ [(q, u)]))) by by rewrite last_snoc.
      apply (IH (l1 ++ [(q, u)])); [by rewrite <- app_assoc|done|]. rewrite find_snoc, Hnone. by rewrite Hperf.
Qed.

Lemma wp_udp_demux s w l (f : netif) (Q : option ptr -> W -> Prop) : active s l -> dest <> DHCP_CLIENT_PORT ->
  (forall s' l', active s' l' -> only_pcbs s s' -> map unlinked l' = map unlinked (reordered l) -> Q (receiver l) (put_stack s' w)) ->
  wp (udp_demux dest dest_ip src src_ip broadcast f) Q (put_stack s w).
Proof.
  intros Ha Hdest HQ. unfold udp_demux. rewrite (proj2 (Z.eqb_neq _ _)) by done.
  apply wp_bind, wp_gets_stack, wp_bind, wp_gets_stack.
  apply (wp_loop_nat (S (length l))); [by apply active_fuel|].
  eapply wp_mono; [by apply (wp_demux_loop s w l Ha l []); [|apply Ha|]|].
  intros [?|r] w' Hr; [done|]. destruct Hr as (-> & s' & l' & -> & Ha' & Hs' & Hl'). by apply (HQ s' l').
Qed.

(** C36. The delivery of a datagram refines its order of preference: udp_input
    hands it to the first active control block that takes the destination and is
    connected to the sender, or else to the first unconnected one that takes the
    destination, or to none; and it leaves the same control blocks active, in the
    same order but for a connected receiver, which is moved to the front; nothing else
    of the stack changes.  A control block counts as connected to the sender by port and
    address, as [remote_match] compares them; port 68, that of DHCP, is left out. *)
Theorem udp_demux_refines s w l (f : netif) : active s l -> dest <> DHCP_CLIENT_PORT ->
  wp (udp_demux dest dest_ip src src_ip broadcast f) (fun r w' => r = receiver l /\
    exists s' l', w' = put_stack s' w /\ active s' l' /\ only_pcbs s s' /\ map unlinked l' = map unlinked (reordered l)) (put_stack s w).
Proof.
  intros Ha Hdest. apply (wp_udp_demux _ _ l); [done|done|]. intros s' l' Ha' Hs' Hl'.
  split; [done|]. by exists s', l'.
Qed.
End demux_walk.
End demux.

(** Of a listener, a control block connected elsewhere and one connected to the
    sender, the last one gets the datagram. *)
Definition demo_r : ptr := InPool MEMP_UDP_PCB 2.
Definition demo_pcbs : list (ptr * udp_pcb) :=
  [(demo_p, with_pcb_next (Some demo_q) (on_port 7));
   (demo_q, with_pcb_next (Some demo_r) (with_remote_port 9 (with_pcb_flags 4 (on_port 7))));
   (demo_r, with_remote_port 8 (with_pcb_flags 4 (on_port 7)))].
Definition demux_stack (n : net) : stack :=
  set_udp_pcbs (Some demo_p) (set_pcbs (list_to_map demo_pcbs) (stack_zero n ∅)).

Lemma udp_demux_refines_witness (n : net := Net (Heap (fun _ => 0) 0) (fun _ => []) (fun _ _ _ => 0) ∅) :
  wp (udp_demux 7 1 8 2 false netif_zero) (fun r w' => r = receiver 7 1 8 2 false demo_pcbs /\
    exists s' l', w' = put_stack s' (demux_stack n) /\ active s' l' /\ only_pcbs (demux_stack n) s' /\
      map unlinked l' = map unlinked (reordered 7 1 8 2 false demo_pcbs)) (put_stack (demux_stack n) (demux_stack n)).
Proof.
  apply (udp_demux_refines 7 1 8 2 false (demux_stack n) (demux_stack n) demo_pcbs netif_zero).
  - split; [by repeat split|]. apply (bool_decide_unpack (NoDup demo_pcbs.*1)). reflexivity.
  - vm_compute. discriminate.
Defined.
Example demux_prefers_connection :
  (receiver 7 1 8 2 false demo_pcbs, receiver 7 1 5 2 false demo_pcbs, receiver 6 1 8 2 false demo_pcbs) =
  (Some demo_r, Some demo_p, None).
Proof. reflexivity. Qed.

Section opening.
Context {W : Type} `{StackLaws W}.
Implicit Types (s : stack) (w : W).

(** A control block as udp_new makes it. *)
Definition new_pcb : udp_pcb := with_ttl UDP_TTL udp_pcb_zero.
(** The stack without the first free control block of the pool, which is [p]. *)
Definition pcb_taken (fr : list nat) (p : ptr) (s : stack) : stack :=
  set_pcbs (<[p := new_pcb]> (pcbs s)) (set_net (set_tab MEMP_UDP_PCB fr (s_net s)) s).

Lemma wp_udp_new s w (Q : option ptr -> W -> Prop) :
  match memp_tab (s_net s) MEMP_UDP_PCB with
  | [] => Q None (put_stack s w)
  | i :: fr => Q (Some (InPool MEMP_UDP_PCB i)) (put_stack (pcb_taken fr (InPool MEMP_UDP_PCB i) s) w)
  end -> wp udp_new Q (put_stack s w).
Proof.
  intros HQ. apply wp_bind, wp_on_net, wp_memp_malloc. destruct (memp_tab (s_net s) MEMP_UDP_PCB) as [|i fr].
  - apply wp_ret. by destruct s.
  - by apply wp_bind, wp_put_pcb, wp_ret.
Qed.

(** Binding a control block that is not on the list to a port of one's own. *)
Lemma wp_udp_bind_new s l w p u a port (Q : Z -> W -> Prop) :
  let u' := with_pcb_next (udp_pcbs s) (with_local_port port (with_local_ip a u)) in
  let s' := set_udp_pcbs (Some p) (set_pcbs (<[p := u']> (pcbs s)) s) in
  active s l -> pcbs s !! p = Some u -> p ∉ l.*1 -> port <> 0 ->
  (active s' ((p, u') :: l) -> Q ERR_OK (put_stack s' w)) -> wp (udp_bind p (Some a) port) Q (put_stack s w).
Proof.
  cbv zeta. intros Ha Hp Hn Hport HQ. apply wp_bind, (wp_on_list _ _ l); [done|]. rewrite bool_decide_eq_false_2 by done.
  apply wp_bind, (wp_upd_pcb _ _ u); [done|]. rewrite (proj2 (Z.eqb_neq _ _)) by done. apply wp_bind, wp_ret.
  apply wp_bind. eapply wp_upd_pcb; [apply lookup_insert_eq|]. cbn [pcbs set_pcbs]. rewrite insert_insert_eq.
  set (v := with_local_port port _). assert (Hv : active (set_pcbs (<[p := v]> (pcbs s)) s) l).
  { destruct Ha as [Hl Hnd]. split; [|done]. eapply pcb_list_frame; [|exact Hl]. intros q Hq. apply lookup_insert_ne. by intros <-. }
  apply wp_bind, (wp_push _ l _ v); [done|apply lookup_insert_eq|done|]. intros s' Ha' ->. apply wp_ret.
  cbn [pcbs set_pcbs udp_pcbs] in *. rewrite insert_insert_eq in *. by apply HQ.
Qed.

Lemma wp_connected s l w p (Q : bool -> W -> Prop) : active s l -> p ∈ l.*1 -> Q true (put_stack s w) ->
  wp (loop (Pos.succ (Pos.of_succ_nat (size (pcbs s)))) (connected_body p) (udp_pcbs s)) Q (put_stack s w).
Proof.
  intros Ha Hin HQ. apply (wp_loop_nat (S (length l))); [by apply active_fuel|]. destruct Ha as [Hl _].
  revert Hl. generalize (udp_pcbs s) as first. induction l as [|[q u] l IH]; intros first Hl; [by apply elem_of_nil in Hin|].
  apply wp_iter_S. destruct Hl as (-> & Hq & Hl). cbn [connected_body]. case_bool_decide as E; [by apply wp_ret|].
  apply wp_bind, (wp_get_pcb _ u); [done|]. apply wp_ret. apply IH; [|done]. by apply elem_of_cons in Hin as [->|Hin].
Qed.

(** Connecting a control block that is bound. *)
Definition connected (a port : Z) (u : udp_pcb) : udp_pcb :=
  with_pcb_flags (Z.lor (pcb_flags u) UDP_FLAGS_CONNECTED) (with_remote_port port (with_remote_ip a u)).
Lemma wp_udp_connect_bound s l w p u a port (Q : Z -> W -> Prop) :
  let s' := set_pcbs (<[p := connected a port u]> (pcbs s)) s in
  active s l -> pcbs s !! p = Some u -> p ∈ l.*1 -> local_port u <> 0 ->
  (active s' (change p (connected a port) l) -> Q ERR_OK (put_stack s' w)) -> wp (udp_connect p (Some a) port) Q (put_stack s w).
Proof.
  cbv zeta. intros Ha Hp Hin Hport HQ. apply wp_bind, (wp_get_pcb _ u); [done|].
  rewrite (proj2 (Z.eqb_neq _ _)) by done. apply wp_bind, wp_ret. cbn [negb]. change (ERR_OK =? ERR_OK) with true. cbn [negb].
  apply wp_bind, (wp_upd_pcb _ _ u); [done|]. fold (connected a port u).
  assert (Ha' : active (set_pcbs (<[p := connected a port u]> (pcbs s)) s) (change p (connected a port) l)) by by apply active_change.
  apply wp_bind, wp_gets_stack, wp_bind, wp_gets_stack, wp_bind, (wp_connected _ _ _ _ _ Ha'); [by rewrite change_dom|].
  apply wp_bind, wp_ret, wp_ret. by apply HQ.
Qed.

Lemma wp_udp_recv s w p u f arg (Q : unit -> W -> Prop) : pcbs s !! p = Some u ->
  Q tt (put_stack (set_pcbs (<[p := with_recv f arg u]> (pcbs s)) s) w) -> wp (udp_recv p f arg) Q (put_stack s w).
Proof. intros Hp HQ. by apply (wp_upd_pcb _ _ u). Qed.

(** ** udp_remove *)
Lemma next_not m u l p : pcb_list m (pcb_next u) l -> p ∉ l.*1 -> bool_decide (pcb_next u = Some p) = false.
Proof.
  intros Hl Hp. apply bool_decide_eq_false. destruct l as [|[r v] l]; cbn [pcb_list] in Hl.
  - by rewrite Hl.
  - destruct Hl as [-> _]. intros [= ->]. apply Hp. by left.
Qed.
(** The walk past the control block, or without it, changes nothing. *)
Lemma wp_unlink_tail s w p (Q : unit -> W -> Prop) l : forall first, pcb_list (pcbs s) first l -> p ∉ l.*1 ->
  Q tt (put_stack s w) -> wp (iter_nat (S (length l)) (udp_unlink_body p) first) (ends Q) (put_stack s w).
Proof.
  induction l as [|[q u] l IH]; intros first Hl Hp HQ; apply wp_iter_S; cbn [pcb_list] in Hl.
  - subst first. by apply wp_ret.
  - destruct Hl as (-> & Hq & Hl). cbn [fmap list_fmap fst] in Hp. apply not_elem_of_cons in Hp as [_ Hp].
    cbn [udp_unlink_body]. apply wp_bind, (wp_get_pcb _ u); [done|]. rewrite (next_not _ _ _ _ Hl Hp).
    apply wp_bind, wp_ret, wp_bind, (wp_get_pcb _ u); [done|]. apply wp_ret. by apply IH.
Qed.
Lemma wp_unlink s w r ur p u l2 (Q : unit -> W -> Prop) (m := <[r := with_pcb_next (pcb_next u) ur]> (pcbs s)) : forall l1 first,
  pcb_list (pcbs s) first (l1 ++ (r, ur) :: (p, u) :: l2) -> NoDup (l1 ++ (r, ur) :: (p, u) :: l2).*1 ->
  Q tt (put_stack (set_pcbs m s) w) ->
  wp (iter_nat (S (length (l1 ++ (r, ur) :: l2))) (udp_unlink_body p) first) (ends Q) (put_stack s w).
Proof.
  induction l1 as [|[q uq] l1 IH]; intros first Hl Hnd HQ; apply wp_iter_S; cbn [app pcb_list fmap list_fmap fst] in Hl, Hnd.
  - destruct Hl as (-> & Hr & Hn & Hp & Hl2). apply nodup_cons in Hnd as [Hrp Hnd]. apply nodup_cons in Hnd as [Hpl _].
    apply not_elem_of_cons in Hrp as [Hne Hrl]. cbn [udp_unlink_body].
    apply wp_bind, (wp_get_pcb _ ur); [done|]. rewrite bool_decide_eq_true_2 by done.
    apply wp_bind, wp_bind, (wp_get_pcb _ u); [done|]. apply (wp_upd_pcb _ _ ur); [done|]. fold m.
    apply wp_bind, (wp_get_pcb _ (with_pcb_next (pcb_next u) ur)); [apply lookup_insert_eq|]. apply wp_ret.
    apply (wp_unlink_tail _ w p Q l2); [|done|done]. cbn [pcbs set_pcbs pcb_next with_pcb_next].
    eapply pcb_list_frame; [|exact Hl2]. intros x Hx. apply lookup_insert_ne. by intros <-.
  - destruct Hl as (-> & Hq & Hl). apply nodup_cons in Hnd as [Hq' Hnd].
    cbn [udp_unlink_body]. apply wp_bind, (wp_get_pcb _ uq); [done|]. rewrite bool_decide_eq_false_2.
    + apply wp_bind, wp_ret, wp_bind, (wp_get_pcb _ uq); [done|]. apply wp_ret. by apply IH.
    + destruct l1 as [|[y v] l1]; cbn [app pcb_list fmap list_fmap fst] in Hl, Hnd; destruct Hl as [-> _]; intros [= ->];
        apply nodup_cons in Hnd as [Hnd _]; apply Hnd; [by left|]. rewrite fmap_app. apply elem_of_app. right. right. by left.
Qed.

(** The control block [p] taken off the list, and given back to its pool. *)
Definition closed (p : ptr) (i : nat) (s : stack) (l1 l2 : list (ptr * udp_pcb)) (s' : stack) (l' : list (ptr * udp_pcb)) : Prop :=
  active s' l' /\ map unlinked l' = map unlinked (l1 ++ l2) /\ pcbs s' !! p = None /\
  (forall q, q ∉ (l1 ++ l2).*1 -> q <> p -> pcbs s' !! q = pcbs s !! q) /\
  s_net s' = set_tab MEMP_UDP_PCB (i :: memp_tab (s_net s) MEMP_UDP_PCB) (s_net s).

Lemma wp_pcb_back s w p i l1 u l2 s1 l' (Q : unit -> W -> Prop) : p = InPool MEMP_UDP_PCB i ->
  s_net s1 = s_net s -> pcb_list (pcbs s1) (udp_pcbs s1) l' -> NoDup (l1 ++ (p, u) :: l2).*1 ->
  map unlinked l' = map unlinked (l1 ++ l2) ->
  (forall q, q ∉ (l1 ++ l2).*1 -> pcbs s1 !! q = pcbs s !! q) ->
  (forall s', closed p i s l1 l2 s' l' -> Q tt (put_stack s' w)) ->
  wp (_ ← mod_stack (fun s => set_pcbs (delete p (pcbs s)) s); on_net (memp_free MEMP_UDP_PCB (Some p))) Q (put_stack s1 w).
Proof.
  intros Hp Hn Hl Hnd Hu Hf HQ.
  assert (Hdom : l'.*1 = (l1 ++ l2).*1).
  { assert (forall k : list (ptr * udp_pcb), k.*1 = (map unlinked k).*1) as Hk
      by (intros k; induction k as [|[a b] k IH]; [done|]; cbn; by f_equal). by rewrite Hk, Hu, <- Hk. }
  rewrite fmap_app in Hnd. cbn [fmap list_fmap fst] in Hnd. apply list.NoDup_app in Hnd as (Hd1 & Hd & Hd2).
  apply nodup_cons in Hd2 as [Hp2 Hd2].
  assert (Hp' : p ∉ (l1 ++ l2).*1).
  { rewrite fmap_app. intros [Hin|Hin]%elem_of_app; [|done]. apply (Hd _ Hin). by left. }
  apply wp_bind, wp_mod_stack, wp_on_net. subst p. unfold memp_free. rewrite decide_True by done.
  apply wp_bind, wp_gets, wp_modify. apply HQ. repeat split.
  - cbn [pcbs udp_pcbs set_net set_pcbs]. eapply pcb_list_frame; [|exact Hl]. intros q Hq. apply lookup_delete_ne.
    intros <-. by rewrite Hdom in Hq.
  - rewrite Hdom, fmap_app. apply list.NoDup_app. split; [done|]. split; [|done]. intros x Hx Hx2. apply (Hd _ Hx). by right.
  - done.
  - cbn. apply lookup_delete_eq.
  - intros q Hq Hne. cbn. rewrite lookup_delete_ne by done. by apply Hf.
  - cbn. by rewrite Hn.
Qed.

Lemma wp_udp_remove s w p i l1 u l2 (Q : unit -> W -> Prop) : active s (l1 ++ (p, u) :: l2) -> p = InPool MEMP_UDP_PCB i ->
  (forall s' l', closed p i s l1 l2 s' l' -> (l1 = [] -> l' = l2) -> Q tt (put_stack s' w)) -> wp (udp_remove p) Q (put_stack s w).
Proof.
  intros Ha Hp HQ. pose proof Ha as [Hl Hnd]. apply wp_bind, wp_gets_stack.
  destruct l1 as [|[r ur] l1 _] using rev_ind.
  - cbn [app pcb_list] in Hl. destruct Hl as (-> & Hp' & Hl). rewrite bool_decide_eq_true_2 by done.
    apply wp_bind, wp_bind, (wp_get_pcb _ u); [done|]. apply wp_mod_stack.
    apply (wp_pcb_back s w p i [] u l2 _ l2); [done|done|done|done|done|done|]. intros s' Hc. by apply (HQ s' l2).
  - rewrite <- app_assoc in *. cbn [app] in *.
    assert (Hx : udp_pcbs s <> Some p /\ pcbs s !! r = Some ur /\ pcbs s !! p = Some u).
    { split; [|split; (eapply pcb_list_in; [exact Hl|]; apply elem_of_app; right)]; [|by left|right; by left].
      intros Hf. rewrite Hf in Hl. rewrite fmap_app in Hnd. cbn [fmap list_fmap fst] in Hnd. apply list.NoDup_app in Hnd as (_ & Hd & Hd2).
      destruct l1 as [|[x v] l1]; cbn [app pcb_list fmap list_fmap fst] in *; destruct Hl as [[= ->] _].
      - apply nodup_cons in Hd2 as [Hd2 _]. apply Hd2. by left.
      - apply (Hd x (list_elem_of_here _ _)). right. by left. }
    destruct Hx as (Hfirst & Hr & Hpu). rewrite bool_decide_eq_false_2 by done.
    apply wp_bind, wp_bind, wp_gets_stack, (wp_loop_nat (S (length (l1 ++ (r, ur) :: l2)))).
    { pose proof (active_fuel _ _ Ha) as Hf. rewrite length_app in *. cbn [length] in *. lia. }
    apply (wp_unlink s w r ur p u l2); [done|done|].
    assert (Hnd' : NoDup ((l1 ++ [(r, ur)]) ++ (p, u) :: l2).*1) by (by rewrite <- app_assoc).
    apply (wp_pcb_back s w p i (l1 ++ [(r, ur)]) u l2 _ (l1 ++ (r, with_pcb_next (pcb_next u) ur) :: l2)); [done|done| |done| | |].
    + cbn [pcbs udp_pcbs set_pcbs]. clear HQ Ha Hnd' Hfirst. revert Hl Hnd. generalize (udp_pcbs s) as first.
      induction l1 as [|[x v] l1 IH]; intros first; cbn [app pcb_list fmap list_fmap fst].
      * intros (-> & _ & _ & _ & Hl2) Hnd. apply nodup_cons in Hnd as [Hrl _]. apply not_elem_of_cons in Hrl as [_ Hrl].
        split; [done|]. split; [apply lookup_insert_eq|]. cbn [pcb_next with_pcb_next].
        eapply pcb_list_frame; [|exact Hl2]. intros y Hy. apply lookup_insert_ne. by intros <-.
      * intros (-> & Hv & Hl) Hnd. apply nodup_cons in Hnd as [Hxl Hnd]. split; [done|]. split; [|by apply IH].
        rewrite lookup_insert_ne; [done|]. intros <-. apply Hxl. rewrite fmap_app. apply elem_of_app. right. by left.
    + rewrite !map_app. cbn [map]. by rewrite <- app_assoc.
    + intros q Hq. cbn. rewrite lookup_insert_ne; [done|]. intros <-. apply Hq. rewrite !fmap_app. apply elem_of_app. left.
      apply elem_of_app. right. by left.
    + intros s' Hc. apply (HQ s' _ Hc). intros E. by destruct l1.
Qed.

(** Closing a control block undoes opening it: udp_new, udp_bind to a port and
    udp_remove leave the active control blocks, those in use and the pool as they
    were; and without a free control block, udp_new answers NULL. *)
Theorem udp_open_close_roundtrip s w l i fr addr port : active s l -> port <> 0 ->
  memp_tab (s_net s) MEMP_UDP_PCB = i :: fr -> pcbs s !! InPool MEMP_UDP_PCB i = None ->
  wp (p ← udp_new; match p with
      | None => mret false
      | Some p => err ← udp_bind p (Some addr) port; _ ← udp_remove p; mret (err =? ERR_OK)
      end)
    (fun r w' => r = true /\ exists s', w' = put_stack s' w /\ active s' l /\ udp_pcbs s' = udp_pcbs s /\
       (forall q, pcbs s' !! q = pcbs s !! q) /\ memp_tab (s_net s') MEMP_UDP_PCB = memp_tab (s_net s) MEMP_UDP_PCB)
    (put_stack s w).
Proof.
  intros Ha Hport Htab Hfree. set (p := InPool MEMP_UDP_PCB i) in *.
  assert (Hp : p ∉ l.*1).
  { intros ([q u] & -> & Hin)%list_elem_of_fmap. destruct Ha as [Hl _]. cbn [fst] in *.
    rewrite (pcb_list_in _ _ _ _ _ Hl Hin) in Hfree. done. }
  apply wp_bind, wp_udp_new. rewrite Htab. fold p.
  assert (Ha1 : active (pcb_taken fr p s) l).
  { destruct Ha as [Hl Hnd]. split; [|done]. eapply pcb_list_frame; [|exact Hl]. intros q Hq. apply lookup_insert_ne. by intros <-. }
  apply wp_bind. eapply (wp_udp_bind_new _ l); [done|apply lookup_insert_eq|done|done|]. intros Ha2.
  apply wp_bind. eapply (wp_udp_remove _ _ p i [] _ l); [exact Ha2|done|]. intros s' l' (Ha' & _ & Hnone & Hothers & Hnet) Hl'.
  rewrite (Hl' eq_refl) in Ha'. apply wp_ret. split; [done|]. exists s'. split; [done|]. split; [done|].
  split; [|split].
  - destruct Ha as [Hl _], Ha' as [Hk _]. destruct l as [|[q u] l]; cbn [pcb_list] in Hl, Hk; [congruence|]. destruct Hl as [-> _], Hk as [-> _]. done.
  - intros q. destruct (decide (q = p)) as [->|Hne]; [congruence|]. destruct (decide (q ∈ l.*1)) as [Hin|Hin].
    + apply list_elem_of_fmap in Hin as ([q' u] & -> & Hin). destruct Ha as [Hl _], Ha' as [Hk _]. cbn [fst].
      by rewrite (pcb_list_in _ _ _ _ _ Hl Hin), (pcb_list_in _ _ _ _ _ Hk Hin).
    + rewrite Hothers by done. cbn. by rewrite !lookup_insert_ne.
  - by rewrite Hnet.
Qed.
End opening.

(** A pool with three free control blocks and an active one. *)
Definition pool_stack : stack :=
  set_udp_pcbs (Some demo_q) (set_pcbs {[demo_q := on_port 4096]}
    (stack_zero (Net (Heap (fun _ => 0) 0) (fun t => match t with MEMP_UDP_PCB => [0; 2; 3]%nat | _ => [] end) (fun _ _ _ => 0) ∅) ∅)).
Lemma pool_active : active pool_stack [(demo_q, on_port 4096)].
Proof. split; [by repeat split|]. apply NoDup_singleton. Qed.

Lemma udp_open_close_roundtrip_witness :
  wp (p ← udp_new; match p with
      | None => mret false
      | Some p => err ← udp_bind p (Some 7) 55555; _ ← udp_remove p; mret (err =? ERR_OK)
      end)
    (fun r w' => r = true /\ exists s', w' = put_stack s' pool_stack /\ active s' [(demo_q, on_port 4096)] /\
       udp_pcbs s' = udp_pcbs pool_stack /\ (forall q, pcbs s' !! q = pcbs pool_stack !! q) /\
       memp_tab (s_net s') MEMP_UDP_PCB = memp_tab (s_net pool_stack) MEMP_UDP_PCB)
    (put_stack pool_stack pool_stack).
Proof.
  apply (udp_open_close_roundtrip pool_stack pool_stack [(demo_q, on_port 4096)] 0 [2; 3]%nat 7 55555 pool_active);
    [discriminate|reflexivity|reflexivity].
Defined.
