(* ===== verification/LwipReceive.v ===== *)
(** A datagram on its way up the stack: what udp_input does with it, and the way from
    ethernet_input through the ARP cache, ip_input and udp_input to the callback. *)
From stdpp Require Import gmap.
From S2P Require LwipFragTheorems LwipIpInput.
From S2P Require Import Prelude Mmio LwipMem LwipMemSpec LwipPbuf LwipPbufSpec LwipPbufTheorems LwipInet LwipInetTheorems LwipStack LwipStackSpec LwipHeader LwipEtharp LwipNetif.
From S2P Require Import LwipIpOut LwipUdp LwipIpSpec LwipIpTheorems LwipUdpTheorems LwipPbufOwn LwipEtharpSpec LwipArpLookup LwipRaw.

(** A packet at its IP header, with the bytes [m] from there on; that header and the
    one of UDP are in the first pbuf. *)
Record datagram (s : net) (l : list block) (p : ptr) (b : pbuf) (c : list (ptr * pbuf)) (o : Z) (m : Z -> Z) : Prop := {
  dg_out : outgoing s l p b c o;
  dg_bytes : forall i, bytes_at s p (o + i) = m i;
  dg_octets : hdr_octets m;
  dg_headers : IP_HLEN <= ihl m /\ ihl m + UDP_HLEN <= len b;
  dg_size : tot_len b < 65536
}.
Definition dg_src (m : Z -> Z) : Z := le32 m ip_src.
Definition dg_dest (m : Z -> Z) : Z := le32 m ip_dest.
Definition dg_sport (m : Z -> Z) : Z := htons (le16 m (ihl m + udp_src)).
Definition dg_dport (m : Z -> Z) : Z := htons (le16 m (ihl m + udp_dest)).

Section input.
Context {W : Type} `{StackLaws W}.
Variable call_output : output_fn -> netif_ptr -> option ptr -> Z -> M W Z.
Variable ip_frag : ptr -> netif_ptr -> Z -> M W Z.
Variable call_recv : recv_fn -> option ptr -> ptr -> ptr -> Z -> Z -> M W unit.
Implicit Types (t : stack) (w : W).

Lemma hdr16_at p o h i : hdr16 (W := W) (p, o + h) i = hdr16 (p, o) (h + i).
Proof. unfold hdr16. by rewrite !hdr8_at, Z.add_assoc. Qed.

Definition drop_packet (p : ptr) : M W unit := _ ← on_net (pbuf_free (Some p)); mret tt.
(** The end of udp_input, for the control block [r] that takes the datagram: [k n] is
    the stack in which the first [n] bytes of the packet are hidden. *)
Definition hand_over (m : Z -> Z) (p : ptr) (f : netif) (r : option (ptr * udp_pcb)) (k : Z -> W) : outcome W unit :=
  let broadcast := ip_addr_isbroadcast (dg_dest m) f in
  match r with
  | Some (q, u) =>
      match recv u with
      | Some fn => call_recv fn (recv_arg u) q p (dg_src m) (dg_sport m) (k (ihl m + UDP_HLEN))
      | None => drop_packet p (k (ihl m + UDP_HLEN))
      end
  | None =>
      if ip_addr_cmp (nif_ip_addr f) (dg_dest m) then
        if negb broadcast && negb (ip_addr_ismulticast (dg_dest m)) then
          (_ ← icmp_dest_unreach call_output ip_frag p ICMP_DUR_PORT; drop_packet p) (k 0)
        else drop_packet p (k (ihl m + UDP_HLEN))
      else drop_packet p (k (ihl m))
  end.
(** The control block that takes it, of the active ones. *)
Definition taker (m : Z -> Z) (f : netif) (l2 : list (ptr * udp_pcb)) : option ptr :=
  receiver (dg_dport m) (dg_dest m) (dg_sport m) (dg_src m) (ip_addr_isbroadcast (dg_dest m) f) l2.

Lemma unlinked_in (l l' l2 : list (ptr * udp_pcb)) q u : map unlinked l' = map unlinked l -> l ⊆ l2 -> (q, u) ∈ l' ->
  exists v, (q, v) ∈ l2 /\ recv v = recv u /\ recv_arg v = recv_arg u.
Proof.
  intros Hl Hsub Hin. assert (Hu : unlinked (q, u) ∈ map unlinked l).
  { rewrite <- Hl. apply list_elem_of_In, List.in_map. by apply list_elem_of_In. }
  apply list_elem_of_In, List.in_map_iff in Hu as ([r v] & Hv & Hr). injection Hv. intros Ha Hb Hcd. intros. subst r.
  exists v. split; [by apply Hsub, list_elem_of_In|]. by split.
Qed.

Lemma reordered_sub dest dest_ip src src_ip bc l : reordered dest dest_ip src src_ip bc l ⊆ l.
Proof.
  unfold reordered. destruct (List.find _ l) as [x|] eqn:E; [|done]. intros y [->|Hy]%elem_of_cons.
  - by apply list_elem_of_In, (List.find_some _ _ E).
  - apply list_elem_of_In. apply list_elem_of_In, List.filter_In in Hy. by destruct Hy.
Qed.
Lemma receiver_in dest dest_ip src src_ip bc l q : receiver dest dest_ip src src_ip bc l = Some q -> exists u, (q, u) ∈ reordered dest dest_ip src src_ip bc l.
Proof.
  unfold receiver, reordered. destruct (List.find (perfect _ _ _ _ _) l) as [[r u]|]; [intros [= <-]; exists u; by left|].
  destruct (List.find (listens _ _ _) l) as [[r u]|] eqn:E; [intros [= <-]; exists u; by apply list_elem_of_In, (List.find_some _ _ E)|done].
Qed.
Lemma taker_active m f l2 l' t' q (l := reordered (dg_dport m) (dg_dest m) (dg_sport m) (dg_src m) (ip_addr_isbroadcast (dg_dest m) f) l2) :
  active t' l' -> map unlinked l' = map unlinked l -> taker m f l2 = Some q ->
  exists u v, pcbs t' !! q = Some u /\ (q, v) ∈ l2 /\ recv v = recv u /\ recv_arg v = recv_arg u.
Proof.
  intros [Hl' _] Hmap Hq. apply receiver_in in Hq as [u0 Hu0]. fold l in Hu0.
  destruct (unlinked_in l' l l' q u0) as (u & Hu & _); [done..|]. exists u.
  destruct (unlinked_in l l' l2 q u) as (v & Hv & Hr & Ha); [done|apply reordered_sub|done|]. exists v.
  split; [by eapply pcb_list_in|done].
Qed.

(** udp_input after the search. *)
Definition udp_rest (m : Z -> Z) (p : ptr) (h : header) (f : netif) (r : option ptr) : M W unit :=
  if bool_decide (r <> None) || ip_addr_cmp (nif_ip_addr f) (dg_dest m) then
    e ← on_net (pbuf_header (Some p) (- UDP_HLEN));
    if negb (e =? 0) then drop_packet p
    else match r with
    | Some q =>
        u ← get_pcb q;
        match recv u with Some fn => call_recv fn (recv_arg u) q p (dg_src m) (dg_sport m) | None => drop_packet p end
    | None =>
        _ ← (if negb (ip_addr_isbroadcast (dg_dest m) f) && negb (ip_addr_ismulticast (dg_dest m)) then
               hl ← IPH_HL h;
               _ ← on_net (pbuf_header (Some p) (hl * 4 + UDP_HLEN));
               icmp_dest_unreach call_output ip_frag p ICMP_DUR_PORT
             else mret tt);
        drop_packet p
    end
  else drop_packet p.

Lemma udp_rest_run t w l p b c o m f r s (k := fun n => put_stack (set_net (shift_pbuf (- n) p b s) t) w) :
  datagram s l p b c o m ->
  (forall q v, r = Some (q, v) -> exists u, pcbs t !! q = Some u /\ recv v = recv u /\ recv_arg v = recv_arg u) ->
  udp_rest m p (p, o) f (fst <$> r) (k (ihl m)) = hand_over m p f r k.
Proof.
  intros [Ho Hm Hoct [Hx1 Hx2] Hsz] Hr. destruct (outgoing_lens _ _ _ _ _ _ Ho) as (Hb & Hl & Hpos & Hroom).
  destruct Ho as [Hok _ _ _ _ Hty Hpay]. unfold hand_over, IP_HLEN, UDP_HLEN in *. set (x := ihl m) in *.
  assert (Hshift : forall i j, shift_pbuf j p (shifted (- i) b) (shift_pbuf (- i) p b s) = shift_pbuf (- (i - j)) p b s)
    by (intros; rewrite shift_shift; f_equal; lia).
  assert (Hhide : forall i j (Q : Z -> W -> Prop), 0 <= i <= len b -> 0 <= i - j <= len b -> Q 0 (k (i - j)) ->
    wp (on_net (pbuf_header (Some p) j)) Q (k i)).
  { intros i j Q Hi Hj HQ. apply (wp_header_shift p (shifted (- i) b) (o + i)); [apply lookup_insert_eq| |done|lia|cbn; lia|cbn; lia|cbn; lia|].
    - cbn. rewrite Hpay. cbn. f_equal. lia.
    - by rewrite Hshift. }
  set (out := match r with Some _ => _ | None => _ end).
  change (reaches (udp_rest m p (p, o) f (fst <$> r)) (k x) (fun y => y = out)). unfold udp_rest, UDP_HLEN.
  destruct r as [[q v]|]; cbn [fmap option_fmap option_map fst].
  - rewrite bool_decide_eq_true_2 by done. cbn [orb]. apply reach_bind, (Hhide x (- 8)); [lia|lia|]. cbn [Z.eqb negb].
    destruct (Hr q v eq_refl) as (u & Hu & Hv1 & Hv2). apply reach_bind, (wp_get_pcb _ u); [done|]. subst out. rewrite Hv1, Hv2.
    unfold reaches. replace (x - - (8)) with (x + 8) by lia. by destruct (recv u).
  - rewrite bool_decide_eq_false_2 by auto. cbn [orb]. subst out. destruct (ip_addr_cmp _ _); [|done].
    apply reach_bind, (Hhide x (- 8)); [lia|lia|]. cbn [Z.eqb negb]. replace (x - - (8)) with (x + 8) by lia.
    destruct (negb _ && negb _); [|by apply reach_bind, wp_ret].
    set (b8 := shifted (- (x + 8)) b). set (s8 := shift_pbuf (- (x + 8)) p b s).
    assert (Hp8 : pbufs s8 !! p = Some b8) by apply lookup_insert_eq.
    assert (Hv8 : view p o m s8 l s8) by (apply (view_shift p o m s l s b o); try done; first [lia|by split]).
    apply reach_bind_assoc, reach_bind, (wp_IPH_HL p o s8 l b8 Hp8 s8 m); [done|split; cbn; lia|done|]. fold (ihl m). fold x.
    apply reach_bind_assoc, reach_bind, (Hhide (x + 8) (x + 8)); [lia|lia|]. rewrite Z.sub_diag. done.
Qed.

Lemma udp_input_run t w l p b c o m inp f l2 :
  datagram (s_net t) l p b c o m -> netifs t !! inp = Some f -> active t l2 -> dg_dport m <> DHCP_CLIENT_PORT ->
  exists t' r, only_pcbs t t' /\ fst <$> r = taker m f l2 /\ (forall x, r = Some x -> x ∈ l2) /\
    (forall n, 0 <= n <= len b -> contents (shift_pbuf (- n) p b (s_net t)) ((p, shifted (- n) b) :: c) = drop (Z.to_nat n) (contents (s_net t) ((p, b) :: c))) /\
    udp_input call_output ip_frag call_recv p inp (put_stack t w)
    = hand_over m p f r (fun n => put_stack (set_net (shift_pbuf (- n) p b (s_net t)) t') w).
Proof.
  intros [Ho Hm Hoct [Hx1 Hx2] Hsz] Hn Hact Hdhcp. destruct (outgoing_lens _ _ _ _ _ _ Ho) as (Hb & Hl & Hpos & Hroom).
  destruct Ho as [Hok Hc Hnd Hpk Hrd Hty Hpay]. set (s := s_net t) in *. set (x := ihl m) in *. unfold IP_HLEN, UDP_HLEN in *.
  set (s1 := shift_pbuf (- x) p b s). set (b1 := shifted (- x) b).
  assert (Hp1 : pbufs s1 !! p = Some b1) by apply lookup_insert_eq.
  assert (Hv0 : view p o m s l s) by (split; try done; intros; by apply Hm).
  assert (Hv1 : view p o m s1 l s1) by (apply (view_shift p o m s l s b o); try done; lia).
  assert (Hin : forall i n, 0 <= i -> 0 <= n -> i + n <= x + 8 -> inside o b1 i n) by (intros; split; cbn; lia).
  assert (Ho1 : payload b1 = Some (o + x)) by (cbn; rewrite Hpay; cbn; f_equal; lia).
  set (P := fun out : outcome W unit => exists t' r, only_pcbs t t' /\ fst <$> r = taker m f l2 /\ (forall x, r = Some x -> x ∈ l2) /\
    (forall n, 0 <= n <= len b -> contents (shift_pbuf (- n) p b s) ((p, shifted (- n) b) :: c) = drop (Z.to_nat n) (contents s ((p, b) :: c))) /\
    out = hand_over m p f r (fun n => put_stack (set_net (shift_pbuf (- n) p b s) t') w)).
  change (reaches (udp_input call_output ip_frag call_recv p inp) (put_stack t w) P).
  replace (put_stack t w) with (put_stack (set_net s t) w) by by destruct t.
  unfold udp_input. apply reach_bind, (wp_payload_hdr p o s l b Hb s m); [done..|].
  apply reach_bind, (wp_IPH_HL p o s l b Hb s m); [done|split; lia|done|]. fold (ihl m). fold x.
  apply reach_bind, wp_on_net, (wp_get_pbuf _ b); [done|]. unfold UDP_HLEN. rewrite (proj2 (Z.ltb_ge (tot_len b) _)) by lia.
  apply reach_bind, wp_bind, (wp_header_shift p b o); [done|done|done|lia|done|lia|lia|]. apply wp_ret. cbn [Z.eqb negb]. fold s1.
  apply reach_bind, (wp_payload_hdr p (o + x) s1 l b1 Hp1 s1 (fun i => bytes_at s1 p (o + x + i))); [apply view_refl; by destruct Hv1|done|].
  apply reach_bind, (wp_get_netif _ f); [done|].
  apply reach_bind, (wp_hdr32 p o s1 l b1 Hp1 s1 m); [done|apply Hin; unfold ip_dest; lia|].
  apply reach_bind, (wp_hdr32 p o s1 l b1 Hp1 s1 m); [done|apply Hin; unfold ip_src; lia|].
  apply reach_bind. rewrite hdr16_at. apply (wp_hdr16 p o s1 l b1 Hp1 s1 m); [done|apply Hin; unfold udp_src; lia|].
  apply reach_bind. rewrite hdr16_at. apply (wp_hdr16 p o s1 l b1 Hp1 s1 m); [done|apply Hin; unfold udp_dest; lia|].
  change (ntohs (le16 m (x + udp_src))) with (dg_sport m). change (ntohs (le16 m (x + udp_dest))) with (dg_dport m).
  change (le32 m ip_dest) with (dg_dest m). change (le32 m ip_src) with (dg_src m).
  apply reach_bind, (wp_udp_demux _ _ _ _ _ _ _ l2); [done|done|]. intros t2 l' Hact' Honly Hmap. fold (taker m f l2).
  destruct Honly as (p' & m' & ->). set (t' := set_udp_pcbs p' (set_pcbs m' t)).
  change (set_udp_pcbs p' (set_pcbs m' (set_net s1 (set_net s t)))) with (set_net s1 t') in *.
  change (reaches (udp_rest m p (p, o) f (taker m f l2)) (put_stack (set_net s1 t') w) P).
  assert (Hr : exists r, fst <$> r = taker m f l2 /\ (forall y, r = Some y -> y ∈ l2) /\
    forall q v, r = Some (q, v) -> exists u, pcbs t' !! q = Some u /\ recv v = recv u /\ recv_arg v = recv_arg u).
  { destruct (taker m f l2) as [q|] eqn:E; [|by exists None].
    destruct (taker_active m f l2 l' t' q) as (u & v & Hu & Hv & Hrest); [by destruct Hact'|done|done|].
    exists (Some (q, v)). split; [done|]. split; [by intros y [= <-]|]. intros q' v' [= <- <-]. by exists u. }
  destruct Hr as (r & Hr & Hin2 & Hu). exists t', r. split; [by exists p', m'|]. split; [done|]. split; [done|]. split.
  - intros n Hn'. apply (contents_shifted s _ p b c o n); [done|done|]. intros q y. by destruct q.
  - rewrite <- Hr. apply (udp_rest_run t' w l p b c o m f r s); [|done]. by split; [split| | | |].
Qed.

(** C35. udp_input refines the demultiplexing of datagrams: the control block that
    takes one gets the packet in its callback, with both headers hidden and nothing else changed, so
    that what it sees is the data that was sent, and the address and the port of the sender; without a callback the
    packet is freed.  A datagram that nobody takes is freed too; if it was sent to the
    address of the interface, the sender is told, with the packet as it came in. *)
Theorem udp_input_delivers t w l p b c o m inp f l2 :
  datagram (s_net t) l p b c o m -> netifs t !! inp = Some f -> active t l2 -> dg_dport m <> DHCP_CLIENT_PORT ->
  exists t' r, only_pcbs t t' /\ fst <$> r = taker m f l2 /\ (forall x, r = Some x -> x ∈ l2) /\
    (forall n, 0 <= n <= len b -> contents (shift_pbuf (- n) p b (s_net t)) ((p, shifted (- n) b) :: c) = drop (Z.to_nat n) (contents (s_net t) ((p, b) :: c))) /\
    udp_input call_output ip_frag call_recv p inp (put_stack t w)
    = hand_over m p f r (fun n => put_stack (set_net (shift_pbuf (- n) p b (s_net t)) t') w).
Proof. intros. by eapply udp_input_run. Qed.
End input.

(** * A datagram in a frame

    For the interface of the small network, with 3 bytes of data for port 6000; the
    packet is what is left from byte [o] on. *)
Definition note : list Z :=
  repeat 0 12 ++ word2 ETHTYPE_IP ++ ip_header 0 31 1 0 64 IP_PROTO_UDP 0 (IP4_ADDR 192 168 1 2) (IP4_ADDR 192 168 1 1)
  ++ word2 5000 ++ word2 6000 ++ word2 11 ++ [0; 0] ++ [1; 2; 3].
Definition note_bytes (i : Z) : Z := nth (Z.to_nat i) note 0.
Definition note_pbuf (o : Z) : pbuf := ping_pbuf o (45 - o).
Definition note_net (o : Z) : net := set_pool MEMP_PBUF_POOL 9 note_bytes (ping_net o (45 - o)).
Definition note_block : ptr := InPool MEMP_UDP_PCB 3.
Definition note_pcb : udp_pcb := with_recv (Some udp_receive_callback_ptr) None (with_local_port 6000 udp_pcb_zero).
Definition note_stack (o : Z) : stack :=
  set_udp_pcbs (Some note_block) (set_pcbs {[ note_block := note_pcb ]}
    (set_netif_list (Some 0%nat) (stack_zero (note_net o) {[ 0%nat := ping_netif ]}))).
Definition note_header (i : Z) : Z := note_bytes (14 + i).

Lemma note_octets i : 0 <= note_bytes i < 2 ^ 8.
Proof.
  unfold note_bytes. assert (Hf : Forall (fun v => 0 <= v < 2 ^ 8) note) by (apply (bool_decide_unpack _); by vm_compute).
  destruct (nth_in_or_default (Z.to_nat i) note 0) as [Hin | ->]; [|done]. by apply (proj1 (List.Forall_forall _ _) Hf).
Qed.
Lemma note_outgoing o : 0 <= o < 45 -> outgoing (note_net o) [(MEM_SIZE_ALIGNED, false)] ping_ptr (note_pbuf o) [] o.
Proof.
  intros Ho. assert (Hok : net_ok (note_net o) [(MEM_SIZE_ALIGNED, false)]).
  { destruct (ping_net_ok o (45 - o)); [lia..|]. by split. }
  split; [done|by repeat split|apply (bool_decide_unpack _); by vm_compute| | |by right|done].
  - split; [cbn; lia|]. split; [cbn; lia|done].
  - apply Forall_cons_2; [|apply Forall_nil_2]. split; [split; cbn; lia|by eexists].
Qed.
Lemma note_active o : active (note_stack o) [(note_block, note_pcb)].
Proof. split; [by repeat split|]. apply (bool_decide_unpack _). by vm_compute. Qed.
Definition note_recv (_ : recv_fn) (_ : option ptr) (_ _ : ptr) (_ _ : Z) : M stack unit := mret tt.

Lemma udp_input_delivers_witness (t := note_stack 14) (w := note_stack 14) (b := note_pbuf 14) (m := note_header) (l2 := [(note_block, note_pcb)]) :
  exists t' r, only_pcbs t t' /\ fst <$> r = taker m ping_netif l2 /\ (forall x, r = Some x -> x ∈ l2) /\
    (forall n, 0 <= n <= len b -> contents (shift_pbuf (- n) ping_ptr b (s_net t)) [(ping_ptr, shifted (- n) b)] = drop (Z.to_nat n) (contents (s_net t) [(ping_ptr, b)])) /\
    udp_input any_output any_frag note_recv ping_ptr 0%nat (put_stack t w)
    = hand_over any_output any_frag note_recv m ping_ptr ping_netif r (fun n => put_stack (set_net (shift_pbuf (- n) ping_ptr b (s_net t)) t') w).
Proof.
  apply (udp_input_delivers any_output any_frag note_recv t w [(MEM_SIZE_ALIGNED, false)] ping_ptr b [] 14 m 0%nat ping_netif l2).
  - split; [by apply note_outgoing|done|intros i _; apply note_octets|by split|done].
  - done.
  - apply note_active.
  - by vm_compute.
Defined.
Example note_taken : taker note_header ping_netif [(note_block, note_pcb)] = Some note_block.
Proof. by vm_compute. Qed.

(** * A cache without packets that wait *)
Definition no_waiting (t : list etharp_entry) : Prop := Forall (fun e => arp_q e = None) t.
Record idle_cache (s : stack) : Prop := {
  idle_length : length (arp_table s) = 10%nat;
  idle_entries : Forall entry_ok (arp_table s);
  idle_queues : no_waiting (arp_table s);
  idle_cached : 0 <= etharp_cached_entry s < ARP_TABLE_SIZE
}.
(** The cache may have changed, and nothing else. *)
Definition cache_after (i : Z) (tab : list etharp_entry) (s : stack) : stack := set_cached_entry i (set_arp_table tab s).
Lemma cache_same s : cache_after (etharp_cached_entry s) (arp_table s) s = s.
Proof. by destruct s. Qed.

Section learning.
Context {W : Type} `{StackLaws W}.
Implicit Types (t : stack) (w : W).
Variable call_linkoutput : linkoutput_fn -> netif_ptr -> option ptr -> M W Z.

Lemma wp_find_idle t w a fl (Q : Z -> W -> Prop) : idle_cache t ->
  (forall r i tab, length tab = 10%nat -> no_waiting tab -> r < 0 \/ 0 <= r < 10 -> Q r (put_stack (cache_after i tab t) w)) ->
  wp (find_entry (Some a) fl) Q (put_stack t w).
Proof.
  intros [H10 Hent Hnone Hcached] HQ. change ARP_TABLE_SIZE with 10 in Hcached.
  destruct (lookup_lt_is_Some_2 (arp_table t) (Z.to_nat (etharp_cached_entry t))) as [ec Hec]; [lia|].
  assert (Hkeep : forall r, r < 0 \/ 0 <= r < 10 -> Q r (put_stack t w)) by (intros r Hr; rewrite <- (cache_same t) at 1; by apply HQ).
  apply wp_bind, wp_gets_stack, wp_bind, wp_bind, (wp_get_arp _ ec); [lia|done|]. apply wp_ret.
  destruct (bool_decide _ && _); [apply wp_ret, Hkeep; lia|].
  apply wp_bind, (wp_loop_nat (S (length (arp_table t)))); [by rewrite H10|].
  apply (wp_sweep t w a H10 Hent (arp_table t) [] no_candidates); [done|..].
  - split; left; repeat split; intros j x; by rewrite lookup_nil.
  - intros j x [Hj _]. by rewrite lookup_nil in Hj.
  - intros j x [Hj _]. apply lookup_lt_Some in Hj. apply wp_bind, wp_mod_stack, wp_ret.
    apply (HQ (Z.of_nat j) (Z.of_nat j) (arp_table t)); [done|done|lia].
  - intros c Hc _. destruct (_ || _); [apply wp_ret, Hkeep; left; unfold ERR_MEM; lia|].
    destruct (choose_victim (W := W) _ _ Hc H10) as (k & e & Hk & _ & Hch). rewrite Hch.
    pose proof (Forall_lookup_1 _ _ _ _ Hnone Hk) as Hq. cbn beta in Hq. pose proof (lookup_lt_Some _ _ _ Hk).
    rewrite bool_decide_eq_false_2 by (unfold rank; rewrite Hq; by destruct (arp_state e)).
    apply wp_bind, wp_ret. assert (Heq : with_arp_q None e = e) by (rewrite <- Hq; by destruct e).
    apply (wp_create _ _ k e); [by rewrite Heq|]. apply HQ; [by rewrite length_insert|by apply Forall_insert|lia].
Qed.

Lemma wp_upd_idle t w c tab i g (Q : unit -> W -> Prop) : length tab = 10%nat -> no_waiting tab -> 0 <= i < 10 ->
  (forall e, arp_q (g e) = arp_q e) ->
  (forall tab', length tab' = 10%nat -> no_waiting tab' -> Q tt (put_stack (cache_after c tab' t) w)) ->
  wp (upd_arp i g) Q (put_stack (cache_after c tab t) w).
Proof.
  intros H10 Hnone Hi Hg HQ. destruct (lookup_lt_is_Some_2 tab (Z.to_nat i)) as [e He]; [lia|].
  apply (wp_upd_arp _ _ e); [lia|done|]. apply (HQ (<[Z.to_nat i := g e]> tab)); [etransitivity; [apply length_insert|done]|]. apply Forall_insert; [done|]. rewrite Hg. by apply (Forall_lookup_1 _ _ _ _ Hnone He).
Qed.
Lemma wp_update_idle t w n f a mac fl (Q : Z -> W -> Prop) : idle_cache t -> netifs t !! n = Some f ->
  (forall r i tab, Q r (put_stack (cache_after i tab t) w)) -> wp (update_arp_entry call_linkoutput n a mac fl) Q (put_stack t w).
Proof.
  intros Hidle Hn HQ. apply wp_bind, (wp_get_netif _ f); [done|]. destruct (_ || _ || _); [rewrite <- (cache_same t); by apply wp_ret|].
  apply wp_bind, wp_find_idle; [done|]. intros r i tab H10 Hnone [Hr|Hr]; [rewrite (proj2 (Z.ltb_lt _ _)) by done; by apply wp_ret|].
  rewrite (proj2 (Z.ltb_ge _ _)) by lia.
  do 4 (apply wp_bind, wp_upd_idle; [done..|]; clear tab H10 Hnone; intros tab H10 Hnone).
  destruct (lookup_lt_is_Some_2 tab (Z.to_nat r)) as [e He]; [lia|].
  apply wp_bind, (wp_loop_nat 1); [by apply Pos2Nat.is_pos|]. apply wp_iter_S. apply wp_bind, (wp_get_arp _ e); [lia|done|].
  rewrite (Forall_lookup_1 _ _ _ _ Hnone He). apply wp_ret, wp_ret. apply (HQ ERR_OK i tab).
Qed.
End learning.

(** * From the frame to the IP layer *)
Section frames.
Context {W : Type} `{StackLaws W}.
Implicit Types (t : stack) (w : W).
Variable call_linkoutput : linkoutput_fn -> netif_ptr -> option ptr -> M W Z.
Variable dhcp_decline : netif_ptr -> M W unit.

(** An IP packet in a frame goes to ip_input without the Ethernet header; the sender
    may have been learned. *)
Lemma ethernet_input_run ip_input t w l p b c o m n f : outgoing (s_net t) l p b c o -> (forall i, bytes_at (s_net t) p (o + i) = m i) ->
  34 <= len b -> tot_len b < 65536 -> htons (le16 m eth_type) = ETHTYPE_IP -> netifs t !! n = Some f -> idle_cache t ->
  exists i tab, ethernet_input call_linkoutput dhcp_decline ip_input p n (put_stack t w)
  = (_ ← ip_input p n; mret ERR_OK) (put_stack (set_net (shift_pbuf (- SIZEOF_ETH_HDR) p b (s_net t)) (cache_after i tab t)) w).
Proof.
  intros Ho Hm Hlen Hmax Htype Hn Hidle. destruct (outgoing_lens _ _ _ _ _ _ Ho) as (Hb & Hl & Hpos & Hroom).
  destruct Ho as [Hok Hc Hnd Hpk Hrd Hty Hpay]. set (s := s_net t) in *. unfold SIZEOF_ETH_HDR.
  assert (Hv : view p o m s l s) by (split; try done; intros; by apply Hm).
  set (P := fun out : outcome W Z => exists i tab, out = (_ ← ip_input p n; mret ERR_OK) (put_stack (set_net (shift_pbuf (- (14)) p b s) (cache_after i tab t)) w)).
  change (reaches (ethernet_input call_linkoutput dhcp_decline ip_input p n) (put_stack t w) P).
  assert (Hst : put_stack t w = put_stack (set_net s t) w) by by destruct t. rewrite Hst.
  apply reach_bind, (wp_payload_hdr p o s l b Hb s m); [done..|].
  apply reach_bind, (wp_hdr16 p o s l b Hb s m); [done|split; unfold eth_type; lia|]. rewrite Htype. change (ETHTYPE_IP =? ETHTYPE_IP) with true. cbv iota.
  apply reach_bind_assoc, reach_bind.
  assert (Harp : forall Q : unit -> W -> Prop, (forall i tab, Q tt (put_stack (set_net s (cache_after i tab t)) w)) ->
    wp (etharp_ip_input call_linkoutput n p) Q (put_stack (set_net s t) w)).
  { intros Q HQ. apply wp_bind, (wp_payload_hdr p o s l b Hb s m); [done..|].
    apply wp_bind, (wp_hdr32 p o s l b Hb s m); [done|split; unfold ethip_src; lia|]. apply wp_bind, (wp_get_netif _ f); [done|].
    destruct (negb _); [pose proof (HQ (etharp_cached_entry t) (arp_table t)) as HQ'; rewrite cache_same in HQ'; by apply wp_ret|].
    apply wp_bind, (LwipFragTheorems.wp_hdr_bytes p o s l b Hb s m); [done|split; unfold eth_src; lia|].
    apply wp_bind, (wp_update_idle _ _ _ _ f); [by destruct Hidle|done|]. intros r i tab. apply wp_ret, (HQ i tab). }
  apply Harp. intros i tab. set (t1 := cache_after i tab t).
  unfold SIZEOF_ETH_HDR. apply reach_bind_assoc, reach_bind, (wp_header_shift p b o); [done|done|done|lia|done|lia|lia|]. cbn [Z.eqb negb].
  apply reach_bind_assoc. unfold reaches, P. exists i, tab. unfold mbind, M_bind. by destruct (ip_input p n _).
Qed.

(** With no raw control block the packet goes to UDP. *)
Variable call_output : output_fn -> netif_ptr -> option ptr -> Z -> M W Z.
Variable ip_frag : ptr -> netif_ptr -> Z -> M W Z.
Variable call_recv : recv_fn -> option ptr -> ptr -> ptr -> Z -> Z -> M W unit.
Variable ip_reass : ptr -> M W (option ptr).
Variable call_raw : raw_recv_fn -> option ptr -> ptr -> ptr -> Z -> M W bool.
Variable tcp_input : ptr -> netif_ptr -> M W unit.

Lemma deliver_udp_run t w l p b o m inp : net_ok (s_net t) l -> pbufs (s_net t) !! p = Some b -> payload b = Some o -> inside o b 0 20 ->
  hdr_octets m -> (forall i, bytes_at (s_net t) p (o + i) = m i) -> m 9 = IP_PROTO_UDP -> raw_pcbs (raws t) = None ->
  ip_deliver call_output ip_frag call_recv (raw_input call_raw) tcp_input p (p, o) inp (put_stack t w)
  = (_ ← udp_input call_output ip_frag call_recv p inp; mod_stack (set_current None None)) (put_stack (set_current (Some inp) (Some (p, o)) t) w).
Proof.
  intros Hok Hb Hpay Hin Hoct Hm Hproto Hraw. set (t1 := set_current (Some inp) (Some (p, o)) t). set (s := s_net t) in *.
  assert (Hv : view p o m s l s) by (split; try done; intros; by apply Hm). assert (Ht1 : put_stack t1 w = put_stack (set_net s t1) w) by by destruct t.
  change (reaches (ip_deliver call_output ip_frag call_recv (raw_input call_raw) tcp_input p (p, o) inp) (put_stack t w)
    (fun r => r = (_ ← udp_input call_output ip_frag call_recv p inp; mod_stack (set_current None None)) (put_stack t1 w))).
  apply reach_bind, wp_mod_stack. fold t1. rewrite Ht1. apply reach_bind. unfold raw_input.
  apply wp_bind, (wp_payload_hdr p o s l b Hb s m t1 w); [done..|]. apply wp_bind, (wp_IPH_PROTO p o s l b Hb s m); [done..|].
  apply wp_bind, wp_gets_stack, wp_bind, wp_gets_stack. cbn [raws t1 set_current set_net]. rewrite Hraw.
  apply (wp_loop_nat 1); [lia|]. apply wp_iter_S. cbn [raw_input_body]. apply wp_ret.
  apply reach_bind_assoc, reach_bind, (wp_IPH_PROTO p o s l b Hb s m); [done..|]. rewrite Hproto. done.
Qed.

(** * From the frame to the callback *)

(** A received frame: the headers are in a pbuf of the pool, and [m] is what is there. *)
Record frame_in (s : net) (l : list block) (p : ptr) (b : pbuf) (c : list (ptr * pbuf)) (o : Z) (m : Z -> Z) : Prop := {
  fr_out : outgoing s l p b c o;
  fr_pool : type b = PBUF_POOL;
  fr_sole : sole ((p, b) :: c);
  fr_room : o + 78 <= room b;
  fr_bytes : forall i, bytes_at s p (o + i) = m i;
  fr_octets : hdr_octets (fun i => m (SIZEOF_ETH_HDR + i));
  fr_size : 34 <= len b /\ tot_len b < 65536
}.
(** The first [n] bytes of the packet can be hidden. *)
Lemma outgoing_shifted s l p b c o n : outgoing s l p b c o -> 0 <= n <= len b ->
  outgoing (shift_pbuf (- n) p b s) l p (shifted (- n) b) c (o + n).
Proof.
  intros Ho Hn. destruct (outgoing_lens _ _ _ _ _ _ Ho) as (Hb & Hl & Hpos & _). destruct Ho as [Hok (_ & _ & Hc) Hnd Hpk Hrd Hty Hpay].
  assert (Hok' : net_ok (shift_pbuf (- n) p b s) l) by (apply (shifted_ok _ _ _ _ o); [done..|lia]).
  assert (Hpay' : payload (shifted (- n) b) = Some (o + n)) by (cbn; rewrite Hpay; cbn; f_equal; lia).
  assert (Hb' : pbufs (shift_pbuf (- n) p b s) !! p = Some (shifted (- n) b)) by apply lookup_insert_eq.
  split; [done| |done| | |done|done].
  - split; [done|]. split; [done|]. eapply chain_frame; [|exact Hc]. intros q Hq. apply lookup_insert_ne. intros ->. by apply nodup_cons in Hnd as [? _].
  - destruct Hpk as (Ht & Hl' & Hpk). split; [cbn; lia|]. split; [cbn; lia|done].
  - apply Forall_cons_1 in Hrd as [_ Hrd]. apply Forall_cons_2; [|done]. split; [apply (nok_home _ _ Hok' _ _ Hb')|by eexists].
Qed.
Lemma frame_received s l p b c o m : frame_in s l p b c o m ->
  LwipIpInput.received (shift_pbuf (- SIZEOF_ETH_HDR) p b s) l p (shifted (- SIZEOF_ETH_HDR) b) c (o + SIZEOF_ETH_HDR) (fun i => m (SIZEOF_ETH_HDR + i)).
Proof.
  intros [Ho Hty Hs Hrm Hm Hoct [Hl Hsz]]. unfold SIZEOF_ETH_HDR in *. destruct (outgoing_shifted s l p b c o 14 Ho) as [Hok Hc Hnd Hpk Hrd _ Hpay]; [lia|].
  split; try done.
  - apply Forall_cons_1 in Hs as [[Hr Hown] Hs]. apply Forall_cons_2; [|done]. split; [done|]. intros _. by eexists.
  - cbn. lia.
  - intros i _. rewrite <- Hm. destruct p; cbn; f_equal; lia.
  - cbn. lia.
Qed.

(** The bytes of the first pbuf, as the contents have them. *)
Lemma contents_at s p b c o i : payload b = Some o -> 0 <= i < len b -> contents s ((p, b) :: c) !! Z.to_nat i = Some (bytes_at s p (o + i)).
Proof.
  intros Ho Hi. cbn [contents]. rewrite (data_prefix s p b o) by done. rewrite lookup_app_l by (rewrite prefix_length; lia).
  rewrite prefix_lookup by lia. by rewrite Z2Nat.id by lia.
Qed.
Lemma arrived_byte n s p b b' c c1 k l' o i : LwipIpInput.arrived n s p ((p, b) :: c) ((p, b') :: c1) k l' ->
  payload b = Some o -> payload b' = Some o -> 0 <= i < len b' -> i < len b -> i < n -> bytes_at k p (o + i) = bytes_at s p (o + i).
Proof.
  intros Ha Ho Ho' Hi Hib Hn. pose proof (contents_at k p b' c1 o i Ho' Hi) as H1. rewrite (LwipIpInput.arr_contents _ _ _ _ _ _ _ Ha) in H1.
  rewrite lookup_take_lt in H1 by lia. rewrite (contents_at s p b c o i Ho) in H1 by lia. by injection H1.
Qed.

(** A datagram at its IP header is for the control block [u] at [q]: its lengths are
    right, it is no fragment, some interface takes it, nobody else wants it. *)
Record for_block (t : stack) (n : netif_ptr) (f : netif) (m : Z -> Z) (b : pbuf) (q : ptr) (u : udp_pcb) : Prop := {
  fb_netif : netifs t !! n = Some f;
  fb_well_formed : LwipIpInput.well_formed m b = true;
  fb_verdict : exists l2, interfaces t l2 /\ LwipIpInput.ip_verdict m (LwipIpInput.receiver (le32 m ip_dest) n f l2) f = LwipIpInput.Deliver;
  fb_udp : m 9 = IP_PROTO_UDP;
  fb_headers : IP_HLEN <= ihl m /\ ihl m + UDP_HLEN <= len b /\ ihl m + UDP_HLEN <= ip_total m;
  fb_raw : raw_pcbs (raws t) = None;
  fb_port : dg_dport m <> DHCP_CLIENT_PORT;
  fb_taker : exists l3, active t l3 /\ taker m f l3 = Some q /\ (q, u) ∈ l3
}.
(** A packet with the contents [data] for the application. *)
Record handed (data : list Z) (k : net) (l : list block) (p : ptr) (c : list (ptr * pbuf)) : Prop := {
  hd_ok : net_ok k l;
  hd_chain : chain (pbufs k) (Some p) c;
  hd_nodup : NoDup c.*1;
  hd_packet : packet c;
  hd_readable : readable c;
  hd_data : contents k c = data
}.

Lemma same_dg m m' : 20 <= ihl m -> (forall i, 0 <= i < ihl m + 4 -> m' i = m i) ->
  ihl m' = ihl m /\ dg_src m' = dg_src m /\ dg_dest m' = dg_dest m /\ dg_sport m' = dg_sport m /\ dg_dport m' = dg_dport m.
Proof.
  intros Hih Hs. assert (Hi : ihl m' = ihl m) by (unfold ihl; by rewrite Hs by lia). split; [done|].
  unfold dg_src, dg_dest, dg_sport, dg_dport, ip_src, ip_dest, udp_src, udp_dest. rewrite Hi.
  split; [apply MemFacts.le32_ext; intros; apply Hs; lia|]. split; [apply MemFacts.le32_ext; intros; apply Hs; lia|].
  split; f_equal; apply MemFacts.le16_ext; apply Hs; lia.
Qed.

(** For whom a datagram is depends on its header and the lengths of the packet only. *)
Lemma for_block_ext t n f m m' b b' q u k : for_block t n f m b q u -> len b' = len b -> tot_len b' = tot_len b ->
  (forall i, 0 <= i < ihl m + 4 -> m' i = m i) -> for_block (set_net k t) n f m' b' q u.
Proof.
  intros [Hn Hwf Hv Hudp Hx Hraw Hport Htk] Hlen Htot Hs. unfold IP_HLEN in *.
  destruct (same_dg m m') as (Eih & Esrc & Edst & Esp & Edp); [lia|done|]. unfold dg_src, dg_dest in Esrc, Edst.
  assert (E16 : forall i, 0 <= i <= ihl m + 2 -> le16 m' i = le16 m i) by (intros; apply MemFacts.le16_ext; apply Hs; lia).
  assert (Etot : ip_total m' = ip_total m) by (unfold ip_total; by rewrite E16 by (unfold ip_len; lia)).
  split; try done.
  - unfold LwipIpInput.well_formed in *. by rewrite Hlen, Htot, Eih, Etot, Hs by lia.
  - destruct Hv as (l2 & Hl & Hv). exists l2. split; [done|]. rewrite <- Hv, Edst. unfold LwipIpInput.ip_verdict, LwipIpInput.for_dhcp.
    rewrite Esrc, Eih, (Hs 9), !E16 by (unfold udp_dest, ip_offset; lia). done.
  - by rewrite Hs by lia.
  - unfold IP_HLEN. by rewrite Eih, Hlen, Etot.
  - by rewrite Edp.
  - destruct Htk as (l3 & Ha & Ht & Hin). exists l3. split; [done|]. split; [|done]. rewrite <- Ht. unfold taker. unfold dg_src, dg_dest. by rewrite Esrc, Edst, Esp, Edp.
Qed.

Lemma ip_udp_run t w l p b c o m n f q u fn : LwipIpInput.received (s_net t) l p b c o m -> for_block t n f m b q u -> recv u = Some fn ->
  exists pl pm k c' l', handed (firstn (Z.to_nat (ip_total m - ihl m - UDP_HLEN)) (skipn (Z.to_nat (ihl m + UDP_HLEN)) (contents (s_net t) ((p, b) :: c)))) k l' p c' /\
    ip_input call_output ip_frag call_recv ip_reass (raw_input call_raw) tcp_input p n (put_stack t w)
    = (_ ← call_recv fn (recv_arg u) q p (dg_src m) (dg_sport m); _ ← mod_stack (set_current None None); mret ERR_OK)
        (put_stack (set_net k (set_udp_pcbs pl (set_pcbs pm (set_current (Some n) (Some (p, o)) t)))) w).
Proof.
  intros Hr [Hn Hwf (l2 & Hl2 & Hv) Hudp (Hx1 & Hx2 & Hx3) Hraw Hport (l3 & Hact & Htk & Hin)] Hfn. unfold IP_HLEN, UDP_HLEN in *.
  pose proof (LwipIpInput.ip_input_run call_output ip_frag call_recv ip_reass (raw_input call_raw) tcp_input t w l p b c o m n f l2 Hr Hn Hl2) as Hrun.
  cbv zeta in Hrun. rewrite Hwf, Hv in Hrun. destruct Hrun as (k & c' & l' & Harr & Hrun). rewrite Hrun. clear Hrun.
  pose proof Hr as [Hok Hc Hnd Hpk Hsole Hrd Hty Ho Hroom Hm Hoct Hsz]. pose proof Harr as [Hok1 Hc1 Hpk1 Hlen1 Hcon1 Hnd1 Hrd1 Hhd].
  destruct (Hhd b c eq_refl) as (b1 & c1 & -> & Hty1 & Ho1 & Hl1 & Ht1). rewrite Ho in Ho1. rewrite Hty in Hty1.
  set (m1 := fun i => bytes_at k p (o + i)). pose proof (LwipIpInput.ihl_bound m) as Hih.
  assert (Hs : forall i, 0 <= i < ihl m + 4 -> m1 i = m i).
  { intros i Hi. rewrite <- Hm by lia. apply (arrived_byte _ _ _ _ _ _ _ _ _ _ _ Harr); [done|done|lia..]. }
  destruct (same_dg m m1) as (Eih & Esrc & Edst & Esp & Edp); [done|done|].
  assert (Hdg : datagram k l' p b1 c1 o m1).
  { split; [split; try done; by right|done| |unfold IP_HLEN, UDP_HLEN; lia|rewrite Ht1; unfold ip_total; pose proof (htons_bound (le16 m ip_len)); lia].
    intros i Hi. rewrite Hs by lia. by apply Hoct. }
  destruct (outgoing_lens _ _ _ _ _ _ (dg_out _ _ _ _ _ _ _ Hdg)) as (Hb1 & Hbl & Hpos & Hrm).
  set (t1 := set_current (Some n) (Some (p, o)) (set_net k t)).
  destruct (udp_input_run call_output ip_frag call_recv t1 w l' p b1 c1 o m1 n f l3) as (t2 & r & Honly & Hr' & Hin' & Hcon & Hu); [done|done|done|by rewrite Edp|].
  assert (Htk1 : taker m1 f l3 = Some q) by (rewrite <- Htk; unfold taker; by rewrite Esrc, Edst, Esp, Edp). rewrite Htk1 in Hr'.
  destruct r as [[q' v]|]; [|done]. cbn [fmap option_fmap option_map fst] in Hr'. injection Hr' as ->.
  pose proof (Hin' _ eq_refl) as Hv'. destruct Hact as [Hact _]. pose proof (pcb_list_in _ _ _ _ _ Hact Hin) as Hu1. rewrite (pcb_list_in _ _ _ _ _ Hact Hv') in Hu1. injection Hu1 as ->.
  destruct Honly as (pl & pm & ->). unfold hand_over in Hu. rewrite Hfn, Eih, Esrc, Esp in Hu. unfold UDP_HLEN in Hu.
  exists pl, pm, (shift_pbuf (- (ihl m + 8)) p b1 k), ((p, shifted (- (ihl m + 8)) b1) :: c1), l'. split.
  - destruct (outgoing_shifted k l' p b1 c1 o (ihl m + 8) (dg_out _ _ _ _ _ _ _ Hdg)) as []; [lia|]. split; try done.
    pose proof (Hcon (ihl m + 8) ltac:(lia)) as Hcon2. cbn [t1 s_net set_current set_net] in Hcon2. rewrite Hcon2, Hcon1, skipn_firstn_comm. f_equal. lia.
  - unfold LwipIpInput.act, LwipIpInput.deliver. unfold mbind, M_bind.
    rewrite (deliver_udp_run (set_net k t) w l' p b1 o m1 n); [|done..| |by destruct Hdg|done| |done]; [|split; lia|by rewrite Hs by lia].
    change (set_current (Some n) (Some (p, o)) (set_net k t)) with t1. unfold mbind, M_bind. rewrite Hu.
    change (set_net ?a (set_udp_pcbs pl (set_pcbs pm t1))) with (set_net a (set_udp_pcbs pl (set_pcbs pm (set_current (Some n) (Some (p, o)) t)))).
    by destruct (call_recv _ _ _ _ _ _ _).
Qed.

(** What the application sees: the address and the port of the sender, and a packet with the
    data of the datagram. *)
Lemma ethernet_udp_run t w l p b c o m n f q u fn (d := fun i => m (SIZEOF_ETH_HDR + i)) : frame_in (s_net t) l p b c o m -> idle_cache t ->
  htons (le16 m eth_type) = ETHTYPE_IP -> for_block t n f d (shifted (- SIZEOF_ETH_HDR) b) q u -> recv u = Some fn ->
  exists i tab pl pm k c' l',
    handed (firstn (Z.to_nat (ip_total d - ihl d - UDP_HLEN)) (skipn (Z.to_nat (SIZEOF_ETH_HDR + ihl d + UDP_HLEN)) (contents (s_net t) ((p, b) :: c)))) k l' p c' /\
    ethernet_input call_linkoutput dhcp_decline (ip_input call_output ip_frag call_recv ip_reass (raw_input call_raw) tcp_input) p n (put_stack t w)
    = (_ ← call_recv fn (recv_arg u) q p (dg_src d) (dg_sport d); _ ← mod_stack (set_current None None); mret ERR_OK)
        (put_stack (set_net k (set_udp_pcbs pl (set_pcbs pm (set_current (Some n) (Some (p, o + SIZEOF_ETH_HDR)) (cache_after i tab t))))) w).
Proof.
  intros Hfr Hidle Htype Hfb Hfn. pose proof (frame_received _ _ _ _ _ _ _ Hfr) as Hrcv. pose proof Hfr as [Ho _ _ _ Hm _ [Hl Hsz]].
  destruct (ethernet_input_run (ip_input call_output ip_frag call_recv ip_reass (raw_input call_raw) tcp_input) t w l p b c o m n f) as (i & tab & Hrun);
    [done..|by destruct Hfb|done|]. rewrite Hrun. set (t1 := set_net (shift_pbuf (- SIZEOF_ETH_HDR) p b (s_net t)) (cache_after i tab t)).
  destruct (ip_udp_run t1 w l p (shifted (- SIZEOF_ETH_HDR) b) c (o + SIZEOF_ETH_HDR) d n f q u fn) as (pl & pm & k & c' & l' & Hh & Hrun1); [done|by destruct Hfb|done|].
  exists i, tab, pl, pm, k, c', l'. split.
  - destruct Hh as [H1 H2 H3 H4 H5 H6]. split; try done. rewrite H6. cbn [t1 s_net set_net]. unfold SIZEOF_ETH_HDR in *.
    rewrite (contents_shifted (s_net t) _ p b c o 14); [|by destruct Ho|lia|by intros []]. destruct Hfb as [_ _ _ _ (? & _) _ _ _]. unfold IP_HLEN in *.
    rewrite skipn_skipn. do 2 f_equal. unfold UDP_HLEN. lia.
  - unfold mbind, M_bind. rewrite Hrun1. unfold mbind, M_bind. by destruct (call_recv _ _ _ _ _ _ _).
Qed.

(** C11. A datagram in a frame reaches its callback: of a frame in a packet
    of the pool that has good lengths and belongs to the control block [u],
    ethernet_input, ip_input and udp_input make one call of the callback, with the address
    and the port of the sender and a packet whose contents are the data of the
    datagram, byte for byte, without the three headers and without the padding of the frame
    (the end of the data is that of the IP packet: the length in the UDP header is not
    looked at); outside the packets only the cache of ARP, the list of control blocks and the record of the current
    packet may differ from before. *)
Theorem frame_reaches_callback t w l p b c o m n f q u fn (d := fun i => m (SIZEOF_ETH_HDR + i)) : frame_in (s_net t) l p b c o m -> idle_cache t ->
  htons (le16 m eth_type) = ETHTYPE_IP -> for_block t n f d (shifted (- SIZEOF_ETH_HDR) b) q u -> recv u = Some fn ->
  exists i tab pl pm k c' l',
    handed (firstn (Z.to_nat (ip_total d - ihl d - UDP_HLEN)) (skipn (Z.to_nat (SIZEOF_ETH_HDR + ihl d + UDP_HLEN)) (contents (s_net t) ((p, b) :: c)))) k l' p c' /\
    ethernet_input call_linkoutput dhcp_decline (ip_input call_output ip_frag call_recv ip_reass (raw_input call_raw) tcp_input) p n (put_stack t w)
    = (_ ← call_recv fn (recv_arg u) q p (dg_src d) (dg_sport d); _ ← mod_stack (set_current None None); mret ERR_OK)
        (put_stack (set_net k (set_udp_pcbs pl (set_pcbs pm (set_current (Some n) (Some (p, o + SIZEOF_ETH_HDR)) (cache_after i tab t))))) w).
Proof. intros. by eapply ethernet_udp_run. Qed.
End frames.

Lemma note_frame : frame_in (note_net 0) [(MEM_SIZE_ALIGNED, false)] ping_ptr (note_pbuf 0) [] 0 note_bytes.
Proof.
  split; [by apply note_outgoing|done| |done|done|intros i _; apply note_octets|by split].
  apply Forall_cons_2; [|apply Forall_nil_2]. split; [done|]. intros _. by eexists.
Qed.
Lemma note_for_block : for_block (note_stack 0) 0%nat ping_netif note_header (shifted (- SIZEOF_ETH_HDR) (note_pbuf 0)) note_block note_pcb.
Proof.
  split; [done|by vm_compute| |done|by split|done|by vm_compute|].
  - exists [(0%nat, ping_netif)]. split; [apply (ping_interfaces 0 45)|by vm_compute].
  - exists [(note_block, note_pcb)]. split; [apply note_active|]. split; [by vm_compute|by left].
Qed.
Definition note_link (_ : linkoutput_fn) (_ : netif_ptr) (_ : option ptr) : M stack Z := mret ERR_OK.
Definition note_dhcp (_ : netif_ptr) : M stack unit := mret tt.
Definition note_raw (_ : raw_recv_fn) (_ : option ptr) (_ _ : ptr) (_ : Z) : M stack bool := mret false.
Lemma frame_reaches_callback_witness (t := note_stack 0) (w := note_stack 0) (d := note_header) :
  exists i tab pl pm k c' l',
    handed [1; 2; 3] k l' ping_ptr c' /\
    ethernet_input note_link note_dhcp (ip_input any_output any_frag note_recv LwipIpInput.no_reass (raw_input note_raw) LwipIpInput.no_tcp) ping_ptr 0%nat (put_stack t w)
    = (_ ← note_recv udp_receive_callback_ptr None note_block ping_ptr (IP4_ADDR 192 168 1 2) 5000; _ ← mod_stack (set_current None None); mret ERR_OK)
        (put_stack (set_net k (set_udp_pcbs pl (set_pcbs pm (set_current (Some 0%nat) (Some (ping_ptr, 14)) (cache_after i tab t))))) w).
Proof.
  apply (frame_reaches_callback note_link note_dhcp any_output any_frag note_recv LwipIpInput.no_reass note_raw LwipIpInput.no_tcp t w [(MEM_SIZE_ALIGNED, false)] ping_ptr (note_pbuf 0) [] 0
    note_bytes 0%nat ping_netif note_block note_pcb udp_receive_callback_ptr); [apply note_frame| |by vm_compute|apply note_for_block|done].
  split; [done| | |done].
  - by repeat (apply Forall_cons_2; [by split|]).
  - by repeat (apply Forall_cons_2; [done|]).
Defined.
