(* ===== verification/EthDriver.v ===== *)
(** The Ethernet MAC driver: stm32_eth.c, the functions that the firmware uses; EthMac.v
    has the others.
    Descriptors and frame buffers are memory that the DMA engine shares, so they
    are reached through the bus, at the addresses that the linker gave them. *)
From S2P Require Import Prelude Mmio Rcc.

(** * Registers (ETH_TypeDef) *)
Definition ETH_BASE : Z := 0x40028000.
Definition ETH_MACCR := ETH_BASE + 0x00.
Definition ETH_MACFFR := ETH_BASE + 0x04.
Definition ETH_MACHTHR := ETH_BASE + 0x08.
Definition ETH_MACHTLR := ETH_BASE + 0x0C.
Definition ETH_MACMIIAR := ETH_BASE + 0x10.
Definition ETH_MACMIIDR := ETH_BASE + 0x14.
Definition ETH_MACFCR := ETH_BASE + 0x18.
Definition ETH_MACVLANTR := ETH_BASE + 0x1C.
Definition ETH_MAC_ADDR_HBASE := ETH_BASE + 0x40.
Definition ETH_MAC_ADDR_LBASE := ETH_BASE + 0x44.
Definition ETH_DMABMR := ETH_BASE + 0x1000.
Definition ETH_DMATPDR := ETH_BASE + 0x1004.
Definition ETH_DMARPDR := ETH_BASE + 0x1008.
Definition ETH_DMARDLAR := ETH_BASE + 0x100C.
Definition ETH_DMATDLAR := ETH_BASE + 0x1010.
Definition ETH_DMASR := ETH_BASE + 0x1014.
Definition ETH_DMAOMR := ETH_BASE + 0x1018.
Definition ETH_DMAIER := ETH_BASE + 0x101C.

Definition ETH_MACCR_TE : Z := 0x00000008.
Definition ETH_MACCR_RE : Z := 0x00000004.
Definition ETH_MACMIIAR_PA : Z := 0x0000F800.
Definition ETH_MACMIIAR_MR : Z := 0x000007C0.
Definition ETH_MACMIIAR_CR_Div42 : Z := 0x00000000.
Definition ETH_MACMIIAR_CR_Div16 : Z := 0x00000008.
Definition ETH_MACMIIAR_CR_Div26 : Z := 0x0000000C.
Definition ETH_MACMIIAR_MW : Z := 0x00000002.
Definition ETH_MACMIIAR_MB : Z := 0x00000001.
Definition ETH_DMABMR_USP : Z := 0x00800000.
Definition ETH_DMABMR_SR : Z := 0x00000001.
Definition ETH_DMASR_RBUS : Z := 0x00000080.
Definition ETH_DMASR_TBUS : Z := 0x00000004.
Definition ETH_DMAOMR_FTF : Z := 0x00100000.
Definition ETH_DMAOMR_ST : Z := 0x00002000.
Definition ETH_DMAOMR_SR : Z := 0x00000002.
Definition MACMIIAR_CR_MASK : Z := 0xFFFFFFE3.
Definition MACCR_CLEAR_MASK : Z := 0xFF20810F.
Definition MACFCR_CLEAR_MASK : Z := 0x0000FF41.
Definition DMAOMR_CLEAR_MASK : Z := 0xF8DE3F23.
Definition ETH_DMA_IT_NIS : Z := 0x00010000.
Definition ETH_DMA_IT_R : Z := 0x00000040.
Definition ETH_MAC_Address0 : Z := 0x00000000.
Definition RCC_AHBPeriph_ETH_MAC : Z := 0x00004000.
Definition ETH_ERROR : Z := 0.
Definition ETH_SUCCESS : Z := 1.

(** The PHY. *)
Definition PHY_READ_TO : Z := 0x0004FFFF.
Definition PHY_WRITE_TO : Z := 0x0004FFFF.
Definition PHY_ResetDelay : Z := 0x000FFFFF.
Definition PHY_ConfigDelay : Z := 0x00FFFFFF.
Definition PHY_BCR : Z := 0.
Definition PHY_BSR : Z := 1.
Definition PHY_SR : Z := 16.
Definition PHY_Reset : Z := 0x8000.
Definition PHY_AutoNegotiation : Z := 0x1000.
Definition PHY_AutoNego_Complete : Z := 0x0020.
Definition PHY_Linked_Status : Z := 0x0004.
Definition PHY_Speed_Status : Z := 0x0002.
Definition PHY_Duplex_Status : Z := 0x0004.

(** * DMA descriptors (ETH_DMADESCTypeDef) *)
Definition Status (d : Z) : Z := d.
Definition ControlBufferSize (d : Z) : Z := d + 4.
Definition Buffer1Addr (d : Z) : Z := d + 8.
Definition Buffer2NextDescAddr (d : Z) : Z := d + 12.
Definition SIZEOF_DMADESC : Z := 16.
Definition ETH_MAX_PACKET_SIZE : Z := 1520.
Definition ETH_DMATxDesc_OWN : Z := 0x80000000.
Definition ETH_DMATxDesc_LS : Z := 0x20000000.
Definition ETH_DMATxDesc_FS : Z := 0x10000000.
Definition ETH_DMATxDesc_TCH : Z := 0x00100000.
Definition ETH_DMATxDesc_TBS1 : Z := 0x00001FFF.
Definition ETH_DMATxDesc_ChecksumTCPUDPICMPFull : Z := 0x00C00000.
Definition ETH_DMARxDesc_OWN : Z := 0x80000000.
Definition ETH_DMARxDesc_FL : Z := 0x3FFF0000.
Definition ETH_DMARxDesc_ES : Z := 0x00008000.
Definition ETH_DMARxDesc_FS : Z := 0x00000200.
Definition ETH_DMARxDesc_LS : Z := 0x00000100.
Definition ETH_DMARxDesc_DIC : Z := 0x80000000.
Definition ETH_DMARxDesc_RCH : Z := 0x00004000.
Definition ETH_DMARXDESC_FRAME_LENGTHSHIFT : Z := 16.

(** * ETH_InitTypeDef *)
(** Values of the fields (stm32_eth.h). *)
Definition ETH_AutoNegotiation_Disable : Z := 0x0.
Definition ETH_Watchdog_Enable : Z := 0x0.
Definition ETH_Jabber_Enable : Z := 0x0.
Definition ETH_InterFrameGap_96Bit : Z := 0x0.
Definition ETH_CarrierSense_Enable : Z := 0x0.
Definition ETH_Speed_10M : Z := 0x0.
Definition ETH_ReceiveOwn_Enable : Z := 0x0.
Definition ETH_LoopbackMode_Disable : Z := 0x0.
Definition ETH_Mode_HalfDuplex : Z := 0x0.
Definition ETH_ChecksumOffload_Disable : Z := 0x0.
Definition ETH_RetryTransmission_Enable : Z := 0x0.
Definition ETH_AutomaticPadCRCStrip_Disable : Z := 0x0.
Definition ETH_BackOffLimit_10 : Z := 0x0.
Definition ETH_DeferralCheck_Disable : Z := 0x0.
Definition ETH_ReceiveAll_Disable : Z := 0x0.
Definition ETH_SourceAddrFilter_Disable : Z := 0x0.
Definition ETH_PassControlFrames_BlockAll : Z := 0x00000040.
Definition ETH_BroadcastFramesReception_Disable : Z := 0x00000020.
Definition ETH_DestinationAddrFilter_Normal : Z := 0x0.
Definition ETH_PromiscuousMode_Disable : Z := 0x0.
Definition ETH_MulticastFramesFilter_Perfect : Z := 0x0.
Definition ETH_UnicastFramesFilter_Perfect : Z := 0x0.
Definition ETH_ZeroQuantaPause_Disable : Z := 0x00000080.
Definition ETH_PauseLowThreshold_Minus4 : Z := 0x0.
Definition ETH_UnicastPauseFrameDetect_Disable : Z := 0x0.
Definition ETH_ReceiveFlowControl_Disable : Z := 0x0.
Definition ETH_TransmitFlowControl_Disable : Z := 0x0.
Definition ETH_VLANTagComparison_16Bit : Z := 0x0.
Definition ETH_DropTCPIPChecksumErrorFrame_Disable : Z := 0x04000000.
Definition ETH_ReceiveStoreForward_Enable : Z := 0x02000000.
Definition ETH_FlushReceivedFrame_Disable : Z := 0x01000000.
Definition ETH_TransmitStoreForward_Enable : Z := 0x00200000.
Definition ETH_TransmitThresholdControl_64Bytes : Z := 0x0.
Definition ETH_ForwardErrorFrames_Disable : Z := 0x0.
Definition ETH_ForwardUndersizedGoodFrames_Disable : Z := 0x0.
Definition ETH_ReceiveThresholdControl_64Bytes : Z := 0x0.
Definition ETH_SecondFrameOperate_Disable : Z := 0x0.
Definition ETH_AddressAlignedBeats_Enable : Z := 0x02000000.
Definition ETH_FixedBurst_Disable : Z := 0x0.
Definition ETH_RxDMABurstLength_1Beat : Z := 0x00020000.
Definition ETH_TxDMABurstLength_1Beat : Z := 0x00000100.
Definition ETH_DMAArbitration_RoundRobin_RxTx_1_1 : Z := 0x0.
Definition ETH_Mode_FullDuplex : Z := 0x00000800.
Definition ETH_Speed_100M : Z := 0x00004000.
Definition ETH_ChecksumOffload_Enable : Z := 0x00000400.
Definition ETH_BroadcastFramesReception_Enable : Z := 0x0.
Definition ETH_DropTCPIPChecksumErrorFrame_Enable : Z := 0x0.
Definition ETH_SecondFrameOperate_Enable : Z := 0x00000004.
Definition ETH_FixedBurst_Enable : Z := 0x00010000.
Definition ETH_RxDMABurstLength_32Beat : Z := 0x00400000.
Definition ETH_TxDMABurstLength_32Beat : Z := 0x00002000.
Definition ETH_DMAArbitration_RoundRobin_RxTx_2_1 : Z := 0x00004000.

(** [ETH_InitTypeDef]: a value for every field. *)
Inductive eth_field : Set :=
  | ETH_AutoNegotiation | ETH_Watchdog | ETH_Jabber | ETH_InterFrameGap | ETH_CarrierSense
  | ETH_Speed | ETH_ReceiveOwn | ETH_LoopbackMode | ETH_Mode | ETH_ChecksumOffload
  | ETH_RetryTransmission | ETH_AutomaticPadCRCStrip | ETH_BackOffLimit | ETH_DeferralCheck
  | ETH_ReceiveAll | ETH_SourceAddrFilter | ETH_PassControlFrames | ETH_BroadcastFramesReception
  | ETH_DestinationAddrFilter | ETH_PromiscuousMode | ETH_MulticastFramesFilter
  | ETH_UnicastFramesFilter | ETH_HashTableHigh | ETH_HashTableLow | ETH_PauseTime
  | ETH_ZeroQuantaPause | ETH_PauseLowThreshold | ETH_UnicastPauseFrameDetect
  | ETH_ReceiveFlowControl | ETH_TransmitFlowControl | ETH_VLANTagComparison
  | ETH_VLANTagIdentifier | ETH_DropTCPIPChecksumErrorFrame | ETH_ReceiveStoreForward
  | ETH_FlushReceivedFrame | ETH_TransmitStoreForward | ETH_TransmitThresholdControl
  | ETH_ForwardErrorFrames | ETH_ForwardUndersizedGoodFrames | ETH_ReceiveThresholdControl
  | ETH_SecondFrameOperate | ETH_AddressAlignedBeats | ETH_FixedBurst | ETH_RxDMABurstLength
  | ETH_TxDMABurstLength | ETH_DescriptorSkipLength | ETH_DMAArbitration.
#[global] Instance eth_field_eq_dec : EqDecision eth_field.
Proof. solve_decision. Defined.
Definition ETH_InitTypeDef : Type := eth_field -> Z.
Definition set_field (f : eth_field) (v : Z) (e : ETH_InitTypeDef) : ETH_InitTypeDef :=
  fun g => if decide (g = f) then v else e g.
Definition fields_or (e : ETH_InitTypeDef) (l : list eth_field) : Z := fold_left (fun x f => Z.lor x (e f)) l 0.

Definition ETH_StructInit : ETH_InitTypeDef := fun f =>
  match f with
  | ETH_AutoNegotiation => ETH_AutoNegotiation_Disable
  | ETH_Watchdog => ETH_Watchdog_Enable
  | ETH_Jabber => ETH_Jabber_Enable
  | ETH_InterFrameGap => ETH_InterFrameGap_96Bit
  | ETH_CarrierSense => ETH_CarrierSense_Enable
  | ETH_Speed => ETH_Speed_10M
  | ETH_ReceiveOwn => ETH_ReceiveOwn_Enable
  | ETH_LoopbackMode => ETH_LoopbackMode_Disable
  | ETH_Mode => ETH_Mode_HalfDuplex
  | ETH_ChecksumOffload => ETH_ChecksumOffload_Disable
  | ETH_RetryTransmission => ETH_RetryTransmission_Enable
  | ETH_AutomaticPadCRCStrip => ETH_AutomaticPadCRCStrip_Disable
  | ETH_BackOffLimit => ETH_BackOffLimit_10
  | ETH_DeferralCheck => ETH_DeferralCheck_Disable
  | ETH_ReceiveAll => ETH_ReceiveAll_Disable
  | ETH_SourceAddrFilter => ETH_SourceAddrFilter_Disable
  | ETH_PassControlFrames => ETH_PassControlFrames_BlockAll
  | ETH_BroadcastFramesReception => ETH_BroadcastFramesReception_Disable
  | ETH_DestinationAddrFilter => ETH_DestinationAddrFilter_Normal
  | ETH_PromiscuousMode => ETH_PromiscuousMode_Disable
  | ETH_MulticastFramesFilter => ETH_MulticastFramesFilter_Perfect
  | ETH_UnicastFramesFilter => ETH_UnicastFramesFilter_Perfect
  | ETH_HashTableHigh => 0x0
  | ETH_HashTableLow => 0x0
  | ETH_PauseTime => 0x0
  | ETH_ZeroQuantaPause => ETH_ZeroQuantaPause_Disable
  | ETH_PauseLowThreshold => ETH_PauseLowThreshold_Minus4
  | ETH_UnicastPauseFrameDetect => ETH_UnicastPauseFrameDetect_Disable
  | ETH_ReceiveFlowControl => ETH_ReceiveFlowControl_Disable
  | ETH_TransmitFlowControl => ETH_TransmitFlowControl_Disable
  | ETH_VLANTagComparison => ETH_VLANTagComparison_16Bit
  | ETH_VLANTagIdentifier => 0x0
  | ETH_DropTCPIPChecksumErrorFrame => ETH_DropTCPIPChecksumErrorFrame_Disable
  | ETH_ReceiveStoreForward => ETH_ReceiveStoreForward_Enable
  | ETH_FlushReceivedFrame => ETH_FlushReceivedFrame_Disable
  | ETH_TransmitStoreForward => ETH_TransmitStoreForward_Enable
  | ETH_TransmitThresholdControl => ETH_TransmitThresholdControl_64Bytes
  | ETH_ForwardErrorFrames => ETH_ForwardErrorFrames_Disable
  | ETH_ForwardUndersizedGoodFrames => ETH_ForwardUndersizedGoodFrames_Disable
  | ETH_ReceiveThresholdControl => ETH_ReceiveThresholdControl_64Bytes
  | ETH_SecondFrameOperate => ETH_SecondFrameOperate_Disable
  | ETH_AddressAlignedBeats => ETH_AddressAlignedBeats_Enable
  | ETH_FixedBurst => ETH_FixedBurst_Disable
  | ETH_RxDMABurstLength => ETH_RxDMABurstLength_1Beat
  | ETH_TxDMABurstLength => ETH_TxDMABurstLength_1Beat
  | ETH_DescriptorSkipLength => 0x0
  | ETH_DMAArbitration => ETH_DMAArbitration_RoundRobin_RxTx_1_1
  end.

(** * The globals of stm32_eth.c: pointers to descriptors *)
Record eth_globals : Type := EthGlobals {
  DMATxDescToSet : Z; DMARxDescToGet : Z; DMAPTPTxDescToSet : Z; DMAPTPRxDescToGet : Z
}.
Definition set_tx_desc (d : Z) (g : eth_globals) : eth_globals :=
  EthGlobals d (DMARxDescToGet g) (DMAPTPTxDescToSet g) (DMAPTPRxDescToGet g).
Definition set_rx_desc (d : Z) (g : eth_globals) : eth_globals :=
  EthGlobals (DMATxDescToSet g) d (DMAPTPTxDescToSet g) (DMAPTPRxDescToGet g).
Definition set_ptp_tx_desc (d : Z) (g : eth_globals) : eth_globals :=
  EthGlobals (DMATxDescToSet g) (DMARxDescToGet g) d (DMAPTPRxDescToGet g).
Definition set_ptp_rx_desc (d : Z) (g : eth_globals) : eth_globals :=
  EthGlobals (DMATxDescToSet g) (DMARxDescToGet g) (DMAPTPTxDescToSet g) d.

Section eth.
Context {H : Type} `{Bus H}.

Definition ETH_DeInit : M H unit :=
  _ ← RCC_AHBPeriphResetCmd RCC_AHBPeriph_ETH_MAC ENABLE;
  RCC_AHBPeriphResetCmd RCC_AHBPeriph_ETH_MAC DISABLE.

(** ** The PHY *)

(** The loops on [timeout]: they leave when the bit is clear (or set), or when
    the count is reached. *)
Definition mii_busy_body (limit timeout : Z) : M H (Z + Z) :=
  let timeout := timeout + 1 in
  tmpreg ← rd32 ETH_MACMIIAR;
  mret (if negb (Z.land tmpreg ETH_MACMIIAR_MB =? 0) && (timeout <? limit) then inl timeout else inr timeout).
Definition mii_address (cr phy reg : Z) : Z :=
  let tmpreg := Z.land cr (not32 MACMIIAR_CR_MASK) in
  let tmpreg := Z.lor tmpreg (Z.land (u32 (Z.shiftl phy 11)) ETH_MACMIIAR_PA) in
  Z.lor tmpreg (Z.land (u32 (Z.shiftl reg 6)) ETH_MACMIIAR_MR).
Definition phy_fuel : positive := 0x50000.

Definition ETH_ReadPHYRegister (PHYAddress PHYReg : Z) : M H Z :=
  cr ← rd32 ETH_MACMIIAR;
  let tmpreg := Z.land (mii_address cr PHYAddress PHYReg) (not32 ETH_MACMIIAR_MW) in
  _ ← wr32 ETH_MACMIIAR (Z.lor tmpreg ETH_MACMIIAR_MB);
  timeout ← loop phy_fuel (mii_busy_body PHY_READ_TO) 0;
  if timeout =? PHY_READ_TO then mret (u16 ETH_ERROR)
  else v ← rd32 ETH_MACMIIDR; mret (u16 v).

Definition ETH_WritePHYRegister (PHYAddress PHYReg PHYValue : Z) : M H Z :=
  cr ← rd32 ETH_MACMIIAR;
  let tmpreg := Z.lor (mii_address cr PHYAddress PHYReg) ETH_MACMIIAR_MW in
  _ ← wr32 ETH_MACMIIDR PHYValue;
  _ ← wr32 ETH_MACMIIAR (Z.lor tmpreg ETH_MACMIIAR_MB);
  timeout ← loop phy_fuel (mii_busy_body PHY_WRITE_TO) 0;
  mret (if timeout =? PHY_WRITE_TO then ETH_ERROR else ETH_SUCCESS).

Definition delay_body (index : Z) : M H (Z + unit) :=
  mret (if negb (index =? 0) then inl (index - 1) else inr tt).
Definition ETH_Delay (nCount : Z) : M H unit := loop 0x1000001 delay_body nCount.

(** ** ETH_Init *)
Definition mii_clock_range (hclk : Z) : Z :=
  if (20000000 <=? hclk) && (hclk <? 35000000) then ETH_MACMIIAR_CR_Div16
  else if (35000000 <=? hclk) && (hclk <? 60000000) then ETH_MACMIIAR_CR_Div26
  else ETH_MACMIIAR_CR_Div42.

Definition phy_status_body (phy mask timeout : Z) : M H (Z + Z) :=
  let timeout := timeout + 1 in
  v ← ETH_ReadPHYRegister phy PHY_BSR;
  mret (if (Z.land v mask =? 0) && (timeout <? PHY_READ_TO) then inl timeout else inr timeout).

(** Auto-negotiation: the mode and the speed that it found, or [None] where
    ETH_Init returns ETH_ERROR. *)
Definition auto_negotiate (phy : Z) (e : ETH_InitTypeDef) : M H (option ETH_InitTypeDef) :=
  timeout ← loop phy_fuel (phy_status_body phy PHY_Linked_Status) 0;
  if timeout =? PHY_READ_TO then mret None
  else
    r ← ETH_WritePHYRegister phy PHY_BCR PHY_AutoNegotiation;
    if r =? 0 then mret None
    else
      timeout ← loop phy_fuel (phy_status_body phy PHY_AutoNego_Complete) 0;
      if timeout =? PHY_READ_TO then mret None
      else
        RegValue ← ETH_ReadPHYRegister phy PHY_SR;
        let e := set_field ETH_Mode (if negb (Z.land RegValue PHY_Duplex_Status =? 0) then ETH_Mode_FullDuplex
                                     else ETH_Mode_HalfDuplex) e in
        mret (Some (set_field ETH_Speed (if negb (Z.land RegValue PHY_Speed_Status =? 0) then ETH_Speed_10M
                                         else ETH_Speed_100M) e)).

(** The mode and the speed that the caller asks for. *)
Definition force_mode (phy : Z) (e : ETH_InitTypeDef) : M H (option ETH_InitTypeDef) :=
  r ← ETH_WritePHYRegister phy PHY_BCR (Z.lor (u16 (Z.shiftr (e ETH_Mode) 3)) (u16 (Z.shiftr (e ETH_Speed) 1)));
  if r =? 0 then mret None
  else _ ← ETH_Delay PHY_ConfigDelay; mret (Some e).

Definition clear_set (reg mask bits : Z) : M H unit := v ← rd32 reg; wr32 reg (Z.lor (Z.land v mask) bits).

(** The registers of the MAC and of the DMA engine. *)
Definition mac_registers (e : ETH_InitTypeDef) : M H unit :=
  _ ← clear_set ETH_MACCR MACCR_CLEAR_MASK
        (fields_or e [ETH_Watchdog; ETH_Jabber; ETH_InterFrameGap; ETH_CarrierSense; ETH_Speed; ETH_ReceiveOwn;
                      ETH_LoopbackMode; ETH_Mode; ETH_ChecksumOffload; ETH_RetryTransmission;
                      ETH_AutomaticPadCRCStrip; ETH_BackOffLimit; ETH_DeferralCheck]);
  _ ← wr32 ETH_MACFFR
        (fields_or e [ETH_ReceiveAll; ETH_SourceAddrFilter; ETH_PassControlFrames; ETH_BroadcastFramesReception;
                      ETH_DestinationAddrFilter; ETH_PromiscuousMode; ETH_MulticastFramesFilter;
                      ETH_UnicastFramesFilter]);
  _ ← wr32 ETH_MACHTHR (e ETH_HashTableHigh);
  _ ← wr32 ETH_MACHTLR (e ETH_HashTableLow);
  _ ← clear_set ETH_MACFCR MACFCR_CLEAR_MASK
        (Z.lor (u32 (Z.shiftl (e ETH_PauseTime) 16))
               (fields_or e [ETH_ZeroQuantaPause; ETH_PauseLowThreshold; ETH_UnicastPauseFrameDetect;
                             ETH_ReceiveFlowControl; ETH_TransmitFlowControl]));
  wr32 ETH_MACVLANTR (fields_or e [ETH_VLANTagComparison; ETH_VLANTagIdentifier]).
Definition dma_registers (e : ETH_InitTypeDef) : M H unit :=
  _ ← clear_set ETH_DMAOMR DMAOMR_CLEAR_MASK
        (fields_or e [ETH_DropTCPIPChecksumErrorFrame; ETH_ReceiveStoreForward; ETH_FlushReceivedFrame;
                      ETH_TransmitStoreForward; ETH_TransmitThresholdControl; ETH_ForwardErrorFrames;
                      ETH_ForwardUndersizedGoodFrames; ETH_ReceiveThresholdControl; ETH_SecondFrameOperate]);
  wr32 ETH_DMABMR
        (Z.lor (Z.lor (fields_or e [ETH_AddressAlignedBeats; ETH_FixedBurst; ETH_RxDMABurstLength;
                                    ETH_TxDMABurstLength; ETH_DMAArbitration])
                      (u32 (Z.shiftl (e ETH_DescriptorSkipLength) 2))) ETH_DMABMR_USP).

Definition ETH_Init (e : ETH_InitTypeDef) (PHYAddress : Z) : M H Z :=
  cr ← rd32 ETH_MACMIIAR;
  clocks ← RCC_GetClocksFreq;
  _ ← wr32 ETH_MACMIIAR (Z.lor (Z.land cr MACMIIAR_CR_MASK) (mii_clock_range (HCLK_Frequency clocks)));
  r ← ETH_WritePHYRegister PHYAddress PHY_BCR PHY_Reset;
  if r =? 0 then mret ETH_ERROR
  else
    _ ← ETH_Delay PHY_ResetDelay;
    r ← (if negb (e ETH_AutoNegotiation =? ETH_AutoNegotiation_Disable) then auto_negotiate PHYAddress e
         else force_mode PHYAddress e);
    match r with
    | None => mret ETH_ERROR
    | Some e => _ ← mac_registers e; _ ← dma_registers e; mret ETH_SUCCESS
    end.

(** ** Starting and resetting *)
Definition eth_switch (reg bit : Z) (NewState : FunctionalState) : M H unit :=
  if bool_decide (NewState <> DISABLE) then or32 reg bit else and32 reg (not32 bit).
Definition ETH_MACTransmissionCmd : FunctionalState -> M H unit := eth_switch ETH_MACCR ETH_MACCR_TE.
Definition ETH_MACReceptionCmd : FunctionalState -> M H unit := eth_switch ETH_MACCR ETH_MACCR_RE.
Definition ETH_FlushTransmitFIFO : M H unit := or32 ETH_DMAOMR ETH_DMAOMR_FTF.
Definition ETH_DMATransmissionCmd : FunctionalState -> M H unit := eth_switch ETH_DMAOMR ETH_DMAOMR_ST.
Definition ETH_DMAReceptionCmd : FunctionalState -> M H unit := eth_switch ETH_DMAOMR ETH_DMAOMR_SR.
Definition ETH_DMAITConfig (it : Z) : FunctionalState -> M H unit := eth_switch ETH_DMAIER it.
Definition ETH_DMAClearITPendingBit (it : Z) : M H unit := wr32 ETH_DMASR it.

Definition ETH_Start : M H unit :=
  _ ← ETH_MACTransmissionCmd ENABLE;
  _ ← ETH_FlushTransmitFIFO;
  _ ← ETH_MACReceptionCmd ENABLE;
  _ ← ETH_DMATransmissionCmd ENABLE;
  ETH_DMAReceptionCmd ENABLE.

Definition ETH_SoftwareReset : M H unit := or32 ETH_DMABMR ETH_DMABMR_SR.
Definition ETH_GetSoftwareResetStatus : M H FlagStatus :=
  v ← rd32 ETH_DMABMR; mret (if negb (Z.land v ETH_DMABMR_SR =? 0) then SET else RESET).

Definition ETH_MACAddressConfig (MacAddr : Z) (Addr : list Z) : M H unit :=
  a5 ← index Addr 5; a4 ← index Addr 4;
  _ ← wr32 (ETH_MAC_ADDR_HBASE + MacAddr) (Z.lor (Z.shiftl a5 8) a4);
  a3 ← index Addr 3; a2 ← index Addr 2; a1 ← index Addr 1; a0 ← index Addr 0;
  wr32 (ETH_MAC_ADDR_LBASE + MacAddr)
    (Z.lor (Z.lor (Z.lor (Z.shiftl a3 24) (Z.shiftl a2 16)) (Z.shiftl a1 8)) a0).

(** ** Descriptors *)
Definition ETH_DMATxDescChecksumInsertionConfig (d checksum : Z) : M H unit := or32 (Status d) checksum.
Definition ETH_DMARxDescReceiveITConfig (d : Z) (NewState : FunctionalState) : M H unit :=
  if bool_decide (NewState <> DISABLE) then and32 (ControlBufferSize d) (not32 ETH_DMARxDesc_DIC)
  else or32 (ControlBufferSize d) ETH_DMARxDesc_DIC.
Definition ETH_GetDMARxDescFrameLength (d : Z) : M H Z :=
  v ← rd32 (Status d); mret (Z.shiftr (Z.land v ETH_DMARxDesc_FL) ETH_DMARXDESC_FRAME_LENGTHSHIFT).

(** The address of the descriptor after number [i] in the ring. *)
Definition next_desc (tab n i : Z) : Z := if i <? n - 1 then tab + SIZEOF_DMADESC * (i + 1) else tab.

Definition tx_chain_body (tab buff n i : Z) : M H (Z + unit) :=
  if i <? n then
    let d := tab + SIZEOF_DMADESC * i in
    _ ← wr32 (Status d) ETH_DMATxDesc_TCH;
    _ ← wr32 (Buffer1Addr d) (u32 (buff + i * ETH_MAX_PACKET_SIZE));
    _ ← wr32 (Buffer2NextDescAddr d) (u32 (next_desc tab n i));
    mret (inl (i + 1))
  else mret (inr tt).
(** The rings of the firmware have two and four descriptors. *)
Definition chain_init_fuel : positive := 16.
Definition ETH_DMATxDescChainInit (tab buff n : Z) : M (eth_globals * H) unit :=
  _ ← setg (set_tx_desc tab);
  _ ← lift (loop chain_init_fuel (tx_chain_body tab buff n) 0);
  lift (wr32 ETH_DMATDLAR tab).

Definition rx_chain_body (tab buff n i : Z) : M H (Z + unit) :=
  if i <? n then
    let d := tab + SIZEOF_DMADESC * i in
    _ ← wr32 (Status d) ETH_DMARxDesc_OWN;
    _ ← wr32 (ControlBufferSize d) (Z.lor ETH_DMARxDesc_RCH ETH_MAX_PACKET_SIZE);
    _ ← wr32 (Buffer1Addr d) (u32 (buff + i * ETH_MAX_PACKET_SIZE));
    _ ← wr32 (Buffer2NextDescAddr d) (u32 (next_desc tab n i));
    mret (inl (i + 1))
  else mret (inr tt).
Definition ETH_DMARxDescChainInit (tab buff n : Z) : M (eth_globals * H) unit :=
  _ ← setg (set_rx_desc tab);
  _ ← lift (loop chain_init_fuel (rx_chain_body tab buff n) 0);
  lift (wr32 ETH_DMARDLAR tab).

(** The length of the frame at the head of the receive ring, 0 when there is no
    complete frame without errors. *)
Definition ETH_GetRxPktSize : M (eth_globals * H) Z :=
  d ← getg DMARxDescToGet;
  own ← lift (rd32 (Status d));
  if Z.land own ETH_DMARxDesc_OWN =? 0 then
    es ← lift (rd32 (Status d));
    if Z.land es ETH_DMARxDesc_ES =? 0 then
      ls ← lift (rd32 (Status d));
      if negb (Z.land ls ETH_DMARxDesc_LS =? 0) then
        fs ← lift (rd32 (Status d));
        if negb (Z.land fs ETH_DMARxDesc_FS =? 0) then lift (ETH_GetDMARxDescFrameLength d)
        else mret 0
      else mret 0
    else mret 0
  else mret 0.
End eth.
