(* ===== verification/EthMac.v ===== *)
(** The rest of the Ethernet MAC driver: the functions of stm32_eth.c that the firmware
    does not call.  They set the options of the MAC, read its flags and counters, build
    descriptor rings, and move frames in one call. *)
From S2P Require Import Prelude Mmio EthDriver.

(** * Registers (ETH_TypeDef) *)
Definition ETH_MACRWUFFR := ETH_BASE + 0x28.
Definition ETH_MACPMTCSR := ETH_BASE + 0x2C.
Definition ETH_MACSR := ETH_BASE + 0x38.
Definition ETH_MACIMR := ETH_BASE + 0x3C.
Definition ETH_MMCCR := ETH_BASE + 0x100.
Definition ETH_MMCRIR := ETH_BASE + 0x104.
Definition ETH_MMCTIR := ETH_BASE + 0x108.
Definition ETH_MMCRIMR := ETH_BASE + 0x10C.
Definition ETH_MMCTIMR := ETH_BASE + 0x110.
Definition ETH_PTPTSCR := ETH_BASE + 0x700.
Definition ETH_PTPSSIR := ETH_BASE + 0x704.
Definition ETH_PTPTSHUR := ETH_BASE + 0x710.
Definition ETH_PTPTSLUR := ETH_BASE + 0x714.
Definition ETH_PTPTSAR := ETH_BASE + 0x718.
Definition ETH_PTPTTHR := ETH_BASE + 0x71C.
Definition ETH_PTPTTLR := ETH_BASE + 0x720.
Definition ETH_DMAMFBOCR := ETH_BASE + 0x1020.
Definition ETH_DMACHTDR := ETH_BASE + 0x1048.
Definition ETH_DMACHRDR := ETH_BASE + 0x104C.
Definition ETH_DMACHTBAR := ETH_BASE + 0x1050.
Definition ETH_DMACHRBAR := ETH_BASE + 0x1054.
Definition ETH_MAC_BASE : Z := ETH_BASE.

Definition ETH_MACFCR_FCBBPA : Z := 0x00000001.
Definition ETH_MACA1HR_AE : Z := 0x80000000.
Definition ETH_MACA1HR_SA : Z := 0x40000000.
Definition ETH_MACA1HR_MBC : Z := 0x3F000000.
Definition ETH_DMABMR_DSL : Z := 0x0000007C.
Definition ETH_DMASR_TS : Z := 0x00000001.
Definition ETH_DMASR_RS : Z := 0x00000040.
Definition ETH_DMAMFBOCR_MFA : Z := 0x0FFE0000.
Definition ETH_DMAMFBOCR_MFC : Z := 0x0000FFFF.
Definition ETH_MACPMTCSR_WFFRPR : Z := 0x80000000.
Definition ETH_MACPMTCSR_GU : Z := 0x00000200.
Definition ETH_MACPMTCSR_WFE : Z := 0x00000004.
Definition ETH_MACPMTCSR_MPE : Z := 0x00000002.
Definition ETH_MACPMTCSR_PD : Z := 0x00000001.
Definition ETH_MMCCR_MCF : Z := 0x00000008.
Definition ETH_MMCCR_ROR : Z := 0x00000004.
Definition ETH_MMCCR_CSR : Z := 0x00000002.
Definition ETH_MMCCR_CR : Z := 0x00000001.
Definition ETH_PTPTSCR_TSARU : Z := 0x00000020.
Definition ETH_PTPTSCR_TSITE : Z := 0x00000010.
Definition ETH_PTPTSCR_TSSTU : Z := 0x00000008.
Definition ETH_PTPTSCR_TSSTI : Z := 0x00000004.
Definition ETH_PTPTSCR_TSFCU : Z := 0x00000002.
Definition ETH_PTPTSCR_TSE : Z := 0x00000001.
Definition ETH_DMATxDesc_TER : Z := 0x00200000.
Definition ETH_DMATxDesc_CC : Z := 0x00000078.
Definition ETH_DMATXDESC_COLLISION_COUNTSHIFT : Z := 3.
Definition ETH_DMATxDesc_IC : Z := 0x40000000.
Definition ETH_DMATxDesc_DC : Z := 0x08000000.
Definition ETH_DMATxDesc_DP : Z := 0x04000000.
Definition ETH_DMATxDesc_TTSE : Z := 0x02000000.
Definition ETH_DMATxDesc_TTSS : Z := 0x00020000.
Definition ETH_DMATXDESC_BUFFER2_SIZESHIFT : Z := 16.
Definition ETH_DMARxDesc_RER : Z := 0x00008000.
Definition ETH_DMARxDesc_RBS2 : Z := 0x1FFF0000.
Definition ETH_DMARxDesc_RBS1 : Z := 0x00001FFF.
Definition ETH_DMARXDESC_BUFFER2_SIZESHIFT : Z := 16.
Definition ETH_DMARxDesc_Buffer1 : Z := 0x00000000.
Definition ETH_MAC_AddressFilter_DA : Z := 0x00000008.
Definition ETH_DMA_RX_OVERFLOW_MISSEDFRAMES_COUNTERSHIFT : Z := 17.
Definition ETH_WAKEUP_REGISTER_LENGTH : Z := 8.
Definition ETH_PTP_CoarseUpdate : Z := 0x00000000.
Definition PHY_Loopback : Z := 0x4000.

Section mac.
Context {H : Type} `{Bus H}.

(** [(REG & mask) != RESET] *)
Definition reg_flag (reg mask : Z) : M H FlagStatus :=
  v ← rd32 reg; mret (if negb (Z.land v mask =? 0) then SET else RESET).
(** Options whose bit switches something off. *)
Definition eth_unswitch (reg bit : Z) (NewState : FunctionalState) : M H unit :=
  if bool_decide (NewState <> DISABLE) then and32 reg (not32 bit) else or32 reg bit.

(** * The PHY *)
Definition ETH_PHYLoopBackCmd (PHYAddress : Z) (NewState : FunctionalState) : M H Z :=
  tmpreg ← ETH_ReadPHYRegister PHYAddress PHY_BCR;
  let tmpreg := if bool_decide (NewState <> DISABLE) then Z.lor tmpreg PHY_Loopback
                else Z.land tmpreg (u16 (not32 PHY_Loopback)) in
  r ← ETH_WritePHYRegister PHYAddress PHY_BCR tmpreg;
  mret (if negb (r =? 0) then ETH_SUCCESS else ETH_ERROR).

(** * The MAC *)
Definition ETH_GetFlowControlBusyStatus : M H FlagStatus := reg_flag ETH_MACFCR ETH_MACFCR_FCBBPA.
Definition ETH_InitiatePauseControlFrame : M H unit := or32 ETH_MACFCR ETH_MACFCR_FCBBPA.
Definition ETH_BackPressureActivationCmd : FunctionalState -> M H unit := eth_switch ETH_MACFCR ETH_MACFCR_FCBBPA.
Definition ETH_GetMACFlagStatus (flag : Z) : M H FlagStatus := reg_flag ETH_MACSR flag.
Definition ETH_GetMACITStatus (it : Z) : M H FlagStatus := reg_flag ETH_MACSR it.
Definition ETH_MACITConfig (it : Z) : FunctionalState -> M H unit := eth_unswitch ETH_MACIMR it.

Definition ETH_GetMACAddress (MacAddr : Z) (Addr : list Z) : M H (list Z) :=
  tmpreg ← rd32 (ETH_MAC_ADDR_HBASE + MacAddr);
  Addr ← store Addr 5 (Z.land (Z.shiftr tmpreg 8) 0xFF);
  Addr ← store Addr 4 (Z.land tmpreg 0xFF);
  tmpreg ← rd32 (ETH_MAC_ADDR_LBASE + MacAddr);
  Addr ← store Addr 3 (Z.land (Z.shiftr tmpreg 24) 0xFF);
  Addr ← store Addr 2 (Z.land (Z.shiftr tmpreg 16) 0xFF);
  Addr ← store Addr 1 (Z.land (Z.shiftr tmpreg 8) 0xFF);
  store Addr 0 (Z.land tmpreg 0xFF).
Definition ETH_MACAddressPerfectFilterCmd (MacAddr : Z) : FunctionalState -> M H unit :=
  eth_switch (ETH_MAC_ADDR_HBASE + MacAddr) ETH_MACA1HR_AE.
Definition ETH_MACAddressFilterConfig (MacAddr Filter : Z) : M H unit :=
  if negb (Filter =? ETH_MAC_AddressFilter_DA) then or32 (ETH_MAC_ADDR_HBASE + MacAddr) ETH_MACA1HR_SA
  else and32 (ETH_MAC_ADDR_HBASE + MacAddr) (not32 ETH_MACA1HR_SA).
Definition ETH_MACAddressMaskBytesFilterConfig (MacAddr MaskByte : Z) : M H unit :=
  _ ← and32 (ETH_MAC_ADDR_HBASE + MacAddr) (not32 ETH_MACA1HR_MBC);
  or32 (ETH_MAC_ADDR_HBASE + MacAddr) MaskByte.

(** * Descriptors *)
Definition ETH_GetDMATxDescFlagStatus (d flag : Z) : M H FlagStatus := reg_flag (Status d) flag.
Definition ETH_GetDMATxDescCollisionCount (d : Z) : M H Z :=
  v ← rd32 (Status d); mret (Z.shiftr (Z.land v ETH_DMATxDesc_CC) ETH_DMATXDESC_COLLISION_COUNTSHIFT).
Definition ETH_SetDMATxDescOwnBit (d : Z) : M H unit := or32 (Status d) ETH_DMATxDesc_OWN.
Definition ETH_DMATxDescTransmitITConfig (d : Z) : FunctionalState -> M H unit := eth_switch (Status d) ETH_DMATxDesc_IC.
Definition ETH_DMATxDescFrameSegmentConfig (d FrameSegment : Z) : M H unit := or32 (Status d) FrameSegment.
Definition ETH_DMATxDescCRCCmd (d : Z) : FunctionalState -> M H unit := eth_unswitch (Status d) ETH_DMATxDesc_DC.
Definition ETH_DMATxDescEndOfRingCmd (d : Z) : FunctionalState -> M H unit := eth_switch (Status d) ETH_DMATxDesc_TER.
Definition ETH_DMATxDescSecondAddressChainedCmd (d : Z) : FunctionalState -> M H unit := eth_switch (Status d) ETH_DMATxDesc_TCH.
Definition ETH_DMATxDescShortFramePaddingCmd (d : Z) : FunctionalState -> M H unit := eth_unswitch (Status d) ETH_DMATxDesc_DP.
Definition ETH_DMATxDescTimeStampCmd (d : Z) : FunctionalState -> M H unit := eth_switch (Status d) ETH_DMATxDesc_TTSE.
Definition ETH_DMATxDescBufferSizeConfig (d BufferSize1 BufferSize2 : Z) : M H unit :=
  or32 (ControlBufferSize d) (Z.lor BufferSize1 (u32 (Z.shiftl BufferSize2 ETH_DMATXDESC_BUFFER2_SIZESHIFT))).
Definition ETH_GetDMARxDescFlagStatus (d flag : Z) : M H FlagStatus := reg_flag (Status d) flag.
Definition ETH_SetDMARxDescOwnBit (d : Z) : M H unit := or32 (Status d) ETH_DMARxDesc_OWN.
Definition ETH_DMARxDescEndOfRingCmd (d : Z) : FunctionalState -> M H unit := eth_switch (ControlBufferSize d) ETH_DMARxDesc_RER.
Definition ETH_DMARxDescSecondAddressChainedCmd (d : Z) : FunctionalState -> M H unit := eth_switch (ControlBufferSize d) ETH_DMARxDesc_RCH.
Definition ETH_GetDMARxDescBufferSize (d buffer : Z) : M H Z :=
  v ← rd32 (ControlBufferSize d);
  mret (if negb (buffer =? ETH_DMARxDesc_Buffer1)
        then Z.shiftr (Z.land v ETH_DMARxDesc_RBS2) ETH_DMARXDESC_BUFFER2_SIZESHIFT else Z.land v ETH_DMARxDesc_RBS1).

(** ** Rings of descriptors with two buffers *)
Definition tx_ring_body (tab buff1 buff2 n i : Z) : M H (Z + unit) :=
  if i <? n then
    let d := tab + SIZEOF_DMADESC * i in
    _ ← wr32 (Buffer1Addr d) (u32 (buff1 + i * ETH_MAX_PACKET_SIZE));
    _ ← wr32 (Buffer2NextDescAddr d) (u32 (buff2 + i * ETH_MAX_PACKET_SIZE));
    _ ← (if i =? n - 1 then wr32 (Status d) ETH_DMATxDesc_TER else mret tt);
    mret (inl (i + 1))
  else mret (inr tt).
Definition rx_ring_body (tab buff1 buff2 n i : Z) : M H (Z + unit) :=
  if i <? n then
    let d := tab + SIZEOF_DMADESC * i in
    _ ← wr32 (Status d) ETH_DMARxDesc_OWN;
    _ ← wr32 (ControlBufferSize d) ETH_MAX_PACKET_SIZE;
    _ ← wr32 (Buffer1Addr d) (u32 (buff1 + i * ETH_MAX_PACKET_SIZE));
    _ ← wr32 (Buffer2NextDescAddr d) (u32 (buff2 + i * ETH_MAX_PACKET_SIZE));
    _ ← (if i =? n - 1 then or32 (ControlBufferSize d) ETH_DMARxDesc_RER else mret tt);
    mret (inl (i + 1))
  else mret (inr tt).
(** As many descriptors as there are, and one round to see the end. *)
Definition ring_fuel (n : Z) : positive := Pos.succ (Z.to_pos n).
Definition ETH_DMATxDescRingInit (tab buff1 buff2 n : Z) : M (eth_globals * H) unit :=
  _ ← setg (set_tx_desc tab);
  _ ← lift (loop (ring_fuel n) (tx_ring_body tab buff1 buff2 n) 0);
  lift (wr32 ETH_DMATDLAR tab).
Definition ETH_DMARxDescRingInit (tab buff1 buff2 n : Z) : M (eth_globals * H) unit :=
  _ ← setg (set_rx_desc tab);
  _ ← lift (loop (ring_fuel n) (rx_ring_body tab buff1 buff2 n) 0);
  lift (wr32 ETH_DMARDLAR tab).

(** ** Chains with a second table, for time stamps *)
Definition ptp_tx_chain_body (tab ptp buff n i : Z) : M H (Z + unit) :=
  if i <? n then
    let d := tab + SIZEOF_DMADESC * i in
    let e := ptp + SIZEOF_DMADESC * i in
    _ ← wr32 (Status d) (Z.lor ETH_DMATxDesc_TCH ETH_DMATxDesc_TTSE);
    _ ← wr32 (Buffer1Addr d) (u32 (buff + i * ETH_MAX_PACKET_SIZE));
    _ ← wr32 (Buffer2NextDescAddr d) (u32 (next_desc tab n i));
    b ← rd32 (Buffer1Addr d); _ ← wr32 (Buffer1Addr e) b;
    x ← rd32 (Buffer2NextDescAddr d); _ ← wr32 (Buffer2NextDescAddr e) x;
    mret (inl (i + 1))
  else mret (inr tt).
Definition ptp_rx_chain_body (tab ptp buff n i : Z) : M H (Z + unit) :=
  if i <? n then
    let d := tab + SIZEOF_DMADESC * i in
    let e := ptp + SIZEOF_DMADESC * i in
    _ ← wr32 (Status d) ETH_DMARxDesc_OWN;
    _ ← wr32 (ControlBufferSize d) (Z.lor ETH_DMARxDesc_RCH ETH_MAX_PACKET_SIZE);
    _ ← wr32 (Buffer1Addr d) (u32 (buff + i * ETH_MAX_PACKET_SIZE));
    _ ← wr32 (Buffer2NextDescAddr d) (u32 (next_desc tab n i));
    b ← rd32 (Buffer1Addr d); _ ← wr32 (Buffer1Addr e) b;
    x ← rd32 (Buffer2NextDescAddr d); _ ← wr32 (Buffer2NextDescAddr e) x;
    mret (inl (i + 1))
  else mret (inr tt).
(** The last entry of the second table points to its first one. *)
Definition close_ptp (ptp n : Z) : M H unit := wr32 (Status (ptp + SIZEOF_DMADESC * (n - 1))) ptp.
Definition ETH_DMAPTPTxDescChainInit (tab ptp buff n : Z) : M (eth_globals * H) unit :=
  _ ← setg (set_tx_desc tab);
  _ ← setg (set_ptp_tx_desc ptp);
  _ ← lift (loop (ring_fuel n) (ptp_tx_chain_body tab ptp buff n) 0);
  _ ← lift (close_ptp ptp n);
  lift (wr32 ETH_DMATDLAR tab).
Definition ETH_DMAPTPRxDescChainInit (tab ptp buff n : Z) : M (eth_globals * H) unit :=
  _ ← setg (set_rx_desc tab);
  _ ← setg (set_ptp_rx_desc ptp);
  _ ← lift (loop (ring_fuel n) (ptp_rx_chain_body tab ptp buff n) 0);
  _ ← lift (close_ptp ptp n);
  lift (wr32 ETH_DMARDLAR tab).

(** * Moving frames *)

(** When the DMA engine waits for a descriptor: clear the flag and let it go on. *)
Definition demand_poll (flag demand : Z) : M (eth_globals * H) unit :=
  sr ← lift (rd32 ETH_DMASR);
  if negb (Z.land sr flag =? 0) then _ ← lift (wr32 ETH_DMASR flag); lift (wr32 demand 0) else mret tt.
(** The descriptor behind [d] in memory. *)
Definition skip_desc (d : Z) : M (eth_globals * H) Z :=
  v ← lift (rd32 ETH_DMABMR); mret (u32 (d + 0x10 + Z.shiftr (Z.land v ETH_DMABMR_DSL) 2)).
Definition next_tx_desc (d : Z) : M (eth_globals * H) unit :=
  s ← lift (rd32 (Status d));
  if negb (Z.land s ETH_DMATxDesc_TCH =? 0) then x ← lift (rd32 (Buffer2NextDescAddr d)); setg (set_tx_desc x)
  else
    s ← lift (rd32 (Status d));
    if negb (Z.land s ETH_DMATxDesc_TER =? 0) then x ← lift (rd32 ETH_DMATDLAR); setg (set_tx_desc x)
    else x ← skip_desc d; setg (set_tx_desc x).
Definition next_rx_desc (d : Z) : M (eth_globals * H) unit :=
  c ← lift (rd32 (ControlBufferSize d));
  if negb (Z.land c ETH_DMARxDesc_RCH =? 0) then x ← lift (rd32 (Buffer2NextDescAddr d)); setg (set_rx_desc x)
  else
    c ← lift (rd32 (ControlBufferSize d));
    if negb (Z.land c ETH_DMARxDesc_RER =? 0) then x ← lift (rd32 ETH_DMARDLAR); setg (set_rx_desc x)
    else x ← skip_desc d; setg (set_rx_desc x).

(** The copy to the buffer of descriptor [d] from the packet, and from it; the counter
    has 32 bits. *)
Definition tx_copy_body (ppkt : list Z) (d FrameLength offset : Z) : M H (Z + unit) :=
  if offset <? FrameLength then
    v ← index ppkt offset;
    b ← rd32 (Buffer1Addr d);
    _ ← wr8 (u32 (b + offset)) v;
    mret (inl (offset + 1))
  else mret (inr tt).
Definition rx_copy_body (d framelength : Z) (a : Z * list Z) : M H (Z * list Z + list Z) :=
  let '(offset, ppkt) := a in
  if offset <? framelength then
    b ← rd32 (Buffer1Addr d);
    v ← rd8 (u32 (b + offset));
    ppkt ← store ppkt offset v;
    mret (inl (offset + 1, ppkt))
  else mret (inr ppkt).
Definition copy_fuel (n : Z) : positive := Pos.succ (Z.to_pos n).

Definition ETH_HandleTxPkt (ppkt : list Z) (FrameLength : Z) : M (eth_globals * H) Z :=
  d ← getg DMATxDescToSet;
  own ← lift (rd32 (Status d));
  if negb (Z.land own ETH_DMATxDesc_OWN =? 0) then mret ETH_ERROR
  else
    _ ← lift (loop (copy_fuel FrameLength) (tx_copy_body ppkt d FrameLength) 0);
    _ ← lift (wr32 (ControlBufferSize d) (Z.land FrameLength ETH_DMATxDesc_TBS1));
    _ ← lift (or32 (Status d) (Z.lor ETH_DMATxDesc_LS ETH_DMATxDesc_FS));
    _ ← lift (or32 (Status d) ETH_DMATxDesc_OWN);
    _ ← demand_poll ETH_DMASR_TBUS ETH_DMATPDR;
    _ ← next_tx_desc d;
    mret ETH_SUCCESS.

(** A whole frame without errors: its length without the checksum. *)
Definition whole_frame (d : Z) : M H (option Z) :=
  es ← rd32 (Status d);
  if Z.land es ETH_DMARxDesc_ES =? 0 then
    ls ← rd32 (Status d);
    if negb (Z.land ls ETH_DMARxDesc_LS =? 0) then
      fs ← rd32 (Status d);
      if negb (Z.land fs ETH_DMARxDesc_FS =? 0) then
        fl ← rd32 (Status d);
        mret (Some (u32 (Z.shiftr (Z.land fl ETH_DMARxDesc_FL) ETH_DMARXDESC_FRAME_LENGTHSHIFT - 4)))
      else mret None
    else mret None
  else mret None.

(** The answer, and the packet buffer of the caller. *)
Definition ETH_HandleRxPkt (ppkt : list Z) : M (eth_globals * H) (Z * list Z) :=
  d ← getg DMARxDescToGet;
  own ← lift (rd32 (Status d));
  if negb (Z.land own ETH_DMARxDesc_OWN =? 0) then mret (ETH_ERROR, ppkt)
  else
    whole ← lift (whole_frame d);
    r ← (match whole with
         | Some n => ppkt ← lift (loop (copy_fuel n) (rx_copy_body d n) (0, ppkt)); mret (n, ppkt)
         | None => mret (ETH_ERROR, ppkt)
         end);
    _ ← lift (wr32 (Status d) ETH_DMARxDesc_OWN);
    _ ← demand_poll ETH_DMASR_RBUS ETH_DMARPDR;
    _ ← next_rx_desc d;
    mret r.

Definition ETH_DropRxPkt : M (eth_globals * H) unit :=
  d ← getg DMARxDescToGet;
  _ ← lift (wr32 (Status d) ETH_DMARxDesc_OWN);
  next_rx_desc d.

(** ** With time stamps *)

(** The wait for the time stamp; the answer is the count. *)
Definition ttss_body (d timeout : Z) : M H (Z + Z) :=
  let timeout := timeout + 1 in
  s ← rd32 (Status d);
  mret (if (Z.land s ETH_DMATxDesc_TTSS =? 0) && (timeout <? 0xFFFF) then inl timeout else inr timeout).
(** The entry of the second table after [e]. *)
Definition next_ptp (e : Z) : M (eth_globals * H) Z :=
  s ← lift (rd32 (Status e));
  if negb (s =? 0) then lift (rd32 (Status e)) else mret (u32 (e + SIZEOF_DMADESC)).

(** The answer, and the two words of the time stamp. *)
Definition ETH_HandlePTPTxPkt (ppkt : list Z) (FrameLength : Z) (PTPTxTab : list Z) : M (eth_globals * H) (Z * list Z) :=
  d ← getg DMATxDescToSet;
  e ← getg DMAPTPTxDescToSet;
  own ← lift (rd32 (Status d));
  if negb (Z.land own ETH_DMATxDesc_OWN =? 0) then mret (ETH_ERROR, PTPTxTab)
  else
    _ ← lift (loop (copy_fuel FrameLength) (tx_copy_body ppkt e FrameLength) 0);
    _ ← lift (wr32 (ControlBufferSize d) (Z.land FrameLength 0x1FFF));
    _ ← lift (or32 (Status d) (Z.lor ETH_DMATxDesc_LS ETH_DMATxDesc_FS));
    _ ← lift (or32 (Status d) ETH_DMATxDesc_OWN);
    _ ← demand_poll ETH_DMASR_TBUS ETH_DMATPDR;
    timeout ← lift (loop 0x10000 (ttss_body d) 0);
    if timeout =? PHY_READ_TO then mret (ETH_ERROR, PTPTxTab)
    else
      _ ← lift (and32 (Status d) (not32 ETH_DMATxDesc_TTSS));
      b ← lift (rd32 (Buffer1Addr d)); PTPTxTab ← store PTPTxTab 0 b;
      x ← lift (rd32 (Buffer2NextDescAddr d)); PTPTxTab ← store PTPTxTab 1 x;
      s ← lift (rd32 (Status d));
      _ ← (if negb (Z.land s ETH_DMATxDesc_TCH =? 0) then
             y ← lift (rd32 (Buffer2NextDescAddr e)); _ ← setg (set_tx_desc y);
             f ← next_ptp e; setg (set_ptp_tx_desc f)
           else
             s ← lift (rd32 (Status d));
             if negb (Z.land s ETH_DMATxDesc_TER =? 0) then
               y ← lift (rd32 ETH_DMATDLAR); _ ← setg (set_tx_desc y);
               f ← lift (rd32 ETH_DMATDLAR); setg (set_ptp_tx_desc f)
             else
               y ← skip_desc d; _ ← setg (set_tx_desc y);
               f ← skip_desc e; setg (set_ptp_tx_desc f));
      mret (ETH_SUCCESS, PTPTxTab).

(** The answer, the packet buffer of the caller, and the two words of the time stamp. *)
Definition ETH_HandlePTPRxPkt (ppkt PTPRxTab : list Z) : M (eth_globals * H) (Z * list Z * list Z) :=
  d ← getg DMARxDescToGet;
  e ← getg DMAPTPRxDescToGet;
  own ← lift (rd32 (Status d));
  if negb (Z.land own ETH_DMARxDesc_OWN =? 0) then mret (ETH_ERROR, ppkt, PTPRxTab)
  else
    whole ← lift (whole_frame d);
    '(n, ppkt) ← (match whole with
         | Some n => ppkt ← lift (loop (copy_fuel n) (rx_copy_body e n) (0, ppkt)); mret (n, ppkt)
         | None => mret (ETH_ERROR, ppkt)
         end);
    _ ← demand_poll ETH_DMASR_RBUS ETH_DMARPDR;
    b ← lift (rd32 (Buffer1Addr d)); PTPRxTab ← store PTPRxTab 0 b;
    x ← lift (rd32 (Buffer2NextDescAddr d)); PTPRxTab ← store PTPRxTab 1 x;
    _ ← lift (or32 (Status d) ETH_DMARxDesc_OWN);
    c ← lift (rd32 (ControlBufferSize d));
    _ ← (if negb (Z.land c ETH_DMARxDesc_RCH =? 0) then
           y ← lift (rd32 (Buffer2NextDescAddr e)); _ ← setg (set_rx_desc y);
           f ← next_ptp e; setg (set_ptp_rx_desc f)
         else
           c ← lift (rd32 (ControlBufferSize d));
           if negb (Z.land c ETH_DMARxDesc_RER =? 0) then y ← lift (rd32 ETH_DMARDLAR); setg (set_rx_desc y)
           else y ← skip_desc d; setg (set_rx_desc y));
    mret (n, ppkt, PTPRxTab).

(** * The DMA engine *)
Definition ETH_GetDMAFlagStatus (flag : Z) : M H FlagStatus := reg_flag ETH_DMASR flag.
Definition ETH_DMAClearFlag (flag : Z) : M H unit := wr32 ETH_DMASR flag.
Definition ETH_GetDMAITStatus (it : Z) : M H FlagStatus := reg_flag ETH_DMASR it.
Definition ETH_GetTransmitProcessState : M H Z := v ← rd32 ETH_DMASR; mret (Z.land v ETH_DMASR_TS).
Definition ETH_GetReceiveProcessState : M H Z := v ← rd32 ETH_DMASR; mret (Z.land v ETH_DMASR_RS).
Definition ETH_GetFlushTransmitFIFOStatus : M H FlagStatus := reg_flag ETH_DMAOMR ETH_DMAOMR_FTF.
Definition ETH_GetDMAOverflowStatus (overflow : Z) : M H FlagStatus := reg_flag ETH_DMAMFBOCR overflow.
Definition ETH_GetRxOverflowMissedFrameCounter : M H Z :=
  v ← rd32 ETH_DMAMFBOCR; mret (Z.shiftr (Z.land v ETH_DMAMFBOCR_MFA) ETH_DMA_RX_OVERFLOW_MISSEDFRAMES_COUNTERSHIFT).
Definition ETH_GetBufferUnavailableMissedFrameCounter : M H Z := v ← rd32 ETH_DMAMFBOCR; mret (Z.land v ETH_DMAMFBOCR_MFC).
Definition ETH_GetCurrentTxDescStartAddress : M H Z := rd32 ETH_DMACHTDR.
Definition ETH_GetCurrentRxDescStartAddress : M H Z := rd32 ETH_DMACHRDR.
Definition ETH_GetCurrentTxBufferAddress : M H Z := rd32 ETH_DMACHTBAR.
Definition ETH_GetCurrentRxBufferAddress : M H Z := rd32 ETH_DMACHRBAR.
Definition ETH_ResumeDMATransmission : M H unit := wr32 ETH_DMATPDR 0.
Definition ETH_ResumeDMAReception : M H unit := wr32 ETH_DMARPDR 0.

(** * Power management *)
Definition ETH_ResetWakeUpFrameFilterRegisterPointer : M H unit := or32 ETH_MACPMTCSR ETH_MACPMTCSR_WFFRPR.
Definition wake_up_body (Buffer : list Z) (i : Z) : M H (Z + unit) :=
  if i <? ETH_WAKEUP_REGISTER_LENGTH then v ← index Buffer i; _ ← wr32 ETH_MACRWUFFR v; mret (inl (i + 1))
  else mret (inr tt).
Definition ETH_SetWakeUpFrameFilterRegister (Buffer : list Z) : M H unit := loop 9 (wake_up_body Buffer) 0.
Definition ETH_GlobalUnicastWakeUpCmd : FunctionalState -> M H unit := eth_switch ETH_MACPMTCSR ETH_MACPMTCSR_GU.
Definition ETH_GetPMTFlagStatus (flag : Z) : M H FlagStatus := reg_flag ETH_MACPMTCSR flag.
Definition ETH_WakeUpFrameDetectionCmd : FunctionalState -> M H unit := eth_switch ETH_MACPMTCSR ETH_MACPMTCSR_WFE.
Definition ETH_MagicPacketDetectionCmd : FunctionalState -> M H unit := eth_switch ETH_MACPMTCSR ETH_MACPMTCSR_MPE.
Definition ETH_PowerDownCmd : FunctionalState -> M H unit := eth_switch ETH_MACPMTCSR ETH_MACPMTCSR_PD.

(** * The counters *)
Definition ETH_MMCCounterFreezeCmd : FunctionalState -> M H unit := eth_switch ETH_MMCCR ETH_MMCCR_MCF.
Definition ETH_MMCResetOnReadCmd : FunctionalState -> M H unit := eth_switch ETH_MMCCR ETH_MMCCR_ROR.
Definition ETH_MMCCounterRolloverCmd : FunctionalState -> M H unit := eth_unswitch ETH_MMCCR ETH_MMCCR_CSR.
Definition ETH_MMCCountersReset : M H unit := or32 ETH_MMCCR ETH_MMCCR_CR.
Definition ETH_MMCITConfig (it : Z) (NewState : FunctionalState) : M H unit :=
  if negb (Z.land it 0x10000000 =? 0) then eth_unswitch ETH_MMCRIMR (Z.land it 0xEFFFFFFF) NewState
  else eth_unswitch ETH_MMCTIMR it NewState.
Definition ETH_GetMMCITStatus (it : Z) : M H FlagStatus :=
  v ← rd32 (if negb (Z.land it 0x10000000 =? 0) then ETH_MMCRIR else ETH_MMCTIR);
  if negb (Z.land v it =? 0) then reg_flag ETH_MMCRIMR it else mret RESET.
Definition ETH_GetMMCRegister (reg : Z) : M H Z := rd32 (u32 (ETH_MAC_BASE + reg)).

(** * Time stamps *)
Definition ETH_EnablePTPTimeStampAddend : M H unit := or32 ETH_PTPTSCR ETH_PTPTSCR_TSARU.
Definition ETH_EnablePTPTimeStampInterruptTrigger : M H unit := or32 ETH_PTPTSCR ETH_PTPTSCR_TSITE.
Definition ETH_EnablePTPTimeStampUpdate : M H unit := or32 ETH_PTPTSCR ETH_PTPTSCR_TSSTU.
Definition ETH_InitializePTPTimeStamp : M H unit := or32 ETH_PTPTSCR ETH_PTPTSCR_TSSTI.
Definition ETH_PTPUpdateMethodConfig (UpdateMethod : Z) : M H unit :=
  if negb (UpdateMethod =? ETH_PTP_CoarseUpdate) then or32 ETH_PTPTSCR ETH_PTPTSCR_TSFCU
  else and32 ETH_PTPTSCR (not32 ETH_PTPTSCR_TSFCU).
Definition ETH_PTPTimeStampCmd : FunctionalState -> M H unit := eth_switch ETH_PTPTSCR ETH_PTPTSCR_TSE.
Definition ETH_GetPTPFlagStatus (flag : Z) : M H FlagStatus := reg_flag ETH_PTPTSCR flag.
Definition ETH_SetPTPSubSecondIncrement (SubSecondValue : Z) : M H unit := wr32 ETH_PTPSSIR SubSecondValue.
Definition ETH_SetPTPTimeStampUpdate (Sign SecondValue SubSecondValue : Z) : M H unit :=
  _ ← wr32 ETH_PTPTSHUR SecondValue; wr32 ETH_PTPTSLUR (Z.lor Sign SubSecondValue).
Definition ETH_SetPTPTimeStampAddend (Value : Z) : M H unit := wr32 ETH_PTPTSAR Value.
Definition ETH_SetPTPTargetTime (HighValue LowValue : Z) : M H unit :=
  _ ← wr32 ETH_PTPTTHR HighValue; wr32 ETH_PTPTTLR LowValue.
Definition ETH_GetPTPRegister (reg : Z) : M H Z := rd32 (u32 (ETH_MAC_BASE + reg)).
End mac.
