(* ===== verification/EthIf.v ===== *)
(** The network interface of the board: port/ethernetif.c of lwIP, between the
    stack and the Ethernet MAC driver. *)
From stdpp Require Import gmap.
From S2P Require Import Prelude Mmio EthDriver LwipMem LwipPbuf LwipInet LwipStack.

Definition ETH_RXBUFNB : Z := 4.
Definition ETH_TXBUFNB : Z := 2.
Definition ETHARP_HWADDR_LEN : Z := 6.
Definition SIZEOF_ETHERNETIF : Z := 8.
Definition ETH_DMARxDesc_FrameLengthShift : Z := 16.
(** "st" *)
Definition IFNAME : Z * Z := (0x73, 0x74).

(** The globals of the driver and of this file. *)
Record ethif : Type := EthIf { if_eth : eth_globals; MACaddr : list Z }.
Definition set_if_eth (g : eth_globals) (s : ethif) : ethif := EthIf g (MACaddr s).
Definition set_MACaddr (a : list Z) (s : ethif) : ethif := EthIf (if_eth s) a.

(** A program that contains them. *)
Class HasEth (W H : Type) := {
  get_eth : W -> ethif * H;
  put_eth : ethif * H -> W -> W
}.

(** [FrameTypeDef]; a null pointer is the address 0. *)
Record FrameTypeDef : Type := Frame { frame_length : Z; frame_buffer : Z; frame_descriptor : Z }.

(** ** The descriptor rings *)
Section rings.
Context {H : Type} `{Bus H}.

(** A statement of the driver. *)
Definition drv {A} (m : M (eth_globals * H) A) : M (ethif * H) A := fun s =>
  match m (if_eth (fst s), snd s) with
  | Ret a (g, h) => Ret a (set_if_eth g (fst s), h)
  | Fault => Fault
  | Diverge => Diverge
  end.

(** Acknowledge an unavailable buffer and make the DMA engine poll again. *)
Definition resume_dma (flag demand : Z) : M (eth_globals * H) unit :=
  sr ← lift (rd32 ETH_DMASR);
  if negb (Z.land sr flag =? 0) then
    _ ← lift (wr32 ETH_DMASR flag);
    lift (wr32 demand 0)
  else mret tt.

Definition ETH_RxPkt_ChainMode : M (eth_globals * H) FrameTypeDef :=
  d ← getg DMARxDescToGet;
  own ← lift (rd32 (Status d));
  if negb (Z.land own ETH_DMARxDesc_OWN =? 0) then
    _ ← resume_dma ETH_DMASR_RBUS ETH_DMARPDR;
    mret (Frame ETH_ERROR 0 0)
  else
    whole ← (es ← lift (rd32 (Status d));
             if Z.land es ETH_DMARxDesc_ES =? 0 then
               ls ← lift (rd32 (Status d));
               if negb (Z.land ls ETH_DMARxDesc_LS =? 0) then
                 fs ← lift (rd32 (Status d)); mret (negb (Z.land fs ETH_DMARxDesc_FS =? 0))
               else mret false
             else mret false);
    '(framelength, buffer) ←
      (if (whole : bool) then
         fl ← lift (rd32 (Status d));
         b ← lift (rd32 (Buffer1Addr d));
         mret (u32 (Z.shiftr (Z.land fl ETH_DMARxDesc_FL) ETH_DMARxDesc_FrameLengthShift - 4), b)
       else mret (ETH_ERROR, 0));
    next ← lift (rd32 (Buffer2NextDescAddr d));
    _ ← setg (set_rx_desc next);
    mret (Frame framelength buffer d).

Definition ETH_GetCurrentTxBuffer : M (eth_globals * H) Z :=
  d ← getg DMATxDescToSet; lift (rd32 (Buffer1Addr d)).

Definition ETH_TxPkt_ChainMode (FrameLength : Z) : M (eth_globals * H) Z :=
  d ← getg DMATxDescToSet;
  own ← lift (rd32 (Status d));
  if negb (Z.land own ETH_DMATxDesc_OWN =? 0) then mret ETH_ERROR
  else
    _ ← lift (wr32 (ControlBufferSize d) (Z.land FrameLength ETH_DMATxDesc_TBS1));
    _ ← lift (or32 (Status d) (Z.lor ETH_DMATxDesc_LS ETH_DMATxDesc_FS));
    _ ← lift (or32 (Status d) ETH_DMATxDesc_OWN);
    _ ← resume_dma ETH_DMASR_TBUS ETH_DMATPDR;
    next ← lift (rd32 (Buffer2NextDescAddr d));
    _ ← setg (set_tx_desc next);
    mret ETH_SUCCESS.

(** [memcpy] to and from a frame buffer. *)
Fixpoint buffer_put (a : Z) (l : list Z) : M H unit :=
  match l with [] => mret tt | v :: l => _ ← wr8 a v; buffer_put (a + 1) l end.
Fixpoint buffer_get (a : Z) (n : nat) : M H (list Z) :=
  match n with O => mret [] | Datatypes.S n => v ← rd8 a; l ← buffer_get (a + 1) n; mret (v :: l) end.
End rings.

Section ethernetif.
Context {W H : Type} `{Bus H} `{HasStack W} `{HasEth W H}.
(** Where the linker puts the descriptors and buffers, and where the hardware
    address of an interface lies. *)
Variables DMARxDscrTab DMATxDscrTab Rx_Buff Tx_Buff : Z.
Variable hwaddr_address : netif_ptr -> Z.
Variable call_input : input_fn -> ptr -> netif_ptr -> M W Z.

Definition on_eth {A} (m : M (ethif * H) A) : M W A := fun w =>
  match m (get_eth w) with
  | Ret a s => Ret a (put_eth s w)
  | Fault => Fault
  | Diverge => Diverge
  end.

Definition Set_MAC_Address (macadd : list Z) : M W unit :=
  a0 ← index macadd 0; a1 ← index macadd 1; a2 ← index macadd 2;
  a3 ← index macadd 3; a4 ← index macadd 4; a5 ← index macadd 5;
  _ ← on_eth (setg (set_MACaddr [a0; a1; a2; a3; a4; a5]));
  on_eth (lift (ETH_MACAddressConfig ETH_MAC_Address0 macadd)).

(** [for (i = 0; i < n; i++)] over the descriptors of a ring. *)
Definition each_desc (tab n : Z) (f : Z -> M H unit) : M W unit :=
  on_eth (lift (loop chain_init_fuel (fun i : Z =>
    if i <? n then _ ← f (tab + SIZEOF_DMADESC * i); mret (inl (i + 1)) else mret (inr tt)) 0)).

Definition low_level_init (n : netif_ptr) : M W unit :=
  mac ← on_eth (getg MACaddr);
  _ ← upd_netif n (with_device ETHARP_HWADDR_LEN mac 1500
        (Z.lor (Z.lor NETIF_FLAG_BROADCAST NETIF_FLAG_ETHARP) NETIF_FLAG_LINK_UP));
  _ ← on_eth (drv (ETH_DMATxDescChainInit DMATxDscrTab Tx_Buff ETH_TXBUFNB));
  _ ← on_eth (drv (ETH_DMARxDescChainInit DMARxDscrTab Rx_Buff ETH_RXBUFNB));
  _ ← each_desc DMARxDscrTab ETH_RXBUFNB (fun d => ETH_DMARxDescReceiveITConfig d ENABLE);
  _ ← each_desc DMATxDscrTab ETH_TXBUFNB
        (fun d => ETH_DMATxDescChecksumInsertionConfig d ETH_DMATxDesc_ChecksumTCPUDPICMPFull);
  on_eth (lift ETH_Start).

(** The loop that gathers the packet in the frame buffer, on [q] and [l]. *)
Definition gather_body (buffer : Z) (a : option ptr * Z) : M W (option ptr * Z + Z) :=
  let '(q, l) := a in
  match q with
  | None => mret (inr l)
  | Some q =>
      b ← on_net (get_pbuf q);
      data ← on_net (payload_read q 0 (Z.to_nat (len b)));
      _ ← on_eth (lift (buffer_put (buffer + l) data));
      mret (inl (next b, l + len b))
  end.
Definition low_level_output (n : netif_ptr) (p : option ptr) : M W Z :=
  buffer ← on_eth (drv ETH_GetCurrentTxBuffer);
  fuel ← on_net chain_fuel;
  l ← loop fuel (gather_body buffer) (p, 0);
  _ ← on_eth (drv (ETH_TxPkt_ChainMode (u16 l)));
  mret ERR_OK.

(** The loop that scatters the frame over the pbufs. *)
Definition scatter_body (buffer : Z) (a : option ptr * Z) : M W (option ptr * Z + unit) :=
  let '(q, l) := a in
  match q with
  | None => mret (inr tt)
  | Some q =>
      b ← on_net (get_pbuf q);
      data ← on_eth (lift (buffer_get (buffer + l) (Z.to_nat (len b))));
      _ ← on_net (payload_write q 0 data);
      mret (inl (next b, l + len b))
  end.
Definition low_level_input (n : netif_ptr) : M W (option ptr) :=
  frame ← on_eth (drv ETH_RxPkt_ChainMode);
  let len := u16 (frame_length frame) in
  p ← on_net (pbuf_alloc PBUF_RAW len PBUF_POOL);
  _ ← (match p with
       | Some _ => fuel ← on_net chain_fuel; loop fuel (scatter_body (frame_buffer frame)) (p, 0)
       | None => mret tt
       end);
  if frame_descriptor frame =? 0 then fault
  else
    _ ← on_eth (lift (wr32 (Status (frame_descriptor frame)) ETH_DMARxDesc_OWN));
    _ ← on_eth (drv (resume_dma ETH_DMASR_RBUS ETH_DMARPDR));
    mret p.

Definition ethernetif_input (n : netif_ptr) : M W Z :=
  p ← low_level_input n;
  match p with
  | None => mret ERR_MEM
  | Some p =>
      f ← get_netif n;
      match nif_input f with
      | None => fault
      | Some i =>
          err ← call_input i p n;
          _ ← (if negb (err =? ERR_OK) then on_net (pbuf_free (Some p)) else mret 0);
          mret err
      end
  end.

Definition ethernetif_init (n : netif_ptr) : M W Z :=
  r ← on_net (on_heap (mem_malloc SIZEOF_ETHERNETIF));
  match r with
  | None => mret ERR_MEM
  | Some i =>
      _ ← upd_netif n (with_link (Some (InHeap i)) IFNAME etharp_output_ptr low_level_output_ptr);
      _ ← on_net (on_heap (modify (fun h => set_ram (set32 i (hwaddr_address n) (ram h)) h)));
      _ ← low_level_init n;
      mret ERR_OK
  end.
End ethernetif.
