(* ===== verification/EthSpec.v ===== *)
(** What the Ethernet driver relies on from the bus, and the behaviour of the frame
    functions of port/ethernetif.c on it. *)
From stdpp Require Import gmap.
From S2P Require MemFacts.
From S2P Require Import Prelude Mmio EthDriver LwipMem LwipPbuf LwipInet LwipStack EthIf.

(** Storing in a byte-addressed memory. *)
Definition stored_at (w : width) (a v : Z) (m : Z -> Z) : Z -> Z :=
  match w with W8 => (fun x => if x =? a then byte_of v 0 else m x) | W16 => set16 a v m | W32 => set32 a v m end.

(** The memory that the driver shares with the DMA engine, where the descriptors and
    the frame buffers are: plain memory for the processor while the engine does not
    touch it.  The registers of the peripherals are somewhere else. *)
Class EthBus (H : Type) `{Bus H} := {
  eth_mem : H -> Z -> Z;
  eth_ram : Z -> bool;
  eth_bytes h : bytes (eth_mem h);
  eth_ram_low a : eth_ram a = true -> a < 0x40000000;
  eth_read w a h : (forall k, 0 <= k < width_bytes w -> eth_ram (a + k) = true) ->
    fst (bus_read w a h) = le w (eth_mem h) a;
  eth_read_quiet w a h x : eth_mem (snd (bus_read w a h)) x = eth_mem h x;
  eth_write w a v h x : (forall k, 0 <= k < width_bytes w -> eth_ram (a + k) = true) ->
    eth_mem (bus_write w a v h) x = stored_at w a v (eth_mem h) x;
  eth_write_reg w a v h x : 0x40000000 <= a -> eth_mem (bus_write w a v h) x = eth_mem h x
}.

Section eth_bus.
Context {H : Type} `{EthBus H}.
Implicit Types h : H.

(** The [n] bytes from [a] are in the shared memory. *)
Definition in_ram (a n : Z) : Prop := forall x, a <= x < a + n -> eth_ram x = true.

Lemma in_ram_sub a n b k : in_ram a n -> a <= b -> b + k <= a + n -> in_ram b k.
Proof. intros Hr Hb Hk x Hx. apply Hr. lia. Qed.

Lemma wp_rd_ram w a h (Q : Z -> H -> Prop) : in_ram a (width_bytes w) ->
  (forall h', (forall x, eth_mem h' x = eth_mem h x) -> Q (le w (eth_mem h) a) h') -> wp (rd w a) Q h.
Proof.
  intros Hr HQ. apply wp_rd. rewrite eth_read; [apply HQ; intros; apply eth_read_quiet|]. intros k Hk. apply Hr. lia.
Qed.
Lemma wp_rd_reg w a h (Q : Z -> H -> Prop) :
  (forall v h', (forall x, eth_mem h' x = eth_mem h x) -> Q v h') -> wp (rd w a) Q h.
Proof. intros HQ. apply wp_rd, HQ. intros. apply eth_read_quiet. Qed.
Lemma wp_wr_ram w a v h (Q : unit -> H -> Prop) : in_ram a (width_bytes w) ->
  (forall h', (forall x, eth_mem h' x = stored_at w a v (eth_mem h) x) -> Q tt h') -> wp (wr w a v) Q h.
Proof. intros Hr HQ. apply wp_wr, HQ. intros x. apply eth_write. intros k Hk. apply Hr. lia. Qed.
Lemma wp_wr_reg w a v h (Q : unit -> H -> Prop) : 0x40000000 <= a ->
  (forall h', (forall x, eth_mem h' x = eth_mem h x) -> Q tt h') -> wp (wr w a v) Q h.
Proof. intros Hr HQ. apply wp_wr, HQ. intros x. by apply eth_write_reg. Qed.

(** ** Words *)
Lemma le32_stored a v m : 0 <= v < 2 ^ 32 -> le32 (set32 a v m) a = v.
Proof.
  intros Hv. unfold le32, le16, set32. do 4 rewrite (proj2 (Z.leb_le _ _)) by lia.
  do 4 rewrite (proj2 (Z.ltb_lt _ _)) by lia. cbn [andb].
  replace (a - a) with 0 by lia. replace (a + 1 - a) with 1 by lia. replace (a + 2 - a) with 2 by lia. replace (a + 2 + 1 - a) with 3 by lia.
  unfold byte_of. cbn [Z.mul Pos.mul]. Z.to_euclidean_division_equations. lia.
Qed.
Lemma le32_other a b v m : b + 4 <= a \/ a + 4 <= b -> le32 (set32 a v m) b = le32 m b.
Proof.
  intros Hab. apply MemFacts.le32_ext. intros k Hk. unfold set32.
  destruct (Z.leb_spec a (b + k)); [|done]. by rewrite (proj2 (Z.ltb_ge _ _)) by lia.
Qed.

(** ** Frame buffers *)
Lemma set8_byte a v l m x : 0 <= v < 2 ^ 8 ->
  MemFacts.write_bytes (a + 1) l (stored_at W8 a v m) x = MemFacts.write_bytes a (v :: l) m x.
Proof.
  intros Hv. unfold MemFacts.write_bytes, stored_at. replace (byte_of v 0) with v by (unfold byte_of; rewrite Z.mul_0_r, Z.div_1_r, Z.mod_small; lia).
  destruct (Z.leb_spec (a + 1) x), (Z.leb_spec a x); try lia.
  - replace (Z.to_nat (x - a)) with (S (Z.to_nat (x - (a + 1)))) by lia. cbn [lookup list_lookup].
    by rewrite (proj2 (Z.eqb_neq x a)) by lia.
  - assert (x = a) as -> by lia. by rewrite Z.eqb_refl, Z.sub_diag.
  - by rewrite (proj2 (Z.eqb_neq x a)) by lia.
Qed.
Lemma wp_buffer_put l : forall a h (Q : unit -> H -> Prop), MemFacts.byte_list l -> in_ram a (Z.of_nat (length l)) ->
  (forall h', (forall x, eth_mem h' x = MemFacts.write_bytes a l (eth_mem h) x) -> Q tt h') -> wp (buffer_put a l) Q h.
Proof.
  induction l as [|v l IH]; intros a h Q Hl Hr HQ; cbn [buffer_put length] in *.
  - apply wp_ret, HQ. intros x. by rewrite MemFacts.write_bytes_nil.
  - apply Forall_cons_1 in Hl as [Hv Hl]. apply wp_bind, wp_wr_ram; [eapply in_ram_sub; [exact Hr|lia|cbn; lia]|]. intros h1 Hm1.
    apply IH; [done|eapply in_ram_sub; [exact Hr|lia|lia]|]. intros h2 Hm2. apply HQ. intros x.
    rewrite Hm2, (MemFacts.write_bytes_ext _ _ _ _ _ (Hm1 x)). by apply set8_byte.
Qed.

(** The bytes of a buffer. *)
Definition ram_bytes (m : Z -> Z) (a : Z) (n : nat) : list Z := (fun i => m (a + Z.of_nat i)) <$> seq 0 n.
Lemma wp_buffer_get n : forall a h (Q : list Z -> H -> Prop), in_ram a (Z.of_nat n) ->
  (forall h', (forall x, eth_mem h' x = eth_mem h x) -> Q (ram_bytes (eth_mem h) a n) h') -> wp (buffer_get a n) Q h.
Proof.
  induction n as [|n IH]; intros a h Q Hr HQ; cbn [buffer_get].
  - by apply wp_ret, HQ.
  - apply wp_bind, wp_rd_ram; [eapply in_ram_sub; [exact Hr|lia|cbn; lia]|]. intros h1 Hm1.
    apply wp_bind, IH; [eapply in_ram_sub; [exact Hr|lia|lia]|]. intros h2 Hm2. apply wp_ret.
    assert (ram_bytes (eth_mem h) a (S n) = le W8 (eth_mem h) a :: ram_bytes (eth_mem h1) (a + 1) n) as <-.
    { unfold ram_bytes. cbn [seq fmap list_fmap]. f_equal; [cbn; f_equal; lia|]. rewrite <- fmap_S_seq, <- list_fmap_compose.
      apply list_fmap_ext. intros i j _. cbn. rewrite Hm1. f_equal. lia. }
    apply HQ. intros x. by rewrite Hm2, Hm1.
Qed.
End eth_bus.

(** * The descriptor rings *)
Section descriptors.
Context {H : Type} `{EthBus H}.
Implicit Types (h : H) (g : eth_globals).

(** The four words of a descriptor are in the shared memory. *)
Definition desc_ram (d : Z) : Prop := in_ram d 16.
Lemma desc_word d k : desc_ram d -> 0 <= k <= 12 -> in_ram (d + k) (width_bytes W32).
Proof. intros Hd Hk. eapply in_ram_sub; [exact Hd|lia|cbn; lia]. Qed.
Lemma desc_status d : desc_ram d -> in_ram (Status d) (width_bytes W32).
Proof. intros Hd. eapply in_ram_sub; [exact Hd|unfold Status; lia|cbn; unfold Status; lia]. Qed.

Lemma wp_resume_dma flag demand g h (Q : unit -> eth_globals * H -> Prop) : 0x40000000 <= demand ->
  (forall h', (forall x, eth_mem h' x = eth_mem h x) -> Q tt (g, h')) -> wp (resume_dma flag demand) Q (g, h).
Proof.
  intros Hd HQ. apply wp_bind, wp_lift, wp_rd_reg. intros sr h1 Hm1. destruct (negb _); [|by apply wp_ret, HQ].
  apply wp_bind, wp_lift, wp_wr_reg; [done|]. intros h2 Hm2. apply wp_lift, wp_wr_reg; [done|]. intros h3 Hm3.
  apply HQ. intros x. by rewrite Hm3, Hm2, Hm1.
Qed.

Lemma lor_bound a b : 0 <= a < 2 ^ 32 -> 0 <= b < 2 ^ 32 -> 0 <= Z.lor a b < 2 ^ 32.
Proof.
  intros Ha Hb. split; [apply Z.lor_nonneg; lia|]. destruct (Z.eq_dec (Z.lor a b) 0) as [->|Hne]; [lia|].
  apply Z.log2_lt_pow2; [assert (0 <= Z.lor a b) by (apply Z.lor_nonneg; lia); lia|].
  rewrite Z.log2_lor by lia. apply Z.max_lub_lt.
  - destruct (Z.eq_dec a 0) as [->|]; [done|]. apply Z.log2_lt_pow2; lia.
  - destruct (Z.eq_dec b 0) as [->|]; [done|]. apply Z.log2_lt_pow2; lia.
Qed.

(** A transmit descriptor, filled for a frame of [n] bytes and given to the engine. *)
Definition tx_armed (d n : Z) (m : Z -> Z) : Z -> Z :=
  set32 d (Z.lor (le32 m d) (Z.lor (Z.lor ETH_DMATxDesc_LS ETH_DMATxDesc_FS) ETH_DMATxDesc_OWN))
    (set32 (d + 4) (Z.land n ETH_DMATxDesc_TBS1) m).
Definition tx_free (m : Z -> Z) (d : Z) : bool := Z.land (le32 m d) ETH_DMATxDesc_OWN =? 0.

Lemma set32_twice a v w m x : set32 a v (set32 a w m) x = set32 a v m x.
Proof. unfold set32. by destruct (_ && _). Qed.
Lemma set32_ext a v m m' x : m x = m' x -> set32 a v m x = set32 a v m' x.
Proof. intros Hm. unfold set32. by rewrite Hm. Qed.
Lemma le32_mem m m' a : (forall x, m x = m' x) -> le32 m a = le32 m' a.
Proof. intros Hm. apply MemFacts.le32_ext. intros. apply Hm. Qed.

Lemma wp_or_status d v h (Q : unit -> H -> Prop) : desc_ram d ->
  (forall h', (forall x, eth_mem h' x = set32 d (Z.lor (le32 (eth_mem h) d) v) (eth_mem h) x) -> Q tt h') ->
  wp (or32 (Status d) v) Q h.
Proof.
  intros Hd HQ. apply wp_bind, wp_rd_ram; [by apply desc_status|]. intros h1 Hm1.
  apply wp_wr_ram; [by apply desc_status|]. intros h2 Hm2. apply HQ. intros x. rewrite Hm2. unfold Status. by apply set32_ext.
Qed.

Lemma wp_TxPkt n g h (Q : Z -> eth_globals * H -> Prop) (d := DMATxDescToSet g) : desc_ram d ->
  (forall h', (forall x, eth_mem h' x = if tx_free (eth_mem h) d then tx_armed d n (eth_mem h) x else eth_mem h x) ->
     if tx_free (eth_mem h) d then Q ETH_SUCCESS (set_tx_desc (le32 (eth_mem h) (d + 12)) g, h') else Q ETH_ERROR (g, h')) ->
  wp (ETH_TxPkt_ChainMode n) Q (g, h).
Proof.
  intros Hd HQ. unfold tx_free in HQ. apply wp_bind, wp_getg. fold d. apply wp_bind, wp_lift, wp_rd_ram; [by apply desc_status|]. intros h1 Hm1.
  change (le W32 (eth_mem h) (Status d)) with (le32 (eth_mem h) d).
  destruct (_ =? 0); cbn [negb]; [|by apply wp_ret, HQ].
  apply wp_bind, wp_lift, wp_wr_ram; [by apply desc_word|]. intros h2 Hm2.
  apply wp_bind, wp_lift, wp_or_status; [done|]. intros h3 Hm3.
  apply wp_bind, wp_lift, wp_or_status; [done|]. intros h4 Hm4.
  assert (Hst : le32 (eth_mem h2) d = le32 (eth_mem h) d).
  { rewrite (le32_mem _ _ _ Hm2). change (stored_at W32 (ControlBufferSize d)) with (set32 (d + 4)). rewrite le32_other by lia. by apply le32_mem. }
  assert (Hb : 0 <= le32 (eth_mem h) d < 2 ^ 32) by apply MemFacts.le32_bound, eth_bytes.
  assert (Hmem : forall x, eth_mem h4 x = tx_armed d n (eth_mem h) x).
  { intros x. rewrite Hm4. unfold tx_armed. rewrite (le32_mem _ _ _ Hm3), le32_stored by (apply lor_bound; [rewrite Hst; lia|done]).
    rewrite (set32_ext _ _ _ _ _ (Hm3 x)), set32_twice, Hst, <- Z.lor_assoc. apply set32_ext. rewrite Hm2. by apply set32_ext. }
  apply wp_bind, wp_resume_dma; [done|]. intros h5 Hm5. apply wp_bind, wp_lift, wp_rd_ram; [by apply desc_word|]. intros h6 Hm6.
  apply wp_bind, wp_setg, wp_ret. change (le W32 (eth_mem h5) (Buffer2NextDescAddr d)) with (le32 (eth_mem h5) (d + 12)).
  assert (le32 (eth_mem h5) (d + 12) = le32 (eth_mem h) (d + 12)) as ->.
  { rewrite (le32_mem _ (tx_armed d n (eth_mem h))) by (intros x; by rewrite Hm5, Hmem). unfold tx_armed. by rewrite !le32_other by lia. }
  apply HQ. intros x. by rewrite Hm6, Hm5, Hmem.
Qed.
End descriptors.
