(* ===== verification/Crc.v ===== *)
(** The CRC calculation unit and its driver, stm32f10x_crc.c; and the CRC table
    of the PC program, ethupd/crc_32.cpp. *)
From S2P Require Import Prelude Mmio Rcc.

(** * The unit: registers and documented behaviour *)
Definition CRC_BASE : Z := 0x40023000.
Definition CRC_DR := CRC_BASE + 0x00.
Definition CRC_IDR := CRC_BASE + 0x04.
Definition CRC_CR := CRC_BASE + 0x08.
Definition CRC_CR_RESET : Z := 0x01.
Definition CRC_POLY : Z := 0x04C11DB7.

(** One bit of the division by the CRC-32 polynomial, most significant first. *)
Definition crc_bit (r : Z) : Z :=
  if Z.testbit r 31 then Z.lxor (u32 (Z.shiftl r 1)) CRC_POLY else u32 (Z.shiftl r 1).
(** A data word: added to the register, then 32 steps. *)
Definition crc_step (r data : Z) : Z := Nat.iter 32 crc_bit (Z.lxor r data).
(** The CRC of a sequence of words, from the register value [r]. *)
Definition crc_words (r : Z) (l : list Z) : Z := fold_left crc_step l r.

Definition crc_owns (a : Z) : bool := (CRC_BASE <=? a) && (a <? CRC_BASE + 0x400).

(** The bit of RCC_AHBENR that gives the unit its clock. *)
Definition CRCEN : Z := 6.

(** The unit works while it has its clock ([crc_on]).  Without it its registers keep
    their values, are read as zero, and a store to them is lost (RM0008, the notes on
    the clock enable registers).  The clock is off after a reset and changes by stores to
    RCC_AHBENR only. *)
Class CrcBus (H : Type) `{Bus H} := {
  crc_on : H -> bool;
  crc_of : H -> Z;       (* the data register *)
  crc_idr : H -> Z;
  crc_read_dr : forall h, fst (bus_read W32 CRC_DR h) = if crc_on h then crc_of h else 0;
  crc_read_idr : forall h, fst (bus_read W8 CRC_IDR h) = if crc_on h then crc_idr h else 0;
  crc_read_ahbenr : forall h, Z.testbit (fst (bus_read W32 RCC_AHBENR h)) CRCEN = crc_on h;
  crc_read_state : forall w a h,
    crc_of (snd (bus_read w a h)) = crc_of h /\ crc_idr (snd (bus_read w a h)) = crc_idr h /\
    crc_on (snd (bus_read w a h)) = crc_on h;
  crc_write_dr : forall v h,
    crc_of (bus_write W32 CRC_DR v h) = (if crc_on h then crc_step (crc_of h) v else crc_of h) /\
    crc_idr (bus_write W32 CRC_DR v h) = crc_idr h;
  crc_write_cr : forall h,
    crc_of (bus_write W32 CRC_CR CRC_CR_RESET h) = (if crc_on h then 0xFFFFFFFF else crc_of h) /\
    crc_idr (bus_write W32 CRC_CR CRC_CR_RESET h) = crc_idr h;
  crc_write_idr : forall v h,
    crc_of (bus_write W8 CRC_IDR v h) = crc_of h /\
    crc_idr (bus_write W8 CRC_IDR v h) = if crc_on h then u8 v else crc_idr h;
  crc_write_frame : forall w a v h, crc_owns a = false ->
    crc_of (bus_write w a v h) = crc_of h /\ crc_idr (bus_write w a v h) = crc_idr h;
  crc_write_ahbenr : forall v h, crc_on (bus_write W32 RCC_AHBENR v h) = Z.testbit v CRCEN;
  crc_on_frame : forall w a v h, (a + width_bytes w <=? RCC_AHBENR) || (RCC_AHBENR + 4 <=? a) = true ->
    crc_on (bus_write w a v h) = crc_on h
}.

(** * The driver *)
Section driver.
Context {H : Type} `{Bus H}.

Definition CRC_ResetDR : M H unit := wr32 CRC_CR CRC_CR_RESET.

Definition CRC_CalcCRC (Data : Z) : M H Z :=
  _ ← wr32 CRC_DR Data; rd32 CRC_DR.

(** [pBuffer] is the address of an array of words in the memory of the bus. *)
Definition crc_block_body (pBuffer BufferLength index : Z) : M H (Z + unit) :=
  if index <? BufferLength then
    v ← rd32 (u32 (pBuffer + 4 * index));
    _ ← wr32 CRC_DR v;
    mret (inl (index + 1))
  else mret (inr tt).

Definition CRC_CalcBlockCRC (pBuffer BufferLength : Z) : M H Z :=
  _ ← loop (Z.to_pos (BufferLength + 1)) (crc_block_body pBuffer BufferLength) 0;
  rd32 CRC_DR.

Definition CRC_GetCRC : M H Z := rd32 CRC_DR.
Definition CRC_SetIDRegister (IDValue : Z) : M H unit := wr8 CRC_IDR IDValue.
Definition CRC_GetIDRegister : M H Z := rd8 CRC_IDR.
End driver.

(** * The PC side: crc_32::fill_table *)
Definition WIDTH : Z := 32.
Definition TOPBIT : Z := 2 ^ (WIDTH - 1).
Definition POLINOMIAL : Z := 0x4C11DB7.

(** The body of the bit loop. *)
Definition fill_bit (reminder : Z) : Z :=
  if negb (Z.land reminder TOPBIT =? 0)
  then Z.lxor (u32 (Z.shiftl reminder 1)) POLINOMIAL
  else u32 (Z.shiftl reminder 1).

Definition table_entry (dividend : Z) : Z :=
  Nat.iter 8 fill_bit (u32 (Z.shiftl dividend (WIDTH - 8))).

Definition fill_table : list Z := map (fun i => table_entry (Z.of_nat i)) (seq 0 256).
