(* ===== verification/Board.v ===== *)
(** A concrete chip: flash controller, CRC unit, clock tree and plain
    registers behind one bus.  It discharges the interfaces of the peripherals,
    and the witnesses of the theorems run on it. *)
From S2P Require Import Prelude Mmio Fpec Crc Rcc ClockTree Gpio.

Record board : Type := Board {
  bd_fpec : fpec; bd_crc : Z; bd_idr : Z; bd_clk : clk; bd_regs : Z -> Z
}.

(** CRCEN. *)
Definition board_crc_on (b : board) : bool := Z.testbit (bd_regs b RCC_AHBENR) CRCEN.
Arguments board_crc_on : simpl never.

Definition board_read (w : width) (a : Z) (b : board) : Z * board :=
  if bool_decide (w = W32) && clk_reads a then
    let '(v, c) := clk_read a (bd_clk b) in
    (v, Board (bd_fpec b) (bd_crc b) (bd_idr b) c (bd_regs b))
  else if fpec_reads w a then
    let '(v, f) := fpec_read w a (bd_fpec b) in
    (v, Board f (bd_crc b) (bd_idr b) (bd_clk b) (bd_regs b))
  else if a =? CRC_DR then (if board_crc_on b then bd_crc b else 0, b)
  else if a =? CRC_IDR then (if board_crc_on b then bd_idr b else 0, b)
  else (bd_regs b a, b).

Definition board_write (w : width) (a v : Z) (b : board) : board :=
  if bool_decide (w = W32) && clk_reads a then
    Board (bd_fpec b) (bd_crc b) (bd_idr b) (clk_write 1 a v (bd_clk b)) (bd_regs b)
  else if fpec_writes w a v (bd_fpec b) then
    Board (fpec_write 1 2 a v (bd_fpec b)) (bd_crc b) (bd_idr b) (bd_clk b) (bd_regs b)
  else if a =? CRC_DR then
    Board (bd_fpec b) (if board_crc_on b then crc_step (bd_crc b) v else bd_crc b) (bd_idr b) (bd_clk b) (bd_regs b)
  else if a =? CRC_CR then
    Board (bd_fpec b) (if board_crc_on b then 0xFFFFFFFF else bd_crc b) (bd_idr b) (bd_clk b) (bd_regs b)
  else if a =? CRC_IDR then
    Board (bd_fpec b) (bd_crc b) (if board_crc_on b then u8 v else bd_idr b) (bd_clk b) (bd_regs b)
  else Board (bd_fpec b) (bd_crc b) (bd_idr b) (bd_clk b)
             (fun x => if x =? a then v else bd_regs b x).

#[global] Instance board_bus : Bus board := {| bus_read := board_read; bus_write := board_write |}.

(** ** Which addresses belong to whom *)
Lemma clk_reads_cases a : clk_reads a = true ->
  a = RCC_CR \/ a = RCC_CFGR \/ a = RCC_CFGR2 \/ a = FLASH_ACR.
Proof. unfold clk_reads. rewrite !orb_true_iff, !Z.eqb_eq. tauto. Qed.

Lemma clk_reads_not_owned a : clk_owns a = false -> clk_reads a = false.
Proof. unfold clk_owns. rewrite !orb_false_iff. tauto. Qed.

Lemma in_flash_owned a : in_flash a = true -> fpec_owns a = true.
Proof. intros Ha. unfold fpec_owns. by rewrite Ha, orb_true_r. Qed.

Lemma fpec_reads_owned w a : fpec_reads w a = true -> fpec_owns a = true.
Proof.
  unfold fpec_reads. destruct w; rewrite ?orb_true_iff, ?andb_true_iff, ?Z.eqb_eq;
    intuition eauto using in_flash_owned; subst; done.
Qed.

Lemma fpec_writes_owned w a v f : fpec_writes w a v f = true -> fpec_owns a = true.
Proof.
  unfold fpec_writes. destruct w; [done|..];
    rewrite ?orb_true_iff, ?andb_true_iff, ?Z.eqb_eq;
    intuition eauto using in_flash_owned; subst; done.
Qed.

(** An access of the flash controller is not one of the clock tree. *)
Lemma fpec_reads_clk w a : fpec_reads w a = true -> clk_reads a = false.
Proof.
  intros Hr. destruct (clk_reads a) eqn:Hc; [|done].
  apply clk_reads_cases in Hc as [-> | [-> | [-> | ->]]]; by destruct w.
Qed.

Lemma fpec_writes_clk w a v f : fpec_writes w a v f = true -> clk_reads a = false.
Proof.
  intros Hr. destruct (clk_reads a) eqn:Hc; [|done].
  apply clk_reads_cases in Hc as [-> | [-> | [-> | ->]]]; by destruct w.
Qed.

Lemma clk_writes_reads a v f : clk_writes a v f = true -> clk_reads a = true.
Proof.
  unfold clk_writes, clk_reads. repeat case_match; try done;
    repeat match goal with E : (_ =? _) = true |- _ => apply Z.eqb_eq in E; subst end; done.
Qed.

#[global] Program Instance board_fpec : FpecBus board := {|
  fpec_of := bd_fpec; prog_polls := fun _ => 1%nat; erase_polls := fun _ => 2%nat
|}.
Next Obligation. done. Qed.
Next Obligation. done. Qed.
Next Obligation.
  intros w a b Hr. cbn. unfold board_read. rewrite (fpec_reads_clk _ _ Hr), andb_false_r, Hr.
  by destruct (fpec_read w a (bd_fpec b)).
Qed.
Next Obligation.
  intros w a b Hr. cbn. unfold board_read. rewrite (fpec_reads_clk _ _ Hr), andb_false_r, Hr.
  by destruct (fpec_read w a (bd_fpec b)).
Qed.
Next Obligation.
  intros w a v b Hw. cbn. unfold board_write.
  by rewrite (fpec_writes_clk _ _ _ _ Hw), andb_false_r, Hw.
Qed.
Next Obligation.
  intros w a b Ho. cbn. unfold board_read.
  destruct (fpec_reads w a) eqn:Hr; [apply fpec_reads_owned in Hr; congruence|].
  destruct (clk_read a (bd_clk b)). by repeat case_match.
Qed.
Next Obligation.
  intros w a v b Ho. cbn. unfold board_write.
  destruct (fpec_writes w a v (bd_fpec b)) eqn:Hr; [apply fpec_writes_owned in Hr; congruence|].
  by repeat case_match.
Qed.

#[global] Program Instance board_crc : CrcBus board := {| crc_on := board_crc_on; crc_of := bd_crc; crc_idr := bd_idr |}.
Next Obligation. done. Qed.
Next Obligation. done. Qed.
Next Obligation. done. Qed.
Next Obligation.
  intros w a b. cbn. unfold board_read.
  destruct (clk_read a (bd_clk b)), (fpec_read w a (bd_fpec b)). by repeat case_match.
Qed.
Next Obligation. done. Qed.
Next Obligation. done. Qed.
Next Obligation. done. Qed.
Next Obligation.
  intros w a v b Ho. cbn. unfold board_write.
  destruct (Z.eqb_spec a CRC_DR) as [-> |]; [done|].
  destruct (Z.eqb_spec a CRC_CR) as [-> |]; [done|].
  destruct (Z.eqb_spec a CRC_IDR) as [-> |]; [done|].
  by repeat case_match.
Qed.
Next Obligation. done. Qed.
Next Obligation.
  intros w a v b Ha. cbn. unfold board_write.
  assert ((RCC_AHBENR =? a) = false) as Hne.
  { apply Z.eqb_neq. intros <-. apply orb_true_iff in Ha as [Ha%Z.leb_le|Ha%Z.leb_le]; destruct w; cbn in Ha; lia. }
  assert (board_crc_on (Board (bd_fpec b) (bd_crc b) (bd_idr b) (bd_clk b) (fun x => if x =? a then v else bd_regs b x)) = board_crc_on b) as Hlast
    by (unfold board_crc_on; cbn [bd_regs]; by rewrite Hne).
  by repeat case_match.
Qed.

#[global] Program Instance board_clk : ClockBus board := {|
  clk_of := bd_clk; settle_polls := fun _ => 1%nat
|}.
Next Obligation. done. Qed.
Next Obligation.
  intros a b Hr. cbn. unfold board_read. rewrite Hr. cbn.
  by destruct (clk_read a (bd_clk b)).
Qed.
Next Obligation.
  intros a b Hr. cbn. unfold board_read. rewrite Hr. cbn.
  by destruct (clk_read a (bd_clk b)).
Qed.
Next Obligation.
  intros a v b Hw. cbn. unfold board_write. by rewrite (clk_writes_reads _ _ _ Hw).
Qed.
Next Obligation.
  intros w a b Ho. cbn. unfold board_read. rewrite clk_reads_not_owned, andb_false_r by done.
  destruct (fpec_read w a (bd_fpec b)). by repeat case_match.
Qed.
Next Obligation.
  intros w a v b Ho. cbn. unfold board_write. rewrite clk_reads_not_owned, andb_false_r by done.
  by repeat case_match.
Qed.

(** GPIO registers are plain registers of the board. *)
Lemma gpio_plain a : GPIOA <= a < 0x40012000 ->
  clk_reads a = false /\ fpec_owns a = false /\
  (a =? CRC_DR) = false /\ (a =? CRC_CR) = false /\ (a =? CRC_IDR) = false.
Proof.
  intros Ha. unfold clk_reads, fpec_owns, in_flash, RCC_CR, RCC_CFGR, RCC_CFGR2, FLASH_ACR,
    FLASH_R_BASE, RCC_BASE, flash_first, flash_end, GPIOA, APB2PERIPH_BASE,
    CRC_DR, CRC_CR, CRC_IDR, CRC_BASE in *.
  repeat rewrite (proj2 (Z.eqb_neq a _)) by lia.
  destruct (Z.leb_spec 1073881088 a), (Z.ltb_spec a 0x08040000), (Z.ltb_spec a 0x1FFFF810);
    try lia; rewrite ?andb_false_r; done.
Qed.

Lemma gpio_config_range a : gpio_config a = true -> GPIOA <= a < 0x40012000.
Proof.
  unfold gpio_config. cbn. rewrite !orb_true_iff, !Z.eqb_eq.
  unfold GPIOA, GPIOB, GPIOC, GPIOD, GPIOE, APB2PERIPH_BASE, CRL, CRH. intuition (try done; lia).
Qed.

Lemma gpio_data_range a : gpio_data a = true -> GPIOA <= a < 0x40012000.
Proof.
  unfold gpio_data. cbn. rewrite !orb_true_iff, !andb_true_iff, !Z.leb_le, !Z.ltb_lt.
  unfold GPIOA, GPIOB, GPIOC, GPIOD, GPIOE, APB2PERIPH_BASE, IDR, LCKR. intuition (try done; lia).
Qed.

Lemma fpec_not_owned w a v f : fpec_owns a = false ->
  fpec_reads w a = false /\ fpec_writes w a v f = false.
Proof.
  intros Ho. split; apply not_true_iff_false; intros Hw;
    [apply fpec_reads_owned in Hw|apply fpec_writes_owned in Hw]; congruence.
Qed.

Lemma board_write_gpio a v b : GPIOA <= a < 0x40012000 ->
  bd_regs (board_write W32 a v b) = fun x => if x =? a then v else bd_regs b x.
Proof.
  intros Ha. apply gpio_plain in Ha as (Hc & Ho & H1 & H2 & H3). unfold board_write.
  destruct (fpec_not_owned W32 a v (bd_fpec b) Ho) as [_ ->]. by rewrite Hc, H1, H2, H3.
Qed.

#[global] Program Instance board_port : PortBus board := {| port_of := bd_regs |}.
Next Obligation.
  intros a b Ha. apply gpio_config_range, gpio_plain in Ha as (Hc & Ho & H1 & _ & H3). cbn.
  unfold board_read. destruct (fpec_not_owned W32 a 0 (bd_fpec b) Ho) as [-> _].
  by rewrite Hc, H1, H3.
Qed.
Next Obligation.
  intros w a b x. cbn. unfold board_read.
  destruct (clk_read a (bd_clk b)), (fpec_read w a (bd_fpec b)). by repeat case_match.
Qed.
Next Obligation.
  intros a v b x Ha. apply gpio_config_range in Ha. cbn. by rewrite board_write_gpio.
Qed.
Next Obligation.
  intros a v b x Ha Hx. cbn. rewrite board_write_gpio by (by apply gpio_data_range).
  destruct (Z.eqb_spec x a) as [-> |]; [|done].
  exfalso. revert Ha Hx. unfold gpio_data, gpio_config. cbn.
  rewrite !orb_true_iff, !andb_true_iff, !Z.leb_le, !Z.ltb_lt, !Z.eqb_eq.
  unfold GPIOA, GPIOB, GPIOC, GPIOD, GPIOE, APB2PERIPH_BASE, IDR, LCKR, CRL, CRH. intuition (try done; lia).
Qed.

(** ** Boards after a reset *)
Definition reset_fpec (mem : Z -> Z) (wrp : Z -> bool) : fpec :=
  Fpec mem KLocked 0 0 0 0 wrp.
Definition reset_clk : clk := Clk 0x81 0 0 0x10 1 0 0 0x55 (Some HSE_VALUE).
Definition reset_board (mem : Z -> Z) (wrp : Z -> bool) : board :=
  Board (reset_fpec mem wrp) 0xFFFFFFFF 0 reset_clk (fun _ => 0).
(** No write protection. *)
Definition no_wrp : Z -> bool := fun _ => false.
