(* ===== verification/Bootloader.v ===== *)
(** The bootloader: bootloader/src/main.c and bootloader/src/flash_drv.c.
    At reset it looks for a new firmware image, installs it over the current
    one, erases the staging area, and jumps to the application. *)
From S2P Require Import Prelude Mmio Fpec FlashDriver FlashSpec Rcc Gpio Misc.

(** * defs.h and flash_drv.c *)
Definition NEW_CORE_FLASH_ADDR : Z := 0x08010000.
Definition CURRENT_CORE_FLASH_ADDR : Z := 0x08004000.
Definition CORE_HEADER_SIZE : Z := 16.
Definition APPLICATION_OFFSET : Z := 0x4000.
Definition PAGES_AMOUNT_TO_ERASE : Z := 64.
Definition STM32F107_LAST_PAGE_ADDR : Z := 0x0803F800.
Definition STM32F107_PAGE_SIZE : Z := 0x800.

(** [errno_vals_t] *)
Definition FLASH_OK : Z := 0.
Definition FLASH_RD_ERR : Z := 1.
Definition FLASH_WR_ERR : Z := 2.
Definition FLASH_ERASE_ERR : Z := 3.

(** The global variables of the program. *)
Record boot : Type := Boot {
  errno : Z; new_core_size : Z; jump_to_app : Z;
  primask : Z; msp : Z     (* core registers *)
}.
Definition set_errno (e : Z) (g : boot) : boot :=
  Boot e (new_core_size g) (jump_to_app g) (primask g) (msp g).
Definition set_new_core_size (n : Z) (g : boot) : boot :=
  Boot (errno g) n (jump_to_app g) (primask g) (msp g).
Definition set_jump_to_app (a : Z) (g : boot) : boot :=
  Boot (errno g) (new_core_size g) a (primask g) (msp g).
Definition set_primask (p : Z) (g : boot) : boot :=
  Boot (errno g) (new_core_size g) (jump_to_app g) p (msp g).
Definition set_msp (p : Z) (g : boot) : boot :=
  Boot (errno g) (new_core_size g) (jump_to_app g) (primask g) p.

(** How the bootloader ends: a jump to the address of the application, or the
    endless loop that blinks the error LED. *)
Inductive boot_end : Set := JumpTo (pc : Z) | BlinkForever.

(** The 32-bit word at index [i] of a byte array. *)
Definition word_at (l : list Z) (i : Z) : Z :=
  le32 (fun k => default 0 (l !! Z.to_nat k)) i.

Section bootloader.
Context {H : Type} `{Bus H}.

(** ** flash_drv.c *)

Definition erase_sector_body (pages_amount : Z) (r : Z * Z) : M H (Z * Z + Z) :=
  let '(i, addr) := r in
  if i <? pages_amount then
    st ← FLASH_ErasePage addr;
    if bool_decide (st <> FLASH_COMPLETE) then mret (inr 2)
    else mret (inl (u8 (i + 1), u32 (addr + STM32F107_PAGE_SIZE)))
  else mret (inr 0).

Definition erase_sector (start_page_addr pages_amount : Z) : M H Z :=
  let last_addr := u32 (start_page_addr + pages_amount * STM32F107_PAGE_SIZE) in
  if STM32F107_LAST_PAGE_ADDR <? last_addr then mret 1
  else loop (Z.to_pos (pages_amount + 1)) (erase_sector_body pages_amount)
            (0, start_page_addr).

(** The loop counter of the source is an uninitialised [int]; [i0] is the
    value it happens to hold. *)
Definition read_header_body (r : Z * Z * list Z)
  : M H (Z * Z * list Z + list Z) :=
  let '(i, addr, buf) := r in
  if i <? 16 then
    v ← rd8 addr;
    buf' ← store buf i v;
    mret (inl (i + 1, u32 (addr + 1), buf'))
  else mret (inr buf).

Definition read_header_buf (i0 : Z) : M H (list Z) :=
  loop (Z.to_pos (17 - i0)) read_header_body
       (i0, NEW_CORE_FLASH_ADDR, replicate 16 0).

Definition read_header (i0 : Z) : M (boot * H) Z :=
  buf ← lift (read_header_buf i0);
  b0 ← index buf 0; b1 ← index buf 1; b2 ← index buf 2;
  (* "ver" *)
  if (b0 =? 0x76) && (b1 =? 0x65) && (b2 =? 0x72) then
    _ ← setg (set_new_core_size (word_at buf 12));
    mret 1
  else mret 0.

(** The copy loop, on the locals [i], [addr_cpy_from] and [addr_cpy_to]; the
    comparison of the source is unsigned. *)
Definition replace_core_body (r : Z * Z * Z) : M (boot * H) (Z * Z * Z + Z) :=
  let '(i, addr_cpy_from, addr_cpy_to) := r in
  size ← getg new_core_size;
  if u32 i <? size then
    carrier_word ← lift (rd32 addr_cpy_from);
    st ← lift (FLASH_ProgramWord addr_cpy_to carrier_word);
    if bool_decide (st <> FLASH_COMPLETE) then
      _ ← setg (set_errno FLASH_WR_ERR); mret (inr 1)
    else mret (inl (i + 1, u32 (addr_cpy_from + 4), u32 (addr_cpy_to + 4)))
  else mret (inr 0).

Definition replace_core : M (boot * H) Z :=
  func_ret_val ← lift (erase_sector CURRENT_CORE_FLASH_ADDR 8);
  if negb (func_ret_val =? 0) then
    _ ← setg (set_errno FLASH_ERASE_ERR); mret 1
  else
    size ← getg new_core_size;
    loop (Z.to_pos (size + 1)) replace_core_body
         (0, NEW_CORE_FLASH_ADDR + CORE_HEADER_SIZE, CURRENT_CORE_FLASH_ADDR).

(** ** main.c *)

Definition check_core (i0 : Z) : M (boot * H) unit :=
  _ ← lift FLASH_Unlock;
  temp ← read_header i0;
  if temp =? 1 then
    temp ← replace_core;
    if negb (temp =? 0) then mret tt
    else
      temp ← lift (erase_sector NEW_CORE_FLASH_ADDR PAGES_AMOUNT_TO_ERASE);
      if negb (temp =? 0) then mret tt
      else lift FLASH_Lock
  else lift FLASH_Lock.

(** [__jump]: the application vector table holds the initial stack pointer and
    the reset handler. *)
Definition jump (addr : Z) : M (boot * H) boot_end :=
  jump_address ← lift (rd32 (addr + 4));
  _ ← setg (set_jump_to_app jump_address);
  _ ← setg (set_primask 1);
  _ ← lift (NVIC_SetVectorTable NVIC_VectTab_FLASH APPLICATION_OFFSET);
  _ ← setg (set_primask 0);
  sp ← lift (rd32 addr);
  _ ← setg (set_msp sp);
  pc ← getg jump_to_app;
  mret (JumpTo pc).

(** One turn of the error loop of [main], less its two delay loops. *)
Definition blink : M (boot * H) unit :=
  _ ← lift (GPIO_SetBits GPIOB (GPIO_Pin 15));
  lift (GPIO_ResetBits GPIOB (GPIO_Pin 15)).

(** ** sys_init.c *)
Definition sys_init : M H unit :=
  _ ← RCC_APB2PeriphClockCmd RCC_APB2Periph_GPIOB ENABLE;
  GPIO_Init GPIOB (GpioInit (GPIO_Pin 15) GPIO_Speed_50MHz GPIO_Mode_Out_PP).

Definition main (i0 : Z) : M (boot * H) boot_end :=
  _ ← lift sys_init;
  _ ← check_core i0;
  e ← getg errno;
  if e =? 0 then jump CURRENT_CORE_FLASH_ADDR else mret BlinkForever.
End bootloader.
