(* ===== verification/BootloaderSpec.v ===== *)
(** Correctness of the bootloader: what a reset does to the flash, for every
    bus that shows the documented behaviour of the flash controller. *)
From S2P Require Import Prelude Mmio Fpec FlashDriver FlashSpec MemFacts Rcc Gpio Misc Bootloader.

(** * Erasing a run of pages *)
Section erase.
Context {H : Type} `{FpecBus H}.

(** The controller after the pages from [a] for [n] bytes were erased. *)
Definition erased_from (f : fpec) (a n : Z) (f' : fpec) : Prop :=
  good f' /\ fp_wrp f' = fp_wrp f /\
  forall x, fp_mem f' x = erase_range a n (fp_mem f) x.

Lemma wp_ErasePage_good (Q : FLASH_Status -> H -> Prop) h f p :
  fpec_of h = f -> good f -> in_flash p = true -> p mod page_size = 0 ->
  fp_wrp f p = false ->
  (forall h', erased_from f p page_size (fpec_of h') -> Q FLASH_COMPLETE h') ->
  wp (FLASH_ErasePage p) Q h.
Proof.
  intros Hf Hg Hp Ha Hw HQ.
  apply (wp_ErasePage_ready _ _ f); [done|apply Hg|apply Hg|done|]. intros h' Hh'.
  rewrite erase_op_unprotected, page_start_aligned in Hh' |- * by done.
  rewrite good_status by eauto with fpec_db. apply HQ. rewrite Hh'.
  split; [eauto with fpec_db|]. by split.
Qed.

Lemma wp_ErasePage_protected (Q : FLASH_Status -> H -> Prop) h f p :
  fpec_of h = f -> good f -> in_flash p = true -> fp_wrp f p = true ->
  (forall h', fpec_of h' = with_ar p (op_refused SR_WRPRTERR f) -> Q FLASH_ERROR_WRP h') ->
  wp (FLASH_ErasePage p) Q h.
Proof.
  intros Hf Hg Hp Hw HQ.
  apply (wp_ErasePage_ready _ _ f); [done|apply Hg|apply Hg|done|]. intros h' Hh'.
  rewrite erase_op_protected in Hh' |- * by done.
  assert (status_of (op_refused SR_WRPRTERR f) = FLASH_ERROR_WRP) as ->; [|by apply HQ].
  destruct Hg as [[_ Hb _ _] [H2 H4]]. unfold status_of.
  cbn [op_refused with_err fp_busy fp_err]. rewrite decide_True by done.
  by rewrite !Z.lor_spec, H2, orb_true_r.
Qed.

(** The guard of erase_sector in terms of addresses. *)
Definition fits (start n : Z) : Prop :=
  flash_first <= start /\ start mod page_size = 0 /\ 0 <= n < 256 /\
  start + n * page_size <= STM32F107_LAST_PAGE_ADDR.

Lemma erase_range_nil a m x : erase_range a 0 m x = m x.
Proof. unfold erase_range. destruct (Z.leb_spec a x), (Z.ltb_spec x (a + 0)); (done || lia). Qed.

Lemma erase_range_step a i m m' x : 0 <= i ->
  (forall x, m' x = erase_range a (i * page_size) m x) ->
  erase_range (a + i * page_size) page_size m' x = erase_range a ((i + 1) * page_size) m x.
Proof.
  intros Hi Hm. unfold erase_range in *. rewrite Hm.
  repeat match goal with |- context [?u <=? ?v] => destruct (Z.leb_spec u v)
                       | |- context [?u <? ?v] => destruct (Z.ltb_spec u v) end;
    cbn [andb]; (done || (unfold page_size in *; lia)).
Qed.

(** Pages [0 .. k) of the run are erased, one after the other. *)
Lemma wp_erase_loop (Q : Z -> H -> Prop) h f start n k :
  fits start n -> 0 <= k <= n -> fpec_of h = f -> good f ->
  unprotected f start (k * page_size) ->
  (forall h' f', fpec_of h' = f' -> erased_from f start (k * page_size) f' ->
     wp (erase_sector_body n (k, start + k * page_size))
        (fun r h2 => match r with inl _ => False | inr b => Q b h2 end) h') ->
  wp (loop (Z.to_pos (n + 1)) (erase_sector_body n) (0, start)) Q h.
Proof.
  intros (Hlo & Hal & Hn & Hhi) Hk Hf Hg Hw Hend.
  apply (wp_loop (fun r h' => exists i, 0 <= i <= k /\ r = (i, start + i * page_size) /\
                    erased_from f start (i * page_size) (fpec_of h'))
                 (fun r _ => n - fst r)).
  - exists 0. split; [lia|]. split; [f_equal; lia|]. rewrite Hf. split; [done|].
    split; [done|]. intros x. by rewrite erase_range_nil.
  - cbn [fst]. lia.
  - intros r h1 (i & Hi & -> & Hfi) _. destruct (Z.eq_dec i k) as [->|Hne].
    { eapply wp_mono; [by eapply Hend|]. intros [a|b] h2; [done|done]. }
    unfold erase_sector_body. rewrite (proj2 (Z.ltb_lt _ _)) by lia.
    unfold STM32F107_LAST_PAGE_ADDR, page_size, flash_first in *.
    pose proof Hfi as (Hgi & Hwi & Hmi).
    apply wp_bind, (wp_ErasePage_good _ _ _ _ eq_refl Hgi).
    + apply in_flash_range. unfold flash_first, flash_end. lia.
    + unfold page_size. by rewrite Z.mod_add by lia.
    + rewrite Hwi. apply Hw. unfold page_size. lia.
    + intros h2 (Hg2 & Hw2 & Hm2). rewrite bool_decide_eq_false_2 by auto.
      apply wp_ret. assert (u8 (i + 1) = i + 1) as -> by (unfold u8; apply Z.mod_small; lia).
      cbn [fst]. split; [|lia]. exists (i + 1). split; [lia|]. split.
      * f_equal. unfold u32, STM32F107_PAGE_SIZE. rewrite Z.mod_small; lia.
      * split; [done|]. split; [congruence|]. intros x. rewrite Hm2.
        apply erase_range_step; [lia|done].
Qed.

Lemma wp_erase_sector (Q : Z -> H -> Prop) h f start n :
  fits start n -> fpec_of h = f -> good f -> unprotected f start (n * page_size) ->
  (forall h', erased_from f start (n * page_size) (fpec_of h') -> Q 0 h') ->
  wp (erase_sector start n) Q h.
Proof.
  intros Hfit Hf Hg Hw HQ. unfold erase_sector.
  rewrite (proj2 (Z.ltb_ge _ _)).
  - apply (wp_erase_loop _ _ f _ _ n); [done|destruct Hfit; lia|done..|].
    intros h' f' <- He. unfold erase_sector_body. rewrite (proj2 (Z.ltb_ge _ _)) by lia.
    by apply wp_ret, HQ.
  - destruct Hfit as (? & ? & ? & ?). unfold u32, STM32F107_LAST_PAGE_ADDR, flash_first, page_size in *.
    unfold STM32F107_PAGE_SIZE. rewrite Z.mod_small; lia.
Qed.

(** A protected page stops the run there. *)
Lemma wp_erase_sector_protected (Q : Z -> H -> Prop) h f start n k :
  fits start n -> fpec_of h = f -> good f -> 0 <= k < n ->
  unprotected f start (k * page_size) -> fp_wrp f (start + k * page_size) = true ->
  (forall h', (forall x, fp_mem (fpec_of h') x = erase_range start (k * page_size) (fp_mem f) x) ->
     ~ no_error (fpec_of h') -> ready (fpec_of h') -> Q 2 h') ->
  wp (erase_sector start n) Q h.
Proof.
  intros Hfit Hf Hg Hk Hw Hwk HQ. unfold erase_sector.
  destruct Hfit as (Hlo & Hal & Hn & Hhi) eqn:Efit.
  unfold STM32F107_LAST_PAGE_ADDR, flash_first, page_size in *.
  rewrite (proj2 (Z.ltb_ge _ _)) by (unfold u32, STM32F107_PAGE_SIZE; rewrite Z.mod_small; lia).
  apply (wp_erase_loop _ _ f _ _ k); [done|lia|done..|].
  intros h' f' <- (Hg' & Hw' & Hm'). unfold erase_sector_body.
  rewrite (proj2 (Z.ltb_lt _ _)) by lia.
  apply wp_bind, (wp_ErasePage_protected _ _ _ _ eq_refl Hg').
  - apply in_flash_range. unfold flash_first, flash_end, page_size. lia.
  - rewrite Hw'. exact Hwk.
  - intros h2 Hh2. rewrite bool_decide_eq_true_2 by done. apply wp_ret, HQ.
    + intros x. rewrite Hh2. apply Hm'.
    + rewrite Hh2. intros [_ H4]. cbn [with_ar op_refused with_err fp_err] in H4.
      rewrite Z.lor_spec, orb_true_r in H4. done.
    + rewrite Hh2. destruct Hg' as [[? ? ? Hs] _]. split; try done. by apply testbit_lor_flag.
Qed.

(** A run past the last page is refused before anything is touched. *)
Lemma wp_erase_sector_refused (Q : Z -> H -> Prop) h start n :
  0 <= start -> 0 <= n -> STM32F107_LAST_PAGE_ADDR < start + n * page_size < 2 ^ 32 ->
  Q 1 h -> wp (erase_sector start n) Q h.
Proof.
  intros Hs Hn Hlast HQ. unfold erase_sector.
  rewrite (proj2 (Z.ltb_lt _ _)); [by apply wp_ret|].
  unfold u32, page_size, STM32F107_PAGE_SIZE in *. rewrite Z.mod_small; lia.
Qed.

(** ** Loads from the flash memory *)
Lemma wp_rd_mem w a (Q : Z -> H -> Prop) h f :
  fpec_of h = f -> fp_busy f = 0%nat ->
  in_flash a = true -> in_flash (a + width_bytes w - 1) = true ->
  (forall h', fpec_of h' = f -> Q (le w (fp_mem f) a) h') ->
  wp (rd w a) Q h.
Proof.
  intros Hf Hb Ha Ha2 HQ.
  assert (Hr : fpec_reads w a = true).
  { unfold fpec_reads. destruct w; cbn [width_bytes] in *.
    - by rewrite Ha, Ha2.
    - by rewrite Ha, Ha2.
    - replace (a + 3) with (a + 4 - 1) by lia. by rewrite Ha, Ha2, orb_true_r. }
  assert (Hrd : fpec_read w a f = (le w (fp_mem f) a, f)).
  { apply in_flash_range in Ha. unfold flash_first, flash_end in Ha. unfold fpec_read.
    rewrite !(proj2 (Z.eqb_neq a _)) by (unfold FLASH_SR, FLASH_CR, FLASH_R_BASE; lia).
    by rewrite with_busy_id. }
  apply wp_rd_fpec; [done|]. rewrite Hf, Hrd. exact HQ.
Qed.
End erase.

(** * The header *)
Section header.
Context {H : Type} `{FpecBus H}.

(** The staging area starts with "ver". *)
Definition has_header (m : Z -> Z) : bool :=
  (m NEW_CORE_FLASH_ADDR =? 0x76) && (m (NEW_CORE_FLASH_ADDR + 1) =? 0x65)
  && (m (NEW_CORE_FLASH_ADDR + 2) =? 0x72).
(** The size field of the header. *)
Definition header_size (m : Z -> Z) : Z := le32 m (NEW_CORE_FLASH_ADDR + 12).

(** The buffer after the loop that starts at [i0]: the entries before [i0]
    keep the zeros of [memset], the others come from the staging area (the
    address starts with the buffer, not with [i0]). *)
Lemma wp_read_header_buf (Q : list Z -> H -> Prop) h f i0 :
  fpec_of h = f -> fp_busy f = 0%nat -> 0 <= i0 ->
  (forall h' buf, fpec_of h' = f -> length buf = 16%nat ->
     (forall k, 0 <= k < 16 -> buf !! Z.to_nat k =
        Some (if k <? i0 then 0 else fp_mem f (NEW_CORE_FLASH_ADDR + k - i0))) ->
     Q buf h') ->
  wp (read_header_buf i0) Q h.
Proof.
  intros Hf Hb Hi0 HQ. unfold read_header_buf.
  apply (wp_loop (fun r h' => exists i buf, i0 <= i /\ (i <= 16 \/ i = i0) /\
      r = (i, NEW_CORE_FLASH_ADDR + (i - i0), buf) /\ fpec_of h' = f /\ length buf = 16%nat /\
      forall k, 0 <= k < 16 -> buf !! Z.to_nat k =
        Some (if (k <? i0) || (i <=? k) then 0 else fp_mem f (NEW_CORE_FLASH_ADDR + k - i0)))
    (fun r _ => Z.max 0 (16 - fst (fst r)))).
  - exists i0, (replicate 16 0). split; [lia|]. split; [by right|].
    split; [by rewrite Z.sub_diag, Z.add_0_r|]. split; [done|]. split; [done|].
    intros k Hk. rewrite lookup_replicate_2 by lia.
    destruct (Z.ltb_spec k i0), (Z.leb_spec i0 k); (done || lia).
  - cbn [fst]. lia.
  - intros r h1 (i & buf & Hi & Hi16 & -> & Hh1 & Hlen & Hbuf) _. cbn [read_header_body fst].
    destruct (Z.ltb_spec i 16) as [Hlt|Hge].
    + assert (Hin : in_flash (NEW_CORE_FLASH_ADDR + (i - i0)) = true).
      { apply in_flash_range. unfold flash_first, flash_end, NEW_CORE_FLASH_ADDR. lia. }
      apply wp_bind, (wp_rd_mem _ _ _ _ _ Hh1 Hb Hin).
      { cbn [width_bytes]. by replace (NEW_CORE_FLASH_ADDR + (i - i0) + 1 - 1)
          with (NEW_CORE_FLASH_ADDR + (i - i0)) by lia. }
      intros h2 Hh2. apply wp_bind, wp_store; [lia|]. apply wp_ret. cbn [fst]. split; [|lia].
      eexists (i + 1), _. split; [lia|]. split; [lia|]. split; [|split; [done|split]].
      * f_equal. f_equal. unfold u32. rewrite Z.mod_small; [lia|]. unfold NEW_CORE_FLASH_ADDR. lia.
      * by rewrite length_insert.
      * intros k Hk. destruct (Z.eq_dec k i) as [->|Hne].
        -- rewrite list_lookup_insert_eq by lia. f_equal.
           destruct (Z.ltb_spec i i0), (Z.leb_spec (i + 1) i); try lia. cbn. f_equal. lia.
        -- rewrite list_lookup_insert_ne by lia. rewrite Hbuf by done. f_equal.
           destruct (Z.ltb_spec k i0), (Z.leb_spec i k), (Z.leb_spec (i + 1) k); (done || lia).
    + apply wp_ret, HQ; [done|done|]. intros k Hk. rewrite Hbuf by done. f_equal.
      destruct (Z.ltb_spec k i0), (Z.leb_spec i k); (done || lia).
Qed.

(** What read_header does for every value of the uninitialised counter. *)
Lemma wp_read_header (Q : Z -> boot * H -> Prop) g h f i0 :
  fpec_of h = f -> fp_busy f = 0%nat -> 0 <= i0 ->
  (forall h', fpec_of h' = f ->
     if (i0 =? 0) && has_header (fp_mem f)
     then Q 1 (set_new_core_size (header_size (fp_mem f)) g, h') else Q 0 (g, h')) ->
  wp (read_header i0) Q (g, h).
Proof.
  intros Hf Hb Hi0 HQ. unfold read_header.
  apply wp_bind, wp_lift, (wp_read_header_buf _ _ f); [done..|]. intros h1 buf Hh1 Hlen Hbuf.
  apply wp_bind, (wp_index buf 0 _ _ _ ltac:(lia) (Hbuf 0 ltac:(lia))).
  apply wp_bind, (wp_index buf 1 _ _ _ ltac:(lia) (Hbuf 1 ltac:(lia))).
  apply wp_bind, (wp_index buf 2 _ _ _ ltac:(lia) (Hbuf 2 ltac:(lia))).
  specialize (HQ h1 Hh1). destruct (Z.eqb_spec i0 0) as [->|Hne].
  - change (0 <? 0) with false. change (1 <? 0) with false. change (2 <? 0) with false.
    rewrite !Z.sub_0_r, Z.add_0_r. cbn [andb] in HQ. unfold has_header in HQ.
    case_match; [|by apply wp_ret].
    apply wp_bind, wp_setg, wp_ret. assert (word_at buf 12 = header_size (fp_mem f)) as ->; [|done].
    apply le32_shift. intros k Hk. rewrite Hbuf by lia. cbn [default].
    rewrite (proj2 (Z.ltb_ge _ _)) by lia. cbn. f_equal. lia.
  - rewrite (proj2 (Z.ltb_lt 0 i0)) by lia. cbn [andb] in *. by apply wp_ret.
Qed.
End header.

(** * Installing the new image *)

(** The flash while the image is being copied: the first [4 * i] bytes of the
    application area come from the staging area, the rest of its eight pages is
    erased. *)
Definition copied (i : Z) (m : Z -> Z) : Z -> Z := fun x =>
  if (CURRENT_CORE_FLASH_ADDR <=? x) && (x <? CURRENT_CORE_FLASH_ADDR + 4 * i)
  then m (NEW_CORE_FLASH_ADDR + CORE_HEADER_SIZE + (x - CURRENT_CORE_FLASH_ADDR))
  else erase_range CURRENT_CORE_FLASH_ADDR (8 * page_size) m x.

(** The flash after an installation: the image in place, the staging area erased. *)
Definition installed (m : Z -> Z) : Z -> Z :=
  erase_range NEW_CORE_FLASH_ADDR (PAGES_AMOUNT_TO_ERASE * page_size)
    (copied (header_size m) m).

(** Addresses of the layout, for [lia]. *)
Ltac layout :=
  unfold NEW_CORE_FLASH_ADDR, CURRENT_CORE_FLASH_ADDR, CORE_HEADER_SIZE, page_size,
    PAGES_AMOUNT_TO_ERASE, flash_first, flash_end, STM32F107_LAST_PAGE_ADDR in *.

(** Case analysis on the interval tests of a goal. *)
Ltac intervals :=
  repeat match goal with
    | |- context [?u <=? ?v] => destruct (Z.leb_spec u v)
    | |- context [?u <? ?v] => destruct (Z.ltb_spec u v)
    end; cbn [andb orb].

Lemma copied_0 m x : copied 0 m x = erase_range CURRENT_CORE_FLASH_ADDR (8 * page_size) m x.
Proof. unfold copied. intervals; (done || lia). Qed.

Lemma copied_tail m i a : 0 <= i -> CURRENT_CORE_FLASH_ADDR + 8 * page_size <= a ->
  4 * i <= 8 * page_size -> copied i m a = m a.
Proof. intros. unfold copied, erase_range. intervals; layout; (done || lia). Qed.

Lemma copied_free m i : 0 <= i -> 4 * (i + 1) <= 8 * page_size ->
  erased (copied i m) (CURRENT_CORE_FLASH_ADDR + 4 * i) 4.
Proof. intros Hi Hi4 x Hx. unfold copied, erase_range. intervals; layout; (done || lia). Qed.

Lemma copied_step m i x : bytes m -> 0 <= i -> 4 * (i + 1) <= 8 * page_size ->
  set32 (CURRENT_CORE_FLASH_ADDR + 4 * i)
        (le32 m (NEW_CORE_FLASH_ADDR + CORE_HEADER_SIZE + 4 * i)) (copied i m) x
  = copied (i + 1) m x.
Proof.
  intros Hb Hi Hi4. unfold set32.
  destruct (Z.leb_spec (CURRENT_CORE_FLASH_ADDR + 4 * i) x);
    destruct (Z.ltb_spec x (CURRENT_CORE_FLASH_ADDR + 4 * i + 4)); cbn [andb].
  - rewrite byte_of_le32 by (done || lia). unfold copied. intervals; try lia. f_equal. lia.
  - unfold copied. intervals; (done || lia).
  - unfold copied. intervals; (done || lia).
  - lia.
Qed.

Section install.
Context {H : Type} `{FpecBus H}.

(** The state of the controller during the copy of a flash [m]. *)
Definition copying (m : Z -> Z) (w : Z -> bool) (i : Z) (f : fpec) : Prop :=
  good f /\ fp_wrp f = w /\ forall x, fp_mem f x = copied i m x.

Definition app_unprotected (w : Z -> bool) : Prop :=
  forall x, CURRENT_CORE_FLASH_ADDR <= x < CURRENT_CORE_FLASH_ADDR + 8 * page_size -> w x = false.

(** The source word of step [i], and the destination, as the loop has them. *)
Definition copy_locals (i : Z) : Z * Z * Z :=
  (i, NEW_CORE_FLASH_ADDR + CORE_HEADER_SIZE + 4 * i, CURRENT_CORE_FLASH_ADDR + 4 * i).

Lemma wp_copy_read (Q : Z -> H -> Prop) h f m w i :
  fpec_of h = f -> copying m w i f -> 0 <= i -> 4 * i <= 8 * page_size ->
  (forall h', fpec_of h' = f -> Q (le32 m (NEW_CORE_FLASH_ADDR + CORE_HEADER_SIZE + 4 * i)) h') ->
  wp (rd32 (NEW_CORE_FLASH_ADDR + CORE_HEADER_SIZE + 4 * i)) Q h.
Proof.
  intros Hf (Hg & _ & Hm) Hi Hi4 HQ. layout. apply (wp_rd_mem _ _ _ _ f Hf).
  - apply Hg.
  - apply in_flash_range. layout. lia.
  - cbn [width_bytes]. apply in_flash_range. layout. lia.
  - intros h' Hh'. cbn [le]. erewrite le32_ext; [by apply HQ|].
    intros k Hk. rewrite Hm. apply copied_tail; layout; lia.
Qed.

(** A step inside the erased area succeeds. *)
Lemma wp_copy_step (Q : (Z * Z * Z + Z) -> boot * H -> Prop) g h m w i :
  copying m w i (fpec_of h) -> bytes m -> app_unprotected w ->
  0 <= i -> 4 * (i + 1) <= 8 * page_size -> i < new_core_size g ->
  (forall h', copying m w (i + 1) (fpec_of h') -> Q (inl (copy_locals (i + 1))) (g, h')) ->
  wp (replace_core_body (copy_locals i)) Q (g, h).
Proof.
  intros Hc Hb Hw Hi Hi4 Hn HQ. unfold replace_core_body, copy_locals.
  apply wp_bind, wp_getg. unfold page_size in Hi4.
  assert (u32 i = i) as -> by (unfold u32; apply Z.mod_small; lia).
  rewrite (proj2 (Z.ltb_lt _ _)) by done.
  apply wp_bind, wp_lift, (wp_copy_read _ _ _ _ _ _ eq_refl Hc); [done|unfold page_size; lia|].
  intros h1 Hh1. destruct Hc as (Hg & Hwf & Hm).
  apply wp_bind, wp_lift, (wp_ProgramWord_ready _ _ _ _ _ Hh1); [apply Hg|apply Hg|..].
  1,2: apply in_flash_range; layout; lia.
  { layout. rewrite Z.even_add, Z.even_mul. done. }
  intros h2 Hh2.
  destruct (word_op_erased (CURRENT_CORE_FLASH_ADDR + 4 * i)
     (le32 m (NEW_CORE_FLASH_ADDR + CORE_HEADER_SIZE + 4 * i)) (fpec_of h) Hg)
     as (Hg2 & Hw2 & Hm2).
  { intros x Hx. rewrite Hwf. apply Hw. layout. lia. }
  { intros x Hx. rewrite Hm. apply copied_free; [lia|unfold page_size; lia|done]. }
  rewrite good_status, bool_decide_eq_false_2 by auto.
  apply wp_ret. unfold copy_locals in HQ.
  assert (u32 (NEW_CORE_FLASH_ADDR + CORE_HEADER_SIZE + 4 * i + 4)
          = NEW_CORE_FLASH_ADDR + CORE_HEADER_SIZE + 4 * (i + 1)) as ->
    by (unfold u32; rewrite Z.mod_small; layout; lia).
  assert (u32 (CURRENT_CORE_FLASH_ADDR + 4 * i + 4) = CURRENT_CORE_FLASH_ADDR + 4 * (i + 1)) as ->
    by (unfold u32; rewrite Z.mod_small; layout; lia).
  apply HQ. rewrite Hh2. split; [done|]. split; [congruence|]. intros x.
  rewrite Hm2, <- copied_step by (done || (unfold page_size; lia)).
  unfold set32. by case_match.
Qed.

(** A step on a word whose low half-word is not erased fails. *)
Lemma wp_copy_fail (Q : (Z * Z * Z + Z) -> boot * H -> Prop) g h m w i :
  copying m w i (fpec_of h) -> 0 <= i -> 4 * i <= 8 * page_size -> i < new_core_size g ->
  le16 (copied i m) (CURRENT_CORE_FLASH_ADDR + 4 * i) <> 0xFFFF ->
  u16 (le32 m (NEW_CORE_FLASH_ADDR + CORE_HEADER_SIZE + 4 * i)) <> 0 ->
  (forall h', fpec_of h' = op_refused SR_PGERR (fpec_of h) ->
     Q (inr 1) (set_errno FLASH_WR_ERR g, h')) ->
  wp (replace_core_body (copy_locals i)) Q (g, h).
Proof.
  intros Hc Hi Hi4 Hn Hold Hnew HQ. unfold replace_core_body, copy_locals.
  apply wp_bind, wp_getg. pose proof Hi4 as Hi4'. unfold page_size in Hi4'.
  assert (u32 i = i) as -> by (unfold u32; apply Z.mod_small; lia).
  rewrite (proj2 (Z.ltb_lt _ _)) by done.
  apply wp_bind, wp_lift, (wp_copy_read _ _ _ _ _ _ eq_refl Hc); [done..|].
  intros h1 Hh1. destruct Hc as (Hg & Hwf & Hm).
  apply wp_bind, wp_lift, (wp_ProgramWord_ready _ _ _ _ _ Hh1); [apply Hg|apply Hg|..].
  1,2: apply in_flash_range; layout; lia.
  { layout. rewrite Z.even_add, Z.even_mul. done. }
  destruct (word_op_not_erased (CURRENT_CORE_FLASH_ADDR + 4 * i)
    (le32 m (NEW_CORE_FLASH_ADDR + CORE_HEADER_SIZE + 4 * i)) (fpec_of h)) as [-> ->];
    [apply Hg| |done|].
  { rewrite (le16_ext _ (copied i m)) by apply Hm. done. }
  intros h2 Hh2. rewrite bool_decide_eq_true_2 by done.
  apply wp_bind, wp_setg, wp_ret. by apply HQ.
Qed.

(** The copy loop runs unharmed for its first [k] words. *)
Lemma wp_copy_loop (Q : Z -> boot * H -> Prop) g h m w k :
  copying m w 0 (fpec_of h) -> bytes m -> app_unprotected w ->
  0 <= k <= new_core_size g -> 4 * k <= 8 * page_size ->
  (forall h', copying m w k (fpec_of h') ->
     wp (replace_core_body (copy_locals k))
        (fun r s => match r with inl _ => False | inr b => Q b s end) (g, h')) ->
  wp (loop (Z.to_pos (new_core_size g + 1)) replace_core_body (copy_locals 0)) Q (g, h).
Proof.
  intros Hc Hb Hw Hk Hk4 Hend.
  apply (wp_loop (fun r s => exists i h', 0 <= i <= k /\ r = copy_locals i /\
                    s = (g, h') /\ copying m w i (fpec_of h'))
                 (fun r _ => new_core_size g - fst (fst r))).
  - exists 0, h. split; [lia|done].
  - cbn. lia.
  - intros r s (i & h' & Hi & -> & -> & Hci) _. destruct (Z.eq_dec i k) as [->|Hne].
    { eapply wp_mono; [by apply Hend|]. intros [a|b] s; [done|done]. }
    apply (wp_copy_step _ _ _ _ _ _ Hci); [done|done|lia|lia|lia|].
    intros h2 Hc2. cbn. split; [|lia]. exists (i + 1), h2. split; [lia|done].
Qed.

(** Erasing the application area gives the start of the copy. *)
Lemma erased_copying f f' :
  erased_from f CURRENT_CORE_FLASH_ADDR (8 * page_size) f' ->
  copying (fp_mem f) (fp_wrp f) 0 f'.
Proof. intros (Hg & Hw & Hm). split; [done|]. split; [done|]. intros x. by rewrite copied_0. Qed.

Lemma fits_app : fits CURRENT_CORE_FLASH_ADDR 8.
Proof. unfold fits. layout. repeat split; lia. Qed.

Lemma fits_staging : fits NEW_CORE_FLASH_ADDR PAGES_AMOUNT_TO_ERASE.
Proof. unfold fits. layout. repeat split; lia. Qed.

(** replace_core on an image of at most eight pages' worth of words. *)
Lemma wp_replace_core (Q : Z -> boot * H -> Prop) g h f :
  fpec_of h = f -> good f -> bytes (fp_mem f) -> app_unprotected (fp_wrp f) ->
  0 <= new_core_size g -> 4 * new_core_size g <= 8 * page_size ->
  (forall h', copying (fp_mem f) (fp_wrp f) (new_core_size g) (fpec_of h') -> Q 0 (g, h')) ->
  wp replace_core Q (g, h).
Proof.
  intros Hf Hg Hb Hw Hn Hn4 HQ. unfold replace_core.
  apply wp_bind, wp_lift, (wp_erase_sector _ _ f _ _ fits_app); [done..|].
  intros h1 He. cbn [Z.eqb negb]. apply wp_bind, wp_getg.
  apply (wp_copy_loop _ _ _ (fp_mem f) (fp_wrp f) (new_core_size g));
    [by apply erased_copying|done|done|lia|done|].
  intros h2 Hc. unfold replace_core_body, copy_locals. apply wp_bind, wp_getg.
  unfold page_size in Hn4.
  assert (u32 (new_core_size g) = new_core_size g) as -> by (unfold u32; apply Z.mod_small; lia).
  rewrite (proj2 (Z.ltb_ge _ _)) by lia. by apply wp_ret, HQ.
Qed.

(** An image of more words than the erased pages hold runs into what is left
    of the old one. *)
Lemma wp_replace_core_overrun (Q : Z -> boot * H -> Prop) g h f :
  fpec_of h = f -> good f -> bytes (fp_mem f) -> app_unprotected (fp_wrp f) ->
  8 * page_size < 4 * new_core_size g ->
  le16 (fp_mem f) (CURRENT_CORE_FLASH_ADDR + 8 * page_size) <> 0xFFFF ->
  u16 (le32 (fp_mem f) (NEW_CORE_FLASH_ADDR + CORE_HEADER_SIZE + 8 * page_size)) <> 0 ->
  (forall h', (forall x, fp_mem (fpec_of h') x = copied (2 * page_size) (fp_mem f) x) ->
     fp_key (fpec_of h') = KUnlocked -> Q 1 (set_errno FLASH_WR_ERR g, h')) ->
  wp replace_core Q (g, h).
Proof.
  intros Hf Hg Hb Hw Hn Hold Hnew HQ. unfold replace_core.
  apply wp_bind, wp_lift, (wp_erase_sector _ _ f _ _ fits_app); [done..|].
  intros h1 He. cbn [Z.eqb negb]. apply wp_bind, wp_getg.
  apply (wp_copy_loop _ _ _ (fp_mem f) (fp_wrp f) (2 * page_size));
    [by apply erased_copying|done|done|unfold page_size in *; lia|unfold page_size; lia|].
  intros h2 Hc. apply (wp_copy_fail _ _ _ _ _ _ Hc);
    [done|unfold page_size; lia|unfold page_size in *; lia|..].
  - replace (4 * (2 * page_size)) with (8 * page_size) by done.
    erewrite le16_ext; [exact Hold|..]; apply copied_tail; layout; lia.
  - by replace (4 * (2 * page_size)) with (8 * page_size) by done.
  - intros h3 Hh3. destruct Hc as (Hg2 & _ & Hm2). apply HQ.
    + intros x. rewrite Hh3. apply Hm2.
    + rewrite Hh3. apply Hg2.
Qed.
End install.

(** * The whole program *)
Section program.
Context {H : Type} `{FpecBus H}.

(** The controller after a reset. *)
Record at_reset (f : fpec) : Prop := {
  reset_key : fp_key f = KLocked;
  reset_busy : fp_busy f = 0%nat;
  reset_cr : fp_cr f = 0;
  reset_sr : sr_wf f;
  reset_err : no_error f
}.

Lemma good_unlocked f : at_reset f -> good (with_key KUnlocked f).
Proof. intros [Hk Hb Hc Hs [H2 H4]]. by split; split. Qed.

Definition staging_unprotected (w : Z -> bool) : Prop :=
  forall x, NEW_CORE_FLASH_ADDR <= x < NEW_CORE_FLASH_ADDR + PAGES_AMOUNT_TO_ERASE * page_size ->
    w x = false.

Lemma quiet_jump_writes : quiet (NVIC_SetVectorTable NVIC_VectTab_FLASH APPLICATION_OFFSET).
Proof. by apply quiet_wr. Qed.

Lemma quiet_select_pull mode bit : quiet (select_pull GPIOB mode bit).
Proof. unfold select_pull. solve_quiet. Qed.

Lemma quiet_gpio_init_reg s reg first :
  fpec_owns (GPIOB + reg) = false -> quiet (gpio_init_reg GPIOB s reg first).
Proof.
  intros Ho. apply quiet_bind; [by apply quiet_rd|]. intros v.
  apply quiet_bind; [|intros; by apply quiet_wr].
  apply (quiet_loop (fun r => 8 - Z.min 8 (fst r))); [cbn; lia|].
  intros [pinpos tmpreg] Hmu h. cbn [gpio_init_body fst] in *.
  destruct (Z.ltb_spec pinpos 8); [|by apply wp_ret].
  case_match; [|apply wp_ret; split; [done|cbn; lia]].
  apply wp_bind, (wp_quiet _ _ _ _ (quiet_select_pull _ _) eq_refl).
  intros _ h' Hh'. apply wp_ret. split; [done|cbn; lia].
Qed.

Lemma quiet_sys_init : quiet sys_init.
Proof.
  apply quiet_bind.
  - by apply quiet_or32.
  - intros _. apply quiet_bind; [|intros _]; case_match;
      auto using quiet_gpio_init_reg, quiet_ret.
Qed.

Lemma wp_check_core (Q : unit -> boot * H -> Prop) g h f :
  fpec_of h = f -> at_reset f -> bytes (fp_mem f) -> has_header (fp_mem f) = true ->
  4 * header_size (fp_mem f) <= 8 * page_size ->
  app_unprotected (fp_wrp f) -> staging_unprotected (fp_wrp f) ->
  (forall h', (forall x, fp_mem (fpec_of h') x = installed (fp_mem f) x) ->
     at_reset (fpec_of h') -> Q tt (set_new_core_size (header_size (fp_mem f)) g, h')) ->
  wp (check_core 0) Q (g, h).
Proof.
  intros Hf Hr Hb Hh Hn4 Hwa Hws HQ. unfold check_core.
  pose proof (good_unlocked _ Hr) as Hg. pose proof (le32_bound (fp_mem f) (NEW_CORE_FLASH_ADDR + 12) Hb).
  apply wp_bind, wp_lift, (wp_Unlock _ _ f Hf); [apply Hr..|]. intros h1 Hh1.
  apply wp_bind, (wp_read_header _ _ _ _ _ Hh1); [apply Hr|lia|]. intros h2 Hh2.
  cbn [with_key fp_mem Z.eqb andb]. rewrite Hh. cbn [Z.eqb Pos.eqb].
  apply wp_bind, (wp_replace_core _ _ _ _ Hh2 Hg Hb Hwa); [unfold header_size in *; cbn; lia..|].
  intros h3 (Hg3 & Hw3 & Hm3). cbn [Z.eqb negb].
  apply wp_bind, wp_lift, (wp_erase_sector _ _ _ _ _ fits_staging eq_refl Hg3).
  { intros x Hx. rewrite Hw3. by apply Hws. }
  intros h4 ([Hr4 Hne4] & Hw4 & Hm4). cbn [Z.eqb negb].
  apply wp_lift, (wp_Lock _ _ _ eq_refl Hr4). intros h5 Hh5. apply HQ.
  - intros x. rewrite Hh5. cbn [with_key fp_mem]. rewrite Hm4.
    unfold installed, erase_range at 1 2. case_match; [done|]. apply Hm3.
  - rewrite Hh5. destruct Hr4. by split.
Qed.
End program.
