(* ===== verification/BootTheorems.v ===== *)
(** The properties of the bootloader, each with a witness on a concrete board. *)
From S2P Require Import Prelude Mmio Fpec FlashDriver FlashSpec MemFacts Rcc Gpio Misc.
From S2P Require Import Crc ClockTree Board Bootloader BootloaderSpec.

(** * From check_core to main *)
Section main.
Context {H : Type} `{FpecBus H}.

(** The vector table entries of the application in a flash [m]. *)
Definition app_sp (m : Z -> Z) : Z := le32 m CURRENT_CORE_FLASH_ADDR.
Definition app_pc (m : Z -> Z) : Z := le32 m (CURRENT_CORE_FLASH_ADDR + 4).

Lemma wp_jump (Q : boot_end -> boot * H -> Prop) g h f :
  fpec_of h = f -> fp_busy f = 0%nat ->
  (forall g' h', fpec_of h' = f -> errno g' = errno g -> msp g' = app_sp (fp_mem f) ->
     primask g' = 0 -> Q (JumpTo (app_pc (fp_mem f))) (g', h')) ->
  wp (jump CURRENT_CORE_FLASH_ADDR) Q (g, h).
Proof.
  intros Hf Hb HQ. unfold jump.
  apply wp_bind, wp_lift, (wp_rd_mem _ _ _ _ _ Hf Hb); [done..|]. intros h1 Hh1.
  apply wp_bind, wp_setg. apply wp_bind, wp_setg.
  apply wp_bind, wp_lift, (wp_quiet _ _ _ _ quiet_jump_writes Hh1). intros _ h2 Hh2.
  apply wp_bind, wp_setg.
  apply wp_bind, wp_lift, (wp_rd_mem _ _ _ _ _ Hh2 Hb); [done..|]. intros h3 Hh3.
  apply wp_bind, wp_setg. apply wp_bind, wp_getg, wp_ret. by apply HQ.
Qed.

(** [main] is sys_init, check_core and the decision on [errno]. *)
Lemma wp_main (Q : boot_end -> boot * H -> Prop) i0 g h f :
  fpec_of h = f ->
  (forall h1, fpec_of h1 = f ->
     wp (check_core i0) (fun _ s =>
       if errno (fst s) =? 0 then wp (jump CURRENT_CORE_FLASH_ADDR) Q s
       else Q BlinkForever s) (g, h1)) ->
  wp (main i0) Q (g, h).
Proof.
  intros Hf Hc. unfold main.
  apply wp_bind, wp_lift, (wp_quiet _ _ _ _ quiet_sys_init Hf). intros _ h1 Hh1.
  apply wp_bind. eapply wp_mono; [by apply Hc|]. intros [] [g2 h2] Hq.
  apply wp_bind, wp_getg. cbn [fst] in Hq. case_match; [done|by apply wp_ret].
Qed.

(** Without a header nothing is written. *)
Lemma wp_check_core_no_image (Q : unit -> boot * H -> Prop) i0 g h f :
  fpec_of h = f -> at_reset f -> 0 <= i0 ->
  (i0 =? 0) && has_header (fp_mem f) = false ->
  (forall h', fpec_of h' = f -> Q tt (g, h')) ->
  wp (check_core i0) Q (g, h).
Proof.
  intros Hf Hr Hi0 Hn HQ. unfold check_core. pose proof (good_unlocked _ Hr) as [Hrdy _].
  apply wp_bind, wp_lift, (wp_Unlock _ _ f Hf); [apply Hr..|]. intros h1 Hh1.
  apply wp_bind, (wp_read_header _ _ _ _ _ Hh1); [apply Hr|done|]. intros h2 Hh2.
  cbn [with_key fp_mem]. rewrite Hn. cbn [Z.eqb].
  apply wp_lift, (wp_Lock _ _ _ Hh2 Hrdy). intros h3 Hh3. apply HQ. rewrite Hh3.
  destruct Hr. destruct f; cbn in *. by subst.
Qed.

(** A staging area that cannot be erased: the image is installed, but the
    controller is left unlocked, with [errno] 0. *)
Lemma wp_check_core_sticky (Q : unit -> boot * H -> Prop) g h f k :
  fpec_of h = f -> at_reset f -> bytes (fp_mem f) -> has_header (fp_mem f) = true ->
  4 * header_size (fp_mem f) <= 8 * page_size -> app_unprotected (fp_wrp f) ->
  0 <= k < PAGES_AMOUNT_TO_ERASE ->
  unprotected f NEW_CORE_FLASH_ADDR (k * page_size) ->
  fp_wrp f (NEW_CORE_FLASH_ADDR + k * page_size) = true ->
  (forall h', (forall x, fp_mem (fpec_of h') x =
       erase_range NEW_CORE_FLASH_ADDR (k * page_size)
         (copied (header_size (fp_mem f)) (fp_mem f)) x) ->
     ready (fpec_of h') ->
     Q tt (set_new_core_size (header_size (fp_mem f)) g, h')) ->
  wp (check_core 0) Q (g, h).
Proof.
  intros Hf Hr Hb Hh Hn4 Hwa Hk Hwk Hpk HQ. unfold check_core.
  pose proof (good_unlocked _ Hr) as Hg. pose proof (le32_bound (fp_mem f) (NEW_CORE_FLASH_ADDR + 12) Hb).
  apply wp_bind, wp_lift, (wp_Unlock _ _ f Hf); [apply Hr..|]. intros h1 Hh1.
  apply wp_bind, (wp_read_header _ _ _ _ _ Hh1); [apply Hr|lia|]. intros h2 Hh2.
  cbn [with_key fp_mem Z.eqb andb]. rewrite Hh. cbn [Z.eqb Pos.eqb].
  apply wp_bind, (wp_replace_core _ _ _ _ Hh2 Hg Hb Hwa); [unfold header_size in *; cbn; lia..|].
  intros h3 (Hg3 & Hw3 & Hm3). cbn [Z.eqb negb].
  apply wp_bind, wp_lift, (wp_erase_sector_protected _ _ _ _ _ k fits_staging eq_refl Hg3 Hk).
  { intros x Hx. rewrite Hw3. by apply Hwk. }
  { rewrite Hw3. exact Hpk. }
  intros h4 Hm4 _ Hr4. cbn [Z.eqb negb]. apply wp_ret, HQ; [|done].
  intros x. rewrite Hm4. unfold erase_range. case_match; [done|]. apply Hm3.
Qed.

(** An image whose copy runs into the old application. *)
Definition overruns (m : Z -> Z) : Prop :=
  has_header m = true /\ 8 * page_size < 4 * header_size m /\
  le16 m (CURRENT_CORE_FLASH_ADDR + 8 * page_size) <> 0xFFFF /\
  u16 (le32 m (NEW_CORE_FLASH_ADDR + CORE_HEADER_SIZE + 8 * page_size)) <> 0.

Lemma wp_check_core_overrun (Q : unit -> boot * H -> Prop) g h f :
  fpec_of h = f -> at_reset f -> bytes (fp_mem f) -> app_unprotected (fp_wrp f) ->
  overruns (fp_mem f) ->
  (forall h', (forall x, fp_mem (fpec_of h') x = copied (2 * page_size) (fp_mem f) x) ->
     fp_key (fpec_of h') = KUnlocked ->
     Q tt (set_errno FLASH_WR_ERR (set_new_core_size (header_size (fp_mem f)) g), h')) ->
  wp (check_core 0) Q (g, h).
Proof.
  intros Hf Hr Hb Hwa (Hh & Hn4 & Ho & Hn) HQ. unfold check_core.
  pose proof (good_unlocked _ Hr) as Hg.
  apply wp_bind, wp_lift, (wp_Unlock _ _ f Hf); [apply Hr..|]. intros h1 Hh1.
  apply wp_bind, (wp_read_header _ _ _ _ _ Hh1); [apply Hr|lia|]. intros h2 Hh2.
  cbn [with_key fp_mem Z.eqb andb]. rewrite Hh. cbn [Z.eqb Pos.eqb].
  apply wp_bind, (wp_replace_core_overrun _ _ _ _ Hh2 Hg Hb Hwa); [done..|].
  intros h3 Hm3 Hk3. cbn [Z.eqb negb]. apply wp_ret. by apply HQ.
Qed.
End main.

(** ** Facts on the installed flash *)

Lemma installed_no_header m : has_header (installed m) = false.
Proof.
  unfold has_header, installed, erase_range at 1. layout. by cbn [Z.leb Z.ltb Z.compare andb].
Qed.

(** A word of the application area comes from the staging area. *)
Lemma installed_word m i : 0 <= i < header_size m -> 4 * header_size m <= 8 * page_size ->
  le32 (installed m) (CURRENT_CORE_FLASH_ADDR + 4 * i)
  = le32 m (NEW_CORE_FLASH_ADDR + CORE_HEADER_SIZE + 4 * i).
Proof.
  intros Hi Hn. apply le32_shift. intros k Hk. unfold installed, erase_range at 1, copied.
  intervals; layout; try lia. f_equal. lia.
Qed.

Lemma has_header_ext m m' : (forall x, m x = m' x) -> has_header m = has_header m'.
Proof. intros Hm. unfold has_header. by rewrite !Hm. Qed.

Lemma copied_staging i m x : 0 <= i -> 4 * i <= 8 * page_size ->
  NEW_CORE_FLASH_ADDR <= x -> copied i m x = m x.
Proof. intros. apply copied_tail; layout; lia. Qed.

(** The failed installation of an image that overruns leaves a flash on which
    the next installation overruns again. *)
Lemma overruns_again m m' :
  overruns m -> (forall x, m' x = copied (2 * page_size) m x) -> overruns m'.
Proof.
  intros (Hh & Hn & Ho & Hw) Hm.
  assert (Hs : forall x, CURRENT_CORE_FLASH_ADDR + 8 * page_size <= x -> m' x = m x).
  { intros x Hx. rewrite Hm. apply copied_tail; [done|done|done]. }
  unfold overruns, has_header, header_size in *. repeat split.
  - rewrite !Hs by (layout; lia). done.
  - erewrite (le32_ext m'); [exact Hn|]. intros k Hk. apply Hs. layout. lia.
  - erewrite (le16_ext m'); [exact Ho|..]; apply Hs; layout; lia.
  - erewrite (le32_ext m'); [exact Hw|]. intros k Hk. apply Hs. layout. lia.
Qed.

(** The whole boot with an image staged. *)
Lemma wp_main_install `{FpecBus H} (Q : boot_end -> boot * H -> Prop) (g : boot) (h : H) m :
  at_reset (fpec_of h) -> fp_mem (fpec_of h) = m -> bytes m -> errno g = 0 ->
  has_header m = true -> 2 <= header_size m -> 4 * header_size m <= 8 * page_size ->
  app_unprotected (fp_wrp (fpec_of h)) -> staging_unprotected (fp_wrp (fpec_of h)) ->
  (forall g' h', msp g' = le32 m (NEW_CORE_FLASH_ADDR + CORE_HEADER_SIZE) -> primask g' = 0 ->
     errno g' = 0 -> (forall x, fp_mem (fpec_of h') x = installed m x) -> at_reset (fpec_of h') ->
     Q (JumpTo (le32 m (NEW_CORE_FLASH_ADDR + CORE_HEADER_SIZE + 4))) (g', h')) ->
  wp (main 0) Q (g, h).
Proof.
  intros Hr <- Hb He Hh Hn2 Hn4 Hwa Hws HQ. apply (wp_main _ _ _ _ _ eq_refl). intros h1 Hh1.
  apply (wp_check_core _ _ _ _ Hh1 Hr Hb Hh Hn4 Hwa Hws). intros h2 Hm2 Hr2. cbn [fst].
  change (errno (set_new_core_size _ g)) with (errno g). rewrite He. cbn [Z.eqb].
  apply (wp_jump _ _ _ _ eq_refl); [apply Hr2|]. intros g3 h3 Hh3 He3 Hsp Hpm.
  set (m := fp_mem (fpec_of h)) in *.
  assert (Hv : forall i, 0 <= i < 2 -> le32 (fp_mem (fpec_of h2)) (CURRENT_CORE_FLASH_ADDR + 4 * i)
    = le32 m (NEW_CORE_FLASH_ADDR + CORE_HEADER_SIZE + 4 * i)).
  { intros i Hi. rewrite (le32_ext _ (installed m)) by (intros; apply Hm2).
    apply installed_word; [lia|done]. }
  pose proof (Hv 0 ltac:(lia)) as Hv0. pose proof (Hv 1 ltac:(lia)) as Hv1.
  rewrite !Z.mul_0_r, !Z.add_0_r in Hv0. rewrite !Z.mul_1_r in Hv1.
  unfold app_pc. rewrite Hv1. apply HQ; [by rewrite Hsp|done|by rewrite He3| |by rewrite Hh3].
  intros x. rewrite Hh3. apply Hm2.
Qed.

(** * Flash contents for the witnesses *)
Lemma boot_bytes_set32 a v m : bytes m -> bytes (set32 a v m).
Proof. intros Hm x. unfold set32. case_match; [apply byte_of_range|apply Hm]. Qed.
Lemma bytes_blank : bytes (fun _ => 0xFF).
Proof. intros x. lia. Qed.

(** A staging area with the header "ver." and the size [n], the words [l] of
    an image, and the words of an old application. *)
Definition words_at (a : Z) (l : list Z) (m : Z -> Z) : Z -> Z :=
  snd (fold_left (fun '(a, m) w => (a + 4, set32 a w m)) l (a, m)).
Definition demo_flash (n : Z) (l old : list Z) : Z -> Z :=
  words_at CURRENT_CORE_FLASH_ADDR old
    (words_at NEW_CORE_FLASH_ADDR ([0x2E726576; 0x31323031; 0x38313032; n] ++ l) (fun _ => 0xFF)).

Lemma bytes_words_at l : forall a m, bytes m -> bytes (words_at a l m).
Proof.
  unfold words_at. induction l as [|w l IH]; intros a m Hm; [done|]. cbn [fold_left].
  apply IH. by apply boot_bytes_set32.
Qed.
Lemma bytes_demo n l old : bytes (demo_flash n l old).
Proof. do 2 apply bytes_words_at. apply bytes_blank. Qed.
#[export] Hint Resolve bytes_demo boot_bytes_set32 bytes_blank : fpec_db.

Lemma at_reset_fpec m w : at_reset (reset_fpec m w).
Proof. by split. Qed.
#[export] Hint Resolve at_reset_fpec : fpec_db.

Definition boot_init : boot := Boot 0 0 0 0 0.
(** Two vectors as an image of two words, over an old application. *)
Definition small_image : Z -> Z := demo_flash 2 [0x20010000; 0x08004101] [0x20005000; 0x08004201].
(** No image staged. *)
Definition no_image : Z -> Z := words_at CURRENT_CORE_FLASH_ADDR [0x20005000; 0x08004201] (fun _ => 0xFF).
(** An image of 5000 words over an application of more than 16 KB. *)
Definition large_image : Z -> Z :=
  words_at (NEW_CORE_FLASH_ADDR + CORE_HEADER_SIZE + 8 * page_size) [0x12345678]
    (words_at (CURRENT_CORE_FLASH_ADDR + 8 * page_size) [0xE7FE] (demo_flash 5000 [] [])).
Definition small_board : board := reset_board small_image no_wrp.
Definition large_board : board := reset_board large_image no_wrp.
Definition done_board : board := reset_board (installed small_image) no_wrp.

(** * The properties *)

(** C2. A reset with a new image staged installs it, provided that the static loop
    counter of read_header, which the code does not initialise, starts at 0 ([main 0]),
    that the size in the header, which is taken for a number of words, is at least 2
    and at most 4096, and that the pages of the application and of the staging area
    are not write-protected: [main] then ends with a jump to the reset vector of the
    new image, its stack pointer loaded and interrupts enabled; the application area
    holds the image, the staging area is erased, the rest of the flash is as it was,
    and the controller is locked again. *)
Theorem main_installs_image `{FpecBus H} (g : boot) (h : H) :
  at_reset (fpec_of h) -> bytes (fp_mem (fpec_of h)) -> errno g = 0 ->
  has_header (fp_mem (fpec_of h)) = true ->
  2 <= header_size (fp_mem (fpec_of h)) -> 4 * header_size (fp_mem (fpec_of h)) <= 8 * page_size ->
  app_unprotected (fp_wrp (fpec_of h)) -> staging_unprotected (fp_wrp (fpec_of h)) ->
  wp (main 0) (fun r '(g', h') =>
      r = JumpTo (le32 (fp_mem (fpec_of h)) (NEW_CORE_FLASH_ADDR + CORE_HEADER_SIZE + 4)) /\
      msp g' = le32 (fp_mem (fpec_of h)) (NEW_CORE_FLASH_ADDR + CORE_HEADER_SIZE) /\
      primask g' = 0 /\ errno g' = 0 /\
      (forall x, fp_mem (fpec_of h') x = installed (fp_mem (fpec_of h)) x) /\
      at_reset (fpec_of h')) (g, h).
Proof.
  intros Hr Hb He Hh Hn2 Hn4 Hwa Hws.
  apply (wp_main_install _ _ _ _ Hr eq_refl Hb He Hh Hn2 Hn4 Hwa Hws). intros g' h' ? ? ? ? ?. by split_and!.
Qed.

Lemma main_installs_image_witness :
  le32 (fp_mem (fpec_of small_board)) (NEW_CORE_FLASH_ADDR + CORE_HEADER_SIZE + 4) = 0x08004101 /\
  le32 (fp_mem (fpec_of small_board)) (NEW_CORE_FLASH_ADDR + CORE_HEADER_SIZE) = 0x20010000 /\
  wp (main 0) (fun r '(g', h') =>
      r = JumpTo (le32 (fp_mem (fpec_of small_board)) (NEW_CORE_FLASH_ADDR + CORE_HEADER_SIZE + 4)) /\
      msp g' = le32 (fp_mem (fpec_of small_board)) (NEW_CORE_FLASH_ADDR + CORE_HEADER_SIZE) /\
      primask g' = 0 /\ errno g' = 0 /\
      (forall x, fp_mem (fpec_of h') x = installed (fp_mem (fpec_of small_board)) x) /\ at_reset (fpec_of h'))
    (boot_init, small_board).
Proof.
  split; [vm_compute; done|]. split; [vm_compute; done|].
  apply (main_installs_image boot_init small_board);
    [apply at_reset_fpec|apply bytes_demo|done|vm_compute; done..|done|done].
Defined.

Lemma wp_main_no_image `{FpecBus H} (Q : boot_end -> boot * H -> Prop) (i0 : Z) (g : boot) (h : H) :
  at_reset (fpec_of h) -> errno g = 0 -> 0 <= i0 ->
  (i0 =? 0) && has_header (fp_mem (fpec_of h)) = false ->
  (forall g' h', msp g' = app_sp (fp_mem (fpec_of h)) -> fpec_of h' = fpec_of h ->
     Q (JumpTo (app_pc (fp_mem (fpec_of h)))) (g', h')) ->
  wp (main i0) Q (g, h).
Proof.
  intros Hr He Hi0 Hn HQ. apply (wp_main _ _ _ _ _ eq_refl). intros h1 Hh1.
  apply (wp_check_core_no_image _ _ _ _ _ Hh1 Hr Hi0 Hn). intros h2 Hh2. cbn [fst].
  rewrite He. cbn [Z.eqb]. apply (wp_jump _ _ _ _ Hh2); [apply Hr|]. auto.
Qed.

(** C19. A reset without an image staged writes nothing to the flash, whatever
    the uninitialised loop counter of read_header holds (unless it is
    negative): [main] jumps to the application that is there, and the
    controller is in its reset state. *)
Theorem main_keeps_application `{FpecBus H} (i0 : Z) (g : boot) (h : H) :
  at_reset (fpec_of h) -> errno g = 0 -> 0 <= i0 ->
  (i0 =? 0) && has_header (fp_mem (fpec_of h)) = false ->
  wp (main i0) (fun r '(g', h') =>
      r = JumpTo (app_pc (fp_mem (fpec_of h))) /\ msp g' = app_sp (fp_mem (fpec_of h)) /\
      fpec_of h' = fpec_of h) (g, h).
Proof. intros Hr He Hi0 Hn. by apply wp_main_no_image. Qed.

Lemma main_keeps_application_witness :
  app_pc (fp_mem (fpec_of small_board)) = 0x08004201 /\ app_sp (fp_mem (fpec_of small_board)) = 0x20005000 /\
  wp (main 7) (fun r '(g', h') =>
      r = JumpTo (app_pc (fp_mem (fpec_of small_board))) /\ msp g' = app_sp (fp_mem (fpec_of small_board)) /\
      fpec_of h' = fpec_of small_board)
    (boot_init, small_board).
Proof.
  split; [vm_compute; done|]. split; [vm_compute; done|].
  apply (main_keeps_application 7 boot_init small_board);
    [apply at_reset_fpec|done|lia|vm_compute; done].
Defined.

(** An installation happens once: whatever machine starts from the flash
    that an installation left, its boot changes nothing and jumps to the same
    reset vector. *)
Theorem second_boot_keeps_image `{FpecBus H} (g : boot) (h : H) (m : Z -> Z) :
  at_reset (fpec_of h) -> errno g = 0 ->
  2 <= header_size m -> 4 * header_size m <= 8 * page_size ->
  (forall x, fp_mem (fpec_of h) x = installed m x) ->
  wp (main 0) (fun r '(g', h') =>
      r = JumpTo (le32 m (NEW_CORE_FLASH_ADDR + CORE_HEADER_SIZE + 4)) /\
      fpec_of h' = fpec_of h) (g, h).
Proof.
  intros Hr He Hn2 Hn4 Hm. apply (wp_main _ _ _ _ _ eq_refl). intros h1 Hh1.
  apply (wp_check_core_no_image _ _ _ _ _ Hh1 Hr); [done| |].
  { rewrite (has_header_ext _ _ Hm). by rewrite installed_no_header. }
  intros h2 Hh2. cbn [fst]. rewrite He. cbn [Z.eqb].
  apply (wp_jump _ _ _ _ Hh2); [apply Hr|]. intros g3 h3 Hh3 _ _ _. split; [|done].
  unfold app_pc. rewrite (le32_ext _ (installed m)) by (intros; apply Hm).
  pose proof (installed_word m 1 ltac:(lia) Hn4) as Hw. rewrite !Z.mul_1_r in Hw. by rewrite Hw.
Qed.

Lemma second_boot_keeps_image_witness :
  wp (main 0) (fun r '(g', h') =>
      r = JumpTo (le32 small_image (NEW_CORE_FLASH_ADDR + CORE_HEADER_SIZE + 4)) /\
      fpec_of h' = fpec_of done_board)
    (boot_init, done_board).
Proof.
  apply (second_boot_keeps_image boot_init done_board small_image);
    [apply at_reset_fpec|done|vm_compute; done..|done].
Defined.

(** C5. The copy loop of replace_core counts words although the header's size
    is in bytes, and only eight pages are erased: with a size above 4096 over an
    application longer than 16 KB, on unprotected pages and with the counter of
    read_header at 0, the copy hits a word that is not erased. The
    boot ends in the error loop with [errno] FLASH_WR_ERR, the controller stays
    unlocked, and the flash it leaves makes the next boot fail the same way. *)
Theorem oversized_image_bricks `{FpecBus H} (g : boot) (h : H) :
  at_reset (fpec_of h) -> bytes (fp_mem (fpec_of h)) -> app_unprotected (fp_wrp (fpec_of h)) ->
  overruns (fp_mem (fpec_of h)) ->
  wp (main 0) (fun r '(g', h') =>
      r = BlinkForever /\ errno g' = FLASH_WR_ERR /\ fp_key (fpec_of h') = KUnlocked /\
      (forall x, fp_mem (fpec_of h') x = copied 4096 (fp_mem (fpec_of h)) x) /\
      overruns (fp_mem (fpec_of h'))) (g, h).
Proof.
  intros Hr Hb Hwa Ho. apply (wp_main _ _ _ _ _ eq_refl). intros h1 Hh1.
  apply (wp_check_core_overrun _ _ _ _ Hh1 Hr Hb Hwa Ho). intros h2 Hm2 Hk2. cbn.
  split; [done|]. split; [done|]. split; [done|]. split; [exact Hm2|].
  by apply (overruns_again _ _ Ho).
Qed.

Lemma oversized_image_bricks_witness :
  wp (main 0) (fun r '(g', h') =>
      r = BlinkForever /\ errno g' = FLASH_WR_ERR /\ fp_key (fpec_of h') = KUnlocked /\
      (forall x, fp_mem (fpec_of h') x = copied 4096 (fp_mem (fpec_of large_board)) x) /\
      overruns (fp_mem (fpec_of h'))) (boot_init, large_board).
Proof.
  apply (oversized_image_bricks boot_init large_board); [apply at_reset_fpec| |done|].
  - do 2 apply bytes_words_at. apply bytes_demo.
  - repeat split; vm_compute; done.
Defined.

(** A write-protected page in the staging area: the image is installed and
    started, but check_core returns before FLASH_Lock and leaves [errno] 0, so
    the new application runs with the flash controller unlocked, an error flag
    pending and, when the first page is the protected one, the header still in
    place. *)
Theorem staging_error_is_silent `{FpecBus H} (k : Z) (g : boot) (h : H) :
  at_reset (fpec_of h) -> bytes (fp_mem (fpec_of h)) -> errno g = 0 ->
  has_header (fp_mem (fpec_of h)) = true ->
  4 * header_size (fp_mem (fpec_of h)) <= 8 * page_size ->
  app_unprotected (fp_wrp (fpec_of h)) -> 0 <= k < PAGES_AMOUNT_TO_ERASE ->
  unprotected (fpec_of h) NEW_CORE_FLASH_ADDR (k * page_size) ->
  fp_wrp (fpec_of h) (NEW_CORE_FLASH_ADDR + k * page_size) = true ->
  wp (main 0) (fun r '(g', h') =>
      (exists pc, r = JumpTo pc) /\ errno g' = 0 /\ fp_key (fpec_of h') = KUnlocked /\
      (k = 0 -> has_header (fp_mem (fpec_of h')) = true)) (g, h).
Proof.
  intros Hr Hb He Hh Hn4 Hwa Hk Hwk Hpk. apply (wp_main _ _ _ _ _ eq_refl). intros h1 Hh1.
  apply (wp_check_core_sticky _ _ _ _ k Hh1 Hr Hb Hh Hn4 Hwa Hk Hwk Hpk). intros h2 Hm2 Hr2.
  cbn [fst]. change (errno (set_new_core_size _ g)) with (errno g). rewrite He. cbn [Z.eqb].
  apply (wp_jump _ _ _ _ eq_refl); [apply Hr2|]. intros g3 h3 Hh3 He3 _ _.
  split; [eauto|]. split; [by rewrite He3|]. rewrite Hh3. split; [apply Hr2|]. intros ->.
  pose proof (le32_bound _ (NEW_CORE_FLASH_ADDR + 12) Hb) as Hsz.
  assert (Hs : forall x, NEW_CORE_FLASH_ADDR <= x -> fp_mem (fpec_of h2) x = fp_mem (fpec_of h) x).
  { intros x Hx. rewrite Hm2, erase_range_nil. apply copied_staging; [apply Hsz|done|done]. }
  unfold has_header in *. rewrite !Hs by lia. done.
Qed.

(** The first page of the staging area is write-protected. *)
Definition staging_locked : board :=
  reset_board small_image (fun a => (NEW_CORE_FLASH_ADDR <=? a) && (a <? NEW_CORE_FLASH_ADDR + page_size)).

Lemma staging_error_is_silent_witness :
  wp (main 0) (fun r '(g', h') =>
      (exists pc, r = JumpTo pc) /\ errno g' = 0 /\ fp_key (fpec_of h') = KUnlocked /\
      (0 = 0 -> has_header (fp_mem (fpec_of h')) = true)) (boot_init, staging_locked).
Proof.
  apply (staging_error_is_silent 0 boot_init staging_locked);
    [apply at_reset_fpec|apply bytes_demo|done|vm_compute; done|vm_compute; done| |done| |done].
  - intros x Hx. cbn. layout. destruct (Z.leb_spec 0x08010000 x); [lia|done].
  - intros x Hx. layout. lia.
Defined.

(** read_header depends on the value that its uninitialised counter happens
    to hold: from 0 it recognises the header and takes the size from it; from a
    positive value it never sees a header, whatever the flash holds; from a
    negative value it writes outside its buffer. *)
Theorem read_header_needs_zeroed_counter `{FpecBus H} (i0 : Z) (g : boot) (h : H) :
  fp_busy (fpec_of h) = 0%nat ->
  if i0 <? 0 then read_header i0 (g, h) = Fault
  else wp (read_header i0) (fun r '(g', h') =>
      fpec_of h' = fpec_of h /\
      r = (if (i0 =? 0) && has_header (fp_mem (fpec_of h)) then 1 else 0) /\
      g' = (if r =? 1 then set_new_core_size (header_size (fp_mem (fpec_of h))) g else g)) (g, h).
Proof.
  intros Hb. destruct (Z.ltb_spec i0 0) as [Hneg|Hpos].
  - unfold read_header, mbind, M_bind, lift, read_header_buf, loop. cbn [snd].
    assert (Hbody : forall h', exists h'', read_header_body (i0, NEW_CORE_FLASH_ADDR, replicate 16 0) h' = h''
      /\ h'' = Fault).
    { intros h'. eexists. split; [done|]. unfold read_header_body.
      rewrite (proj2 (Z.ltb_lt i0 16)) by lia. unfold mbind, M_bind, rd8, rd.
      destruct (bus_read W8 NEW_CORE_FLASH_ADDR h') as [v h2]. unfold store.
      by rewrite (proj2 (Z.leb_gt 0 i0)). }
    destruct (Hbody h) as (? & Hbe & ->). unfold mbind, M_bind. rewrite iter_pos_nat.
    destruct (Pos.to_nat (Z.to_pos (17 - i0))) as [|n] eqn:En; [pose proof (Pos2Nat.is_pos (Z.to_pos (17 - i0))); lia|].
    cbn [iter_nat]. unfold mbind, M_bind. by rewrite Hbe.
  - apply (wp_read_header _ _ _ _ _ eq_refl Hb Hpos). intros h' Hh'.
    destruct ((i0 =? 0) && has_header (fp_mem (fpec_of h))); by repeat split.
Qed.

Lemma read_header_needs_zeroed_counter_witness :
  read_header (-1) (boot_init, small_board) = Fault.
Proof. apply (read_header_needs_zeroed_counter (-1) boot_init small_board). done. Defined.

(** erase_sector on every branch: a run that touches the last page of the
    flash is refused before anything is written (1), a run of unprotected pages
    is erased exactly (0), and a write-protected page stops the run in front of
    itself, with the pages before it erased (2). *)
Theorem erase_sector_branches `{FpecBus H} (start n k : Z) (h : H) :
  good (fpec_of h) -> flash_first <= start -> start mod page_size = 0 -> 0 <= n < 256 ->
  start + n * page_size < 2 ^ 32 -> 0 <= k <= n ->
  unprotected (fpec_of h) start (k * page_size) ->
  (k < n -> fp_wrp (fpec_of h) (start + k * page_size) = true) ->
  wp (erase_sector start n) (fun r h' =>
    if STM32F107_LAST_PAGE_ADDR <? start + n * page_size then r = 1 /\ h' = h
    else r = (if k =? n then 0 else 2) /\
         (forall x, fp_mem (fpec_of h') x = erase_range start (k * page_size) (fp_mem (fpec_of h)) x) /\
         (k = n -> good (fpec_of h'))) h.
Proof.
  intros Hg Hlo Hal Hn Hlim Hk Hw Hwk.
  destruct (Z.ltb_spec STM32F107_LAST_PAGE_ADDR (start + n * page_size)) as [Hover|Hfit].
  - apply wp_erase_sector_refused; [unfold flash_first in *; lia|lia|lia|done].
  - assert (Hf : fits start n) by (by repeat split; try lia).
    destruct (Z.eqb_spec k n) as [->|Hne].
    + apply (wp_erase_sector _ _ _ _ _ Hf eq_refl Hg Hw). intros h' (Hg' & _ & Hm'). auto.
    + apply (wp_erase_sector_protected _ _ _ _ _ k Hf eq_refl Hg); [lia|done|apply Hwk; lia|].
      intros h' Hm' _ _. repeat split; done.
Qed.

Definition unlocked_board (m : Z -> Z) (w : Z -> bool) : board :=
  Board (with_key KUnlocked (reset_fpec m w)) 0xFFFFFFFF 0 reset_clk (fun _ => 0).
Definition page_locked : board :=
  unlocked_board no_image (fun a => (0x08005000 <=? a) && (a <? 0x08005800)).

Lemma erase_sector_branches_witness :
  wp (erase_sector CURRENT_CORE_FLASH_ADDR 8) (fun r h' =>
    if STM32F107_LAST_PAGE_ADDR <? CURRENT_CORE_FLASH_ADDR + 8 * page_size then r = 1 /\ h' = page_locked
    else r = (if 2 =? 8 then 0 else 2) /\
         (forall x, fp_mem (fpec_of h') x =
            erase_range CURRENT_CORE_FLASH_ADDR (2 * page_size) (fp_mem (fpec_of page_locked)) x) /\
         (2 = 8 -> good (fpec_of h'))) page_locked.
Proof.
  apply (erase_sector_branches CURRENT_CORE_FLASH_ADDR 8 2 page_locked);
    [by repeat split|done|done|lia|vm_compute; done|lia| |done].
  intros x Hx. cbn. layout. destruct (Z.leb_spec 0x08005000 x); [lia|done].
Defined.
