(* ===== verification/CrcSpec.v ===== *)
(** The CRC unit, its driver and the table of the PC program: linearity and
    injectivity of the division, the block CRC of a flash region, and the
    equivalence of the byte table with the bit-serial hardware. *)
From S2P Require Import Prelude Mmio Fpec FlashDriver FlashSpec MemFacts Rcc Crc Bootloader BootloaderSpec.

(** * The bit step of the table *)
Lemma fill_bit_crc_bit r : fill_bit r = crc_bit r.
Proof.
  unfold fill_bit, crc_bit. change TOPBIT with (2 ^ 31).
  rewrite land_pow2_eqb0, negb_involutive by lia. done.
Qed.

(** * 32-bit words *)
Lemma u32_bits x i : 0 <= i -> Z.testbit (u32 x) i = (i <? 32) && Z.testbit x i.
Proof.
  intros Hi. unfold u32. destruct (Z.ltb_spec i 32).
  - by rewrite Z.mod_pow2_bits_low by lia.
  - by rewrite Z.mod_pow2_bits_high by lia.
Qed.

Lemma u32_lxor x y : u32 (Z.lxor x y) = Z.lxor (u32 x) (u32 y).
Proof.
  apply Z.bits_inj'. intros i Hi. rewrite Z.lxor_spec, !u32_bits, Z.lxor_spec by done.
  by destruct (i <? 32).
Qed.

Lemma u32_bound x : 0 <= u32 x < 2 ^ 32.
Proof. unfold u32. apply Z.mod_pos_bound. lia. Qed.

Lemma lxor_bound a b n : 0 <= n -> 0 <= a < 2 ^ n -> 0 <= b < 2 ^ n -> 0 <= Z.lxor a b < 2 ^ n.
Proof.
  intros Hn Ha Hb. assert (0 <= Z.lxor a b) by (apply Z.lxor_nonneg; lia). split; [done|].
  destruct (Z.eq_dec (Z.lxor a b) 0) as [->|]; [lia|]. apply Z.log2_lt_pow2; [lia|].
  pose proof (Z.log2_lxor a b ltac:(lia) ltac:(lia)) as Hl.
  destruct (Z.eq_dec a 0) as [->|], (Z.eq_dec b 0) as [->|];
    rewrite ?Z.lxor_0_l, ?Z.lxor_0_r in *; try lia; try (by apply Z.log2_lt_pow2; lia).
  pose proof (proj1 (Z.log2_lt_pow2 a n ltac:(lia)) ltac:(lia)).
  pose proof (proj1 (Z.log2_lt_pow2 b n ltac:(lia)) ltac:(lia)). lia.
Qed.

Lemma shl_lxor a b n : 0 <= n -> Z.shiftl (Z.lxor a b) n = Z.lxor (Z.shiftl a n) (Z.shiftl b n).
Proof. intros. by rewrite Z.shiftl_lxor. Qed.

(** * The division *)
Lemma crc_bit_bound r : 0 <= crc_bit r < 2 ^ 32.
Proof.
  unfold crc_bit. pose proof (u32_bound (Z.shiftl r 1)).
  case_match; [|done]. by apply lxor_bound.
Qed.

(** The step is linear over GF(2). *)
Lemma crc_bit_lxor a b : crc_bit (Z.lxor a b) = Z.lxor (crc_bit a) (crc_bit b).
Proof.
  unfold crc_bit. rewrite Z.lxor_spec, shl_lxor, u32_lxor by lia.
  set (x := u32 _). set (y := u32 _).
  destruct (Z.testbit a 31), (Z.testbit b 31); cbn [xorb].
  - rewrite (Z.lxor_comm y), Z.lxor_assoc, <- (Z.lxor_assoc CRC_POLY).
    by rewrite Z.lxor_nilpotent, Z.lxor_0_l.
  - by rewrite !Z.lxor_assoc, (Z.lxor_comm y).
  - by rewrite Z.lxor_assoc.
  - done.
Qed.

Lemma iter_S {A} n (f : A -> A) x : Nat.iter (S n) f x = f (Nat.iter n f x).
Proof. done. Qed.

Lemma iter_lxor n a b :
  Nat.iter n crc_bit (Z.lxor a b) = Z.lxor (Nat.iter n crc_bit a) (Nat.iter n crc_bit b).
Proof. induction n as [|n IH]; [done|]. by rewrite !iter_S, IH, crc_bit_lxor. Qed.

(** While no bit reaches the top, the register is only shifted. *)
Lemma iter_shift n r : 0 <= r -> r * 2 ^ Z.of_nat n < 2 ^ 32 ->
  Nat.iter n crc_bit r = Z.shiftl r (Z.of_nat n).
Proof.
  intros Hr. induction n as [|n IH]; intros Hn; [by rewrite Z.shiftl_0_r|].
  rewrite Nat2Z.inj_succ, Z.pow_succ_r in Hn by lia. rewrite iter_S, IH by lia.
  rewrite Z.shiftl_mul_pow2 by lia. unfold crc_bit.
  rewrite (testbit_above _ 31) by lia.
  unfold u32. rewrite Z.shiftl_mul_pow2, Z.mod_small by lia.
  rewrite Z.shiftl_mul_pow2 by lia. rewrite Nat2Z.inj_succ, Z.pow_succ_r by lia. lia.
Qed.

Lemma crc_bit_low r : Z.testbit (crc_bit r) 0 = Z.testbit r 31.
Proof.
  assert (Hl : Z.testbit (u32 (Z.shiftl r 1)) 0 = false).
  { rewrite u32_bits by lia. by rewrite Z.shiftl_spec_low by lia. }
  unfold crc_bit. destruct (Z.testbit r 31); [|done]. by rewrite Z.lxor_spec, Hl.
Qed.

Lemma crc_bit_inj a b : 0 <= a < 2 ^ 32 -> 0 <= b < 2 ^ 32 -> crc_bit a = crc_bit b -> a = b.
Proof.
  intros Ha Hb Heq. assert (H31 : Z.testbit a 31 = Z.testbit b 31).
  { by rewrite <- !crc_bit_low, Heq. }
  assert (Hs : u32 (Z.shiftl a 1) = u32 (Z.shiftl b 1)).
  { unfold crc_bit in Heq. rewrite H31 in Heq. destruct (Z.testbit b 31); [|done].
    apply (f_equal (fun z => Z.lxor z CRC_POLY)) in Heq.
    by rewrite !Z.lxor_assoc, !Z.lxor_nilpotent, !Z.lxor_0_r in Heq. }
  apply Z.bits_inj'. intros i Hi. destruct (Z.lt_ge_cases i 31) as [Hlt|Hge].
  - apply (f_equal (fun z => Z.testbit z (i + 1))) in Hs.
    rewrite !u32_bits in Hs by lia. rewrite (proj2 (Z.ltb_lt _ _)) in Hs by lia.
    rewrite !Z.shiftl_spec in Hs by lia. by replace (i + 1 - 1) with i in Hs by lia.
  - destruct (Z.eq_dec i 31) as [->|]; [done|]. by rewrite !(testbit_above _ 32) by lia.
Qed.

Lemma iter_bound n r : 0 <= r < 2 ^ 32 -> 0 <= Nat.iter n crc_bit r < 2 ^ 32.
Proof. intros Hr. destruct n; [done|]. apply crc_bit_bound. Qed.

Lemma iter_inj n a b : 0 <= a < 2 ^ 32 -> 0 <= b < 2 ^ 32 ->
  Nat.iter n crc_bit a = Nat.iter n crc_bit b -> a = b.
Proof.
  intros Ha Hb. induction n as [|n IH]; [done|]. rewrite !iter_S. intros Heq. apply IH.
  by apply crc_bit_inj; [apply iter_bound..|].
Qed.

Lemma lxor_cancel_l r a b : Z.lxor r a = Z.lxor r b -> a = b.
Proof.
  intros Heq. apply (f_equal (Z.lxor r)) in Heq.
  by rewrite <- !Z.lxor_assoc, Z.lxor_nilpotent, !Z.lxor_0_l in Heq.
Qed.

#[local] Opaque crc_bit.
Definition word (w : Z) : Prop := 0 <= w < 2 ^ 32.

Lemma crc_step_word r w : word r -> word w -> word (crc_step r w).
Proof. intros Hr Hw. apply iter_bound. by apply lxor_bound. Qed.

Lemma crc_step_inj_r r a b : word r -> word a -> word b -> crc_step r a = crc_step r b -> a = b.
Proof.
  intros Hr Ha Hb Heq. apply (lxor_cancel_l r).
  refine (iter_inj 32 _ _ _ _ Heq); by apply lxor_bound.
Qed.

Lemma crc_step_inj_l r s a : word r -> word s -> word a -> crc_step r a = crc_step s a -> r = s.
Proof.
  intros Hr Hs Ha Heq. apply (lxor_cancel_l a). rewrite !(Z.lxor_comm a).
  refine (iter_inj 32 _ _ _ _ Heq); by apply lxor_bound.
Qed.

#[local] Opaque crc_step.
Lemma crc_words_cons r w l : crc_words r (w :: l) = crc_words (crc_step r w) l.
Proof. done. Qed.

Lemma crc_words_app r l1 l2 : crc_words r (l1 ++ l2) = crc_words (crc_words r l1) l2.
Proof. apply fold_left_app. Qed.

Lemma crc_words_word r l : word r -> Forall word l -> word (crc_words r l).
Proof.
  intros Hr Hl. revert r Hr. induction Hl as [|w l Hw Hl IH]; intros r Hr; [done|].
  rewrite crc_words_cons. by apply IH, crc_step_word.
Qed.

Lemma crc_words_inj l r s : word r -> word s -> Forall word l ->
  crc_words r l = crc_words s l -> r = s.
Proof.
  intros Hr Hs Hl. revert r s Hr Hs. induction Hl as [|w l Hw Hl IH]; intros r s Hr Hs Heq; [done|].
  rewrite !crc_words_cons in Heq. eapply crc_step_inj_l; [exact Hr|exact Hs|exact Hw|].
  apply IH; [by apply crc_step_word|by apply crc_step_word|exact Heq].
Qed.

(** * The table *)
Lemma table_entry_iter d : table_entry d = Nat.iter 8 crc_bit (u32 (Z.shiftl d 24)).
Proof.
  unfold table_entry. change (WIDTH - 8) with 24. generalize (u32 (Z.shiftl d 24)).
  intros r. rewrite !iter_S. by rewrite !fill_bit_crc_bit.
Qed.

(** One byte by the table. *)
Definition table_byte (r : Z) : Z :=
  Z.lxor (nth (Z.to_nat (Z.shiftr r 24)) fill_table 0) (u32 (Z.shiftl r 8)).

Lemma table_byte_iter r : word r -> table_byte r = Nat.iter 8 crc_bit r.
Proof.
  intros Hr. unfold word in Hr. unfold table_byte.
  set (hi := Z.shiftr r 24). set (lo := r mod 2 ^ 24).
  assert (Hhi : 0 <= hi < 256).
  { subst hi. rewrite Z.shiftr_div_pow2 by lia. split; [apply Z.div_pos; lia|].
    apply Z.div_lt_upper_bound; lia. }
  assert (Hlo : 0 <= lo < 2 ^ 24) by (apply Z.mod_pos_bound; lia).
  assert (Hsplit : r = Z.lxor (Z.shiftl hi 24) lo).
  { subst hi lo. apply Z.bits_inj'. intros i Hi. rewrite Z.lxor_spec.
    destruct (Z.lt_ge_cases i 24).
    - rewrite Z.shiftl_spec_low, Z.mod_pow2_bits_low by lia. by destruct (Z.testbit r i).
    - rewrite Z.shiftl_spec, Z.shiftr_spec, Z.mod_pow2_bits_high by lia.
      replace (i - 24 + 24) with i by lia. by destruct (Z.testbit r i). }
  assert (Htab : nth (Z.to_nat hi) fill_table 0 = Nat.iter 8 crc_bit (Z.shiftl hi 24)).
  { unfold fill_table. rewrite (nth_indep _ 0 (table_entry (Z.of_nat 0))) by (rewrite length_map, length_seq; lia).
    rewrite (map_nth (fun i => table_entry (Z.of_nat i))), seq_nth by lia.
    rewrite table_entry_iter, Nat.add_0_l, Z2Nat.id by lia. f_equal. unfold u32.
    rewrite Z.mod_small; [done|]. rewrite Z.shiftl_mul_pow2 by lia. lia. }
  rewrite Htab. rewrite Hsplit at 2. rewrite iter_lxor. f_equal.
  rewrite iter_shift by lia. change (Z.of_nat 8) with 8.
  rewrite Hsplit, shl_lxor, u32_lxor by lia. rewrite Z.shiftl_shiftl by lia.
  assert (u32 (Z.shiftl hi (24 + 8)) = 0) as ->.
  { unfold u32. rewrite Z.shiftl_mul_pow2 by lia. by rewrite Z.mod_mul by lia. }
  rewrite Z.lxor_0_l. unfold u32. rewrite Z.mod_small; [done|].
  rewrite Z.shiftl_mul_pow2 by lia. lia.
Qed.

Lemma crc_step_table r w : word r -> word w ->
  crc_step r w = Nat.iter 4 table_byte (Z.lxor r w).
Proof.
  intros Hr Hw. change (crc_step r w) with (Nat.iter (8 + (8 + (8 + 8))) crc_bit (Z.lxor r w)).
  assert (Hx : word (Z.lxor r w)) by by apply lxor_bound.
  rewrite !iter_S. change (Nat.iter 0 table_byte ?x) with x.
  rewrite !Nat.iter_add.
  rewrite (table_byte_iter (Z.lxor r w)) by done.
  rewrite (table_byte_iter (Nat.iter 8 crc_bit (Z.lxor r w))) by by apply iter_bound.
  rewrite (table_byte_iter (Nat.iter 8 crc_bit (Nat.iter 8 crc_bit (Z.lxor r w))))
    by by do 2 apply iter_bound.
  rewrite table_byte_iter by by do 3 apply iter_bound. done.
Qed.

Lemma crc_words_detect r a b l1 l2 :
  word r -> Forall word l1 -> Forall word l2 -> word a -> word b ->
  a <> b -> crc_words r (l1 ++ a :: l2) <> crc_words r (l1 ++ b :: l2).
Proof.
  intros Hr H1 H2 Ha Hb Hne Heq. apply Hne. rewrite !crc_words_app, !crc_words_cons in Heq.
  assert (Hr1 : word (crc_words r l1)) by by apply crc_words_word.
  apply crc_words_inj in Heq; [|by apply crc_step_word|by apply crc_step_word|done].
  by apply (crc_step_inj_r _ _ _ Hr1 Ha Hb).
Qed.

(** * The driver on flash memory *)
Section driver.
Context {H : Type} `{FpecBus H} `{!CrcBus H}.

(** The words of a flash region. *)
Definition flash_words (m : Z -> Z) (a : Z) (n : nat) : list Z :=
  map (fun k => le32 m (a + 4 * Z.of_nat k)) (seq 0 n).

Lemma flash_words_S m a n :
  flash_words m a (S n) = flash_words m a n ++ [le32 m (a + 4 * Z.of_nat n)].
Proof. unfold flash_words. by rewrite seq_S, map_app. Qed.

Lemma flash_words_word m a n : bytes m -> Forall word (flash_words m a n).
Proof.
  intros Hb. unfold flash_words. induction (seq 0 n) as [|k l IH]; cbn; constructor; [|done].
  by apply le32_bound.
Qed.

Lemma flash_words_split m a n k : (k < n)%nat ->
  flash_words m a n =
    flash_words m a k ++ le32 m (a + 4 * Z.of_nat k)
      :: map (fun j => le32 m (a + 4 * Z.of_nat j)) (seq (S k) (n - S k)).
Proof.
  intros Hk. unfold flash_words. replace n with (k + S (n - S k))%nat at 1 by lia.
  by rewrite seq_app, map_app.
Qed.

(** The register after the words [l] were stored, and what a load of it answers. *)
Definition crc_after (h : H) (l : list Z) : Z := if crc_on h then crc_words (crc_of h) l else crc_of h.
Definition crc_answer (h : H) (l : list Z) : Z := if crc_on h then crc_words (crc_of h) l else 0.

Lemma crc_dr_on v h : crc_on (bus_write W32 CRC_DR v h) = crc_on h.
Proof. by apply crc_on_frame. Qed.

(** A load from the flash leaves the CRC unit alone, a store to the CRC unit the
    flash controller. *)
Lemma wp_crc_block (Q : unit -> H -> Prop) h f a n :
  fpec_of h = f -> fp_busy f = 0%nat -> flash_first <= a -> a + 4 * Z.of_nat n <= flash_end ->
  (forall h', fpec_of h' = f -> crc_on h' = crc_on h -> crc_of h' = crc_after h (flash_words (fp_mem f) a n) ->
     Q tt h') ->
  wp (loop (Z.to_pos (Z.of_nat n + 1)) (crc_block_body a (Z.of_nat n)) 0) Q h.
Proof.
  intros Hf Hb Hlo Hhi HQ. unfold flash_first, flash_end in *.
  apply (wp_loop (fun i h' => exists k, i = Z.of_nat k /\ (k <= n)%nat /\ fpec_of h' = f /\
                    crc_on h' = crc_on h /\ crc_of h' = crc_after h (flash_words (fp_mem f) a k))
                 (fun i _ => Z.of_nat n - i)).
  - exists 0%nat. unfold crc_after. by destruct (crc_on h); repeat split; try lia.
  - lia.
  - intros i h1 (k & -> & Hk & Hh1 & Ho1 & Hc1) _. unfold crc_block_body.
    destruct (Z.ltb_spec (Z.of_nat k) (Z.of_nat n)).
    + assert (u32 (a + 4 * Z.of_nat k) = a + 4 * Z.of_nat k) as ->
        by (unfold u32; apply Z.mod_small; lia).
      apply wp_bind, wp_rd.
      pose proof (crc_read_state W32 (a + 4 * Z.of_nat k) h1) as (Hcr & _ & Hon).
      assert (Hrd : wp (rd W32 (a + 4 * Z.of_nat k))
        (fun v h' => fpec_of h' = f /\ v = le32 (fp_mem f) (a + 4 * Z.of_nat k)) h1).
      { apply (wp_rd_mem _ _ _ _ _ Hh1 Hb); [apply in_flash_range..|]; cbn [width_bytes];
          unfold flash_first, flash_end; try lia. done. }
      unfold wp, rd in Hrd. destruct (bus_read W32 (a + 4 * Z.of_nat k) h1) as [v h2].
      cbn [fst snd] in *. destruct Hrd as [Hh2 ->].
      apply wp_bind, wp_wr. apply wp_ret. split; [|lia]. exists (S k).
      split; [lia|]. split; [lia|]. split; [by rewrite fpec_write_frame|].
      split; [by rewrite crc_dr_on, Hon|].
      rewrite (proj1 (crc_write_dr _ _)), Hcr, Hon, Ho1, Hc1. unfold crc_after.
      destruct (crc_on h); [|done]. by rewrite flash_words_S, crc_words_app.
    + apply wp_ret, HQ; [done|done|]. by replace n with k by lia.
Qed.

Lemma wp_CRC_CalcBlockCRC (Q : Z -> H -> Prop) h f a n :
  fpec_of h = f -> fp_busy f = 0%nat -> flash_first <= a -> a + 4 * Z.of_nat n <= flash_end ->
  (forall h', fpec_of h' = f -> crc_on h' = crc_on h ->
     Q (crc_answer h (flash_words (fp_mem f) a n)) h') ->
  wp (CRC_CalcBlockCRC a (Z.of_nat n)) Q h.
Proof.
  intros Hf Hb Hlo Hhi HQ. unfold CRC_CalcBlockCRC.
  apply wp_bind, (wp_crc_block _ _ _ _ _ Hf Hb Hlo Hhi). intros h1 Hh1 Ho1 Hc1.
  apply wp_rd. unfold rd32. rewrite crc_read_dr, Ho1, Hc1.
  pose proof (crc_read_state W32 CRC_DR h1) as (_ & _ & Hon).
  unfold crc_after. replace (if crc_on h then _ else 0) with (crc_answer h (flash_words (fp_mem f) a n)) by (unfold crc_answer; by destruct (crc_on h)).
  apply HQ; [by rewrite fpec_read_frame|congruence].
Qed.

Lemma wp_CRC_ResetDR (Q : unit -> H -> Prop) h f :
  fpec_of h = f -> crc_on h = true ->
  (forall h', fpec_of h' = f -> crc_on h' = true -> crc_of h' = 0xFFFFFFFF -> Q tt h') ->
  wp CRC_ResetDR Q h.
Proof.
  intros Hf Hon HQ. apply wp_wr, HQ; [by rewrite fpec_write_frame|by rewrite crc_on_frame|].
  by rewrite (proj1 (crc_write_cr _)), Hon.
Qed.

(** Reset the register, then run over a block. *)
Lemma wp_block_crc (Q : Z -> H -> Prop) h a n :
  crc_on h = true -> fp_busy (fpec_of h) = 0%nat -> flash_first <= a -> a + 4 * Z.of_nat n <= flash_end ->
  (forall h', fpec_of h' = fpec_of h ->
     Q (crc_words 0xFFFFFFFF (flash_words (fp_mem (fpec_of h)) a n)) h') ->
  wp (_ ← CRC_ResetDR; CRC_CalcBlockCRC a (Z.of_nat n)) Q h.
Proof.
  intros Hon Hb Hlo Hhi HQ. apply wp_bind, (wp_CRC_ResetDR _ _ _ eq_refl Hon). intros h1 Hh1 Ho1 Hc1.
  apply (wp_CRC_CalcBlockCRC _ _ _ _ _ Hh1 Hb Hlo Hhi). intros h2 Hh2 _. unfold crc_answer. rewrite Ho1, Hc1. by apply HQ.
Qed.
End driver.

(** * The clock of the unit *)
Section crc_clock.
Context {H : Type} `{CrcBus H}.

(** Statements that leave CRCEN as it is. *)
Definition crc_clock (b : bool) (h : H) : Prop := crc_on h = b.
Lemma keeps_clock_rd w a b : keeps (crc_clock b) (rd w a).
Proof.
  intros h v h' Hb. unfold rd. pose proof (crc_read_state w a h) as (_ & _ & Hon).
  destruct (bus_read w a h). intros [= _ <-]. unfold crc_clock in *. cbn in Hon. congruence.
Qed.
Lemma keeps_clock_wr w a v b : (a + width_bytes w <=? RCC_AHBENR) || (RCC_AHBENR + 4 <=? a) = true -> keeps (crc_clock b) (wr w a v).
Proof. intros Ha h [] h' Hb [= <-]. unfold crc_clock in *. by rewrite crc_on_frame. Qed.
Lemma keeps_clock_lift {G A} (m : M H A) b : keeps (crc_clock b) m -> keeps (fun s : G * H => crc_clock b (snd s)) (lift m).
Proof.
  intros Hm [g h] a s' Hb. unfold lift. cbn [fst snd] in *. destruct (m h) as [x h'| |] eqn:E; [|done..].
  intros [= _ <-]. by apply (Hm h x h').
Qed.
Lemma keeps_clock_setg {G} (f : G -> G) b : keeps (fun s : G * H => crc_clock b (snd s)) (setg f).
Proof. by apply hoare_modify. Qed.
End crc_clock.
#[export] Hint Resolve keeps_clock_rd keeps_clock_setg : keeps_db.
#[export] Hint Extern 1 (keeps _ (rd32 _)) => apply keeps_clock_rd : keeps_db.
#[export] Hint Extern 1 (keeps _ (wr32 _ _)) => apply keeps_clock_wr; vm_compute; reflexivity : keeps_db.
#[export] Hint Extern 1 (keeps _ (wr8 _ _)) => apply keeps_clock_wr; vm_compute; reflexivity : keeps_db.
(** Storing a word in the flash does not touch it. *)
Lemma keeps_clock_program `{CrcBus H} a v b : 0 <= a < flash_end -> keeps (crc_clock b) (FLASH_ProgramWord a v).
Proof.
  unfold flash_end. intros Ha. assert (u32 (a + 2) = a + 2) as Hu by (unfold u32; apply Z.mod_small; lia).
  assert (forall x v, a <= x <= a + 2 -> keeps (crc_clock b) (wr16 x v)) as Hwr.
  { intros x w Hx. apply keeps_clock_wr, orb_true_iff. left. apply Z.leb_le. change RCC_AHBENR with 0x40021014. cbn. lia. }
  assert (keeps (crc_clock b) (FLASH_WaitForLastOperation ProgramTimeout)) as Hw
    by (unfold FLASH_WaitForLastOperation, wait_body; keeps_steps; unfold FLASH_GetBank1Status; keeps_steps).
  unfold FLASH_ProgramWord, or32, and32. rewrite Hu. keeps_steps; first [exact Hw|apply Hwr; lia].
Qed.
