(* ===== verification/FlashTheorems.v ===== *)
(** The properties of the flash driver and of the CRC driver. *)
From S2P Require Import Prelude Mmio Fpec FlashDriver FlashSpec MemFacts Rcc Gpio Misc Crc.
From S2P Require Import ClockTree Board Bootloader BootloaderSpec BootTheorems CrcSpec.

(** * Mass erase *)
Section mass_erase.
Context {H : Type} `{FpecBus H}.
#[local] Arguments mass_erase_op : simpl never.

Lemma mass_op_cr c f : mass_erase_op (with_cr c f) = with_cr c (mass_erase_op f).
Proof. unfold mass_erase_op, any_protected. cbn [with_cr fp_wrp]. by case_match. Qed.

Lemma mass_op_ready f : ready f -> ready (mass_erase_op f).
Proof.
  intros [Hk Hb Hc Hs]. unfold mass_erase_op. case_match; split; try done; by apply testbit_lor_flag.
Qed.

Lemma wp_EraseAllPages_ready (Q : FLASH_Status -> H -> Prop) h f :
  fpec_of h = f -> ready f -> no_error f ->
  (forall h', fpec_of h' = mass_erase_op f -> Q (status_of (mass_erase_op f)) h') ->
  wp FLASH_EraseAllPages Q h.
Proof.
  intros Hf Hr Hne HQ. pose proof Hr as [Hk Hb Hc Hwf]. unfold FLASH_EraseAllPages.
  apply wp_bind, (wp_wait_idle _ _ f); [done..|]. intros h1 Hh1.
  rewrite status_no_error, bool_decide_eq_true_2 by done.
  apply wp_bind, (wp_or_cr _ _ _ _ Hh1); [done|done|by rewrite Hc|]. intros h2 ed2 _ Hh2.
  rewrite Hc in Hh2. fpec_step Hh2. change (fpec_of h2 = with_cr 4 f) in Hh2.
  apply wp_bind, (wp_or_cr _ _ _ _ Hh2); [done|done|done|]. intros h3 ed3 Hed Hh3.
  assert (Hh3' : fpec_of h3 = with_cr 4 (with_busy ed3 (mass_erase_op f))).
  { rewrite Hh3, write_cr_unlocked by done. cbn [fp_cr with_cr]. unfold fpec_start. cbn.
    change (with_cr ?c (with_cr 4 f)) with (with_cr 4 f). by rewrite mass_op_cr. }
  pose proof (mass_op_ready f Hr) as Hr'.
  apply wp_bind, (wp_wait _ _ _ _ Hh3'); [apply Hr'|done|]. intros h4 Hh4.
  change (with_busy 0 (with_cr 4 (with_busy ed3 ?g))) with (with_cr 4 (with_busy 0 g)) in *.
  rewrite (with_busy_id (mass_erase_op f)) in Hh4 |- * by apply Hr'.
  apply wp_bind, (wp_and_cr _ _ _ _ Hh4); [apply Hr'|apply Hr'|done..|].
  intros h5 ed5 _ Hh5. apply wp_ret. rewrite status_with_cr. apply HQ.
  rewrite Hh5, write_cr_unlocked by (done || apply Hr'). cbn [fp_cr with_cr]. cbn.
  destruct Hr' as [_ _ Hc' _]. destruct (mass_erase_op f). cbn in *. by subst.
Qed.
End mass_erase.

(** * The flash driver *)

(** C15. FLASH_ProgramWord on every branch, for an unlocked idle controller:
    without a pending error it performs the two half-word programs of the
    controller, the second only when the first succeeded, and returns the status
    they leave; with one it returns that error and touches nothing. *)
Theorem program_word_refines `{FpecBus H} (a d : Z) (h : H) :
  ready (fpec_of h) -> in_flash a = true -> in_flash (a + 2) = true -> Z.even a = true ->
  wp (FLASH_ProgramWord a d) (fun st h' =>
     let f' := if decide (no_error (fpec_of h)) then program_word_op a d (fpec_of h) else fpec_of h in
     fpec_of h' = f' /\ st = status_of f' /\ ready f') h.
Proof.
  intros Hr Ha Ha2 He. destruct (decide (no_error (fpec_of h))) as [Hne|Hne].
  - apply (wp_ProgramWord_ready _ _ _ _ _ eq_refl Hr Hne Ha Ha2 He). intros h' Hh'.
    split_and!; [done|done|by apply word_op_ready].
  - by apply (wp_ProgramWord_error _ _ _ _ _ eq_refl Hr Hne).
Qed.

Lemma program_word_refines_witness :
  wp (FLASH_ProgramWord 0x08012000 0x12345678) (fun st h' =>
     let f' := if decide (no_error (fpec_of page_locked))
               then program_word_op 0x08012000 0x12345678 (fpec_of page_locked) else fpec_of page_locked in
     fpec_of h' = f' /\ st = status_of f' /\ ready f') page_locked.
Proof. apply (program_word_refines 0x08012000 0x12345678 page_locked); [by split|done..]. Defined.

(** A word programmed into four erased, unprotected bytes reads back, the
    driver reports FLASH_COMPLETE, and no other byte changes. *)
Theorem program_word_reads_back `{FpecBus H} (a d : Z) (h : H) :
  good (fpec_of h) -> flash_first <= a -> a + 4 <= flash_end -> Z.even a = true -> 0 <= d < 2 ^ 32 ->
  unprotected (fpec_of h) a 4 -> erased (fp_mem (fpec_of h)) a 4 ->
  wp (st ← FLASH_ProgramWord a d; v ← rd32 a; mret (st, v)) (fun r h' =>
     r = (FLASH_COMPLETE, d) /\
     forall x, x < a \/ a + 4 <= x -> fp_mem (fpec_of h') x = fp_mem (fpec_of h) x) h.
Proof.
  intros Hg Hlo Hhi He Hd Hw Her. pose proof Hg as [Hr Hne].
  assert (Hin : forall k, 0 <= k < 4 -> in_flash (a + k) = true).
  { intros k Hk. apply in_flash_range. lia. }
  assert (Ha : in_flash a = true) by (rewrite <- (Z.add_0_r a); apply Hin; lia).
  destruct (word_op_erased a d _ Hg Hw Her) as (Hg' & _ & Hm).
  apply wp_bind, (wp_ProgramWord_ready _ _ _ _ _ eq_refl Hr Hne Ha (Hin 2 ltac:(lia)) He).
  intros h1 Hh1. rewrite good_status by done.
  apply wp_bind, (wp_rd_mem _ _ _ _ _ Hh1); [apply Hg'|done| |].
  { cbn [width_bytes]. replace (a + 4 - 1) with (a + 3) by lia. apply Hin. lia. }
  intros h2 Hh2. apply wp_ret. split.
  - f_equal. cbn [le]. rewrite (le32_ext _ _ _ (fun k _ => Hm (a + k))).
    unfold le32, le16, set32. intervals; try lia. unfold byte_of.
    replace (a - a) with 0 by lia. replace (a + 1 - a) with 1 by lia.
    replace (a + 2 - a) with 2 by lia. replace (a + 2 + 1 - a) with 3 by lia.
    cbn [Z.mul Pos.mul]. Z.div_mod_to_equations. lia.
  - intros x Hx. rewrite Hh2, Hm. unfold set32. intervals; (done || lia).
Qed.

Lemma program_word_reads_back_witness :
  wp (st ← FLASH_ProgramWord 0x08012000 0x12345678; v ← rd32 0x08012000; mret (st, v)) (fun r h' =>
     r = (FLASH_COMPLETE, 0x12345678) /\
     forall x, x < 0x08012000 \/ 0x08012000 + 4 <= x ->
       fp_mem (fpec_of h') x = fp_mem (fpec_of page_locked) x) page_locked.
Proof.
  apply (program_word_reads_back 0x08012000 0x12345678 page_locked); [by repeat split|done|done|done|lia| |].
  - intros x Hx. cbn. intervals; (done || lia).
  - intros x Hx. cbn. unfold no_image, words_at, set32, CURRENT_CORE_FLASH_ADDR. cbn.
    intervals; (done || lia).
Defined.

(** C16. FLASH_ErasePage on every branch: without a pending error the page that
    holds the address is erased, or, when it is write-protected, left as it is
    and reported; with one nothing happens. The control register is left with
    no mode bit set. *)
Theorem erase_page_refines `{FpecBus H} (p : Z) (h : H) :
  ready (fpec_of h) -> in_flash p = true ->
  wp (FLASH_ErasePage p) (fun st h' =>
     let f' := if decide (no_error (fpec_of h)) then with_ar p (erase_page_op p (fpec_of h)) else fpec_of h in
     fpec_of h' = f' /\ st = status_of f' /\ ready f') h.
Proof.
  intros Hr Hp. destruct (decide (no_error (fpec_of h))) as [Hne|Hne].
  - apply (wp_ErasePage_ready _ _ _ _ eq_refl Hr Hne Hp). intros h' Hh'.
    split_and!; [done|done|by apply erase_op_ready].
  - by apply (wp_ErasePage_error _ _ _ _ eq_refl Hr Hne).
Qed.

Lemma erase_page_refines_witness :
  wp (FLASH_ErasePage 0x08005000) (fun st h' =>
     let f' := if decide (no_error (fpec_of page_locked))
               then with_ar 0x08005000 (erase_page_op 0x08005000 (fpec_of page_locked)) else fpec_of page_locked in
     fpec_of h' = f' /\ st = status_of f' /\ ready f') page_locked.
Proof. apply (erase_page_refines 0x08005000 page_locked); [by split|done]. Defined.

(** FLASH_EraseAllPages erases the whole main memory when no page is
    protected, and otherwise reports WRPRTERR and erases nothing. *)
Theorem erase_all_pages_spec `{FpecBus H} (h : H) :
  good (fpec_of h) ->
  wp FLASH_EraseAllPages (fun st h' =>
     if any_protected (fpec_of h)
     then st = FLASH_ERROR_WRP /\ forall x, fp_mem (fpec_of h') x = fp_mem (fpec_of h) x
     else st = FLASH_COMPLETE /\ good (fpec_of h') /\
          forall x, in_flash x = true -> fp_mem (fpec_of h') x = 0xFF) h.
Proof.
  intros [Hr Hne]. apply (wp_EraseAllPages_ready _ _ _ eq_refl Hr Hne). intros h' Hh'.
  unfold mass_erase_op in *. destruct (any_protected (fpec_of h)).
  - split; [|by rewrite Hh']. destruct Hne as [H2 H4]. unfold status_of. cbn [op_refused with_err fp_busy fp_err].
    rewrite decide_True by apply Hr. by rewrite !Z.lor_spec, H2, orb_true_r.
  - split; [apply good_status; eauto using good_op_done; by apply good_op_done|].
    rewrite Hh'. split; [by apply good_op_done|]. intros x Hx. apply in_flash_range in Hx.
    cbn [op_done with_err with_mem fp_mem]. unfold erase_range. unfold flash_first, flash_end in *.
    intervals; (done || lia).
Qed.

Lemma erase_all_pages_spec_witness :
  wp FLASH_EraseAllPages (fun st h' =>
     if any_protected (fpec_of page_locked)
     then st = FLASH_ERROR_WRP /\ forall x, fp_mem (fpec_of h') x = fp_mem (fpec_of page_locked) x
     else st = FLASH_COMPLETE /\ good (fpec_of h') /\
          forall x, in_flash x = true -> fp_mem (fpec_of h') x = 0xFF) page_locked.
Proof. apply (erase_all_pages_spec page_locked). by repeat split. Defined.

(** C17. FLASH_WaitForLastOperation returns within its bound on every
    controller: an operation that ends in fewer polls than the bound is reported
    with its status; one that takes as many polls or more is reported as
    FLASH_TIMEOUT, also when it ended on the last poll. *)
Theorem wait_for_last_operation_bounds `{FpecBus H} (Timeout : Z) (h : H) :
  sr_wf (fpec_of h) -> 0 <= Timeout ->
  wp (FLASH_WaitForLastOperation Timeout) (fun st h' =>
     if Z.of_nat (fp_busy (fpec_of h)) <? Timeout
     then st = status_of (with_busy 0 (fpec_of h)) /\ fpec_of h' = with_busy 0 (fpec_of h)
     else st = FLASH_TIMEOUT /\
          fpec_of h' = with_busy (fp_busy (fpec_of h) - S (Z.to_nat Timeout)) (fpec_of h)) h.
Proof.
  intros Hs HT. destruct (Z.ltb_spec (Z.of_nat (fp_busy (fpec_of h))) Timeout).
  - apply (wp_wait _ _ _ _ eq_refl Hs); [done|]. auto.
  - apply (wp_wait_timeout _ _ _ _ eq_refl Hs); [done|]. auto.
Qed.

Definition busy_board : board :=
  Board (with_busy 3 (reset_fpec no_image no_wrp)) 0xFFFFFFFF 0 reset_clk (fun _ => 0).

Lemma wait_for_last_operation_bounds_witness :
  wp (FLASH_WaitForLastOperation 3) (fun st h' =>
     if Z.of_nat (fp_busy (fpec_of busy_board)) <? 3
     then st = status_of (with_busy 0 (fpec_of busy_board)) /\ fpec_of h' = with_busy 0 (fpec_of busy_board)
     else st = FLASH_TIMEOUT /\
          fpec_of h' = with_busy (fp_busy (fpec_of busy_board) - S (Z.to_nat 3)) (fpec_of busy_board)) busy_board.
Proof. apply (wait_for_last_operation_bounds 3 busy_board); [done|lia]. Defined.

(** * The CRC unit and the table of the PC program *)

(** The table that crc_32::fill_table computes is the table of the
    hardware unit: dividing a word in the unit bit by bit is four steps of the
    table, byte by byte. *)
Theorem fill_table_matches_hardware (r w : Z) :
  0 <= r < 2 ^ 32 -> 0 <= w < 2 ^ 32 ->
  length fill_table = 256%nat /\ crc_step r w = Nat.iter 4 table_byte (Z.lxor r w).
Proof. intros Hr Hw. split; [|by apply crc_step_table]. unfold fill_table. by rewrite length_map, length_seq. Qed.

Lemma fill_table_matches_hardware_witness :
  length fill_table = 256%nat /\
  crc_step 0xFFFFFFFF 0x12345678 = Nat.iter 4 table_byte (Z.lxor 0xFFFFFFFF 0x12345678).
Proof. apply (fill_table_matches_hardware 0xFFFFFFFF 0x12345678); lia. Defined.

(** When the CRC unit has its clock, CRC_ResetDR and CRC_CalcBlockCRC on a flash
    region return the CRC of its words from the reset value, and leave the flash
    alone. *)
Theorem block_crc_spec `{FpecBus H} `{!CrcBus H} (a : Z) (n : nat) (h : H) :
  crc_on h = true -> fp_busy (fpec_of h) = 0%nat -> flash_first <= a -> a + 4 * Z.of_nat n <= flash_end ->
  wp (_ ← CRC_ResetDR; CRC_CalcBlockCRC a (Z.of_nat n)) (fun v h' =>
     v = crc_words 0xFFFFFFFF (flash_words (fp_mem (fpec_of h)) a n) /\ fpec_of h' = fpec_of h) h.
Proof.
  intros Hon Hb Hlo Hhi. by apply wp_block_crc.
Qed.

(** A board whose CRC unit has its clock. *)
Definition crc_board (m : Z -> Z) : board :=
  Board (reset_fpec m no_wrp) 0xFFFFFFFF 0 reset_clk (fun a => if a =? RCC_AHBENR then 0x54 else 0).

Lemma block_crc_spec_witness :
  wp (_ ← CRC_ResetDR; CRC_CalcBlockCRC 0x08010000 (Z.of_nat 6)) (fun v h' =>
     v = crc_words 0xFFFFFFFF (flash_words (fp_mem (fpec_of (crc_board small_image))) 0x08010000 6) /\
     fpec_of h' = fpec_of (crc_board small_image)) (crc_board small_image).
Proof. apply (block_crc_spec 0x08010000 6 (crc_board small_image)); done. Defined.

(** With its clock, the CRC of the driver sees every change of a single word: on two
    chips whose flash differs in exactly one word of a block, CRC_ResetDR and
    CRC_CalcBlockCRC return different values. *)
Theorem crc_detects_one_word `{FpecBus H} `{!CrcBus H} (a : Z) (n k : nat) (h1 h2 : H) :
  crc_on h1 = true -> crc_on h2 = true -> fp_busy (fpec_of h1) = 0%nat -> fp_busy (fpec_of h2) = 0%nat ->
  flash_first <= a -> a + 4 * Z.of_nat n <= flash_end -> (k < n)%nat ->
  bytes (fp_mem (fpec_of h1)) -> bytes (fp_mem (fpec_of h2)) ->
  (forall j, (j < n)%nat -> j <> k ->
     le32 (fp_mem (fpec_of h1)) (a + 4 * Z.of_nat j) = le32 (fp_mem (fpec_of h2)) (a + 4 * Z.of_nat j)) ->
  le32 (fp_mem (fpec_of h1)) (a + 4 * Z.of_nat k) <> le32 (fp_mem (fpec_of h2)) (a + 4 * Z.of_nat k) ->
  wp (_ ← CRC_ResetDR; CRC_CalcBlockCRC a (Z.of_nat n)) (fun v1 _ =>
    wp (_ ← CRC_ResetDR; CRC_CalcBlockCRC a (Z.of_nat n)) (fun v2 _ => v1 <> v2) h2) h1.
Proof.
  intros Hon1 Hon2 Hb1 Hb2 Hlo Hhi Hk Hm1 Hm2 Heq Hne. apply wp_block_crc; [done..|]. intros _ _.
  apply wp_block_crc; [done..|]. intros _ _. rewrite !(flash_words_split _ a n k) by done.
  assert (flash_words (fp_mem (fpec_of h1)) a k = flash_words (fp_mem (fpec_of h2)) a k) as ->.
  { apply map_ext_in. intros j Hj%in_seq. apply Heq; lia. }
  assert (map (fun j => le32 (fp_mem (fpec_of h1)) (a + 4 * Z.of_nat j)) (seq (S k) (n - S k)) =
          map (fun j => le32 (fp_mem (fpec_of h2)) (a + 4 * Z.of_nat j)) (seq (S k) (n - S k))) as ->.
  { apply map_ext_in. intros j Hj%in_seq. apply Heq; lia. }
  apply crc_words_detect; try done; [by apply flash_words_word| |by apply le32_bound..].
  apply Forall_map, Forall_true. intros j. by apply le32_bound.
Qed.

(** The image of [small_board] with another word at 0x08010008. *)
Definition changed_board : board := crc_board (set32 0x08010008 0x12345678 small_image).

Lemma crc_detects_one_word_witness :
  wp (_ ← CRC_ResetDR; CRC_CalcBlockCRC 0x08010000 (Z.of_nat 6)) (fun v1 _ =>
    wp (_ ← CRC_ResetDR; CRC_CalcBlockCRC 0x08010000 (Z.of_nat 6)) (fun v2 _ => v1 <> v2) changed_board)
    (crc_board small_image).
Proof.
  apply (crc_detects_one_word 0x08010000 6 2 (crc_board small_image) changed_board);
    [done|done|done|done|done|done|lia|apply bytes_demo|apply boot_bytes_set32, bytes_demo| |].
  - intros j Hj Hne. do 6 (destruct j as [|j]; [done || vm_compute; reflexivity|]). lia.
  - vm_compute. discriminate.
Defined.
