(* ===== verification/ClockTheorems.v ===== *)
(** The properties of the clock set-up, of the clock queries, and of the GPIO driver on
    any [PortBus]. *)
From S2P Require Import Prelude Mmio Fpec Rcc ClockTree Misc SystemClock SystemClockSpec Crc Gpio Board.

(** The clock tree after a reset, with the crystal [hse]. *)
Definition after_reset (cal : Z) (hse : option Z) : clk := Clk 0x81 0 0 0x10 1 0 0 cal hse.
(** The tree at 72 MHz, as SystemInit leaves it, and as premain does. *)
Definition running_72 (cal : Z) : clk :=
  Clk 0x05010081 0x001D0402 0x00010644 0x12 0x05010001 2 0 cal (Some HSE_VALUE).
(** The tree when the crystal does not start. *)
Definition hse_failed (cal : Z) : clk := Clk 0x00010081 0 0 0x10 1 0 0 cal None.

Section runs.
Context {H : Type} `{ClockBus H}.

(** The start-up loop with a working crystal, and the flag test behind it. *)
Ltac clk_hse :=
  match goal with
  | Hh : is_clk ?h _ |- wp (_ ≫= _) _ ?h =>
      let h2 := fresh "h" in let Hh2 := fresh "Hh" in
      apply wp_bind; eapply (wp_hse_startup _ _ _ Hh); [clk_side| |done]; clk_next h2 Hh2; clear h Hh
  end.
Ltac clk_test :=
  match goal with
  | Hh : is_clk ?h _ |- wp (_ ≫= _) _ ?h =>
      let v := fresh "v" in let h2 := fresh "h" in let Hh2 := fresh "Hh" in let Hv := fresh "Hv" in
      apply wp_bind, (wp_read_cr _ _ _ RCC_CR_HSERDY eq_refl Hh); [clk_side|];
      intros v h2 Hh2 Hv; rewrite Hv; clear h Hh;
      match goal with |- context [if ?b then _ else _] =>
        let x := eval vm_compute in b in change b with x; cbv iota end
  end.
(** A poll loop on RCC_CR or on RCC_CFGR. *)
Ltac clk_poll :=
  match goal with
  | Hh : is_clk ?h _ |- wp (poll_until ?reg _ _) _ ?h =>
      let h2 := fresh "h" in let Hh2 := fresh "Hh" in
      match reg with
      | RCC_CR => eapply wp_poll_cr; [clk_side|exact Hh|clk_side|clk_side|clk_next h2 Hh2]
      | RCC_CFGR => eapply wp_poll_until; [clk_side|exact Hh|clk_side|clk_side|clk_next h2 Hh2]
      end; clear h Hh
  end.

Lemma wp_SetSysClock_ok (Q : unit -> H -> Prop) h cal :
  is_clk h (after_reset cal (Some HSE_VALUE)) ->
  (forall h', is_clk h' (running_72 cal) -> Q tt h') ->
  wp SetSysClock Q h.
Proof.
  intros Hh HQ. unfold SetSysClock, SetSysClockTo72, after_reset in *.
  clk_run. clk_hse. clk_test. do 9 clk_run. apply wp_bind. clk_poll.
  do 3 clk_run. apply wp_bind. clk_poll. do 2 clk_run. clk_poll. by apply HQ.
Qed.

Lemma wp_SetSysClock_failed (Q : unit -> H -> Prop) h cal :
  is_clk h (after_reset cal None) ->
  (forall h', is_clk h' (hse_failed cal) -> Q tt h') ->
  wp SetSysClock Q h.
Proof.
  intros Hh HQ. unfold SetSysClock, SetSysClockTo72, after_reset in *.
  clk_run. apply wp_bind. eapply (wp_hse_startup _ _ _ Hh0); [clk_side| |done].
  intros _. clk_next h1 Hh1. clk_test. apply wp_ret. by apply HQ.
Qed.

(** SystemInit and premain first bring the tree back to its reset state. *)
Lemma wp_SystemInit (Q : unit -> H -> Prop) h cal hse f :
  is_clk h (after_reset cal hse) ->
  (forall h', is_clk h' (after_reset cal hse) ->
     forall R : unit -> H -> Prop, (forall h2, is_clk h2 f -> R tt h2) -> wp SetSysClock R h') ->
  (forall h', is_clk h' f -> Q tt h') ->
  wp SystemInit Q h.
Proof.
  intros Hh Hset HQ. unfold SystemInit. unfold after_reset in Hh. do 8 clk_run.
  apply wp_bind, Hset; [done|]. intros h2 Hh2. by apply (wp_wr_other _ _ _ _ _ _ Hh2).
Qed.

(** Steps of statements that run beside the global variable. *)
Ltac clk_lift :=
  match goal with
  | Hh : is_clk ?h _ |- wp (lift _ ≫= _) _ (_, ?h) =>
      let h2 := fresh "h" in let Hh2 := fresh "Hh" in
      apply wp_bind, wp_lift; clk_step Hh h2 Hh2; clear h Hh
  end.

Lemma wp_ResetRcc (Q : unit -> H -> Prop) h cal hse :
  is_clk h (after_reset cal hse) -> (forall h', is_clk h' (after_reset cal hse) -> Q tt h') ->
  wp ResetRcc Q h.
Proof.
  intros Hh HQ. unfold ResetRcc. unfold after_reset in Hh. do 6 clk_run.
  eapply wp_wr_clk; [eassumption|clk_side|]. clk_next h1 Hh1. by apply HQ.
Qed.

Ltac clk_lift_hse :=
  match goal with
  | Hh : is_clk ?h _ |- wp (lift _ ≫= _) _ (_, ?h) =>
      let st := fresh "st" in let Hst := fresh "Hst" in
      let h2 := fresh "h" in let Hh2 := fresh "Hh" in let h3 := fresh "h" in
      apply wp_bind, wp_lift; eapply (wp_premain_hse _ _ _ Hh); [clk_side| |done];
      cbn [hse_up]; intros st h3 Hst; revert h3; clk_next h2 Hh2; clear h Hh; rewrite Hst; cbn [negb]
  end.
Ltac clk_lift_poll :=
  match goal with |- wp (lift _ ≫= _) _ (_, _) => apply wp_bind, wp_lift; clk_poll end.

Lemma wp_HsePllConfig_ok (Q : unit -> Z * H -> Prop) g h cal :
  is_clk h (after_reset cal (Some HSE_VALUE)) ->
  (forall h', is_clk h' (running_72 cal) -> Q tt (CORE_CLK, h')) ->
  wp HsePllConfig Q (g, h).
Proof.
  intros Hh HQ. unfold HsePllConfig, after_reset in *.
  clk_lift. clk_lift_hse. do 5 clk_lift. clk_lift_poll. do 3 clk_lift. clk_lift_poll.
  do 2 clk_lift. clk_lift_poll. by apply wp_setg, HQ.
Qed.

Lemma wp_HsePllConfig_failed (Q : unit -> Z * H -> Prop) g h cal :
  is_clk h (after_reset cal None) ->
  (forall h', is_clk h' (hse_failed cal) -> Q tt (HSI_VALUE, h')) ->
  wp HsePllConfig Q (g, h).
Proof.
  intros Hh HQ. unfold HsePllConfig, after_reset in *. clk_lift.
  apply wp_bind, wp_lift. eapply wp_premain_hse; [eassumption|clk_side| |done].
  intros _ h1 Hh1. by apply wp_setg, HQ.
Qed.

(** The tree on the crystal itself. *)
Definition running_hse (cal : Z) : clk :=
  Clk 0x00010081 1 0 0x1A 0x00010001 1 0 cal (Some HSE_VALUE).

Lemma wp_HseConfig_ok (Q : unit -> Z * H -> Prop) g h cal :
  is_clk h (after_reset cal (Some HSE_VALUE)) ->
  (forall h', is_clk h' (running_hse cal) -> Q tt (HSE_VALUE, h')) ->
  wp HseConfig Q (g, h).
Proof.
  intros Hh HQ. unfold HseConfig, after_reset in *.
  clk_lift. clk_lift_hse. do 3 clk_lift. clk_lift_poll. by apply wp_setg, HQ.
Qed.
End runs.

(** * The frequencies that the code computes *)

(** Fields of the registers, as the manual numbers them. *)
Definition pllmul_field (f : clk) : Z := Z.shiftr (Z.land (ck_cfgr f) 0x003C0000) 18.
Definition pll2mul_field (f : clk) : Z := Z.shiftr (Z.land (ck_cfgr2 f) 0xF00) 8.
Definition hpre_field (f : clk) : Z := Z.shiftr (Z.land (ck_cfgr f) 0xF0) 4.
Definition ppre1_field (f : clk) : Z := Z.shiftr (Z.land (ck_cfgr f) 0x700) 8.
Definition ppre2_field (f : clk) : Z := Z.shiftr (Z.land (ck_cfgr f) 0x3800) 11.
Definition adcpre_field (f : clk) : Z := Z.shiftr (Z.land (ck_cfgr f) 0xC000) 14.
(** The divisors, as exponents of two: HPRE below 8 and PPRE below 4 do not
    divide, and HPRE skips 32. *)
Definition hpre_shift (x : Z) : Z := if x <? 8 then 0 else if x <? 12 then x - 7 else x - 6.
Definition ppre_shift (x : Z) : Z := if x <? 4 then 0 else x - 3.
(** What the code computes for the PLL, and for the system clock. *)
Definition code_pll (f : clk) : Z :=
  let mul := if pllmul_field f =? 13 then 6 else pllmul_field f + 2 in
  if Z.testbit (ck_cfgr f) 16 then
    if Z.testbit (ck_cfgr2 f) 16 then
      u32 (u32 (HSE_VALUE / prediv2 f * (pll2mul_field f + 2)) / prediv1 f * mul)
    else u32 (HSE_VALUE / prediv1 f * mul)
  else u32 (4000000 * mul).
Definition code_sysclk (f : clk) : Z :=
  if ck_sws f =? 0 then HSI_VALUE else if ck_sws f =? 1 then HSE_VALUE else code_pll f.
(** Register contents of a chip: SWS is kept apart, and is 0, 1 or 2. *)
Definition clk_wf (f : clk) : Prop :=
  Z.land (ck_cfgr f) 0xC = 0 /\ (ck_sws f = 0 \/ ck_sws f = 1 \/ ck_sws f = 2).

Lemma land_nonneg x m : 0 <= m -> 0 <= Z.land x m.
Proof. intros Hm. apply Z.land_nonneg. auto. Qed.

(** The fields are seen through SWS. *)
Lemma cfgr_field f mask : clk_wf f -> Z.land 0xC mask = 0 ->
  Z.land (cfgr_value f) mask = Z.land (ck_cfgr f) mask.
Proof.
  intros [_ Hs] Hm. unfold cfgr_value. rewrite Z.land_lor_distr_l.
  assert (Z.land (Z.shiftl (ck_sws f) 2) mask = 0) as ->; [|apply Z.lor_0_r].
  assert (Z.shiftl (ck_sws f) 2 = Z.land (Z.shiftl (ck_sws f) 2) 0xC) as ->
    by (by destruct Hs as [-> | [-> | ->]]).
  by rewrite <- Z.land_assoc, Hm, Z.land_0_r.
Qed.

Lemma cfgr_sws f : clk_wf f -> Z.land (cfgr_value f) 0xC = 4 * ck_sws f.
Proof.
  intros [Hc Hs]. unfold cfgr_value. rewrite Z.land_lor_distr_l, Hc.
  by destruct Hs as [-> | [-> | ->]].
Qed.

Lemma field_bound x w s : 0 <= s -> 0 <= w ->
  0 <= Z.shiftr (Z.land x (Z.shiftl (Z.ones w) s)) s < 2 ^ w.
Proof.
  intros Hs Hw. rewrite Z.shiftr_land, Z.shiftr_shiftl_l, Z.sub_diag, Z.shiftl_0_r by done.
  rewrite Z.land_ones by done. apply Z.mod_pos_bound. lia.
Qed.

Lemma wp_index_nth {S} (l : list Z) i (Q : Z -> S -> Prop) s :
  0 <= i < Z.of_nat (length l) -> Q (nth (Z.to_nat i) l 0) s -> wp (index l i) Q s.
Proof.
  intros Hi HQ. eapply wp_index; [lia| |exact HQ].
  rewrite nth_lookup. destruct (lookup_lt_is_Some_2 l (Z.to_nat i)) as [x Hx]; [lia|].
  by rewrite Hx.
Qed.

(** The lookup of the code in its common prescaler table agrees with the manual
    but for the HPRE values 4 to 7. *)
Lemma presc_hpre x : 0 <= x < 2 ^ 4 -> ~ 4 <= x < 8 -> nth (Z.to_nat x) APBAHBPrescTable 0 = hpre_shift x.
Proof.
  intros Hx Hn.
  assert (Hc : x = 0 \/ x = 1 \/ x = 2 \/ x = 3 \/ x = 8 \/ x = 9
      \/ x = 10 \/ x = 11 \/ x = 12 \/ x = 13 \/ x = 14 \/ x = 15) by lia.
  by repeat (destruct Hc as [-> | Hc]; [done|]); subst.
Qed.

Lemma presc_ppre x : 0 <= x < 2 ^ 3 -> nth (Z.to_nat x) APBAHBPrescTable 0 = ppre_shift x.
Proof.
  intros Hx.
  assert (Hc : x = 0 \/ x = 1 \/ x = 2 \/ x = 3 \/ x = 4 \/ x = 5 \/ x = 6 \/ x = 7) by lia.
  by repeat (destruct Hc as [-> | Hc]; [done|]); subst.
Qed.

Lemma presc_adc x : 0 <= x < 2 ^ 2 -> nth (Z.to_nat x) ADCPrescTable 0 = 2 * (x + 1).
Proof.
  intros Hx. assert (Hc : x = 0 \/ x = 1 \/ x = 2 \/ x = 3) by lia.
  by repeat (destruct Hc as [-> | Hc]; [done|]); subst.
Qed.

(** The record of RCC_GetClocksFreq. *)
Definition code_clocks (f : clk) : RCC_ClocksTypeDef :=
  let hclk := Z.shiftr (code_sysclk f) (nth (Z.to_nat (hpre_field f)) APBAHBPrescTable 0) in
  let pclk2 := Z.shiftr hclk (ppre_shift (ppre2_field f)) in
  Clocks (code_sysclk f) hclk (Z.shiftr hclk (ppre_shift (ppre1_field f))) pclk2
         (pclk2 / (2 * (adcpre_field f + 1))).

Section queries.
Context {H : Type} `{ClockBus H}.

Lemma wp_cfgr (Q : Z -> H -> Prop) h f :
  is_clk h f -> stable f -> (forall h', is_clk h' f -> Q (cfgr_value f) h') -> wp (rd32 RCC_CFGR) Q h.
Proof. intros Hh Hs HQ. by apply (wp_rd_clk _ _ _ RCC_CFGR eq_refl Hh Hs). Qed.

Lemma wp_cfgr2 (Q : Z -> H -> Prop) h f :
  is_clk h f -> stable f -> (forall h', is_clk h' f -> Q (ck_cfgr2 f) h') -> wp (rd32 RCC_CFGR2) Q h.
Proof. intros Hh Hs HQ. by apply (wp_rd_clk _ _ _ RCC_CFGR2 eq_refl Hh Hs). Qed.

Lemma wp_pll_frequency (Q : Z -> H -> Prop) h f :
  is_clk h f -> stable f -> clk_wf f ->
  (forall h', is_clk h' f -> Q (code_pll f) h') -> wp pll_frequency Q h.
Proof.
  intros Hh Hs Hw HQ. unfold pll_frequency, code_pll in *.
  apply wp_bind, (wp_cfgr _ _ _ Hh Hs). intros h1 Hh1.
  apply wp_bind, (wp_cfgr _ _ _ Hh1 Hs). intros h2 Hh2.
  rewrite !(cfgr_field f) by done. change (Z.shiftr (Z.land (ck_cfgr f) CFGR_PLLMull_Mask) 18) with (pllmul_field f).
  change CFGR_PLLSRC_Mask with (2 ^ 16). rewrite land_pow2_eqb0 by lia.
  assert ((if negb (pllmul_field f =? 0x0D) then pllmul_field f + 2 else 13 / 2)
    = if pllmul_field f =? 13 then 6 else pllmul_field f + 2) as -> by by destruct (pllmul_field f =? 13).
  destruct (Z.testbit (ck_cfgr f) 16); cbn [negb]; [|by apply wp_ret, HQ].
  apply wp_bind, (wp_cfgr2 _ _ _ Hh2 Hs). intros h3 Hh3.
  apply wp_bind, (wp_cfgr2 _ _ _ Hh3 Hs). intros h4 Hh4.
  change CFGR2_PREDIV1SRC with (2 ^ 16). rewrite land_pow2_eqb0 by lia.
  destruct (Z.testbit (ck_cfgr2 f) 16); cbn [negb]; [|by apply wp_ret, HQ].
  apply wp_bind, (wp_cfgr2 _ _ _ Hh4 Hs). intros h5 Hh5.
  apply wp_bind, (wp_cfgr2 _ _ _ Hh5 Hs). intros h6 Hh6. by apply wp_ret, HQ.
Qed.

(** The switch on SWS, shared by the two queries. *)
Lemma wp_sysclk (Q : Z -> H -> Prop) h f :
  is_clk h f -> stable f -> clk_wf f -> (forall h', is_clk h' f -> Q (code_sysclk f) h') ->
  wp (if 4 * ck_sws f =? 0x00 then mret HSI_VALUE
      else if 4 * ck_sws f =? 0x04 then mret HSE_VALUE
      else if 4 * ck_sws f =? 0x08 then pll_frequency else mret HSI_VALUE) Q h.
Proof.
  intros Hh Hs Hw HQ. unfold code_sysclk in HQ. pose proof Hw as [_ [E | [E | E]]]; rewrite E in *;
    cbn [Z.mul Z.eqb Pos.eqb Pos.mul] in *.
  - by apply wp_ret, HQ.
  - by apply wp_ret, HQ.
  - by apply (wp_pll_frequency _ _ _ Hh Hs Hw).
Qed.

(** The value of the global that SystemCoreClockUpdate leaves. *)
Lemma wp_SystemCoreClockUpdate (Q : unit -> Z * H -> Prop) g h f :
  is_clk h f -> stable f -> clk_wf f ->
  (forall h', is_clk h' f -> Q tt (Z.shiftr (code_sysclk f) (hpre_shift (hpre_field f)), h')) ->
  wp SystemCoreClockUpdate Q (g, h).
Proof.
  intros Hh Hs Hw HQ. unfold SystemCoreClockUpdate.
  change (@update_pll_clock H H0) with (@pll_frequency H H0).
  apply wp_bind, wp_lift, (wp_cfgr _ _ _ Hh Hs). intros h1 Hh1.
  change RCC_CFGR_SWS with 0xC. rewrite cfgr_sws by done.
  apply wp_bind, wp_lift, (wp_sysclk _ _ _ Hh1 Hs Hw). intros h2 Hh2. apply wp_bind, wp_setg.
  apply wp_bind, wp_lift, (wp_cfgr _ _ _ Hh2 Hs). intros h3 Hh3. rewrite cfgr_field by done.
  change (Z.shiftr (Z.land (ck_cfgr f) RCC_CFGR_HPRE) 4) with (hpre_field f).
  assert (Hb : 0 <= hpre_field f < 2 ^ 4) by by apply (field_bound _ 4 4).
  apply wp_bind, wp_index_nth; [exact Hb|]. apply wp_setg.
  assert (Hn : nth (Z.to_nat (hpre_field f)) AHBPrescTable 0 = hpre_shift (hpre_field f)).
  { generalize dependent (hpre_field f). intros x _ Hx.
    assert (Hc : x = 0 \/ x = 1 \/ x = 2 \/ x = 3 \/ x = 4 \/ x = 5 \/ x = 6 \/ x = 7 \/ x = 8 \/ x = 9
      \/ x = 10 \/ x = 11 \/ x = 12 \/ x = 13 \/ x = 14 \/ x = 15) by lia.
    by repeat (destruct Hc as [-> | Hc]; [done|]); subst. }
  rewrite Hn. by apply HQ.
Qed.

Lemma wp_RCC_GetClocksFreq (Q : RCC_ClocksTypeDef -> H -> Prop) h f :
  is_clk h f -> stable f -> clk_wf f -> (forall h', is_clk h' f -> Q (code_clocks f) h') ->
  wp RCC_GetClocksFreq Q h.
Proof.
  intros Hh Hs Hw HQ. unfold RCC_GetClocksFreq.
  apply wp_bind, (wp_cfgr _ _ _ Hh Hs). intros h1 Hh1. change CFGR_SWS_Mask with 0xC.
  rewrite cfgr_sws by done. apply wp_bind, (wp_sysclk _ _ _ Hh1 Hs Hw). intros h2 Hh2.
  apply wp_bind, (wp_cfgr _ _ _ Hh2 Hs). intros h3 Hh3. rewrite (cfgr_field f) by done.
  apply wp_bind, wp_index_nth; [by apply (field_bound _ 4 4)|].
  apply wp_bind, (wp_cfgr _ _ _ Hh3 Hs). intros h4 Hh4. rewrite (cfgr_field f) by done.
  apply wp_bind, wp_index_nth.
  { pose proof (field_bound (ck_cfgr f) 3 8 ltac:(done) ltac:(done)). cbn [length APBAHBPrescTable] in *.
    change (Z.shiftl (Z.ones 3) 8) with CFGR_PPRE1_Set_Mask in *. lia. }
  rewrite (presc_ppre (Z.shiftr (Z.land (ck_cfgr f) CFGR_PPRE1_Set_Mask) 8)) by by apply (field_bound _ 3 8).
  apply wp_bind, (wp_cfgr _ _ _ Hh4 Hs). intros h5 Hh5. rewrite (cfgr_field f) by done.
  apply wp_bind, wp_index_nth.
  { pose proof (field_bound (ck_cfgr f) 3 11 ltac:(done) ltac:(done)). cbn [length APBAHBPrescTable] in *.
    change (Z.shiftl (Z.ones 3) 11) with CFGR_PPRE2_Set_Mask in *. lia. }
  rewrite (presc_ppre (Z.shiftr (Z.land (ck_cfgr f) CFGR_PPRE2_Set_Mask) 11)) by by apply (field_bound _ 3 11).
  apply wp_bind, (wp_cfgr _ _ _ Hh5 Hs). intros h6 Hh6. rewrite (cfgr_field f) by done.
  apply wp_bind, wp_index_nth; [by apply (field_bound _ 2 14)|].
  rewrite presc_adc by by apply (field_bound _ 2 14).
  apply wp_ret. by apply HQ.
Qed.
End queries.

(** A tree whose frequency the integer arithmetic of the code hits: the crystal
    of the header, a PLL factor other than 6.5, a PLL2 factor other than 20, and
    divisions without remainder. *)
Record regular (f : clk) : Prop := {
  reg_hse : ck_hse f = Some HSE_VALUE;
  reg_mul : pllmul_field f <> 13;
  reg_mul2 : pll2mul_field f <> 15;
  reg_div2 : HSE_VALUE mod prediv2 f = 0;
  reg_div1 : (if Z.testbit (ck_cfgr2 f) 16 then HSE_VALUE / prediv2 f * (pll2mul_field f + 2) else HSE_VALUE)
               mod prediv1 f = 0
}.

Lemma prediv_bounds f : 1 <= prediv1 f <= 16 /\ 1 <= prediv2 f <= 16.
Proof.
  unfold prediv1, prediv2. pose proof (field_bound (ck_cfgr2 f) 4 4 ltac:(done) ltac:(done)) as H2.
  pose proof (field_bound (ck_cfgr2 f) 4 0 ltac:(done) ltac:(done)) as H1.
  rewrite Z.shiftl_0_r, Z.shiftr_0_r in H1. change (Z.ones 4) with 0xF in *.
  change (Z.shiftl 0xF 4) with 0xF0 in *. lia.
Qed.

Lemma mul_bounds f : 2 <= pllmul_field f + 2 <= 17 /\ 2 <= pll2mul_field f + 2 <= 17.
Proof.
  pose proof (field_bound (ck_cfgr f) 4 18 ltac:(done) ltac:(done)) as H1.
  pose proof (field_bound (ck_cfgr2 f) 4 8 ltac:(done) ltac:(done)) as H2.
  unfold pllmul_field, pll2mul_field. change (Z.shiftl (Z.ones 4) 18) with 0x003C0000 in *.
  change (Z.shiftl (Z.ones 4) 8) with 0xF00 in *. lia.
Qed.

(** A division without remainder, as an equation. *)
Lemma exact_div a b : 0 < b -> a mod b = 0 -> a / b * b = a.
Proof. intros Hb Hm. Z.div_mod_to_equations. lia. Qed.

Lemma code_pll_exact f : regular f -> fst (pll_hz f) < 2 ^ 32 * snd (pll_hz f) ->
  fst (pll_hz f) = code_pll f * snd (pll_hz f).
Proof.
  intros [Hh Hm Hm2 Hd2 Hd1] Hlt. destruct (prediv_bounds f) as [Hp1 Hp2].
  destruct (mul_bounds f) as [Hb Hb2].
  unfold pll_hz, code_pll, hse_hz in *. rewrite Hh in *.
  change (default 0 (Some HSE_VALUE)) with HSE_VALUE in *.
  assert (pll_mul2 f = 2 * (pllmul_field f + 2)) as Hmul.
  { unfold pll_mul2. fold (pllmul_field f). by rewrite (proj2 (Z.eqb_neq _ _) Hm). }
  assert (pll2_mul f = pll2mul_field f + 2) as Hmul2.
  { unfold pll2_mul. fold (pll2mul_field f). by rewrite (proj2 (Z.eqb_neq _ _) Hm2). }
  rewrite Hmul, Hmul2, (proj2 (Z.eqb_neq _ _) Hm) in *.
  set (m := pllmul_field f + 2) in *. set (m2 := pll2mul_field f + 2) in *.
  set (p1 := prediv1 f) in *. set (p2 := prediv2 f) in *.
  destruct (Z.testbit (ck_cfgr f) 16); cbn [fst snd] in *.
  - destruct (Z.testbit (ck_cfgr2 f) 16); cbn [fst snd] in *.
    + pose proof (exact_div HSE_VALUE p2 ltac:(lia) Hd2) as E2. set (q2 := HSE_VALUE / p2) in *.
      pose proof (exact_div (q2 * m2) p1 ltac:(lia) Hd1) as E1. set (q1 := q2 * m2 / p1) in *.
      assert (Hq2 : 0 <= q2 <= HSE_VALUE) by (unfold HSE_VALUE in *; nia).
      assert (u32 (q2 * m2) = q2 * m2) as ->.
      { unfold u32. apply Z.mod_small. unfold HSE_VALUE in *. nia. }
      fold q1. assert (Hq1 : 0 <= q1) by (apply Z.div_pos; nia).
      assert (Hn : HSE_VALUE * m2 * (2 * m) = q1 * m * (p2 * p1 * 2)).
      { rewrite <- E2. transitivity (2 * m * p2 * (q2 * m2)); [ring|]. rewrite <- E1. ring. }
      rewrite Hn. rewrite Hn in Hlt. f_equal. unfold u32. rewrite Z.mod_small; [done|]. nia.
    + pose proof (exact_div HSE_VALUE p1 ltac:(lia) Hd1) as E1. set (q1 := HSE_VALUE / p1) in *.
      assert (Hq1 : 0 <= q1 <= HSE_VALUE) by (unfold HSE_VALUE in *; nia).
      unfold u32. rewrite Z.mod_small by (unfold HSE_VALUE in *; nia). rewrite <- E1. ring.
  - unfold u32, HSI_VALUE. rewrite Z.mod_small by lia. lia.
Qed.

Lemma code_sysclk_exact f : clk_wf f -> regular f ->
  fst (sysclk_hz f (ck_sws f)) < 2 ^ 32 * snd (sysclk_hz f (ck_sws f)) -> runs_at f (code_sysclk f).
Proof.
  intros Hw Hr Hlt.
  unfold runs_at, sysclk_hz, code_sysclk in *. pose proof (reg_hse _ Hr) as Hhse. unfold hse_hz.
  destruct Hw as [_ [E | [E | E]]]; rewrite E in *; cbn [Z.eqb Pos.eqb fst snd] in *.
  - by rewrite Z.mul_1_r.
  - by rewrite Hhse, Z.mul_1_r.
  - by apply code_pll_exact.
Qed.

(** * The properties *)
Lemma is_clk_stable `{ClockBus H} (h : H) f : clk_of h = f -> stable f -> is_clk h f.
Proof.
  intros Hh Hs. exists 0%nat. split; [done|]. rewrite Hh, <- Hs. done.
Qed.

Lemma is_clk_start `{ClockBus H} (h : H) cal hse :
  clk_of h = after_reset cal hse -> is_clk h (after_reset cal hse).
Proof. intros Hh. by exists 0%nat. Qed.

Definition dead_crystal : board :=
  Board (reset_fpec (fun _ => 0xFF) no_wrp) 0xFFFFFFFF 0 (after_reset 0x55 None) (fun _ => 0).
Definition plain_board : board := reset_board (fun _ => 0xFF) no_wrp.

(** C18. After a reset with a working 25 MHz crystal, SystemInit terminates with
    the system clock on the PLL at exactly 72 MHz, HCLK and PCLK2 undivided and
    PCLK1 halved, with two flash wait states; every write on the way is one that
    the manual allows (no PLL is configured while it runs, the clock in use is
    never switched off, and the wait states are set before the switch). *)
Theorem SystemInit_72MHz `{ClockBus H} (cal : Z) (h : H) :
  clk_of h = after_reset cal (Some HSE_VALUE) ->
  wp SystemInit (fun _ h' =>
    runs_at (clk_of h') 72000000 /\ ck_sws (clk_of h') = 2 /\
    hpre_shift (hpre_field (clk_of h')) = 0 /\ ppre_shift (ppre2_field (clk_of h')) = 0 /\
    ppre_shift (ppre1_field (clk_of h')) = 1 /\ Z.land (ck_acr (clk_of h')) 7 = 2 /\
    is_clk h' (running_72 cal)) h.
Proof.
  intros Hh. apply (wp_SystemInit _ _ cal (Some HSE_VALUE) (running_72 cal)).
  - by apply is_clk_start.
  - intros h1 Hh1 R HR. by apply (wp_SetSysClock_ok _ _ cal).
  - intros h2 Hh2. pose proof Hh2 as (k & _ & ->). by repeat split.
Qed.

Lemma SystemInit_72MHz_witness :
  wp SystemInit (fun _ h' =>
    runs_at (clk_of h') 72000000 /\ ck_sws (clk_of h') = 2 /\
    hpre_shift (hpre_field (clk_of h')) = 0 /\ ppre_shift (ppre2_field (clk_of h')) = 0 /\
    ppre_shift (ppre1_field (clk_of h')) = 1 /\ Z.land (ck_acr (clk_of h')) 7 = 2 /\
    is_clk h' (running_72 0x55)) plain_board.
Proof. apply (SystemInit_72MHz 0x55 plain_board). done. Defined.

(** With a crystal that does not start, SystemInit gives up after the
    start-up count and leaves the chip on the 8 MHz internal oscillator. *)
Theorem SystemInit_without_crystal `{ClockBus H} (cal : Z) (h : H) :
  clk_of h = after_reset cal None ->
  wp SystemInit (fun _ h' =>
    runs_at (clk_of h') HSI_VALUE /\ ck_sws (clk_of h') = 0 /\ is_clk h' (hse_failed cal)) h.
Proof.
  intros Hh. apply (wp_SystemInit _ _ cal None (hse_failed cal)).
  - by apply is_clk_start.
  - intros h1 Hh1 R HR. by apply (wp_SetSysClock_failed _ _ cal).
  - intros h2 Hh2. pose proof Hh2 as (k & _ & ->). by repeat split.
Qed.

Lemma SystemInit_without_crystal_witness :
  wp SystemInit (fun _ h' =>
    runs_at (clk_of h') HSI_VALUE /\ ck_sws (clk_of h') = 0 /\ is_clk h' (hse_failed 0x55)) dead_crystal.
Proof. apply (SystemInit_without_crystal 0x55 dead_crystal). done. Defined.

(** premain sets the same clock as SystemInit, and its variable
    [systemCoreClock] is the frequency of the chip: 72 MHz with the crystal, the
    internal oscillator's 8 MHz without. *)
Theorem premain_clock_variable `{ClockBus H} (cal g : Z) (crystal : bool) (h : H) :
  clk_of h = after_reset cal (if crystal then Some HSE_VALUE else None) ->
  wp premain (fun _ s =>
    runs_at (clk_of (snd s)) (fst s) /\ fst s = (if crystal then CORE_CLK else HSI_VALUE) /\
    is_clk (snd s) (if crystal then running_72 cal else hse_failed cal)) (g, h).
Proof.
  intros Hh. unfold premain. apply wp_bind, wp_lift.
  apply (wp_ResetRcc _ _ cal (if crystal then Some HSE_VALUE else None)); [by apply is_clk_start|].
  intros h1 Hh1. cbn [ClockConfig]. destruct crystal.
  - apply (wp_HsePllConfig_ok _ _ _ cal Hh1). intros h2 Hh2. pose proof Hh2 as (k & _ & E).
    cbn [fst snd]. rewrite E. by repeat split.
  - apply (wp_HsePllConfig_failed _ _ _ cal Hh1). intros h2 Hh2. pose proof Hh2 as (k & _ & E).
    cbn [fst snd]. rewrite E. by repeat split.
Qed.

Lemma premain_clock_variable_witness :
  wp premain (fun _ s =>
    runs_at (clk_of (snd s)) (fst s) /\ fst s = CORE_CLK /\
    is_clk (snd s) (running_72 0x55)) (0, plain_board).
Proof. apply (premain_clock_variable 0x55 0 true plain_board). done. Defined.

(** On a settled tree with a regular set-up, RCC_GetClocksFreq returns the
    frequency of the system clock, and, unless the HPRE field is one of the
    values 4 to 7, which do not divide but which its table divides by, the
    clocks of the AHB, of the two APBs and of the ADC. *)
Theorem RCC_GetClocksFreq_exact `{ClockBus H} (f : clk) (h : H) :
  clk_of h = f -> stable f -> clk_wf f -> regular f ->
  fst (sysclk_hz f (ck_sws f)) < 2 ^ 32 * snd (sysclk_hz f (ck_sws f)) -> ~ 4 <= hpre_field f < 8 ->
  wp RCC_GetClocksFreq (fun c h' =>
    is_clk h' f /\ runs_at f (SYSCLK_Frequency c) /\
    HCLK_Frequency c = Z.shiftr (SYSCLK_Frequency c) (hpre_shift (hpre_field f)) /\
    PCLK1_Frequency c = Z.shiftr (HCLK_Frequency c) (ppre_shift (ppre1_field f)) /\
    PCLK2_Frequency c = Z.shiftr (HCLK_Frequency c) (ppre_shift (ppre2_field f)) /\
    ADCCLK_Frequency c = PCLK2_Frequency c / (2 * (adcpre_field f + 1))) h.
Proof.
  intros Hh Hs Hw Hr Hlt Hn.
  pose proof (is_clk_stable _ _ Hh Hs) as Hc.
  apply (wp_RCC_GetClocksFreq _ _ _ Hc Hs Hw). intros h' Hh'. split; [done|].
  unfold code_clocks. cbn [SYSCLK_Frequency HCLK_Frequency PCLK1_Frequency PCLK2_Frequency ADCCLK_Frequency].
  split; [by apply code_sysclk_exact|]. by rewrite presc_hpre by (done || by apply (field_bound _ 4 4)).
Qed.

Definition board_72 : board :=
  Board (reset_fpec (fun _ => 0xFF) no_wrp) 0xFFFFFFFF 0 (running_72 0x55) (fun _ => 0).

Lemma RCC_GetClocksFreq_exact_witness :
  wp RCC_GetClocksFreq (fun c h' =>
    is_clk h' (running_72 0x55) /\ runs_at (running_72 0x55) (SYSCLK_Frequency c) /\
    HCLK_Frequency c = Z.shiftr (SYSCLK_Frequency c) (hpre_shift (hpre_field (running_72 0x55))) /\
    PCLK1_Frequency c = Z.shiftr (HCLK_Frequency c) (ppre_shift (ppre1_field (running_72 0x55))) /\
    PCLK2_Frequency c = Z.shiftr (HCLK_Frequency c) (ppre_shift (ppre2_field (running_72 0x55))) /\
    ADCCLK_Frequency c = PCLK2_Frequency c / (2 * (adcpre_field (running_72 0x55) + 1))) board_72.
Proof.
  apply (RCC_GetClocksFreq_exact (running_72 0x55) board_72); try done.
  - split; [done|]. by right; right.
  - vm_compute. by intros [? ?].
Defined.

(** SystemCoreClockUpdate sets SystemCoreClock to HCLK on every settled
    tree with a regular set-up, for every value of the AHB prescaler. *)
Theorem SystemCoreClockUpdate_exact `{ClockBus H} (f : clk) (g : Z) (h : H) :
  clk_of h = f -> stable f -> clk_wf f -> regular f ->
  fst (sysclk_hz f (ck_sws f)) < 2 ^ 32 * snd (sysclk_hz f (ck_sws f)) ->
  wp SystemCoreClockUpdate (fun _ s =>
    exists sysclk, runs_at f sysclk /\ fst s = Z.shiftr sysclk (hpre_shift (hpre_field f)) /\
    is_clk (snd s) f) (g, h).
Proof.
  intros Hh Hs Hw Hr Hlt.
  pose proof (is_clk_stable _ _ Hh Hs) as Hc.
  apply (wp_SystemCoreClockUpdate _ _ _ _ Hc Hs Hw). intros h' Hh'.
  exists (code_sysclk f). split; [by apply code_sysclk_exact|done].
Qed.

Lemma SystemCoreClockUpdate_exact_witness :
  wp SystemCoreClockUpdate (fun _ s =>
    exists sysclk, runs_at (running_72 0x55) sysclk /\
    fst s = Z.shiftr sysclk (hpre_shift (hpre_field (running_72 0x55))) /\
    is_clk (snd s) (running_72 0x55)) (0, board_72).
Proof.
  apply (SystemCoreClockUpdate_exact (running_72 0x55) 0 board_72); try done.
  split; [done|]. by right; right.
Defined.

(** The four configuration bits of pin [k] of a register. *)
Definition nibble (v k : Z) : Z := Z.land (Z.shiftr v (4 * k)) 0xF.

Lemma nibble_ext v w k : (forall i, 4 * k <= i < 4 * k + 4 -> Z.testbit v i = Z.testbit w i) ->
  0 <= k -> nibble v k = nibble w k.
Proof.
  intros Hb Hk. unfold nibble. apply Z.bits_inj'. intros i Hi. change 0xF with (Z.ones 4).
  rewrite !Z.land_spec, !Z.shiftr_spec by done.
  destruct (Z.lt_ge_cases i 4); [by rewrite Hb by lia|].
  by rewrite Z.ones_spec_high, !andb_false_r by lia.
Qed.

Lemma not32_bit m i : 0 <= i < 32 -> Z.testbit (not32 m) i = negb (Z.testbit m i).
Proof.
  intros Hi. unfold not32. change (2 ^ 32 - 1) with (Z.ones 32).
  rewrite Z.lxor_spec, Z.ones_spec_low by done. unfold u32. rewrite Z.mod_pow2_bits_low by lia.
  by destruct (Z.testbit m i).
Qed.

Lemma pin_shift k : 0 <= k -> Z.shiftl k 2 = 4 * k.
Proof. intros Hk. rewrite Z.shiftl_mul_pow2 by done. lia. Qed.

(** The mask-and-or of the driver sets one pin and keeps the others. *)
Lemma set_nibble_bit r k mode i : 0 <= k < 8 -> 0 <= mode < 16 -> 0 <= i < 32 ->
  Z.testbit (set_nibble r k mode) i =
  if (4 * k <=? i) && (i <? 4 * k + 4) then Z.testbit mode (i - 4 * k) else Z.testbit r i.
Proof.
  intros Hk Hm Hi. unfold set_nibble. rewrite pin_shift by lia.
  rewrite Z.lor_spec, Z.land_spec, not32_bit by done.
  unfold u32. rewrite Z.mod_pow2_bits_low by lia. change 0x0F with (Z.ones 4).
  destruct (Z.leb_spec (4 * k) i); destruct (Z.ltb_spec i (4 * k + 4)); cbn [andb].
  - rewrite (Z.shiftl_spec (Z.ones 4)), Z.ones_spec_low by lia. cbn [negb].
    by rewrite andb_false_r, Z.shiftl_spec by lia.
  - rewrite !Z.shiftl_spec, Z.ones_spec_high by lia. rewrite (testbit_above mode 4) by lia.
    by rewrite andb_true_r, orb_false_r.
  - rewrite !Z.shiftl_spec_low by lia. by rewrite andb_true_r, orb_false_r.
  - lia.
Qed.

Lemma nibble_set r k mode j : 0 <= k < 8 -> 0 <= mode < 16 -> 0 <= j < 8 ->
  nibble (set_nibble r k mode) j = if j =? k then mode else nibble r j.
Proof.
  intros Hk Hm Hj. destruct (Z.eqb_spec j k) as [->|Hne].
  - unfold nibble. apply Z.bits_inj'. intros i Hi. change 0xF with (Z.ones 4).
    rewrite Z.land_spec, Z.shiftr_spec by done. destruct (Z.lt_ge_cases i 4).
    + rewrite Z.ones_spec_low, andb_true_r, set_nibble_bit by lia.
      rewrite (proj2 (Z.leb_le _ _)), (proj2 (Z.ltb_lt _ _)) by lia. cbn [andb]. f_equal. lia.
    + rewrite Z.ones_spec_high, andb_false_r by lia. by rewrite (testbit_above mode 4) by lia.
  - apply nibble_ext; [|lia]. intros i Hi. rewrite set_nibble_bit by lia.
    destruct (Z.leb_spec (4 * k) i), (Z.ltb_spec i (4 * k + 4)); (done || lia).
Qed.

Lemma pin_selected pin n : 0 <= n -> (Z.land pin (Z.shiftl 1 n) =? Z.shiftl 1 n) = Z.testbit pin n.
Proof.
  intros Hn. rewrite Z.shiftl_1_l, land_pow2 by done. pose proof (Z.pow_pos_nonneg 2 n ltac:(lia) Hn).
  destruct (Z.testbit pin n); [apply Z.eqb_refl|apply Z.eqb_neq; lia].
Qed.

Section gpio.
Context {H : Type} `{PortBus H}.

(** A port of the driver's users. *)
Definition port (p : Z) : Prop := In p [GPIOA; GPIOB; GPIOC; GPIOD; GPIOE].

Lemma port_config p : port p -> gpio_config (p + CRL) = true /\ gpio_config (p + CRH) = true.
Proof. intros Hp. repeat destruct Hp as [<- | Hp]; done. Qed.

Lemma port_data p : port p -> gpio_data (p + BSRR) = true /\ gpio_data (p + BRR) = true.
Proof. intros Hp. repeat destruct Hp as [<- | Hp]; done. Qed.

(** The configuration registers of two states agree. *)
Definition same_config (h h' : H) : Prop := forall a, gpio_config a = true -> port_of h' a = port_of h a.

Lemma wp_select_pull (Q : unit -> H -> Prop) p mode bit h :
  port p -> (forall h', same_config h h' -> Q tt h') -> wp (select_pull p mode bit) Q h.
Proof.
  intros Hp HQ. destruct (port_data p Hp) as [Hs Hr]. unfold select_pull.
  repeat case_match; [| |by apply wp_ret, HQ]; apply wp_wr, HQ; intros a Ha; by apply port_write_data.
Qed.

(** The pin loop on one register. *)
Lemma wp_gpio_init_reg (Q : unit -> H -> Prop) p s reg first h :
  port p -> gpio_config (p + reg) = true -> 0 <= first -> 0 <= currentmode s < 16 ->
  (forall h', (forall a, gpio_config a = true -> a <> p + reg -> port_of h' a = port_of h a) ->
     (forall k, 0 <= k < 8 -> nibble (port_of h' (p + reg)) k =
        if Z.testbit (gpio_pin s) (k + first) then currentmode s else nibble (port_of h (p + reg)) k) ->
     Q tt h') ->
  wp (gpio_init_reg p s reg first) Q h.
Proof.
  intros Hp Hreg Hfirst Hm HQ. unfold gpio_init_reg. apply wp_bind, wp_rd.
  rewrite port_read_value by done. set (h1 := snd _). set (old := port_of h (p + reg)).
  assert (Hold : forall a, port_of h1 a = port_of h a) by (intros; apply port_read_state).
  apply wp_bind.
  apply (wp_loop (fun r h' => same_config h h' /\ 0 <= fst r <= 8 /\
      forall k, 0 <= k < 8 -> nibble (snd r) k =
        if (k <? fst r) && Z.testbit (gpio_pin s) (k + first) then currentmode s else nibble old k)
    (fun r _ => 8 - fst r)).
  - split; [intros a _; apply H1|]. cbn [fst snd]. split; [lia|]. intros k Hk.
    by rewrite (proj2 (Z.ltb_ge k 0)) by lia.
  - cbn [fst]. lia.
  - intros [pinpos tmpreg] h2 (Hsame & Hpos & Hnib) _. cbn [fst snd] in *. unfold gpio_init_body.
    destruct (Z.ltb_spec pinpos 8) as [Hlt|Hge].
    + rewrite pin_selected by lia. destruct (Z.testbit (gpio_pin s) (pinpos + first)) eqn:Hsel.
      * apply wp_bind, wp_select_pull; [done|]. intros h3 Hsame3. apply wp_ret. cbn [fst snd].
        split; [|lia]. split; [intros a Ha; rewrite Hsame3 by done; by apply Hsame|]. split; [lia|].
        intros k Hk. rewrite nibble_set by lia. destruct (Z.eqb_spec k pinpos) as [->|Hne].
        -- rewrite (proj2 (Z.ltb_lt _ _)) by lia. by rewrite Hsel.
        -- rewrite Hnib by done. destruct (Z.ltb_spec k pinpos), (Z.ltb_spec k (pinpos + 1)); (done || lia).
      * apply wp_ret. cbn [fst snd]. split; [|lia]. split; [done|]. split; [lia|].
        intros k Hk. rewrite Hnib by done. destruct (Z.eq_dec k pinpos) as [->|Hne].
        -- by rewrite Hsel, !andb_false_r.
        -- destruct (Z.ltb_spec k pinpos), (Z.ltb_spec k (pinpos + 1)); (done || lia).
    + apply wp_ret, wp_wr, HQ.
      * intros a Ha Hne. rewrite port_write_config by done.
        rewrite (proj2 (Z.eqb_neq _ _)) by done. by apply Hsame.
      * intros k Hk. rewrite port_write_config, Z.eqb_refl by done. rewrite Hnib by done.
        by rewrite (proj2 (Z.ltb_lt k pinpos)) by lia.
Qed.
End gpio.

(** The configuration bits of pin [n] of a port. *)
Definition pin_config `{PortBus H} (h : H) (p n : Z) : Z :=
  if n <? 8 then nibble (port_of h (p + CRL)) n else nibble (port_of h (p + CRH)) (n - 8).

(** GPIO_Init gives every selected pin of a port the mode and speed of the
    structure and leaves the configuration of the other pins alone. *)
Theorem GPIO_Init_configures_pins `{PortBus H} (p : Z) (s : GPIO_InitTypeDef) (h : H) :
  port p -> 0 <= gpio_pin s < 2 ^ 16 -> 0 <= currentmode s < 16 ->
  wp (GPIO_Init p s) (fun _ h' => forall n, 0 <= n < 16 ->
    pin_config h' p n = if Z.testbit (gpio_pin s) n then currentmode s else pin_config h p n) h.
Proof.
  intros Hp Hpin Hm. destruct (port_config p Hp) as [Hl Hh]. unfold GPIO_Init.
  assert (Hne : p + CRL <> p + CRH) by (unfold CRL, CRH; lia).
  assert (Hlow : wp (if negb (Z.land (gpio_pin s) 0x00FF =? 0) then gpio_init_reg p s CRL 0 else mret tt)
    (fun _ h' => port_of h' (p + CRH) = port_of h (p + CRH) /\
       forall k, 0 <= k < 8 -> nibble (port_of h' (p + CRL)) k =
         if Z.testbit (gpio_pin s) k then currentmode s else nibble (port_of h (p + CRL)) k) h).
  { destruct (Z.eqb_spec (Z.land (gpio_pin s) 0x00FF) 0) as [Hz|_]; cbn [negb].
    - apply wp_ret. split; [done|]. intros k Hk. change 0x00FF with (Z.ones 8) in Hz.
      apply (f_equal (fun z => Z.testbit z k)) in Hz.
      rewrite Z.land_spec, Z.ones_spec_low, andb_true_r, Z.bits_0 in Hz by lia. by rewrite Hz.
    - apply (wp_gpio_init_reg _ _ _ _ _ _ Hp Hl); [done|done|]. intros h' Ho Hn.
      split; [by apply Ho|]. intros k Hk. rewrite Hn by done. by rewrite Z.add_0_r. }
  apply wp_bind. eapply wp_mono; [exact Hlow|]. intros _ h1 [Hcrh Hcrl].
  destruct (Z.ltb_spec 0x00FF (gpio_pin s)) as [Hbig|Hsmall].
  - apply (wp_gpio_init_reg _ _ _ _ _ _ Hp Hh); [done|done|]. intros h2 Ho Hn n Hrange.
    unfold pin_config. destruct (Z.ltb_spec n 8).
    + rewrite Ho by done. apply Hcrl; lia.
    + rewrite Hn by lia. replace (n - 8 + 8) with n by lia. by rewrite Hcrh.
  - apply wp_ret. intros n Hrange. unfold pin_config. destruct (Z.ltb_spec n 8); [apply Hcrl; lia|].
    by rewrite (testbit_above (gpio_pin s) 8), Hcrh by lia.
Qed.

(** The LED pin of the bootloader: PB15, push-pull at 50 MHz. *)
Definition led_pin : GPIO_InitTypeDef := GpioInit (GPIO_Pin 15) GPIO_Speed_50MHz GPIO_Mode_Out_PP.
Definition gpio_board : board := reset_board (fun _ => 0xFF) no_wrp.

Lemma GPIO_Init_configures_pins_witness :
  wp (GPIO_Init GPIOB led_pin) (fun _ h' => forall n, 0 <= n < 16 ->
    pin_config h' GPIOB n = if Z.testbit (gpio_pin led_pin) n then currentmode led_pin
                            else pin_config gpio_board GPIOB n) gpio_board.
Proof. apply (GPIO_Init_configures_pins GPIOB led_pin gpio_board); [by right; left|done|done]. Defined.
