(* ===== verification/Updater.v ===== *)
(** The updater firmware's protocol handler: updater_mcu/src/updater.c and
    updater_mcu/src/defs.h.  The host sends "upd", then a header, the image in
    chunks, and the commands "crc", "del" and "reb". *)
From S2P Require Import Prelude Mmio Fpec FlashDriver Misc Crc.

(** * Constants *)
Definition UPD_COMMAND_SIZE : Z := 3.
Definition HEADER_SIZE : Z := 16.
Definition NEW_CORE_START_ADDRESS : Z := 0x08010000.
Definition STM32F107_LAST_PAGE_ADDR : Z := 0x0803F800.
Definition STM32F107_PAGE_SIZE : Z := 0x800.

(** [erro_t] *)
Definition ALL_OK : Z := 0.
Definition FLASH_WRITE_ERR : Z := 1.
Definition FLASH_ERASE_ERR : Z := 2.
Definition UPDATER_UNREC_CMD : Z := 3.
Definition GENERAL_ERROR : Z := 4.

(** The globals of updater.c, the two static locals of handle_upd_packet, and
    whether a system reset was requested (NVIC_SystemReset does not return). *)
Record upd : Type := Upd {
  g_upd : Z; errno : Z; crc_val : Z;
  addr : Z; total_core_size : Z;
  reset_requested : bool
}.
Definition upd_init : upd :=
  Upd 0 0 0 (NEW_CORE_START_ADDRESS + HEADER_SIZE) HEADER_SIZE false.
Definition set_g_upd (v : Z) (g : upd) : upd :=
  Upd v (errno g) (crc_val g) (addr g) (total_core_size g) (reset_requested g).
Definition set_errno (v : Z) (g : upd) : upd :=
  Upd (g_upd g) v (crc_val g) (addr g) (total_core_size g) (reset_requested g).
Definition set_crc_val (v : Z) (g : upd) : upd :=
  Upd (g_upd g) (errno g) v (addr g) (total_core_size g) (reset_requested g).
Definition set_progress (a t : Z) (g : upd) : upd :=
  Upd (g_upd g) (errno g) (crc_val g) a t (reset_requested g).
Definition set_reset (b : bool) (g : upd) : upd :=
  Upd (g_upd g) (errno g) (crc_val g) (addr g) (total_core_size g) b.

(** SCB->AIRCR = VECTKEY | PRIGROUP | SYSRESETREQ (NVIC_SystemReset, core_cm3.h). *)
Definition SYSRESETREQ : Z := 0x4.

Section updater.
Context {H : Type} `{Bus H}.

(** [buf[0] == a && buf[1] == b && buf[2] == c], with C's short circuit. *)
Definition buf_is (buf : list Z) (a b c : Z) : M (upd * H) bool :=
  b0 ← index buf 0;
  if b0 =? a then
    b1 ← index buf 1;
    if b1 =? b then b2 ← index buf 2; mret (b2 =? c) else mret false
  else mret false.

(** [*((uint32_t * )&buf[i])]: the four bytes have to be in the array. *)
Definition load32 (buf : list Z) (i : Z) : M (upd * H) Z :=
  b0 ← index buf i; b1 ← index buf (i + 1); b2 ← index buf (i + 2); b3 ← index buf (i + 3);
  mret (b0 + 2 ^ 8 * b1 + 2 ^ 16 * (b2 + 2 ^ 8 * b3)).

Definition check_upd_request (buf : list Z) (count : Z) : M (upd * H) Z :=
  is_upd ← buf_is buf 0x75 0x70 0x64;
  if (is_upd : bool) then
    if count =? 3 then
      _ ← setg (set_g_upd 1);
      _ ← lift FLASH_Unlock;
      mret 1
    else mret 0
  else mret 0.

(** The word loop of write_header and write_core_chunk. *)
Definition write_words_body (buf : list Z) (count base i : Z) : M (upd * H) (Z + Z) :=
  if i <? count then
    w ← load32 buf i;
    st ← lift (FLASH_ProgramWord (u32 (base + i)) w);
    if bool_decide (st <> FLASH_COMPLETE) then
      _ ← setg (set_errno FLASH_WRITE_ERR); mret (inr GENERAL_ERROR)
    else mret (inl (i + 4))
  else mret (inr ALL_OK).

Definition write_header (buf : list Z) : M (upd * H) Z :=
  loop 5 (write_words_body buf HEADER_SIZE NEW_CORE_START_ADDRESS) 0.

Definition write_core_chunk (buf : list Z) (count addr : Z) : M (upd * H) Z :=
  loop (Z.to_pos (count + 1)) (write_words_body buf count addr) 0.

Definition NVIC_SystemReset : M (upd * H) unit :=
  aircr ← lift (rd32 SCB_AIRCR);
  _ ← lift (wr32 SCB_AIRCR (Z.lor (Z.lor 0x05FA0000 (Z.land aircr 0x700)) SYSRESETREQ));
  setg (set_reset true).

Definition upd_finished : M (upd * H) unit :=
  _ ← lift FLASH_Lock;
  NVIC_SystemReset.

Definition erase_sector_body (pages_amount : Z) (r : Z * Z) : M H (Z * Z + Z) :=
  let '(i, addr) := r in
  if i <? pages_amount then
    st ← FLASH_ErasePage addr;
    if bool_decide (st <> FLASH_COMPLETE) then mret (inr 2)
    else mret (inl (u8 (i + 1), u32 (addr + STM32F107_PAGE_SIZE)))
  else mret (inr 0).

Definition erase_sector (start_page_addr pages_amount : Z) : M H Z :=
  let last_addr := u32 (start_page_addr + pages_amount * STM32F107_PAGE_SIZE) in
  if STM32F107_LAST_PAGE_ADDR <? last_addr then mret 1
  else loop (Z.to_pos (pages_amount + 1)) (erase_sector_body pages_amount)
            (0, start_page_addr).

Definition upd_calc_crc (core_size : Z) : M (upd * H) Z :=
  ret_val ← lift (CRC_CalcBlockCRC NEW_CORE_START_ADDRESS core_size);
  st ← lift (FLASH_ProgramWord (u32 (NEW_CORE_START_ADDRESS + core_size)) ret_val);
  if bool_decide (st <> FLASH_COMPLETE) then
    _ ← setg (set_errno FLASH_WRITE_ERR); mret 0xFFFFFFFF
  else mret ret_val.

(** After a reset request the function never returns: [None]. *)
Definition handle_upd_packet (buf : list Z) (count : Z) : M (upd * H) (option Z) :=
  if count =? HEADER_SIZE then
    is_ver ← buf_is buf 0x76 0x65 0x72;
    if (is_ver : bool) then r ← write_header buf; mret (Some r)
    else mret (Some UPDATER_UNREC_CMD)
  else if count =? UPD_COMMAND_SIZE then
    is_del ← buf_is buf 0x64 0x65 0x6C;
    if (is_del : bool) then
      total ← getg total_core_size;
      let pages_amount := u8 (total / 2048) in
      let pages_amount := if pages_amount <? 1 then 1 else pages_amount in
      r ← lift (erase_sector NEW_CORE_START_ADDRESS pages_amount);
      mret (Some r)
    else
      is_crc ← buf_is buf 0x63 0x72 0x63;
      if (is_crc : bool) then
        total ← getg total_core_size;
        v ← upd_calc_crc total;
        _ ← setg (set_crc_val v);
        mret (Some ALL_OK)
      else
        is_reb ← buf_is buf 0x72 0x65 0x62;
        if (is_reb : bool) then _ ← upd_finished; mret None
        else mret (Some UPDATER_UNREC_CMD)
  else
    a ← getg addr;
    r ← write_core_chunk buf count a;
    if r =? ALL_OK then
      t ← getg total_core_size;
      _ ← setg (set_progress (u32 (a + count)) (u32 (t + count)));
      mret (Some r)
    else mret (Some r).
End updater.
