(* ===== verification/UpdaterSpec.v ===== *)
(** What the protocol handler of the updater does to the flash: lemmas on the
    word loop, on each command, and on whole sessions. *)
From S2P Require Import Prelude Mmio Fpec FlashDriver FlashSpec MemFacts Misc Crc.
From S2P Require Import Bootloader BootloaderSpec CrcSpec Updater.

(** * The word loop *)
Section words.
Context {H : Type} `{FpecBus H}.
Implicit Types (g : upd) (h : H).

Lemma wp_buf_index (Q : Z -> upd * H -> Prop) l i s :
  0 <= i < len l -> Q (buf_mem l i) s -> wp (index l i) Q s.
Proof. intros Hi HQ. eapply wp_index; [lia|by apply lookup_buf_mem|done]. Qed.

Lemma wp_load32 (Q : Z -> upd * H -> Prop) l i s :
  0 <= i -> i + 4 <= len l -> Q (le32 (buf_mem l) i) s -> wp (load32 l i) Q s.
Proof.
  intros Hi Hl HQ. unfold load32. do 4 (apply wp_bind, wp_buf_index; [lia|]).
  apply wp_ret. revert HQ. unfold le32, le16. by replace (i + 2 + 1) with (i + 3) by lia.
Qed.

Definition starts (l : list Z) (a b c : Z) : bool :=
  (buf_mem l 0 =? a) && (buf_mem l 1 =? b) && (buf_mem l 2 =? c).

Lemma wp_buf_is (Q : bool -> upd * H -> Prop) l a b c s :
  3 <= len l -> Q (starts l a b c) s -> wp (buf_is l a b c) Q s.
Proof.
  intros Hl HQ. unfold buf_is, starts in *. apply wp_bind, wp_buf_index; [lia|].
  destruct (buf_mem l 0 =? a); [|by apply wp_ret].
  apply wp_bind, wp_buf_index; [lia|]. destruct (buf_mem l 1 =? b); [|by apply wp_ret].
  apply wp_bind, wp_buf_index; [lia|]. by apply wp_ret.
Qed.

(** The words that [count] bytes take, in bytes. *)
Definition up4 (count : Z) : Z := 4 * ((count + 3) / 4).
Lemma up4_bounds count : count <= up4 count < count + 4.
Proof. unfold up4. Z.div_mod_to_equations. lia. Qed.
Lemma up4_aligned count : count mod 4 = 0 -> up4 count = count.
Proof. unfold up4. intros. Z.div_mod_to_equations. lia. Qed.

(** A blank region that the loop may fill. *)
Record blank (f : fpec) (a n : Z) : Prop := {
  blank_good : good f;
  blank_even : Z.even a = true;
  blank_lo : flash_first <= a;
  blank_hi : a + n <= flash_end;
  blank_free : unprotected f a n;
  blank_erased : erased (fp_mem f) a n
}.

(** The controller after the bytes [l] were stored from [a]. *)
Definition stored (f : fpec) (a : Z) (l : list Z) (f' : fpec) : Prop :=
  good f' /\ fp_wrp f' = fp_wrp f /\ forall x, fp_mem f' x = write_bytes a l (fp_mem f) x.

Lemma wp_write_step (Q : (Z + Z) -> upd * H -> Prop) l count base i g h f :
  byte_list l -> blank f base (up4 count) -> 0 <= i < count -> i mod 4 = 0 -> up4 count <= len l ->
  stored f base (take (Z.to_nat i) l) (fpec_of h) ->
  (forall h', stored f base (take (Z.to_nat (i + 4)) l) (fpec_of h') -> Q (inl (i + 4)) (g, h')) ->
  wp (write_words_body l count base i) Q (g, h).
Proof.
  intros Hl [_ Hev Hlo Hhi Hfree Her] Hi Hi4 Hlen (Hg & Hw & Hm) HQ.
  pose proof (up4_bounds count) as Hup.
  assert (Hi4' : i + 4 <= up4 count) by (unfold up4 in *; Z.div_mod_to_equations; lia).
  unfold write_words_body. rewrite (proj2 (Z.ltb_lt _ _)) by lia.
  apply wp_bind, wp_load32; [lia|lia|].
  unfold flash_first, flash_end in *.
  assert (u32 (base + i) = base + i) as -> by (unfold u32; apply Z.mod_small; lia).
  assert (Hu : unprotected (fpec_of h) (base + i) 4).
  { intros x Hx. rewrite Hw. apply Hfree. lia. }
  assert (He : erased (fp_mem (fpec_of h)) (base + i) 4).
  { intros x Hx. rewrite Hm, write_bytes_out; [apply Her; lia|right].
    unfold len. rewrite length_take. lia. }
  destruct (word_op_erased (base + i) (le32 (buf_mem l) i) _ Hg Hu He) as (Hg2 & Hw2 & Hm2).
  apply wp_bind, wp_lift, (wp_ProgramWord_ready _ _ _ _ _ eq_refl); [apply Hg|apply Hg|..].
  1,2: apply in_flash_range; unfold flash_first, flash_end; lia.
  { rewrite Z.even_add, Hev. apply Z.mod_divide in Hi4 as [q ->]; [|lia].
    by rewrite Z.even_mul, orb_true_r. }
  intros h2 Hh2. rewrite good_status, bool_decide_eq_false_2 by auto.
  apply wp_ret, HQ. rewrite Hh2. split; [done|]. split; [congruence|]. intros x.
  rewrite Hm2, <- write_bytes_step by (done || lia). unfold set32. case_match; [done|]. apply Hm.
Qed.

Lemma wp_write_words (Q : Z -> upd * H -> Prop) fuel l count base g h f :
  fpec_of h = f -> byte_list l -> blank f base (up4 count) -> 0 <= count -> up4 count <= len l ->
  count < 4 * (Z.pos fuel - 1) + 1 ->
  (forall h', stored f base (take (Z.to_nat (up4 count)) l) (fpec_of h') -> Q ALL_OK (g, h')) ->
  wp (loop fuel (write_words_body l count base) 0) Q (g, h).
Proof.
  intros Hf Hl Hbl Hc Hlen Hfuel HQ. pose proof (up4_bounds count) as Hup.
  apply (wp_loop (fun i s => exists h', s = (g, h') /\ i mod 4 = 0 /\ 0 <= i <= up4 count /\
                    stored f base (take (Z.to_nat i) l) (fpec_of h'))
                 (fun i _ => (up4 count - i) / 4)).
  - exists h. rewrite Hf. repeat split; try (done || lia || apply Hbl).
    intros x. by rewrite write_bytes_nil.
  - unfold up4 in *. Z.div_mod_to_equations. lia.
  - intros i s (h' & -> & Hi4 & Hi & Hst) _. destruct (Z.lt_ge_cases i count) as [Hlt|Hge].
    + apply (wp_write_step _ _ _ _ _ _ _ f); [done|done|lia|done|done|done|].
      intros h2 Hst2. split.
      * exists h2. repeat split; try (done || lia || apply Hst2);
          unfold up4 in *; Z.div_mod_to_equations; lia.
      * unfold up4 in *; Z.div_mod_to_equations; lia.
    + assert (i = up4 count) as -> by (unfold up4 in *; Z.div_mod_to_equations; lia).
      unfold write_words_body. rewrite (proj2 (Z.ltb_ge _ _)) by lia. by apply wp_ret, HQ.
Qed.

(** With an error flag pending the first word is refused. *)
Lemma wp_write_words_error (Q : Z -> upd * H -> Prop) fuel l count base g h f :
  fpec_of h = f -> ready f -> ~ no_error f -> 0 < count -> 4 <= len l ->
  (forall h', fpec_of h' = f -> Q GENERAL_ERROR (set_errno FLASH_WRITE_ERR g, h')) ->
  wp (loop fuel (write_words_body l count base) 0) Q (g, h).
Proof.
  intros Hf Hr Hne Hc Hlen HQ.
  apply (wp_loop (fun i s => i = 0 /\ exists h', s = (g, h') /\ fpec_of h' = f) (fun _ _ => 0));
    [by eauto|lia|].
  intros i s (-> & h' & -> & Hh') _. unfold write_words_body. rewrite (proj2 (Z.ltb_lt _ _)) by lia.
  apply wp_bind, wp_load32; [lia|lia|].
  apply wp_bind, wp_lift, (wp_ProgramWord_error _ _ _ _ _ Hh' Hr Hne). intros h2 Hh2.
  rewrite bool_decide_eq_true_2 by (apply status_error; [done|apply Hr]).
  apply wp_bind, wp_setg, wp_ret. by apply HQ.
Qed.
End words.

(** * The commands *)
Section commands.
Context {H : Type} `{FpecBus H}.
Implicit Types (g : upd) (h : H).

Lemma wp_check_upd_request (Q : Z -> upd * H -> Prop) l count g h f :
  fpec_of h = f -> 3 <= len l -> fp_key f = KLocked -> fp_busy f = 0%nat ->
  (forall h', if starts l 0x75 0x70 0x64 && (count =? 3)
     then fpec_of h' = with_key KUnlocked f -> Q 1 (set_g_upd 1 g, h')
     else fpec_of h' = f -> Q 0 (g, h')) ->
  wp (check_upd_request l count) Q (g, h).
Proof.
  intros Hf Hl Hk Hb HQ. unfold check_upd_request. apply wp_bind, wp_buf_is; [done|].
  destruct (starts l 0x75 0x70 0x64); cbn [andb] in HQ; [|by apply wp_ret, HQ].
  destruct (count =? 3); [|by apply wp_ret, HQ].
  apply wp_bind, wp_setg. apply wp_bind, wp_lift, (wp_Unlock _ _ f Hf Hk Hb).
  intros h' Hh'. by apply wp_ret, HQ.
Qed.

Lemma wp_handle_header (Q : option Z -> upd * H -> Prop) l g h f :
  fpec_of h = f -> byte_list l -> 16 <= len l -> starts l 0x76 0x65 0x72 = true ->
  blank f NEW_CORE_START_ADDRESS 16 ->
  (forall h', stored f NEW_CORE_START_ADDRESS (take 16 l) (fpec_of h') ->
     Q (Some ALL_OK) (g, h')) ->
  wp (handle_upd_packet l 16) Q (g, h).
Proof.
  intros Hf Hl Hlen Hv Hbl HQ. unfold handle_upd_packet. cbn [Z.eqb HEADER_SIZE Pos.eqb].
  apply wp_bind, wp_buf_is; [lia|]. rewrite Hv. apply wp_bind.
  apply (wp_write_words _ _ _ _ _ _ _ f); [done|done|done|done|done|done|].
  intros h' Hst. by apply wp_ret, HQ.
Qed.

Lemma chunk_size count : count <> 16 -> count <> 3 ->
  (count =? HEADER_SIZE) = false /\ (count =? UPD_COMMAND_SIZE) = false.
Proof. intros E1 E2. by split; apply Z.eqb_neq. Qed.

Lemma wp_handle_chunk (Q : option Z -> upd * H -> Prop) l count g h f :
  fpec_of h = f -> byte_list l -> 0 <= count -> count <> 16 -> count <> 3 ->
  up4 count <= len l -> blank f (addr g) (up4 count) ->
  (forall h', stored f (addr g) (take (Z.to_nat (up4 count)) l) (fpec_of h') ->
     Q (Some ALL_OK)
       (set_progress (u32 (addr g + count)) (u32 (total_core_size g + count)) g, h')) ->
  wp (handle_upd_packet l count) Q (g, h).
Proof.
  intros Hf Hl Hc H16 H3 Hlen Hbl HQ. unfold handle_upd_packet.
  destruct (chunk_size _ H16 H3) as [-> ->].
  apply wp_bind, wp_getg. apply wp_bind.
  apply (wp_write_words _ _ _ _ _ _ _ f); [done|done|done|done|done|lia|].
  intros h' Hst. cbn [Z.eqb ALL_OK]. apply wp_bind, wp_getg. apply wp_bind, wp_setg, wp_ret.
  by apply HQ.
Qed.

Lemma wp_handle_del (Q : option Z -> upd * H -> Prop) l g h f :
  fpec_of h = f -> 3 <= len l -> starts l 0x64 0x65 0x6C = true ->
  let n := Z.max 1 (u8 (total_core_size g / 2048)) in
  fits NEW_CORE_START_ADDRESS n -> good f ->
  unprotected f NEW_CORE_START_ADDRESS (n * page_size) ->
  (forall h', erased_from f NEW_CORE_START_ADDRESS (n * page_size) (fpec_of h') ->
     Q (Some 0) (g, h')) ->
  wp (handle_upd_packet l 3) Q (g, h).
Proof.
  intros Hf Hl Hd n Hfit Hg Hu HQ. unfold handle_upd_packet. cbn [Z.eqb HEADER_SIZE Pos.eqb UPD_COMMAND_SIZE].
  apply wp_bind, wp_buf_is; [done|]. rewrite Hd. apply wp_bind, wp_getg.
  assert ((if u8 (total_core_size g / 2048) <? 1 then 1 else u8 (total_core_size g / 2048)) = n) as ->.
  { subst n. destruct (Z.ltb_spec (u8 (total_core_size g / 2048)) 1); lia. }
  apply wp_bind, wp_lift. change (@erase_sector H H0) with (@Bootloader.erase_sector H H0).
  apply (wp_erase_sector _ _ _ _ _ Hfit Hf Hg Hu). intros h' He. by apply wp_ret, HQ.
Qed.

Lemma wp_upd_finished (Q : unit -> upd * H -> Prop) g h f :
  fpec_of h = f -> ready f ->
  (forall h', fpec_of h' = with_key KLocked f -> Q tt (set_reset true g, h')) ->
  wp upd_finished Q (g, h).
Proof.
  intros Hf Hr HQ. unfold upd_finished, NVIC_SystemReset.
  apply wp_bind, wp_lift, (wp_Lock _ _ _ Hf Hr). intros h1 Hh1.
  apply wp_bind, wp_lift.
  apply (wp_quiet _ _ _ _ (quiet_rd W32 SCB_AIRCR eq_refl) Hh1). intros v h2 Hh2.
  apply wp_bind, wp_lift.
  apply (wp_quiet _ _ _ _ (quiet_wr W32 SCB_AIRCR _ eq_refl) Hh2). intros _ h3 Hh3.
  by apply wp_setg, HQ.
Qed.

Lemma wp_handle_reb (Q : option Z -> upd * H -> Prop) l g h f :
  fpec_of h = f -> 3 <= len l -> starts l 0x72 0x65 0x62 = true -> ready f ->
  (forall h', fpec_of h' = with_key KLocked f -> Q None (set_reset true g, h')) ->
  wp (handle_upd_packet l 3) Q (g, h).
Proof.
  intros Hf Hl Hd Hr HQ. unfold handle_upd_packet. cbn [Z.eqb HEADER_SIZE Pos.eqb UPD_COMMAND_SIZE].
  assert (Hb0 : (buf_mem l 0 =? 0x64) = false /\ (buf_mem l 0 =? 0x63) = false).
  { unfold starts in Hd. destruct (Z.eqb_spec (buf_mem l 0) 0x72) as [->|]; done. }
  destruct Hb0 as [Hb1 Hb2].
  apply wp_bind, wp_buf_is; [done|]. unfold starts at 1. rewrite Hb1. cbn [andb].
  apply wp_bind, wp_buf_is; [done|]. unfold starts at 1. rewrite Hb2. cbn [andb].
  apply wp_bind, wp_buf_is; [done|]. rewrite Hd.
  apply wp_bind, (wp_upd_finished _ _ _ _ Hf Hr). intros h' Hh'. by apply wp_ret, HQ.
Qed.
End commands.

(** ** The CRC command *)
Section crc_command.
Context {H : Type} `{FpecBus H} `{!CrcBus H}.
Implicit Types (g : upd) (h : H).

Lemma blank_word f a : blank f a 4 -> in_flash a = true /\ in_flash (a + 2) = true /\ u32 a = a.
Proof.
  intros [_ _ Hlo Hhi _ _]. unfold flash_first, flash_end in *.
  split; [|split]; [apply in_flash_range..|unfold u32; apply Z.mod_small];
    unfold flash_first, flash_end; lia.
Qed.

(** The word loop of upd_calc_crc takes the size in bytes for a number of
    words. *)
Definition command_crc (f : fpec) (n : nat) (h : H) : Z :=
  crc_answer h (flash_words (fp_mem f) NEW_CORE_START_ADDRESS n).

Lemma wp_handle_crc (Q : option Z -> upd * H -> Prop) l g h f n :
  fpec_of h = f -> 3 <= len l -> starts l 0x63 0x72 0x63 = true ->
  total_core_size g = Z.of_nat n -> NEW_CORE_START_ADDRESS + 4 * Z.of_nat n <= flash_end ->
  blank f (NEW_CORE_START_ADDRESS + total_core_size g) 4 ->
  (forall h', let v := command_crc f n h in
     good (fpec_of h') -> fp_wrp (fpec_of h') = fp_wrp f ->
     (forall x, fp_mem (fpec_of h') x =
        set32 (NEW_CORE_START_ADDRESS + total_core_size g) v (fp_mem f) x) ->
     crc_on h' = crc_on h -> Q (Some ALL_OK) (set_crc_val v g, h')) ->
  wp (handle_upd_packet l 3) Q (g, h).
Proof.
  intros Hf Hl Hd Hn Hfit Hbl HQ. unfold handle_upd_packet. cbn [Z.eqb HEADER_SIZE Pos.eqb UPD_COMMAND_SIZE].
  assert (Hb0 : (buf_mem l 0 =? 0x64) = false).
  { unfold starts in Hd. destruct (Z.eqb_spec (buf_mem l 0) 0x63) as [->|]; done. }
  apply wp_bind, wp_buf_is; [done|]. unfold starts at 1. rewrite Hb0. cbn [andb].
  apply wp_bind, wp_buf_is; [done|]. rewrite Hd. apply wp_bind, wp_getg. rewrite Hn in *.
  destruct (blank_word _ _ Hbl) as (Hi & Hi2 & Hu). destruct Hbl as [[Hr Hne] Hev _ Hend Hfree Her].
  unfold upd_calc_crc. apply wp_bind, wp_bind, wp_lift, (wp_CRC_CalcBlockCRC _ _ _ _ _ Hf);
    [apply Hr|done|done|]. intros h1 Hh1 Ho1. rewrite Hu.
  fold (command_crc f n h). set (v := command_crc f n h) in *.
  destruct (word_op_erased (NEW_CORE_START_ADDRESS + Z.of_nat n) v f (conj Hr Hne) Hfree Her)
    as (Hg2 & Hw2 & Hm2).
  apply wp_bind, wp_lift. eapply wp_mono.
  { apply (wp_hoare _ (crc_clock (crc_on h)) (fun st h2 => st = FLASH_COMPLETE /\ fpec_of h2 = program_word_op (NEW_CORE_START_ADDRESS + Z.of_nat n) v f) (fun _ h2 => crc_clock (crc_on h) h2) _ Ho1).
    - apply keeps_clock_program. assert (0 <= NEW_CORE_START_ADDRESS) by done. lia.
    - apply (wp_ProgramWord_ready _ _ _ _ _ Hh1 Hr Hne Hi Hi2 Hev). intros h2 Hh2. by rewrite good_status. }
  intros st h2 [[-> Hh2] Ho2]. rewrite bool_decide_eq_false_2 by auto.
  apply wp_ret. apply wp_bind, wp_setg, wp_ret. apply HQ; rewrite ?Hh2; done.
Qed.
End crc_command.

(** * After an error *)
Section sticky.
Context {H : Type} `{FpecBus H} `{!CrcBus H}.
Implicit Types (g : upd) (h : H).

(** A controller with an error flag pending. *)
Definition stuck (f : fpec) : Prop := ready f /\ ~ no_error f.

Lemma stuck_status f : stuck f -> bool_decide (status_of f <> FLASH_COMPLETE) = true.
Proof. intros [Hr Hne]. apply bool_decide_eq_true_2, status_error; [done|apply Hr]. Qed.

Lemma wp_erase_sector_stuck (Q : Z -> H -> Prop) h f start n :
  fpec_of h = f -> stuck f -> 0 < n ->
  (forall r h', r = 1 \/ r = 2 -> fpec_of h' = f -> Q r h') ->
  wp (erase_sector start n) Q h.
Proof.
  intros Hf Hs Hn HQ. unfold erase_sector. case_match; [apply wp_ret, HQ; auto|].
  apply (wp_loop (fun r h' => r = (0, start) /\ fpec_of h' = f) (fun _ _ => 0)); [done|lia|].
  intros r h' [-> Hh'] _. unfold erase_sector_body. rewrite (proj2 (Z.ltb_lt _ _)) by done.
  apply wp_bind, (wp_ErasePage_error _ _ f); [done|apply Hs..|]. intros h2 Hh2.
  rewrite (stuck_status _ Hs). apply wp_ret, HQ; auto.
Qed.

(** The CRC loop reads the flash and what follows it. *)
Lemma wp_crc_block_reads (Q : unit -> H -> Prop) h f a n :
  fpec_of h = f -> fp_busy f = 0%nat -> flash_first <= a -> a mod 4 = 0 -> a + 4 * n <= 0x1FFF0000 ->
  0 <= n -> (forall h', fpec_of h' = f -> Q tt h') ->
  wp (loop (Z.to_pos (n + 1)) (crc_block_body a n) 0) Q h.
Proof.
  intros Hf Hb Hlo Hal Hhi Hn HQ. unfold flash_first in *.
  apply (wp_loop (fun i h' => 0 <= i <= n /\ fpec_of h' = f) (fun i _ => n - i)); [done|lia|].
  intros i h1 [Hi Hh1] _. unfold crc_block_body. destruct (Z.ltb_spec i n); [|by apply wp_ret, HQ].
  assert (u32 (a + 4 * i) = a + 4 * i) as -> by (unfold u32; apply Z.mod_small; lia).
  apply wp_bind.
  assert (Hrd : wp (rd32 (a + 4 * i)) (fun _ h' => fpec_of h' = f) h1).
  { destruct (Z.lt_ge_cases (a + 4 * i) flash_end) as [Hin|Hout].
    - apply (wp_rd_mem _ _ _ _ _ Hh1 Hb); [apply in_flash_range..|done]; cbn [width_bytes];
        unfold flash_first, flash_end in *; Z.div_mod_to_equations; lia.
    - apply wp_rd. rewrite fpec_read_frame; [done|]. unfold fpec_owns, in_flash, flash_first, flash_end in *.
      unfold FLASH_R_BASE. intervals; (done || lia). }
  eapply wp_mono; [exact Hrd|]. intros v h2 Hh2. cbn in Hh2.
  apply wp_bind, wp_wr, wp_ret. split; [|lia]. split; [lia|].
  by rewrite fpec_write_frame.
Qed.

(** A packet that the handler can read: its buffer holds the words it takes. *)
Definition readable (p : list Z * Z) : Prop :=
  3 <= len (fst p) /\ (snd p <> 3 -> up4 (snd p) <= len (fst p)) /\ 0 <= snd p.

Lemma stuck_ready f : stuck f -> ready f.
Proof. by intros []. Qed.

(** What a packet does to a controller with an error pending: nothing, but that
    "reb" locks it. *)
Definition stuck_post g (f : fpec) (r : option Z) (s : upd * H) : Prop :=
  total_core_size (fst s) = total_core_size g /\
  match r with
  | Some _ => fpec_of (snd s) = f
  | None => fpec_of (snd s) = with_key KLocked f
  end.

Lemma wp_stuck_header l g h f :
  fpec_of h = f -> stuck f -> 16 <= len l -> wp (handle_upd_packet l 16) (stuck_post g f) (g, h).
Proof.
  intros Hf Hs Hl. unfold handle_upd_packet. cbn [Z.eqb HEADER_SIZE Pos.eqb].
  apply wp_bind, wp_buf_is; [lia|]. case_match; [|by apply wp_ret].
  apply wp_bind, (wp_write_words_error _ _ _ _ _ _ _ f); [done|apply Hs..|done|lia|].
  intros h' Hh'. by apply wp_ret.
Qed.

Lemma wp_stuck_crc g h f :
  fpec_of h = f -> stuck f -> 0 <= total_core_size g <= 0x30000 ->
  wp (upd_calc_crc (total_core_size g)) (fun v s =>
    v = 0xFFFFFFFF /\ errno (fst s) = FLASH_WRITE_ERR /\
    total_core_size (fst s) = total_core_size g /\ fpec_of (snd s) = f) (g, h).
Proof.
  intros Hf Hs Ht. unfold upd_calc_crc. apply wp_bind, wp_lift. unfold CRC_CalcBlockCRC.
  apply wp_bind, (wp_crc_block_reads _ _ f); [done|apply Hs|done|done| |lia|].
  { unfold NEW_CORE_START_ADDRESS. lia. }
  intros h1 Hh1. apply (wp_quiet _ _ _ _ (quiet_rd W32 CRC_DR eq_refl) Hh1). intros v h2 Hh2.
  apply wp_bind, wp_lift, (wp_ProgramWord_error _ _ _ _ _ Hh2); [apply Hs..|]. intros h3 Hh3.
  rewrite (stuck_status _ Hs). by apply wp_bind, wp_setg, wp_ret.
Qed.

Lemma wp_stuck_command l g h f :
  fpec_of h = f -> stuck f -> 3 <= len l -> 0 <= total_core_size g <= 0x30000 ->
  wp (handle_upd_packet l 3) (stuck_post g f) (g, h).
Proof.
  intros Hf Hs Hl Ht. unfold handle_upd_packet. cbn [Z.eqb HEADER_SIZE Pos.eqb UPD_COMMAND_SIZE].
  apply wp_bind, wp_buf_is; [done|]. case_match.
  - apply wp_bind, wp_getg. apply wp_bind, wp_lift, (wp_erase_sector_stuck _ _ f); [done|done| |].
    { destruct (Z.ltb_spec (u8 (total_core_size g / 2048)) 1); lia. }
    intros r h' _ Hh'. by apply wp_ret.
  - apply wp_bind, wp_buf_is; [done|]. case_match.
    + apply wp_bind, wp_getg. apply wp_bind. eapply wp_mono; [by apply wp_stuck_crc|].
      intros v [g' h'] (_ & _ & Ht' & Hf'). by apply wp_bind, wp_setg, wp_ret.
    + apply wp_bind, wp_buf_is; [done|]. destruct (starts l 0x72 0x65 0x62) eqn:Hr; [|by apply wp_ret].
      apply wp_bind, (wp_upd_finished _ _ _ _ Hf (stuck_ready _ Hs)). intros h' Hh'. by apply wp_ret.
Qed.

Lemma wp_stuck_chunk l count g h f :
  fpec_of h = f -> stuck f -> readable (l, count) -> count <> 16 -> count <> 3 ->
  0 <= total_core_size g <= 0x30000 ->
  wp (handle_upd_packet l count) (stuck_post g f) (g, h).
Proof.
  intros Hf Hs (Hl & Hup & Hc) H16 H3 Ht. cbn [fst snd] in *. specialize (Hup H3). unfold handle_upd_packet.
  destruct (chunk_size _ H16 H3) as [-> ->]. apply wp_bind, wp_getg. apply wp_bind.
  pose proof (up4_bounds count). destruct (Z.eq_dec count 0) as [->|Hne].
  - apply (wp_loop (fun i s => i = 0 /\ s = (g, h)) (fun _ _ => 0)); [done|lia|].
    intros i s [-> ->] _. apply wp_ret. cbn [Z.eqb ALL_OK].
    apply wp_bind, wp_getg. apply wp_bind, wp_setg, wp_ret. split; [|done]. cbn.
    unfold u32. rewrite Z.mod_small; lia.
  - apply (wp_write_words_error _ _ _ _ _ _ _ f); [done|apply Hs..|lia| |].
    { unfold up4 in *. Z.div_mod_to_equations. lia. }
    intros h' Hh'. by apply wp_ret.
Qed.

Lemma wp_handle_stuck (Q : option Z -> upd * H -> Prop) l count g h f :
  fpec_of h = f -> stuck f -> readable (l, count) -> 0 <= total_core_size g <= 0x30000 ->
  (forall r s, stuck_post g f r s -> Q r s) ->
  wp (handle_upd_packet l count) Q (g, h).
Proof.
  intros Hf Hs Hr Ht HQ. eapply wp_mono; [|exact HQ].
  pose proof Hr as (Hl & Hup & Hc). cbn [fst snd] in *. pose proof (up4_bounds count).
  destruct (Z.eq_dec count 16) as [->|]; [apply wp_stuck_header; [done|done|apply Hup; lia]|].
  destruct (Z.eq_dec count 3) as [->|]; [by apply wp_stuck_command|].
  by apply wp_stuck_chunk.
Qed.
End sticky.

(** * Sessions *)
Section session.
Context {H : Type} `{FpecBus H} `{!CrcBus H}.
Implicit Types (g : upd) (h : H).

(** The handler on a sequence of packets, with the answers; a reset ends it. *)
Fixpoint handle_all (ps : list (list Z * Z)) : M (upd * H) (list Z) :=
  match ps with
  | [] => mret []
  | (l, count) :: ps =>
      r ← handle_upd_packet l count;
      match r with
      | None => mret []
      | Some r => rs ← handle_all ps; mret (r :: rs)
      end
  end.

(** A chunk of image data: whole words, not of a length that is taken for a
    header or a command. *)
Definition chunk (l : list Z) : Prop :=
  byte_list l /\ len l mod 4 = 0 /\ len l <> 16 /\ len l < 2 ^ 16.

(** The state of a session that began with the controller [f] and has received
    a header, when [hdr] is not empty, and the image bytes [body]. *)
Record receiving (f : fpec) (hdr body : list Z) (s : upd * H) : Prop := {
  rcv_addr : addr (fst s) = NEW_CORE_START_ADDRESS + HEADER_SIZE + len body;
  rcv_total : total_core_size (fst s) = HEADER_SIZE + len body;
  rcv_errno : errno (fst s) = 0;
  rcv_good : good (fpec_of (snd s));
  rcv_wrp : fp_wrp (fpec_of (snd s)) = fp_wrp f;
  rcv_mem : forall x, fp_mem (fpec_of (snd s)) x =
    write_bytes (NEW_CORE_START_ADDRESS + HEADER_SIZE) body
      (write_bytes NEW_CORE_START_ADDRESS hdr (fp_mem f)) x
}.

(** A blank staging area for an image of [n] bytes. *)
Definition staging_blank (f : fpec) (n : Z) : Prop :=
  blank f NEW_CORE_START_ADDRESS (HEADER_SIZE + n).

Lemma len_app l1 l2 : len (l1 ++ l2) = len l1 + len l2.
Proof. unfold len. rewrite length_app. lia. Qed.

Lemma receiving_step f hdr body l s : len hdr <= 16 ->
  staging_blank f (len (body ++ l)) -> len body mod 4 = 0 -> chunk l -> receiving f hdr body s ->
  wp (handle_upd_packet l (len l)) (fun r s' => r = Some ALL_OK /\ receiving f hdr (body ++ l) s') s.
Proof.
  destruct s as [g h]. intros Hh Hbl Hb4 (Hl & Hl4 & Hl16 & Hlt) [Ha Ht He Hg Hw Hm]. cbn [fst snd] in *.
  assert (H3 : len l <> 3) by (intros E; rewrite E in Hl4; done).
  unfold staging_blank in Hbl. rewrite len_app in Hbl. destruct Hbl as [_ _ Hlo Hhi Hfree Her].
  assert (0 <= len l /\ 0 <= len body) as [Hl0 Hb0] by (unfold len; lia).
  unfold NEW_CORE_START_ADDRESS, HEADER_SIZE, flash_first, flash_end in *.
  assert (Hbk : blank (fpec_of h) (addr g) (up4 (len l))).
  { rewrite up4_aligned, Ha by done. split; [done| | | | |]; unfold flash_first, flash_end; try lia.
    - rewrite Z.even_add. apply Z.mod_divide in Hb4 as [q ->]; [|lia]. by rewrite Z.even_mul, orb_true_r.
    - intros x Hx. rewrite Hw. apply Hfree. lia.
    - intros x Hx. rewrite Hm, !write_bytes_out by lia. apply Her. lia. }
  apply (wp_handle_chunk _ _ _ _ _ _ eq_refl Hl Hl0 Hl16 H3); [by rewrite up4_aligned|done|].
  intros h' (Hg' & Hw' & Hm'). split; [done|]. rewrite up4_aligned in Hm' by done.
  rewrite take_ge in Hm' by (unfold len; lia).
  split; cbn [fst snd set_progress addr total_core_size errno]; [| |done|done|congruence|].
  - rewrite Ha, len_app. unfold u32. rewrite Z.mod_small by lia. unfold NEW_CORE_START_ADDRESS, HEADER_SIZE; lia.
  - rewrite Ht, len_app. unfold u32. rewrite Z.mod_small by lia. unfold NEW_CORE_START_ADDRESS, HEADER_SIZE; lia.
  - intros x. rewrite Hm', write_bytes_app, Ha. apply write_bytes_ext, Hm.
Qed.

(** A sequence of chunks appends its bytes, one chunk after the other. *)
Lemma receiving_chunks f hdr ls ps (Q : list Z -> upd * H -> Prop) : forall body s, len hdr <= 16 ->
  staging_blank f (len (body ++ concat ls)) -> len body mod 4 = 0 -> Forall chunk ls ->
  receiving f hdr body s ->
  (forall s', receiving f hdr (body ++ concat ls) s' ->
     wp (handle_all ps) (fun rs => Q (replicate (length ls) ALL_OK ++ rs)) s') ->
  wp (handle_all (map (fun l => (l, len l)) ls ++ ps)) Q s.
Proof.
  revert Q. induction ls as [|l ls IH]; intros Q body s Hh Hbl Hb4 Hls Hrc HQ.
  { cbn in *. apply HQ. by rewrite app_nil_r. }
  inversion Hls as [|? ? Hl Hls']; subst. cbn [map handle_all concat length replicate app] in *.
  rewrite app_assoc in Hbl.
  assert (Hbl1 : staging_blank f (len (body ++ l))).
  { rewrite len_app in Hbl. destruct Hbl as [Hg Hev Hlo Hhi Hfree Her].
    assert (0 <= len (concat ls)) by (unfold len; lia).
    split; [done|done|done|lia| |]; intros x Hx; [apply Hfree|apply Her]; lia. }
  apply wp_bind. eapply wp_mono; [by eapply receiving_step|].
  intros r s1 [-> Hrc1]. apply wp_bind. eapply (IH _ (body ++ l)); [done|exact Hbl| |done|exact Hrc1|].
  - rewrite len_app. destruct Hl as (_ & Hl4 & _). rewrite Z.add_mod, Hb4, Hl4 by lia. done.
  - intros s2 Hrc2. eapply wp_mono; [apply HQ; by rewrite app_assoc|]. intros rs s3 HQ3. by apply wp_ret.
Qed.

(** The header of a session. *)
Lemma receiving_header f hdr s : byte_list hdr -> len hdr = 16 ->
  starts hdr 0x76 0x65 0x72 = true -> staging_blank f 0 -> receiving f [] [] s ->
  wp (handle_upd_packet hdr 16) (fun r s' => r = Some ALL_OK /\ receiving f hdr [] s') s.
Proof.
  destruct s as [g h]. intros Hl Hlen Hv Hbl [Ha Ht He Hg Hw Hm]. cbn [fst snd] in *.
  apply (wp_handle_header _ _ _ _ _ eq_refl Hl); [lia|done| |].
  - destruct Hbl as [_ Hev Hlo Hhi Hfree Her]. split; [done|done|done|done| |].
    + intros x Hx. rewrite Hw. by apply Hfree.
    + intros x Hx. rewrite Hm, write_bytes_nil, write_bytes_nil. by apply Her.
  - intros h' (Hg' & Hw' & Hm'). split; [done|]. rewrite take_ge in Hm' by (unfold len in Hlen; lia).
    split; cbn [fst snd]; [done|done|done|done|congruence|]. intros x.
    rewrite Hm', write_bytes_nil. apply write_bytes_ext. by rewrite Hm, !write_bytes_nil.
Qed.
End session.
