(* ===== verification/UpdaterTheorems.v ===== *)
(** The properties of the updater's protocol handler, and of an update from the
    first packet to the first run of the new firmware. *)
From S2P Require Import Prelude Mmio Fpec FlashDriver FlashSpec MemFacts Misc Rcc Gpio Crc.
From S2P Require Import ClockTree Board Bootloader BootloaderSpec BootTheorems CrcSpec.
From S2P Require Import Updater UpdaterSpec.
From S2P Require SystemClock.

(** * Staged images *)

(** The flash of a session, as the bootloader reads it. *)
Definition staged (hdr body : list Z) (m : Z -> Z) : Z -> Z :=
  write_bytes (NEW_CORE_START_ADDRESS + HEADER_SIZE) body (write_bytes NEW_CORE_START_ADDRESS hdr m).

Lemma staged_header hdr body m k : len hdr = 16 -> 0 <= k < 16 ->
  staged hdr body m (NEW_CORE_START_ADDRESS + k) = buf_mem hdr k.
Proof.
  intros Hl Hk. unfold staged, HEADER_SIZE. rewrite write_bytes_out by lia.
  apply write_bytes_in. lia.
Qed.

Lemma staged_body hdr body m k : 0 <= k < len body ->
  staged hdr body m (NEW_CORE_START_ADDRESS + HEADER_SIZE + k) = buf_mem body k.
Proof. apply write_bytes_in. Qed.

Lemma staged_has_header hdr body m : len hdr = 16 ->
  has_header (staged hdr body m) = starts hdr 0x76 0x65 0x72.
Proof.
  intros Hl. unfold has_header, starts.
  change NEW_CORE_FLASH_ADDR with NEW_CORE_START_ADDRESS.
  rewrite <- (Z.add_0_r NEW_CORE_START_ADDRESS) at 1.
  by rewrite !staged_header by lia.
Qed.

Lemma staged_header_size hdr body m : len hdr = 16 ->
  header_size (staged hdr body m) = le32 (buf_mem hdr) 12.
Proof.
  intros Hl. apply le32_shift. intros k Hk. change NEW_CORE_FLASH_ADDR with NEW_CORE_START_ADDRESS.
  rewrite <- Z.add_assoc. apply staged_header; lia.
Qed.

Lemma bytes_write a l m : byte_list l -> bytes m -> bytes (write_bytes a l m).
Proof.
  intros Hl Hm x. unfold write_bytes. case_match; [|apply Hm].
  destruct (l !! Z.to_nat (x - a)) as [b|] eqn:E; [|apply Hm]. cbn.
  by eapply (Forall_lookup_1 _ _ _ _ Hl).
Qed.

Lemma chunks_bytes ls : Forall chunk ls -> byte_list (concat ls).
Proof. induction 1 as [|l ls [Hl _] _ IH]; [by constructor|]. by apply Forall_app_2. Qed.

(** * Witness material *)
Definition hdr_bytes (n : Z) : list Z :=
  [0x76; 0x65; 0x72; 0x2E; 0x30; 0x31; 0x30; 0x31; 0x32; 0x30; 0x31; 0x39] ++ map (byte_of n) [0; 1; 2; 3].
Definition demo_header : list Z := Eval vm_compute in hdr_bytes 3.
(** An image of three words in two chunks. *)
Definition demo_chunks : list (list Z) :=
  [[0x00; 0x00; 0x01; 0x20; 0x01; 0x41; 0x00; 0x08]; [0xFE; 0xE7; 0xFE; 0xE7]].
Definition blank_board : board := reset_board no_image no_wrp.
Definition unlocked_blank : board := unlocked_board no_image no_wrp.

Lemma no_image_blank a n : 0x08005000 <= a -> Z.even a = true -> a + n <= flash_end ->
  blank (fpec_of unlocked_blank) a n.
Proof.
  intros Ha He Hn. split; [by repeat split|done|unfold flash_first; lia|done|done|].
  intros x Hx. cbn. unfold no_image, words_at, set32, CURRENT_CORE_FLASH_ADDR. cbn.
  intervals; (done || lia).
Qed.

Lemma demo_chunks_ok : Forall chunk demo_chunks.
Proof. repeat constructor; done. Qed.
Lemma demo_header_ok : byte_list demo_header.
Proof. repeat constructor; done. Qed.

(** * The properties *)

(** C3. A session that sends a header and an image in chunks of whole words
    (none of a length that is taken for a header or a command) stages it: every
    packet is answered ALL_OK, the staging area holds the header and, from
    offset 16, the concatenation of the chunks, the rest of the flash is as it
    was, and the two counters of the handler are the next address and the size
    staged so far. *)
Theorem session_stages_image `{FpecBus H} `{!CrcBus H} (hdr : list Z) (ls : list (list Z)) (h : H) :
  staging_blank (fpec_of h) (len (concat ls)) -> byte_list hdr -> len hdr = 16 ->
  starts hdr 0x76 0x65 0x72 = true -> Forall chunk ls ->
  wp (handle_all ((hdr, 16) :: map (fun l => (l, len l)) ls))
     (fun r s => r = replicate (S (length ls)) ALL_OK /\
        addr (fst s) = NEW_CORE_START_ADDRESS + 16 + len (concat ls) /\
        total_core_size (fst s) = 16 + len (concat ls) /\ good (fpec_of (snd s)) /\
        forall x, fp_mem (fpec_of (snd s)) x = staged hdr (concat ls) (fp_mem (fpec_of h)) x)
     (upd_init, h).
Proof.
  intros Hbl Hh Hlen Hv Hls. cbn [handle_all].
  assert (Hr0 : receiving (fpec_of h) [] [] (upd_init, h)).
  { split; try done; [apply Hbl|]. intros x. by rewrite !write_bytes_nil. }
  assert (Hbl0 : staging_blank (fpec_of h) 0).
  { destruct Hbl as [Hg Hev Hlo Hhi Hfree Her]. assert (0 <= len (concat ls)) by (unfold len; lia).
    split; [done|done|done|lia| |]; intros x Hx; [apply Hfree|apply Her]; lia. }
  apply wp_bind. eapply wp_mono; [by apply (receiving_header (fpec_of h))|].
  intros r s1 [-> Hr1]. apply wp_bind. rewrite <- (app_nil_r (map _ ls)).
  eapply (receiving_chunks (fpec_of h) hdr ls [] _ []); [lia|exact Hbl|done|done|exact Hr1|].
  intros s2 [Ha Ht _ Hg _ Hm]. apply wp_ret, wp_ret. rewrite app_nil_r. cbn [app] in *.
  split; [done|]. split; [by rewrite Ha|]. split; [by rewrite Ht|]. split; [done|exact Hm].
Qed.

Lemma session_stages_image_witness :
  wp (handle_all ((demo_header, 16) :: map (fun l => (l, len l)) demo_chunks))
     (fun r s => r = [ALL_OK; ALL_OK; ALL_OK] /\
        addr (fst s) = NEW_CORE_START_ADDRESS + 16 + len (concat demo_chunks) /\
        total_core_size (fst s) = 16 + len (concat demo_chunks) /\ good (fpec_of (snd s)) /\
        forall x, fp_mem (fpec_of (snd s)) x =
          staged demo_header (concat demo_chunks) (fp_mem (fpec_of unlocked_blank)) x)
     (upd_init, unlocked_blank).
Proof.
  apply (session_stages_image demo_header demo_chunks unlocked_blank);
    [by apply no_image_blank|apply demo_header_ok|done|done|apply demo_chunks_ok].
Defined.

(** A session on a chip after a reset, up to the reboot command. *)
Lemma wp_session `{FpecBus H} `{!CrcBus H} (Q : list Z -> upd * H -> Prop) req reb hdr ls h :
  at_reset (fpec_of h) ->
  starts req 0x75 0x70 0x64 = true -> len req = 3 -> starts reb 0x72 0x65 0x62 = true -> len reb = 3 ->
  staging_blank (with_key KUnlocked (fpec_of h)) (len (concat ls)) -> byte_list hdr -> len hdr = 16 ->
  starts hdr 0x76 0x65 0x72 = true -> Forall chunk ls ->
  (forall rs s, reset_requested (fst s) = true -> at_reset (fpec_of (snd s)) ->
     fp_wrp (fpec_of (snd s)) = fp_wrp (fpec_of h) ->
     (forall x, fp_mem (fpec_of (snd s)) x = staged hdr (concat ls) (fp_mem (fpec_of h)) x) -> Q rs s) ->
  wp (_ ← check_upd_request req 3; handle_all ((hdr, 16) :: map (fun l => (l, len l)) ls ++ [(reb, 3)]))
     Q (upd_init, h).
Proof.
  intros Hr Hu Hul Hre Hrel Hbl Hh Hlen Hv Hls HQ.
  apply wp_bind, (wp_check_upd_request _ _ _ _ _ _ eq_refl); [lia|apply Hr|apply Hr|].
  intros h1. rewrite Hu. cbn [andb Z.eqb Pos.eqb]. intros Hh1.
  assert (Hbl0 : staging_blank (with_key KUnlocked (fpec_of h)) 0).
  { destruct Hbl as [Hg Hev Hlo Hhi Hfree Her]. assert (0 <= len (concat ls)) by (unfold len; lia).
    split; [done|done|done|lia| |]; intros x Hx; [apply Hfree|apply Her]; lia. }
  assert (Hr0 : receiving (with_key KUnlocked (fpec_of h)) [] [] (set_g_upd 1 upd_init, h1)).
  { split; cbn [fst snd]; rewrite ?Hh1; try done; [apply Hbl|]. intros x. by rewrite !write_bytes_nil. }
  cbn [handle_all]. apply wp_bind. eapply wp_mono; [by apply (receiving_header (with_key KUnlocked (fpec_of h)))|].
  intros r s1 [-> Hr1]. apply wp_bind.
  eapply (receiving_chunks _ hdr ls _ _ []); [lia|exact Hbl|done|done|exact Hr1|].
  intros [g2 h2] [_ _ _ Hg2 Hw2 Hm2]. cbn [handle_all fst snd] in *. apply wp_bind.
  apply (wp_handle_reb _ _ _ _ _ eq_refl); [lia|done|apply Hg2|]. intros h3 Hh3.
  apply wp_ret, wp_ret, HQ; cbn [fst snd]; rewrite ?Hh3; [done| |done|exact Hm2].
  destruct Hg2 as [[Hk Hb Hc Hs] Hne]. by split.
Qed.

(** The bootloader on a staged image. *)
Lemma wp_boot_staged `{FpecBus H} hdr body m (g : boot) (h : H) :
  at_reset (fpec_of h) -> bytes m -> byte_list hdr -> byte_list body -> len hdr = 16 ->
  starts hdr 0x76 0x65 0x72 = true -> Bootloader.errno g = 0 ->
  2 <= le32 (buf_mem hdr) 12 -> 4 * le32 (buf_mem hdr) 12 <= len body -> len body <= 8 * page_size ->
  app_unprotected (fp_wrp (fpec_of h)) -> staging_unprotected (fp_wrp (fpec_of h)) ->
  (forall x, fp_mem (fpec_of h) x = staged hdr body m x) ->
  wp (main 0) (fun r '(_, h') =>
     r = JumpTo (le32 (buf_mem body) 4) /\
     forall k, 0 <= k < 4 * le32 (buf_mem hdr) 12 ->
       fp_mem (fpec_of h') (CURRENT_CORE_FLASH_ADDR + k) = buf_mem body k) (g, h).
Proof.
  intros Hr Hb Hh Hbody Hlen Hv He Hn2 Hn4 Hn8 Hwa Hws Hm.
  assert (Hbm : bytes (fp_mem (fpec_of h))).
  { intros x. rewrite Hm. unfold staged. apply bytes_write; [done|]. by apply bytes_write. }
  assert (Hhd : has_header (fp_mem (fpec_of h)) = true).
  { by rewrite (has_header_ext _ _ Hm), staged_has_header. }
  assert (Hsz : header_size (fp_mem (fpec_of h)) = le32 (buf_mem hdr) 12).
  { rewrite <- (staged_header_size hdr body m) by done. apply le32_ext. intros. apply Hm. }
  assert (Hw : forall k, 0 <= k < len body ->
    fp_mem (fpec_of h) (NEW_CORE_FLASH_ADDR + CORE_HEADER_SIZE + k) = buf_mem body k).
  { intros k Hk. rewrite Hm. by apply staged_body. }
  apply (wp_main_install _ _ _ _ Hr eq_refl Hbm He Hhd); rewrite ?Hsz; [lia|lia|done|done|].
  intros g' h' _ _ _ Hm' _. split.
  - f_equal. apply le32_shift. intros k Hk. rewrite <- Z.add_assoc. apply Hw. lia.
  - intros k Hk. rewrite Hm'. unfold installed, copied, erase_range at 1. rewrite Hsz.
    intervals; layout; try lia. rewrite <- Hw by lia. f_equal. layout. lia.
Qed.

(** C1. An update from end to end, when everything goes well.  A reset chip whose
    staging area is erased takes the request "upd", a header with a size of [n]
    words, the image in chunks and the command "reb": the handler ends in a system
    reset with the flash controller locked, and on the flash it leaves, the boot
    loader installs the image: the first [4 * n] bytes of the application area are
    the first bytes of the chunks, and the new firmware starts at its reset vector,
    the second word.  The conditions are those that the code does not check: the
    image has at least two words ([2 <= n]), the chunks are whole words, none of a
    length that is taken for a header or a command, and hold at least the [4 * n]
    bytes but at most 16 KB together; the pages of the application and of the staging
    area are not write-protected; and the loop counter of read_header, which the code
    does not initialise, happens to hold 0 ([main 0]). *)
Theorem update_then_boot `{FpecBus H} `{!CrcBus H} (req reb hdr : list Z) (ls : list (list Z)) (h : H) :
  at_reset (fpec_of h) -> bytes (fp_mem (fpec_of h)) ->
  starts req 0x75 0x70 0x64 = true -> len req = 3 -> starts reb 0x72 0x65 0x62 = true -> len reb = 3 ->
  staging_blank (with_key KUnlocked (fpec_of h)) (len (concat ls)) -> byte_list hdr -> len hdr = 16 ->
  starts hdr 0x76 0x65 0x72 = true -> Forall chunk ls ->
  2 <= le32 (buf_mem hdr) 12 -> 4 * le32 (buf_mem hdr) 12 <= len (concat ls) ->
  len (concat ls) <= 8 * page_size ->
  app_unprotected (fp_wrp (fpec_of h)) -> staging_unprotected (fp_wrp (fpec_of h)) ->
  wp (_ ← check_upd_request req 3; handle_all ((hdr, 16) :: map (fun l => (l, len l)) ls ++ [(reb, 3)]))
     (fun _ s => reset_requested (fst s) = true /\ fp_key (fpec_of (snd s)) = KLocked /\
       forall h2 : H, at_reset (fpec_of h2) -> fp_wrp (fpec_of h2) = fp_wrp (fpec_of (snd s)) ->
        (forall x, fp_mem (fpec_of h2) x = fp_mem (fpec_of (snd s)) x) ->
        wp (main 0) (fun r '(_, h') =>
             r = JumpTo (le32 (buf_mem (concat ls)) 4) /\
             forall k, 0 <= k < 4 * le32 (buf_mem hdr) 12 ->
               fp_mem (fpec_of h') (CURRENT_CORE_FLASH_ADDR + k) = buf_mem (concat ls) k)
           (boot_init, h2)) (upd_init, h).
Proof.
  intros Hr Hb Hu Hul Hre Hrel Hbl Hh Hlen Hv Hls Hn2 Hn4 Hn8 Hwa Hws.
  apply wp_session; [done..|]. intros rs s Hrst Hrs Hw Hm.
  split; [done|]. split; [apply Hrs|]. intros h2 Hr2 Hw2 Hm2.
  apply (wp_boot_staged hdr (concat ls) (fp_mem (fpec_of h))); try done.
  - by apply chunks_bytes.
  - by rewrite Hw2, Hw.
  - by rewrite Hw2, Hw.
  - intros x. by rewrite Hm2.
Qed.

Definition upd_request : list Z := [0x75; 0x70; 0x64].
Definition reb_command : list Z := [0x72; 0x65; 0x62].

Lemma update_then_boot_witness :
  wp (_ ← check_upd_request upd_request 3;
      handle_all ((demo_header, 16) :: map (fun l => (l, len l)) demo_chunks ++ [(reb_command, 3)]))
     (fun _ s => reset_requested (fst s) = true /\ fp_key (fpec_of (snd s)) = KLocked /\
       forall h2 : board, at_reset (fpec_of h2) -> fp_wrp (fpec_of h2) = fp_wrp (fpec_of (snd s)) ->
        (forall x, fp_mem (fpec_of h2) x = fp_mem (fpec_of (snd s)) x) ->
        wp (main 0) (fun r '(_, h') =>
             r = JumpTo (le32 (buf_mem (concat demo_chunks)) 4) /\
             forall k, 0 <= k < 4 * le32 (buf_mem demo_header) 12 ->
               fp_mem (fpec_of h') (CURRENT_CORE_FLASH_ADDR + k) = buf_mem (concat demo_chunks) k)
           (boot_init, h2)) (upd_init, blank_board).
Proof.
  apply (update_then_boot upd_request reb_command demo_header demo_chunks blank_board);
    [apply at_reset_fpec|by apply bytes_words_at, bytes_blank|done|done|done|done
    |by apply no_image_blank|apply demo_header_ok|done|done|apply demo_chunks_ok
    |vm_compute; done|vm_compute; done|vm_compute; done|done|done].
Defined.

(** C4. Nothing clears the error flags of the controller, so one failed flash
    operation ends an update: from then on no sequence of readable packets
    changes the flash memory, not even "del", and the size counter stays. *)
Theorem flash_error_is_sticky `{FpecBus H} `{!CrcBus H} (ps : list (list Z * Z)) (g : upd) (h : H) :
  ready (fpec_of h) -> ~ no_error (fpec_of h) -> Forall readable ps ->
  0 <= total_core_size g <= 0x30000 ->
  wp (handle_all ps) (fun _ s =>
     fp_mem (fpec_of (snd s)) = fp_mem (fpec_of h) /\ ~ no_error (fpec_of (snd s)) /\
     total_core_size (fst s) = total_core_size g) (g, h).
Proof.
  intros Hr Hne Hps. revert g h Hr Hne. induction Hps as [|[l count] ps Hp _ IH]; intros g h Hr Hne Ht.
  { by apply wp_ret. }
  cbn [handle_all]. apply wp_bind, (wp_handle_stuck _ _ _ _ _ _ eq_refl (conj Hr Hne) Hp Ht).
  intros r [g' h'] [Ht' Hpost]. cbn [fst snd] in *. destruct r as [r|].
  - apply wp_bind. rewrite <- Hpost in *. eapply wp_mono; [apply IH; [done|done|by rewrite Ht']|].
    intros rs s (Hm & Hn & Hts). apply wp_ret. by rewrite Hm, Hts.
  - apply wp_ret. cbn [fst snd]. by rewrite Hpost.
Qed.

(** A board whose controller holds WRPRTERR. *)
Definition stuck_board : board :=
  Board (with_err SR_WRPRTERR (with_key KUnlocked (reset_fpec no_image no_wrp))) 0xFFFFFFFF 0 reset_clk (fun _ => 0).
Definition del_command : list Z := [0x64; 0x65; 0x6C].
Definition crc_command : list Z := [0x63; 0x72; 0x63].

Lemma flash_error_is_sticky_witness :
  wp (handle_all [(del_command, 3); (demo_header, 16); (crc_command, 3)]) (fun _ s =>
     fp_mem (fpec_of (snd s)) = fp_mem (fpec_of stuck_board) /\ ~ no_error (fpec_of (snd s)) /\
     total_core_size (fst s) = total_core_size upd_init) (upd_init, stuck_board).
Proof.
  apply (flash_error_is_sticky [(del_command, 3); (demo_header, 16); (crc_command, 3)] upd_init stuck_board).
  - by split.
  - by intros [_ ?].
  - do 3 (apply Forall_cons_2; [by split_and!|]). by constructor.
  - done.
Defined.

(** A packet of the length of a header that does not start with "ver", and
    one of the length of a command that is none of the three, are answered
    UPDATER_UNREC_CMD, and nothing changes. *)
Theorem unrecognised_packet `{Bus H} (l : list Z) (count : Z) (s : upd * H) :
  3 <= len l ->
  count = HEADER_SIZE /\ starts l 0x76 0x65 0x72 = false \/
  count = UPD_COMMAND_SIZE /\ starts l 0x64 0x65 0x6C = false /\
    starts l 0x63 0x72 0x63 = false /\ starts l 0x72 0x65 0x62 = false ->
  handle_upd_packet l count s = Ret (Some UPDATER_UNREC_CMD) s.
Proof.
  intros Hl Hcase.
  assert (Hw : wp (handle_upd_packet l count) (fun r s' => r = Some UPDATER_UNREC_CMD /\ s' = s) s).
  { unfold handle_upd_packet. destruct Hcase as [[-> Hv] | (-> & Hd & Hc & Hr)];
      cbn [Z.eqb HEADER_SIZE Pos.eqb UPD_COMMAND_SIZE].
    - apply wp_bind, wp_buf_is; [done|]. rewrite Hv. by apply wp_ret.
    - apply wp_bind, wp_buf_is; [done|]. rewrite Hd. apply wp_bind, wp_buf_is; [done|]. rewrite Hc.
      apply wp_bind, wp_buf_is; [done|]. rewrite Hr. by apply wp_ret. }
  unfold wp in Hw. destruct (handle_upd_packet l count s) as [r s'| |]; [|done..].
  by destruct Hw as [-> ->].
Qed.

Lemma unrecognised_packet_witness :
  handle_upd_packet upd_request 3 (upd_init, unlocked_blank) = Ret (Some UPDATER_UNREC_CMD) (upd_init, unlocked_blank).
Proof. apply (unrecognised_packet upd_request 3); [done|]. right. done. Defined.

(** The command "del" erases as many whole pages as the staged size fills,
    at least one, truncated to eight bits: the bytes of a page that is only
    partly filled stay, and the counters are not reset, so that the next chunk
    is written after the deleted image. *)
Theorem del_keeps_last_partial_page `{FpecBus H} (l : list Z) (g : upd) (h : H) :
  3 <= len l -> starts l 0x64 0x65 0x6C = true -> good (fpec_of h) ->
  page_size <= total_core_size g < 96 * page_size ->
  let n := total_core_size g / page_size in
  unprotected (fpec_of h) NEW_CORE_START_ADDRESS (n * page_size) ->
  wp (handle_upd_packet l 3) (fun r s =>
     r = Some 0 /\ fst s = g /\
     (forall x, NEW_CORE_START_ADDRESS <= x < NEW_CORE_START_ADDRESS + n * page_size ->
        fp_mem (fpec_of (snd s)) x = 0xFF) /\
     (forall x, NEW_CORE_START_ADDRESS + n * page_size <= x ->
        fp_mem (fpec_of (snd s)) x = fp_mem (fpec_of h) x)) (g, h).
Proof.
  intros Hl Hd Hg Ht n Hu. unfold page_size in Ht.
  assert (Hn : 1 <= n < 96).
  { subst n. unfold page_size. split; [apply Z.div_le_lower_bound; lia|apply Z.div_lt_upper_bound; lia]. }
  assert (Hmax : Z.max 1 (u8 (total_core_size g / 2048)) = n).
  { change (total_core_size g / 2048) with n. unfold u8. rewrite Z.mod_small; lia. }
  apply (wp_handle_del _ _ _ _ _ eq_refl Hl Hd); cbv zeta; rewrite ?Hmax; [|done|done|].
  { unfold fits, flash_first, page_size, NEW_CORE_START_ADDRESS.
    unfold Bootloader.STM32F107_LAST_PAGE_ADDR. repeat split; lia. }
  intros h' (_ & _ & Hm). split; [done|]. split; [done|]. cbn [snd].
  split; intros x Hx; rewrite Hm; unfold erase_range; intervals; (done || lia).
Qed.

Definition staged_5000 : upd := set_progress (NEW_CORE_START_ADDRESS + 5000) 5000 upd_init.

Lemma del_keeps_last_partial_page_witness :
  wp (handle_upd_packet del_command 3) (fun r s =>
     r = Some 0 /\ fst s = staged_5000 /\
     (forall x, NEW_CORE_START_ADDRESS <= x < NEW_CORE_START_ADDRESS + total_core_size staged_5000 / page_size * page_size ->
        fp_mem (fpec_of (snd s)) x = 0xFF) /\
     (forall x, NEW_CORE_START_ADDRESS + total_core_size staged_5000 / page_size * page_size <= x ->
        fp_mem (fpec_of (snd s)) x = fp_mem (fpec_of unlocked_blank) x)) (staged_5000, unlocked_blank).
Proof.
  apply (del_keeps_last_partial_page del_command staged_5000 unlocked_blank);
    [done|done|by repeat split|done|done].
Defined.

(** The updater starts with the CRC unit as it was after the reset: without its clock. *)
Section start.
Import SystemClock.
Context {H : Type} `{CrcBus H}.
Variable b : bool.
Lemma keeps_or32 a m : (a + 4 <=? RCC_AHBENR) || (RCC_AHBENR + 4 <=? a) = true -> keeps (crc_clock b) (or32 a m).
Proof. intros Ha. apply keeps_bind; [apply keeps_clock_rd|]. intros v. by apply keeps_clock_wr. Qed.
Lemma keeps_and32 a m : (a + 4 <=? RCC_AHBENR) || (RCC_AHBENR + 4 <=? a) = true -> keeps (crc_clock b) (and32 a m).
Proof. intros Ha. apply keeps_bind; [apply keeps_clock_rd|]. intros v. by apply keeps_clock_wr. Qed.
Lemma keeps_ResetRcc : keeps (crc_clock b) ResetRcc.
Proof. unfold ResetRcc, or32, and32. keeps_steps. Qed.
Lemma keeps_poll_until r m v : keeps (crc_clock b) (poll_until r m v).
Proof. unfold poll_until, poll_body. keeps_steps. Qed.
Lemma keeps_hse_loop : keeps (crc_clock b) (loop 0x501 premain_hse_body (0, 0)).
Proof. unfold premain_hse_body. keeps_steps. Qed.
Lemma keeps_SysTick_Config n : keeps (crc_clock b) (SysTick_Config n).
Proof. unfold SysTick_Config. keeps_steps. Qed.

Lemma system_init_keeps_crc_clock : keeps (fun s : Z * H => crc_clock b (snd s)) system_init.
Proof.
  unfold system_init, premain, ClockConfig, HsePllConfig.
  repeat match goal with
         | |- keeps _ (lift _) => apply keeps_clock_lift;
             first [apply keeps_ResetRcc|apply keeps_poll_until|apply keeps_hse_loop|apply keeps_SysTick_Config
                   |by apply keeps_or32|by apply keeps_and32|by apply keeps_clock_wr]
         | |- keeps _ (mbind _ _) => apply keeps_bind; [|intros ?]
         | |- keeps _ (if ?x then _ else _) => destruct x
         | |- keeps _ (setg _) => apply keeps_clock_setg
         | |- keeps _ (mret _) => apply keeps_ret
         end.
Qed.
End start.

(** C20. The command "crc" answers ALL_OK and stores a value behind the image and in
    [crc_val] that is not the CRC of the image.  If the CRC unit has its clock, the
    staged size in bytes is taken for a number of words: the value is the CRC of four
    times as many bytes, continued from whatever the data register held.  If it has not
    (CRCEN of RCC_AHBENR is clear after a reset, and nothing in the program sets it;
    system_init_keeps_crc_clock is that for the start of the updater), the value is 0
    whatever the image is.  The command does not switch the clock. *)
Theorem crc_covers_four_times_the_image `{FpecBus H} `{!CrcBus H} (l : list Z) (n : nat) (g : upd) (h : H) :
  3 <= len l -> starts l 0x63 0x72 0x63 = true -> total_core_size g = Z.of_nat n ->
  NEW_CORE_START_ADDRESS + 4 * Z.of_nat n <= flash_end ->
  blank (fpec_of h) (NEW_CORE_START_ADDRESS + total_core_size g) 4 ->
  wp (handle_upd_packet l 3) (fun r s =>
     r = Some ALL_OK /\ crc_on (snd s) = crc_on h /\
     crc_val (fst s) = (if crc_on h then crc_words (crc_of h) (flash_words (fp_mem (fpec_of h)) NEW_CORE_START_ADDRESS n) else 0) /\
     forall x, fp_mem (fpec_of (snd s)) x =
       set32 (NEW_CORE_START_ADDRESS + Z.of_nat n) (crc_val (fst s)) (fp_mem (fpec_of h)) x) (g, h).
Proof.
  intros Hl Hc Hn Hfit Hbl. apply (wp_handle_crc _ _ _ _ _ _ eq_refl Hl Hc Hn Hfit Hbl).
  intros h' v Hg Hw Hm Hon. split; [done|]. split; [exact Hon|]. split; [done|]. rewrite Hn in Hm. exact Hm.
Qed.

Lemma crc_covers_four_times_the_image_witness :
  wp (handle_upd_packet crc_command 3) (fun r s =>
     r = Some ALL_OK /\ crc_on (snd s) = crc_on unlocked_blank /\
     crc_val (fst s) = (if crc_on unlocked_blank
       then crc_words (crc_of unlocked_blank) (flash_words (fp_mem (fpec_of unlocked_blank)) NEW_CORE_START_ADDRESS 16) else 0) /\
     forall x, fp_mem (fpec_of (snd s)) x =
       set32 (NEW_CORE_START_ADDRESS + Z.of_nat 16) (crc_val (fst s)) (fp_mem (fpec_of unlocked_blank)) x)
     (upd_init, unlocked_blank).
Proof.
  apply (crc_covers_four_times_the_image crc_command 16 upd_init unlocked_blank);
    [done|done|done|done|by apply no_image_blank].
Defined.

(** check_upd_request answers 1, sets [g_upd] and unlocks the flash exactly
    for the three bytes "upd" in a packet of three; otherwise it answers 0 and
    changes nothing. *)
Theorem check_upd_request_spec `{FpecBus H} (l : list Z) (count : Z) (g : upd) (h : H) :
  3 <= len l -> fp_key (fpec_of h) = KLocked -> fp_busy (fpec_of h) = 0%nat ->
  wp (check_upd_request l count) (fun r s =>
     let ok := starts l 0x75 0x70 0x64 && (count =? 3) in
     r = (if ok then 1 else 0) /\
     fst s = (if ok then set_g_upd 1 g else g) /\
     fpec_of (snd s) = (if ok then with_key KUnlocked (fpec_of h) else fpec_of h)) (g, h).
Proof.
  intros Hl Hk Hb. apply (wp_check_upd_request _ _ _ _ _ _ eq_refl Hl Hk Hb). intros h'.
  cbv zeta. destruct (starts l 117 112 100 && (count =? 3)); intros Hh'; cbn [fst snd]; by rewrite Hh'.
Qed.

Lemma check_upd_request_spec_witness :
  wp (check_upd_request upd_request 3) (fun r s =>
     let ok := starts upd_request 0x75 0x70 0x64 && (3 =? 3) in
     r = (if ok then 1 else 0) /\
     fst s = (if ok then set_g_upd 1 upd_init else upd_init) /\
     fpec_of (snd s) = (if ok then with_key KUnlocked (fpec_of blank_board) else fpec_of blank_board))
    (upd_init, blank_board).
Proof. apply (check_upd_request_spec upd_request 3 upd_init blank_board); done. Defined.
