(* ===== verification/Ethernet.v ===== *)
(** The network code of the updater firmware: updater_mcu/src/ethernet.c and the
    handlers of updater_mcu/src/stm32f1xx_it.c, on top of the stack, the Ethernet
    driver and the protocol handler. This file also resolves the function pointers
    of the program. *)
From stdpp Require Import gmap.
From S2P Require Import Prelude Mmio Fpec Rcc Gpio Misc EthDriver LwipMem LwipPbuf.
From S2P Require Import LwipInet LwipStack LwipEtharp LwipNetif LwipIpOut LwipFrag LwipUdp LwipRaw EthIf Updater.
From S2P Require LwipTcp LwipTcpIn.

(** * Constants *)
Definition PHYAddress : Z := 0x00.
Definition LOCAL_IP : Z := IP4_ADDR 192 168 1 3.
Definition REMOTE_IP : Z := IP4_ADDR 192 168 1 4.
Definition NETMASK : Z := IP4_ADDR 255 255 255 0.
Definition DEFAULT_GATEWAY : Z := IP4_ADDR 192 168 1 1.
Definition REMOTE_RX_PORT : Z := 50001.
Definition REMOTE_TX_PORT : Z := 51004.
Definition DEVICE_TX_PORT : Z := 50002.
Definition DEVICE_RX_PORT : Z := 51003.
Definition UPDATE_PORT_LOCAL : Z := 55555.
Definition TX_PACKET_SIZE : Z := 3.
Definition RX_PACKET_SIZE : nat := 3.
Definition RX_UPD_PACKET_SIZE : nat := 512.
Definition UPD_ACK_PKT_SIZE : Z := 3.
Definition UPD_NACK_PKT_SIZE : Z := 3.
Definition ARP_TMR_INTERVAL : Z := 5000.
Definition NVIC_PriorityGroup_2 : Z := 0x500.
Definition ETH_IRQn : Z := 61.
Definition RCC_AHBPeriph_ETH_MAC_Tx : Z := 0x00008000.
Definition RCC_AHBPeriph_ETH_MAC_Rx : Z := 0x00010000.
Definition GPIO_ETH_MediaInterface_RMII : Z := 0x00000001.
Definition RCC_PLL3Mul_10 : Z := 0x00008000.
Definition RCC_FLAG_PLL3RDY : Z := 0x3D.
Definition RCC_MCO_PLL3CLK : Z := 0x0B.
Definition macaddress : list Z := [0x00; 0x22; 0x11; 0x22; 0x11; 0x22].

(** * The program's state *)

(** The globals of ethernet.c and the static local of lwip_periodic_handle. *)
Record enet : Type := Enet {
  p_tx : option ptr; upcb_tx : option ptr; p_upd_tx : option ptr; upcb_upd : option ptr;
  rx_buff : list Z; rx_upd_buff : list Z; tx_buf : list Z;
  arp_timer : Z
}.
Definition enet_init : enet :=
  Enet None None None None (repeat 0 RX_PACKET_SIZE) (repeat 0 RX_UPD_PACKET_SIZE) (repeat 0 (Z.to_nat TX_PACKET_SIZE)) 0.
Definition set_p_tx (p : option ptr) (e : enet) : enet :=
  Enet p (upcb_tx e) (p_upd_tx e) (upcb_upd e) (rx_buff e) (rx_upd_buff e) (tx_buf e) (arp_timer e).
Definition set_upcb_tx (p : option ptr) (e : enet) : enet :=
  Enet (p_tx e) p (p_upd_tx e) (upcb_upd e) (rx_buff e) (rx_upd_buff e) (tx_buf e) (arp_timer e).
Definition set_p_upd_tx (p : option ptr) (e : enet) : enet :=
  Enet (p_tx e) (upcb_tx e) p (upcb_upd e) (rx_buff e) (rx_upd_buff e) (tx_buf e) (arp_timer e).
Definition set_rx_buff (l : list Z) (e : enet) : enet :=
  Enet (p_tx e) (upcb_tx e) (p_upd_tx e) (upcb_upd e) l (rx_upd_buff e) (tx_buf e) (arp_timer e).
Definition set_rx_upd_buff (l : list Z) (e : enet) : enet :=
  Enet (p_tx e) (upcb_tx e) (p_upd_tx e) (upcb_upd e) (rx_buff e) l (tx_buf e) (arp_timer e).
Definition set_arp_timer (n : Z) (e : enet) : enet :=
  Enet (p_tx e) (upcb_tx e) (p_upd_tx e) (upcb_upd e) (rx_buff e) (rx_upd_buff e) (tx_buf e) n.

Record world (H : Type) : Type := World {
  w_stack : stack; w_ethif : ethif; w_enet : enet; w_upd : upd; w_hw : H
}.
Arguments World {H}. Arguments w_stack {H}. Arguments w_ethif {H}.
Arguments w_enet {H}. Arguments w_upd {H}. Arguments w_hw {H}.

#[global] Instance world_HasStack {H} : HasStack (world H) := {|
  get_stack := w_stack;
  put_stack := fun s w => World s (w_ethif w) (w_enet w) (w_upd w) (w_hw w)
|}.
#[global] Instance world_StackLaws {H} : StackLaws (world H).
Proof. split; by intros []. Qed.
#[global] Instance world_HasEth {H} : HasEth (world H) H := {|
  get_eth := fun w => (w_ethif w, w_hw w);
  put_eth := fun s w => World (w_stack w) (fst s) (w_enet w) (w_upd w) (snd s)
|}.

(** What the linker decides, and what the ARP cache calls of DHCP.  [localtime_at] is
    what it takes for the address of [localtime], which stm32f1xx_it.c declares and no
    file of the program defines. *)
Record layout : Type := Layout {
  DMARxDscrTab : Z; DMATxDscrTab : Z; Rx_Buff : Z; Tx_Buff : Z; hwaddr_address : netif_ptr -> Z; localtime_at : Z
}.
Record others (W : Type) : Type := Others {
  dhcp_decline : netif_ptr -> M W unit
}.
Arguments dhcp_decline {W}.

(** The interface object of ethernet.c. *)
Definition the_netif : netif_ptr := 0%nat.

Section ethernet.
Context {H : Type} `{Bus H} `{PtrAddr}.
Notation W := (world H).
Variable lay : layout.
Variable rest : others W.

Definition get_enet {A} (f : enet -> A) : M W A := gets (fun w => f (w_enet w)).
Definition mod_enet (f : enet -> enet) : M W unit :=
  modify (fun w => World (w_stack w) (w_ethif w) (f (w_enet w)) (w_upd w) (w_hw w)).
Definition on_hw {A} (m : M H A) : M W A := on_eth (lift m).
Definition on_upd {A} (m : M (upd * H) A) : M W A := fun w =>
  match m (w_upd w, w_hw w) with
  | Ret a (u, h) => Ret a (World (w_stack w) (w_ethif w) (w_enet w) u h)
  | Fault => Fault
  | Diverge => Diverge
  end.

(** * The function pointers of the program *)
Definition call_linkoutput (f : linkoutput_fn) (n : netif_ptr) (p : option ptr) : M W Z :=
  match f with low_level_output_ptr => low_level_output n p end.
Definition call_output (f : output_fn) (n : netif_ptr) (p : option ptr) (dest : Z) : M W Z :=
  match f with
  | etharp_output_ptr => match p with Some q => etharp_output call_linkoutput n q dest | None => fault end
  end.

(** No function of the program receives raw packets. *)
Definition call_raw (f : raw_recv_fn) (arg : option ptr) (pcb p : ptr) (src : Z) : M W bool := fault.

(** No function of the program is a callback of TCP. *)
Definition no_app : LwipTcp.tcp_app W :=
  LwipTcp.TcpApp _ (fun _ _ _ _ _ => fault) (fun _ _ _ _ => fault) (fun _ _ _ _ => fault) (fun _ _ _ => fault) (fun _ _ _ => fault) (fun _ _ _ _ => fault).

(** * Sending *)

(** A null control block is dereferenced. *)
Definition send (pcb : option ptr) (p : ptr) : M W Z := udp_send call_output (ip_frag call_output) pcb p.

(** [while (0 == pbuf_free(p))]: a pbuf has at most 65535 references. *)
Definition free_loop_body (p : option ptr) (_ : unit) : M W (unit + unit) :=
  n ← on_net (pbuf_free p);
  mret (if n =? 0 then inl tt else inr tt).
Definition free_until_gone (p : option ptr) : M W unit := loop 65536 (free_loop_body p) tt.

(** The packet that is sent: allocated, filled, handed to udp_send and freed. *)
Definition transmit (set_global : option ptr -> enet -> enet) (pcb : option ptr) (n : Z) (data : list Z) : M W unit :=
  p ← on_net (pbuf_alloc PBUF_TRANSPORT n PBUF_RAM);
  _ ← mod_enet (set_global p);
  match p with
  | None => fault
  | Some q =>
      _ ← on_net (payload_write q 0 data);
      _ ← send pcb q;
      free_until_gone (Some q)
  end.

Definition udp_data_transmit : M W unit :=
  data ← get_enet tx_buf;
  pcb ← get_enet upcb_tx;
  transmit set_p_tx pcb TX_PACKET_SIZE data.
Definition send_updater_ack : M W unit :=
  pcb ← get_enet upcb_upd;
  transmit set_p_upd_tx pcb UPD_ACK_PKT_SIZE (repeat 0xAA (Z.to_nat UPD_ACK_PKT_SIZE)).
Definition send_updater_nack : M W unit :=
  pcb ← get_enet upcb_upd;
  transmit set_p_upd_tx pcb UPD_NACK_PKT_SIZE (repeat 0xBB (Z.to_nat UPD_NACK_PKT_SIZE)).

(** * Receive callbacks *)

(** [p->len] and the bytes of [memcpy(buff, p->payload, p->len)]. *)
Definition packet_bytes (p : option ptr) : M W (list Z) :=
  match p with
  | None => fault
  | Some q => b ← on_net (get_pbuf q); on_net (payload_read q 0 (Z.to_nat (len b)))
  end.
Definition packet_len (p : option ptr) : M W Z :=
  match p with None => fault | Some q => b ← on_net (get_pbuf q); mret (len b) end.
Definition fill {A} (l : list A) (data : list A) : M W (list A) := fun w =>
  if (length data <=? length l)%nat then Ret (splice 0 data l) w else Fault.

Definition udp_receive_callback (p : option ptr) : M W unit :=
  data ← packet_bytes p;
  l ← get_enet rx_buff;
  l ← fill l data;
  _ ← mod_enet (set_rx_buff l);
  free_until_gone p.

(** The packet is copied to rx_upd_buff, but rx_buff is what is looked at. *)
Definition udp_upd_receive_callback (p : option ptr) : M W unit :=
  g ← on_upd (getg g_upd);
  n ← packet_len p;
  _ ← (if n <=? Z.of_nat RX_UPD_PACKET_SIZE then
         data ← packet_bytes p;
         l ← get_enet rx_upd_buff;
         l ← fill l data;
         _ ← mod_enet (set_rx_upd_buff l);
         buf ← get_enet rx_buff;
         if negb (g =? 0) then
           r ← on_upd (handle_upd_packet buf n);
           match r with
           | Some result => if result =? ALL_OK then send_updater_ack else send_updater_nack
           | None => diverge
           end
         else
           r ← on_upd (check_upd_request buf n);
           if r =? 1 then send_updater_ack else mret tt
       else mret tt);
  free_until_gone p.

(** Both callbacks are declared with one parameter and called with five: what they
    take for the packet is the first argument, [recv_arg]. *)
Definition call_recv (f : recv_fn) (arg : option ptr) (pcb p : ptr) (addr port : Z) : M W unit :=
  match f with
  | udp_receive_callback_ptr => udp_receive_callback arg
  | udp_upd_receive_callback_ptr => udp_upd_receive_callback arg
  end.

Definition call_input (f : input_fn) (p : ptr) (n : netif_ptr) : M W Z :=
  match f with
  | ethernet_input_ptr =>
      ethernet_input call_linkoutput (dhcp_decline rest)
        (ip_input call_output (ip_frag call_output) call_recv (ip_reass call_output) (raw_input call_raw) (LwipTcpIn.tcp_input call_output (ip_frag call_output) no_app)) p n
  end.

(** * Initialisation *)
Definition pin_group (port pins mode : Z) : M W unit :=
  on_hw (GPIO_Init port (GpioInit pins GPIO_Speed_50MHz mode)).

(** The waits on the hardware, with the fuel of the clock set-up. *)
Definition wait_pll3_body (_ : unit) : M W (unit + unit) :=
  s ← on_hw (RCC_GetFlagStatus RCC_FLAG_PLL3RDY);
  mret (if bool_decide (s <> RESET) then inl tt else inr tt).
Definition wait_reset_body (_ : unit) : M W (unit + unit) :=
  s ← on_hw ETH_GetSoftwareResetStatus;
  mret (if bool_decide (s = SET) then inl tt else inr tt).

Definition eth_settings : ETH_InitTypeDef :=
  set_field ETH_DMAArbitration ETH_DMAArbitration_RoundRobin_RxTx_2_1
 (set_field ETH_TxDMABurstLength ETH_TxDMABurstLength_32Beat
 (set_field ETH_RxDMABurstLength ETH_RxDMABurstLength_32Beat
 (set_field ETH_FixedBurst ETH_FixedBurst_Enable
 (set_field ETH_SecondFrameOperate ETH_SecondFrameOperate_Enable
 (set_field ETH_DropTCPIPChecksumErrorFrame ETH_DropTCPIPChecksumErrorFrame_Enable
 (set_field ETH_BroadcastFramesReception ETH_BroadcastFramesReception_Enable
 (set_field ETH_ChecksumOffload ETH_ChecksumOffload_Enable
 (set_field ETH_Speed ETH_Speed_100M
 (set_field ETH_AutoNegotiation ETH_AutoNegotiation_Disable ETH_StructInit))))))))).

Definition eth_config : M W unit :=
  _ ← on_hw (RCC_APB2PeriphClockCmd (Z.lor (Z.lor RCC_APB2Periph_GPIOA RCC_APB2Periph_GPIOB)
                                           (Z.lor RCC_APB2Periph_GPIOC RCC_APB2Periph_AFIO)) ENABLE);
  _ ← pin_group GPIOA (Z.lor (GPIO_Pin 2) (GPIO_Pin 8)) GPIO_Mode_AF_PP;
  _ ← pin_group GPIOB (Z.lor (Z.lor (GPIO_Pin 11) (GPIO_Pin 12)) (GPIO_Pin 13)) GPIO_Mode_AF_PP;
  _ ← pin_group GPIOC (GPIO_Pin 1) GPIO_Mode_AF_PP;
  _ ← pin_group GPIOA (Z.lor (GPIO_Pin 1) (GPIO_Pin 7)) GPIO_Mode_IN_FLOATING;
  _ ← pin_group GPIOC (Z.lor (GPIO_Pin 4) (GPIO_Pin 5)) GPIO_Mode_IN_FLOATING;
  _ ← pin_group GPIOC (GPIO_Pin 8) GPIO_Mode_Out_PP;
  _ ← on_hw (NVIC_PriorityGroupConfig NVIC_PriorityGroup_2);
  _ ← on_hw (NVIC_Init (NvicInit ETH_IRQn 2 0 ENABLE));
  _ ← on_hw (RCC_AHBPeriphClockCmd (Z.lor (Z.lor RCC_AHBPeriph_ETH_MAC RCC_AHBPeriph_ETH_MAC_Tx)
                                          RCC_AHBPeriph_ETH_MAC_Rx) ENABLE);
  _ ← on_hw (GPIO_ETH_MediaInterfaceConfig GPIO_ETH_MediaInterface_RMII);
  _ ← on_hw (RCC_PLL3Config RCC_PLL3Mul_10);
  _ ← on_hw (RCC_PLL3Cmd ENABLE);
  _ ← loop 0x500 wait_pll3_body tt;
  _ ← on_hw (RCC_MCOConfig RCC_MCO_PLL3CLK);
  _ ← on_hw ETH_DeInit;
  _ ← on_hw ETH_SoftwareReset;
  _ ← loop 0x500 wait_reset_body tt;
  _ ← on_hw (ETH_Init eth_settings PHYAddress);
  on_hw (ETH_DMAITConfig (Z.lor ETH_DMA_IT_NIS ETH_DMA_IT_R) ENABLE).

Definition lwip_initialization : M W unit :=
  _ ← on_net (on_heap mem_init);
  _ ← on_net memp_init;
  _ ← Set_MAC_Address macaddress;
  _ ← netif_add (LwipTcp.tcp_address_changes call_output (ip_frag call_output) no_app) the_netif LOCAL_IP NETMASK DEFAULT_GATEWAY None
        (ethernetif_init (DMARxDscrTab lay) (DMATxDscrTab lay) (Rx_Buff lay) (Tx_Buff lay) (hwaddr_address lay))
        ethernet_input_ptr;
  _ ← netif_set_default (Some the_netif);
  netif_set_up call_linkoutput the_netif.

Definition udp_transmit_configuration : M W unit :=
  pcb ← udp_new;
  _ ← mod_enet (set_upcb_tx pcb);
  match pcb with
  | None => mret tt
  | Some q =>
      err ← udp_bind q (Some LOCAL_IP) DEVICE_TX_PORT;
      if err =? ERR_OK then _ ← udp_connect q (Some REMOTE_IP) REMOTE_RX_PORT; mret tt else mret tt
  end.
Definition udp_receive_configuration : M W unit :=
  upcb ← udp_new;
  match upcb with
  | None => mret tt
  | Some q =>
      err ← udp_bind q (Some LOCAL_IP) DEVICE_RX_PORT;
      _ ← udp_connect q (Some REMOTE_IP) REMOTE_TX_PORT;
      if err =? ERR_OK then udp_recv q (Some udp_receive_callback_ptr) None else mret tt
  end.
(** The control block is the global, which nothing allocates. *)
Definition udp_update_configuration : M W unit :=
  upcb ← get_enet upcb_upd;
  match upcb with
  | None => mret tt
  | Some q =>
      upd_err ← udp_bind q (Some LOCAL_IP) UPDATE_PORT_LOCAL;
      _ ← udp_connect q (Some REMOTE_IP) UPDATE_PORT_LOCAL;
      if upd_err =? ERR_OK then udp_recv q (Some udp_upd_receive_callback_ptr) None else mret tt
  end.
Definition udp_configuration : M W unit :=
  _ ← udp_transmit_configuration;
  _ ← udp_receive_configuration;
  udp_update_configuration.

Definition eth_initialisation : M W unit :=
  _ ← eth_config;
  _ ← lwip_initialization;
  udp_configuration.

(** * Interrupts *)
Definition lwip_pkt_handle : M W unit := _ ← ethernetif_input call_input the_netif; mret tt.

Definition lwip_periodic_handle (now : Z) : M W unit :=
  t ← get_enet arp_timer;
  if ARP_TMR_INTERVAL <=? u32 (now - t) then
    _ ← mod_enet (set_arp_timer now);
    etharp_tmr
  else mret tt.

(** A word is stored to a variable.  In the flash that is a bus error: it takes no
    access but half-words. *)
Definition store_word (a v : Z) : M W unit := if in_flash a then fault else on_hw (wr32 a v).
Definition SysTick_Handler : M W unit :=
  t ← on_hw (rd32 (localtime_at lay));
  _ ← store_word (localtime_at lay) (u32 (t + 1));
  now ← on_hw (rd32 (localtime_at lay));
  lwip_periodic_handle now.

(** The handler goes on as long as complete frames arrive. *)
Definition rx_frames_body (_ : unit) : M W (unit + unit) :=
  n ← on_eth (drv ETH_GetRxPktSize);
  if negb (n =? 0) then _ ← lwip_pkt_handle; mret (inl tt) else mret (inr tt).
Definition ETH_IRQHandler (patience : positive) : M W unit :=
  _ ← loop patience rx_frames_body tt;
  _ ← on_hw (ETH_DMAClearITPendingBit ETH_DMA_IT_R);
  on_hw (ETH_DMAClearITPendingBit ETH_DMA_IT_NIS).
End ethernet.
