(* ===== verification/EthernetTheorems.v ===== *)
(** The properties of the updater's network code: the life of the ARP cache, and what the set-up of the UDP ports leaves. *)
From stdpp Require Import gmap.
From S2P Require Import Prelude Mmio LwipMem LwipMemSpec LwipMemTheorems LwipPbuf LwipPbufSpec LwipInet LwipStack LwipStackSpec.
From S2P Require Import LwipEtharp LwipEtharpSpec LwipEtharpTheorems LwipUdp LwipUdpTheorems EthDriver EthIf Updater Ethernet.
From S2P Require Import Mmio Fpec Rcc Crc ClockTree Board BootTheorems LwipPbufTheorems.

(** * The periodic work *)
Section periodic.
Context {H : Type} `{Bus H}.
Notation W := (world H).
Implicit Types (s : stack) (w : W).

(** The globals of ethernet.c, changed. *)
Definition put_enet (e : enet) (w : W) : W := World (w_stack w) (w_ethif w) e (w_upd w) (w_hw w).

Lemma wp_get_enet {A} (f : enet -> A) (Q : A -> W -> Prop) s w :
  Q (f (w_enet w)) (put_stack s w) -> wp (get_enet f) Q (put_stack s w).
Proof. done. Qed.
Lemma wp_mod_enet f (Q : unit -> W -> Prop) s w :
  Q tt (put_stack s (put_enet (f (w_enet w)) w)) -> wp (mod_enet f) Q (put_stack s w).
Proof. done. Qed.

(** [n] milliseconds, counted from [t]. *)
Fixpoint milliseconds (n : nat) (t : Z) : M W unit :=
  match n with O => mret tt | S n => let t := u32 (t + 1) in _ ← lwip_periodic_handle t; milliseconds n t end.

(** The milliseconds at [t] since etharp_tmr was called. *)
Definition since (t : Z) (e : enet) : Z := u32 (t - arp_timer e).
Record clock_ok (t : Z) (e : enet) : Prop := {
  clk_range : 0 <= t < 2 ^ 32;
  clk_since : since t e < ARP_TMR_INTERVAL
}.
Definition after_tick (t : Z) (e : enet) : enet :=
  if since t e =? ARP_TMR_INTERVAL then set_arp_timer t e else e.

Lemma tick_since t e : clock_ok t e -> since (u32 (t + 1)) e = since t e + 1.
Proof.
  intros [Hl Hs]. unfold since in *. change ARP_TMR_INTERVAL with 5000 in Hs. unfold u32 in *.
  rewrite Zminus_mod_idemp_l. replace (t + 1 - arp_timer e) with (t - arp_timer e + 1) by lia.
  rewrite <- Zplus_mod_idemp_l. apply Z.mod_small.
  pose proof (Z.mod_pos_bound (t - arp_timer e) (2 ^ 32) ltac:(lia)). lia.
Qed.
Lemma after_tick_ok t e (t' := u32 (t + 1)) : clock_ok t e -> clock_ok t' (after_tick t' e) /\
  since t' (after_tick t' e) = (if since t e + 1 =? ARP_TMR_INTERVAL then 0 else since t e + 1).
Proof.
  intros Hok. pose proof (tick_since _ _ Hok) as Ht. fold t' in Ht. unfold after_tick. rewrite Ht.
  assert (0 <= t' < 2 ^ 32) by (apply Z.mod_pos_bound; lia).
  destruct (Z.eqb_spec (since t e + 1) ARP_TMR_INTERVAL) as [E|E].
  - assert (since t' (set_arp_timer t' e) = 0) as H0' by (unfold since; cbn [arp_timer set_arp_timer]; by rewrite Z.sub_diag).
    split; [|done]. split; [done|]. by rewrite H0'.
  - destruct Hok as [_ Hs]. split; [|done]. split; [done|]. rewrite Ht. lia.
Qed.

Lemma wp_periodic t s w l qs (Q : unit -> W -> Prop) (t' := u32 (t + 1)) : arp_ok s l qs -> clock_ok t (w_enet w) ->
  (forall s' l' qs', arp_ok s' l' qs' ->
     arp_table s' = (if since t (w_enet w) + 1 =? ARP_TMR_INTERVAL then map aged (arp_table s) else arp_table s) ->
     Q tt (put_stack s' (put_enet (after_tick t' (w_enet w)) w))) ->
  wp (lwip_periodic_handle t') Q (put_stack s w).
Proof.
  intros Hok Hclk HQ. pose proof (tick_since _ _ Hclk) as Ht. fold t' in Ht. unfold after_tick in HQ. rewrite Ht in HQ.
  apply wp_bind, wp_get_enet. change (u32 (t' - arp_timer (w_enet w))) with (since t' (w_enet w)). rewrite Ht.
  destruct Hclk as [_ Hs]. destruct (Z.eqb_spec (since t (w_enet w) + 1) ARP_TMR_INTERVAL) as [E|E].
  - rewrite E. rewrite (proj2 (Z.leb_le _ _)) by done. apply wp_bind, wp_mod_enet, (wp_etharp_tmr _ _ l qs); [done|].
    intros s' l' _ Ht' Hok'. by eapply HQ.
  - rewrite (proj2 (Z.leb_gt _ _)) by lia. apply wp_ret. replace (put_stack s w) with (put_stack s (put_enet (w_enet w) w)) by done. by eapply HQ.
Qed.

(** [n] milliseconds: etharp_tmr runs once in 5000 of them. *)
Lemma wp_milliseconds n : forall j t s w l qs (Q : unit -> W -> Prop), arp_ok s l qs -> clock_ok t (w_enet w) -> older j (arp_table s) ->
  (forall s' l' qs' e', arp_ok s' l' qs' -> older (j + (since t (w_enet w) + Z.of_nat n) / ARP_TMR_INTERVAL) (arp_table s') ->
     arp_table s' = Nat.iter (Z.to_nat ((since t (w_enet w) + Z.of_nat n) / ARP_TMR_INTERVAL)) (map aged) (arp_table s) ->
     clock_ok (u32 (t + Z.of_nat n)) e' -> Q tt (put_stack s' (put_enet e' w))) ->
  wp (milliseconds n t) Q (put_stack s w).
Proof.
  change ARP_TMR_INTERVAL with 5000.
  induction n as [|n IH]; intros j t s w l qs Q Hok Hclk Ho HQ; pose proof Hclk as [Hl Hs]; change ARP_TMR_INTERVAL with 5000 in Hs;
    assert (0 <= since t (w_enet w)) as Hs0 by (apply Z.mod_pos_bound; lia); cbn [milliseconds].
  - apply wp_ret. replace (put_stack s w) with (put_stack s (put_enet (w_enet w) w)) by done.
    rewrite Z.add_0_r, Z.div_small in HQ by lia.
    eapply HQ; [exact Hok|by rewrite Z.add_0_r|done|]. rewrite Z.add_0_r. unfold u32. by rewrite Z.mod_small.
  - apply wp_bind, (wp_periodic _ _ _ l qs); [done|done|]. intros s1 l1 qs1 Hok1 Ht1. cbv zeta.
    destruct (after_tick_ok _ _ Hclk) as (Hclk1 & Hs1). change ARP_TMR_INTERVAL with 5000 in Hs1, Ht1.
    set (t1 := u32 (t + 1)) in *. set (r := if since t (w_enet w) + 1 =? 5000 then 1 else 0).
    eapply (IH (j + r)); [exact Hok1|exact Hclk1| |].
    + rewrite Ht1. unfold r. destruct (_ =? _); [by apply aged_older; [apply (aok_entries _ _ _ Hok)|]|by rewrite Z.add_0_r].
    + intros s' l' qs' e' Hok' Ho' Ht' Hclk'. change (w_enet (put_enet (after_tick t1 (w_enet w)) w)) with (after_tick t1 (w_enet w)) in *.
      assert ((since t (w_enet w) + Z.of_nat (S n)) / 5000 = r + (since t1 (after_tick t1 (w_enet w)) + Z.of_nat n) / 5000) as Hd.
      { rewrite Hs1. unfold r. destruct (Z.eqb_spec (since t (w_enet w) + 1) 5000); Z.to_euclidean_division_equations; lia. }
      assert (0 <= (since t1 (after_tick t1 (w_enet w)) + Z.of_nat n) / 5000) as Hd0 by (rewrite Hs1; destruct (_ =? _); apply Z.div_pos; lia).
      rewrite Hd in HQ. change (put_enet e' w) with (put_enet e' (put_enet (after_tick t1 (w_enet w)) w)) in HQ.
      eapply HQ; [exact Hok'|by rewrite Z.add_assoc| |].
      * rewrite Ht', Ht1. unfold r. destruct (_ =? _); [|done]. rewrite Z2Nat.inj_add, Nat.add_comm by lia. by rewrite Nat.iter_add.
      * revert Hclk'. unfold t1, u32. rewrite Zplus_mod_idemp_l. by replace (t + 1 + Z.of_nat n) with (t + Z.of_nat (S n)) by lia.
Qed.

(** C39. The ARP cache under lwip_periodic_handle.  Called once in a millisecond, from
    [t] on, with the time (modulo 2^32), it runs etharp_tmr once for every 5000
    milliseconds, counted from its last run and across the wrap-around; each run ages
    every entry by one.  So within ten seconds no entry waits for an answer any more,
    and within twenty minutes the cache is empty, its packets freed and its queue
    elements free again.  The SysTick interrupt does not call it so: the variable that
    it counts in is not defined by the program, and with an address in the flash, where
    the linker finds a function of this name, counting is a bus error. *)
Theorem periodic_ages_arp_cache (lay : layout) t s w l qs (n : nat) : arp_ok s l qs -> clock_ok t (w_enet w) ->
  wp (milliseconds n t) (fun _ w' => exists s' l' qs' e', w' = put_stack s' (put_enet e' w) /\ arp_ok s' l' qs' /\
    arp_table s' = Nat.iter (Z.to_nat ((since t (w_enet w) + Z.of_nat n) / ARP_TMR_INTERVAL)) (map aged) (arp_table s) /\
    (10000 <= Z.of_nat n -> Forall (fun e => arp_state e <> ETHARP_STATE_PENDING) (arp_table s')) /\
    (1200000 <= Z.of_nat n -> Forall (fun e => live e = false) (arp_table s') /\ List.concat qs' = [] /\
       forall i, (i < memp_num MEMP_ARP_QUEUE)%nat -> i ∈ memp_tab (s_net s') MEMP_ARP_QUEUE) /\
    clock_ok (u32 (t + Z.of_nat n)) e') (put_stack s w) /\
  (in_flash (localtime_at lay) = true -> forall Q w', ~ wp (SysTick_Handler lay) Q w').
Proof.
  intros Hok Hclk. split.
  - assert (0 <= since t (w_enet w)) as Hs0 by (apply Z.mod_pos_bound; lia).
    apply (wp_milliseconds n 0 _ _ _ l qs); [done|done|by eapply entries_older|].
    intros s' l' qs' e' Hok' Ho Ht Hclk'. exists s', l', qs', e'. do 3 (split; [done|]).
    destruct (older_forgotten _ _ _ _ Hok' Ho) as [Hp He]. change ARP_TMR_INTERVAL with 5000 in *.
    split; [intros; apply Hp; Z.to_euclidean_division_equations; lia|].
    split; [intros; apply He; Z.to_euclidean_division_equations; lia|done].
  - intros Hf Q w'. unfold wp, SysTick_Handler, store_word, mbind, M_bind, fault. rewrite Hf.
    destruct (on_hw _ w') as [v w1| |]; tauto.
Qed.
End periodic.

(** * The UDP ports *)
Section ports.
Context {H : Type} `{Bus H}.
Notation W := (world H).
Implicit Types (s : stack) (w : W).

(** The control blocks after udp_configuration: [i] and [j] are the first two of
    the pool. *)
Definition configured (lport rport : Z) (next : option ptr) : udp_pcb :=
  connected REMOTE_IP rport (with_pcb_next next (with_local_port lport (with_local_ip LOCAL_IP new_pcb))).
Definition tx_block (i : nat) : ptr * udp_pcb :=
  (InPool MEMP_UDP_PCB i, configured DEVICE_TX_PORT REMOTE_RX_PORT None).
Definition rx_block (i j : nat) : ptr * udp_pcb :=
  (InPool MEMP_UDP_PCB j,
   with_recv (Some udp_receive_callback_ptr) None (configured DEVICE_RX_PORT REMOTE_TX_PORT (Some (InPool MEMP_UDP_PCB i)))).
Definition opened (i j : nat) : list (ptr * udp_pcb) := [rx_block i j; tx_block i].

Lemma change_head p f u l : p ∉ l.*1 -> change p f ((p, u) :: l) = (p, f u) :: l.
Proof. intros Hp. rewrite <- (change_other p f l Hp) at 2. unfold change. cbn. by rewrite decide_True. Qed.
Lemma taken_active s l fr p : active s l -> p ∉ l.*1 -> active (pcb_taken fr p s) l.
Proof.
  intros [Hl Hnd] Hp. split; [|done]. eapply pcb_list_frame; [|exact Hl]. intros q Hq. apply lookup_insert_ne. by intros <-.
Qed.

(** A new control block that is bound, and then connected. *)
Lemma wp_bind_new s l w fr p port (Q : Z -> W -> Prop) : active s l -> p ∉ l.*1 -> port <> 0 ->
  (forall s', active s' ((p, with_pcb_next (udp_pcbs s) (with_local_port port (with_local_ip LOCAL_IP new_pcb))) :: l) ->
     s_net s' = set_tab MEMP_UDP_PCB fr (s_net s) -> Q ERR_OK (put_stack s' w)) ->
  wp (udp_bind p (Some LOCAL_IP) port) Q (put_stack (pcb_taken fr p s) w).
Proof.
  intros Ha Hp Hport HQ. eapply (wp_udp_bind_new _ l); [by apply taken_active|apply lookup_insert_eq|done|done|].
  intros Ha'. by apply HQ.
Qed.
Lemma wp_connect_head s l w p u port (Q : Z -> W -> Prop) : active s ((p, u) :: l) -> local_port u <> 0 ->
  (forall s', active s' ((p, connected REMOTE_IP port u) :: l) -> s_net s' = s_net s -> Q ERR_OK (put_stack s' w)) ->
  wp (udp_connect p (Some REMOTE_IP) port) Q (put_stack s w).
Proof.
  intros Ha Hu HQ. pose proof Ha as [(_ & Hp & _) Hnd]. apply nodup_cons in Hnd as [Hnd _].
  apply (wp_udp_connect_bound _ ((p, u) :: l) _ _ u); [done|done|by left|done|]. rewrite change_head by done. intros Ha'. by apply HQ.
Qed.

Lemma wp_transmit_configuration s w l i fr (Q : unit -> W -> Prop) : active s l -> InPool MEMP_UDP_PCB i ∉ l.*1 ->
  memp_tab (s_net s) MEMP_UDP_PCB = i :: fr ->
  (forall s', active s' ((InPool MEMP_UDP_PCB i, configured DEVICE_TX_PORT REMOTE_RX_PORT (udp_pcbs s)) :: l) ->
     s_net s' = set_tab MEMP_UDP_PCB fr (s_net s) ->
     Q tt (put_stack s' (put_enet (set_upcb_tx (Some (InPool MEMP_UDP_PCB i)) (w_enet w)) w))) ->
  wp udp_transmit_configuration Q (put_stack s w).
Proof.
  intros Ha Hp Htab HQ. apply wp_bind, wp_udp_new. rewrite Htab. apply wp_bind, wp_mod_enet.
  apply wp_bind, (wp_bind_new _ l); [done|done|done|]. intros s1 Ha1 Hn1. apply wp_bind.
  eapply wp_connect_head; [exact Ha1|done|]. intros s2 Ha2 Hn2. apply wp_ret, HQ; [done|]. by rewrite Hn2.
Qed.

Lemma wp_receive_configuration s w l j fr (Q : unit -> W -> Prop) : active s l -> InPool MEMP_UDP_PCB j ∉ l.*1 ->
  memp_tab (s_net s) MEMP_UDP_PCB = j :: fr ->
  (forall s', active s' ((InPool MEMP_UDP_PCB j, with_recv (Some udp_receive_callback_ptr) None
       (configured DEVICE_RX_PORT REMOTE_TX_PORT (udp_pcbs s))) :: l) -> Q tt (put_stack s' w)) ->
  wp udp_receive_configuration Q (put_stack s w).
Proof.
  intros Ha Hp Htab HQ. apply wp_bind, wp_udp_new. rewrite Htab.
  apply wp_bind, (wp_bind_new _ l); [done|done|done|]. intros s1 Ha1 Hn1. apply wp_bind.
  eapply wp_connect_head; [exact Ha1|done|]. intros s2 Ha2 Hn2. pose proof Ha2 as [(_ & Hp2 & _) Hnd].
  apply nodup_cons in Hnd as [Hnd _]. eapply wp_udp_recv; [exact Hp2|]. apply HQ.
  eapply (active_change _ _ _ (with_recv (Some udp_receive_callback_ptr) None)) in Ha2; [|done|exact Hp2].
  rewrite change_head in Ha2 by done. exact Ha2.
Qed.

(** Does the control block bound to [lport] and connected to [rport] take a datagram? *)
Definition takes (lport rport dest dest_ip src src_ip : Z) (broadcast : bool) : bool :=
  (dest =? lport) && ((dest_ip =? LOCAL_IP) || broadcast) && ((src =? rport) && (src_ip =? REMOTE_IP)).
Lemma receiver_opened i j dest dest_ip src src_ip broadcast :
  receiver dest dest_ip src src_ip broadcast (opened i j) =
  if takes DEVICE_RX_PORT REMOTE_TX_PORT dest dest_ip src src_ip broadcast then Some (InPool MEMP_UDP_PCB j)
  else if takes DEVICE_TX_PORT REMOTE_RX_PORT dest dest_ip src src_ip broadcast then Some (InPool MEMP_UDP_PCB i) else None.
Proof.
  unfold receiver, opened. cbn [List.find]. set (rx := rx_block i j). set (tx := tx_block i).
  assert (forall x, local_ip (snd x) = LOCAL_IP -> remote_ip (snd x) = REMOTE_IP ->
    perfect dest dest_ip src src_ip broadcast x = takes (local_port (snd x)) (remote_port (snd x)) dest dest_ip src src_ip broadcast) as Hperf.
  { intros x Hl Hr. unfold perfect, takes, local_match, remote_match. rewrite Hl, Hr.
    change (ip_addr_isany (Some LOCAL_IP)) with false. change (ip_addr_isany (Some REMOTE_IP)) with false.
    rewrite andb_false_r. cbn [orb]. unfold ip_addr_cmp. rewrite (Z.eqb_sym (local_port _)), (Z.eqb_sym LOCAL_IP), (Z.eqb_sym (remote_port _)), (Z.eqb_sym REMOTE_IP). done. }
  rewrite (Hperf rx), (Hperf tx) by done.
  change (local_port (snd rx)) with DEVICE_RX_PORT. change (remote_port (snd rx)) with REMOTE_TX_PORT.
  change (local_port (snd tx)) with DEVICE_TX_PORT. change (remote_port (snd tx)) with REMOTE_RX_PORT.
  destruct (takes DEVICE_RX_PORT _ _ _ _ _ _); [done|]. destruct (takes DEVICE_TX_PORT _ _ _ _ _ _); [done|].
  unfold listens. change (Z.land (pcb_flags (snd rx)) UDP_FLAGS_CONNECTED =? 0) with false.
  change (Z.land (pcb_flags (snd tx)) UDP_FLAGS_CONNECTED =? 0) with false. by rewrite !andb_false_r.
Qed.

(** C8. The ports that udp_configuration opens: from a stack without control blocks,
    it leaves two active ones, the transmit port (50002, connected to 50001 of the
    PC) and the receive port (51003, connected to 51004), and none for updates,
    because nothing allocates upcb_upd.  So a datagram is handed to the receive
    port, to the transmit port or to nobody; to nobody if it is for the update port
    55555.  The transmit port has no callback, and the callback of the receive port
    dereferences NULL whatever the datagram.  The pool has two free control blocks, and
    the datagram is not for port 68, which udp_input treats as DHCP. *)
Theorem udp_configuration_opens s w i j fr dest dest_ip src src_ip broadcast f :
  udp_pcbs s = None -> upcb_upd (w_enet w) = None -> memp_tab (s_net s) MEMP_UDP_PCB = i :: j :: fr -> i <> j ->
  dest <> DHCP_CLIENT_PORT ->
  wp (_ ← udp_configuration; udp_demux dest dest_ip src src_ip broadcast f) (fun r w' =>
    r = (if takes DEVICE_RX_PORT REMOTE_TX_PORT dest dest_ip src src_ip broadcast then Some (InPool MEMP_UDP_PCB j)
         else if takes DEVICE_TX_PORT REMOTE_RX_PORT dest dest_ip src src_ip broadcast then Some (InPool MEMP_UDP_PCB i)
         else None) /\
    (dest = UPDATE_PORT_LOCAL -> r = None) /\ upcb_upd (w_enet w') = None /\
    exists l', active (get_stack w') l' /\ map unlinked l' ≡ₚ map unlinked (opened i j) /\
      forall q u c, (q, u) ∈ l' -> recv u = Some c -> forall p addr port x, call_recv c (recv_arg u) q p addr port x = Fault)
    (put_stack s w).
Proof.
  intros Hnone Hupd Htab Hij Hdhcp. apply wp_bind, wp_bind.
  assert (Ha0 : active s []) by (split; [done|constructor]).
  apply (wp_transmit_configuration _ _ [] i (j :: fr)); [done|apply not_elem_of_nil|done|]. rewrite Hnone. intros s1 Ha1 Hn1.
  apply wp_bind. eapply (wp_receive_configuration _ _ _ j fr); [exact Ha1| |by rewrite Hn1|].
  { cbn. intros [[=]|?%elem_of_nil]%elem_of_cons; congruence. }
  destruct Ha1 as [(-> & _) _]. intros s2 Ha2. apply wp_bind, wp_get_enet. cbn [w_enet put_enet set_upcb_tx upcb_upd]. rewrite Hupd.
  apply wp_ret, (wp_udp_demux _ _ _ _ _ _ _ (opened i j)); [done|done|]. intros s' l' Ha' _ Hl'. rewrite receiver_opened. split; [done|]. split.
  { intros ->. unfold takes. change (UPDATE_PORT_LOCAL =? DEVICE_RX_PORT) with false. by change (UPDATE_PORT_LOCAL =? DEVICE_TX_PORT) with false. }
  split; [done|]. exists l'. rewrite get_put_stack. split; [done|].
  assert (Hperm : map unlinked l' ≡ₚ map unlinked (opened i j)).
  { rewrite Hl'. unfold reordered. destruct (List.find _ _) as [x|] eqn:Hf; [|done]. apply List.find_some in Hf as [Hin _].
    apply Permutation_map. destruct Hin as [<-|[<-|[]]]; unfold opened; cbn [List.filter fst rx_block tx_block].
    - rewrite bool_decide_eq_false_2 by naive_solver. rewrite bool_decide_eq_true_2 by congruence. done.
    - rewrite bool_decide_eq_true_2 by congruence. rewrite bool_decide_eq_false_2 by naive_solver. apply Permutation_swap. }
  split; [done|]. intros q u c Hin Hc p addr port x.
  assert (unlinked (q, u) ∈ map unlinked (opened i j)) as Hu.
  { rewrite <- Hperm. apply list_elem_of_In, List.in_map. by apply list_elem_of_In. }
  apply list_elem_of_In in Hu. destruct Hu as [Hu|[Hu|[]]]; destruct u; cbn in Hu; injection Hu; intros; subst; cbn in Hc; [|done].
  by injection Hc as <-.
Qed.
End ports.

(** A program at start-up, three ticks before its clock wraps around, with the
    stack [s]. *)
Definition demo_world (s : stack) : world board :=
  World s (EthIf (EthGlobals 0 0 0 0) []) (Enet None None None None [] [] [] (2 ^ 32 - 4998)) upd_init done_board.

(** Addresses such as a linker gives; that of [localtime] is from the map file in Debug. *)
Definition linked : layout := Layout 0x20000100 0x20000200 0x20000400 0x20001C00 (fun _ => 0x20003000) 0x080011F1.
Lemma periodic_ages_arp_cache_witness (t : Z := 2 ^ 32 - 3) :
  wp (milliseconds 10 t) (fun _ w' => exists s' l' qs' e', w' = put_stack s' (put_enet e' (demo_world arp_demo_stack)) /\ arp_ok s' l' qs' /\
    arp_table s' = Nat.iter (Z.to_nat ((since t (w_enet (demo_world arp_demo_stack)) + Z.of_nat 10) / ARP_TMR_INTERVAL)) (map aged) (arp_table arp_demo_stack) /\
    (10000 <= Z.of_nat 10 -> Forall (fun e => arp_state e <> ETHARP_STATE_PENDING) (arp_table s')) /\
    (1200000 <= Z.of_nat 10 -> Forall (fun e => live e = false) (arp_table s') /\ List.concat qs' = [] /\
       forall i, (i < memp_num MEMP_ARP_QUEUE)%nat -> i ∈ memp_tab (s_net s') MEMP_ARP_QUEUE) /\
    clock_ok (u32 (t + Z.of_nat 10)) e')
    (put_stack arp_demo_stack (demo_world arp_demo_stack)) /\
  (in_flash (localtime_at linked) = true -> forall Q (w' : world board), ~ wp (SysTick_Handler linked) Q w').
Proof.
  apply (periodic_ages_arp_cache linked t arp_demo_stack (demo_world arp_demo_stack) _ _ 10 arp_demo_ok).
  split; [split; [discriminate|reflexivity]|reflexivity].
Defined.
Example linked_in_flash : in_flash (localtime_at linked) = true.
Proof. done. Qed.

Lemma udp_configuration_opens_witness (s : stack := stack_zero fresh_net ∅) :
  wp (_ ← udp_configuration; udp_demux 51003 LOCAL_IP 51004 REMOTE_IP false netif_zero) (fun r w' =>
    r = (if takes DEVICE_RX_PORT REMOTE_TX_PORT 51003 LOCAL_IP 51004 REMOTE_IP false then Some (InPool MEMP_UDP_PCB 4)
         else if takes DEVICE_TX_PORT REMOTE_RX_PORT 51003 LOCAL_IP 51004 REMOTE_IP false then Some (InPool MEMP_UDP_PCB 5)
         else None) /\
    (51003 = UPDATE_PORT_LOCAL -> r = None) /\ upcb_upd (w_enet w') = None /\
    exists l', active (get_stack w') l' /\ map unlinked l' ≡ₚ map unlinked (opened 5 4) /\
      forall q u c, (q, u) ∈ l' -> recv u = Some c -> forall p addr port x, call_recv c (recv_arg u) q p addr port x = Fault)
    (put_stack s (demo_world s)).
Proof.
  eapply (udp_configuration_opens s (demo_world s) 5 4 _ 51003 LOCAL_IP 51004 REMOTE_IP false netif_zero);
    [reflexivity|reflexivity|vm_compute; reflexivity|discriminate|discriminate].
Defined.
