(* ===== verification/EthIfTheorems.v ===== *)
(** The properties of port/ethernetif.c in the updater's firmware: a packet that is
    sent gets into the frame buffer byte for byte, and a frame that was received
    into a packet; and of the functions of the MAC driver that the firmware does not call. *)
From stdpp Require Import gmap.
From S2P Require MemFacts.
From S2P Require Import Prelude Mmio EthDriver LwipMem LwipMemSpec LwipPbuf LwipPbufSpec LwipPbufTheorems LwipInet LwipStack LwipStackSpec LwipFrag EthIf EthSpec.
From S2P Require Import Updater Ethernet EthMac.

Section frames.
Context {H : Type} `{EthBus H}.
Notation W := (world H).
Implicit Types (s : stack) (h : H) (e : ethif).

Lemma wp_world_eth {A} (m : M (ethif * H) A) (Q : A -> W -> Prop) s e n u h :
  wp m (fun a x => Q a (World s (fst x) n u (snd x))) (e, h) -> wp (on_eth m) Q (World s e n u h).
Proof. unfold wp, on_eth. cbn. by destruct (m (e, h)). Qed.
Lemma wp_drv {A} (m : M (eth_globals * H) A) (Q : A -> ethif * H -> Prop) e h :
  wp m (fun a x => Q a (set_if_eth (fst x) e, snd x)) (if_eth e, h) -> wp (drv m) Q (e, h).
Proof. unfold wp, drv. cbn. by destruct (m (if_eth e, h)) as [a [g h']| |]. Qed.
(** A read of the packet buffers. *)
Lemma wp_world_net {A} (m : M net A) (Q : A -> W -> Prop) s e n u h :
  wp m (fun a k => Q a (World (set_net k s) e n u h)) (s_net s) -> wp (on_net m) Q (World s e n u h).
Proof. unfold wp, on_net. cbn. by destruct (m (s_net s)). Qed.

Lemma readable_len c : readable c -> 0 <= data_len c.
Proof.
  induction 1 as [|[q b] c [[Hb _] _] Hr IH]; cbn [data_len]; [done|]. cbn [snd] in Hb. lia.
Qed.

(** ** Sending *)
Lemma wp_gather b m s e n u (Q : Z -> W -> Prop) : forall c p l h done,
  chain (pbufs (s_net s)) p c -> readable c -> MemFacts.byte_list (contents (s_net s) c) ->
  in_ram b (l + data_len c) -> l = Z.of_nat (length done) ->
  (forall x, eth_mem h x = MemFacts.write_bytes b done m x) ->
  (forall h', (forall x, eth_mem h' x = MemFacts.write_bytes b (done ++ contents (s_net s) c) m x) ->
     Q (l + data_len c) (World s e n u h')) ->
  wp (iter_nat (S (length c)) (gather_body b) (p, l)) (ends Q) (World s e n u h).
Proof.
  induction c as [|[q bq] c IH]; intros p l h done Hc Hr Hb Hram Hl Hm HQ; apply wp_iter_S; cbn [gather_body].
  - cbn [chain] in Hc. subst p. apply wp_ret. replace l with (l + data_len []) by (cbn; lia). apply HQ.
    cbn [contents]. by rewrite app_nil_r.
  - destruct Hc as (-> & Hq & Hc). apply Forall_cons_1 in Hr as [[Hfit Hpay] Hr]. cbn [snd] in *.
    cbn [contents data_len] in *. apply Forall_app in Hb as [Hb1 Hb2].
    assert (Hlen : Z.of_nat (length (data_of (s_net s) q bq)) = len bq).
    { rewrite data_of_length by done. destruct Hfit as [? _]. lia. }
    apply wp_bind, wp_world_net, (wp_get_pbuf _ bq); [done|]. rewrite set_net_same.
    apply wp_bind, wp_world_net, (wp_payload_read _ _ bq); [done|done|done|lia|destruct Hfit; lia|]. rewrite set_net_same.
    change (Z.to_nat 0) with 0%nat. rewrite List.skipn_O, firstn_all2 by lia.
    pose proof (readable_len c Hr) as Hdc.
    apply wp_bind, wp_world_eth, wp_lift, wp_buffer_put; [done|rewrite Hlen; eapply in_ram_sub; [exact Hram|lia|lia]|].
    intros h1 Hm1. apply wp_ret. eapply (IH _ _ _ (done ++ data_of (s_net s) q bq)); [done|done|done| | | |].
    + by rewrite <- Z.add_assoc.
    + rewrite length_app. lia.
    + intros x. cbn [snd]. rewrite Hm1, MemFacts.write_bytes_app. unfold MemFacts.len. rewrite <- Hl. by apply MemFacts.write_bytes_ext.
    + intros h' Hm'. rewrite <- app_assoc in Hm'. rewrite <- Z.add_assoc. by apply HQ.
Qed.

(** What low_level_output leaves of the shared memory: the packet is in the frame
    buffer; the descriptor is armed if it was free. *)
Definition sent_frame (d : Z) (data : list Z) (m : Z -> Z) : Z -> Z :=
  let m1 := MemFacts.write_bytes (le32 m (d + 8)) data m in
  if tx_free m d then tx_armed d (Z.of_nat (length data)) m1 else m1.

(** The driver afterwards. *)
Definition driver_after (m : Z -> Z) (d : Z) (e : ethif) : ethif :=
  if tx_free m d then set_if_eth (set_tx_desc (le32 m (d + 12)) (if_eth e)) e else e.
Lemma wp_low_level_output s e n u h nif p c (Q : Z -> W -> Prop) (d := DMATxDescToSet (if_eth e)) (b := le32 (eth_mem h) (d + 8)) :
  chain (pbufs (s_net s)) (Some p) c -> NoDup c.*1 -> readable c -> MemFacts.byte_list (contents (s_net s) c) ->
  data_len c < 65536 -> desc_ram d -> in_ram b (data_len c) -> b + data_len c <= d \/ d + 16 <= b ->
  (forall h', (forall x, eth_mem h' x = sent_frame d (contents (s_net s) c) (eth_mem h) x) ->
     Q ERR_OK (World s (driver_after (eth_mem h) d e) n u h')) ->
  wp (low_level_output nif (Some p)) Q (World s e n u h).
Proof.
  intros Hc Hnd Hr Hb Hlen Hd Hram Hdis HQ. pose proof (readable_len _ Hr) as Hpos. pose proof (contents_length (s_net s) c Hr) as Hcl.
  apply wp_bind, wp_world_eth, wp_drv, wp_bind, wp_getg. fold d. apply wp_lift, wp_rd_ram; [by apply desc_word|]. intros h1 Hm1.
  cbn [fst snd]. replace (set_if_eth (if_eth e) e) with e by by destruct e.
  change (le W32 (eth_mem h) (Buffer1Addr d)) with b.
  apply wp_bind, wp_world_net, wp_gets. rewrite set_net_same.
  apply wp_bind, (wp_loop_nat (S (length c))); [pose proof (chain_size _ _ _ Hc Hnd); lia|].
  apply (wp_gather b (eth_mem h1) s e n u _ c (Some p) 0 h1 []); [done|done|done|done|done|intros x; by rewrite MemFacts.write_bytes_nil|].
  intros h2 Hm2. cbn [app] in Hm2. rewrite Z.add_0_l. unfold u16. rewrite Z.mod_small by lia. rewrite <- Hcl.
  set (data := contents (s_net s) c) in *.
  assert (Hm2' : forall x, eth_mem h2 x = MemFacts.write_bytes b data (eth_mem h) x) by (intros x; rewrite Hm2; by apply MemFacts.write_bytes_ext).
  assert (Hword : forall k, 0 <= k <= 12 -> le32 (eth_mem h2) (d + k) = le32 (eth_mem h) (d + k)).
  { intros k Hk. apply MemFacts.le32_ext. intros j Hj. rewrite Hm2'. apply MemFacts.write_bytes_out. unfold MemFacts.len. lia. }
  assert (Hfree : tx_free (eth_mem h2) d = tx_free (eth_mem h) d) by (unfold tx_free; rewrite <- (Z.add_0_r d); by rewrite Hword).
  apply wp_bind, wp_world_eth, wp_drv, wp_TxPkt; [done|]. fold d. rewrite Hfree, Hword by lia. intros h3 Hm3.
  assert (Hmem : forall x, eth_mem h3 x = sent_frame d data (eth_mem h) x).
  { intros x. rewrite Hm3. unfold sent_frame. fold b. destruct (tx_free (eth_mem h) d); [|apply Hm2'].
    unfold tx_armed. rewrite (le32_mem _ _ _ Hm2'). apply set32_ext. by apply set32_ext. }
  unfold driver_after in HQ. destruct (tx_free (eth_mem h) d); apply wp_ret; [by apply HQ|]. cbn [fst snd].
  replace (set_if_eth (if_eth e) e) with e by by destruct e. by apply HQ.
Qed.

(** C14. low_level_output writes the packet, byte for byte, to the buffer of the
    current transmit descriptor; if the processor owns the descriptor, it gets the
    length and the flags of a whole frame, goes to the DMA engine, and the next one of
    the ring becomes the current one.  If the engine still owns it, the frame that
    is being sent is overwritten all the same, the packet is lost, and the answer is
    ERR_OK as well.  Nothing else of the program changes. *)
Theorem low_level_output_sends s e n u h nif p c (d := DMATxDescToSet (if_eth e)) (b := le32 (eth_mem h) (d + 8)) :
  chain (pbufs (s_net s)) (Some p) c -> NoDup c.*1 -> readable c -> MemFacts.byte_list (contents (s_net s) c) ->
  data_len c < 65536 -> desc_ram d -> in_ram b (data_len c) -> b + data_len c <= d \/ d + 16 <= b ->
  wp (low_level_output nif (Some p)) (fun r w' => r = ERR_OK /\ exists h', w' =
      World s (if tx_free (eth_mem h) d then set_if_eth (set_tx_desc (le32 (eth_mem h) (d + 12)) (if_eth e)) e else e) n u h' /\
      forall x, eth_mem h' x = sent_frame d (contents (s_net s) c) (eth_mem h) x)
    (World s e n u h).
Proof. intros. apply (wp_low_level_output s e n u h nif p c); try done. intros h' Hm'. split; [done|]. by exists h'. Qed.

(** ** Receiving *)
Lemma ram_bytes_app m a n k : ram_bytes m a (n + k) = ram_bytes m a n ++ ram_bytes m (a + Z.of_nat n) k.
Proof.
  unfold ram_bytes. rewrite seq_app, fmap_app. f_equal. rewrite <- (Nat.add_0_r (0 + n)). rewrite <- fmap_add_seq, <- list_fmap_compose.
  apply list_fmap_ext. intros j x _. cbn. f_equal. lia.
Qed.
Lemma ram_bytes_ext m m' a n : (forall x, m x = m' x) -> ram_bytes m a n = ram_bytes m' a n.
Proof. intros Hm. apply list_fmap_ext. intros. apply Hm. Qed.
Lemma ram_bytes_length m a n : length (ram_bytes m a n) = n.
Proof. unfold ram_bytes. by rewrite length_fmap, length_seq. Qed.

(** Chains of pool elements. *)
Definition pooled (c : list (ptr * pbuf)) : Prop := Forall (fun x => exists t i, fst x = InPool t i) c.

Lemma wp_scatter b m e n u (Q : unit -> W -> Prop) : forall c p l s h,
  chain (pbufs (s_net s)) p c -> NoDup c.*1 -> readable c -> pooled c -> 0 <= l -> in_ram b (l + data_len c) ->
  (forall x, eth_mem h x = m x) ->
  (forall k h', same_pbufs (s_net s) k -> (forall q x, q ∉ c.*1 -> bytes_at k q x = bytes_at (s_net s) q x) ->
     contents k c = ram_bytes m (b + l) (Z.to_nat (data_len c)) -> (forall x, eth_mem h' x = m x) ->
     Q tt (World (set_net k s) e n u h')) ->
  wp (iter_nat (S (length c)) (scatter_body b) (p, l)) (ends Q) (World s e n u h).
Proof.
  induction c as [|[q bq] c IH]; intros p l s h Hc Hnd Hr Hpool Hl Hram Hm HQ; apply wp_iter_S; cbn [scatter_body].
  - cbn [chain] in Hc. subst p. apply wp_ret. rewrite <- (set_net_same s). by apply HQ.
  - destruct Hc as (-> & Hq & Hc). apply nodup_cons in Hnd as [Hqc Hnd]. apply Forall_cons_1 in Hr as [[Hfit [o Ho]] Hr].
    apply Forall_cons_1 in Hpool as [(t & i & Hqp) Hpool]. cbn [fst snd data_len] in *. pose proof (readable_len c Hr) as Hdc.
    destruct Hfit as [Hlen Hroom]. rewrite Ho in Hroom.
    apply wp_bind, wp_world_net, (wp_get_pbuf _ bq); [done|]. rewrite set_net_same.
    apply wp_bind, wp_world_eth, wp_lift, wp_buffer_get; [eapply in_ram_sub; [exact Hram|lia|lia]|]. intros h1 Hm1. cbn [fst snd].
    set (data := ram_bytes (eth_mem h) (b + l) (Z.to_nat (len bq))).
    assert (Hdl : Z.of_nat (length data) = len bq) by (unfold data; rewrite ram_bytes_length; lia).
    apply wp_bind, wp_world_net, (wp_payload_write q bq o); [done|done|lia|lia|]. rewrite Z.add_0_r. subst q.
    set (k1 := put_bytes _ o data (s_net s)). apply wp_ret.
    assert (Hk1 : same_pbufs (s_net s) k1) by apply put_bytes_pool.
    apply (IH _ _ (set_net k1 s)); [cbn [s_net set_net]; by rewrite (proj1 Hk1)|done|done|done|lia|by rewrite <- Z.add_assoc|intros x; by rewrite Hm1|].
    intros k h' Hk Hother Hcont Hm'. change (set_net k (set_net k1 s)) with (set_net k s). apply HQ; [by eapply same_pbufs_trans| | |done].
    + intros x y [Hx Hxc]%not_elem_of_cons. rewrite Hother by done. by apply put_bytes_other.
    + cbn [contents]. rewrite Hcont. rewrite Z2Nat.inj_add, ram_bytes_app by lia. f_equal.
      * assert (data_of k (InPool t i) bq = data_of k1 (InPool t i) bq) as ->.
        { unfold data_of. rewrite Ho. apply list_fmap_ext. intros. by apply Hother. }
        unfold k1. rewrite (data_of_written _ _ _ _ _ data) by done. by apply ram_bytes_ext.
      * f_equal. lia.
Qed.

(** A receive descriptor that the processor owns, with a whole frame without errors. *)
Definition rx_whole (m : Z -> Z) (d : Z) : bool :=
  let st := le32 m d in
  (Z.land st ETH_DMARxDesc_OWN =? 0) && (Z.land st ETH_DMARxDesc_ES =? 0) &&
  negb (Z.land st ETH_DMARxDesc_LS =? 0) && negb (Z.land st ETH_DMARxDesc_FS =? 0).
(** The length of its frame, without the checksum. *)
Definition rx_length (m : Z -> Z) (d : Z) : Z := Z.shiftr (Z.land (le32 m d) ETH_DMARxDesc_FL) ETH_DMARxDesc_FrameLengthShift - 4.

Lemma wp_rd_word m a h (Q : Z -> H -> Prop) : in_ram a 4 -> (forall x, eth_mem h x = m x) ->
  (forall h', (forall x, eth_mem h' x = m x) -> Q (le32 m a) h') -> wp (rd32 a) Q h.
Proof.
  intros Ha Hm HQ. apply wp_rd_ram; [done|]. intros h' Hm'. change (le W32 (eth_mem h) a) with (le32 (eth_mem h) a).
  rewrite (le32_mem _ _ _ Hm). apply HQ. intros x. by rewrite Hm'.
Qed.
Lemma wp_RxPkt g h (Q : FrameTypeDef -> eth_globals * H -> Prop) (d := DMARxDescToGet g) : desc_ram d -> rx_whole (eth_mem h) d = true ->
  0 <= rx_length (eth_mem h) d < 2 ^ 32 ->
  (forall h', (forall x, eth_mem h' x = eth_mem h x) ->
     Q (Frame (rx_length (eth_mem h) d) (le32 (eth_mem h) (d + 8)) d) (set_rx_desc (le32 (eth_mem h) (d + 12)) g, h')) ->
  wp ETH_RxPkt_ChainMode Q (g, h).
Proof.
  intros Hd Hw Hlen HQ. unfold rx_whole in Hw. rewrite !andb_true_iff, !negb_true_iff in Hw. destruct Hw as [[[Hown Hes] Hls] Hfs].
  assert (Hst : in_ram (Status d) 4) by by apply desc_status. set (m := eth_mem h) in *.
  assert (Hbuf : in_ram (Buffer1Addr d) 4 /\ in_ram (Buffer2NextDescAddr d) 4) by (split; by apply desc_word). destruct Hbuf as [Hbuf Hnext].
  apply wp_bind, wp_getg. fold d. apply wp_bind, wp_lift, (wp_rd_word m); [done|done|]. intros h1 Hm1. unfold Status at 1. rewrite Hown. cbn [negb].
  apply wp_bind, wp_bind, wp_lift, (wp_rd_word m); [done|done|]. intros h2 Hm2. unfold Status at 1. rewrite Hes.
  apply wp_bind, wp_lift, (wp_rd_word m); [done|done|]. intros h3 Hm3. unfold Status at 1. rewrite Hls. cbn [negb].
  apply wp_bind, wp_lift, (wp_rd_word m); [done|done|]. intros h4 Hm4. unfold Status at 1. rewrite Hfs. cbn [negb].
  apply wp_ret, wp_bind, wp_bind, wp_lift, (wp_rd_word m); [done|done|]. intros h5 Hm5. unfold Status at 1.
  apply wp_bind, wp_lift, (wp_rd_word m); [done|done|]. intros h6 Hm6.
  apply wp_ret, wp_bind, wp_lift, (wp_rd_word m); [done|done|]. intros h7 Hm7.
  apply wp_bind, wp_setg, wp_ret. fold (rx_length m d). unfold u32. rewrite Z.mod_small by done.
  by apply HQ.
Qed.

Lemma allocated_pooled k p c (s s' : net) l l' : allocated PBUF_POOL k p c s s' l l' -> pooled c.
Proof.
  intros Ha. apply list.Forall_forall. intros [q b] Hin. pose proof (added_new _ _ _ _ (alloc_added _ _ _ _ _ _ _ _ Ha)) as Hnew.
  rewrite list.Forall_forall in Hnew. destruct (Hnew _ Hin) as (_ & _ & Ht). cbn [fst snd] in *.
  pose proof (chain_in _ _ _ _ _ (alloc_chain _ _ _ _ _ _ _ _ Ha) Hin) as Hq.
  destruct (nok_home _ _ (alloc_ok _ _ _ _ _ _ _ _ Ha) _ _ Hq) as (Hh & _). destruct q as [i|t i]; [|by exists t, i].
  destruct Hh as [Hram _]. by rewrite Ht in Hram.
Qed.

(** A frame in a new packet. *)
Record delivered (data : list Z) (s s' : net) (p : ptr) (c : list (ptr * pbuf)) : Prop := {
  dlv_chain : chain (pbufs s') (Some p) c;
  dlv_packet : packet c;
  dlv_data : contents s' c = data;
  dlv_new : Forall (fun x => pbufs s !! fst x = None /\ ref (snd x) = 1) c;
  dlv_others : forall q, q ∉ c.*1 -> pbufs s' !! q = pbufs s !! q;
  dlv_bytes : forall t i x, InPool t i ∉ c.*1 -> net_pool s' t i x = net_pool s t i x;
  dlv_nodup : NoDup c.*1;
  dlv_readable : readable c;
  dlv_type : Forall (fun x => type (snd x) = PBUF_POOL) c;
  dlv_head : forall b c0, c = (p, b) :: c0 -> head_of b = (Some 0, 1500, Z.min (Z.of_nat (length data)) 1500)
}.

Lemma wp_scatter_frame k b m s e n u h p c (s1 : net) l l' (Q : unit -> W -> Prop) :
  allocated PBUF_POOL k p c (s_net s) s1 l l' -> readable c -> (forall b, pbufs s1 !! p = Some b -> head_of b = (Some 0, 1500, Z.min k 1500)) -> 0 <= k -> in_ram b k -> (forall x, eth_mem h x = m x) ->
  (forall nt h', delivered (ram_bytes m b (Z.to_nat k)) (s_net s) nt p c -> net_ok nt l' -> (forall x, eth_mem h' x = m x) ->
     Q tt (World (set_net nt s) e n u h')) ->
  wp (fuel ← on_net chain_fuel; loop fuel (scatter_body b) (Some p, 0)) Q (World (set_net s1 s) e n u h).
Proof.
  intros Ha Hr Hhd Hk Hram Hm HQ. pose proof (alloc_chain _ _ _ _ _ _ _ _ Ha) as Hc. pose proof (alloc_added _ _ _ _ _ _ _ _ Ha) as Hadd.
  pose proof (added_nodup _ _ _ _ Hadd) as Hnd. pose proof (alloc_len _ _ _ _ _ _ _ _ Ha) as Hlen.
  apply wp_bind, wp_world_net, wp_gets. apply (wp_loop_nat (S (length c))); [pose proof (chain_size _ _ _ Hc Hnd); cbn; lia|].
  apply (wp_scatter b m e n u _ c (Some p) 0 (set_net s1 s)); [done|done|done|by eapply allocated_pooled|done|by rewrite Hlen|done|].
  intros nt h' Hsame Hother Hcont Hm'. cbn [s_net set_net] in *. apply HQ; [|by eapply same_pbufs_ok, (alloc_ok _ _ _ _ _ _ _ _ Ha)|done]. split.
  - by rewrite (proj1 Hsame).
  - apply (alloc_packet _ _ _ _ _ _ _ _ Ha).
  - by rewrite Hcont, Hlen, Z.add_0_r.
  - eapply list.Forall_impl; [apply (added_new _ _ _ _ Hadd)|]. intros x Hx. by destruct Hx as (? & ? & _).
  - intros q Hq. rewrite (proj1 Hsame). by apply (added_rest _ _ _ _ Hadd).
  - intros t i x Hq. rewrite <- (added_pool _ _ _ _ Hadd). by apply (Hother (InPool t i) x).
  - done.
  - done.
  - eapply list.Forall_impl; [apply (added_new _ _ _ _ Hadd)|]. intros x Hx. by destruct Hx as (_ & _ & ?).
  - intros b0 c0 ->. unfold ram_bytes. rewrite length_fmap, length_seq, Z2Nat.id by done. apply Hhd. by destruct Hc as (_ & ? & _).
Qed.

Lemma low_level_input_frame s e n u h nif l (d := DMARxDescToGet (if_eth e)) (m := eth_mem h)
    (b := le32 m (d + 8)) (k := rx_length m d) :
  net_ok (s_net s) l -> desc_ram d -> d <> 0 -> rx_whole m d = true -> 0 <= k < 65536 -> in_ram b k ->
  wp (low_level_input nif) (fun r w' => exists nt h',
      w' = World (set_net nt s) (set_if_eth (set_rx_desc (le32 m (d + 12)) (if_eth e)) e) n u h' /\
      (forall x, eth_mem h' x = set32 d ETH_DMARxDesc_OWN m x) /\ net_ok nt l /\
      if pool_elements PBUF_RAW k <=? Z.of_nat (length (memp_tab (s_net s) MEMP_PBUF_POOL))
      then exists p c, r = Some p /\ delivered (ram_bytes m b (Z.to_nat k)) (s_net s) nt p c
      else r = None /\ pbufs nt = pbufs (s_net s))
    (World s e n u h).
Proof.
  intros Hok Hd Hd0 Hw Hk Hram. apply wp_bind, wp_world_eth, wp_drv, wp_RxPkt; [done|done|fold m; fold d; fold k; lia|].
  fold d. fold m. fold k. fold b. intros h1 Hm1. cbn [fst snd frame_length frame_buffer frame_descriptor].
  set (e1 := set_if_eth _ e). unfold u16. rewrite Z.mod_small by lia.
  assert (Hback : forall r nt h2, (forall x, eth_mem h2 x = m x) -> forall Q : option ptr -> W -> Prop,
    (forall h', (forall x, eth_mem h' x = set32 d ETH_DMARxDesc_OWN m x) -> Q r (World (set_net nt s) e1 n u h')) ->
    wp (if d =? 0 then fault else _ ← on_eth (lift (wr32 (Status d) ETH_DMARxDesc_OWN));
        _ ← on_eth (drv (resume_dma ETH_DMASR_RBUS ETH_DMARPDR)); mret r) Q (World (set_net nt s) e1 n u h2)).
  { intros r nt h2 Hm2 Q HQ. rewrite (proj2 (Z.eqb_neq _ _)) by done.
    apply wp_bind, wp_world_eth, wp_lift, wp_wr_ram; [by apply desc_status|]. intros h3 Hm3.
    apply wp_bind, wp_world_eth, wp_drv, wp_resume_dma; [done|]. intros h4 Hm4. cbn [fst snd].
    change (set_if_eth (if_eth e1) e1) with e1. apply wp_ret, HQ. intros x. rewrite Hm4, Hm3. by apply set32_ext. }
  apply wp_bind, wp_world_net, (wp_alloc_pool _ l); [done|lia| |].
  - intros p c s1 Hle Hhd Ha Hr. rewrite (proj2 (Z.leb_le _ _)) by done.
    apply wp_bind, (wp_scatter_frame k b m s e1 n u h1 p c s1 l l); [done|done|exact Hhd|lia|done|done|].
    intros nt h2 Hdel Hok2 Hm2. apply Hback; [done|]. intros h' Hm'. exists nt, h'. do 3 (split; [done|]). by exists p, c.
  - intros s1 Hlt Hu. rewrite (proj2 (Z.leb_gt _ _)) by done. apply wp_bind, wp_ret, Hback; [done|]. intros h' Hm'.
    exists s1, h'. do 2 (split; [done|]). split; [apply Hu|]. split; [done|apply Hu].
Qed.

(** C13. low_level_input delivers the frame at the head of the receive ring: when the
    pool has elements for it, the answer is a new packet of exactly the bytes that
    the DMA engine put in the buffer, without the checksum, and no other pbuf
    changes; when it has not, the frame is dropped and the answer is NULL.  In both
    cases the descriptor goes back to the engine and the next one becomes the
    current one, and the invariant of the packet buffers holds. *)
Theorem low_level_input_delivers s e n u h nif l (d := DMARxDescToGet (if_eth e)) (m := eth_mem h)
    (b := le32 m (d + 8)) (k := rx_length m d) :
  net_ok (s_net s) l -> desc_ram d -> d <> 0 -> rx_whole m d = true -> 0 <= k < 65536 -> in_ram b k ->
  wp (low_level_input nif) (fun r w' => exists nt h',
      w' = World (set_net nt s) (set_if_eth (set_rx_desc (le32 m (d + 12)) (if_eth e)) e) n u h' /\
      (forall x, eth_mem h' x = set32 d ETH_DMARxDesc_OWN m x) /\ net_ok nt l /\
      if pool_elements PBUF_RAW k <=? Z.of_nat (length (memp_tab (s_net s) MEMP_PBUF_POOL))
      then exists p c, r = Some p /\ delivered (ram_bytes m b (Z.to_nat k)) (s_net s) nt p c
      else r = None /\ pbufs nt = pbufs (s_net s))
    (World s e n u h).
Proof. intros. by apply low_level_input_frame. Qed.

(** ** The receive interrupt *)
Lemma wp_GetRxPktSize_none g h m (Q : Z -> eth_globals * H -> Prop) (d := DMARxDescToGet g) : desc_ram d ->
  (forall x, eth_mem h x = m x) -> rx_whole m d = false ->
  (forall h', (forall x, eth_mem h' x = m x) -> Q 0 (g, h')) -> wp ETH_GetRxPktSize Q (g, h).
Proof.
  intros Hd Hm Hw HQ. assert (Hst : in_ram (Status d) 4) by by apply desc_status. unfold rx_whole in Hw.
  apply wp_bind, wp_getg. fold d.
  apply wp_bind, wp_lift, (wp_rd_word m); [done|done|]. intros h1 Hm1. change (Status d) with d at 1. destruct (_ =? 0); [|by apply wp_ret, HQ].
  apply wp_bind, wp_lift, (wp_rd_word m); [done|done|]. intros h2 Hm2. change (Status d) with d at 1. destruct (_ =? 0); [|by apply wp_ret, HQ].
  apply wp_bind, wp_lift, (wp_rd_word m); [done|done|]. intros h3 Hm3. change (Status d) with d at 1. destruct (_ =? 0); [by apply wp_ret, HQ|].
  apply wp_bind, wp_lift, (wp_rd_word m); [done|done|]. intros h4 Hm4. change (Status d) with d at 1. destruct (_ =? 0); [by apply wp_ret, HQ|done].
Qed.

Context `{PtrAddr}.
Variable rest : others W.
Fixpoint interrupts (patience : positive) (k : nat) : M W unit :=
  match k with O => mret tt | S k => _ ← ETH_IRQHandler rest patience; interrupts patience k end.

(** C12. Reception stops for good at a frame with an error, and at one that fills more
    than one descriptor: while the descriptor at the head of the ring does not
    describe a whole frame without errors, the interrupt handler does nothing to it,
    to the ring or to the stack, however many interrupts arrive.  A descriptor that
    the processor owns is not the DMA engine's to change, and the code that would
    give it back runs for whole frames only. *)
Theorem rx_ring_stops patience k s e n u h : desc_ram (DMARxDescToGet (if_eth e)) ->
  rx_whole (eth_mem h) (DMARxDescToGet (if_eth e)) = false ->
  wp (interrupts patience k) (fun _ w' => exists h', w' = World s e n u h' /\ forall x, eth_mem h' x = eth_mem h x)
    (World s e n u h).
Proof.
  intros Hd Hw. set (m := eth_mem h) in *. assert (Hm : forall x, eth_mem h x = m x) by done. clearbody m.
  revert h Hm. induction k as [|k IH]; intros h Hm; cbn [interrupts]; [by apply wp_ret; exists h|].
  apply wp_bind, wp_bind, (wp_loop_nat 1); [lia|]. apply wp_iter_S.
  apply wp_bind, wp_world_eth, wp_drv, (wp_GetRxPktSize_none _ _ m); [done|done|done|]. intros h1 Hm1. cbn [fst snd].
  replace (set_if_eth (if_eth e) e) with e by by destruct e. cbn [Z.eqb negb]. apply wp_ret.
  apply wp_bind, wp_world_eth, wp_lift, wp_wr_reg; [done|]. intros h2 Hm2. cbn [fst snd].
  apply wp_world_eth, wp_lift, wp_wr_reg; [done|]. intros h3 Hm3. apply IH. intros x. cbn [snd]. by rewrite Hm3, Hm2.
Qed.
End frames.

(** * A chip with 64 KB of memory and an idle DMA engine *)
Definition sram : Type := Z -> Z.
Definition sram_at (a : Z) : bool := (0x20000000 <=? a) && (a <? 0x20010000).
Definition sram_byte (h : sram) : Z -> Z := fun x => u8 (h x).
#[global] Instance sram_bus : Bus sram := {|
  bus_read := fun w a h => (le w (sram_byte h) a, h);
  bus_write := fun w a v h => if a <? 0x40000000 then stored_at w a v h else h
|}.
Lemma u8_byte v k : u8 (byte_of v k) = byte_of v k.
Proof. unfold u8, byte_of. apply Z.mod_small, Z.mod_pos_bound. lia. Qed.
Lemma stored_byte w a v (h : sram) x : sram_byte (stored_at w a v h) x = stored_at w a v (sram_byte h) x.
Proof.
  unfold sram_byte. destruct w; unfold stored_at; [|unfold set16|unfold set32]; repeat case_match; by rewrite ?u8_byte.
Qed.
#[global] Program Instance sram_eth : EthBus sram := {| eth_mem := sram_byte; eth_ram := sram_at |}.
Next Obligation. intros h x. unfold sram_byte, u8. apply Z.mod_pos_bound. lia. Qed.
Next Obligation. unfold sram_at. intros a Ha. lia. Qed.
Next Obligation. done. Qed.
Next Obligation. done. Qed.
Next Obligation.
  intros w a v h x Hr. cbn. specialize (Hr 0 ltac:(destruct w; cbn; lia)). unfold sram_at in Hr.
  rewrite (proj2 (Z.ltb_lt _ _)) by lia. apply stored_byte.
Qed.
Next Obligation. intros w a v h x Ha. cbn. by rewrite (proj2 (Z.ltb_ge _ _)) by lia. Qed.

(** A descriptor at 0x20000000 with the status [st], the buffer at 0x20000100 and
    the next descriptor at 0x20000010; and the firmware with its stack. *)
Definition one_desc (st : Z) : sram :=
  set32 0x20000000 st (set32 0x20000008 0x20000100 (set32 0x2000000C 0x20000010 (fun x => x))).
Definition demo_ethif : ethif := EthIf (EthGlobals 0x20000000 0x20000000 0 0) [].
Definition packet_stack : stack := stack_zero (demo_net 1 1 1) ∅.

Lemma ram_range a n : 0x20000000 <= a -> a + n <= 0x20010000 -> in_ram (H := sram) a n.
Proof. intros Ha Hn x Hx. cbn. unfold sram_at. lia. Qed.

(** The packet a, b of 200 bytes is sent. *)
Lemma low_level_output_sends_witness (m := eth_mem (one_desc 0)) (e := demo_ethif) (s := stack_zero copy_net ∅) (d := DMATxDescToSet (if_eth e)) :
  wp (low_level_output the_netif (Some demo_a)) (fun r w' => r = ERR_OK /\ exists h', w' =
      World s (if tx_free m d then set_if_eth (set_tx_desc (le32 m (d + 12)) (if_eth e)) e else e) enet_init upd_init h' /\
      forall x, eth_mem h' x = sent_frame d (contents (s_net s) cat_head) m x)
    (World s e enet_init upd_init (one_desc 0)).
Proof.
  apply (low_level_output_sends (stack_zero copy_net ∅) demo_ethif enet_init upd_init (one_desc 0) the_netif demo_a cat_head).
  - by repeat split.
  - change (NoDup [demo_a; demo_b]). by apply (bool_decide_unpack _).
  - repeat (apply Forall_cons_2; [split; [by split|by eexists]|]). apply Forall_nil_2.
  - apply (bool_decide_unpack _). by vm_compute.
  - reflexivity.
  - by apply ram_range.
  - by apply ram_range.
  - by right.
Defined.
Example sent_descriptor (m := sent_frame 0x20000000 (contents copy_net cat_head) (sram_byte (one_desc 0))) :
  (le32 m 0x20000000, le32 m 0x20000004, ram_bytes m 0x20000100 3, ram_bytes m 0x20000164 3) = (0xB0000000, 200, [0; 1; 2], [100; 101; 102]).
Proof. by vm_compute. Qed.

(** A frame of 100 bytes and its checksum has arrived. *)
Definition arrived : sram := one_desc 0x00680300.
Lemma low_level_input_delivers_witness (m := eth_mem arrived) (e := demo_ethif) (s := packet_stack)
    (d := DMARxDescToGet (if_eth e)) (b := le32 m (d + 8)) (k := rx_length m d) :
  wp (low_level_input the_netif) (fun r w' => exists nt h',
      w' = World (set_net nt s) (set_if_eth (set_rx_desc (le32 m (d + 12)) (if_eth e)) e) enet_init upd_init h' /\
      (forall x, eth_mem h' x = set32 d ETH_DMARxDesc_OWN m x) /\ net_ok nt [(MEM_SIZE_ALIGNED, false)] /\
      if pool_elements PBUF_RAW k <=? Z.of_nat (length (memp_tab (s_net s) MEMP_PBUF_POOL))
      then exists p c, r = Some p /\ delivered (ram_bytes m b (Z.to_nat k)) (s_net s) nt p c
      else r = None /\ pbufs nt = pbufs (s_net s))
    (World s e enet_init upd_init arrived).
Proof.
  apply (low_level_input_delivers packet_stack demo_ethif enet_init upd_init arrived the_netif [(MEM_SIZE_ALIGNED, false)]).
  - by apply (demo_net_ok 1 1 1).
  - by apply ram_range.
  - discriminate.
  - by vm_compute.
  - by vm_compute.
  - by apply ram_range.
Defined.
Example arrived_length (m := sram_byte arrived) : (rx_length m 0x20000000, pool_elements PBUF_RAW (rx_length m 0x20000000)) = (100, 1).
Proof. by vm_compute. Qed.

(** A frame with a checksum error: no interrupt gets past it. *)
Definition nobody : others (world sram) :=
  Others _ (fun _ => mret tt).
#[local] Existing Instance flat_layout.
Definition damaged : sram := one_desc 0x00688302.
Lemma rx_ring_stops_witness :
  wp (interrupts nobody 1 10) (fun _ w' => exists h', w' = World packet_stack demo_ethif enet_init upd_init h' /\
    forall x, eth_mem h' x = eth_mem damaged x) (World packet_stack demo_ethif enet_init upd_init damaged).
Proof.
  apply (rx_ring_stops nobody 1 10 packet_stack demo_ethif enet_init upd_init damaged); [by apply ram_range|by vm_compute].
Defined.

Section mac.
Context {H : Type} `{Bus H}.

(** The wait for a time stamp counts to 0xFFFF at most: the answer ETH_ERROR of
    ETH_HandlePTPTxPkt, which is for a count of PHY_READ_TO, is never given. *)
Theorem time_stamp_timeout_unnoticed (d : Z) (h : H) :
  wp (loop 0x10000 (ttss_body d) 0) (fun timeout _ => 1 <= timeout <= 0xFFFF /\ (timeout =? PHY_READ_TO) = false) h.
Proof.
  apply (wp_loop (fun t _ => 0 <= t < 0xFFFF) (fun t _ => 0xFFFF - t)); [done|done|]. intros t h' Ht _. unfold ttss_body.
  apply wp_bind, wp_rd, wp_ret. destruct (_ && _) eqn:E.
  - apply andb_true_iff in E as [_ E%Z.ltb_lt]. lia.
  - split; [lia|]. apply Z.eqb_neq. unfold PHY_READ_TO. lia.
Qed.

(** The process states of the DMA engine are read from interrupt flags: the answers are
    one bit, and no state but "stopped" (0) is ever reported. *)
Theorem process_state_is_a_flag (h : H) :
  wp ETH_GetTransmitProcessState (fun v _ => v = 0 \/ v = ETH_DMASR_TS) h /\ wp ETH_GetReceiveProcessState (fun v _ => v = 0 \/ v = ETH_DMASR_RS) h.
Proof.
  split; (apply wp_bind, wp_rd, wp_ret); [change ETH_DMASR_TS with (2 ^ 0)|change ETH_DMASR_RS with (2 ^ 6)]; rewrite land_pow2 by done;
    destruct (Z.testbit _ _); [by right|by left..|by right|by left].
Qed.

(** Between descriptors that are not chained the driver skips as many bytes as the
    engine skips words. *)
Theorem skip_in_bytes (d words : Z) (g : eth_globals) (h : H) : 0 <= words < 32 -> 0 <= d -> d + 0x10 + words < 2 ^ 32 ->
  (forall h, Z.land (fst (bus_read W32 ETH_DMABMR h)) ETH_DMABMR_DSL = 4 * words) ->
  wp (skip_desc d) (fun x _ => x = d + 0x10 + words) (g, h).
Proof.
  intros Hw Hd Hr Hb. apply wp_bind, wp_lift, wp_rd, wp_ret. rewrite Hb, Z.shiftr_div_pow2 by done. change (2 ^ 2) with 4.
  rewrite Z.mul_comm, Z.div_mul by done. unfold u32. rewrite Z.mod_small; lia.
Qed.
End mac.
