(* ===== verification/EthTransmit.v ===== *)
(** A datagram from ethernet.c to the frame buffer: the composition of transmit,
    the stack and the driver. *)
From stdpp Require Import gmap.
From S2P Require MemFacts.
From S2P Require Import Prelude Mmio EthDriver LwipMem LwipMemSpec LwipPbuf LwipPbufSpec LwipPbufTheorems LwipInet LwipStack LwipStackSpec LwipHeader.
From S2P Require Import LwipEtharp LwipEtharpSpec LwipArpLookup LwipNetif LwipIpOut LwipIpSpec LwipIpTheorems LwipFrag LwipFragTheorems LwipUdp LwipUdpTheorems LwipTransmit.
From S2P Require Import EthIf EthSpec Updater Ethernet EthIfTheorems EthernetTheorems.

(** * Octets of a frame *)
Definition mac_ok (mac : list Z) : Prop := length mac = 6%nat /\ MemFacts.byte_list mac.
Lemma byte_list_app l1 l2 : MemFacts.byte_list l1 -> MemFacts.byte_list l2 -> MemFacts.byte_list (l1 ++ l2).
Proof. apply list.Forall_app_2. Qed.
Lemma byte_list_word2 v : MemFacts.byte_list (word2 v).
Proof. repeat (apply Forall_cons_2; [apply MemFacts.byte_of_range|]). apply Forall_nil_2. Qed.
Lemma byte_list_bytes4 v : MemFacts.byte_list (bytes4 v).
Proof. repeat (apply Forall_cons_2; [apply MemFacts.byte_of_range|]). apply Forall_nil_2. Qed.
Lemma byte_list_pair a b : 0 <= a < 2 ^ 8 -> 0 <= b < 2 ^ 8 -> MemFacts.byte_list [a; b].
Proof. intros. by repeat (apply Forall_cons_2; [done|]). Qed.
Create HintDb octets.
#[export] Hint Resolve byte_list_app byte_list_word2 byte_list_bytes4 byte_list_pair : octets.
#[export] Hint Extern 2 (_ <= _ < _) => unfold IP_PROTO_UDP; lia : octets.

(** The frame of a datagram [data] that [u] sends to [dst] by the interface [f]. *)
Definition udp_frame (f : netif) (u : udp_pcb) (mac : list Z) (id : Z) (data : list Z) : list Z :=
  eth_header mac (hwaddr f)
  ++ datagram_headers (nif_ip_addr f) (remote_ip u) (local_port u) (remote_port u) (ttl u) (tos u) id (Z.of_nat (length data))
  ++ data.
Lemma put_bytes_view p o s l b data : pbufs s !! p = Some b -> forall i k m, view p o m s l k -> 0 <= o + i ->
  o + i + Z.of_nat (length data) <= room b -> view p o (MemFacts.write_bytes i data m) s l (put_bytes p (o + i) data k).
Proof.
  intros Hp. induction data as [|v data IH]; intros i k m Hv Hi Hr; cbn [put_bytes length] in *.
  - eapply view_ext; [|exact Hv]. intros x. by rewrite MemFacts.write_bytes_nil.
  - eapply view_ext; [|rewrite <- Z.add_assoc; apply (IH (i + 1) _ (set8 i v m)); [by apply (view_store _ _ _ _ _ _ b); [..|lia]|lia|lia]].
    intros x. change (v :: data) with ([v] ++ data). rewrite MemFacts.write_bytes_app. change (MemFacts.len [v]) with 1.
    apply MemFacts.write_bytes_ext. symmetry. apply write_one.
Qed.

(** * Sending *)

(** What sending a datagram of [size] bytes by [u] needs of the stack: a route to an
    interface that takes it whole, and the link address of the next hop. *)
Record sendable (s : stack) (u : udp_pcb) (size : Z) (f : netif) (mac : list Z) (s' : stack) : Prop := {
  sd_route : exists li n, interfaces s li /\ (forall d, netif_default s = Some d -> is_Some (netifs s !! d)) /\
    route (remote_ip u) li (default_of s) = Some n /\ netifs s !! n = Some f;
  sd_block : can_send u f;
  sd_mtu : mtu f = 0 \/ size + 28 <= mtu f;
  sd_size : 0 <= size /\ size + 42 < 65461;
  sd_output : nif_output f = Some etharp_output_ptr;
  sd_linkoutput : nif_linkoutput f = Some low_level_output_ptr;
  sd_hwaddr : mac_ok (hwaddr f);
  sd_mac : mac_ok mac;
  sd_gateway : on_network (remote_ip u) f = false -> nif_gw f <> 0;
  sd_resolved : resolved s f (remote_ip u) mac s'
}.
Lemma resolved_net s f dest mac s' k : resolved s f dest mac s' -> resolved (set_net k s) f dest mac (set_net k s').
Proof.
  intros [Hb|Hb Hm|j e Hb Hm Hh Hok He Hst]; [by apply to_all|by apply to_group|].
  apply (to_host (set_net k s) f dest j e); try done. by destruct Hok.
Qed.
Lemma resolved_id s f dest mac s' i : resolved s f dest mac s' -> resolved (set_ip_id i s) f dest mac (set_ip_id i s').
Proof.
  intros [Hb|Hb Hm|j e Hb Hm Hh Hok He Hst]; [by apply to_all|by apply to_group|].
  apply (to_host (set_ip_id i s) f dest j e); try done. by destruct Hok.
Qed.
Lemma resolved_tcps s f dest mac s' t : resolved s f dest mac s' -> resolved (set_tcps t s) f dest mac (set_tcps t s').
Proof.
  intros [Hb|Hb Hm|j e Hb Hm Hh Hok He Hst]; [by apply to_all|by apply to_group|].
  apply (to_host (set_tcps t s) f dest j e); try done. by destruct Hok.
Qed.
Lemma sendable_net s u size f mac s' k : sendable s u size f mac s' -> sendable (set_net k s) u size f mac (set_net k s').
Proof. intros []. split; try done. by apply resolved_net. Qed.
(** The headers of a frame. *)
Definition frame_headers (f : netif) (u : udp_pcb) (mac : list Z) (id n : Z) : list Z :=
  eth_header mac (hwaddr f) ++ datagram_headers (nif_ip_addr f) (remote_ip u) (local_port u) (remote_port u) (ttl u) (tos u) id n.
Lemma frame_headers_length f u mac id n : mac_ok mac -> mac_ok (hwaddr f) -> Z.of_nat (length (frame_headers f u mac id n)) = 42.
Proof. intros [Hm _] [Hh _]. unfold frame_headers, eth_header. rewrite !length_app, Hm, Hh. cbn. lia. Qed.

Section transmit.
Context {H : Type} `{EthBus H}.
Notation W := (world H).
Implicit Types (s : stack) (h : H) (e : ethif).

(** The frame buffer of the current transmit descriptor takes [n] bytes. *)
Record tx_room (e : ethif) (h : H) (n : Z) : Prop := {
  tx_desc_ram : desc_ram (DMATxDescToSet (if_eth e));
  tx_buffer_ram : in_ram (le32 (eth_mem h) (DMATxDescToSet (if_eth e) + 8)) n;
  tx_apart : le32 (eth_mem h) (DMATxDescToSet (if_eth e) + 8) + n <= DMATxDescToSet (if_eth e) \/
    DMATxDescToSet (if_eth e) + 16 <= le32 (eth_mem h) (DMATxDescToSet (if_eth e) + 8)
}.

(** What sending [size] bytes to [dst] needs of an interface: it takes them whole, and the
    link address of the next hop is known. *)
Record reachable (s : stack) (f : netif) (dst size : Z) (mac : list Z) (s' : stack) : Prop := {
  rc_mtu : mtu f = 0 \/ size <= mtu f;
  rc_size : size + 14 < 65461;
  rc_output : nif_output f = Some etharp_output_ptr;
  rc_linkoutput : nif_linkoutput f = Some low_level_output_ptr;
  rc_hwaddr : mac_ok (hwaddr f);
  rc_mac : mac_ok mac;
  rc_gateway : on_network dst f = false -> nif_gw f <> 0;
  rc_resolved : resolved s f dst mac s'
}.
Lemma reachable_net s f dst size mac s' k : reachable s f dst size mac s' -> reachable (set_net k s) f dst size mac (set_net k s').
Proof. intros []. split; try done. by apply resolved_net. Qed.
Lemma reachable_id s f dst size mac s' i : reachable s f dst size mac s' -> reachable (set_ip_id i s) f dst size mac (set_ip_id i s').
Proof. intros []. split; try done. by apply resolved_id. Qed.
Lemma reachable_tcps s f dst size mac s' t : reachable s f dst size mac s' -> reachable (set_tcps t s) f dst size mac (set_tcps t s').
Proof. intros []. split; try done. by apply resolved_tcps. Qed.

(** A packet on its way from the interface to the frame buffer. *)
Lemma wp_frame_out s e en u h l p b o n f dst mac s' (Q : Z -> W -> Prop) (data := contents (s_net s) [(p, b)]) :
  outgoing (s_net s) l p b [] o -> 14 <= o -> MemFacts.byte_list data -> netifs s !! n = Some f -> reachable s f dst (tot_len b) mac s' ->
  tx_room e h (tot_len b + 14) ->
  (forall k h', prepended (eth_header mac (hwaddr f)) p b [] (s_net s) l k ->
     (forall x, eth_mem h' x = sent_frame (DMATxDescToSet (if_eth e)) (eth_header mac (hwaddr f) ++ data) (eth_mem h) x) ->
     Q ERR_OK (World (set_net k s') (driver_after (eth_mem h) (DMATxDescToSet (if_eth e)) e) en u h')) ->
  wp (send_on call_output (ip_frag call_output) f (tot_len b) p n dst) Q (World s e en u h).
Proof.
  intros Ho Hge Hoct Hn [Hmtu Hsz Hout Hlink Hhw Hmac Hgw Hres] [Hd Hram Hdis] HQ.
  destruct (outgoing_lens _ _ _ _ _ _ Ho) as (Hb & Hl & Hpos & Hroom). pose proof (out_packet _ _ _ _ _ _ Ho) as (Htot & _ & _). cbn in Htot.
  unfold send_on. replace (negb (mtu f =? 0) && (mtu f <? tot_len b)) with false.
  2: { destruct Hmtu as [->|Hm]; [done|]. by rewrite (proj2 (Z.ltb_ge _ _)), andb_false_r by lia. }
  rewrite Hout. cbn [call_output]. change (World s e en u h) with (put_stack s (World s e en u h)).
  apply (wp_etharp_output call_linkoutput l p b [] o s _ n f low_level_output_ptr dst mac s');
    [done|lia|lia|done|done|by destruct Hmac|by destruct Hhw|done|done|].
  intros k Hk. cbn [call_linkoutput]. set (hdr := eth_header mac (hwaddr f)) in *.
  assert (Hlen : Z.of_nat (length hdr) = 14) by (unfold hdr, eth_header; rewrite !length_app, (proj1 Hmac), (proj1 Hhw); done).
  pose proof (outgoing_prepended hdr (s_net s) l p b [] o k Ho ltac:(lia) Hk) as Ho2. rewrite Hlen in Ho2.
  assert (Hcont : contents k [(p, shifted 14 b)] = hdr ++ data) by (pose proof (prep_contents _ _ _ _ _ _ _ Hk) as Hc; rewrite Hlen in Hc; exact Hc).
  apply (wp_low_level_output (set_net k s') e en u h n p [(p, shifted 14 b)]).
  - apply Ho2.
  - apply Ho2.
  - apply Ho2.
  - cbn [s_net set_net]. rewrite Hcont. apply byte_list_app; [|done]. unfold hdr, eth_header. destruct Hmac, Hhw. auto with octets.
  - cbn. lia.
  - done.
  - cbn [data_len shifted len with_len with_payload with_tot_len]. eapply in_ram_sub; [exact Hram|lia|lia].
  - cbn [data_len shifted len with_len with_payload with_tot_len]. lia.
  - intros h' Hm'. cbn [s_net set_net] in Hm'. rewrite Hcont in Hm'. by apply HQ.
Qed.

Lemma wp_send s e en u h pcb ub p b o l f mac s' (Q : Z -> W -> Prop) (data := contents (s_net s) [(p, b)])
    (hdr := frame_headers f ub mac (ip_id s) (tot_len b)) :
  outgoing (s_net s) l p b [] o -> 42 <= o -> MemFacts.byte_list data -> pcbs s !! pcb = Some ub ->
  sendable s ub (tot_len b) f mac s' -> tx_room e h (tot_len b + 42) ->
  (forall k h', prepended hdr p b [] (s_net s) l k ->
     (forall x, eth_mem h' x = sent_frame (DMATxDescToSet (if_eth e)) (udp_frame f ub mac (ip_id s) data) (eth_mem h) x) ->
     Q ERR_OK (World (set_ip_id (u16 (ip_id s + 1)) (set_net k s')) (driver_after (eth_mem h) (DMATxDescToSet (if_eth e)) e) en u h')) ->
  wp (send (Some pcb) p) Q (World s e en u h).
Proof.
  intros Ho Hge Hoct Hpcb [(li & n & Hli & Hdef & Hroute & Hn) Hcan Hmtu [Hsz0 Hsz] Hout Hlink Hhw Hmac Hgw Hres] Hroom HQ.
  destruct (outgoing_lens _ _ _ _ _ _ Ho) as (Hb & Hl & Hpos & _). pose proof (out_packet _ _ _ _ _ _ Ho) as (Htot & _ & _). cbn in Htot.
  set (w := World s e en u h). change w with (put_stack s w).
  apply wp_bind, (wp_get_pcb _ ub); [done|]. apply wp_bind, (wp_ip_route _ _ _ li); [done|done|]. rewrite Hroute.
  apply (wp_udp_sendto_if call_output (ip_frag call_output) l p b [] o s w pcb ub (remote_ip ub) (remote_port ub) n f); [done|lia|lia|done..|].
  intros k1 Hk1. set (h1 := datagram_headers _ _ _ _ _ _ _ _) in Hk1. assert (Hlen1 : Z.of_nat (length h1) = 28) by done.
  pose proof (outgoing_prepended h1 s.(s_net) l p b [] o k1 Ho ltac:(lia) Hk1) as Ho1. rewrite Hlen1 in Ho1.
  assert (Hdata : contents k1 [(p, shifted 28 b)] = h1 ++ data) by (pose proof (prep_contents _ _ _ _ _ _ _ Hk1) as Hc; rewrite Hlen1 in Hc; exact Hc).
  assert (Hn' : Z.of_nat (length data) = tot_len b) by (unfold data; rewrite contents_length by apply Ho; cbn; lia).
  replace (tot_len b + 28) with (tot_len (shifted 28 b)) by (cbn; lia).
  apply (wp_frame_out (set_ip_id (u16 (ip_id s + 1)) (set_net k1 s)) e en u h l p (shifted 28 b) (o - 28) n f (remote_ip ub) mac
    (set_ip_id (u16 (ip_id s + 1)) (set_net k1 s'))); [exact Ho1|lia| |done| |by replace (tot_len (shifted 28 b) + 14) with (tot_len b + 42) by (cbn; lia)|].
  - change (MemFacts.byte_list (contents k1 [(p, shifted 28 b)])). rewrite Hdata. apply byte_list_app; [|done].
    destruct Hcan as [_ _ Httl Htos]. unfold h1, datagram_headers, ip_header, udp_header. auto 20 with octets.
  - split; try done; [cbn; lia|by apply resolved_id, resolved_net].
  - intros k2 h' Hk2 Hm'. cbn [s_net set_net set_ip_id] in Hk2, Hm'. rewrite Hdata in Hm'. apply HQ.
    + apply (prepended_app h1 _ p b [] (s_net s) l k1 k2 Hk1). by rewrite Hlen1.
    + intros x. rewrite Hm'. unfold udp_frame, h1. by rewrite Hn'.
Qed.

(** The packet of a transmission, filled. *)
Lemma wp_filled (s0 : net) l n data (Q : option ptr -> net -> Prop) : net_ok s0 l -> 0 <= n <= 65460 -> Z.of_nat (length data) = n ->
  has_memory s0 l PBUF_TRANSPORT n PBUF_RAM = true ->
  (forall i b (s1 : net) l' o, let p := InHeap i in allocated PBUF_RAM n p [(p, b)] s0 s1 l l' -> payload b = Some o -> 54 <= o ->
     outgoing (put_bytes p o data s1) l' p b [] o -> contents (put_bytes p o data s1) [(p, b)] = data ->
     view p o (MemFacts.write_bytes 0 data (fun j => bytes_at s1 p (o + j))) s1 l' (put_bytes p o data s1) -> Q (Some p) s1) ->
  wp (pbuf_alloc PBUF_TRANSPORT n PBUF_RAM) Q s0.
Proof.
  intros Hok Hn Hdata Hmem HQ. apply bool_decide_eq_true in Hmem. apply (wp_alloc_ram s0 l); [done|done| |intros E; by rewrite E in Hmem; destruct Hmem].
  intros a lt i b s1 l' _ Hpay Hal. set (o := aligned_payload (layer_offset PBUF_TRANSPORT)) in *.
  pose proof Hal as [Hc Hpk Hlen [Hnd Hnew _ _ _] Hok1 _ _ _]. apply Forall_cons_1 in Hnew as [(_ & _ & Hty) _]. cbn [fst snd] in Hty.
  destruct Hc as (_ & Hb & Hnx). destruct (nok_home _ _ Hok1 _ _ Hb) as (_ & Hfits & _). pose proof Hfits as [Hl Hfit]. rewrite Hpay in Hfit. cbn in Hlen.
  assert (Ho : 54 <= o) by (by vm_compute).
  assert (Hv : view (InHeap i) o (MemFacts.write_bytes 0 data (fun j => bytes_at s1 (InHeap i) (o + j))) s1 l' (put_bytes (InHeap i) o data s1)).
  { replace (put_bytes (InHeap i) o data s1) with (put_bytes (InHeap i) (o + 0) data s1) by by rewrite Z.add_0_r.
    apply (put_bytes_view _ _ _ _ b); [done|by apply view_refl|lia|lia]. }
  assert (Hout : outgoing (put_bytes (InHeap i) o data s1) l' (InHeap i) b [] o).
  { split; [apply Hv| |done|done| |by left|done].
    - rewrite (view_pbufs _ _ _ _ _ _ Hv). by repeat split.
    - apply Forall_cons_2; [|apply Forall_nil_2]. split; [done|by eexists]. }
  apply (HQ i b s1 l' o); try done. cbn [contents]. rewrite app_nil_r, (view_data _ _ _ _ _ _ b Hv Hpay).
  apply list_eq_same_length with (length data); [done|rewrite prefix_length; lia|]. intros j x y Hj Hx Hy.
  rewrite prefix_lookup in Hx by lia. injection Hx as <-. unfold MemFacts.write_bytes. rewrite (proj2 (Z.leb_le _ _)), Z.sub_0_r, Nat2Z.id by lia. by rewrite Hy.
Qed.

(** ** The end of a transmission *)
Lemma wp_free_until_gone s e en u h l p b (Q : unit -> W -> Prop) : net_ok (s_net s) l -> chain (pbufs (s_net s)) (Some p) [(p, b)] -> ref b = 1 ->
  (forall nt, freed [(p, b)] (s_net s) l nt -> Q tt (World (set_net nt s) e en u h)) ->
  wp (free_until_gone (Some p)) Q (World s e en u h).
Proof.
  intros Hok Hc Hr HQ. apply (wp_loop_nat 1); [lia|]. apply wp_iter_S.
  apply wp_bind, wp_world_net, (wp_pbuf_free _ [(p, b)] _ l); [done|done|apply NoDup_singleton|]. intros nt Hf.
  cbn [dead]. rewrite Hr. apply wp_ret. by apply HQ.
Qed.
(** A packet of one pbuf that was allocated in [s0], changed and freed. *)
Lemma alloc_change_free (s0 s1 k nt : net) l l1 n p b b' : net_ok s0 l -> allocated PBUF_RAM n p [(p, b)] s0 s1 l l1 ->
  pbufs k = <[p := b']> (pbufs s1) -> ref b' = 1 ->
  (forall q c y, pbufs s1 !! q = Some c -> q <> p -> 0 <= y < room c -> bytes_at k q y = bytes_at s1 q y) -> freed [(p, b')] k l1 nt ->
  net_ok nt l /\ pbufs nt = pbufs s0 /\ forall q c, pbufs s0 !! q = Some c -> same_pbuf q c s0 nt.
Proof.
  intros Hok Hal Hk Hr Hbytes Hf. pose proof Hal as [_ _ _ Hadd _ _ Hrel _].
  assert (Hr1 : ref b = 1) by (pose proof (added_ref1 _ _ _ _ Hadd) as Hr1; by apply Forall_cons_1 in Hr1 as [? _]).
  assert (Hp : pbufs nt = pbufs s0).
  { rewrite <- (free_added _ _ _ _ Hadd), (freed_pbufs _ _ _ _ Hf), Hk. cbn [free_chain]. rewrite Hr, Hr1. cbn. by rewrite delete_insert_eq. }
  split; [|split; [done|]].
  - pose proof (freed_ok _ _ _ _ Hf) as Hok'. cbn [dead] in Hok'. rewrite Hr in Hok'. cbn [Z.eqb Pos.eqb] in Hok'.
    rewrite <- Hrel. destruct p; exact Hok'.
  - intros q c Hq. split; [by rewrite Hp|]. intros y Hy. destruct (allocated_same _ _ _ _ _ _ _ _ q c Hok Hal Hq) as [Hq1 Hb1].
    rewrite (freed_bytes _ _ _ _ q c y Hf), (Hbytes q c y), Hb1; [done..| |done|by rewrite Hp|done].
    intros ->. pose proof (added_new _ _ _ _ Hadd) as Hnew. apply Forall_cons_1 in Hnew as [[Hn _] _]. cbn in Hn. congruence.
Qed.

(** C10. A transmission of ethernet.c, from the data to the wire: when the heap has
    room, the control block has a route and the link address of the next hop is
    known, the frame buffer of the current transmit descriptor holds the Ethernet,
    IP and UDP headers and the data, byte for byte, and the descriptor goes to the
    DMA engine as low_level_output_sends says; afterwards the packet is freed: the
    pbufs, their bytes and the layout of the heap are what they were, and of the rest of
    the stack only the identification and the cached entry of ARP have changed. *)
Theorem transmit_sends set_global s e en u h pcb ub l f mac s' data (n := Z.of_nat (length data)) (d := DMATxDescToSet (if_eth e)) :
  net_ok (s_net s) l -> has_memory (s_net s) l PBUF_TRANSPORT n PBUF_RAM = true -> MemFacts.byte_list data -> pcbs s !! pcb = Some ub ->
  sendable s ub n f mac s' -> tx_room e h (n + 42) ->
  wp (transmit set_global (Some pcb) n data) (fun _ w' => exists p nt h',
      w' = World (set_ip_id (u16 (ip_id s + 1)) (set_net nt s')) (driver_after (eth_mem h) d e) (set_global (Some p) en) u h' /\
      (forall x, eth_mem h' x = sent_frame d (udp_frame f ub mac (ip_id s) data) (eth_mem h) x) /\
      net_ok nt l /\ pbufs nt = pbufs (s_net s) /\ forall q b, pbufs (s_net s) !! q = Some b -> same_pbuf q b (s_net s) nt)
    (World s e en u h).
Proof.
  intros Hok Hmem Hoct Hpcb Hsend Hroom. pose proof (sd_size _ _ _ _ _ _ Hsend) as Hsz.
  apply wp_bind, wp_world_net, (wp_filled _ l n data); [done|lia|done|done|]. intros i b s1 l1 o p Hal Hpay Hge Hout Hdata Hview.
  set (k1 := put_bytes p o data s1) in *. set (s2 := set_net k1 s). destruct (outgoing_lens _ _ _ _ _ _ Hout) as (Hb & Hl & _ & Hrm).
  pose proof Hal as [Hc Hpk Hlen Hadd Hok1 _ Hrel _]. destruct Hc as (_ & Hb1 & _). cbn in Hlen, Hpk.
  assert (Htot : tot_len b = n) by lia.
  apply wp_bind. set (en' := set_global (Some p) en). change (wp (_ ← on_net (payload_write p 0 data); _ ← send (Some pcb) p; free_until_gone (Some p))
    (fun _ w' => exists p nt h', w' = World (set_ip_id (u16 (ip_id s + 1)) (set_net nt s')) (driver_after (eth_mem h) d e) (set_global (Some p) en) u h' /\
      (forall x, eth_mem h' x = sent_frame d (udp_frame f ub mac (ip_id s) data) (eth_mem h) x) /\
      net_ok nt l /\ pbufs nt = pbufs (s_net s) /\ forall q b, pbufs (s_net s) !! q = Some b -> same_pbuf q b (s_net s) nt)
    (World (set_net s1 s) e en' u h)).
  apply wp_bind, wp_world_net, (wp_payload_write p b o); [done|done|lia|cbn [s_net set_net]; lia|]. rewrite Z.add_0_r. cbn [s_net set_net]. fold k1.
  change (set_net k1 (set_net s1 s)) with s2. rewrite <- Htot in Hsend, Hroom.
  apply wp_bind, (wp_send s2 e en' u h pcb ub p b o l1 f mac (set_net k1 s')); [done|lia|change (MemFacts.byte_list (contents k1 [(p, b)])); by rewrite Hdata|done|by apply sendable_net|done|].
  intros k2 h' Hk2 Hm'. cbn [s_net set_net s2] in Hk2, Hm'. change (ip_id s2) with (ip_id s) in *. rewrite Hdata in Hm'.
  pose proof (frame_headers_length f ub mac (ip_id s) (tot_len b) (sd_mac _ _ _ _ _ _ Hsend) (sd_hwaddr _ _ _ _ _ _ Hsend)) as Hhdr.
  pose proof (outgoing_prepended _ _ _ _ _ _ _ _ Hout ltac:(rewrite Hhdr; lia) Hk2) as Hout2. rewrite Hhdr in Hout2.
  assert (Hr1 : ref b = 1) by (pose proof (added_ref1 _ _ _ _ Hadd) as Hr1; by apply Forall_cons_1 in Hr1 as [? _]).
  apply (wp_free_until_gone _ _ _ _ _ l1 p (shifted 42 b)); [apply Hout2|apply Hout2|done|]. intros nt Hf. exists p, nt, h'.
  split; [done|]. split; [done|]. apply (alloc_change_free (s_net s) s1 k2 nt l l1 n p b (shifted 42 b)); try done.
  - rewrite (prep_pbufs _ _ _ _ _ _ _ Hk2), Hhdr. by rewrite (view_pbufs _ _ _ _ _ _ Hview).
  - intros q c y Hq Hne Hy. rewrite (prep_others _ _ _ _ _ _ _ Hk2 q c y), (view_others _ _ _ _ _ _ Hview q c y); try done.
    by rewrite (view_pbufs _ _ _ _ _ _ Hview).
Qed.

(** ** Fragments of a packet *)

(** The transmit descriptors [ds] in the memory [m]: each leads to another one of them,
    its buffer takes [n] bytes, and no two of these parts of the memory overlap. *)
Record tx_ring (ds : list Z) (n : Z) (m : Z -> Z) : Prop := {
  ring_desc d : d ∈ ds -> desc_ram d;
  ring_buffer d : d ∈ ds -> in_ram (le32 m (d + 8)) n;
  ring_next d : d ∈ ds -> le32 m (d + 12) ∈ ds;
  ring_apart d d' : d ∈ ds -> d' ∈ ds -> le32 m (d + 8) + n <= d' \/ d' + 16 <= le32 m (d + 8);
  ring_distinct d d' : d ∈ ds -> d' ∈ ds -> d' = d \/ d + 16 <= d' \/ d' + 16 <= d
}.
Lemma tx_armed_out d n m x : x < d \/ d + 8 <= x -> tx_armed d n m x = m x.
Proof. intros Hx. unfold tx_armed, set32. destruct (Z.leb_spec d x), (Z.ltb_spec x (d + 4)), (Z.leb_spec (d + 4) x), (Z.ltb_spec x (d + 4 + 4)); try done; lia. Qed.
(** A frame leaves the ring as it was. *)
Lemma sent_frame_word ds n m d d' data k : tx_ring ds n m -> d ∈ ds -> d' ∈ ds -> Z.of_nat (length data) <= n -> 8 <= k <= 12 ->
  le32 (sent_frame d data m) (d' + k) = le32 m (d' + k).
Proof.
  intros Hr Hd Hd' Hl Hk. pose proof (ring_apart _ _ _ Hr d d' Hd Hd'). pose proof (ring_distinct _ _ _ Hr d d' Hd Hd').
  apply MemFacts.le32_ext. intros j Hj. unfold sent_frame. cbv zeta.
  assert (Hw : MemFacts.write_bytes (le32 m (d + 8)) data m (d' + k + j) = m (d' + k + j)) by (apply MemFacts.write_bytes_out; unfold MemFacts.len; lia).
  destruct (tx_free m d); [|done]. by rewrite tx_armed_out by lia.
Qed.
Lemma tx_ring_sent ds n m m' d data : tx_ring ds n m -> d ∈ ds -> Z.of_nat (length data) <= n -> (forall x, m' x = sent_frame d data m x) -> tx_ring ds n m'.
Proof.
  intros Hr Hd Hl Hm. assert (Hw : forall d' k, d' ∈ ds -> 8 <= k <= 12 -> le32 m' (d' + k) = le32 m (d' + k)).
  { intros d' k Hd' Hk. rewrite <- (sent_frame_word ds n m d d' data k) by done. apply MemFacts.le32_ext. intros. apply Hm. }
  split; intros d0; [apply Hr|..]; [intros Hd0; rewrite Hw by (done || lia); by apply Hr..| |].
  - intros d' Hd0 Hd'. rewrite Hw by (done || lia). by apply Hr.
  - intros d'. by apply Hr.
Qed.

(** The frame of a packet [d] behind the link header [hdr] is what the driver was given. *)
Definition framed (hdr d : list Z) (w w' : W) : Prop :=
  let td := DMATxDescToSet (if_eth (w_ethif w)) in
  w_ethif w' = driver_after (eth_mem (w_hw w)) td (w_ethif w) /\ w_enet w' = w_enet w /\ w_upd w' = w_upd w /\
  forall x, eth_mem (w_hw w') x = sent_frame td (hdr ++ d) (eth_mem (w_hw w)) x.
(** The stack is [s], or [s'] once the address was looked up, but for the memory of packets. *)
Definition ready_to_send (s s' : stack) (ds : list Z) (n : Z) (t : stack) (w : W) : Prop :=
  (exists k, t = set_net k s \/ t = set_net k s') /\
  DMATxDescToSet (if_eth (w_ethif w)) ∈ ds /\ tx_ring ds n (eth_mem (w_hw w)).

Lemma resolved_again s f dst mac s' : resolved s f dst mac s' -> resolved s' f dst mac s'.
Proof.
  intros Hr. pose proof Hr as Hr0. destruct Hr0 as [| |j e Hb Hm Hh Hok He Hst]; [done|done|].
  apply (to_host (set_cached_entry (Z.of_nat j) s) f dst j e); try done. destruct Hok as [Hl He' Hu Hc]. split; try done.
  cbn [etharp_cached_entry set_cached_entry]. destruct He as (Hj & _). apply lookup_lt_Some in Hj. unfold ARP_TABLE_SIZE. lia.
Qed.

(** etharp_output with the driver keeps the contract of an output function. *)
Lemma etharp_sends s n f dst size mac s' ds : netifs s !! n = Some f -> reachable s f dst size mac s' ->
  Sends call_output etharp_output_ptr n dst size (ready_to_send s s' ds (size + 14)) (framed (eth_header mac (hwaddr f))).
Proof.
  intros Hn [Hmtu Hsz Hout Hlink Hhw Hmac Hgw Hres]. destruct (resolved_same _ _ _ _ _ Hres) as [Hn' _]. split.
  - intros t w k [[k0 Ht] Hr]. split; [|done]. exists k. destruct Ht as [-> | ->]; [by left|by right].
  - intros t w bl h bh c o [[k0 Ht] [Hd Hring]] Ho Hty Hge Hoct Hlen. destruct w as [s0 e en u hw]. cbn [w_ethif w_hw] in *.
    set (d := DMATxDescToSet (if_eth e)) in *. unfold PBUF_LINK_HLEN in Hge.
    destruct (outgoing_lens _ _ _ _ _ _ Ho) as (Hb & Hl & Hpos & Hroom). pose proof (out_packet _ _ _ _ _ _ Ho) as (Htot & _ & _).
    assert (Ht2 : netifs t !! n = Some f /\ resolved t f dst mac (set_net (s_net t) s')).
    { destruct Ht as [-> | ->]; (split; [cbn; congruence|]); [exact (resolved_net s f dst mac s' _ Hres)|exact (resolved_net s' f dst mac s' _ (resolved_again _ _ _ _ _ Hres))]. }
    destruct Ht2 as [Hnt Hrest].
    enough (Hwp : wp (call_output etharp_output_ptr n (Some h) dst) (fun err w' => exists k h', err = ERR_OK /\
        w' = World (set_net k s') (driver_after (eth_mem hw) d e) en u h' /\ prepended (eth_header mac (hwaddr f)) h bh c (s_net t) bl k /\
        forall x, eth_mem h' x = sent_frame d (eth_header mac (hwaddr f) ++ contents (s_net t) ((h, bh) :: c)) (eth_mem hw) x) (put_stack t (World s0 e en u hw))).
    + apply wp_unfold in Hwp as (err & w' & Hrun & k & h' & -> & -> & Hk & Hm').
      assert (Hhl : Z.of_nat (length (eth_header mac (hwaddr f))) = 14) by (unfold eth_header; rewrite !length_app, (proj1 Hmac), (proj1 Hhw); done).
      pose proof (contents_length (s_net t) _ (out_readable _ _ _ _ _ _ Ho)) as Hcl.
      exists ERR_OK, k, s', (World (set_net k s') (driver_after (eth_mem hw) d e) en u h'), (shifted 14 bh). split; [exact Hrun|].
      split; [done|]. split; [|split; [destruct Ht as [-> | ->]; cbn; congruence|]].
      * split; [exists (s_net s'); right; by rewrite set_net_same|]. cbn [w_ethif w_hw]. split.
        -- unfold driver_after. destruct (tx_free _ _); [exact (ring_next _ _ _ Hring d Hd)|exact Hd].
        -- eapply tx_ring_sent; [exact Hring|exact Hd| |exact Hm']. rewrite length_app, Nat2Z.inj_add, Hhl, Hcl. cbn [data_len]. cbn in Htot. lia.
      * pose proof (prep_pbufs _ _ _ _ _ _ _ Hk) as Hkp. rewrite Hhl in Hkp. split; [apply Hk|]. split; [exact Hkp|]. split; [done|]. split; [done|].
        intros x b Hx Hxb. split; [by rewrite Hkp, lookup_insert_ne|]. intros y Hy. by apply (prep_others _ _ _ _ _ _ _ Hk x b).
    + apply (wp_etharp_output call_linkoutput bl h bh c o t _ n f low_level_output_ptr dst mac (set_net (s_net t) s'));
        [done|lia|lia|done|done|by destruct Hmac|by destruct Hhw|done|done|].
      intros k Hk. cbn [call_linkoutput]. change (set_net k (set_net (s_net t) s')) with (set_net k s').
      assert (Hhl : Z.of_nat (length (eth_header mac (hwaddr f))) = 14) by (unfold eth_header; rewrite !length_app, (proj1 Hmac), (proj1 Hhw); done).
      pose proof (outgoing_prepended _ (s_net t) bl h bh c o k Ho ltac:(rewrite Hhl; lia) Hk) as Ho2. rewrite Hhl in Ho2.
      pose proof (prep_contents _ _ _ _ _ _ _ Hk) as Hcont. rewrite Hhl in Hcont.
      assert (Hdl : data_len ((h, shifted 14 bh) :: c) = tot_len bh + 14) by (cbn; cbn in Htot; lia).
      apply (wp_low_level_output (set_net k s') e en u hw n h ((h, shifted 14 bh) :: c)); [apply Ho2..| | | | | |].
      * cbn [s_net set_net]. rewrite Hcont. apply byte_list_app; [|done]. unfold eth_header. destruct Hmac, Hhw. auto with octets.
      * lia.
      * by apply Hring.
      * rewrite Hdl. fold d. apply (in_ram_sub (le32 (eth_mem hw) (d + 8)) (size + 14)); [by apply (ring_buffer _ _ _ Hring)|lia|lia].
      * rewrite Hdl. fold d. pose proof (ring_apart _ _ _ Hring d d Hd Hd). lia.
      * intros h' Hm'. cbn [s_net set_net] in Hm'. rewrite Hcont in Hm'. by exists k, h'.
Qed.

(** C26. A packet that is too long for its interface is sent in fragments, in order, each in
    an Ethernet frame that is copied to the buffer of the next descriptor of the transmit
    ring (a descriptor that the DMA engine still owns is treated as low_level_output_sends
    says): each fragment carries the next piece of the data behind a header with the length
    and the offset of that piece and a new checksum, all but the last of the size of the
    interface and with the flag that more follow.  So it is if there is memory for the
    reference to the static buffer and for a link header, which every fragment gives back
    before the next one; otherwise nothing is sent, nothing is changed but the order of free
    elements, and the answer is ERR_MEM.  In both cases nothing is leaked, and the packet
    itself stays as it is.  The link address of the next hop is known, and the size of the
    interface is that of a header and a multiple of eight bytes. *)
Theorem ip_frag_sends s e en u h l p b c o n f dst mac s' ds (m := fun i => bytes_at (s_net s) p (o + i)) (d := contents (s_net s) ((p, b) :: c)) :
  net_ok (s_net s) l -> chain (pbufs (s_net s)) (Some p) ((p, b) :: c) -> NoDup ((p, b) :: c).*1 -> packet ((p, b) :: c) -> readable ((p, b) :: c) ->
  payload b = Some o -> IP_HLEN <= len b -> MemFacts.byte_list d -> IP_HLEN < tot_len b < 65536 ->
  netifs s !! n = Some f -> reachable s f dst (mtu f) mac s' -> 28 <= mtu f <= IP_FRAG_MAX_MTU -> (mtu f - IP_HLEN) mod 8 = 0 ->
  DMATxDescToSet (if_eth e) ∈ ds -> tx_ring ds (mtu f + 14) (eth_mem h) ->
  wp (ip_frag call_output p n dst) (fun r w' => exists k t' w1, w' = put_stack (set_net k t') w1 /\
      (if frag_memory (s_net s) l then r = ERR_OK /\ (t' = s \/ t' = s') /\ all_sent (framed (eth_header mac (hwaddr f))) (fragments_of f m d) (World s e en u h) w1
       else r = ERR_MEM /\ t' = s /\ w1 = World s e en u h) /\
      net_ok k l /\ pbufs k = pbufs (s_net s) /\ forall q bq, pbufs (s_net s) !! q = Some bq -> same_pbuf q bq (s_net s) k)
    (World s e en u h).
Proof.
  intros Hok Hc Hnd Hpk Hrd Ho Hl Hd Hsz Hn Hre Hmtu H8 Hcur Hring. pose proof (etharp_sends s n f dst (mtu f) mac s' ds Hn Hre) as Hsends.
  assert (Hb : pbufs (s_net s) !! p = Some b) by by destruct Hc as (_ & ? & _).
  destruct (nok_home _ _ Hok p b Hb) as (_ & [_ Hfit] & _). rewrite Ho in Hfit.
  assert (Hm : hdr_octets m).
  { intros i Hi. unfold d in Hd. cbn [contents] in Hd. rewrite (data_prefix _ _ _ o Ho) in Hd. apply Forall_app in Hd as [Hd _]. unfold IP_HLEN in Hl.
    apply (Forall_lookup_1 _ _ (Z.to_nat i) _ Hd). rewrite prefix_lookup by lia. f_equal. unfold m. do 2 f_equal. lia. }
  change (World s e en u h) with (put_stack s (World s e en u h)) at 3.
  apply (wp_ip_frag call_output etharp_output_ptr n dst (mtu f) (ready_to_send s s' ds (mtu f + 14)) (framed (eth_header mac (hwaddr f)))
    s (World s e en u h) l p b c o m f); try done; [lia|by apply Hre|split; [by exists (s_net s); left; rewrite set_net_same|done]|].
  intros k t' w' r Hok' Hk' Hs' _ Hres. destruct (frag_memory (s_net s) l).
  - destruct Hres as (-> & [(k0 & Ht) _] & _ & Hall). destruct Ht as [-> | ->]; [exists k, s, w'|exists k, s', w']; (split; [done|]); (split; [|done]); auto.
  - destruct Hres as (-> & -> & ->). by exists k, s, (World s e en u h).
Qed.
End transmit.

(** * The board on its network

    The interface that lwip_initialization sets up, the control block of
    udp_transmit_configuration, and the peer in the ARP cache. *)
Definition board_netif : netif :=
  Netif None LOCAL_IP NETMASK DEFAULT_GATEWAY (Some ethernet_input_ptr) (Some etharp_output_ptr) (Some low_level_output_ptr)
    None None 6 macaddress 1500 (Z.lor (Z.lor (Z.lor NETIF_FLAG_BROADCAST NETIF_FLAG_ETHARP) NETIF_FLAG_LINK_UP) NETIF_FLAG_UP) (101, 110) 0.
Definition peer_mac : list Z := [0x02; 0; 0; 0; 0; 0x01].
Definition peer_entry : etharp_entry := EtharpEntry None REMOTE_IP peer_mac ETHARP_STATE_STABLE 0 (Some the_netif).
Definition tx_pcb : udp_pcb := configured DEVICE_TX_PORT REMOTE_RX_PORT None.
Definition board_stack : stack :=
  set_arp_table (repeat etharp_entry_zero 3 ++ peer_entry :: repeat etharp_entry_zero 6)
    (set_pcbs {[ demo_p := tx_pcb ]} (set_netif_list (Some the_netif) (stack_zero fresh_net {[ the_netif := board_netif ]}))).
Definition three_bytes : list Z := [0x11; 0x22; 0x33].

Lemma board_cache : cache_ok board_stack.
Proof.
  split; [done| | |by vm_compute].
  - cbn. repeat (apply Forall_cons_2; [by split|]). apply Forall_nil_2.
  - assert (Honly : forall k z, arp_table board_stack !! k = Some z -> live z -> k = 3%nat).
    { intros k z Hk Hz. do 10 (destruct k as [|k]; [cbn in Hk; by simplify_eq|]). done. }
    intros i j x y Hi Hj Hl Hl' _. by rewrite (Honly i x), (Honly j y).
Qed.
Lemma board_sendable : sendable board_stack tx_pcb 3 board_netif peer_mac (set_cached_entry 3 board_stack).
Proof.
  split; [|split; by vm_compute|by right|done|done|done|by split; [|apply (bool_decide_unpack _); vm_compute]|
    by split; [|apply (bool_decide_unpack _); vm_compute]|done|].
  - exists [(the_netif, board_netif)], the_netif. split; [split; [by repeat split|apply (bool_decide_unpack _); by vm_compute]|done].
  - apply (to_host board_stack board_netif REMOTE_IP 3 peer_entry); try done. apply board_cache.
Qed.

Lemma transmit_sends_witness (e := demo_ethif) (h := one_desc 0) (s := board_stack) (d := DMATxDescToSet (if_eth e)) :
  wp (transmit set_p_tx (Some demo_p) (Z.of_nat (length three_bytes)) three_bytes) (fun _ w' => exists p nt h',
      w' = World (set_ip_id (u16 (ip_id s + 1)) (set_net nt (set_cached_entry 3 s))) (driver_after (eth_mem h) d e) (set_p_tx (Some p) enet_init) upd_init h' /\
      (forall x, eth_mem h' x = sent_frame d (udp_frame board_netif tx_pcb peer_mac (ip_id s) three_bytes) (eth_mem h) x) /\
      net_ok nt [(MEM_SIZE_ALIGNED, false)] /\ pbufs nt = pbufs (s_net s) /\ forall q b, pbufs (s_net s) !! q = Some b -> same_pbuf q b (s_net s) nt)
    (World s e enet_init upd_init h).
Proof.
  apply (transmit_sends set_p_tx board_stack demo_ethif enet_init upd_init (one_desc 0) demo_p tx_pcb [(MEM_SIZE_ALIGNED, false)]
    board_netif peer_mac (set_cached_entry 3 board_stack) three_bytes).
  - apply fresh_net_ok.
  - by vm_compute.
  - apply (bool_decide_unpack _). by vm_compute.
  - done.
  - apply board_sendable.
  - split; [by apply ram_range|by apply ram_range|by right].
Defined.
(** The frame, and the run of the program itself. *)
Example board_frame : udp_frame board_netif tx_pcb peer_mac 0 three_bytes =
  [0x02; 0; 0; 0; 0; 0x01; 0; 0x22; 0x11; 0x22; 0x11; 0x22; 8; 0;
   0x45; 0; 0; 31; 0; 0; 0; 0; 255; 17; 0; 0; 192; 168; 1; 3; 192; 168; 1; 4;
   0xC3; 0x52; 0xC3; 0x51; 0; 11; 0; 0; 0x11; 0x22; 0x33].
Proof. by vm_compute. Qed.
Example board_run :
  match transmit set_p_tx (Some demo_p) 3 three_bytes (World board_stack demo_ethif enet_init upd_init (one_desc 0)) with
  | Ret _ w => ram_bytes (sram_byte (w_hw w)) 0x20000100 45 = udp_frame board_netif tx_pcb peer_mac 0 three_bytes
  | _ => False
  end.
Proof. by vm_compute. Qed.

(** ** Four descriptors of 16 bytes from 0x20000000 on, with buffers of 64 bytes, and an
    interface for packets of 28 bytes *)
Definition four_descs : list Z := [0x20000000; 0x20000010; 0x20000020; 0x20000030].
Definition ring_of_four : sram := fun x =>
  foldr (fun j m => set32 (0x20000000 + 16 * j) 0 (set32 (0x20000008 + 16 * j) (0x20000100 + 64 * j)
    (set32 (0x2000000C + 16 * j) (0x20000000 + 16 * ((j + 1) mod 4)) m))) (fun _ => 0) [0; 1; 2; 3] x.
Lemma four_ring : tx_ring four_descs 42 (sram_byte ring_of_four).
Proof.
  assert (Hb : Forall (fun d => (0x20000000 <= d /\ d + 16 <= 0x20010000) /\ (0x20000000 <= le32 (sram_byte ring_of_four) (d + 8) /\ le32 (sram_byte ring_of_four) (d + 8) + 42 <= 0x20010000) /\
    le32 (sram_byte ring_of_four) (d + 12) ∈ four_descs) four_descs) by (apply (bool_decide_unpack _); by vm_compute).
  assert (Ha : Forall (fun d => Forall (fun d' => (le32 (sram_byte ring_of_four) (d + 8) + 42 <= d' \/ d' + 16 <= le32 (sram_byte ring_of_four) (d + 8)) /\
    (d' = d \/ d + 16 <= d' \/ d' + 16 <= d)) four_descs) four_descs) by (apply (bool_decide_unpack _); by vm_compute).
  rewrite list.Forall_forall in Hb, Ha. split; [intros d Hd; destruct (Hb d Hd) as ((? & ?) & (? & ?) & ?); by apply ram_range || done..| |];
    intros d d' Hd Hd'; specialize (Ha d Hd); rewrite list.Forall_forall in Ha; by apply (Ha d').
Qed.
Definition small_netif : netif := with_device 6 macaddress 28 (nif_flags board_netif) board_netif.
Definition small_board : stack :=
  set_arp_table (arp_table board_stack) (set_netif_list (Some the_netif) (stack_zero (ping_net 14 38) {[ the_netif := small_netif ]})).
Lemma small_reachable : reachable small_board small_netif REMOTE_IP 28 peer_mac (set_cached_entry 3 small_board).
Proof.
  split; [by right|done|done|done|by split; [|apply (bool_decide_unpack _); vm_compute]|by split; [|apply (bool_decide_unpack _); vm_compute]|done|].
  apply (to_host small_board small_netif REMOTE_IP 3 peer_entry); try done. by destruct board_cache.
Qed.

(** An echo request of 38 bytes. *)
Lemma ip_frag_sends_witness (s := small_board) (e := demo_ethif) (h := ring_of_four) (b := ping_pbuf 14 38) (l := [(MEM_SIZE_ALIGNED, false)])
    (m := fun i => bytes_at (s_net s) ping_ptr (14 + i)) (d := contents (s_net s) [(ping_ptr, b)]) :
  wp (ip_frag call_output ping_ptr the_netif REMOTE_IP) (fun r w' => exists k t' w1, w' = put_stack (set_net k t') w1 /\
      (if frag_memory (s_net s) l then r = ERR_OK /\ (t' = s \/ t' = set_cached_entry 3 s) /\
         all_sent (framed (eth_header peer_mac (hwaddr small_netif))) (fragments_of small_netif m d) (World s e enet_init upd_init h) w1
       else r = ERR_MEM /\ t' = s /\ w1 = World s e enet_init upd_init h) /\
      net_ok k l /\ pbufs k = pbufs (s_net s) /\ forall q bq, pbufs (s_net s) !! q = Some bq -> same_pbuf q bq (s_net s) k)
    (World s e enet_init upd_init h).
Proof.
  apply (ip_frag_sends small_board demo_ethif enet_init upd_init ring_of_four [(MEM_SIZE_ALIGNED, false)] ping_ptr (ping_pbuf 14 38) [] 14 the_netif
    small_netif REMOTE_IP peer_mac (set_cached_entry 3 small_board) four_descs);
    [by apply ping_net_ok|by repeat split|apply NoDup_singleton|by repeat split| |done|done| |done|done|apply small_reachable|done|done|by left|apply four_ring].
  - apply Forall_cons_2; [|apply Forall_nil_2]. split; [by split|by eexists].
  - apply (bool_decide_unpack _). by vm_compute.
Defined.
(** Three fragments with 8, 8 and 2 bytes, at the offsets 0, 1 and 2, in the first three buffers. *)
Example frag_of_ping :
  match ip_frag call_output ping_ptr the_netif REMOTE_IP (World small_board demo_ethif enet_init upd_init ring_of_four) with
  | Ret r w => (r, DMATxDescToSet (if_eth (w_ethif w)),
      map (fun j => let f := ram_bytes (sram_byte (w_hw w)) (0x20000100 + 64 * j) 42 in (firstn 8 (skipn 14 f), skipn 34 f)) [0; 1; 2])
  | _ => (ERR_MEM, 0, [])
  end = (ERR_OK, 0x20000030,
    [([69; 0; 0; 28; 0; 1; 32; 0], [8; 0; 247; 253; 0; 1; 0; 1]); ([69; 0; 0; 28; 0; 1; 32; 1], repeat 0 8); ([69; 0; 0; 22; 0; 1; 0; 2], repeat 0 8)]).
Proof. by vm_compute. Qed.
