(* ===== verification/EthRuns.v ===== *)
(** Runs of the firmware's receive interrupt on frames in the memory of the chip:
    the whole path from the DMA descriptor through the stack and back. *)
From stdpp Require Import gmap.
From S2P Require MemFacts.
From S2P Require Import Prelude Mmio EthDriver LwipMem LwipPbuf LwipInet LwipStack LwipEtharp LwipIpOut LwipIpSpec LwipFrag LwipUdp LwipUdpTheorems LwipTransmit.
From S2P Require Import EthIf EthSpec Updater Ethernet EthernetTheorems EthIfTheorems EthTransmit.

(** A chip that has received [frame] and its checksum: the receive descriptor at
    0x20000000 with its buffer at 0x20000100, the next one with the engine, the
    transmit descriptor at 0x20000020 with its buffer at 0x20000800. *)
Definition received (frame : list Z) : sram := fun x =>
  if (0x20000100 <=? x) && (x <? 0x20000800) then MemFacts.write_bytes 0x20000100 frame (fun _ => 0) x
  else set32 0x20000000 (0x00000300 + (Z.of_nat (length frame) + 4) * 2 ^ 16) (set32 0x20000008 0x20000100 (set32 0x2000000C 0x20000010
    (set32 0x20000010 0x80000000 (set32 0x20000020 0 (set32 0x20000028 0x20000800 (fun _ => 0)))))) x.
(** The board with its two control blocks; the peer is not known yet. *)
Definition quiet_stack : stack :=
  set_udp_pcbs (Some (rx_block 0 1).1) (set_pcbs {[ (tx_block 0).1 := (tx_block 0).2; (rx_block 0 1).1 := (rx_block 0 1).2 ]}
    (set_arp_table (repeat etharp_entry_zero 10) board_stack)).
Definition hearing (s : stack) (frame : list Z) : world sram :=
  World s (EthIf (EthGlobals 0x20000020 0x20000000 0 0) []) enet_init upd_init (received frame).
#[local] Existing Instance flat_layout.
Definition interrupt_in (s : stack) (frame : list Z) : outcome (world sram) unit := ETH_IRQHandler nobody 10 (hearing s frame).
Definition interrupt : list Z -> outcome (world sram) unit := interrupt_in quiet_stack.

(** What is in the frame buffer of the transmit descriptor, and is the descriptor
    with the engine? *)
Definition transmitted (n : nat) (r : outcome (world sram) unit) : option (bool * list Z) :=
  match r with
  | Ret _ w => Some (negb (tx_free (sram_byte (w_hw w)) 0x20000020), ram_bytes (sram_byte (w_hw w)) 0x20000800 n)
  | _ => None
  end.

(** An echo request of the peer is answered, and the peer is known afterwards. *)
Definition icmp_echo (type sum : Z) : list Z := [type; 0] ++ word2 sum ++ [0; 1; 0; 1].
Definition ip_frame (dst src : list Z) (ttl proto from to : Z) (data : list Z) : list Z :=
  eth_header dst src ++ ip_header 0 (20 + Z.of_nat (length data)) 7 0 ttl proto 0 from to ++ data.
Definition ping_frame : list Z := ip_frame macaddress peer_mac 64 IP_PROTO_ICMP REMOTE_IP LOCAL_IP (icmp_echo ICMP_ECHO 0xf7fd).
Example ping_answered :
  transmitted 42 (interrupt ping_frame) =
  Some (true, ip_frame peer_mac macaddress 255 IP_PROTO_ICMP LOCAL_IP REMOTE_IP (icmp_echo ICMP_ER 0)).
Proof. vm_compute. reflexivity. Qed.

(** The pbufs that a run leaves, the peer's link address, and the identification of
    the next packet. *)
Definition left_over (r : outcome (world sram) unit) : option (list (ptr * pbuf) * list (list Z) * Z) :=
  match r with
  | Ret _ w => Some (map_to_list (pbufs (s_net (w_stack w))),
      arp_ethaddr <$> filter (fun e => arp_ipaddr e = REMOTE_IP) (arp_table (w_stack w)), ip_id (w_stack w))
  | _ => None
  end.
Example ping_leaves : left_over (interrupt ping_frame) = Some ([], [peer_mac], 0).
Proof. vm_compute. reflexivity. Qed.

(** A request for the address of the board is answered. *)
Definition arp_frame (dst src : list Z) (op : Z) (smac : list Z) (sip : Z) (tmac : list Z) (tip : Z) : list Z :=
  dst ++ src ++ word2 ETHTYPE_ARP ++ word2 HWTYPE_ETHERNET ++ word2 ETHTYPE_IP ++ [6; 4] ++ word2 op ++ smac ++ bytes4 sip ++ tmac ++ bytes4 tip.
Example arp_answered :
  transmitted 42 (interrupt (arp_frame ethbroadcast peer_mac ARP_REQUEST peer_mac REMOTE_IP ethzero LOCAL_IP)) =
  Some (true, arp_frame peer_mac macaddress ARP_REPLY macaddress LOCAL_IP peer_mac REMOTE_IP).
Proof. vm_compute. reflexivity. Qed.

(** A datagram for a port that nobody listens on is answered with a message of ICMP
    that quotes its headers. *)
Definition udp_to (sport dport : Z) (data : list Z) : list Z :=
  ip_frame macaddress peer_mac 64 IP_PROTO_UDP REMOTE_IP LOCAL_IP (udp_header sport dport (8 + Z.of_nat (length data)) ++ data).
Example port_unreachable (r := transmitted 70 (interrupt (udp_to 5000 6000 [1; 2; 3]))) :
  option_map (fun x => (fst x, firstn 6 (snd x), firstn 8 (skipn 34 (snd x)), skipn 42 (snd x))) r =
  Some (true, peer_mac, [ICMP_DUR; ICMP_DUR_PORT] ++ [201; 105] ++ [0; 0; 0; 0],
        firstn 28 (skipn 14 (udp_to 5000 6000 [1; 2; 3]))).
Proof. vm_compute. reflexivity. Qed.

(** A datagram of the peer for the receive port stops the program: the callback takes
    its first argument, which is null, for the packet. *)
Example datagram_stops : interrupt (udp_to REMOTE_TX_PORT DEVICE_RX_PORT [1; 2; 3]) = Fault.
Proof. vm_compute. reflexivity. Qed.

(** A transmission to a peer that is not known yet: the board asks for the address, keeps the
    datagram, and sends it when the answer arrives; then nothing is left of it. *)
Definition asked : outcome (world sram) unit := transmit set_p_tx (Some (tx_block 0).1) 3 three_bytes (hearing quiet_stack []).
Example asks_first : transmitted 42 asked =
  Some (true, arp_frame ethbroadcast macaddress ARP_REQUEST macaddress LOCAL_IP ethzero REMOTE_IP).
Proof. vm_compute. reflexivity. Qed.
Definition peer_answers : list Z := arp_frame macaddress peer_mac ARP_REPLY peer_mac REMOTE_IP macaddress LOCAL_IP.
Definition answered : outcome (world sram) unit :=
  match asked with Ret _ w => interrupt_in (w_stack w) peer_answers | r => r end.
Example sends_then : transmitted 45 answered = Some (true, udp_frame board_netif tx_pcb peer_mac 0 three_bytes).
Proof. vm_compute. reflexivity. Qed.
Example keeps_nothing :
  (option_map (fun x => length (fst (fst x))) (left_over asked), left_over answered) = (Some 1%nat, Some ([], [peer_mac], 1)).
Proof. vm_compute. reflexivity. Qed.
