(* ===== verification/EthTcp.v ===== *)
(** TCP in the firmware: runs of the receive interrupt on frames with segments, the answer
    to a segment that nobody wants, and the transitions of its control blocks. *)
From stdpp Require Import gmap.
From S2P Require Import Prelude Mmio EthDriver LwipMem LwipPbuf LwipInet LwipStack LwipEtharp LwipIpOut LwipIpSpec LwipFrag LwipUdp LwipUdpTheorems LwipTransmit.
From S2P Require Import EthIf EthSpec Updater Ethernet EthernetTheorems EthIfTheorems EthTransmit EthRuns.
From S2P Require LwipTcpData LwipTcpOut LwipTcp LwipTcpIn.
From S2P Require Import LwipMemSpec LwipHeader LwipPbufSpec LwipPbufTheorems LwipIpSpec LwipIpTheorems LwipFragTheorems LwipTcpSpec LwipTcpStates LwipTcpRefuse.
#[local] Existing Instance flat_layout.

(** * Segments *)
Definition tcp_segment (sport dport sn an fl wnd : Z) (options data : list Z) : list Z :=
  word2 sport ++ word2 dport ++ word4 sn ++ word4 an ++ word2 ((5 + Z.of_nat (length options) / 4) * 2 ^ 12 + fl) ++ word2 wnd ++ [0; 0; 0; 0] ++ options ++ data.
Definition tcp_in (sport dport sn an fl : Z) (options data : list Z) : list Z :=
  ip_frame macaddress peer_mac 64 IP_PROTO_TCP REMOTE_IP LOCAL_IP (tcp_segment sport dport sn an fl 8192 options data).
Definition tcp_out (id sport dport sn an fl wnd : Z) (options : list Z) : list Z :=
  eth_header peer_mac macaddress ++ ip_header 0 (40 + Z.of_nat (length options)) id 0 255 IP_PROTO_TCP 0 LOCAL_IP REMOTE_IP
  ++ tcp_segment sport dport sn an fl wnd options [].
Notation FIN := 1. Notation SYN := 2. Notation RST := 4. Notation PSH := 8. Notation ACK := 16.

(** The firmware opens no port: a SYN is answered with a reset, a reset with nothing. *)
Example syn_refused : transmitted 54 (interrupt (tcp_in 4000 80 1000 0 SYN [] [])) =
  Some (true, tcp_out 0 80 4000 0 1001 (RST + ACK) 2920 []).
Proof. vm_compute. reflexivity. Qed.
Example reset_ignored : option_map fst (transmitted 54 (interrupt (tcp_in 4000 80 1000 0 RST [] []))) = Some false.
Proof. vm_compute. reflexivity. Qed.
Example nothing_left : left_over (interrupt (tcp_in 4000 80 1000 0 SYN [] [1; 2; 3])) = Some ([], [peer_mac], 1).
Proof. vm_compute. reflexivity. Qed.

(** * A connection *)

(** A program that listens on a port, and takes every connection without functions of
    its own: what arrives is acknowledged and dropped, and the connection is closed
    when the peer closes it. *)
Definition unset (_ : ptr) (_ : LwipTcpData.tcp_member) : Z := 0.
Definition serve (port : Z) : M (world sram) unit :=
  p ← LwipTcp.tcp_new call_output (ip_frag call_output) no_app;
  match p with
  | None => fault
  | Some p =>
      _ ← LwipTcp.tcp_bind p None port;
      l ← LwipTcp.tcp_listen_with_backlog unset p;
      match l with None => fault | Some l => LwipTcp.tcp_accept l None end
  end.
Definition serving : outcome (world sram) unit := serve 80 (hearing quiet_stack []).
Definition then_hears (r : outcome (world sram) unit) (frame : list Z) : outcome (world sram) unit :=
  match r with Ret _ w => interrupt_in (w_stack w) frame | r => r end.
Definition with_mss (mss : Z) : list Z := [2; 4] ++ word2 mss.

(** The connections, and the segments, pbufs and control blocks in use. *)
Definition connections (r : outcome (world sram) unit) :=
  match r with
  | Ret _ w =>
      let t := tcps (w_stack w) in
      Some ((fun x => LwipTcpData.state x.2) <$> map_to_list (LwipTcpData.tcp_tab t), size (LwipTcpData.seg_tab t),
            length (map_to_list (pbufs (s_net (w_stack w)))))
  | _ => None
  end.
Definition opened := then_hears serving (tcp_in 4000 80 1000 0 SYN (with_mss 1000) []).
Example syn_answered : (connections opened, transmitted 58 opened) =
  (Some ([LwipTcpData.SYN_RCVD; LwipTcpData.LISTEN], 1%nat, 1%nat), Some (true, tcp_out 0 80 4000 6510 1001 (SYN + ACK) 2920 (with_mss 1460))).
Proof. vm_compute. reflexivity. Qed.
(** The third segment opens the connection; data is acknowledged by the timer. *)
Definition accepted := then_hears opened (tcp_in 4000 80 1001 6511 ACK [] []).
Example handshake_done : connections accepted = Some ([LwipTcpData.ESTABLISHED; LwipTcpData.LISTEN], 0%nat, 0%nat).
Proof. vm_compute. reflexivity. Qed.
Definition got_data := then_hears accepted (tcp_in 4000 80 1001 6511 (ACK + PSH) [] [1; 2; 3]).
Definition timer_runs (r : outcome (world sram) unit) : outcome (world sram) unit :=
  match r with
  | Ret _ w => LwipTcp.tcp_tmr call_output (ip_frag call_output) no_app (hearing (w_stack w) [])
  | r => r
  end.
Example data_taken : (connections got_data, option_map fst (transmitted 54 got_data)) =
  (Some ([LwipTcpData.ESTABLISHED; LwipTcpData.LISTEN], 0%nat, 0%nat), Some false).
Proof. vm_compute. reflexivity. Qed.
Example data_acknowledged : transmitted 54 (timer_runs got_data) = Some (true, tcp_out 1 80 4000 6511 1004 ACK 2917 []).
Proof. vm_compute. reflexivity. Qed.
(** A segment that was received before is acknowledged again, one behind a hole is
    dropped with an acknowledgement of what is missing. *)
Example repeated : transmitted 54 (then_hears got_data (tcp_in 4000 80 1001 6511 (ACK + PSH) [] [1; 2; 3])) =
  Some (true, tcp_out 1 80 4000 6511 1004 ACK 2917 []).
Proof. vm_compute. reflexivity. Qed.
Example behind_hole : transmitted 54 (then_hears accepted (tcp_in 4000 80 1004 6511 (ACK + PSH) [] [4; 5])) =
  Some (true, tcp_out 1 80 4000 6511 1001 ACK 2920 []).
Proof. vm_compute. reflexivity. Qed.
(** The peer closes, and so does the board; the last acknowledgement frees the control block. *)
Definition peer_closed := then_hears got_data (tcp_in 4000 80 1004 6511 (ACK + FIN) [] []).
Example closes_too : (connections peer_closed, transmitted 54 peer_closed) =
  (Some ([LwipTcpData.LAST_ACK; LwipTcpData.LISTEN], 1%nat, 1%nat), Some (true, tcp_out 1 80 4000 6511 1005 (FIN + ACK) 2916 [])).
Proof. vm_compute. reflexivity. Qed.
Example connection_over : connections (then_hears peer_closed (tcp_in 4000 80 1005 6512 ACK [] [])) = Some ([LwipTcpData.LISTEN], 0%nat, 0%nat).
Proof. vm_compute. reflexivity. Qed.
(** A reset in the window ends the connection, one outside it does nothing. *)
Example reset_inside : connections (then_hears accepted (tcp_in 4000 80 3921 6511 RST [] [])) = Some ([LwipTcpData.LISTEN], 0%nat, 0%nat).
Proof. vm_compute. reflexivity. Qed.
Example reset_outside : connections (then_hears accepted (tcp_in 4000 80 3922 6511 RST [] [])) = Some ([LwipTcpData.ESTABLISHED; LwipTcpData.LISTEN], 0%nat, 0%nat).
Proof. vm_compute. reflexivity. Qed.

(** ** A program that connects and sends *)
Definition client (k : ptr -> M (world sram) Z) : M (world sram) unit :=
  p ← LwipTcp.tcp_new call_output (ip_frag call_output) no_app;
  match p with None => fault | Some p => _ ← k p; mret tt end.
Definition connecting : outcome (world sram) unit :=
  client (fun p => LwipTcp.tcp_connect call_output (ip_frag call_output) p (Some REMOTE_IP) 80 None) (hearing board_stack []).
Example syn_sent : (connections connecting, transmitted 58 connecting) =
  (Some ([LwipTcpData.SYN_SENT], 1%nat, 1%nat), Some (true, tcp_out 0 4097 80 6509 0 SYN 2920 (with_mss 1460))).
Proof. vm_compute. reflexivity. Qed.
Definition connected_to := then_hears connecting (tcp_in 80 4097 5000 6510 (SYN + ACK) (with_mss 1460) []).
Example syn_acknowledged : (connections connected_to, transmitted 54 connected_to) =
  (Some ([LwipTcpData.ESTABLISHED], 0%nat, 0%nat), Some (true, tcp_out 1 4097 80 6510 5001 ACK 2920 [])).
Proof. vm_compute. reflexivity. Qed.

(** The window of the peer is too small for the data, and the program closes: data and
    FIN wait.  An acknowledgement of what was sent is taken for one of the FIN. *)
Definition narrow (fl sn an : Z) (options : list Z) : list Z :=
  ip_frame macaddress peer_mac 64 IP_PROTO_TCP REMOTE_IP LOCAL_IP (tcp_segment 80 4097 sn an fl 5 options []).
Definition closes_early : outcome (world sram) unit :=
  match then_hears connecting (narrow (SYN + ACK) 5000 6510 (with_mss 1460)) with
  | Ret _ w =>
      let p := InPool MEMP_TCP_PCB 9 in
      (_ ← LwipTcpOut.tcp_write p (repeat 7 10) 10 1; _ ← LwipTcp.tcp_close call_output (ip_frag call_output) p; mret tt) (hearing (w_stack w) [])
  | r => r
  end.
Example fin_waits : (connections closes_early, option_map fst (transmitted 54 closes_early)) =
  (Some ([LwipTcpData.FIN_WAIT_1], 2%nat, 2%nat), Some false).
Proof. vm_compute. reflexivity. Qed.
Example unsent_fin_acknowledged : connections (then_hears closes_early (narrow ACK 5001 6510 [])) =
  Some ([LwipTcpData.FIN_WAIT_2], 2%nat, 2%nat).
Proof. vm_compute. reflexivity. Qed.

(** * A segment that nobody wants *)
Section refused.
Import LwipTcpData LwipTcpOut LwipTcp LwipTcpIn.
Context {H : Type} `{EthBus H} `{PtrAddr}.
Notation W := (world H).

(** Where the answer to [src] goes. *)
Record answerable (s : stack) (l : list block) (src : Z) (f : netif) (mac : list Z) (s' : stack) : Prop := {
  an_memory : has_memory (s_net s) l PBUF_IP TCP_HLEN PBUF_RAM = true;
  an_route : exists li n, interfaces s li /\ (forall d, netif_default s = Some d -> is_Some (netifs s !! d)) /\
    route src li (default_of s) = Some n /\ netifs s !! n = Some f;
  an_reach : reachable s f src 40 mac s'
}.
(** The frame of the reset that goes from [local] to [remote]. *)
Definition reset_frame (f : netif) (mac : list Z) (id local remote sn an lport rport : Z) : list Z :=
  eth_header mac (hwaddr f)
  ++ ip_header 0 40 id 0 TCP_TTL IP_PROTO_TCP 0 (if ip_addr_isany (Some local) then nif_ip_addr f else local) remote
  ++ rst_segment sn an lport rport.

Lemma byte_list_word4 v : MemFacts.byte_list (word4 v).
Proof. repeat (apply Forall_cons_2; [apply MemFacts.byte_of_range|]). apply Forall_nil_2. Qed.
#[local] Hint Resolve byte_list_word4 : octets.
#[local] Hint Extern 3 (_ <= _ < _) => by vm_compute : octets.

Lemma wp_send_reset s e en u h l f mac s' local remote sn an lport rport (d := DMATxDescToSet (if_eth e)) (Q : unit -> W -> Prop) :
  net_ok (s_net s) l -> answerable s l remote f mac s' -> tx_room e h 54 ->
  (forall nt h', net_ok nt l -> pbufs nt = pbufs (s_net s) -> (forall q b, pbufs (s_net s) !! q = Some b -> same_pbuf q b (s_net s) nt) ->
     (forall x, eth_mem h' x = sent_frame d (reset_frame f mac (ip_id s) local remote sn an lport rport) (eth_mem h) x) ->
     Q tt (World (set_ip_id (u16 (ip_id s + 1)) (set_net nt s')) (driver_after (eth_mem h) d e) en u h')) ->
  wp (tcp_rst call_output (ip_frag call_output) sn an local remote lport rport) Q (World s e en u h).
Proof.
  intros Hok [Hmem (li & n & Hli & Hdef & Hroute & Hn) Hreach] Hroom HQ. change (World s e en u h) with (put_stack s (World s e en u h)).
  apply (wp_tcp_rst _ _ s _ l li n f); [done..|]. intros i b s1 l1 o k k2 flags p Hal Htot Ho Hv Hout Hdata Hk2.
  set (ip := ip_header 0 40 _ 0 _ _ 0 _ _) in Hk2. assert (Hlen : Z.of_nat (length ip) = 20) by done.
  pose proof (outgoing_prepended ip k l1 p b [] o k2 Hout ltac:(lia) Hk2) as Hout2. rewrite Hlen in Hout2.
  assert (Hcont : contents k2 [(p, shifted 20 b)] = ip ++ rst_segment sn an lport rport).
  { pose proof (prep_contents _ _ _ _ _ _ _ Hk2) as Hc. rewrite Hlen, Hdata in Hc. exact Hc. }
  replace 40 with (tot_len (shifted 20 b)) by (cbn; unfold TCP_HLEN in Htot; lia).
  apply (wp_frame_out (set_ip_id (u16 (ip_id s + 1)) (set_net k2 s)) e en u h l1 p (shifted 20 b) (o - 20) n f remote mac
    (set_ip_id (u16 (ip_id s + 1)) (set_net k2 s'))).
  - exact Hout2.
  - lia.
  - change (MemFacts.byte_list (contents k2 [(p, shifted 20 b)])). rewrite Hcont. unfold ip, ip_header, rst_segment. auto 20 with octets.
  - done.
  - replace (tot_len (shifted 20 b)) with 40 by (cbn; unfold TCP_HLEN in Htot; lia). by apply reachable_id, reachable_net.
  - by replace (tot_len (shifted 20 b) + 14) with 54 by (cbn; unfold TCP_HLEN in Htot; lia).
  - intros k3 h' Hk3 Hm'. cbn [s_net set_net set_ip_id] in Hk3, Hm'. rewrite Hcont in Hm'.
    assert (Hhdr : Z.of_nat (length (eth_header mac (hwaddr f))) = 14).
    { destruct Hreach as [_ _ _ _ [Hh _] [Hmc _] _ _]. unfold eth_header. by rewrite !length_app, Hmc, Hh. }
    pose proof (outgoing_prepended _ _ _ _ _ _ _ _ Hout2 ltac:(rewrite Hhdr; lia) Hk3) as Hout3. rewrite Hhdr in Hout3.
    assert (Hr1 : ref b = 1) by (pose proof (added_ref1 _ _ _ _ (alloc_added _ _ _ _ _ _ _ _ Hal)) as Hr1; by apply Forall_cons_1 in Hr1 as [? _]).
    apply wp_world_net, (wp_pbuf_free _ [(p, shifted 14 (shifted 20 b))] _ l1); [apply Hout3|apply Hout3|apply NoDup_singleton|]. intros nt Hf.
    destruct (alloc_change_free (s_net s) s1 k3 nt l l1 TCP_HLEN p b (shifted 14 (shifted 20 b))) as (Hok' & Hp' & Hb'); try done.
    + rewrite (prep_pbufs _ _ _ _ _ _ _ Hk3), Hhdr, (prep_pbufs _ _ _ _ _ _ _ Hk2), Hlen, (view_pbufs _ _ _ _ _ _ Hv). by rewrite insert_insert_eq.
    + intros q c y Hq Hne Hy. assert (Hqk : pbufs k !! q = Some c) by by rewrite (view_pbufs _ _ _ _ _ _ Hv).
      rewrite (prep_others _ _ _ _ _ _ _ Hk3 q c y), (prep_others _ _ _ _ _ _ _ Hk2 q c y), (view_others _ _ _ _ _ _ Hv q c y); try done.
      by rewrite (prep_pbufs _ _ _ _ _ _ _ Hk2), lookup_insert_ne.
    + by apply HQ.
Qed.

(** C29. The firmware refuses every connection: while no program opens a port, a segment for
    the board that comes with a valid header is freed with its packet; unless it carries
    RST, the frame buffer of the current transmit descriptor holds, byte for byte, the reset
    that answers it - the ports and addresses exchanged, the sequence number that the segment
    acknowledges, and an acknowledgement of all that it carries, SYN and FIN included; no
    control block is made, and besides the freed packet, the variables of tcp_input, the
    identification and the cached entry of ARP nothing changes.  The heap has room for a
    reset and the link address of the peer is known (which is supposed of a segment with
    RST as well). *)
Theorem unwanted_segment_refused s e en u h l p b c o m inp f f' mac s' (tc := input_vars b p o m (tcps s)) (d := DMATxDescToSet (if_eth e))
    (b' := shifted (- sg_hidden m) b) :
  segment (s_net s) l p b c o m -> netifs s !! inp = Some f -> ip_addr_isbroadcast (le32 m ip_dest) f || ip_addr_ismulticast (le32 m ip_dest) = false ->
  no_blocks (tcps s) -> answerable s l (le32 m ip_src) f' mac s' -> tx_room e h 54 ->
  wp (tcp_input call_output (ip_frag call_output) no_app p inp) (fun _ w' => exists nk nt,
      pbufs nk = <[p := b']> (pbufs (s_net s)) /\
      (forall q x y, pbufs (s_net s) !! q = Some x -> q <> p -> 0 <= y < room x -> bytes_at nk q y = bytes_at (s_net s) q y) /\
      freed ((p, b') :: c) nk l nt /\
      if has (sg_flags m) TCP_RST then w' = World (set_net nt (set_tcps tc s)) e en u h
      else exists h', w' = World (set_ip_id (u16 (ip_id s + 1)) (set_net nt (set_tcps tc s'))) (driver_after (eth_mem h) d e) en u h' /\
        forall x, eth_mem h' x = sent_frame d (reset_frame f' mac (ip_id s) (le32 m ip_dest) (le32 m ip_src)
          (globals tc ackno) (globals tc seqno + globals tc tcplen) (htons (le16 m (ihl m + tcp_dest))) (htons (le16 m (ihl m + tcp_src)))) (eth_mem h) x)
    (World s e en u h).
Proof.
  intros Hsg Hn Huni Hnone Han Hroom. change (World s e en u h) with (put_stack s (World s e en u h)).
  apply (wp_tcp_input_refused _ _ _ s _ l p b c o m inp f); [done..|]. intros k Hv.
  destruct (outgoing_lens _ _ _ _ _ _ (sg_out _ _ _ _ _ _ _ Hsg)) as (Hb & Hl & _).
  pose proof (sg_headers _ _ _ _ _ _ _ Hsg) as (Hx1 & Hx2 & Hx3). destruct (sg_out _ _ _ _ _ _ _ Hsg) as [Hok Hc Hnd _ _ _ Hpay].
  assert (Hk : pbufs k = <[p := b']> (pbufs (s_net s))) by by rewrite (view_pbufs _ _ _ _ _ _ Hv).
  assert (Hothers : forall q x y, pbufs (s_net s) !! q = Some x -> q <> p -> 0 <= y < room x -> bytes_at k q y = bytes_at (s_net s) q y).
  { intros q x y Hq Hne Hy. rewrite (view_others _ _ _ _ _ _ Hv q x y); [by destruct q|by cbn; rewrite lookup_insert_ne|done|done]. }
  assert (Hdrop : forall nk x e1 h1 (Q : unit -> W -> Prop), net_ok nk l -> pbufs nk = <[p := b']> (pbufs (s_net s)) ->
    (forall nt, freed ((p, b') :: c) nk l nt -> Q tt (World (set_net nt x) e1 en u h1)) -> wp (drop p) Q (World (set_net nk x) e1 en u h1)).
  { intros nk x e1 h1 Q Hok' Hp' HQ. apply wp_bind, wp_world_net, (wp_pbuf_free _ ((p, b') :: c) _ l); [done| |done|].
    - cbn [s_net set_net]. rewrite Hp'. destruct Hc as (_ & _ & Hc). split; [done|]. split; [apply lookup_insert_eq|].
      eapply chain_frame; [|exact Hc]. intros q Hq. apply lookup_insert_ne. intros ->. by apply nodup_cons in Hnd as [? _].
    - intros nt Hf. apply wp_ret. by apply HQ. }
  fold tc. change (put_stack (set_net k (set_tcps tc s)) _) with (World (set_net k (set_tcps tc s)) e en u h).
  destruct (has (sg_flags m) TCP_RST); cbn [negb].
  - apply wp_ret, Hdrop; [apply Hv|done|]. intros nt Hf. by exists k, nt.
  - destruct Han as [Hmem Hroute Hreach]. apply (wp_send_reset (set_net k (set_tcps tc s)) e en u h l f' mac (set_net k (set_tcps tc s'))); [apply Hv| |done|].
    { split; [done|exact Hroute|by apply reachable_net, reachable_tcps]. }
    intros nt h' Hok' Hp' Hb' Hm'. change (set_ip_id ?i (set_net nt (set_net k ?x))) with (set_net nt (set_ip_id i x)).
    apply Hdrop; [done|by rewrite Hp'|]. intros nt' Hf. exists nt, nt'. split; [by rewrite Hp'|]. split; [|split; [exact Hf|by exists h']].
    intros q x y Hq Hne Hy. rewrite <- (Hothers q x y) by done. apply (Hb' q x); [|done]. cbn. by rewrite Hk, lookup_insert_ne.
Qed.
End refused.

(** A SYN of the peer, in a pbuf of the pool. *)
Section refused_witness.
Import LwipTcpData LwipTcpOut LwipTcpIn.
Definition syn_frame : list Z := tcp_in 4000 80 1000 0 SYN [] [].
Definition syn_bytes (i : Z) : Z := nth (Z.to_nat i) syn_frame 0.
Definition syn_stack : stack := set_net (set_pool MEMP_PBUF_POOL 9 syn_bytes (ping_net 14 40)) board_stack.
Definition syn_header (i : Z) : Z := syn_bytes (14 + i).
Lemma syn_segment : segment (s_net syn_stack) [(MEM_SIZE_ALIGNED, false)] ping_ptr (ping_pbuf 14 40) [] 14 syn_header.
Proof.
  split; [|done| |by vm_compute|done].
  - split; [|by repeat split|apply (bool_decide_unpack _); by vm_compute| | |by right|done].
    + destruct (ping_net_ok 14 40); [lia..|]. by split.
    + split; [done|]. split; [done|done].
    + apply Forall_cons_2; [|apply Forall_nil_2]. split; [by split|by eexists].
  - intros i _. unfold syn_header, syn_bytes. assert (Hf : Forall (fun v => 0 <= v < 2 ^ 8) syn_frame) by (apply (bool_decide_unpack _); by vm_compute).
    destruct (nth_in_or_default (Z.to_nat (14 + i)) syn_frame 0) as [Hin | ->]; [|done]. by apply (proj1 (List.Forall_forall _ _) Hf).
Qed.
Lemma syn_answerable : answerable syn_stack [(MEM_SIZE_ALIGNED, false)] (le32 syn_header ip_src) board_netif peer_mac (set_cached_entry 3 syn_stack).
Proof.
  split; [by vm_compute| |].
  - exists [(the_netif, board_netif)], the_netif. split; [split; [by repeat split|apply (bool_decide_unpack _); by vm_compute]|done].
  - replace (le32 syn_header ip_src) with REMOTE_IP by by vm_compute. destruct board_sendable as [_ _ _ _ _ _ Hh Hm _ Hr].
    split; [by right|done|done|done|done|done|done|]. exact (resolved_net _ _ _ _ _ _ Hr).
Qed.
Lemma unwanted_segment_refused_witness (s := syn_stack) (p := ping_ptr) (b := ping_pbuf 14 40) (m := syn_header) (tc := input_vars b p 14 m (tcps s))
    (e := demo_ethif) (h := one_desc 0) (d := DMATxDescToSet (if_eth e)) (b' := shifted (- sg_hidden m) b) :
  wp (tcp_input call_output (ip_frag call_output) no_app p the_netif) (fun _ w' => exists nk nt,
      pbufs nk = <[p := b']> (pbufs (s_net s)) /\
      (forall q x y, pbufs (s_net s) !! q = Some x -> q <> p -> 0 <= y < room x -> bytes_at nk q y = bytes_at (s_net s) q y) /\
      freed [(p, b')] nk [(MEM_SIZE_ALIGNED, false)] nt /\
      if has (sg_flags m) LwipTcpData.TCP_RST then w' = World (set_net nt (set_tcps tc s)) e enet_init upd_init h
      else exists h', w' = World (set_ip_id (u16 (ip_id s + 1)) (set_net nt (set_tcps tc (set_cached_entry 3 s)))) (driver_after (eth_mem h) d e) enet_init upd_init h' /\
        forall x, eth_mem h' x = sent_frame d (reset_frame board_netif peer_mac (ip_id s) (le32 m ip_dest) (le32 m ip_src)
          (globals tc ackno) (globals tc seqno + globals tc tcplen) (htons (le16 m (ihl m + LwipTcpOut.tcp_dest))) (htons (le16 m (ihl m + LwipTcpOut.tcp_src)))) (eth_mem h) x)
    (World s e enet_init upd_init h).
Proof.
  apply (unwanted_segment_refused syn_stack demo_ethif enet_init upd_init (one_desc 0) [(MEM_SIZE_ALIGNED, false)] ping_ptr (ping_pbuf 14 40) [] 14 syn_header
    the_netif board_netif board_netif peer_mac (set_cached_entry 3 syn_stack)).
  - exact syn_segment.
  - done.
  - by vm_compute.
  - by intros [].
  - exact syn_answerable.
  - split; [by apply ram_range|by apply ram_range|by right].
Defined.
(** It is answered with the frame that the run of the interrupt handler leaves. *)
Example syn_reset : let tc := input_vars (ping_pbuf 14 40) ping_ptr 14 syn_header (tcps syn_stack) in
  reset_frame board_netif peer_mac 0 (le32 syn_header ip_dest) (le32 syn_header ip_src) (globals tc ackno) (globals tc seqno + globals tc tcplen) 80 4000
  = tcp_out 0 80 4000 0 1001 (RST + ACK) 2920 [].
Proof. by vm_compute. Qed.
End refused_witness.

(** * The transitions, in the firmware *)
Section blind.
Context {H : Type} `{Bus H} `{PtrAddr}.
Notation W := (world H).
Lemma keeps_on_eth {A} (m : M (ethif * H) A) P : keeps (over (W := W) P) (on_eth m).
Proof. intros w a w' HP. unfold on_eth. destruct (m _) as [x [g h]| |]; [|done..]. by intros [= _ <-]. Qed.
Local Hint Resolve keeps_on_eth : keeps_db.
Local Hint Extern 1 (keeps _ (on_net _)) => apply keeps_on_net : keeps_db.
Lemma keeps_call_linkoutput P f n q : keeps (over (W := W) P) (call_linkoutput f n q).
Proof. destruct f. unfold call_linkoutput, low_level_output, gather_body. keeps_steps. Qed.
#[export] Instance firmware_tcp_blind : tcp_blind (W := W) call_output (ip_frag call_output).
Proof. apply tcp_blind_frag. intros P [] n [q|] d; [|apply keeps_fault]. apply keeps_etharp_output, keeps_call_linkoutput. Qed.
End blind.

Section transitions.
Import LwipTcpData LwipTcpOut LwipTcp LwipTcpIn.
Context {H : Type} `{Bus H} `{PtrAddr}.
Notation W := (world H).

End transitions.

Section witness.
Import LwipTcpData LwipTcpOut LwipTcp LwipTcpIn.
End witness.
