(* ===== verification/EthReceive.v ===== *)
(** A datagram from the receive descriptor to the callback of ethernet.c: the
    composition of the driver, the stack and the application. *)
From stdpp Require Import gmap.
From S2P Require MemFacts LwipIpInput.
From S2P Require Import Prelude Mmio EthDriver LwipMem LwipMemSpec LwipPbuf LwipPbufSpec LwipPbufTheorems LwipPbufOwn LwipInet LwipInetTheorems LwipStack LwipStackSpec LwipHeader.
From S2P Require Import LwipEtharp LwipEtharpSpec LwipNetif LwipIpOut LwipIpSpec LwipIpTheorems LwipFrag LwipUdp LwipRaw LwipUdpTheorems LwipReceive LwipTransmit.
From S2P Require Import EthIf EthSpec Updater Ethernet EthIfTheorems EthernetTheorems EthTransmit EthRuns.

(** A whole frame of [k] bytes at the head of the ring. *)
Section rx.
Context {H : Type} `{EthBus H} `{PtrAddr}.
Record frame_ready (m : Z -> Z) (d k : Z) : Prop := {
  fd_desc : desc_ram d /\ d <> 0;
  fd_whole : rx_whole m d = true;
  fd_length : rx_length m d = k /\ 0 <= k < 65536;
  fd_buffer : in_ram (le32 m (d + 8)) k
}.
Lemma frame_ready_ext m m' d k : (forall x, m' x = m x) -> frame_ready m d k -> frame_ready m' d k.
Proof. intros Hm [Hd Hw Hl Hb]. split; [done| | |]; unfold rx_whole, rx_length in *; by rewrite !(le32_mem _ _ _ Hm). Qed.

Lemma wp_GetRxPktSize_some g h k (Q : Z -> eth_globals * H -> Prop) : frame_ready (eth_mem h) (DMARxDescToGet g) k ->
  (forall n h', n <> 0 -> (forall x, eth_mem h' x = eth_mem h x) -> Q n (g, h')) -> wp ETH_GetRxPktSize Q (g, h).
Proof.
  intros [[Hd _] Hw [Hl Hk] _] HQ. set (d := DMARxDescToGet g) in *. set (m := eth_mem h) in *. unfold rx_whole in Hw.
  rewrite !andb_true_iff, !negb_true_iff in Hw. destruct Hw as [[[Hown Hes] Hls] Hfs].
  assert (Hst : in_ram (Status d) 4) by by apply desc_status.
  apply wp_bind, wp_getg. fold d.
  apply wp_bind, wp_lift, (wp_rd_word m); [done|done|]. intros h1 Hm1. unfold Status at 1. rewrite Hown.
  apply wp_bind, wp_lift, (wp_rd_word m); [done|done|]. intros h2 Hm2. unfold Status at 1. rewrite Hes.
  apply wp_bind, wp_lift, (wp_rd_word m); [done|done|]. intros h3 Hm3. unfold Status at 1. rewrite Hls. cbn [negb].
  apply wp_bind, wp_lift, (wp_rd_word m); [done|done|]. intros h4 Hm4. unfold Status at 1. rewrite Hfs. cbn [negb].
  apply wp_lift, wp_bind, (wp_rd_word m); [done|done|]. intros h5 Hm5. apply wp_ret, HQ; [|done].
  unfold rx_length in Hl. unfold Status. change ETH_DMARXDESC_FRAME_LENGTHSHIFT with ETH_DMARxDesc_FrameLengthShift. lia.
Qed.
End rx.

(** A delivered packet is a frame for the stack. *)
Lemma delivered_frame s l p c nt data (k := Z.of_nat (length data)) : net_ok nt l -> delivered data s nt p c -> 34 <= k < 65536 ->
  MemFacts.byte_list data ->
  exists b c0, c = (p, b) :: c0 /\ frame_in nt l p b c0 0 (bytes_at nt p) /\ len b = Z.min k 1500 /\ tot_len b = k /\
    forall i, 0 <= i < len b -> data !! Z.to_nat i = Some (bytes_at nt p i).
Proof.
  intros Hok [Hc Hpk Hdata Hnew _ _ Hnd Hrd Hty Hhd] Hk Hoct. pose proof (contents_length nt c Hrd) as Hlen. rewrite Hdata in Hlen. fold k in Hlen.
  destruct c as [|[q b] c0]; [cbn in Hlen; lia|]. destruct (Hc) as ([= <-] & Hb & _). injection (Hhd b c0 eq_refl) as Hpay Hroom Hl. fold k in Hl.
  pose proof Hpk as (Htot & _ & _). cbn [data_len] in Hlen.
  assert (Htb : type b = PBUF_POOL) by (apply Forall_cons_1 in Hty; by destruct Hty).
  assert (Hat : forall i, 0 <= i < len b -> data !! Z.to_nat i = Some (bytes_at nt p i))
    by (intros i Hi; rewrite <- Hdata; by apply (contents_at nt p b c0 0)).
  exists b, c0. split; [done|]. split; [|by repeat split; try lia]. split; [split; try done; by right|done| |lia|done| |lia].
  - rewrite list.Forall_forall in Hnew. unfold readable in Hrd. rewrite list.Forall_forall in Hrd. apply list.Forall_forall. intros x Hx. split; [by apply Hnew|]. intros _. by apply Hrd.
  - intros i Hi. unfold SIZEOF_ETH_HDR. assert (Hd : data !! Z.to_nat (14 + i) = Some (bytes_at nt p (14 + i))) by (apply Hat; lia).
    by apply (Forall_lookup_1 _ _ _ _ Hoct) in Hd.
Qed.

(** * The first datagram *)
Section datagrams.
Context {H : Type} `{EthBus H} `{PtrAddr}.
Variable rest : others (world H).
Notation W := (world H).

(** Both callbacks read through the argument they were registered with. *)
Lemma callback_null fn q p addr port (w : W) : call_recv fn None q p addr port w = Fault.
Proof. by destruct fn. Qed.

(** The packet of a frame of [k] bytes, at its IP header: what fits into the first
    pbuf of the pool. *)
Definition head_pbuf (k : Z) : pbuf := Pbuf None (Some 14) (k - 14) (Z.min k 1500 - 14) PBUF_POOL 0 1 1500.

(** A whole frame at the head of the ring with a datagram for the control block
    [ub], whose callback has no argument. *)
Record datagram_ready (s : stack) (e : ethif) (h : H) (l : list block) (k : Z) (f : netif) (q : ptr) (ub : udp_pcb) (fn : recv_fn)
    (m : Z -> Z) : Prop := {
  dr_ok : net_ok (s_net s) l;
  dr_frame : frame_ready (eth_mem h) (DMARxDescToGet (if_eth e)) k;
  dr_bytes : forall i, m i = eth_mem h (le32 (eth_mem h) (DMARxDescToGet (if_eth e) + 8) + i);
  dr_room : pool_elements PBUF_RAW k <= Z.of_nat (length (memp_tab (s_net s) MEMP_PBUF_POOL));
  dr_input : nif_input f = Some ethernet_input_ptr;
  dr_type : htons (le16 m eth_type) = ETHTYPE_IP;
  dr_cache : idle_cache s;
  dr_block : for_block s the_netif f (fun i => m (SIZEOF_ETH_HDR + i)) (head_pbuf k) q ub;
  dr_callback : recv ub = Some fn /\ recv_arg ub = None
}.
Lemma datagram_ready_mem s e h h' l k f q ub fn m : (forall x, eth_mem h' x = eth_mem h x) ->
  datagram_ready s e h l k f q ub fn m -> datagram_ready s e h' l k f q ub fn m.
Proof.
  intros Hm [Hok Hfr Hb]. split; try done; [by eapply frame_ready_ext|]. intros i. rewrite Hb, Hm. by rewrite (le32_mem _ _ _ Hm).
Qed.

Lemma fault_bind {A B} (x : M W A) (g : A -> M W B) w : reaches x w (eq Fault) -> reaches (x ≫= g) w (eq Fault).
Proof. unfold reaches, mbind, M_bind. by intros <-. Qed.
Lemma input_faults s e n u h l k f q ub fn m : datagram_ready s e h l k f q ub fn m ->
  reaches (ethernetif_input (call_input rest) the_netif) (World s e n u h) (eq Fault).
Proof.
  intros [Hok [[Hd Hd0] Hw [Hlen Hk] Hbuf] Hbytes Hroom Hin Htype Hidle Hfb [Hfn Harg]]. pose proof (fb_headers _ _ _ _ _ _ _ Hfb) as Hx.
  unfold IP_HLEN, UDP_HLEN in Hx. cbn [len head_pbuf] in Hx.
  apply reach_bind. eapply wp_mono; [apply (low_level_input_frame s e n u h the_netif l); [done..|by rewrite Hlen|by rewrite Hlen]|].
  intros r w' (nt & h' & -> & _ & Hnt & Hr). rewrite Hlen in Hr. rewrite (proj2 (Z.leb_le _ _)) in Hr by done. destruct Hr as (p & c & -> & Hdlv).
  set (data := ram_bytes _ _ _) in Hdlv. assert (Hdl : Z.of_nat (length data) = k) by (unfold data, ram_bytes; rewrite length_fmap, length_seq; lia).
  assert (Hoct : MemFacts.byte_list data) by (apply list.Forall_fmap, Forall_true; intros i; apply eth_bytes).
  destruct (delivered_frame _ l _ _ _ _ Hnt Hdlv) as (b & c0 & -> & Hfr & Hl & Ht & Hat); [lia|done|]. rewrite Hdl in Hl, Ht.
  assert (Hm : forall i, 0 <= i < len b -> bytes_at nt p i = m i).
  { intros i Hi. specialize (Hat i Hi). unfold data, ram_bytes in Hat. rewrite list_lookup_fmap, lookup_seq_lt in Hat by lia. injection Hat as <-.
    rewrite Hbytes. do 2 f_equal. lia. }
  set (t := set_net nt s). set (e' := set_if_eth _ e).
  apply (for_block_ext _ _ _ _ (fun i => bytes_at nt p (SIZEOF_ETH_HDR + i)) _ (shifted (- SIZEOF_ETH_HDR) b) _ _ nt) in Hfb;
    [|cbn; unfold SIZEOF_ETH_HDR; lia|cbn; unfold SIZEOF_ETH_HDR; lia|intros i Hi; unfold SIZEOF_ETH_HDR in *; apply Hm; lia]. fold t in Hfb.
  destruct (ethernet_udp_run call_linkoutput (dhcp_decline rest) call_output (ip_frag call_output) call_recv (ip_reass call_output) call_raw (LwipTcpIn.tcp_input call_output (ip_frag call_output) no_app)
    t (World s e' n u h') l p b c0 0 (bytes_at nt p) the_netif f q ub fn) as (i & tab & pl & pm & k' & c' & l' & _ & Hrun); [done| | |done|done|].
  { by destruct Hidle. }
  { by rewrite (MemFacts.le16_ext _ m) by (apply Hm; unfold eth_type; lia). }
  change (World t e' n u h') with (put_stack t (World s e' n u h')).
  apply reach_bind, (wp_get_netif _ f); [by destruct Hfb|]. rewrite Hin. cbn [call_input].
  unfold reaches, mbind, M_bind. rewrite Hrun. unfold mbind, M_bind. by rewrite Harg, callback_null.
Qed.

(** C9. The first datagram stops the firmware.  When a whole frame in the receive buffer carries a
    datagram for a control block whose callback was registered without an argument,
    as udp_configuration registers both, the interrupt handler does not return:
    the driver, ethernet_input, ip_input and udp_input bring the packet to the callback,
    which reads through the null pointer that it takes for the packet.  The pool has room
    for the frame, and no packet waits in the cache of ARP for an address. *)
Theorem datagram_faults patience s e n u h l k f q ub fn m : datagram_ready s e h l k f q ub fn m ->
  ETH_IRQHandler rest patience (World s e n u h) = Fault.
Proof.
  intros Hr. assert (Hbody : reaches (rx_frames_body rest tt) (World s e n u h) (eq Fault)).
  { apply reach_bind, wp_world_eth, wp_drv. apply (wp_GetRxPktSize_some _ _ k); [apply (dr_frame _ _ _ _ _ _ _ _ _ _ Hr)|].
    intros len h' Hn Hm. cbn [fst snd]. replace (set_if_eth (if_eth e) e) with e by by destruct e.
    rewrite (proj2 (Z.eqb_neq _ _)) by done. apply fault_bind, fault_bind.
    by apply (input_faults s e n u h' l k f q ub fn m), (datagram_ready_mem _ _ h). }
  unfold ETH_IRQHandler, loop, mbind, M_bind. rewrite iter_pos_nat. destruct (Pos2Nat.is_succ patience) as [j ->]. cbn [iter_nat].
  unfold mbind, M_bind. unfold reaches in Hbody. by rewrite <- Hbody.
Qed.
End datagrams.

(** The datagram of datagram_stops. *)
Definition stopping : list Z := udp_to REMOTE_TX_PORT DEVICE_RX_PORT [1; 2; 3].
Definition stopping_byte (i : Z) : Z := eth_mem (received stopping) (0x20000100 + i).
Lemma stopping_block :
  for_block quiet_stack the_netif board_netif (fun i => stopping_byte (SIZEOF_ETH_HDR + i)) (head_pbuf 45) (rx_block 0 1).1 (rx_block 0 1).2.
Proof.
  split; [done|by vm_compute| |by vm_compute|by repeat split; vm_compute|done|by vm_compute|].
  - exists [(the_netif, board_netif)]. split; [split; [by repeat split|apply (bool_decide_unpack _); by vm_compute]|by vm_compute].
  - exists (opened 0 1). split; [|split; [by vm_compute|by left]]. split; [by repeat split|apply (bool_decide_unpack _); by vm_compute].
Qed.
#[local] Existing Instance flat_layout.
Lemma datagram_faults_witness (h := received stopping) :
  ETH_IRQHandler nobody 10 (World quiet_stack (EthIf (EthGlobals 0x20000020 0x20000000 0 0) []) enet_init upd_init h) = Fault.
Proof.
  apply (datagram_faults nobody 10 quiet_stack (EthIf (EthGlobals 0x20000020 0x20000000 0 0) []) enet_init upd_init h [(MEM_SIZE_ALIGNED, false)] 45
    board_netif (rx_block 0 1).1 (rx_block 0 1).2 udp_receive_callback_ptr stopping_byte).
  assert (Hcache : idle_cache quiet_stack).
  { split; [done| | |done]; by repeat (apply Forall_cons_2; [by split|]). }
  split; [apply fresh_net_ok|split; [split; [by apply ram_range|done]|by vm_compute|by split; [vm_compute|]|by apply ram_range]|done|done|done|by vm_compute|done| |done].
  apply stopping_block.
Defined.
