(* ===== verification/PcUpdater.v ===== *)
(** The program on the PC: ethupd/eth.cpp and ethupd/main.cpp.  The system calls it
    makes (sockets, files) are the class [HostOs]; what it prints is left out. *)
From S2P Require Import Prelude Mmio Crc.

Definition BUFFLEN : Z := 3.
Definition LOCAL_PORT : Z := 55556.

(** An IPv4 address and a port. *)
Definition sockaddr : Set := Z * Z.

(** * System calls

    They answer what the C functions answer, and what they write to the caller's
    buffers. *)
Class HostOs (O : Type) := {
  os_socket : M O Z;
  os_bind : Z -> Z -> M O Z;
  os_setsockopt : Z -> M O Z;
  (** The address, where the text is one. *)
  os_inet_pton : list Z -> M O (option Z);
  os_open : M O Z;
  os_read : Z -> Z -> M O (Z * list Z);
  os_sendto : Z -> sockaddr -> list Z -> M O Z;
  (** For at most so many bytes; also the sender. *)
  os_recvfrom : Z -> Z -> M O (Z * list Z * option sockaddr)
}.

(** * The program's state *)

(** The object of class [eth].  [past_end] is what lies behind the three bytes of
    recv_buff, at the end of the object: a byte of padding, or nothing. *)
Record eth_obj : Type := EthObj {
  recv_buff : list Z; past_end : option Z; si_remote : sockaddr; local_socket : Z
}.
Definition set_recv (l : list Z) (p : option Z) (e : eth_obj) : eth_obj := EthObj l p (si_remote e) (local_socket e).
Definition set_remote (a : sockaddr) (e : eth_obj) : eth_obj := EthObj (recv_buff e) (past_end e) a (local_socket e).
Definition set_socket (s : Z) (e : eth_obj) : eth_obj := EthObj (recv_buff e) (past_end e) (si_remote e) s.

(** Beside it, the global [buf] of main.cpp. *)
Record pc (O : Type) : Type := Pc { pc_eth : eth_obj; buf : list Z; pc_os : O }.
Arguments Pc {O}. Arguments pc_eth {O}. Arguments buf {O}. Arguments pc_os {O}.

Section pc.
Context {O : Type} `{HostOs O}.
Notation P := (pc O).

Definition os {A} (m : M O A) : M P A := fun s =>
  match m (pc_os s) with
  | Ret a o => Ret a (Pc (pc_eth s) (buf s) o)
  | Fault => Fault
  | Diverge => Diverge
  end.
Definition get_eth {A} (f : eth_obj -> A) : M P A := gets (fun s => f (pc_eth s)).
Definition mod_eth (f : eth_obj -> eth_obj) : M P unit := modify (fun s => Pc (f (pc_eth s)) (buf s) (pc_os s)).
Definition put_buf (l : list Z) : M P unit := modify (fun s => Pc (pc_eth s) l (pc_os s)).

(** * eth.cpp *)

(** [recv_buff[i]] *)
Definition recv_at (i : Z) : M P Z :=
  l ← get_eth recv_buff;
  p ← get_eth past_end;
  if i <? BUFFLEN then index l i
  else if i =? BUFFLEN then match p with Some v => mret v | None => fault end
  else fault.
(** The bytes that a system call writes to recv_buff. *)
Definition recv_fill (data : list Z) : M P unit :=
  l ← get_eth recv_buff;
  p ← get_eth past_end;
  match drop 3 data, p with
  | [], _ => mod_eth (set_recv (splice 0 data l) p)
  | [v], Some _ => mod_eth (set_recv (take 3 data) (Some v))
  | _, _ => fault
  end.

(** recvfrom into recv_buff; the sender becomes the address that is sent to. *)
Definition recv_packet (n : Z) : M P Z :=
  s ← get_eth local_socket;
  '(rec_len, data, from) ← os (os_recvfrom s n);
  _ ← recv_fill data;
  _ ← (match from with Some a => mod_eth (set_remote a) | None => mret tt end);
  mret rec_len.

(** The constructor: [false] where it ends in die. *)
Definition init_receive : M P bool :=
  s ← os os_socket;
  _ ← mod_eth (set_socket s);
  if s =? -1 then mret false
  else r ← os (os_bind s LOCAL_PORT); mret (negb (r =? -1)).
(** [inet_pton] is given the string object itself, not its text. *)
Definition init_send (ip_object : list Z) (remote_port : Z) : M P bool :=
  a ← get_eth si_remote;
  r ← os (os_inet_pton ip_object);
  _ ← mod_eth (set_remote (match r with Some ip => ip | None => fst a end, remote_port));
  s ← get_eth local_socket;
  rv ← os (os_setsockopt s);
  mret (negb (rv <? 0)).
Definition eth_eth (ip_object : list Z) (remote_port : Z) : M P bool :=
  ok ← init_receive;
  if (ok : bool) then init_send ip_object remote_port else mret false.

Definition recv_is (v : Z) : M P bool :=
  b0 ← recv_at 0;
  if negb (b0 =? v) then mret false
  else
    b2 ← recv_at 2;
    if negb (b2 =? v) then mret false
    else b3 ← recv_at 3; mret (b3 =? v).
Definition receive_ack : M P Z :=
  rec_len ← recv_packet BUFFLEN;
  if rec_len =? 3 then
    ack ← recv_is 0xAA;
    if (ack : bool) then mret 0
    else nack ← recv_is 0xBB; mret (if (nack : bool) then 1 else 0)
  else mret 2.

(** Four bytes of the little-endian word are read from the array of three. *)
Definition receive_crc (original_crc : Z) : M P Z :=
  rec_len ← recv_packet 4;
  if negb (rec_len =? 4) then mret 2
  else
    b0 ← recv_at 0; b1 ← recv_at 1; b2 ← recv_at 2; b3 ← recv_at 3;
    let recv_crc := b0 + 2 ^ 8 * b1 + 2 ^ 16 * b2 + 2 ^ 24 * b3 in
    mret (if negb (recv_crc =? original_crc) then 1 else 0).

(** The result of sendto is cut to eight bits. *)
Definition send_data (data : list Z) : M P Z :=
  s ← get_eth local_socket;
  a ← get_eth si_remote;
  ret ← os (os_sendto s a data);
  mret (u8 ret).

(** * main.cpp *)

(** Send the first [count] bytes of buf. *)
Definition send_buf (count : nat) : M P Z :=
  l ← gets buf;
  if (count <=? length l)%nat then send_data (take count l) else fault.
(** A command of three letters, put at the start of buf and sent. *)
Definition send_command (c : list Z) : M P Z :=
  l ← gets buf;
  _ ← put_buf (splice 0 c l);
  send_buf 3.

(** One round of the loop over the image; [false] is the way out with an error. *)
Definition image_body (fd : Z) (_ : unit) : M P (unit + bool) :=
  '(res, data) ← os (os_read fd 512);
  l ← gets buf;
  _ ← put_buf (splice 0 data l);
  ret_val ← send_buf 512;
  _ ← put_buf (repeat 0 512);
  r ← receive_ack;
  if negb (r =? 0) then mret (inr false)
  else if ret_val <? 512 then mret (inr true)
  else mret (inl tt).

(** "upd" and "crc" *)
Definition cmd_upd : list Z := [117; 112; 100].
Definition cmd_crc : list Z := [99; 114; 99].

(** The exit status.  [port] is what atoi makes of the second argument.  The table of
    the checksum is computed, and not used: [crc] keeps its initial value. *)
Definition main (patience : positive) (argc : Z) (ip_object : list Z) (port : Z) : M P Z :=
  let crc := 0xFFFFFFFF in
  if negb (argc =? 4) then mret (-1)
  else
    fd ← os os_open;
    if fd =? -1 then mret (-1)
    else
      ok ← eth_eth ip_object (u16 port);
      if negb ok then mret 1
      else
        _ ← send_command cmd_upd;
        ret_val ← receive_ack;
        if negb (ret_val =? 0) then mret (-1)
        else
          sent ← loop patience (image_body fd) tt;
          if negb sent then mret (-1)
          else
            _ ← send_command cmd_crc;
            r ← receive_crc crc;
            mret (if negb (r =? 0) then -1 else 0).
End pc.
