(* ===== verification/PcUpdaterTheorems.v ===== *)
(** The properties of the program on the PC: what it takes for an acknowledgement,
    and what it sends of an image. *)
From S2P Require Import Prelude Mmio Crc PcUpdater.

(** * The documented behaviour of the system calls *)

(** What a run of the program can see of the world: the datagrams it sent, those
    that will arrive, in order, and the rest of the image file. *)
Record net_view : Type := NetView {
  v_sent : list (sockaddr * list Z);
  v_inbox : list (list Z * sockaddr);
  v_file : list Z
}.
Class HostLaws (O : Type) `{HostOs O} := {
  view : O -> net_view;
  law_socket o : wp os_socket (fun _ o' => view o' = view o) o;
  law_bind s p o : wp (os_bind s p) (fun _ o' => view o' = view o) o;
  law_setsockopt s o : wp (os_setsockopt s) (fun _ o' => view o' = view o) o;
  law_inet_pton t o : wp (os_inet_pton t) (fun _ o' => view o' = view o) o;
  law_open o : wp os_open (fun _ o' => view o' = view o) o;
  (** The next bytes of the file; or an error. *)
  law_read fd n o : 0 <= n -> wp (os_read fd n) (fun '(r, data) o' =>
    r = Z.of_nat (length data) /\ data = take (Z.to_nat n) (v_file (view o)) /\
      view o' = NetView (v_sent (view o)) (v_inbox (view o)) (drop (Z.to_nat n) (v_file (view o))) \/
    r = -1 /\ data = [] /\ view o' = view o) o;
  (** A datagram is sent whole, or not at all. *)
  law_sendto s a data o : wp (os_sendto s a data) (fun r o' =>
    r = Z.of_nat (length data) /\ view o' = NetView (v_sent (view o) ++ [(a, data)]) (v_inbox (view o)) (v_file (view o)) \/
    r = -1 /\ view o' = view o) o;
  (** The next datagram, cut to the size asked for; an error when none arrives in time. *)
  law_recvfrom s n o : 0 <= n -> wp (os_recvfrom s n) (fun '(r, data, from) o' =>
    match v_inbox (view o) with
    | (d, a) :: inbox => r = Z.of_nat (length data) /\ data = take (Z.to_nat n) d /\ from = Some a /\
        view o' = NetView (v_sent (view o)) inbox (v_file (view o))
    | [] => r = -1 /\ data = [] /\ from = None /\ view o' = view o
    end) o
}.

Section pc_spec.
Context {O : Type} `{HostLaws O}.
Notation P := (pc O).

Lemma wp_os {A} (m : M O A) (Q : A -> P -> Prop) e l o (R : A -> O -> Prop) : wp m R o ->
  (forall a o', R a o' -> Q a (Pc e l o')) -> wp (os m) Q (Pc e l o).
Proof. unfold wp, os. cbn [pc_os pc_eth buf]. destruct (m o); [|done..]. auto. Qed.

Lemma wp_send_data data e l o (Q : Z -> P -> Prop) :
  (forall o', view o' = NetView (v_sent (view o) ++ [(si_remote e, data)]) (v_inbox (view o)) (v_file (view o)) ->
     Q (u8 (Z.of_nat (length data))) (Pc e l o')) ->
  (forall o', view o' = view o -> Q 255 (Pc e l o')) -> wp (send_data data) Q (Pc e l o).
Proof.
  intros Hs Hf. apply wp_bind, wp_gets, wp_bind, wp_gets, wp_bind. eapply wp_os; [apply law_sendto|].
  intros r o' [[-> Hv]|[-> Hv]]; apply wp_ret; [by apply Hs|by apply Hf].
Qed.

(** What receive_ack answers to a datagram; [p] is the byte behind the buffer. *)
Definition ack_value (p : Z) (d : list Z) : Z :=
  match take 3 d with
  | [b0; b1; b2] => if (b0 =? 0xBB) && (b2 =? 0xBB) && (p =? 0xBB) then 1 else 0
  | _ => 2
  end.

Lemma wp_recv_is v b0 b1 b2 p a s l o (Q : bool -> P -> Prop) (e := EthObj [b0; b1; b2] (Some p) a s) :
  Q ((b0 =? v) && (b2 =? v) && (p =? v)) (Pc e l o) -> wp (recv_is v) Q (Pc e l o).
Proof.
  intros HQ. unfold recv_is, recv_at. apply wp_bind, wp_bind, wp_gets, wp_bind, wp_gets, (wp_index _ _ b0); [done|done|].
  destruct (b0 =? v); [|by apply wp_ret]. cbn [negb andb] in *.
  apply wp_bind, wp_bind, wp_gets, wp_bind, wp_gets, (wp_index _ _ b2); [done|done|].
  destruct (b2 =? v); [|by apply wp_ret]. cbn [negb andb] in *.
  apply wp_bind, wp_bind, wp_gets, wp_bind, wp_gets, wp_ret. by apply wp_ret.
Qed.

(** What a receive leaves of the program and of the world. *)
Record received (e e' : eth_obj) (o o' : O) : Prop := {
  rcv_len : length (recv_buff e') = 3%nat;
  rcv_sent : v_sent (view o') = v_sent (view o);
  rcv_inbox : v_inbox (view o') = tail (v_inbox (view o));
  rcv_file : v_file (view o') = v_file (view o);
  rcv_remote : si_remote e' = match v_inbox (view o) with (_, a) :: _ => a | [] => si_remote e end
}.

Lemma length_splice (data l : list Z) : (length data <= length l)%nat -> length (splice 0 data l) = length l.
Proof. intros Hl. unfold splice. rewrite take_0. cbn [app]. rewrite length_app, length_drop. lia. Qed.

Lemma wp_recv_packet n e l o (Q : Z -> P -> Prop) : 0 <= n <= 4 -> length (recv_buff e) = 3%nat -> past_end e <> None ->
  (forall e' o', received e e' o o' -> (n <= 3 -> past_end e' = past_end e) -> past_end e' <> None ->
     match v_inbox (view o) with
     | (d, _) :: _ => let data := take (Z.to_nat n) d in
         (length data = 3%nat -> recv_buff e' = data) -> Q (Z.of_nat (length data)) (Pc e' l o')
     | [] => Q (-1) (Pc e' l o')
     end) -> wp (recv_packet n) Q (Pc e l o).
Proof.
  intros Hn Hlen Hpast HQ. destruct e as [rb pe sr sk]. cbn [recv_buff past_end] in *.
  apply wp_bind, wp_gets, wp_bind. eapply wp_os; [apply law_recvfrom; lia|]. intros [[r data] from] o' Hr. cbn beta iota in Hr.
  apply wp_bind. cbn [pc_eth]. change (local_socket (EthObj rb pe sr sk)) with sk in *.
  destruct (v_inbox (view o)) as [|[d a] inbox] eqn:Hin.
  - destruct Hr as (-> & -> & -> & Hv). apply wp_bind, wp_gets, wp_bind, wp_gets. cbn [drop pc_eth recv_buff past_end].
    apply wp_modify, wp_bind, wp_ret, wp_ret. cbn [pc_eth set_recv buf pc_os]. rewrite splice_nil. apply HQ; [|done|done].
    split; rewrite ?Hv, ?Hin; done.
  - destruct Hr as (-> & Hdata & -> & Hv).
    assert (Hk : (length data <= 4)%nat) by (rewrite Hdata, length_take; lia).
    assert (Hk3 : n <= 3 -> (length data <= 3)%nat) by (intros; rewrite Hdata, length_take; lia).
    apply wp_bind, wp_gets, wp_bind, wp_gets. cbn [pc_eth recv_buff past_end].
    assert (Hrest : forall rb' pe', length rb' = 3%nat -> (n <= 3 -> pe' = pe) -> pe' <> None -> (length data = 3%nat -> rb' = data) ->
      wp (_ ← mod_eth (set_remote a); mret (Z.of_nat (length data))) Q (Pc (EthObj rb' pe' sr sk) l o')).
    { intros rb' pe' Hl' Hp Hp' Hb. apply wp_bind, wp_modify, wp_ret. cbn. rewrite Hdata. apply HQ; [|done|done|by rewrite <- Hdata].
      split; rewrite ?Hv, ?Hin; done. }
    destruct (decide (length data <= 3)%nat) as [Hle|Hgt].
    + rewrite (drop_ge data 3) by done. apply wp_modify. cbn [pc_eth set_recv buf pc_os si_remote local_socket].
      apply Hrest; [rewrite length_splice; lia|done|done|]. intros H3. unfold splice. rewrite take_0. cbn [app].
      rewrite drop_ge by lia. apply app_nil_r.
    + destruct data as [|x0 [|x1 [|x2 [|x3 [|? ?]]]]]; cbn [length] in *; try lia. cbn [drop].
      destruct pe as [p|]; [|done]. apply wp_modify. cbn [pc_eth set_recv buf pc_os si_remote local_socket].
      apply Hrest; [done|intros; specialize (Hk3 ltac:(lia)); lia|done|done].
Qed.

Lemma wp_receive_ack e p l o (Q : Z -> P -> Prop) : length (recv_buff e) = 3%nat -> past_end e = Some p ->
  (forall e' o', received e e' o o' -> past_end e' = Some p ->
     Q (match v_inbox (view o) with (d, _) :: _ => ack_value p d | [] => 2 end) (Pc e' l o')) ->
  wp receive_ack Q (Pc e l o).
Proof.
  intros Hlen Hp HQ. apply wp_bind, wp_recv_packet; [done|done|by rewrite Hp|]. intros e' o' Hr Hp' _.
  rewrite Hp in Hp'. specialize (Hp' ltac:(done)). pose proof (rcv_len _ _ _ _ Hr) as Hl'.
  specialize (HQ e' o' Hr Hp'). destruct (v_inbox (view o)) as [|[d a] inbox]; [by apply wp_ret|].
  cbv zeta. intros Hb. unfold ack_value in HQ. change (Z.to_nat BUFFLEN) with 3%nat in *.
  destruct (take 3 d) as [|b0 [|b1 [|b2 [|? ?]]]] eqn:Ed; [by apply wp_ret..| |].
  2: { exfalso. apply (f_equal length) in Ed. rewrite length_take in Ed. cbn [length] in Ed. lia. }
  change (Z.of_nat (length [b0; b1; b2]) =? 3) with true. cbn iota. specialize (Hb eq_refl).
  destruct e' as [rb pe sr sk]. cbn [recv_buff past_end] in *. subst rb pe.
  apply wp_bind, wp_recv_is. destruct ((b0 =? 0xAA) && (b2 =? 0xAA) && (p =? 0xAA)) eqn:E.
  - apply wp_ret. rewrite !andb_true_iff, !Z.eqb_eq in E. by destruct E as [[-> ->] ->].
  - apply wp_bind, wp_recv_is. by apply wp_ret.
Qed.

(** C7. What the program on the PC takes for an acknowledgement.  The test of a
    reply looks at the fourth byte of a buffer of three: where there is a byte
    behind the buffer, with the value [p], every reply of three or more bytes is an
    acknowledgement (0) except one that starts and ends with 0xBB while [p] is 0xBB
    as well, so that the device's refusal is not noticed; shorter replies and
    silence are errors (2).  Where there is none, looking at an acknowledgement or a
    refusal is undefined. *)
Theorem receive_ack_ignores_refusals e l o : length (recv_buff e) = 3%nat ->
  (forall p, past_end e = Some p -> wp receive_ack (fun r s' =>
     r = (match v_inbox (view o) with (d, _) :: _ => ack_value p d | [] => 2 end) /\
     v_sent (view (pc_os s')) = v_sent (view o) /\ past_end (pc_eth s') = Some p) (Pc e l o)) /\
  (past_end e = None -> forall b0 b1 b2 d a inbox, v_inbox (view o) = (b0 :: b1 :: b2 :: d, a) :: inbox ->
     b0 = b2 -> b0 = 0xAA \/ b0 = 0xBB -> receive_ack (Pc e l o) = Fault).
Proof.
  intros Hlen. split.
  - intros p Hp. apply (wp_receive_ack _ p); [done|done|]. intros e' o' Hr Hp'. split; [done|]. split; [apply Hr|done].
  - intros Hp b0 b1 b2 d a inbox Hin <- Hb. pose proof (law_recvfrom (local_socket e) BUFFLEN o ltac:(done)) as Hl.
    rewrite Hin in Hl. apply wp_unfold in Hl as ([[r data] from] & o' & Hrun & -> & Hd & -> & _).
    change (take (Z.to_nat BUFFLEN) (b0 :: b1 :: b0 :: d)) with [b0; b1; b0] in Hd. subst data.
    destruct e as [rb pe sr sk]. cbn [recv_buff past_end local_socket] in *. subst pe.
    destruct rb as [|x [|y [|z [|? ?]]]]; try discriminate.
    unfold receive_ack, recv_packet, os, get_eth, gets, mbind, M_bind. cbn [pc_eth pc_os local_socket]. rewrite Hrun.
    by destruct Hb as [-> | ->].
Qed.

(** ** The whole program *)

(** Packets sent since [o], in order. *)
Definition sends (o o' : O) (pk : list (list Z)) : Prop :=
  exists tr, v_sent (view o') = v_sent (view o) ++ tr /\ tr.*2 = pk.
Lemma sends_none (o o' : O) : v_sent (view o') = v_sent (view o) -> sends o o' [].
Proof. intros Hv. exists []. by rewrite app_nil_r. Qed.
Lemma sends_more o o1 o2 pk1 pk2 : sends o o1 pk1 -> sends o1 o2 pk2 -> sends o o2 (pk1 ++ pk2).
Proof.
  intros (t1 & H1 & <-) (t2 & H2 & <-). exists (t1 ++ t2). by rewrite H2, H1, app_assoc, fmap_app.
Qed.

(** One packet, sent or lost on the way to the network. *)
Lemma wp_send_buf n e l o (Q : Z -> P -> Prop) : (n <= length l)%nat ->
  (forall r o' pk, sends o o' pk -> pk `sublist_of` [take n l] -> v_inbox (view o') = v_inbox (view o) ->
     v_file (view o') = v_file (view o) -> 0 <= r < 256 -> Q r (Pc e l o')) -> wp (send_buf n) Q (Pc e l o).
Proof.
  intros Hn HQ. apply wp_bind, wp_gets. cbn [buf]. rewrite (proj2 (Nat.leb_le _ _)) by done.
  apply wp_send_data; intros o' Hv.
  - apply (HQ _ _ [take n l]); [|done|by rewrite Hv|by rewrite Hv|apply Z.mod_pos_bound; lia].
    exists [(si_remote e, take n l)]. by rewrite Hv.
  - apply (HQ _ _ []); [apply sends_none; by rewrite Hv|apply sublist_nil_l|by rewrite Hv|by rewrite Hv|lia].
Qed.
Lemma wp_send_command c e l o (Q : Z -> P -> Prop) : length c = 3%nat -> (3 <= length l)%nat ->
  (forall r o' pk, sends o o' pk -> pk `sublist_of` [c] -> v_inbox (view o') = v_inbox (view o) ->
     v_file (view o') = v_file (view o) -> Q r (Pc e (splice 0 c l) o')) -> wp (send_command c) Q (Pc e l o).
Proof.
  intros Hc Hl HQ. apply wp_bind, wp_gets, wp_bind, wp_modify. cbn [pc_eth pc_os buf].
  apply wp_send_buf; [rewrite length_splice; lia|]. intros r o' pk Hs Hpk Hi Hf _. apply (HQ r o' pk); [done| |done|done].
  replace [c] with [take 3 (splice 0 c l)]; [done|]. unfold splice. rewrite take_0. cbn [app]. by rewrite <- Hc, take_app_length.
Qed.

Lemma wp_recv_at i x y z v a s l o (Q : Z -> P -> Prop) (e := EthObj [x; y; z] (Some v) a s) : 0 <= i <= 3 ->
  (forall b, Q b (Pc e l o)) -> wp (recv_at i) Q (Pc e l o).
Proof.
  intros Hi HQ. unfold recv_at. apply wp_bind, wp_gets, wp_bind, wp_gets. cbn [pc_eth recv_buff past_end e]. change BUFFLEN with 3.
  destruct (Z.ltb_spec i 3) as [Hlt|Hge].
  - assert (is_Some ([x; y; z] !! Z.to_nat i)) as [b Hb] by (apply lookup_lt_is_Some_2; cbn [length]; lia).
    apply (wp_index _ _ b); [lia|done|apply HQ].
  - rewrite (proj2 (Z.eqb_eq i 3)) by lia. by apply wp_ret.
Qed.
Lemma wp_receive_crc e crc l o (Q : Z -> P -> Prop) : length (recv_buff e) = 3%nat -> past_end e <> None ->
  (forall r e' o', v_sent (view o') = v_sent (view o) -> v_file (view o') = v_file (view o) -> Q r (Pc e' l o')) ->
  wp (receive_crc crc) Q (Pc e l o).
Proof.
  intros Hlen Hp HQ. apply wp_bind, wp_recv_packet; [done|done|done|]. intros e' o' [Hl' Hs _ Hf _] _ Hp'.
  destruct (v_inbox (view o)) as [|[d a] inbox]; [by apply wp_ret, HQ|]. cbv zeta. intros _.
  destruct (_ =? 4); [|by apply wp_ret, HQ]. cbn [negb].
  destruct e' as [rb pe sr sk]. cbn [recv_buff past_end] in *. destruct pe as [v|]; [|done].
  destruct rb as [|x [|y [|z [|? ?]]]]; try discriminate.
  do 4 (apply wp_bind, wp_recv_at; [done|]; intros ?). by apply wp_ret, HQ.
Qed.

(** The constructor sends nothing. *)
Lemma wp_eth_eth ip_object port e l o (Q : bool -> P -> Prop) :
  (forall ok e' o', view o' = view o -> recv_buff e' = recv_buff e -> past_end e' = past_end e -> Q ok (Pc e' l o')) ->
  wp (eth_eth ip_object port) Q (Pc e l o).
Proof.
  intros HQ. apply wp_bind, wp_bind. eapply wp_os; [apply law_socket|]. intros sk o2 Hv2. cbn beta in Hv2. apply wp_bind, wp_modify.
  cbn [pc_eth buf pc_os]. destruct (sk =? -1); [by apply wp_ret, wp_ret, HQ|].
  apply wp_bind. eapply wp_os; [apply law_bind|]. intros r3 o3 Hv3. cbn beta in Hv3. apply wp_ret.
  destruct (r3 =? -1); cbn [negb]; [apply wp_ret, HQ; [congruence|done|done]|].
  apply wp_bind, wp_gets, wp_bind. eapply wp_os; [apply law_inet_pton|]. intros ip o4 Hv4. cbn beta in Hv4.
  apply wp_bind, wp_modify, wp_bind, wp_gets, wp_bind. cbn [pc_eth buf pc_os]. eapply wp_os; [apply law_setsockopt|].
  intros rv o5 Hv5. cbn beta in Hv5. apply wp_ret, HQ; [congruence|done|done].
Qed.

(** The packet that one round of the loop sends. *)
Definition chunk (l data : list Z) : list Z := splice 0 data l.
(** One round: at most one packet, and then the loop ends. *)
Lemma wp_image_body fd e p l o (Q : unit + bool -> P -> Prop) : length l = 512%nat -> length (recv_buff e) = 3%nat -> past_end e = Some p ->
  (forall ok e' o' pk data, sends o o' pk -> data = take 512 (v_file (view o)) \/ data = [] -> pk `sublist_of` [chunk l data] ->
     v_file (view o') = v_file (view o) \/ v_file (view o') = drop 512 (v_file (view o)) ->
     length (recv_buff e') = 3%nat -> past_end e' = Some p -> Q (inr ok) (Pc e' (repeat 0 512) o')) ->
  wp (image_body fd tt) Q (Pc e l o).
Proof.
  intros Hl Hlen Hp HQ. apply wp_bind. eapply wp_os; [by apply law_read|]. intros [r data] o1 Hr. cbn beta iota in Hr.
  assert ((data = take 512 (v_file (view o)) \/ data = []) /\ v_sent (view o1) = v_sent (view o) /\
    (v_file (view o1) = v_file (view o) \/ v_file (view o1) = drop 512 (v_file (view o)))) as (Hdata & Hs1 & Hf1).
  { destruct Hr as [(_ & -> & ->)|(_ & -> & ->)]; [by split; [left|split; [|right]]|by split; [right|split; [|left]]]. }
  apply wp_bind, wp_gets, wp_bind, wp_modify. cbn [pc_eth buf pc_os]. fold (chunk l data).
  assert (Hlc : length (chunk l data) = 512%nat).
  { assert (length data <= 512)%nat by (destruct Hdata as [-> | ->]; [rewrite length_take|cbn]; lia). unfold chunk. rewrite length_splice; lia. }
  apply wp_bind, wp_send_buf; [by rewrite Hlc|]. rewrite take_ge by (rewrite Hlc; done).
  intros ret o2 pk Hs2 Hpk Hi2 Hf2 Hret. apply wp_bind, wp_modify. cbn [pc_eth buf pc_os].
  apply wp_bind, (wp_receive_ack _ p); [done|done|]. intros e3 o3 Hr3 Hp3.
  assert (Hdone : forall ok, Q (inr ok) (Pc e3 (repeat 0 512) o3)).
  { intros ok. apply (HQ _ _ _ pk data); [|done|done| |apply Hr3|done].
    - destruct Hs2 as (tr & Ht & ?). exists tr. by rewrite (rcv_sent _ _ _ _ Hr3), Ht, Hs1.
    - by rewrite (rcv_file _ _ _ _ Hr3), Hf2. }
  destruct (_ =? 0); cbn [negb]; [|by apply wp_ret]. rewrite (proj2 (Z.ltb_lt _ _)) by lia. by apply wp_ret.
Qed.

(** At most three packets were sent since [o]. *)
Definition one_chunk (o : O) (s' : P) : Prop := exists pk data, sends o (pc_os s') pk /\
  (data = take 512 (v_file (view o)) \/ data = []) /\
  pk `sublist_of` [cmd_upd; chunk (splice 0 cmd_upd (repeat 0 512)) data; cmd_crc] /\
  (v_file (view (pc_os s')) = v_file (view o) \/ v_file (view (pc_os s')) = drop 512 (v_file (view o))).

(** What the program on the PC sends of an image: whatever the sockets and the
    device do, it ends, and it sent at most the request "upd", one packet of 512
    bytes and the command "crc", in this order.  send_data gives the number of bytes
    back in eight bits, so the loop takes every packet for the last one: of a longer
    image all but the first 512 bytes is not even read.  The packet is filled up
    from the buffer: with zeros, or with the request when the file cannot be read. *)
Theorem pc_sends_one_chunk patience argc ip_object port e p o :
  length (recv_buff e) = 3%nat -> past_end e = Some p ->
  wp (main patience argc ip_object port) (fun _ s' => one_chunk o s') (Pc e (repeat 0 512) o).
Proof.
  intros Hlen Hp. unfold main. set (Q := fun (_ : Z) s' => one_chunk o s').
  assert (Hstop : forall r e' l' o' pk, sends o o' pk -> pk `sublist_of` [cmd_upd] -> v_file (view o') = v_file (view o) -> Q r (Pc e' l' o')).
  { intros r e' l' o' pk Hs Hpk Hf. exists pk, []. split; [done|]. split; [by right|]. split; [|by left].
    etransitivity; [exact Hpk|]. apply sublist_skip, sublist_nil_l. }
  assert (Hnone : forall r e' l' o', view o' = view o -> Q r (Pc e' l' o')).
  { intros r e' l' o' Hv. apply (Hstop _ _ _ _ []); [apply sends_none; by rewrite Hv|apply sublist_nil_l|by rewrite Hv]. }
  destruct (argc =? 4); [|by apply wp_ret, Hnone]. cbn [negb].
  apply wp_bind. eapply wp_os; [apply law_open|]. intros fd o1 Hv1. cbn beta in Hv1. destruct (fd =? -1); [by apply wp_ret, Hnone|].
  apply wp_bind, wp_eth_eth. intros ok e2 o2 Hv2 Hb2 Hp2. rewrite Hv1 in Hv2. destruct ok; [|by apply wp_ret, Hnone]. cbn [negb].
  apply wp_bind, wp_send_command; [done|by rewrite repeat_length; lia|]. intros r3 o3 pk3 Hs3 Hpk3 _ Hf3.
  apply wp_bind, (wp_receive_ack _ p); [by rewrite Hb2|by rewrite Hp2|]. intros e4 o4 Hr4 Hp4.
  assert (Hs4 : sends o o4 pk3) by (destruct Hs3 as (tr & ? & ?); exists tr; by rewrite (rcv_sent _ _ _ _ Hr4), <- Hv2).
  assert (Hf4 : v_file (view o4) = v_file (view o)) by (by rewrite (rcv_file _ _ _ _ Hr4), Hf3, Hv2).
  destruct (_ =? 0); [|apply wp_ret; by apply (Hstop _ _ _ _ pk3)]. cbn [negb].
  apply wp_bind, (wp_loop_nat 1); [lia|]. apply wp_iter_S.
  apply (wp_image_body _ _ p); [by rewrite length_splice; rewrite repeat_length; cbn; lia|apply Hr4|done|].
  intros sent e5 o5 pk5 data Hs5 Hdata Hpk5 Hf5 Hl5 Hp5. rewrite Hf4 in Hdata, Hf5.
  assert (Hend : forall r e' l' o' pk6, sends o5 o' pk6 -> pk6 `sublist_of` [cmd_crc] -> v_file (view o') = v_file (view o5) -> Q r (Pc e' l' o')).
  { intros r e' l' o' pk6 Hs6 Hpk6 Hf6. exists (pk3 ++ pk5 ++ pk6), data. split; [by eapply sends_more; [|eapply sends_more]|]. split; [done|].
    split; [by apply (sublist_app _ [cmd_upd] _ [_; _]); [|apply (sublist_app _ [_] _ [_])]|]. cbn [pc_os]. by rewrite Hf6. }
  destruct sent; cbn [negb]; [|apply wp_ret; by apply (Hend _ _ _ _ []); [apply sends_none|apply sublist_nil_l|]].
  apply wp_bind, wp_send_command; [done|by rewrite repeat_length; lia|]. intros r6 o6 pk6 Hs6 Hpk6 _ Hf6.
  apply wp_bind, wp_receive_crc; [done|by rewrite Hp5|]. intros r7 e7 o7 Hs7 Hf7. apply wp_ret.
  apply (Hend _ _ _ _ pk6); [|done|congruence]. destruct Hs6 as (tr & Ht & ?). exists tr. by rewrite Hs7.
Qed.
End pc_spec.

(** * A host where nothing is lost *)
#[global] Instance demo_host : HostOs net_view := {|
  os_socket := mret 3;
  os_bind := fun _ _ => mret 0;
  os_setsockopt := fun _ => mret 0;
  os_inet_pton := fun _ => mret None;
  os_open := mret 4;
  os_read := fun _ n v => Ret (Z.of_nat (length (take (Z.to_nat n) (v_file v))), take (Z.to_nat n) (v_file v))
                            (NetView (v_sent v) (v_inbox v) (drop (Z.to_nat n) (v_file v)));
  os_sendto := fun _ a data v => Ret (Z.of_nat (length data)) (NetView (v_sent v ++ [(a, data)]) (v_inbox v) (v_file v));
  os_recvfrom := fun _ n v => match v_inbox v with
    | (d, a) :: inbox => Ret (Z.of_nat (length (take (Z.to_nat n) d)), take (Z.to_nat n) d, Some a) (NetView (v_sent v) inbox (v_file v))
    | [] => Ret (-1, [], None) v
    end
|}.
#[global] Program Instance demo_host_laws : HostLaws net_view := {| view := id |}.
Solve Obligations with done.
Next Obligation. intros fd n o Hn. left. by split. Qed.
Next Obligation. intros s a data o. left. by split. Qed.
Next Obligation. intros s n [v [|[d a] inbox] f] Hn; by repeat split. Qed.

(** An image of 2000 bytes, and a device that acknowledges everything; a device that
    refuses the request. *)
Definition demo_object : eth_obj := EthObj [0; 0; 0] (Some 0) (0, 0) 0.
Definition device : sockaddr := (0x0301A8C0, 55555).
Definition demo_net_view (reply : list Z) : net_view :=
  NetView [] (repeat (reply, device) 3) (repeat 7 2000).

Lemma receive_ack_ignores_refusals_witness (o : net_view := demo_net_view [0xBB; 0xBB; 0xBB]) :
  length (recv_buff demo_object) = 3%nat /\
  (forall p, past_end demo_object = Some p -> wp receive_ack (fun r s' =>
     r = (match v_inbox (view o) with (d, _) :: _ => ack_value p d | [] => 2 end) /\
     v_sent (view (pc_os s')) = v_sent (view o) /\ past_end (pc_eth s') = Some p) (Pc demo_object [] o)) /\
  (past_end demo_object = None -> forall b0 b1 b2 d a inbox, v_inbox (view o) = (b0 :: b1 :: b2 :: d, a) :: inbox ->
     b0 = b2 -> b0 = 0xAA \/ b0 = 0xBB -> receive_ack (Pc demo_object [] o) = Fault).
Proof. split; [reflexivity|]. apply (receive_ack_ignores_refusals demo_object [] o). reflexivity. Defined.

Lemma pc_sends_one_chunk_witness (o : net_view := demo_net_view [0xAA; 0xAA; 0xAA]) :
  wp (main 10 4 [] 55555) (fun _ s' => one_chunk o s') (Pc demo_object (repeat 0 512) o).
Proof. apply (pc_sends_one_chunk 10 4 [] 55555 demo_object 0 o); reflexivity. Defined.

(** With the refusing device everything goes on; the checksum is not right. *)
Example refused_update :
  match main 10 4 [] 55555 (Pc demo_object (repeat 0 512) (demo_net_view [0xBB; 0xBB; 0xBB])) with
  | Ret r s' => (r, (v_sent (pc_os s')).*2, length (v_file (pc_os s'))) = (-1, [cmd_upd; repeat 7 512; cmd_crc], 1488%nat)
  | _ => False
  end.
Proof. vm_compute. reflexivity. Qed.
