(* ===== verification/UpdateComposition.v ===== *)
(** The three programs together: what becomes of an image that the program on the
    PC sends to the updater, at the next run of the boot loader. *)
From S2P Require Import Prelude Mmio Fpec FlashDriver FlashSpec MemFacts Misc Rcc Gpio Crc.
From S2P Require Import ClockTree Board Bootloader BootloaderSpec BootTheorems CrcSpec.
From S2P Require Import Updater UpdaterSpec UpdaterTheorems PcUpdater PcUpdaterTheorems.

(** * The device

    What the protocol handlers of the updater make of the packets that arrive, each
    handed to the one that [g_upd] selects; after a reset there is nothing more. *)
Section device.
Context {H : Type} `{Bus H}.
Definition take_packet (l : list Z) : M (upd * H) (option Z) :=
  g ← getg g_upd;
  if negb (g =? 0) then handle_upd_packet l (len l)
  else r ← check_upd_request l (len l); mret (Some r).
Fixpoint take_all (ps : list (list Z)) : M (upd * H) unit :=
  match ps with
  | [] => mret tt
  | p :: ps =>
      r ← take_packet p;
      match r with Some _ => take_all ps | None => mret tt end
  end.
End device.

(** The packet with the start of the image. *)
Definition image_packet (data : list Z) : list Z :=
  PcUpdaterTheorems.chunk (splice 0 cmd_upd (repeat 0 512)) data.

Lemma splice_bytes data l : byte_list data -> byte_list l -> byte_list (splice 0 data l).
Proof.
  unfold byte_list, splice. intros Hd Hl. rewrite take_0. cbn [app]. apply Forall_app_2; [done|]. by apply Forall_drop.
Qed.
Lemma repeat_bytes v n : 0 <= v < 2 ^ 8 -> byte_list (repeat v n).
Proof. intros Hv. induction n as [|n IH]; [constructor|]. by constructor. Qed.
Lemma image_packet_ok data : byte_list data -> (length data <= 512)%nat ->
  byte_list (image_packet data) /\ len (image_packet data) = 512.
Proof.
  intros Hf Hd. assert (Hlen : length (image_packet data) = 512%nat).
  { unfold image_packet, PcUpdaterTheorems.chunk.
    rewrite !length_splice; rewrite ?length_splice; rewrite ?repeat_length; cbn [length cmd_upd]; lia. }
  split; [|unfold len; lia]. apply splice_bytes; [done|]. apply splice_bytes; [by repeat constructor|by apply repeat_bytes].
Qed.

(** * Packets without a header *)
Section taking.
Context {H : Type} `{FpecBus H} `{!CrcBus H}.
Variable h0 : H.
Hypothesis Hreset : at_reset (fpec_of h0).
Notation f := (with_key KUnlocked (fpec_of h0)).
Hypothesis Hblank : staging_blank f 516.
Notation US := (upd * H)%type.
Notation IMAGE := (NEW_CORE_START_ADDRESS + HEADER_SIZE).

(** Before the request; after it, with the bytes [body] staged; at the end. *)
Definition idle (s : US) : Prop := fst s = upd_init /\ fpec_of (snd s) = fpec_of h0.
Definition listening (body : list Z) (s : US) : Prop :=
  fst s = set_progress (IMAGE + len body) (HEADER_SIZE + len body) (set_g_upd 1 upd_init) /\
  stored f IMAGE body (fpec_of (snd s)).
Definition unharmed (s : US) : Prop :=
  reset_requested (fst s) = false /\ forall x, x < IMAGE -> fp_mem (fpec_of (snd s)) x = fp_mem (fpec_of h0) x.

Lemma idle_unharmed s : idle s -> unharmed s.
Proof. intros [Hg Hh]. split; [by rewrite Hg|]. intros x _. by rewrite Hh. Qed.
Lemma listening_unharmed body s : listening body s -> unharmed s.
Proof. intros [Hg (_ & _ & Hm)]. split; [by rewrite Hg|]. intros x Hx. rewrite Hm. apply write_bytes_out. lia. Qed.

Lemma idle_listens s : idle s -> wp (take_packet cmd_upd) (fun r s' => is_Some r /\ listening [] s') s.
Proof.
  destruct s as [g h]. intros [Hg Hh]. cbn [fst snd] in *. subst g. apply wp_bind, wp_getg. cbn [g_upd upd_init Z.eqb negb fst].
  apply wp_bind, (wp_check_upd_request _ _ _ _ _ _ Hh); [done|apply Hreset|apply Hreset|]. intros h'.
  change (starts cmd_upd 0x75 0x70 0x64 && (len cmd_upd =? 3)) with true. cbn iota. intros Hh'. apply wp_ret.
  split; [done|]. split; [done|]. cbn [snd]. rewrite Hh'. split; [apply Hblank|]. split; [done|]. intros x. by rewrite write_bytes_nil.
Qed.
Lemma idle_ignores l s : 3 <= len l -> starts l 0x75 0x70 0x64 && (len l =? 3) = false -> idle s ->
  wp (take_packet l) (fun r s' => is_Some r /\ idle s') s.
Proof.
  destruct s as [g h]. intros Hl Hn [Hg Hh]. cbn [fst snd] in *. subst g. apply wp_bind, wp_getg. cbn [g_upd upd_init Z.eqb negb fst].
  apply wp_bind, (wp_check_upd_request _ _ _ _ _ _ Hh); [done|apply Hreset|apply Hreset|]. intros h'.
  rewrite Hn. intros Hh'. by apply wp_ret.
Qed.
Lemma listening_image l s : byte_list l -> len l = 512 -> listening [] s ->
  wp (take_packet l) (fun r s' => is_Some r /\ listening l s') s.
Proof.
  destruct s as [g h]. intros Hl Hlen [Hg (Hgd & Hw & Hm)]. cbn [fst snd] in *. subst g.
  apply wp_bind, wp_getg. cbn [g_upd set_progress set_g_upd Z.eqb negb fst]. rewrite Hlen.
  change (len ([] : list Z)) with 0. destruct Hblank as [_ Hev Hlo Hhi Hfree Her]. unfold HEADER_SIZE in *.
  apply (wp_handle_chunk _ _ _ _ _ _ eq_refl Hl); [done..|by rewrite Hlen| |].
  - change (up4 512) with 512. split; [done|done|done|done| |]; intros x Hx; cbn [addr set_progress] in Hx.
    + rewrite Hw. apply Hfree. lia.
    + rewrite Hm, write_bytes_nil. apply Her. lia.
  - intros h' (Hg' & Hw' & Hm'). split; [done|]. split; [unfold listening; rewrite Hlen; done|]. cbn [snd].
    split; [done|]. split; [congruence|]. intros x. rewrite Hm'. change (Z.to_nat (up4 512)) with 512%nat.
    rewrite take_ge by (unfold len in Hlen; lia). apply write_bytes_ext. by rewrite Hm, write_bytes_nil.
Qed.
Lemma listening_crc body s : len body = 0 \/ len body = 512 -> listening body s ->
  wp (take_packet cmd_crc) (fun r s' => is_Some r /\ unharmed s') s.
Proof.
  destruct s as [g h]. intros Hlen [Hg (Hgd & Hw & Hm)]. cbn [fst snd] in *. subst g.
  apply wp_bind, wp_getg. cbn [g_upd set_progress set_g_upd Z.eqb negb fst].
  destruct Hblank as [_ Hev Hlo Hhi Hfree Her]. unfold HEADER_SIZE, NEW_CORE_START_ADDRESS in *.
  apply (wp_handle_crc _ _ _ _ _ (Z.to_nat (16 + len body)) eq_refl);
    cbn [total_core_size set_progress]; unfold NEW_CORE_START_ADDRESS; [done|done|lia|unfold flash_end; lia| |].
  - split; [done| |unfold flash_first; lia|unfold flash_end; lia| |]; [by destruct Hlen as [-> | ->]|intros x Hx..].
    + rewrite Hw. apply Hfree. lia.
    + rewrite Hm, write_bytes_out by lia. apply Her. lia.
  - cbv zeta. intros h' _ _ Hm' _. split; [done|]. split; [done|]. intros x Hx. cbn [fst snd].
    rewrite Hm'. unfold set32, NEW_CORE_START_ADDRESS, HEADER_SIZE in *. rewrite (proj2 (Z.leb_gt _ _)) by lia. cbn [andb].
    rewrite Hm. apply write_bytes_out. lia.
Qed.

Lemma wp_take_step {P Q : US -> Prop} p ps s : wp (take_packet p) (fun r s' => is_Some r /\ P s') s ->
  (forall s', P s' -> wp (take_all ps) (fun _ => Q) s') -> wp (take_all (p :: ps)) (fun _ => Q) s.
Proof. intros Hp Hps. apply wp_bind. eapply wp_mono; [exact Hp|]. intros r s' [[v ->] HP]. by apply Hps. Qed.
Lemma sublist_cases (a : list Z) l ps : ps `sublist_of` a :: l -> ps `sublist_of` l \/ exists ps', ps = a :: ps' /\ ps' `sublist_of` l.
Proof. intros Hs. apply sublist_cons_r in Hs as [Hs|(ps' & -> & Hs)]; [by left|right; by exists ps']. Qed.

Lemma listening_end body ps s : len body = 0 \/ len body = 512 -> ps `sublist_of` [cmd_crc] -> listening body s ->
  wp (take_all ps) (fun _ => unharmed) s.
Proof.
  intros Hb Hps Hs. apply sublist_cases in Hps as [->%sublist_nil_r|(? & -> & ->%sublist_nil_r)].
  - apply wp_ret. by eapply listening_unharmed.
  - eapply wp_take_step; [by apply (listening_crc body)|]. intros s' Hs'. by apply wp_ret.
Qed.

(** Whatever of the request, a packet of the image and "crc" arrives, the place of
    the header and all before it stay as they were. *)
Lemma headerless_unharmed data ps s : byte_list data -> (length data <= 512)%nat ->
  ps `sublist_of` [cmd_upd; image_packet data; cmd_crc] -> idle s -> wp (take_all ps) (fun _ => unharmed) s.
Proof.
  intros Hd Hn Hps Hs. destruct (image_packet_ok data Hd Hn) as [Hb Hlen].
  assert (Hcrc : forall ps s, ps `sublist_of` [cmd_crc] -> idle s -> wp (take_all ps) (fun _ => unharmed) s).
  { intros qs t Hqs Ht. apply sublist_cases in Hqs as [->%sublist_nil_r|(? & -> & ->%sublist_nil_r)].
    - by apply wp_ret, idle_unharmed.
    - eapply wp_take_step; [by apply (idle_ignores cmd_crc)|]. intros s' Hs'. by apply wp_ret, idle_unharmed. }
  apply sublist_cases in Hps as [Hps|(qs & -> & Hps)]; apply sublist_cases in Hps as [Hps|(rs & -> & Hps)].
  - by apply Hcrc.
  - eapply wp_take_step; [apply idle_ignores; [by rewrite Hlen|by rewrite Hlen, andb_false_r|done]|]. intros s' Hs'. by apply Hcrc.
  - eapply wp_take_step; [by apply idle_listens|]. intros s' Hs'. by apply (listening_end []); [left|..].
  - eapply wp_take_step; [by apply idle_listens|]. intros s1 Hs1.
    eapply wp_take_step; [by apply listening_image|]. intros s2 Hs2. by eapply listening_end; [right; exact Hlen|..].
Qed.

Lemma unharmed_boots s : unharmed s ->
  erased (fp_mem (fpec_of (snd s))) NEW_CORE_START_ADDRESS HEADER_SIZE /\
  forall h2 : H, at_reset (fpec_of h2) -> (forall x, fp_mem (fpec_of h2) x = fp_mem (fpec_of (snd s)) x) ->
    wp (Bootloader.main 0) (fun r '(_, h') => r = JumpTo (app_pc (fp_mem (fpec_of h0))) /\ fpec_of h' = fpec_of h2) (boot_init, h2).
Proof.
  intros [_ Hm]. destruct Hblank as [_ _ _ _ _ Her]. change (fp_mem f) with (fp_mem (fpec_of h0)) in Her.
  assert (Hh : erased (fp_mem (fpec_of (snd s))) NEW_CORE_START_ADDRESS HEADER_SIZE).
  { intros x Hx. rewrite Hm by lia. apply Her. lia. }
  split; [done|]. intros h2 Hr2 Hm2. apply wp_main_no_image; [done|done|done| |].
  - cbn [Z.eqb andb]. unfold has_header. change NEW_CORE_FLASH_ADDR with NEW_CORE_START_ADDRESS.
    rewrite Hm2. by rewrite Hh by (unfold HEADER_SIZE; lia).
  - intros g' h' _ Hh'. split; [|done]. f_equal. unfold app_pc. apply le32_ext. intros k Hk. rewrite Hm2. apply Hm.
    unfold CURRENT_CORE_FLASH_ADDR, NEW_CORE_START_ADDRESS, HEADER_SIZE. lia.
Qed.
End taking.

(** C6. An update with the program on the PC installs nothing.  Take a run of its
    main, whatever its arguments, the sockets and the device do, with an image file of
    bytes; and a device after a reset whose staging area is erased where a header, 512
    bytes and a checksum would be.  Whatever part of the packets that the run sent
    arrives (some may be lost), and is handed to the protocol handlers of the updater:
    they do not reset the chip, the place of the header stays erased, and the next run
    of the boot loader finds no image, changes nothing, and starts the application
    that was there before.  This supposes a byte behind the program's receive buffer
    of three; without one its test of a reply is undefined. *)
Theorem pc_update_installs_nothing {O H : Type} `{HostLaws O} `{FpecBus H} `{!CrcBus H}
    (patience : positive) (argc : Z) (ip_object : list Z) (port : Z) (e : eth_obj) (p : Z) (o : O) (h : H) :
  length (recv_buff e) = 3%nat -> past_end e = Some p -> byte_list (v_file (view o)) ->
  at_reset (fpec_of h) -> staging_blank (with_key KUnlocked (fpec_of h)) 516 ->
  wp (PcUpdater.main patience argc ip_object port) (fun _ s' => exists tr,
     v_sent (view (pc_os s')) = v_sent (view o) ++ tr /\
     forall ps, ps `sublist_of` tr.*2 ->
     wp (take_all ps) (fun _ s => reset_requested (fst s) = false /\
       erased (fp_mem (fpec_of (snd s))) NEW_CORE_START_ADDRESS HEADER_SIZE /\
       forall h2 : H, at_reset (fpec_of h2) -> (forall x, fp_mem (fpec_of h2) x = fp_mem (fpec_of (snd s)) x) ->
         wp (Bootloader.main 0) (fun r '(_, h') =>
           r = JumpTo (app_pc (fp_mem (fpec_of h))) /\ fpec_of h' = fpec_of h2) (boot_init, h2)) (upd_init, h))
     (Pc e (repeat 0 512) o).
Proof.
  intros Hlen Hp Hfile Hr Hbl. eapply wp_mono; [by apply (pc_sends_one_chunk _ _ _ _ _ p)|].
  intros _ s' (pk & data & (tr & Hs & <-) & Hdata & Hpk & _). exists tr. split; [done|]. intros ps Hps.
  eapply wp_mono; [apply (headerless_unharmed h Hr Hbl data)|].
  - destruct Hdata as [-> | ->]; [by apply Forall_take|constructor].
  - destruct Hdata as [-> | ->]; [rewrite length_take; lia|cbn; lia].
  - by etransitivity.
  - done.
  - intros u s Hu. cbn beta in Hu. split; [apply Hu|]. by apply unharmed_boots.
Qed.

Lemma pc_update_installs_nothing_witness (o : net_view := demo_net_view [0xAA; 0xAA; 0xAA]) :
  length (recv_buff demo_object) = 3%nat /\
  wp (PcUpdater.main 10 4 [] 55555) (fun _ s' => exists tr,
     v_sent (view (pc_os s')) = v_sent (view o) ++ tr /\
     forall ps, ps `sublist_of` tr.*2 ->
     wp (take_all ps) (fun _ s => reset_requested (fst s) = false /\
       erased (fp_mem (fpec_of (snd s))) NEW_CORE_START_ADDRESS HEADER_SIZE /\
       forall h2 : board, at_reset (fpec_of h2) -> (forall x, fp_mem (fpec_of h2) x = fp_mem (fpec_of (snd s)) x) ->
         wp (Bootloader.main 0) (fun r '(_, h') =>
           r = JumpTo (app_pc (fp_mem (fpec_of blank_board))) /\ fpec_of h' = fpec_of h2) (boot_init, h2)) (upd_init, blank_board))
     (Pc demo_object (repeat 0 512) o).
Proof.
  split; [reflexivity|]. apply (pc_update_installs_nothing 10 4 [] 55555 demo_object 0 o blank_board);
    [reflexivity|reflexivity|by apply (repeat_bytes 7 2000)|apply at_reset_fpec|by apply no_image_blank].
Defined.
